(* ===== verification/_CoqProject ===== *)
-Q . S2P
Prelude.v
CString.v
Protocol.v
MyBuff.v
Codec.v
Para.v
MD5.v
LinkedList.v
Atomic.v
TaskData.v
TaskQueue.v
Timer.v
Domain.v
MyConfig.v
Storage.v
Records.v
LocalFile.v
EventLoop.v
SigStream.v
Wire.v
Transfer.v
NameServer.v
Upload.v
Client.v
Data.v
StorageSig.v
SyncDir.v
PossMaster.v
Maintain.v
Agent.v
Acl.v
UrlPath.v
LogFile.v
Process.v
Startup.v
PhpClient.v
ImgTool.v
