(* ===== verification/Prelude.v ===== *)
(** * A verification development of 56pfs

    56pfs stores photos: a name server knows which storage servers are on
    line and sends clients to one of them; a storage server takes uploads,
    checks and publishes them, and synchronises them with the other servers
    of its domain.  Every server is one process with a few threads; each
    network thread owns a table of connections, waits on epoll and calls a
    plug-in (network/N, U, D, S, POSS) through the function table of
    network/solib.h.  The services share the task queues, the timers, the
    domain table, the disk table and the file routines.

    ** The files, and what they model

    - [Prelude]: machine integers (a w-bit integer is a [Z] with its
      wrap-around written out), byte strings as lists of [Z], byte order,
      [memcpy], the automation ([b2p], [zdm], the rewrite database [word]).
    - [CString]: the C library's functions on strings that the sources call
      (str*, is*, snprintf, atoi, strtoul), on byte lists without the
      terminating zero.
    - [Protocol]: lib/protocol.c (Module [Sig]) and lib/pro_poss.c ([Poss]).
    - [MyBuff]: lib/mybuff.c, the send and receive buffers with their
      attached file.
    - [Codec]: lib/common.c, util_hex.c, util_ip.c, util.h, part of
      util_misc.c: base64, hexadecimal, addresses, decimals, times.
    - [Para]: network/parsepara.c, escaping and name=value lists, binary
      values and the reader of a file of pairs (Module [Binary]).
    - [MD5]: lib/md5.c and the file digest of lib/util_misc.c (Module
      [Md5]), and RFC 1321 and 2104 written independently ([Rfc1321]).
    - [LinkedList]: lib/list.h, the intrusive rings, as operations on a heap
      of next and prev pointers.
    - [TaskData], [TaskQueue]: lib/pfs_task.h and network/pfs_task.c, the
      task records and the queues, on the rings of [LinkedList].
    - [Timer]: network/pfs_timer.c.
    - [Domain]: the address table, domains and groups of network/pfs_init.c.
    - [Storage]: the disk table and the choice of directories (Module
      [Disk]), the directories of a path ([Path]) and the numeric settings
      ([Config]) of network/pfs_init.c.
    - [Records]: pfs_del_file.c ([DelFile]), pfs_time_stamp.c ([TimeStamp])
      and pfs_file_filter.c ([FileFilter]) of network/.
    - [LocalFile]: Module [Fs] is a file system (directory entries, inodes,
      descriptors) with the calls the sources use; Module [LocalFile] is
      network/pfs_localfile.c over it.
    - [EventLoop]: network/pfs_so.c, fdinfo.c and lib/myepoll.c: the
      connection table and the client-data calls (Module [Conn]), accept,
      receive, send and process ([Loop]).  The class [Service] is the plug-in
      interface; the class [ServiceSafe] is what a plug-in promises the loop,
      against which the loop's invariant is proved.
    - [SigStream]: the request loop of a signalling connection, generic in
      the handler.
    - [NameServer]: network/N; it is an instance of [Service] and of
      [ServiceSafe].
    - [Wire], [Transfer]: the task record on the wire, and what the upload and
      the data service share: the request loop, the receiving of a file and
      its end.
    - [Upload]: network/U, the upload service.
    - [Client]: lib/pfs_api.c, the client library, over a script of the
      results of its system calls.
    - [Data]: network/D, the service that sends files to the other servers
      of the domain and fetches files from them.
    - [StorageSig], [SyncDir]: network/S, the signalling between storage
      servers: announcements, delayed announcements, heartbeats
      ([StorageSig]), the synchronisation of directories and deletions (the
      definitions in [StorageSig], their theorems in [SyncDir]).
    - [MyConfig]: lib/myconfig.c, the configuration store and its readers.
    - [PossMaster]: network/POSS, the master of the maintenance link.
    - [Maintain]: network/pfs_maintain.c, the commands a server takes from
      the master.
    - [Agent]: network/pfs_agent.c, the thread of a server that talks to the
      master: it reports the finished tasks and carries out the commands.
    - [Acl], [UrlPath]: lib/acl.c, strings, wildcard patterns (Module [Acl]),
      paths, URLs and referers ([Url]), and lib/util_str.c ([Fields]); helpers
      no service calls.
    - [LogFile]: lib/log.c, the log files and their rotation, on the files of
      [Fs].
    - [Process]: network/thread.c (Module [Thread]), the watchdog's check of
      network/watchdog.c ([Watchdog]), signals and restart of
      network/daemon.c ([Daemon]).
    - [Startup]: network/main.c and what it calls until the threads run: the
      settings and directories, the tables, the threads of each role, the
      svc_init functions of the services (Module [Main]).  It puts together
      [MyConfig], [Domain], [Storage], [Records], [Timer], [LogFile] and
      [Process].
    - [Atomic]: network/atomic.h, the counters and what threads that share one
      do to it.
    - [PhpClient]: php_client/pfs_client.c, the extension of PHP over [Client].
    - [ImgTool]: api/hasht.c (Module [HashT]) and api/imgtool.c ([ImgTool]), the
      counting of the pictures of an access log and their upload over [Client].

    ** Conventions

    Definitions keep the names of the sources.  State is passed explicitly: a
    record per component, [host U] being the state of a network thread whose
    plug-in has state [U].  A result code is a [Z] with the source's value.
    [None] means undefined behaviour (a store past an array, a dangling
    pointer) or, in [Loop], that the list of socket results ended; no theorem
    says only what happens if a function returns.  What the kernel or a
    library outside src/ decides is an argument or a field of a class: the
    results of recv, send and accept, the errors of file-system calls
    ([Kernel]), the outcome of locks and allocations, the time, the name
    service and the configuration values.  Where a theorem needs one of them
    to behave (a write that stores all its bytes, a lock that is free) the
    hypothesis is in its statement and holds in its witness.

    Loops over a list recurse on it.  The other loops carry fuel, one unit
    per byte or record still to read, which each iteration uses up at least
    one of: the request loops of [SigStream] and [Upload] ([stream_split] and
    [req_loop_messages] show it is enough, a message having four bytes or
    more), the comma and bar loops of [Domain] and [Records], the block loops
    of [MD5] and the read loop of [LocalFile] (in blocks), and decimal
    printing (in digits).  The walk over a pointer ring takes as fuel a number
    of nodes no shorter than the ring, which the theorems ask for.

    ** What the theorems show

    - Uploads: whatever pieces TCP delivers, an upload with the right digest
      is published byte for byte and answered ([upload_publishes]); with a
      wrong one nothing is published ([upload_bad_digest]); publication only
      follows verification ([publish_only_verified]); names stay inside the
      data directory and are never reused ([storage_name_confined],
      [upload_names_unique]).
    - Connections: the table, the epoll set and the name server's lists agree
      in every reachable state ([connections_consistent]), through whole rounds
      of epoll ([rounds_consistent]); output leaves once
      and in order, input reaches the service complete ([output_in_order],
      [input_in_order]); requests are handled once each, in order
      ([requests_in_order]).
    - The client: a whole call of the library against the name server's answer
      and the upload service ends with the file published on the storage
      server ([upload_end_to_end]).
    - Replication: an announcement reaches every server of the domain, at once
      or when it comes back ([announcement_reaches_domain]); the announced file
      is queued there ([announced_file_queued]), fetched byte for byte
      ([file_replicated]), and queued again when the connection is lost
      ([lost_fetch_requeued]); a request for a directory queues its files in
      order ([directory_request_served]); the rounds over the queues end
      ([check_task_terminates], [signal_round_terminates]).
    - The name server recommends a connected server of the best domain
      ([upload_server_online], [best_domain_chosen]) and loads its tables as
      written ([name_changes_loaded]).
    - Configuration: what a file says is what the getters return
      ([config_read]), a dump reads back ([dump_reads_back]), a reload changes
      only what is listed ([reload_changes_listed]).
    - The maintenance link: the reports of finished tasks reach the master's
      file, at once ([reports_reach_master]) or after a time without a
      connection ([offline_reports_kept], [waiting_files_sent]); the master
      sorts what it receives ([submissions_collected]) and sends commands to
      the servers they name ([command_delivered]); a server carries them out
      ([config_update_effective], [sync_files_queued]).
    - The process: each role starts the threads it should ([roles_start]); a
      storage server makes its directories ([storage_dirs_made]); a thread that
      stands still, and no other, gets the process killed
      ([watchdog_kills_silent]); rotation keeps the newest logs
      ([rotation_keeps_newest]).
    - Concurrency: the counters keep every change, however the threads that
      share one interleave, with locked instructions or under a mutex
      ([counters_exact]); with neither, a change can be lost
      ([bare_increment_lost]).
    - Refinement and equivalence: the buffer is a byte queue with a file
      behind it ([buffer_refines_queue]), the pointer rings are first-in
      first-out queues ([queue_fifo], [timeout_sweep]), the MD5 and HMAC code
      computes RFC 1321 and 2104 ([md5_matches_rfc], [hmac_matches_rfc]).
    - Round trips of every wire and text format ([sig_message_roundtrip],
      [poss_message_roundtrip], [wire_task_roundtrip], [escape_roundtrip],
      [para_roundtrip], [binary_roundtrip], [ip_text_roundtrip]).
    - Tools: the hash table of imgtool counts the hits of each picture
      ([hits_counted]), from the lines of the log on ([log_counted]).
    - Placement and configuration: disks, directories, groups, timers, time
      stamps, filters.
    - Helpers: the pattern matcher against the meaning of its patterns
      ([wildcard_accepts]), the decoding of URLs ([decodeurl_bounds],
      [decodeurl_roundtrip]), the checks of paths and referers
      ([check_path_sound], [check_path_blind], [referer_only_listed],
      [referer_listed]), the splitting of a line ([explode_words]).
    - Faults of the code, proved: [empty_upload_stalls], [stray_answer_crashes],
      [client_send_error_ignored], [answer_splits_submission],
      [empty_file_floods], [hangup_not_restarted], [init_failure_unnoticed],
      [long_text_overflows], [zero_length_spins], [deletions_unnamed],
      [sync_quota_wasted], [silent_peer_kept], [config_needs_newline],
      [heartbeat_reply_unsent], [requeue_leaks_counter],
      [missing_directory_not_made], [deletions_lose_a_digit],
      [config_policy_and_minfree], [sig_close_guard_dead],
      [php_timeout_crashes], [trim_left_loses].

    ** Not modelled

    pfs_tmp_status.c saves the queues in a mapped file; the two entry points
    the services call return at once in this version.  The calls of the kernel
    that set up processes, sockets and signal masks (fork, setsockopt, listen,
    sigaction) and the loading of libraries are not modelled: their outcomes are
    arguments.  plugins.c is not called.
    The other command-line tools (pictool, imgtool_old, the tests), which call
    the client library on each file of a directory, the tables the Zend engine
    reads and the third-party libraries are left out.
    The threads share the task queues under locks; each operation on them is
    modelled as one step. *)

From stdpp Require Export base list gmap strings numbers sorting.
From Stdlib Require Export ZArith Lia.

#[global] Open Scope Z_scope.
#[global] Set Default Goal Selector "!".

(** ** Machine integers

    A w-bit unsigned integer is a [Z] kept in range by the wrap functions
    below; a signed [int] is wrapped by [i32]. *)

Definition u8 (z : Z) : Z := z mod 2 ^ 8.
Definition u16 (z : Z) : Z := z mod 2 ^ 16.
Definition u32 (z : Z) : Z := z mod 2 ^ 32.
Definition u64 (z : Z) : Z := z mod 2 ^ 64.
Definition i32 (z : Z) : Z := (z + 2 ^ 31) mod 2 ^ 32 - 2 ^ 31.

Definition i64 (z : Z) : Z := (z + 2 ^ 63) mod 2 ^ 64 - 2 ^ 63.

(** The value of a [char] on the target (x86: [char] is signed). *)
Definition schar (b : Z) : Z := if b <? 128 then b else b - 256.

Lemma u16_range z : 0 <= u16 z < 65536.
Proof. apply Z.mod_pos_bound. lia. Qed.

Lemma u32_range z : 0 <= u32 z < 4294967296.
Proof. apply Z.mod_pos_bound. lia. Qed.

Lemma u32_small z : 0 <= z < 4294967296 -> u32 z = z.
Proof. intros. apply Z.mod_small. lia. Qed.

Lemma u16_small z : 0 <= z < 65536 -> u16 z = z.
Proof. intros. apply Z.mod_small. lia. Qed.

Lemma u8_small z : 0 <= z < 256 -> u8 z = z.
Proof. intros. apply Z.mod_small. lia. Qed.

Lemma u64_small z : 0 <= z < 2 ^ 64 -> u64 z = z.
Proof. apply Z.mod_small. Qed.

Lemma i32_small z : -2147483648 <= z < 2147483648 -> i32 z = z.
Proof. intros. unfold i32. rewrite Z.mod_small; lia. Qed.

Lemma i64_small z : - 2 ^ 63 <= z < 2 ^ 63 -> i64 z = z.
Proof. intros. unfold i64. rewrite Z.mod_small; lia. Qed.

Lemma u32_u32 z : u32 (u32 z) = u32 z.
Proof. apply Z.mod_mod. lia. Qed.

Lemma u32_add_l a b : u32 (u32 a + b) = u32 (a + b).
Proof. apply Zplus_mod_idemp_l. Qed.

Lemma u32_add_r a b : u32 (a + u32 b) = u32 (a + b).
Proof. apply Zplus_mod_idemp_r. Qed.

Create Rewrite HintDb word.
#[export] Hint Rewrite u32_u32 u32_add_l u32_add_r : word.

(** Equality of two [Z]s bit by bit: rewrites the test-bit equations of the
    bit operations and closes the boolean identity by cases. *)
Ltac zbits :=
  apply Z.bits_inj'; let i := fresh "i" in let Hi := fresh "Hi" in
  intros i Hi;
  repeat (rewrite Z.lor_spec || rewrite Z.land_spec || rewrite Z.lxor_spec
          || rewrite Z.lnot_spec by lia || rewrite Z.ldiff_spec
          || rewrite Z.bits_0);
  repeat match goal with |- context [Z.testbit ?a ?j] =>
    let b := fresh "b" in generalize (Z.testbit a j); intros b end;
  repeat match goal with b : bool |- _ => destruct b end; try reflexivity.

(** ** Bytes and blocks of memory *)

Abbreviation bytes := (list Z).
Abbreviation zlen l := (Z.of_nat (length l)).

Definition is_byte (b : Z) : Prop := 0 <= b < 256.
#[export] Instance is_byte_dec b : Decision (is_byte b).
Proof. unfold is_byte. apply _. Defined.

Abbreviation Bytes := (Forall is_byte).

Definition str (s : string) : bytes :=
  map (fun a => Z.of_N (Ascii.N_of_ascii a)) (String.list_ascii_of_string s).

(** [n] bytes of the little-endian representation of [z], and back. *)
Fixpoint le_split (n : nat) (z : Z) : bytes :=
  match n with
  | O => []
  | S n' => u8 z :: le_split n' (z / 256)
  end.

Fixpoint le_combine (l : bytes) : Z :=
  match l with
  | [] => 0
  | b :: t => b + 256 * le_combine t
  end.

Lemma length_le_split n z : length (le_split n z) = n.
Proof. revert z. induction n; intros; simpl; auto. Qed.

Lemma le_split_bytes n z : Bytes (le_split n z).
Proof.
  revert z. induction n; intros; simpl; constructor; auto.
  apply Z.mod_pos_bound. lia.
Qed.

Lemma le_combine_split n z : le_combine (le_split n z) = z mod 256 ^ Z.of_nat n.
Proof.
  revert z. induction n as [|n IH]; intros z; cbn [le_split le_combine].
  { by rewrite Z.mod_1_r. }
  rewrite IH, Nat2Z.inj_succ, Z.pow_succ_r by lia.
  rewrite Z.rem_mul_r by (try apply Z.pow_nonzero; lia).
  reflexivity.
Qed.

Lemma le_combine_range l : Bytes l -> 0 <= le_combine l < 256 ^ zlen l.
Proof.
  induction 1 as [|b l Hb Hl IH]; cbn [le_combine length]; [lia|].
  rewrite Nat2Z.inj_succ, Z.pow_succ_r by lia. unfold is_byte in Hb. nia.
Qed.

Lemma le_split_combine l : Bytes l -> le_split (length l) (le_combine l) = l.
Proof.
  induction 1 as [|b l Hb Hl IH]; cbn [le_split le_combine length]; [done|].
  unfold is_byte in Hb. f_equal.
  - unfold u8. change (2 ^ 8) with 256.
    rewrite (Z.mul_comm 256), Z_mod_plus_full. apply Z.mod_small. lia.
  - rewrite (Z.mul_comm 256), Z.div_add by lia.
    rewrite (Z.div_small b) by lia. rewrite Z.add_0_l. apply IH.
Qed.

(** Byte swaps: [htons]/[ntohs] and [htonl]/[ntohl] on a little-endian host. *)
Definition bswap16 (x : Z) : Z := le_combine (rev (le_split 2 x)).
Definition bswap32 (x : Z) : Z := le_combine (rev (le_split 4 x)).
Abbreviation htons := bswap16.
Abbreviation ntohs := bswap16.
Abbreviation htonl := bswap32.
Abbreviation ntohl := bswap32.

Lemma le_split_bswap n x :
  le_split n (le_combine (rev (le_split n x))) = rev (le_split n x).
Proof.
  rewrite <- (length_le_split n x) at 1. rewrite <- length_rev.
  apply le_split_combine. apply Forall_rev, le_split_bytes.
Qed.

Lemma bswap_involutive n x :
  le_combine (rev (le_split n (le_combine (rev (le_split n x)))))
  = x mod 256 ^ Z.of_nat n.
Proof. rewrite le_split_bswap, rev_involutive. apply le_combine_split. Qed.

Lemma bswap16_involutive x : 0 <= x < 65536 -> bswap16 (bswap16 x) = x.
Proof.
  intros. unfold bswap16. rewrite bswap_involutive. apply Z.mod_small. lia.
Qed.

Lemma bswap32_involutive x : 0 <= x < 4294967296 -> bswap32 (bswap32 x) = x.
Proof.
  intros. unfold bswap32. rewrite bswap_involutive. apply Z.mod_small. lia.
Qed.

(** [memcpy (dst + off, src, length src)] on a block [dst]. *)
Definition memcpy (dst : bytes) (off : nat) (src : bytes) : bytes :=
  take off dst ++ src ++ drop (off + length src) dst.

Lemma length_memcpy dst off src :
  (off + length src <= length dst)%nat -> length (memcpy dst off src) = length dst.
Proof.
  intros. unfold memcpy. rewrite !length_app, length_take, length_drop. lia.
Qed.

Lemma take_memcpy dst off src :
  (off <= length dst)%nat ->
  take (off + length src) (memcpy dst off src) = take off dst ++ src.
Proof.
  intros. unfold memcpy. rewrite app_assoc. apply take_app_length'.
  rewrite length_app, length_take. lia.
Qed.

(** ** Lists *)

Lemma firstn_skipn_split {A} (n : nat) (l : list A) : l = take n l ++ drop n l.
Proof. by rewrite take_drop. Qed.

Lemma app_inv_length {A} (a b c d : list A) :
  length a = length c -> a ++ b = c ++ d -> a = c /\ b = d.
Proof. intros. by apply app_inj_1. Qed.

Lemma zlen_nonneg {A} (l : list A) : 0 <= zlen l.
Proof. lia. Qed.

Lemma ltb_add_l k a b : (k + a <? k + b) = (a <? b).
Proof. apply eq_true_iff_eq. rewrite !Z.ltb_lt. lia. Qed.

Lemma eqb_add_0 k a : (k + a =? k) = (a =? 0).
Proof. apply eq_true_iff_eq. rewrite !Z.eqb_eq. lia. Qed.

(** First element of a list satisfying a boolean test: what a
    [list_for_each_entry] loop that returns at the first match computes. *)
Fixpoint find_first {A} (p : A -> bool) (l : list A) : option A :=
  match l with
  | [] => None
  | x :: t => if p x then Some x else find_first p t
  end.

Lemma find_first_Some {A} (p : A -> bool) l x :
  find_first p l = Some x -> x ∈ l /\ p x = true.
Proof.
  induction l as [|y l IH]; simpl; [done|].
  destruct (p y) eqn:E; intros H.
  - simplify_eq. split; [constructor|done].
  - destruct (IH H). split; [by constructor|done].
Qed.

Lemma find_first_None {A} (p : A -> bool) l :
  find_first p l = None <-> forall x, x ∈ l -> p x = false.
Proof.
  induction l as [|y l IH]; simpl.
  - split; [intros _ x H; by apply not_elem_of_nil in H|done].
  - destruct (p y) eqn:E.
    + split; [done|]. intros H. rewrite (H y) in E; [done|constructor].
    + rewrite IH. split.
      * intros H x Hx. apply elem_of_cons in Hx as [->|Hx]; auto.
      * intros H x Hx. apply H. by constructor.
Qed.

Lemma find_first_app {A} (p : A -> bool) l1 l2 :
  find_first p (l1 ++ l2)
  = match find_first p l1 with Some x => Some x | None => find_first p l2 end.
Proof. induction l1 as [|y l IH]; simpl; [done|]. by destruct (p y). Qed.

Lemma find_first_filter {A} (p q : A -> bool) l :
  (forall x, p x = true -> q x = true) ->
  find_first p (base.filter (fun x => q x = true) l) = find_first p l.
Proof.
  intros H. induction l as [|y l IH]; [done|].
  rewrite filter_cons. destruct (decide (q y = true)) as [E|E]; simpl.
  - by rewrite IH.
  - destruct (p y) eqn:Ey; [by apply H in Ey|]. done.
Qed.

(** Filtering depends on the predicate at the elements only. *)
Lemma filter_ext_in {A} (P Q : A -> Prop) `{dP : forall x, Decision (P x)}
    `{dQ : forall x, Decision (Q x)} (l : list A) :
  (forall x, x ∈ l -> P x <-> Q x) -> base.filter P l = base.filter Q l.
Proof.
  induction l as [|x l IH]; intros H; [done|]. rewrite !filter_cons.
  pose proof (H x ltac:((by left))). rewrite IH by (intros y Hy; apply H; by right).
  destruct (decide (P x)), (decide (Q x)); try done; tauto.
Qed.

(** ** Tactics of the development *)

(** Case analysis on the scrutinee of a [match]/[if] in the goal. *)
Ltac case_match_goal :=
  match goal with
  | |- context [if ?b then _ else _] => destruct b eqn:?
  | |- context [match ?x with _ => _ end] => destruct x eqn:?
  end.

(** Boolean comparisons to propositions. *)
Ltac b2p :=
  repeat match goal with
  | H : (_ && _)%bool = true |- _ => apply andb_true_iff in H; destruct H
  | H : (_ || _)%bool = false |- _ => apply orb_false_iff in H; destruct H
  | H : (_ && _)%bool = false |- _ => apply andb_false_iff in H
  | H : (_ || _)%bool = true |- _ => apply orb_true_iff in H
  | H : negb _ = true |- _ => apply negb_true_iff in H
  | H : negb _ = false |- _ => apply negb_false_iff in H
  | H : (_ =? _) = true |- _ => apply Z.eqb_eq in H
  | H : (_ =? _) = false |- _ => apply Z.eqb_neq in H
  | H : (_ <? _) = true |- _ => apply Z.ltb_lt in H
  | H : (_ <? _) = false |- _ => apply Z.ltb_ge in H
  | H : (_ <=? _) = true |- _ => apply Z.leb_le in H
  | H : (_ <=? _) = false |- _ => apply Z.leb_gt in H
  | H : bool_decide _ = true |- _ => apply bool_decide_eq_true in H
  | H : bool_decide _ = false |- _ => apply bool_decide_eq_false in H
  end.

(** Linear arithmetic with division and remainder by constants. *)
Ltac zdm := Z.div_mod_to_equations; lia.
