(* ===== verification/CString.v ===== *)
(** * The C library functions on strings that the program uses

    A NUL-terminated string is the [bytes] before its terminator, so no
    element of such a list is 0 (predicate [cstr]).  Positions returned as
    pointers by the C functions ([strchr], [strrchr]) are indexes here. *)

From S2P Require Import Prelude.

(** ** Characters *)

Definition cstr (s : bytes) : Prop := Forall (fun b => 0 < b < 256) s.

Definition isdigit (c : Z) : bool := (48 <=? c) && (c <=? 57).
Definition isspace (c : Z) : bool := (c =? 32) || ((9 <=? c) && (c <=? 13)).
Definition isupper (c : Z) : bool := (65 <=? c) && (c <=? 90).
Definition islower (c : Z) : bool := (97 <=? c) && (c <=? 122).
Definition isxdigit (c : Z) : bool :=
  isdigit c || ((65 <=? c) && (c <=? 70)) || ((97 <=? c) && (c <=? 102)).
Definition tolower (c : Z) : Z := if isupper c then c + 32 else c.
Definition toupper (c : Z) : Z := if islower c then c - 32 else c.

(** The byte at offset [i] of a string, its terminator included. *)
Definition at_ (s : bytes) (i : nat) : Z := nth i s 0.

(** The string a buffer holds: the bytes before the first zero. *)
Fixpoint until0 (b : bytes) : bytes :=
  match b with
  | [] => []
  | c :: t => if c =? 0 then [] else c :: until0 t
  end.

Lemma until0_cstr s rest : cstr s -> until0 (s ++ 0 :: rest) = s.
Proof.
  induction 1 as [|c s Hc _ IH]; simpl; [done|].
  destruct (c =? 0) eqn:E; [apply Z.eqb_eq in E; lia|]. by rewrite IH.
Qed.

(** ** Searching and comparing *)

Fixpoint strchr (s : bytes) (c : Z) : option nat :=
  match s with
  | [] => None
  | b :: t => if b =? c then Some O else S <$> strchr t c
  end.

Fixpoint strrchr (s : bytes) (c : Z) : option nat :=
  match s with
  | [] => None
  | b :: t => match strrchr t c with
              | Some i => Some (S i)
              | None => if b =? c then Some O else None
              end
  end.

Definition streq (s t : bytes) : bool := bool_decide (s = t).

Fixpoint strcasecmp0 (s t : bytes) : bool :=
  match s, t with
  | [], [] => true
  | a :: s', b :: t' => (tolower a =? tolower b) && strcasecmp0 s' t'
  | _, _ => false
  end.

(** [strcmp] as an order: the sign of the first difference of the bytes. *)
Fixpoint strcmp (s t : bytes) : Z :=
  match s, t with
  | [], [] => 0
  | [], b :: _ => -1
  | _ :: _, [] => 1
  | a :: s', b :: t' => if a =? b then strcmp s' t' else if a <? b then -1 else 1
  end.

(** [strncmp(s, t, n) == 0]. *)
Fixpoint strncmp0 (s t : bytes) (n : nat) : bool :=
  match n with
  | O => true
  | S n' => match s, t with
            | [], [] => true
            | a :: s', b :: t' => (a =? b) && strncmp0 s' t' n'
            | _, _ => false
            end
  end.

(** [strncasecmp(s, t, n) == 0]. *)
Fixpoint strncasecmp0 (s t : bytes) (n : nat) {struct n} : bool :=
  match n with
  | O => true
  | S n' => match s, t with
            | [], [] => true
            | a :: s', b :: t' => (tolower a =? tolower b) && strncasecmp0 s' t' n'
            | _, _ => false
            end
  end.

(** [snprintf(dst, n, ...)] where the formatted text is [s]. *)
Definition snprintf (n : nat) (s : bytes) : bytes := take (n - 1) s.

(** ** Numbers *)

(** Decimal digits of [n >= 0], as [%u], [%lu] print it. *)
Fixpoint udec_go (fuel : nat) (n : Z) (acc : bytes) : bytes :=
  match fuel with
  | O => acc
  | S f => let acc' := (48 + n mod 10) :: acc in
           if n <? 10 then acc' else udec_go f (n / 10) acc'
  end.

Definition udec (n : Z) : bytes := udec_go (S (Z.to_nat (Z.log2 n))) n [].

(** [%d], [%ld]. *)
Definition dec (n : Z) : bytes := if n <? 0 then 45 :: udec (- n) else udec n.

(** [%0wd] of a non-negative number. *)
Definition dec0 (w : nat) (n : Z) : bytes :=
  replicate (w - length (udec n)) 48 ++ udec n.

(** The characters of the hexadecimal digits, as [%x] and [%X] print them. *)
Definition hexdig (n : Z) : Z := if n <? 10 then 48 + n else 87 + n.
Definition HEXDIG (n : Z) : Z := if n <? 10 then 48 + n else 55 + n.

(** [%02x] of an unsigned byte. *)
Definition hex02 (b : Z) : bytes := [hexdig (b / 16); hexdig (b mod 16)].

(** Value of a prefix of decimal digits and what follows it. *)
Fixpoint scan_dec (acc : Z) (s : bytes) : Z * bytes :=
  match s with
  | c :: t => if isdigit c then scan_dec (10 * acc + (c - 48)) t else (acc, s)
  | [] => (acc, [])
  end.

Fixpoint skip_space (s : bytes) : bytes :=
  match s with
  | c :: t => if isspace c then skip_space t else s
  | [] => []
  end.

(** [strtol(s, NULL, 10)]: white space, an optional sign, digits, saturating. *)
Definition atol (s : bytes) : Z :=
  match skip_space s with
  | c :: t =>
      if c =? 45 then Z.max (- 2 ^ 63) (- fst (scan_dec 0 t))
      else if c =? 43 then Z.min (2 ^ 63 - 1) (fst (scan_dec 0 t))
      else Z.min (2 ^ 63 - 1) (fst (scan_dec 0 (c :: t)))
  | [] => 0
  end.

(** [atoi] is [(int) strtol]. *)
Definition atoi (s : bytes) : Z := i32 (atol s).

(** [strtoul(s, &end, 0)] at a digit (its callers test [isdigit] first): the
    base is chosen by the prefix, the value saturates, [end] is returned. *)
Definition xval (c : Z) : Z :=
  if isdigit c then c - 48 else if c <? 97 then c - 55 else c - 87.

Fixpoint scan_base (base acc : Z) (s : bytes) : Z * bytes :=
  match s with
  | c :: t => if isxdigit c && (xval c <? base)
              then scan_base base (base * acc + xval c) t else (acc, s)
  | [] => (acc, [])
  end.

Definition strtoul0 (s : bytes) : Z * bytes :=
  let '(v, e) :=
    if at_ s 0 =? 48 then
      if (tolower (at_ s 1) =? 120) && isxdigit (at_ s 2)
      then scan_base 16 0 (drop 2 s)
      else scan_base 8 0 s
    else scan_base 10 0 s in
  (Z.min (2 ^ 64 - 1) v, e).

(** ** Lemmas *)

Lemma strchr_Some s c i :
  strchr s c = Some i <-> s !! i = Some c /\ c ∉ take i s.
Proof.
  revert i. induction s as [|b t IH]; intros i; simpl; [naive_solver|].
  destruct (b =? c) eqn:E; b2p.
  - subst. split.
    + intros; simplify_eq. split; [done|]. simpl. by apply not_elem_of_nil.
    + intros [H1 H2]. destruct i; [done|]. simpl in H2. exfalso. apply H2. constructor.
  - destruct i as [|i].
    + simpl. split; [intros H|intros [H _]; congruence].
      destruct (strchr t c); discriminate.
    + simpl. rewrite fmap_Some. split.
      * intros (j & Hj & [= ->]). apply IH in Hj as [H1 H2]. split; [done|].
        intros [?|?]%elem_of_cons; [congruence|done].
      * intros [H1 H2]. exists i. split; [|done]. apply IH. split; [done|].
        intros ?. apply H2. by constructor.
Qed.

Lemma strchr_None s c : strchr s c = None <-> c ∉ s.
Proof.
  induction s as [|b t IH]; simpl; [split; [intros _ H; by apply not_elem_of_nil in H|done]|].
  rewrite elem_of_cons. destruct (b =? c) eqn:E; b2p; [subst; naive_solver|].
  rewrite fmap_None, IH. naive_solver.
Qed.

Lemma strchr_app_r s t c : c ∉ s -> strchr (s ++ c :: t) c = Some (length s).
Proof.
  intros H. apply strchr_Some. rewrite lookup_app_r, Nat.sub_diag by done.
  split; [done|]. by rewrite take_app_length.
Qed.

Lemma strrchr_None s c : strrchr s c = None <-> c ∉ s.
Proof.
  induction s as [|b t IH]; simpl.
  - split; [intros _ H; by apply not_elem_of_nil in H|done].
  - rewrite elem_of_cons. destruct (strrchr t c); [naive_solver|].
    destruct (b =? c) eqn:E; b2p; naive_solver.
Qed.

Lemma strrchr_Some s c i :
  strrchr s c = Some i <-> s !! i = Some c /\ c ∉ drop (S i) s.
Proof.
  revert i. induction s as [|b t IH]; intros i; [simpl; naive_solver|].
  cbn [strrchr]. destruct (strrchr t c) as [j|] eqn:Ej.
  - split.
    + intros [= <-]. apply IH. done.
    + intros [H1 H2]. destruct i as [|i].
      * exfalso. assert (strrchr t c = None) by (by apply strrchr_None). congruence.
      * simpl in *. f_equal. assert (Some j = Some i); [|congruence]. by apply IH.
  - apply strrchr_None in Ej. destruct (b =? c) eqn:E; b2p.
    + subst. split.
      * by intros [= <-].
      * intros [H1 H2]. destruct i as [|i]; [done|]. exfalso. apply Ej.
        simpl in H1. by eapply list_elem_of_lookup_2.
    + split; [done|]. intros [H1 H2]. destruct i as [|i]; [simpl in H1; congruence|].
      exfalso. apply Ej. simpl in H1. by eapply list_elem_of_lookup_2.
Qed.

Lemma strrchr_app_r s t c : c ∉ t -> strrchr (s ++ c :: t) c = Some (length s).
Proof.
  intros H. apply strrchr_Some. rewrite lookup_app_r, Nat.sub_diag by done.
  split; [done|]. rewrite drop_app_ge by lia.
  by replace (S (length s) - length s)%nat with 1%nat by lia.
Qed.

Lemma streq_true s t : streq s t = true <-> s = t.
Proof. apply bool_decide_eq_true. Qed.

Lemma streq_refl s : streq s s = true.
Proof. by apply streq_true. Qed.

Lemma strncmp0_prefix s t : strncmp0 s t (length s) = true <-> s `prefix_of` t.
Proof.
  revert t. induction s as [|a s IH]; intros t; simpl.
  { split; [intros _; apply prefix_nil|done]. }
  destruct t as [|b t]; [split; [done|intros H; by apply prefix_nil_not in H]|].
  rewrite andb_true_iff, Z.eqb_eq, IH. split.
  - intros [-> H]. by apply prefix_cons.
  - intros H. split; [by apply prefix_cons_inv_1 in H|by apply prefix_cons_inv_2 in H].
Qed.

Lemma snprintf_fits n s : (length s < n)%nat -> snprintf n s = s.
Proof. intros. apply take_ge. lia. Qed.

Lemma length_snprintf n s : (0 < n)%nat -> (length (snprintf n s) < n)%nat.
Proof. intros. unfold snprintf. rewrite length_take. lia. Qed.

(** *** Printing and reading decimal numbers *)

Definition is_dec_digit (c : Z) : Prop := 48 <= c <= 57.

Lemma isdigit_iff c : isdigit c = true <-> is_dec_digit c.
Proof. unfold isdigit, is_dec_digit. rewrite andb_true_iff, !Z.leb_le. lia. Qed.

Lemma udec_go_app fuel n acc : udec_go fuel n acc = udec_go fuel n [] ++ acc.
Proof.
  revert n acc. induction fuel as [|f IH]; intros n acc; cbn [udec_go]; [done|].
  destruct (n <? 10); [done|]. rewrite IH, (IH _ [_]). by rewrite <- app_assoc.
Qed.

Lemma udec_go_digits fuel n acc :
  Forall is_dec_digit acc -> Forall is_dec_digit (udec_go fuel n acc).
Proof.
  revert n acc. induction fuel as [|f IH]; intros n acc H; cbn [udec_go]; [done|].
  assert (is_dec_digit (48 + n mod 10)).
  { pose proof (Z.mod_pos_bound n 10 ltac:(lia)). unfold is_dec_digit. lia. }
  destruct (n <? 10); [by constructor|]. apply IH. by constructor.
Qed.

Lemma udec_digits n : Forall is_dec_digit (udec n).
Proof. by apply udec_go_digits. Qed.

Lemma scan_dec_app acc s t :
  Forall is_dec_digit s ->
  scan_dec acc (s ++ t) = scan_dec (fst (scan_dec acc s)) t.
Proof.
  intros H. revert acc. induction H as [|c s Hc Hs IH]; intros acc; [done|].
  cbn [app scan_dec]. apply isdigit_iff in Hc. rewrite Hc. apply IH.
Qed.

Lemma scan_dec_udec_go fuel n :
  0 <= n < 10 ^ Z.of_nat fuel ->
  scan_dec 0 (udec_go fuel n []) = (n, []).
Proof.
  revert n. induction fuel as [|f IH]; intros n Hn; cbn [udec_go].
  { simpl in Hn. simpl. f_equal. lia. }
  assert (Hd : is_dec_digit (48 + n mod 10)).
  { pose proof (Z.mod_pos_bound n 10 ltac:(lia)). unfold is_dec_digit. lia. }
  apply isdigit_iff in Hd.
  destruct (n <? 10) eqn:E; b2p.
  - cbn [scan_dec]. rewrite Hd. f_equal. rewrite Z.mod_small by lia. lia.
  - rewrite udec_go_app, scan_dec_app by (by apply udec_go_digits).
    rewrite Nat2Z.inj_succ, Z.pow_succ_r in Hn by lia.
    rewrite IH by (split; [apply Z.div_pos|apply Z.div_lt_upper_bound]; lia).
    cbn [scan_dec fst]. rewrite Hd. f_equal. pose proof (Z.div_mod n 10). lia.
Qed.

Lemma udec_fuel n : 0 <= n -> n < 10 ^ Z.of_nat (S (Z.to_nat (Z.log2 n))).
Proof.
  intros Hn. rewrite Nat2Z.inj_succ, Z2Nat.id by apply Z.log2_nonneg.
  destruct (Z.eq_dec n 0) as [->|]; [simpl; lia|].
  apply Z.lt_le_trans with (2 ^ Z.succ (Z.log2 n)).
  - apply Z.log2_spec. lia.
  - apply Z.pow_le_mono_l. lia.
Qed.

Lemma scan_dec_udec n t :
  0 <= n -> (forall c u, t = c :: u -> isdigit c = false) ->
  scan_dec 0 (udec n ++ t) = (n, t).
Proof.
  intros Hn Ht. rewrite scan_dec_app by apply udec_digits.
  unfold udec. rewrite scan_dec_udec_go by (split; [done|by apply udec_fuel]).
  simpl. destruct t as [|c u]; [done|]. cbn [scan_dec]. by rewrite (Ht c u).
Qed.

Lemma udec_nonempty n : exists c t, udec n = c :: t.
Proof.
  unfold udec. cbn [udec_go]. destruct (n <? 10); [eauto|].
  rewrite udec_go_app. destruct (udec_go _ _ _); simpl; eauto.
Qed.

Lemma udec_inj m n : 0 <= m -> 0 <= n -> udec m = udec n -> m = n.
Proof.
  intros Hm Hn H.
  pose proof (scan_dec_udec m [] Hm ltac:(done)) as E1.
  pose proof (scan_dec_udec n [] Hn ltac:(done)) as E2.
  rewrite H in E1. congruence.
Qed.

Lemma isdigit_isspace c : isdigit c = true -> isspace c = false.
Proof. unfold isdigit, isspace. intros. b2p. apply orb_false_iff. split; [lia|]. lia. Qed.

Lemma atol_udec n t :
  0 <= n < 2 ^ 63 -> (forall c u, t = c :: u -> isdigit c = false) ->
  atol (udec n ++ t) = n.
Proof.
  intros Hn Ht. pose proof (scan_dec_udec n t ltac:(lia) Ht) as HS.
  pose proof (udec_digits n) as HD. destruct (udec_nonempty n) as (c & u & Hu).
  rewrite Hu in *. apply Forall_cons in HD as [Hc _].
  unfold atol. cbn [app skip_space]. apply isdigit_iff in Hc as Hc'.
  rewrite isdigit_isspace by done. unfold is_dec_digit in Hc.
  destruct (c =? 45) eqn:E1; b2p; [lia|]. destruct (c =? 43) eqn:E2; b2p; [lia|].
  change (c :: u ++ t) with ((c :: u) ++ t). rewrite HS. simpl. lia.
Qed.

Lemma atoi_udec n t :
  0 <= n < 2147483648 -> (forall c u, t = c :: u -> isdigit c = false) ->
  atoi (udec n ++ t) = n.
Proof. intros. unfold atoi. rewrite atol_udec by (done || lia). apply i32_small. lia. Qed.

Lemma dec_nonneg n : 0 <= n -> dec n = udec n.
Proof. intros. unfold dec. destruct (n <? 0) eqn:E; b2p; [lia|done]. Qed.

Lemma dec_cstr n : cstr (dec n).
Proof.
  assert (H : forall m, cstr (udec m)).
  { intros m. eapply Forall_impl; [apply udec_digits|]. unfold is_dec_digit. lia. }
  unfold dec. destruct (n <? 0); [constructor; [lia|]|]; apply H.
Qed.

Lemma isdigit_xval c :
  isxdigit c && (xval c <? 10) = isdigit c.
Proof.
  unfold isxdigit, xval. destruct (isdigit c) eqn:E; simpl.
  - apply isdigit_iff in E. unfold is_dec_digit in E. apply Z.ltb_lt. lia.
  - apply andb_false_iff. destruct ((65 <=? c) && (c <=? 70)) eqn:E1; simpl.
    + right. b2p. destruct (c <? 97) eqn:E2; b2p; apply Z.ltb_ge; lia.
    + destruct ((97 <=? c) && (c <=? 102)) eqn:E2; [right|by left].
      b2p. destruct (c <? 97) eqn:E3; b2p; apply Z.ltb_ge; lia.
Qed.

Lemma scan_base_10 acc s : scan_base 10 acc s = scan_dec acc s.
Proof.
  revert acc. induction s as [|c t IH]; intros acc; cbn [scan_base scan_dec]; [done|].
  rewrite isdigit_xval. destruct (isdigit c) eqn:E; [|done].
  rewrite IH. unfold xval. by rewrite E.
Qed.

Lemma udec_head n t : 0 < n -> at_ (udec n ++ t) 0 <> 48.
Proof.
  intros Hn. unfold udec. set (fuel := S _).
  assert (Hf : n < 10 ^ Z.of_nat fuel) by (apply udec_fuel; lia).
  clearbody fuel. revert n t Hn Hf.
  induction fuel as [|f IH]; intros n t Hn Hf; [simpl in Hf; lia|]. cbn [udec_go].
  destruct (n <? 10) eqn:E; b2p; [simpl; rewrite Z.mod_small by lia; cbn; lia|].
  rewrite udec_go_app, <- app_assoc. apply IH.
  - apply Z.div_str_pos. lia.
  - rewrite Nat2Z.inj_succ, Z.pow_succ_r in Hf by lia. apply Z.div_lt_upper_bound; lia.
Qed.

(** A printed number is read back, whatever non-alphanumeric text follows. *)
Lemma strtoul0_udec n t :
  0 <= n < 2 ^ 64 ->
  (forall c u, t = c :: u -> isdigit c = false /\ tolower c <> 120) ->
  strtoul0 (udec n ++ t) = (n, t).
Proof.
  intros Hn Ht. unfold strtoul0. destruct (Z.eq_dec n 0) as [->|Hz].
  - change (udec 0) with [48]. cbn [app at_ nth].
    change (48 =? 48) with true. cbv iota.
    destruct t as [|c u]; [done|]. destruct (Ht c u eq_refl) as [H1 H2].
    cbn [nth]. apply Z.eqb_neq in H2 as H2'. rewrite H2'. cbn [andb].
    cbn [scan_base]. change (isxdigit 48 && (xval 48 <? 8)) with true. cbv iota.
    destruct (isxdigit c && (xval c <? 8)) eqn:E; [|done].
    apply andb_true_iff in E as [E1 E2]. b2p.
    assert (isdigit c = true); [|congruence].
    rewrite <- isdigit_xval, E1. simpl. apply Z.ltb_lt. lia.
  - pose proof (udec_head n t ltac:(lia)) as Hh. apply Z.eqb_neq in Hh. rewrite Hh.
    rewrite scan_base_10, scan_dec_udec; [f_equal; lia|lia|].
    intros c u E. by apply (Ht c u).
Qed.

Lemma dec0_length w n : (length (udec n) <= w)%nat -> length (dec0 w n) = w.
Proof. intros. unfold dec0. rewrite length_app, length_replicate. lia. Qed.

Lemma scan_dec_zeros k s : scan_dec 0 (replicate k 48 ++ s) = scan_dec 0 s.
Proof. induction k as [|k IH]; [done|]. simpl. apply IH. Qed.

Lemma dec0_digits w n : Forall is_dec_digit (dec0 w n).
Proof.
  unfold dec0. apply Forall_app. split; [|apply udec_digits].
  apply Forall_replicate. unfold is_dec_digit. lia.
Qed.

Lemma scan_dec_dec0 w n t :
  0 <= n -> (forall c u, t = c :: u -> isdigit c = false) ->
  scan_dec 0 (dec0 w n ++ t) = (n, t).
Proof.
  intros Hn Ht. unfold dec0. rewrite <- app_assoc, scan_dec_zeros. by apply scan_dec_udec.
Qed.

(** A digit string is read as [scan_dec] reads it. *)
Lemma atol_digits s v :
  Forall is_dec_digit s -> scan_dec 0 s = (v, []) -> 0 <= v < 2 ^ 63 -> atol s = v.
Proof.
  intros HD HS Hv. destruct s as [|c u]; [by simplify_eq/=|].
  apply Forall_cons in HD as [Hc _]. apply isdigit_iff in Hc as Hc'.
  unfold atol. cbn [skip_space]. rewrite isdigit_isspace by done. unfold is_dec_digit in Hc.
  destruct (c =? 45) eqn:E1; b2p; [lia|]. destruct (c =? 43) eqn:E2; b2p; [lia|].
  rewrite HS. simpl. lia.
Qed.

Lemma atoi_dec0 w n : 0 <= n < 2147483648 -> atoi (dec0 w n) = n.
Proof.
  intros Hn. unfold atoi. rewrite (atol_digits _ n); [apply i32_small; lia|..].
  - apply dec0_digits.
  - rewrite <- (app_nil_r (dec0 w n)). apply scan_dec_dec0; [lia|]. intros c u Hc; inversion Hc.
  - lia.
Qed.

(** Number of digits. *)
Lemma length_udec_go fuel n k :
  0 <= n < 10 ^ Z.of_nat (S k) -> (length (udec_go fuel n []) <= S k)%nat.
Proof.
  revert n k. induction fuel as [|f IH]; intros n k Hn; cbn [udec_go]; [simpl; lia|].
  destruct (n <? 10) eqn:E; b2p; [simpl; lia|].
  rewrite udec_go_app, length_app. simpl.
  destruct k as [|k]; [change (10 ^ Z.of_nat 1) with 10 in Hn; lia|].
  assert (length (udec_go f (n / 10) []) <= S k)%nat; [|lia].
  apply IH. rewrite (Nat2Z.inj_succ (S k)), Z.pow_succ_r in Hn by lia.
  split; [apply Z.div_pos|apply Z.div_lt_upper_bound]; lia.
Qed.

Lemma length_udec n k : 0 <= n < 10 ^ Z.of_nat (S k) -> (length (udec n) <= S k)%nat.
Proof. apply length_udec_go. Qed.

Lemma udec_go_fuel f : forall f' n acc,
  0 <= n < 10 ^ Z.of_nat (S f) -> n < 10 ^ Z.of_nat (S f') ->
  udec_go (S f) n acc = udec_go (S f') n acc.
Proof.
  induction f as [|f IH]; intros f' n acc Hn Hn'; cbn [udec_go];
    (destruct (n <? 10) eqn:E; [done|]); b2p; [simpl in Hn; lia|].
  destruct f' as [|f']; [simpl in Hn'; lia|].
  rewrite (Nat2Z.inj_succ (S f)), Z.pow_succ_r in Hn by lia.
  rewrite (Nat2Z.inj_succ (S f')), Z.pow_succ_r in Hn' by lia.
  apply IH; [split; [apply Z.div_pos; lia|]|]; apply Z.div_lt_upper_bound; lia.
Qed.

(** The last digit of a decimal. *)
Lemma udec_snoc n : 10 <= n -> udec n = udec (n / 10) ++ [48 + n mod 10].
Proof.
  intros Hn. unfold udec at 1. cbn [udec_go]. destruct (n <? 10) eqn:E; b2p; [lia|].
  rewrite udec_go_app. f_equal. unfold udec.
  assert (Hd : 0 <= n / 10) by (apply Z.div_pos; lia).
  assert (Hl : 0 < Z.log2 n) by (apply Z.log2_pos; lia).
  replace (Z.to_nat (Z.log2 n)) with (S (Z.to_nat (Z.log2 (n / 2)))).
  - apply udec_go_fuel; [split; [done|]|by apply udec_fuel].
    apply Z.le_lt_trans with (n / 2); [apply Z.div_le_compat_l; lia|].
    apply udec_fuel, Z.div_pos; lia.
  - change (n / 2) with (n / 2 ^ 1). rewrite <- Z.shiftr_div_pow2 by lia.
    rewrite Z.log2_shiftr by lia. lia.
Qed.

Lemma length_udec_exact k : forall n,
  10 ^ Z.of_nat k <= n < 10 ^ Z.of_nat (S k) -> length (udec n) = S k.
Proof.
  induction k as [|k IH]; intros n Hn.
  - pose proof (length_udec n 0) as Hl. destruct (udec_nonempty n) as (c & t & E).
    rewrite E in *. simpl in *. lia.
  - rewrite !Nat2Z.inj_succ, !Z.pow_succ_r in Hn by lia.
    assert (0 < 10 ^ Z.of_nat k) by (apply Z.pow_pos_nonneg; lia).
    rewrite udec_snoc by lia. rewrite length_app, (IH (n / 10)); [simpl; lia|].
    rewrite Nat2Z.inj_succ, Z.pow_succ_r by lia.
    split; [apply Z.div_le_lower_bound; lia|apply Z.div_lt_upper_bound; lia].
Qed.
