(* ===== verification/Protocol.v ===== *)
(** * The two wire protocols

    [Sig]: the signalling/data protocol of lib/protocol.c (4-byte header:
    body length in network order, command, status).
    [Poss]: the management protocol of lib/pro_poss.c (12-byte header of
    three 32-bit words in network order).

    The host is little-endian x86, so a struct is its little-endian image. *)

From S2P Require Import Prelude.
From S2P Require Import CString.

Module Sig.

(** ** Data (lib/protocol.h) *)

Definition SIG_HEADSIZE : Z := 4.
Definition MAX_SIG_BODY : Z := 65536.

Definition E_PACKET_ERR_CLOSE : Z := -100.
Definition E_PRO_OK : Z := 0.
Definition E_PRO_HEAD_LEN : Z := 1.
Definition E_PRO_TOTAL_LEN : Z := 2.

Record t_pfs_sig_head := mk_head {
  bodylen : Z;   (* uint16_t *)
  cmdid : Z;     (* uint8_t *)
  status : Z     (* uint8_t *)
}.

(** [t_pfs_sig_body]: a block of [MAX_SIG_BODY] bytes. *)
Abbreviation t_pfs_sig_body := bytes.

Definition zero_head : t_pfs_sig_head := mk_head 0 0 0.
Definition zero_body : t_pfs_sig_body := replicate (Z.to_nat MAX_SIG_BODY) 0.

Definition wf_head (h : t_pfs_sig_head) : Prop :=
  0 <= bodylen h < 65536 /\ is_byte (cmdid h) /\ is_byte (status h).
#[export] Instance wf_head_dec h : Decision (wf_head h).
Proof. unfold wf_head. apply _. Defined.

(** The image of the header struct in memory, and the struct read back. *)
Definition head_image (h : t_pfs_sig_head) : bytes :=
  le_split 2 (bodylen h) ++ [u8 (cmdid h); u8 (status h)].

Definition head_of_image (s : bytes) : t_pfs_sig_head :=
  mk_head (le_combine (take 2 s)) (at_ s 2) (at_ s 3).

(** ** Operations (lib/protocol.c) *)

(** [parse_sig_msg(h, b, s, slen)]: the return code and what [*h] and [*b]
    hold afterwards. *)
Definition parse_sig_msg (h : t_pfs_sig_head) (b : t_pfs_sig_body) (s : bytes)
  : Z * t_pfs_sig_head * t_pfs_sig_body :=
  let slen := zlen s in
  if slen <? SIG_HEADSIZE then (E_PRO_HEAD_LEN, h, b)
  else
    let h1 := head_of_image (take 4 s) in
    let h2 := mk_head (ntohs (bodylen h1)) (cmdid h1) (status h1) in
    if MAX_SIG_BODY <=? bodylen h2 then (E_PACKET_ERR_CLOSE, h2, b)
    else if slen <? SIG_HEADSIZE + bodylen h2 then (E_PRO_TOTAL_LEN, h2, b)
    else if slen =? SIG_HEADSIZE then (0, h2, b)
    else (0, h2, memcpy b 0 (take (Z.to_nat (bodylen h2)) (drop 4 s))).

(** [create_sig_msg(cmdid, status, b, o, bodylen)]: the bytes written at [o];
    the returned length is their number. *)
Definition create_sig_msg (cmd st : Z) (b : bytes) (blen : Z) : bytes :=
  let nh := mk_head (htons blen) cmd st in
  if blen =? 0 then head_image nh
  else head_image nh ++ take (Z.to_nat blen) b.

(** ** Lemmas *)

Lemma length_head_image h : length (head_image h) = 4%nat.
Proof. done. Qed.

Lemma head_of_image_image h :
  wf_head h -> head_of_image (head_image h) = h.
Proof.
  intros (H1 & H2 & H3). destruct h as [n c s]. unfold head_of_image, head_image.
  simpl in *. unfold is_byte in *. f_equal.
  - pose proof (le_combine_split 2 n) as E. simpl in E.
    rewrite Z.mod_small in E by lia. lia.
  - by apply u8_small.
  - by apply u8_small.
Qed.

Lemma bswap16_range x : 0 <= bswap16 x < 65536.
Proof.
  unfold bswap16. pose proof (le_combine_range (rev (le_split 2 x))) as H.
  rewrite length_rev, length_le_split in H. apply H.
  apply Forall_rev, le_split_bytes.
Qed.

Lemma length_create cmd st b n :
  0 <= n <= zlen b -> zlen (create_sig_msg cmd st b n) = SIG_HEADSIZE + n.
Proof.
  intros. unfold create_sig_msg, SIG_HEADSIZE. destruct (n =? 0) eqn:E; b2p.
  - rewrite length_head_image. lia.
  - rewrite length_app, length_head_image, length_take. lia.
Qed.

(** What a header parses to once its four bytes are there. *)
Lemma parse_with_head h b h0 rest :
  wf_head h0 ->
  parse_sig_msg h b (head_image (mk_head (htons (bodylen h0)) (cmdid h0) (status h0)) ++ rest)
  = if zlen rest <? bodylen h0 then (E_PRO_TOTAL_LEN, h0, b)
    else if zlen rest =? 0 then (0, h0, b)
    else (0, h0, memcpy b 0 (take (Z.to_nat (bodylen h0)) rest)).
Proof.
  intros (H1 & H2 & H3).
  set (nh := mk_head (htons (bodylen h0)) (cmdid h0) (status h0)).
  assert (Hnh : wf_head nh) by (split_and!; try done; apply bswap16_range).
  unfold parse_sig_msg.
  rewrite (take_app_length' (head_image nh) rest 4), (drop_app_length' (head_image nh) rest 4)
    by done.
  rewrite head_of_image_image by done. unfold nh; cbn [bodylen cmdid status].
  rewrite bswap16_involutive by done.
  rewrite length_app, length_head_image. unfold SIG_HEADSIZE, MAX_SIG_BODY.
  destruct h0 as [n c s]; cbn [bodylen cmdid status] in *.
  destruct (Z.of_nat (4 + length rest) <? 4) eqn:E; b2p; [lia|].
  destruct (65536 <=? n) eqn:E'; b2p; [lia|].
  rewrite Nat2Z.inj_add. change (Z.of_nat 4) with 4.
  by rewrite ltb_add_l, eqb_add_0.
Qed.

Lemma create_split cmd st b n :
  0 <= n -> create_sig_msg cmd st b n
  = head_image (mk_head (htons n) cmd st) ++ take (Z.to_nat n) b.
Proof.
  intros. unfold create_sig_msg. destruct (n =? 0) eqn:E; b2p; [|done].
  subst. by rewrite app_nil_r.
Qed.

Lemma memcpy_nil b : memcpy b 0 [] = b.
Proof. done. Qed.

(** ** Properties *)

(** A message created from a body and followed by anything is parsed to
    exactly the header and body it was created from. *)
Lemma parse_create h b cmd st body n rest :
  is_byte cmd -> is_byte st -> 0 <= n < 65536 -> n <= zlen body ->
  parse_sig_msg h b (create_sig_msg cmd st body n ++ rest)
  = (0, mk_head n cmd st, memcpy b 0 (take (Z.to_nat n) body)).
Proof.
  intros Hc Hs Hn Hb. rewrite create_split, <- app_assoc by lia.
  rewrite (parse_with_head h b (mk_head n cmd st)) by done.
  cbn [bodylen]. set (l := take (Z.to_nat n) body).
  assert (Hl : length l = Z.to_nat n) by (unfold l; rewrite length_take; lia).
  rewrite length_app, Hl.
  destruct (Z.of_nat (Z.to_nat n + length rest) <? n) eqn:E; b2p; [lia|].
  destruct (_ =? 0) eqn:E'; b2p.
  - assert (n = 0) as -> by lia. destruct l; [|simpl in Hl; lia]. by rewrite memcpy_nil.
  - by rewrite take_app_length'.
Qed.

(** A strict prefix of a message never parses: the code asks for more bytes. *)
Lemma parse_prefix h b cmd st body n k :
  is_byte cmd -> is_byte st -> 0 <= n < 65536 -> n <= zlen body ->
  (k < length (create_sig_msg cmd st body n))%nat ->
  0 < fst (fst (parse_sig_msg h b (take k (create_sig_msg cmd st body n)))).
Proof.
  intros Hc Hs Hn Hb Hk. rewrite create_split in * by lia.
  rewrite length_app, length_head_image, length_take in Hk.
  destruct (decide (k < 4)%nat) as [Hk4|Hk4].
  - unfold parse_sig_msg. rewrite length_take.
    destruct (_ <? SIG_HEADSIZE) eqn:E; [done|]. unfold SIG_HEADSIZE in E. b2p. lia.
  - rewrite take_app_ge by (rewrite length_head_image; lia).
    rewrite (parse_with_head h b (mk_head n cmd st)) by done.
    cbn [bodylen]. rewrite !length_take, length_head_image.
    destruct (_ <? n) eqn:E; [done|]. b2p. lia.
Qed.

(** The guard [h->bodylen >= MAX_SIG_BODY] compares a 16-bit field with
    65536: no input makes the parser return [E_PACKET_ERR_CLOSE]. *)
Lemma parse_never_close h b s :
  fst (fst (parse_sig_msg h b s)) <> E_PACKET_ERR_CLOSE.
Proof.
  unfold parse_sig_msg, E_PACKET_ERR_CLOSE.
  destruct (zlen s <? SIG_HEADSIZE); [done|]. cbv zeta. cbn [bodylen].
  destruct (MAX_SIG_BODY <=? _) eqn:E; b2p.
  - pose proof (bswap16_range (bodylen (head_of_image (take 4 s)))).
    unfold MAX_SIG_BODY in E. lia.
  - by repeat case_match_goal.
Qed.

(** An accepted message lies entirely in the input: no byte past [slen] is read. *)
Lemma parse_ok_within h b s h' b' :
  parse_sig_msg h b s = (0, h', b') ->
  0 <= bodylen h' < 65536 /\ SIG_HEADSIZE + bodylen h' <= zlen s /\
  b' = memcpy b 0 (take (Z.to_nat (bodylen h')) (drop 4 s)).
Proof.
  unfold parse_sig_msg. destruct (zlen s <? SIG_HEADSIZE) eqn:E0; [done|].
  cbv zeta. cbn [bodylen cmdid status].
  set (n := bswap16 _). assert (Hn : 0 <= n < 65536) by apply bswap16_range.
  destruct (MAX_SIG_BODY <=? n); [done|].
  destruct (zlen s <? SIG_HEADSIZE + n) eqn:E1; [done|].
  destruct (zlen s =? SIG_HEADSIZE) eqn:E2; intros HH; inversion HH; subst;
    cbn [bodylen]; b2p; (split; [done|]); (split; [lia|]); [|done].
  unfold SIG_HEADSIZE in *. rewrite drop_ge by lia. by rewrite take_nil.
Qed.

(** ** Properties *)

(** C33: a signalling message built by [create_sig_msg] and followed by any
    bytes is parsed to exactly its command, status and body, and no strict
    prefix of it is accepted: the parser asks for more bytes instead. *)
Theorem sig_message_roundtrip h b cmd st body rest :
  is_byte cmd -> is_byte st -> zlen body < 65536 ->
  let m := create_sig_msg cmd st body (zlen body) in
  parse_sig_msg h b (m ++ rest) = (0, mk_head (zlen body) cmd st, memcpy b 0 body) /\
  (forall k, (k < length m)%nat -> 0 < fst (fst (parse_sig_msg h b (take k m)))).
Proof.
  intros Hc Hs Hb m. split; [|intros k Hk; apply parse_prefix; done || lia].
  unfold m. rewrite parse_create by (done || lia). by rewrite take_ge by lia.
Qed.

Lemma sig_message_roundtrip_witness :
  let m := create_sig_msg 3 0 (str "photo") (zlen (str "photo")) in
  parse_sig_msg zero_head [] (m ++ [1; 2]) = (0, mk_head 5 3 0, memcpy [] 0 (str "photo")) /\
  (forall k, (k < length m)%nat -> 0 < fst (fst (parse_sig_msg zero_head [] (take k m)))).
Proof.
  apply (sig_message_roundtrip zero_head [] 3 0 (str "photo") [1; 2]);
    vm_compute; first [done | split; intros Hx; discriminate Hx].
Defined.

(** The guard on oversized bodies compares a 16-bit length with 65536; no
    input makes the parser return [E_PACKET_ERR_CLOSE], the code on which the
    services close a connection. *)
Theorem sig_close_guard_dead h b s :
  fst (fst (parse_sig_msg h b s)) <> E_PACKET_ERR_CLOSE.
Proof. apply parse_never_close. Qed.

End Sig.

Module Poss.

Definition HEADSIZE : Z := 12.
Definition E_NOT_SUFFIC : Z := 1.

Record t_head_info := mk_info { totallen : Z; cmdid : Z; seq : Z }.

(** ** Operations (lib/pro_poss.c) *)

(** [getseq()]: the static counter, its value returned and incremented. *)
Definition getseq (seq : Z) : Z * Z := (seq, u32 (seq + 1)).

Definition info_image (h : t_head_info) : bytes :=
  le_split 4 (totallen h) ++ le_split 4 (cmdid h) ++ le_split 4 (seq h).

(** [create_msg]: the bytes written, [*outlen], and the counter. *)
Definition create_msg (sq cmd : Z) (inbuf : bytes) (inlen : Z) : bytes * Z * Z :=
  let '(s, sq') := getseq sq in
  let head := info_image (mk_info (htonl (u32 (HEADSIZE + inlen))) (htonl cmd) (htonl s)) in
  if inlen =? 0 then (head, HEADSIZE, sq')
  else (head ++ take (Z.to_nat inlen) inbuf, inlen + HEADSIZE, sq').

Definition create_poss_head (sq cmd datalen : Z) : bytes * Z :=
  let '(s, sq') := getseq sq in
  (info_image (mk_info (htonl (u32 (HEADSIZE + datalen))) (htonl cmd) (htonl s)), sq').

(** [parse_msg]: the code and the parsed header. *)
Definition parse_msg (inbuf : bytes) (head : t_head_info) : Z * t_head_info :=
  if zlen inbuf <? HEADSIZE then (E_NOT_SUFFIC, head)
  else
    let word i := le_combine (take 4 (drop i inbuf)) in
    (0, mk_info (ntohl (word 0%nat)) (ntohl (word 4%nat)) (ntohl (word 8%nat))).

(** ** Lemmas and properties *)

Lemma bswap32_range x : 0 <= bswap32 x < 4294967296.
Proof.
  unfold bswap32. pose proof (le_combine_range (rev (le_split 4 x))) as H.
  rewrite length_rev, length_le_split in H. apply H.
  apply Forall_rev, le_split_bytes.
Qed.

Lemma word_image x y z rest :
  0 <= x < 4294967296 -> 0 <= y < 4294967296 -> 0 <= z < 4294967296 ->
  let s := info_image (mk_info x y z) ++ rest in
  le_combine (take 4 (drop 0 s)) = x /\ le_combine (take 4 (drop 4 s)) = y /\
  le_combine (take 4 (drop 8 s)) = z.
Proof.
  intros Hx Hy Hz s. subst s. unfold info_image. cbn [totallen cmdid seq].
  assert (C : forall v, 0 <= v < 4294967296 -> le_combine (le_split 4 v) = v).
  { intros v Hv. rewrite le_combine_split. apply Z.mod_small. lia. }
  rewrite <- !app_assoc, drop_0.
  rewrite take_app_length' by done.
  rewrite (drop_app_length' (le_split 4 x)) by done.
  rewrite take_app_length' by done.
  rewrite (app_assoc (le_split 4 x)), (drop_app_length' (le_split 4 x ++ le_split 4 y))
    by done.
  rewrite take_app_length' by done. auto.
Qed.

Lemma parse_create_head sq cmd n rest h0 :
  0 <= sq < 4294967296 -> 0 <= cmd < 4294967296 -> 0 <= n < 4294967284 ->
  parse_msg (fst (create_poss_head sq cmd n) ++ rest) h0
  = (0, mk_info (HEADSIZE + n) cmd sq).
Proof.
  intros Hs Hc Hn. unfold create_poss_head, getseq. cbn [fst]. unfold parse_msg, HEADSIZE.
  pose proof (word_image (htonl (u32 (12 + n))) (htonl cmd) (htonl sq) rest
    (bswap32_range _) (bswap32_range _) (bswap32_range _)) as (E1 & E2 & E3).
  cbv zeta in E1, E2, E3.
  set (img := info_image _) in *.
  assert (Hl : length img = 12%nat) by done.
  rewrite length_app, Hl.
  destruct (_ <? 12) eqn:E; b2p; [lia|].
  rewrite E1, E2, E3, !bswap32_involutive by (done || apply u32_range).
  by rewrite u32_small by lia.
Qed.

Lemma create_msg_eq sq cmd inbuf n :
  0 <= n <= zlen inbuf ->
  create_msg sq cmd inbuf n
  = (fst (create_poss_head sq cmd n) ++ take (Z.to_nat n) inbuf, HEADSIZE + n,
     snd (create_poss_head sq cmd n)).
Proof.
  intros Hn. unfold create_msg, create_poss_head, getseq.
  destruct (n =? 0) eqn:E; b2p; cbn [fst snd].
  - subst. by rewrite app_nil_r.
  - f_equal. f_equal. lia.
Qed.

(** ** Properties *)

(** A management message built by [create_msg] is parsed to its total
    length, its command and the sequence number that was current, and the
    bytes after the header are the payload. *)
Theorem poss_message_roundtrip sq cmd inbuf n rest h0 :
  0 <= sq < 4294967296 -> 0 <= cmd < 4294967296 -> 0 <= n < 4294967284 -> n <= zlen inbuf ->
  let '(m, len, _) := create_msg sq cmd inbuf n in
  parse_msg (m ++ rest) h0 = (0, mk_info (HEADSIZE + n) cmd sq) /\
  len = HEADSIZE + n /\ drop 12 m = take (Z.to_nat n) inbuf.
Proof.
  intros H1 H2 H3 H4. rewrite create_msg_eq by lia. rewrite <- app_assoc.
  split; [by apply parse_create_head|]. split; [done|]. by apply drop_app_length'.
Qed.

Lemma poss_message_roundtrip_witness :
  let '(m, len, _) := create_msg 7 2 (str "disk") 4 in
  parse_msg (m ++ []) (mk_info 0 0 0) = (0, mk_info (HEADSIZE + 4) 2 7) /\
  len = HEADSIZE + 4 /\ drop 12 m = take (Z.to_nat 4) (str "disk").
Proof.
  apply (poss_message_roundtrip 7 2 (str "disk") 4 [] (mk_info 0 0 0));
    vm_compute; repeat split; intros Hx; discriminate Hx.
Defined.

End Poss.
