(* ===== verification/MyBuff.v ===== *)
(** * Connection buffers (lib/mybuff.c)

    A [mybuff] is a growable block of memory of which the first [len] bytes
    are pending data, and at most one open file to be sent after the data.
    The operations are refined to a byte queue with one file slot; the
    closing of file descriptors is recorded so that leaks and double closes
    can be excluded. *)

From S2P Require Import Prelude.

Module MyBuff.

Record mybuff := mk_buff {
  data : option bytes;   (* the block [data] points to; [None] is NULL *)
  size : Z;
  len : Z;
  fd : Z;
  foffset : Z;
  flen : Z
}.

Section WithAlloc.

(** [init_buff_size] is a global set once at start-up; [junk n] is the
    indeterminate contents of a fresh block of [n] bytes. *)
Context (init_buff_size : Z) (junk : nat -> bytes).

(** ** Operations *)

Definition mybuff_init : mybuff := mk_buff None 0 0 (-1) 0 0.

(** [mybuff_setdata]: append [n] bytes.  [alloc] tells whether the allocator
    succeeds; the code goes on with a NULL pointer when it fails, which is
    the result [None]. *)
Definition mybuff_setdata (alloc : bool) (b : mybuff) (d : bytes) : option mybuff :=
  let n := zlen d in
  let b1 := match data b with
            | None => if alloc
                      then Some (mk_buff (Some (junk (Z.to_nat init_buff_size)))
                                   init_buff_size (len b) (fd b) (foffset b) (flen b))
                      else None
            | Some _ => Some b
            end in
  match b1 with
  | Some (mk_buff (Some blk) sz ln f o fl) =>
      if n <? sz - ln then
        Some (mk_buff (Some (memcpy blk (Z.to_nat ln) d)) sz (ln + n) f o fl)
      else if alloc then
        let sz' := ln + n + 1 in
        let blk' := take (Z.to_nat sz') (blk ++ junk (Z.to_nat sz')) in   (* realloc *)
        Some (mk_buff (Some (memcpy blk' (Z.to_nat ln) d)) sz' (ln + n) f o fl)
      else None
  | _ => None
  end.

(** [mybuff_getdata]: 0 with the data pointer and length, or -1. *)
Definition mybuff_getdata (b : mybuff) : Z * bytes :=
  match data b with
  | Some blk => if 0 <? len b then (0, take (Z.to_nat (len b)) blk) else (-1, [])
  | None => (-1, [])
  end.

Definition mybuff_skipdata (b : mybuff) (n : Z) : mybuff :=
  match data b with
  | Some blk =>
      if len b <=? n then mk_buff (data b) (size b) 0 (fd b) (foffset b) (flen b)
      else mk_buff
             (Some (memcpy blk 0 (take (Z.to_nat (len b - n)) (drop (Z.to_nat n) blk))))
             (size b) (len b - n) (fd b) (foffset b) (flen b)
  | None => b
  end.

(** The second component of the results below: the descriptors closed. *)
Definition mybuff_setfile (b : mybuff) (nfd off n : Z) : mybuff * list Z :=
  (mk_buff (data b) (size b) (len b) nfd off n, if 0 <=? fd b then [fd b] else []).

Definition mybuff_getfile (b : mybuff) : option (Z * Z * Z) :=
  if (0 <=? fd b) && (0 <? flen b) then Some (fd b, foffset b, flen b) else None.

Definition mybuff_skipfile (b : mybuff) (n : Z) : mybuff * list Z :=
  if 0 <=? fd b then
    if flen b <=? n then (mk_buff (data b) (size b) (len b) (-1) 0 0, [fd b])
    else (mk_buff (data b) (size b) (len b) (fd b) (foffset b + n) (flen b - n), [])
  else (b, []).

Definition mybuff_reinit (alloc : bool) (b : mybuff) : mybuff * list Z :=
  let '(b1, cl) := if 0 <=? fd b
                   then (mk_buff (data b) (size b) (len b) (-1) 0 0, [fd b])
                   else (b, []) in
  let b2 := if 2 * init_buff_size <? size b1
            then mk_buff (if alloc then Some (junk (Z.to_nat init_buff_size)) else None)
                   init_buff_size (len b1) (fd b1) (foffset b1) (flen b1)
            else b1 in
  (mk_buff (data b2) (size b2) 0 (fd b2) (foffset b2) (flen b2), cl).

(** [mybuff_fini]: the descriptors closed, and whether the block is freed. *)
Definition mybuff_fini (alloc : bool) (b : mybuff) : list Z * bool :=
  let '(b', cl) := mybuff_reinit alloc b in
  (cl, match data b' with Some _ => true | None => false end).

(** ** The abstract contract: a byte queue and a file slot *)

Definition contents (b : mybuff) : bytes :=
  match data b with Some blk => take (Z.to_nat (len b)) blk | None => [] end.

Definition file (b : mybuff) : option (Z * Z * Z) :=
  if 0 <=? fd b then Some (fd b, foffset b, flen b) else None.

Definition open_fds (b : mybuff) : list Z := if 0 <=? fd b then [fd b] else [].

Definition wf (b : mybuff) : Prop :=
  match data b with
  | None => len b = 0 /\ size b = 0
  | Some blk => zlen blk = size b /\ 0 <= len b <= size b
  end.

Lemma getfile_none b : file b = None -> mybuff_getfile b = None.
Proof. unfold file, mybuff_getfile. by destruct (0 <=? fd b). Qed.

Inductive op :=
  | SetData (d : bytes)
  | SkipData (n : Z)
  | SetFile (nfd off n : Z)
  | SkipFile (n : Z)
  | Reinit.

(** The operations as the code runs them, with allocation succeeding. *)
Definition step (b : mybuff) (o : op) : option (mybuff * list Z) :=
  match o with
  | SetData d => b' ← mybuff_setdata true b d; Some (b', [])
  | SkipData n => Some (mybuff_skipdata b n, [])
  | SetFile f o n => Some (mybuff_setfile b f o n)
  | SkipFile n => Some (mybuff_skipfile b n)
  | Reinit => Some (mybuff_reinit true b)
  end.

Fixpoint run (b : mybuff) (l : list op) : option (mybuff * list Z) :=
  match l with
  | [] => Some (b, [])
  | o :: l' => '(b1, c1) ← step b o; '(b2, c2) ← run b1 l'; Some (b2, c1 ++ c2)
  end.

(** The specification of the operations on the abstract state. *)
Definition spec_step (q : bytes * option (Z * Z * Z)) (o : op) :=
  match o with
  | SetData d => (fst q ++ d, snd q)
  | SkipData n => (drop (Z.to_nat n) (fst q), snd q)
  | SetFile f o n => (fst q, Some (f, o, n))
  | SkipFile n =>
      (fst q, match snd q with
              | Some (f, o, m) => if m <=? n then None else Some (f, o + n, m - n)
              | None => None
              end)
  | Reinit => ([], None)
  end.

(** Arguments the callers pass: sizes are [size_t]s, descriptors are open. *)
Definition op_ok (o : op) : Prop :=
  match o with
  | SkipData n | SkipFile n => 0 <= n
  | SetFile f _ _ => 0 <= f
  | _ => True
  end.

Definition set_fds (l : list op) : list Z :=
  l ≫= fun o => match o with SetFile f _ _ => [f] | _ => [] end.

(** ** Lemmas *)

Hypothesis init_pos : 0 < init_buff_size.
Hypothesis junk_len : forall n, length (junk n) = n.

Lemma wf_init : wf mybuff_init.
Proof. done. Qed.

Lemma setdata_append blk ln d sz :
  zlen blk = sz -> 0 <= ln -> ln + zlen d <= sz ->
  take (Z.to_nat (ln + zlen d)) (memcpy blk (Z.to_nat ln) d)
  = take (Z.to_nat ln) blk ++ d /\
  zlen (memcpy blk (Z.to_nat ln) d) = sz.
Proof.
  intros. split.
  - replace (Z.to_nat (ln + zlen d)) with (Z.to_nat ln + length d)%nat by lia.
    apply take_memcpy. lia.
  - rewrite length_memcpy; lia.
Qed.

Lemma setdata_spec b d :
  wf b -> exists b', mybuff_setdata true b d = Some b' /\ wf b' /\
    contents b' = contents b ++ d /\ file b' = file b.
Proof.
  intros Hw. destruct b as [[blk|] sz ln f o fl]; unfold wf in Hw; simpl in Hw;
    unfold mybuff_setdata; simpl.
  - destruct Hw as [Hsz Hln]. destruct (zlen d <? sz - ln) eqn:E; b2p.
    + destruct (setdata_append blk ln d sz) as [E1 E2]; [lia..|].
      eexists. split; [done|]. unfold wf, contents; simpl. split; [lia|]. done.
    + set (blk' := take _ _).
      assert (Hb : zlen blk' = ln + zlen d + 1).
      { unfold blk'. rewrite length_take, length_app, junk_len. lia. }
      destruct (setdata_append blk' ln d (ln + zlen d + 1)) as [E1 E2]; [lia..|].
      eexists. split; [done|]. unfold wf, contents; simpl. split; [lia|].
      split; [|done]. rewrite E1. f_equal. unfold blk'.
      rewrite take_take, Nat.min_l by lia. by rewrite take_app_le by lia.
  - destruct Hw as [-> ->]. rewrite Z.sub_0_r.
    destruct (zlen d <? init_buff_size) eqn:E; b2p.
    + destruct (setdata_append (junk (Z.to_nat init_buff_size)) 0 d init_buff_size)
        as [E1 E2]; [rewrite junk_len; lia|lia|lia|].
      eexists. split; [done|]. unfold wf, contents; simpl in *. split; [lia|]. done.
    + set (blk' := take _ _).
      assert (Hb : zlen blk' = zlen d + 1).
      { unfold blk'. rewrite length_take, length_app, !junk_len. lia. }
      destruct (setdata_append blk' 0 d (zlen d + 1)) as [E1 E2]; [lia..|].
      eexists. split; [done|]. unfold wf, contents; simpl in *. split; [lia|]. done.
Qed.

Lemma skipdata_spec b n :
  wf b -> 0 <= n ->
  wf (mybuff_skipdata b n) /\
  contents (mybuff_skipdata b n) = drop (Z.to_nat n) (contents b) /\
  file (mybuff_skipdata b n) = file b.
Proof.
  intros Hw Hn. destruct b as [[blk|] sz ln f o fl]; unfold wf in Hw; simpl in Hw;
    unfold mybuff_skipdata, wf, contents; simpl; [|by rewrite drop_nil].
  destruct Hw as [Hsz Hln]. destruct (ln <=? n) eqn:E; b2p; simpl.
  - split; [lia|]. split; [|done]. rewrite drop_ge; [done|].
    rewrite length_take. lia.
  - set (l := take (Z.to_nat (ln - n)) (drop (Z.to_nat n) blk)).
    assert (Hl : length l = Z.to_nat (ln - n)).
    { unfold l. rewrite length_take, length_drop. lia. }
    split; [rewrite length_memcpy; lia|]. split; [|done].
    pose proof (take_memcpy blk 0 l ltac:(lia)) as Ht. simpl in Ht. rewrite Hl in Ht.
    rewrite Ht. unfold l. rewrite take_drop_commute. f_equal. f_equal. lia.
Qed.

Lemma reinit_spec b :
  wf b ->
  wf (fst (mybuff_reinit true b)) /\ contents (fst (mybuff_reinit true b)) = [] /\
  file (fst (mybuff_reinit true b)) = None.
Proof.
  intros Hw. destruct b as [dt sz ln f o fl]. unfold mybuff_reinit; simpl.
  destruct (0 <=? f) eqn:Ef; simpl; (destruct (_ <? sz) eqn:Es; simpl);
    unfold wf, contents, file in *; simpl in *; rewrite ?Ef, ?junk_len;
    (split; [|split; [destruct dt; done|done]]);
    try lia; destruct dt; simpl in *; lia.
Qed.

(** Each operation refines its specification and keeps the block well-formed. *)
Lemma step_refines b o :
  wf b -> op_ok o ->
  exists b' cl, step b o = Some (b', cl) /\ wf b' /\
    (contents b', file b') = spec_step (contents b, file b) o.
Proof.
  intros Hw Ho. destruct o as [d|n|f off n|n|]; cbn [step op_ok] in *.
  - destruct (setdata_spec b d Hw) as (b' & E & Hw' & E1 & E2). rewrite E. simpl.
    eexists _, _. split; [done|]. split; [done|]. by rewrite E1, E2.
  - destruct (skipdata_spec b n Hw Ho) as (Hw' & E1 & E2).
    eexists _, _. split; [done|]. split; [done|]. by rewrite E1, E2.
  - eexists _, _. split; [done|]. split; [done|]. simpl.
    unfold file; simpl. destruct (0 <=? f) eqn:E; b2p; [done|lia].
  - unfold mybuff_skipfile. destruct (0 <=? fd b) eqn:E.
    + destruct (flen b <=? n) eqn:E2; eexists _, _; (split; [done|]); (split; [done|]);
        unfold file; simpl; rewrite ?E; simpl; by rewrite E2.
    + eexists _, _. split; [done|]. split; [done|]. unfold file. by rewrite E.
  - destruct (reinit_spec b Hw) as (Hw' & E1 & E2).
    destruct (mybuff_reinit true b) as [b' cl] eqn:E.
    eexists _, _. split; [done|]. simpl in *. by rewrite E1, E2.
Qed.

Lemma setdata_fd alloc b d b' : mybuff_setdata alloc b d = Some b' -> fd b' = fd b.
Proof.
  unfold mybuff_setdata. destruct b as [[blk|] sz ln f fo fl]; simpl;
    destruct alloc; simpl; repeat case_match; intros; by simplify_eq/=.
Qed.

(** Each operation closes what it replaces, and nothing else. *)
Lemma step_fds b o b' cl :
  op_ok o -> step b o = Some (b', cl) ->
  cl ++ open_fds b' = open_fds b ++ set_fds [o].
Proof.
  intros Ho H. destruct b as [dt sz ln f fo fl].
  destruct o as [d|n|f' off n|n|]; cbn [step op_ok] in *; unfold open_fds.
  - destruct (mybuff_setdata true _ d) as [b1|] eqn:E; simpl in H; [|done].
    apply setdata_fd in E. inversion H; subst; simpl in *. rewrite E. by rewrite app_nil_r.
  - unfold mybuff_skipdata in H. simpl in H.
    destruct dt; [destruct (ln <=? n)|]; inversion H; subst; simpl; by rewrite app_nil_r.
  - inversion H; subst; simpl. destruct (0 <=? f') eqn:E'; [done|]. b2p. lia.
  - unfold mybuff_skipfile in H. simpl in *.
    destruct (0 <=? f) eqn:E; [destruct (fl <=? n)|]; inversion H; subst; simpl;
      by rewrite ?E.
  - unfold mybuff_reinit in H. simpl in *.
    destruct (0 <=? f) eqn:E; simpl in *; destruct (_ <? sz); inversion H; subst; simpl;
      by rewrite ?E.
Qed.

(** ** Properties *)

(** Any sequence of operations on a fresh buffer succeeds and leaves it
    holding the queue and file slot the specification computes. *)
Lemma run_refines l b :
  wf b -> Forall op_ok l ->
  exists b' cl, run b l = Some (b', cl) /\ wf b' /\
    (contents b', file b') = foldl spec_step (contents b, file b) l /\
    cl ++ open_fds b' = open_fds b ++ set_fds l.
Proof.
  revert b. induction l as [|o l IH]; intros b Hw Hl; cbn [run foldl].
  { exists b, []. split_and!; [done..|]. by rewrite app_nil_r. }
  apply Forall_cons in Hl as [Ho Hl].
  destruct (step_refines b o Hw Ho) as (b1 & c1 & E1 & Hw1 & R1).
  pose proof (step_fds b o b1 c1 Ho E1) as F1.
  destruct (IH b1 Hw1 Hl) as (b2 & c2 & E2 & Hw2 & R2 & F2).
  exists b2, (c1 ++ c2). rewrite E1. simpl. rewrite E2. simpl.
  split; [done|]. split; [done|]. split; [by rewrite <- R1|].
  rewrite <- app_assoc, F2, app_assoc, F1, <- app_assoc. f_equal.
  unfold set_fds. cbn. by rewrite app_nil_r.
Qed.

(** [mybuff_getdata] reports exactly the pending bytes, and failure exactly
    when there are none. *)
Lemma getdata_spec b :
  wf b ->
  mybuff_getdata b = if decide (contents b = []) then (-1, []) else (0, contents b).
Proof.
  intros Hw. destruct b as [[blk|] sz ln f o fl]; unfold mybuff_getdata, contents, wf in *;
    simpl in *; [|done].
  destruct (0 <? ln) eqn:E; b2p; case_decide as Ed; try done.
  - apply (f_equal length) in Ed. rewrite length_take in Ed. simpl in Ed. lia.
  - replace ln with 0 in Ed by lia. done.
Qed.

(** ** Properties of the component *)

(** C11: any sequence of operations on a fresh connection buffer succeeds and
    leaves it holding exactly the byte queue and the file slot of the abstract
    specification; every descriptor handed to it is closed once or still
    held, and [mybuff_getdata] then reports exactly the pending bytes. *)
Theorem buffer_refines_queue l :
  Forall op_ok l ->
  exists b cl, run mybuff_init l = Some (b, cl) /\
    (contents b, file b) = foldl spec_step ([], None) l /\
    cl ++ open_fds b = set_fds l /\
    mybuff_getdata b = (if decide (contents b = []) then (-1, []) else (0, contents b)).
Proof.
  intros Hl. destruct (run_refines l mybuff_init wf_init Hl) as (b & cl & E & Hw & R & F).
  exists b, cl. split_and!; [done..|by apply getdata_spec].
Qed.

End WithAlloc.

Lemma buffer_refines_queue_witness :
  let l := [SetData [1; 2; 3]; SetFile 7 0 10; SkipData 1; SkipFile 10; SetData (replicate 8 5)] in
  exists b cl, run 4 (fun n => replicate n 165) mybuff_init l = Some (b, cl) /\
    (contents b, file b) = foldl spec_step ([], None) l /\ cl ++ open_fds b = set_fds l /\
    mybuff_getdata b = (if decide (contents b = []) then (-1, []) else (0, contents b)).
Proof.
  apply (buffer_refines_queue 4 (fun n => replicate n 165)); [lia|intros; apply length_replicate|].
  repeat constructor; discriminate.
Defined.

End MyBuff.
