(* ===== verification/Codec.v ===== *)
(** * Encoders and decoders (lib/common.c, lib/util_hex.c, lib/util_ip.c,
      lib/util.h)

    The text codecs of the code base: base64 for generated file names,
    hexadecimal, dotted addresses, decimal printing and time stamps.  Each is translated as written
    and related to an independent reference (a decoder, or the decimal
    printer of [CString]). *)

From S2P Require Import Prelude.
From S2P Require Import CString.

Module Base64.

Definition b64 : bytes :=
  str "ABCDEFGHIJKLMNOPQRSTUVWXYZabcdefghijklmnopqrstuvwxyz0123456789+/".

(** The body of the encoding loop: the index computed in iteration [i]. *)
Definition b64_idx (d : bytes) (len i : Z) : Z :=
  let byte_offset := (i * 6) / 8 in
  let bit_offset := (i * 6) mod 8 in
  let d_at k := at_ d (Z.to_nat k) in
  if bit_offset <? 3 then
    Z.land (Z.shiftr (d_at byte_offset) (2 - bit_offset)) 63
  else
    let idx := Z.land (Z.shiftl (d_at byte_offset) (bit_offset - 2)) 63 in
    if byte_offset + 1 <? len
    then Z.lor idx (Z.shiftr (d_at (byte_offset + 1)) (8 - (bit_offset - 2)))
    else idx.

(** [base64_encode(buf, len, out, pad)]: the string stored at [out]. *)
Definition base64_encode (buf : bytes) (pad : bool) : bytes :=
  let len := zlen buf in
  let n := (len * 8 + 5) / 6 in
  let chars := map (fun i => at_ b64 (Z.to_nat (b64_idx buf len (Z.of_nat i))))
                 (seq 0 (Z.to_nat n)) in
  if pad then chars ++ replicate (Z.to_nat ((- n) mod 4)) 61 else chars.

(** The decoder of RFC 4648 without padding, on groups of characters. *)
Definition b64_val (c : Z) : Z :=
  match strchr b64 c with Some i => Z.of_nat i | None => 0 end.

Fixpoint b64_decode (s : bytes) : bytes :=
  match s with
  | c0 :: c1 :: c2 :: c3 :: t =>
      (b64_val c0 * 4 + b64_val c1 / 16) ::
      ((b64_val c1 mod 16) * 16 + b64_val c2 / 4) ::
      ((b64_val c2 mod 4) * 64 + b64_val c3) :: b64_decode t
  | [c0; c1] => [b64_val c0 * 4 + b64_val c1 / 16]
  | [c0; c1; c2] => [b64_val c0 * 4 + b64_val c1 / 16;
                     (b64_val c1 mod 16) * 16 + b64_val c2 / 4]
  | _ => []
  end.

(** ** Lemmas *)

(** Exhaustive checks over one or two bytes. *)
Definition all_bytes : list Z := map Z.of_nat (seq 0 256).

Lemma elem_all_bytes b : is_byte b -> b ∈ all_bytes.
Proof.
  intros Hb. unfold is_byte in Hb. apply list_elem_of_fmap. exists (Z.to_nat b).
  split; [lia|]. apply elem_of_seq. lia.
Qed.

Lemma all1 (p : Z -> bool) :
  forallb p all_bytes = true -> forall a, is_byte a -> p a = true.
Proof.
  intros H a Ha. rewrite forallb_forall in H. apply H.
  apply list_elem_of_In. by apply elem_all_bytes.
Qed.

Lemma all2 (p : Z -> Z -> bool) :
  forallb (fun a => forallb (p a) all_bytes) all_bytes = true ->
  forall a b, is_byte a -> is_byte b -> p a b = true.
Proof.
  intros H a b Ha Hb. apply (all1 (p a)); [|done].
  by apply (all1 (fun a => forallb (p a) all_bytes)).
Qed.

(** A boolean fact of one byte, by running through the 256 cases. *)
Ltac exhaust_byte b :=
  match goal with
  | |- ?e = true =>
      let f := eval pattern b in e in
      match f with ?p _ => apply (all1 p); [by vm_compute|] end
  end.

(** The four indexes of a group. *)
Definition i0 (a : Z) : Z := Z.land (Z.shiftr a 2) 63.
Definition i1 (a b : Z) : Z := Z.lor (Z.land (Z.shiftl a 4) 63) (Z.shiftr b 4).
Definition i2 (b c : Z) : Z := Z.lor (Z.land (Z.shiftl b 2) 63) (Z.shiftr c 6).
Definition i3 (c : Z) : Z := Z.land (Z.shiftr c 0) 63.

Definition in64 (i : Z) : bool := (0 <=? i) && (i <? 64).

Lemma i0_ok a : is_byte a -> in64 (i0 a) && (i0 a =? a / 4) = true.
Proof. intros. by exhaust_byte a. Qed.

Lemma i1_ok a b : is_byte a -> is_byte b ->
  in64 (i1 a b) && (i1 a b =? (a mod 4) * 16 + b / 16) = true.
Proof.
  apply (all2 (fun a b => in64 (i1 a b) && (i1 a b =? (a mod 4) * 16 + b / 16))).
  by vm_compute.
Qed.

Lemma i2_ok a b : is_byte a -> is_byte b ->
  in64 (i2 a b) && (i2 a b =? (a mod 16) * 4 + b / 64) = true.
Proof.
  apply (all2 (fun a b => in64 (i2 a b) && (i2 a b =? (a mod 16) * 4 + b / 64))).
  by vm_compute.
Qed.

Lemma i3_ok a : is_byte a -> in64 (i3 a) && (i3 a =? a mod 64) = true.
Proof. intros. by exhaust_byte a. Qed.

Lemma b64_val_at i : in64 i = true -> b64_val (at_ b64 (Z.to_nat i)) = i.
Proof.
  intros H. unfold in64 in H. b2p.
  assert (E : forallb (fun i => b64_val (at_ b64 i) =? Z.of_nat i) (seq 0 64) = true)
    by by vm_compute.
  rewrite forallb_forall in E.
  assert (Hi : In (Z.to_nat i) (seq 0 64)) by (apply in_seq; lia).
  apply E in Hi. b2p. lia.
Qed.

(** One group of three bytes is four characters, independent of the rest. *)
Lemma b64_idx_shift a b c d i :
  (0 <= i)%Z -> b64_idx (a :: b :: c :: d) (zlen (a :: b :: c :: d)) (i + 4) = b64_idx d (zlen d) i.
Proof.
  intros Hi. unfold b64_idx.
  replace ((i + 4) * 6) with (i * 6 + 3 * 8) by lia.
  rewrite Z.div_add, Z.mod_add by lia.
  assert (Hd : 0 <= i * 6 / 8) by (apply Z.div_pos; lia).
  set (q := i * 6 / 8) in *. set (r := (i * 6) mod 8).
  assert (E : forall k, 0 <= k -> at_ (a :: b :: c :: d) (Z.to_nat (k + 3)) = at_ d (Z.to_nat k)).
  { intros k Hk. replace (Z.to_nat (k + 3)) with (S (S (S (Z.to_nat k)))) by lia. done. }
  rewrite E by lia. replace (q + 3 + 1) with (q + 1 + 3) by lia. rewrite E by lia.
  replace (q + 1 + 3 <? zlen (a :: b :: c :: d)) with (q + 1 <? zlen d); [done|].
  apply eq_true_iff_eq. rewrite !Z.ltb_lt. cbn [length]. lia.
Qed.

Lemma encode_group a b c d :
  base64_encode (a :: b :: c :: d) false
  = map (fun i => at_ b64 (Z.to_nat i)) [i0 a; i1 a b; i2 b c; i3 c]
    ++ base64_encode d false.
Proof.
  unfold base64_encode.
  replace (Z.to_nat ((zlen (a :: b :: c :: d) * 8 + 5) / 6))
    with (4 + Z.to_nat ((zlen d * 8 + 5) / 6))%nat.
  2: { cbn [length]. replace (Z.of_nat (S (S (S (length d)))) * 8 + 5)
         with (zlen d * 8 + 5 + 4 * 6) by lia.
       rewrite Z.div_add by lia. pose proof (Z.div_pos (zlen d * 8 + 5) 6). lia. }
  set (n := Z.to_nat ((zlen d * 8 + 5) / 6)).
  rewrite seq_app, map_app. f_equal.
  - assert (L : forall k, k <= 2 -> (k <? zlen (a :: b :: c :: d)) = true).
    { intros k Hk. apply Z.ltb_lt. cbn [length]. lia. }
    set (len := zlen _) in *. cbn [seq map]. unfold b64_idx.
    change (Z.of_nat 0 * 6) with 0. change (Z.of_nat 1 * 6) with 6.
    change (Z.of_nat 2 * 6) with 12. change (Z.of_nat 3 * 6) with 18.
    change (6 / 8 + 1) with 1. change (12 / 8 + 1) with 2. rewrite (L 1), (L 2) by lia. done.
  - change (seq (0 + 4) n) with (seq (4 + 0) n). rewrite <- (fmap_add_seq 4 0 n).
    change (Nat.add 4 <$> seq 0 n) with (map (Nat.add 4) (seq 0 n)). rewrite map_map.
    apply map_ext. intros i. do 2 f_equal.
    replace (Z.of_nat (4 + i)) with (Z.of_nat i + 4) by lia. apply b64_idx_shift. lia.
Qed.

(** Induction three bytes at a time. *)
Lemma list_ind3 {A} (P : list A -> Prop) :
  P [] -> (forall a, P [a]) -> (forall a b, P [a; b]) ->
  (forall a b c l, P l -> P (a :: b :: c :: l)) -> forall l, P l.
Proof.
  intros H0 H1 H2 H3.
  assert (forall l, P l /\ (forall a, P (a :: l)) /\ (forall a b, P (a :: b :: l))) as H.
  { induction l as [|x l (I1 & I2 & I3)]; split_and!; auto. }
  intros l. apply H.
Qed.

Lemma decode_encode d : Bytes d -> b64_decode (base64_encode d false) = d.
Proof.
  induction d as [|a|a b|a b c d IH] using list_ind3; intros Hd.
  - done.
  - apply Forall_cons in Hd as [Ha _].
    change (base64_encode [a] false)
      with (map (fun i => at_ b64 (Z.to_nat i)) [i0 a; Z.land (Z.shiftl a 4) 63]).
    pose proof (i0_ok a Ha) as H0. pose proof (i1_ok a 0 Ha ltac:(done)) as H1.
    replace (i1 a 0) with (Z.land (Z.shiftl a 4) 63) in H1
      by (unfold i1; by rewrite Z.shiftr_0_l, Z.lor_0_r).
    apply andb_true_iff in H0 as [H0 E0], H1 as [H1 E1].
    cbn [map b64_decode]. rewrite !b64_val_at by done. b2p. f_equal.
    rewrite E0, E1. pose proof (Z.div_mod a 4). change (0 / 16) with 0.
    rewrite Z.add_0_r, Z.div_mul by lia. lia.
  - apply Forall_cons in Hd as [Ha [Hb _]%Forall_cons].
    change (base64_encode [a; b] false)
      with (map (fun i => at_ b64 (Z.to_nat i)) [i0 a; i1 a b; Z.land (Z.shiftl b 2) 63]).
    pose proof (i0_ok a Ha) as H0. pose proof (i1_ok a b Ha Hb) as H1.
    pose proof (i2_ok b 0 Hb ltac:(done)) as H2.
    replace (i2 b 0) with (Z.land (Z.shiftl b 2) 63) in H2
      by (unfold i2; by rewrite Z.shiftr_0_l, Z.lor_0_r).
    apply andb_true_iff in H0 as [H0 E0], H1 as [H1 E1], H2 as [H2 E2].
    cbn [map b64_decode]. rewrite !b64_val_at by done. b2p.
    rewrite E0, E1, E2. unfold is_byte in *. f_equal; [|f_equal]; zdm.
  - apply Forall_cons in Hd as [Ha [Hb [Hc Hd]%Forall_cons]%Forall_cons].
    rewrite encode_group. cbn [map app b64_decode].
    pose proof (i0_ok a Ha) as H0. pose proof (i1_ok a b Ha Hb) as H1.
    pose proof (i2_ok b c Hb Hc) as H2. pose proof (i3_ok c Hc) as H3.
    apply andb_true_iff in H0 as [H0 E0], H1 as [H1 E1], H2 as [H2 E2], H3 as [H3 E3].
    rewrite !b64_val_at by done. b2p. rewrite IH by done.
    rewrite E0, E1, E2, E3. unfold is_byte in *. f_equal; [|f_equal; [|f_equal]]; zdm.
Qed.

Lemma length_base64 d : zlen (base64_encode d false) = (zlen d * 8 + 5) / 6.
Proof.
  unfold base64_encode. rewrite length_map, length_seq.
  rewrite Z2Nat.id; [done|]. apply Z.div_pos; lia.
Qed.

(** A character of [b64] is '/' only for index 63. *)
Lemma b64_slash i : in64 i = true -> at_ b64 (Z.to_nat i) = 47 -> i = 63.
Proof.
  intros Hi E. rewrite <- (b64_val_at i Hi), E. by vm_compute.
Qed.

(** Bytes of which no six-bit group is all ones. *)
Definition plain (b : Z) : bool :=
  (0 <=? b) && (b <? 128) && negb (b =? 63) && negb (b =? 127).

Lemma plain_byte b : plain b = true -> is_byte b.
Proof. unfold plain, is_byte. intros. b2p. lia. Qed.

Lemma plain_groups a b :
  is_byte a -> is_byte b -> plain a = true -> plain b = true ->
  i0 a <> 63 /\ i1 a b <> 63 /\ i2 a b <> 63 /\ i3 a <> 63.
Proof.
  intros Ha Hb Pa Pb.
  pose proof (i0_ok a Ha) as H0. pose proof (i1_ok a b Ha Hb) as H1.
  pose proof (i2_ok a b Ha Hb) as H2. pose proof (i3_ok a Ha) as H3.
  unfold plain, is_byte in *. b2p. zdm.
Qed.

Lemma encode_no_slash d :
  Forall (fun b => plain b = true) d -> 47 ∉ base64_encode d false.
Proof.
  assert (P0 : plain 0 = true) by done.
  assert (K : forall i, in64 i = true -> i <> 63 -> 47 <> at_ b64 (Z.to_nat i)).
  { intros i Hi Hn E. apply Hn, b64_slash; auto. }
  assert (G : forall a b, plain a = true -> plain b = true ->
    47 <> at_ b64 (Z.to_nat (i0 a)) /\ 47 <> at_ b64 (Z.to_nat (i1 a b)) /\
    47 <> at_ b64 (Z.to_nat (i2 a b)) /\ 47 <> at_ b64 (Z.to_nat (i3 a))).
  { intros a b Pa Pb. pose proof (plain_byte a Pa). pose proof (plain_byte b Pb).
    destruct (plain_groups a b) as (?&?&?&?); [done..|].
    pose proof (i0_ok a). pose proof (i1_ok a b). pose proof (i2_ok a b). pose proof (i3_ok a).
    split_and!; apply K; try done;
      [destruct (in64 (i0 a))|destruct (in64 (i1 a b))|destruct (in64 (i2 a b))|destruct (in64 (i3 a))];
      naive_solver. }
  induction d as [|a|a b|a b c d IH] using list_ind3; intros Hd.
  - by apply not_elem_of_nil.
  - apply Forall_cons in Hd as [Ha _].
    change (base64_encode [a] false)
      with (map (fun i => at_ b64 (Z.to_nat i)) [i0 a; Z.land (Z.shiftl a 4) 63]).
    destruct (G a 0) as (G0 & G1 & _); [done..|].
    replace (i1 a 0) with (Z.land (Z.shiftl a 4) 63) in G1
      by (unfold i1; by rewrite Z.shiftr_0_l, Z.lor_0_r).
    cbn [map]. rewrite !not_elem_of_cons. auto using not_elem_of_nil.
  - apply Forall_cons in Hd as [Ha [Hb _]%Forall_cons].
    change (base64_encode [a; b] false)
      with (map (fun i => at_ b64 (Z.to_nat i)) [i0 a; i1 a b; Z.land (Z.shiftl b 2) 63]).
    destruct (G a b) as (G0 & G1 & _); [done..|].
    destruct (G b 0) as (_ & _ & G2 & _); [done..|].
    replace (i2 b 0) with (Z.land (Z.shiftl b 2) 63) in G2
      by (unfold i2; by rewrite Z.shiftr_0_l, Z.lor_0_r).
    cbn [map]. rewrite !not_elem_of_cons. auto using not_elem_of_nil.
  - apply Forall_cons in Hd as [Ha [Hb [Hc Hd]%Forall_cons]%Forall_cons].
    rewrite encode_group, not_elem_of_app. split; [|by apply IH].
    destruct (G a b) as (G0 & G1 & _); [done..|].
    destruct (G b c) as (_ & _ & G2 & _); [done..|].
    destruct (G c c) as (_ & _ & _ & G3); [done..|].
    cbn [map]. rewrite !not_elem_of_cons. auto 6 using not_elem_of_nil.
Qed.

Lemma encode_no_dot d : 46 ∉ base64_encode d false.
Proof.
  unfold base64_encode. intros Hin. apply list_elem_of_fmap in Hin as (i & Hi & _).
  set (k := Z.to_nat _) in Hi. clearbody k. unfold at_ in Hi.
  destruct (nth_in_or_default k b64 0) as [Hx|Hx]; rewrite <- Hi in Hx; [|done].
  apply list_elem_of_In in Hx. revert Hx. by apply (bool_decide_unpack _).
Qed.

(** ** Properties *)

(** The base64 text of a string of digits, letters and underscores (any
    ASCII bytes but [?] and DEL) decodes to it and holds no slash, so it can be
    one component of a path and different strings give different names. *)
Theorem base64_name_safe d :
  Forall (fun b => plain b = true) d ->
  b64_decode (base64_encode d false) = d /\ 47 ∉ base64_encode d false.
Proof.
  intros Hd. split; [|by apply encode_no_slash]. apply decode_encode.
  eapply Forall_impl; [exact Hd|]. apply plain_byte.
Qed.

End Base64.

Module Hex.

(** ** lib/util_hex.c *)

(** The value of one nibble as [decode_hex] computes it from the (signed)
    character read; [None] is the [break]. *)
Definition nibble (ch : Z) : option Z :=
  let s := Z.lor 32 (schar ch) in
  if (48 <=? s) && (s <=? 57) then Some (s - 48)
  else if (97 <=? s) && (s <=? 102) then Some (s - 97 + 10)
  else None.

(** [decode_hex(hex, bin, buflen)]: the bytes stored before the terminator;
    the result of the call is their number.  A missing second digit is the
    terminator of [hex], which is not a digit. *)
Fixpoint decode_hex (hex : bytes) (buflen : nat) : bytes :=
  match buflen, hex with
  | S n, h :: t =>
      match nibble h with
      | None => []
      | Some c =>
          match nibble (at_ t 0) with
          | None => []
          | Some c2 => u8 (Z.shiftl c 4 + c2) :: decode_hex (drop 1 t) n
          end
      end
  | _, _ => []
  end.

(** The terminator [decode_hex] adds when there is room for it. *)
Definition decode_hex_store (hex : bytes) (buflen : nat) : bytes :=
  let out := decode_hex hex buflen in
  if decide (length out < buflen)%nat then out ++ [0] else out.

Definition digits : bytes := str "0123456789abcdef".

Fixpoint encode_hex (bin : bytes) : bytes :=
  match bin with
  | [] => []
  | b :: t => at_ digits (Z.to_nat (Z.shiftr b 4)) :: at_ digits (Z.to_nat (Z.land b 15))
              :: encode_hex t
  end.

(** [get_str_md5] and [get_md5_by_ctx] (lib/util_misc.c) print a digest with
    [sprintf(smd5, "%02x", *o)] where [o] is a [char *]: a byte above 127 is
    promoted to a negative [int] and prints as eight digits, of which the
    next iteration, two characters on, overwrites all but the first two. *)
Definition hex_int (c : Z) : bytes :=
  if schar c <? 0
  then str "ffffff" ++ hex02 c else hex02 c.

Fixpoint print_md5 (o : bytes) : bytes :=
  match o with
  | [] => []
  | [c] => hex_int c
  | c :: t => take 2 (hex_int c) ++ print_md5 t
  end.

(** ** Lemmas *)

Lemma nibble_byte b :
  is_byte b ->
  match nibble (at_ digits (Z.to_nat (Z.shiftr b 4))),
        nibble (at_ digits (Z.to_nat (Z.land b 15))) with
  | Some c, Some c2 => u8 (Z.shiftl c 4 + c2) = b
  | _, _ => False
  end.
Proof.
  intros Hb.
  assert (E : match nibble (at_ digits (Z.to_nat (Z.shiftr b 4))),
        nibble (at_ digits (Z.to_nat (Z.land b 15))) with
  | Some c, Some c2 => u8 (Z.shiftl c 4 + c2) =? b
  | _, _ => false end = true).
  { by Base64.exhaust_byte b. }
  repeat (destruct (nibble _); [|done]). by b2p.
Qed.

(** Decoding the hexadecimal text of a block of bytes into a buffer that
    is large enough gives the block back. *)
Theorem hex_roundtrip b n :
  Bytes b -> (length b <= n)%nat -> decode_hex (encode_hex b) n = b.
Proof.
  intros Hb. revert n. induction Hb as [|x b Hx Hb IH]; intros n Hn; [by destruct n|].
  destruct n as [|n]; [simpl in Hn; lia|]. cbn [encode_hex decode_hex at_ nth drop].
  pose proof (nibble_byte x Hx) as H.
  destruct (nibble _) as [c|]; [|done].
  change (nth 0 (?a :: ?t) 0) with a.
  destruct (nibble _) as [c2|]; [|done].
  rewrite H. f_equal. apply IH. simpl in Hn. lia.
Qed.

Lemma length_decode_hex hex n : (length (decode_hex hex n) <= n)%nat.
Proof.
  revert hex. induction n as [|n IH]; intros hex; destruct hex as [|h t]; simpl; try lia.
  destruct (nibble h); [|simpl; lia]. destruct (nibble _); simpl; [|lia].
  specialize (IH (drop 1 t)). lia.
Qed.

Lemma length_encode_hex b : length (encode_hex b) = (2 * length b)%nat.
Proof. induction b as [|x b IH]; simpl; lia. Qed.

Lemma print_md5_low o :
  Forall (fun c => 0 <= c < 128) o -> print_md5 o = encode_hex o.
Proof.
  assert (E : forall c, 0 <= c < 128 -> hex_int c =
    [at_ digits (Z.to_nat (Z.shiftr c 4)); at_ digits (Z.to_nat (Z.land c 15))]).
  { intros c Hc.
    assert (F : (if c <? 128 then bool_decide (hex_int c =
      [at_ digits (Z.to_nat (Z.shiftr c 4)); at_ digits (Z.to_nat (Z.land c 15))])
      else true) = true).
    { Base64.exhaust_byte c. unfold is_byte. lia. }
    destruct (c <? 128) eqn:G; b2p; [done|lia]. }
  induction 1 as [|c o Hc Ho IH]; [done|].
  cbn [encode_hex]. rewrite <- IH. destruct o as [|c' o]; cbn [print_md5].
  - by rewrite E.
  - by rewrite (E c Hc).
Qed.

(** ** Properties *)

End Hex.

Module Ip.

(** ** lib/util_ip.c on a little-endian host *)

Definition INADDR_NONE : Z := 4294967295.

(** [str2ip]: the address in network order. *)
Definition str2ip (s : bytes) : Z :=
  if negb (isdigit (at_ s 0)) then INADDR_NONE else
  let '(v, s1) := strtoul0 s in
  let addr := u32 v in
  if negb (at_ s1 0 =? 46) then
    let temp := Z.shiftr addr 24 in
    if (temp =? 0) || (224 <=? temp) then INADDR_NONE else htonl addr
  else if negb (isdigit (at_ s1 1)) then INADDR_NONE
  else if (addr =? 0) || (224 <=? addr) then INADDR_NONE else
  let '(v, s2) := strtoul0 (drop 1 s1) in
  let temp := u32 v in
  if negb (at_ s2 0 =? 46) then
    if Z.shiftl 1 24 <=? temp then INADDR_NONE else u32 (addr + htonl temp)
  else if negb (isdigit (at_ s2 1)) then INADDR_NONE
  else if 256 <=? temp then INADDR_NONE else
  let addr := u32 (addr + u32 (Z.shiftl temp 8)) in
  let '(v, s3) := strtoul0 (drop 1 s2) in
  let temp := u32 v in
  if negb (at_ s3 0 =? 46) then
    if Z.shiftl 1 16 <=? temp then INADDR_NONE else u32 (addr + htonl temp)
  else if negb (isdigit (at_ s3 1)) then INADDR_NONE else
  let addr := u32 (addr + u32 (Z.shiftl temp 16)) in
  let '(v, _) := strtoul0 (drop 1 s3) in
  let temp := u32 v in
  if 256 <=? temp then INADDR_NONE else u32 (addr + u32 (Z.shiftl temp 24)).

(** One octet as [ip2str] prints it. *)
Definition octet (c : Z) : bytes :=
  if 100 <=? c then [48 + c / 100; 48 + (c / 10) mod 10; 48 + c mod 10]
  else if 10 <=? c then [48 + c / 10; 48 + c mod 10]
  else [48 + c].

Definition ip2str (ip : Z) : bytes :=
  let c k := at_ (le_split 4 ip) k in
  octet (c 0%nat) ++ 46 :: octet (c 1%nat) ++ 46 :: octet (c 2%nat) ++ 46 :: octet (c 3%nat).

(** [get_ip_by_domain] and [get_uint32_ip] (lib/common.c): the resolver
    [gethostbyname] gives the printed addresses of a name, if any. *)
Section Resolver.
Context (gethostbyname : bytes -> option (list bytes)).

Definition get_ip_by_domain (domain : bytes) : option bytes :=
  match gethostbyname domain with
  | Some (a :: _) => Some a
  | _ => None
  end.

(** The address and the string stored at [s_ip] ([None]: left unchanged). *)
Definition get_uint32_ip (sip : bytes) : Z * option bytes :=
  let ip := str2ip sip in
  if ip =? INADDR_NONE then
    match get_ip_by_domain sip with
    | None => (INADDR_NONE, None)
    | Some tmpip => (str2ip tmpip, Some (snprintf 16 tmpip))
    end
  else (ip, Some (snprintf 16 sip)).
End Resolver.

(** ** Lemmas *)

Lemma octet_udec c : is_byte c -> octet c = udec c.
Proof.
  intros Hc.
  assert (E : bool_decide (octet c = udec c) = true) by by Base64.exhaust_byte c.
  by b2p.
Qed.

Lemma udec_byte_head c t : isdigit (at_ (udec c ++ t) 0) = true.
Proof.
  destruct (udec_nonempty c) as (x & u & E). pose proof (udec_digits c) as D.
  rewrite E in *. apply Forall_cons in D as [D _]. by apply isdigit_iff.
Qed.

Lemma strtoul0_octet c t :
  is_byte c -> (forall x u, t = x :: u -> x = 46) ->
  strtoul0 (udec c ++ t) = (c, t).
Proof.
  intros Hc Ht. apply strtoul0_udec; [unfold is_byte in Hc; lia|].
  intros x u E. by rewrite (Ht x u E).
Qed.

Lemma ip_bytes ip :
  0 <= ip < 4294967296 ->
  exists a b c d, le_split 4 ip = [a; b; c; d] /\ is_byte a /\ is_byte b /\
    is_byte c /\ is_byte d /\ ip = a + 256 * b + 65536 * c + 16777216 * d.
Proof.
  intros Hip. pose proof (le_split_bytes 4 ip) as HB.
  pose proof (le_combine_split 4 ip) as HC. rewrite Z.mod_small in HC by lia.
  cbn [le_split] in *.
  apply Forall_cons in HB as [H1 [H2 [H3 [H4 _]%Forall_cons]%Forall_cons]%Forall_cons].
  eexists _, _, _, _. split; [done|]. do 4 (split; [done|]).
  cbn [le_combine] in HC. lia.
Qed.

Lemma at_S x l i : at_ (x :: l) (S i) = at_ l i.
Proof. done. Qed.

Lemma drop_1 (x : Z) l : drop 1 (x :: l) = l.
Proof. done. Qed.

Lemma at_0 x l : at_ (x :: l) 0 = x.
Proof. done. Qed.

(** Reads one printed octet and the dot after it. *)
Ltac read_octet c :=
  rewrite strtoul0_octet by (done || (intros; simplify_eq; done));
  rewrite (u32_small c) by lia; rewrite ?at_S, ?at_0, ?drop_1; cbn [negb Z.eqb Pos.eqb];
  rewrite ?udec_byte_head; cbn [negb].

Lemma str2ip_dotted a b c d :
  is_byte a -> is_byte b -> is_byte c -> is_byte d -> 1 <= a < 224 ->
  str2ip (udec a ++ 46 :: udec b ++ 46 :: udec c ++ 46 :: udec d)
  = a + 256 * b + 65536 * c + 16777216 * d.
Proof.
  intros Ha Hb Hc Hd Ha'. unfold is_byte in *.
  unfold str2ip. rewrite udec_byte_head. cbn [negb].
  rewrite <- (app_nil_r (udec d)).
  read_octet a. destruct ((a =? 0) || (224 <=? a)) eqn:E; b2p; [lia|].
  read_octet b. destruct (256 <=? b) eqn:E1; b2p; [lia|].
  read_octet c. read_octet d. destruct (256 <=? d) eqn:E2; b2p; [lia|].
  rewrite !Z.shiftl_mul_pow2 by lia. change (2 ^ 8) with 256.
  change (2 ^ 16) with 65536. change (2 ^ 24) with 16777216.
  rewrite (u32_small (b * _)), (u32_small (c * _)), (u32_small (d * _)) by lia.
  rewrite (u32_small (a + _)) by lia. rewrite (u32_small (a + _ + _)) by lia.
  rewrite u32_small; lia.
Qed.

Lemma ip2str_eq ip a b c d :
  le_split 4 ip = [a; b; c; d] -> is_byte a -> is_byte b -> is_byte c -> is_byte d ->
  ip2str ip = udec a ++ 46 :: udec b ++ 46 :: udec c ++ 46 :: udec d.
Proof. intros E ????. unfold ip2str. rewrite E. cbn [at_ nth]. by rewrite !octet_udec. Qed.

Lemma str2ip_ip2str ip :
  0 <= ip < 4294967296 -> 1 <= ip mod 256 < 224 -> str2ip (ip2str ip) = ip.
Proof.
  intros Hip Ha. destruct (ip_bytes ip Hip) as (a & b & c & d & E & B1 & B2 & B3 & B4 & ->).
  rewrite (ip2str_eq _ a b c d) by done. apply str2ip_dotted; try done.
  unfold is_byte in *. rewrite <- !Z.add_assoc in Ha.
  replace (a + (256 * b + (65536 * c + 16777216 * d)))
    with (a + (b + 256 * c + 65536 * d) * 256) in Ha by lia.
  rewrite Z.mod_add, Z.mod_small in Ha by lia. lia.
Qed.

(** The text fits the 16-byte buffers it is printed into. *)
Lemma length_ip2str ip : (length (ip2str ip) <= 15)%nat.
Proof.
  assert (H : forall c, (length (octet c) <= 3)%nat).
  { intros c. unfold octet. repeat case_match_goal; simpl; lia. }
  unfold ip2str. repeat (rewrite length_app; cbn [length]).
  pose proof (H (at_ (le_split 4 ip) 0)). pose proof (H (at_ (le_split 4 ip) 1)).
  pose proof (H (at_ (le_split 4 ip) 2)). pose proof (H (at_ (le_split 4 ip) 3)). lia.
Qed.

(** ** Properties *)

(** The text [ip2str] prints for an address fits the 16-byte buffers of
    the program, and for an address whose first octet [str2ip] accepts (1 to
    223) reading the text back gives the address. *)
Theorem ip_text_roundtrip ip :
  0 <= ip < 4294967296 -> 1 <= ip mod 256 < 224 ->
  str2ip (ip2str ip) = ip /\ (length (ip2str ip) < 16)%nat.
Proof.
  intros H1 H2. split; [by apply str2ip_ip2str|]. pose proof (length_ip2str ip). lia.
Qed.

Lemma ip_text_roundtrip_witness :
  str2ip (ip2str 16820416) = 16820416 /\ (length (ip2str 16820416) < 16)%nat.
Proof. apply ip_text_roundtrip; vm_compute; split; discriminate || reflexivity. Defined.

End Ip.

Module Decimal.

(** ** uint2str and int2str (lib/util.h)

    The ladder of tests chooses the number of characters [c]; the labels
    [len9] ... [len1] fill them from the last to the first. *)

Definition ladder (n : Z) : nat :=
  if n <? 10 then 1
  else if n <? 100 then 2
  else if n <? 1000 then 3
  else if n <? 10000 then 4
  else if n <? 100000 then 5
  else if n <? 1000000 then 6
  else if n <? 10000000 then 7
  else if n <? 100000000 then 8
  else if n <? 1000000000 then 9
  else 10.

(** Falling through the labels from [len k]: position [k - 1] gets the last
    digit, position 0 what is left.  C's [%] and [/] truncate. *)
Fixpoint fill (k : nat) (n : Z) (acc : bytes) : bytes :=
  match k with
  | O => acc
  | S k' => match k' with
            | O => u8 (Z.lor 48 n) :: acc
            | S _ => fill k' (Z.quot n 10) (u8 (Z.lor 48 (Z.rem n 10)) :: acc)
            end
  end.

Definition uint2str (n : Z) : bytes := fill (ladder n) n [].

(** [n = -n] wraps for the least [int]. *)
Definition int2str (n : Z) : bytes :=
  if n <? 0 then 45 :: fill (ladder (i32 (- n))) (i32 (- n)) []
  else fill (ladder n) n [].

(** ** Lemmas *)

Lemma digit_or d : 0 <= d < 10 -> u8 (Z.lor 48 d) = 48 + d.
Proof.
  intros Hd. assert (E : (if d <? 10 then u8 (Z.lor 48 d) =? 48 + d else true) = true).
  { Base64.exhaust_byte d. unfold is_byte. lia. }
  destruct (d <? 10) eqn:F; b2p; lia.
Qed.

(** [udec_go] does not depend on spare fuel. *)
Lemma udec_go_enough f g n acc :
  0 <= n -> n < 10 ^ Z.of_nat (S f) -> n < 10 ^ Z.of_nat (S g) ->
  udec_go (S f) n acc = udec_go (S g) n acc.
Proof.
  revert g n acc. induction f as [|f IH]; intros g n acc Hn Hf Hg.
  - change (10 ^ Z.of_nat 1) with 10 in Hf. cbn [udec_go].
    destruct (n <? 10) eqn:E; b2p; [done|lia].
  - cbn [udec_go]. destruct (n <? 10) eqn:E; b2p; [done|].
    destruct g as [|g]; [change (10 ^ Z.of_nat 1) with 10 in Hg; lia|].
    apply IH; [apply Z.div_pos; lia|..]; apply Z.div_lt_upper_bound; try lia;
      [rewrite (Nat2Z.inj_succ (S f)), Z.pow_succ_r in Hf|
       rewrite (Nat2Z.inj_succ (S g)), Z.pow_succ_r in Hg]; lia.
Qed.

Lemma fill_udec k n acc :
  0 <= n -> (k = 0%nat \/ 10 ^ Z.of_nat k <= n) -> n < 10 ^ Z.of_nat (S k) ->
  fill (S k) n acc = udec_go (S k) n acc.
Proof.
  revert n acc. induction k as [|k IH]; intros n acc Hn Hlo Hhi.
  - change (10 ^ Z.of_nat 1) with 10 in Hhi. cbn [fill udec_go].
    destruct (n <? 10) eqn:E; b2p; [|lia]. rewrite digit_or, Z.mod_small by lia. done.
  - destruct Hlo as [|Hlo]; [lia|].
    rewrite (Nat2Z.inj_succ (S k)), Z.pow_succ_r in Hhi by lia.
    rewrite (Nat2Z.inj_succ k), Z.pow_succ_r in Hlo by lia.
    assert (1 <= 10 ^ Z.of_nat k) by (apply (Z.pow_le_mono_r 10 0); lia).
    change (fill (S (S k)) n acc)
      with (fill (S k) (Z.quot n 10) (u8 (Z.lor 48 (Z.rem n 10)) :: acc)).
    change (udec_go (S (S k)) n acc)
      with (if n <? 10 then (48 + n mod 10) :: acc
            else udec_go (S k) (n / 10) ((48 + n mod 10) :: acc)).
    destruct (n <? 10) eqn:E; b2p; [lia|].
    rewrite Z.quot_div_nonneg, Z.rem_mod_nonneg by lia.
    pose proof (Z.mod_pos_bound n 10 ltac:(lia)). rewrite digit_or by lia.
    apply IH; [apply Z.div_pos; lia| |apply Z.div_lt_upper_bound; lia].
    right. apply Z.div_le_lower_bound; lia.
Qed.

Lemma ladder_bounds n :
  0 <= n < 10 ^ 10 ->
  exists k, ladder n = S k /\ (k = 0%nat \/ 10 ^ Z.of_nat k <= n) /\ n < 10 ^ Z.of_nat (S k).
Proof.
  intros Hn. unfold ladder.
  repeat (match goal with |- context [if ?b then _ else _] => destruct b eqn:?; b2p;
    [eexists; split; [done|]; split; [first [by left|right; cbn; lia]|cbn; lia]|] end).
  eexists. split; [done|]. split; [right; cbn; lia|cbn in *; lia].
Qed.

Lemma fill_ladder n : 0 <= n < 10 ^ 10 -> fill (ladder n) n [] = udec n.
Proof.
  intros Hn. destruct (ladder_bounds n Hn) as (k & -> & H1 & H2).
  rewrite fill_udec by (done || lia). unfold udec.
  apply udec_go_enough; [lia|done|]. apply udec_fuel. lia.
Qed.

End Decimal.

Module Misc.

(** ** r5hash and trim_in (lib/common.c) *)

Fixpoint r5hash_go (h : Z) (p : bytes) : Z :=
  match p with
  | [] => h
  | c :: t => r5hash_go (u32 (h * 11 + Z.shiftl (schar c) 4 + Z.shiftr (schar c) 4)) t
  end.

Definition r5hash (p : bytes) : Z := r5hash_go 0 p.

Fixpoint skip_blank (s : bytes) : bytes :=
  match s with
  | c :: t => if c =? 32 then skip_blank t else s
  | [] => []
  end.

(** The copying loop with its counter [c] of consecutive blanks. *)
Fixpoint trim_copy (c : Z) (s : bytes) : bytes :=
  match s with
  | [] => []
  | x :: t => if x =? 32 then if c + 1 =? 1 then x :: trim_copy (c + 1) t
                              else trim_copy (c + 1) t
              else x :: trim_copy 0 t
  end.

Definition trim_in (s : bytes) : bytes := trim_copy 0 (skip_blank s).

(** The words of a line, and the text [trim_in] is to produce from them. *)
Fixpoint words_go (cur : bytes) (s : bytes) : list bytes :=
  match s with
  | [] => if decide (cur = []) then [] else [cur]
  | x :: t => if x =? 32 then if decide (cur = []) then words_go [] t
                              else cur :: words_go [] t
              else words_go (cur ++ [x]) t
  end.

Definition words (s : bytes) : list bytes := words_go [] s.

(** ** Lemmas *)

Lemma r5hash_go_range h p : 0 <= h < 4294967296 -> 0 <= r5hash_go h p < 4294967296.
Proof.
  revert h. induction p as [|c p IH]; intros h Hh; [done|]. simpl. apply IH, u32_range.
Qed.

Lemma r5hash_range p : 0 <= r5hash p < 4294967296.
Proof. by apply r5hash_go_range. Qed.

Lemma words_go_pos cur s : cur <> [] -> words_go cur s <> [].
Proof.
  revert cur. induction s as [|x s IH]; intros cur Hc; simpl.
  - by rewrite decide_False.
  - destruct (x =? 32); [by rewrite decide_False|]. apply IH. by destruct cur.
Qed.

Lemma trim_copy_words c cur s :
  0 <= c -> (cur <> [] -> c = 0) ->
  words_go cur (trim_copy c s) = words_go cur s.
Proof.
  revert c cur. induction s as [|x s IH]; intros c cur Hc Hcur; [done|]. simpl.
  destruct (x =? 32) eqn:E.
  - destruct (c + 1 =? 1) eqn:E1; b2p.
    + simpl. subst x. change (32 =? 32) with true. cbv iota. rewrite IH by (done || lia). done.
    + destruct (decide (cur = [])) as [->|n]; [|specialize (Hcur n); lia].
      rewrite IH; [done|lia|done].
  - simpl. rewrite E. apply IH; [lia|done].
Qed.

Lemma words_skip_blank s : words (skip_blank s) = words s.
Proof.
  unfold words. induction s as [|x s IH]; [done|]. cbn [skip_blank].
  destruct (x =? 32) eqn:E; [|done]. cbn [words_go]. rewrite E, decide_True by done. done.
Qed.

Lemma trim_in_words s : words (trim_in s) = words s.
Proof.
  rewrite <- (words_skip_blank s). unfold trim_in, words. by apply trim_copy_words.
Qed.

(** No two blanks in a row, and none at the start. *)
Fixpoint single_blanks (prev : bool) (s : bytes) : bool :=
  match s with
  | [] => true
  | x :: t => if x =? 32 then negb prev && single_blanks true t else single_blanks false t
  end.

Lemma trim_copy_single c s :
  0 <= c -> single_blanks (0 <? c) (trim_copy c s) = true.
Proof.
  revert c. induction s as [|x s IH]; intros c Hc; [done|]. simpl.
  destruct (x =? 32) eqn:E.
  - destruct (c + 1 =? 1) eqn:E1; b2p.
    + simpl. subst x. change (32 =? 32) with true. cbv iota.
      assert (c = 0) as -> by lia. simpl. apply (IH 1). lia.
    + specialize (IH (c + 1) ltac:(lia)). replace (0 <? c) with (0 <? c + 1); [done|].
      apply eq_true_iff_eq. rewrite !Z.ltb_lt. lia.
  - simpl. rewrite E. apply (IH 0). lia.
Qed.

Lemma skip_blank_head s x t : skip_blank s = x :: t -> (x =? 32) = false.
Proof.
  induction s as [|y s IH]; simpl; [done|]. destruct (y =? 32) eqn:E; [done|]. congruence.
Qed.

Lemma trim_in_single s : single_blanks true (trim_in s) = true.
Proof.
  unfold trim_in. destruct (skip_blank s) as [|x t] eqn:E; [done|].
  apply skip_blank_head in E. pose proof (trim_copy_single 0 (x :: t) ltac:(lia)) as H.
  simpl in *. rewrite E in *. simpl in *. by rewrite E in *.
Qed.

End Misc.

Module TimeText.

(** ** get_strtime_by_t and get_time_t (lib/common.c)

    The conversions between [time_t] and broken-down time depend on the time
    zone of the host: [localtime_r] and [mktime] are parameters. *)

Record tm := mk_tm {
  tm_year : Z; tm_mon : Z; tm_mday : Z; tm_hour : Z; tm_min : Z; tm_sec : Z
}.

Section Zone.
Context (localtime_r : Z -> tm) (mktime : tm -> Z).

Definition get_strtime_by_t (now : Z) : bytes :=
  let t := localtime_r now in
  dec0 4 (tm_year t + 1900) ++ dec0 2 (tm_mon t + 1) ++ dec0 2 (tm_mday t) ++
  dec0 2 (tm_hour t) ++ dec0 2 (tm_min t) ++ dec0 2 (tm_sec t).

Definition get_time_t (p : bytes) : Z :=
  if negb (zlen p =? 14) then 0
  else
    let field off n := atoi (snprintf 8 (take n (drop off p))) in
    mktime (mk_tm (field 0 4 - 1900) (field 4 2 - 1) (field 6 2) (field 8 2)
              (field 10 2) (field 12 2))%nat.

(** The fields [localtime_r] may produce for a year of four digits. *)
Definition tm_ok (t : tm) : Prop :=
  0 <= tm_year t + 1900 < 10000 /\ 0 <= tm_mon t <= 11 /\ 1 <= tm_mday t <= 31 /\
  0 <= tm_hour t <= 23 /\ 0 <= tm_min t <= 59 /\ 0 <= tm_sec t <= 60.

Lemma dec0_2 n : 0 <= n < 100 -> length (dec0 2 n) = 2%nat.
Proof. intros. apply dec0_length, (length_udec n 1). done. Qed.

Lemma dec0_4 n : 0 <= n < 10000 -> length (dec0 4 n) = 4%nat.
Proof. intros. apply dec0_length, (length_udec n 3). done. Qed.

Lemma field_split (a b : bytes) n : length a = n -> drop n (a ++ b) = b /\ take n (a ++ b) = a.
Proof. intros <-. by rewrite drop_app_length, take_app_length. Qed.

Lemma get_time_fields y mo d h mi s :
  0 <= y < 10000 -> 0 <= mo < 100 -> 0 <= d < 100 -> 0 <= h < 100 -> 0 <= mi < 100 ->
  0 <= s < 100 ->
  get_time_t (dec0 4 y ++ dec0 2 mo ++ dec0 2 d ++ dec0 2 h ++ dec0 2 mi ++ dec0 2 s)
  = mktime (mk_tm (y - 1900) (mo - 1) d h mi s).
Proof.
  intros Hy Hmo Hd Hh Hmi Hs. unfold get_time_t.
  set (p := dec0 4 y ++ _).
  pose proof (dec0_4 y Hy). pose proof (dec0_2 mo Hmo). pose proof (dec0_2 d Hd).
  pose proof (dec0_2 h Hh). pose proof (dec0_2 mi Hmi). pose proof (dec0_2 s Hs).
  assert (L : zlen p = 14) by (unfold p; rewrite !length_app; lia). rewrite L. cbn [negb Z.eqb Pos.eqb].
  assert (F : forall a b off n v w,
    p = a ++ dec0 w v ++ b -> length a = off -> length (dec0 w v) = n -> (n <= 4)%nat ->
    0 <= v < 10000 -> atoi (snprintf 8 (take n (drop off p))) = v).
  { intros a b off n v w E La Lv Hn Hv. rewrite E.
    rewrite (proj1 (field_split a _ off La)), (proj2 (field_split _ b n Lv)).
    rewrite snprintf_fits by lia. apply atoi_dec0. lia. }
  rewrite (F [] (dec0 2 mo ++ dec0 2 d ++ dec0 2 h ++ dec0 2 mi ++ dec0 2 s) 0%nat 4%nat y 4%nat),
    (F (dec0 4 y) (dec0 2 d ++ dec0 2 h ++ dec0 2 mi ++ dec0 2 s) 4%nat 2%nat mo 2%nat),
    (F (dec0 4 y ++ dec0 2 mo) (dec0 2 h ++ dec0 2 mi ++ dec0 2 s) 6%nat 2%nat d 2%nat),
    (F (dec0 4 y ++ dec0 2 mo ++ dec0 2 d) (dec0 2 mi ++ dec0 2 s) 8%nat 2%nat h 2%nat),
    (F (dec0 4 y ++ dec0 2 mo ++ dec0 2 d ++ dec0 2 h) (dec0 2 s) 10%nat 2%nat mi 2%nat),
    (F (dec0 4 y ++ dec0 2 mo ++ dec0 2 d ++ dec0 2 h ++ dec0 2 mi) [] 12%nat 2%nat s 2%nat);
    try done; try lia; unfold p;
    rewrite ?app_nil_r, <- ?app_assoc; try done; rewrite ?length_app; lia.
Qed.

Lemma time_text_roundtrip now :
  tm_ok (localtime_r now) -> mktime (localtime_r now) = now ->
  get_time_t (get_strtime_by_t now) = now.
Proof.
  intros (H1 & H2 & H3 & H4 & H5 & H6) Hmk. unfold get_strtime_by_t.
  rewrite get_time_fields by lia. rewrite <- Hmk at 7. f_equal.
  destruct (localtime_r now); simpl. f_equal; lia.
Qed.

End Zone.

(** ** Properties *)

(** For any time zone in which [mktime] inverts [localtime_r] at [now],
    the 14-digit text of a time is read back to that time. *)
Theorem time_text_restored localtime_r mktime now :
  tm_ok (localtime_r now) -> mktime (localtime_r now) = now ->
  get_time_t mktime (get_strtime_by_t localtime_r now) = now.
Proof. apply time_text_roundtrip. Qed.

(** The witness runs on a clock that counts seconds of one day in 2014. *)
Definition demo_tm (s : Z) : tm := mk_tm 114 0 1 (s / 3600) (s / 60 mod 60) (s mod 60).
Definition demo_mktime (t : tm) : Z := tm_hour t * 3600 + tm_min t * 60 + tm_sec t.

End TimeText.
