(* ===== verification/Para.v ===== *)
(** * The parameter strings of the agent (network/parsepara.c)

    The agent's requests are lists [name=value&name=value]; values are
    escaped with [%XX].  [Escape] models the escaping, [PairList] the bounded
    list of pairs and its text form.  A write past a fixed-size buffer is the
    result [None]. *)

From S2P Require Import Prelude.
From S2P Require Import CString.

Module Escape.

Definition ENCODE_TABLE : bytes := str "=&%".
Definition sHexTable : bytes := str "0123456789ABCDEF".

Definition shouldencode (ch : Z) : bool :=
  match strchr ENCODE_TABLE ch with Some _ => true | None => false end.

Definition enc_char (b : Z) : bytes :=
  if shouldencode b
  then [37; at_ sHexTable (Z.to_nat (Z.land (Z.shiftr (schar b) 4) 15));
        at_ sHexTable (Z.to_nat (Z.land (schar b) 15))]
  else [b].

Definition encode_string (s : bytes) : bytes := s ≫= enc_char.

Definition get_index (ch : Z) : Z :=
  match strchr sHexTable (toupper ch) with Some i => Z.of_nat i | None => -1 end.

(** The loop of [decode_string(s, sDecoded, n)] at [s + i] with [out] stored
    so far: the return code and the bytes stored.  The test [i >= len-2]
    compares unsigned numbers; it lets a lone ["%"] through, whose first
    digit is then the terminator. *)
Fixpoint decode_loop (len n : Z) (s out : bytes) : Z * bytes :=
  match s with
  | [] => (0, out)
  | c :: t =>
      if c =? 37 then
        if u32 (len - 2) <=? len - zlen s then (-1, out)
        else match t with
             | h :: l :: t' =>
                 let j := get_index h in
                 let k := get_index l in
                 if (j <? 0) || (k <? 0) then (-2, out)
                 else if n - 1 <=? zlen out then (0, out)
                 else decode_loop len n t' (out ++ [u8 (Z.shiftl j 4 + k)])
             | _ => (-2, out)
             end
      else if n - 1 <=? zlen out then (0, out)
      else decode_loop len n t (out ++ [c])
  end.

Definition decode_string (s : bytes) (n : Z) : Z * bytes := decode_loop (zlen s) n s [].

(** ** Lemmas *)

Lemma shouldencode_spec b : shouldencode b = true <-> b = 61 \/ b = 38 \/ b = 37.
Proof.
  unfold shouldencode. change ENCODE_TABLE with [61; 38; 37]. cbn [strchr].
  destruct (61 =? b) eqn:E1, (38 =? b) eqn:E2, (37 =? b) eqn:E3; b2p; cbn;
    (split; intros; [lia|try done; lia]).
Qed.

Lemma encode_string_plain s : 61 ∉ encode_string s /\ 38 ∉ encode_string s.
Proof.
  induction s as [|b s IH]; [split; apply not_elem_of_nil|].
  unfold encode_string in *. cbn [mbind list_bind]. rewrite !not_elem_of_app.
  assert (61 ∉ enc_char b /\ 38 ∉ enc_char b); [|tauto].
  unfold enc_char. destruct (shouldencode b) eqn:E.
  - apply shouldencode_spec in E as [-> | [-> | ->]];
      split; apply (bool_decide_unpack _); by vm_compute.
  - assert (~ (b = 61 \/ b = 38 \/ b = 37)).
    { intros H. apply shouldencode_spec in H. congruence. }
    split; intros ?%list_elem_of_singleton; lia.
Qed.

Lemma length_encode_ge s : (length s <= length (encode_string s))%nat.
Proof.
  unfold encode_string. induction s as [|b s IH]; [done|].
  cbn [mbind list_bind length]. rewrite length_app.
  unfold enc_char at 1. destruct (shouldencode b); cbn [length]; lia.
Qed.

Lemma length_encode_le s : (length (encode_string s) <= 3 * length s)%nat.
Proof.
  unfold encode_string. induction s as [|b s IH]; [done|].
  cbn [mbind list_bind length]. rewrite length_app.
  unfold enc_char at 1. destruct (shouldencode b); cbn [length]; lia.
Qed.

Lemma encode_cstr s : cstr s -> cstr (encode_string s).
Proof.
  unfold encode_string. induction 1 as [|b s Hb Hs IH]; [constructor|].
  cbn [mbind list_bind]. apply Forall_app. split; [|done].
  unfold enc_char. destruct (shouldencode b) eqn:E; [|by apply Forall_singleton].
  apply shouldencode_spec in E as [-> | [-> | ->]]; apply (bool_decide_unpack _); by vm_compute.
Qed.

Lemma decode_loop_encode len n (pre s : bytes) :
  len = zlen pre + zlen (encode_string s) -> len < 2 ^ 31 ->
  forall out, zlen out + zlen s < n ->
  decode_loop len n (encode_string s) out = (0, out ++ s).
Proof.
  revert pre. induction s as [|b s IH]; intros pre Hlen Hmax out Hn.
  { cbn. by rewrite app_nil_r. }
  unfold encode_string in *. cbn [mbind list_bind length] in *.
  rewrite length_app in Hlen. unfold enc_char at 1 in Hlen. unfold enc_char at 1.
  destruct (shouldencode b) eqn:E; cbn [app length] in *.
  - set (h := at_ sHexTable (Z.to_nat (Z.land (Z.shiftr (schar b) 4) 15))).
    set (l := at_ sHexTable (Z.to_nat (Z.land (schar b) 15))).
    cbn [decode_loop]. change (37 =? 37) with true. cbv iota.
    destruct (u32 (len - 2) <=? _) eqn:Eu; b2p.
    { cbn [length] in Eu. rewrite u32_small in Eu by lia. lia. }
    assert (Hjk : 0 <= get_index h /\ 0 <= get_index l /\
      u8 (Z.shiftl (get_index h) 4 + get_index l) = b).
    { unfold h, l. apply shouldencode_spec in E as [-> | [-> | ->]]; by vm_compute. }
    destruct Hjk as (H1 & H2 & H3).
    destruct ((get_index h <? 0) || (get_index l <? 0)) eqn:Ej; b2p; [lia|].
    destruct (n - 1 <=? zlen out) eqn:En; b2p; [lia|]. rewrite H3.
    rewrite (IH (pre ++ [37; h; l])), <- app_assoc; [done|..];
      rewrite ?length_app; cbn [length]; lia.
  - assert (b <> 37). { intros ->. by apply not_true_iff_false in E. }
    cbn [decode_loop]. destruct (b =? 37) eqn:Eb; b2p; [done|].
    destruct (n - 1 <=? zlen out) eqn:En; b2p; [lia|].
    rewrite (IH (pre ++ [b])), <- app_assoc; [done|..];
      rewrite ?length_app; cbn [length]; lia.
Qed.

(** What was escaped is restored, given room for the text and its terminator. *)
Lemma decode_encode_string s n :
  zlen (encode_string s) < 2 ^ 31 -> zlen s < n ->
  decode_string (encode_string s) n = (0, s).
Proof.
  intros H Hn. unfold decode_string.
  rewrite (decode_loop_encode _ n [] s); [done|cbn [length]; lia|done|cbn [length]; lia].
Qed.

(** The decoder never stores more than [n - 1] bytes before its terminator. *)
Lemma decode_loop_bound len n s out :
  zlen out <= n - 1 -> zlen (snd (decode_loop len n s out)) <= n - 1.
Proof.
  remember (length s) as k eqn:Hk. revert s out Hk.
  induction k as [k IH] using lt_wf_ind. intros s out Hk Ho.
  destruct s as [|c t]; [done|]. cbn [decode_loop].
  destruct (c =? 37).
  - destruct (_ <=? len - _); [done|]. destruct t as [|h [|l t']]; [done|done|].
    destruct (_ || _); [done|]. destruct (n - 1 <=? zlen out) eqn:E; b2p; [done|].
    eapply IH; [|done|]; [cbn [length] in Hk; lia|rewrite length_app; cbn [length]; lia].
  - destruct (n - 1 <=? zlen out) eqn:E; b2p; [done|].
    eapply IH; [|done|]; [cbn [length] in Hk; lia|rewrite length_app; cbn [length]; lia].
Qed.

(** ** Properties *)

(** The escaped text of a value holds neither [=] nor [&], the separators
    of the parameter syntax, and decoding it into a buffer with room for the
    value and its terminator gives the value back. *)
Theorem escape_roundtrip s n :
  zlen (encode_string s) < 2 ^ 31 -> zlen s < n ->
  61 ∉ encode_string s /\ 38 ∉ encode_string s /\ decode_string (encode_string s) n = (0, s).
Proof. intros H1 H2. destruct (encode_string_plain s). split_and!; [done..|by apply decode_encode_string]. Qed.

Lemma escape_roundtrip_witness :
  61 ∉ encode_string (str "a=b&c%d") /\ 38 ∉ encode_string (str "a=b&c%d") /\
  decode_string (encode_string (str "a=b&c%d")) 64 = (0, str "a=b&c%d").
Proof. apply escape_roundtrip; reflexivity. Defined.

End Escape.

Module PairList.
Import Escape.

Definition MAX_NAME_LEN : Z := 200.
Definition MAX_VALUE_LEN : Z := 4 * 1024.

Abbreviation StringPair := (bytes * bytes)%type.

Record StringPairList := mk_list {
  iLast : Z;
  iMaxPairNum : Z;
  pStrPairList : list StringPair   (* the array, [iMaxPairNum] entries *)
}.

(** [CreateStringPairList(iListNum)]; [junk] is what the fresh array holds,
    [alloc] whether the allocations succeed. *)
Definition CreateStringPairList (alloc : bool) (junk : list StringPair) (iListNum : Z)
  : option StringPairList :=
  if iListNum <? 0 then None
  else if alloc then Some (mk_list 0 iListNum junk) else None.

Definition ResetStringPairList (p : StringPairList) : StringPairList :=
  mk_list 0 (iMaxPairNum p) (pStrPairList p).

(** The pairs in use. *)
Definition pairs (p : StringPairList) : list StringPair :=
  take (Z.to_nat (iLast p)) (pStrPairList p).

(** [ConcatPairList]: copies while there is room. *)
Fixpoint concat_loop (p1 : StringPairList) (l : list StringPair) : StringPairList :=
  match l with
  | [] => p1
  | x :: t => if iMaxPairNum p1 <=? iLast p1 then p1
              else concat_loop (mk_list (iLast p1 + 1) (iMaxPairNum p1)
                                  (<[Z.to_nat (iLast p1) := x]> (pStrPairList p1))) t
  end.

Definition ConcatPairList (p1 p2 : StringPairList) : StringPairList :=
  concat_loop p1 (pairs p2).

(** [SetParaValue]: -1 when the list is full. *)
Definition SetParaValue (p : StringPairList) (sName sValue : bytes)
  : option (Z * StringPairList) :=
  if iMaxPairNum p <=? iLast p then Some (-1, p)
  else
    let e := encode_string sValue in
    if 2 * MAX_VALUE_LEN <=? zlen e then None   (* sEncodedValue overflows *)
    else
      Some (0, mk_list (iLast p + 1) (iMaxPairNum p)
        (<[Z.to_nat (iLast p) := (take (Z.to_nat (MAX_NAME_LEN - 1)) sName,
                                  take (Z.to_nat (MAX_VALUE_LEN - 1)) e)]> (pStrPairList p))).

(** [GetParaValue]: [None] is NULL; the code of [decode_string] is ignored by
    the source and kept here beside the bytes stored. *)
Definition GetParaValue (p : StringPairList) (sName : bytes) (n : Z) : option (Z * bytes) :=
  match find_first (fun x => strcasecmp0 sName (fst x)) (pairs p) with
  | None => None
  | Some x => Some (decode_string (snd x) n)
  end.

(** [EncodePara] into a buffer of [cap] bytes: the text. *)
Fixpoint encode_loop (cap : Z) (l : list StringPair) (sData : bytes) : bytes :=
  match l with
  | [] => sData
  | (f, s) :: t => if cap <=? zlen sData + zlen f + zlen s + 2 then sData
                   else encode_loop cap t (sData ++ f ++ 61 :: s ++ [38])
  end.

Definition EncodePara (p : StringPairList) (cap : Z) : bytes :=
  let sData := encode_loop cap (pairs p) [] in
  take (length sData - 1) sData.

(** ** parsepara *)

Record pstate := mk_p {
  pParaArr : nat;            (* index of the current pair, also [iParaNum] *)
  arr : list StringPair;
  sBuffer : bytes;           (* its first [iCounter] bytes *)
  chFlag : bool
}.

Inductive pstep := Next (s : pstate) | Break (s : pstate) | Return (r : Z) (a : list StringPair) | Bad.

(** Stores in the current pair; past the end of the array is [Bad]. *)
Definition set_first (a : list StringPair) (i : nat) (v : bytes) : option (list StringPair) :=
  x ← a !! i; Some (<[i := (v, snd x)]> a).
Definition set_second (a : list StringPair) (i : nat) (v : bytes) : option (list StringPair) :=
  x ← a !! i; Some (<[i := (fst x, v)]> a).

(** The body of the loop for one character. *)
Definition parse_char (ch1 ch2 iPairLen : Z) (st : pstate) (ch : Z) : pstep :=
  let i := pParaArr st in
  if ch1 =? ch then
    match set_first (arr st) i (take (Z.to_nat (MAX_NAME_LEN - 1)) (sBuffer st)) with
    | None => Bad
    | Some a => Next (mk_p i a [] true)
    end
  else if (ch2 =? ch) || (0 =? ch) then
    match set_second (arr st) i (take (Z.to_nat (MAX_VALUE_LEN - 1)) (sBuffer st)) with
    | None => Bad
    | Some a =>
        if negb (chFlag st) then Return (-1) a
        else if iPairLen - 2 <=? Z.of_nat (S i) then Break (mk_p (S i) a [] (chFlag st))
        else Next (mk_p (S i) a [] false)
    end
  else if zlen (sBuffer st) <? MAX_NAME_LEN + MAX_VALUE_LEN
  then Next (mk_p i (arr st) (sBuffer st ++ [ch]) (chFlag st))
  else Bad.

Fixpoint parse_loop (ch1 ch2 iPairLen : Z) (st : pstate) (s : bytes) : pstep :=
  match s with
  | [] => Break st
  | ch :: t => match parse_char ch1 ch2 iPairLen st ch with
               | Next st' => parse_loop ch1 ch2 iPairLen st' t
               | r => r
               end
  end.

(** [parsepara]: the return value and the array. *)
Definition parsepara (s : bytes) (a : list StringPair) (iPairLen ch1 ch2 : Z)
  : option (Z * list StringPair) :=
  if zlen s =? 0 then Some (0, a)
  else
    let ch1 := if 0 =? ch1 then 61 else ch1 in
    let ch2 := if 0 =? ch2 then 38 else ch2 in
    match parse_loop ch1 ch2 iPairLen (mk_p 0 a [] false) s with
    | Bad | Next _ => None
    | Return r a' => Some (r, a')
    | Break st =>
        if negb (chFlag st) then Some (-1, arr st)
        else if MAX_VALUE_LEN <=? zlen (sBuffer st) then None
        else
          let i := pParaArr st in
          a1 ← set_second (arr st) i (sBuffer st);
          _ ← a1 !! S i;
          Some (Z.of_nat (S i), <[S i := ([], [])]> a1)
    end.

Definition DecodePara (s : bytes) (p : StringPairList) : option (Z * StringPairList) :=
  '(iRet, a) ← parsepara s (pStrPairList p) (iMaxPairNum p) 61 38;
  Some (if 0 <=? iRet then (0, mk_list iRet (iMaxPairNum p) a)
        else (-1, mk_list (iLast p) (iMaxPairNum p) a)).

(** ** Well-formedness and lemmas *)

Definition wf (p : StringPairList) : Prop :=
  0 <= iLast p <= iMaxPairNum p /\ zlen (pStrPairList p) = iMaxPairNum p.

(** Text that [parsepara] treats as data. *)
Definition plain (s : bytes) : Prop := Forall (fun c => c <> 61 /\ c <> 38 /\ c <> 0) s.

(** Pairs as the list stores them. *)
Definition pair_ok (x : StringPair) : Prop :=
  plain (fst x) /\ plain (snd x) /\ zlen (fst x) < MAX_NAME_LEN /\ zlen (snd x) < MAX_VALUE_LEN.

Definition item (x : StringPair) : bytes := fst x ++ 61 :: snd x ++ [38].

Ltac para_len :=
  first [done | unfold MAX_NAME_LEN, MAX_VALUE_LEN in *; cbn [sBuffer length]; lia].

Lemma parse_text n st t s :
  plain t -> zlen (sBuffer st) + zlen t <= MAX_NAME_LEN + MAX_VALUE_LEN ->
  parse_loop 61 38 n st (t ++ s)
  = parse_loop 61 38 n (mk_p (pParaArr st) (arr st) (sBuffer st ++ t) (chFlag st)) s.
Proof.
  intros Ht. revert st. induction Ht as [|c t (H1 & H2 & H3) Ht IH]; intros st Hl.
  { rewrite app_nil_r. by destruct st. }
  cbn [app parse_loop]. unfold parse_char. cbn [length] in Hl.
  destruct (61 =? c) eqn:E1; b2p; [congruence|].
  destruct (38 =? c) eqn:E2; b2p; [congruence|].
  destruct (0 =? c) eqn:E3; b2p; [congruence|]. cbn [orb].
  destruct (_ <? _) eqn:E4; b2p; [|lia].
  rewrite IH; cbn [pParaArr arr sBuffer chFlag].
  - by rewrite <- app_assoc.
  - rewrite length_app. cbn [length]. lia.
Qed.

Lemma set_first_in a i v x : a !! i = Some x -> set_first a i v = Some (<[i := (v, snd x)]> a).
Proof. intros H. unfold set_first. by rewrite H. Qed.

Lemma set_second_in a i v x : a !! i = Some x -> set_second a i v = Some (<[i := (fst x, v)]> a).
Proof. intros H. unfold set_second. by rewrite H. Qed.

(** The name and the separator of one pair. *)
Lemma parse_name n i a f s x :
  plain f -> zlen f < MAX_NAME_LEN -> a !! i = Some x ->
  parse_loop 61 38 n (mk_p i a [] false) (f ++ 61 :: s)
  = parse_loop 61 38 n (mk_p i (<[i := (f, snd x)]> a) [] true) s.
Proof.
  intros Hf Hl Hx. unfold MAX_NAME_LEN in Hl.
  rewrite parse_text by para_len. cbn [app sBuffer pParaArr arr chFlag parse_loop].
  unfold parse_char. cbn [Z.eqb Pos.eqb pParaArr arr sBuffer].
  rewrite take_ge by (unfold MAX_NAME_LEN; lia). by rewrite (set_first_in _ _ _ x Hx).
Qed.

(** One complete item moves to the next pair of the array. *)
Lemma parse_item n i a x s :
  pair_ok x -> (i < length a)%nat -> Z.of_nat (S i) < n - 2 ->
  parse_loop 61 38 n (mk_p i a [] false) (item x ++ s)
  = parse_loop 61 38 n (mk_p (S i) (<[i := x]> a) [] false) s.
Proof.
  intros (H1 & H2 & H3 & H4) Hi Hn. destruct x as [f v]. cbn [fst snd] in *.
  destruct (lookup_lt_is_Some_2 a i Hi) as [y Hy].
  unfold item. cbn [fst snd]. rewrite <- app_assoc. cbn [app].
  rewrite (parse_name n i a f _ y) by done. rewrite <- app_assoc. cbn [app].
  unfold MAX_VALUE_LEN in H4.
  rewrite parse_text by para_len. cbn [sBuffer pParaArr arr chFlag app parse_loop].
  unfold parse_char. cbn [Z.eqb Pos.eqb orb pParaArr arr sBuffer chFlag negb].
  rewrite take_ge by (unfold MAX_VALUE_LEN; lia).
  rewrite (set_second_in _ _ _ (f, snd y)) by (by apply list_lookup_insert_eq).
  cbn [fst]. rewrite list_insert_insert_eq.
  destruct (n - 2 <=? _) eqn:E; b2p; [lia|]. done.
Qed.

Lemma take_S_insert {A} (a : list A) i x :
  (i < length a)%nat -> take (S i) (<[i := x]> a) = take i a ++ [x].
Proof.
  intros Hi. rewrite (take_S_r _ i x) by (by apply list_lookup_insert_eq).
  by rewrite take_insert_ge.
Qed.

Lemma parse_items n l i a s :
  Forall pair_ok l -> (i + length l <= length a)%nat -> Z.of_nat (i + length l) < n - 2 ->
  exists a', length a' = length a /\ take (i + length l) a' = take i a ++ l /\
    parse_loop 61 38 n (mk_p i a [] false) ((l ≫= item) ++ s)
    = parse_loop 61 38 n (mk_p (i + length l) a' [] false) s.
Proof.
  intros Hl. revert i a. induction Hl as [|x l Hx Hl IH]; intros i a Hi Hn.
  { exists a. rewrite Nat.add_0_r, app_nil_r. done. }
  cbn [length] in *. cbn [mbind list_bind]. rewrite <- app_assoc.
  rewrite parse_item by (done || lia).
  destruct (IH (S i) (<[i := x]> a)) as (a' & E1 & E2 & E3);
    [rewrite length_insert; lia|lia|].
  exists a'. rewrite length_insert in E1.
  replace (i + S (length l))%nat with (S i + length l)%nat by lia.
  rewrite E2, E3, take_S_insert, <- app_assoc by lia. done.
Qed.

(** The last item has no separator after it. *)
Lemma parse_last n i a x :
  pair_ok x -> (i < length a)%nat ->
  parse_loop 61 38 n (mk_p i a [] false) (fst x ++ 61 :: snd x)
  = Break (mk_p i (<[i := (fst x, snd (default x (a !! i)))]> a) (snd x) true).
Proof.
  intros (H1 & H2 & H3 & H4) Hi. destruct (lookup_lt_is_Some_2 a i Hi) as [y Hy].
  rewrite (parse_name n i a (fst x) _ y) by done. rewrite Hy. cbn [default].
  unfold MAX_VALUE_LEN in H4. rewrite <- (app_nil_r (snd x)) at 1.
  rewrite parse_text by para_len. done.
Qed.

(** The text of a list of pairs, as [EncodePara] writes it and
    [parsepara] reads it. *)
Lemma parsepara_items l x a n :
  Forall pair_ok (l ++ [x]) -> zlen a = n -> zlen l + 3 <= n ->
  exists a', length a' = length a /\ take (S (length l)) a' = l ++ [x] /\
    parsepara ((l ≫= item) ++ fst x ++ 61 :: snd x) a n 61 38
    = Some (Z.of_nat (S (length l)), a').
Proof.
  intros [Hl Hx]%Forall_app Ha Hn. apply Forall_cons in Hx as [Hx _].
  unfold parsepara. destruct (zlen _ =? 0) eqn:E0; b2p.
  { rewrite !length_app in E0. cbn [length] in E0. lia. }
  change (0 =? 61) with false. change (0 =? 38) with false. cbv iota zeta.
  destruct (parse_items n l 0 a (fst x ++ 61 :: snd x)) as (a1 & L1 & T1 & P1); [done|lia|lia|].
  rewrite P1. cbn [Nat.add] in *. rewrite parse_last by (done || lia).
  cbn [chFlag negb sBuffer arr pParaArr].
  destruct Hx as (_ & _ & _ & H4). destruct (MAX_VALUE_LEN <=? _) eqn:E; b2p; [lia|].
  rewrite (set_second_in _ _ _ (fst x, snd (default x (a1 !! length l))))
    by (apply list_lookup_insert_eq; lia).
  rewrite list_insert_insert_eq. cbn [fst mbind option_bind].
  assert (Hlen : (S (length l) < length (<[length l:=(fst x, snd x)]> a1))%nat)
    by (rewrite length_insert; lia).
  destruct (lookup_lt_is_Some_2 _ _ Hlen) as [z ->]. cbn [mbind option_bind].
  eexists. split; [|split; [|done]]; [by rewrite !length_insert|].
  rewrite take_insert_ge by lia. destruct x as [f v]. cbn [fst snd].
  rewrite take_S_insert by lia. f_equal. exact T1.
Qed.

Lemma encode_loop_fits cap l acc :
  zlen acc + zlen (l ≫= item) < cap -> encode_loop cap l acc = acc ++ (l ≫= item).
Proof.
  revert acc. induction l as [|[f s] l IH]; intros acc H; cbn [encode_loop mbind list_bind].
  { by rewrite app_nil_r. }
  cbn [mbind list_bind] in H. rewrite length_app in H.
  assert (Hi : zlen (item (f, s)) = zlen f + zlen s + 2).
  { unfold item. cbn [fst snd]. rewrite length_app. cbn [length]. rewrite length_app.
    cbn [length]. lia. }
  destruct (cap <=? _) eqn:E; b2p; [lia|].
  rewrite IH; [by rewrite <- app_assoc|].
  change (f ++ 61 :: s ++ [38]) with (item (f, s)). rewrite length_app. lia.
Qed.

Lemma drop_last_item (l : list StringPair) x :
  let t := (l ++ [x]) ≫= item in
  take (length t - 1) t = (l ≫= item) ++ fst x ++ 61 :: snd x.
Proof.
  cbv zeta. rewrite bind_app. cbn [mbind list_bind]. rewrite app_nil_r.
  replace ((l ≫= item) ++ item x)
    with (((l ≫= item) ++ fst x ++ 61 :: snd x) ++ [38])
    by (unfold item; by rewrite <- !app_assoc).
  rewrite length_app. apply take_app_length'. cbn [length]. lia.
Qed.

(** Encoding a list of parameters and decoding the text into another list
    with two entries to spare restores the pairs in their order. *)
Theorem para_roundtrip p q cap :
  wf q -> pairs p <> [] -> Forall pair_ok (pairs p) ->
  zlen (pairs p ≫= item) < cap -> zlen (pairs p) + 2 <= iMaxPairNum q ->
  exists q', DecodePara (EncodePara p cap) q = Some (0, q') /\ pairs q' = pairs p /\ wf q'.
Proof.
  intros [Hq1 Hq2] Hne Hok Hcap Hmax. unfold EncodePara.
  rewrite encode_loop_fits by done. cbn [app].
  destruct (exists_last Hne) as (l & x & E). rewrite E in *.
  rewrite drop_last_item. rewrite length_app in Hmax. cbn [length] in Hmax.
  destruct (parsepara_items l x (pStrPairList q) (iMaxPairNum q)) as (a' & L & T & P);
    [done|done|lia|].
  unfold DecodePara. rewrite P. cbn [mbind option_bind].
  destruct (0 <=? _) eqn:E0; b2p; [|lia].
  eexists. split; [done|]. unfold pairs, wf. cbn [iLast iMaxPairNum pStrPairList].
  rewrite Nat2Z.id. split; [done|]. lia.
Qed.

(** What [SetParaValue] stores is a pair [parsepara] can carry. *)
Lemma set_para_value p name v :
  wf p -> iLast p < iMaxPairNum p -> zlen name < MAX_NAME_LEN ->
  zlen (encode_string v) < MAX_VALUE_LEN ->
  exists p', SetParaValue p name v = Some (0, p') /\ wf p' /\ iMaxPairNum p' = iMaxPairNum p /\
    pairs p' = pairs p ++ [(name, encode_string v)].
Proof.
  intros [H1 H2] Hl Hn Hv. unfold SetParaValue.
  unfold MAX_NAME_LEN, MAX_VALUE_LEN in *.
  destruct (iMaxPairNum p <=? iLast p) eqn:E; b2p; [lia|].
  destruct (2 * (4 * 1024) <=? _) eqn:E2; b2p; [lia|].
  eexists. split; [done|]. unfold wf, pairs. cbn [iLast iMaxPairNum pStrPairList].
  rewrite length_insert. split; [lia|]. split; [done|].
  rewrite !(take_ge name), !(take_ge (encode_string v)) by lia.
  replace (Z.to_nat (iLast p + 1)) with (S (Z.to_nat (iLast p))) by lia.
  rewrite take_S_insert by lia. done.
Qed.

(** ** Properties *)

Lemma para_roundtrip_witness :
  let p := mk_list 2 4 [(str "cmd", str "up"); (str "id", str "7"); ([], []); ([], [])] in
  let q := mk_list 0 8 (replicate 8 ([], [])) in
  exists q', DecodePara (EncodePara p 1024) q = Some (0, q') /\ pairs q' = pairs p /\ wf q'.
Proof.
  apply para_roundtrip; [split; vm_compute; try split; discriminate || reflexivity|discriminate| |reflexivity|vm_compute; discriminate].
  repeat constructor; try discriminate; reflexivity.
Defined.

End PairList.

(** ** Binary values, blanks, files of pairs *)

Module Binary.
Import PairList.

Definition isprint (c : Z) : bool := (32 <=? c) && (c <? 127).

Definition hex_char (b : Z) : bytes :=
  if negb (isprint b) || Escape.shouldencode b
  then [37; at_ Escape.sHexTable (Z.to_nat (Z.land (Z.shiftr (schar b) 4) 15)); at_ Escape.sHexTable (Z.to_nat (Z.land (schar b) 15))]
  else [b].
Definition encode_hexstring (s : bytes) : bytes := s ≫= hex_char.

(** The loop of [decode_hexstring(s)]: the code, and the bytes stored. *)
Fixpoint decode_hex_loop (len : Z) (s out : bytes) : Z * bytes :=
  match s with
  | [] => (0, out)
  | c :: t =>
      if c =? 37 then
        if u64 (len - 2) <=? len - zlen s then (-1, out)
        else match t with
             | h :: l :: t' =>
                 let j := Escape.get_index h in
                 let k := Escape.get_index l in
                 if (j <? 0) || (k <? 0) then (-2, out) else decode_hex_loop len t' (out ++ [u8 (Z.shiftl j 4 + k)])
             | _ => (-2, out)
             end
      else decode_hex_loop len t (out ++ [c])
  end.
Definition decode_hexstring (s : bytes) : Z * bytes := decode_hex_loop (zlen s) s [].

(** [decode_stringnew]: no bound, and an index of -1 is taken as a number. *)
Fixpoint decode_stringnew (s : bytes) : bytes :=
  match s with
  | [] => []
  | c :: t =>
      if negb (c =? 37) then c :: decode_stringnew t
      else match t with
           | h :: l :: t' => u8 (Z.shiftl (Escape.get_index h) 4 + Escape.get_index l) :: decode_stringnew t'
           | _ => []
           end
  end.

(** -1 when the list is full; the encoded value has [2 * MAX_VALUE_LEN] bytes. *)
Definition SetBinaryPara (p : StringPairList) (sName sVal : bytes) : option (Z * StringPairList) :=
  if iMaxPairNum p <=? iLast p then Some (-1, p)
  else
    let e := encode_hexstring sVal in
    if 2 * MAX_VALUE_LEN <=? zlen e then None
    else
      Some (0, mk_list (iLast p + 1) (iMaxPairNum p)
        (<[Z.to_nat (iLast p) := (take (Z.to_nat (MAX_NAME_LEN - 1)) sName, take (Z.to_nat (MAX_VALUE_LEN - 1)) e)]> (pStrPairList p))).

(** [None] is NULL, with the length 0; else the code, which the source ignores,
    and the bytes stored. *)
Definition GetBinaryPara (p : StringPairList) (sName : bytes) : option (Z * bytes) :=
  match find_first (fun x => strcasecmp0 sName (fst x)) (pairs p) with
  | None => None
  | Some x => Some (decode_hexstring (snd x))
  end.

(** [TraverseList]: the callback is applied to the pairs in order. *)
Definition TraverseList {A} (f : bytes -> bytes -> A -> A) (p : StringPairList) (a : A) : A :=
  foldl (fun a x => f (fst x) (snd x) a) a (pairs p).

(** *** Blanks

    [TrimLeft] on the array that begins with the string [s]: the copy overlaps,
    the terminator is stored behind it, and the byte the scan stopped at is
    looked at again. *)
Fixpoint blanks (s : bytes) : nat := match s with c :: t => if isspace c then S (blanks t) else O | [] => O end.

Definition TrimLeft (s : bytes) : bytes :=
  let k := blanks s in
  let a := s ++ [0] in
  let rest := drop k s in
  let a := if zlen rest =? 0 then a else let a := memcpy a 0 rest in <[length (until0 (drop k a)) := 0]> a in
  let a := if at_ a k =? 0 then <[O := 0]> a else a in
  until0 a.

(** [TrimRight]: the first byte is never looked at; for the empty string the
    scan begins before the string. *)
Fixpoint cut_right (r : bytes) : bytes :=
  match r with [] => [] | [c] => [c] | c :: r' => if isspace c then cut_right r' else r end.
Definition TrimRight (s : bytes) : option bytes :=
  match s with [] => None | _ => Some (rev (cut_right (rev s))) end.

Definition TrimString (s : bytes) : option bytes := TrimRight (TrimLeft s).

(** *** LoadFromFile

    The lines [fgets] gives; [room] entries are left in the array, whose size the
    source does not look at. *)
Definition load_pair (line : bytes) : option (option (bytes * bytes)) :=
  let c0 := at_ line 0 in
  if (c0 =? 35) || ((c0 =? 47) && (at_ line 1 =? 47)) then Some None
  else
    line ← TrimString line;
    match strchr line 32 with
    | None => Some None
    | Some i => n ← TrimString (take i line); v ← TrimString (drop (S i) line); Some (Some (n, v))
    end.

Fixpoint load_lines (room : nat) (lines : list bytes) : option (list (bytes * bytes)) :=
  match room with
  | O => None
  | S room' =>
      match lines with
      | [] => Some [([], [])]
      | line :: lines' =>
          r ← load_pair line;
          match r with
          | None => load_lines room lines'
          | Some (n, v) => l ← load_lines room' lines'; Some ((take 199 n, take 4095 v) :: l)
          end
      end
  end.
Definition LoadFromFile (file : option (list bytes)) (room : nat) : option (Z * list (bytes * bytes)) :=
  match file with None => Some (-1, []) | Some lines => l ← load_lines room lines; Some (0, l) end.

(** *** Properties *)

Lemma hex_char_digits b : 0 <= b < 256 ->
  hex_char b = [b] /\ b <> 37 \/
  exists h l, hex_char b = [37; h; l] /\ 0 <= Escape.get_index h /\ 0 <= Escape.get_index l /\
    u8 (Z.shiftl (Escape.get_index h) 4 + Escape.get_index l) = b.
Proof.
  intros Hb. assert (Hall : forallb (fun n => let b := Z.of_nat n in
    match hex_char b with
    | [c] => (c =? b) && negb (b =? 37)
    | [p; h; l] => (p =? 37) && (0 <=? Escape.get_index h) && (0 <=? Escape.get_index l) && (u8 (Z.shiftl (Escape.get_index h) 4 + Escape.get_index l) =? b)
    | _ => false end) (seq 0 256) = true) by (vm_compute; reflexivity).
  rewrite forallb_forall in Hall. specialize (Hall (Z.to_nat b)). cbv zeta in Hall. rewrite Z2Nat.id in Hall by lia.
  assert (Hin : In (Z.to_nat b) (seq 0 256)) by (apply in_seq; lia). specialize (Hall Hin).
  destruct (hex_char b) as [|p [|h [|l [|? ?]]]]; try done.
  - apply andb_true_iff in Hall as [H1 H2]. b2p. left. by subst.
  - repeat (apply andb_true_iff in Hall as [Hall ?]). b2p. right. exists h, l. subst p. split_and!; done.
Qed.

Lemma decode_hex_encode len s : Bytes s -> forall (pre out : bytes), len = zlen pre + zlen (encode_hexstring s) -> len < 2 ^ 31 ->
  decode_hex_loop len (encode_hexstring s) out = (0, out ++ s).
Proof.
  induction 1 as [|b s Hb Hs IH]; intros pre out Hlen Hmax; [cbn; by rewrite app_nil_r|].
  unfold encode_hexstring in *. cbn [mbind list_bind] in *. rewrite length_app in Hlen.
  destruct (hex_char_digits b Hb) as [[E Hne]|(h & l & E & Hh & Hl & Hv)]; rewrite E in *; cbn [app length] in *; cbn [decode_hex_loop].
  - rewrite (proj2 (Z.eqb_neq b 37)) by done. rewrite (IH (pre ++ [b])); [by rewrite <- app_assoc| |done]. rewrite length_app. cbn [length]. lia.
  - change (37 =? 37) with true. cbv iota. rewrite u64_small by lia. rewrite (proj2 (Z.leb_gt _ _)) by (cbn [length]; lia).
    rewrite (proj2 (orb_false_iff _ _)) by (split; apply Z.ltb_ge; lia). rewrite Hv.
    rewrite (IH (pre ++ [37; h; l])); [by rewrite <- app_assoc| |done]. rewrite length_app. cbn [length]. lia.
Qed.

(** Binary values survive.  A value of any bytes, zeros and separators
    included, that is put into a list under a new name and whose escaped form
    fits is read back whole, and the text in the list holds printable characters
    only. *)
Theorem binary_roundtrip p name v :
  wf p -> iLast p < iMaxPairNum p -> zlen name < MAX_NAME_LEN -> Bytes v -> zlen (encode_hexstring v) < MAX_VALUE_LEN ->
  Forall (fun x => strcasecmp0 name (fst x) = false) (pairs p) -> strcasecmp0 name name = true ->
  exists p', SetBinaryPara p name v = Some (0, p') /\ wf p' /\ GetBinaryPara p' name = Some (0, v) /\
    Forall (fun c => isprint c = true) (encode_hexstring v).
Proof.
  intros [W1 W2] Hl Hn Hv He Hnew Hself. unfold SetBinaryPara. rewrite (proj2 (Z.leb_gt _ _)) by lia.
  unfold MAX_NAME_LEN, MAX_VALUE_LEN in *. rewrite (proj2 (Z.leb_gt _ _)) by lia.
  eexists. split; [done|]. rewrite !take_ge by lia. split.
  { unfold wf. cbn [iLast iMaxPairNum pStrPairList]. rewrite length_insert. lia. }
  split.
  - unfold GetBinaryPara. unfold pairs in *. cbn [iLast pStrPairList].
    replace (Z.to_nat (iLast p + 1)) with (S (Z.to_nat (iLast p))) by lia. rewrite take_S_insert by lia.
    assert (Hf : forall l, Forall (fun x => strcasecmp0 name (fst x) = false) l ->
      find_first (fun x : bytes * bytes => strcasecmp0 name (fst x)) (l ++ [(name, encode_hexstring v)]) = Some (name, encode_hexstring v)).
    { induction 1 as [|x l Hx Hxs IH]; cbn [app find_first fst]; [by rewrite Hself|by rewrite Hx]. }
    rewrite Hf by done. cbn [snd]. unfold decode_hexstring. rewrite (decode_hex_encode _ v Hv [] []); [done|done|]. lia.
  - clear - Hv. unfold encode_hexstring. induction Hv as [|b v Hb Hv IH]; [constructor|]. cbn [mbind list_bind]. apply Forall_app. split; [|done].
    assert (0 <= b < 256) by exact Hb. assert (Hall : forallb (fun n => forallb isprint (hex_char (Z.of_nat n))) (seq 0 256) = true) by (vm_compute; reflexivity).
    rewrite forallb_forall in Hall. specialize (Hall (Z.to_nat b)). rewrite Z2Nat.id in Hall by lia.
    assert (Hin : In (Z.to_nat b) (seq 0 256)) by (apply in_seq; lia). specialize (Hall Hin). rewrite forallb_forall in Hall.
    apply Forall_forall. intros c Hc. apply Hall. by apply list_elem_of_In.
Qed.

Lemma binary_roundtrip_witness :
  let p := mk_list 1 4 [(str "cmd", str "up"); ([], []); ([], []); ([], [])] in
  exists p', SetBinaryPara p (str "key") [0; 37; 255; 97] = Some (0, p') /\ wf p' /\ GetBinaryPara p' (str "key") = Some (0, [0; 37; 255; 97]) /\
    Forall (fun c => isprint c = true) (encode_hexstring [0; 37; 255; 97]).
Proof.
  apply binary_roundtrip; [split; vm_compute; try split; discriminate || reflexivity|reflexivity|reflexivity| |reflexivity| |reflexivity].
  - repeat constructor; lia.
  - repeat constructor.
Defined.

Lemma blanks_le s : (blanks s <= length s)%nat.
Proof. induction s as [|c s IH]; cbn; [lia|]. destruct (isspace c); lia. Qed.

(** What [TrimLeft] leaves: the string without its leading blanks - unless there
    are as many of them as other characters, when everything is lost. *)
Theorem trim_left_loses s : cstr s ->
  let rest := drop (blanks s) s in
  TrimLeft s = if (length rest =? blanks s)%nat then [] else rest.
Proof.
  intros Hs rest. unfold TrimLeft. fold rest. set (k := blanks s). pose proof (blanks_le s) as Hk. fold k in Hk.
  assert (Hrest : cstr rest) by (by apply Forall_drop).
  assert (Hn : length rest = (length s - k)%nat) by (unfold rest; by rewrite length_drop).
  destruct (Z.eqb_spec (zlen rest) 0) as [Hz|Hz].
  { assert (rest = []) as E by (apply length_zero_iff_nil; lia). rewrite E.
    assert (k = length s) as -> by (rewrite E in Hn; cbn in Hn; lia).
    assert (at_ (s ++ [0]) (length s) = 0) as ->. { unfold at_. by rewrite app_nth2, Nat.sub_diag by lia. }
    change (0 =? 0) with true. cbv iota. by destruct s. }
  set (b := rest ++ drop (length rest) s). assert (Hb : cstr b) by (apply Forall_app; split; [done|by apply Forall_drop]).
  assert (Hlb : length b = length s) by (unfold b; rewrite length_app, length_drop; lia).
  assert (E1 : memcpy (s ++ [0]) 0 rest = b ++ [0]).
  { unfold memcpy, b. rewrite take_0, Nat.add_0_l, drop_app_le by lia. by rewrite <- app_assoc. }
  assert (E2 : until0 (drop k (b ++ [0])) = drop k b).
  { rewrite drop_app_le by lia. apply until0_cstr. by apply Forall_drop. }
  rewrite E1, E2, length_drop, Hlb, <- Hn.
  assert (E3 : <[length rest := 0]> (b ++ [0]) = rest ++ 0 :: drop (S (length rest)) (b ++ [0])).
  { rewrite insert_take_drop by (rewrite length_app; cbn; lia). f_equal. unfold b. by rewrite <- app_assoc, take_app_length. }
  destruct (Nat.eqb_spec (length rest) k) as [Hk2|Hk2].
  - assert (at_ (<[length rest := 0]> (b ++ [0])) k = 0) as ->.
    { rewrite E3. unfold at_. by rewrite app_nth2, Hk2, Nat.sub_diag by lia. }
    change (0 =? 0) with true. cbv iota. rewrite E3. destruct rest as [|c rest']; [cbn in Hz; lia|]. done.
  - assert (at_ (<[length rest := 0]> (b ++ [0])) k =? 0 = false) as ->; [|rewrite E3; by apply until0_cstr].
    apply Z.eqb_neq. unfold at_. rewrite nth_lookup, list_lookup_insert_ne by done.
    destruct (lookup_lt_is_Some_2 b k) as [c Hc]; [lia|]. rewrite lookup_app_l, Hc by lia. cbn.
    apply Forall_lookup_1 with (i := k) (x := c) in Hb; [|done]. lia.
Qed.

Lemma trim_left_loses_witness : TrimLeft (str "  ab") = [] /\ TrimLeft (str "  abc") = str "abc".
Proof.
  split; [apply (trim_left_loses (str "  ab"))|apply (trim_left_loses (str "  abc"))]; repeat constructor; discriminate || (vm_compute; congruence).
Defined.

End Binary.
