(* ===== verification/MD5.v ===== *)
(** * MD5 (lib/md5.c)

    The digest every transferred file is checked against.  [Md5] translates
    the code: the 64 steps, the streaming update with its 64-byte buffer, the
    final padding and the keyed digest.  [Rfc1321] states the digest of a
    whole message as the standard does: padding first, then the blocks, with
    the functions in their unoptimised form and the word indexes given by
    their formulas.  The theorems show that any way of cutting a message into
    updates gives the standard's digest of the concatenation. *)

From S2P Require Import Prelude.
From S2P Require Import CString.

Module Md5.

(** ** The step functions *)

Inductive fn := F1 | F2 | F3 | F4.

Definition apply_F1 (x y z : Z) : Z := Z.lxor z (Z.land x (Z.lxor y z)).

Definition apply_fn (f : fn) (x y z : Z) : Z :=
  match f with
  | F1 => apply_F1 x y z
  | F2 => apply_F1 z x y
  | F3 => Z.lxor (Z.lxor x y) z
  | F4 => Z.lxor y (Z.lor x (u32 (Z.lnot z)))
  end.

(** [MD5STEP(f, w, x, y, z, data, s)]: the new value of [w]. *)
Definition MD5STEP (f : fn) (w x y z data s : Z) : Z :=
  let w := u32 (w + u32 (apply_fn f x y z + data)) in
  let w := Z.lor (u32 (Z.shiftl w s)) (Z.shiftr w (32 - s)) in
  u32 (w + x).

(** The 64 lines of [MD5Transform]: function, index in [in], constant, shift.
    The registers of successive lines are (a, b, c, d), (d, a, b, c),
    (c, d, a, b), (b, c, d, a) and again. *)
Definition steps : list (fn * nat * Z * Z) :=
  [(F1, 0%nat, 0xd76aa478, 7); (F1, 1%nat, 0xe8c7b756, 12);
   (F1, 2%nat, 0x242070db, 17); (F1, 3%nat, 0xc1bdceee, 22);
   (F1, 4%nat, 0xf57c0faf, 7); (F1, 5%nat, 0x4787c62a, 12);
   (F1, 6%nat, 0xa8304613, 17); (F1, 7%nat, 0xfd469501, 22);
   (F1, 8%nat, 0x698098d8, 7); (F1, 9%nat, 0x8b44f7af, 12);
   (F1, 10%nat, 0xffff5bb1, 17); (F1, 11%nat, 0x895cd7be, 22);
   (F1, 12%nat, 0x6b901122, 7); (F1, 13%nat, 0xfd987193, 12);
   (F1, 14%nat, 0xa679438e, 17); (F1, 15%nat, 0x49b40821, 22);
   (F2, 1%nat, 0xf61e2562, 5); (F2, 6%nat, 0xc040b340, 9);
   (F2, 11%nat, 0x265e5a51, 14); (F2, 0%nat, 0xe9b6c7aa, 20);
   (F2, 5%nat, 0xd62f105d, 5); (F2, 10%nat, 0x02441453, 9);
   (F2, 15%nat, 0xd8a1e681, 14); (F2, 4%nat, 0xe7d3fbc8, 20);
   (F2, 9%nat, 0x21e1cde6, 5); (F2, 14%nat, 0xc33707d6, 9);
   (F2, 3%nat, 0xf4d50d87, 14); (F2, 8%nat, 0x455a14ed, 20);
   (F2, 13%nat, 0xa9e3e905, 5); (F2, 2%nat, 0xfcefa3f8, 9);
   (F2, 7%nat, 0x676f02d9, 14); (F2, 12%nat, 0x8d2a4c8a, 20);
   (F3, 5%nat, 0xfffa3942, 4); (F3, 8%nat, 0x8771f681, 11);
   (F3, 11%nat, 0x6d9d6122, 16); (F3, 14%nat, 0xfde5380c, 23);
   (F3, 1%nat, 0xa4beea44, 4); (F3, 4%nat, 0x4bdecfa9, 11);
   (F3, 7%nat, 0xf6bb4b60, 16); (F3, 10%nat, 0xbebfbc70, 23);
   (F3, 13%nat, 0x289b7ec6, 4); (F3, 0%nat, 0xeaa127fa, 11);
   (F3, 3%nat, 0xd4ef3085, 16); (F3, 6%nat, 0x04881d05, 23);
   (F3, 9%nat, 0xd9d4d039, 4); (F3, 12%nat, 0xe6db99e5, 11);
   (F3, 15%nat, 0x1fa27cf8, 16); (F3, 2%nat, 0xc4ac5665, 23);
   (F4, 0%nat, 0xf4292244, 6); (F4, 7%nat, 0x432aff97, 10);
   (F4, 14%nat, 0xab9423a7, 15); (F4, 5%nat, 0xfc93a039, 21);
   (F4, 12%nat, 0x655b59c3, 6); (F4, 3%nat, 0x8f0ccc92, 10);
   (F4, 10%nat, 0xffeff47d, 15); (F4, 1%nat, 0x85845dd1, 21);
   (F4, 8%nat, 0x6fa87e4f, 6); (F4, 15%nat, 0xfe2ce6e0, 10);
   (F4, 6%nat, 0xa3014314, 15); (F4, 13%nat, 0x4e0811a1, 21);
   (F4, 4%nat, 0xf7537e82, 6); (F4, 11%nat, 0xbd3af235, 10);
   (F4, 2%nat, 0x2ad7d2bb, 15); (F4, 9%nat, 0xeb86d391, 21)].

Definition regs : Type := Z * Z * Z * Z.

(** One line: the updated register comes second on the next line. *)
Definition md5_step (inw : nat -> Z) (r : regs) (st : fn * nat * Z * Z) : regs :=
  let '(w, x, y, z) := r in
  let '(f, k, t, s) := st in
  (z, MD5STEP f w x y z (u32 (inw k + t)) s, x, y).

(** The block [in] read as sixteen little-endian words. *)
Definition in_word (blk : bytes) (k : nat) : Z := le_combine (take 4 (drop (4 * k) blk)).

Definition MD5Transform (buf : regs) (blk : bytes) : regs :=
  let '(a0, b0, c0, d0) := buf in
  let '(a, b, c, d) := foldl (md5_step (in_word blk)) buf steps in
  (u32 (a0 + a), u32 (b0 + b), u32 (c0 + c), u32 (d0 + d)).

(** ** Streaming *)

Record MD5Context := mk_ctx {
  buf : regs;
  bits0 : Z;
  bits1 : Z;
  inb : bytes      (* [in], 64 bytes *)
}.

Definition init_regs : regs := (0x67452301, 0xefcdab89, 0x98badcfe, 0x10325476).

(** [MD5Init] leaves [in] as it was. *)
Definition MD5Init (in0 : bytes) : MD5Context := mk_ctx init_regs 0 0 in0.

(** The [while (len >= 64)] loop and the copy of the remaining bytes. *)
Fixpoint md5_blocks (fuel : nat) (ctx : MD5Context) (d : bytes) : MD5Context :=
  match fuel with
  | O => ctx
  | S fuel' =>
      if 64 <=? zlen d then
        let i := memcpy (inb ctx) 0 (take 64 d) in
        md5_blocks fuel' (mk_ctx (MD5Transform (buf ctx) i) (bits0 ctx) (bits1 ctx) i)
          (drop 64 d)
      else mk_ctx (buf ctx) (bits0 ctx) (bits1 ctx) (memcpy (inb ctx) 0 d)
  end.

Definition MD5Update (ctx : MD5Context) (d : bytes) : MD5Context :=
  let len := zlen d in
  let t := bits0 ctx in
  let b0 := u32 (t + u32 (Z.shiftl len 3)) in
  let b1 := if b0 <? t then u32 (bits1 ctx + 1) else bits1 ctx in
  let b1 := u32 (b1 + Z.shiftr len 29) in
  let ctx := mk_ctx (buf ctx) b0 b1 (inb ctx) in
  let t := Z.land (Z.shiftr t 3) 0x3f in
  let fuel := S (length d) in
  if negb (t =? 0) then
    let r := 64 - t in
    if len <? r then mk_ctx (buf ctx) b0 b1 (memcpy (inb ctx) (Z.to_nat t) d)
    else
      let i := memcpy (inb ctx) (Z.to_nat t) (take (Z.to_nat r) d) in
      md5_blocks fuel (mk_ctx (MD5Transform (buf ctx) i) b0 b1 i) (drop (Z.to_nat r) d)
  else md5_blocks fuel ctx d.

Definition regs_image (r : regs) : bytes :=
  let '(a, b, c, d) := r in le_split 4 a ++ le_split 4 b ++ le_split 4 c ++ le_split 4 d.

(** [MD5Final]: the digest and the context.  [memset(ctx, 0, sizeof(ctx))]
    clears the size of a pointer: the first two registers. *)
Definition MD5Final (ctx : MD5Context) : bytes * MD5Context :=
  let count := Z.land (Z.shiftr (bits0 ctx) 3) 0x3f in
  let i := memcpy (inb ctx) (Z.to_nat count) [0x80] in
  let p := Z.to_nat (count + 1) in
  let count := 64 - 1 - count in
  let '(b, i) :=
    if count <? 8 then
      let i := memcpy i p (replicate (Z.to_nat count) 0) in
      (MD5Transform (buf ctx) i, memcpy i 0 (replicate 56 0))
    else (buf ctx, memcpy i p (replicate (Z.to_nat (count - 8)) 0)) in
  let i := memcpy (memcpy i 56 (le_split 4 (bits0 ctx))) 60 (le_split 4 (bits1 ctx)) in
  let b := MD5Transform b i in
  let '(_, _, b2, b3) := b in
  (regs_image b, mk_ctx (0, 0, b2, b3) (bits0 ctx) (bits1 ctx) i).

Definition MD5Digest (in0 msg : bytes) : bytes := fst (MD5Final (MD5Update (MD5Init in0) msg)).

(** ** The keyed digest *)

Definition xor_pad (pass : bytes) (c : Z) : bytes :=
  map (fun x => Z.lxor x c) (memcpy (replicate 64 0) 0 pass).

(** [MD5HMAC2]; [MD5HMAC] is the same without the second challenge. *)
Definition hmac_key (in0 password : bytes) : bytes :=
  if 64 <? zlen password then MD5Digest in0 password else password.

Definition MD5HMAC (in0 password challenge : bytes) : bytes :=
  let password := hmac_key in0 password in
  let ctx := MD5Update (MD5Update (MD5Init in0) (xor_pad password 0x36)) challenge in
  let '(response, ctx) := MD5Final ctx in
  let ctx := MD5Update (MD5Update (MD5Init (inb ctx)) (xor_pad password 0x5c)) response in
  fst (MD5Final ctx).

Definition MD5HMAC2 (in0 password challenge challenge2 : bytes) : bytes :=
  let password := hmac_key in0 password in
  let ctx := MD5Update (MD5Update (MD5Update (MD5Init in0) (xor_pad password 0x36))
               challenge) challenge2 in
  let '(response, ctx) := MD5Final ctx in
  let ctx := MD5Update (MD5Update (MD5Init (inb ctx)) (xor_pad password 0x5c)) response in
  fst (MD5Final ctx).

(** [getmd5] and [getfilemd5] (lib/util_misc.c).  The reads of a file are the
    sequence of results of [fread]: [Some d] is [d] bytes read, [None] a read
    of nothing that is not the end of the file; the sequence covers the whole
    file, so running out of it is no result. *)
Definition BUFSIZE : Z := 2 ^ 20.

Fixpoint filemd5_loop (ctx : MD5Context) (reads : list (option bytes)) : option MD5Context :=
  match reads with
  | [] => None
  | None :: _ => None
  | Some d :: t => if 0 <? zlen d then
                     let ctx := MD5Update ctx d in
                     if zlen d <? BUFSIZE then Some ctx else filemd5_loop ctx t
                   else Some ctx
  end.

Definition getfilemd5 (in0 : bytes) (opened : bool) (reads : list (option bytes)) : option bytes :=
  if opened then
    ctx ← filemd5_loop (MD5Init in0) reads; Some (fst (MD5Final ctx))
  else None.

End Md5.

Module Rfc1321.
Import Md5.

(** ** The standard's digest of a message *)

Definition F (x y z : Z) : Z := Z.lor (Z.land x y) (Z.land (Z.lnot x) z).
Definition G (x y z : Z) : Z := Z.lor (Z.land x z) (Z.land y (Z.lnot z)).
Definition H (x y z : Z) : Z := Z.lxor x (Z.lxor y z).
Definition I (x y z : Z) : Z := Z.lxor y (Z.lor x (u32 (Z.lnot z))).

Definition T : list Z :=
  [0xd76aa478; 0xe8c7b756; 0x242070db; 0xc1bdceee;
   0xf57c0faf; 0x4787c62a; 0xa8304613; 0xfd469501;
   0x698098d8; 0x8b44f7af; 0xffff5bb1; 0x895cd7be;
   0x6b901122; 0xfd987193; 0xa679438e; 0x49b40821;
   0xf61e2562; 0xc040b340; 0x265e5a51; 0xe9b6c7aa;
   0xd62f105d; 0x02441453; 0xd8a1e681; 0xe7d3fbc8;
   0x21e1cde6; 0xc33707d6; 0xf4d50d87; 0x455a14ed;
   0xa9e3e905; 0xfcefa3f8; 0x676f02d9; 0x8d2a4c8a;
   0xfffa3942; 0x8771f681; 0x6d9d6122; 0xfde5380c;
   0xa4beea44; 0x4bdecfa9; 0xf6bb4b60; 0xbebfbc70;
   0x289b7ec6; 0xeaa127fa; 0xd4ef3085; 0x04881d05;
   0xd9d4d039; 0xe6db99e5; 0x1fa27cf8; 0xc4ac5665;
   0xf4292244; 0x432aff97; 0xab9423a7; 0xfc93a039;
   0x655b59c3; 0x8f0ccc92; 0xffeff47d; 0x85845dd1;
   0x6fa87e4f; 0xfe2ce6e0; 0xa3014314; 0x4e0811a1;
   0xf7537e82; 0xbd3af235; 0x2ad7d2bb; 0xeb86d391].

Definition rotl (w s : Z) : Z := Z.lor (u32 (Z.shiftl w s)) (Z.shiftr w (32 - s)).

(** Operation [i] of the 64: function, word and shift by the round's rule. *)
Definition op_fun (i : nat) : Z -> Z -> Z -> Z :=
  match (i / 16)%nat with 0%nat => F | 1%nat => G | 2%nat => H | _ => I end.

Definition op_word (i : nat) : nat :=
  match (i / 16)%nat with
  | 0%nat => i mod 16
  | 1%nat => (5 * i + 1) mod 16
  | 2%nat => (3 * i + 5) mod 16
  | _ => (7 * i) mod 16
  end%nat.

Definition op_shift (i : nat) : Z :=
  nth (i mod 4)
    (match (i / 16)%nat with
     | 0%nat => [7; 12; 17; 22]
     | 1%nat => [5; 9; 14; 20]
     | 2%nat => [4; 11; 16; 23]
     | _ => [6; 10; 15; 21]
     end) 0.

Definition operation (X : nat -> Z) (r : regs) (i : nat) : regs :=
  let '(a, b, c, d) := r in
  let sum := u32 (a + op_fun i b c d + X (op_word i) + nth i T 0) in
  (d, u32 (b + rotl sum (op_shift i)), b, c).

Definition compress (r : regs) (blk : bytes) : regs :=
  let '(a0, b0, c0, d0) := r in
  let '(a, b, c, d) := foldl (operation (in_word blk)) r (seq 0 64) in
  (u32 (a0 + a), u32 (b0 + b), u32 (c0 + c), u32 (d0 + d)).

(** The first [n] blocks of a message. *)
Fixpoint absorb (n : nat) (r : regs) (m : bytes) : regs :=
  match n with
  | O => r
  | S n' => absorb n' (compress r (take 64 m)) (drop 64 m)
  end.

(** One 1 bit, zeros to 56 modulo 64, the length in bits modulo 2^64. *)
Definition pad (m : bytes) : bytes :=
  m ++ 0x80 :: replicate (Z.to_nat ((55 - zlen m) mod 64)) 0 ++ le_split 8 (u64 (8 * zlen m)).

Definition md5 (m : bytes) : bytes :=
  regs_image (absorb (length (pad m) / 64) init_regs (pad m)).

Definition hmac (key text : bytes) : bytes :=
  let k := if 64 <? zlen key then md5 key else key in
  md5 (xor_pad k 0x5c ++ md5 (xor_pad k 0x36 ++ text)).

End Rfc1321.

Module Md5Facts.
Import Md5 Rfc1321.

(** ** The optimised steps are the standard's *)

Definition op_tag (i : nat) : fn :=
  match (i / 16)%nat with 0%nat => F1 | 1%nat => F2 | 2%nat => F3 | _ => F4 end.

Lemma apply_fn_ref i x y z : apply_fn (op_tag i) x y z = op_fun i x y z.
Proof.
  unfold op_tag, op_fun. destruct (i / 16)%nat as [|[|[|?]]]; cbn [apply_fn];
    unfold apply_F1, F, G, H, I; try done; by zbits.
Qed.

Lemma steps_table :
  steps = map (fun i => (op_tag i, op_word i, nth i T 0, op_shift i)) (seq 0 64).
Proof. by vm_compute. Qed.

Lemma md5_step_ref X r i :
  md5_step X r (op_tag i, op_word i, nth i T 0, op_shift i) = operation X r i.
Proof.
  destruct r as [[[a b] c] d]. unfold md5_step, operation, MD5STEP, rotl.
  rewrite apply_fn_ref. autorewrite with word.
  rewrite (Z.add_assoc a), u32_add_r, <- Z.add_assoc.
  replace (a + (op_fun i b c d + (X (op_word i) + nth i T 0)))
    with (a + op_fun i b c d + X (op_word i) + nth i T 0) by lia.
  by rewrite (Z.add_comm b (Z.lor _ _)).
Qed.

Lemma transform_compress r blk : MD5Transform r blk = compress r blk.
Proof.
  unfold MD5Transform, compress. rewrite steps_table.
  assert (E : forall l r, foldl (md5_step (in_word blk)) r
      (map (fun i => (op_tag i, op_word i, nth i T 0, op_shift i)) l)
    = foldl (operation (in_word blk)) r l).
  { induction l as [|i l IH]; intros r'; [done|]. cbn [map foldl].
    by rewrite md5_step_ref. }
  by rewrite E.
Qed.

(** ** Absorbing blocks *)

Lemma absorb_app k j r a b :
  length a = (64 * k)%nat -> absorb (k + j) r (a ++ b) = absorb j (absorb k r a) b.
Proof.
  revert r a. induction k as [|k IH]; intros r a Ha.
  { destruct a; [done|simpl in Ha; lia]. }
  cbn [Nat.add absorb]. rewrite take_app_le, drop_app_le by lia.
  apply IH. rewrite length_drop. lia.
Qed.

Lemma absorb_prefix k r a b :
  (64 * k <= length a)%nat -> absorb k r (a ++ b) = absorb k r a.
Proof.
  revert r a. induction k as [|k IH]; intros r a Ha; [done|].
  cbn [absorb]. rewrite take_app_le, drop_app_le by lia. apply IH. rewrite length_drop. lia.
Qed.

Lemma absorb_one r blk : length blk = 64%nat -> absorb 1 r blk = MD5Transform r blk.
Proof. intros Hb. cbn [absorb]. by rewrite take_ge, transform_compress by lia. Qed.

(** ** What a context that has absorbed [m] looks like *)

Definition full (m : bytes) : nat := (length m / 64)%nat.
Definition rest (m : bytes) : nat := (length m mod 64)%nat.

Lemma length_full_rest m : length m = (64 * full m + rest m)%nat /\ (rest m < 64)%nat.
Proof. split; [apply Nat.div_mod_eq|apply Nat.mod_upper_bound; lia]. Qed.

Lemma full_rest_add (m l : bytes) k :
  length m = (length l + k * 64)%nat -> full m = (full l + k)%nat /\ rest m = rest l.
Proof. intros E. unfold full, rest. rewrite E, Nat.div_add, Nat.Div0.mod_add by lia. done. Qed.

Lemma full_rest_small (m : bytes) k n :
  length m = (n + k * 64)%nat -> (n < 64)%nat -> full m = k /\ rest m = n.
Proof.
  intros E Hn. unfold full, rest. rewrite E, Nat.div_add, Nat.Div0.mod_add by lia.
  rewrite Nat.div_small, Nat.mod_small by lia. done.
Qed.

Record absorbed (ctx : MD5Context) (m : bytes) : Prop := mk_absorbed {
  ab_in : length (inb ctx) = 64%nat;
  ab_buf : buf ctx = absorb (full m) init_regs m;
  ab_rest : take (rest m) (inb ctx) = drop (64 * full m) m;
  ab_b0 : 0 <= bits0 ctx < 4294967296;
  ab_b1 : 0 <= bits1 ctx < 4294967296;
  ab_bits : bits0 ctx + 4294967296 * bits1 ctx = u64 (8 * zlen m)
}.

Lemma absorbed_init in0 : length in0 = 64%nat -> absorbed (MD5Init in0) [].
Proof. intros. by constructor; cbn. Qed.

(** The byte count kept in [bits] gives the fill of the buffer. *)
Lemma absorbed_count ctx m :
  absorbed ctx m -> Z.land (Z.shiftr (bits0 ctx) 3) 63 = Z.of_nat (rest m).
Proof.
  intros [_ _ _ H0 H1 Hb]. change 63 with (Z.ones 6).
  rewrite Z.land_ones, Z.shiftr_div_pow2 by lia. change (2 ^ 3) with 8. change (2 ^ 6) with 64.
  unfold rest. rewrite Nat2Z.inj_mod. change (Z.of_nat 64) with 64.
  unfold u64 in Hb. change (2 ^ 64) with 18446744073709551616 in Hb. zdm.
Qed.

(** The 64-bit counter is advanced with its carry. *)
Lemma bits_advance b0 b1 n len :
  0 <= b0 < 4294967296 -> 0 <= b1 < 4294967296 -> 0 <= len < 4294967296 ->
  b0 + 4294967296 * b1 = u64 (8 * n) ->
  let b0' := u32 (b0 + u32 (Z.shiftl len 3)) in
  let b1' := u32 ((if b0' <? b0 then u32 (b1 + 1) else b1) + Z.shiftr len 29) in
  0 <= b0' < 4294967296 /\ 0 <= b1' < 4294967296 /\
  b0' + 4294967296 * b1' = u64 (8 * (n + len)).
Proof.
  intros H0 H1 Hl Hb b0' b1'. split; [apply u32_range|]. split; [apply u32_range|].
  assert (E : b0' + 4294967296 * b1' = u64 (b0 + 4294967296 * b1 + 8 * len)).
  { subst b0' b1'. rewrite Z.shiftl_mul_pow2, Z.shiftr_div_pow2 by lia.
    change (2 ^ 3) with 8. change (2 ^ 29) with 536870912.
    unfold u32, u64. change (2 ^ 32) with 4294967296. change (2 ^ 64) with 18446744073709551616.
    destruct (_ <? b0) eqn:E; b2p; zdm. }
  rewrite E, Hb. unfold u64. rewrite Zplus_mod_idemp_l. f_equal. lia.
Qed.

(** ** The update loop *)

(** The loop on [d] from an empty buffer: all full blocks are absorbed and
    the tail is left in the buffer. *)
Lemma md5_blocks_spec fuel ctx d :
  (length d < fuel)%nat -> length (inb ctx) = 64%nat ->
  let c := md5_blocks fuel ctx d in
  length (inb c) = 64%nat /\ buf c = absorb (full d) (buf ctx) d /\
  take (rest d) (inb c) = drop (64 * full d) d /\
  bits0 c = bits0 ctx /\ bits1 c = bits1 ctx.
Proof.
  revert ctx d. induction fuel as [|fuel IH]; intros ctx d Hf Hi; [lia|].
  cbn [md5_blocks]. destruct (length_full_rest d) as [Hd Hr].
  destruct (64 <=? zlen d) eqn:E; b2p.
  - set (i := memcpy (inb ctx) 0 (take 64 d)).
    assert (Ht : length (take 64 d) = 64%nat) by (rewrite length_take; lia).
    assert (Ei : i = take 64 d).
    { unfold i, memcpy. rewrite Ht. cbn [take app Nat.add].
      rewrite (drop_ge (inb ctx)) by lia. by rewrite app_nil_r. }
    destruct (full_rest_add d (drop 64 d) 1) as [Ef Er]; [rewrite length_drop; lia|].
    rewrite Nat.add_1_r in Ef.
    edestruct (IH (mk_ctx (MD5Transform (buf ctx) i) (bits0 ctx) (bits1 ctx) i) (drop 64 d))
      as (A1 & A2 & A3 & A4 & A5);
      [rewrite length_drop; lia|cbn [inb]; rewrite Ei; done|].
    split; [done|]. split; [|split; [|done]].
    + rewrite A2, Ef. cbn [absorb buf]. by rewrite Ei, transform_compress.
    + rewrite Er, A3, drop_drop. f_equal. rewrite Ef. lia.
  - destruct (full_rest_small d 0 (length d)) as [-> ->]; [lia|lia|].
    cbn [inb buf bits0 bits1 absorb]. rewrite length_memcpy by lia.
    split; [done|]. split; [done|]. split; [|done].
    pose proof (take_memcpy (inb ctx) 0 d ltac:(lia)) as Ht. done.
Qed.

(** Cutting the message at the end of a filled buffer. *)
Lemma split_at_block m d :
  rest m <> 0%nat -> (64 - rest m <= length d)%nat ->
  let r := (64 - rest m)%nat in
  exists a, m ++ d = (a ++ drop (64 * full m) m ++ take r d) ++ drop r d /\
    length a = (64 * full m)%nat /\ a = take (64 * full m) m /\
    length (drop (64 * full m) m ++ take r d) = 64%nat /\
    full (m ++ d) = (S (full m) + full (drop r d))%nat /\
    rest (m ++ d) = rest (drop r d).
Proof.
  intros Hr Hd r. destruct (length_full_rest m) as [Hm Hlt].
  exists (take (64 * full m) m). split.
  { rewrite app_assoc, take_drop, <- app_assoc. f_equal. by rewrite take_drop. }
  rewrite length_app, length_drop, !length_take. unfold r in *.
  split; [lia|]. split; [done|]. split; [lia|].
  destruct (full_rest_add (m ++ d) (drop (64 - rest m) d) (S (full m))) as [-> ->];
    [rewrite length_app, length_drop; lia|]. split; [lia|done].
Qed.

Lemma update_absorbed ctx m d :
  absorbed ctx m -> zlen d < 4294967296 -> absorbed (MD5Update ctx d) (m ++ d).
Proof.
  intros HA Hd. pose proof (absorbed_count ctx m HA) as Hc.
  destruct HA as [Hin Hbuf Hrest Hb0 Hb1 Hbits].
  destruct (bits_advance _ _ _ (zlen d) Hb0 Hb1 ltac:(lia) Hbits) as (B0 & B1 & B2).
  unfold MD5Update. change 0x3f with 63. rewrite Hc.
  set (b0' := u32 _) in *. set (b1' := u32 (_ + Z.shiftr _ _)) in *.
  assert (Hbits' : b0' + 4294967296 * b1' = u64 (8 * zlen (m ++ d))).
  { rewrite B2, length_app. f_equal. lia. }
  destruct (length_full_rest m) as [Hm Hlt]. cbn [buf inb].
  destruct (Z.of_nat (rest m) =? 0) eqn:E0; b2p; cbn [negb].
  - (* the buffer is empty: m is a whole number of blocks *)
    assert (rest m = 0%nat) as Hr0 by lia.
    destruct (md5_blocks_spec (S (length d)) (mk_ctx (buf ctx) b0' b1' (inb ctx)) d)
      as (A1 & A2 & A3 & A4 & A5); [lia|done|].
    destruct (full_rest_add (m ++ d) d (full m)) as [Ef Er]; [rewrite length_app; lia|].
    rewrite Nat.add_comm in Ef. constructor; rewrite ?A4, ?A5; cbn [bits0 bits1]; try done.
    + rewrite A2, Ef. cbn [buf]. rewrite Hbuf. symmetry. apply absorb_app. lia.
    + rewrite Er, A3, Ef. replace (64 * (full m + full d))%nat
        with (length m + 64 * full d)%nat by lia. by rewrite drop_app_add.
  - destruct (zlen d <? 64 - Z.of_nat (rest m)) eqn:E1; b2p.
    + (* everything fits the buffer *)
      destruct (full_rest_small (m ++ d) (full m) (rest m + length d)) as [Ef Er];
        [rewrite length_app; lia|lia|].
      constructor; cbn [inb buf bits0 bits1]; rewrite ?Nat2Z.id, ?Ef, ?Er; try done.
      * rewrite length_memcpy; lia.
      * rewrite Hbuf. symmetry. apply absorb_prefix. lia.
      * rewrite take_memcpy, Hrest by lia. by rewrite drop_app_le by lia.
    + (* the buffer is filled and transformed, then whole blocks *)
      destruct (split_at_block m d) as (a & S1 & S2 & S3 & S4 & S5 & S6); [lia|lia|].
      replace (Z.to_nat (64 - Z.of_nat (rest m))) with (64 - rest m)%nat by lia.
      rewrite Nat2Z.id. set (r := (64 - rest m)%nat) in *.
      assert (Ei : memcpy (inb ctx) (rest m) (take r d) = drop (64 * full m) m ++ take r d).
      { unfold memcpy. rewrite Hrest, (drop_ge (inb ctx)), app_nil_r; [done|].
        rewrite length_take. lia. }
      rewrite Ei. set (blk := drop (64 * full m) m ++ take r d) in *.
      edestruct (md5_blocks_spec (S (length d))
        (mk_ctx (MD5Transform (buf ctx) blk) b0' b1' blk) (drop r d))
        as (A1 & A2 & A3 & A4 & A5); [rewrite length_drop; lia|done|].
      constructor; rewrite ?A4, ?A5; cbn [bits0 bits1]; try done.
      * rewrite A2, S5. cbn [buf]. rewrite S1, absorb_app
          by (rewrite length_app; lia). f_equal.
        replace (S (full m)) with (full m + 1)%nat by lia.
        rewrite absorb_app by done. rewrite absorb_one by done. f_equal.
        rewrite Hbuf, S3. rewrite <- (take_drop (64 * full m) m) at 2.
        apply absorb_prefix. rewrite length_take. lia.
      * rewrite S6, A3, S5, S1. rewrite drop_app_ge by (rewrite length_app; lia).
        f_equal. rewrite length_app. lia.
Qed.

(** ** The final padding *)

Lemma le_split_8 b0 b1 :
  0 <= b0 < 4294967296 -> 0 <= b1 < 4294967296 ->
  le_split 8 (b0 + 4294967296 * b1) = le_split 4 b0 ++ le_split 4 b1.
Proof.
  intros H0 H1. cbn [le_split app]. unfold u8. change (2 ^ 8) with 256.
  repeat (f_equal; [zdm|]). f_equal. zdm.
Qed.

(** Successive stores from the front of a block. *)
Lemma memcpy_extend blk off src pre :
  take off blk = pre -> length pre = off -> (off + length src <= length blk)%nat ->
  take (off + length src) (memcpy blk off src) = pre ++ src /\
  length (memcpy blk off src) = length blk.
Proof.
  intros H1 H2 H3. rewrite take_memcpy, H1 by lia. split; [done|]. apply length_memcpy. lia.
Qed.

(** The last stores of [MD5Final]: the two counter words. *)
Lemma store_bits blk pre b0 b1 :
  length blk = 64%nat -> take 56 blk = pre ->
  memcpy (memcpy blk 56 (le_split 4 b0)) 60 (le_split 4 b1)
  = pre ++ le_split 4 b0 ++ le_split 4 b1.
Proof.
  intros Hl Hp. assert (length pre = 56%nat) by (rewrite <- Hp, length_take; lia).
  destruct (memcpy_extend blk 56 (le_split 4 b0) pre) as [E1 L1]; [done..|rewrite length_le_split; lia|].
  rewrite length_le_split in E1. cbn [Nat.add] in E1. set (i := memcpy blk 56 _) in *.
  destruct (memcpy_extend i 60 (le_split 4 b1) (pre ++ le_split 4 b0)) as [E2 L2];
    [done|rewrite length_app, length_le_split; lia|rewrite length_le_split; lia|].
  rewrite length_le_split in E2. cbn [Nat.add] in E2.
  rewrite take_ge in E2 by lia. by rewrite E2, app_assoc.
Qed.

(** The padded message is the whole blocks of [m] followed by one or two. *)
Lemma pad_shape m :
  let tl := drop (64 * full m) m in
  let len8 := le_split 8 (u64 (8 * zlen m)) in
  let r := rest m in
  pad m = take (64 * full m) m ++
    (if (r <? 56)%nat then tl ++ 0x80 :: replicate (55 - r) 0 ++ len8
     else (tl ++ 0x80 :: replicate (63 - r) 0) ++ replicate 56 0 ++ len8).
Proof.
  cbv zeta. destruct (length_full_rest m) as [Hm Hr]. unfold pad.
  destruct (rest m <? 56)%nat eqn:E.
  - apply Nat.ltb_lt in E. rewrite app_assoc, take_drop.
    replace (Z.to_nat ((55 - zlen m) mod 64)) with (55 - rest m)%nat; [done|].
    rewrite Hm. apply Nat2Z.inj. rewrite Z2Nat.id by (apply Z.mod_pos_bound; lia).
    replace (55 - Z.of_nat (64 * full m + rest m))
      with (Z.of_nat (55 - rest m) + (- Z.of_nat (full m)) * 64) by lia.
    rewrite Z.mod_add, Z.mod_small by lia. done.
  - apply Nat.ltb_ge in E.
    replace (Z.to_nat ((55 - zlen m) mod 64)) with (63 - rest m + 56)%nat.
    + rewrite replicate_add. rewrite <- (take_drop (64 * full m) m) at 1.
      by rewrite <- !app_assoc.
    + rewrite Hm. apply Nat2Z.inj. rewrite Z2Nat.id by (apply Z.mod_pos_bound; lia).
      replace (55 - Z.of_nat (64 * full m + rest m))
        with (Z.of_nat (63 - rest m + 56) + (- Z.of_nat (full m) - 1) * 64) by lia.
      rewrite Z.mod_add, Z.mod_small by lia. done.
Qed.

Lemma absorb_last r m k blk :
  length m = (64 * k)%nat -> length blk = 64%nat ->
  absorb (length (m ++ blk) / 64) r (m ++ blk) = MD5Transform (absorb k r m) blk.
Proof.
  intros Hm Hb. rewrite length_app, Hm, Hb.
  replace (64 * k + 64)%nat with ((k + 1) * 64)%nat by lia.
  rewrite Nat.div_mul by lia. rewrite absorb_app by done. by rewrite absorb_one.
Qed.

Lemma final_absorbed ctx m : absorbed ctx m -> fst (MD5Final ctx) = md5 m.
Proof.
  intros HA. pose proof (absorbed_count ctx m HA) as Hc.
  destruct HA as [Hin Hbuf Hrest Hb0 Hb1 Hbits].
  destruct (length_full_rest m) as [Hm Hr].
  assert (Hr' : length (drop (64 * full m) m) = rest m) by (rewrite length_drop; lia).
  assert (Ht : length (take (64 * full m) m) = (64 * full m)%nat) by (rewrite length_take; lia).
  assert (Habs : absorb (full m) init_regs (take (64 * full m) m) = buf ctx).
  { rewrite Hbuf, <- (absorb_prefix _ _ _ (drop (64 * full m) m)) by lia.
    by rewrite take_drop. }
  unfold MD5Final, md5. change 0x3f with 63. rewrite Hc.
  rewrite pad_shape, <- Hbits, le_split_8 by done.
  set (tl := drop (64 * full m) m) in *. set (hd := take (64 * full m) m) in *.
  rewrite Nat2Z.id. replace (Z.to_nat (Z.of_nat (rest m) + 1)) with (rest m + 1)%nat by lia.
  destruct (memcpy_extend (inb ctx) (rest m) [128] tl) as [E1 L1]; [done..|cbn [length]; lia|].
  cbn [length] in E1. set (i1 := memcpy (inb ctx) (rest m) [128]) in *.
  destruct (rest m <? 56)%nat eqn:E.
  - apply Nat.ltb_lt in E. destruct (_ <? 8) eqn:E8; b2p; [lia|].
    replace (Z.to_nat (64 - 1 - Z.of_nat (rest m) - 8)) with (55 - rest m)%nat by lia.
    destruct (memcpy_extend i1 (rest m + 1) (replicate (55 - rest m) 0) (tl ++ [128]))
      as [E2 L2]; [done|rewrite length_app; cbn [length]; lia|rewrite length_replicate; lia|].
    rewrite length_replicate in E2. replace (rest m + 1 + (55 - rest m))%nat with 56%nat in E2 by lia.
    rewrite (store_bits _ ((tl ++ [128]) ++ replicate (55 - rest m) 0)) by (congruence || done).
    rewrite (absorb_last _ _ (full m)) by
      (done || (rewrite !length_app; cbn [length]; rewrite ?length_app, length_replicate, ?length_le_split; lia)).
    rewrite Habs. rewrite <- !app_assoc. cbn [app].
    by destruct (MD5Transform _ _) as [[[? ?] ?] ?].
  - apply Nat.ltb_ge in E. destruct (_ <? 8) eqn:E8; b2p; [|lia].
    replace (Z.to_nat (64 - 1 - Z.of_nat (rest m))) with (63 - rest m)%nat by lia.
    destruct (memcpy_extend i1 (rest m + 1) (replicate (63 - rest m) 0) (tl ++ [128]))
      as [E2 L2]; [done|rewrite length_app; cbn [length]; lia|rewrite length_replicate; lia|].
    rewrite length_replicate in E2. replace (rest m + 1 + (63 - rest m))%nat with 64%nat in E2 by lia.
    set (i2 := memcpy i1 (rest m + 1) _) in *. rewrite take_ge in E2 by lia. rewrite E2.
    destruct (memcpy_extend i2 0 (replicate 56 0) []) as [E3 L3];
      [done|done|rewrite length_replicate; lia|].
    rewrite length_replicate in E3. cbn [Nat.add app] in E3. rewrite E2 in E3.
    rewrite (store_bits _ (replicate 56 0)) by (first [done|rewrite <- E2; congruence]).
    rewrite (app_assoc hd), (absorb_last _ _ (full m + 1)).
    + rewrite absorb_app by done. rewrite absorb_one.
      * rewrite Habs, <- (app_assoc tl). cbn [app].
        by destruct (MD5Transform _ _) as [[[? ?] ?] ?].
      * rewrite length_app. cbn [length]. rewrite length_replicate. lia.
    + rewrite !length_app. cbn [length]. rewrite length_replicate. lia.
    + rewrite !length_app, length_replicate, !length_le_split. lia.
Qed.

(** ** Consequences *)

Lemma updates_absorbed chunks ctx m :
  absorbed ctx m -> Forall (fun d => zlen d < 4294967296) chunks ->
  absorbed (foldl MD5Update ctx chunks) (m ++ concat chunks).
Proof.
  revert ctx m. induction chunks as [|d chunks IH]; intros ctx m HA HC; cbn [foldl concat].
  { by rewrite app_nil_r. }
  apply Forall_cons in HC as [Hd HC]. rewrite app_assoc. apply IH; [|done].
  by apply update_absorbed.
Qed.

Lemma stream_digest in0 chunks :
  length in0 = 64%nat -> Forall (fun d => zlen d < 4294967296) chunks ->
  fst (MD5Final (foldl MD5Update (MD5Init in0) chunks)) = md5 (concat chunks).
Proof.
  intros Hi HC. apply final_absorbed.
  apply (updates_absorbed chunks (MD5Init in0) []); [by apply absorbed_init|done].
Qed.

Lemma length_regs_image r : length (regs_image r) = 16%nat.
Proof. by destruct r as [[[? ?] ?] ?]. Qed.

Lemma length_md5 m : length (md5 m) = 16%nat.
Proof. apply length_regs_image. Qed.

Lemma digest_md5 in0 m :
  length in0 = 64%nat -> zlen m < 4294967296 -> MD5Digest in0 m = md5 m.
Proof.
  intros Hi Hm. unfold MD5Digest. rewrite <- (app_nil_r m) at 2.
  apply (stream_digest in0 [m]); [done|by apply Forall_singleton].
Qed.

Ltac len_mem :=
  repeat first [rewrite length_le_split | rewrite length_replicate
               | rewrite length_memcpy by len_mem]; cbn [length]; lia.

(** The context [MD5Final] leaves still has a block of 64 bytes. *)
Lemma final_inb ctx m : absorbed ctx m -> length (inb (snd (MD5Final ctx))) = 64%nat.
Proof.
  intros HA. pose proof (absorbed_count ctx m HA) as Hc. destruct HA as [Hin _ _ _ _ _].
  destruct (length_full_rest m) as [Hm Hr]. unfold MD5Final. change 0x3f with 63. rewrite Hc.
  destruct (_ <? 8) eqn:E; b2p; destruct (MD5Transform _ _) as [[[? ?] ?] ?] in |- *;
    cbn [snd inb]; len_mem.
Qed.

Lemma length_xor_pad pass c : (length pass <= 64)%nat -> length (xor_pad pass c) = 64%nat.
Proof. intros. unfold xor_pad. rewrite length_map, length_memcpy; rewrite length_replicate; lia. Qed.

Lemma hmac_key_ref in0 key :
  length in0 = 64%nat -> zlen key < 4294967296 ->
  hmac_key in0 key = (if 64 <? zlen key then md5 key else key) /\
  (length (hmac_key in0 key) <= 64)%nat.
Proof.
  intros Hi Hk. unfold hmac_key. destruct (64 <? zlen key) eqn:E; b2p; [|split; [done|lia]].
  rewrite digest_md5 by done. rewrite length_md5. split; [done|lia].
Qed.

(** The two passes of the keyed digest, the inner message in any chunks. *)
Lemma hmac_two_passes in0 k chunks :
  length in0 = 64%nat -> (length k <= 64)%nat -> Forall (fun d => zlen d < 4294967296) chunks ->
  (let '(response, ctx) := MD5Final (foldl MD5Update (MD5Init in0) (xor_pad k 0x36 :: chunks)) in
   fst (MD5Final (MD5Update (MD5Update (MD5Init (inb ctx)) (xor_pad k 0x5c)) response)))
  = md5 (xor_pad k 0x5c ++ md5 (xor_pad k 0x36 ++ concat chunks)).
Proof.
  intros Hi Hk HC.
  assert (HP : forall c, zlen (xor_pad k c) < 4294967296) by (intros; rewrite length_xor_pad; lia).
  assert (HA : absorbed (foldl MD5Update (MD5Init in0) (xor_pad k 54 :: chunks))
                 (xor_pad k 54 ++ concat chunks)).
  { apply (updates_absorbed (xor_pad k 54 :: chunks) (MD5Init in0) []);
      [by apply absorbed_init|by constructor]. }
  pose proof (final_absorbed _ _ HA) as E1. pose proof (final_inb _ _ HA) as E2.
  change 0x36 with 54. destruct (MD5Final _) as [resp ctx] eqn:EF. cbn [fst snd] in *. subst resp.
  pose proof (stream_digest (inb ctx) [xor_pad k 92; md5 (xor_pad k 54 ++ concat chunks)])
    as HS. cbn [concat foldl] in HS. rewrite app_nil_r in HS. apply HS; [done|].
  repeat apply Forall_cons_2; [by apply HP| |by constructor].
  rewrite length_md5. lia.
Qed.

(** Reading a file: full buffers, then a short one or nothing. *)
Lemma filemd5_loop_spec fulls lastd ctx m :
  absorbed ctx m -> Forall (fun d => zlen d = BUFSIZE) fulls -> zlen lastd < BUFSIZE ->
  exists ctx', filemd5_loop ctx (map Some fulls ++ [Some lastd]) = Some ctx' /\
    absorbed ctx' (m ++ concat fulls ++ lastd).
Proof.
  intros HA HF HL. revert ctx m HA. induction HF as [|d fulls Hd HF IH]; intros ctx m HA.
  - cbn [map app filemd5_loop concat]. destruct (0 <? zlen lastd) eqn:E; b2p.
    + destruct (_ <? BUFSIZE) eqn:E2; b2p; [|lia].
      eexists. split; [done|]. apply update_absorbed; [done|]. unfold BUFSIZE in *. lia.
    + assert (lastd = []) as -> by (destruct lastd; cbn [length] in *; [done|lia]).
      eexists. split; [done|]. by rewrite app_nil_r.
  - cbn [map app filemd5_loop concat]. unfold BUFSIZE in *.
    destruct (0 <? zlen d) eqn:E; b2p; [|lia].
    destruct (_ <? 2 ^ 20) eqn:E2; b2p; [lia|].
    destruct (IH (MD5Update ctx d) (m ++ d)) as (ctx' & P1 & P2).
    { apply update_absorbed; [done|]. lia. }
    exists ctx'. split; [done|]. by rewrite <- !app_assoc in *.
Qed.

(** ** Properties *)

(** C10: whatever the chunks in which a message is passed to [MD5Update], the
    digest [MD5Final] produces is the MD5 of RFC 1321 of their concatenation,
    and does not depend on the stale contents of the context's buffer. *)
Theorem md5_matches_rfc in0 chunks :
  length in0 = 64%nat -> Forall (fun d => zlen d < 4294967296) chunks ->
  fst (MD5Final (foldl MD5Update (MD5Init in0) chunks)) = md5 (concat chunks).
Proof. apply stream_digest. Qed.

Lemma md5_matches_rfc_witness :
  fst (MD5Final (foldl MD5Update (MD5Init (replicate 64 170)) [str "ab"; []; str "c"]))
  = md5 (concat [str "ab"; []; str "c"]).
Proof. apply md5_matches_rfc; [reflexivity|repeat constructor]. Defined.

(** [MD5HMAC2] is the keyed digest of RFC 2104 over the two challenges in
    turn, for keys of any length below 2^32. *)
Theorem hmac_matches_rfc in0 key c1 c2 :
  length in0 = 64%nat -> zlen key < 4294967296 -> zlen c1 < 4294967296 -> zlen c2 < 4294967296 ->
  MD5HMAC2 in0 key c1 c2 = hmac key (c1 ++ c2).
Proof.
  intros H0 Hk H1 H2. destruct (hmac_key_ref in0 key H0 Hk) as [E L].
  unfold MD5HMAC2, hmac. rewrite <- E.
  pose proof (hmac_two_passes in0 (hmac_key in0 key) [c1; c2] H0 L) as Hp.
  cbn [foldl concat] in Hp. rewrite app_nil_r in Hp. apply Hp. repeat constructor; done.
Qed.

Lemma hmac_matches_rfc_witness :
  MD5HMAC2 (replicate 64 0) (str "key") (str "challenge") (str "nonce")
  = hmac (str "key") (str "challenge" ++ str "nonce").
Proof. apply hmac_matches_rfc; reflexivity. Defined.

End Md5Facts.
