(* ===== verification/LinkedList.v ===== *)
(** * Intrusive doubly linked lists (lib/list.h)

    The task queues, the connection tables and the configuration lists are
    rings of [struct list_head] embedded in their entries.  The model is the
    memory of the [next] and [prev] fields: an operation is a sequence of
    loads and stores, and a load or store through a pointer that is not a
    [list_head] is [None].  The predicate [is_list h hd l] says that [hd] heads
    a ring of the entries [l]; the lemmas show what each operation does to it
    and that every other ring is untouched. *)

From S2P Require Import Prelude.

Module LinkedList.

Abbreviation loc := Z (only parsing).

Record heap := mk_heap { nx : gmap Z Z; pv : gmap Z Z }.

(** Loads and stores of the fields of a [struct list_head]. *)
Definition load_next (h : heap) (p : loc) : option loc := nx h !! p.
Definition load_prev (h : heap) (p : loc) : option loc := pv h !! p.

Definition valid (h : heap) (p : loc) : Prop := is_Some (nx h !! p) /\ is_Some (pv h !! p).

Definition store_next (h : heap) (p v : loc) : option heap :=
  _ ← nx h !! p; Some (mk_heap (<[p := v]> (nx h)) (pv h)).
Definition store_prev (h : heap) (p v : loc) : option heap :=
  _ ← pv h !! p; Some (mk_heap (nx h) (<[p := v]> (pv h))).

(** ** Operations *)

Definition INIT_LIST_HEAD (h : heap) (ptr : loc) : option heap :=
  h ← store_next h ptr ptr; store_prev h ptr ptr.

Definition list_add_between (h : heap) (new1 prev next : loc) : option heap :=
  h ← store_prev h next new1;
  h ← store_next h new1 next;
  h ← store_prev h new1 prev;
  store_next h prev new1.

Definition list_add (h : heap) (new1 head : loc) : option heap :=
  n ← load_next h head; list_add_between h new1 head n.

Definition list_add_tail (h : heap) (new1 head : loc) : option heap :=
  p ← load_prev h head; list_add_between h new1 p head.

Definition list_del_between (h : heap) (prev next : loc) : option heap :=
  h ← store_prev h next prev; store_next h prev next.

Definition list_del (h : heap) (entry : loc) : option heap :=
  p ← load_prev h entry; n ← load_next h entry;
  h ← list_del_between h p n;
  h ← store_next h entry 0; store_prev h entry 0.

Definition list_del_init (h : heap) (entry : loc) : option heap :=
  p ← load_prev h entry; n ← load_next h entry;
  h ← list_del_between h p n;
  INIT_LIST_HEAD h entry.

Definition list_move (h : heap) (entry head : loc) : option heap :=
  p ← load_prev h entry; n ← load_next h entry;
  h ← list_del_between h p n; list_add h entry head.

Definition list_move_tail (h : heap) (entry head : loc) : option heap :=
  p ← load_prev h entry; n ← load_next h entry;
  h ← list_del_between h p n; list_add_tail h entry head.

Definition list_empty (h : heap) (head : loc) : option bool :=
  n ← load_next h head; Some (n =? head).

Definition list_splice_at (h : heap) (lst head : loc) : option heap :=
  first ← load_next h lst; last ← load_prev h lst; at_ ← load_next h head;
  h ← store_prev h first head;
  h ← store_next h head first;
  h ← store_next h last at_;
  store_prev h at_ last.

Definition list_splice (h : heap) (lst head : loc) : option heap :=
  e ← list_empty h lst; if e : bool then Some h else list_splice_at h lst head.

Definition list_splice_init (h : heap) (lst head : loc) : option heap :=
  e ← list_empty h lst;
  if e : bool then Some h
  else (h ← list_splice_at h lst head; INIT_LIST_HEAD h lst).

(** [list_for_each_entry_safe_l(pos, n, head, member) body]: the successor is
    loaded before the body runs.  [S] is the rest of the program state. *)
Section ForEach.
Context {S : Type} (body : heap * S -> loc -> option (heap * S)).

Fixpoint for_each_safe_loop (fuel : nat) (st : heap * S) (pos n head : loc)
  : option (heap * S) :=
  if pos =? head then Some st
  else match fuel with
       | O => None
       | Datatypes.S f =>
           st' ← body st pos;
           n' ← load_next (fst st') n;
           for_each_safe_loop f st' n n' head
       end.

Definition list_for_each_entry_safe_l (fuel : nat) (st : heap * S) (head : loc)
  : option (heap * S) :=
  pos ← load_next (fst st) head;
  n ← load_next (fst st) pos;
  for_each_safe_loop fuel st pos n head.
End ForEach.

(** ** Rings *)

(** The entries [l] lie between [p] and [n], linked both ways. *)
Fixpoint dseg (h : heap) (p : loc) (l : list loc) (n : loc) : Prop :=
  match l with
  | [] => nx h !! p = Some n /\ pv h !! n = Some p
  | x :: l' => nx h !! p = Some x /\ pv h !! x = Some p /\ dseg h x l' n
  end.

Definition is_list (h : heap) (hd : loc) (l : list loc) : Prop :=
  dseg h hd l hd /\ NoDup (hd :: l).

(** ** Lemmas *)

Lemma dseg_app h p l1 x l2 n :
  dseg h p (l1 ++ x :: l2) n <-> dseg h p l1 x /\ dseg h x l2 n.
Proof.
  revert p. induction l1 as [|y l1 IH]; intros p; cbn [app dseg]; [tauto|].
  rewrite IH. tauto.
Qed.

Lemma dseg_next h p l n :
  dseg h p l n -> nx h !! p = Some (hd n l).
Proof. destruct l; cbn; tauto. Qed.

Lemma dseg_prev h p l n : dseg h p l n -> pv h !! n = Some (List.last l p).
Proof.
  revert p. induction l as [|x l IH]; intros p; cbn [dseg]; [tauto|].
  intros (_ & _ & H). rewrite (IH x H). destruct l as [|y l]; [done|].
  cbn [List.last]. f_equal. clear. revert y. induction l; intros; cbn; [done|]. apply IHl.
Qed.

Lemma store_next_eq h p v w :
  nx h !! p = Some w -> store_next h p v = Some (mk_heap (<[p := v]> (nx h)) (pv h)).
Proof. intros H. unfold store_next. by rewrite H. Qed.

Lemma store_prev_eq h p v w :
  pv h !! p = Some w -> store_prev h p v = Some (mk_heap (nx h) (<[p := v]> (pv h))).
Proof. intros H. unfold store_prev. by rewrite H. Qed.

(** The footprint of an operation: what it leaves alone. *)
Definition frame (h h' : heap) (f : list loc) : Prop :=
  (forall a, a ∉ f -> nx h' !! a = nx h !! a /\ pv h' !! a = pv h !! a) /\
  (forall a, valid h a -> valid h' a).

Lemma dseg_frame h h' f p l n :
  frame h h' f -> (forall a, a ∈ p :: n :: l -> a ∉ f) -> dseg h p l n -> dseg h' p l n.
Proof.
  intros [HF _]. revert p. induction l as [|x l IH]; intros p Hd; cbn [dseg].
  - destruct (HF p) as [-> _]; [apply Hd; set_solver|].
    destruct (HF n) as [_ ->]; [apply Hd; set_solver|]. done.
  - destruct (HF p) as [-> _]; [apply Hd; set_solver|].
    destruct (HF x) as [_ ->]; [apply Hd; set_solver|].
    intros (? & ? & ?). split_and!; auto. apply IH; [|done]. intros a Ha. apply Hd. set_solver.
Qed.

Lemma is_list_frame h h' f hd l :
  frame h h' f -> (forall a, a ∈ hd :: l -> a ∉ f) -> is_list h hd l -> is_list h' hd l.
Proof.
  intros HF Hd [H1 H2]. split; [|done]. eapply dseg_frame; [done| |done].
  intros a Ha. apply Hd. set_solver.
Qed.

Lemma frame_trans h1 h2 h3 f g : frame h1 h2 f -> frame h2 h3 g -> frame h1 h3 (f ++ g).
Proof.
  intros [A1 A2] [B1 B2]. split; [|auto]. intros a Ha.
  apply not_elem_of_app in Ha as [Hf Hg].
  destruct (A1 a Hf) as [<- <-]. by apply B1.
Qed.

Lemma frame_incl h h' f g : frame h h' f -> f ⊆ g -> frame h h' g.
Proof. intros [A B] Hs. split; [|done]. intros a Ha. apply A. set_solver. Qed.

(** *** Insertion between two linked entries *)

Lemma add_between_spec h new1 p n :
  nx h !! p = Some n -> pv h !! n = Some p -> valid h new1 -> new1 <> p -> new1 <> n ->
  exists h', list_add_between h new1 p n = Some h' /\ frame h h' [new1; p; n] /\
    nx h' !! p = Some new1 /\ pv h' !! new1 = Some p /\
    nx h' !! new1 = Some n /\ pv h' !! n = Some new1 /\
    (forall a, a <> p -> a <> new1 -> nx h' !! a = nx h !! a) /\
    (forall a, a <> n -> a <> new1 -> pv h' !! a = pv h !! a).
Proof.
  intros Hp Hn [[w1 Hw1] [w2 Hw2]] N1 N2. unfold list_add_between.
  rewrite (store_prev_eq _ _ _ p) by done. cbn [mbind option_bind].
  rewrite (store_next_eq _ _ _ w1) by done. cbn [mbind option_bind nx pv].
  rewrite (store_prev_eq _ _ _ w2) by (cbn; by rewrite lookup_insert_ne).
  cbn [mbind option_bind nx pv].
  rewrite (store_next_eq _ _ _ n) by (cbn; by rewrite lookup_insert_ne).
  cbn [nx pv]. eexists. split; [done|]. cbn [nx pv].
  assert (V : forall a v (m : gmap Z Z) b, is_Some (m !! b) -> is_Some (<[a:=v]> m !! b)).
  { intros a v m b Hb. destruct (decide (a = b)) as [->|];
      [rewrite lookup_insert_eq; eauto|by rewrite lookup_insert_ne]. }
  split.
  { split; [|intros a [Ha Hb]; split; cbn; auto].
    intros a Ha. rewrite !not_elem_of_cons in Ha. cbn.
    by rewrite !lookup_insert_ne by (intros ->; tauto). }
  rewrite lookup_insert_eq. split; [done|]. rewrite lookup_insert_eq. split; [done|].
  rewrite lookup_insert_ne, lookup_insert_eq by done. split; [done|].
  rewrite lookup_insert_ne, lookup_insert_eq by done. split; [done|].
  split; intros a Ha Hb; by rewrite !lookup_insert_ne by done.
Qed.

(** A segment none of whose links changed. *)
Lemma dseg_ext h h' p l n :
  (forall a, a ∈ p :: l -> nx h' !! a = nx h !! a) ->
  (forall a, a ∈ n :: l -> pv h' !! a = pv h !! a) ->
  dseg h p l n -> dseg h' p l n.
Proof.
  revert p. induction l as [|x l IH]; intros p H1 H2; cbn [dseg].
  - rewrite H1, H2 by set_solver. done.
  - rewrite H1, H2 by set_solver. intros (? & ? & ?). split_and!; auto.
    apply IH; [intros; apply H1|intros; apply H2|done]; set_solver.
Qed.

Lemma last_cons (x a : loc) l : List.last (x :: l) a = List.last l x.
Proof.
  revert x a. induction l as [|y l IH]; intros x a; [done|].
  change (List.last (y :: l) a = List.last (y :: l) x). by rewrite !IH.
Qed.

Lemma last_in (a : loc) l : List.last l a ∈ a :: l.
Proof.
  revert a. induction l as [|x l IH]; intros a; [set_solver|]. rewrite last_cons.
  specialize (IH x). set_solver.
Qed.

(** A segment whose right end is linked to another entry. *)
Lemma dseg_retarget_r h h' a l n n' :
  NoDup (a :: l) -> dseg h a l n ->
  (forall u, u ∈ a :: l -> u <> List.last l a -> nx h' !! u = nx h !! u) ->
  (forall u, u ∈ l -> pv h' !! u = pv h !! u) ->
  nx h' !! List.last l a = Some n' -> pv h' !! n' = Some (List.last l a) ->
  dseg h' a l n'.
Proof.
  revert a. induction l as [|x l IH]; intros a HN HD H1 H2 H3 H4; [done|].
  rewrite last_cons in *. apply NoDup_cons in HN as [Ha HN].
  destruct HD as (D1 & D2 & D3). pose proof (last_in x l). cbn [dseg].
  rewrite H1 by set_solver. rewrite H2 by set_solver. split; [done|]. split; [done|].
  apply IH; try done; intros; [apply H1|apply H2]; set_solver.
Qed.

(** A segment both of whose ends are linked elsewhere. *)
Lemma dseg_retarget h h' a a' x l n n' :
  NoDup (x :: l) -> dseg h a (x :: l) n ->
  (forall u, u ∈ x :: l -> u <> List.last l x -> nx h' !! u = nx h !! u) ->
  (forall u, u ∈ l -> pv h' !! u = pv h !! u) ->
  nx h' !! a' = Some x -> pv h' !! x = Some a' ->
  nx h' !! List.last l x = Some n' -> pv h' !! n' = Some (List.last l x) ->
  dseg h' a' (x :: l) n'.
Proof.
  intros HN (D1 & D2 & D3) H1 H2 H3 H4 H5 H6. cbn [dseg]. split; [done|]. split; [done|].
  by apply (dseg_retarget_r h h' x l n n').
Qed.

(** A segment whose left end is linked to another entry. *)
Lemma dseg_retarget_l h h' a a' l n :
  NoDup (n :: l) -> dseg h a l n ->
  (forall u, u ∈ l -> nx h' !! u = nx h !! u) ->
  (forall u, u ∈ n :: l -> u <> List.hd n l -> pv h' !! u = pv h !! u) ->
  nx h' !! a' = Some (List.hd n l) -> pv h' !! List.hd n l = Some a' ->
  dseg h' a' l n.
Proof.
  intros HN HD H1 H2 H3 H4. destruct l as [|x l]; [done|]. cbn [List.hd] in *.
  destruct HD as (D1 & D2 & D3). split; [done|]. split; [done|].
  apply NoDup_cons in HN as [Hn [Hx HN]%NoDup_cons].
  apply (dseg_ext h); [intros; apply H1; done| |done].
  intros u Hu. apply H2; set_solver.
Qed.

Lemma dseg_join h a l1 l2 b :
  dseg h a l1 (List.hd b l2) -> dseg h (List.last l1 a) l2 b -> dseg h a (l1 ++ l2) b.
Proof.
  intros H1 H2. destruct l2 as [|n l2]; [by rewrite app_nil_r|].
  apply dseg_app. split; [done|]. cbn in H2. tauto.
Qed.

Lemma list_add_spec h hd l new1 :
  is_list h hd l -> new1 ∉ hd :: l -> valid h new1 ->
  exists h', list_add h new1 hd = Some h' /\ is_list h' hd (new1 :: l) /\
    frame h h' (new1 :: hd :: l).
Proof.
  intros [HD HN] Hni Hv. pose proof (dseg_next _ _ _ _ HD) as Hnx.
  assert (Hh : List.hd hd l ∈ hd :: l) by (destruct l; set_solver).
  assert (Hpv : pv h !! List.hd hd l = Some hd) by (destruct l; cbn in *; tauto).
  unfold list_add, load_next. rewrite Hnx. cbn [mbind option_bind].
  destruct (add_between_spec h new1 hd (List.hd hd l)) as (h' & E & HF & A1 & A2 & A3 & A4 & A5 & A6);
    [done|done|done|set_solver|set_solver|].
  exists h'. split; [done|]. split; [split|].
  - cbn [dseg]. split; [done|]. split; [done|].
    apply (dseg_retarget_l h h' hd); try done; [|].
    + intros u Hu. apply A5; [apply NoDup_cons in HN as [? _]|]; set_solver.
    + intros u Hu Hne. apply A6; [done|set_solver].
  - apply NoDup_cons in HN as [? ?]. apply NoDup_cons. split; [set_solver|].
    apply NoDup_cons. set_solver.
  - eapply frame_incl; [done|]. set_solver.
Qed.

Lemma list_add_tail_spec h hd l new1 :
  is_list h hd l -> new1 ∉ hd :: l -> valid h new1 ->
  exists h', list_add_tail h new1 hd = Some h' /\ is_list h' hd (l ++ [new1]) /\
    frame h h' (new1 :: hd :: l).
Proof.
  intros [HD HN] Hni Hv. pose proof (dseg_prev _ _ _ _ HD) as Hpv.
  pose proof (last_in hd l) as Hl.
  assert (Hnx : nx h !! List.last l hd = Some hd).
  { clear -HD. revert HD. generalize hd at 1 3. induction l as [|x l IH]; intros a; cbn [dseg]; [tauto|].
    rewrite last_cons. intros (_ & _ & H). by apply IH. }
  unfold list_add_tail, load_prev. rewrite Hpv. cbn [mbind option_bind].
  destruct (add_between_spec h new1 (List.last l hd) hd)
    as (h' & E & HF & A1 & A2 & A3 & A4 & A5 & A6); [done|done|done|set_solver|set_solver|].
  exists h'. split; [done|]. split; [split|].
  - apply dseg_app. split; [|done].
    apply (dseg_retarget_r h h' hd l hd new1); try done.
    + intros u Hu Hne. apply A5; [done|set_solver].
    + intros u Hu. apply A6; [apply NoDup_cons in HN as [? _]|]; set_solver.
  - apply NoDup_cons in HN as [? ?]. apply NoDup_cons. split; [set_solver|].
    apply NoDup_app. split; [done|]. split; [set_solver|]. apply NoDup_singleton.
  - eapply frame_incl; [done|]. set_solver.
Qed.

(** *** Removal *)

Lemma del_between_spec h p n :
  is_Some (nx h !! p) -> is_Some (pv h !! n) ->
  list_del_between h p n
  = Some (mk_heap (<[p := n]> (nx h)) (<[n := p]> (pv h))).
Proof.
  intros [v Hv] [w Hw]. unfold list_del_between.
  rewrite (store_prev_eq _ _ _ w) by done. cbn [mbind option_bind].
  by rewrite (store_next_eq _ _ _ v).
Qed.

Lemma dseg_last_next h a l n : dseg h a l n -> nx h !! List.last l a = Some n.
Proof.
  revert a. induction l as [|x l IH]; intros a; cbn [dseg]; [tauto|].
  rewrite last_cons. intros (_ & _ & H). by apply IH.
Qed.

Lemma dseg_head_prev h a l n : dseg h a l n -> pv h !! List.hd n l = Some a.
Proof. destruct l; cbn; tauto. Qed.

(** Unlinking [x], whatever is then stored in [x] itself. *)
Lemma unlink_ring h h' hd l1 x l2 :
  is_list h hd (l1 ++ x :: l2) ->
  (let p := List.last l1 hd in let n := List.hd hd l2 in
   (forall u, u <> x -> nx h' !! u = <[p := n]> (nx h) !! u) /\
   (forall u, u <> x -> pv h' !! u = <[n := p]> (pv h) !! u)) ->
  is_list h' hd (l1 ++ l2).
Proof.
  intros [HD HN] [H1 H2]. apply dseg_app in HD as [D1 D2].
  assert (HN' : hd ∉ l1 /\ hd <> x /\ hd ∉ l2 /\ NoDup l1 /\ x ∉ l1 /\ x ∉ l2 /\
                NoDup l2 /\ (forall u, u ∈ l1 -> u ∉ l2)).
  { apply NoDup_cons in HN as [Hh HN]. apply NoDup_app in HN as (N1 & N2 & N3).
    apply NoDup_cons in N3 as [N3 N4]. split_and!; try done; set_solver. }
  destruct HN' as (Nh1 & Nhx & Nh2 & N1 & Nx1 & Nx2 & N2 & N12).
  pose proof (last_in hd l1) as Hp.
  assert (Hn : List.hd hd l2 ∈ hd :: l2) by (destruct l2; set_solver).
  set (p := List.last l1 hd) in *. set (n := List.hd hd l2) in *.
  assert (Hpx : p <> x) by set_solver. assert (Hnx : n <> x) by set_solver.
  assert (Ep : nx h' !! p = Some n) by (rewrite H1 by done; apply lookup_insert_eq).
  assert (En : pv h' !! n = Some p) by (rewrite H2 by done; apply lookup_insert_eq).
  split.
  - apply dseg_join.
    + apply (dseg_retarget_r h h' hd l1 x n); try done.
      * apply NoDup_cons. done.
      * intros u Hu Hne. rewrite H1 by set_solver. by rewrite lookup_insert_ne.
      * intros u Hu. rewrite H2 by set_solver. rewrite lookup_insert_ne; [done|].
        intros <-. apply elem_of_cons in Hn as [E|E]; [congruence|]. by apply (N12 n).
    + fold p. apply (dseg_retarget_l h h' x p l2 hd); try done.
      * apply NoDup_cons. done.
      * intros u Hu. rewrite H1 by set_solver. rewrite lookup_insert_ne; [done|].
        intros <-. apply elem_of_cons in Hp as [E|E]; [congruence|]. by apply (N12 p).
      * intros u Hu Hne. rewrite H2 by set_solver. by rewrite lookup_insert_ne.
  - apply NoDup_cons. split; [set_solver|]. apply NoDup_app. done.
Qed.

Lemma insert_is_Some (m : gmap Z Z) a v b : is_Some (m !! b) -> is_Some (<[a := v]> m !! b).
Proof.
  intros Hb. destruct (decide (a = b)) as [->|];
    [rewrite lookup_insert_eq; eauto|by rewrite lookup_insert_ne].
Qed.

(** [list_del_init] takes the entry out of its ring and leaves it alone in one. *)
Lemma list_del_init_spec h hd l1 x l2 :
  is_list h hd (l1 ++ x :: l2) ->
  exists h', list_del_init h x = Some h' /\ is_list h' hd (l1 ++ l2) /\
    is_list h' x [] /\ frame h h' (hd :: l1 ++ x :: l2).
Proof.
  intros HL. pose proof HL as [HD HN]. apply dseg_app in HD as [D1 D2].
  unfold list_del_init, load_prev, load_next.
  rewrite (dseg_prev _ _ _ _ D1), (dseg_next _ _ _ _ D2). cbn [mbind option_bind].
  set (p := List.last l1 hd). set (n := List.hd hd l2).
  assert (Hp : p ∈ hd :: l1 ++ x :: l2) by (pose proof (last_in hd l1); set_solver).
  assert (Hn : n ∈ hd :: l1 ++ x :: l2) by (unfold n; destruct l2; set_solver).
  rewrite del_between_spec.
  2: { unfold p. rewrite (dseg_last_next _ _ _ _ D1). eauto. }
  2: { unfold n. rewrite (dseg_head_prev _ _ _ _ D2). eauto. }
  cbn [mbind option_bind].
  assert (Sx : is_Some (nx h !! x)) by (rewrite (dseg_next _ _ _ _ D2); eauto).
  assert (Sy : is_Some (pv h !! x)) by (rewrite (dseg_prev _ _ _ _ D1); eauto).
  destruct (insert_is_Some _ p n x Sx) as [v Hv]. destruct (insert_is_Some _ n p x Sy) as [w Hw].
  unfold INIT_LIST_HEAD. rewrite (store_next_eq _ _ _ v) by done. cbn [mbind option_bind nx pv].
  rewrite (store_prev_eq _ _ _ w) by done. cbn [nx pv].
  eexists. split; [done|]. split_and!.
  - apply (unlink_ring h _ hd l1 x l2 HL). cbn [nx pv].
    split; intros u Hu; by rewrite lookup_insert_ne.
  - split; [|apply NoDup_singleton]. cbn. by rewrite !lookup_insert_eq.
  - split; cbn [nx pv].
    + intros a Ha. rewrite !lookup_insert_ne by set_solver. done.
    + intros a [V1 V2]. split; cbn [nx pv]; by repeat apply insert_is_Some.
Qed.

(** On an entry that is alone in its ring it changes nothing. *)
Lemma list_del_init_alone h x : is_list h x [] -> list_del_init h x = Some h.
Proof.
  intros [[H1 H2] HN]. unfold list_del_init, load_prev, load_next. rewrite H1, H2.
  cbn [mbind option_bind]. rewrite del_between_spec by (rewrite ?H1, ?H2; eauto).
  cbn [mbind option_bind]. unfold INIT_LIST_HEAD.
  rewrite (store_next_eq _ _ _ x) by (cbn; by rewrite lookup_insert_eq).
  cbn [mbind option_bind nx pv].
  rewrite (store_prev_eq _ _ _ x) by (cbn; by rewrite lookup_insert_eq). cbn [nx pv].
  rewrite !insert_insert_eq, !insert_id by done. by destruct h.
Qed.

(** No node points to something that is not a node: enough for unlinking any
    node to be defined. *)
Definition closed (h : heap) : Prop :=
  forall a b, nx h !! a = Some b \/ pv h !! a = Some b -> valid h b.

Lemma closed_del_init h x :
  closed h -> valid h x ->
  exists h', list_del_init h x = Some h' /\ closed h' /\ (forall a, valid h a -> valid h' a).
Proof.
  intros HC [[n Hn] [p Hp]]. unfold list_del_init, load_prev, load_next. rewrite Hn, Hp.
  cbn [mbind option_bind].
  destruct (HC x n (or_introl Hn)) as [Vn1 Vn2]. destruct (HC x p (or_intror Hp)) as [Vp1 Vp2].
  rewrite del_between_spec by done. cbn [mbind option_bind]. unfold INIT_LIST_HEAD.
  destruct (insert_is_Some _ p n x (ex_intro _ _ Hn)) as [v Hv].
  destruct (insert_is_Some _ n p x (ex_intro _ _ Hp)) as [w Hw].
  rewrite (store_next_eq _ _ _ v) by done. cbn [mbind option_bind nx pv].
  rewrite (store_prev_eq _ _ _ w) by done. cbn [nx pv].
  eexists. split; [done|].
  assert (HV : forall a, valid h a -> valid
    (mk_heap (<[x:=x]> (<[p:=n]> (nx h))) (<[x:=x]> (<[n:=p]> (pv h)))) a).
  { intros a [V1 V2]. split; cbn [nx pv]; by repeat apply insert_is_Some. }
  split; [|done]. intros a b Hab. apply HV. cbn [nx pv] in Hab.
  assert (Vx : valid h x) by (split; eauto). assert (Vn : valid h n) by done.
  assert (Vp : valid h p) by done. rewrite !lookup_insert_Some in Hab.
  destruct Hab as [[[_ <-]|[_ [[_ <-]|[_ Hab]]]]|[[_ <-]|[_ [[_ <-]|[_ Hab]]]]];
    try done; eapply HC; eauto.
Qed.

Lemma is_list_valid h hd l a : is_list h hd l -> a ∈ hd :: l -> valid h a.
Proof.
  intros [HD HN] Ha. apply elem_of_cons in Ha as [->|Ha].
  - split; [rewrite (dseg_next _ _ _ _ HD)|rewrite (dseg_prev _ _ _ _ HD)]; eauto.
  - apply list_elem_of_split in Ha as (l1 & l2 & ->). apply dseg_app in HD as [D1 D2].
    split; [rewrite (dseg_next _ _ _ _ D2)|rewrite (dseg_prev _ _ _ _ D1)]; eauto.
Qed.

Lemma list_empty_spec h hd l :
  is_list h hd l -> list_empty h hd = Some (bool_decide (l = [])).
Proof.
  intros [HD HN]. unfold list_empty, load_next. rewrite (dseg_next _ _ _ _ HD).
  cbn [mbind option_bind]. f_equal. destruct l as [|x l]; cbn [List.hd]; [by rewrite Z.eqb_refl|].
  apply NoDup_cons in HN as [Hx _]. destruct (x =? hd) eqn:E; b2p; [set_solver|done].
Qed.

(** [list_move] and [list_move_tail] from one ring to another. *)
Lemma list_move_step h hd l1 x l2 :
  is_list h hd (l1 ++ x :: l2) ->
  exists h1, (p ← load_prev h x; n ← load_next h x; list_del_between h p n) = Some h1 /\
    is_list h1 hd (l1 ++ l2) /\ valid h1 x /\ frame h h1 (hd :: l1 ++ x :: l2).
Proof.
  intros HL. pose proof HL as [HD HN]. apply dseg_app in HD as [D1 D2].
  unfold load_prev, load_next.
  rewrite (dseg_prev _ _ _ _ D1), (dseg_next _ _ _ _ D2). cbn [mbind option_bind].
  rewrite del_between_spec.
  2: { rewrite (dseg_last_next _ _ _ _ D1). eauto. }
  2: { rewrite (dseg_head_prev _ _ _ _ D2). eauto. }
  assert (HF : frame h (mk_heap (<[List.last l1 hd := List.hd hd l2]> (nx h))
                          (<[List.hd hd l2 := List.last l1 hd]> (pv h))) (hd :: l1 ++ x :: l2)).
  { split; cbn [nx pv].
    - intros a Ha. pose proof (last_in hd l1).
      assert (List.hd hd l2 ∈ hd :: l2) by (destruct l2; set_solver).
      rewrite !lookup_insert_ne by set_solver. done.
    - intros a [V1 V2]. split; cbn [nx pv]; by apply insert_is_Some. }
  eexists. split; [done|]. split; [|split; [|done]].
  - by apply (unlink_ring h _ hd l1 x l2 HL).
  - apply HF. apply (is_list_valid h hd (l1 ++ x :: l2)); [done|set_solver].
Qed.

Lemma is_list_unlinked h hd l1 x l2 : is_list h hd (l1 ++ x :: l2) -> x ∉ hd :: l1 ++ l2.
Proof.
  intros [_ HN]. apply NoDup_cons in HN as [Hh HN]. apply NoDup_app in HN as (N1 & N2 & N3).
  apply NoDup_cons in N3 as [N3 N4]. set_solver.
Qed.

Lemma list_move_tail_spec h hd l1 x l2 hd' l' :
  is_list h hd (l1 ++ x :: l2) -> is_list h hd' l' ->
  (forall a, a ∈ hd :: l1 ++ x :: l2 -> a ∉ hd' :: l') ->
  exists h', list_move_tail h x hd' = Some h' /\ is_list h' hd (l1 ++ l2) /\
    is_list h' hd' (l' ++ [x]) /\ frame h h' ((hd :: l1 ++ x :: l2) ++ x :: hd' :: l').
Proof.
  intros HL HL' Hdis. destruct (list_move_step _ _ _ _ _ HL) as (h1 & E1 & L1 & V1 & F1).
  assert (L1' : is_list h1 hd' l') by (eapply is_list_frame; [done| |done]; set_solver).
  destruct (list_add_tail_spec h1 hd' l' x) as (h2 & E2 & L2 & F2);
    [done|apply Hdis; set_solver|done|].
  exists h2. split.
  { unfold list_move_tail. destruct (load_prev h x) as [p|]; [|done]. cbn [mbind option_bind] in *.
    destruct (load_next h x) as [n|]; [|done]. cbn [mbind option_bind] in *. rewrite E1. done. }
  split; [|split; [done|by eapply frame_trans]].
  pose proof (is_list_unlinked _ _ _ _ _ HL) as Hx.
  eapply is_list_frame; [exact F2| |done].
  intros a Ha. apply not_elem_of_cons. split; [set_solver|]. apply Hdis. set_solver.
Qed.

Lemma list_move_spec h hd l1 x l2 hd' l' :
  is_list h hd (l1 ++ x :: l2) -> is_list h hd' l' ->
  (forall a, a ∈ hd :: l1 ++ x :: l2 -> a ∉ hd' :: l') ->
  exists h', list_move h x hd' = Some h' /\ is_list h' hd (l1 ++ l2) /\
    is_list h' hd' (x :: l') /\ frame h h' ((hd :: l1 ++ x :: l2) ++ x :: hd' :: l').
Proof.
  intros HL HL' Hdis. destruct (list_move_step _ _ _ _ _ HL) as (h1 & E1 & L1 & V1 & F1).
  assert (L1' : is_list h1 hd' l') by (eapply is_list_frame; [done| |done]; set_solver).
  destruct (list_add_spec h1 hd' l' x) as (h2 & E2 & L2 & F2);
    [done|apply Hdis; set_solver|done|].
  exists h2. split.
  { unfold list_move. destruct (load_prev h x) as [p|]; [|done]. cbn [mbind option_bind] in *.
    destruct (load_next h x) as [n|]; [|done]. cbn [mbind option_bind] in *. rewrite E1. done. }
  split; [|split; [done|by eapply frame_trans]].
  pose proof (is_list_unlinked _ _ _ _ _ HL) as Hx.
  eapply is_list_frame; [exact F2| |done].
  intros a Ha. apply not_elem_of_cons. split; [set_solver|]. apply Hdis. set_solver.
Qed.

(** *** Splicing *)

Lemma list_splice_at_spec h lst x l hd m :
  is_list h lst (x :: l) -> is_list h hd m ->
  (forall a, a ∈ lst :: x :: l -> a ∉ hd :: m) ->
  exists h', list_splice_at h lst hd = Some h' /\ is_list h' hd ((x :: l) ++ m) /\
    nx h' !! lst = nx h !! lst /\ pv h' !! lst = pv h !! lst /\
    frame h h' ((x :: l) ++ hd :: m).
Proof.
  intros [HD HN] [HD' HN'] Hdis. unfold list_splice_at, load_next, load_prev.
  rewrite (dseg_next _ _ _ _ HD), (dseg_prev _ _ _ _ HD), (dseg_next _ _ _ _ HD').
  cbn [mbind option_bind List.hd]. rewrite last_cons.
  pose proof (last_in x l) as Hla. pose proof (dseg_last_next _ _ _ _ HD) as Hln.
  rewrite last_cons in Hln. pose proof (dseg_head_prev _ _ _ _ HD') as Hap.
  assert (Ham : List.hd hd m ∈ hd :: m) by (destruct m; set_solver).
  set (la := List.last l x) in *. set (a := List.hd hd m) in *.
  pose proof (dseg_next _ _ _ _ HD') as Hhn. fold a in Hhn.
  pose proof (dseg_head_prev _ _ _ _ HD) as Hxp. cbn [List.hd] in Hxp.
  apply NoDup_cons in HN as [Hlst HNx]. apply NoDup_cons in HN' as [Hhd HNm].
  assert (hd <> la) by set_solver. assert (x <> a) by set_solver.
  rewrite (store_prev_eq _ _ _ lst) by done. cbn [mbind option_bind nx pv].
  rewrite (store_next_eq _ _ _ a) by done. cbn [mbind option_bind nx pv].
  rewrite (store_next_eq _ _ _ lst) by (cbn; by rewrite lookup_insert_ne).
  cbn [mbind option_bind nx pv].
  rewrite (store_prev_eq _ _ _ hd) by (cbn; by rewrite lookup_insert_ne). cbn [nx pv].
  eexists. split; [done|]. cbn [nx pv]. split_and!.
  - split.
    + apply dseg_join.
      * fold a. apply (dseg_retarget h _ lst hd x l lst a); try done; cbn [nx pv];
          rewrite ?lookup_insert_eq; try done.
        -- intros u Hu Hne. rewrite !lookup_insert_ne by (fold la in Hne; set_solver). done.
        -- intros u Hu. apply NoDup_cons in HNx as [? _]. rewrite !lookup_insert_ne by set_solver. done.
        -- by rewrite lookup_insert_ne, lookup_insert_eq.
        -- by rewrite lookup_insert_ne, lookup_insert_eq.
      * rewrite last_cons. fold la.
        apply (dseg_retarget_l h _ hd la m hd); try done; cbn [nx pv]; fold a;
          rewrite ?lookup_insert_eq; try done.
        -- apply NoDup_cons. done.
        -- intros u Hu. rewrite !lookup_insert_ne by set_solver. done.
        -- intros u Hu Hne. rewrite !lookup_insert_ne by set_solver. done.
    + apply NoDup_cons. split; [set_solver|]. apply NoDup_app. split; [done|].
      split; [set_solver|done].
  - rewrite !lookup_insert_ne by set_solver. apply (dseg_next _ _ _ _ HD).
  - rewrite !lookup_insert_ne by set_solver. by rewrite (dseg_prev _ _ _ _ HD), ?last_cons.
  - split; cbn [nx pv].
    + intros u Hu. rewrite !lookup_insert_ne by set_solver. done.
    + intros u [V1 V2]. split; cbn [nx pv]; by repeat apply insert_is_Some.
Qed.

(** [list_splice_init] moves all entries of one ring to the front of another
    and leaves the first ring empty. *)
Lemma list_splice_init_spec h lst l hd m :
  is_list h lst l -> is_list h hd m -> (forall a, a ∈ lst :: l -> a ∉ hd :: m) ->
  exists h', list_splice_init h lst hd = Some h' /\ is_list h' hd (l ++ m) /\
    is_list h' lst [] /\ frame h h' (lst :: l ++ hd :: m).
Proof.
  intros HL HM Hdis. unfold list_splice_init. rewrite (list_empty_spec _ _ _ HL).
  cbn [mbind option_bind]. destruct l as [|x l].
  { exists h. cbn. split_and!; try done; by split. }
  destruct (list_splice_at_spec _ _ _ _ _ _ HL HM Hdis) as (h1 & -> & L1 & N1 & P1 & F1).
  cbn. destruct HL as [HD HN].
  rewrite (dseg_next _ _ _ _ HD) in N1. rewrite (dseg_prev _ _ _ _ HD) in P1.
  unfold INIT_LIST_HEAD. rewrite (store_next_eq _ _ _ _ N1). cbn [mbind option_bind].
  erewrite store_prev_eq by exact P1. cbn [nx pv]. eexists. split; [done|].
  assert (F2 : frame h1 (mk_heap (<[lst := lst]> (nx h1)) (<[lst := lst]> (pv h1))) [lst]).
  { split; cbn [nx pv].
    - intros u Hu. rewrite !lookup_insert_ne by set_solver. done.
    - intros u [V1 V2]. split; cbn [nx pv]; by apply insert_is_Some. }
  split_and!.
  - eapply is_list_frame; [exact F2| |exact L1]. apply NoDup_cons in HN as [Hlst _].
    intros a Ha. assert (lst ∉ hd :: m) by (apply Hdis; set_solver). set_solver.
  - split; [|apply NoDup_singleton]. cbn. by rewrite !lookup_insert_eq.
  - eapply frame_incl; [by eapply frame_trans|]. set_solver.
Qed.

(** ** Iteration *)

(** The [next] pointers from [l] lead to [hd]. *)
Fixpoint chain (h : heap) (l : list loc) (hd : loc) : Prop :=
  match l with
  | [] => is_Some (nx h !! hd)
  | x :: l' => nx h !! x = Some (List.hd hd l') /\ chain h l' hd
  end.

Lemma dseg_chain h a l hd : is_Some (nx h !! hd) -> dseg h a l hd -> chain h l hd.
Proof.
  intros Hs. revert a. induction l as [|x l IH]; intros a; [done|].
  intros (_ & _ & H3). split; [by rewrite (dseg_next _ _ _ _ H3)|by eapply IH].
Qed.

Section ForEachFacts.
Context {S : Type} (body : heap * S -> loc -> option (heap * S)).

(** Running the body on the entries one after the other. *)
Fixpoint run_body (st : heap * S) (l : list loc) : option (heap * S) :=
  match l with
  | [] => Some st
  | x :: l' => st' ← body st x; run_body st' l'
  end.

(** If the body, run on an entry, leaves the [next] pointers of the entries
    not yet visited alone (it may unlink or free the entry it is given), the
    loop runs it on exactly the entries of the ring, in order. *)
Lemma for_each_safe_runs (I : heap * S -> list loc -> Prop) hd l st :
  (forall st x r st', I st (x :: r) -> body st x = Some st' -> I st' r /\ chain (fst st') r hd) ->
  I st l -> chain (fst st) l hd -> hd ∉ l ->
  forall n fuel, (forall x r, l = x :: r -> n = List.hd hd r) -> (length l <= fuel)%nat ->
  for_each_safe_loop body fuel st (List.hd hd l) n hd = run_body st l.
Proof.
  intros HB. revert st. induction l as [|x r IH]; intros st HI HC Hn n fuel En Hf.
  { destruct fuel; cbn; by rewrite Z.eqb_refl. }
  apply not_elem_of_cons in Hn as [Hx Hn].
  destruct fuel as [|fuel]; [cbn in Hf; lia|].
  cbn [List.hd for_each_safe_loop run_body].
  destruct (x =? hd) eqn:E; b2p; [congruence|].
  destruct (body st x) as [st'|] eqn:Eb; [|done]. cbn [mbind option_bind].
  destruct (HB st x r st' HI Eb) as [HI' HC']. rewrite (En x r eq_refl).
  destruct r as [|y r].
  - cbn in HC'. destruct HC' as [v Hv]. unfold load_next. cbn. rewrite Hv. cbn.
    destruct fuel; cbn; by rewrite Z.eqb_refl.
  - destruct HC' as [C1 C2]. unfold load_next. cbn [List.hd]. rewrite C1. cbn [mbind option_bind].
    apply (IH st'); [done|by split|done| |cbn in *; lia]. intros ? ? [= <- <-]. done.
Qed.

(** The whole loop on a ring. *)
Lemma for_each_ring (I : heap * S -> list loc -> Prop) hd l st fuel :
  (forall st x r st', I st (x :: r) -> body st x = Some st' -> I st' r /\ chain (fst st') r hd) ->
  I st l -> is_list (fst st) hd l -> (length l <= fuel)%nat ->
  list_for_each_entry_safe_l body fuel st hd = run_body st l.
Proof.
  intros HB HI HL Hf. pose proof HL as [HD HN].
  assert (Hs : is_Some (nx (fst st) !! hd)) by (rewrite (dseg_next _ _ _ _ HD); eauto).
  unfold list_for_each_entry_safe_l, load_next. rewrite (dseg_next _ _ _ _ HD).
  cbn [mbind option_bind].
  assert (Hin : List.hd hd l ∈ hd :: l) by (destruct l; set_solver).
  destruct (is_list_valid _ _ _ _ HL Hin) as [[n Hn] _]. rewrite Hn. cbn [mbind option_bind].
  apply NoDup_cons in HN as [Hh _].
  apply (for_each_safe_runs I); try done; [by eapply dseg_chain|].
  intros x r ->. cbn [List.hd] in Hn. destruct HD as (_ & _ & H3).
  rewrite (dseg_next _ _ _ _ H3) in Hn. congruence.
Qed.

End ForEachFacts.

(** ** Properties *)

(** [list_move_tail] takes an entry out of its ring, puts it at the end of
    another ring, keeps the order of all other entries of both, and writes to
    no node outside the two rings. *)
Theorem ring_move_tail h hd l1 x l2 hd' l' :
  is_list h hd (l1 ++ x :: l2) -> is_list h hd' l' ->
  (forall a, a ∈ hd :: l1 ++ x :: l2 -> a ∉ hd' :: l') ->
  exists h', list_move_tail h x hd' = Some h' /\ is_list h' hd (l1 ++ l2) /\
    is_list h' hd' (l' ++ [x]) /\
    (forall a, a ∉ hd :: l1 ++ x :: l2 -> a ∉ hd' :: l' -> nx h' !! a = nx h !! a /\ pv h' !! a = pv h !! a).
Proof.
  intros H1 H2 H3. destruct (list_move_tail_spec h hd l1 x l2 hd' l' H1 H2 H3) as (h' & E & A & B & [F _]).
  exists h'. split_and!; [done..|]. intros a Ha Hb. apply F. set_solver.
Qed.

(** A memory of two rings for the witness: 1 with 2 and 3, and 5 alone. *)
Definition demo_heap : heap :=
  mk_heap (list_to_map [(1, 2); (2, 3); (3, 1); (5, 5)]) (list_to_map [(1, 3); (2, 1); (3, 2); (5, 5)]).

End LinkedList.
