(* ===== verification/TaskData.v ===== *)
(** * Tasks (lib/pfs_task.h)

    The structs of a transfer task and the enumerations of queues and
    outcomes.  Enumerators keep their C values. *)

From S2P Require Import Prelude.

(** Task queues. *)
Definition TASK_Q_DELAY : Z := 0.
Definition TASK_Q_WAIT : Z := 1.
Definition TASK_Q_WAIT_TMP : Z := 2.
Definition TASK_Q_WAIT_SYNC : Z := 3.
Definition TASK_Q_WAIT_SYNC_IP : Z := 4.
Definition TASK_Q_WAIT_SYNC_DIR : Z := 5.
Definition TASK_Q_WAIT_SYNC_DIR_TMP : Z := 6.
Definition TASK_Q_SYNC_DIR : Z := 7.
Definition TASK_Q_SYNC_DIR_TMP : Z := 8.
Definition TASK_Q_RUN : Z := 9.
Definition TASK_Q_FIN : Z := 10.
Definition TASK_Q_CLEAN : Z := 11.
Definition TASK_Q_HOME : Z := 12.
Definition TASK_Q_SEND : Z := 13.
Definition TASK_Q_RECV : Z := 14.
Definition TASK_Q_SYNC_POSS : Z := 15.
Definition TASK_Q_SYNC_DIR_REQ : Z := 16.
Definition TASK_Q_SYNC_DIR_RSP : Z := 17.
Definition TASK_Q_UNKNOWN : Z := 18.

(** Outcomes. *)
Definition OVER_UNKNOWN : Z := 0.
Definition OVER_OK : Z := 1.
Definition OVER_E_MD5 : Z := 2.
Definition OVER_PEERERR : Z := 3.
Definition TASK_EXIST : Z := 4.
Definition OVER_PEERCLOSE : Z := 5.
Definition OVER_UNLINK : Z := 6.
Definition OVER_TIMEOUT : Z := 7.
Definition OVER_MALLOC : Z := 8.
Definition OVER_SRC_DOMAIN_ERR : Z := 9.
Definition OVER_SRC_IP_OFFLINE : Z := 10.
Definition OVER_E_OPEN_SRCFILE : Z := 11.
Definition OVER_E_OPEN_DSTFILE : Z := 12.
Definition OVER_E_IP : Z := 13.
Definition OVER_E_TYPE : Z := 14.
Definition OVER_SEND_LEN : Z := 15.
Definition OVER_TOO_MANY_TRY : Z := 16.
Definition OVER_DISK_ERR : Z := 17.
Definition OVER_UP_ERR : Z := 18.

Definition GET_TASK_Q_ERR : Z := -1.
Definition GET_TASK_Q_OK : Z := 0.
Definition GET_TASK_Q_NOTHING : Z := 1.

(** Operation types and the role of a task in synchronisation. *)
Definition OPER_IDLE : Z := 0.
Definition OPER_GET_REQ : Z := 1.
Definition OPER_GET_RSP : Z := 2.
Definition OPER_SYNC_2_DOMAIN : Z := 3.
Definition OPER_PUT_REQ : Z := 4.
Definition OPER_PUT_RSP : Z := 5.
Definition OPER_UP_REQ : Z := 6.
Definition OPER_FROM_POSS : Z := 7.

Definition TASK_DST : Z := 0.
Definition TASK_SOURCE : Z := 1.
Definition TASK_SRC_NOSYNC : Z := 2.
Definition TASK_SYNC_ISDIR : Z := 3.
Definition TASK_SYNC_VOSS_FILE : Z := 4.

Record t_task_base := mk_base {
  filename : bytes;
  tmpfile : bytes;
  retfile : bytes;
  filemd5 : bytes;
  dstip : Z;
  b_starttime : Z;
  mtime : Z;
  fsize : Z;
  type : Z;
  retry : Z;
  overstatus : Z
}.

Record t_task_sub := mk_sub {
  processlen : Z;
  lastlen : Z;
  lasttime : Z;
  starttime : Z;
  endtime : Z;
  peerip : bytes;
  oper_type : Z;
  need_sync : Z;
  sync_dir : Z
}.

(** [t_pfs_tasklist] without its two list heads, which live in the memory of
    [LinkedList]. *)
Record t_pfs_tasklist := mk_task {
  base : t_task_base;
  sub : t_task_sub;
  last : Z;
  status : Z
}.

(** The structs after [memset]. *)
Definition zero_base : t_task_base := mk_base [] [] [] [] 0 0 0 0 0 0 0.
Definition zero_sub : t_task_sub := mk_sub 0 0 0 0 0 [] 0 0 0.

Definition set_status (t : t_pfs_tasklist) (s : Z) : t_pfs_tasklist :=
  mk_task (base t) (sub t) (last t) s.

Definition set_overstatus (b : t_task_base) (o : Z) : t_task_base :=
  mk_base (filename b) (tmpfile b) (retfile b) (filemd5 b) (dstip b) (b_starttime b)
    (mtime b) (fsize b) (type b) (retry b) o.

Definition set_base (t : t_pfs_tasklist) (b : t_task_base) : t_pfs_tasklist :=
  mk_task b (sub t) (last t) (status t).

Definition set_sub (t : t_pfs_tasklist) (s : t_task_sub) : t_pfs_tasklist :=
  mk_task (base t) s (last t) (status t).

(** [memset(&(task->task), 0, sizeof(task->task))]. *)
Definition clear_task (t : t_pfs_tasklist) : t_pfs_tasklist :=
  mk_task zero_base zero_sub (last t) (status t).
