(* ===== verification/TaskQueue.v ===== *)
(** * The task queues (network/pfs_task.c)

    Eighteen queues of tasks, each a ring of [LinkedList], with a counter per
    queue.  The operations work on the memory of the rings as the code does;
    the invariant [queues st qs] relates that memory to one list of tasks per
    queue, and the lemmas show that taking and putting tasks are the two ends
    of first-in-first-out queues.

    What the environment decides is an argument: the result [lk] of
    [pthread_mutex_timedlock], the clock [now], and the address [fresh]
    returned by [malloc].  A task is named by the address of its [llist]; the
    rings of the [userlist] members never share a node with those of the
    [llist] members and are kept in a memory of their own. *)

From stdpp Require Import functions.
From S2P Require Import Prelude.
From S2P Require Import LinkedList.
From S2P Require Import TaskData.

Module TaskQueue.
Import LinkedList.

Definition EDEADLK : Z := 35.

Record state := mk_state {
  mem : heap;                          (* the llist rings *)
  umem : heap;                         (* the userlist rings *)
  tasks : gmap Z t_pfs_tasklist;
  taskcount : gmap Z Z
}.

(** The address of the queue head [pfstask[s]]. *)
Definition pfstask (s : Z) : loc := - (s + 1).

Definition in_range (s : Z) : bool := (0 <=? s) && (s <? TASK_Q_UNKNOWN).

(** [atomic_inc], [atomic_dec] on [taskcount[s]]; [None] is out of bounds. *)
Definition atomic_add (st : state) (s d : Z) : option state :=
  c ← taskcount st !! s;
  Some (mk_state (mem st) (umem st) (tasks st) (<[s := c + d]> (taskcount st))).

Definition with_mem (st : state) (h : heap) : state :=
  mk_state h (umem st) (tasks st) (taskcount st).
Definition with_umem (st : state) (h : heap) : state :=
  mk_state (mem st) h (tasks st) (taskcount st).
Definition with_task (st : state) (t : loc) (r : t_pfs_tasklist) : state :=
  mk_state (mem st) (umem st) (<[t := r]> (tasks st)) (taskcount st).

(** The lock was not obtained: every result but 0 and [EDEADLK]. *)
Definition lock_failed (lk : Z) : bool := negb (lk =? 0) && negb (lk =? EDEADLK).

(** ** pfs_get_task *)

(** A task as [malloc] returns it, list heads initialised. *)
Definition alloc_task (st : state) (t : loc) (junk : t_pfs_tasklist) (now : Z) : state :=
  mk_state (mk_heap (<[t := t]> (nx (mem st))) (<[t := t]> (pv (mem st))))
    (mk_heap (<[t := t]> (nx (umem st))) (<[t := t]> (pv (umem st))))
    (<[t := mk_task (base junk) (sub junk) now TASK_Q_UNKNOWN]> (tasks st))
    (taskcount st).

(** The return code, the task stored through the pointer, the state. *)
Definition pfs_get_task (st : state) (s lk now : Z) (fresh : option (loc * t_pfs_tasklist))
  : option (Z * option loc * state) :=
  if negb (in_range s) then Some (GET_TASK_Q_ERR, None, st)
  else if lock_failed lk then Some (lk, None, st)
  else
    pos ← load_next (mem st) (pfstask s);
    _ ← load_next (mem st) pos;
    if negb (pos =? pfstask s) then
      st ← atomic_add st s (-1);
      r ← tasks st !! pos;
      h ← list_del_init (mem st) pos;
      Some (GET_TASK_Q_OK, Some pos,
            with_mem (with_task st pos (set_status r TASK_Q_UNKNOWN)) h)
    else if s =? TASK_Q_HOME then
      match fresh with
      | None => Some (GET_TASK_Q_NOTHING, None, st)
      | Some (t, junk) => Some (GET_TASK_Q_OK, Some t, alloc_task st t junk now)
      end
    else Some (GET_TASK_Q_NOTHING, None, st).

(** ** pfs_set_task *)

Definition pfs_set_task (st : state) (t : loc) (s lk now : Z) : option (Z * state) :=
  if negb (in_range s) then Some (-1, st)
  else if lock_failed lk then Some (-1, st)
  else
    h ← list_del_init (mem st) t;
    h ← list_add_tail h t (pfstask s);
    r ← tasks st !! t;
    let r := mk_task (base r) (sub r) (if 0 <? last r then now else last r) s in
    st ← atomic_add (with_task (with_mem st h) t r) s 1;
    Some (lk, st).

(** How the scans of the queues send a task home. *)
Definition move_home (now lk_home : Z) (st : state) (t : loc) : option state :=
  r ← tasks st !! t;
  h ← list_del_init (mem st) t;
  u ← list_del_init (umem st) t;
  st ← atomic_add (with_umem (with_mem st h) u) (status r) (-1);
  '(_, st) ← pfs_set_task (with_task st t (clear_task r)) t TASK_Q_HOME lk_home now;
  Some st.

(** ** The periodic scan for stale tasks *)

Section Timeout.
(** [g_config.task_timeout] and [g_config.check_task_timeout]; the clock and
    the lock results during the scan. *)
Context (task_timeout check_task_timeout_flag now lk lk_home : Z).

Definition check_task_timeout (st : state) (t : loc) : option state :=
  r ← tasks st !! t;
  let b := base r in
  let b := if task_timeout <? now - b_starttime b then set_overstatus b OVER_TIMEOUT else b in
  let st := with_task st t (set_base r b) in
  if overstatus b =? OVER_TIMEOUT then move_home now lk_home st t else Some st.

(** [scan_some_status_task(status, cb)]; the memory of the rings is the
    loop's heap, everything else its other state. *)
Definition scan_body (cb : state -> loc -> option state) (hs : heap * state) (t : loc)
  : option (heap * state) :=
  st' ← cb (with_mem (snd hs) (fst hs)) t; Some (mem st', st').

Definition scan_some_status_task (fuel : nat) (cb : state -> loc -> option state)
    (st : state) (s : Z) : option (Z * state) :=
  if negb (in_range s) then Some (-1, st)
  else if lock_failed lk then Some (-1, st)
  else
    '(h, st') ← list_for_each_entry_safe_l (scan_body cb) fuel (mem st, st) (pfstask s);
    Some (lk, with_mem st' h).

(** The same scan, with a callback that keeps something of its own. *)
Definition scan_with_body {A} (cb : state * A -> loc -> option (state * A)) (hs : heap * (state * A)) (t : loc)
  : option (heap * (state * A)) :=
  '(st', a) ← cb (with_mem (fst (snd hs)) (fst hs), snd (snd hs)) t; Some (mem st', (st', a)).

Definition scan_with {A} (fuel : nat) (cb : state * A -> loc -> option (state * A))
    (st : state) (a : A) (s : Z) : option (Z * (state * A)) :=
  if negb (in_range s) then Some (-1, (st, a))
  else if lock_failed lk then Some (-1, (st, a))
  else
    '(h, (st', a)) ← list_for_each_entry_safe_l (scan_with_body cb) fuel (mem st, (st, a)) (pfstask s);
    Some (lk, (with_mem st' h, a)).

(** [do_timeout_task]: the queues [TASK_Q_DELAY] to [TASK_Q_FIN]. *)
Fixpoint scan_queues (fuel : nat) (st : state) (qs : list Z) : option state :=
  match qs with
  | [] => Some st
  | s :: qs' => '(_, st) ← scan_some_status_task fuel check_task_timeout st s;
                scan_queues fuel st qs'
  end.

Definition do_timeout_task (fuel : nat) (st : state) : option state :=
  if check_task_timeout_flag =? 0 then Some st
  else scan_queues fuel st (seqZ TASK_Q_DELAY (TASK_Q_CLEAN - TASK_Q_DELAY)).

End Timeout.

(** [get_task_count]. *)
Definition get_task_count (st : state) (s : Z) : Z :=
  if negb (in_range s) then -1 else default 0 (taskcount st !! s).

(** [report_2_nm]: the depths reported, rule by rule, and their total. *)
Definition report_2_nm (st : state) : list Z * Z :=
  let l := map (get_task_count st) (seqZ TASK_Q_DELAY TASK_Q_HOME) in
  (l, foldl Z.add 0 l).

(** ** init_task_info *)

Definition all_queues : list Z := seqZ 0 TASK_Q_UNKNOWN.

Definition init_heads (h : heap) (l : list Z) : heap :=
  foldl (fun h s => mk_heap (<[pfstask s := pfstask s]> (nx h)) (<[pfstask s := pfstask s]> (pv h)))
    h l.

(** One iteration of the loop over the 2048 preallocated tasks. *)
Definition home_task : t_pfs_tasklist := mk_task zero_base zero_sub (-1) TASK_Q_HOME.

Definition init_one (st : state) (t : loc) : option state :=
  let h := mk_heap (<[t := t]> (nx (mem st))) (<[t := t]> (pv (mem st))) in
  let u := mk_heap (<[t := t]> (nx (umem st))) (<[t := t]> (pv (umem st))) in
  h ← list_add h t (pfstask TASK_Q_HOME);
  Some (mk_state h u (<[t := home_task]> (tasks st)) (taskcount st)).

Fixpoint init_tasks (st : state) (l : list loc) : option state :=
  match l with
  | [] => Some st
  | t :: l' => st ← init_one st t; init_tasks st l'
  end.

Definition sizeof_task : Z := 944.

(** [init_task_info].  [mutex_fail] is the queue whose [pthread_mutex_init]
    fails, if one does; [taskall] is the block [malloc] returned, as the
    address of its first [llist].  The counters are cleared after the queue
    [TASK_Q_HOME] is filled. *)
Definition init_task_info (mutex_fail : option nat) (taskall : option loc) : option (Z * state) :=
  let start l := mk_state (init_heads (mk_heap ∅ ∅) l) (mk_heap ∅ ∅) ∅ ∅ in
  match mutex_fail with
  | Some i => Some (-1, start (take (S i) all_queues))
  | None =>
      match taskall with
      | None => Some (-1, start all_queues)
      | Some a =>
          st ← init_tasks (start all_queues)
                 (map (fun i => a + Z.of_nat i * sizeof_task) (seq 0 2048));
          Some (0, mk_state (mem st) (umem st) (tasks st)
                     (list_to_map (map (fun s => (s, 0)) all_queues)))
      end
  end.

(** ** The abstract queues *)

(** [qs s] is the list of tasks of queue [s]; [off s] the difference between
    the counter and the length.  [free] lists detached tasks. *)
Record queues (off : Z -> Z) (st : state) (qs : Z -> list loc) : Prop := mk_queues {
  q_ring : forall s, in_range s = true -> is_list (mem st) (pfstask s) (qs s);
  q_disj : forall s s' t, in_range s = true -> in_range s' = true ->
           t ∈ qs s -> t ∈ qs s' -> s = s';
  q_pos : forall s t, in_range s = true -> t ∈ qs s -> 0 < t;
  q_task : forall s t, in_range s = true -> t ∈ qs s ->
           exists r, tasks st !! t = Some r /\ status r = s;
  q_count : forall s, in_range s = true -> taskcount st !! s = Some (zlen (qs s) + off s)
}.

(** A task held by a thread: in no queue, alone in its ring. *)
Record detached (st : state) (qs : Z -> list loc) (t : loc) : Prop := mk_detached {
  d_alone : is_list (mem st) t [];
  d_free : forall s, in_range s = true -> t ∉ qs s;
  d_pos : 0 < t;
  d_task : is_Some (tasks st !! t)
}.

(** ** Lemmas *)

Lemma in_range_iff s : in_range s = true <-> 0 <= s < 18.
Proof. unfold in_range, TASK_Q_UNKNOWN. rewrite andb_true_iff, Z.leb_le, Z.ltb_lt. done. Qed.

Lemma pfstask_neg s : in_range s = true -> pfstask s < 0.
Proof. rewrite in_range_iff. unfold pfstask. lia. Qed.

Lemma lock_ok lk : lk = 0 \/ lk = EDEADLK -> lock_failed lk = false.
Proof. by intros [-> | ->]. Qed.

Section WithQueues.
Context {off : Z -> Z} {st : state} {qs : Z -> list loc} (HQ : queues off st qs).

(** The nodes of different rings are different. *)
Lemma rings_disjoint s s' a :
  in_range s = true -> in_range s' = true -> s' <> s ->
  a ∈ pfstask s' :: qs s' -> a ∉ pfstask s :: qs s.
Proof.
  intros Hs Hs' Hne Ha Hb. pose proof (pfstask_neg s Hs). pose proof (pfstask_neg s' Hs').
  apply elem_of_cons in Ha as [->|Ha]; apply elem_of_cons in Hb as [Hb|Hb].
  - unfold pfstask in Hb. lia.
  - apply (q_pos _ _ _ HQ s) in Hb; [lia|done].
  - apply (q_pos _ _ _ HQ s') in Ha; [lia|done].
  - apply Hne. by eapply (q_disj _ _ _ HQ).
Qed.

(** A change inside one ring leaves the others. *)
Lemma other_ring s s' h' t :
  in_range s = true -> in_range s' = true -> s' <> s -> t ∉ pfstask s' :: qs s' ->
  frame (mem st) h' (t :: pfstask s :: qs s) -> is_list h' (pfstask s') (qs s').
Proof.
  intros Hs Hs' Hne Ht HF. eapply is_list_frame; [exact HF| |by apply (q_ring _ _ _ HQ)].
  intros a Ha. apply not_elem_of_cons. split; [intros ->; done|].
  by apply (rings_disjoint s s').
Qed.

Lemma not_head s t : in_range s = true -> 0 < t -> t <> pfstask s.
Proof. intros Hs Ht. pose proof (pfstask_neg s Hs). lia. Qed.

Lemma detached_not_in s t :
  in_range s = true -> detached st qs t -> t ∉ pfstask s :: qs s.
Proof.
  intros Hs HD. apply not_elem_of_cons. split.
  - apply not_head; [done|by apply (d_pos _ _ _ HD)].
  - by apply (d_free _ _ _ HD).
Qed.

(** A detached task other than [t] stays detached. *)
Lemma detached_frame s h' t t' u tk cnt (qs' : Z -> list loc) :
  in_range s = true -> detached st qs t' -> t' <> t ->
  frame (mem st) h' (t :: pfstask s :: qs s) ->
  (forall s' x, in_range s' = true -> x ∈ qs' s' -> x ∈ qs s' \/ x = t) ->
  (forall x, x <> t -> tk !! x = tasks st !! x) ->
  detached (mk_state h' u tk cnt) qs' t'.
Proof.
  intros Hs [D1 D2 D3 D4] Hne HF Hqs Htk. split; cbn.
  - eapply is_list_frame; [exact HF| |done].
    intros a ->%list_elem_of_singleton. rewrite !not_elem_of_cons.
    split_and!; [done|by apply not_head|by apply D2].
  - intros s' Hs' Hin. destruct (Hqs s' t' Hs' Hin) as [H|H]; [by apply (D2 s')|done].
  - done.
  - by rewrite Htk.
Qed.

(** Unlinking a task from the queue it is in, whatever its record and the
    counters become. *)
Lemma detach_step s l1 t l2 :
  in_range s = true -> qs s = l1 ++ t :: l2 ->
  exists h', list_del_init (mem st) t = Some h' /\
    forall off' u rec cnt,
    (forall s', in_range s' = true ->
       cnt !! s' = Some (zlen ((<[s := l1 ++ l2]> qs) s') + off' s')) ->
    let st' := mk_state h' u (<[t := rec]> (tasks st)) cnt in
    queues off' st' (<[s := l1 ++ l2]> qs) /\ detached st' (<[s := l1 ++ l2]> qs) t /\
    (forall t', detached st qs t' -> detached st' (<[s := l1 ++ l2]> qs) t').
Proof.
  intros Hs Hq. pose proof (q_ring _ _ _ HQ s Hs) as HR. rewrite Hq in HR.
  assert (Ht : 0 < t) by (apply (q_pos _ _ _ HQ s t); [done|rewrite Hq; set_solver]).
  destruct (list_del_init_spec (mem st) (pfstask s) l1 t l2 HR) as (h' & E & L1 & L2 & F).
  exists h'. split; [done|]. intros off' u rec cnt Hcnt.
  pose proof (is_list_unlinked _ _ _ _ _ HR) as Hnt.
  assert (F' : frame (mem st) h' (t :: pfstask s :: qs s)).
  { eapply frame_incl; [exact F|]. rewrite Hq. set_solver. }
  assert (Hsub : forall s' x, in_range s' = true -> x ∈ (<[s := l1 ++ l2]> qs) s' -> x ∈ qs s').
  { intros s' x Hs' Hx. destruct (decide (s' = s)) as [->|Hne].
    - rewrite fn_lookup_insert in Hx. rewrite Hq. set_solver.
    - by rewrite fn_lookup_insert_ne in Hx. }
  assert (Hfree : forall s', in_range s' = true -> t ∉ (<[s := l1 ++ l2]> qs) s').
  { intros s' Hs'. destruct (decide (s' = s)) as [->|Hne].
    - rewrite fn_lookup_insert. set_solver.
    - rewrite fn_lookup_insert_ne by done. intros Hx. apply Hne.
      apply (q_disj _ _ _ HQ s' s t); [done..|rewrite Hq; set_solver]. }
  split; [|split].
  - split; cbn [mem tasks taskcount]; [| | | |done].
    + intros s' Hs'. destruct (decide (s' = s)) as [->|Hne].
      * by rewrite fn_lookup_insert.
      * rewrite fn_lookup_insert_ne by done. apply (other_ring s s' h' t); try done.
        apply not_elem_of_cons. split; [by apply not_head|].
        specialize (Hfree s' Hs'). by rewrite fn_lookup_insert_ne in Hfree.
    + intros s1 s2 x H1 H2 X1 X2. apply (q_disj _ _ _ HQ s1 s2 x); auto.
    + intros s' x Hs' Hx. apply (q_pos _ _ _ HQ s' x); auto.
    + intros s' x Hs' Hx. assert (x <> t) by (intros ->; by apply (Hfree s')).
      rewrite lookup_insert_ne by done. apply (q_task _ _ _ HQ s' x); auto.
  - split; cbn; [done|done|done|]. by rewrite lookup_insert_eq.
  - intros t' HD. assert (t' <> t).
    { intros ->. apply (d_free _ _ _ HD s Hs). rewrite Hq. set_solver. }
    apply (detached_frame s h' t t'); try done.
    + intros s' x Hs' Hx. left. by apply Hsub.
    + intros x Hx. cbn. by rewrite lookup_insert_ne.
Qed.

(** The counters when queue [s] loses a task and its counter is decremented. *)
Lemma count_dec s l1 t l2 c :
  in_range s = true -> qs s = l1 ++ t :: l2 -> c = zlen (qs s) + off s ->
  forall s', in_range s' = true ->
  <[s := c + -1]> (taskcount st) !! s' = Some (zlen ((<[s := l1 ++ l2]> qs) s') + off s').
Proof.
  intros Hs Hq -> s' Hs'. destruct (decide (s' = s)) as [->|Hne].
  - rewrite lookup_insert_eq, fn_lookup_insert, Hq, !length_app. cbn [length]. f_equal. lia.
  - rewrite lookup_insert_ne, fn_lookup_insert_ne by done. by apply (q_count _ _ _ HQ).
Qed.

(** Taking the oldest task of a queue. *)
Lemma get_task_step s t r lk now fresh :
  in_range s = true -> lk = 0 \/ lk = EDEADLK -> qs s = t :: r ->
  exists st', pfs_get_task st s lk now fresh = Some (GET_TASK_Q_OK, Some t, st') /\
    queues off st' (<[s := r]> qs) /\ detached st' (<[s := r]> qs) t /\
    (forall t', detached st qs t' -> detached st' (<[s := r]> qs) t').
Proof.
  intros Hs Hlk Hq. pose proof (q_ring _ _ _ HQ s Hs) as HR. rewrite Hq in HR.
  assert (Ht : 0 < t) by (apply (q_pos _ _ _ HQ s t); [done|rewrite Hq; set_solver]).
  unfold pfs_get_task. rewrite Hs, lock_ok by done. cbn [negb].
  unfold load_next. rewrite (dseg_next _ _ _ _ (proj1 HR)). cbn [mbind option_bind List.hd].
  destruct (is_list_valid _ _ _ t HR ltac:(set_solver)) as [[v ->] _]. cbn [mbind option_bind].
  destruct (t =? pfstask s) eqn:E; b2p; [by apply not_head in E|]. cbn [negb].
  unfold atomic_add. rewrite (q_count _ _ _ HQ s Hs). cbn [mbind option_bind tasks mem].
  destruct (q_task _ _ _ HQ s t Hs ltac:(rewrite Hq; set_solver)) as (rec & Hrec & _).
  rewrite Hrec. cbn [mbind option_bind].
  destruct (detach_step s [] t r Hs Hq) as (h' & -> & HD). cbn [mbind option_bind].
  eexists. split; [done|]. apply HD. by apply (count_dec s [] t r).
Qed.

Lemma get_task_nothing s lk now fresh :
  in_range s = true -> lk = 0 \/ lk = EDEADLK -> qs s = [] -> s <> TASK_Q_HOME ->
  pfs_get_task st s lk now fresh = Some (GET_TASK_Q_NOTHING, None, st).
Proof.
  intros Hs Hlk Hq Hne. pose proof (q_ring _ _ _ HQ s Hs) as HR. rewrite Hq in HR.
  unfold pfs_get_task. rewrite Hs, lock_ok by done. cbn [negb]. unfold load_next.
  destruct HR as [[HR1 HR2] _]. rewrite HR1. cbn [mbind option_bind]. rewrite HR1.
  cbn [mbind option_bind]. rewrite Z.eqb_refl. cbn [negb].
  destruct (s =? TASK_Q_HOME) eqn:E; b2p; [done|]. done.
Qed.

(** Putting back a detached task. *)
Lemma set_task_step s t lk now :
  in_range s = true -> lk = 0 \/ lk = EDEADLK -> detached st qs t ->
  exists st', pfs_set_task st t s lk now = Some (lk, st') /\
    queues off st' (<[s := qs s ++ [t]]> qs) /\
    (forall t', t' <> t -> detached st qs t' -> detached st' (<[s := qs s ++ [t]]> qs) t').
Proof.
  intros Hs Hlk HD. pose proof HD as [D1 D2 D3 [rec Hrec]].
  unfold pfs_set_task. rewrite Hs, lock_ok by done. cbn [negb].
  rewrite (list_del_init_alone _ _ D1). cbn [mbind option_bind].
  pose proof (detached_not_in s t Hs HD) as Hni.
  destruct (list_add_tail_spec (mem st) (pfstask s) (qs s) t) as (h2 & -> & L2 & F);
    [by apply (q_ring _ _ _ HQ)|done|by apply (is_list_valid (mem st) t []); [|set_solver]|].
  cbn [mbind option_bind]. rewrite Hrec. cbn [mbind option_bind].
  unfold atomic_add. cbn [taskcount with_task with_mem]. rewrite (q_count _ _ _ HQ s Hs).
  cbn [mbind option_bind].
  assert (Hin : forall s' x, in_range s' = true -> x ∈ (<[s := qs s ++ [t]]> qs) s' ->
    x ∈ qs s' \/ (x = t /\ s' = s)).
  { intros s' x Hs' Hx. destruct (decide (s' = s)) as [->|Hne].
    - rewrite fn_lookup_insert in Hx. set_solver.
    - rewrite fn_lookup_insert_ne in Hx by done. by left. }
  eexists. split; [done|]. split.
  - split; cbn [mem tasks taskcount with_mem with_task].
    + intros s' Hs'. destruct (decide (s' = s)) as [->|Hne].
      * by rewrite fn_lookup_insert.
      * rewrite fn_lookup_insert_ne by done. apply (other_ring s s' h2 t); try done.
        by apply detached_not_in.
    + intros s1 s2 x H1 H2 X1 X2.
      destruct (Hin s1 x H1 X1) as [Y1|[E1 E1']], (Hin s2 x H2 X2) as [Y2|[E2 E2']].
      * by apply (q_disj _ _ _ HQ s1 s2 x).
      * subst x. by apply (D2 s1) in Y1.
      * subst x. by apply (D2 s2) in Y2.
      * congruence.
    + intros s' x Hs' Hx. destruct (Hin s' x Hs' Hx) as [Y|[-> _]]; [|done].
      by apply (q_pos _ _ _ HQ s' x).
    + intros s' x Hs' Hx. destruct (Hin s' x Hs' Hx) as [Y|[-> ->]].
      * assert (x <> t) by (intros ->; by apply (D2 s') in Y).
        rewrite lookup_insert_ne by done. by apply (q_task _ _ _ HQ s' x).
      * rewrite lookup_insert_eq. by eexists.
    + intros s' Hs'. destruct (decide (s' = s)) as [->|Hne].
      * rewrite lookup_insert_eq, fn_lookup_insert, length_app. cbn [length]. f_equal. lia.
      * rewrite lookup_insert_ne, fn_lookup_insert_ne by done. by apply (q_count _ _ _ HQ).
  - intros t' Hne HD'. apply (detached_frame s h2 t t'); try done.
    + intros s' x Hs' Hx. destruct (Hin s' x Hs' Hx) as [?|[? _]]; auto.
    + intros x Hx. cbn. by rewrite lookup_insert_ne.
Qed.

End WithQueues.

(** ** A task put in a queue while it is still in another

    [pfs_set_task] unlinks the task from whatever ring it is in but only
    increments the counter of the new queue. *)

Definition bump (off : Z -> Z) (s : Z) : Z -> Z := <[s := off s + 1]> off.

Lemma set_task_attached off st qs s0 s l1 t l2 lk now :
  queues off st qs -> in_range s0 = true -> in_range s = true ->
  lk = 0 \/ lk = EDEADLK -> qs s0 = l1 ++ t :: l2 ->
  exists st', pfs_set_task st t s lk now = Some (lk, st') /\
    let qs1 := <[s0 := l1 ++ l2]> qs in
    queues (bump off s0) st' (<[s := qs1 s ++ [t]]> qs1).
Proof.
  intros HQ Hs0 Hs Hlk Hq.
  destruct (q_task _ _ _ HQ s0 t Hs0 ltac:(rewrite Hq; set_solver)) as (rec & Hrec & _).
  destruct (detach_step HQ s0 l1 t l2 Hs0 Hq) as (h1 & E1 & HD).
  destruct (HD (bump off s0) (umem st) rec (taskcount st)) as (Q1 & D1 & _).
  { intros s' Hs'. unfold bump. destruct (decide (s' = s0)) as [->|Hne].
    - rewrite !fn_lookup_insert, (q_count _ _ _ HQ s0 Hs0), Hq, !length_app.
      cbn [length]. f_equal. lia.
    - rewrite !fn_lookup_insert_ne by done. by apply (q_count _ _ _ HQ). }
  rewrite insert_id in Q1, D1 by done.
  destruct (set_task_step Q1 s t lk now Hs Hlk D1) as (st' & E2 & Q2 & _).
  exists st'. split; [|exact Q2]. rewrite <- E2.
  unfold pfs_set_task. rewrite E1. cbn [mbind option_bind mem tasks].
  rewrite (list_del_init_alone h1 t (d_alone _ _ _ D1)). by rewrite Hs, lock_ok by done.
Qed.

(** ** A task a thread works on: in no queue, or still in one *)

Definition held (st : state) (qs : Z -> list loc) (t : loc) : Prop :=
  detached st qs t \/ exists s l1 l2, in_range s = true /\ qs s = l1 ++ t :: l2.

(** Changing a task's record, its status apart, leaves the queues. *)
Lemma with_task_held off st qs t r r' :
  queues off st qs -> held st qs t -> tasks st !! t = Some r -> status r' = status r ->
  queues off (with_task st t r') qs /\ held (with_task st t r') qs t.
Proof.
  intros [A1 A2 A3 A4 A5] Hh Ht Hr. split.
  - split; try done. simpl. intros s x Hs Hx. destruct (decide (x = t)) as [-> |Hne].
    + rewrite lookup_insert_eq. destruct (A4 s t Hs Hx) as (r0 & E0 & <-). simplify_eq. by eexists.
    + rewrite lookup_insert_ne by done. by apply A4.
  - destruct Hh as [[B1 B2 B3 B4]|Hh]; [left|by right]. split; try done. simpl.
    by rewrite lookup_insert_eq.
Qed.

(** Moving such a task to queue [s]. *)
Lemma set_task_held off st qs t s lk now :
  queues off st qs -> held st qs t -> in_range s = true -> lk = 0 \/ lk = EDEADLK ->
  exists off' st' qs' l, pfs_set_task st t s lk now = Some (lk, st') /\
    queues off' st' qs' /\ qs' s = l ++ [t].
Proof.
  intros HQ [HD|(s0 & l1 & l2 & Hs0 & Hq)] Hs Hlk.
  - destruct (set_task_step HQ s t lk now Hs Hlk HD) as (st' & E & Q & _).
    exists off, st', (<[s := qs s ++ [t]]> qs), (qs s). by rewrite fn_lookup_insert.
  - destruct (set_task_attached off st qs s0 s l1 t l2 lk now HQ Hs0 Hs Hlk Hq) as (st' & E & Q).
    eexists _, st', _, _. split; [done|]. split; [exact Q|]. by rewrite fn_lookup_insert.
Qed.

(** ** What a task is about, wherever it is

    The queue operations change the links and the status of tasks, never their
    jobs. *)

Definition job (r : t_pfs_tasklist) : t_task_base * t_task_sub := (base r, sub r).

Definition same_jobs (st st' : state) : Prop :=
  forall t, job <$> tasks st' !! t = job <$> tasks st !! t.

#[global] Instance same_jobs_pre : PreOrder same_jobs.
Proof. split; [by intros st t|]. intros a b c H1 H2 t. by rewrite H2. Qed.

Lemma get_task_jobs st s lk now fresh c t st' :
  s <> TASK_Q_HOME -> pfs_get_task st s lk now fresh = Some (c, t, st') -> same_jobs st st'.
Proof.
  intros Hne. unfold pfs_get_task. destruct (negb (in_range s)); [by intros [= _ _ <-]|].
  destruct (lock_failed lk); [by intros [= _ _ <-]|].
  destruct (load_next _ _) as [pos|]; [|done]. cbn [mbind option_bind].
  destruct (load_next _ _) as [x|]; [|done]. cbn [mbind option_bind].
  destruct (negb (pos =? pfstask s)).
  - unfold atomic_add. destruct (taskcount st !! s); [|done]. cbn [mbind option_bind tasks].
    destruct (tasks st !! pos) as [r|] eqn:Er; [|done]. cbn [mbind option_bind].
    destruct (list_del_init _ _); [|done]. cbn [mbind option_bind]. intros [= _ _ <-] y. simpl.
    destruct (decide (y = pos)) as [-> |]; [by rewrite lookup_insert_eq, Er|by rewrite lookup_insert_ne].
  - apply Z.eqb_neq in Hne. rewrite Hne. by intros [= _ _ <-].
Qed.

Lemma set_task_jobs st t s lk now c st' : pfs_set_task st t s lk now = Some (c, st') -> same_jobs st st'.
Proof.
  unfold pfs_set_task. destruct (negb (in_range s)); [by intros [= _ <-]|].
  destruct (lock_failed lk); [by intros [= _ <-]|].
  destruct (list_del_init _ _); [|done]. cbn [mbind option_bind].
  destruct (list_add_tail _ _ _); [|done]. cbn [mbind option_bind].
  destruct (tasks st !! t) as [r|] eqn:Er; [|done]. cbn [mbind option_bind]. unfold atomic_add.
  destruct (taskcount _ !! _); [|done]. cbn [mbind option_bind]. intros [= _ <-] y. simpl.
  destruct (decide (y = t)) as [-> |]; [by rewrite lookup_insert_eq, Er|by rewrite lookup_insert_ne].
Qed.

Lemma get_task_same off st qs s t rest lk now fresh st' :
  queues off st qs -> in_range s = true -> qs s = t :: rest ->
  pfs_get_task st s lk now fresh = Some (GET_TASK_Q_OK, Some t, st') -> same_jobs st st'.
Proof.
  intros Q Hs Hq. pose proof (q_ring _ _ _ Q s Hs) as R. rewrite Hq in R.
  assert (Hn : t <> pfstask s) by (apply not_head; [done|]; apply (q_pos _ _ _ Q s); [done|]; rewrite Hq; set_solver).
  unfold pfs_get_task. rewrite Hs. cbn [negb].
  destruct (lock_failed lk); [by intros [= _ ?]|]. unfold load_next.
  rewrite (dseg_next _ _ _ _ (proj1 R)). cbn [mbind option_bind List.hd].
  destruct (nx (mem st) !! t); [|done]. cbn [mbind option_bind].
  destruct (t =? pfstask s) eqn:E; b2p; [done|]. cbn [negb].
  unfold atomic_add. destruct (taskcount st !! s); [|done]. cbn [mbind option_bind tasks].
  destruct (tasks st !! t) as [r|] eqn:Er; [|done]. cbn [mbind option_bind].
  destruct (list_del_init _ _); [|done]. cbn [mbind option_bind]. intros [= <-] y. simpl.
  destruct (decide (y = t)) as [-> |]; [by rewrite lookup_insert_eq, Er|by rewrite lookup_insert_ne].
Qed.

(** Changing the record of a task in no queue. *)
Lemma with_task_detached off st qs t r :
  queues off st qs -> detached st qs t ->
  queues off (with_task st t r) qs /\ detached (with_task st t r) qs t.
Proof.
  intros [A1 A2 A3 A4 A5] [B1 B2 B3 B4]. split; split; try done; simpl.
  - intros s x Hs Hx. rewrite lookup_insert_ne; [by apply A4|]. intros <-. by apply (B2 s).
  - rewrite lookup_insert_eq. done.
Qed.

(** ** Filling tasks of the home queue *)

(** The queues after [k] tasks of the home queue went to queue [to]. *)
Definition drawn (to : Z) (k : nat) (qs : Z -> list Z) : Z -> list Z :=
  <[to := qs to ++ take k (qs TASK_Q_HOME)]> (<[TASK_Q_HOME := drop k (qs TASK_Q_HOME)]> qs).

Lemma drawn_add to k1 k2 qs s :
  to <> TASK_Q_HOME -> drawn to (k1 + k2) qs s = drawn to k2 (drawn to k1 qs) s.
Proof.
  intros Hne. unfold drawn, insert, fn_insert. repeat case_decide; subst; try done.
  - by rewrite <- app_assoc, take_take_drop.
  - by rewrite drop_drop.
Qed.

Lemma drawn_0 to qs s : drawn to 0 qs s = qs s.
Proof. unfold drawn, insert, fn_insert. rewrite take_0, drop_0, app_nil_r. repeat case_decide; by subst. Qed.

Lemma drawn_home to k qs : to <> TASK_Q_HOME -> drawn to k qs TASK_Q_HOME = drop k (qs TASK_Q_HOME).
Proof. intros Hne. unfold drawn. by rewrite fn_lookup_insert_ne, fn_lookup_insert. Qed.

(** A task of the home queue is filled in and queued. *)
Lemma file_task off st qs q b sb now fresh t rest :
  queues off st qs -> in_range q = true -> q <> TASK_Q_HOME -> qs TASK_Q_HOME = t :: rest ->
  exists st1 r st', pfs_get_task st TASK_Q_HOME 0 now fresh = Some (GET_TASK_Q_OK, Some t, st1) /\
    tasks st1 !! t = Some r /\
    pfs_set_task (with_task st1 t (set_sub (set_base r b) sb)) t q 0 now = Some (0, st') /\
    queues off st' (drawn q 1 qs) /\ job <$> tasks st' !! t = Some (b, sb) /\
    (forall x, x <> t -> job <$> tasks st' !! x = job <$> tasks st !! x).
Proof.
  intros Q Hq Hne Hh.
  destruct (get_task_step Q TASK_Q_HOME t rest 0 now fresh eq_refl ltac:(by left) Hh) as (st1 & E1 & Q1 & D1 & _).
  pose proof (get_task_same off st qs TASK_Q_HOME t rest 0 now fresh st1 Q eq_refl Hh E1) as J1.
  destruct (d_task _ _ _ D1) as [r Hr].
  destruct (with_task_detached _ _ _ _ (set_sub (set_base r b) sb) Q1 D1) as [Q2 D2].
  destruct (set_task_step Q2 q t 0 now Hq ltac:(by left) D2) as (st' & E3 & Q3 & _).
  pose proof (set_task_jobs _ _ _ _ _ _ _ E3) as J3.
  exists st1, r, st'. split; [done|]. split; [done|]. split; [done|]. split; [|split].
  - unfold drawn. rewrite Hh. cbn [take drop firstn skipn]. by rewrite (fn_lookup_insert_ne qs) in Q3 by done.
  - rewrite (J3 t). simpl. by rewrite lookup_insert_eq.
  - intros x Hx. rewrite (J3 x). simpl. rewrite lookup_insert_ne by done. apply J1.
Qed.

(** Two queues hold no more tasks than there are. *)
Lemma queues_bound off st qs s s' :
  queues off st qs -> in_range s = true -> in_range s' = true -> s <> s' ->
  (length (qs s) + length (qs s') <= length (map_to_list (tasks st)))%nat.
Proof.
  intros HQ Hs Hs' Hne. rewrite <- length_app, <- (length_map fst (map_to_list (tasks st))).
  apply submseteq_length, NoDup_submseteq.
  - apply NoDup_app. split_and!.
    + pose proof (q_ring _ _ _ HQ s Hs) as [_ Hn]. by apply NoDup_cons in Hn as [_ Hn].
    + intros x Hx Hy. by apply Hne, (q_disj _ _ _ HQ s s' x).
    + pose proof (q_ring _ _ _ HQ s' Hs') as [_ Hn]. by apply NoDup_cons in Hn as [_ Hn].
  - intros x Hx. apply elem_of_app in Hx.
    assert (exists r, tasks st !! x = Some r) as [r Hr].
    { destruct Hx as [Hx|Hx]; apply (q_task _ _ _ HQ) in Hx as (r & ? & _); eauto. }
    apply list_elem_of_fmap. exists (x, r). split; [done|]. by apply elem_of_map_to_list.
Qed.

Lemma same_jobs_dom st st' :
  same_jobs st st' -> length (map_to_list (tasks st')) = length (map_to_list (tasks st)).
Proof.
  intros HJ. rewrite !length_map_to_list, <- !size_dom. f_equal. apply set_eq. intros x. rewrite !elem_of_dom.
  specialize (HJ x). split; intros [r Hr]; rewrite Hr in HJ; simpl in HJ.
  - destruct (tasks st !! x); [done|discriminate].
  - destruct (tasks st' !! x); [done|discriminate].
Qed.

(** ** Allocation when [TASK_Q_HOME] is empty *)

Lemma alloc_frame h t :
  t ∉ dom (nx h) -> t ∉ dom (pv h) ->
  let h' := mk_heap (<[t := t]> (nx h)) (<[t := t]> (pv h)) in
  is_list h' t [] /\ frame h h' [t].
Proof.
  intros H1 H2 h'. split.
  - split; [|apply NoDup_singleton]. cbn. by rewrite !lookup_insert_eq.
  - split; cbn [nx pv].
    + intros a Ha. cbn. rewrite !lookup_insert_ne by set_solver. done.
    + intros a [V1 V2]. split; cbn [nx pv]; by apply insert_is_Some.
Qed.

Lemma get_home_alloc off st qs lk now t junk :
  queues off st qs -> lk = 0 \/ lk = EDEADLK -> qs TASK_Q_HOME = [] ->
  0 < t -> t ∉ dom (nx (mem st)) -> t ∉ dom (pv (mem st)) ->
  exists st', pfs_get_task st TASK_Q_HOME lk now (Some (t, junk))
              = Some (GET_TASK_Q_OK, Some t, st') /\
    queues off st' qs /\ detached st' qs t /\ (forall t', detached st qs t' -> detached st' qs t').
Proof.
  intros HQ Hlk Hq Ht N1 N2. assert (Hs : in_range TASK_Q_HOME = true) by done.
  pose proof (q_ring _ _ _ HQ _ Hs) as HR. rewrite Hq in HR. destruct HR as [[HR1 HR2] _].
  unfold pfs_get_task. rewrite Hs, lock_ok by done. cbn [negb]. unfold load_next.
  rewrite HR1. cbn [mbind option_bind]. rewrite HR1. cbn [mbind option_bind].
  rewrite Z.eqb_refl. cbn [negb]. rewrite Z.eqb_refl.
  destruct (alloc_frame (mem st) t N1 N2) as [A F].
  assert (Hnot : forall s, in_range s = true -> t ∉ pfstask s :: qs s).
  { intros s Hs' Hin. pose proof (is_list_valid _ _ _ t (q_ring _ _ _ HQ s Hs') Hin) as [[v Hv] _].
    apply N1, elem_of_dom. eauto. }
  eexists. split; [done|]. split; [|split].
  - split; cbn [mem tasks taskcount alloc_task].
    + intros s Hs'. eapply is_list_frame; [exact F| |by apply (q_ring _ _ _ HQ)].
      intros a Ha ->%list_elem_of_singleton. by apply (Hnot s).
    + apply (q_disj _ _ _ HQ).
    + apply (q_pos _ _ _ HQ).
    + intros s x Hs' Hx. assert (x <> t) by (intros ->; apply (Hnot s Hs'); set_solver).
      rewrite lookup_insert_ne by done. by apply (q_task _ _ _ HQ s x).
    + apply (q_count _ _ _ HQ).
  - split; cbn [mem tasks alloc_task]; [done| |done|by rewrite lookup_insert_eq].
    intros s Hs' Hx. apply (Hnot s Hs'). set_solver.
  - intros t' [D1 D2 D3 [r D4]]. assert (t' <> t).
    { intros ->. apply N1, elem_of_dom. destruct (is_list_valid _ _ _ t D1 ltac:(set_solver)) as [V _]. done. }
    split; cbn [mem tasks alloc_task]; [|done|done|by rewrite lookup_insert_ne, D4].
    eapply is_list_frame; [exact F| |done]. intros a ->%list_elem_of_singleton. set_solver.
Qed.

(** ** Initialisation *)

Lemma init_heads_rings s :
  in_range s = true -> is_list (init_heads (mk_heap ∅ ∅) all_queues) (pfstask s) [].
Proof.
  intros Hs. split; [|apply NoDup_singleton]. apply in_range_iff in Hs.
  assert (E : forallb (fun s =>
    bool_decide (nx (init_heads (mk_heap ∅ ∅) all_queues) !! pfstask s = Some (pfstask s)) &&
    bool_decide (pv (init_heads (mk_heap ∅ ∅) all_queues) !! pfstask s = Some (pfstask s)))
    all_queues = true) by by vm_compute.
  rewrite forallb_forall in E. specialize (E s). rewrite <- list_elem_of_In in E.
  specialize (E ltac:(apply elem_of_seqZ; unfold TASK_Q_UNKNOWN; lia)). b2p. done.
Qed.

Lemma init_heads_dom a :
  0 < a -> a ∉ dom (nx (init_heads (mk_heap ∅ ∅) all_queues)) /\
           a ∉ dom (pv (init_heads (mk_heap ∅ ∅) all_queues)).
Proof.
  intros Ha.
  assert (G : forall l h, Forall (fun s => 0 <= s) l ->
    a ∉ dom (nx h) -> a ∉ dom (pv h) ->
    a ∉ dom (nx (init_heads h l)) /\ a ∉ dom (pv (init_heads h l))).
  { induction l as [|s l IH]; intros h Hl H1 H2; [done|]. cbn [init_heads foldl].
    apply Forall_cons in Hl as [Hs Hl]. apply IH; [done|..]; cbn [nx pv];
      rewrite dom_insert; unfold pfstask; set_unfold; intros [?|?]; lia || done. }
  apply G; [|set_solver..]. apply Forall_forall. intros s Hs%elem_of_seqZ. lia.
Qed.

(** The state while [TASK_Q_HOME] is filled with [l] (latest first). *)
Record filling (st : state) (l : list loc) : Prop := mk_filling {
  f_home : is_list (mem st) (pfstask TASK_Q_HOME) l;
  f_other : forall s, in_range s = true -> s <> TASK_Q_HOME -> is_list (mem st) (pfstask s) [];
  f_pos : Forall (fun t => 0 < t) l;
  f_task : forall t, t ∈ l -> tasks st !! t = Some home_task;
  f_dom : forall a, 0 < a -> a ∉ l -> a ∉ dom (nx (mem st)) /\ a ∉ dom (pv (mem st));
  f_user : closed (umem st) /\ forall t, t ∈ l -> valid (umem st) t
}.

Lemma init_one_filling st l t :
  filling st l -> 0 < t -> t ∉ l ->
  exists st', init_one st t = Some st' /\ filling st' (t :: l).
Proof.
  intros [A1 A2 A3 A4 A5 A6] Ht Hl. destruct (A5 t Ht Hl) as [N1 N2].
  destruct (alloc_frame (mem st) t N1 N2) as [B F]. unfold init_one.
  set (h := mk_heap _ _) in *. assert (Hh : pfstask TASK_Q_HOME < 0) by done.
  assert (L : is_list h (pfstask TASK_Q_HOME) l).
  { eapply is_list_frame; [exact F| |done]. intros a Ha ->%list_elem_of_singleton.
    apply elem_of_cons in Ha as [->|?]; [lia|done]. }
  assert (Hni : t ∉ pfstask TASK_Q_HOME :: l).
  { apply not_elem_of_cons. split; [lia|done]. }
  destruct (list_add_spec h _ l t L Hni (is_list_valid h t [] t B ltac:(set_solver)))
    as (h' & -> & L' & F'). cbn [mbind option_bind]. eexists. split; [done|].
  pose proof (frame_trans _ _ _ _ _ F F') as FF.
  split; cbn [mem umem tasks].
  - done.
  - intros s Hs Hne. eapply is_list_frame; [exact FF| |by apply A2].
    intros a ->%list_elem_of_singleton. pose proof (pfstask_neg s Hs).
    assert (pfstask s <> pfstask TASK_Q_HOME) by (unfold pfstask; lia).
    assert (pfstask s ∉ l) by (intros Hin; rewrite Forall_forall in A3; specialize (A3 _ Hin); lia).
    set_unfold. intros [?|[?|[?|?]]]; try done; lia.
  - by constructor.
  - intros x Hx. destruct (decide (x = t)) as [->|Hne]; [by rewrite lookup_insert_eq|].
    rewrite lookup_insert_ne by done. apply A4. set_solver.
  - intros a Ha Hn. apply not_elem_of_cons in Hn as [Hn1 Hn2].
    destruct (A5 a Ha Hn2) as [M1 M2]. destruct FF as [FF _].
    assert (Hnf : a ∉ [t] ++ t :: pfstask TASK_Q_HOME :: l)
      by (set_unfold; intros [?|[?|[?|?]]]; try done; lia).
    destruct (FF a Hnf) as [E1 E2]. rewrite !not_elem_of_dom, E1, E2.
    by rewrite <- !not_elem_of_dom.
  - destruct A6 as [C V]. set (u := mk_heap (<[t:=t]> _) _).
    assert (HV : forall a, valid (umem st) a -> valid u a).
    { intros a [V1 V2]. split; cbn [nx pv u]; by apply insert_is_Some. }
    assert (Vt : valid u t) by (split; cbn [nx pv u]; rewrite lookup_insert_eq; eauto).
    split.
    + intros a b. unfold u at 1 2. cbn [nx pv]. rewrite !lookup_insert_Some.
      intros [[[_ <-]|[_ ?]]|[[_ <-]|[_ ?]]]; try done; apply HV; eapply C; eauto.
    + intros x Hx. apply elem_of_cons in Hx as [->|Hx]; auto.
Qed.

Lemma init_tasks_filling l st l0 :
  filling st l0 -> Forall (fun t => 0 < t) l -> NoDup l -> (forall t, t ∈ l -> t ∉ l0) ->
  exists st', init_tasks st l = Some st' /\ filling st' (rev l ++ l0).
Proof.
  revert st l0. induction l as [|t l IH]; intros st l0 HF Hp HN Hd; [by exists st|].
  apply Forall_cons in Hp as [Ht Hp]. apply NoDup_cons in HN as [Hnt HN].
  destruct (init_one_filling st l0 t) as (st1 & E1 & F1); [done|done|apply Hd; set_solver|].
  destruct (IH st1 (t :: l0)) as (st2 & E2 & F2); [done|done|done|set_solver|].
  exists st2. cbn [init_tasks]. rewrite E1. cbn [mbind option_bind]. split; [done|].
  cbn [rev]. by rewrite <- app_assoc.
Qed.

(** The addresses of the preallocated tasks. *)
Definition block (a : loc) : list loc := map (fun i => a + Z.of_nat i * sizeof_task) (seq 0 2048).

Lemma block_NoDup a : NoDup (block a).
Proof.
  apply (NoDup_fmap_2_strong _ _); [|apply NoDup_seq].
  intros x y _ _ E. unfold sizeof_task in E. lia.
Qed.

Lemma block_pos a : 0 < a -> Forall (fun t => 0 < t) (block a).
Proof.
  intros Ha. apply Forall_forall. intros t Ht. apply list_elem_of_fmap in Ht as (i & -> & _).
  unfold sizeof_task. lia.
Qed.

Lemma length_block a : length (block a) = 2048%nat.
Proof. unfold block. by rewrite length_map, length_seq. Qed.

Lemma start_filling : filling (mk_state (init_heads (mk_heap ∅ ∅) all_queues) (mk_heap ∅ ∅) ∅ ∅) [].
Proof.
  split; cbn [mem umem tasks].
  - by apply init_heads_rings.
  - intros s Hs _. by apply init_heads_rings.
  - done.
  - set_solver.
  - intros x Hx _. by apply init_heads_dom.
  - split; [|set_solver]. intros x y. cbn. rewrite lookup_empty. by intros [?|?].
Qed.

(** The counters when they start at zero over a home queue of [n] tasks. *)
Definition bias (n s : Z) : Z := if s =? TASK_Q_HOME then - n else 0.

(** From the filled home queue and cleared counters to the invariant. *)
Lemma filling_queues st B :
  filling st (rev B) ->
  queues (bias (zlen B))
    (mk_state (mem st) (umem st) (tasks st) (list_to_map (map (fun s => (s, 0)) all_queues)))
    (fun s => if s =? TASK_Q_HOME then rev B else []).
Proof.
  intros [A1 A2 A3 A4 A5 A6].
  assert (Hin : forall s x, x ∈ (if s =? TASK_Q_HOME then rev B else []) ->
    s = TASK_Q_HOME /\ x ∈ rev B).
  { intros s x Hx. destruct (s =? TASK_Q_HOME) eqn:Es; b2p; [done|set_solver]. }
  split; cbn [mem umem tasks taskcount].
  - intros s Hs. destruct (s =? TASK_Q_HOME) eqn:Es; b2p; [by subst|by apply A2].
  - intros s s' t _ _ [-> _]%Hin [-> _]%Hin. done.
  - intros s t _ [_ Ht]%Hin. rewrite Forall_forall in A3. by apply A3.
  - intros s t _ [-> Ht]%Hin. exists home_task. split; [by apply A4|done].
  - intros s Hs. apply in_range_iff in Hs.
    rewrite (elem_of_list_to_map_1 _ s 0).
    + unfold bias. destruct (s =? TASK_Q_HOME) eqn:Es; [|done].
      rewrite length_rev. f_equal. lia.
    + rewrite <- list_fmap_compose. cbn. rewrite list_fmap_id. apply NoDup_seqZ.
    + apply list_elem_of_fmap. exists s. split; [done|]. apply elem_of_seqZ.
      unfold TASK_Q_UNKNOWN. lia.
Qed.

Lemma init_queues a :
  0 < a -> exists st, init_task_info None (Some a) = Some (0, st) /\
    queues (bias 2048) st (fun s => if s =? TASK_Q_HOME then rev (block a) else []) /\
    closed (umem st) /\ forall t, t ∈ block a -> valid (umem st) t.
Proof.
  intros Ha. unfold init_task_info. fold (block a).
  pose proof (block_pos a Ha) as Hp. pose proof (block_NoDup a) as HN.
  pose proof (length_block a) as HL. generalize dependent (block a). intros B Hp HN HL.
  destruct (init_tasks_filling B _ [] start_filling) as (st & E & HF);
    [done|done|set_solver|].
  rewrite E. cbn [mbind option_bind]. rewrite app_nil_r in HF. eexists. split; [done|].
  split; [change 2048 with (Z.of_nat 2048); rewrite <- HL; by apply filling_queues|]. cbn [umem]. destruct (f_user _ _ HF) as [C V].
  split; [done|]. intros t Ht. apply V.
  rewrite list_elem_of_In, <- in_rev, <- list_elem_of_In. done.
Qed.

(** ** The timeout scan *)

Lemma set_task_keeps st t s lk now c st' :
  pfs_set_task st t s lk now = Some (c, st') ->
  umem st' = umem st /\ forall x, x <> t -> tasks st' !! x = tasks st !! x.
Proof.
  unfold pfs_set_task. destruct (negb (in_range s)); [by intros [= _ <-]|].
  destruct (lock_failed lk); [by intros [= _ <-]|].
  destruct (list_del_init _ _); [|done]. cbn [mbind option_bind].
  destruct (list_add_tail _ _ _); [|done]. cbn [mbind option_bind].
  destruct (tasks st !! t); [|done]. cbn [mbind option_bind]. unfold atomic_add.
  destruct (taskcount _ !! _); [|done]. cbn [mbind option_bind]. intros [= _ <-].
  cbn. split; [done|]. intros x Hx. by rewrite lookup_insert_ne.
Qed.

Lemma queues_ext off st qs qs' : (forall s, qs s = qs' s) -> queues off st qs -> queues off st qs'.
Proof.
  intros E [A1 A2 A3 A4 A5]. split; intros *; rewrite <- ?E; eauto.
Qed.

(** Every task of [qs] is in some queue of [qs']. *)
Definition kept (qs qs' : Z -> list Z) : Prop :=
  forall s x, in_range s = true -> x ∈ qs s -> exists s', in_range s' = true /\ x ∈ qs' s'.

#[global] Instance kept_pre : PreOrder kept.
Proof.
  split; [by intros q s x; exists s|]. intros a b c H1 H2 s x Hs Hx.
  destruct (H1 s x Hs Hx) as (s' & Hs' & Hx'). by apply (H2 s').
Qed.

Lemma kept_move qs s s' t rest :
  in_range s' = true -> s <> s' -> qs s = t :: rest ->
  kept qs (<[s' := (<[s := rest]> qs) s' ++ [t]]> (<[s := rest]> qs)).
Proof.
  intros Hs' Hne Hq s0 x Hs0 Hx. rewrite (fn_lookup_insert_ne qs) by done.
  destruct (decide (s0 = s')) as [-> |].
  { exists s'. rewrite fn_lookup_insert. set_solver. }
  destruct (decide (s0 = s)) as [-> |].
  - rewrite Hq in Hx. apply elem_of_cons in Hx as [-> |Hx].
    + exists s'. rewrite fn_lookup_insert. set_solver.
    + exists s. by rewrite fn_lookup_insert_ne, fn_lookup_insert.
  - exists s0. by rewrite !fn_lookup_insert_ne.
Qed.

(** Taking a free task: one of the home queue, or one from the allocator. *)
Lemma get_home off st qs lk now fresh :
  queues off st qs -> lk = 0 \/ lk = EDEADLK ->
  (forall t junk, fresh = Some (t, junk) -> 0 < t /\ t ∉ dom (nx (mem st)) /\ t ∉ dom (pv (mem st))) ->
  exists c o st', pfs_get_task st TASK_Q_HOME lk now fresh = Some (c, o, st') /\
    ((c = GET_TASK_Q_NOTHING /\ st' = st) \/
     exists t qs1, c = GET_TASK_Q_OK /\ o = Some t /\ queues off st' qs1 /\ detached st' qs1 t /\
       (forall t', detached st qs t' -> t' <> t /\ detached st' qs1 t') /\
       (forall s, s <> TASK_Q_HOME -> qs1 s = qs s) /\
       (forall x, x ∈ qs TASK_Q_HOME -> x = t \/ x ∈ qs1 TASK_Q_HOME)).
Proof.
  intros HQ Hlk Hf. destruct (qs TASK_Q_HOME) as [|t rest] eqn:Eq.
  - destruct fresh as [[t junk]|].
    + destruct (Hf t junk eq_refl) as (T1 & T2 & T3).
      destruct (get_home_alloc off st qs lk now t junk HQ Hlk Eq T1 T2 T3) as (st' & E & Q & D & D').
      eexists _, _, _. split; [exact E|]. right. exists t, qs. split_and!; try done.
      * intros t' HD. split; [|by apply D']. intros ->. apply T2, elem_of_dom.
        destruct (is_list_valid _ _ _ t (d_alone _ _ _ HD) ltac:(set_solver)) as [V _]. done.
      * intros x Hx. by apply not_elem_of_nil in Hx.
    + pose proof (q_ring _ _ _ HQ TASK_Q_HOME eq_refl) as HR. rewrite Eq in HR. destruct HR as [[HR1 _] _].
      eexists _, _, _. split; [|by left]. unfold pfs_get_task. rewrite lock_ok by done.
      simpl (negb _). cbv iota. unfold load_next. rewrite HR1. cbn [mbind option_bind]. rewrite HR1.
      cbn [mbind option_bind]. by rewrite Z.eqb_refl.
  - destruct (get_task_step HQ TASK_Q_HOME t rest lk now fresh eq_refl Hlk Eq) as (st' & E & Q & D & D').
    eexists _, _, _. split; [exact E|]. right. eexists t, _. split_and!; [done|done|exact Q|exact D| | |].
    + intros t' HD. split; [|by apply D']. intros ->. apply (d_free _ _ _ HD TASK_Q_HOME eq_refl).
      rewrite Eq. constructor.
    + intros s Hs. by rewrite fn_lookup_insert_ne.
    + rewrite fn_lookup_insert. intros x Hx. by apply elem_of_cons in Hx.
Qed.

Lemma bind_ext_in {A B} (f g : A -> list B) l :
  (forall x, x ∈ l -> f x = g x) -> l ≫= f = l ≫= g.
Proof.
  induction l as [|x l IH]; intros H; [done|]. cbn [mbind list_bind].
  rewrite H, IH by set_solver. done.
Qed.

(** The user lists are such that unlinking is defined. *)
Definition users_ok (st : state) (qs : Z -> list loc) : Prop :=
  closed (umem st) /\ forall s t, in_range s = true -> t ∈ qs s -> valid (umem st) t.

Lemma move_home_spec now lk_home : lk_home = 0 \/ lk_home = EDEADLK -> forall off st qs s k t r,
  queues off st qs -> users_ok st qs -> in_range s = true -> s <> TASK_Q_HOME -> qs s = k ++ t :: r ->
  exists st', move_home now lk_home st t = Some st' /\
    let qs' := <[TASK_Q_HOME := qs TASK_Q_HOME ++ [t]]> (<[s := k ++ r]> qs) in
    queues off st' qs' /\ users_ok st' qs' /\
    (forall x, x <> t -> tasks st' !! x = tasks st !! x).
Proof.
  intros Hlk off st qs s k t r HQ [HC HV] Hs Hne Hq. unfold move_home.
  destruct (q_task _ _ _ HQ s t Hs ltac:(rewrite Hq; set_solver)) as (rec & Hrec & Hst).
  rewrite Hrec. cbn [mbind option_bind].
  destruct (detach_step HQ s k t r Hs Hq) as (h' & -> & HD). cbn [mbind option_bind].
  destruct (closed_del_init (umem st) t HC) as (u' & -> & HC' & HV').
  { apply (HV s); [done|rewrite Hq; set_solver]. }
  cbn [mbind option_bind]. unfold atomic_add. cbn [taskcount with_umem with_mem with_task].
  subst s. rewrite (q_count _ _ _ HQ _ Hs). cbn [mbind option_bind].
  destruct (HD off u' (clear_task rec) (<[status rec := zlen (qs (status rec)) + off (status rec) + -1]> (taskcount st)))
    as (Q1 & D1 & _); [by apply (count_dec HQ _ k t r)|].
  unfold with_task, with_umem, with_mem. cbn [mem umem tasks taskcount].
  set (st1 := mk_state h' u' _ _) in *.
  destruct (set_task_step Q1 TASK_Q_HOME t lk_home now ltac:(done) Hlk D1) as (st' & E2 & Q2 & _).
  rewrite E2. cbn [mbind option_bind]. exists st'. split; [done|]. cbv zeta.
  rewrite (fn_lookup_insert_ne qs) in Q2 by done. split; [done|].
  assert (Hu : umem st' = u' /\ forall x, x <> t -> tasks st' !! x = tasks st !! x).
  { apply set_task_keeps in E2 as [-> Ht]. split; [done|]. intros x Hx.
    rewrite Ht by done. cbn. by rewrite lookup_insert_ne. }
  destruct Hu as [Hu Ht]. split; [|done]. split; rewrite Hu; [done|].
  intros s' x Hs' Hx. apply HV'. destruct (decide (s' = TASK_Q_HOME)) as [->|Hn1].
  - rewrite fn_lookup_insert in Hx. apply elem_of_app in Hx as [Hx|Hx].
    + by apply (HV TASK_Q_HOME).
    + apply list_elem_of_singleton in Hx as ->. apply (HV (status rec)); [done|]. rewrite Hq. set_solver.
  - rewrite fn_lookup_insert_ne in Hx by done. destruct (decide (s' = status rec)) as [->|Hn2].
    + rewrite fn_lookup_insert in Hx. apply (HV (status rec)); [done|]. rewrite Hq. set_solver.
    + rewrite fn_lookup_insert_ne in Hx by done. by apply (HV s').
Qed.

Section TimeoutFacts.
Context (task_timeout now lk_home : Z).

(** A task the scan sends home. *)
Definition stale (r : t_pfs_tasklist) : bool :=
  (task_timeout <? now - b_starttime (base r)) || (overstatus (base r) =? OVER_TIMEOUT).

Definition stale_in (T : gmap Z t_pfs_tasklist) (t : loc) : Prop :=
  match T !! t with Some r => stale r = true | None => False end.

#[export] Instance stale_in_dec T t : Decision (stale_in T t).
Proof. unfold stale_in. destruct (T !! t); apply _. Defined.

(** What scanning queue [s] does to the queues: stale tasks go to the end of
    the home queue, the others stay, both in their order. *)
Definition sweep (T : gmap Z t_pfs_tasklist) (qs : Z -> list loc) (s : Z) : Z -> list loc :=
  <[TASK_Q_HOME := qs TASK_Q_HOME ++ base.filter (stale_in T) (qs s)]>
    (<[s := base.filter (fun t => ~ stale_in T t) (qs s)]> qs).

Hypothesis Hlk : lk_home = 0 \/ lk_home = EDEADLK.

Abbreviation check := (check_task_timeout task_timeout now lk_home).

(** Changing the record of a task of a queue, its status apart. *)
Lemma with_task_users st qs t r : users_ok st qs -> users_ok (with_task st t r) qs.
Proof. done. Qed.

Lemma check_stale off st qs s k t r rec :
  queues off st qs -> users_ok st qs -> in_range s = true -> s <> TASK_Q_HOME ->
  qs s = k ++ t :: r -> tasks st !! t = Some rec -> stale rec = true ->
  exists st', check st t = Some st' /\
    let qs' := <[TASK_Q_HOME := qs TASK_Q_HOME ++ [t]]> (<[s := k ++ r]> qs) in
    queues off st' qs' /\ users_ok st' qs' /\
    (forall x, x <> t -> tasks st' !! x = tasks st !! x).
Proof.
  intros HQ HU Hs Hne Hq Hrec Hst. unfold check_task_timeout. rewrite Hrec.
  cbn [mbind option_bind].
  set (b := if task_timeout <? _ then _ else _).
  assert (Hb : overstatus b = OVER_TIMEOUT).
  { unfold b, stale in *. destruct (task_timeout <? _); [done|]. simpl in Hst. by b2p. }
  rewrite Hb. change (OVER_TIMEOUT =? OVER_TIMEOUT) with true. cbv iota.
  destruct (with_task_held off st qs t rec (set_base rec b) HQ) as [HQ1 _]; [right; by exists s, k, r|done|done|].
  destruct (move_home_spec now lk_home Hlk off _ qs s k t r HQ1 (with_task_users st qs t _ HU) Hs Hne Hq) as (st' & E & Q & U & T).
  exists st'. split; [done|]. split; [done|]. split; [done|]. intros x Hx. rewrite T by done. simpl. by rewrite lookup_insert_ne.
Qed.

Lemma check_fresh st t rec :
  tasks st !! t = Some rec -> stale rec = false -> check st t = Some st.
Proof.
  intros Hrec Hst. unfold check_task_timeout. rewrite Hrec. cbn [mbind option_bind].
  unfold stale in Hst. apply orb_false_iff in Hst as [H1 H2]. rewrite H1, H2. f_equal.
  unfold with_task, set_base. destruct st as [m u T c]. cbn in *. f_equal.
  apply insert_id. rewrite Hrec. by destruct rec.
Qed.

(** The loop invariant: the entries not yet visited are the rest of the queue. *)
Definition scanning off (s : Z) (hs : heap * state) (l : list loc) : Prop :=
  fst hs = mem (snd hs) /\ exists qs k,
    queues off (snd hs) qs /\ users_ok (snd hs) qs /\ qs s = k ++ l.

Lemma with_mem_id st : with_mem st (mem st) = st.
Proof. by destruct st. Qed.

Lemma scan_body_eq cb st t :
  scan_body cb (mem st, st) t = (st' ← cb st t; Some (mem st', st')).
Proof. unfold scan_body. cbn [fst snd]. by rewrite with_mem_id. Qed.

Lemma scan_step off s hs t r hs' :
  in_range s = true -> s <> TASK_Q_HOME ->
  scanning off s hs (t :: r) -> scan_body check hs t = Some hs' ->
  scanning off s hs' r /\ chain (fst hs') r (pfstask s).
Proof.
  intros Hs Hne [Hm (qs & k & HQ & HU & Hq)] HB. destruct hs as [h st]. cbn [fst snd] in *. subst h.
  unfold scan_body in HB. cbn [fst snd] in HB. rewrite with_mem_id in HB.
  destruct (check st t) as [st'|] eqn:E; [|done]. cbn [mbind option_bind] in HB.
  inversion HB; subst hs'. clear HB.
  assert (HX : scanning off s (mem st', st') r).
  { split; [done|]. cbn [fst snd].
    destruct (q_task _ _ _ HQ s t Hs ltac:(rewrite Hq; set_solver)) as (rec & Hrec & _).
    destruct (stale rec) eqn:Est.
    - destruct (check_stale off st qs s k t r rec) as (st2 & E2 & Q2 & U2 & _); try done.
      rewrite E in E2. inversion E2; subst st2. eexists _, k. split; [exact Q2|]. split; [done|].
      rewrite fn_lookup_insert_ne by done. by rewrite fn_lookup_insert.
    - rewrite (check_fresh st t rec Hrec Est) in E. inversion E; subst st'.
      exists qs, (k ++ [t]). by rewrite <- app_assoc. }
  split; [done|]. destruct HX as [_ (qs' & k' & HQ' & _ & Hq')]. cbn [fst snd] in *.
  destruct (q_ring _ _ _ HQ' s Hs) as [HD _]. rewrite Hq' in HD.
  assert (HS : is_Some (nx (mem st') !! pfstask s)) by (rewrite (dseg_next _ _ _ _ HD); eauto).
  clear -HD HS. revert HD. generalize (pfstask s) at 1. induction k' as [|x k' IH]; intros a HD.
  - by eapply dseg_chain.
  - destruct HD as (_ & _ & HD). by apply (IH x).
Qed.

(** Running the check over the entries computes [sweep]. *)
Lemma scan_run off s T l k st qs :
  in_range s = true -> s <> TASK_Q_HOME ->
  queues off st qs -> users_ok st qs -> qs s = k ++ l ->
  (forall t, t ∈ l -> tasks st !! t = T !! t) -> NoDup l ->
  let qs' := <[TASK_Q_HOME := qs TASK_Q_HOME ++ base.filter (stale_in T) l]>
               (<[s := k ++ base.filter (fun t => ~ stale_in T t) l]> qs) in
  exists st', run_body (scan_body check) (mem st, st) l = Some (mem st', st') /\
    queues off st' qs' /\ users_ok st' qs' /\
    (forall x, x ∉ l -> tasks st' !! x = tasks st !! x).
Proof.
  intros Hs Hne. revert k st qs. induction l as [|t r IH]; intros k st qs HQ HU Hq HT HN qs'.
  { exists st. split; [done|].
    assert (E : forall x, qs x = qs' x).
    { intros x. unfold qs'. cbn [base.filter list_filter]. rewrite !app_nil_r.
      destruct (decide (x = TASK_Q_HOME)) as [->|Hx]; [by rewrite fn_lookup_insert|].
      rewrite fn_lookup_insert_ne by done. destruct (decide (x = s)) as [->|Hx'].
      - rewrite fn_lookup_insert. by rewrite Hq, app_nil_r.
      - by rewrite fn_lookup_insert_ne. }
    split; [by eapply queues_ext|]. split; [|done].
    destruct HU as [HU1 HU2]. split; [done|]. intros s' x Hs' Hx. rewrite <- E in Hx. eauto. }
  apply NoDup_cons in HN as [Hnt HN].
  destruct (q_task _ _ _ HQ s t Hs ltac:(rewrite Hq; set_solver)) as (rec & Hrec & _).
  cbn [run_body]. rewrite scan_body_eq.
  pose proof (HT t ltac:(set_solver)) as HTt. rewrite Hrec in HTt.
  assert (Hst : stale_in T t <-> stale rec = true) by (unfold stale_in; by rewrite <- HTt).
  destruct (stale rec) eqn:Est.
  - destruct (check_stale off st qs s k t r rec) as (st1 & E1 & Q1 & U1 & T1); try done.
    rewrite E1. cbn [mbind option_bind].
    cbv zeta in Q1, U1. set (qs1 := <[TASK_Q_HOME := _]> _) in Q1, U1.
    destruct (IH k st1 qs1 Q1 U1) as (st2 & E2 & Q2 & U2 & T2); [|..].
    + unfold qs1. rewrite fn_lookup_insert_ne by done. by rewrite fn_lookup_insert.
    + intros x Hx. rewrite T1 by set_solver. apply HT. set_solver.
    + done.
    + exists st2. split; [done|].
      set (qs2 := <[TASK_Q_HOME := _]> _) in Q2, U2.
      assert (E : forall x, qs2 x = qs' x); [|split; [by apply (queues_ext off st2 qs2)|]].
      { intros x. unfold qs2, qs', qs1. rewrite filter_cons_True, filter_cons_False by tauto.
        destruct (decide (x = TASK_Q_HOME)) as [->|Hx].
        - rewrite !fn_lookup_insert. by rewrite <- app_assoc.
        - rewrite !(fn_lookup_insert_ne _ TASK_Q_HOME) by done.
          destruct (decide (x = s)) as [->|Hx']; [by rewrite !fn_lookup_insert|].
          rewrite !fn_lookup_insert_ne by done. done. }
      split; [|intros x Hx; rewrite T2, T1 by set_solver; done].
      destruct U2 as [U21 U22]. split; [done|]. intros s' x Hs' Hx. rewrite <- E in Hx. eauto.
  - rewrite (check_fresh st t rec Hrec Est). cbn [mbind option_bind].
    destruct (IH (k ++ [t]) st qs HQ HU) as (st2 & E2 & Q2 & U2 & T2).
    + by rewrite <- app_assoc.
    + intros x Hx. apply HT. set_solver.
    + done.
    + exists st2. split; [done|].
      assert (Hns : ~ stale_in T t) by (rewrite Hst; done).
      unfold qs'. rewrite filter_cons_False, filter_cons_True by done.
      rewrite <- app_assoc in Q2, U2. split; [done|]. split; [done|].
      intros x Hx. apply T2. set_solver.
Qed.

Lemma scan_queue off fuel st qs s lk :
  queues off st qs -> users_ok st qs -> in_range s = true -> s <> TASK_Q_HOME ->
  lk = 0 \/ lk = EDEADLK -> (length (qs s) <= fuel)%nat ->
  exists st', scan_some_status_task lk fuel check st s = Some (lk, st') /\
    queues off st' (sweep (tasks st) qs s) /\ users_ok st' (sweep (tasks st) qs s) /\
    (forall x, x ∉ qs s -> tasks st' !! x = tasks st !! x).
Proof.
  intros HQ HU Hs Hne Hl Hf. unfold scan_some_status_task.
  rewrite Hs, lock_ok by done. cbn [negb].
  pose proof (q_ring _ _ _ HQ s Hs) as HR.
  rewrite (for_each_ring (scan_body check) (scanning off s) (pfstask s) (qs s)); [|..].
  - destruct (scan_run off s (tasks st) (qs s) [] st qs) as (st' & E & Q & U & T'); try done.
    { destruct HR as [_ HN]. by apply NoDup_cons in HN as [_ ?]. }
    rewrite E. cbn [mbind option_bind]. rewrite with_mem_id. eexists. split; [done|]. done.
  - intros hs x r hs' HI HB. by apply (scan_step off s hs x r hs').
  - split; [done|]. exists qs, []. done.
  - done.
  - done.
Qed.

(** Scanning several queues, none of them the home queue. *)
Lemma scan_queues_spec off fuel lk T l st qs :
  queues off st qs -> users_ok st qs -> lk = 0 \/ lk = EDEADLK -> NoDup l ->
  Forall (fun s => in_range s = true /\ s <> TASK_Q_HOME /\ (length (qs s) <= fuel)%nat /\
                   forall t, t ∈ qs s -> tasks st !! t = T !! t) l ->
  exists st' qs', scan_queues task_timeout now lk lk_home fuel st l = Some st' /\
    queues off st' qs' /\ users_ok st' qs' /\
    (forall s, s ∈ l -> qs' s = base.filter (fun t => ~ stale_in T t) (qs s)) /\
    qs' TASK_Q_HOME = qs TASK_Q_HOME ++ (l ≫= fun s => base.filter (stale_in T) (qs s)) /\
    (forall s, s ∉ l -> s <> TASK_Q_HOME -> qs' s = qs s).
Proof.
  intros HQ HU Hl. revert st qs HQ HU. induction l as [|s l IH]; intros st qs HQ HU HN HF.
  { exists st, qs. split_and!; try done; [set_solver|by rewrite app_nil_r]. }
  apply NoDup_cons in HN as [Hnl HN].
  apply Forall_cons in HF as [(Hs & Hne & Hf & HT) HF].
  destruct (scan_queue off fuel st qs s lk) as (st1 & E1 & Q1 & U1 & T1); try done.
  assert (HS : forall t, t ∈ qs s -> stale_in (tasks st) t <-> stale_in T t).
  { intros t Ht. unfold stale_in. by rewrite (HT t Ht). }
  destruct (IH st1 (sweep (tasks st) qs s) Q1 U1 HN) as (st2 & qs2 & E2 & Q2 & U2 & A1 & A2 & A3).
  { rewrite Forall_forall in HF |- *. intros s' Hs'. destruct (HF s' Hs') as (B1 & B2 & B3 & B4).
    assert (s' <> s) by set_solver. unfold sweep. rewrite !fn_lookup_insert_ne by done.
    split_and!; try done. intros t Ht. rewrite T1; [by apply B4|].
    intros Hin. assert (s' = s) by (by apply (q_disj _ _ _ HQ s' s t)). done. }
  exists st2, qs2. cbn [scan_queues]. rewrite E1. cbn [mbind option_bind]. rewrite E2.
  split_and!; try done.
  - intros s' Hs'. apply elem_of_cons in Hs' as [->|Hs'].
    + rewrite A3 by done. unfold sweep. rewrite fn_lookup_insert_ne, fn_lookup_insert by done.
      apply filter_ext_in. intros t Ht. by rewrite (HS t Ht).
    + rewrite A1 by done. rewrite Forall_forall in HF. destruct (HF s' Hs') as (_ & B2 & _).
      assert (s' <> s) by set_solver. unfold sweep. by rewrite !fn_lookup_insert_ne.
  - rewrite A2. unfold sweep at 1. rewrite fn_lookup_insert. cbn [mbind list_bind].
    rewrite <- app_assoc. f_equal. f_equal; [by apply filter_ext_in|].
    apply bind_ext_in. intros s' Hs'.
    rewrite Forall_forall in HF. destruct (HF s' Hs') as (_ & B2 & _).
    assert (s' <> s) by set_solver. unfold sweep. by rewrite !fn_lookup_insert_ne.
  - intros s' Hs' Hh. apply not_elem_of_cons in Hs' as [Hs1 Hs2].
    rewrite A3 by done. unfold sweep. by rewrite !fn_lookup_insert_ne.
Qed.

End TimeoutFacts.

(** ** Emptying a queue

    A scan that takes something from the record of each task and sends the task
    home. *)

Section Collect.
Context {A : Type} (f : A -> t_pfs_tasklist -> option A) (now lk_home : Z).
Hypothesis Hlk : lk_home = 0 \/ lk_home = EDEADLK.

Definition collect (sa : state * A) (t : loc) : option (state * A) :=
  r ← tasks (fst sa) !! t;
  a ← f (snd sa) r;
  st ← move_home now lk_home (fst sa) t;
  Some (st, a).

(** What the records of the tasks [l] come to. *)
Fixpoint gather (T : gmap loc t_pfs_tasklist) (a : A) (l : list loc) : option A :=
  match l with
  | [] => Some a
  | t :: l' => r ← T !! t; a ← f a r; gather T a l'
  end.

Lemma gather_ext T T' l : forall a, (forall t, t ∈ l -> T !! t = T' !! t) -> gather T a l = gather T' a l.
Proof.
  induction l as [|t l IH]; intros a H; [done|]. cbn [gather]. rewrite (H t) by set_solver.
  destruct (T' !! t) as [r|]; [|done]. cbn [mbind option_bind]. destruct (f a r); [|done]. cbn [mbind option_bind].
  apply IH. intros x Hx. apply H. set_solver.
Qed.

Definition emptying off (s : Z) (hs : heap * (state * A)) (l : list loc) : Prop :=
  fst hs = mem (fst (snd hs)) /\ exists qs, queues off (fst (snd hs)) qs /\ users_ok (fst (snd hs)) qs /\ qs s = l.

Lemma collect_body_eq st a t :
  scan_with_body collect (mem st, (st, a)) t =
  (r ← tasks st !! t; a ← f a r; st ← move_home now lk_home st t; Some (mem st, (st, a))).
Proof.
  unfold scan_with_body, collect. cbn [fst snd]. rewrite with_mem_id.
  destruct (tasks st !! t) as [r|]; [|done]. cbn [mbind option_bind]. destruct (f a r); [|done]. cbn [mbind option_bind].
  by destruct (move_home now lk_home st t).
Qed.

Lemma collect_step off s hs t r hs' :
  in_range s = true -> s <> TASK_Q_HOME ->
  emptying off s hs (t :: r) -> scan_with_body collect hs t = Some hs' ->
  emptying off s hs' r /\ chain (fst hs') r (pfstask s).
Proof.
  intros Hs Hne [Hm (qs & HQ & HU & Hq)] HB. destruct hs as [h [st a]]. cbn [fst snd] in *. subst h.
  rewrite collect_body_eq in HB. destruct (tasks st !! t) as [rec|]; [|done]. cbn [mbind option_bind] in HB.
  destruct (f a rec) as [a'|]; [|done]. cbn [mbind option_bind] in HB.
  destruct (move_home_spec now lk_home Hlk off st qs s [] t r HQ HU Hs Hne Hq) as (st' & E & Q & U & _).
  rewrite E in HB. cbn [mbind option_bind] in HB. injection HB as <-.
  assert (Hr : (<[TASK_Q_HOME := qs TASK_Q_HOME ++ [t]]> (<[s := [] ++ r]> qs)) s = r)
    by (by rewrite fn_lookup_insert_ne, fn_lookup_insert).
  split; [split; [done|]; cbn [fst snd]; by eexists|]. cbn [fst].
  destruct (q_ring _ _ _ Q s Hs) as [HD _]. rewrite Hr in HD.
  assert (HS : is_Some (nx (mem st') !! pfstask s)) by (rewrite (dseg_next _ _ _ _ HD); eauto). by eapply dseg_chain.
Qed.

Lemma collect_run off s l : forall st a qs a',
  in_range s = true -> s <> TASK_Q_HOME -> queues off st qs -> users_ok st qs -> qs s = l ->
  gather (tasks st) a l = Some a' ->
  let qs' := <[TASK_Q_HOME := qs TASK_Q_HOME ++ l]> (<[s := []]> qs) in
  exists st', run_body (scan_with_body collect) (mem st, (st, a)) l = Some (mem st', (st', a')) /\
    queues off st' qs' /\ users_ok st' qs' /\ (forall x, x ∉ l -> tasks st' !! x = tasks st !! x).
Proof.
  induction l as [|t l IH]; intros st a qs a' Hs Hne HQ HU Hq Hg qs'.
  { injection Hg as <-. exists st. split; [done|].
    assert (E : forall x, qs x = qs' x).
    { intros x. unfold qs'. rewrite app_nil_r. destruct (decide (x = TASK_Q_HOME)) as [->|]; [by rewrite fn_lookup_insert|].
      rewrite fn_lookup_insert_ne by done. destruct (decide (x = s)) as [->|]; [by rewrite fn_lookup_insert|by rewrite fn_lookup_insert_ne]. }
    split; [by eapply queues_ext|]. split; [|done]. destruct HU as [U1 U2]. split; [done|]. intros s' x Hs' Hx. rewrite <- E in Hx. eauto. }
  cbn [gather] in Hg. cbn [run_body]. rewrite collect_body_eq.
  destruct (tasks st !! t) as [rec|] eqn:Hrec; [|done]. cbn [mbind option_bind] in *.
  destruct (f a rec) as [a1|]; [|done]. cbn [mbind option_bind] in *.
  destruct (move_home_spec now lk_home Hlk off st qs s [] t l HQ HU Hs Hne Hq) as (st1 & -> & Q1 & U1 & T1).
  cbn [mbind option_bind]. cbv zeta in Q1, U1. set (qs1 := <[TASK_Q_HOME := _]> _) in Q1, U1.
  assert (Ht : t ∉ l) by (destruct (q_ring _ _ _ HQ s Hs) as [_ N]; rewrite Hq in N; apply NoDup_cons in N as [_ N]; by apply NoDup_cons in N as [? _]).
  destruct (IH st1 a1 qs1 a' Hs Hne Q1 U1) as (st2 & E2 & Q2 & U2 & T2).
  - unfold qs1. by rewrite fn_lookup_insert_ne, fn_lookup_insert.
  - rewrite <- Hg. apply gather_ext. intros x Hx. apply T1. by intros ->.
  - exists st2. split; [exact E2|]. set (qs2 := <[TASK_Q_HOME := _]> _) in Q2, U2.
    assert (E : forall x, qs2 x = qs' x).
    { intros x. unfold qs2, qs', qs1. destruct (decide (x = TASK_Q_HOME)) as [->|Hx].
      - rewrite !fn_lookup_insert. by rewrite <- app_assoc.
      - rewrite !(fn_lookup_insert_ne _ TASK_Q_HOME) by done.
        destruct (decide (x = s)) as [->|Hx']; [by rewrite !fn_lookup_insert|]. by rewrite !fn_lookup_insert_ne. }
    split; [by apply (queues_ext off st2 qs2)|]. split; [|intros x Hx; rewrite T2, T1 by set_solver; done].
    destruct U2 as [U21 U22]. split; [done|]. intros s' x Hs' Hx. rewrite <- E in Hx. eauto.
Qed.

Lemma collect_queue off fuel st a qs s lk a' :
  queues off st qs -> users_ok st qs -> in_range s = true -> s <> TASK_Q_HOME -> lk = 0 \/ lk = EDEADLK ->
  (length (qs s) <= fuel)%nat -> gather (tasks st) a (qs s) = Some a' ->
  let qs' := <[TASK_Q_HOME := qs TASK_Q_HOME ++ qs s]> (<[s := []]> qs) in
  exists st', scan_with lk fuel collect st a s = Some (lk, (st', a')) /\
    queues off st' qs' /\ users_ok st' qs' /\ (forall x, x ∉ qs s -> tasks st' !! x = tasks st !! x).
Proof.
  intros HQ HU Hs Hne Hl Hf Hg qs'. unfold scan_with. rewrite Hs, lock_ok by done. cbn [negb].
  rewrite (for_each_ring (scan_with_body collect) (emptying off s) (pfstask s) (qs s)); [|..].
  - destruct (collect_run off s (qs s) st a qs a') as (st' & -> & Q & U & T); try done.
    cbn [mbind option_bind]. rewrite with_mem_id. by exists st'.
  - intros hs x r hs' HI HB. by apply (collect_step off s hs x r hs').
  - split; [done|]. by exists qs.
  - apply (q_ring _ _ _ HQ s Hs).
  - done.
Qed.

End Collect.

(** ** Properties *)

(** A small system for the witnesses: the queues as [init_task_info] builds
    them, with three preallocated tasks. *)
Definition demo_start : state :=
  mk_state (init_heads (mk_heap ∅ ∅) all_queues) (mk_heap ∅ ∅) ∅ ∅.
Definition demo (l : list loc) : state :=
  let st := default demo_start (init_tasks demo_start l) in
  mk_state (mem st) (umem st) (tasks st) (list_to_map (map (fun s => (s, 0)) all_queues)).

Lemma demo_queues l :
  Forall (fun t => 0 < t) l -> NoDup l ->
  queues (bias (zlen l)) (demo l) (fun s => if s =? TASK_Q_HOME then rev l else []) /\
  users_ok (demo l) (fun s => if s =? TASK_Q_HOME then rev l else []).
Proof.
  intros Hp HN. destruct (init_tasks_filling l _ [] start_filling) as (st & Ei & HF);
    [done|done|set_solver|]. rewrite app_nil_r in HF. unfold demo, demo_start. rewrite Ei.
  split; [by apply filling_queues|]. destruct (f_user _ _ HF) as [C V]. split; [done|].
  intros s t _ Ht. apply V. by destruct (s =? TASK_Q_HOME); [|apply not_elem_of_nil in Ht].
Qed.

(** C30: the queues are first in, first out: a task put in queue [s] goes
    behind those already there, the next [pfs_get_task] takes the oldest one,
    and both calls leave every ring, status and counter consistent. *)
Theorem queue_fifo off st qs s t now fresh :
  queues off st qs -> detached st qs t -> in_range s = true ->
  exists st1 st2 t' r, pfs_set_task st t s 0 now = Some (0, st1) /\
    queues off st1 (<[s := qs s ++ [t]]> qs) /\
    pfs_get_task st1 s 0 now fresh = Some (GET_TASK_Q_OK, Some t', st2) /\
    qs s ++ [t] = t' :: r /\ queues off st2 (<[s := r]> (<[s := qs s ++ [t]]> qs)) /\
    detached st2 (<[s := r]> (<[s := qs s ++ [t]]> qs)) t'.
Proof.
  intros HQ HD Hs. destruct (set_task_step HQ s t 0 now Hs (or_introl eq_refl) HD) as (st1 & E1 & Q1 & _).
  assert (Hne : exists t' r, qs s ++ [t] = t' :: r) by (destruct (qs s); cbn; eauto).
  destruct Hne as (t' & r & Er).
  destruct (get_task_step Q1 s t' r 0 now fresh Hs (or_introl eq_refl)) as (st2 & E2 & Q2 & D2 & _).
  { by rewrite fn_lookup_insert. }
  exists st1, st2, t', r. by split_and!.
Qed.

Lemma queue_fifo_witness :
  exists off st qs t, queues off st qs /\ qs TASK_Q_RUN = [] /\
  exists st1 st2 t' r, pfs_set_task st t TASK_Q_RUN 0 50 = Some (0, st1) /\
    queues off st1 (<[TASK_Q_RUN := qs TASK_Q_RUN ++ [t]]> qs) /\
    pfs_get_task st1 TASK_Q_RUN 0 50 None = Some (GET_TASK_Q_OK, Some t', st2) /\
    qs TASK_Q_RUN ++ [t] = t' :: r /\
    queues off st2 (<[TASK_Q_RUN := r]> (<[TASK_Q_RUN := qs TASK_Q_RUN ++ [t]]> qs)) /\
    detached st2 (<[TASK_Q_RUN := r]> (<[TASK_Q_RUN := qs TASK_Q_RUN ++ [t]]> qs)) t'.
Proof.
  destruct (demo_queues [944; 1888]) as [HQ _]; [by repeat constructor|by apply (bool_decide_unpack _)|].
  destruct (get_task_step HQ TASK_Q_HOME 1888 [944] 0 50 None) as (st & _ & Q & D & _);
    [done|by left|done|].
  exists (bias 2), st, (<[TASK_Q_HOME := [944]]> (fun s => if s =? TASK_Q_HOME then rev [944; 1888] else [])), 1888.
  split; [exact Q|]. split; [done|].
  apply (queue_fifo (bias 2) st _ TASK_Q_RUN 1888 50 None Q D eq_refl).
Defined.

(** [do_timeout_task] sends exactly the stale tasks of the queues
    [TASK_Q_DELAY] to [TASK_Q_FIN] to the end of the home queue, queue by
    queue and in their order, leaves the others where they are, and keeps
    every ring and counter consistent. *)
Theorem timeout_sweep task_timeout now flag off fuel st qs :
  queues off st qs -> users_ok st qs -> flag <> 0 ->
  (forall s, 0 <= s < TASK_Q_CLEAN -> (length (qs s) <= fuel)%nat) ->
  exists st' qs', do_timeout_task task_timeout flag now 0 0 fuel st = Some st' /\
    queues off st' qs' /\
    (forall s, 0 <= s < TASK_Q_CLEAN ->
       qs' s = base.filter (fun t => ~ stale_in task_timeout now (tasks st) t) (qs s)) /\
    qs' TASK_Q_HOME = qs TASK_Q_HOME ++
      (seqZ 0 TASK_Q_CLEAN ≫= fun s => base.filter (stale_in task_timeout now (tasks st)) (qs s)).
Proof.
  intros HQ HU Hf Hl. unfold do_timeout_task. apply Z.eqb_neq in Hf. rewrite Hf.
  destruct (scan_queues_spec task_timeout now 0 (or_introl eq_refl) off fuel 0 (tasks st)
              (seqZ TASK_Q_DELAY (TASK_Q_CLEAN - TASK_Q_DELAY)) st qs) as (st' & qs' & E1 & Q1 & U1 & A1 & A2 & _);
    [done|done|by left|apply NoDup_seqZ| |].
  { apply Forall_forall. intros s Hs%elem_of_seqZ. unfold TASK_Q_CLEAN, TASK_Q_DELAY, TASK_Q_HOME in *.
    split_and!; [apply in_range_iff; lia|lia|apply Hl; lia|done]. }
  exists st', qs'. split_and!; [done|done| |done].
  intros s Hs. apply A1, elem_of_seqZ. unfold TASK_Q_DELAY. lia.
Qed.

Lemma timeout_sweep_witness :
  let qs := fun s => if s =? TASK_Q_HOME then rev [944; 1888] else [] in
  exists st' qs', do_timeout_task 300 1 1000 0 0 5 (demo [944; 1888]) = Some st' /\
    queues (bias 2) st' qs' /\
    (forall s, 0 <= s < TASK_Q_CLEAN ->
       qs' s = base.filter (fun t => ~ stale_in 300 1000 (tasks (demo [944; 1888])) t) (qs s)) /\
    qs' TASK_Q_HOME = qs TASK_Q_HOME ++
      (seqZ 0 TASK_Q_CLEAN ≫= fun s => base.filter (stale_in 300 1000 (tasks (demo [944; 1888]))) (qs s)).
Proof.
  destruct (demo_queues [944; 1888]) as [HQ HU]; [by repeat constructor|by apply (bool_decide_unpack _)|].
  apply (timeout_sweep 300 1000 1 (bias 2) 5 (demo [944; 1888]) _ HQ HU); [discriminate|].
  intros s _. destruct (s =? TASK_Q_HOME); simpl; lia.
Defined.

(** [pfs_set_task] on a task that is still in a queue moves it, but the
    counter of the queue it leaves is not decremented: from then on that
    counter is one too high. *)
Theorem requeue_leaks_counter off st qs s0 s l1 t l2 now :
  queues off st qs -> in_range s0 = true -> in_range s = true -> s0 <> s ->
  qs s0 = l1 ++ t :: l2 ->
  exists st', pfs_set_task st t s 0 now = Some (0, st') /\
    is_list (mem st') (pfstask s0) (l1 ++ l2) /\
    taskcount st' !! s0 = Some (zlen (l1 ++ l2) + off s0 + 1).
Proof.
  intros HQ H0 Hs Hne Hq.
  destruct (set_task_attached off st qs s0 s l1 t l2 0 now HQ H0 Hs (or_introl eq_refl) Hq) as (st' & E & Q).
  exists st'. split; [done|]. cbv zeta in Q.
  assert (Hqs : (<[s := (<[s0 := l1 ++ l2]> qs) s ++ [t]]> (<[s0 := l1 ++ l2]> qs)) s0 = l1 ++ l2).
  { rewrite fn_lookup_insert_ne by done. by rewrite fn_lookup_insert. }
  split.
  - pose proof (q_ring _ _ _ Q s0 H0) as HR. by rewrite Hqs in HR.
  - rewrite (q_count _ _ _ Q s0 H0), Hqs. unfold bump. rewrite fn_lookup_insert. f_equal. lia.
Qed.

Lemma requeue_leaks_counter_witness :
  exists st', pfs_set_task (demo [944; 1888]) 944 TASK_Q_FIN 0 7 = Some (0, st') /\
    is_list (mem st') (pfstask TASK_Q_HOME) ([1888] ++ []) /\
    taskcount st' !! TASK_Q_HOME = Some (zlen ([1888] ++ []) + bias 2 TASK_Q_HOME + 1).
Proof.
  destruct (demo_queues [944; 1888]) as [HQ _]; [by repeat constructor|by apply (bool_decide_unpack _)|].
  apply (requeue_leaks_counter (bias 2) (demo [944; 1888]) _ TASK_Q_HOME TASK_Q_FIN [1888] 944 [] 7 HQ);
    done.
Defined.

End TaskQueue.
