(* ===== verification/Timer.v ===== *)
(** * Delayed callbacks (network/pfs_timer.c)

    Two rings of timer nodes, the free ones and the active ones; the rings are
    the lists that [LinkedList] relates to memory.  A callback is recorded as
    an event: the function and the argument string it is called with. *)

From S2P Require Import Prelude.

Module Timer.

Record t_pfs_timer := mk_timer {
  cb : Z;               (* which callback *)
  args : bytes;
  next_time : Z;
  span_time : Z;
  loop : Z
}.

(** A node [t_pfs_timer_list] is its address and the timer in it. *)
Record state := mk_state {
  delay_home : list Z;
  delay_active : list (Z * t_pfs_timer)
}.

Definition default_max : nat := 1024.

(** [delay_task_init] with the addresses of the nodes of the block that
    [malloc] returns, [None] when it fails. *)
Definition delay_task_init (timer_all : option (list Z)) : Z * state :=
  match timer_all with
  | None => (-1, mk_state [] [])
  | Some l => (0, mk_state (foldl (fun home t => t :: home) [] l) [])
  end.

Definition set_next (t : t_pfs_timer) (n : Z) : t_pfs_timer :=
  mk_timer (cb t) (args t) n (span_time t) (loop t).

(** [add_to_delay_task(pfs_timer)]: a free node or a fresh one, put first. *)
Definition add_to_delay_task (st : state) (t : t_pfs_timer) (fresh : option Z) (cur : Z)
  : Z * state :=
  let got := match delay_home st with
             | n :: home => Some (n, home)
             | [] => match fresh with Some n => Some (n, []) | None => None end
             end in
  match got with
  | None => (-1, st)
  | Some (n, home) =>
      (0, mk_state home ((n, set_next t (cur + span_time t)) :: delay_active st))
  end.

(** [scan_delay_task]: the loop over the active ring. *)
Fixpoint scan_loop (cur : Z) (home : list Z) (l : list (Z * t_pfs_timer))
  : list Z * list (Z * t_pfs_timer) * list (Z * bytes) :=
  match l with
  | [] => (home, [], [])
  | (n, t) :: l' =>
      if next_time t <? cur then
        if negb (loop t =? 0) then
          let '(h, a, e) := scan_loop cur home l' in
          (h, (n, set_next t (cur + span_time t)) :: a, (cb t, args t) :: e)
        else
          let '(h, a, e) := scan_loop cur (n :: home) l' in
          (h, a, (cb t, args t) :: e)
      else
        let '(h, a, e) := scan_loop cur home l' in (h, (n, t) :: a, e)
  end.

Definition scan_delay_task (st : state) (cur : Z) : state * list (Z * bytes) :=
  let '(h, a, e) := scan_loop cur (delay_home st) (delay_active st) in (mk_state h a, e).

(** ** What a scan is to do *)

Definition due (cur : Z) (x : Z * t_pfs_timer) : Prop := next_time (snd x) < cur.
#[export] Instance due_dec cur x : Decision (due cur x).
Proof. unfold due. apply _. Defined.

Definition event (x : Z * t_pfs_timer) : Z * bytes := (cb (snd x), args (snd x)).

(** What becomes of one active timer. *)
Definition after (cur : Z) (x : Z * t_pfs_timer) : list (Z * t_pfs_timer) :=
  if decide (due cur x) then
    if loop (snd x) =? 0 then [] else [(fst x, set_next (snd x) (cur + span_time (snd x)))]
  else [x].

(** The nodes of the two rings. *)
Definition nodes (st : state) : list Z := delay_home st ++ map fst (delay_active st).

(** ** Lemmas *)

Lemma scan_loop_spec cur home l :
  let '(h, a, e) := scan_loop cur home l in
  e = map event (base.filter (due cur) l) /\ a = (l ≫= after cur) /\
  h ++ map fst a ≡ₚ home ++ map fst l.
Proof.
  revert home. induction l as [|[n t] l IH]; intros home; [done|]. cbn [scan_loop].
  unfold after. cbn [mbind list_bind]. rewrite filter_cons.
  destruct (next_time t <? cur) eqn:E.
  - rewrite !(decide_True (P := due cur (n, t))) by (unfold due; cbn; by b2p). cbn [fst snd].
    destruct (loop t =? 0) eqn:El; cbn [negb].
    + specialize (IH (n :: home)). destruct (scan_loop cur (n :: home) l) as [[h a] e].
      destruct IH as (E1 & E2 & E3). subst. cbn. split; [done|]. split; [done|].
      rewrite E3. cbn. by rewrite Permutation_middle.
    + specialize (IH home). destruct (scan_loop cur home l) as [[h a] e].
      destruct IH as (E1 & E2 & E3). subst. cbn. split; [done|]. split; [done|].
      rewrite <- !Permutation_middle. by rewrite E3.
  - rewrite !(decide_False (P := due cur (n, t))) by (unfold due; cbn; b2p; lia).
    specialize (IH home). destruct (scan_loop cur home l) as [[h a] e].
    destruct IH as (E1 & E2 & E3). subst. cbn. split; [done|]. split; [done|].
    rewrite <- !Permutation_middle. by rewrite E3.
Qed.

Lemma add_nodes st t fresh cur st' :
  add_to_delay_task st t fresh cur = (0, st') ->
  (delay_home st = [] /\ exists n, fresh = Some n /\ nodes st' = n :: nodes st) \/
  nodes st' ≡ₚ nodes st.
Proof.
  unfold add_to_delay_task, nodes. destruct (delay_home st) as [|n home] eqn:E.
  - destruct fresh as [n|]; [|done]. intros [= <-]. left. split; [done|]. exists n. done.
  - intros [= <-]. right. cbn. by rewrite Permutation_middle.
Qed.

(** A repeating timer that fired is not due again before its span has passed. *)
Lemma after_not_due cur cur' x y :
  due cur x -> y ∈ after cur x -> cur' <= cur + span_time (snd x) -> ~ due cur' y.
Proof.
  intros Hd Hy Hc. unfold after in Hy. rewrite decide_True in Hy by done.
  destruct (loop (snd x) =? 0); [set_solver|].
  apply list_elem_of_singleton in Hy as ->. unfold due. cbn. lia.
Qed.

(** ** Properties *)

(** A scan of the delayed tasks runs exactly the callbacks whose time has
    passed, in the order of the list, keeps the others, puts each repeating
    timer back for its next turn, and no node of the two rings is lost or
    duplicated. *)
Theorem scan_runs_due st cur st' evs :
  scan_delay_task st cur = (st', evs) ->
  evs = map event (base.filter (due cur) (delay_active st)) /\
  delay_active st' = (delay_active st ≫= after cur) /\ nodes st' ≡ₚ nodes st.
Proof.
  unfold scan_delay_task. pose proof (scan_loop_spec cur (delay_home st) (delay_active st)) as Hs.
  destruct (scan_loop _ _ _) as [[h a] e]. intros [= <- <-]. done.
Qed.

Lemma scan_runs_due_witness :
  let t1 := mk_timer 1 (str "/a.tmp4rm") 100 60 0 in
  let t2 := mk_timer 2 [] 90 600 1 in
  let t3 := mk_timer 3 [] 500 10 0 in
  let st := mk_state [40] [(10, t1); (20, t2); (30, t3)] in
  let st' := mk_state [10; 40] [(20, mk_timer 2 [] 720 600 1); (30, t3)] in
  [(1, str "/a.tmp4rm"); (2, [])] = map event (base.filter (due 120) (delay_active st)) /\
  delay_active st' = (delay_active st ≫= after 120) /\ nodes st' ≡ₚ nodes st.
Proof. intros t1 t2 t3 st st'. apply (scan_runs_due st 120 st'). reflexivity. Defined.

End Timer.
