(* ===== verification/Domain.v ===== *)
(** * Addresses, domains and groups (network/pfs_init.c)

    A group is a list of domains, a domain a list of up to 64 storage
    addresses that hold the same files.  [allip] is a hash table of the known
    addresses with 32 buckets, newest entry first in each bucket.  Domains are
    shared objects: [allip] entries, the group lists and the list of all
    domains point to them, so they live in a store of their own and the lists
    hold addresses.

    [malloc] is modelled by the next address [next] and the oracle
    [malloc_ok], which says at which addresses the allocation fails. *)

From S2P Require Import Prelude.
From S2P Require Import CString.
From S2P Require Import Codec.

Module Domain.

Definition MAX_IP_DOMAIN : Z := 64.
Definition MAX_NAMESERVER : Z := 64.
Definition MAXDISKS : Z := 32.
Definition IPLIST : Z := 32.
Definition IPMODE : Z := 0x1F.

Definition ROLE_UNKOWN : Z := 0.
Definition ROLE_STORAGE : Z := 1.
Definition ROLE_NAMESERVER : Z := 2.
Definition ROLE_POSS_MASTER : Z := 3.
Definition SELF_IP : Z := 4.
Definition ROLE_CLIENT : Z := 5.

(** The state of the address lookups: 0 is on-line. *)
Definition IP_ONLINE : Z := 0.
Definition IP_OFFLINE : Z := 1.

Record t_ip_info := mk_ip {
  role : Z;
  sip : bytes;
  uip : Z;
  ptr : option Z       (* the domain of a storage address *)
}.

(** The columns [sips], [ips], [self], [offline], [iperrdisk] of a domain at
    one index. *)
Record slot := mk_slot {
  s_sip : bytes;
  s_ip : Z;
  s_self : Z;
  s_offline : Z;
  s_errdisk : list Z
}.

(** [t_pfs_domain]; the arrays in use up to [ipcount], which is the length of
    [slots]. *)
Record t_pfs_domain := mk_domain {
  domain : bytes;
  slots : list slot;
  diskfree : Z;
  taskcount : Z;
  load : Z;
  index : Z
}.

Definition ipcount (d : t_pfs_domain) : Z := zlen (slots d).

Record t_pfs_group := mk_group { group : bytes; g_dlist : list Z }.

Record state := mk_state {
  domains : gmap Z t_pfs_domain;
  alldomain : list Z;
  grouplist : list t_pfs_group;
  allip : gmap Z (list t_ip_info);
  localip : list Z;                (* 64 entries, 0 ends them *)
  next : Z
}.

Definition with_allip (st : state) (a : gmap Z (list t_ip_info)) : state :=
  mk_state (domains st) (alldomain st) (grouplist st) a (localip st) (next st).
Definition with_domain (st : state) (a : Z) (d : t_pfs_domain) : state :=
  mk_state (<[a := d]> (domains st)) (alldomain st) (grouplist st) (allip st) (localip st) (next st).
Definition with_groups (st : state) (g : list t_pfs_group) : state :=
  mk_state (domains st) (alldomain st) g (allip st) (localip st) (next st).

Definition bucket (st : state) (i : Z) : list t_ip_info := default [] (allip st !! i).
Definition hash (u : Z) : Z := Z.land u IPMODE.

Section Alloc.
Context (malloc_ok : Z -> bool).

(** A fresh address, or the failure. *)
Definition malloc (st : state) : option Z * state :=
  (if malloc_ok (next st) then Some (next st) else None,
   mk_state (domains st) (alldomain st) (grouplist st) (allip st) (localip st) (next st + 1)).

(** ** The address table *)

Definition add_ip_2_pfs (st : state) (s : bytes) (u r : Z) (p : option Z) : Z * state :=
  let '(m, st) := malloc st in
  match m with
  | None => (-1, st)
  | Some _ =>
      let i := hash u in
      (0, with_allip st (<[i := mk_ip r (snprintf 16 s) u p :: bucket st i]> (allip st)))
  end.

Definition get_ip_info (st : state) (u : Z) : option t_ip_info :=
  find_first (fun i => uip i =? u) (bucket st (hash u)).

Fixpoint remove_first (u : Z) (l : list t_ip_info) : list t_ip_info :=
  match l with
  | [] => []
  | i :: t => if uip i =? u then t else i :: remove_first u t
  end.

Definition del_ip_from_pfs (st : state) (u : Z) : state :=
  with_allip st (<[hash u := remove_first u (bucket st (hash u))]> (allip st)).

(** [check_self_ip]: the scan of [localip] stops at the first 0. *)
Fixpoint scan_local (l : list Z) (ip : Z) : Z :=
  match l with
  | [] => -1
  | x :: t => if x =? 0 then -1 else if x =? ip then 0 else scan_local t ip
  end.

Definition check_self_ip (st : state) (ip : Z) : Z := scan_local (take 64 (localip st)) ip.

(** [get_self_role_ip_domain]: the role, the address and the domain copied. *)
Fixpoint self_role_loop (st : state) (l : list Z) : Z * option Z * option Z :=
  match l with
  | [] => (ROLE_UNKOWN, None, None)
  | x :: t =>
      if x =? 0 then (ROLE_UNKOWN, None, None)
      else match get_ip_info st x with
           | Some i => (role i, Some x, if role i =? ROLE_STORAGE then ptr i else None)
           | None => self_role_loop st t
           end
  end.

Definition get_self_role_ip_domain (st : state) : Z * option Z * option Z :=
  self_role_loop st (take 64 (localip st)).

(** ** Domains *)

Definition push_slot (d : t_pfs_domain) (s : slot) : t_pfs_domain :=
  mk_domain (domain d) (slots d ++ [s]) (diskfree d) (taskcount d) (load d) (index d).

(** [add_storage_to_domain(ip, g)] with [g] the domain at address [a]; [None]
    when [a] is not a domain.  The slot is filled before the address is added,
    and [ipcount] counts it only afterwards. *)
Definition add_storage_to_domain (st : state) (ip : bytes) (a : Z) : option (Z * state) :=
  d ← domains st !! a;
  if MAX_IP_DOMAIN <=? ipcount d then Some (-1, st)
  else
    let u := Ip.str2ip ip in
    let self := if check_self_ip st u =? 0 then 1 else 0 in
    let '(r, st) := add_ip_2_pfs st ip u ROLE_STORAGE (Some a) in
    if negb (r =? 0) then Some (-1, st)
    else Some (0, with_domain st a
                    (push_slot d (mk_slot (snprintf 16 ip) u self 0 (replicate 32 0)))).

Definition destroy_storage_ip (st : state) (d : t_pfs_domain) : state :=
  foldl (fun st s => del_ip_from_pfs st (s_ip s)) st (slots d).

(** One domain of a group that is destroyed: unlinked, its addresses deleted,
    then freed. *)
Definition destroy_domain (st : state) (a : Z) : option state :=
  d ← domains st !! a;
  let st := destroy_storage_ip st d in
  Some (mk_state (delete a (domains st)) (base.filter (fun x => x <> a) (alldomain st))
          (grouplist st) (allip st) (localip st) (next st)).

Fixpoint destroy_domains (st : state) (l : list Z) : option state :=
  match l with
  | [] => Some st
  | a :: t => st ← destroy_domain st a; destroy_domains st t
  end.

(** [destroy_old_group(gname)]: every group of that name. *)
Fixpoint destroy_groups (st : state) (gname : bytes) (l : list t_pfs_group)
  : option (state * list t_pfs_group) :=
  match l with
  | [] => Some (st, [])
  | g :: t =>
      if streq (group g) gname then
        st ← destroy_domains st (g_dlist g); destroy_groups st gname t
      else
        '(st, r) ← destroy_groups st gname t; Some (st, g :: r)
  end.

Definition destroy_old_group (st : state) (gname : bytes) : option state :=
  '(st, gl) ← destroy_groups st gname (grouplist st); Some (with_groups st gl).

(** ** Reading a group file *)

(** The [while (1)] loop over the commas and the last address: [inl] is the
    [return -1] of the loop, [inr] what the last call returned. *)
Fixpoint add_ips (fuel : nat) (st : state) (a : Z) (s : bytes) : option (Z * state + Z * state) :=
  match fuel with
  | O => None
  | S f =>
      match strchr s 44 with
      | Some i =>
          '(r, st) ← add_storage_to_domain st (take i s) a;
          if negb (r =? 0) then Some (inl (-1, st)) else add_ips f st a (drop (S i) s)
      | None => '(r, st) ← add_storage_to_domain st s a; Some (inr (r, st))
      end
  end.

Definition new_domain (name : bytes) : t_pfs_domain := mk_domain (snprintf 128 name) [] 0 0 0 0.

(** The group being built is the first of [grouplist]; a domain is added to
    the front of its list. *)
Definition link_domain (st : state) (a : Z) (d : t_pfs_domain) : state :=
  mk_state (<[a := d]> (domains st)) (a :: alldomain st)
    (match grouplist st with
     | g :: t => mk_group (group g) (a :: g_dlist g) :: t
     | [] => []
     end) (allip st) (localip st) (next st).

(** One line of the file; the code [inl] returns at once, [inr 0] goes on with
    the next line, [inr] of another code leaves the loop. *)
Definition group_line (st : state) (buf : bytes) : option (Z * state + Z * state) :=
  let buf := match strrchr buf 10 with Some i => take i buf | None => buf end in
  match strchr buf 58 with
  | None => Some (inr (-1, st))
  | Some i =>
      let '(m, st) := malloc st in
      match m with
      | None => Some (inr (-1, st))
      | Some a =>
          let st := link_domain st a (new_domain (take i buf)) in
          r ← add_ips (S (length buf)) st a (drop (S i) buf);
          Some (match r with
                | inl x => inl x
                | inr (c, st) => if negb (c =? 0) then inr (-1, st) else inr (0, st)
                end)
      end
  end.

Fixpoint group_lines (st : state) (lines : list bytes) : option (Z * state) :=
  match lines with
  | [] => Some (0, st)
  | buf :: t =>
      r ← group_line st buf;
      match r with
      | inl x => Some x
      | inr (c, st) => if negb (c =? 0) then Some (c, st) else group_lines st t
      end
  end.

(** [init_group(g)]: [file] is the value of [iplist_<group>], [None] if unset;
    [lines] what [fgets] reads from it, [None] if it cannot be opened. *)
Definition init_group (st : state) (gname : bytes) (file : option (option (list bytes)))
  : option (Z * state) :=
  st ← destroy_old_group st gname;
  match file with
  | None => Some (-1, st)
  | Some lines =>
      let st := with_groups st (mk_group gname [] :: grouplist st) in
      match lines with
      | None => Some (-1, st)
      | Some l => group_lines st l
      end
  end.

(** [init_storage]: the configured [group_name] values, in order. *)
Fixpoint init_groups (st : state) (file : bytes -> option (option (list bytes)))
    (names : list bytes) : option (Z * state) :=
  match names with
  | [] => Some (0, st)
  | n :: t =>
      let '(m, st) := malloc st in
      match m with
      | None => Some (-1, st)
      | Some _ =>
          '(r, st) ← init_group st (snprintf 128 n) (file (snprintf 128 n));
          if negb (r =? 0) then Some (-1, st) else init_groups st file t
      end
  end.

Definition init_storage (locked : bool) (st : state) (file : bytes -> option (option (list bytes)))
    (names : list bytes) : option (Z * state) :=
  if negb locked then Some (-1, st)
  else
    '(r, st) ← init_groups st file names;
    Some (if zlen names =? 0 then -1 else r, st).

(** [init_nameserver]: the entry is written before its index is compared with
    [MAX_NAMESERVER], so the 65th value is a store past the array: [None]. *)
Fixpoint init_ns_loop (resolve : bytes -> option (list bytes)) (st : state) (i : Z)
    (ns : list (bytes * Z)) (vals : list bytes) : option (Z * list (bytes * Z) * state) :=
  match vals with
  | [] => Some (0, ns, st)
  | v :: t =>
      if MAX_NAMESERVER <=? i then None
      else
        let '(u, s) := Ip.get_uint32_ip resolve v in
        let s := default [] s in
        let ns := ns ++ [(s, u)] in
        let '(r, st) := add_ip_2_pfs st s u ROLE_NAMESERVER None in
        if negb (r =? 0) then Some (-1, ns, st) else init_ns_loop resolve st (i + 1) ns t
  end.

Definition init_nameserver (resolve : bytes -> option (list bytes)) (st : state) (vals : list bytes) :=
  init_ns_loop resolve st 0 [] vals.

(** [init_poss]: the address string, the code and the state. *)
Definition init_poss (resolve : bytes -> option (list bytes)) (st : state) (ip : option bytes)
  : Z * bytes * state :=
  match ip with
  | None => (-1, [], st)
  | Some v =>
      let possip := default [] (snd (Ip.get_uint32_ip resolve v)) in
      let '(r, st) := add_ip_2_pfs st possip (Ip.str2ip possip) ROLE_POSS_MASTER None in
      (r, possip, st)
  end.

End Alloc.

(** ** Operations on a domain *)

Definition set_index (d : t_pfs_domain) (i : Z) : t_pfs_domain :=
  mk_domain (domain d) (slots d) (diskfree d) (taskcount d) (load d) i.

(** [get_domain(domain, domains)]: the copy, with the rotation index moved. *)
Fixpoint get_domain_loop (st : state) (name : bytes) (l : list Z)
  : option (Z * option t_pfs_domain * state) :=
  match l with
  | [] => Some (-1, None, st)
  | a :: t =>
      d ← domains st !! a;
      if streq name (domain d) then
        let i := index d + 1 in
        let d := set_index d (if ipcount d <=? i then 0 else i) in
        Some (0, Some d, with_domain st a d)
      else get_domain_loop st name t
  end.

Definition get_domain (st : state) (name : bytes) : option (Z * option t_pfs_domain * state) :=
  get_domain_loop st name (alldomain st).

Definition update_domain_info (tc ld : Z) (d : t_pfs_domain) : t_pfs_domain :=
  mk_domain (domain d) (slots d) (diskfree d) (u32 (taskcount d + tc)) (u32 (load d + ld)) (index d).

(** The first slot satisfying a test is changed by [f]; [None] if there is none. *)
Fixpoint update_slot (p : slot -> bool) (f : slot -> slot) (l : list slot) : option (list slot) :=
  match l with
  | [] => None
  | s :: t => if p s then Some (f s :: t) else cons s <$> update_slot p f t
  end.

Definition with_slots (d : t_pfs_domain) (l : list slot) : t_pfs_domain :=
  mk_domain (domain d) l (diskfree d) (taskcount d) (load d) (index d).

Definition set_errdisk (s : slot) (e : list Z) : slot :=
  mk_slot (s_sip s) (s_ip s) (s_self s) (s_offline s) e.

(** [set_self_disk_err(k, v)], [check_domain_disk_err(k)], [get_self_err_disk]
    and [set_domain_diskerr(errdisk, ip)] on [self_domain]; a message is logged
    and nothing changed when no slot matches. *)
Definition set_self_disk_err (d : t_pfs_domain) (k v : Z) : t_pfs_domain :=
  match update_slot (fun s => s_self s =? 1)
          (fun s => set_errdisk s (<[Z.to_nat (k mod MAXDISKS) := v]> (s_errdisk s))) (slots d) with
  | Some l => with_slots d l
  | None => d
  end.

Definition check_domain_disk_err (d : t_pfs_domain) (k : Z) : bool :=
  existsb (fun s => negb (nth (Z.to_nat (k mod MAXDISKS)) (s_errdisk s) 0 =? 0)) (slots d).

Definition get_self_err_disk (d : t_pfs_domain) : option (list Z) :=
  s_errdisk <$> find_first (fun s => s_self s =? 1) (slots d).

Definition set_domain_diskerr (d : t_pfs_domain) (e : list Z) (ip : Z) : t_pfs_domain :=
  match update_slot (fun s => s_ip s =? ip) (fun s => set_errdisk s (take 32 e)) (slots d) with
  | Some l => with_slots d l
  | None => d
  end.

(** ** Lemmas: the address table *)

(** The entries of one address, newest first. *)
Definition entries (st : state) (u : Z) : list t_ip_info :=
  base.filter (fun i => uip i = u) (bucket st (hash u)).

(** Every entry is in the bucket of its address. *)
Definition table_wf (st : state) : Prop :=
  forall b i, i ∈ bucket st b -> hash (uip i) = b.

Lemma get_ip_info_entries st u : get_ip_info st u = head (entries st u).
Proof.
  unfold get_ip_info, entries. induction (bucket st (hash u)) as [|i l IH]; [done|].
  cbn [find_first]. rewrite filter_cons. destruct (uip i =? u) eqn:E; b2p.
  - by rewrite decide_True.
  - by rewrite decide_False.
Qed.

Lemma bucket_with_allip st b l b' :
  bucket (with_allip st (<[b := l]> (allip st))) b' = if decide (b' = b) then l else bucket st b'.
Proof.
  unfold bucket. cbn. case_decide as E; [subst; by rewrite lookup_insert_eq|].
  by rewrite lookup_insert_ne.
Qed.

Lemma add_ip_entries ok st s u r p c st' :
  add_ip_2_pfs ok st s u r p = (c, st') -> c = 0 ->
  forall u', entries st' u' = if decide (u' = u) then mk_ip r (snprintf 16 s) u p :: entries st u
                              else entries st u'.
Proof.
  unfold add_ip_2_pfs, malloc. destruct (ok (next st)); [|by intros [= <- _]].
  intros [= <- <-] _ u'. unfold entries.
  set (st1 := mk_state _ _ _ _ _ (next st + 1)).
  rewrite (bucket_with_allip st1). change (bucket st1) with (bucket st).
  case_decide as E1; case_decide as E2; subst; try done.
  - by rewrite filter_cons_True.
  - rewrite E1. by rewrite filter_cons_False.
Qed.

Lemma remove_first_filter u u' l :
  base.filter (fun i => uip i = u') (remove_first u l)
  = if decide (u' = u) then tail (base.filter (fun i => uip i = u') l)
    else base.filter (fun i => uip i = u') l.
Proof.
  induction l as [|i l IH]; [by case_decide|]. cbn [remove_first].
  destruct (uip i =? u) eqn:E; b2p.
  - case_decide; subst.
    + by rewrite filter_cons_True.
    + by rewrite filter_cons_False.
  - rewrite !filter_cons, IH. repeat case_decide; subst; done.
Qed.

Lemma del_ip_entries st u u' :
  entries (del_ip_from_pfs st u) u'
  = if decide (u' = u) then tail (entries st u) else entries st u'.
Proof.
  unfold entries, del_ip_from_pfs. rewrite bucket_with_allip.
  case_decide as E1.
  - rewrite E1, remove_first_filter. case_decide; [by subst|done].
  - case_decide; [congruence|done].
Qed.

Lemma add_ip_ok ok st s u r p :
  ok (next st) = true -> exists st', add_ip_2_pfs ok st s u r p = (0, st') /\
    domains st' = domains st /\ alldomain st' = alldomain st /\ grouplist st' = grouplist st /\
    localip st' = localip st /\ next st' = next st + 1.
Proof. intros H. unfold add_ip_2_pfs, malloc. rewrite H. eexists. done. Qed.

(** ** Lemmas: reading a group file *)

(** Addresses as a group file lists them. *)
Definition addr_ok (s : bytes) : Prop := 44 ∉ s /\ (length s < 16)%nat.

Fixpoint join (l : list bytes) : bytes :=
  match l with
  | [] => []
  | [s] => s
  | s :: t => s ++ 44 :: join t
  end.

(** The slot an address becomes. *)
Definition slot_of (st : state) (s : bytes) : slot :=
  mk_slot s (Ip.str2ip s) (if check_self_ip st (Ip.str2ip s) =? 0 then 1 else 0) 0 (replicate 32 0).

Definition entry_of (a : Z) (s : bytes) : t_ip_info := mk_ip ROLE_STORAGE s (Ip.str2ip s) (Some a).

Lemma add_storage_ok ok st ip a d :
  domains st !! a = Some d -> ipcount d < MAX_IP_DOMAIN -> addr_ok ip -> ok (next st) = true ->
  exists st', add_storage_to_domain ok st ip a = Some (0, st') /\
    domains st' = <[a := push_slot d (slot_of st ip)]> (domains st) /\
    alldomain st' = alldomain st /\ grouplist st' = grouplist st /\
    localip st' = localip st /\ next st' = next st + 1 /\
    (forall u, entries st' u = if decide (u = Ip.str2ip ip) then entry_of a ip :: entries st u
                               else entries st u).
Proof.
  intros Hd Hc [_ Hl] Hok. unfold add_storage_to_domain. rewrite Hd. cbn [mbind option_bind].
  destruct (MAX_IP_DOMAIN <=? ipcount d) eqn:E; b2p; [lia|].
  destruct (add_ip_ok ok st ip (Ip.str2ip ip) ROLE_STORAGE (Some a) Hok)
    as (st' & E' & D1 & D2 & D3 & D4 & D5). rewrite E'. cbn [negb Z.eqb].
  eexists. split; [done|]. cbn [with_domain domains alldomain grouplist localip next].
  rewrite D1, D2, D3, D4, D5. split_and!; try done.
  - unfold slot_of. by rewrite snprintf_fits.
  - intros u. change (entries (with_domain _ _ _) u) with (entries st' u).
    rewrite (add_ip_entries _ _ _ _ _ _ _ _ E' eq_refl). rewrite snprintf_fits by done.
    case_decide; [by subst|done].
Qed.

Lemma check_self_ip_same st st' u : localip st' = localip st -> check_self_ip st' u = check_self_ip st u.
Proof. intros E. unfold check_self_ip. by rewrite E. Qed.

Lemma join_cons s t l : join (s :: t :: l) = s ++ 44 :: join (t :: l).
Proof. done. Qed.

(** Adding the addresses of a line one after the other. *)
Lemma add_ips_spec ok l : forall st a d fuel,
  domains st !! a = Some d -> l <> [] -> Forall addr_ok l ->
  ipcount d + zlen l <= MAX_IP_DOMAIN -> (length l <= fuel)%nat ->
  (forall n, next st <= n < next st + zlen l -> ok n = true) ->
  exists st', add_ips ok fuel st a (join l) = Some (inr (0, st')) /\
    domains st' = <[a := with_slots d (slots d ++ map (slot_of st) l)]> (domains st) /\
    alldomain st' = alldomain st /\ grouplist st' = grouplist st /\
    localip st' = localip st /\ next st' = next st + zlen l /\
    (forall u, entries st' u =
       map (entry_of a) (rev (base.filter (fun s => Ip.str2ip s = u) l)) ++ entries st u).
Proof.
  induction l as [|s l IH]; [done|]. intros st a d fuel Hd _ HF Hc Hfuel Hok.
  apply Forall_cons in HF as [Hs HF]. cbn [length] in *.
  destruct fuel as [|fuel]; [lia|].
  destruct (add_storage_ok ok st s a d) as (st1 & E1 & D1 & D2 & D3 & D4 & D5 & D6);
    [done|unfold ipcount in *; lia|done|apply Hok; lia|].
  assert (HE : forall u (l' : list bytes) (e : list t_ip_info),
    map (entry_of a) (rev (base.filter (fun x => Ip.str2ip x = u) l')) ++
      (if decide (u = Ip.str2ip s) then entry_of a s :: e else e)
    = map (entry_of a) (rev (base.filter (fun x => Ip.str2ip x = u) (s :: l'))) ++ e).
  { intros u l' e. rewrite filter_cons. case_decide as Eu.
    - rewrite decide_True by done. cbn [rev]. rewrite map_app, <- app_assoc. done.
    - rewrite decide_False by done. done. }
  destruct l as [|s2 l].
  - cbn [join add_ips]. assert (strchr s 44 = None) as -> by (apply strchr_None, Hs).
    rewrite E1. cbn [mbind option_bind]. exists st1. split; [done|].
    rewrite D1, D2, D3, D4, D5. split_and!; try done.
    intros u. rewrite D6, <- (HE u [] (entries st u)). cbn. by case_decide; subst.
  - rewrite join_cons. cbn [add_ips].
    rewrite strchr_app_r by apply Hs. rewrite take_app_length.
    rewrite E1. cbn [mbind option_bind negb Z.eqb].
    replace (drop (S (length s)) (s ++ 44 :: join (s2 :: l))) with (join (s2 :: l)).
    2: { rewrite drop_app_ge by lia. by replace (S (length s) - length s)%nat with 1%nat by lia. }
    destruct (IH st1 a (push_slot d (slot_of st s)) fuel) as (st2 & E2 & F1 & F2 & F3 & F4 & F5 & F6).
    + rewrite D1. by rewrite lookup_insert_eq.
    + done.
    + done.
    + unfold ipcount in *. cbn [push_slot slots]. rewrite length_app. cbn [length] in *. lia.
    + cbn [length] in *. lia.
    + intros n Hn. apply Hok. cbn [length] in *. lia.
    + exists st2. split; [done|]. rewrite F1, F2, F3, F4, F5, D1, D2, D3, D4, D5.
      rewrite insert_insert_eq. split_and!; try done.
      * f_equal. unfold with_slots, push_slot. cbn. f_equal. rewrite <- app_assoc. cbn.
        do 3 f_equal; [|apply map_ext; intros x]; unfold slot_of; by rewrite (check_self_ip_same st st1).
      * cbn [length]. lia.
      * intros u. rewrite F6, D6. apply HE.
Qed.

(** A line of a group file creates the domain it describes: first of its
    group and of all domains, with the addresses in the order of the line,
    each of which is then looked up to this domain. *)
Lemma group_line_spec ok st g gs name l :
  grouplist st = g :: gs -> 58 ∉ name -> (length name < 128)%nat ->
  l <> [] -> Forall addr_ok l -> zlen l <= MAX_IP_DOMAIN -> domains st !! next st = None ->
  10 ∉ name ++ 58 :: join l ->
  (forall n, next st <= n <= next st + zlen l -> ok n = true) ->
  exists st', group_line ok st (name ++ 58 :: join l ++ [10]) = Some (inr (0, st')) /\
    domains st' !! next st = Some (mk_domain name (map (slot_of st) l) 0 0 0 0) /\
    (forall a, a <> next st -> domains st' !! a = domains st !! a) /\
    alldomain st' = next st :: alldomain st /\
    grouplist st' = mk_group (group g) (next st :: g_dlist g) :: gs /\
    (forall u, entries st' u =
       map (entry_of (next st)) (rev (base.filter (fun s => Ip.str2ip s = u) l)) ++ entries st u).
Proof.
  intros Hg Hn Hlen Hne HF Hmax Hfresh Hnl Hok. unfold group_line.
  change (name ++ 58 :: join l ++ [10]) with (name ++ (58 :: join l) ++ [10]).
  rewrite app_assoc, strrchr_app_r, take_app_length by set_solver.
  rewrite strchr_app_r by done. unfold malloc at 1. rewrite Hok by lia.
  set (st0 := mk_state _ _ _ _ _ _). rewrite take_app_length.
  replace (drop (S (length name)) (name ++ 58 :: join l)) with (join l).
  2: { rewrite drop_app_ge by lia. by replace (S (length name) - length name)%nat with 1%nat by lia. }
  set (st1 := link_domain st0 (next st) (new_domain name)).
  assert (Hnn : forall k, (length l <= S (k + S (length (join l))))%nat).
  { intros k. clear. induction l as [|s [|s2 l] IH]; [cbn; lia|cbn; lia|].
    rewrite join_cons, length_app. cbn [length] in *. lia. }
  destruct (add_ips_spec ok l st1 (next st) (new_domain name)
    (S (length (name ++ 58 :: join l)))) as (st' & E & D1 & D2 & D3 & D4 & D5 & D6).
  - cbn. by rewrite lookup_insert_eq.
  - done.
  - done.
  - unfold ipcount. cbn [new_domain slots length]. lia.
  - rewrite length_app. cbn [length]. apply Hnn.
  - intros n Hn'. apply Hok. cbn [st1 link_domain next st0] in Hn'. lia.
  - rewrite E. cbn [mbind option_bind negb Z.eqb]. exists st'. split; [done|].
    rewrite D1, D2, D3. cbn [st1 link_domain domains alldomain grouplist st0].
    rewrite Hg. split_and!; try done.
    + rewrite lookup_insert_eq. unfold with_slots, new_domain.
      cbn [domain slots diskfree taskcount load index app]. by rewrite snprintf_fits.
    + intros a Ha. by rewrite !lookup_insert_ne.
Qed.

(** ** Lemmas: the bound on addresses per domain *)

Definition bounded (st : state) : Prop :=
  forall a d, domains st !! a = Some d -> ipcount d <= MAX_IP_DOMAIN.

Lemma add_ip_domains ok st s u r p : domains (snd (add_ip_2_pfs ok st s u r p)) = domains st.
Proof. unfold add_ip_2_pfs, malloc. by destruct (ok (next st)). Qed.

Lemma add_storage_bounded ok st ip a c st' :
  bounded st -> add_storage_to_domain ok st ip a = Some (c, st') -> bounded st'.
Proof.
  intros HB. unfold add_storage_to_domain. destruct (domains st !! a) as [d|] eqn:E; [|done].
  cbn [mbind option_bind]. destruct (MAX_IP_DOMAIN <=? ipcount d) eqn:E2; b2p.
  { by intros [= _ <-]. }
  pose proof (add_ip_domains ok st ip (Ip.str2ip ip) ROLE_STORAGE (Some a)) as HD.
  destruct (add_ip_2_pfs _ _ _ _ _ _) as [r st1]. cbn [snd] in HD.
  destruct (negb (r =? 0)); intros [= _ <-] a' d' Ha'; cbn in Ha'; rewrite HD in Ha'.
  - by apply (HB a').
  - apply lookup_insert_Some in Ha' as [[_ <-]|[_ Ha']]; [|by apply (HB a')].
    unfold ipcount in *. cbn. rewrite length_app. cbn. lia.
Qed.

Lemma add_ips_bounded ok fuel st a s r :
  bounded st -> add_ips ok fuel st a s = Some r ->
  bounded (match r with inl x | inr x => snd x end).
Proof.
  revert st s. induction fuel as [|f IH]; intros st s HB; [done|]. cbn [add_ips].
  destruct (strchr s 44) as [i|].
  - destruct (add_storage_to_domain ok st (take i s) a) as [[c st1]|] eqn:E; [|done].
    cbn [mbind option_bind]. apply add_storage_bounded in E; [|done].
    destruct (negb (c =? 0)); [by intros [= <-]|]. by apply IH.
  - destruct (add_storage_to_domain ok st s a) as [[c st1]|] eqn:E; [|done].
    cbn [mbind option_bind]. intros [= <-]. by eapply add_storage_bounded.
Qed.

Lemma group_line_bounded ok st buf r :
  bounded st -> group_line ok st buf = Some r ->
  bounded (match r with inl x | inr x => snd x end).
Proof.
  intros HB. unfold group_line.
  set (b := match strrchr buf 10 with Some i => take i buf | None => buf end).
  destruct (strchr b 58) as [i|]; [|by intros [= <-]].
  unfold malloc. destruct (ok (next st)); [|by intros [= <-]].
  set (st1 := link_domain _ _ _).
  assert (HB1 : bounded st1).
  { intros a d. cbn. rewrite lookup_insert_Some. intros [[_ <-]|[_ H]]; [done|by apply (HB a)]. }
  destruct (add_ips _ _ _ _ _) as [r'|] eqn:E; [|done]. cbn [mbind option_bind].
  apply add_ips_bounded in E; [|done]. intros [= <-].
  destruct r' as [x|[c st2]]; [done|]. by destruct (negb (c =? 0)).
Qed.

Lemma destroy_groups_bounded gname l : forall st st' r,
  bounded st -> destroy_groups st gname l = Some (st', r) -> bounded st'.
Proof.
  assert (HD : forall m st st', bounded st -> destroy_domains st m = Some st' -> bounded st').
  { induction m as [|a m IH]; intros st st' HB; cbn [destroy_domains]; [by intros [= <-]|].
    unfold destroy_domain at 1. destruct (domains st !! a) as [d|]; [|done].
    cbn [mbind option_bind]. apply IH. intros a' d'. cbn.
    assert (E : forall k s, domains (foldl (fun st s => del_ip_from_pfs st (s_ip s)) s k) = domains s).
    { induction k as [|x k IHl]; intros s; [done|]. cbn [foldl]. by rewrite IHl. }
    unfold destroy_storage_ip. rewrite E. intros Hl%lookup_delete_Some. destruct Hl. by apply (HB a'). }
  induction l as [|g l IH]; intros st st' r HB; cbn [destroy_groups]; [by intros [= <- _]|].
  destruct (streq (group g) gname).
  - destruct (destroy_domains st (g_dlist g)) as [st1|] eqn:E; [|done]. cbn [mbind option_bind].
    apply IH. by eapply HD.
  - destruct (destroy_groups st gname l) as [[st1 r1]|] eqn:E; [|done]. cbn [mbind option_bind].
    intros [= <- _]. by eapply IH.
Qed.

Lemma group_lines_bounded ok lines : forall st c st',
  bounded st -> group_lines ok st lines = Some (c, st') -> bounded st'.
Proof.
  induction lines as [|b t IH]; intros st c st' HB; cbn [group_lines]; [by intros [= _ <-]|].
  destruct (group_line ok st b) as [r|] eqn:E; [|done]. cbn [mbind option_bind].
  apply group_line_bounded in E; [|done]. destruct r as [x|[c' st1]].
  - intros [= ->]. done.
  - destruct (negb (c' =? 0)); [by intros [= _ <-]|]. by apply IH.
Qed.

Lemma init_group_bounded ok st gname file c st' :
  bounded st -> init_group ok st gname file = Some (c, st') -> bounded st'.
Proof.
  intros HB. unfold init_group, destroy_old_group.
  destruct (destroy_groups st gname (grouplist st)) as [[st1 gl]|] eqn:E; [|done].
  cbn [mbind option_bind]. apply destroy_groups_bounded in E; [|done].
  destruct file as [[l|]|]; [|by intros [= _ <-]|by intros [= _ <-]].
  by apply group_lines_bounded.
Qed.

(** ** Lemmas: rotation inside a domain *)

Definition rotate (d : t_pfs_domain) : t_pfs_domain :=
  set_index d (if ipcount d <=? index d + 1 then 0 else index d + 1).

Lemma get_domain_found st name pre a post d :
  alldomain st = pre ++ a :: post -> domains st !! a = Some d -> domain d = name ->
  (forall x, x ∈ pre -> exists y, domains st !! x = Some y /\ domain y <> name) ->
  get_domain st name = Some (0, Some (rotate d), with_domain st a (rotate d)).
Proof.
  intros E Hd Hn Hpre. unfold get_domain. rewrite E. clear E.
  induction pre as [|x pre IH]; cbn [app get_domain_loop].
  - rewrite Hd. cbn [mbind option_bind]. rewrite (proj2 (streq_true _ _)) by done. done.
  - destruct (Hpre x) as (y & Hy & Hyn); [set_solver|]. rewrite Hy. cbn [mbind option_bind].
    assert (streq name (domain y) = false) as ->.
    { apply not_true_iff_false. rewrite streq_true. congruence. }
    apply IH. intros z Hz. apply Hpre. set_solver.
Qed.

Lemma rotate_index d k :
  0 <= index d < ipcount d ->
  index (Nat.iter k rotate d) = (index d + Z.of_nat k) mod ipcount d /\
  slots (Nat.iter k rotate d) = slots d.
Proof.
  intros Hi. induction k as [|k [IH1 IH2]].
  { cbn. rewrite Z.add_0_r, Z.mod_small by done. done. }
  change (Nat.iter (S k) rotate d) with (rotate (Nat.iter k rotate d)).
  set (e := Nat.iter k rotate d) in *. unfold rotate, set_index. cbn [index slots].
  split; [|done]. unfold ipcount in *. rewrite IH2.
  rewrite IH1. set (n := zlen (slots d)) in *.
  pose proof (Z.mod_pos_bound (index d + Z.of_nat k) n ltac:(lia)) as Hb.
  replace (index d + Z.of_nat (S k)) with (index d + Z.of_nat k + 1) by lia.
  destruct (n <=? _) eqn:E; b2p.
  - rewrite <- (Z.add_mod_idemp_l (index d + Z.of_nat k) 1 n) by lia.
    replace ((index d + Z.of_nat k) mod n + 1) with (0 + 1 * n) by lia.
    by rewrite Z.mod_add by lia.
  - rewrite <- (Z.add_mod_idemp_l (index d + Z.of_nat k) 1 n) by lia. by rewrite (Z.mod_small ((index d + Z.of_nat k) mod n + 1)) by lia.
Qed.

(** ** Properties *)

(** A system with one configured group, for the witnesses. *)
Definition demo_state : state := mk_state ∅ [] [mk_group (str "photo") []] ∅ (replicate 64 0) 1.

(** A line [name:ip,ip,...] of a group file creates the domain it
    describes: first of its group and of all domains, with the addresses in
    the order of the line, each of which is then looked up to this domain;
    other domains and earlier entries of the address table are untouched. *)
Theorem group_line_loads ok st g gs name l :
  grouplist st = g :: gs -> 58 ∉ name -> (length name < 128)%nat ->
  l <> [] -> Forall addr_ok l -> zlen l <= MAX_IP_DOMAIN -> domains st !! next st = None ->
  10 ∉ name ++ 58 :: join l ->
  (forall n, next st <= n <= next st + zlen l -> ok n = true) ->
  exists st', group_line ok st (name ++ 58 :: join l ++ [10]) = Some (inr (0, st')) /\
    domains st' !! next st = Some (mk_domain name (map (slot_of st) l) 0 0 0 0) /\
    (forall a, a <> next st -> domains st' !! a = domains st !! a) /\
    alldomain st' = next st :: alldomain st /\
    grouplist st' = mk_group (group g) (next st :: g_dlist g) :: gs /\
    (forall s, s ∈ l -> exists s', s' ∈ l /\ get_ip_info st' (Ip.str2ip s) = Some (entry_of (next st) s')).
Proof.
  intros H1 H2 H3 H4 H5 H6 H7 H8 H9.
  destruct (group_line_spec ok st g gs name l H1 H2 H3 H4 H5 H6 H7 H8 H9)
    as (st' & A & B & C & D & F & G).
  exists st'. split_and!; [done..|]. intros s Hs. rewrite get_ip_info_entries, G.
  assert (Hf : s ∈ rev (base.filter (fun x => Ip.str2ip x = Ip.str2ip s) l)).
  { apply list_elem_of_In. rewrite <- in_rev. apply list_elem_of_In, list_elem_of_filter. done. }
  destruct (rev _) as [|s' t] eqn:Er; [by apply not_elem_of_nil in Hf|].
  exists s'. split; [|done].
  assert (Hin : s' ∈ base.filter (fun x => Ip.str2ip x = Ip.str2ip s) l).
  { apply list_elem_of_In, in_rev, list_elem_of_In. rewrite Er. set_solver. }
  by apply list_elem_of_filter in Hin as [_ ?].
Qed.

Lemma group_line_loads_witness :
  let l := [str "10.0.0.1"; str "10.0.0.2"] in
  exists st', group_line (fun _ => true) demo_state (str "img1" ++ 58 :: join l ++ [10]) = Some (inr (0, st')) /\
    domains st' !! 1 = Some (mk_domain (str "img1") (map (slot_of demo_state) l) 0 0 0 0) /\
    (forall a, a <> 1 -> domains st' !! a = domains demo_state !! a) /\
    alldomain st' = 1 :: alldomain demo_state /\
    grouplist st' = mk_group (str "photo") [1] :: [] /\
    (forall s, s ∈ l -> exists s', s' ∈ l /\ get_ip_info st' (Ip.str2ip s) = Some (entry_of 1 s')).
Proof.
  intros l. apply (group_line_loads (fun _ => true) demo_state (mk_group (str "photo") []) [] (str "img1") l);
    try reflexivity; try discriminate; try (vm_compute; discriminate);
    try (apply (bool_decide_unpack _); vm_compute; exact I).
Defined.

(** Whatever a group file holds, no domain ever gets more than the
    [MAX_IP_DOMAIN] addresses its arrays have room for. *)
Theorem group_file_bounded ok st gname file c st' :
  bounded st -> init_group ok st gname file = Some (c, st') -> bounded st'.
Proof. apply init_group_bounded. Qed.

Lemma group_file_bounded_witness :
  let r := init_group (fun _ => true) demo_state (str "photo")
             (Some (Some [str "a:10.0.0.1,10.0.0.2"; str "b:10.0.1.1"])) in
  exists c st', r = Some (c, st') /\ bounded st'.
Proof.
  intros r. destruct r as [[c st']|] eqn:Er; [|vm_compute in Er; discriminate].
  exists c, st'. split; [reflexivity|].
  apply (group_file_bounded (fun _ => true) demo_state (str "photo")
           (Some (Some [str "a:10.0.0.1,10.0.0.2"; str "b:10.0.1.1"])) c st'); [|exact Er].
  intros a d Hd. simpl in Hd. by rewrite lookup_empty in Hd.
Defined.

(** [get_domain] finds the first domain of the name and moves its rotation
    index; after [k] calls the index is the starting one plus [k] modulo the
    number of servers, so requests visit the servers of a domain in turn. *)
Theorem domain_rotation st name pre a post d :
  alldomain st = pre ++ a :: post -> domains st !! a = Some d -> domain d = name ->
  (forall x, x ∈ pre -> exists y, domains st !! x = Some y /\ domain y <> name) ->
  0 <= index d < ipcount d ->
  get_domain st name = Some (0, Some (rotate d), with_domain st a (rotate d)) /\
  forall k, index (Nat.iter k rotate d) = (index d + Z.of_nat k) mod ipcount d /\
            slots (Nat.iter k rotate d) = slots d.
Proof.
  intros H1 H2 H3 H4 H5. split; [by eapply get_domain_found|]. intros k. by apply rotate_index.
Qed.

Lemma domain_rotation_witness :
  let s := mk_slot (str "10.0.0.1") 16777226 0 0 (replicate 32 0) in
  let d := mk_domain (str "img1") [s; s; s] 0 0 0 1 in
  let st := mk_state {[ 1 := d ]} [1] [] ∅ [] 2 in
  get_domain st (str "img1") = Some (0, Some (rotate d), with_domain st 1 (rotate d)) /\
  forall k, index (Nat.iter k rotate d) = (index d + Z.of_nat k) mod ipcount d /\
            slots (Nat.iter k rotate d) = slots d.
Proof.
  intros s d st. apply (domain_rotation st (str "img1") [] 1 [] d); try reflexivity.
  - intros x Hx. by apply not_elem_of_nil in Hx.
  - vm_compute. split; [discriminate|reflexivity].
Defined.

End Domain.
