(* ===== verification/MyConfig.v ===== *)
(** * The configuration reader (lib/myconfig.c)

    A store of [name = value] pairs in a hash table of 256 chains.  An entry is
    in two lists, the chain of its hash and the list of its section, so entries
    have addresses and the lists hold addresses.  [loadfile0] reads a file into
    the store, [init] adds the command line, [reload] reads the file again and
    takes over the settings that may change at run time; the getters, [update_value]
    and [dump_to_file] work on the store.

    [None] stands for the process crashing: a string that leaves its buffer, a
    null pointer, an entry that has been freed.  Allocation and files are
    parameters. *)

From S2P Require Import Prelude.
From S2P Require Import CString.
From S2P Require Import Codec.

Module MyConfig.

(** ** Data *)

Definition VAL_MAX_LEN : nat := 1024.
Definition MAX_RELOAD_KEY_NUM : nat := 128.

(** [struct myconfig]; [linked]: whether [pre_list] has been set. *)
Record myconfig := mk_myconfig {
  hash : Z;
  key : bytes;
  val : bytes;
  intval : Z;
  linked : bool
}.

(** [struct prehash]; [pre] is the whole array. *)
Record prehash := mk_prehash {
  members : list Z;
  pre : bytes;
  used : Z
}.

Record state := mk_state {
  entries : gmap Z myconfig;
  myhash : Z -> list Z;
  prelist : list prehash;
  inited : bool;
  reload_key : list bytes;       (* up to the first null pointer *)
  reload_cb_list : list Z
}.

Definition with_store (st : state) (m : gmap Z myconfig) (h : Z -> list Z) (p : list prehash) : state :=
  mk_state m h p (inited st) (reload_key st) (reload_cb_list st).

(** The table [sep] and the two loops that write keys in their stored form. *)
Definition sep (c : Z) : bool := (c =? 32) || (c =? 46) || (c =? 45) || (c =? 95).
Definition sep_char (c : Z) : Z := if sep c then 95 else c.
Definition key_char (c : Z) : Z := tolower (sep_char c).

(** What [plist->pre] is as a string: the array need not be terminated, the
    bytes of [used] follow it. *)
Definition pre_text (p : prehash) : bytes := until0 (pre p ++ le_split 4 (used p) ++ [0]).

(** The allocator, and the files: [None] when [open], [mmap] or [read] fails;
    what [/proc/self/exe] points to; whether a file can be read. *)
Class Surroundings := mk_surroundings {
  k_malloc : state -> option Z;
  k_file : bytes -> option bytes;
  k_exe : option bytes;
  k_access : bytes -> bool
}.

Section Reader.
Context `{K : Surroundings}.

(** ** The store *)

Definition chain (st : state) (h : Z) : list Z := myhash st (Z.land h 255).

(** The search every getter makes: the first entry of the list with the hash
    and the key. *)
Fixpoint find_in (m : gmap Z myconfig) (h : Z) (k : bytes) (l : list Z) : option (option (Z * myconfig)) :=
  match l with
  | [] => Some None
  | a :: l' =>
      e ← m !! a;
      if (h =? hash e) && streq k (key e) then Some (Some (a, e)) else find_in m h k l'
  end.

Definition find_key (st : state) (k : bytes) : option (option (Z * myconfig)) :=
  let h := Misc.r5hash k in find_in (entries st) h k (chain st h).

Definition myconfig_get_value (st : state) (k : bytes) : option (option bytes) :=
  r ← find_key st k; Some match r with Some (_, e) => Some (val e) | None => None end.

(** The walk of [myconfig_get_multivalue], over the reversed chain. *)
Fixpoint nth_in (m : gmap Z myconfig) (h : Z) (k : bytes) (l : list Z) (index : Z) : option (option bytes) :=
  match l with
  | [] => Some None
  | a :: l' =>
      e ← m !! a;
      if (h =? hash e) && streq k (key e)
      then if index =? 0 then Some (Some (val e)) else nth_in m h k l' (index - 1)
      else nth_in m h k l' index
  end.

Definition myconfig_get_multivalue (st : state) (k : bytes) (index : Z) : option (option bytes) :=
  let h := Misc.r5hash k in nth_in (entries st) h k (rev (chain st h)) index.

(** The number a value stands for. *)
Definition word_val (v : bytes) : option Z :=
  if isdigit (at_ v 0) || ((at_ v 0 =? 45) && isdigit (at_ v 1)) then Some (atoi v)
  else if strcasecmp0 v (str "On") then Some 1
  else if strcasecmp0 v (str "Off") then Some 0
  else if strcasecmp0 v (str "Yes") then Some 1
  else if strcasecmp0 v (str "No") then Some 0
  else if strcasecmp0 v (str "True") then Some 1
  else if strcasecmp0 v (str "False") then Some 0
  else if strcasecmp0 v (str "enable") then Some 1
  else if strcasecmp0 v (str "disable") then Some 0
  else if strcasecmp0 v (str "enabled") then Some 1
  else if strcasecmp0 v (str "disabled") then Some 0
  else None.

Definition set_intval (e : myconfig) (n : Z) : myconfig := mk_myconfig (hash e) (key e) (val e) n (linked e).
Definition set_val (e : myconfig) (v : bytes) : myconfig := mk_myconfig (hash e) (key e) v (intval e) (linked e).
Definition set_entry (st : state) (a : Z) (e : myconfig) : state :=
  with_store st (<[a := e]> (entries st)) (myhash st) (prelist st).

(** [myconfig_get_intval]: the number is kept in the entry. *)
Definition myconfig_get_intval (st : state) (k : bytes) (def : Z) : option (Z * state) :=
  r ← find_key st k;
  Some match r with
       | None => (def, st)
       | Some (a, e) =>
           if intval e =? -1 then
             match word_val (val e) with
             | None => (def, st)
             | Some n => (n, set_entry st a (set_intval e n))
             end
           else (intval e, st)
       end.

Definition myconfig_get_size (st : state) (k : bytes) (def : Z) : option Z :=
  r ← find_key st k;
  Some match r with
       | None => u64 def
       | Some (_, e) =>
           if negb (isdigit (at_ (val e) 0)) then u64 def
           else
             let '(v, pp) := strtoul0 (val e) in
             let c := tolower (at_ pp 0) in
             if c =? 98 then v
             else if c =? 107 then u64 (v * 1024)
             else if c =? 109 then u64 (v * (1024 * 1024))
             else if c =? 103 then u64 (v * (1024 * 1024 * 1024))
             else v
       end.

(** The loop of [myconfig_put_value] over [prelist]. *)
Fixpoint find_slot (pr : bytes) (l : list prehash) : option nat :=
  match l with
  | [] => None
  | p :: l' => if (used p =? 0) || strncmp0 (pre_text p) pr (length pr) then Some O else S <$> find_slot pr l'
  end.

Definition myconfig_put_value (st : state) (pr key0 v : bytes) : option (Z * state) :=
  match k_malloc st with
  | None => Some (-1, st)
  | Some a =>
      let k := map key_char (pr ++ key0) in
      let h := Misc.r5hash k in
      if bool_decide (VAL_MAX_LEN <= length v)%nat then None
      else
        let hs := fun b => if b =? Z.land h 255 then a :: myhash st b else myhash st b in
        match find_slot pr (prelist st) with
        | None => Some (0, with_store st (<[a := mk_myconfig h k v (-1) false]> (entries st)) hs (prelist st))
        | Some i =>
            p ← prelist st !! i;
            if bool_decide (length (pre p) < length pr)%nat then None
            else
              let p := mk_prehash (a :: members p) (memcpy (pre p) 0 pr) 1 in
              Some (1, with_store st (<[a := mk_myconfig h k v (-1) true]> (entries st)) hs (<[i := p]> (prelist st)))
        end
  end.

(** [myconfig_delete_value]: every entry of the chain with that key. *)
Definition unlink (a : Z) (p : prehash) : prehash :=
  mk_prehash (filter (fun b => b <> a) (members p)) (pre p) (used p).

Fixpoint delete_in (st : state) (h : Z) (k : bytes) (l : list Z) : option state :=
  match l with
  | [] => Some st
  | a :: l' =>
      e ← entries st !! a;
      if (hash e =? h) && streq (key e) k then
        if linked e then
          delete_in (with_store st (delete a (entries st))
                       (fun b => if b =? Z.land h 255 then filter (fun x => x <> a) (myhash st b) else myhash st b)
                       (map (unlink a) (prelist st))) h k l'
        else None
      else delete_in st h k l'
  end.

Definition myconfig_delete_value (st : state) (prefix k : bytes) : option (Z * state) :=
  let s := map sep_char (prefix ++ k) in
  let h := Misc.r5hash s in
  st ← delete_in st h s (chain st h);
  Some (1, st).

(** [myconfig_update_value]: the number kept in the entry stays as it is. *)
Definition myconfig_update_value (st : state) (k v : bytes) : option (Z * state) :=
  r ← find_key st k;
  match r with
  | Some (a, e) =>
      if bool_decide (VAL_MAX_LEN <= length v)%nat then None else Some (1, set_entry st a (set_val e v))
  | None =>
      match strchr k 95 with
      | Some i =>
          let key0 := drop (S i) k in
          if bool_decide (19 <= i)%nat || bool_decide (30 <= length key0)%nat then None
          else myconfig_put_value st (take i k ++ [45]) key0 v
      | None => myconfig_put_value st [] k v
      end
  end.

(** ** Files *)

(** [getconfigname]: the name it leaves in [buf]. *)
Definition getconfigname : bytes :=
  match k_exe with
  | None => []
  | Some exe =>
      let exe := take 4095 exe in
      if negb (at_ exe 0 =? 47) then []
      else
        match strrchr exe 47 with
        | None => []
        | Some i =>
            let dir := take i exe in
            let name := drop (S i) exe in
            let f1 := snprintf 4096 (dir ++ 47 :: name ++ str ".conf") in
            if k_access f1 then f1
            else
              let f2 := snprintf 4096 (dir ++ str "/../conf/" ++ name ++ str ".conf") in
              if k_access f2 then f2 else []
        end
  end.

Definition blank (c : Z) : bool := (c =? 32) || (c =? 9) || (c =? 13).

Fixpoint drop_while (p : Z -> bool) (l : bytes) : bytes :=
  match l with
  | [] => []
  | c :: l' => if p c then drop_while p l' else l
  end.

Fixpoint take_while (p : Z -> bool) (l : bytes) : bytes :=
  match l with
  | [] => []
  | c :: l' => if p c then c :: take_while p l' else []
  end.

Definition strip_end (p : Z -> bool) (l : bytes) : bytes := rev (drop_while p (rev l)).

Definition isalnum (c : Z) : bool := isdigit c || isupper c || islower c.

(** The section a line [\[name\]] opens: the separators around the name go, the
    name is followed by a dash. *)
Definition section_name (q : bytes) : bytes := drop_while sep (strip_end sep q ++ [45]).

(** The assignment of a line that is neither empty nor a comment. *)
Definition assignment (p : bytes) : bytes * bytes :=
  let k := take_while (fun c => negb (blank c || (c =? 61))) p in
  let p := drop_while blank (drop (length k) p) in
  let p := match p with
           | c :: p' => if c =? 61 then drop_while (fun c => c =? 61) p' else p
           | [] => []
           end in
  (k, strip_end blank (drop_while blank p)).

(** What is done with an assignment: the first time it is stored, later only if
    the key may be reloaded. *)
Definition assign (st : state) (section k v : bytes) : option state :=
  if isalnum (at_ k 0) && negb (bool_decide (v = [])) then
    if negb (inited st) then '(_, st) ← myconfig_put_value st section k v; Some st
    else if existsb (streq k) (reload_key st) then
      '(_, st) ← myconfig_delete_value st section k;
      '(_, st) ← myconfig_put_value st section k v;
      Some st
    else Some st
  else Some st.

(** One line, without its end: the section from then on and the store. *)
Definition load_line (st : state) (section line : bytes) : option (bytes * state) :=
  match drop_while blank line with
  | [] => Some (section, st)
  | c :: p =>
      if c =? 91 then
        match strchr p 93 with
        | Some i => Some (section_name (take i p), st)
        | None => Some (section, st)
        end
      else if (c =? 35) || (c =? 59) then Some (section, st)
      else
        let '(k, v) := assignment (c :: p) in
        st ← assign st section k v;
        Some (section, st)
  end.

(** The loop of [myconfig_loadfile0] on the rest of the buffer.  [strchr] does
    not look behind a zero byte; without a line end the next pointer is null
    and the loop goes on with it. *)
Fixpoint load_lines (fuel : nat) (st : state) (section buf : bytes) : option state :=
  match fuel with
  | O => None
  | S fuel' =>
      match buf with
      | [] => Some st
      | _ :: _ =>
          i ← strchr (until0 buf) 10;
          '(section, st) ← load_line st section (take i buf);
          load_lines fuel' st section (drop (S i) buf)
      end
  end.

Definition myconfig_loadfile0 (st : state) (file : bytes) : option (Z * state) :=
  match k_file file with
  | None => Some (-1, st)
  | Some buf => st ← load_lines (S (length buf)) st [] buf; Some (0, st)
  end.

(** One argument of the command line. *)
Definition load_arg (st : state) (arg : bytes) : option state :=
  let k := drop_while (fun c => c =? 45) arg in
  let c := at_ k 0 in
  if (c =? 0) || (c =? 59) || (c =? 35) || (c =? 61) then Some st
  else
    match strchr k 61 with
    | None => '(_, st) ← myconfig_put_value st [] k (str "1"); Some st
    | Some i =>
        let q := drop (S i) k in
        let k := take i k in
        st ← (if at_ q 0 =? 61 then '(_, st) ← myconfig_delete_value st [] k; Some st else Some st);
        let q := drop_while (fun c => c =? 61) q in
        if bool_decide (q = []) then Some st else '(_, st) ← myconfig_put_value st [] k q; Some st
    end.

Fixpoint load_args (st : state) (args : list bytes) : option state :=
  match args with
  | [] => Some st
  | arg :: args' => st ← load_arg st arg; load_args st args'
  end.

Definition empty_slot : prehash := mk_prehash [] (replicate 20 0) 0.

(** [myconfig_init] with the arguments behind the program's name. *)
Definition myconfig_init (st : state) (args : list bytes) : option (Z * state) :=
  let st := with_store st (entries st) (fun _ => [])
              (map (fun p => mk_prehash [] (pre p) (used p)) (prelist st)) in
  '(rc, st) ← myconfig_loadfile0 st getconfigname;
  if rc <? 0 then Some (-1, st)
  else
    st ← load_args st args;
    Some (0, mk_state (entries st) (myhash st) (prelist st) true (reload_key st) (reload_cb_list st)).

(** [myconfig_reload]: also the functions that are called, in order. *)
Definition myconfig_reload (st : state) : option (list Z * state) :=
  '(_, st) ← myconfig_loadfile0 st getconfigname;
  Some (reload_cb_list st, st).

(** [myconfig_register_reload]. *)
Definition myconfig_register_reload (st : state) (func : Z) (keys : list bytes) : state :=
  let keys' := if bool_decide (keys = []) then reload_key st
               else if bool_decide (length keys < MAX_RELOAD_KEY_NUM - length (reload_key st))%nat
                    then reload_key st ++ keys else reload_key st in
  mk_state (entries st) (myhash st) (prelist st) (inited st) keys' (func :: reload_cb_list st).

(** [myconfig_cleanup]: the entries are freed, the lists are left. *)
Definition myconfig_cleanup (st : state) : state :=
  mk_state ∅ (myhash st) (prelist st) (inited st) (reload_key st) [].

(** ** [myconfig_dump_to_file] *)

(** The name and value printed for an entry: the pointer behind the section is
    computed without a look at the key, whose memory the value follows; what
    lies behind the value has never been written. *)
Definition dump_entry (text : bytes) (e : myconfig) : option bytes :=
  p ← (if streq text (str "nopre") then Some (key e)
       else if bool_decide (length (key e) + length (val e) + 1 < length text)%nat then None
       else Some (until0 (drop (length text) (key e ++ 0 :: val e ++ [0]))));
  Some (9 :: p ++ str " = " ++ val e ++ [10]).

Fixpoint dump_members (m : gmap Z myconfig) (text : bytes) (l : list Z) : option bytes :=
  match l with
  | [] => Some []
  | a :: l' => e ← m !! a; line ← dump_entry text e; out ← dump_members m text l'; Some (line ++ out)
  end.

Definition dump_rule : bytes := replicate 61 45 ++ [10].

Fixpoint dump_slots (m : gmap Z myconfig) (i : nat) (l : list prehash) : option bytes :=
  match l with
  | [] => Some []
  | p :: l' =>
      if used p =? 0 then Some []
      else
        let text := pre_text p in
        head ← (match i with
                | O => Some []
                | S _ => if bool_decide (text = []) || bool_decide (20 < length text)%nat then None
                         else Some (str "[ " ++ take (length text - 1) text ++ str " ]" ++ [10])
                end);
        body ← dump_members m text (members p);
        out ← dump_slots m (S i) l';
        Some (head ++ body ++ dump_rule ++ out)
  end.

(** The comment at the top. *)
Definition dump_comment : bytes :=
  10 :: [35; 35; 197; 228; 214; 195; 206; 196; 188; 254; 178; 187; 199; 248; 183; 214; 180; 243; 208; 161; 208; 180; 33]
  ++ [10; 10].

Definition myconfig_dump_to_file (st : state) : option bytes :=
  body ← dump_slots (entries st) 0 (prelist st);
  Some (dump_comment ++ body).

End Reader.

(** ** What the store is

    A store stands for the list of its pairs, the newest first.  [holds st as]:
    the addresses in the order of entry. *)

Definition bucket_of (m : gmap Z myconfig) (a : Z) : Z :=
  match m !! a with Some e => Z.land (hash e) 255 | None => -1 end.

Definition hashed (m : gmap Z myconfig) : Prop := forall a e, m !! a = Some e -> hash e = Misc.r5hash (key e).

Record holds (st : state) (addrs : list Z) : Prop := mk_holds {
  h_nodup : NoDup addrs;
  h_dom : forall a, a ∈ addrs <-> is_Some (entries st !! a);
  h_hash : hashed (entries st);
  h_chain : forall b, 0 <= b -> myhash st b = filter (fun a => bucket_of (entries st) a = b) addrs
}.

Definition pair_at (m : gmap Z myconfig) (a : Z) : option (bytes * bytes) :=
  e ← m !! a; Some (key e, val e).

Definition log (m : gmap Z myconfig) (addrs : list Z) : list (bytes * bytes) := omap (pair_at m) addrs.

Definition newest (k : bytes) (l : list (bytes * bytes)) : option bytes :=
  match find_first (fun kv => streq k (fst kv)) l with Some kv => Some (snd kv) | None => None end.

Definition bucket_key (k : bytes) : Z := Z.land (Misc.r5hash k) 255.

Lemma bucket_key_range k : 0 <= bucket_key k < 256.
Proof.
  unfold bucket_key. change 255 with (Z.ones 8). rewrite Z.land_ones by lia. apply Z.mod_pos_bound. lia.
Qed.

Definition has_key (m : gmap Z myconfig) (k : bytes) (a : Z) : bool :=
  match m !! a with Some e => streq k (key e) | None => false end.

(** The test of the getters comes down to the comparison of keys, and only an
    entry of the right chain can pass it. *)
Lemma entry_test m a e k : hashed m -> m !! a = Some e ->
  (Misc.r5hash k =? hash e) && streq k (key e) = has_key m k a /\
  (has_key m k a = true -> bucket_of m a = bucket_key k).
Proof.
  intros Hh Ha. unfold has_key, bucket_of. rewrite Ha, (Hh a e Ha). split.
  - destruct (streq k (key e)) eqn:Ek; [|by rewrite andb_false_r]. apply streq_true in Ek as ->. by rewrite Z.eqb_refl.
  - intros Ek. apply streq_true in Ek as ->. done.
Qed.

(** The search in a chain finds what a search over all entries finds. *)
Lemma find_in_filter m k addrs :
  hashed m -> (forall a, a ∈ addrs -> is_Some (m !! a)) ->
  find_in m (Misc.r5hash k) k (filter (fun a => bucket_of m a = bucket_key k) addrs) =
  Some (a ← find_first (has_key m k) addrs; e ← m !! a; Some (a, e)).
Proof.
  intros Hh. induction addrs as [|a l IH]; intros Hd; [done|].
  destruct (Hd a ltac:(by left)) as [e Ha]. destruct (entry_test m a e k Hh Ha) as [Et Eb].
  cbn [find_first]. rewrite filter_cons. case_decide as Hb.
  - cbn [find_in]. rewrite Ha. cbn [mbind option_bind]. rewrite Et.
    destruct (has_key m k a); [cbn [mbind option_bind]; by rewrite Ha|]. apply IH. intros x Hx. apply Hd. by right.
  - destruct (has_key m k a); [by rewrite Eb in Hb|]. apply IH. intros x Hx. apply Hd. by right.
Qed.

Lemma nth_in_filter m k addrs : forall i,
  hashed m -> (forall a, a ∈ addrs -> is_Some (m !! a)) ->
  nth_in m (Misc.r5hash k) k (filter (fun a => bucket_of m a = bucket_key k) addrs) i =
  nth_in m (Misc.r5hash k) k addrs i.
Proof.
  induction addrs as [|a l IH]; intros i Hh Hd; [done|].
  destruct (Hd a ltac:(by left)) as [e Ha]. destruct (entry_test m a e k Hh Ha) as [Et Eb].
  assert (Hl : forall x, x ∈ l -> is_Some (m !! x)) by (intros x Hx; apply Hd; by right).
  rewrite filter_cons. cbn [nth_in]. case_decide as Hb; cbn [nth_in]; rewrite ?Ha; cbn [mbind option_bind];
    rewrite Et; destruct (has_key m k a); rewrite ?IH by done; try done. by rewrite Eb in Hb.
Qed.

Lemma rev_reverse {A} (l : list A) : rev l = reverse l.
Proof. apply rev_alt. Qed.

(** The values of a key in the order in which they were entered. *)
Definition values (k : bytes) (l : list (bytes * bytes)) : list bytes :=
  rev (snd <$> filter (fun kv => fst kv = k) l).

Lemma nth_in_values m k addrs : forall i, 0 <= i ->
  hashed m -> (forall a, a ∈ addrs -> is_Some (m !! a)) ->
  nth_in m (Misc.r5hash k) k addrs i = Some ((snd <$> filter (fun kv => fst kv = k) (log m addrs)) !! Z.to_nat i).
Proof.
  induction addrs as [|a l IH]; intros i Hi Hh Hd; [done|].
  destruct (Hd a ltac:(by left)) as [e Ha]. destruct (entry_test m a e k Hh Ha) as [Et _].
  assert (Hl : forall x, x ∈ l -> is_Some (m !! x)) by (intros x Hx; apply Hd; by right).
  cbn [nth_in]. rewrite Ha. cbn [mbind option_bind]. rewrite Et. unfold log. cbn [omap list_omap].
  unfold pair_at at 1. rewrite Ha. cbn [mbind option_bind]. rewrite filter_cons. unfold has_key. rewrite Ha. simpl fst.
  destruct (streq k (key e)) eqn:Ek.
  - apply streq_true in Ek as <-. rewrite decide_True by done. rewrite fmap_cons.
    destruct (i =? 0) eqn:E0; b2p; [by subst|]. rewrite IH by (done || lia).
    replace (Z.to_nat i) with (S (Z.to_nat (i - 1))) by lia. done.
  - rewrite decide_False; [by apply IH|]. intros <-. by rewrite streq_refl in Ek.
Qed.

Lemma find_first_log m k addrs :
  (forall a, a ∈ addrs -> is_Some (m !! a)) ->
  match (a ← find_first (has_key m k) addrs; e ← m !! a; Some (a, e)) with Some (_, e) => Some (val e) | None => None end =
  newest k (log m addrs).
Proof.
  induction addrs as [|a l IH]; intros Hd; [done|]. destruct (Hd a ltac:(by left)) as [e Ha].
  unfold newest, log. cbn [find_first omap list_omap]. unfold has_key at 1, pair_at at 1. rewrite Ha.
  cbn [mbind option_bind find_first fst]. destruct (streq k (key e)); [cbn [mbind option_bind]; by rewrite Ha|].
  apply IH. intros x Hx. apply Hd. by right.
Qed.

Lemma log_reverse m addrs : log m (rev addrs) = rev (log m addrs).
Proof.
  induction addrs as [|a l IH]; [done|]. cbn [rev]. unfold log in *. rewrite omap_app, IH. simpl.
  destruct (pair_at m a); simpl; [done|by rewrite app_nil_r].
Qed.

Section Facts.
Context `{K : Surroundings}.

(** The getters see the list of pairs. *)
Lemma get_value_spec st addrs k : holds st addrs ->
  myconfig_get_value st k = Some (newest k (log (entries st) addrs)).
Proof.
  intros H. unfold myconfig_get_value, find_key, chain. fold (bucket_key k).
  assert (Hd : forall a, a ∈ addrs -> is_Some (entries st !! a)) by (intros a; apply (h_dom _ _ H)).
  rewrite (h_chain _ _ H) by apply bucket_key_range.
  rewrite find_in_filter by (done || apply (h_hash _ _ H)). cbn [mbind option_bind]. by rewrite find_first_log.
Qed.

Lemma get_multivalue_spec st addrs k i : holds st addrs -> 0 <= i ->
  myconfig_get_multivalue st k i = Some (values k (log (entries st) addrs) !! Z.to_nat i).
Proof.
  intros H Hi. unfold myconfig_get_multivalue, chain. fold (bucket_key k). cbv zeta.
  assert (Hd : forall a, a ∈ rev addrs -> is_Some (entries st !! a))
    by (intros a; rewrite rev_reverse, elem_of_reverse; apply (h_dom _ _ H)).
  rewrite (h_chain _ _ H) by apply bucket_key_range. rewrite !rev_reverse, <- filter_reverse, <- rev_reverse.
  rewrite nth_in_filter, nth_in_values by (done || apply (h_hash _ _ H)). f_equal. rewrite log_reverse.
  unfold values. by rewrite !rev_reverse, filter_reverse, fmap_reverse.
Qed.

Definition arrays (st : state) : Prop := Forall (fun p => length (pre p) = 20%nat) (prelist st).

(** The settings that [loadfile0] does not touch. *)
Definition same_rest (st st' : state) : Prop :=
  inited st' = inited st /\ reload_key st' = reload_key st /\ reload_cb_list st' = reload_cb_list st.

Lemma same_rest_trans st1 st2 st3 : same_rest st1 st2 -> same_rest st2 st3 -> same_rest st1 st3.
Proof. intros (? & ? & ?) (? & ? & ?). repeat split; congruence. Qed.

Lemma bucket_insert m a e (addrs : list Z) b : a ∉ addrs ->
  filter (fun x => bucket_of (<[a := e]> m) x = b) addrs = filter (fun x => bucket_of m x = b) addrs.
Proof.
  intros Ha. apply filter_ext_in. intros x Hx. unfold bucket_of. rewrite lookup_insert_ne; [done|]. by intros ->.
Qed.

Lemma log_insert m a e (addrs : list Z) : a ∉ addrs -> log (<[a := e]> m) addrs = log m addrs.
Proof.
  intros Ha. unfold log. induction addrs as [|x l IH]; [done|]. simpl.
  assert (Hx : pair_at (<[a := e]> m) x = pair_at m x) by (unfold pair_at; by rewrite lookup_insert_ne by set_solver).
  rewrite Hx. destruct (pair_at m x); [f_equal|]; apply IH; set_solver.
Qed.

Lemma log_cons m x l :
  log m (x :: l) = match m !! x with Some e => (key e, val e) :: log m l | None => log m l end.
Proof. unfold log. simpl. unfold pair_at at 1. by destruct (m !! x). Qed.

Lemma holds_insert st addrs a e hs ps :
  holds st addrs -> entries st !! a = None -> hash e = Misc.r5hash (key e) ->
  (forall b, hs b = if b =? bucket_key (key e) then a :: myhash st b else myhash st b) ->
  holds (with_store st (<[a := e]> (entries st)) hs ps) (a :: addrs).
Proof.
  intros H Ha He Hs.
  assert (Hn : a ∉ addrs) by (rewrite (h_dom _ _ H), Ha; by intros [? ?]).
  split; simpl.
  - constructor; [done|apply (h_nodup _ _ H)].
  - intros x. rewrite elem_of_cons, (h_dom _ _ H). destruct (decide (x = a)) as [->|Hx].
    + rewrite lookup_insert_eq. split; [eauto|by left].
    + rewrite lookup_insert_ne by done. tauto.
  - intros x y Hy. destruct (decide (x = a)) as [->|Hx].
    + rewrite lookup_insert_eq in Hy. by injection Hy as <-.
    + rewrite lookup_insert_ne in Hy by done. by apply (h_hash _ _ H x).
  - intros b Hb. rewrite Hs, filter_cons, bucket_insert, <- (h_chain _ _ H) by done.
    assert (Hk : bucket_of (<[a := e]> (entries st)) a = bucket_key (key e))
      by (unfold bucket_of; by rewrite lookup_insert_eq, He).
    case_decide as Hd; rewrite Hk in Hd; destruct (b =? bucket_key (key e)) eqn:Eb; b2p; congruence.
Qed.

(** Entering a pair puts it in front. *)
Lemma put_value_spec st addrs pr k0 v a :
  holds st addrs -> arrays st -> k_malloc st = Some a -> entries st !! a = None ->
  (length v < VAL_MAX_LEN)%nat -> (length pr <= 20)%nat ->
  let k := map key_char (pr ++ k0) in
  exists rc st' lk ps, myconfig_put_value st pr k0 v = Some (rc, st') /\
    st' = with_store st (<[a := mk_myconfig (Misc.r5hash k) k v (-1) lk]> (entries st))
            (fun b => if b =? bucket_key k then a :: myhash st b else myhash st b) ps /\
    ps = match find_slot pr (prelist st) with
         | Some i => alter (fun p => mk_prehash (a :: members p) (memcpy (pre p) 0 pr) 1) i (prelist st)
         | None => prelist st
         end /\
    holds st' (a :: addrs) /\ arrays st' /\ log (entries st') (a :: addrs) = (k, v) :: log (entries st) addrs.
Proof.
  intros H HA Hm Ha Hv Hp k.
  assert (Hn : a ∉ addrs) by (rewrite (h_dom _ _ H), Ha; by intros [? ?]).
  assert (Hrest : forall lk ps, Forall (fun p => length (pre p) = 20%nat) ps ->
    let st' := with_store st (<[a := mk_myconfig (Misc.r5hash k) k v (-1) lk]> (entries st))
            (fun b => if b =? bucket_key k then a :: myhash st b else myhash st b) ps in
    holds st' (a :: addrs) /\ arrays st' /\ log (entries st') (a :: addrs) = (k, v) :: log (entries st) addrs).
  { intros lk ps HP st'. split; [by apply holds_insert|]. split; [done|]. unfold log, st'. cbn [entries with_store omap list_omap].
    unfold pair_at at 1. rewrite lookup_insert_eq. cbn [mbind option_bind]. f_equal. by apply log_insert. }
  unfold myconfig_put_value. rewrite Hm. cbv zeta. fold k. rewrite bool_decide_false by lia.
  destruct (find_slot pr (prelist st)) as [i|] eqn:Ei.
  - assert (Hi : is_Some (prelist st !! i)).
    { clear - Ei. revert i Ei. induction (prelist st) as [|p l IH]; intros i; simpl; [done|].
      case_match; [intros [= <-]; eauto|]. destruct (find_slot pr l) as [j|]; [|done]. intros [= <-]. by apply IH. }
    destruct Hi as [p Hi]. rewrite Hi. cbn [mbind option_bind].
    pose proof (Forall_lookup_1 _ _ _ _ HA Hi) as Hl. simpl in Hl. rewrite bool_decide_false by lia.
    eexists _, _, _, _. split; [done|]. split; [done|]. split.
    + apply list_eq. intros j. destruct (decide (j = i)) as [->|Hj].
      * rewrite list_lookup_alter_eq, list_lookup_insert_eq, Hi by (by eapply lookup_lt_Some). done.
      * by rewrite list_lookup_alter_ne, list_lookup_insert_ne.
    + apply Hrest. apply Forall_insert; [done|]. simpl. rewrite length_memcpy; lia.
  - eexists _, _, _, _. split; [done|]. split; [done|]. split; [done|]. by apply Hrest.
Qed.

(** ** Lines *)

(** What a line says, apart from the store it is read into. *)
Inductive item :=
| Nothing
| Opens (section : bytes)
| Assigns (k v : bytes).

Definition line_item (line : bytes) : item :=
  match drop_while blank line with
  | [] => Nothing
  | c :: p =>
      if c =? 91 then match strchr p 93 with Some i => Opens (section_name (take i p)) | None => Nothing end
      else if (c =? 35) || (c =? 59) then Nothing
      else let '(k, v) := assignment (c :: p) in Assigns k v
  end.

Definition run_item (st : state) (section : bytes) (it : item) : option (bytes * state) :=
  match it with
  | Nothing => Some (section, st)
  | Opens s => Some (s, st)
  | Assigns k v => st ← assign st section k v; Some (section, st)
  end.

Lemma load_line_item st section line : load_line st section line = run_item st section (line_item line).
Proof.
  unfold load_line, line_item. destruct (drop_while blank line) as [|c p]; [done|].
  destruct (c =? 91); [by destruct (strchr p 93)|]. by destruct ((c =? 35) || (c =? 59)).
Qed.

Fixpoint run_lines (st : state) (section : bytes) (ls : list bytes) : option (bytes * state) :=
  match ls with
  | [] => Some (section, st)
  | l :: ls' => '(section, st) ← run_item st section (line_item l); run_lines st section ls'
  end.

Lemma run_lines_app ls1 ls2 : forall st section,
  run_lines st section (ls1 ++ ls2) = '(section, st) ← run_lines st section ls1; run_lines st section ls2.
Proof.
  induction ls1 as [|l ls1 IH]; intros st section; [done|]. simpl.
  destruct (run_item st section (line_item l)) as [[s st']|]; [|done]. simpl. apply IH.
Qed.

(** A text in lines, each with its end. *)
Definition unlines (ls : list bytes) : bytes := concat (map (fun l => l ++ [10]) ls).
Definition line_ok (l : bytes) : Prop := 10 ∉ l /\ 0 ∉ l.

Lemma until0_line l rest : 0 ∉ l -> until0 (l ++ 10 :: rest) = l ++ 10 :: until0 rest.
Proof.
  induction l as [|c l IH]; intros Hl; [done|]. cbn [app until0].
  destruct (c =? 0) eqn:Ec; b2p; [set_solver|]. by rewrite IH by set_solver.
Qed.

Lemma load_lines_lines ls : forall fuel st section,
  Forall line_ok ls -> (length (unlines ls) < fuel)%nat ->
  load_lines fuel st section (unlines ls) = r ← run_lines st section ls; Some (snd r).
Proof.
  induction ls as [|l ls IH]; intros fuel st section HF Hf; (destruct fuel as [|fuel]; [lia|]); [done|].
  apply Forall_cons in HF as [[H10 H0] HF].
  change (unlines (l :: ls)) with ((l ++ [10]) ++ unlines ls) in *. rewrite <- app_assoc in *. cbn [app] in *.
  assert (Hne : exists c t, l ++ 10 :: unlines ls = c :: t) by (destruct l; eexists _, _; done).
  cbn [load_lines]. destruct Hne as (c & t & Ht). rewrite Ht. cbv iota. rewrite <- Ht.
  rewrite until0_line, strchr_app_r by done. cbn [mbind option_bind].
  rewrite take_app_length, load_line_item. cbn [run_lines].
  destruct (run_item st section (line_item l)) as [[s st']|]; [|done]. cbn [mbind option_bind].
  replace (drop (S (length l)) (l ++ 10 :: unlines ls)) with (unlines ls).
  { apply IH; [done|]. rewrite length_app in Hf. simpl in Hf. lia. }
  rewrite drop_app_ge by lia. by replace (S (length l) - length l)%nat with 1%nat by lia.
Qed.

(** ** The characters of a line *)

Lemma drop_while_stop p l : (forall c t, l = c :: t -> p c = false) -> drop_while p l = l.
Proof. destruct l as [|c t]; intros H; [done|]. simpl. by rewrite (H c t). Qed.

Lemma drop_while_run p s l : Forall (fun c => p c = true) s -> drop_while p (s ++ l) = drop_while p l.
Proof. induction 1 as [|c s Hc _ IH]; [done|]. simpl. by rewrite Hc. Qed.

Lemma take_while_run p s c t : Forall (fun c => p c = true) s -> p c = false -> take_while p (s ++ c :: t) = s.
Proof. intros Hs Hc. induction Hs as [|x s Hx _ IH]; simpl; [by rewrite Hc|by rewrite Hx, IH]. Qed.

Lemma strip_end_stop p l c : p c = false -> strip_end p (l ++ [c]) = l ++ [c].
Proof. intros Hc. unfold strip_end. rewrite rev_app_distr. simpl. rewrite Hc. simpl. by rewrite rev_involutive. Qed.

Lemma strip_end_run p s l : Forall (fun c => p c = true) s -> strip_end p (l ++ s) = strip_end p l.
Proof.
  intros Hs. unfold strip_end. rewrite rev_app_distr, drop_while_run; [done|]. by apply Forall_rev.
Qed.

(** A text that neither begins nor ends with a character of the class. *)
Definition trimmed (p : Z -> bool) (l : bytes) : Prop :=
  (exists c t, l = c :: t /\ p c = false) /\ (exists t c, l = t ++ [c] /\ p c = false).

Lemma trimmed_drop p l t : trimmed p l -> drop_while p (l ++ t) = l ++ t.
Proof. intros [(c & u & -> & Hc) _]. simpl. by rewrite Hc. Qed.

Lemma trimmed_strip p l : trimmed p l -> strip_end p l = l.
Proof. intros [_ (t & c & -> & Hc)]. by apply strip_end_stop. Qed.

(** Keys, values and section names a file can carry. *)
Record word_ok (k : bytes) : Prop := mk_word_ok {
  w_head : isalnum (at_ k 0) = true;
  w_text : Forall (fun c => negb (blank c || (c =? 61)) = true) k;
  w_line : line_ok k
}.

Record value_ok (v : bytes) : Prop := mk_value_ok {
  v_trim : trimmed blank v;
  v_len : (length v < VAL_MAX_LEN)%nat;
  v_line : line_ok v
}.

Record name_ok (n : bytes) : Prop := mk_name_ok {
  n_trim : trimmed sep n;
  n_text : 93 ∉ n;
  n_len : (length n < 20)%nat;
  n_line : line_ok n
}.

Lemma word_first k : word_ok k -> exists c t, k = c :: t /\ blank c = false /\ c <> 91 /\ (c =? 35) || (c =? 59) = false.
Proof.
  intros [Hh Ht _]. destruct k as [|c t]; [done|]. exists c, t. apply Forall_cons in Ht as [Hc _].
  apply negb_true_iff, orb_false_iff in Hc as [Hb _]. split; [done|]. split; [done|]. unfold at_ in Hh. simpl in Hh.
  unfold isalnum, isdigit, isupper, islower in Hh. rewrite orb_false_iff. split; [intros ->; done|].
  split; apply Z.eqb_neq; intros ->; done.
Qed.

Lemma item_assigns ind k v :
  Forall (fun c => blank c = true) ind -> word_ok k -> value_ok v ->
  line_item (ind ++ k ++ str " = " ++ v) = Assigns k v.
Proof.
  intros Hi Hk Hv. destruct (word_first k Hk) as (c & t & -> & Hb & H91 & Hc).
  unfold line_item. rewrite drop_while_run by done. cbn [app drop_while]. rewrite Hb.
  apply Z.eqb_neq in H91. rewrite H91, Hc. cbv iota. unfold assignment. cbv zeta.
  change (c :: t ++ str " = " ++ v) with ((c :: t) ++ 32 :: 61 :: 32 :: v).
  rewrite take_while_run by (apply (w_text _ Hk) || done). rewrite drop_app_length.
  change (drop_while blank (32 :: 61 :: 32 :: v)) with (61 :: 32 :: v). cbv iota. change (61 =? 61) with true. cbv iota.
  change (drop_while (fun c => c =? 61) (32 :: v)) with (32 :: v).
  change (drop_while blank (32 :: v)) with (drop_while blank v).
  assert (Hd : drop_while blank v = v) by (rewrite <- (app_nil_r v); apply trimmed_drop, (v_trim _ Hv)).
  by rewrite Hd, trimmed_strip by apply (v_trim _ Hv).
Qed.

Lemma item_opens s1 n s2 :
  Forall (fun c => sep c = true) s1 -> Forall (fun c => sep c = true) s2 -> name_ok n ->
  line_item (91 :: s1 ++ n ++ s2 ++ [93]) = Opens (n ++ [45]).
Proof.
  intros H1 H2 [Hn H93 _ _]. unfold line_item. cbn [drop_while]. change (blank 91) with false. cbv iota.
  change (91 =? 91) with true. cbv iota. rewrite !app_assoc.
  assert (Hs : forall s, Forall (fun c => sep c = true) s -> 93 ∉ s).
  { intros s Hs Hin. rewrite Forall_forall in Hs. apply Hs in Hin. done. }
  rewrite strchr_app_r by (rewrite !not_elem_of_app; auto). rewrite take_app_length. f_equal. unfold section_name.
  rewrite strip_end_run by done. destruct Hn as [Hh (t & c & -> & Hc)].
  rewrite app_assoc, strip_end_stop, <- !app_assoc, drop_while_run, app_assoc by done.
  destruct Hh as (c' & t' & -> & Hc'). simpl. by rewrite Hc'.
Qed.

Lemma item_nothing l : (exists t, l = 35 :: t) \/ l = [] -> line_item l = Nothing.
Proof. by intros [[t ->] | ->]. Qed.

(** ** Slots

    The name an assignment of a section is stored under. *)
Definition full (section : bytes) (kv : bytes * bytes) : bytes * bytes := (map key_char (section ++ fst kv), snd kv).

(** The slots of [prelist] while a file is read: the sections met so far, each
    with the words and values of its entries, the newest first. *)
Definition slot_of (s : bytes) (ms : list Z) : prehash := mk_prehash ms (memcpy (replicate 20 0) 0 s) 1.

Definition group := (bytes * list (bytes * bytes))%type.

Definition slot_holds (m : gmap Z myconfig) (x : bytes * list Z) (g : group) : Prop :=
  fst x = fst g /\ Forall (fun a => is_Some (m !! a)) (snd x) /\ log m (snd x) = map (full (fst g)) (snd g).

Definition slotted (st : state) (gs : list group) : Prop :=
  exists sl n, prelist st = map (fun x => slot_of (fst x) (snd x)) sl ++ replicate n empty_slot /\
    (length gs + n = 256)%nat /\ Forall2 (slot_holds (entries st)) sl gs.

Lemma until0_cut s t : 0 ∉ s -> until0 (s ++ 0 :: t) = s.
Proof.
  induction s as [|c s IH]; intros Hs; [done|]. cbn [app until0]. destruct (c =? 0) eqn:Ec; b2p; [set_solver|].
  by rewrite IH by set_solver.
Qed.

Lemma slot_text s ms : (length s < 20)%nat -> 0 ∉ s -> pre_text (slot_of s ms) = s.
Proof.
  intros Hl H0. unfold pre_text, slot_of, memcpy. cbn [pre used take]. rewrite app_nil_l, drop_replicate, <- app_assoc.
  replace (20 - (0 + length s))%nat with (S (19 - length s)) by lia. cbn [replicate app].
  by apply until0_cut.
Qed.

Lemma find_slot_at pr l1 p l2 :
  Forall (fun p => (used p =? 0) || strncmp0 (pre_text p) pr (length pr) = false) l1 ->
  (used p =? 0) || strncmp0 (pre_text p) pr (length pr) = true ->
  find_slot pr (l1 ++ p :: l2) = Some (length l1).
Proof.
  intros HF Hp. induction HF as [|q l1 Hq HF IH]; cbn [app find_slot]; [by rewrite Hp|]. by rewrite Hq, IH.
Qed.

Definition section_fits (s : bytes) : Prop := (length s < 20)%nat /\ 0 ∉ s.
Definition unlike (pr : bytes) (g : group) : Prop := section_fits (fst g) /\ strncmp0 (fst g) pr (length pr) = false.

Definition with_slot (gs : list group) (pr : bytes) (kvs : list (bytes * bytes)) : list group :=
  match kvs with [] => gs | _ :: _ => gs ++ [(pr, kvs)] end.

Lemma slot_holds_insert m a e x g : m !! a = None -> slot_holds m x g -> slot_holds (<[a := e]> m) x g.
Proof.
  intros Ha (H1 & H2 & H3). assert (Hn : a ∉ snd x).
  { intros Hin. rewrite Forall_forall in H2. apply H2 in Hin as [y Hy]. congruence. }
  split; [done|]. split; [|by rewrite log_insert]. eapply Forall_impl; [exact H2|]. intros y [z Hy].
  rewrite lookup_insert_ne; [eauto|]. intros ->. congruence.
Qed.

Lemma slots_unlike m pr sl gs :
  Forall2 (slot_holds m) sl gs -> Forall (unlike pr) gs ->
  Forall (fun p => (used p =? 0) || strncmp0 (pre_text p) pr (length pr) = false) (map (fun x => slot_of (fst x) (snd x)) sl).
Proof.
  induction 1 as [|x g sl gs (H1 & _ & _) H IH]; intros HF; [constructor|]. apply Forall_cons in HF as [[[Hl H0] Hu] HF].
  constructor; [|by apply IH]. rewrite slot_text, H1 by (by rewrite H1). done.
Qed.

Lemma memcpy_again (z s : bytes) : (length s <= length z)%nat -> memcpy (memcpy z 0 s) 0 s = memcpy z 0 s.
Proof.
  intros Hl. unfold memcpy. cbn [take]. rewrite !app_nil_l, Nat.add_0_l. by rewrite drop_app_length.
Qed.

Lemma alter_at {A} (f : A -> A) l1 p l2 : alter f (length l1) (l1 ++ p :: l2) = l1 ++ f p :: l2.
Proof. induction l1 as [|x l1 IH]; [done|]. simpl. f_equal. apply IH. Qed.

Lemma put_slotted st gs pr kvs k0 v a e hs :
  slotted st (with_slot gs pr kvs) -> Forall (unlike pr) gs -> section_fits pr -> (length gs < 256)%nat ->
  entries st !! a = None -> (key e, val e) = full pr (k0, v) ->
  slotted (with_store st (<[a := e]> (entries st)) hs
             (match find_slot pr (prelist st) with
              | Some i => alter (fun p => mk_prehash (a :: members p) (memcpy (pre p) 0 pr) 1) i (prelist st)
              | None => prelist st
              end)) (with_slot gs pr ((k0, v) :: kvs)).
Proof.
  intros (sl & n & Hp & Hn & H2) HU [Hl H0] Hg Ha He.
  assert (Hlog : forall ms, Forall (fun x => is_Some (entries st !! x)) ms ->
    log (<[a := e]> (entries st)) (a :: ms) = full pr (k0, v) :: log (entries st) ms).
  { intros ms Hms. rewrite log_cons, lookup_insert_eq, He. f_equal. apply log_insert. intros Hin.
    rewrite Forall_forall in Hms. apply Hms in Hin as [y Hy]. congruence. }
  assert (Hins : forall sl gs, Forall2 (slot_holds (entries st)) sl gs -> Forall2 (slot_holds (<[a := e]> (entries st))) sl gs).
  { intros sl' gs' HF. eapply Forall2_impl; [exact HF|]. intros x g. by apply slot_holds_insert. }
  destruct kvs as [|kv kvs]; cbn [with_slot] in *.
  - destruct n as [|n]; [lia|]. rewrite Hp. cbn [replicate]. rewrite find_slot_at, alter_at by (done || by eapply slots_unlike).
    exists (sl ++ [(pr, [a])]), n. cbn [prelist with_store entries]. split.
    { rewrite map_app, <- app_assoc. done. }
    split; [rewrite length_app; simpl; lia|]. apply Forall2_app; [by apply Hins|]. constructor; [|constructor].
    split; [done|]. cbn [fst snd]. split; [|by rewrite (Hlog [])]. repeat constructor. by rewrite lookup_insert_eq.
  - apply Forall2_app_inv_r in H2 as (sl1 & sl2 & H1 & H2 & ->). apply Forall2_cons_inv_r in H2 as (x & sl3 & Hx & H3 & ->).
    apply Forall2_nil_inv_r in H3 as ->. destruct x as [s ms]. destruct Hx as (Hs & Hms & Hkv). cbn [fst snd] in *. subst s.
    rewrite Hp, map_app, <- app_assoc. cbn [map app fst snd].
    rewrite find_slot_at, alter_at.
    2: by eapply slots_unlike.
    2: { rewrite slot_text by done. apply orb_true_iff. right. apply strncmp0_prefix. done. }
    exists (sl1 ++ [(pr, a :: ms)]), n. cbn [prelist with_store entries]. split.
    { rewrite map_app, <- app_assoc. cbn [map app fst snd]. unfold slot_of. cbn [members pre].
      by rewrite memcpy_again by (rewrite length_replicate; lia). }
    split; [rewrite length_app in *; done|]. apply Forall2_app; [by apply Hins|]. constructor; [|constructor].
    split; [done|]. cbn [fst snd]. split; [|by rewrite Hlog, Hkv]. constructor; [by rewrite lookup_insert_eq|].
    eapply Forall_impl; [exact Hms|]. intros y Hy. apply lookup_insert_is_Some'. by right.
Qed.

(** ** Loading *)

Section Loading.
Hypothesis malloc_sound : forall st, exists a, k_malloc st = Some a /\ entries st !! a = None.

(** A store that has been read from files only: its pairs, and the numbers kept
    in the entries are right. *)
Record loaded (st : state) (l : list (bytes * bytes)) : Prop := mk_loaded {
  l_addrs : exists addrs, holds st addrs /\ log (entries st) addrs = l;
  l_arrays : arrays st;
  l_ints : forall a e, entries st !! a = Some e -> intval e = -1 \/ word_val (val e) = Some (intval e)
}.

Definition section_ok (s : bytes) : Prop := (length s <= 20)%nat.

(** The slot of the section gets the pairs [kvs], given in the order in which
    they are entered. *)
Definition grows (section : bytes) (st st' : state) (kvs : list (bytes * bytes)) : Prop :=
  forall gs ps, slotted st (with_slot gs section ps) -> Forall (unlike section) gs -> section_fits section ->
    (length gs < 256)%nat -> slotted st' (with_slot gs section (rev kvs ++ ps)).

Lemma grows_trans section st1 st2 st3 l1 l2 :
  grows section st1 st2 l1 -> grows section st2 st3 l2 -> grows section st1 st3 (l1 ++ l2).
Proof.
  intros G1 G2 gs ps Hs Hu Hf Hl. rewrite rev_app_distr, <- app_assoc. apply G2; [|done..]. by apply G1.
Qed.

Lemma assign_loaded st section k v l :
  loaded st l -> inited st = false -> section_ok section -> isalnum (at_ k 0) = true -> value_ok v ->
  exists st', assign st section k v = Some st' /\ loaded st' (full section (k, v) :: l) /\ same_rest st st' /\
    grows section st st' [(k, v)].
Proof.
  intros [(addrs & H & Hl) HA HI] Hin Hs Hk [(_ & (t & c & -> & _)) Hv _].
  destruct (malloc_sound st) as (a & Hm & Ha).
  destruct (put_value_spec st addrs section k (t ++ [c]) a H HA Hm Ha Hv Hs) as (rc & st' & lk & ps & E & -> & -> & H' & A' & L').
  unfold assign. rewrite Hk, bool_decide_false by (by destruct t). simpl (negb _ && _). rewrite Hin. cbv iota. simpl (negb false). cbv iota.
  rewrite E. cbn [mbind option_bind]. eexists. split; [done|]. split; [|split; [done|intros gs ps ????; by apply put_slotted]]. split.
  - exists (a :: addrs). by rewrite L', Hl.
  - done.
  - intros x e. simpl. destruct (decide (x = a)) as [->|Hx].
    + rewrite lookup_insert_eq. intros [= <-]. by left.
    + rewrite lookup_insert_ne by done. apply HI.
Qed.

Lemma run_assigns ind kvs : forall st section l,
  Forall (fun c => blank c = true) ind ->
  loaded st l -> inited st = false -> section_ok section ->
  Forall (fun kv => word_ok (fst kv) /\ value_ok (snd kv)) kvs ->
  exists st', run_lines st section (map (fun kv => ind ++ fst kv ++ str " = " ++ snd kv) kvs) = Some (section, st') /\
    loaded st' (rev (map (full section) kvs) ++ l) /\ same_rest st st' /\ grows section st st' kvs.
Proof.
  induction kvs as [|[k v] kvs IH]; intros st section l Hind HL Hin Hs HF.
  { exists st. split; [done|]. split; [done|]. split; [done|]. by intros gs ps. }
  apply Forall_cons in HF as [[Hk Hv] HF]. cbn [map run_lines fst snd]. rewrite item_assigns by done. cbn [run_item].
  destruct (assign_loaded st section k v l HL Hin Hs (w_head _ Hk) Hv) as (st1 & -> & L1 & R1 & G1). cbn [mbind option_bind].
  destruct (IH st1 section _ Hind L1) as (st2 & -> & L2 & R2 & G2); [destruct R1; congruence|done|done|].
  exists st2. split; [done|]. split; [cbn [rev]; by rewrite <- app_assoc|].
  split; [by apply (same_rest_trans _ st1)|]. by apply (grows_trans _ _ st1 _ [(k, v)]).
Qed.

(** A block of a file: a section, its assignments and lines that say nothing. *)
Definition quiet (l : bytes) : Prop := forall st section, run_item st section (line_item l) = Some (section, st).

Definition block (ind s : bytes) (quiets : list bytes) (sec : bytes * list (bytes * bytes)) : list bytes :=
  (91 :: s ++ fst sec ++ s ++ [93]) :: map (fun kv => ind ++ fst kv ++ str " = " ++ snd kv) (snd sec) ++ quiets.

Definition sec_pairs (sec : bytes * list (bytes * bytes)) : list (bytes * bytes) := map (full (fst sec ++ [45])) (snd sec).

Definition pairs_ok (kvs : list (bytes * bytes)) : Prop := Forall (fun kv => word_ok (fst kv) /\ value_ok (snd kv)) kvs.

Lemma run_quiets ls : forall st section, Forall quiet ls -> run_lines st section ls = Some (section, st).
Proof.
  induction ls as [|l ls IH]; intros st section HF; [done|]. apply Forall_cons in HF as [Hl HF].
  cbn [run_lines]. rewrite Hl. cbn [mbind option_bind]. by apply IH.
Qed.

(** Every section has entries and no section's name begins with the name of a
    later one; there are slots for all. *)
Definition sec_group (sec : bytes * list (bytes * bytes)) : group := (fst sec ++ [45], rev (snd sec)).

Fixpoint sections_apart (gs : list group) (secs : list (bytes * list (bytes * bytes))) : Prop :=
  match secs with
  | [] => True
  | sec :: secs' =>
      snd sec <> [] /\ (length (fst sec) < 19)%nat /\ (length gs < 256)%nat /\
      Forall (fun g => strncmp0 (fst g) (fst sec ++ [45]) (length (fst sec ++ [45])) = false) gs /\
      sections_apart (gs ++ [sec_group sec]) secs'
  end.

Lemma run_blocks ind s quiets secs : forall st section l,
  Forall (fun c => blank c = true) ind -> Forall (fun c => sep c = true) s -> Forall quiet quiets ->
  loaded st l -> inited st = false ->
  Forall (fun sec => name_ok (fst sec) /\ pairs_ok (snd sec)) secs ->
  exists section' st', run_lines st section (concat (map (block ind s quiets) secs)) = Some (section', st') /\
    loaded st' (rev (concat (map sec_pairs secs)) ++ l) /\ same_rest st st' /\
    (forall gs, slotted st gs -> Forall (fun g => section_fits (fst g)) gs -> sections_apart gs secs ->
       slotted st' (gs ++ map sec_group secs)).
Proof.
  induction secs as [|[n kvs] secs IH]; intros st section l Hind Hs Hq HL Hin HF.
  { exists section, st. split; [done|]. split; [done|]. split; [done|]. intros gs. by rewrite app_nil_r. }
  apply Forall_cons in HF as [[Hn Hkv] HF]. cbn [map concat]. rewrite run_lines_app. unfold block at 2. cbn [fst snd] in *.
  cbn [run_lines]. rewrite item_opens by done. cbn [run_item mbind option_bind]. rewrite run_lines_app.
  destruct (run_assigns ind kvs st (n ++ [45]) l Hind HL Hin) as (st1 & -> & L1 & R1 & G1); [|done|].
  { unfold section_ok. rewrite length_app. pose proof (n_len _ Hn). simpl. lia. }
  cbn [mbind option_bind]. rewrite run_quiets by done. cbn [mbind option_bind].
  destruct (IH st1 (n ++ [45]) _ Hind Hs Hq L1) as (s2 & st2 & -> & L2 & R2 & G2); [destruct R1; congruence|done|].
  exists s2, st2. split; [done|]. split; [|split; [by apply (same_rest_trans _ st1)|]].
  - change (sec_pairs (n, kvs)) with (map (full (n ++ [45])) kvs). rewrite rev_app_distr, <- app_assoc. done.
  - intros gs Hg Hf (Hne & Hlen & Hgs & Hu & Ha). cbn [fst snd] in *.
    assert (Hfit : section_fits (n ++ [45])).
    { split; [rewrite length_app; simpl; lia|]. rewrite not_elem_of_app. split; [apply (n_line _ Hn)|].
      by apply (bool_decide_unpack _). }
    assert (G : slotted st1 (gs ++ [sec_group (n, kvs)])).
    { specialize (G1 gs [] Hg). rewrite app_nil_r in G1.
      assert (Hw : with_slot gs (n ++ [45]) (rev kvs) = gs ++ [sec_group (n, kvs)]).
      { unfold sec_group. cbn [fst snd]. destruct (rev kvs) eqn:Er; [|done]. by rewrite <- (rev_involutive kvs), Er in Hne. }
      rewrite <- Hw. apply G1; [|done|done]. apply Forall_and. by split. }
    cbn [map]. rewrite cons_middle, app_assoc. apply G2; [done| |done]. apply Forall_app. split; [done|].
    constructor; [exact Hfit|constructor].
Qed.

(** What a search finds, in terms of the pairs. *)
Lemma find_key_spec st addrs k : holds st addrs ->
  exists r, find_key st k = Some r /\
    match r with
    | Some (a, e) => entries st !! a = Some e /\ newest k (log (entries st) addrs) = Some (val e)
    | None => newest k (log (entries st) addrs) = None
    end.
Proof.
  intros H. unfold find_key, chain. fold (bucket_key k).
  assert (Hd : forall a, a ∈ addrs -> is_Some (entries st !! a)) by (intros a; apply (h_dom _ _ H)).
  rewrite (h_chain _ _ H) by apply bucket_key_range.
  rewrite find_in_filter by (done || apply (h_hash _ _ H)). eexists. split; [done|].
  rewrite <- find_first_log by done. destruct (find_first _ addrs) as [a|]; [|done]. cbn [mbind option_bind].
  by destruct (entries st !! a) as [e|] eqn:Ea.
Qed.

(** An entry that keeps its key keeps its place. *)
Lemma holds_update st addrs a e e' :
  holds st addrs -> entries st !! a = Some e -> hash e' = hash e -> key e' = key e -> holds (set_entry st a e') addrs.
Proof.
  intros H Ha Hh Hk. split; simpl.
  - apply (h_nodup _ _ H).
  - intros x. rewrite (h_dom _ _ H). destruct (decide (x = a)) as [->|Hx];
      [rewrite lookup_insert_eq, Ha; split; eauto|by rewrite lookup_insert_ne].
  - intros x y. destruct (decide (x = a)) as [->|Hx].
    + rewrite lookup_insert_eq. intros [= <-]. rewrite Hh, Hk. by apply (h_hash _ _ H a).
    + rewrite lookup_insert_ne by done. apply (h_hash _ _ H).
  - intros b Hb. rewrite (h_chain _ _ H) by done. apply filter_ext_in. intros x _. unfold bucket_of.
    destruct (decide (x = a)) as [->|Hx]; [by rewrite lookup_insert_eq, Ha, Hh|by rewrite lookup_insert_ne].
Qed.

Lemma log_update m a e e' addrs :
  m !! a = Some e -> key e' = key e -> val e' = val e -> log (<[a := e']> m) addrs = log m addrs.
Proof.
  intros Ha Hk Hv. unfold log. apply list_omap_ext, Forall_Forall2_diag, Forall_true. intros x. unfold pair_at.
  destruct (decide (x = a)) as [->|Hx]; [rewrite lookup_insert_eq, Ha; simpl; by rewrite Hk, Hv|by rewrite lookup_insert_ne].
Qed.

Lemma get_intval_spec st l k d : loaded st l ->
  exists st', myconfig_get_intval st k d = Some (default d (v ← newest k l; word_val v), st') /\ loaded st' l.
Proof.
  intros HL. pose proof HL as [(addrs & H & Hl) HA HI]. destruct (find_key_spec st addrs k H) as (r & Er & Hr).
  unfold myconfig_get_intval. rewrite Er. cbn [mbind option_bind]. subst l. destruct r as [[a e]|].
  2: { rewrite Hr. by exists st. }
  destruct Hr as [Ha ->]. cbn [mbind option_bind]. destruct (intval e =? -1) eqn:Ei; b2p.
  2: { destruct (HI a e Ha) as [?|Hw]; [done|]. rewrite Hw. by exists st. }
  destruct (word_val (val e)) as [n|] eqn:Ew; [|by exists st]. eexists. split; [done|]. split.
  - exists addrs. split; [by apply (holds_update _ _ _ e)|]. simpl. by rewrite (log_update _ _ e).
  - done.
  - intros x y. simpl. destruct (decide (x = a)) as [->|Hx].
    + rewrite lookup_insert_eq. intros [= <-]. by right.
    + rewrite lookup_insert_ne by done. apply HI.
Qed.

(** The store before anything is read. *)
Definition blank_store (keys : list bytes) : state :=
  mk_state ∅ (fun _ => []) (replicate 256 empty_slot) false keys [].

Lemma blank_loaded st : entries st = ∅ -> (forall b, myhash st b = []) -> arrays st -> loaded st [].
Proof.
  intros He Hb HA. split; [|done|].
  - exists []. split; [|done]. split.
    + constructor.
    + intros a. rewrite He, lookup_empty. split; [by intros ?%not_elem_of_nil|by intros [? ?]].
    + intros a e. by rewrite He, lookup_empty.
    + intros b _. apply Hb.
  - intros a e. by rewrite He, lookup_empty.
Qed.

(** A configuration file and a command line. *)
Definition config_text (top : list (bytes * bytes)) (secs : list (bytes * list (bytes * bytes))) : bytes :=
  unlines (map (fun kv => fst kv ++ str " = " ++ snd kv) top ++ concat (map (block [] [] []) secs)).

Definition arg_text (kv : bytes * bytes) : bytes := 45 :: 45 :: fst kv ++ 61 :: snd kv.

Definition arg_ok (kv : bytes * bytes) : Prop :=
  isalnum (at_ (fst kv) 0) = true /\ 61 ∉ fst kv /\ snd kv <> [] /\ at_ (snd kv) 0 <> 61 /\ (length (snd kv) < VAL_MAX_LEN)%nat.

Lemma line_ok_app l1 l2 : line_ok l1 -> line_ok l2 -> line_ok (l1 ++ l2).
Proof. unfold line_ok. rewrite !not_elem_of_app. tauto. Qed.

Lemma line_ok_assigns ind kvs : line_ok ind -> pairs_ok kvs ->
  Forall line_ok (map (fun kv => ind ++ fst kv ++ str " = " ++ snd kv) kvs).
Proof.
  intros Hi HF. apply Forall_map. eapply Forall_impl; [exact HF|]. intros kv [Hk Hv].
  apply line_ok_app; [done|]. apply line_ok_app; [apply (w_line _ Hk)|]. apply line_ok_app; [|apply (v_line _ Hv)].
  by split; apply (bool_decide_unpack _).
Qed.

Lemma line_ok_blocks ind s quiets secs :
  line_ok ind -> line_ok s -> Forall line_ok quiets ->
  Forall (fun sec => name_ok (fst sec) /\ pairs_ok (snd sec)) secs ->
  Forall line_ok (concat (map (block ind s quiets) secs)).
Proof.
  intros Hi Hs Hq HF. apply Forall_concat, Forall_map. eapply Forall_impl; [exact HF|]. intros [n kvs] [Hn Hk]. unfold block. cbn [fst snd] in *.
  apply Forall_cons. split; [|apply Forall_app; split; [by apply line_ok_assigns|done]].
  change (91 :: s ++ n ++ s ++ [93]) with ([91] ++ s ++ n ++ s ++ [93]).
  apply line_ok_app; [by split; apply (bool_decide_unpack _)|]. apply line_ok_app; [done|].
  apply line_ok_app; [apply (n_line _ Hn)|]. apply line_ok_app; [done|by split; apply (bool_decide_unpack _)].
Qed.

Lemma load_args_spec args : forall st l, loaded st l -> Forall arg_ok args ->
  exists st', load_args st (map arg_text args) = Some st' /\ loaded st' (rev (map (full []) args) ++ l) /\ same_rest st st'.
Proof.
  induction args as [|[k v] args IH]; intros st l HL HF; [by exists st|].
  apply Forall_cons in HF as [(Hk & H61 & Hv & Hv0 & Hlen) HF]. cbn [fst snd] in *. cbn [map load_args].
  assert (E : exists st1, load_arg st (arg_text (k, v)) = Some st1 /\ loaded st1 (full [] (k, v) :: l) /\ same_rest st st1).
  { destruct k as [|c t]; [done|]. unfold at_ in Hk. cbn [nth] in Hk.
    assert (Hc : c <> 45 /\ (c =? 0) || (c =? 59) || (c =? 35) || (c =? 61) = false).
    { unfold isalnum, isdigit, isupper, islower in Hk. split; [intros ->; done|].
      rewrite !orb_false_iff. repeat split; apply Z.eqb_neq; intros ->; done. }
    destruct Hc as [Hc Hs]. unfold load_arg, arg_text. cbn [fst snd drop_while]. change (45 =? 45) with true. cbv iota.
    cbn [drop_while app]. apply Z.eqb_neq in Hc. rewrite Hc. cbv zeta. unfold at_ at 1 2 3 4. cbn [nth]. rewrite Hs.
    change (c :: t ++ 61 :: v) with ((c :: t) ++ 61 :: v). rewrite strchr_app_r, take_app_length by done.
    replace (drop (S (length (c :: t))) ((c :: t) ++ 61 :: v)) with v.
    2: { rewrite drop_app_ge by lia. by replace (S (length (c :: t)) - length (c :: t))%nat with 1%nat by lia. }
    apply Z.eqb_neq in Hv0. rewrite Hv0. cbn [mbind option_bind].
    rewrite drop_while_stop. 2: { intros x y ->. done. }
    rewrite bool_decide_false by done. pose proof HL as [(addrs & H & Hl) HA HI]. destruct (malloc_sound st) as (a & Hm & Ha).
    destruct (put_value_spec st addrs [] (c :: t) v a H HA Hm Ha Hlen) as (rc & st' & lk & ps & -> & -> & _ & H' & A' & L'); [simpl; lia|].
    cbn [mbind option_bind]. eexists. split; [done|]. split; [|done]. split.
    - exists (a :: addrs). by rewrite L', Hl.
    - done.
    - intros x e. simpl. destruct (decide (x = a)) as [->|Hx]; [rewrite lookup_insert_eq; intros [= <-]; by left|].
      rewrite lookup_insert_ne by done. apply HI. }
  destruct E as (st1 & -> & L1 & R1). cbn [mbind option_bind].
  destruct (IH st1 _ L1 HF) as (st2 & -> & L2 & R2). exists st2. split; [done|]. cbn [rev]. rewrite <- app_assoc.
  split; [done|]. by apply (same_rest_trans _ st1).
Qed.

(** A file of assignments and blocks is read into an empty store. *)
Lemma load_config ind s heads quiets top secs st file :
  loaded st [] -> inited st = false ->
  Forall (fun c => blank c = true) ind -> Forall (fun c => sep c = true) s -> line_ok ind -> line_ok s ->
  Forall (fun l => quiet l /\ line_ok l) heads -> Forall (fun l => quiet l /\ line_ok l) quiets ->
  pairs_ok top -> Forall (fun sec => name_ok (fst sec) /\ pairs_ok (snd sec)) secs ->
  k_file file = Some (unlines (heads ++ map (fun kv => ind ++ fst kv ++ str " = " ++ snd kv) top ++ quiets ++
                               concat (map (block ind s quiets) secs))) ->
  exists st', myconfig_loadfile0 st file = Some (0, st') /\
    loaded st' (rev (map (full []) top ++ concat (map sec_pairs secs))) /\ same_rest st st' /\
    (slotted st [] -> top <> [] -> sections_apart [([], rev top)] secs -> slotted st' (([], rev top) :: map sec_group secs)).
Proof.
  intros L0 Hi Hind Hs Li Ls Hh Hq Ht HS Hf. apply Forall_and in Hh as [Hh Hh'], Hq as [Hq Hq'].
  unfold myconfig_loadfile0. rewrite Hf, load_lines_lines; [|repeat (apply Forall_app; split); try done|lia].
  2: by apply line_ok_assigns.
  2: by apply line_ok_blocks.
  rewrite run_lines_app, run_quiets by done. cbn [mbind option_bind]. rewrite run_lines_app.
  destruct (run_assigns ind top st [] [] Hind L0 Hi ltac:(unfold section_ok; simpl; lia) Ht) as (st1 & -> & L1 & R1 & G1).
  cbn [mbind option_bind]. rewrite run_lines_app, run_quiets by done. cbn [mbind option_bind].
  destruct (run_blocks ind s quiets secs st1 [] _ Hind Hs Hq L1) as (s2 & st2 & -> & L2 & R2 & G2);
    [by destruct R1 as [-> _]|done|]. cbn [mbind option_bind snd]. exists st2. split; [done|]. split; [|split].
  - by rewrite rev_app_distr, app_nil_r in *.
  - by apply (same_rest_trans _ st1).
  - intros Hsl Hne Ha. specialize (G1 [] [] Hsl ltac:(constructor) ltac:(split; [simpl; lia|apply not_elem_of_nil]) ltac:(simpl; lia)).
    rewrite app_nil_r in G1. unfold with_slot in G1. destruct (rev top) as [|kv kvs] eqn:Er.
    { by rewrite <- (rev_involutive top), Er in Hne. }
    apply (G2 [([], kv :: kvs)]); [done| |done]. constructor; [|constructor]. split; [simpl; lia|apply not_elem_of_nil].
Qed.

Lemma blank_fine keys : loaded (blank_store keys) [] /\ slotted (blank_store keys) [].
Proof.
  split.
  - apply blank_loaded; [done|done|]. unfold arrays, blank_store. cbn [prelist]. by apply Forall_replicate.
  - exists [], 256%nat. split; [done|]. split; [done|constructor].
Qed.

(** C24: the configuration is read as it is written.  A file of assignments,
    some of them in sections, and a command line of assignments are read into a
    store in which a key, spelt in small letters with underscores, has the
    value given last, the command line after the file; where a key is given
    several times its values come in the order of the file; and a setting used
    as a number is the number or the word its value spells, or the default. *)
Theorem config_read keys top secs args :
  pairs_ok top -> Forall (fun sec => name_ok (fst sec) /\ pairs_ok (snd sec)) secs -> Forall arg_ok args ->
  k_file getconfigname = Some (config_text top secs) ->
  let l := map (full []) top ++ concat (map sec_pairs secs) ++ map (full []) args in
  exists st, myconfig_init (blank_store keys) (map arg_text args) = Some (0, st) /\ inited st = true /\
    (forall k, myconfig_get_value st k = Some (newest k (rev l))) /\
    (forall k i, 0 <= i -> myconfig_get_multivalue st k i = Some ((snd <$> filter (fun kv => fst kv = k) l) !! Z.to_nat i)) /\
    (forall k d, exists st', myconfig_get_intval st k d = Some (default d (v ← newest k (rev l); word_val v), st')).
Proof.
  intros Ht Hs Ha Hf l. unfold myconfig_init. cbv zeta. set (st0 := with_store _ _ _ _).
  assert (L0 : loaded st0 []).
  { apply blank_loaded; [done|done|]. unfold arrays, st0, with_store, blank_store. cbn [prelist].
    by apply Forall_map, Forall_replicate. }
  destruct (load_config [] [] [] [] top secs st0 getconfigname) as (st2 & -> & L2 & R2 & _); try done;
    try (split; apply not_elem_of_nil). cbn [mbind option_bind]. simpl (0 <? 0). cbv iota.
  destruct (load_args_spec args st2 _ L2 Ha) as (st3 & -> & L3 & R3). cbn [mbind option_bind].
  eexists. split; [done|]. split; [done|]. set (st4 := mk_state _ _ _ _ _ _).
  assert (Hl : rev (map (full []) args) ++ rev (map (full []) top ++ concat (map sec_pairs secs)) = rev l).
  { unfold l. by rewrite !rev_app_distr, <- app_assoc. }
  assert (L4 : loaded st4 (rev l)).
  { rewrite <- Hl. destruct L3 as [(addrs & H & El) A3 I3]. split; [|done|done]. exists addrs. split; [|done].
    destruct H. by constructor. }
  pose proof L4 as [(addrs & H & El) _ _]. split; [|split].
  - intros k. rewrite (get_value_spec _ addrs) by done. by rewrite El.
  - intros k i Hi. rewrite (get_multivalue_spec _ addrs) by done. rewrite El. unfold values.
    by rewrite !rev_reverse, filter_reverse, fmap_reverse, reverse_involutive.
  - intros k d. destruct (get_intval_spec st4 _ k d L4) as (st' & -> & _). by exists st'.
Qed.

(** ** Faults *)

Lemma last_drop {A} (l : list A) i : (i < length l)%nat -> last (drop i l) = last l.
Proof.
  intros Hi. rewrite <- (take_drop i l) at 2. rewrite last_app. destruct (last (drop i l)) eqn:E; [done|].
  apply last_None in E. apply (f_equal length) in E. rewrite length_drop in E. simpl in E. lia.
Qed.

Lemma strchr_until0 l i c : strchr (until0 l) c = Some i -> (i < length l)%nat /\ l !! i = Some c.
Proof.
  revert i. induction l as [|x l IH]; intros i; [done|]. cbn [until0]. destruct (x =? 0); [done|]. cbn [strchr].
  destruct (x =? c) eqn:Ex; b2p; [intros [= <-]; subst; simpl; split; [lia|done]|].
  destruct (strchr (until0 l) c) as [j|]; [|done]. intros [= <-]. destruct (IH j eq_refl). simpl. split; [lia|done].
Qed.

Lemma load_lines_open fuel : forall st section buf,
  buf <> [] -> last buf <> Some 10 -> load_lines fuel st section buf = None.
Proof.
  induction fuel as [|fuel IH]; intros st section buf Hb Hl; [done|]. cbn [load_lines]. destruct buf as [|x buf]; [done|].
  set (l := x :: buf) in *. destruct (strchr (until0 l) 10) as [i|] eqn:Ei; [|done]. cbn [mbind option_bind].
  apply strchr_until0 in Ei as [Hi Hc]. destruct (load_line st section (take i l)) as [[s st']|]; [|done]. cbn [mbind option_bind].
  destruct (decide (S i < length l)%nat) as [Hs|Hs].
  - apply IH; [|by rewrite last_drop]. intros Hd.
    assert (length (drop (S i) l) = 0%nat) as H0 by (by rewrite Hd). rewrite length_drop in H0. lia.
  - destruct Hl. rewrite last_lookup. by replace (pred (length l)) with i by lia.
Qed.

(** A configuration file whose last line has no end crashes the process: the
    pointer to the next line is null, and the loop compares it with the end of
    the buffer, finds it smaller and goes on reading there. *)
Theorem config_needs_newline st file buf :
  k_file file = Some buf -> buf <> [] -> last buf <> Some 10 -> myconfig_loadfile0 st file = None.
Proof. intros Hf Hb Hl. unfold myconfig_loadfile0. rewrite Hf. by rewrite load_lines_open. Qed.

(** What is found is found again in a store that differs in other things. *)
Lemma find_key_update st addrs k a e e' :
  holds st addrs -> find_key st k = Some (Some (a, e)) -> hash e' = hash e -> key e' = key e ->
  find_key (set_entry st a e') k = Some (Some (a, e')).
Proof.
  intros H. unfold find_key, chain. cbn [set_entry with_store myhash entries]. intros Hf Hh Hk. revert Hf.
  generalize (myhash st (Z.land (Misc.r5hash k) 255)). intros l. induction l as [|x l IH]; [done|]. cbn [find_in].
  destruct (entries st !! x) as [y|] eqn:Ex; [|done]. cbn [mbind option_bind]. destruct (decide (x = a)) as [->|Hx].
  - rewrite lookup_insert_eq. cbn [mbind option_bind]. destruct ((_ =? hash y) && _) eqn:Et.
    + intros [= ->]. by rewrite Hh, Hk, Et.
    + intros Hf.
      assert (y = e) as ->.
      { clear - Hf Ex. induction l as [|z l IH]; [done|]. cbn [find_in] in Hf.
        destruct (entries st !! z) as [w|] eqn:Ez; [|done]. cbn [mbind option_bind] in Hf.
        destruct (_ && _); [|by apply IH]. injection Hf as -> ->. congruence. }
      rewrite Hh, Hk, Et. by apply IH.
  - rewrite lookup_insert_ne, Ex by done. cbn [mbind option_bind]. destruct (_ && _); [intros [= -> ->]; done|]. apply IH.
Qed.

(** A setting that has been used as a number keeps its old number when its
    value is changed: [myconfig_update_value] writes the new text and leaves
    the number kept beside it, which [myconfig_get_intval] goes on returning. *)
Theorem updated_setting_stale st l k d v0 n v :
  loaded st l -> newest k l = Some v0 -> word_val v0 = Some n -> n <> -1 -> (length v < VAL_MAX_LEN)%nat ->
  exists st1 st2, myconfig_get_intval st k d = Some (n, st1) /\ myconfig_update_value st1 k v = Some (1, st2) /\
    myconfig_get_value st2 k = Some (Some v) /\ myconfig_get_intval st2 k d = Some (n, st2).
Proof.
  intros [(addrs & H & <-) HA HI] Hv0 Hw Hn Hv. destruct (find_key_spec st addrs k H) as (r & Er & Hr).
  destruct r as [[a e]|]; [|congruence]. destruct Hr as [Ha He]. assert (val e = v0) as <- by congruence.
  assert (E1 : exists st1 e1, myconfig_get_intval st k d = Some (n, st1) /\ holds st1 addrs /\
    find_key st1 k = Some (Some (a, e1)) /\ hash e1 = hash e /\ key e1 = key e /\ intval e1 = n).
  { unfold myconfig_get_intval. rewrite Er. cbn [mbind option_bind]. destruct (intval e =? -1) eqn:Ei; b2p.
    - rewrite Hw. eexists _, (set_intval e n). split; [done|]. split; [by apply (holds_update _ _ _ e)|].
      split; [by apply (find_key_update _ addrs _ _ e)|done].
    - destruct (HI a e Ha) as [?|Hi]; [done|]. rewrite Hw in Hi. injection Hi as ->. by exists st, e. }
  destruct E1 as (st1 & e1 & E1 & H1 & F1 & Hh & Hk & Hi). exists st1, (set_entry st1 a (set_val e1 v)).
  split; [done|]. unfold myconfig_update_value, myconfig_get_value, myconfig_get_intval. rewrite F1. cbn [mbind option_bind].
  rewrite bool_decide_false by lia. split; [done|].
  rewrite (find_key_update st1 addrs k a e1 (set_val e1 v) H1 F1) by done. cbn [mbind option_bind set_val val intval].
  split; [done|]. rewrite Hi. apply Z.eqb_neq in Hn. by rewrite Hn.
Qed.

(** ** Reloading *)

Lemma newest_cons k kv l : newest k (kv :: l) = if streq k (fst kv) then Some (snd kv) else newest k l.
Proof. unfold newest. simpl. by destruct (streq k (fst kv)). Qed.

(** Without an entry of another key, the values of [k] are the same. *)
Lemma newest_without m a e addrs k :
  m !! a = Some e -> key e <> k ->
  newest k (log (delete a m) (filter (fun x => x <> a) addrs)) = newest k (log m addrs).
Proof.
  intros Ha Hk. induction addrs as [|x l IH]; [done|]. rewrite filter_cons. case_decide as Hx.
  - rewrite !log_cons, lookup_delete_ne by done. destruct (m !! x) as [y|]; [|apply IH]. by rewrite !newest_cons, IH.
  - subst x. rewrite log_cons, Ha, newest_cons. cbn [fst].
    destruct (streq k (key e)) eqn:Ek; [apply streq_true in Ek as ->; done|]. apply IH.
Qed.

Lemma filter_absent (a : Z) (l : list Z) : a ∉ l -> filter (fun x => x <> a) l = l.
Proof.
  induction l as [|x l IH]; intros Ha; [done|]. rewrite filter_cons, decide_True by set_solver.
  by rewrite IH by set_solver.
Qed.

Lemma holds_delete st addrs a e ps :
  holds st addrs -> entries st !! a = Some e ->
  holds (with_store st (delete a (entries st))
           (fun b => if b =? bucket_key (key e) then filter (fun x => x <> a) (myhash st b) else myhash st b) ps)
        (filter (fun x => x <> a) addrs).
Proof.
  intros H Ha. split; simpl.
  - apply NoDup_filter, (h_nodup _ _ H).
  - intros x. rewrite list_elem_of_filter, (h_dom _ _ H). destruct (decide (x = a)) as [->|Hx].
    + rewrite lookup_delete_eq. split; [by intros [? _]|by intros [? ?]].
    + rewrite lookup_delete_ne by done. tauto.
  - intros x y. destruct (decide (x = a)) as [->|Hx]; [by rewrite lookup_delete_eq|].
    rewrite lookup_delete_ne by done. apply (h_hash _ _ H).
  - intros b Hb.
    assert (E : filter (fun x => bucket_of (delete a (entries st)) x = b) (filter (fun x => x <> a) addrs) =
                filter (fun x => x <> a) (filter (fun x => bucket_of (entries st) x = b) addrs)).
    { rewrite !list_filter_filter. apply filter_ext_in. intros x _. unfold bucket_of.
      destruct (decide (x = a)) as [->|Hx]; [tauto|]. rewrite lookup_delete_ne by done. tauto. }
    rewrite E, <- (h_chain _ _ H) by done. destruct (b =? bucket_key (key e)) eqn:Eb; [done|]. b2p. symmetry.
    apply filter_absent. rewrite (h_chain _ _ H) by done. intros [Hx _]%list_elem_of_filter. apply Eb. unfold bucket_of in Hx. rewrite Ha, (h_hash _ _ H a e Ha) in Hx. done.
Qed.

(** Every entry of the chain with the key goes. *)
Lemma newest_none m addrs k : (forall a e, m !! a = Some e -> key e <> k) -> newest k (log m addrs) = None.
Proof.
  intros H. induction addrs as [|a addrs IH]; [done|]. rewrite log_cons. destruct (m !! a) as [e|] eqn:Ea; [|done].
  rewrite newest_cons. cbn [fst]. destruct (streq k (key e)) eqn:Ek; [|done]. apply streq_true in Ek. by apply H in Ea.
Qed.

Lemma delete_in_spec s l : forall st addrs,
  holds st addrs -> arrays st -> NoDup l -> (forall a, a ∈ l -> is_Some (entries st !! a)) ->
  (forall a e, entries st !! a = Some e -> key e = s -> linked e = true) ->
  exists st' addrs', delete_in st (Misc.r5hash s) s l = Some st' /\ holds st' addrs' /\ arrays st' /\
    (forall a e, entries st' !! a = Some e -> entries st !! a = Some e /\ (a ∈ l -> key e <> s)) /\
    (forall k, k <> s -> newest k (log (entries st') addrs') = newest k (log (entries st) addrs)).
Proof.
  induction l as [|a l IH]; intros st addrs H HA Hn Hd Hk; cbn [delete_in].
  { exists st, addrs. split_and!; try done. intros a e Ha. split; [done|]. by intros ?%not_elem_of_nil. }
  apply NoDup_cons in Hn as [Ha Hn]. destruct (Hd a ltac:(set_solver)) as [e Ea]. rewrite Ea. cbn [mbind option_bind].
  destruct ((hash e =? _) && streq (key e) s) eqn:Et.
  - apply andb_true_iff in Et as [_ Et]. apply streq_true in Et as Es. rewrite (Hk a e Ea Es). rewrite <- Es.
    fold (bucket_key (key e)). set (st1 := with_store _ _ _ _).
    destruct (IH st1 (filter (fun x => x <> a) addrs)) as (st' & ad' & E & H' & A' & I' & N'); [by apply holds_delete| |done| | |].
    + unfold arrays, st1. cbn [prelist with_store]. apply Forall_map. eapply Forall_impl; [exact HA|]. done.
    + intros x Hx. unfold st1. cbn [entries with_store]. rewrite lookup_delete_ne by (intros <-; done). apply Hd. set_solver.
    + intros x y. unfold st1. cbn [entries with_store]. intros [_ Hx]%lookup_delete_Some. by apply (Hk x).
    + rewrite <- Es in E. exists st', ad'. split; [done|]. split; [done|]. split; [done|]. split.
      * intros x y Hx. apply I' in Hx as [Hx Hl]. unfold st1 in Hx. cbn [entries with_store] in Hx.
        apply lookup_delete_Some in Hx as [Hne Hx]. split; [done|]. rewrite Es. intros [->|Hi]%elem_of_cons; [done|by apply Hl].
      * intros k Hks. rewrite N' by congruence. by apply (newest_without _ _ e).
  - destruct (IH st addrs H HA Hn) as (st' & ad' & E & H' & A' & I' & N'); [intros x Hx; apply Hd; set_solver|done|].
    exists st', ad'. split; [done|]. split; [done|]. split; [done|]. split; [|done].
    intros x y Hx. apply I' in Hx as [Hx Hl]. split; [done|]. intros [->|Hi]%elem_of_cons; [|by apply Hl].
    intros Hs. rewrite Ea in Hx. injection Hx as <-. rewrite (h_hash _ _ H a e Ea), Hs, Z.eqb_refl in Et. cbn [andb] in Et.
    by rewrite (proj2 (streq_true s s) eq_refl) in Et.
Qed.

Lemma delete_value_spec st l k :
  loaded st l -> map sep_char k = k -> (forall a e, entries st !! a = Some e -> key e = k -> linked e = true) ->
  exists st' l', myconfig_delete_value st [] k = Some (1, st') /\ loaded st' l' /\ newest k l' = None /\
    (forall k', k' <> k -> newest k' l' = newest k' l) /\
    (forall a e, entries st' !! a = Some e -> entries st !! a = Some e).
Proof.
  intros [(addrs & H & <-) HA HI] Hs Hk. unfold myconfig_delete_value. cbn [app]. rewrite Hs. cbv zeta.
  unfold chain. fold (bucket_key k).
  pose proof (h_chain _ _ H (bucket_key k) (proj1 (bucket_key_range k))) as Hc.
  destruct (delete_in_spec k (myhash st (bucket_key k)) st addrs H HA) as (st' & ad' & E & H' & A' & I' & N').
  - rewrite Hc. apply NoDup_filter, (h_nodup _ _ H).
  - rewrite Hc. intros a [_ Ha]%list_elem_of_filter. by apply (h_dom _ _ H).
  - done.
  - rewrite E. cbn [mbind option_bind]. exists st', (log (entries st') ad'). split; [done|]. split; [|split; [|split]].
    + split; [by exists ad'|done|]. intros a e Ha. apply (HI a). by apply I'.
    + apply newest_none. intros a e Ha. destruct (I' a e Ha) as [Ha' Hl]. intros He. apply Hl; [|done]. rewrite Hc.
      apply list_elem_of_filter. split; [|apply (h_dom _ _ H); eauto]. unfold bucket_of.
      by rewrite Ha', (h_hash _ _ H a e Ha'), He.
    + done.
    + intros a e Ha. by apply I'.
Qed.

(** A key that is not in the store is entered. *)
Lemma update_value_spec st l k pr k0 v :
  loaded st l -> newest k l = None -> (length v < VAL_MAX_LEN)%nat ->
  (match strchr k 95 with
   | Some i => pr = take i k ++ [45] /\ k0 = drop (S i) k /\ (i < 19)%nat /\ (length k0 < 30)%nat
   | None => pr = [] /\ k0 = k
   end) ->
  let key0 := map key_char (pr ++ k0) in
  exists rc st', 0 <= rc /\ myconfig_update_value st k v = Some (rc, st') /\ loaded st' ((key0, v) :: l) /\
    (forall a e, entries st' !! a = Some e -> key e = key0 \/ entries st !! a = Some e).
Proof.
  intros [(addrs & H & <-) HA HI] Hn Hv Hk key0. unfold myconfig_update_value.
  destruct (find_key_spec st addrs k H) as (r & -> & Hr). cbn [mbind option_bind].
  destruct r as [[a e]|]; [destruct Hr as [_ Hr]; congruence|].
  assert (Hput : (length pr <= 20)%nat -> exists rc st', 0 <= rc /\ myconfig_put_value st pr k0 v = Some (rc, st') /\
    loaded st' ((key0, v) :: log (entries st) addrs) /\
    (forall a e, entries st' !! a = Some e -> key e = key0 \/ entries st !! a = Some e)).
  { intros Hp. destruct (malloc_sound st) as (a & Hm & Ha).
    destruct (put_value_spec st addrs pr k0 v a H HA Hm Ha Hv Hp) as (rc & st' & lk & ps & E & Es & _ & H' & A' & L').
    exists rc, st'. split.
    { revert E. unfold myconfig_put_value. rewrite Hm. cbv zeta. rewrite bool_decide_false by lia.
      destruct (find_slot _ _); [|by intros [= <- _]]. destruct (prelist st !! _); [|done]. cbn [mbind option_bind].
      case_bool_decide; [done|]. by intros [= <- _]. }
    split; [done|]. split; [split; [by exists (a :: addrs)|done|]|]; subst st'; intros x y; cbn [entries with_store];
      (destruct (decide (x = a)) as [->|Hx]; [rewrite lookup_insert_eq; intros [= <-]; by left|rewrite lookup_insert_ne by done]).
    - apply HI.
    - by right. }
  destruct (strchr k 95) as [i|] eqn:Es.
  - destruct Hk as (-> & -> & Hi & H0). rewrite !bool_decide_false by lia. cbn [orb]. apply Hput.
    rewrite length_app, length_take. cbn [length]. lia.
  - destruct Hk as [-> ->]. apply Hput. cbn [length]. lia.
Qed.

(** What is left alone by the operations of a reload. *)
Definition keeps_key (k : bytes) (st st' : state) : Prop :=
  forall addrs, holds st addrs -> exists addrs', holds st' addrs' /\
    newest k (log (entries st') addrs') = newest k (log (entries st) addrs).

Lemma keeps_trans k st1 st2 st3 : keeps_key k st1 st2 -> keeps_key k st2 st3 -> keeps_key k st1 st3.
Proof.
  intros H1 H2 addrs H. destruct (H1 addrs H) as (a1 & A1 & E1). destruct (H2 a1 A1) as (a2 & A2 & E2).
  exists a2. split; [done|congruence].
Qed.

Lemma delete_in_keeps s k l : forall st st',
  s <> k -> hashed (entries st) -> delete_in st (Misc.r5hash s) s l = Some st' ->
  keeps_key k st st' /\ same_rest st st' /\ hashed (entries st').
Proof.
  induction l as [|a l IH]; intros st st' Hk Hh; cbn [delete_in].
  { intros [= <-]. split; [|done]. intros addrs H. by exists addrs. }
  destruct (entries st !! a) as [e|] eqn:Ea; [|done]. cbn [mbind option_bind].
  destruct ((hash e =? _) && streq (key e) s) eqn:Et; [|by apply IH].
  destruct (linked e); [|done]. apply andb_true_iff in Et as [_ Et]. apply streq_true in Et as <-.
  set (st1 := with_store _ _ _ _). intros E. apply IH in E as (K1 & R1 & H1); [|done|].
  - split; [|by split]. apply (keeps_trans k st st1); [|done]. intros addrs H. exists (filter (fun x => x <> a) addrs).
    split; [by apply holds_delete|]. by apply (newest_without _ _ e).
  - intros x y. simpl. intros [_ Hx]%lookup_delete_Some. by apply (Hh x).
Qed.

Lemma put_keeps st pr k0 v rc st' k :
  hashed (entries st) -> map key_char (pr ++ k0) <> k -> myconfig_put_value st pr k0 v = Some (rc, st') ->
  keeps_key k st st' /\ same_rest st st' /\ hashed (entries st').
Proof.
  intros Hh Hk. unfold myconfig_put_value. destruct (malloc_sound st) as (a & -> & Ha). cbv zeta.
  set (k' := map key_char (pr ++ k0)) in *. case_bool_decide as Hv; [done|].
  assert (X : forall lk hs ps, (forall b, hs b = if b =? bucket_key k' then a :: myhash st b else myhash st b) ->
    let e := mk_myconfig (Misc.r5hash k') k' v (-1) lk in
    let st1 := with_store st (<[a := e]> (entries st)) hs ps in
    keeps_key k st st1 /\ same_rest st st1 /\ hashed (entries st1)).
  { intros lk hs ps Hs e st1. split; [|split; [done|]].
    - intros addrs H. exists (a :: addrs). split; [by apply holds_insert|].
      assert (Hn : a ∉ addrs) by (rewrite (h_dom _ _ H), Ha; by intros [? ?]).
      unfold st1. cbn [entries with_store]. rewrite log_cons, lookup_insert_eq, newest_cons. cbn [fst key e].
      destruct (streq k k') eqn:Ek; [apply streq_true in Ek; congruence|].
      f_equal. by apply log_insert.
    - intros x y. simpl. destruct (decide (x = a)) as [->|Hx].
      + rewrite lookup_insert_eq. by intros [= <-].
      + rewrite lookup_insert_ne by done. apply Hh. }
  destruct (find_slot pr (prelist st)) as [i|]; [|intros [= <- <-]; by apply X].
  destruct (prelist st !! i) as [p|]; [|done]. cbn [mbind option_bind]. case_bool_decide; [done|].
  intros [= <- <-]. by apply X.
Qed.

(** A key no setting that may be reloaded can be stored under. *)
Definition fixed_key (keys : list bytes) (k : bytes) : Prop :=
  forall rk, rk ∈ keys -> ~ map key_char rk `suffix_of` k /\ ~ map sep_char rk `suffix_of` k.

Lemma assign_keeps st section k0 v st' k :
  inited st = true -> hashed (entries st) -> fixed_key (reload_key st) k -> assign st section k0 v = Some st' ->
  keeps_key k st st' /\ same_rest st st' /\ hashed (entries st').
Proof.
  intros Hi Hh Hk. unfold assign.
  assert (Hid : Some st = Some st' -> keeps_key k st st' /\ same_rest st st' /\ hashed (entries st')).
  { intros [= <-]. split; [|done]. intros addrs H. by exists addrs. }
  destruct (_ && _); [|done]. rewrite Hi. simpl (negb true). cbv iota.
  destruct (existsb (streq k0) (reload_key st)) eqn:Ee; [|done]. clear Hid.
  apply existsb_exists in Ee as (rk & Hrk & Ek). apply list_elem_of_In in Hrk. apply streq_true in Ek as <-.
  destruct (Hk k0 Hrk) as [Hk1 Hk2].
  unfold myconfig_delete_value. cbv zeta. set (s := map sep_char (section ++ k0)).
  destruct (delete_in st (Misc.r5hash s) s _) as [st1|] eqn:Ed; [|done]. cbn [mbind option_bind].
  apply (delete_in_keeps s k) in Ed as (K1 & R1 & H1);
    [|intros <-; apply Hk2; unfold s; rewrite map_app; by apply suffix_app_r|done].
  destruct (myconfig_put_value st1 section k0 v) as [[rc st2]|] eqn:Ep; [|done]. cbn [mbind option_bind]. intros [= <-].
  apply (put_keeps _ _ _ _ _ _ k) in Ep as (K2 & R2 & H2); [|done|intros <-; apply Hk1; rewrite map_app; by apply suffix_app_r].
  split; [by apply (keeps_trans k st st1)|]. split; [by apply (same_rest_trans _ st1)|done].
Qed.

Lemma load_lines_keep fuel k : forall st section buf st',
  inited st = true -> hashed (entries st) -> fixed_key (reload_key st) k -> load_lines fuel st section buf = Some st' ->
  keeps_key k st st' /\ same_rest st st'.
Proof.
  induction fuel as [|fuel IH]; intros st section buf st' Hi Hh Hk; [done|]. cbn [load_lines].
  assert (Hid : keeps_key k st st) by (intros addrs H; by exists addrs).
  destruct buf as [|x buf]; [by intros [= <-]|].
  destruct (strchr (until0 (x :: buf)) 10) as [i|]; [|done]. cbn [mbind option_bind]. rewrite load_line_item.
  destruct (line_item _) as [|s|k0 v]; cbn [run_item mbind option_bind]; [by apply IH|by apply IH|].
  destruct (assign st section k0 v) as [st1|] eqn:Ea; [|done]. cbn [mbind option_bind].
  apply (assign_keeps _ _ _ _ _ k) in Ea as (K1 & R1 & H1); [|done..]. intros E.
  apply IH in E as [K2 R2]; [|destruct R1; congruence|done|destruct R1 as (_ & -> & _); done].
  split; [by apply (keeps_trans k st st1)|by apply (same_rest_trans _ st1)].
Qed.

(** Reloading changes nothing but the settings that may be reloaded.
    Whatever is in the file, once the program has started a key that no name of
    the list of reloadable settings is the end of has the value it had, and the
    registered functions are called, the last registered first. *)
Theorem reload_changes_listed st addrs k cbs st' :
  holds st addrs -> inited st = true -> fixed_key (reload_key st) k -> myconfig_reload st = Some (cbs, st') ->
  myconfig_get_value st' k = myconfig_get_value st k /\ cbs = reload_cb_list st.
Proof.
  intros H Hi Hk. unfold myconfig_reload, myconfig_loadfile0. destruct (k_file getconfigname) as [buf|].
  2: { cbn [mbind option_bind]. by intros [= <- <-]. }
  destruct (load_lines _ st [] buf) as [st1|] eqn:El; [|done]. cbn [mbind option_bind]. intros [= <- <-].
  apply (load_lines_keep _ k) in El as [K1 (_ & _ & R)]; [|done|apply (h_hash _ _ H)|done].
  destruct (K1 addrs H) as (a1 & H1 & E1). split; [|done].
  rewrite (get_value_spec st1 a1), (get_value_spec st addrs) by done. by rewrite E1.
Qed.

(** ** Writing the configuration back *)

Lemma key_char_idem c : key_char (key_char c) = key_char c.
Proof.
  unfold key_char, sep_char. destruct (sep c) eqn:Es; [done|]. unfold tolower, isupper.
  destruct ((65 <=? c) && (c <=? 90)) eqn:Eu; [|by rewrite Es, Eu]. b2p.
  assert (Hs : sep (c + 32) = false) by (unfold sep; rewrite !orb_false_iff; repeat split; apply Z.eqb_neq; lia).
  rewrite Hs. destruct ((65 <=? c + 32) && (c + 32 <=? 90)) eqn:Eu'; [b2p; lia|done].
Qed.

Lemma key_char_not c x : c <> x -> x = 0 \/ x = 10 \/ x = 61 -> key_char c <> x.
Proof.
  intros Hc Hx. unfold key_char, sep_char, tolower, isupper. destruct (sep c); [simpl; lia|].
  destruct ((65 <=? c) && (c <=? 90)) eqn:Eu; b2p; lia.
Qed.

Lemma key_char_blank c : blank c = false -> blank (key_char c) = false.
Proof.
  unfold blank. rewrite !orb_false_iff, !Z.eqb_neq. intros H. unfold key_char, sep_char, tolower, isupper.
  destruct (sep c); [simpl; lia|]. destruct ((65 <=? c) && (c <=? 90)) eqn:Eu; b2p; lia.
Qed.

Lemma key_char_alnum c : isalnum c = true -> isalnum (key_char c) = true.
Proof.
  intros H. assert (Hs : sep c = false).
  { destruct (sep c) eqn:Es; [|done]. unfold sep in Es. rewrite !orb_true_iff, !Z.eqb_eq in Es.
    by destruct Es as [[[-> | ->] | ->] | ->]. }
  unfold key_char, sep_char, tolower. rewrite Hs. destruct (isupper c) eqn:Eu; [|done].
  unfold isalnum, isdigit, isupper, islower in *. b2p.
  rewrite !orb_true_iff, !andb_true_iff, !Z.leb_le. right. lia.
Qed.

Definition low (kv : bytes * bytes) : bytes * bytes := (map key_char (fst kv), snd kv).

Lemma not_in_map_key x (l : bytes) : x = 0 \/ x = 10 \/ x = 61 -> x ∉ l -> x ∉ map key_char l.
Proof.
  intros Hx Hl [y [E Hy]]%list_elem_of_fmap. symmetry in E. revert E. apply key_char_not; [|done]. by intros ->.
Qed.

Lemma word_ok_low k : word_ok k -> word_ok (map key_char k).
Proof.
  intros [H1 H2 [H3 H4]]. split.
  - destruct k; [done|]. by apply key_char_alnum.
  - apply Forall_map. eapply Forall_impl; [exact H2|]. intros c Hc. simpl in *.
    apply negb_true_iff, orb_false_iff in Hc as [Hb H61]. apply negb_true_iff, orb_false_iff.
    split; [by apply key_char_blank|]. apply Z.eqb_neq in H61. apply Z.eqb_neq. apply key_char_not; auto.
  - split; apply not_in_map_key; auto.
Qed.

Lemma full_low s kv : full s (low kv) = full s kv.
Proof.
  unfold full, low. cbn [fst snd]. f_equal. rewrite !map_app. f_equal. rewrite map_map. apply map_ext, key_char_idem.
Qed.

Lemma unlines_app a b : unlines (a ++ b) = unlines a ++ unlines b.
Proof. unfold unlines. by rewrite map_app, concat_app. Qed.

Definition tabbed (kvs : list (bytes * bytes)) : list bytes := map (fun kv => [9] ++ fst kv ++ str " = " ++ snd kv) kvs.
Definition rule : bytes := replicate 61 45.
Definition written (sec : bytes * list (bytes * bytes)) : bytes * list (bytes * bytes) := (fst sec, map low (rev (snd sec))).

Lemma dump_entry_line s e kv :
  s <> str "nopre" -> (key e, val e) = full s kv -> 0 ∉ fst kv ->
  dump_entry s e = Some (([9] ++ fst (low kv) ++ str " = " ++ snd (low kv)) ++ [10]).
Proof.
  intros Hs [= Hk Hv] H0. unfold dump_entry. destruct (streq s (str "nopre")) eqn:Es; [by apply streq_true in Es|].
  rewrite Hk, Hv, map_app. rewrite bool_decide_false by (rewrite length_app, !length_map; lia). cbn [mbind option_bind].
  rewrite <- !app_assoc. rewrite drop_app_length' by (by rewrite length_map).
  rewrite until0_cut by (apply not_in_map_key; auto). unfold low. cbn [fst snd]. rewrite <- ?app_assoc. done.
Qed.

Lemma dump_members_lines m s kvs : forall ms,
  s <> str "nopre" -> Forall (fun kv => 0 ∉ fst kv) kvs ->
  Forall (fun a => is_Some (m !! a)) ms -> log m ms = map (full s) kvs ->
  dump_members m s ms = Some (unlines (tabbed (map low kvs))).
Proof.
  induction kvs as [|kv kvs IH]; intros ms Hs H0 Hms Hl; (destruct ms as [|a ms]; [done || (simpl in Hl; done)|]);
    apply Forall_cons in Hms as [[e He] Hms]; rewrite log_cons, He in Hl; [done|].
  apply Forall_cons in H0 as [H0 H0']. cbn [map] in Hl. injection Hl as Hk Hv Hl.
  cbn [dump_members]. rewrite He. cbn [mbind option_bind].
  rewrite (dump_entry_line s e kv) by (done || (unfold full; congruence)). cbn [mbind option_bind].
  rewrite (IH ms) by done. done.
Qed.

Definition sec_ok (sec : bytes * list (bytes * bytes)) : Prop :=
  name_ok (fst sec) /\ pairs_ok (snd sec) /\ (length (fst sec) < 19)%nat.

Lemma pairs_no_zero kvs : pairs_ok kvs -> Forall (fun kv => 0 ∉ fst kv) (rev kvs).
Proof. intros H. apply Forall_rev. eapply Forall_impl; [exact H|]. intros kv [Hk _]. apply (w_line _ Hk). Qed.

Lemma dump_slots_lines m n secs : forall i sl,
  Forall2 (slot_holds m) sl (map sec_group secs) -> Forall sec_ok secs ->
  dump_slots m (S i) (map (fun x => slot_of (fst x) (snd x)) sl ++ replicate n empty_slot) =
  Some (unlines (concat (map (block [9] [32] [rule]) (map written secs)))).
Proof.
  induction secs as [|[nm kvs] secs IH]; intros i sl H2 HF.
  { apply Forall2_nil_inv_r in H2 as ->. by destruct n. }
  apply Forall2_cons_inv_r in H2 as ([s ms] & sl' & (Hs & Hms & Hl) & H2 & ->). cbn [fst snd sec_group] in *. subst s.
  apply Forall_cons in HF as [(Hn & Hkv & Hlen) HF]. cbn [fst snd] in *.
  cbn [map app dump_slots fst snd]. change (used (slot_of (nm ++ [45]) ms) =? 0) with false. cbv iota zeta.
  rewrite slot_text.
  2: { rewrite length_app. simpl. lia. }
  2: { rewrite not_elem_of_app. split; [apply (n_line _ Hn)|]. by apply (bool_decide_unpack _). }
  rewrite length_app. cbn [length]. rewrite bool_decide_false by (by destruct nm). rewrite bool_decide_false by lia.
  cbn [orb]. cbv iota. cbn [mbind option_bind].
  change (members (slot_of (nm ++ [45]) ms)) with ms. rewrite (dump_members_lines m (nm ++ [45]) (rev kvs) ms).
  2: { intros E. apply (f_equal last) in E. by rewrite last_snoc in E. }
  2: by apply pairs_no_zero.
  2, 3: done.
  cbn [mbind option_bind]. rewrite (IH (S i) sl' H2 HF). cbn [mbind option_bind]. f_equal.
  cbn [map concat]. rewrite unlines_app. set (rest := unlines (concat _)). unfold block, written. cbn [fst snd].
  rewrite take_app_length' by lia. unfold unlines at 2. cbn [map concat].
  rewrite map_app, concat_app. fold (unlines (tabbed (map low (rev kvs)))). cbn [map concat]. fold rule. unfold dump_rule. fold rule.
  change (str "[ ") with [91; 32]. change (str " ]") with [32; 93].
  cbn [app]. rewrite <- ?app_assoc. cbn [app]. rewrite <- ?app_assoc. done.
Qed.

(** With one value for each key the order does not matter. *)
Lemma newest_in k v l : NoDup (map fst l) -> newest k l = Some v <-> (k, v) ∈ l.
Proof.
  induction l as [|[k' v'] l IH]; intros Hn; [split; [done|by intros ?%not_elem_of_nil]|].
  apply NoDup_cons in Hn as [Hk Hn]. rewrite newest_cons, elem_of_cons. cbn [fst snd] in *.
  destruct (streq k k') eqn:Ek.
  - apply streq_true in Ek as ->. split; [intros [= ->]; by left|]. intros [[= ->]|Hin]; [done|].
    destruct Hk. apply list_elem_of_fmap. by exists (k', v).
  - rewrite IH by done. split; [by right|]. intros [[= -> ->]|]; [by rewrite streq_refl in Ek|done].
Qed.

Lemma newest_perm k l l' : NoDup (map fst l) -> l ≡ₚ l' -> newest k l = newest k l'.
Proof.
  intros Hn Hp. assert (Hn' : NoDup (map fst l')) by (by rewrite <- (fmap_Permutation fst _ _ Hp)).
  destruct (newest k l) as [v|] eqn:E; destruct (newest k l') as [v'|] eqn:E'; try done.
  - apply newest_in in E, E'; [|done..]. rewrite Hp in E. apply newest_in in E, E'; [|done..]. congruence.
  - apply newest_in in E; [|done]. rewrite Hp in E. apply newest_in in E; [|done]. congruence.
  - apply newest_in in E'; [|done]. rewrite <- Hp in E'. apply newest_in in E'; [|done]. congruence.
Qed.

Lemma written_pairs secs : concat (map sec_pairs (map written secs)) ≡ₚ concat (map sec_pairs secs).
Proof.
  induction secs as [|sec secs IH]; [done|]. cbn [map concat]. apply Permutation_app; [|done]. clear.
  unfold sec_pairs, written. cbn [fst snd]. rewrite map_map.
  rewrite (map_ext (fun kv => full _ (low kv)) _ (full_low (fst sec ++ [45]))), map_rev. symmetry. apply Permutation_rev.
Qed.

Lemma low_ok kvs : pairs_ok kvs -> pairs_ok (map low (rev kvs)).
Proof.
  intros H. apply Forall_map, Forall_rev. eapply Forall_impl; [exact H|]. intros kv [Hk Hv]. by split; [apply word_ok_low|].
Qed.

(** The lines of the comment at the top of the file. *)
Definition heads : list bytes :=
  [[]; [35; 35; 197; 228; 214; 195; 206; 196; 188; 254; 178; 187; 199; 248; 183; 214; 180; 243; 208; 161; 208; 180; 33]; []].

Lemma heads_quiet : Forall (fun l => quiet l /\ line_ok l) heads.
Proof.
  repeat (apply Forall_cons; split); try constructor; try (intros st section; done); split; by apply (bool_decide_unpack _).
Qed.

Lemma rule_quiet : Forall (fun l => quiet l /\ line_ok l) [rule].
Proof. constructor; [|constructor]. split; [intros st section; done|split; by apply (bool_decide_unpack _)]. Qed.

(** C25: a configuration written back with [myconfig_dump_to_file] reads as the
    one it was written from, key for key, provided it has settings outside
    sections, no section's name begins with another's and every key is given
    once.  (Otherwise the first section loses its name, or settings move to
    another section, or the oldest value of a key becomes the current one.) *)
Theorem dump_reads_back keys top secs file :
  pairs_ok top -> top <> [] -> Forall sec_ok secs -> sections_apart [([], rev top)] secs ->
  NoDup (map fst (map (full []) top ++ concat (map sec_pairs secs))) ->
  k_file file = Some (config_text top secs) ->
  exists st text, myconfig_loadfile0 (blank_store keys) file = Some (0, st) /\ myconfig_dump_to_file st = Some text /\
    forall file', k_file file' = Some text ->
      exists st', myconfig_loadfile0 (blank_store keys) file' = Some (0, st') /\
        forall k, myconfig_get_value st' k = myconfig_get_value st k.
Proof.
  intros Ht Hne Hs Ha Hn Hf. destruct (blank_fine keys) as [L0 S0].
  assert (Hs' : Forall (fun sec => name_ok (fst sec) /\ pairs_ok (snd sec)) secs).
  { eapply Forall_impl; [exact Hs|]. intros sec (H1 & H2 & _). by split. }
  destruct (load_config [] [] [] [] top secs (blank_store keys) file) as (st & E1 & L1 & _ & G1); try done;
    try (split; apply not_elem_of_nil).
  specialize (G1 S0 Hne Ha). destruct G1 as (sl & n & Hp & _ & H2).
  apply Forall2_cons_inv_r in H2 as ([s ms] & sl' & (Hs0 & Hms & Hl) & H2 & ->). cbn [fst snd] in *. subst s.
  set (out := heads ++ tabbed (map low (rev top)) ++ [rule] ++ concat (map (block [9] [32] [rule]) (map written secs))).
  exists st, (unlines out). split; [done|]. split.
  - unfold myconfig_dump_to_file. rewrite Hp. cbn [map app fst snd dump_slots]. change (used (slot_of [] ms) =? 0) with false.
    cbv iota zeta. rewrite slot_text by (simpl; lia || apply not_elem_of_nil). cbn [mbind option_bind].
    change (members (slot_of [] ms)) with ms. rewrite (dump_members_lines _ [] (rev top) ms) by (done || by apply pairs_no_zero).
    cbn [mbind option_bind]. rewrite (dump_slots_lines _ n secs 0 sl' H2 Hs). cbn [mbind option_bind]. f_equal.
    unfold out. rewrite !unlines_app. cbn [app]. unfold dump_comment, dump_rule. fold rule. done.
  - intros file' Hf'.
    assert (Hb : Forall (fun sec => name_ok (fst sec) /\ pairs_ok (snd sec)) (map written secs)).
    { apply Forall_map. eapply Forall_impl; [exact Hs'|]. intros sec [A B]. split; [done|by apply low_ok]. }
    assert (H9 : line_ok [9] /\ line_ok [32]) by (split; split; by apply (bool_decide_unpack _)). destruct H9 as [H9 H32].
    destruct (load_config [9] [32] heads [rule] (map low (rev top)) (map written secs) (blank_store keys) file' L0 eq_refl
      ltac:(by repeat constructor) ltac:(by repeat constructor) H9 H32 heads_quiet rule_quiet (low_ok _ Ht) Hb Hf')
      as (st' & E2 & L2 & _).
    exists st'. split; [done|]. intros k. destruct L1 as [(a1 & H1 & Hl1) _ _], L2 as [(a2 & H3 & Hl2) _ _].
    rewrite (get_value_spec _ a2), (get_value_spec _ a1), Hl1, Hl2 by done. f_equal. symmetry.
    apply newest_perm; [by rewrite map_rev, <- Permutation_rev|]. rewrite !rev_reverse, !reverse_Permutation.
    apply Permutation_app; [|symmetry; apply written_pairs]. rewrite map_map.
    rewrite (map_ext (fun kv => full [] (low kv)) (full []) (full_low [])). done.
Qed.

End Loading.
End Facts.

(** ** Examples *)

Definition demo_top : list (bytes * bytes) := [(str "Task_Timeout", str "600"); (str "pfs.test", str "Off")].
Definition demo_secs : list (bytes * list (bytes * bytes)) := [(str "log", [(str "level", str "3"); (str "rotate-size", str "10 M")])].
Definition demo_args : list (bytes * bytes) := [(str "task_timeout", str "900")].
Definition demo_name : bytes := str "/pfs/bin/pfs.conf".

(** The file, and what it becomes when it is written back, under another name. *)
Definition demo_written : bytes :=
  unlines (heads ++ tabbed (map low (rev demo_top)) ++ [rule] ++ concat (map (block [9] [32] [rule]) (map written demo_secs))).

Definition demo_files (name : bytes) : option bytes :=
  if streq name demo_name then Some (config_text demo_top demo_secs)
  else if streq name (str "/copy") then Some demo_written
  else if streq name (str "/open") then Some (str "timeout = 5") else None.

Definition demo_surroundings : Surroundings :=
  mk_surroundings (fun st => Some (fresh (dom (entries st)))) demo_files (Some (str "/pfs/bin/pfs")) (fun _ => true).

#[local] Existing Instance demo_surroundings.

Lemma demo_malloc st : exists a, k_malloc st = Some a /\ entries st !! a = None.
Proof. exists (fresh (dom (entries st))). split; [done|]. apply not_elem_of_dom, is_fresh. Qed.

Lemma demo_trimmed p c t d u : p c = false -> c :: t = u ++ [d] -> p d = false -> trimmed p (c :: t).
Proof. intros Hc E Hd. split; [by exists c, t|]. exists u, d. by split. Qed.

Ltac demo_text := repeat constructor; try (apply (bool_decide_unpack _); vm_compute; exact I); try reflexivity.
Ltac demo_value u d := split; [apply (demo_trimmed _ _ _ d u); reflexivity|apply (bool_decide_unpack _); vm_compute; exact I|demo_text].

Lemma demo_pairs : pairs_ok demo_top.
Proof.
  repeat (apply Forall_cons; split); [| |constructor]; (split; [split; demo_text|]).
  - demo_value (str "60") 48.
  - demo_value (str "Of") 102.
Qed.

Lemma demo_sections : Forall sec_ok demo_secs.
Proof.
  apply Forall_cons. split; [|constructor]. split; [|split].
  - split; [apply (demo_trimmed _ _ _ 103 (str "lo")); reflexivity| | |]; demo_text.
  - repeat (apply Forall_cons; split); [| |constructor]; (split; [split; demo_text|]).
    + demo_value (@nil Z) 51.
    + demo_value (str "10 ") 77.
  - apply (bool_decide_unpack _). vm_compute. exact I.
Qed.

Lemma demo_names : Forall (fun sec => name_ok (fst sec) /\ pairs_ok (snd sec)) demo_secs.
Proof. eapply Forall_impl; [exact demo_sections|]. intros sec (A & B & _). by split. Qed.

Lemma config_read_witness :
  let l := map (full []) demo_top ++ concat (map sec_pairs demo_secs) ++ map (full []) demo_args in
  exists st, myconfig_init (blank_store []) (map arg_text demo_args) = Some (0, st) /\ inited st = true /\
    (forall k, myconfig_get_value st k = Some (newest k (rev l))) /\
    (forall k i, 0 <= i -> myconfig_get_multivalue st k i = Some ((snd <$> filter (fun kv => fst kv = k) l) !! Z.to_nat i)) /\
    (forall k d, exists st', myconfig_get_intval st k d = Some (default d (v ← newest k (rev l); word_val v), st')).
Proof.
  intros l. apply (config_read (K := demo_surroundings) demo_malloc [] demo_top demo_secs demo_args).
  - exact demo_pairs.
  - exact demo_names.
  - apply Forall_cons. split; [|constructor]. split; [reflexivity|]. split; [|split; [discriminate|split; [discriminate|]]];
      apply (bool_decide_unpack _); vm_compute; exact I.
  - vm_compute. reflexivity.
Defined.

Lemma config_needs_newline_witness : myconfig_loadfile0 (blank_store []) (str "/open") = None.
Proof.
  apply (config_needs_newline (K := demo_surroundings) (blank_store []) (str "/open") (str "timeout = 5"));
    [reflexivity|discriminate|discriminate].
Defined.

Definition demo_store : state :=
  match myconfig_loadfile0 (blank_store []) demo_name with Some (_, st) => st | None => blank_store [] end.

Lemma demo_loaded : loaded demo_store (rev (map (full []) demo_top ++ concat (map sec_pairs demo_secs))).
Proof.
  destruct (blank_fine []) as [L0 _].
  destruct (load_config (K := demo_surroundings) demo_malloc [] [] [] [] demo_top demo_secs (blank_store []) demo_name)
    as (st & E & L & _); [exact L0|reflexivity|constructor|constructor|split; apply not_elem_of_nil|split; apply not_elem_of_nil
    |constructor|constructor|exact demo_pairs|exact demo_names|vm_compute; reflexivity|].
  unfold demo_store. by rewrite E.
Qed.

Lemma updated_setting_stale_witness :
  exists st1 st2, myconfig_get_intval demo_store (str "task_timeout") 0 = Some (600, st1) /\
    myconfig_update_value st1 (str "task_timeout") (str "30") = Some (1, st2) /\
    myconfig_get_value st2 (str "task_timeout") = Some (Some (str "30")) /\
    myconfig_get_intval st2 (str "task_timeout") 0 = Some (600, st2).
Proof.
  apply (updated_setting_stale (K := demo_surroundings) demo_store _ (str "task_timeout") 0 (str "600") 600 (str "30") demo_loaded);
    [vm_compute; reflexivity|vm_compute; reflexivity|discriminate|apply (bool_decide_unpack _); vm_compute; exact I].
Defined.

(** The program started, with one setting that may be reloaded. *)
Definition demo_started : state :=
  mk_state (entries demo_store) (myhash demo_store) (prelist demo_store) true [str "level"] [4; 2].

Lemma reload_changes_listed_witness :
  exists st', myconfig_reload demo_started = Some ([4; 2], st') /\
    myconfig_get_value st' (str "task_timeout") = myconfig_get_value demo_started (str "task_timeout").
Proof.
  destruct demo_loaded as [(addrs & H & _) _ _].
  assert (E : exists r, myconfig_reload demo_started = Some r).
  { assert (X : match myconfig_reload demo_started with Some _ => true | None => false end = true) by (vm_compute; reflexivity).
    destruct (myconfig_reload demo_started) as [r|]; [by exists r|discriminate]. }
  destruct E as [[cbs st'] E]. exists st'.
  destruct (reload_changes_listed (K := demo_surroundings) demo_malloc demo_started addrs (str "task_timeout") cbs st') as [E1 E2].
  - destruct H. by constructor.
  - reflexivity.
  - intros rk ->%list_elem_of_singleton. split; apply (bool_decide_unpack _); vm_compute; exact I.
  - exact E.
  - split; [rewrite E, E2; reflexivity|exact E1].
Defined.

Lemma dump_reads_back_witness :
  exists st text, myconfig_loadfile0 (blank_store []) demo_name = Some (0, st) /\ myconfig_dump_to_file st = Some text /\
    forall file', k_file file' = Some text ->
      exists st', myconfig_loadfile0 (blank_store []) file' = Some (0, st') /\
        forall k, myconfig_get_value st' k = myconfig_get_value st k.
Proof.
  apply (dump_reads_back (K := demo_surroundings) demo_malloc [] demo_top demo_secs demo_name).
  - exact demo_pairs.
  - discriminate.
  - exact demo_sections.
  - split; [discriminate|]. split; [apply (bool_decide_unpack _); vm_compute; exact I|].
    split; [apply (bool_decide_unpack _); vm_compute; exact I|]. split; [|exact I]. repeat constructor.
  - apply (bool_decide_unpack _). vm_compute. exact I.
  - reflexivity.
Defined.

End MyConfig.
