(* ===== verification/Storage.v ===== *)
(** * Disks, directories and start-up configuration (network/pfs_init.c)

    [Disk]: the table of disks, which directories of the two-level tree lie on
    which disk, the choice of the disk with most free space and the rotation
    over its directories.  [Path]: the two directory numbers of a path.
    [Config]: the numeric settings.

    What the file system answers ([lstat], [statfs]) is an argument. *)

From S2P Require Import Prelude.
From S2P Require Import CString.
From S2P Require Import Domain.

Module Disk.
Import Domain.

Definition TOTALDIRS : Z := 10000.

(** [pathcluster] is zero beyond the part in use; the list is a prefix of it. *)
Record t_disk_info := mk_disk {
  fsid : Z;
  firstpath : bytes;
  count : Z;
  d_index : Z;
  pathcluster : list Z
}.

Definition empty_disk : t_disk_info := mk_disk 0 [] 0 0 [].

(** [max_disk] is an index into [diskinfo]; [set_info_disk] can leave it one
    past the end. *)
Record disks := mk_disks {
  diskinfo : list t_disk_info;     (* MAXDISKS entries *)
  max_disk : option nat;
  maxfreevalue : Z
}.

Definition path_at (l : list Z) (j : nat) : Z := nth j l 0.

(** The search for [dirs] or a zero in [pathcluster]: the new prefix and
    whether [count] grows; [None] when all slots are taken by others. *)
Fixpoint place (slots : nat) (dirs : Z) (l : list Z) : option (list Z * bool) :=
  match slots with
  | O => None
  | S n =>
      match l with
      | [] => if 0 =? dirs then Some ([], false) else Some ([dirs], true)
      | x :: t => if x =? dirs then Some (l, false)
                  else if x =? 0 then Some (dirs :: t, true)
                  else '(t', g) ← place n dirs t; Some (x :: t', g)
      end
  end.

(** The loop of [set_info_disk] over the disks from number [i] on: the code,
    the disks and the number the pointer [disk_info] has reached. *)
Fixpoint set_disk_loop (outdir : bytes) (id dirs : Z) (i : nat) (l : list t_disk_info)
  : Z * list t_disk_info * nat :=
  match l with
  | [] => (0, [], i)
  | k :: t =>
      if count k =? 0 then
        (0, mk_disk id (snprintf 256 outdir) 1 (d_index k)
              (match pathcluster k with [] => [dirs] | _ :: r => dirs :: r end) :: t, i)
      else if fsid k =? id then
        if TOTALDIRS <=? count k then (-1, l, i)
        else match place (Z.to_nat TOTALDIRS) dirs (pathcluster k) with
             | Some (pc, g) =>
                 (0, mk_disk (fsid k) (firstpath k) (if g : bool then count k + 1 else count k)
                       (d_index k) pc :: t, i)
             | None => (-1, l, i)
             end
      else
        let '(r, t', j) := set_disk_loop outdir id dirs (S i) t in (r, k :: t', j)
  end.

(** [set_info_disk(outdir, d1, d2)]; [id] is [sfs.f_fsid] after the call of
    [statfs], [err] whether [lstat] or [statfs] failed. *)
Definition set_info_disk (DIR1 : Z) (ds : disks) (outdir : bytes) (d1 d2 id : Z) (err : bool)
  : Z * disks :=
  let '(r, l, i) := set_disk_loop outdir id (d1 * DIR1 + d2) 0 (diskinfo ds) in
  if negb (r =? 0) then (-1, mk_disks l (max_disk ds) (maxfreevalue ds))
  else (0, mk_disks l (if err then max_disk ds else Some i) (maxfreevalue ds)).

Definition outdir_of (datadir : bytes) (d1 d2 : Z) : bytes :=
  datadir ++ str "/" ++ dec d1 ++ str "/" ++ dec d2 ++ str "/".

(** [refresh_disk_info]: all directories, row by row; [probe d1 d2] is the
    file system id and the error flag. *)
Fixpoint refresh_loop (DIR1 : Z) (datadir : bytes) (probe : Z -> Z -> Z * bool)
    (ds : disks) (dirs : list (Z * Z)) : Z * disks :=
  match dirs with
  | [] => (0, ds)
  | (d1, d2) :: t =>
      let '(id, err) := probe d1 d2 in
      let '(r, ds) := set_info_disk DIR1 ds (outdir_of datadir d1 d2) d1 d2 id err in
      if negb (r =? 0) then (-1, ds) else refresh_loop DIR1 datadir probe ds t
  end.

Definition all_dirs (DIR1 DIR2 : Z) : list (Z * Z) :=
  seqZ 0 DIR1 ≫= fun d1 => map (pair d1) (seqZ 0 DIR2).

Definition refresh_disk_info (DIR1 DIR2 : Z) (datadir : bytes) (probe : Z -> Z -> Z * bool)
    (ds : disks) : Z * disks :=
  let '(r, ds) := refresh_loop DIR1 datadir probe ds (all_dirs DIR1 DIR2) in
  if negb (r =? 0) then (-1, ds)
  else match max_disk ds with None => (-1, ds) | Some _ => (0, ds) end.

(** [refresh_maxfreedisk]: for disk [i], [stat i] is [None] if [lstat] or
    [statfs] fails and the free blocks and block size otherwise; [test] is
    [g_config.pfs_test], [coin i] the value of [rand()%2]. *)
Fixpoint maxfree_loop (stat : nat -> option (Z * Z)) (test : Z) (coin : nat -> bool)
    (i : nat) (l : list t_disk_info) (self : t_pfs_domain) (curmax : Z) (best : nat)
  : t_pfs_domain * Z * nat :=
  match l with
  | [] => (self, curmax, best)
  | k :: t =>
      if count k =? 0 then (self, curmax, best)
      else
        let bad := maxfree_loop stat test coin (S i) t
                     (set_self_disk_err self (Z.of_nat i) 1) curmax best in
        match stat i with
        | None => bad
        | Some (bfree, bsize) =>
            if (test =? 1) && coin i then bad
            else
              let self := set_self_disk_err self (Z.of_nat i) 0 in
              if check_domain_disk_err self (Z.of_nat i)
              then maxfree_loop stat test coin (S i) t self curmax best
              else
                let diskfree := Z.shiftr (u64 (bfree * bsize)) 30 in
                if curmax <? diskfree
                then maxfree_loop stat test coin (S i) t self (u32 diskfree) i
                else maxfree_loop stat test coin (S i) t self curmax best
        end
  end.

Definition refresh_maxfreedisk (stat : nat -> option (Z * Z)) (test : Z) (coin : nat -> bool)
    (ds : disks) (self : t_pfs_domain) : disks * t_pfs_domain :=
  let '(self, m, i) := maxfree_loop stat test coin 0 (diskinfo ds) self 0 0 in
  (mk_disks (diskinfo ds) (Some i) m, self).

(** [get_max_free_storage(&d1, &d2)]: [None] when [max_disk] is past the
    table; [inl] when there is no disk and the arguments are left alone. *)
Definition get_max_free_storage (DIR1 : Z) (ds : disks) : option (unit + (Z * Z) * disks) :=
  match max_disk ds with
  | None => Some (inl tt)
  | Some i =>
      k ← diskinfo ds !! i;
      let v := path_at (pathcluster k) (Z.to_nat (d_index k)) in
      let n := d_index k + 1 in
      let k' := mk_disk (fsid k) (firstpath k) (count k)
                  (if count k <=? n then 0 else n) (pathcluster k) in
      Some (inr ((v / DIR1, v mod DIR1),
                 mk_disks (<[i := k']> (diskinfo ds)) (max_disk ds) (maxfreevalue ds)))
  end.

(** ** The directories of a disk *)

(** The entries [get_max_free_storage] rotates over. *)
Definition dirs_of (k : t_disk_info) : list Z :=
  map (path_at (pathcluster k)) (seq 0 (Z.to_nat (count k))).

(** [nz] are the non-zero directories in [pathcluster]; directory 0, when it is
    on the disk, is the entry after them, which is zero like the unused ones. *)
Record holds (k : t_disk_info) (D : list Z) (nz : list Z) : Prop := mk_holds {
  h_path : forall j, path_at (pathcluster k) j = nth j nz 0;
  h_nz : NoDup nz /\ 0 ∉ nz;
  h_dirs : (0 ∉ D /\ D ≡ₚ nz /\ count k = zlen nz) \/
           (D ≡ₚ 0 :: nz /\ count k = zlen nz + 1)
}.

Lemma map_nth_seq (l : list Z) : map (fun j => nth j l 0) (seq 0 (length l)) = l.
Proof.
  induction l as [|x l IH]; [done|]. cbn [length seq map nth]. f_equal.
  rewrite <- seq_shift, map_map. exact IH.
Qed.

Lemma holds_dirs_of k D nz : holds k D nz -> dirs_of k ≡ₚ D.
Proof.
  intros [H1 H2 H3]. unfold dirs_of.
  rewrite (map_ext _ (fun j => nth j nz 0)) by apply H1.
  destruct H3 as [(_ & HD & ->)|(HD & ->)].
  - by rewrite Nat2Z.id, map_nth_seq.
  - replace (Z.to_nat (zlen nz + 1)) with (S (length nz)) by lia.
    rewrite seq_S, map_app, map_nth_seq. cbn [map Nat.add].
    rewrite (nth_overflow nz) by lia. rewrite HD. by rewrite Permutation_app_comm.
Qed.

Lemma place_zeros n dirs l :
  (0 < n)%nat -> (forall j, nth j l 0 = 0) ->
  exists l' , place n dirs l = Some (l', negb (dirs =? 0)) /\
    (forall j, nth j l' 0 = nth j (if dirs =? 0 then [] else [dirs]) 0).
Proof.
  intros Hn Hl. destruct n as [|n]; [lia|]. cbn [place].
  destruct l as [|x t].
  - rewrite (Z.eqb_sym 0 dirs). destruct (dirs =? 0); eexists; (split; [done|]); done.
  - pose proof (Hl 0%nat) as Hx. cbn in Hx. subst x.
    rewrite (Z.eqb_sym 0 dirs). destruct (dirs =? 0) eqn:E; cbn [negb].
    + eexists. split; [done|]. intros j. rewrite Hl. by destruct j.
    + rewrite Z.eqb_refl. eexists. split; [done|]. intros [|j]; [done|].
      specialize (Hl (S j)). cbn in *. by destruct j.
Qed.

(** Placing a directory in the prefix that stands for [nz]. *)
Lemma place_spec n dirs nz : forall l,
  (length nz < n)%nat -> (forall j, nth j l 0 = nth j nz 0) -> NoDup nz -> 0 ∉ nz ->
  exists l', place n dirs l
    = Some (l', bool_decide (dirs ∉ nz /\ dirs <> 0)) /\
    (forall j, nth j l' 0 = nth j (if decide (dirs ∈ nz \/ dirs = 0) then nz else nz ++ [dirs]) 0).
Proof.
  revert n. induction nz as [|x nz IH]; intros n l Hn Hl HN H0.
  - destruct (place_zeros n dirs l) as (l' & -> & Hl'); [cbn in Hn; lia|intros j; rewrite Hl; by destruct j|].
    exists l'. destruct (dirs =? 0) eqn:E; b2p; cbn [negb].
    + rewrite decide_True by auto. rewrite bool_decide_false by tauto. done.
    + rewrite decide_False by set_solver. rewrite bool_decide_true by set_solver. done.
  - destruct n as [|n]; [cbn in Hn; lia|].
    assert (Hx : x <> 0) by set_solver. apply NoDup_cons in HN as [Hxn HN].
    destruct l as [|y t]; [specialize (Hl 0%nat); cbn in Hl; congruence|].
    pose proof (Hl 0%nat) as Hy. cbn in Hy. subst y. cbn [place].
    assert (Ht : forall j, nth j t 0 = nth j nz 0) by (intros j; apply (Hl (S j))).
    destruct (x =? dirs) eqn:E; b2p.
    + subst. exists (dirs :: t). rewrite decide_True by set_solver.
      rewrite bool_decide_false by set_solver. done.
    + destruct (x =? 0) eqn:E0; b2p; [done|].
      destruct (IH n t) as (l' & -> & Hl'); [cbn in Hn; lia|done|done|set_solver|].
      cbn [mbind option_bind]. exists (x :: l'). split.
      * do 2 f_equal. apply bool_decide_ext. set_solver.
      * intros [|j]; cbn [nth].
        -- destruct (decide (dirs ∈ x :: nz \/ dirs = 0)); done.
        -- rewrite Hl'. destruct (decide (dirs ∈ nz \/ dirs = 0)), (decide (dirs ∈ x :: nz \/ dirs = 0));
             try done; set_solver.
Qed.

(** Recording directory [dirs] on the disk whose file system it is on. *)
Lemma place_holds k D nz dirs :
  holds k D nz -> count k < TOTALDIRS ->
  exists pc g, place (Z.to_nat TOTALDIRS) dirs (pathcluster k) = Some (pc, g) /\
  exists nz', holds (mk_disk (fsid k) (firstpath k) (if g : bool then count k + 1 else count k)
                       (d_index k) pc)
                    (if decide (dirs ∈ D) then D else if decide (dirs = 0) then D else dirs :: D) nz'.
Proof.
  intros [H1 [HN H0] H3] Hc.
  destruct (place_spec (Z.to_nat TOTALDIRS) dirs nz (pathcluster k)) as (pc & -> & Hpc); [|done|done|done|].
  { destruct H3 as [(_ & _ & E)|(_ & E)]; lia. }
  eexists _, _. split; [done|].
  assert (HD : dirs <> 0 -> dirs ∈ D <-> dirs ∈ nz).
  { intros Hd. destruct H3 as [(_ & -> & _)|(-> & _)]; set_solver. }
  exists (if decide (dirs ∈ nz \/ dirs = 0) then nz else nz ++ [dirs]).
  split; cbn [pathcluster count]; [done| |].
  - destruct (decide _); [done|]. split; [|set_solver].
    apply NoDup_app. split; [done|]. split; [set_solver|apply NoDup_singleton].
  - destruct (decide (dirs ∈ nz \/ dirs = 0)) as [Hin|Hout].
    + rewrite bool_decide_false by tauto.
      destruct (decide (dirs ∈ D)); [done|]. destruct (decide (dirs = 0)); [done|].
      exfalso. tauto.
    + rewrite bool_decide_true by tauto. rewrite (decide_False (P := dirs ∈ D)) by tauto.
      rewrite decide_False by tauto. rewrite length_app. cbn [length].
      destruct H3 as [(A1 & A2 & A3)|(A2 & A3)]; [left|right].
      * split_and!; [set_solver| |lia]. rewrite A2. by rewrite Permutation_app_comm.
      * split; [|lia]. rewrite A2. rewrite (Permutation_app_comm nz). cbn.
        by rewrite Permutation_swap.
Qed.

(** ** The table after a refresh *)

Definition on_disk (P : list (Z * Z)) (id : Z) : list Z :=
  map snd (base.filter (fun x => fst x = id) P).

(** The used disks come first; each holds exactly the recorded directories of
    its file system. *)
Record table (l : list t_disk_info) (P : list (Z * Z)) (used : list t_disk_info) : Prop := mk_table {
  t_split : exists m, l = used ++ replicate m empty_disk;
  t_len : zlen l = MAXDISKS;
  t_ids : NoDup (map fsid used);
  t_holds : forall k, k ∈ used -> count k <> 0 /\ exists nz, holds k (on_disk P (fsid k)) nz;
  t_all : forall id, id ∈ map fst P <-> id ∈ map fsid used
}.

Lemma table_empty : table (replicate 32 empty_disk) [] [].
Proof.
  split; [by exists 32%nat|done|constructor|set_solver|set_solver].
Qed.

Lemma on_disk_snoc P id dirs id' :
  on_disk (P ++ [(id, dirs)]) id'
  = if decide (id = id') then on_disk P id' ++ [dirs] else on_disk P id'.
Proof.
  unfold on_disk. rewrite filter_app, map_app.
  destruct (decide (id = id')) as [->|Hne].
  - by rewrite (filter_cons_True _ (id', dirs)) by done.
  - rewrite (filter_cons_False _ (id, dirs)) by done. by rewrite app_nil_r.
Qed.

Lemma holds_perm k D D' nz : D ≡ₚ D' -> holds k D nz -> holds k D' nz.
Proof. intros HP [A B C]. split; [done|done|]. by rewrite <- HP. Qed.

Lemma set_loop_skip outdir id dirs u l i :
  (forall k, k ∈ u -> count k <> 0 /\ fsid k <> id) ->
  set_disk_loop outdir id dirs i (u ++ l)
  = let '(r, l', j) := set_disk_loop outdir id dirs (i + length u) l in (r, u ++ l', j).
Proof.
  revert i. induction u as [|k u IH]; intros i Hu.
  { rewrite Nat.add_0_r. cbn [app]. by destruct (set_disk_loop _ _ _ i l) as [[? ?] ?]. }
  cbn [app set_disk_loop]. destruct (Hu k ltac:(set_solver)) as [H1 H2].
  destruct (count k =? 0) eqn:E1; b2p; [done|]. destruct (fsid k =? id) eqn:E2; b2p; [done|].
  rewrite IH by set_solver. cbn [length]. replace (S i + length u)%nat with (i + S (length u))%nat by lia.
  by destruct (set_disk_loop _ _ _ _ l) as [[? ?] ?].
Qed.

(** One directory on a disk already known. *)
Lemma set_loop_known outdir id dirs u1 k u2 l :
  (forall x, x ∈ u1 -> count x <> 0 /\ fsid x <> id) -> count k <> 0 -> fsid k = id ->
  count k < TOTALDIRS ->
  forall pc g, place (Z.to_nat TOTALDIRS) dirs (pathcluster k) = Some (pc, g) ->
  set_disk_loop outdir id dirs 0 (u1 ++ k :: u2 ++ l)
  = (0, u1 ++ mk_disk (fsid k) (firstpath k) (if g : bool then count k + 1 else count k)
                (d_index k) pc :: u2 ++ l, length u1).
Proof.
  intros Hu Hc Hf Hlt pc g Hp. rewrite set_loop_skip by done. cbn [Nat.add set_disk_loop].
  destruct (count k =? 0) eqn:E1; b2p; [done|]. destruct (fsid k =? id) eqn:E2; b2p; [|done].
  destruct (_ <=? count k) eqn:E3; b2p; [lia|]. by rewrite Hp.
Qed.

Lemma table_known l P used u1 k u2 outdir dirs :
  table l P used -> used = u1 ++ k :: u2 -> dirs ∉ on_disk P (fsid k) -> dirs <> 0 ->
  count k < TOTALDIRS ->
  exists l' used', set_disk_loop outdir (fsid k) dirs 0 l = (0, l', length u1) /\
    table l' (P ++ [(fsid k, dirs)]) used' /\ (length u1 < length used')%nat /\
    length used' = length used.
Proof.
  intros [[m Hl] Hlen Hids Hh Hall] Hu Hnd Hd0 Hlt. subst used.
  destruct (Hh k ltac:(set_solver)) as (Hc & nz & Hk).
  destruct (place_holds k _ nz dirs Hk Hlt) as (pc & g & Hp & nz' & Hk').
  rewrite decide_False in Hk' by done. rewrite decide_False in Hk' by done.
  pose proof (fun o u H => set_loop_known o (fsid k) dirs u1 k u2 u H Hc eq_refl Hlt pc g Hp) as HS.
  clear Hp Hlt. rewrite map_app in Hids. cbn [map] in Hids. apply NoDup_app in Hids as (I1 & I2 & I3).
  apply NoDup_cons in I3 as [I3 I4].
  assert (Hu1 : forall x, x ∈ u1 -> fsid x <> fsid k).
  { intros x Hx E. apply (I2 (fsid x)); [by apply list_elem_of_fmap_2|]. rewrite E. set_solver. }
  assert (Hu2 : forall x, x ∈ u2 -> fsid x <> fsid k).
  { intros x Hx E. apply I3. rewrite <- E. by apply list_elem_of_fmap_2. }
  exists (u1 ++ mk_disk (fsid k) (firstpath k) (if g then count k + 1 else count k) (d_index k) pc
            :: u2 ++ replicate m empty_disk),
         (u1 ++ mk_disk (fsid k) (firstpath k) (if g then count k + 1 else count k) (d_index k) pc :: u2).
  split; [|split; [split|]].
  - rewrite Hl, <- app_assoc. apply HS.
    intros x Hx. split; [apply (Hh x); set_solver|by apply Hu1].
  - exists m. by rewrite <- app_assoc.
  - rewrite Hl in Hlen. rewrite !length_app in *. cbn [length] in *. rewrite length_app. lia.
  - rewrite map_app. cbn [map fsid]. apply NoDup_app. split; [done|]. split; [done|].
    by apply NoDup_cons.
  - intros x Hx. apply elem_of_app in Hx as [Hx|[->|Hx]%elem_of_cons].
    + rewrite on_disk_snoc, decide_False by (intros E; by apply (Hu1 x)).
      apply Hh. set_solver.
    + cbn [fsid count]. split.
      { destruct (h_dirs _ _ _ Hk) as [(_ & _ & E)|(_ & E)]; destruct g; lia. }
      exists nz'. rewrite on_disk_snoc, decide_True by done.
      eapply holds_perm; [|exact Hk']. by rewrite Permutation_app_comm.
    + rewrite on_disk_snoc, decide_False by (intros E; by apply (Hu2 x)).
      apply Hh. set_solver.
  - intros id. rewrite !map_app in *. cbn [map fst fsid] in *. rewrite elem_of_app, Hall.
    cbn [map]. set_solver.
  - rewrite !length_app. cbn [length]. lia.
Qed.

(** One directory on a disk not seen before. *)
Lemma table_new l P used outdir id dirs :
  table l P used -> id ∉ map fsid used -> zlen used < MAXDISKS ->
  exists l' used', set_disk_loop outdir id dirs 0 l = (0, l', length used) /\
    table l' (P ++ [(id, dirs)]) used' /\ (length used < length used')%nat.
Proof.
  intros [[m Hl] Hlen Hids Hh Hall] Hid Hmax.
  assert (HP : id ∉ map fst P) by (by rewrite Hall).
  destruct m as [|m].
  { rewrite Hl, length_app in Hlen. cbn in Hlen. lia. }
  assert (Hne : forall x, x ∈ used -> fsid x <> id).
  { intros x Hx <-. apply Hid. by apply list_elem_of_fmap_2. }
  exists (used ++ mk_disk id (snprintf 256 outdir) 1 0 [dirs] :: replicate m empty_disk),
         (used ++ [mk_disk id (snprintf 256 outdir) 1 0 [dirs]]).
  split; [|split; [split|]].
  - rewrite Hl, set_loop_skip; [done|]. intros x Hx. split; [by apply Hh|by apply Hne].
  - exists m. by rewrite <- app_assoc.
  - rewrite Hl, length_app in Hlen. rewrite length_app. cbn [length replicate] in *. lia.
  - rewrite map_app. cbn [map fsid]. apply NoDup_app. split; [done|].
    split; [|apply NoDup_singleton]. intros x Hx ->%list_elem_of_singleton. done.
  - intros x Hx. apply elem_of_app in Hx as [Hx|Hx%list_elem_of_singleton].
    + rewrite on_disk_snoc, decide_False by (intros E; by apply (Hne x)). by apply Hh.
    + subst x. cbn [fsid count]. split; [lia|].
      assert (Hon : on_disk P id = []).
      { unfold on_disk. destruct (base.filter _ P) as [|y r] eqn:E; [done|].
        exfalso. assert (Hy : y ∈ base.filter (fun x => fst x = id) P) by (rewrite E; set_solver).
        apply list_elem_of_filter in Hy as [Hy1 Hy2]. apply HP. rewrite <- Hy1.
        by apply list_elem_of_fmap_2. }
      exists (if decide (dirs = 0) then [] else [dirs]).
      rewrite on_disk_snoc, decide_True, Hon by done. cbn [app].
      split; cbn [pathcluster count].
      * intros j. unfold path_at. case_decide; [subst; by destruct j as [|[|]]|done].
      * case_decide; (split; [|set_solver]); [constructor|apply NoDup_singleton].
      * case_decide as E0; [subst; by right|left]. split_and!; [set_solver|done|done].
  - intros x. rewrite !map_app. cbn [map fst fsid]. rewrite !elem_of_app, Hall. done.
  - rewrite length_app. cbn [length]. lia.
Qed.

Lemma on_disk_length P id : (length (on_disk P id) <= length P)%nat.
Proof. unfold on_disk. rewrite length_map. apply length_filter. Qed.

Lemma holds_count k D nz : holds k D nz -> count k = zlen D.
Proof.
  intros [_ _ [(_ & E & ->)|(E & ->)]]; rewrite (Permutation_length E); cbn [length]; lia.
Qed.

Definition max_ok (ds : disks) (used : list t_disk_info) : Prop :=
  match max_disk ds with Some i => (i < length used)%nat | None => True end.

(** One directory, seen for the first time; only the first one may be 0. *)
Lemma set_info_step DIR1 ds P used outdir d1 d2 id err ids :
  let dirs := d1 * DIR1 + d2 in
  table (diskinfo ds) P used -> max_ok ds used ->
  dirs ∉ map snd P -> (P <> [] -> dirs <> 0) -> zlen P < TOTALDIRS ->
  zlen ids <= MAXDISKS -> id ∈ ids -> (forall x, x ∈ map fst P -> x ∈ ids) ->
  exists ds' used', set_info_disk DIR1 ds outdir d1 d2 id err = (0, ds') /\
    table (diskinfo ds') (P ++ [(id, dirs)]) used' /\ max_ok ds' used' /\
    (err = false -> max_disk ds' <> None) /\ (max_disk ds <> None -> max_disk ds' <> None).
Proof.
  intros dirs HT HM Hnd H0 Hmax Hids Hid Hsub.
  assert (G : exists l' used' i, set_disk_loop outdir id dirs 0 (diskinfo ds) = (0, l', i) /\
    table l' (P ++ [(id, dirs)]) used' /\ (i < length used')%nat /\ (length used <= length used')%nat).
  { destruct (decide (id ∈ map fsid used)) as [Hin|Hout].
    - pose proof Hin as Hin'. apply list_elem_of_fmap in Hin as (k & -> & Hk).
      apply list_elem_of_split in Hk as (u1 & u2 & ->).
      destruct (t_holds _ _ _ HT k ltac:(set_solver)) as (_ & nz & Hh).
      pose proof (on_disk_length P (fsid k)).
      destruct (table_known _ P _ u1 k u2 outdir dirs HT eq_refl) as (l' & used' & E & T' & L' & L2).
      + unfold on_disk. intros (x & -> & Hx)%list_elem_of_fmap.
        apply list_elem_of_filter in Hx as [_ Hx]. apply Hnd. by apply list_elem_of_fmap_2.
      + apply H0. intros ->. apply (t_all _ _ _ HT) in Hin'. by apply not_elem_of_nil in Hin'.
      + rewrite (holds_count _ _ _ Hh). lia.
      + exists l', used', (length u1). split_and!; try done.
        lia.
    - destruct (table_new _ P used outdir id dirs HT Hout) as (l' & used' & E & T' & L').
      + assert (HN : NoDup (id :: map fsid used)) by (apply NoDup_cons; split; [done|apply HT]).
        apply NoDup_ListNoDup in HN.
        assert (Hinc : List.incl (id :: map fsid used) ids).
        { intros x Hx%list_elem_of_In. apply list_elem_of_In.
          apply elem_of_cons in Hx as [->|Hx]; [done|]. apply Hsub.
          by apply (t_all _ _ _ HT). }
        pose proof (List.NoDup_incl_length HN Hinc) as HL. cbn [length] in HL.
        rewrite length_map in HL. lia.
      + exists l', used', (length used). split_and!; try done; lia. }
  destruct G as (l' & used' & i & E & T' & L' & LL). unfold set_info_disk. fold dirs. rewrite E.
  cbn [negb Z.eqb]. eexists _, used'. split; [done|]. cbn [diskinfo max_disk]. split; [done|].
  unfold max_ok in *. cbn [max_disk]. destruct err; split_and!; try done.
  destruct (max_disk ds); lia || done.
Qed.

(** What one probe records. *)
Definition record_of (DIR1 : Z) (probe : Z -> Z -> Z * bool) (d : Z * Z) : Z * Z :=
  (fst (probe (fst d) (snd d)), fst d * DIR1 + snd d).

Lemma refresh_loop_spec DIR1 datadir probe ids dirs : forall ds P used,
  table (diskinfo ds) P used -> max_ok ds used ->
  NoDup (map snd P ++ map (fun d => fst d * DIR1 + snd d) dirs) ->
  (forall d, d ∈ (if decide (P = []) then tail dirs else dirs) -> fst d * DIR1 + snd d <> 0) ->
  zlen P + zlen dirs <= TOTALDIRS -> zlen ids <= MAXDISKS ->
  (forall x, x ∈ map fst P -> x ∈ ids) ->
  (forall d, d ∈ dirs -> fst (probe (fst d) (snd d)) ∈ ids) ->
  exists ds' used', refresh_loop DIR1 datadir probe ds dirs = (0, ds') /\
    table (diskinfo ds') (P ++ map (record_of DIR1 probe) dirs) used' /\ max_ok ds' used' /\
    (max_disk ds <> None \/ (exists d, d ∈ dirs /\ snd (probe (fst d) (snd d)) = false) ->
     max_disk ds' <> None).
Proof.
  induction dirs as [|[d1 d2] dirs IH]; intros ds P used HT HM HN H0 Hlen Hids HP Hd.
  { exists ds, used. cbn. rewrite app_nil_r. split_and!; try done.
    intros [?|(d & Hd' & _)]; [done|by apply not_elem_of_nil in Hd']. }
  cbn [refresh_loop map]. destruct (probe d1 d2) as [id err] eqn:Ep.
  cbn [map] in HN. apply NoDup_app in HN as (N1 & N2 & N3). apply NoDup_cons in N3 as [N3 N4].
  cbn [fst snd length] in *.
  assert (Hid : id ∈ ids).
  { specialize (Hd (d1, d2) ltac:(set_solver)). cbn in Hd. by rewrite Ep in Hd. }
  destruct (set_info_step DIR1 ds P used (outdir_of datadir d1 d2) d1 d2 id err ids)
    as (ds1 & used1 & E1 & T1 & M1 & X1 & Y1); try done.
  - intros Hin. apply (N2 _ Hin). set_solver.
  - intros HPne. specialize (H0 (d1, d2)). rewrite decide_False in H0 by done.
    apply H0. set_solver.
  - lia.
  - rewrite E1. cbn [negb Z.eqb].
    destruct (IH ds1 (P ++ [(id, d1 * DIR1 + d2)]) used1) as (ds2 & used2 & E2 & T2 & M2 & X2); try done.
    + rewrite map_app. cbn [map snd]. rewrite <- app_assoc. cbn [app].
      apply NoDup_app. split; [done|]. split; [done|]. by apply NoDup_cons.
    + intros d Hdin. rewrite decide_False in Hdin by (by destruct P).
      apply H0. case_decide; [done|]. set_solver.
    + rewrite length_app. cbn [length]. lia.
    + intros x. rewrite map_app. cbn [map fst]. intros [Hx| ->%list_elem_of_singleton]%elem_of_app; auto.
    + intros d Hdin. apply Hd. set_solver.
    + exists ds2, used2. split; [done|]. rewrite <- app_assoc in T2. cbn [app] in T2.
      unfold record_of at 1. cbn [fst snd]. rewrite Ep. split; [done|]. split; [done|].
      intros HX. apply X2. destruct HX as [HX|(d & Hdin & He)]; [left; by apply Y1|].
      apply elem_of_cons in Hdin as [->|Hdin]; [|right; by exists d].
      left. apply X1. cbn in He. by rewrite Ep in He.
Qed.

Lemma elem_all_dirs DIR1 DIR2 d :
  d ∈ all_dirs DIR1 DIR2 <-> 0 <= fst d < DIR1 /\ 0 <= snd d < DIR2.
Proof.
  unfold all_dirs. rewrite list_elem_of_bind. destruct d as [d1 d2]. cbn [fst snd]. split.
  - intros (x & Hx & H1). apply list_elem_of_fmap in Hx as (y & [= -> ->] & Hy).
    apply elem_of_seqZ in H1, Hy. lia.
  - intros [H1 H2]. exists d1. split; [|apply elem_of_seqZ; lia].
    apply list_elem_of_fmap. exists d2. split; [done|]. apply elem_of_seqZ. lia.
Qed.

(** Directory numbers are distinct when [DIR2 <= DIR1]. *)
Lemma encode_NoDup DIR1 DIR2 :
  DIR2 <= DIR1 -> NoDup (map (fun d => fst d * DIR1 + snd d) (all_dirs DIR1 DIR2)).
Proof.
  intros H. apply (NoDup_fmap_2_strong _ _).
  - intros [a1 a2] [b1 b2] Ha Hb E. apply elem_all_dirs in Ha, Hb. cbn in *.
    destruct (Z.div_mod_unique DIR1 a1 b1 a2 b2) as [-> ->]; [lia|lia|lia|done].
  - apply NoDup_bind; [| |apply NoDup_seqZ].
    + intros x1 x2 y _ _ H1 H2. apply list_elem_of_fmap in H1 as (u & -> & _).
      apply list_elem_of_fmap in H2 as (v & [= ->] & _). done.
    + intros x _. apply NoDup_fmap_2; [|apply NoDup_seqZ]. by intros ? ? [= ->].
Qed.

Lemma all_dirs_head DIR1 DIR2 d :
  0 < DIR1 -> 0 < DIR2 -> DIR2 <= DIR1 ->
  d ∈ tail (all_dirs DIR1 DIR2) -> fst d * DIR1 + snd d <> 0.
Proof.
  intros H1 H2 H12 Hd.
  assert (E : exists l, all_dirs DIR1 DIR2 = (0, 0) :: l).
  { unfold all_dirs. rewrite (seqZ_cons 0 DIR1) by lia. cbn [mbind list_bind].
    rewrite (seqZ_cons 0 DIR2) by lia. cbn. by eexists. }
  destruct E as [l E]. pose proof (encode_NoDup DIR1 DIR2 H12) as HN.
  assert (Hin : d ∈ all_dirs DIR1 DIR2) by (rewrite E in *; cbn in Hd; set_solver).
  rewrite E in HN, Hd. cbn [map fst snd tail] in *. apply NoDup_cons in HN as [HN _].
  intros E0. apply HN. replace (0 * DIR1 + 0) with (fst d * DIR1 + snd d) by lia.
  apply (list_elem_of_fmap_2 (fun d => fst d * DIR1 + snd d)). done.
Qed.

(** ** Rotation over the directories of the chosen disk *)

Definition set_d_index (k : t_disk_info) (i : Z) : t_disk_info :=
  mk_disk (fsid k) (firstpath k) (count k) i (pathcluster k).

(** [n] calls in a row: the directory pairs handed out. *)
Fixpoint take_dirs (DIR1 : Z) (n : nat) (ds : disks) : option (list (Z * Z) * disks) :=
  match n with
  | O => Some ([], ds)
  | S n' => r ← get_max_free_storage DIR1 ds;
            match r with
            | inl _ => None
            | inr (d, ds) => '(l, ds) ← take_dirs DIR1 n' ds; Some (d :: l, ds)
            end
  end.

Lemma take_dirs_spec DIR1 i n : forall ds k,
  max_disk ds = Some i -> diskinfo ds !! i = Some k -> 0 <= d_index k ->
  d_index k + Z.of_nat n <= count k ->
  take_dirs DIR1 n ds = Some
    (map (fun v => (v / DIR1, v mod DIR1)) (take n (drop (Z.to_nat (d_index k)) (dirs_of k))),
     mk_disks (<[i := set_d_index k (if (0 <? Z.of_nat n) && (count k <=? d_index k + Z.of_nat n) then 0 else d_index k + Z.of_nat n)]> (diskinfo ds))
       (max_disk ds) (maxfreevalue ds)).
Proof.
  induction n as [|n IH]; intros ds k Hm Hk Hi Hn.
  { cbn [take_dirs]. rewrite take_0. cbn. rewrite Z.add_0_r. f_equal. f_equal.
    destruct ds. cbn in *. f_equal. symmetry. apply list_insert_id. rewrite Hk. by destruct k. }
  cbn [take_dirs]. unfold get_max_free_storage. rewrite Hm, Hk. cbn [mbind option_bind].
  set (k1 := mk_disk _ _ _ _ _). set (ds1 := mk_disks _ _ _).
  assert (Hlen : (i < length (diskinfo ds))%nat) by (by eapply lookup_lt_Some).
  assert (Hd : drop (Z.to_nat (d_index k)) (dirs_of k)
    = path_at (pathcluster k) (Z.to_nat (d_index k)) :: drop (S (Z.to_nat (d_index k))) (dirs_of k)).
  { apply drop_S. unfold dirs_of. rewrite list_lookup_fmap, lookup_seq_lt by lia. done. }
  rewrite Hd. cbn [take map].
  destruct n as [|n].
  - cbn [take_dirs mbind option_bind]. rewrite take_0. done.
  - assert (Hni : (count k <=? d_index k + 1) = false) by (apply Z.leb_gt; lia).
    rewrite (IH ds1 k1); cbn [ds1 max_disk diskinfo maxfreevalue k1 d_index count]; rewrite ?Hni.
    + cbn [mbind option_bind]. f_equal. f_equal.
      * f_equal. f_equal. f_equal. replace (Z.to_nat (d_index k + 1)) with (S (Z.to_nat (d_index k))) by lia.
        unfold dirs_of, k1. cbn [pathcluster count]. done.
      * rewrite list_insert_insert_eq. f_equal. f_equal. unfold set_d_index, k1.
        cbn [fsid firstpath count pathcluster]. f_equal.
        replace (d_index k + 1 + Z.of_nat (S n)) with (d_index k + Z.of_nat (S (S n))) by lia. done.
    + done.
    + rewrite list_lookup_insert_eq by done. unfold k1. by rewrite Hni.
    + lia.
    + lia.
Qed.

(** ** The disk with most free space *)

Lemma update_slot_check (p : slot -> bool) k v j l l' :
  0 <= k < MAXDISKS -> 0 <= j < MAXDISKS -> k <> j ->
  update_slot p (fun s => set_errdisk s (<[Z.to_nat (k mod MAXDISKS) := v]> (s_errdisk s))) l = Some l' ->
  existsb (fun s => negb (nth (Z.to_nat (j mod MAXDISKS)) (s_errdisk s) 0 =? 0)) l'
  = existsb (fun s => negb (nth (Z.to_nat (j mod MAXDISKS)) (s_errdisk s) 0 =? 0)) l.
Proof.
  intros Hk Hj Hne. revert l'. induction l as [|s l IH]; intros l'; cbn [update_slot]; [done|].
  destruct (p s).
  - intros [= <-]. cbn [existsb set_errdisk s_errdisk]. f_equal. f_equal. f_equal.
    unfold MAXDISKS in *. rewrite !Z.mod_small by lia.
    rewrite !nth_lookup. f_equal. apply list_lookup_insert_ne. lia.
  - destruct (update_slot p _ l) as [l1|]; [|done]. intros [= <-]. cbn [existsb].
    by rewrite IH.
Qed.

Lemma check_set_other self k v j :
  0 <= k < MAXDISKS -> 0 <= j < MAXDISKS -> k <> j ->
  check_domain_disk_err (set_self_disk_err self k v) j = check_domain_disk_err self j.
Proof.
  intros Hk Hj Hne. unfold set_self_disk_err.
  destruct (update_slot _ _ _) as [l'|] eqn:E; [|done].
  unfold check_domain_disk_err. cbn [slots with_slots].
  by apply (update_slot_check (fun s => s_self s =? 1) k v).
Qed.

Definition free_of (x : Z * Z) : Z := Z.shiftr (u64 (fst x * snd x)) 30.

Section MaxFree.
Context (stat : nat -> option (Z * Z)) (coin : nat -> bool).
Hypothesis free_u32 : forall i x, stat i = Some x -> free_of x < 4294967296.

(** The outcome of the scan of [n] disks from number [i] on: earlier flags are
    untouched, [m] is the largest free space of the good disks (or the [c] it
    started with) and [b'] the disk that has it. *)
Definition scanned self self' (i n : nat) (c : Z) (b : nat) (m : Z) (b' : nat) : Prop :=
  (forall j, (j < i)%nat -> check_domain_disk_err self' (Z.of_nat j) = check_domain_disk_err self (Z.of_nat j)) /\
  c <= m /\
  (forall j x, (i <= j < i + n)%nat -> stat j = Some x ->
     check_domain_disk_err self' (Z.of_nat j) = false -> free_of x <= m) /\
  ((m = c /\ b' = b) \/
   exists x, (i <= b' < i + n)%nat /\ stat b' = Some x /\ m = free_of x /\
     check_domain_disk_err self' (Z.of_nat b') = false).

Lemma scanned_cons self self' v i n c b c1 b1 m b' :
  let self1 := set_self_disk_err self (Z.of_nat i) v in
  (S i + n <= 32)%nat -> scanned self1 self' (S i) n c1 b1 m b' -> c <= c1 ->
  (forall x, stat i = Some x -> check_domain_disk_err self1 (Z.of_nat i) = false -> free_of x <= c1) ->
  ((c1 = c /\ b1 = b) \/ exists x, b1 = i /\ stat i = Some x /\ c1 = free_of x /\
     check_domain_disk_err self1 (Z.of_nat i) = false) ->
  scanned self self' i (S n) c b m b'.
Proof.
  intros self1 Hi (A & B & C & D) Hcc Hx Hb.
  assert (A' : check_domain_disk_err self' (Z.of_nat i) = check_domain_disk_err self1 (Z.of_nat i))
    by (apply A; lia).
  split_and!; [|lia| |].
  - intros j Hj. rewrite A by lia. apply check_set_other; unfold MAXDISKS; lia.
  - intros j x Hj Hsx Hchk. destruct (decide (j = i)) as [->|Hji].
    + rewrite A' in Hchk. specialize (Hx x Hsx Hchk). lia.
    + apply (C j x); [lia|done|done].
  - destruct D as [[-> ->]|(x & D1 & D2)].
    + destruct Hb as [[-> ->]|(x & -> & B1 & -> & B2)]; [by left|right].
      exists x. rewrite A'. split_and!; done || lia.
    + right. exists x. split; [lia|done].
Qed.

Lemma maxfree_loop_spec l : forall i self c b self' m b',
  Forall (fun k => count k <> 0) l -> (i + length l <= 32)%nat -> 0 <= c ->
  maxfree_loop stat 0 coin i l self c b = (self', m, b') ->
  scanned self self' i (length l) c b m b'.
Proof.
  induction l as [|k l IH]; intros i self c b self' m b' HF Hi Hc.
  { intros [= <- <- <-]. split; [done|]. split; [lia|]. split; [intros j x Hj; cbn in Hj; lia|by left]. }
  apply Forall_cons in HF as [Hk HF]. cbn [length] in Hi |- *. cbn [maxfree_loop].
  destruct (count k =? 0) eqn:E0; b2p; [done|].
  assert (Hi' : (S i + length l <= 32)%nat) by lia.
  destruct (stat i) as [[bf bs]|] eqn:Es.
  - change ((0 =? 1) && coin i) with false. cbv iota.
    set (self1 := set_self_disk_err self (Z.of_nat i) 0).
    change (Z.shiftr (u64 (bf * bs)) 30) with (free_of (bf, bs)).
    pose proof (free_u32 i _ Es) as Hu.
    assert (Hpos : 0 <= free_of (bf, bs)).
    { unfold free_of. apply Z.shiftr_nonneg. apply Z.mod_pos_bound. lia. }
    destruct (check_domain_disk_err self1 (Z.of_nat i)) eqn:Ec;
      [|destruct (c <? free_of (bf, bs)) eqn:E1; b2p]; intros HH;
      [| rewrite u32_small in HH by lia |];
      (eapply (scanned_cons _ _ 0); [done|by eapply IH; [..|exact HH]; done || lia|lia|..]);
      fold self1.
    + intros x _ Hf. congruence.
    + by left.
    + intros x Hx _. simplify_eq. lia.
    + right. by exists (bf, bs).
    + intros x Hx _. simplify_eq. lia.
    + by left.
  - intros HH. eapply (scanned_cons _ _ 1); [done|by eapply IH; [..|exact HH]|lia| |by left].
    intros x Hx. congruence.
Qed.

End MaxFree.

(** ** Properties *)

Lemma length_all_dirs DIR1 DIR2 : 0 <= DIR1 -> 0 <= DIR2 -> zlen (all_dirs DIR1 DIR2) = DIR1 * DIR2.
Proof.
  intros H1 H2. unfold all_dirs.
  assert (Hg : forall l : list Z, zlen (l ≫= fun d1 => map (pair d1) (seqZ 0 DIR2)) = zlen l * DIR2).
  { induction l as [|x l IH]; cbn [mbind list_bind]; [done|].
    rewrite length_app, length_map, length_seqZ. cbn [length]. lia. }
  rewrite Hg, length_seqZ. lia.
Qed.

(** Starting from the zeroed table, [refresh_disk_info] records every
    directory of the store exactly once, under the file system it is on, so
    long as there are at most 32 file systems and [DIR2 <= DIR1]: the rotation
    list of each disk is a permutation of the directories probed to be on it,
    and the current disk is an entry of the table. *)
Theorem disk_table_complete DIR1 DIR2 datadir probe ids :
  0 < DIR1 -> 0 < DIR2 <= DIR1 -> DIR1 * DIR2 <= TOTALDIRS -> zlen ids <= MAXDISKS ->
  (forall d1 d2, 0 <= d1 < DIR1 -> 0 <= d2 < DIR2 -> fst (probe d1 d2) ∈ ids) ->
  (exists d1 d2, 0 <= d1 < DIR1 /\ 0 <= d2 < DIR2 /\ snd (probe d1 d2) = false) ->
  exists ds used i, refresh_disk_info DIR1 DIR2 datadir probe (mk_disks (replicate 32 empty_disk) None 0) = (0, ds) /\
    (exists m, diskinfo ds = used ++ replicate m empty_disk) /\ NoDup (map fsid used) /\
    (forall k, k ∈ used ->
       dirs_of k ≡ₚ on_disk (map (record_of DIR1 probe) (all_dirs DIR1 DIR2)) (fsid k)) /\
    (forall d1 d2, 0 <= d1 < DIR1 -> 0 <= d2 < DIR2 -> fst (probe d1 d2) ∈ map fsid used) /\
    max_disk ds = Some i /\ (i < length used)%nat.
Proof.
  intros H1 H2 H3 H4 H5 (x1 & x2 & X1 & X2 & X3). unfold refresh_disk_info.
  destruct (refresh_loop_spec DIR1 datadir probe ids (all_dirs DIR1 DIR2)
              (mk_disks (replicate 32 empty_disk) None 0) [] []) as (ds & used & E & T & M & N).
  - apply table_empty.
  - done.
  - apply (encode_NoDup DIR1 DIR2). lia.
  - intros d Hd. rewrite decide_True in Hd by done. by apply (all_dirs_head DIR1 DIR2 d); [lia..|].
  - simpl. rewrite length_all_dirs; lia.
  - done.
  - intros x Hx. by apply not_elem_of_nil in Hx.
  - intros d Hd. apply elem_all_dirs in Hd as [D1 D2]. by apply H5.
  - rewrite E. simpl (negb _). cbv iota. unfold max_ok in M.
    destruct (max_disk ds) as [i|] eqn:Em.
    2: { destruct N; [|done]. right. exists (x1, x2). split; [by apply elem_all_dirs|done]. }
    exists ds, used, i. destruct T as [T1 T2 T3 T4 T5]. split_and!; try done.
    + intros k Hk. destruct (T4 k Hk) as [_ [nz Hh]]. by eapply holds_dirs_of.
    + intros d1 d2 D1 D2. apply T5. simpl. rewrite map_map. apply list_elem_of_fmap.
      exists (d1, d2). split; [done|]. by apply elem_all_dirs.
Qed.

Lemma disk_table_complete_witness :
  let probe := fun d1 d2 => (if d1 =? 0 then 11 else 22, false) in
  exists ds used i, refresh_disk_info 2 2 (str "/data") probe (mk_disks (replicate 32 empty_disk) None 0) = (0, ds) /\
    (exists m, diskinfo ds = used ++ replicate m empty_disk) /\ NoDup (map fsid used) /\
    (forall k, k ∈ used -> dirs_of k ≡ₚ on_disk (map (record_of 2 probe) (all_dirs 2 2)) (fsid k)) /\
    (forall d1 d2, 0 <= d1 < 2 -> 0 <= d2 < 2 -> fst (probe d1 d2) ∈ map fsid used) /\
    max_disk ds = Some i /\ (i < length used)%nat.
Proof.
  intros probe. apply (disk_table_complete 2 2 (str "/data") probe [11; 22]); try lia; try (vm_compute; discriminate).
  - intros d1 d2 _ _. unfold probe. simpl. destruct (d1 =? 0); set_solver.
  - exists 0, 0. split; [lia|]. split; [lia|reflexivity].
Defined.

(** [count] successive calls of [get_max_free_storage] on a disk hand out
    each of its directories once, in the order of its list, and leave the
    rotation where it started. *)
Theorem free_storage_cycles DIR1 i ds k :
  max_disk ds = Some i -> diskinfo ds !! i = Some k -> d_index k = 0 -> 0 < count k ->
  take_dirs DIR1 (Z.to_nat (count k)) ds
  = Some (map (fun v => (v / DIR1, v mod DIR1)) (dirs_of k), ds).
Proof.
  intros Hm Hk Hi Hc. rewrite (take_dirs_spec DIR1 i (Z.to_nat (count k)) ds k) by (done || lia).
  rewrite Hi, Z2Nat.id by lia. simpl (Z.to_nat 0). rewrite drop_0, take_ge.
  2: { unfold dirs_of. by rewrite length_map, length_seq. }
  do 2 f_equal. rewrite Z.leb_refl. assert (0 <? count k = true) as -> by by apply Z.ltb_lt.
  simpl. replace (set_d_index k 0) with k by (destruct k; simpl in *; by subst).
  rewrite list_insert_id by done. by destruct ds.
Qed.

Lemma free_storage_cycles_witness :
  let k := mk_disk 9 [] 3 0 [7; 12; 1] in
  let ds := mk_disks [k] (Some O) 40 in
  take_dirs 10 (Z.to_nat 3) ds = Some (map (fun v => (v / 10, v mod 10)) (dirs_of k), ds).
Proof. intros k ds. apply (free_storage_cycles 10 0 ds k); reflexivity. Defined.

(** [refresh_maxfreedisk] chooses a disk with the most free space, in
    gigabytes, among those that answer and are not marked bad on any server of
    the domain, and the recorded maximum is the free space of that disk. *)
Theorem max_free_chosen stat coin ds self ds' self' :
  (forall i x, stat i = Some x -> free_of x < 4294967296) ->
  Forall (fun k => count k <> 0) (diskinfo ds) -> (length (diskinfo ds) <= 32)%nat ->
  refresh_maxfreedisk stat 0 coin ds self = (ds', self') ->
  exists b, max_disk ds' = Some b /\
    (forall j x, (j < length (diskinfo ds))%nat -> stat j = Some x ->
       check_domain_disk_err self' (Z.of_nat j) = false -> free_of x <= maxfreevalue ds') /\
    ((maxfreevalue ds' = 0 /\ b = O) \/
     exists x, (b < length (diskinfo ds))%nat /\ stat b = Some x /\ maxfreevalue ds' = free_of x /\
       check_domain_disk_err self' (Z.of_nat b) = false).
Proof.
  intros Hf Hc Hl. unfold refresh_maxfreedisk.
  destruct (maxfree_loop stat 0 coin 0 (diskinfo ds) self 0 0) as [[sf m] b] eqn:E.
  intros [= <- <-]. destruct (maxfree_loop_spec stat coin Hf (diskinfo ds) 0 self 0 0 sf m b Hc) as (_ & _ & A & B);
    [lia|lia|done|].
  exists b. split; [done|]. split; [intros j x Hj; apply A; lia|].
  destruct B as [B|(x & B1 & B2)]; [by left|]. right. exists x. split; [lia|done].
Qed.

Lemma max_free_chosen_witness :
  let k := mk_disk 9 [] 1 0 [7] in
  let ds := mk_disks [k; k] None 0 in
  let stat := fun i : nat => match i with O => Some (1048576, 4096) | _ => Some (2097152, 4096) end in
  let self := mk_domain [] [mk_slot [] 0 1 0 (replicate 32 0)] 0 0 0 0 in
  let r := refresh_maxfreedisk stat 0 (fun _ => false) ds self in
  exists b, max_disk (fst r) = Some b /\
    (forall j x, (j < length (diskinfo ds))%nat -> stat j = Some x ->
       check_domain_disk_err (snd r) (Z.of_nat j) = false -> free_of x <= maxfreevalue (fst r)) /\
    ((maxfreevalue (fst r) = 0 /\ b = O) \/
     exists x, (b < length (diskinfo ds))%nat /\ stat b = Some x /\ maxfreevalue (fst r) = free_of x /\
       check_domain_disk_err (snd r) (Z.of_nat b) = false).
Proof.
  intros k ds stat self r.
  apply (max_free_chosen stat (fun _ => false) ds self (fst r) (snd r)).
  - intros i x Hx. destruct i; injection Hx as <-; reflexivity.
  - repeat constructor; discriminate.
  - simpl. lia.
  - apply surjective_pairing.
Defined.

End Disk.

Module Path.

(** [get_dir1_dir2(pathsrc, &dir1, &dir2)]: [None] when a slash is missing. *)
Definition get_dir1_dir2 (DIR1 DIR2 : Z) (pathsrc : bytes) : option (Z * Z) :=
  let path := snprintf 256 pathsrc in
  t ← strrchr path 47;
  let path := take t path in
  t ← strrchr path 47;
  let dir2 := Z.rem (atoi (drop (S t) path)) DIR2 in
  let path := take t path in
  t ← strrchr path 47;
  Some (Z.rem (atoi (drop (S t) path)) DIR1, dir2).

Lemma udec_no_slash n : 47 ∉ udec n.
Proof.
  intros H. pose proof (udec_digits n) as HD. rewrite Forall_forall in HD.
  specialize (HD _ H). unfold is_dec_digit in HD. lia.
Qed.

Lemma drop_S_app (a b : bytes) x : drop (S (length a)) (a ++ x :: b) = b.
Proof. rewrite drop_app_ge by lia. by replace (S (length a) - length a)%nat with 1%nat by lia. Qed.

Lemma get_dir_path DIR1 DIR2 (pre : bytes) d1 d2 (name : bytes) :
  0 <= d1 < DIR1 -> 0 <= d2 < DIR2 -> DIR1 < 2147483648 -> DIR2 < 2147483648 -> 47 ∉ name ->
  zlen (pre ++ 47 :: dec d1 ++ 47 :: dec d2 ++ 47 :: name) < 256 ->
  get_dir1_dir2 DIR1 DIR2 (pre ++ 47 :: dec d1 ++ 47 :: dec d2 ++ 47 :: name) = Some (d1, d2).
Proof.
  intros H1 H2 B1 B2 Hn Hl. unfold get_dir1_dir2. rewrite snprintf_fits by lia.
  rewrite !dec_nonneg by lia.
  replace (pre ++ 47 :: udec d1 ++ 47 :: udec d2 ++ 47 :: name)
    with ((pre ++ 47 :: udec d1 ++ 47 :: udec d2) ++ 47 :: name) by (by rewrite <- !app_assoc; cbn; rewrite <- app_assoc).
  rewrite strrchr_app_r by done. cbn [mbind option_bind]. rewrite take_app_length.
  replace (pre ++ 47 :: udec d1 ++ 47 :: udec d2)
    with ((pre ++ 47 :: udec d1) ++ 47 :: udec d2) by (by rewrite <- !app_assoc).
  rewrite strrchr_app_r by apply udec_no_slash. cbn [mbind option_bind].
  rewrite take_app_length, drop_S_app.
  rewrite strrchr_app_r by apply udec_no_slash. cbn [mbind option_bind].
  rewrite drop_S_app. rewrite <- (app_nil_r (udec d1)), <- (app_nil_r (udec d2)).
  rewrite !atoi_udec by (lia || done).
  by rewrite !Z.rem_small by lia.
Qed.

(** The directory numbers are read back from the path of a stored file,
    whatever the data directory in front of them. *)
Theorem dirs_of_stored_path DIR1 DIR2 (pre : bytes) d1 d2 (name : bytes) :
  0 <= d1 < DIR1 -> 0 <= d2 < DIR2 -> DIR1 < 2147483648 -> DIR2 < 2147483648 -> 47 ∉ name ->
  zlen (pre ++ 47 :: dec d1 ++ 47 :: dec d2 ++ 47 :: name) < 256 ->
  get_dir1_dir2 DIR1 DIR2 (pre ++ 47 :: dec d1 ++ 47 :: dec d2 ++ 47 :: name) = Some (d1, d2).
Proof. apply get_dir_path. Qed.

Lemma dirs_of_stored_path_witness :
  get_dir1_dir2 100 100 (str "/data" ++ 47 :: dec 12 ++ 47 :: dec 7 ++ 47 :: str "a.jpg") = Some (12, 7).
Proof.
  apply dirs_of_stored_path; try lia; try reflexivity.
  apply (bool_decide_unpack _). vm_compute. exact I.
Defined.

End Path.

Module Config.

(** [reload_config] and the numeric part of [init_global]: [get] is
    [myconfig_get_intval], [value] is [myconfig_get_value]. *)
Definition POLICY_DISKFREE : Z := 0.
Definition POLICY_LOAD : Z := 1.
Definition POLICY_TASKCOUNT : Z := 2.
Definition POLICY_MAX : Z := 3.

Record t_g_config := mk_config {
  max_data_connects : Z; max_task_run_once : Z; poss_interval : Z; real_rm_time : Z;
  sync_dir_span : Z; check_task_timeout : Z; pfs_test : Z; task_timeout : Z;
  sync_dir_count : Z; policy : Z; timeout : Z
}.

Definition reload_config (get : string -> Z -> Z) : t_g_config :=
  mk_config (u16 (get "max_data_connects" 1024)) (u16 (get "max_task_run_once" 1024))
    (u16 (get "poss_interval" 300)) (get "real_rm_time" 7200)
    (u16 (get "sync_dir_span" 300)) (u8 (get "check_task_timeout" 1))
    (u8 (get "pfs_test" 0)) (get "task_timeout" 86400)
    (u8 (get "sync_dir_count" 20)) (u8 (Z.quot (get "task_policy" POLICY_DISKFREE) POLICY_MAX))
    (u16 (get "timeout" 3)).

(** [disk_minfree]: the default [4 << 30] is an [int] expression. *)
Definition mindiskfree (mindisk : option bytes) : Z :=
  let dflt := u64 (i32 (Z.shiftl 4 30)) in
  match mindisk with
  | None => dflt
  | Some s =>
      let c := at_ s (length s - 1) in
      let unit_size := if (c =? 77) || (c =? 109) then Z.shiftl 1 20
                       else if (c =? 75) || (c =? 107) then Z.shiftl 1 10
                       else Z.shiftl 1 30 in
      let i := atoi s in
      if i <=? 0 then dflt else u64 (i * unit_size)
  end.

(** The [retry] limit and the receive buffer size. *)
Definition retry_limit (get : string -> Z -> Z) : Z := u8 (get "pfs_retry" 0 + 1).
Definition buff_size (get : string -> Z -> Z) : Z :=
  let n := get "socket_buff" 65536 in if n <? 20480 then 20480 else n.

(** None of the three policies but the first can be chosen. *)
Lemma policy_is_diskfree get :
  0 <= get "task_policy"%string POLICY_DISKFREE < POLICY_MAX ->
  policy (reload_config get) = POLICY_DISKFREE.
Proof.
  intros H. unfold reload_config. cbn [policy].
  rewrite Z.quot_small by (unfold POLICY_MAX in *; lia). done.
Qed.

Lemma mindiskfree_default : mindiskfree None = 0.
Proof. done. Qed.

(** The configured policy is divided by the number of policies, so each of
    the three documented values selects [POLICY_DISKFREE]; and the default
    minimum of free disk space, written [4 << 30], is 0. *)
Theorem config_policy_and_minfree get :
  0 <= get "task_policy"%string POLICY_DISKFREE < POLICY_MAX ->
  policy (reload_config get) = POLICY_DISKFREE /\ mindiskfree None = 0.
Proof. intros H. split; [by apply policy_is_diskfree|done]. Qed.

Lemma config_policy_and_minfree_witness :
  let get := fun (n : string) (d : Z) => if String.eqb n "task_policy" then POLICY_LOAD else d in
  policy (reload_config get) = POLICY_DISKFREE /\ mindiskfree None = 0.
Proof. intros get. apply (config_policy_and_minfree get). split; [discriminate|reflexivity]. Defined.

End Config.
