(* ===== verification/Records.v ===== *)
(** * On-disk records and the file filter

    [DelFile]: the list of deleted files (network/pfs_del_file.c);
    [TimeStamp]: the last modification of every directory
    (network/pfs_time_stamp.c); [FileFilter]: the suffixes of the files to
    serve (network/pfs_file_filter.c). *)

From S2P Require Import Prelude.
From S2P Require Import CString.
From S2P Require Import TaskData.
From S2P Require Import Storage.

Module DelFile.

(** [t_pfs_del_file]: [dtime[10]], [idle], [file[256]], [line]. *)
Definition RECORD : nat := 268.

(** The file name [get_del_file] prints. *)
Definition get_del_file (deldir : option bytes) : bytes :=
  default (str "/diska/pfs/path/delfile/") deldir ++ str "/del_list".

(** A string in a zeroed array of [n] bytes. *)
Definition field (n : nat) (s : bytes) : bytes := memcpy (replicate n 0) 0 (snprintf n s).

(** The record [add_2_del_file] writes for a task. *)
Definition del_record (b : t_task_base) : bytes :=
  field 10 (dec (mtime b)) ++ [32] ++ field 256 (filename b) ++ [10].

(** [add_2_del_file]: the list file after the append, [None] if it could not
    be opened. *)
Definition add_2_del_file (list_file : option bytes) (b : t_task_base) : Z * option bytes :=
  match list_file with
  | None => (-1, None)
  | Some f => (0, Some (f ++ del_record b))
  end.

(** What [atol(delfile.dtime)] and [delfile.file] read in a record. *)
Definition dtime_of (r : bytes) : Z := atol (until0 r).
Definition file_of (r : bytes) : bytes := until0 (take 256 (drop 11 r)).

(** The loop of [find_last_index]; a short read leaves the rest of the record
    from the previous one. *)
Fixpoint find_loop (fuel : nat) (f : bytes) (prev : bytes) (index last : Z) : option (Z * bytes) :=
  match fuel with
  | O => None
  | S fuel' =>
      let r := take RECORD f in
      if zlen r =? 0 then None
      else
        let cur := memcpy prev 0 r in
        let index := index + 1 in
        if dtime_of cur =? last then Some (index, file_of cur)
        else find_loop fuel' (drop RECORD f) cur index last
  end.

(** [find_last_index(base, last)]: the index and the task's file name. *)
Definition find_last_index (list_file : option bytes) (b : t_task_base) (last : Z) : Z * bytes :=
  match list_file with
  | None => (-1, filename b)
  | Some f =>
      match find_loop (S (length f)) f (replicate RECORD 0) (-1) last with
      | Some (i, name) => (i, snprintf 256 name)
      | None => (-1, filename b)
      end
  end.

(** [get_from_del_file(base, next, cur)]; the task is not written to. *)
Definition get_from_del_file (list_file : option bytes) (next cur : Z) : Z :=
  match list_file with
  | None => -1
  | Some f =>
      if i32 (zlen f / Z.of_nat RECORD) <=? next then -1
      else
        let r := take RECORD (drop (Z.to_nat (Z.of_nat RECORD * next)) f) in
        if zlen r =? 0 then -1
        else if cur <? dtime_of (memcpy (replicate RECORD 0) 0 r) then -1
        else next
  end.

(** ** Lemmas *)

Lemma length_field n s : length (field n s) = n.
Proof.
  unfold field, snprintf. rewrite length_memcpy; rewrite length_replicate; [done|].
  rewrite length_take. lia.
Qed.

(** The time a record really stores: nine digits of it. *)
Definition stamp (b : t_task_base) : Z := atol (snprintf 10 (dec (mtime b))).

Lemma stamp_small b : 0 <= mtime b < 10 ^ 9 -> stamp b = mtime b.
Proof.
  intros Hm. unfold stamp, snprintf. rewrite dec_nonneg by lia.
  pose proof (length_udec (mtime b) 8 Hm). rewrite take_ge by lia.
  rewrite <- (app_nil_r (udec _)). apply atol_udec; [lia|done].
Qed.

Lemma stamp_large b : 10 ^ 9 <= mtime b < 10 ^ 10 -> stamp b = mtime b / 10.
Proof.
  intros Hm. unfold stamp, snprintf. rewrite dec_nonneg by lia.
  rewrite udec_snoc by lia.
  assert (Hd : 10 ^ 8 <= mtime b / 10 < 10 ^ 9)
    by (split; [apply Z.div_le_lower_bound|apply Z.div_lt_upper_bound]; lia).
  assert (Hlen : length (udec (mtime b / 10)) = 9%nat) by (apply (length_udec_exact 8); exact Hd).
  rewrite take_app_le, take_ge by lia.
  rewrite <- (app_nil_r (udec _)). apply atol_udec; [lia|done].
Qed.

Lemma field_text n s : (0 < n)%nat ->
  exists k, field n s = snprintf n s ++ 0 :: replicate k 0.
Proof.
  intros Hn. unfold field, memcpy. simpl. exists (n - length (snprintf n s) - 1)%nat. f_equal.
  assert (length (snprintf n s) < n)%nat by (unfold snprintf; rewrite length_take; lia).
  rewrite drop_replicate.
  destruct (n - length (snprintf n s))%nat as [|k] eqn:Ek; [lia|]. simpl. by rewrite Nat.sub_0_r.
Qed.

Lemma snprintf_cstr n s : cstr s -> cstr (snprintf n s).
Proof. intros. by apply Forall_take. Qed.

Lemma until0_field n s rest :
  (0 < n)%nat -> cstr s -> until0 (field n s ++ rest) = snprintf n s.
Proof.
  intros Hn Hs. destruct (field_text n s Hn) as [k ->]. rewrite <- app_assoc. simpl.
  by apply until0_cstr, snprintf_cstr.
Qed.

Lemma dtime_del_record b : dtime_of (del_record b) = stamp b.
Proof.
  unfold dtime_of, del_record, stamp. f_equal. apply until0_field; [lia|apply dec_cstr].
Qed.

Lemma file_del_record b :
  cstr (filename b) -> (length (filename b) < 256)%nat -> file_of (del_record b) = filename b.
Proof.
  intros Hc Hl. unfold file_of, del_record.
  rewrite (app_assoc (field 10 _)), drop_app_length'
    by (rewrite length_app, length_field; done).
  rewrite take_app_le by (rewrite length_field; lia).
  rewrite take_ge by (rewrite length_field; lia).
  rewrite <- (app_nil_r (field 256 _)), until0_field by (done || lia).
  unfold snprintf. apply take_ge. lia.
Qed.

Lemma length_del_record b : length (del_record b) = RECORD.
Proof. unfold del_record. rewrite !length_app, !length_field. done. Qed.

Lemma memcpy_whole (a b : bytes) : length a = length b -> memcpy a 0 b = b.
Proof. intros Hl. unfold memcpy. simpl. rewrite drop_ge by lia. by rewrite app_nil_r. Qed.

(** The first task of a list with the given recorded time. *)
Fixpoint first_stamp (bs : list t_task_base) (i last : Z) : option (Z * bytes) :=
  match bs with
  | [] => None
  | b :: t => if stamp b =? last then Some (i, filename b) else first_stamp t (i + 1) last
  end.

Lemma find_loop_records bs last : forall fuel prev i,
  Forall (fun b => cstr (filename b) /\ (length (filename b) < 256)%nat) bs ->
  length prev = RECORD -> (length bs < fuel)%nat ->
  find_loop fuel (concat (map del_record bs)) prev i last = first_stamp bs (i + 1) last.
Proof.
  induction bs as [|b bs IH]; intros fuel prev i Hbs Hp Hf;
    (destruct fuel as [|fuel]; [lia|]); cbn [find_loop map concat first_stamp]; [done|].
  apply Forall_cons in Hbs as [[Hc Hl] Hbs].
  rewrite take_app_length', drop_app_length' by (by rewrite length_del_record).
  rewrite length_del_record. destruct (Z.of_nat RECORD =? 0) eqn:E; [done|].
  rewrite memcpy_whole by (by rewrite length_del_record).
  rewrite dtime_del_record, file_del_record by done.
  destruct (stamp b =? last); [done|].
  apply IH; [done|apply length_del_record|simpl in Hf; lia].
Qed.

(** ** Properties *)

(** The list of deletions keeps nine digits of each time.  From a list of
    deletions written by [add_2_del_file], [find_last_index] finds the first
    one whose nine-digit time is the one asked for; so for the ten-digit times
    of this century (10^9 seconds and later) it never finds the time it is
    asked for. *)
Theorem deletions_lose_a_digit bs b last :
  Forall (fun b => cstr (filename b) /\ (length (filename b) < 256)%nat /\
                   10 ^ 9 <= mtime b < 10 ^ 10) bs ->
  10 ^ 9 <= last ->
  find_last_index (Some (concat (map del_record bs))) b last = (-1, filename b).
Proof.
  intros Hbs Hl. unfold find_last_index.
  assert (Hlen : (length bs < S (length (concat (map del_record bs))))%nat).
  { clear. induction bs as [|x bs IH]; simpl; [lia|]. rewrite length_app, length_del_record.
    unfold RECORD. lia. }
  rewrite find_loop_records; [|eapply Forall_impl; [exact Hbs|naive_solver]|
    apply length_replicate|done].
  assert (Hnone : forall i, first_stamp bs i last = None).
  { clear Hlen. induction Hbs as [|x bs (_ & _ & Hx) _ IH]; intros i; simpl; [done|].
    destruct (stamp x =? last) eqn:E; b2p; [|apply IH]. rewrite stamp_large in E by done.
    assert (mtime x / 10 < 10 ^ 9) by (apply Z.div_lt_upper_bound; lia). lia. }
  by rewrite Hnone.
Qed.

Lemma deletions_lose_a_digit_witness :
  let b := mk_base (str "/data/1/2/a.jpg") [] [] [] 0 0 1388534400 0 0 0 0 in
  find_last_index (Some (concat (map del_record [b]))) zero_base 1388534400 = (-1, []).
Proof.
  intros b. apply (deletions_lose_a_digit [b] zero_base 1388534400); [|discriminate].
  constructor; [|constructor]. split; [apply (bool_decide_unpack _); vm_compute; exact I|].
  split; [simpl; lia|]. split; [discriminate|reflexivity].
Defined.

End DelFile.

Module TimeStamp.

Section Dirs.
Context (DIR1 DIR2 : Z).

(** [init_pfs_time_stamp]: the file after [ftruncate]. *)
Definition ftruncate (f : bytes) (n : nat) : bytes := take n (f ++ replicate n 0).
Definition init_pfs_time_stamp (f : bytes) : bytes := ftruncate f (Z.to_nat (8 * DIR1 * DIR2)).

(** A [write] at an offset; a hole reads as zeros. *)
Definition write_at (f : bytes) (pos : nat) (d : bytes) : bytes :=
  let f := if (length f <? pos + length d)%nat
           then f ++ replicate (pos + length d - length f) 0 else f in
  memcpy f pos d.

Definition set_time_stamp_by_int (f : bytes) (d1 d2 tval : Z) : Z * bytes :=
  let pos := (d1 * DIR2 + d2) * 8 in
  if pos <? 0 then (-1, f) else (0, write_at f (Z.to_nat pos) (le_split 8 tval)).

Definition set_time_stamp (f : bytes) (b : t_task_base) : Z * bytes :=
  match Path.get_dir1_dir2 DIR1 DIR2 (filename b) with
  | None => (-1, f)
  | Some (d1, d2) => set_time_stamp_by_int f d1 d2 (mtime b)
  end.

Definition get_time_stamp_by_int (f : bytes) (d1 d2 : Z) : Z :=
  let pos := i32 ((d1 * DIR2 + d2) * 8) in
  if pos <? 0 then -1
  else
    let d := take 8 (drop (Z.to_nat pos) f) in
    if zlen d =? 8 then i64 (le_combine d) else -1.

(** ** Lemmas *)

Lemma length_init f : length (init_pfs_time_stamp f) = Z.to_nat (8 * DIR1 * DIR2).
Proof.
  unfold init_pfs_time_stamp, ftruncate. rewrite length_take, length_app, length_replicate. lia.
Qed.

Lemma write_at_inside f pos d :
  (pos + length d <= length f)%nat -> write_at f pos d = memcpy f pos d.
Proof. intros Hl. unfold write_at. destruct (_ <? _)%nat eqn:E; [|done]. apply Nat.ltb_lt in E. lia. Qed.

Lemma read_written f pos d :
  (pos + length d <= length f)%nat -> take (length d) (drop pos (memcpy f pos d)) = d.
Proof.
  intros Hl. unfold memcpy.
  rewrite drop_app_length' by (rewrite length_take; lia). by rewrite take_app_length.
Qed.

Lemma read_elsewhere f pos d q k :
  (pos + length d <= length f)%nat -> (q + k <= pos \/ pos + length d <= q)%nat ->
  take k (drop q (memcpy f pos d)) = take k (drop q f).
Proof.
  intros Hl Hq. apply list_eq. intros i. rewrite !lookup_take.
  destruct (decide (i < k)%nat); [|done]. rewrite !lookup_drop. unfold memcpy.
  destruct Hq as [Hq|Hq].
  - rewrite lookup_app_l by (rewrite length_take; lia). rewrite lookup_take_lt by lia. done.
  - rewrite app_assoc, lookup_app_r by (rewrite length_app, length_take; lia).
    rewrite length_app, length_take, lookup_drop. f_equal. lia.
Qed.

(** The cell of a directory lies in the file, and cells do not overlap. *)
Lemma cell_bound d1 d2 : 0 <= d1 < DIR1 -> 0 <= d2 < DIR2 ->
  0 <= d1 * DIR2 + d2 /\ (d1 * DIR2 + d2) * 8 + 8 <= 8 * DIR1 * DIR2.
Proof. intros. nia. Qed.

Lemma cell_inj d1 d2 e1 e2 :
  0 <= d2 < DIR2 -> 0 <= e2 < DIR2 -> d1 * DIR2 + d2 = e1 * DIR2 + e2 -> d1 = e1 /\ d2 = e2.
Proof. intros. assert (d1 = e1) by nia. nia. Qed.

Lemma get_set_time_stamp f d1 d2 e1 e2 v f' :
  length f = Z.to_nat (8 * DIR1 * DIR2) -> 8 * DIR1 * DIR2 < 2 ^ 31 -> - 2 ^ 63 <= v < 2 ^ 63 ->
  0 <= d1 < DIR1 -> 0 <= d2 < DIR2 -> 0 <= e1 < DIR1 -> 0 <= e2 < DIR2 ->
  set_time_stamp_by_int f d1 d2 v = (0, f') ->
  length f' = length f /\
  get_time_stamp_by_int f' e1 e2
  = if decide (d1 = e1 /\ d2 = e2) then v else get_time_stamp_by_int f e1 e2.
Proof.
  intros Hl Hs Hv H1 H2 H3 H4 Hset. unfold set_time_stamp_by_int in Hset.
  destruct (cell_bound d1 d2 H1 H2) as [B1 B2]. destruct (cell_bound e1 e2 H3 H4) as [C1 C2].
  destruct (_ <? 0); [done|]. simplify_eq.
  set (p := Z.to_nat ((d1 * DIR2 + d2) * 8)).
  assert (Hin : (p + length (le_split 8 v) <= length f)%nat) by (rewrite length_le_split; lia).
  rewrite write_at_inside by done. split; [by apply length_memcpy|].
  unfold get_time_stamp_by_int. rewrite i32_small by lia.
  destruct ((e1 * DIR2 + e2) * 8 <? 0) eqn:En; b2p; [lia|].
  destruct (decide (d1 = e1 /\ d2 = e2)) as [[-> ->]|Hne].
  - fold p. pose proof (read_written f p (le_split 8 v) Hin) as Hr.
    rewrite length_le_split in Hr. rewrite Hr, length_le_split. simpl (_ =? _). cbv iota.
    rewrite le_combine_split. change (256 ^ Z.of_nat 8) with (2 ^ 64).
    unfold i64. rewrite Zplus_mod_idemp_l. rewrite Z.mod_small; lia.
  - rewrite read_elsewhere; [done|done|]. rewrite length_le_split.
    assert (d1 * DIR2 + d2 <> e1 * DIR2 + e2) by (intros E; apply Hne; by apply cell_inj).
    unfold p. lia.
Qed.

End Dirs.

(** ** Properties *)

(** The time stamps of the directories are independent cells: after
    [set_time_stamp_by_int] for one directory, [get_time_stamp_by_int] gives
    the new time for it and the old time for every other, and the file keeps
    its size. *)
Theorem time_stamp_cells DIR1 DIR2 f d1 d2 e1 e2 v f' :
  length f = Z.to_nat (8 * DIR1 * DIR2) -> 8 * DIR1 * DIR2 < 2 ^ 31 -> - 2 ^ 63 <= v < 2 ^ 63 ->
  0 <= d1 < DIR1 -> 0 <= d2 < DIR2 -> 0 <= e1 < DIR1 -> 0 <= e2 < DIR2 ->
  set_time_stamp_by_int DIR2 f d1 d2 v = (0, f') ->
  length f' = length f /\
  get_time_stamp_by_int DIR2 f' e1 e2
  = if decide (d1 = e1 /\ d2 = e2) then v else get_time_stamp_by_int DIR2 f e1 e2.
Proof. apply get_set_time_stamp. Qed.

Lemma time_stamp_cells_witness :
  let f := init_pfs_time_stamp 4 4 [] in
  let f' := snd (set_time_stamp_by_int 4 f 1 2 1388534400) in
  length f' = length f /\
  get_time_stamp_by_int 4 f' 2 1
  = if decide (1 = 2 /\ 2 = 1) then 1388534400 else get_time_stamp_by_int 4 f 2 1.
Proof.
  intros f f'. apply (time_stamp_cells 4 4 f 1 2 2 1 1388534400 f'); try lia; reflexivity.
Defined.

End TimeStamp.

Module FileFilter.

(** [t_pfs_filter] of type 0 (suffix): [strings[64]] and [s_len], a byte. *)
Record t_pfs_filter := mk_filter { strings : bytes; s_len : Z }.

Definition add_filter (s : bytes) (l : list t_pfs_filter) : list t_pfs_filter :=
  mk_filter (snprintf 64 s) (u8 (zlen s)) :: l.

Definition strip_star (s : bytes) : bytes :=
  match s with c :: t => if c =? 42 then t else s | [] => [] end.

(** [sub_init_filter]: an empty item ends the scan, since the pointer is left
    on the terminator it has just written. *)
Fixpoint sub_init_filter (fuel : nat) (s : bytes) (l : list t_pfs_filter) : list t_pfs_filter :=
  match fuel with
  | O => l
  | S fuel' =>
      match strchr s 124 with
      | Some i =>
          let item := strip_star (take i s) in
          if zlen item =? 0 then l
          else sub_init_filter fuel' (drop (S i) s) (add_filter item l)
      | None =>
          let item := strip_star s in
          if zlen item =? 0 then l else add_filter item l
      end
  end.

(** [init_file_filter]: the values of [file_allow_suffix]. *)
Definition init_file_filter (disable : Z) (vals : list bytes) : bool * list t_pfs_filter :=
  if negb (disable =? 0) then (true, [])
  else (false, foldl (fun l v => sub_init_filter (S (length v)) v l) [] vals).

Definition check_file_allow (l : list t_pfs_filter) (file : bytes) : Z :=
  let f_len := zlen file in
  match find_first (fun f => (s_len f <=? f_len) &&
                             streq (drop (Z.to_nat (f_len - s_len f)) file) (strings f)) l with
  | Some _ => 0
  | None => 1
  end.

(** 1: deny, 0: allow. *)
Definition check_file_filter (st : bool * list t_pfs_filter) (file : bytes) : Z :=
  if fst st : bool then 0 else check_file_allow (snd st) file.

(** ** Lemmas *)

(** A list of items written with bars between them. *)
Fixpoint bars (l : list bytes) : bytes :=
  match l with
  | [] => []
  | [s] => s
  | s :: t => s ++ 124 :: bars t
  end.

Definition item_ok (s : bytes) : Prop :=
  124 ∉ s /\ strip_star s <> [] /\ (length s < 64)%nat.

Lemma strip_star_length s : (length (strip_star s) <= length s)%nat.
Proof. destruct s as [|c t]; simpl; [lia|]. destruct (c =? 42); simpl; lia. Qed.

Lemma strip_star_nonempty s : strip_star s <> [] -> zlen (strip_star s) =? 0 = false.
Proof. intros. apply Z.eqb_neq. destruct (strip_star s); [done|simpl; lia]. Qed.

Lemma sub_init_items l : forall fuel acc,
  l <> [] -> Forall item_ok l -> (length l <= fuel)%nat ->
  sub_init_filter fuel (bars l) acc
  = rev (map (fun s => mk_filter (strip_star s) (zlen (strip_star s))) l) ++ acc.
Proof.
  assert (Hadd : forall s acc, item_ok s ->
    add_filter (strip_star s) acc = mk_filter (strip_star s) (zlen (strip_star s)) :: acc).
  { intros s acc (_ & _ & Hl). unfold add_filter, snprintf. pose proof (strip_star_length s).
    rewrite take_ge by lia. rewrite u8_small by lia. done. }
  induction l as [|s l IH]; intros fuel acc Hne Hok Hf; [done|].
  apply Forall_cons in Hok as [Hs Hok]. destruct Hs as (Hb & Hn & Hl) eqn:Es.
  destruct fuel as [|fuel]; [simpl in Hf; lia|]. cbn [sub_init_filter].
  destruct l as [|s2 l].
  - simpl. assert (strchr s 124 = None) as -> by by apply strchr_None.
    rewrite strip_star_nonempty, Hadd by done. done.
  - change (bars (s :: s2 :: l)) with (s ++ 124 :: bars (s2 :: l)).
    rewrite strchr_app_r, take_app_length by done.
    rewrite strip_star_nonempty, Hadd by done.
    replace (drop (S (length s)) (s ++ 124 :: bars (s2 :: l))) with (bars (s2 :: l)).
    + rewrite IH by (done || (simpl in *; lia)). cbn [map rev]. by rewrite <- !app_assoc.
    + rewrite drop_app_ge by lia. by replace (S (length s) - length s)%nat with 1%nat by lia.
Qed.

Lemma allow_spec l file :
  check_file_allow (rev (map (fun s => mk_filter s (zlen s)) l)) file = 0 <->
  exists s, s ∈ l /\ s `suffix_of` file.
Proof.
  unfold check_file_allow.
  assert (Hm : forall s, ((zlen s <=? zlen file) &&
      streq (drop (Z.to_nat (zlen file - zlen s)) file) s) = true <-> s `suffix_of` file).
  { intros s. rewrite andb_true_iff, Z.leb_le. unfold streq. rewrite bool_decide_eq_true. split.
    - intros [_ He]. exists (take (Z.to_nat (zlen file - zlen s)) file).
      rewrite <- He at 2. by rewrite take_drop.
    - intros [k ->]. rewrite length_app. split; [lia|]. apply drop_app_length'. lia. }
  destruct (find_first _ _) as [f|] eqn:Ef; (split; [|try done]).
  - intros _. apply find_first_Some in Ef as [Hin Hp]. apply list_elem_of_In, in_rev, list_elem_of_In in Hin; apply list_elem_of_fmap in Hin
      as (s & -> & Hs). exists s. split; [done|]. by apply Hm.
  - done.
  - intros (s & Hs & Hsuf).
    assert (Hin : mk_filter s (zlen s) ∈ rev (map (fun s => mk_filter s (zlen s)) l))
      by (apply list_elem_of_In; rewrite <- in_rev; apply list_elem_of_In, list_elem_of_fmap; by exists s).
    pose proof (proj1 (find_first_None _ _) Ef _ Hin) as Hf. simpl in Hf.
    apply Hm in Hsuf. congruence.
Qed.

(** ** Properties *)

(** With the filter on, a list of suffixes separated by bars (each with an
    optional leading star, none of them empty) admits exactly the files that
    end in one of them. *)
Theorem filter_admits_suffixes l file :
  l <> [] -> Forall item_ok l ->
  check_file_filter (init_file_filter 0 [bars l]) file = 0 <->
  exists s, s ∈ l /\ strip_star s `suffix_of` file.
Proof.
  intros Hne Hok. unfold check_file_filter, init_file_filter.
  cbn [Z.eqb negb fst snd foldl].
  assert (Hlen : (length l <= S (length (bars l)))%nat).
  { clear Hne. induction Hok as [|s l Hs Hok IH]; simpl; [lia|]. destruct l as [|s2 l]; [simpl; lia|].
    rewrite length_app. simpl in *. lia. }
  rewrite sub_init_items, app_nil_r by done.
  pose proof (allow_spec (map strip_star l) file) as Ha. rewrite map_map in Ha. rewrite Ha.
  split.
  - intros (s & Hs & Hf). apply list_elem_of_fmap in Hs as (x & -> & Hx). by exists x.
  - intros (s & Hs & Hf). exists (strip_star s). split; [|done]. apply list_elem_of_fmap. by exists s.
Qed.

Lemma filter_admits_suffixes_witness :
  check_file_filter (init_file_filter 0 [str "*.jpg|.png"]) (str "a.png") = 0 <->
  exists s, s ∈ [str "*.jpg"; str ".png"] /\ strip_star s `suffix_of` str "a.png".
Proof.
  apply (filter_admits_suffixes [str "*.jpg"; str ".png"] (str "a.png")); [discriminate|].
  repeat constructor; try discriminate; try (simpl; lia);
    apply (bool_decide_unpack _); vm_compute; exact I.
Defined.

End FileFilter.
