(* ===== verification/LocalFile.v ===== *)
(** * Local files (network/pfs_localfile.c)

    [Fs] is the part of the file system the storage server uses: directories,
    directory entries pointing to inodes, and open descriptors.  Paths are
    compared as strings.  [LocalFile] has the operations on the files of
    tasks: where a client's name is stored, the temporary file an upload is
    written to, the check and rename that publish it, deletion. *)

From S2P Require Import Prelude.
From S2P Require Import CString.
From S2P Require Import MD5.
From S2P Require Import TaskData.
From S2P Require Import Timer.
From S2P Require Import Storage.
From S2P Require Import Records.

Module Fs.

Record fs := mk_fs {
  paths : gmap bytes Z;        (* directory entries: the inode *)
  inodes : gmap Z bytes;       (* contents *)
  times : gmap Z Z;            (* modification times set by [utime] *)
  dirs : gset bytes;
  fds : gmap Z (Z * Z);        (* open descriptors: inode and offset *)
  next : Z                     (* inode and descriptor numbers not in use *)
}.

(** What the kernel refuses, and what it reports. *)
Class Kernel := mk_kernel {
  k_open : bytes -> option Z;        (* the error an [open] fails with *)
  k_mkdir : bytes -> bool;
  k_rename : bytes -> bytes -> bool;
  k_statfs : bytes -> option (Z * Z);   (* f_bfree, f_bsize *)
  k_stack : bytes;                   (* 64 bytes of stack garbage *)
  k_stack_len : length k_stack = 64%nat
}.

Definition ENOENT : Z := 2.

Definition parent (p : bytes) : bytes :=
  match strrchr p 47 with
  | Some O => [47]
  | Some i => take i p
  | None => [46]
  end.

Section Calls.
Context {K : Kernel}.

Definition access (f : fs) (p : bytes) : bool :=
  bool_decide (p ∈ dirs f) || bool_decide (is_Some (paths f !! p)).

(** [open(p, O_CREAT | O_RDWR)]: the descriptor, or [errno]. *)
Definition open_create (f : fs) (p : bytes) : (Z + Z) * fs :=
  match k_open p with
  | Some e => (inr e, f)
  | None =>
      if bool_decide (parent p ∈ dirs f) then
        match paths f !! p with
        | Some i => (inl (next f), mk_fs (paths f) (inodes f) (times f) (dirs f)
                                     (<[next f := (i, 0)]> (fds f)) (next f + 1))
        | None => (inl (next f), mk_fs (<[p := next f]> (paths f)) (<[next f := []]> (inodes f))
                                   (times f) (dirs f) (<[next f := (next f, 0)]> (fds f)) (next f + 1))
        end
      else (inr ENOENT, f)
  end.

(** [open(p, O_RDONLY)]. *)
Definition open_read (f : fs) (p : bytes) : (Z + Z) * fs :=
  match k_open p with
  | Some e => (inr e, f)
  | None =>
      match paths f !! p with
      | Some i => (inl (next f), mk_fs (paths f) (inodes f) (times f) (dirs f)
                                   (<[next f := (i, 0)]> (fds f)) (next f + 1))
      | None => (inr ENOENT, f)
      end
  end.

(** A [write] of all of [d] at the descriptor's offset. *)
Definition write (f : fs) (fd : Z) (d : bytes) : fs :=
  match fds f !! fd with
  | Some (i, off) =>
      mk_fs (paths f) (<[i := TimeStamp.write_at (default [] (inodes f !! i)) (Z.to_nat off) d]> (inodes f))
            (times f) (dirs f) (<[fd := (i, off + zlen d)]> (fds f)) (next f)
  | None => f
  end.

Definition close (f : fs) (fd : Z) : fs :=
  mk_fs (paths f) (inodes f) (times f) (dirs f) (delete fd (fds f)) (next f).

Definition rename (f : fs) (p q : bytes) : bool * fs :=
  match paths f !! p with
  | Some i => if k_rename p q then
                (true, mk_fs (<[q := i]> (delete p (paths f))) (inodes f) (times f) (dirs f) (fds f) (next f))
              else (false, f)
  | None => (false, f)
  end.

Definition unlink (f : fs) (p : bytes) : fs :=
  mk_fs (delete p (paths f)) (inodes f) (times f) (dirs f) (fds f) (next f).

Definition mkdir (f : fs) (p : bytes) : bool * fs :=
  if k_mkdir p && bool_decide (parent p ∈ dirs f) && negb (access f p)
  then (true, mk_fs (paths f) (inodes f) (times f) ({[p]} ∪ dirs f) (fds f) (next f))
  else (false, f).

Definition utime (f : fs) (p : bytes) (t : Z) : fs :=
  match paths f !! p with
  | Some i => mk_fs (paths f) (inodes f) (<[i := t]> (times f)) (dirs f) (fds f) (next f)
  | None => f
  end.

(** The contents a path leads to. *)
Definition contents (f : fs) (p : bytes) : option bytes := paths f !! p ≫= fun i => inodes f !! i.

(** The reads [getfilemd5] makes of a file. *)
Fixpoint reads_of (fuel : nat) (c : bytes) : list (option bytes) :=
  match fuel with
  | O => []
  | S fuel' =>
      if Md5.BUFSIZE <=? zlen c
      then Some (take (Z.to_nat Md5.BUFSIZE) c) :: reads_of fuel' (drop (Z.to_nat Md5.BUFSIZE) c)
      else [Some c]
  end.

Definition getfilemd5 (f : fs) (p : bytes) : option bytes :=
  match contents f p with
  | Some c => Md5.getfilemd5 k_stack true (reads_of (S (length c)) c)
  | None => None
  end.

(** ** Lemmas *)

Lemma reads_of_split fuel : forall c, (length c < fuel)%nat ->
  exists fulls lastd, reads_of fuel c = map Some fulls ++ [Some lastd] /\
    Forall (fun d => zlen d = Md5.BUFSIZE) fulls /\ zlen lastd < Md5.BUFSIZE /\
    concat fulls ++ lastd = c.
Proof.
  assert (HB : 0 < Md5.BUFSIZE) by done.
  induction fuel as [|fuel IH]; intros c Hf; [lia|]. cbn [reads_of].
  destruct (Md5.BUFSIZE <=? zlen c) eqn:E; b2p.
  - destruct (IH (drop (Z.to_nat Md5.BUFSIZE) c)) as (fulls & lastd & E1 & E2 & E3 & E4).
    { rewrite length_drop. lia. }
    exists (take (Z.to_nat Md5.BUFSIZE) c :: fulls), lastd. rewrite E1.
    split; [done|]. split; [constructor; [rewrite length_take; lia|done]|]. split; [done|].
    cbn [concat]. rewrite <- app_assoc, E4. apply take_drop.
  - exists [], c. by split_and!.
Qed.

Lemma getfilemd5_spec f p c : contents f p = Some c -> getfilemd5 f p = Some (Rfc1321.md5 c).
Proof.
  intros Hc. unfold getfilemd5. rewrite Hc.
  destruct (reads_of_split (S (length c)) c) as (fulls & lastd & -> & E2 & E3 & E4); [lia|].
  unfold Md5.getfilemd5.
  destruct (Md5Facts.filemd5_loop_spec fulls lastd (Md5.MD5Init k_stack) []
              (Md5Facts.absorbed_init k_stack k_stack_len) E2 E3) as (ctx & -> & Ha).
  simpl in *. rewrite E4 in Ha. by rewrite (Md5Facts.final_absorbed ctx c Ha).
Qed.

(** A descriptor at the end of its file. *)
Definition appending (f : fs) (fd i : Z) (c : bytes) : Prop :=
  fds f !! fd = Some (i, zlen c) /\ inodes f !! i = Some c.

Lemma write_appending f fd i c d :
  appending f fd i c -> appending (write f fd d) fd i (c ++ d).
Proof.
  intros [H1 H2]. unfold write, appending. rewrite H1, H2. simpl.
  rewrite !lookup_insert_eq, Nat2Z.id. split; [by rewrite length_app, Nat2Z.inj_add|].
  f_equal. unfold TimeStamp.write_at, memcpy.
  destruct (length c <? length c + length d)%nat eqn:E.
  - rewrite take_app_length, drop_ge, app_nil_r; [done|].
    rewrite length_app, length_replicate. lia.
  - apply Nat.ltb_ge in E. assert (d = []) as -> by (destruct d; [done|simpl in E; lia]).
    rewrite !app_nil_r. simpl. rewrite Nat.add_0_r, drop_ge, app_nil_r by lia. by rewrite take_ge.
Qed.

Lemma write_paths f fd d : paths (write f fd d) = paths f.
Proof. unfold write. by destruct (fds f !! fd) as [[i o]|]. Qed.

(** ** Files that are appended to *)

(** A [write] on a descriptor opened with [O_APPEND]. *)
Definition append (f : fs) (fd : Z) (d : bytes) : fs :=
  match fds f !! fd with
  | Some (i, _) =>
      let c := default [] (inodes f !! i) ++ d in
      mk_fs (paths f) (<[i := c]> (inodes f)) (times f) (dirs f) (<[fd := (i, zlen c)]> (fds f)) (next f)
  | None => f
  end.

Definition opened (f : fs) (lfd i : Z) (c : bytes) : Prop :=
  (exists o, fds f !! lfd = Some (i, o)) /\ inodes f !! i = Some c.

Lemma opened_append f lfd i c d : opened f lfd i c -> opened (append f lfd d) lfd i (c ++ d).
Proof.
  intros [[o Hf] Hi]. unfold append. rewrite Hf, Hi. split; simpl; [|by rewrite lookup_insert_eq].
  eexists. by rewrite lookup_insert_eq.
Qed.

Lemma opened_append_ne f lfd i c d lfd' i' c' :
  opened f lfd i c -> opened f lfd' i' c' -> lfd <> lfd' -> i <> i' -> opened (append f lfd d) lfd' i' c'.
Proof.
  intros [[o Hf] Hi] [[o' Hf'] Hi'] Hl Hn. unfold append. rewrite Hf, Hi.
  split; simpl; [|by rewrite lookup_insert_ne]. eexists. by rewrite lookup_insert_ne.
Qed.

Lemma append_frame f lfd d :
  paths (append f lfd d) = paths f /\ dirs (append f lfd d) = dirs f /\ next (append f lfd d) = next f.
Proof. unfold append. by destruct (fds f !! lfd) as [[i o]|]. Qed.

Lemma opened_create f p : k_open p = None -> parent p ∈ dirs f -> paths f !! p = None ->
  exists f', open_create f p = (inl (next f), f') /\ opened f' (next f) (next f) [] /\ paths f' !! p = Some (next f) /\
    dirs f' = dirs f /\ next f' = next f + 1 /\
    (forall lfd i c, opened f lfd i c -> lfd <> next f -> i <> next f -> opened f' lfd i c).
Proof.
  intros Hk Hd Hp. unfold open_create. rewrite Hk, bool_decide_true, Hp by done. eexists. split; [done|].
  split; [split; simpl; [exists 0|]; by rewrite lookup_insert_eq|]. split; [simpl; by rewrite lookup_insert_eq|].
  split; [done|]. split; [done|]. intros lfd i c [[o Hf] Hi] H1 H2. split; simpl; [exists o|]; by rewrite lookup_insert_ne.
Qed.

End Calls.

End Fs.

Module LocalFile.
Import Fs.

Definition LOCALFILE_OK : Z := 0.
Definition LOCALFILE_TMPFILE : Z := 1.
Definition LOCALFILE_MD5_E : Z := 2.
Definition LOCALFILE_SIZE_E : Z := 3.
Definition LOCALFILE_DIR_E : Z := 4.
Definition LOCALFILE_FILE_E : Z := 5.
Definition LOCALFILE_OPEN_E : Z := 6.
Definition LOCALFILE_RENAME_E : Z := 7.
Definition LOCALFILE_UNLINK_E : Z := 8.
Definition VIDEOFILE : Z := 0.
Definition VIDEOTMP : Z := 1.
Definition DISK_OK : Z := 0.
Definition DISK_SPACE_TOO_SMALL : Z := 1.
Definition DISK_ERR : Z := 2.

(** The state the operations change. *)
Record lf := mk_lf {
  sys : fs;
  g_index : Z;
  del_list : option bytes;      (* the file of deletions; [None]: cannot be opened *)
  timers : Timer.state;
  stamps : bytes                (* the file of time stamps *)
}.

Definition with_sys (l : lf) (f : fs) : lf := mk_lf f (g_index l) (del_list l) (timers l) (stamps l).

(** The settings used: [g_config.datadir], [real_rm_time], [mindiskfree],
    the numbers of directories, the filter. *)
Class Site := mk_site {
  datadir : bytes;
  real_rm_time : Z;
  mindiskfree : Z;
  DIR1 : Z;
  DIR2 : Z;
  filters : bool * list FileFilter.t_pfs_filter
}.

(** ** Names *)

Fixpoint squeeze (sep : Z) (last : bool) (s : bytes) : bytes :=
  match s with
  | [] => []
  | c :: t => if last && (c =? sep) then squeeze sep true t else c :: squeeze sep (c =? sep) t
  end.

(** [trim_sep]: strings of 1023 bytes or more are left as they are. *)
Definition trim_sep (s : bytes) (sep : Z) : bytes :=
  if 1023 <=? zlen s then s else squeeze sep false s.

(** The walk of [storage_convert] back from the last slash over digits and
    slashes: [back] are the bytes before it, the nearest first, and the result
    is how far back the last slash seen is; [None] when the bytes given end
    before the walk does. *)
Fixpoint walk (back : bytes) (k last : nat) : option nat :=
  match back with
  | [] => None
  | c :: t => if isdigit c || (c =? 47) then walk t (S k) (if c =? 47 then S k else last)
              else Some last
  end.

Section Ops.
Context {K : Kernel} {C : Site}.

Definition set_names (b : t_task_base) (f r : bytes) : t_task_base :=
  mk_base f (tmpfile b) r (filemd5 b) (dstip b) (b_starttime b) (mtime b) (fsize b)
          (type b) (retry b) (overstatus b).

(** [storage_convert(task)].  The walk can leave the front of [filename], the
    first field of the task: [before] is the memory there, the nearest byte
    first.  [None]: a read past [before], or a store past [realfile[256]]. *)
Definition storage_convert (before : bytes) (b : t_task_base) : option (Z * t_task_base) :=
  match strrchr (filename b) 47 with
  | None => Some (LOCALFILE_DIR_E, b)
  | Some i =>
      let back := rev (take i (filename b)) ++ before in
      k ← walk back 0 0;
      let last := rev (take k back) ++ drop i (filename b) in
      let realfile := datadir ++ last in
      if 256 <=? zlen realfile then None
      else Some (LOCALFILE_OK, set_names b (trim_sep realfile 47) (snprintf 256 last))
  end.

(** [get_tmpstr]: [strtime] is the 14-digit time of day. *)
Definition get_tmpstr (strtime : bytes) (idx : Z) : bytes :=
  snprintf 32 (95 :: strtime ++ 95 :: dec (i32 idx)).

(** [createdir(file)]: every prefix that ends before a slash after the first
    byte is made if it is missing. *)
Fixpoint createdir_loop (f : fs) (pre rest : bytes) : Z * fs :=
  match rest with
  | [] => (0, f)
  | c :: t =>
      if c =? 47 then
        if access f pre then createdir_loop f (pre ++ [c]) t
        else let '(ok, f1) := mkdir f pre in
             if ok : bool then createdir_loop f1 (pre ++ [c]) t else (-1, f1)
      else createdir_loop f (pre ++ [c]) t
  end.

Definition createdir (f : fs) (file : bytes) : Z * fs :=
  match file with
  | [] => (0, f)
  | c :: t => createdir_loop f [c] t
  end.

Definition real_rm_file (f : fs) (file : bytes) : fs := unlink f file.

(** The callback number of [real_rm_file] in the timer table. *)
Definition CB_REAL_RM : Z := 1.

(** [delete_localfile(task)]; [fresh] is the timer node [malloc] would give. *)
Definition delete_localfile (before : bytes) (fresh : option Z) (now : Z) (l : lf) (b : t_task_base)
  : option (Z * t_task_base * lf) :=
  '(rc, b1) ← storage_convert before b;
  if negb (rc =? LOCALFILE_OK) then Some (LOCALFILE_DIR_E, b1, l)
  else
    let rmfile := snprintf 256 (filename b1 ++ str ".tmp4rm") in
    let '(ok, f1) := rename (sys l) (filename b1) rmfile in
    if negb ok then Some (LOCALFILE_RENAME_E, b1, l)
    else
      let '(_, d1) := DelFile.add_2_del_file (del_list l) b1 in
      let '(_, t1) := Timer.add_to_delay_task (timers l)
                        (Timer.mk_timer CB_REAL_RM rmfile 0 real_rm_time 0) fresh now in
      Some (LOCALFILE_OK, b1, mk_lf f1 (g_index l) d1 t1 (stamps l)).

(** [check_localfile_md5(task, type)]: the 17 bytes of the array are compared. *)
Definition check_localfile_md5 (before : bytes) (f : fs) (b : t_task_base) (ty : Z)
  : option (Z * t_task_base * fs) :=
  b1 ← (if ty =? VIDEOTMP then Some b else snd <$> storage_convert before b);
  let outdir := if ty =? VIDEOTMP then tmpfile b1 else filename b1 in
  Some (match getfilemd5 f outdir with
        | None => (LOCALFILE_FILE_E, b1, f)
        | Some m => if negb (bool_decide (m ++ [0] = filemd5 b1)) then (LOCALFILE_MD5_E, b1, f)
                    else (LOCALFILE_OK, b1, utime f outdir (mtime b1))
        end).

(** [open_localfile_4_read(task, fd)]: the code and [*fd]. *)
Definition open_localfile_4_read (f : fs) (b : t_task_base) : Z * Z * fs :=
  match open_read f (filename b) with
  | (inl fd, f1) => (LOCALFILE_OK, fd, f1)
  | (inr _, f1) => (LOCALFILE_OPEN_E, -1, f1)
  end.

Definition set_tmpfile (b : t_task_base) (t : bytes) : t_task_base :=
  mk_base (filename b) t (retfile b) (filemd5 b) (dstip b) (b_starttime b) (mtime b) (fsize b)
          (type b) (retry b) (overstatus b).

(** The name of the temporary file of an upload. *)
Definition tmp_name (file strtime : bytes) (idx : Z) : bytes :=
  file ++ 46 :: get_tmpstr strtime idx ++ str ".pfs".

(** [open_tmp_localfile_4_write(task, fd)]: the code, [*fd] ([fd0] before the
    call), the task and the state; [None]: a store past [tmpfile[256]]. *)
Definition open_tmp_localfile_4_write (before strtime : bytes) (l : lf) (b : t_task_base) (fd0 : Z)
  : option (Z * Z * t_task_base * lf) :=
  '(rc, b1) ← storage_convert before b;
  if negb (rc =? LOCALFILE_OK) then Some (LOCALFILE_DIR_E, fd0, b1, l)
  else
    let outdir := tmp_name (filename b1) strtime (g_index l) in
    if 256 <=? zlen outdir then None
    else
      let b2 := set_tmpfile b1 outdir in
      let l1 := mk_lf (sys l) (u32 (g_index l + 1)) (del_list l) (timers l) (stamps l) in
      match open_create (sys l1) outdir with
      | (inl fd, f1) => Some (LOCALFILE_OK, fd, b2, with_sys l1 f1)
      | (inr e, f1) =>
          if negb (e =? ENOENT) then Some (LOCALFILE_OK, -1, b2, with_sys l1 f1)
          else
            match strrchr (filename b2) 47 with
            | None => Some (LOCALFILE_DIR_E, -1, b2, with_sys l1 f1)
            | Some i =>
                let dir := take i (filename b2) in
                let '(c, f2) := if access f1 dir then (0, f1) else createdir f1 dir in
                if negb (c =? 0) then Some (LOCALFILE_DIR_E, -1, b2, with_sys l1 f2)
                else
                  match open_create f2 outdir with
                  | (inl fd, f3) => Some (LOCALFILE_OK, fd, b2, with_sys l1 f3)
                  | (inr _, f3) => Some (LOCALFILE_OPEN_E, -1, b2, with_sys l1 f3)
                  end
            end
      end.

(** [close_tmp_check_mv(task, fd, md5)]; [md5] is the digest and the byte of
    stack that follows it, since 17 bytes are compared. *)
Definition close_tmp_check_mv (l : lf) (b : t_task_base) (fd : Z) (md5 : bytes) : Z * lf :=
  if fd <? 0 then (LOCALFILE_OPEN_E, l)
  else
    let f1 := close (sys l) fd in
    let checked :=
      if bool_decide (md5 = filemd5 b) then (LOCALFILE_OK, utime f1 (tmpfile b) (mtime b))
      else match check_localfile_md5 [] f1 b VIDEOTMP with
           | Some (rc, _, f2) => (rc, f2)
           | None => (LOCALFILE_FILE_E, f1)
           end in
    let '(rc, f2) := checked in
    if negb (rc =? LOCALFILE_OK) then (rc, with_sys l f2)
    else
      let '(ok, f3) := rename f2 (tmpfile b) (filename b) in
      if negb ok then (LOCALFILE_RENAME_E, with_sys l f3)
      else (LOCALFILE_OK, mk_lf f3 (g_index l) (del_list l) (timers l)
                            (snd (TimeStamp.set_time_stamp DIR1 DIR2 (stamps l) b))).

(** [check_disk_space(base)]. *)
Definition check_disk_space (f : fs) (b : t_task_base) : Z * fs :=
  match strrchr (filename b) 47 with
  | None => (DISK_ERR, f)
  | Some i =>
      let path := take i (filename b) in
      let '(c, f1) := if access f path then (0, f) else createdir f path in
      if negb (c =? 0) then (LOCALFILE_DIR_E, f1)
      else
        match k_statfs path with
        | None => (DISK_ERR, f1)
        | Some (bfree, bsize) =>
            (if u64 (bfree * bsize) <? mindiskfree then DISK_SPACE_TOO_SMALL else DISK_OK, f1)
        end
  end.

(** [get_localfile_stat(task)]. *)
Definition get_localfile_stat (f : fs) (b : t_task_base) : Z * t_task_base :=
  match paths f !! filename b with
  | None => (LOCALFILE_DIR_E, b)
  | Some i =>
      let sz := zlen (default [] (inodes f !! i)) in
      let set m := mk_base (filename b) (tmpfile b) (retfile b) m (dstip b) (b_starttime b)
                     (default 0 (times f !! i)) sz (type b) (retry b) (overstatus b) in
      match getfilemd5 f (filename b) with
      | None => (LOCALFILE_FILE_E, set (filemd5 b))
      | Some m => (LOCALFILE_OK, set (m ++ drop 16 (filemd5 b)))
      end
  end.

(** [get_dir_lasttime(path)]: the entries of the directory with their change
    times, [None] for one that cannot be examined. *)
Fixpoint lasttime_loop (l : list (bytes * option Z)) (maxtime : Z) : Z :=
  match l with
  | [] => maxtime
  | (name, ctime) :: t =>
      if at_ name 0 =? 46 then lasttime_loop t maxtime
      else if negb (FileFilter.check_file_filter filters name =? 0) then lasttime_loop t maxtime
      else match ctime with
           | None => lasttime_loop t maxtime
           | Some c => lasttime_loop t (if maxtime <=? c then c else maxtime)
           end
  end.

Definition get_dir_lasttime (now : Z) (entries : option (list (bytes * option Z))) : Z :=
  match entries with
  | None => now
  | Some l => lasttime_loop l 0
  end.

(** ** Lemmas *)

Definition dirish (c : Z) : Prop := isdigit c = true \/ c = 47.

Lemma walk_run b c rest : forall k last,
  Forall dirish b -> ~ dirish c ->
  walk (b ++ 47 :: c :: rest) k last = Some (S (k + length b)).
Proof.
  induction b as [|x b IH]; intros k last Hb Hc; cbn [app walk].
  - rewrite orb_true_r. simpl. destruct (isdigit c || (c =? 47)) eqn:E.
    + exfalso. apply Hc. apply orb_prop in E as [E|E]; [by left|right; by b2p].
    + f_equal. simpl. lia.
  - apply Forall_cons in Hb as [Hx Hb].
    assert (isdigit x || (x =? 47) = true) as ->
      by (destruct Hx as [-> | ->]; [done|by rewrite orb_true_r]).
    rewrite IH by done. f_equal. simpl. lia.
Qed.

(** The part of a client's name that is kept: slashes and numbers, then the
    last component. *)
Lemma storage_convert_keeps before b pre dirs name c rest :
  filename b = pre ++ dirs ++ 47 :: name -> 47 ∉ name ->
  dirs = [] \/ head dirs = Some 47 -> Forall dirish dirs ->
  rev pre ++ before = c :: rest -> ~ dirish c ->
  zlen (datadir ++ dirs ++ 47 :: name) < 256 ->
  storage_convert before b
  = Some (LOCALFILE_OK, set_names b (trim_sep (datadir ++ dirs ++ 47 :: name) 47) (dirs ++ 47 :: name)).
Proof.
  intros Hf Hn Hd Hds Hb Hc Hl. unfold storage_convert. rewrite Hf.
  rewrite (app_assoc pre dirs), strrchr_app_r by done.
  rewrite take_app_length, drop_app_length, rev_app_distr, <- app_assoc, Hb.
  assert (Hw : walk (rev dirs ++ c :: rest) 0 0 = Some (length dirs)).
  { destruct Hd as [-> |Hd].
    - simpl. destruct (isdigit c || (c =? 47)) eqn:E; [|done].
      exfalso. apply Hc. apply orb_prop in E as [E|E]; [by left|right; by b2p].
    - destruct dirs as [|x ds]; [done|]. simpl in Hd. injection Hd as ->.
      apply Forall_cons in Hds as [_ Hds].
      cbn [rev]. rewrite <- app_assoc. cbn [app].
      rewrite walk_run; [|by apply Forall_rev|done]. rewrite length_rev. done. }
  rewrite Hw. cbn [mbind option_bind]. rewrite <- (length_rev dirs), take_app_length, rev_involutive.
  destruct (256 <=? _) eqn:E; b2p; [lia|].
  unfold snprintf. rewrite (take_ge (dirs ++ _)); [done|]. rewrite length_app in Hl. lia.
Qed.

Lemma squeeze_no_double sep s : forall last,
  (forall a b, squeeze sep last s <> a ++ sep :: sep :: b) /\
  (last = true -> head (squeeze sep last s) <> Some sep).
Proof.
  induction s as [|x s IH]; intros last; simpl.
  { split; [|done]. intros a b Hs. by destruct a. }
  destruct (last && (x =? sep)) eqn:E.
  - apply andb_prop in E as [-> E]. destruct (IH true) as [A B]. split; [apply A|]. intros _. by apply B.
  - destruct (IH (x =? sep)) as [A B]. split.
    + intros [|y a] b Hs; simpl in Hs; injection Hs as Hx Ht.
      * subst x. rewrite Z.eqb_refl in *. specialize (B eq_refl). by rewrite Ht in B.
      * by apply (A a b).
    + intros ->. simpl in *. intros [= ->]. by rewrite Z.eqb_refl in E.
Qed.

(** What [close_tmp_check_mv] does once the temporary file holds [c]. *)
Lemma close_tmp_spec l b fd i c stray rc l' :
  0 <= fd -> paths (sys l) !! tmpfile b = Some i -> inodes (sys l) !! i = Some c ->
  tmpfile b <> filename b ->
  close_tmp_check_mv l b fd (Rfc1321.md5 c ++ [stray]) = (rc, l') ->
  (rc = LOCALFILE_OK /\ contents (sys l') (filename b) = Some c /\
   paths (sys l') !! tmpfile b = None /\ take 16 (filemd5 b) = Rfc1321.md5 c /\
   times (sys l') !! i = Some (mtime b)) \/
  (rc <> LOCALFILE_OK /\ paths (sys l') = paths (sys l) /\ inodes (sys l') = inodes (sys l) /\
   (k_rename (tmpfile b) (filename b) = true ->
    filemd5 b <> Rfc1321.md5 c ++ [0] /\ filemd5 b <> Rfc1321.md5 c ++ [stray])).
Proof.
  intros Hfd Hp Hi Hne. unfold close_tmp_check_mv. destruct (fd <? 0) eqn:E0; b2p; [lia|].
  set (f1 := close (sys l) fd). set (good := utime f1 (tmpfile b) (mtime b)).
  assert (Hc : contents f1 (tmpfile b) = Some c) by (unfold contents, f1; simpl; by rewrite Hp).
  assert (Hg : paths good = paths (sys l) /\ inodes good = inodes (sys l) /\ times good !! i = Some (mtime b)).
  { unfold good, utime, f1; simpl. rewrite Hp. simpl. by rewrite lookup_insert_eq. }
  unfold check_localfile_md5. simpl. rewrite (getfilemd5_spec f1 (tmpfile b) c Hc).
  assert (Hm : forall x, length (Rfc1321.md5 c ++ [x]) = 17%nat)
    by (intros; rewrite length_app, Md5Facts.length_md5; done).
  assert (Hpub : forall x, filemd5 b = Rfc1321.md5 c ++ [x] ->
    (let '(ok, f3) := rename good (tmpfile b) (filename b) in
     if negb ok then (LOCALFILE_RENAME_E, with_sys l f3)
     else (LOCALFILE_OK, mk_lf f3 (g_index l) (del_list l) (timers l)
             (snd (TimeStamp.set_time_stamp DIR1 DIR2 (stamps l) b)))) = (rc, l') ->
    (rc = LOCALFILE_OK /\ contents (sys l') (filename b) = Some c /\
     paths (sys l') !! tmpfile b = None /\ take 16 (filemd5 b) = Rfc1321.md5 c /\
     times (sys l') !! i = Some (mtime b)) \/
    (rc <> LOCALFILE_OK /\ paths (sys l') = paths (sys l) /\ inodes (sys l') = inodes (sys l) /\
     k_rename (tmpfile b) (filename b) = false)).
  { intros x Hx. destruct Hg as (G1 & G2 & G3). unfold rename. rewrite G1, Hp.
    destruct (k_rename (tmpfile b) (filename b)); simpl; intros; simplify_eq.
    - left. split_and!; [done| | | |done].
      + unfold contents; simpl. rewrite lookup_insert_eq. simpl. by rewrite G2.
      + simpl. rewrite lookup_insert_ne by done. apply lookup_delete_eq.
      + rewrite Hx. apply take_app_length'. by rewrite Md5Facts.length_md5.
    - right. by split_and!. }
  case_bool_decide as Ed; [|case_bool_decide as Ez]; simpl; intros Hr.
  - symmetry in Ed. destruct (Hpub _ Ed Hr) as [?|(? & ? & ? & Hk)]; [by left|]. right.
    split_and!; try done; congruence.
  - symmetry in Ez. destruct (Hpub _ Ez Hr) as [?|(? & ? & ? & Hk)]; [by left|]. right.
    split_and!; try done; congruence.
  - simplify_eq. right. split_and!; try done; congruence.
Qed.

(** A file that has the announced digest is published, whatever digest the
    caller computed. *)
Lemma close_tmp_publishes l b fd i c md5 :
  0 <= fd -> paths (sys l) !! tmpfile b = Some i -> inodes (sys l) !! i = Some c ->
  tmpfile b <> filename b -> filemd5 b = Rfc1321.md5 c ++ [0] ->
  k_rename (tmpfile b) (filename b) = true ->
  exists l', close_tmp_check_mv l b fd md5 = (LOCALFILE_OK, l') /\
    contents (sys l') (filename b) = Some c /\ paths (sys l') !! tmpfile b = None.
Proof.
  intros Hfd Hp Hi Hne Hm Hk. unfold close_tmp_check_mv. destruct (fd <? 0) eqn:E0; b2p; [lia|].
  set (f1 := close (sys l) fd). set (good := utime f1 (tmpfile b) (mtime b)).
  assert (Hc : contents f1 (tmpfile b) = Some c) by (unfold contents, f1; simpl; by rewrite Hp).
  assert (Hg : paths good = paths (sys l) /\ inodes good = inodes (sys l)).
  { unfold good, utime, f1; simpl. by rewrite Hp. }
  unfold check_localfile_md5. simpl. rewrite (getfilemd5_spec f1 (tmpfile b) c Hc).
  rewrite (bool_decide_eq_true_2 (Rfc1321.md5 c ++ [0] = filemd5 b)) by done. simpl. fold good.
  assert (Hif : (if bool_decide (md5 = filemd5 b) then (LOCALFILE_OK, good) else (LOCALFILE_OK, good))
    = (LOCALFILE_OK, good)) by (by case_bool_decide).
  rewrite Hif. simpl. destruct Hg as [G1 G2]. unfold rename. rewrite G1, Hp, Hk. simpl.
  eexists. split; [done|]. unfold contents; simpl. rewrite lookup_insert_eq. simpl. rewrite G2.
  split; [done|]. rewrite lookup_insert_ne by done. apply lookup_delete_eq.
Qed.

(** What [createdir] makes are prefixes that stop before a slash: never the
    name itself. *)
Lemma createdir_loop_dirs rest : forall f pre rc f',
  createdir_loop f pre rest = (rc, f') ->
  paths f' = paths f /\
  forall p, p ∈ dirs f' -> p ∈ dirs f \/ (length p < length pre + length rest)%nat.
Proof.
  induction rest as [|c t IH]; intros f pre rc f' Hr; cbn [createdir_loop] in Hr.
  { simplify_eq. split; [done|]. by left. }
  assert (Hstep : forall f1, createdir_loop f1 (pre ++ [c]) t = (rc, f') ->
    paths f1 = paths f -> (forall p, p ∈ dirs f1 -> p ∈ dirs f \/ p = pre) ->
    paths f' = paths f /\
    forall p, p ∈ dirs f' -> p ∈ dirs f \/ (length p < length pre + length (c :: t))%nat).
  { intros f1 H1 H2 H3. apply IH in H1 as [A B]. split; [congruence|].
    intros p Hp. apply B in Hp as [Hp|Hp].
    - apply H3 in Hp as [Hp|Hp]; [by left|right; subst; simpl; lia].
    - right. rewrite length_app in Hp. simpl in *. lia. }
  destruct (c =? 47); [|by eapply Hstep; eauto].
  destruct (access f pre); [by eapply Hstep; eauto|].
  unfold mkdir in Hr. destruct (_ && _).
  - eapply Hstep; [done|done|]. simpl. set_solver.
  - simplify_eq. split; [done|]. by left.
Qed.

Lemma createdir_not_leaf f file rc f' :
  createdir f file = (rc, f') -> file ∉ dirs f -> file ∉ dirs f' /\ paths f' = paths f.
Proof.
  unfold createdir. destruct file as [|c t]; [intros; by simplify_eq|].
  intros Hr Hn. apply createdir_loop_dirs in Hr as [A B]. split; [|done].
  intros Hp. apply B in Hp as [Hp|Hp]; [done|simpl in Hp; lia].
Qed.

Lemma tmpstr_no_slash st idx : 47 ∉ st -> 47 ∉ get_tmpstr st idx.
Proof.
  intros Hs Hin. unfold get_tmpstr, snprintf in Hin.
  apply (subseteq_take (A := Z)) in Hin.
  apply elem_of_cons in Hin as [Hin|Hin]; [done|].
  apply elem_of_app in Hin as [Hin|Hin]; [done|].
  apply elem_of_cons in Hin as [Hin|Hin]; [done|].
  unfold dec in Hin. destruct (_ <? 0); [apply elem_of_cons in Hin as [Hin|Hin]; [done|]|];
    by apply (Path.udec_no_slash _ Hin).
Qed.

Lemma tmp_name_parent file st idx j :
  47 ∉ st -> strrchr file 47 = Some (S j) -> parent (tmp_name file st idx) = take (S j) file.
Proof.
  intros Hs Hf. apply strrchr_Some in Hf as [Hl Hn].
  pose proof (lookup_lt_Some _ _ _ Hl) as Hlt.
  unfold parent, tmp_name.
  assert (strrchr (file ++ 46 :: get_tmpstr st idx ++ str ".pfs") 47 = Some (S j)) as ->.
  { apply strrchr_Some. split; [by rewrite lookup_app_l by lia|].
    rewrite drop_app_le by lia. intros Hin. apply elem_of_app in Hin as [Hin|Hin]; [done|].
    apply elem_of_cons in Hin as [Hin|Hin]; [done|].
    apply elem_of_app in Hin as [Hin|Hin]; [by apply (tmpstr_no_slash st idx Hs)|].
    vm_compute in Hin. set_solver. }
  by rewrite take_app_le by lia.
Qed.

(** The temporary file in a directory that is there. *)
Lemma open_tmp_fresh before st l b b1 fd0 j :
  storage_convert before b = Some (LOCALFILE_OK, b1) ->
  47 ∉ st -> strrchr (filename b1) 47 = Some (S j) -> take (S j) (filename b1) ∈ dirs (sys l) ->
  zlen (tmp_name (filename b1) st (g_index l)) < 256 ->
  k_open (tmp_name (filename b1) st (g_index l)) = None ->
  paths (sys l) !! tmp_name (filename b1) st (g_index l) = None ->
  exists fd l', open_tmp_localfile_4_write before st l b fd0
    = Some (LOCALFILE_OK, fd, set_tmpfile b1 (tmp_name (filename b1) st (g_index l)), l') /\
    appending (sys l') fd (next (sys l)) [] /\
    paths (sys l') = <[tmp_name (filename b1) st (g_index l) := next (sys l)]> (paths (sys l)) /\
    fd = next (sys l).
Proof.
  intros Hc Hs Hf Hd Hl Hk Hp. unfold open_tmp_localfile_4_write. rewrite Hc. simpl.
  destruct (256 <=? _) eqn:E; b2p; [lia|]. unfold open_create. simpl.
  rewrite Hk, (tmp_name_parent _ _ _ j) by done.
  rewrite bool_decide_eq_true_2 by done. rewrite Hp.
  eexists _, _. split; [done|]. split_and!; [|done..].
  unfold appending; simpl. by rewrite !lookup_insert_eq.
Qed.

(** In a directory that is missing, the name's own directory is not among
    those [createdir] makes, and the second [open] fails like the first. *)
Lemma open_tmp_missing before st l b b1 fd0 j :
  storage_convert before b = Some (LOCALFILE_OK, b1) ->
  47 ∉ st -> strrchr (filename b1) 47 = Some (S j) ->
  access (sys l) (take (S j) (filename b1)) = false ->
  zlen (tmp_name (filename b1) st (g_index l)) < 256 ->
  k_open (tmp_name (filename b1) st (g_index l)) = None ->
  exists rc b' l', open_tmp_localfile_4_write before st l b fd0 = Some (rc, -1, b', l') /\
    (rc = LOCALFILE_DIR_E \/ rc = LOCALFILE_OPEN_E) /\ paths (sys l') = paths (sys l).
Proof.
  intros Hc Hs Hf Hd Hl Hk. unfold open_tmp_localfile_4_write. rewrite Hc. simpl.
  destruct (256 <=? _) eqn:E; b2p; [lia|].
  assert (Hnd : take (S j) (filename b1) ∉ dirs (sys l)).
  { unfold access in Hd. apply orb_false_elim in Hd as [Hd _]. by apply bool_decide_eq_false in Hd. }
  assert (Hop : forall f, take (S j) (filename b1) ∉ dirs f ->
    open_create f (tmp_name (filename b1) st (g_index l)) = (inr ENOENT, f)).
  { intros f Hnf. unfold open_create. rewrite Hk, (tmp_name_parent _ _ _ j) by done.
    by rewrite bool_decide_eq_false_2. }
  rewrite Hop by done. simpl. rewrite Hf, Hd.
  destruct (createdir (sys l) (take (S j) (filename b1))) as [c f2] eqn:Ec.
  apply createdir_not_leaf in Ec as [Hn2 Hp2]; [|done].
  destruct (c =? 0); simpl.
  - rewrite Hop by done. eexists _, _, _. split; [done|]. split; [by right|done].
  - eexists _, _, _. split; [done|]. split; [by left|done].
Qed.

(** ** Properties *)

(** C34: of the name a client sends, only the trailing part made of numbers and
    slashes and the last component are kept: the file is placed under the data
    directory, whatever leads the name (the last byte of [pre], or the byte in
    front of the name when [pre] is empty, being neither a digit nor a slash),
    doubled slashes being squeezed. *)
Theorem storage_name_confined before b pre dirs name c rest :
  filename b = pre ++ dirs ++ 47 :: name -> 47 ∉ name ->
  dirs = [] \/ head dirs = Some 47 -> Forall dirish dirs ->
  rev pre ++ before = c :: rest -> ~ dirish c ->
  zlen (datadir ++ dirs ++ 47 :: name) < 256 ->
  exists b', storage_convert before b = Some (LOCALFILE_OK, b') /\
    filename b' = squeeze 47 false (datadir ++ dirs ++ 47 :: name) /\
    retfile b' = dirs ++ 47 :: name /\
    (forall x y, filename b' <> x ++ 47 :: 47 :: y).
Proof.
  intros H1 H2 H3 H4 H5 H6 H7. eexists. split; [by eapply storage_convert_keeps|].
  assert (Ht : trim_sep (datadir ++ dirs ++ 47 :: name) 47 = squeeze 47 false (datadir ++ dirs ++ 47 :: name)).
  { unfold trim_sep. destruct (1023 <=? _) eqn:E; b2p; [lia|done]. }
  simpl. rewrite Ht. split_and!; [done|done|]. apply squeeze_no_double.
Qed.


(** When the directory of the final name is missing,
    [open_tmp_localfile_4_write] does not make it ([createdir] makes only the
    directories above it), so the second [open] fails as the first did and the
    upload is refused. *)
Theorem missing_directory_not_made before st l b b1 fd0 j :
  storage_convert before b = Some (LOCALFILE_OK, b1) ->
  47 ∉ st -> strrchr (filename b1) 47 = Some (S j) ->
  access (sys l) (take (S j) (filename b1)) = false ->
  zlen (tmp_name (filename b1) st (g_index l)) < 256 ->
  k_open (tmp_name (filename b1) st (g_index l)) = None ->
  exists rc b' l', open_tmp_localfile_4_write before st l b fd0 = Some (rc, -1, b', l') /\
    (rc = LOCALFILE_DIR_E \/ rc = LOCALFILE_OPEN_E) /\ paths (sys l') = paths (sys l).
Proof. apply open_tmp_missing. Qed.

End Ops.

(** ** A small site for the witnesses *)

Definition demo_kernel : Kernel :=
  mk_kernel (fun _ => None) (fun _ => true) (fun _ _ => true) (fun _ => Some (1000, 4096))
            (replicate 64 170) eq_refl.

Definition demo_site : Site := mk_site (str "/data") 3600 0 4 4 (true, []).

(** A file system with one file, open for writing as descriptor 9. *)
Definition demo_fs (tmp : bytes) (c : bytes) : fs :=
  mk_fs {[ tmp := 5 ]} {[ 5 := c ]} ∅
        {[ [47]; str "/data"; str "/data/1"; str "/data/1/2" ]} {[ 9 := (5, zlen c) ]} 10.

Definition demo_lf (f : fs) : lf := mk_lf f 0 (Some []) (Timer.mk_state [] []) (replicate 128 0).

Definition demo_base (file tmp md5 : bytes) : t_task_base :=
  mk_base file tmp [] md5 0 0 1388534400 3 48 0 0.

Lemma storage_name_confined_witness :
  exists b', storage_convert (C := demo_site) [0] (demo_base (str "http://x/1/2/a.jpg") [] []) = Some (LOCALFILE_OK, b') /\
    filename b' = squeeze 47 false (str "/data" ++ str "/1/2" ++ 47 :: str "a.jpg") /\
    retfile b' = str "/1/2" ++ 47 :: str "a.jpg" /\
    (forall x y, filename b' <> x ++ 47 :: 47 :: y).
Proof.
  apply (storage_name_confined (C := demo_site) [0] (demo_base (str "http://x/1/2/a.jpg") [] [])
           (str "http://x") (str "/1/2") (str "a.jpg") 120 (rev (str "http://") ++ [0])).
  - reflexivity.
  - apply (bool_decide_unpack _). vm_compute. exact I.
  - right. reflexivity.
  - unfold dirish. repeat constructor; (left; reflexivity) || (right; reflexivity).
  - reflexivity.
  - intros [Hd|Hd]; discriminate Hd.
  - reflexivity.
Defined.


Lemma missing_directory_not_made_witness :
  let b := demo_base (str "/3/3/a.jpg") [] [] in
  let l := demo_lf (demo_fs (str "/x") []) in
  exists rc b' l', open_tmp_localfile_4_write (K := demo_kernel) (C := demo_site) [0] (str "20140101") l b 0
      = Some (rc, -1, b', l') /\
    (rc = LOCALFILE_DIR_E \/ rc = LOCALFILE_OPEN_E) /\ paths (sys l') = paths (sys l).
Proof.
  intros b l.
  apply (missing_directory_not_made (K := demo_kernel) (C := demo_site) [0] (str "20140101") l b
           (set_names b (str "/data/3/3/a.jpg") (str "/3/3/a.jpg")) 0 8);
    [reflexivity|apply (bool_decide_unpack _); vm_compute; exact I|reflexivity|reflexivity|reflexivity|reflexivity].
Defined.

End LocalFile.
