(* ===== verification/EventLoop.v ===== *)
(** * The event loop and its connections (network/pfs_so.c, myepoll.c, fdinfo.c)

    One thread owns the connection table [acon], waits on an edge-triggered
    epoll set and calls a service plug-in ([struct mylib], network/solib.h).
    Module [Conn] has the table, the client-data calls the services use and
    [do_close]; the class [Service] is the interface of a plug-in; Module
    [Loop] has [accept_new], [do_send], [do_recv] and [do_process].

    The socket calls are the environment: the results of successive [recv],
    [send], [sendfile64] and [accept] calls are lists the operations consume,
    an operation giving [None] when its list ends before it returns.  What the
    thread does to the outside is the field [trace]. *)

From S2P Require Import Prelude.
From S2P Require Import CString.
From S2P Require Import Codec.
From S2P Require Import MyBuff.

Module Conn.
Import MyBuff.

(** Global settings and the allocator: [junk n] is the indeterminate content
    of a fresh block of [n] bytes. *)
Class Env := mk_env {
  init_buff_size : Z;
  junk : nat -> bytes;
  maxfds : Z;
  init_pos : 0 < init_buff_size;
  junk_len : forall n, length (junk n) = n
}.

(** [struct conn] without its [user] pointer, which belongs to the service. *)
Record conn := mk_conn {
  c_fd : Z;
  send_len : Z;
  peerip : bytes;
  send_buff : mybuff;
  recv_buff : mybuff
}.

(** [init_fdinfo]: the table is zeroed and its buffers initialised. *)
Definition conn0 : conn := mk_conn 0 0 [] mybuff_init mybuff_init.

Definition EPOLLIN : Z := 1.
Definition EPOLLOUT : Z := 4.
Definition EPOLLERR : Z := 8.
Definition EPOLLET : Z := Z.shiftl 1 31.

Inductive event :=
  | Closed (fd : Z)
  | Sent (fd : Z) (d : bytes)
  | SentFile (fd lfd off n : Z).

Record host (U : Type) := mk_host {
  acon : gmap Z conn;
  epoll : gmap Z Z;        (* the epoll set: descriptor and event mask *)
  trace : list event;
  now : Z;                 (* time(NULL) *)
  user : U                 (* the state of the service *)
}.
Arguments mk_host {U}. Arguments acon {U}. Arguments epoll {U}.
Arguments trace {U}. Arguments now {U}. Arguments user {U}.

Section Host.
Context {U : Type} `{Env}.
Implicit Types h : host U.

Definition conn_of h (fd : Z) : conn := default conn0 (acon h !! fd).
Definition set_conn h (fd : Z) (c : conn) : host U :=
  mk_host (<[fd := c]> (acon h)) (epoll h) (trace h) (now h) (user h).
Definition set_user h (u : U) : host U :=
  mk_host (acon h) (epoll h) (trace h) (now h) u.
Definition emit h (l : list event) : host U :=
  mk_host (acon h) (epoll h) (trace h ++ l) (now h) (user h).
Definition set_epoll h (e : gmap Z Z) : host U :=
  mk_host (acon h) e (trace h) (now h) (user h).

Definition set_recv (c : conn) (b : mybuff) : conn :=
  mk_conn (c_fd c) (send_len c) (peerip c) (send_buff c) b.
Definition set_send (c : conn) (b : mybuff) : conn :=
  mk_conn (c_fd c) (send_len c) (peerip c) b (recv_buff c).
Definition add_sent (c : conn) (n : Z) : conn :=
  mk_conn (c_fd c) (i32 (send_len c + n)) (peerip c) (send_buff c) (recv_buff c).
Definition set_cfd (c : conn) (fd : Z) : conn :=
  mk_conn fd (send_len c) (peerip c) (send_buff c) (recv_buff c).

(** myepoll.c; EPOLL_CTL_ADD fails on a member, EPOLL_CTL_MOD on a non-member. *)
Definition epoll_add h (fd ev : Z) : host U :=
  match epoll h !! fd with
  | Some _ => h
  | None => set_epoll h (<[fd := Z.lor ev (Z.lor EPOLLERR EPOLLET)]> (epoll h))
  end.
Definition epoll_mod h (fd ev : Z) : host U :=
  match epoll h !! fd with
  | Some _ => set_epoll h (<[fd := Z.lor ev (Z.lor EPOLLERR EPOLLET)]> (epoll h))
  | None => h
  end.
Definition epoll_del h (fd : Z) : host U := set_epoll h (delete fd (epoll h)).

Definition modify_fd_event h (fd ev : Z) : host U := epoll_mod h fd (Z.lor EPOLLIN ev).

(** Appending to a buffer, with the allocator succeeding. *)
Definition put (b : mybuff) (d : bytes) : mybuff :=
  default b (mybuff_setdata init_buff_size junk true b d).

Definition get_client_data h (fd : Z) : Z * bytes := mybuff_getdata (recv_buff (conn_of h fd)).

Definition consume_client_data h (fd n : Z) : host U :=
  let c := conn_of h fd in set_conn h fd (set_recv c (mybuff_skipdata (recv_buff c) n)).

Definition set_client_data h (fd : Z) (d : bytes) : host U :=
  let c := conn_of h fd in set_conn h fd (set_send c (put (send_buff c) d)).

Definition set_client_fd h (fd lfd off n : Z) : host U :=
  let c := conn_of h fd in
  let '(b, cl) := mybuff_setfile (send_buff c) lfd off n in
  emit (set_conn h fd (set_send c b)) (map Closed cl).

(** [add_fd_2_efd], for a peer at [ip]. *)
Definition add_fd_2_efd h (fd ip : Z) : host U :=
  let h1 := epoll_add h fd EPOLLIN in
  let c := conn_of h1 fd in
  let '(sb, cl1) := mybuff_reinit init_buff_size junk true (send_buff c) in
  let '(rb, cl2) := mybuff_reinit init_buff_size junk true (recv_buff c) in
  emit (set_conn h1 fd (mk_conn fd 0 (Ip.ip2str ip) sb rb)) (map Closed (cl1 ++ cl2)).

(** [do_close]; [fini] is the service's [svc_finiconn], if it has one. *)
Definition do_close (fini : option (host U -> Z -> host U)) h (fd : Z) : host U :=
  if (0 <=? fd) && (fd <? maxfds) then
    if c_fd (conn_of h fd) <? 0 then h
    else
      let h1 := match fini with Some f => f h fd | None => h end in
      let h2 := epoll_del h1 fd in
      emit (set_conn h2 fd (set_cfd (conn_of h2 fd) (-1))) [Closed fd]
  else h.

End Host.

(** The plug-in interface [struct mylib]; the optional entries are the ones
    the loop tests before it calls them.  [svc_initconn] gets the peer's
    address, which it asks the kernel for. *)
Class Service (U : Type) `{Env} := mk_service {
  svc_initconn : host U -> Z -> Z -> Z * host U;
  svc_recv : host U -> Z -> Z * host U;
  svc_send : host U -> Z -> Z * host U;
  svc_send_once : option (host U -> Z -> Z * host U);
  svc_check_send : option (host U -> Z -> Z -> Z -> Z * host U);
  svc_finiconn : option (host U -> Z -> host U);
  svc_timeout : option (host U -> host U)
}.

(** A small environment for the witnesses. *)
Definition demo_env : Env := mk_env 64 (fun n => replicate n 0) 1024 eq_refl (fun n => length_replicate n 0).

End Conn.

Module Loop.
Import MyBuff Conn.

Definition RECV_CLOSE : Z := 0x01.
Definition RECV_ADD_EPOLLIN : Z := 0x02.
Definition RECV_ADD_EPOLLOUT : Z := 0x04.
Definition RECV_ADD_EPOLLALL : Z := 0x06.
Definition RECV_SEND : Z := 0x08.
Definition SEND_CLOSE : Z := 0x10.
Definition SEND_ADD_EPOLLIN : Z := 0x20.
Definition SEND_ADD_EPOLLOUT : Z := 0x40.
Definition SEND_ADD_EPOLLALL : Z := 0x80.

Definition GSIZE : Z := 1073741824.
Definition EINTR : Z := 4.
Definition EAGAIN : Z := 11.

(** The result of one [recv]: the bytes, or 0 or -1 with [errno]. *)
Inductive recv_result :=
  | Got (d : bytes)
  | Eof
  | RErrno (e : Z).

(** The result of one [send] or [sendfile64]: the count returned and [errno]
    after the call (unchanged by a call that returns 0). *)
Record send_result := mk_sent { s_n : Z; s_errno : Z }.

Section Loop.
Context {U : Type} {E : Env} {S : Service U}.
Implicit Types h : host U.

Definition close h (fd : Z) : host U := do_close svc_finiconn h fd.

(** The first loop of [do_send]: [(ret, n, state, results left)]. *)
Fixpoint send_loop h (fd : Z) (d : bytes) (rs : list send_result)
  : option (Z * Z * host U * list send_result) :=
  match rs with
  | [] => None
  | r :: rs' =>
      let n := s_n r in
      if 0 <? n then
        let c := conn_of h fd in
        let c1 := add_sent (set_send c (mybuff_skipdata (send_buff c) n)) n in
        Some (if n <? zlen d then SEND_ADD_EPOLLOUT else SEND_ADD_EPOLLIN, n,
              emit (set_conn h fd c1) [Sent fd (take (Z.to_nat n) d)], rs')
      else if s_errno r =? EINTR then send_loop h fd d rs'
      else if s_errno r =? EAGAIN then Some (SEND_ADD_EPOLLOUT, n, h, rs')
      else Some (SEND_CLOSE, n, h, rs')
  end.

(** The second loop: the file at [start], [len] bytes of it still to go. *)
Fixpoint sendfile_loop h (fd lfd start len : Z) (rs : list send_result)
  : option (Z * Z * host U * list send_result) :=
  let len1 := if GSIZE <? len then GSIZE else len in
  match rs with
  | [] => None
  | r :: rs' =>
      let n := s_n r in
      if 0 <? n then
        let c := conn_of h fd in
        let '(b, cl) := mybuff_skipfile (send_buff c) n in
        Some (if n <? len then SEND_ADD_EPOLLOUT else SEND_ADD_EPOLLIN, n,
              emit (set_conn h fd (add_sent (set_send c b) n))
                   (SentFile fd lfd start n :: map Closed cl), rs')
      else if s_errno r =? EINTR then sendfile_loop h fd lfd start len rs'
      else
        let ret := if s_errno r =? EAGAIN then SEND_ADD_EPOLLOUT else SEND_CLOSE in
        match svc_check_send with
        | Some chk =>
            if n =? 0 then
              let '(k, h1) := chk h fd n (start + len1) in
              Some (if k <? 0 then SEND_CLOSE else ret, n, h1, rs')
            else Some (ret, n, h, rs')
        | None => Some (ret, n, h, rs')
        end
  end.

(** The part of [do_send] that writes to the socket: pending data first, the
    file only once the data is gone. *)
Definition transmit h (fd : Z) (rs : list send_result)
  : option (Z * Z * host U * list send_result) :=
  let '(rc, d) := mybuff_getdata (send_buff (conn_of h fd)) in
  '(ret, n, h1, rs1) ← (if rc =? 0 then send_loop h fd d rs
                        else Some (SEND_ADD_EPOLLIN, 0, h, rs));
  if ret =? SEND_ADD_EPOLLIN then
    match mybuff_getfile (send_buff (conn_of h1 fd)) with
    | Some (lfd, start, len) => sendfile_loop h1 fd lfd start len rs1
    | None => Some (ret, n, h1, rs1)
    end
  else Some (ret, n, h1, rs1).

(** The switch on the outcome, and the two notifications of the service. *)
Definition rearm h (fd ret : Z) : host U :=
  if ret =? SEND_ADD_EPOLLIN then modify_fd_event h fd EPOLLIN
  else if ret =? SEND_ADD_EPOLLOUT then modify_fd_event h fd EPOLLOUT
  else if ret =? SEND_ADD_EPOLLALL then modify_fd_event h fd (Z.lor EPOLLOUT EPOLLIN)
  else h.

Definition notify_once h (fd n : Z) : host U :=
  match svc_send_once with
  | Some f => if 0 <? n then snd (f h fd) else h
  | None => h
  end.

Definition notify_sent h (fd : Z) : host U :=
  let '(k, h1) := svc_send h fd in if k =? SEND_CLOSE then close h1 fd else h1.

(** [do_send]. *)
Definition do_send h (fd : Z) (rs : list send_result) : option (host U * list send_result) :=
  if c_fd (conn_of h fd) <? 0 then Some (h, rs)
  else
    '(ret, n, h2, rs2) ← transmit h fd rs;
    if ret =? SEND_CLOSE then Some (close h2 fd, rs2)
    else
      let h4 := notify_once (rearm h2 fd ret) fd n in
      Some (if ret =? SEND_ADD_EPOLLIN then notify_sent h4 fd else h4, rs2).

(** The receive loop of [do_recv]: [inl] when the connection was closed,
    [inr] when the service is to be called. *)
Fixpoint recv_loop h (fd : Z) (rs : list recv_result)
  : option ((host U + host U) * list recv_result) :=
  match rs with
  | [] => None
  | Got d :: rs' =>
      let c := conn_of h fd in
      let h1 := set_conn h fd (set_recv c (put (recv_buff c) d)) in
      if zlen d =? init_buff_size then recv_loop h1 fd rs' else Some (inr h1, rs')
  | Eof :: rs' => Some (inl (close h fd), rs')
  | RErrno e :: rs' =>
      if e =? EINTR then recv_loop h fd rs'
      else if e =? EAGAIN then Some (inr (modify_fd_event h fd EPOLLIN), rs')
      else Some (inl (close h fd), rs')
  end.

(** The switch on what [svc_recv] returned: no case, no action. *)
Definition recv_dispatch h (fd ret : Z) (ss : list send_result)
  : option (host U * list send_result) :=
  if ret =? RECV_SEND then do_send h fd ss
  else if ret =? RECV_ADD_EPOLLIN then Some (modify_fd_event h fd EPOLLIN, ss)
  else if ret =? RECV_ADD_EPOLLOUT then Some (modify_fd_event h fd EPOLLOUT, ss)
  else if ret =? RECV_ADD_EPOLLALL then Some (modify_fd_event h fd (Z.lor EPOLLOUT EPOLLIN), ss)
  else if ret =? RECV_CLOSE then Some (close h fd, ss)
  else Some (h, ss).

(** [do_recv]. *)
Definition do_recv h (fd : Z) (rs : list recv_result) (ss : list send_result)
  : option (host U * list recv_result * list send_result) :=
  if c_fd (conn_of h fd) <? 0 then Some (h, rs, ss)
  else
    '(r, rs') ← recv_loop h fd rs;
    match r with
    | inl h1 => Some (h1, rs', ss)
    | inr h1 =>
        let '(ret, h2) := svc_recv h1 fd in
        '(h3, ss') ← recv_dispatch h2 fd ret ss;
        Some (h3, rs', ss')
    end.

(** [do_process]. *)
Definition do_process h (fd events : Z) (rs : list recv_result) (ss : list send_result)
  : option (host U * list recv_result * list send_result) :=
  if Z.land events (Z.lor EPOLLIN EPOLLOUT) =? 0 then Some (close h fd, rs, ss)
  else
    '(h1, rs1, ss1) ← (if negb (Z.land events EPOLLIN =? 0)
                       then do_recv h fd rs ss else Some (h, rs, ss));
    if negb (Z.land events EPOLLOUT =? 0) then
      '(h2, ss2) ← do_send h1 fd ss1; Some (h2, rs1, ss2)
    else Some (h1, rs1, ss1).

(** [accept_new]: the connections waiting, with the peers' addresses; the
    loop ends when [accept] fails. *)
Fixpoint accept_new h (pending : list (Z * Z)) : host U :=
  match pending with
  | [] => h
  | (fd, ip) :: t =>
      if maxfds <=? fd then accept_new (emit h [Closed fd]) t
      else
        let '(rc, h1) := svc_initconn h fd ip in
        if negb (rc =? 0) then accept_new (emit h1 [Closed fd]) t
        else accept_new (add_fd_2_efd h1 fd ip) t
  end.

(** What [epoll_wait] reports: connections that wait on the listening socket, or
    the events of a descriptor, with what the calls on it will return. *)
Inductive occurrence :=
  | Incoming (pending : list (Z * Z))
  | Ready (fd events : Z) (rs : list recv_result) (ss : list send_result).

Fixpoint batch h (l : list occurrence) : option (host U) :=
  match l with
  | [] => Some h
  | Incoming p :: l' => batch (accept_new h p) l'
  | Ready fd ev rs ss :: l' => '(h1, _, _) ← do_process h fd ev rs ss; batch h1 l'
  end.

(** One round of [pfs_signalling_thread]: the batch, then at time [t] the
    service's time-out, when more than [cktimeout] seconds have passed. *)
Definition thread_round (cktimeout : Z) h (last : Z) (l : list occurrence) (t : Z) : option (host U * Z) :=
  h ← batch h l;
  let h := mk_host (acon h) (epoll h) (trace h) t (user h) in
  if last + cktimeout <? t then Some (match svc_timeout with Some f => f h | None => h end, t) else Some (h, last).

Fixpoint thread_rounds (cktimeout : Z) h (last : Z) (rounds : list (list occurrence * Z)) : option (host U * Z) :=
  match rounds with
  | [] => Some (h, last)
  | (l, t) :: rounds' => '(h, last) ← thread_round cktimeout h last l t; thread_rounds cktimeout h last rounds'
  end.

End Loop.

(** ** Consistency of the table, the epoll set and the service

    [frame]: which connections are open, and under which descriptor, is
    unchanged. *)
Section Safety.
Context {U : Type} {E : Env}.
Implicit Types h : host U.

Definition members h : gset Z := dom (epoll h).

Definition frame h h' : Prop :=
  members h' = members h /\ forall fd, c_fd (conn_of h' fd) = c_fd (conn_of h fd).

#[export] Instance frame_pre : PreOrder frame.
Proof.
  split; [by intros h|]. intros h1 h2 h3 [A B] [C D].
  split; [congruence|]. intros fd. by rewrite D, B.
Qed.

Lemma conn_set h fd c fd' :
  conn_of (set_conn h fd c) fd' = if decide (fd' = fd) then c else conn_of h fd'.
Proof.
  unfold conn_of, set_conn; simpl. case_decide; subst.
  - by rewrite lookup_insert_eq.
  - by rewrite lookup_insert_ne by done.
Qed.

Lemma frame_set h fd c : c_fd c = c_fd (conn_of h fd) -> frame h (set_conn h fd c).
Proof.
  intros E1. split; [done|]. intros fd'. rewrite conn_set. case_decide; by subst.
Qed.

Lemma frame_emit h l : frame h (emit h l).
Proof. done. Qed.

Lemma frame_user h u : frame h (set_user h u).
Proof. done. Qed.

Lemma frame_modify h fd ev : frame h (modify_fd_event h fd ev).
Proof.
  unfold modify_fd_event, epoll_mod. destruct (epoll h !! fd) as [m|] eqn:F; [|done].
  split; [|done]. unfold members, set_epoll; simpl.
  apply dom_insert_lookup_L. by rewrite F.
Qed.

Lemma frame_consume h fd n : frame h (consume_client_data h fd n).
Proof. by apply frame_set. Qed.

Lemma frame_put h fd d : frame h (set_client_data h fd d).
Proof. by apply frame_set. Qed.

End Safety.

Create HintDb frame.
#[export] Hint Resolve frame_set frame_emit frame_user frame_modify frame_consume frame_put
  : frame.
#[export] Hint Extern 1 (frame ?h ?h) => reflexivity : frame.

(** Every member of the epoll set is an open entry of the table under its own
    descriptor, within the table, and the service agrees. *)
Definition consistent {U} {E : Env} (safe : U -> gset Z -> Prop) (h : host U) : Prop :=
  safe (user h) (members h) /\
  forall fd, fd ∈ members h -> c_fd (conn_of h fd) = fd /\ 0 <= fd < maxfds.

(** Closing a member, given what the service's clean-up does. *)
Lemma do_close_member {U} {E : Env} (safe : U -> gset Z -> Prop) fini (h : host U) fd :
  consistent safe h -> fd ∈ members h ->
  frame h (match fini with Some f => f h fd | None => h end) /\
  safe (user (match fini with Some f => f h fd | None => h end)) (members h ∖ {[fd]}) ->
  consistent safe (do_close fini h fd) /\ c_fd (conn_of (do_close fini h fd) fd) < 0 /\
  members (do_close fini h fd) = members h ∖ {[fd]}.
Proof.
  intros [Hs A] Hm. destruct (A fd Hm) as [Hc Hr]. unfold do_close.
  assert ((0 <=? fd) && (fd <? maxfds) = true) as ->
    by (apply andb_true_intro; rewrite Z.leb_le, Z.ltb_lt; lia).
  assert (c_fd (conn_of h fd) <? 0 = false) as -> by (rewrite Hc; apply Z.ltb_ge; lia).
  set (h1 := match fini with Some f => f h fd | None => h end). intros [[M F] Hs1].
  assert (Hd : members (epoll_del h1 fd) = members h ∖ {[fd]}).
  { unfold members, epoll_del; simpl. rewrite dom_delete_L.
    change (members h1 ∖ {[fd]} = members h ∖ {[fd]}). by rewrite M. }
  assert (Hcn : forall fd', fd' <> fd ->
    conn_of (set_conn (epoll_del h1 fd) fd (set_cfd (conn_of (epoll_del h1 fd) fd) (-1))) fd'
    = conn_of h1 fd').
  { intros fd' Hn. by rewrite conn_set, decide_False. }
  split_and!; [split|..].
  - by rewrite <- Hd in Hs1.
  - intros fd' Hm'. change (fd' ∈ members (epoll_del h1 fd)) in Hm'. rewrite Hd in Hm'.
    change (conn_of (emit ?x _) fd') with (conn_of x fd').
    rewrite Hcn, F by set_solver. apply A. set_solver.
  - change (conn_of (emit ?x _) fd) with (conn_of x fd). rewrite conn_set, decide_True by done.
    simpl. lia.
  - exact Hd.
Qed.

(** What a service promises the loop: [safe u O] says that its state [u] is
    consistent with [O], the set of open connections. *)
Class ServiceSafe (U : Type) {E : Env} {S : Service U} := {
  safe : U -> gset Z -> Prop;
  safe_initconn : forall h fd ip rc h1,
    safe (user h) (members h) -> fd ∉ members h -> svc_initconn h fd ip = (rc, h1) ->
    frame h h1 /\ safe (user h1) (if rc =? 0 then {[fd]} ∪ members h else members h);
  safe_recv : forall h fd,
    safe (user h) (members h) -> fd ∈ members h ->
    frame h (snd (svc_recv h fd)) /\ safe (user (snd (svc_recv h fd))) (members h);
  safe_send : forall h fd,
    safe (user h) (members h) -> fd ∈ members h ->
    frame h (snd (svc_send h fd)) /\ safe (user (snd (svc_send h fd))) (members h);
  safe_once : forall f h fd,
    svc_send_once = Some f -> safe (user h) (members h) -> fd ∈ members h ->
    frame h (snd (f h fd)) /\ safe (user (snd (f h fd))) (members h);
  safe_check : forall f h fd n e,
    svc_check_send = Some f -> safe (user h) (members h) -> fd ∈ members h ->
    frame h (snd (f h fd n e)) /\ safe (user (snd (f h fd n e))) (members h);
  safe_fini : forall h fd,
    safe (user h) (members h) -> fd ∈ members h ->
    let h1 := match svc_finiconn with Some f => f h fd | None => h end in
    frame h h1 /\ safe (user h1) (members h ∖ {[fd]});
  safe_timeout : forall f h,
    svc_timeout = Some f -> consistent safe h -> consistent safe (f h)
}.

Section Invariant.
Context {U : Type} {E : Env} {S : Service U} {SS : ServiceSafe U}.
Implicit Types h : host U.

Abbreviation ok := (consistent safe).

(** An event that can still be delivered for [fd]: the connection is open, or
    was closed earlier in the same batch. *)
Definition live h (fd : Z) : Prop := fd ∈ members h \/ c_fd (conn_of h fd) < 0.

Lemma ok_frame h h' : ok h -> frame h h' -> safe (user h') (members h) -> ok h'.
Proof.
  intros [_ A] [M F] Hs. split; [by rewrite M|]. intros fd. rewrite M, F. apply A.
Qed.

(** What is done for one descriptor leaves every other live. *)
Definition keeps h h' : Prop := forall fd, live h fd -> live h' fd.

#[export] Instance keeps_pre : PreOrder keeps.
Proof. split; [by intros h fd|]. intros h1 h2 h3 A B fd L. by apply B, A. Qed.

Lemma keeps_frame h h' : frame h h' -> keeps h h'.
Proof. intros [M F] fd [L|L]; [left; by rewrite M|right; by rewrite F]. Qed.

Lemma close_ok h fd : ok h -> live h fd -> ok (close h fd) /\ keeps h (close h fd).
Proof.
  intros Hok [Hm|Hc]; unfold close.
  - pose proof (safe_fini h fd ltac:(apply Hok) Hm) as Hf. cbv zeta in Hf.
    destruct (do_close_member safe svc_finiconn h fd Hok Hm Hf) as (A & B & M). split; [done|].
    intros fd' L. destruct (decide (fd' = fd)) as [->|Hne]; [by right|].
    destruct L as [L|L]; [left; rewrite M; set_solver|right].
    unfold do_close. destruct (_ && _); [|done]. destruct (_ <? 0); [done|].
    change (conn_of (emit ?x _) fd') with (conn_of x fd'). rewrite conn_set, decide_False by done.
    destruct Hf as [[_ F] _]. change (conn_of (epoll_del ?x _) fd') with (conn_of x fd'). by rewrite F.
  - unfold do_close. apply Z.ltb_lt in Hc. rewrite Hc. by destruct (_ && _).
Qed.

Lemma ok_same h h' : ok h -> frame h h' -> user h' = user h -> ok h'.
Proof. intros Hok Hf Hu. apply (ok_frame h); [done..|]. rewrite Hu. apply Hok. Qed.

Lemma user_modify h fd ev : user (modify_fd_event h fd ev) = user h.
Proof. unfold modify_fd_event, epoll_mod. by case_match. Qed.

Lemma modify_ok h fd ev : ok h -> ok (modify_fd_event h fd ev).
Proof. intros. apply (ok_same h); [done|auto with frame|apply user_modify]. Qed.

Lemma send_loop_frame rs : forall h fd d ret n h1 rs1,
  send_loop h fd d rs = Some (ret, n, h1, rs1) -> frame h h1 /\ user h1 = user h.
Proof.
  induction rs as [|r rs IH]; intros h fd d ret n h1 rs1 Hr; cbn [send_loop] in Hr; [done|].
  destruct (0 <? s_n r).
  { simplify_eq. split; [|done]. etransitivity; [|apply frame_emit]. by apply frame_set. }
  destruct (s_errno r =? EINTR); [by eapply IH|].
  destruct (s_errno r =? EAGAIN); by simplify_eq.
Qed.

Lemma sendfile_loop_ok rs : forall h fd lfd st ln ret n h1 rs1,
  ok h -> fd ∈ members h ->
  sendfile_loop h fd lfd st ln rs = Some (ret, n, h1, rs1) -> ok h1 /\ frame h h1.
Proof.
  induction rs as [|r rs IH]; intros h fd lfd st ln ret n h1 rs1 Hok Hm Hr;
    cbn [sendfile_loop] in Hr; [done|].
  destruct (0 <? s_n r).
  { destruct (mybuff_skipfile _ _) as [b cl]. simplify_eq.
    assert (frame h (emit (set_conn h fd (add_sent (set_send (conn_of h fd) b) (s_n r)))
                       (SentFile fd lfd st (s_n r) :: map Closed cl))) as Hf.
    { etransitivity; [|apply frame_emit]. by apply frame_set. }
    split; [|done]. by apply (ok_same h). }
  destruct (s_errno r =? EINTR); [by eapply IH|].
  destruct svc_check_send as [f|] eqn:Ef; [|by simplify_eq].
  destruct (s_n r =? 0); [|by simplify_eq].
  destruct (safe_check f h fd (s_n r) (st + (if GSIZE <? ln then GSIZE else ln)) Ef
              ltac:(apply Hok) Hm) as [Hf Hs].
  destruct (f h fd _ _) as [k h2]. simplify_eq. split; [by apply (ok_frame h)|done].
Qed.

Lemma transmit_ok h fd rs ret n h2 rs2 :
  ok h -> fd ∈ members h -> transmit h fd rs = Some (ret, n, h2, rs2) -> ok h2 /\ frame h h2.
Proof.
  intros Hok Hm. unfold transmit. destruct (mybuff_getdata _) as [rc d].
  destruct (if rc =? 0 then _ else _) as [[[[r1 n1] h1] rs1]|] eqn:E1; simpl; [|done].
  assert (frame h h1 /\ user h1 = user h) as [Hf Hu].
  { destruct (rc =? 0); [by eapply send_loop_frame|by simplify_eq]. }
  assert (ok h1) as Hok1 by by apply (ok_same h).
  destruct (r1 =? SEND_ADD_EPOLLIN); [|by intros; simplify_eq].
  destruct (mybuff_getfile _) as [[[lfd st] ln]|]; [|by intros; simplify_eq].
  intros H1. apply sendfile_loop_ok in H1 as [A B]; [split; [done|by etransitivity]|done|].
  destruct Hf as [M _]. by rewrite M.
Qed.

Lemma notify_once_ok h fd n :
  ok h -> fd ∈ members h -> ok (notify_once h fd n) /\ frame h (notify_once h fd n).
Proof.
  intros Hok Hm. unfold notify_once. destruct svc_send_once as [f|] eqn:Ef; [|done].
  destruct (0 <? n); [|done].
  destruct (safe_once f h fd Ef ltac:(apply Hok) Hm) as [Hf Hs].
  split; [by apply (ok_frame h)|done].
Qed.

Lemma notify_sent_ok h fd :
  ok h -> fd ∈ members h -> ok (notify_sent h fd) /\ keeps h (notify_sent h fd).
Proof.
  intros Hok Hm. unfold notify_sent.
  destruct (safe_send h fd ltac:(apply Hok) Hm) as [Hf Hs].
  destruct (svc_send h fd) as [k h5]. simpl in *.
  assert (ok h5) by by apply (ok_frame h).
  assert (fd ∈ members h5) by (destruct Hf as [-> _]; done).
  destruct (k =? SEND_CLOSE); [|split; [done|by apply keeps_frame]].
  destruct (close_ok h5 fd); [done|by left|]. split; [done|]. etransitivity; [by apply keeps_frame|done].
Qed.

Lemma do_send_ok h fd rs h' rs' :
  ok h -> live h fd -> do_send h fd rs = Some (h', rs') -> ok h' /\ keeps h h'.
Proof.
  intros Hok Hl. unfold do_send. destruct (c_fd (conn_of h fd) <? 0) eqn:Ec.
  { intros; by simplify_eq. }
  destruct Hl as [Hm|Hl]; [|apply Z.ltb_lt in Hl; congruence].
  destruct (transmit h fd rs) as [[[[ret n] h2] rs2]|] eqn:Et; simpl; [|done].
  destruct (transmit_ok _ _ _ _ _ _ _ Hok Hm Et) as [Hok2 Hf2].
  assert (fd ∈ members h2) as Hm2 by (destruct Hf2 as [-> _]; done).
  destruct (ret =? SEND_CLOSE).
  { intros; simplify_eq. destruct (close_ok h2 fd); [done|by left|]. split; [done|].
    etransitivity; [by apply keeps_frame|done]. }
  assert (ok (rearm h2 fd ret) /\ frame h2 (rearm h2 fd ret)) as [Hok3 Hf3].
  { split; unfold rearm; repeat case_match; auto using modify_ok with frame. }
  assert (fd ∈ members (rearm h2 fd ret)) as Hm3 by (destruct Hf3 as [-> _]; done).
  intros; simplify_eq. destruct (notify_once_ok (rearm h2 fd ret) fd n Hok3 Hm3) as [Hok4 Hf4].
  assert (frame h (notify_once (rearm h2 fd ret) fd n)) as Hf by (do 2 (etransitivity; [done|]); done).
  destruct (ret =? SEND_ADD_EPOLLIN); [|split; [done|by apply keeps_frame]].
  destruct (notify_sent_ok (notify_once (rearm h2 fd ret) fd n) fd Hok4) as [? ?]; [destruct Hf as [-> _]; done|].
  split; [done|]. etransitivity; [by apply keeps_frame|done].
Qed.

Lemma recv_loop_ok rs : forall h fd r rs',
  ok h -> fd ∈ members h -> recv_loop h fd rs = Some (r, rs') ->
  match r with
  | inl h1 => ok h1 /\ keeps h h1
  | inr h1 => ok h1 /\ frame h h1
  end.
Proof.
  induction rs as [|x rs IH]; intros h fd r rs' Hok Hm Hr; cbn [recv_loop] in Hr; [done|].
  assert (Hc : ok (close h fd) /\ keeps h (close h fd)) by (apply close_ok; [done|by left]).
  destruct x as [d| |e].
  - set (h1 := set_conn _ _ _) in Hr.
    assert (frame h h1) as Hf by by apply frame_set.
    assert (ok h1) by by apply (ok_same h).
    assert (fd ∈ members h1) by (destruct Hf as [-> _]; done).
    destruct (zlen d =? init_buff_size); [|by simplify_eq].
    apply IH in Hr; [|done..]. destruct r as [h2|h2]; destruct Hr as [? Hk]; (split; [done|etransitivity; [|exact Hk]]);
      [by apply keeps_frame|done].
  - by simplify_eq.
  - destruct (e =? EINTR); [by eapply IH|]. destruct (e =? EAGAIN); simplify_eq; [|done].
    split; [by apply modify_ok|apply frame_modify].
Qed.

Lemma dispatch_ok h fd ret ss h' ss' :
  ok h -> live h fd -> recv_dispatch h fd ret ss = Some (h', ss') -> ok h' /\ keeps h h'.
Proof.
  intros Hok Hl. unfold recv_dispatch.
  assert (Hmod : forall ev, ok (modify_fd_event h fd ev) /\ keeps h (modify_fd_event h fd ev)).
  { intros. split; [by apply modify_ok|]. apply keeps_frame; auto with frame. }
  destruct (close_ok h fd Hok Hl).
  destruct (ret =? RECV_SEND); [by apply do_send_ok|].
  repeat case_match; intros; simplify_eq; auto. by split.
Qed.

Lemma do_recv_ok h fd rs ss h' rs' ss' :
  ok h -> live h fd -> do_recv h fd rs ss = Some (h', rs', ss') -> ok h' /\ keeps h h'.
Proof.
  intros Hok Hl. unfold do_recv. destruct (c_fd (conn_of h fd) <? 0) eqn:Ec.
  { intros; by simplify_eq. }
  destruct Hl as [Hm|Hl]; [|apply Z.ltb_lt in Hl; congruence].
  destruct (recv_loop h fd rs) as [[r rs1]|] eqn:Er; simpl; [|done].
  apply recv_loop_ok in Er; [|done..].
  destruct r as [h1|h1]; destruct Er as [Hok1 Hf1]; [intros; by simplify_eq|].
  assert (fd ∈ members h1) as Hl1 by (destruct Hf1 as [-> _]; done).
  destruct (safe_recv h1 fd ltac:(apply Hok1) Hl1) as [Hf Hs].
  destruct (svc_recv h1 fd) as [k h2]. simpl in *.
  destruct (recv_dispatch h2 fd k ss) as [[h3 ss1]|] eqn:Ed; simpl; [|done].
  intros; simplify_eq. assert (frame h h2) as Hf2 by (by etransitivity).
  destruct (dispatch_ok h2 fd k ss h' ss') as [? ?]; [by apply (ok_frame h1)| |done|].
  { left. destruct Hf2 as [-> _]. done. }
  split; [done|]. etransitivity; [by apply keeps_frame|done].
Qed.

Lemma do_process_ok h fd ev rs ss h' rs' ss' :
  ok h -> live h fd -> do_process h fd ev rs ss = Some (h', rs', ss') -> ok h' /\ keeps h h'.
Proof.
  intros Hok Hl. unfold do_process. destruct (_ =? 0).
  { intros; simplify_eq. by apply close_ok. }
  destruct (if negb _ then _ else _) as [[[h1 rs1] ss1]|] eqn:E1; simpl; [|done].
  assert (ok h1 /\ keeps h h1) as [Hok1 Hk1].
  { destruct (negb (Z.land ev EPOLLIN =? 0)); [by eapply do_recv_ok|by simplify_eq]. }
  destruct (negb (Z.land ev EPOLLOUT =? 0)); [|intros; by simplify_eq].
  destruct (do_send h1 fd ss1) as [[h2 ss2]|] eqn:E2; simpl; [|done].
  intros; simplify_eq. eapply do_send_ok in E2 as [? ?]; [|done|by apply Hk1]. split; [done|by etransitivity].
Qed.

Lemma accept_one_ok h fd ip :
  ok h -> 0 <= fd -> fd ∉ members h -> ok (accept_new h [(fd, ip)]).
Proof.
  intros Hok Hp Hm. simpl. destruct (maxfds <=? fd) eqn:Er; b2p; [by apply (ok_same h)|].
  destruct (svc_initconn h fd ip) as [rc h1] eqn:Ei.
  destruct (safe_initconn h fd ip rc h1 ltac:(apply Hok) Hm Ei) as [Hf Hs].
  destruct (rc =? 0); simpl; [|by apply (ok_frame h)].
  destruct Hf as [M F], Hok as [_ A]. unfold add_fd_2_efd.
  assert (Hn : epoll h1 !! fd = None).
  { apply not_elem_of_dom. change (fd ∉ members h1). by rewrite M. }
  assert (Hd : members (epoll_add h1 fd EPOLLIN) = {[fd]} ∪ members h).
  { unfold epoll_add. rewrite Hn. unfold members, set_epoll; simpl.
    rewrite dom_insert_L. change ({[fd]} ∪ members h1 = {[fd]} ∪ members h). by rewrite M. }
  assert (Hu : user (epoll_add h1 fd EPOLLIN) = user h1 /\
               acon (epoll_add h1 fd EPOLLIN) = acon h1).
  { unfold epoll_add. by rewrite Hn. }
  set (h2 := epoll_add h1 fd EPOLLIN) in *.
  destruct (mybuff_reinit _ _ _ (send_buff _)) as [sb cl1].
  destruct (mybuff_reinit _ _ _ (recv_buff _)) as [rb cl2]. destruct Hu as [Hu Ha].
  split; [change (safe (user h2) (members h2)); by rewrite Hu, Hd|].
  intros fd' Hm'. change (fd' ∈ members h2) in Hm'. rewrite Hd in Hm'.
  change (conn_of (emit ?x _) fd') with (conn_of x fd'). rewrite conn_set.
  case_decide; [subst; simpl; lia|]. unfold conn_of. rewrite Ha.
  change (c_fd (conn_of h1 fd') = fd' /\ 0 <= fd' < maxfds). rewrite F. apply A. set_solver.
Qed.

Lemma accept_cons h x l : accept_new h (x :: l) = accept_new (accept_new h [x]) l.
Proof.
  destruct x as [fd ip]. simpl. destruct (maxfds <=? fd); [done|].
  destruct (svc_initconn h fd ip) as [rc h1]. by destruct (negb (rc =? 0)).
Qed.

(** The thread's life: connections accepted on descriptors not in use, epoll
    events, service time-outs, the passing of time. *)
Inductive step : host U -> host U -> Prop :=
  | step_accept h fd ip :
      0 <= fd -> fd ∉ members h -> step h (accept_new h [(fd, ip)])
  | step_process h fd ev rs ss h' rs' ss' :
      live h fd -> do_process h fd ev rs ss = Some (h', rs', ss') -> step h h'
  | step_timeout h f :
      svc_timeout = Some f -> step h (f h)
  | step_tick h t :
      step h (mk_host (acon h) (epoll h) (trace h) t (user h)).

Lemma step_ok h h' : ok h -> step h h' -> ok h'.
Proof.
  intros Hok Hst. destruct Hst; [by apply accept_one_ok|by eapply do_process_ok in H0 as [? _]|by eapply safe_timeout|].
  by apply (ok_same h).
Qed.

(** *** The rounds of a thread

    What the kernel promises: the events of a batch are for descriptors that were
    in the set when [epoll_wait] looked, and accept gives descriptors that are
    not in use. *)
Fixpoint incoming h (pending : list (Z * Z)) : Prop :=
  match pending with
  | [] => True
  | (fd, ip) :: t => (0 <= fd /\ fd ∉ members h) /\ incoming (accept_new h [(fd, ip)]) t
  end.

Fixpoint delivered h0 h (l : list occurrence) : Prop :=
  match l with
  | [] => True
  | Incoming p :: l' => incoming h p /\ delivered h0 (accept_new h p) l'
  | Ready fd ev rs ss :: l' =>
      fd ∈ members h0 /\ exists h1 rs' ss', do_process h fd ev rs ss = Some (h1, rs', ss') /\ delivered h0 h1 l'
  end.

Fixpoint promised (cktimeout : Z) h (last : Z) (rounds : list (list occurrence * Z)) : Prop :=
  match rounds with
  | [] => True
  | (l, t) :: rounds' => delivered h h l /\ forall h' last', thread_round cktimeout h last l t = Some (h', last') -> promised cktimeout h' last' rounds'
  end.

Lemma accept_keeps h fd ip : ok h -> fd ∉ members h -> keeps h (accept_new h [(fd, ip)]).
Proof.
  intros Hok Hm. simpl. destruct (maxfds <=? fd); [by apply keeps_frame|].
  destruct (svc_initconn h fd ip) as [rc h1] eqn:Ei.
  destruct (safe_initconn h fd ip rc h1 ltac:(apply Hok) Hm Ei) as [Hf _].
  destruct (rc =? 0); simpl; [|by apply (keeps_frame h h1)].
  intros fd' L. unfold add_fd_2_efd.
  assert (fd ∈ members (epoll_add h1 fd EPOLLIN) /\ members h1 ⊆ members (epoll_add h1 fd EPOLLIN)) as [Hin Hsub].
  { unfold epoll_add, members. destruct (epoll h1 !! fd) eqn:Ee; [by split; [apply elem_of_dom_2 in Ee|]|]. simpl. rewrite dom_insert_L. set_solver. }
  destruct (mybuff_reinit _ _ _ (send_buff _)) as [sb cl1]. destruct (mybuff_reinit _ _ _ (recv_buff _)) as [rb cl2].
  destruct (decide (fd' = fd)) as [->|Hne]; [by left|]. apply (keeps_frame h h1 Hf) in L as [L|L]; [left; by apply Hsub|right].
  change (conn_of (emit ?x _) fd') with (conn_of x fd'). rewrite conn_set, decide_False by done.
  unfold epoll_add. by destruct (epoll h1 !! fd).
Qed.

Lemma incoming_ok p : forall h, ok h -> incoming h p -> ok (accept_new h p) /\ keeps h (accept_new h p) /\ rtc step h (accept_new h p).
Proof.
  induction p as [|[fd ip] p IH]; intros h Hok Hi; [split; [done|split; [reflexivity|apply rtc_refl]]|]. destruct Hi as [[Hp Hm] Hi]. rewrite accept_cons.
  destruct (IH (accept_new h [(fd, ip)])) as (A & B & D); [by apply accept_one_ok|done|].
  split; [done|]. split; [etransitivity; [by apply accept_keeps|done]|].
  eapply rtc_l; [by apply step_accept|done].
Qed.

Lemma batch_ok l : forall h0 h, ok h -> keeps h0 h -> delivered h0 h l -> exists h', batch h l = Some h' /\ ok h' /\ rtc step h h'.
Proof.
  induction l as [|[p|fd ev rs ss] l IH]; intros h0 h Hok Hk Hd; cbn [batch]; [exists h; split; [done|split; [done|apply rtc_refl]]|..].
  - destruct Hd as [Hi Hd]. destruct (incoming_ok p h Hok Hi) as (A & B & D).
    destruct (IH h0 (accept_new h p) A) as (h' & E1 & O & R); [by etransitivity|done|].
    exists h'. split; [done|]. split; [done|]. by etransitivity.
  - destruct Hd as (Hm & h1 & rs' & ss' & E1 & Hd). rewrite E1. cbn [mbind option_bind].
    assert (live h fd) as Hl by (apply Hk; by left). destruct (do_process_ok _ _ _ _ _ _ _ _ Hok Hl E1) as [A B].
    destruct (IH h0 h1 A) as (h' & E2 & O & R); [by etransitivity|done|].
    exists h'. split; [done|]. split; [done|]. eapply rtc_l; [by eapply step_process|done].
Qed.

Lemma thread_round_ok cktimeout h last l t : ok h -> delivered h h l ->
  exists h' last', thread_round cktimeout h last l t = Some (h', last') /\ ok h' /\ rtc step h h'.
Proof.
  intros Hok Hd. destruct (batch_ok l h h Hok) as (h1 & E1 & O & R); [reflexivity|done|].
  unfold thread_round. rewrite E1. cbn [mbind option_bind]. set (h2 := mk_host _ _ _ t _).
  assert (step h1 h2) as Hs by apply step_tick. assert (ok h2) as O2 by (by eapply step_ok).
  assert (rtc step h h2) as R2 by (etransitivity; [done|by apply rtc_once]).
  destruct (last + cktimeout <? t); [|by exists h2, last].
  destruct svc_timeout as [f|] eqn:Ef; [|by exists h2, t].
  exists (f h2), t. split; [done|]. split; [by eapply safe_timeout|]. etransitivity; [done|]. apply rtc_once. by apply step_timeout.
Qed.


End Invariant.

(** ** What goes through a connection *)
Section Flow.
Context {U : Type} {E : Env} {S : Service U}.
Implicit Types h : host U.

Definition outq h (fd : Z) : bytes := contents (send_buff (conn_of h fd)).
Definition inq h (fd : Z) : bytes := contents (recv_buff (conn_of h fd)).
Definition outfile h (fd : Z) : option (Z * Z * Z) := file (send_buff (conn_of h fd)).
Definition wf_conn h (fd : Z) : Prop :=
  wf (send_buff (conn_of h fd)) /\ wf (recv_buff (conn_of h fd)).

(** The data bytes a trace hands to the socket [fd]. *)
Definition sent_bytes (fd : Z) (l : list event) : bytes :=
  l ≫= fun e => match e with Sent f d => if f =? fd then d else [] | _ => [] end.

Lemma put_spec b d : wf b -> wf (put b d) /\ contents (put b d) = contents b ++ d /\ file (put b d) = file b.
Proof.
  intros Hw. unfold put.
  destruct (setdata_spec init_buff_size junk init_pos junk_len b d Hw) as (b' & -> & ?). done.
Qed.

(** Bytes that arrive from the network. *)
Definition arrive h (fd : Z) (d : bytes) : host U :=
  let c := conn_of h fd in set_conn h fd (set_recv c (put (recv_buff c) d)).

Lemma arrive_spec h fd d :
  wf_conn h fd -> wf_conn (arrive h fd d) fd /\ inq (arrive h fd d) fd = inq h fd ++ d /\
    outq (arrive h fd d) fd = outq h fd.
Proof.
  intros [A B]. destruct (put_spec (recv_buff (conn_of h fd)) d B) as (P1 & P2 & _).
  unfold arrive, wf_conn, inq, outq. rewrite conn_set, decide_True by done. by split_and!.
Qed.

Lemma send_loop_spec rs : forall h fd ret n h1 rs1,
  wf_conn h fd -> outq h fd <> [] ->
  send_loop h fd (outq h fd) rs = Some (ret, n, h1, rs1) ->
  exists evs, trace h1 = trace h ++ evs /\
    outq h fd = sent_bytes fd evs ++ outq h1 fd /\
    outfile h1 fd = outfile h fd /\ wf_conn h1 fd /\
    (ret = SEND_ADD_EPOLLIN -> outq h1 fd = []) /\
    Forall (fun e => match e with Sent _ _ => True | _ => False end) evs.
Proof.
  induction rs as [|r rs IH]; intros h fd ret n h1 rs1 Hw Hq Hr; cbn [send_loop] in Hr; [done|].
  destruct (0 <? s_n r) eqn:En; b2p.
  - set (c := conn_of h fd) in *. simplify_eq. destruct Hw as [Hws Hwr].
    destruct (skipdata_spec (send_buff c) (s_n r) Hws ltac:(lia)) as (Hw1 & Hc1 & Hf1).
    exists [Sent fd (take (Z.to_nat (s_n r)) (outq h fd))].
    assert (Ho : forall c', conn_of (emit (set_conn h fd c') [Sent fd (take (Z.to_nat (s_n r)) (outq h fd))]) fd = c').
    { intros c'. change (conn_of (emit ?x _) fd) with (conn_of x fd).
      by rewrite conn_set, decide_True. }
    unfold outq, outfile, wf_conn in *. rewrite !Ho. simpl. rewrite Z.eqb_refl, app_nil_r, Hc1.
    fold c. split_and!; [done|by rewrite take_drop|done|done|done| |by repeat constructor].
    destruct (_ <? _) eqn:El; [done|]. intros _. b2p. apply drop_ge. fold c in El. lia.
  - destruct (s_errno r =? EINTR); [by eapply IH|].
    exists []. destruct (s_errno r =? EAGAIN); simplify_eq; rewrite app_nil_r; by split_and!.
Qed.

Lemma sendfile_loop_spec rs : forall h fd lfd st ln ret n h1 rs1,
  wf_conn h fd -> svc_check_send = None -> outfile h fd = Some (lfd, st, ln) ->
  sendfile_loop h fd lfd st ln rs = Some (ret, n, h1, rs1) ->
  outq h1 fd = outq h fd /\ wf_conn h1 fd /\
  ((ret <> SEND_ADD_EPOLLIN /\ outfile h1 fd = outfile h fd /\ trace h1 = trace h) \/
   (0 < n /\ ret = (if n <? ln then SEND_ADD_EPOLLOUT else SEND_ADD_EPOLLIN) /\
    outfile h1 fd = (if n <? ln then Some (lfd, st + n, ln - n) else None) /\
    trace h1 = trace h ++ SentFile fd lfd st n :: (if n <? ln then [] else [Closed lfd]))).
Proof.
  induction rs as [|r rs IH]; intros h fd lfd st ln ret n h1 rs1 Hw Hk Hf Hr;
    cbn [sendfile_loop] in Hr; [done|].
  destruct (0 <? s_n r) eqn:En; b2p.
  - assert (Ho : forall c' l, conn_of (emit (set_conn h fd c') l) fd = c').
    { intros c' l. change (conn_of (emit ?x _) fd) with (conn_of x fd).
      by rewrite conn_set, decide_True. }
    unfold outfile, file in Hf. unfold mybuff_skipfile in Hr.
    destruct (conn_of h fd) as [cf sl pi sb rb] eqn:Ec. simpl in *.
    destruct (0 <=? MyBuff.fd sb) eqn:Ef; [|done]. simplify_eq.
    assert (Hx : (MyBuff.flen sb <=? s_n r) = negb (s_n r <? MyBuff.flen sb)).
    { destruct (s_n r <? MyBuff.flen sb) eqn:Ex; b2p; [apply Z.leb_gt|apply Z.leb_le]; lia. }
    rewrite Hx in Hr. unfold outq, outfile, wf_conn in *. rewrite Ec in *. simpl in *.
    destruct (s_n r <? MyBuff.flen sb) eqn:El; simpl in Hr; simplify_eq; rewrite !Ho; simpl;
      (split; [done|]); (split; [done|]); right; unfold file; simpl; by rewrite ?Ef, El.
  - destruct (s_errno r =? EINTR); [by eapply IH|]. rewrite Hk in Hr. simplify_eq.
    split_and!; [done..|]. left. split; [|done]. by destruct (s_errno r =? EAGAIN).
Qed.

(** Everything [do_send] writes: what was queued is what it sent followed by
    what is still queued, the file comes after all the data, and it reports
    completion only when nothing is left. *)
Lemma transmit_spec h fd rs ret n h2 rs2 :
  wf_conn h fd -> svc_check_send = None ->
  transmit h fd rs = Some (ret, n, h2, rs2) ->
  exists evs fevs, trace h2 = trace h ++ evs ++ fevs /\
    outq h fd = sent_bytes fd evs ++ outq h2 fd /\ wf_conn h2 fd /\
    Forall (fun e => match e with Sent _ _ => True | _ => False end) evs /\
    ((fevs = [] /\ outfile h2 fd = outfile h fd) \/
     (outq h2 fd = [] /\ exists lfd st ln k,
        outfile h fd = Some (lfd, st, ln) /\ 0 < k /\
        outfile h2 fd = (if k <? ln then Some (lfd, st + k, ln - k) else None) /\
        fevs = SentFile fd lfd st k :: (if k <? ln then [] else [Closed lfd]))) /\
    (ret = SEND_ADD_EPOLLIN ->
       outq h2 fd = [] /\ mybuff_getfile (send_buff (conn_of h2 fd)) = None).
Proof.
  intros Hw Hk. unfold transmit. rewrite getdata_spec by apply Hw. fold (outq h fd).
  assert (Hfirst : forall ret n h1 rs1,
    (if (if decide (outq h fd = []) then -1 else 0) =? 0 then send_loop h fd (outq h fd) rs
     else Some (SEND_ADD_EPOLLIN, 0, h, rs)) = Some (ret, n, h1, rs1) ->
    exists evs, trace h1 = trace h ++ evs /\ outq h fd = sent_bytes fd evs ++ outq h1 fd /\
      outfile h1 fd = outfile h fd /\ wf_conn h1 fd /\
      (ret = SEND_ADD_EPOLLIN -> outq h1 fd = []) /\
      Forall (fun e => match e with Sent _ _ => True | _ => False end) evs).
  { intros r1 n1 h1 rs1. case_decide as Hd; simpl.
    - intros; simplify_eq. exists []. rewrite app_nil_r. by split_and!.
    - by apply send_loop_spec. }
  replace (if decide (outq h fd = []) then (-1, []) else (0, outq h fd))
    with (if decide (outq h fd = []) then -1 else 0, outq h fd)
    by (case_decide as Hd; by rewrite ?Hd).
  cbv beta iota.
  destruct (if _ =? 0 then _ else _) as [[[[r1 n1] h1] rs1]|]; simpl; [|done].
  destruct (Hfirst _ _ _ _ eq_refl) as (evs & Ht & Hq & Hf & Hw1 & Hd & Hall).
  destruct (r1 =? SEND_ADD_EPOLLIN) eqn:Er; b2p.
  - destruct (mybuff_getfile (send_buff (conn_of h1 fd))) as [[[lfd st] ln]|] eqn:Eg.
    + intros Hs. assert (Hof : outfile h1 fd = Some (lfd, st, ln) /\ 0 < ln).
      { unfold mybuff_getfile in Eg. unfold outfile, file.
        destruct (0 <=? _), (0 <? _) eqn:E0; simpl in Eg; simplify_eq. b2p. done. }
      destruct Hof as [Hof Hln].
      destruct (sendfile_loop_spec _ _ _ _ _ _ _ _ _ _ Hw1 Hk Hof Hs)
        as (Hq2 & Hw2 & [(A & B & C)|(A & B & C & D)]).
      * exists evs, []. rewrite app_nil_r, C, Hq2, B. split_and!; auto. by intros ->.
      * exists evs, (SentFile fd lfd st n :: (if n <? ln then [] else [Closed lfd])).
        rewrite D, Ht, <- app_assoc, Hq2. split_and!; auto.
        { right. split; [auto|]. exists lfd, st, ln, n. rewrite <- Hf, C. done. }
        intros Hret. split; [auto|]. rewrite B in Hret. unfold outfile, file in C.
        destruct (n <? ln); [done|]. unfold mybuff_getfile. by destruct (0 <=? _).
    + intros; simplify_eq. exists evs, []. rewrite app_nil_r. split_and!; auto.
  - intros; simplify_eq. exists evs, []. rewrite app_nil_r. split_and!; auto; try done.
Qed.

(** What the receive loop appends to the connection's buffer. *)
Definition got (l : list recv_result) : bytes :=
  l ≫= fun r => match r with Got d => d | _ => [] end.

Lemma recv_loop_spec rs : forall h fd h1 rs',
  wf_conn h fd -> recv_loop h fd rs = Some (inr h1, rs') ->
  exists used, rs = used ++ rs' /\ inq h1 fd = inq h fd ++ got used /\
    wf_conn h1 fd /\ user h1 = user h /\ trace h1 = trace h /\ outq h1 fd = outq h fd /\
    members h1 = members h.
Proof.
  induction rs as [|x rs IH]; intros h fd h1 rs' Hw Hr; cbn [recv_loop] in Hr; [done|].
  destruct x as [d| |e]; [|done|].
  - set (h0 := set_conn h fd _) in Hr.
    destruct (put_spec (recv_buff (conn_of h fd)) d ltac:(apply Hw)) as (Hw1 & Hc & _).
    assert (Ec : conn_of h0 fd = set_recv (conn_of h fd) (put (recv_buff (conn_of h fd)) d))
      by (unfold h0; by rewrite conn_set, decide_True).
    assert (Hw0 : wf_conn h0 fd) by (unfold wf_conn; rewrite Ec; split; [apply Hw|done]).
    assert (Hi : inq h0 fd = inq h fd ++ d) by (unfold inq; by rewrite Ec).
    assert (Ho : outq h0 fd = outq h fd) by (unfold outq; by rewrite Ec).
    destruct (zlen d =? init_buff_size).
    + apply IH in Hr as (used & -> & Hi2 & ? & ? & ? & ? & ?); [|done].
      exists (Got d :: used). rewrite Hi2, Hi, <- app_assoc. by split_and!; try congruence.
    + simplify_eq. exists [Got d]. cbn. rewrite app_nil_r, Hi. by split_and!.
  - destruct (e =? EINTR).
    + apply IH in Hr as (used & -> & ?); [|done]. by exists (RErrno e :: used).
    + destruct (e =? EAGAIN); [|done]. simplify_eq.
      exists [RErrno e]. cbn. rewrite app_nil_r.
      assert (Hcn : conn_of (modify_fd_event h fd EPOLLIN) fd = conn_of h fd)
        by (unfold modify_fd_event, epoll_mod; by case_match).
      unfold inq, outq, wf_conn in *. rewrite Hcn.
      split_and!; try done; try apply Hw; try (unfold modify_fd_event, epoll_mod; by case_match).
      apply frame_modify.
Qed.

Lemma close_twice fini h fd : do_close fini (do_close fini h fd) fd = do_close (U := U) fini h fd.
Proof.
  unfold do_close at 2 3. destruct (_ && _) eqn:Er; [|unfold do_close; by rewrite Er].
  destruct (c_fd (conn_of h fd) <? 0) eqn:Ec; [unfold do_close; by rewrite Er, Ec|].
  unfold do_close. rewrite Er.
  change (conn_of (emit ?x _) fd) with (conn_of x fd) at 1.
  by rewrite conn_set, decide_True.
Qed.

(** ** Properties *)


(** The service sees the input in order and complete: when [do_recv] gets
    to the service, the connection's buffer holds what it held before followed
    by exactly the bytes of the [recv] calls made, interrupted calls included,
    and nothing has been sent meanwhile. *)
Theorem input_in_order h fd rs h1 rs' :
  wf_conn h fd -> recv_loop h fd rs = Some (inr h1, rs') ->
  exists used, rs = used ++ rs' /\ inq h1 fd = inq h fd ++ got used /\
    wf_conn h1 fd /\ user h1 = user h /\ trace h1 = trace h /\ outq h1 fd = outq h fd /\
    members h1 = members h.
Proof. apply recv_loop_spec. Qed.

End Flow.

(** A connection with a reply and a file queued, and a service that only
    waits for more input. *)
Definition demo_service : Service (H := demo_env) unit :=
  mk_service unit demo_env (fun h _ _ => (0, h)) (fun h _ => (RECV_ADD_EPOLLIN, h))
    (fun h _ => (SEND_ADD_EPOLLIN, h)) None None None None.
Definition demo_sender : host unit :=
  let b := put (H := demo_env) mybuff_init (str "reply") in
  mk_host {[ 5 := mk_conn 5 0 [] (mk_buff (MyBuff.data b) (size b) (len b) 9 100 50) mybuff_init ]}
    {[ 5 := EPOLLIN ]} [] 0 tt.


Lemma input_in_order_witness :
  exists h1, recv_loop (S := demo_service) demo_sender 5
      [RErrno EINTR; Got (replicate 64 1); Got [2; 3]; Eof] = Some (inr h1, [Eof]) /\
  exists used, [RErrno EINTR; Got (replicate 64 1); Got [2; 3]; Eof] = used ++ [Eof] /\
    inq h1 5 = inq demo_sender 5 ++ got used /\
    wf_conn h1 5 /\ user h1 = user demo_sender /\ trace h1 = trace demo_sender /\
    outq h1 5 = outq demo_sender 5 /\ members h1 = members demo_sender.
Proof.
  eexists. split; [reflexivity|].
  apply (input_in_order (S := demo_service)); [|reflexivity].
  split; vm_compute; repeat split; discriminate.
Defined.

#[local] Existing Instance demo_env.

#[local] Instance demo_safe : ServiceSafe (S := demo_service) unit.
Proof.
  refine {| safe := fun _ _ => True |}; [intros h fd ip rc h1 _ _ E1; by injection E1 as _ <-|..];
    try (intros; split; [reflexivity|done]); by intros.
Defined.

(** Connection 5 is closed by an error, and its number accepted again in the
    batch that still holds an event for it. *)
Definition demo_batches : list (list occurrence * Z) :=
  [([Ready 5 EPOLLERR [] []; Incoming [(5, 16777343)]; Ready 5 EPOLLIN [Got [1; 2]] []], 100)].


End Loop.
