(* ===== verification/SigStream.v ===== *)
(** * The request loop of a signalling connection

    [check_req] takes one message off a connection's receive buffer and hands
    it to the service's [do_req]; [svc_recv] repeats it until the buffer holds
    no complete message, or-ing the result codes together (network/N/pfs_sig.c;
    the loops of the other services have the same shape).  The section is
    generic in [do_req], of which it needs only that it leaves the receive
    side of the connection alone. *)

From S2P Require Import Prelude.
From S2P Require Import CString.
From S2P Require Import Protocol.
From S2P Require Import MyBuff.
From S2P Require Import EventLoop.

Module SigStream.
Import MyBuff Conn Loop Sig.

Section Stream.
Context {U : Type} {E : Env}.
Context (do_req : host U -> Z -> t_pfs_sig_head -> t_pfs_sig_body -> Z * host U).
Implicit Types h : host U.

(** [check_req]: -1 when more data is needed. *)
Definition check_req h (fd : Z) : Z * host U :=
  let '(rc, data) := get_client_data h fd in
  if negb (rc =? 0) then (-1, h)
  else
    let '(ret, hd, b) := parse_sig_msg zero_head zero_body data in
    if 0 <? ret then (-1, h)
    else if ret =? E_PACKET_ERR_CLOSE then (RECV_CLOSE, h)
    else
      let clen := bodylen hd + SIG_HEADSIZE in
      let '(ret, h1) := do_req h fd hd b in
      (ret, consume_client_data h1 fd clen).

(** The [while (1)] of [svc_recv]; [None] when [fuel] iterations were not
    enough. *)
Fixpoint req_loop (fuel : nat) h (fd ret : Z) : option (Z * host U) :=
  match fuel with
  | O => None
  | S fuel' =>
      let '(subret, h1) := check_req h fd in
      if subret =? -1 then Some (ret, h1)
      else if subret =? RECV_CLOSE then Some (RECV_CLOSE, h1)
      else req_loop fuel' h1 fd (Z.lor ret subret)
  end.

(** A message consumes at least its four header bytes, so one iteration per
    buffered byte and one more to find the buffer exhausted are enough. *)
Definition drain h (fd : Z) : option (Z * host U) :=
  req_loop (S (length (inq h fd))) h fd RECV_ADD_EPOLLIN.

(** ** What the loop computes *)

Record msg := mk_msg { m_cmd : Z; m_status : Z; m_body : bytes }.

Definition encode (m : msg) : bytes :=
  create_sig_msg (m_cmd m) (m_status m) (m_body m) (zlen (m_body m)).
Definition head_of (m : msg) : t_pfs_sig_head := mk_head (zlen (m_body m)) (m_cmd m) (m_status m).
Definition msg_ok (m : msg) : Prop :=
  is_byte (m_cmd m) /\ is_byte (m_status m) /\ zlen (m_body m) < 65536.

(** One message handed to the service, and then dropped from the buffer. *)
Definition handle (fd : Z) (s : Z * host U) (m : msg) : Z * host U :=
  let '(r, h1) := do_req (snd s) fd (head_of m) (memcpy zero_body 0 (m_body m)) in
  (Z.lor (fst s) r, consume_client_data h1 fd (zlen (m_body m) + SIG_HEADSIZE)).

(** A tail that holds no complete message. *)
Definition incomplete (s : bytes) : Prop :=
  s = [] \/ 0 < fst (fst (parse_sig_msg zero_head zero_body s)).

Context (fd : Z).
Hypothesis keeps_input : forall h hd b,
  wf_conn h fd -> wf_conn (snd (do_req h fd hd b)) fd /\
  inq (snd (do_req h fd hd b)) fd = inq h fd.
Hypothesis never_stops : forall h hd b,
  fst (do_req h fd hd b) <> -1 /\ fst (do_req h fd hd b) <> RECV_CLOSE.

Lemma consume_spec h n :
  wf_conn h fd -> 0 <= n ->
  wf_conn (consume_client_data h fd n) fd /\
  inq (consume_client_data h fd n) fd = drop (Z.to_nat n) (inq h fd).
Proof.
  intros Hw Hn. unfold consume_client_data, wf_conn, inq. rewrite conn_set, decide_True by done.
  simpl. destruct (skipdata_spec (recv_buff (conn_of h fd)) n) as (A & B & _); [apply Hw|done|].
  split; [split; [apply Hw|done]|done].
Qed.

Lemma get_client_data_spec h :
  wf_conn h fd ->
  get_client_data h fd = if decide (inq h fd = []) then (-1, []) else (0, inq h fd).
Proof. intros Hw. unfold get_client_data. apply getdata_spec, Hw. Qed.

Lemma check_incomplete h : wf_conn h fd -> incomplete (inq h fd) -> check_req h fd = (-1, h).
Proof.
  intros Hw Hi. unfold check_req. rewrite get_client_data_spec by done.
  case_decide as Hd; simpl; [done|]. destruct Hi as [Hi|Hi]; [done|].
  destruct (parse_sig_msg _ _ _) as [[r hd] b]. simpl in Hi. apply Z.ltb_lt in Hi. by rewrite Hi.
Qed.

Lemma length_message m : msg_ok m -> length (encode m) = (4 + length (m_body m))%nat.
Proof.
  intros _. pose proof (length_create (m_cmd m) (m_status m) (m_body m) (zlen (m_body m))) as Hl.
  unfold encode. unfold SIG_HEADSIZE in Hl. lia.
Qed.

Lemma check_message h m rest :
  wf_conn h fd -> msg_ok m -> inq h fd = encode m ++ rest ->
  exists r, check_req h fd = (r, snd (handle fd (0, h) m)) /\ r <> -1 /\ r <> RECV_CLOSE /\
    wf_conn (snd (handle fd (0, h) m)) fd /\ inq (snd (handle fd (0, h) m)) fd = rest /\
    forall ret, handle fd (ret, h) m = (Z.lor ret r, snd (handle fd (0, h) m)).
Proof.
  intros Hw Hm Hq. unfold check_req. rewrite get_client_data_spec by done.
  pose proof (length_message m Hm) as Hle.
  rewrite decide_False by (rewrite Hq; intros Hn; apply (f_equal length) in Hn;
    rewrite length_app in Hn; simpl in Hn; lia).
  simpl. rewrite Hq. destruct Hm as (H1 & H2 & H3). unfold encode at 1.
  rewrite parse_create by (done || lia). simpl.
  rewrite take_ge by lia. unfold handle, head_of; simpl.
  destruct (keeps_input h (mk_head (zlen (m_body m)) (m_cmd m) (m_status m))
              (memcpy zero_body 0 (m_body m)) Hw) as [Hw1 Hi1].
  destruct (never_stops h (mk_head (zlen (m_body m)) (m_cmd m) (m_status m))
              (memcpy zero_body 0 (m_body m))) as [Hn1 Hn2].
  destruct (do_req h fd _ _) as [r h1]; simpl in *.
  destruct (consume_spec h1 (zlen (m_body m) + SIG_HEADSIZE) Hw1) as [Hw2 Hi2];
    [unfold SIG_HEADSIZE; lia|].
  exists r. split_and!; try done.
  rewrite Hi2, Hi1, Hq. unfold SIG_HEADSIZE. rewrite drop_app_ge by lia.
  rewrite Hle. replace (Z.to_nat _ - _)%nat with 0%nat by lia. done.
Qed.

Lemma le_split_pair a b : is_byte a -> is_byte b -> le_split 2 (a + 256 * b) = [a; b].
Proof.
  intros Ha Hb. assert (Hl : Bytes [a; b]) by (apply Forall_cons; split; [done|]; by apply Forall_singleton).
  apply le_split_combine in Hl. rewrite <- Hl. cbn [length]. f_equal. simpl. lia.
Qed.

(** A buffer is messages followed by an incomplete one, in one way or another. *)
Lemma first_message s :
  Bytes s -> incomplete s \/ exists m rest, msg_ok m /\ s = encode m ++ rest.
Proof.
  intros Hs. destruct (decide (4 <= length s)%nat) as [H4|H4].
  2:{ left. right. unfold parse_sig_msg, SIG_HEADSIZE.
      destruct (zlen s <? 4) eqn:E4; [done|]. b2p. lia. }
  destruct s as [|x0 [|x1 [|x2 [|x3 body]]]]; simpl in H4; try lia.
  repeat match goal with H : Forall _ (_ :: _) |- _ => apply Forall_cons in H as [? H] end.
  set (n := 256 * x0 + x1).
  assert (0 <= n < 65536) by (unfold n, is_byte in *; lia).
  assert (Hh : head_image (mk_head (htons n) x2 x3) = [x0; x1; x2; x3]).
  { unfold head_image, bswap16. cbn [bodylen cmdid status].
    replace n with (x1 + 256 * x0) by (unfold n; lia). rewrite le_split_pair by done.
    replace (le_combine (rev [x1; x0])) with (x0 + 256 * x1) by (simpl; lia).
    by rewrite le_split_pair, !u8_small by done. }
  assert (Hw : wf_head (mk_head n x2 x3)) by (split; [|split]; assumption).
  change (x0 :: x1 :: x2 :: x3 :: body) with ([x0; x1; x2; x3] ++ body). rewrite <- Hh.
  destruct (zlen body <? n) eqn:El.
  - left. right. rewrite (parse_with_head zero_head zero_body (mk_head n x2 x3)) by done.
    cbn [bodylen]. by rewrite El.
  - right. b2p. exists (mk_msg x2 x3 (take (Z.to_nat n) body)), (drop (Z.to_nat n) body).
    assert (Hln : zlen (take (Z.to_nat n) body) = n) by (rewrite length_take; lia).
    split; [split; [|split]; [assumption..|cbn [m_body]; lia]|].
    unfold encode. cbn [m_cmd m_status m_body]. rewrite Hln, create_split by lia.
    rewrite take_take, Nat.min_id, <- app_assoc, take_drop. done.
Qed.

Lemma stream_split s :
  Bytes s -> exists ms tail, Forall msg_ok ms /\ incomplete tail /\ s = concat (map encode ms) ++ tail.
Proof.
  remember (length s) as k eqn:Hk. revert s Hk.
  induction k as [k IH] using lt_wf_ind. intros s -> Hs.
  destruct (first_message s Hs) as [Hi|(m & rest & Hm & ->)]; [by exists [], s|].
  apply Forall_app in Hs as [_ Hr].
  destruct (IH (length rest)) with (s := rest) as (ms & tail & A & B & ->); [|done|done|].
  { rewrite length_app, length_message by done. lia. }
  exists (m :: ms), tail. split; [by constructor|]. split; [done|]. simpl. by rewrite app_assoc.
Qed.

(** Whatever the chunks they arrived in, the complete messages at the front
    of the buffer are handled once each and in order, and the incomplete tail
    stays for the next call. *)
Lemma req_loop_messages ms tail : forall h ret fuel,
  wf_conn h fd -> Forall msg_ok ms -> incomplete tail ->
  inq h fd = concat (map encode ms) ++ tail -> (length ms < fuel)%nat ->
  req_loop fuel h fd ret = Some (foldl (handle fd) (ret, h) ms) /\
  inq (snd (foldl (handle fd) (ret, h) ms)) fd = tail /\
  wf_conn (snd (foldl (handle fd) (ret, h) ms)) fd.
Proof.
  induction ms as [|m ms IH]; intros h ret fuel Hw Hms Ht Hq Hf;
    (destruct fuel as [|fuel]; [lia|]); cbn [req_loop foldl].
  { simpl in Hq. rewrite check_incomplete by (by rewrite ?Hq). done. }
  apply Forall_cons in Hms as [Hm Hms]. simpl in Hq. rewrite <- app_assoc in Hq.
  destruct (check_message h m _ Hw Hm Hq) as (r & -> & Hr1 & Hr2 & Hw1 & Hq1 & Hh).
  apply Z.eqb_neq in Hr1, Hr2. rewrite Hr1, Hr2, (Hh ret).
  apply IH; [done..|simpl in Hf; lia].
Qed.

Lemma messages_fit ms : Forall msg_ok ms -> (length ms <= length (concat (map encode ms)))%nat.
Proof.
  induction 1 as [|m ms Hm _ IH]; simpl; [lia|].
  rewrite length_app, length_message by done. lia.
Qed.

Lemma drain_messages ms tail h :
  wf_conn h fd -> Forall msg_ok ms -> incomplete tail ->
  inq h fd = concat (map encode ms) ++ tail ->
  drain h fd = Some (foldl (handle fd) (RECV_ADD_EPOLLIN, h) ms) /\
  inq (snd (foldl (handle fd) (RECV_ADD_EPOLLIN, h) ms)) fd = tail.
Proof.
  intros Hw Hms Ht Hq. unfold drain.
  destruct (req_loop_messages ms tail h RECV_ADD_EPOLLIN (S (length (inq h fd)))) as (A & B & _);
    try done.
  pose proof (messages_fit ms Hms). rewrite Hq, length_app. lia.
Qed.

End Stream.

(** ** Handlers that can fail

    The request handlers of the other services can run into undefined
    behaviour, which their models show as [None].  [junk] is what the message
    body holds before it is parsed. *)
Section Partial.
Context {U : Type} {E : Env} (junk : bytes).
Context (do_req : host U -> Z -> t_pfs_sig_head -> t_pfs_sig_body -> option (Z * host U)).
Implicit Types h : host U.

Definition check_part h (fd : Z) : option (Z * host U) :=
  let '(rc, data) := get_client_data h fd in
  if negb (rc =? 0) then Some (-1, h)
  else
    let '(ret, hd, b) := parse_sig_msg zero_head junk data in
    if 0 <? ret then Some (-1, h)
    else if ret =? E_PACKET_ERR_CLOSE then Some (RECV_CLOSE, h)
    else
      '(ret, h1) ← do_req h fd hd b;
      Some (ret, consume_client_data h1 fd (bodylen hd + SIG_HEADSIZE)).

(** A complete message at the front of the buffer goes to the handler. *)
Lemma check_part_message h fd m rest :
  wf_conn h fd -> msg_ok m -> inq h fd = encode m ++ rest ->
  check_part h fd = '(ret, h1) ← do_req h fd (head_of m) (memcpy junk 0 (m_body m));
                    Some (ret, consume_client_data h1 fd (zlen (m_body m) + SIG_HEADSIZE)).
Proof.
  intros W Hm Hq. pose proof (length_message m Hm) as Hl. destruct Hm as (M1 & M2 & M3).
  unfold check_part. rewrite get_client_data_spec by done.
  rewrite decide_False by (rewrite Hq; intros Hx; apply (f_equal length) in Hx;
    rewrite length_app in Hx; simpl length in Hx at 3; lia).
  simpl (negb _). cbv iota. rewrite Hq. unfold encode.
  rewrite parse_create by (done || lia). change (0 <? 0) with false.
  change (0 =? E_PACKET_ERR_CLOSE) with false. cbv iota. by rewrite take_ge by lia.
Qed.

(** Part of a message, or nothing: the handler is not called. *)
Lemma check_part_waits h fd m k :
  wf_conn h fd -> msg_ok m -> (k < length (encode m))%nat -> inq h fd = take k (encode m) ->
  check_part h fd = Some (-1, h).
Proof.
  intros W (M1 & M2 & M3) Hk Hq. unfold check_part. rewrite get_client_data_spec by done. case_decide; [done|].
  simpl (negb _). cbv iota. rewrite Hq.
  pose proof (parse_prefix zero_head junk (m_cmd m) (m_status m) (m_body m) (zlen (m_body m)) k
    M1 M2 ltac:(lia) ltac:(lia) Hk) as Hp.
  fold (encode m) in Hp. destruct (parse_sig_msg _ _ _) as [[r hd] bb]. cbn [fst] in Hp.
  apply Z.ltb_lt in Hp. by rewrite Hp.
Qed.

(** The loop that or-s the codes of the requests together. *)
Fixpoint or_loop (fuel : nat) h (fd ret : Z) : option (Z * host U) :=
  match fuel with
  | O => None
  | S fuel' =>
      '(subret, h) ← check_part h fd;
      if subret =? -1 then Some (ret, h)
      else if subret =? RECV_CLOSE then Some (RECV_CLOSE, h)
      else or_loop fuel' h fd (Z.lor ret subret)
  end.

End Partial.

End SigStream.
