(* ===== verification/Wire.v ===== *)
(** * The task record on the wire (lib/pfs_task.h)

    Servers and clients send each other a [t_task_base] by [memcpy]: 824 bytes,
    padding included. *)

From S2P Require Import Prelude.
From S2P Require Import CString.
From S2P Require Import TaskData.
From S2P Require Import Records.

Module Wire.

Definition sizeof_base : Z := 824.

Definition base_image (b : t_task_base) : bytes :=
  DelFile.field 256 (filename b) ++ DelFile.field 256 (tmpfile b) ++ DelFile.field 256 (retfile b)
  ++ take 17 (filemd5 b ++ replicate 17 0) ++ replicate 3 0 ++ le_split 4 (dstip b)
  ++ le_split 8 (b_starttime b) ++ le_split 8 (mtime b) ++ le_split 8 (fsize b)
  ++ [u8 (type b); u8 (retry b); u8 (overstatus b)] ++ replicate 5 0.

Definition slice (s : bytes) (off n : nat) : bytes := take n (drop off s).

Definition base_of_image (s : bytes) : t_task_base :=
  mk_base (until0 (slice s 0 256)) (until0 (slice s 256 256)) (until0 (slice s 512 256))
    (slice s 768 17) (le_combine (slice s 788 4)) (i64 (le_combine (slice s 792 8)))
    (i64 (le_combine (slice s 800 8))) (i64 (le_combine (slice s 808 8)))
    (at_ s 816) (at_ s 817) (at_ s 818).

(** ** Lemmas *)

(** A task as the code fills it: strings that fit their arrays, a 17-byte
    digest, fields in range. *)
Record fits (b : t_task_base) : Prop := mk_fits {
  fit_names : Forall (fun s => cstr s /\ (length s < 256)%nat) [filename b; tmpfile b; retfile b];
  fit_md5 : length (filemd5 b) = 17%nat;
  fit_ip : 0 <= dstip b < 2 ^ 32;
  fit_longs : Forall (fun x => - 2 ^ 63 <= x < 2 ^ 63) [b_starttime b; mtime b; fsize b];
  fit_bytes : Forall is_byte [type b; retry b; overstatus b]
}.

Lemma length_base_image b : length (filemd5 b) = 17%nat -> zlen (base_image b) = sizeof_base.
Proof.
  intros Hm. unfold base_image. rewrite !length_app, !DelFile.length_field, !length_le_split.
  rewrite length_take, length_app, Hm. done.
Qed.

(** Reading a field of a concatenation at its offset: past a part, and at one. *)
Lemma slice_next x s off n k :
  length x = k -> (k <= off)%nat -> slice (x ++ s) off n = slice s (off - k) n.
Proof. intros <- Ho. unfold slice. by rewrite drop_app_ge. Qed.

Lemma slice_here x s n : length x = n -> slice (x ++ s) 0 n = x.
Proof. intros <-. unfold slice. rewrite drop_0. apply take_app_length. Qed.

Lemma until0_field256 s : cstr s -> (length s < 256)%nat -> until0 (DelFile.field 256 s) = s.
Proof.
  intros. rewrite <- (app_nil_r (DelFile.field 256 s)), DelFile.until0_field by (done || lia).
  unfold snprintf. apply take_ge. lia.
Qed.

Lemma i64_split x : - 2 ^ 63 <= x < 2 ^ 63 -> i64 (le_combine (le_split 8 x)) = x.
Proof.
  intros Hx. rewrite le_combine_split. change (256 ^ Z.of_nat 8) with (2 ^ 64).
  unfold i64. rewrite Zplus_mod_idemp_l. rewrite Z.mod_small; lia.
Qed.

Lemma at_slice s i : at_ s i = at_ (slice s i 1) 0.
Proof.
  unfold at_, slice. rewrite <- (take_drop i s) at 1.
  destruct (drop i s) as [|x t] eqn:Ed.
  - rewrite app_nil_r. simpl. apply nth_overflow. apply (f_equal length) in Ed.
    rewrite length_drop in Ed. simpl in Ed. rewrite length_take. lia.
  - assert (i < length s)%nat.
    { apply (f_equal length) in Ed. rewrite length_drop in Ed. simpl in Ed. lia. }
    rewrite app_nth2 by (rewrite length_take; lia). rewrite length_take, Nat.min_l by lia.
    by rewrite Nat.sub_diag.
Qed.

(** The parts of an image and where they lie. *)
Lemma image_slices f1 f2 f3 m z3 ip st mt sz t r o z5 :
  length f1 = 256%nat -> length f2 = 256%nat -> length f3 = 256%nat -> length m = 17%nat ->
  length z3 = 3%nat -> length ip = 4%nat -> length st = 8%nat -> length mt = 8%nat ->
  length sz = 8%nat ->
  let s := f1 ++ f2 ++ f3 ++ m ++ z3 ++ ip ++ st ++ mt ++ sz ++ [t; r; o] ++ z5 in
  slice s 0 256 = f1 /\ slice s 256 256 = f2 /\ slice s 512 256 = f3 /\ slice s 768 17 = m /\
  slice s 788 4 = ip /\ slice s 792 8 = st /\ slice s 800 8 = mt /\ slice s 808 8 = sz /\
  slice s 816 1 = [t] /\ slice s 817 1 = [r] /\ slice s 818 1 = [o].
Proof.
  intros L1 L2 L3 L4 L5 L6 L7 L8 L9 s. unfold s.
  split_and!;
    repeat first [by apply slice_here | erewrite slice_next; [|eassumption|lia]; simpl (_ - _)%nat];
    done.
Qed.

Lemma base_image_roundtrip b : fits b -> base_of_image (base_image b) = b.
Proof.
  intros [Hn Hm Hip Hl Hb]. unfold base_of_image. rewrite !(at_slice (base_image b)).
  unfold base_image.
  assert (Hm17 : take 17 (filemd5 b ++ replicate 17 0) = filemd5 b) by (apply take_app_length'; done).
  rewrite Hm17.
  destruct (image_slices (DelFile.field 256 (filename b)) (DelFile.field 256 (tmpfile b))
    (DelFile.field 256 (retfile b)) (filemd5 b) (replicate 3 0) (le_split 4 (dstip b))
    (le_split 8 (b_starttime b)) (le_split 8 (mtime b)) (le_split 8 (fsize b))
    (u8 (type b)) (u8 (retry b)) (u8 (overstatus b)) (replicate 5 0))
    as (-> & -> & -> & -> & -> & -> & -> & -> & -> & -> & ->);
    try apply DelFile.length_field; try apply length_le_split; try done.
  repeat match goal with H : Forall _ (_ :: _) |- _ => apply Forall_cons in H as [? H] end.
  destruct_and?. rewrite !until0_field256 by done. rewrite !i64_split by done.
  rewrite le_combine_split, Z.mod_small by (change (256 ^ Z.of_nat 4) with (2 ^ 32); lia).
  unfold at_; simpl. rewrite !u8_small by done. by destruct b.
Qed.

(** The image at the front of a larger buffer. *)
Lemma slice_app_l x y off n : (off + n <= length x)%nat -> slice (x ++ y) off n = slice x off n.
Proof.
  intros Hl. unfold slice. rewrite drop_app_le by lia. rewrite take_app_le; [done|].
  rewrite length_drop. lia.
Qed.

Lemma base_of_image_app s rest : length s = 824%nat -> base_of_image (s ++ rest) = base_of_image s.
Proof.
  intros Hl. unfold base_of_image. rewrite !(at_slice (s ++ rest)), !(at_slice s).
  by rewrite !slice_app_l by (rewrite Hl; lia).
Qed.

(** A task carried by a message body, copied over a buffer, is the task the
    receiver reads. *)
Lemma carried buf b :
  fits b -> zlen (base_image b) = sizeof_base /\ base_of_image (memcpy buf 0 (base_image b)) = b.
Proof.
  intros Hf. pose proof (length_base_image b (fit_md5 _ Hf)) as Hl. split; [done|].
  unfold sizeof_base in Hl. unfold memcpy. rewrite take_0, app_nil_l.
  rewrite base_of_image_app by lia. by apply base_image_roundtrip.
Qed.

(** ** Properties *)

(** The task a client copies into its request with [memcpy] is the task
    the server copies out of the message, whatever follows it in the body
    buffer: names, digest, sizes, times and flags all survive. *)
Theorem wire_task_roundtrip b rest :
  fits b -> zlen (base_image b) = sizeof_base /\ base_of_image (base_image b ++ rest) = b.
Proof.
  intros Hf. pose proof (length_base_image b (fit_md5 _ Hf)) as Hl. split; [done|].
  unfold sizeof_base in Hl. rewrite base_of_image_app by lia. by apply base_image_roundtrip.
Qed.

Lemma wire_task_roundtrip_witness :
  let b := mk_base (str "/1/2/a.jpg") [] (str "x") (replicate 17 7) 16820416 1388534400 5 100 48 0 0 in
  zlen (base_image b) = sizeof_base /\ base_of_image (base_image b ++ [1; 2; 3]) = b.
Proof.
  intros b. apply wire_task_roundtrip. split; try done; repeat constructor; done || lia.
Defined.

End Wire.
