(* ===== verification/Transfer.v ===== *)
(** * Receiving files: what network/U and network/D have in common

    The upload service and the data service take files over their connections
    with the same code: the peer record, the answers to a client, the opening
    of a temporary file ([do_recv_task]), the storing of the bytes as they
    arrive and the check and rename at the end ([recv_file], [finish_file]),
    the request loop ([svc_recv]).  It is written twice in the sources, in
    U/pfs_up*.c and D/pfs_data*.c; the two copies differ in the operation type
    of the tasks whose sender is answered ([oper]), in [do_req] and in
    [svc_finiconn], which are arguments here.  [Y] is the state a service
    keeps besides the common part.  A handler gives [None] where the code runs
    into undefined behaviour. *)

From stdpp Require Import functions.
From S2P Require Import Prelude.
From S2P Require Import CString.
From S2P Require Import Protocol.
From S2P Require Import MyBuff.
From S2P Require Import Codec.
From S2P Require Import MD5.
From S2P Require Import LinkedList.
From S2P Require Import TaskData.
From S2P Require Import TaskQueue.
From S2P Require Import Timer.
From S2P Require Import Storage.
From S2P Require Import Records.
From S2P Require Import LocalFile.
From S2P Require Import EventLoop.
From S2P Require Import SigStream.
From S2P Require Import Wire.

Module Transfer.
Import MyBuff Conn Loop Sig Fs LocalFile.

(** ** Data (U/pfs_up.h, D/pfs_data.h) *)

Definition LOGOUT : Z := 0.
Definition CONNECTED : Z := 1.
Definition LOGIN : Z := 2.
Definition IDLE : Z := 3.
Definition PREPARE_RECVFILE : Z := 4.
Definition RECVFILEING : Z := 5.
Definition SENDFILEING : Z := 6.

Definition CON_PASSIVE : Z := 0.
Definition CON_ACTIVE : Z := 1.

Definition CMD_GET_FILE_REQ : Z := 0x11.
Definition CMD_GET_FILE_RSP : Z := 0x12.
Definition CMD_PUT_FILE_REQ : Z := 0x15.
Definition CMD_PUT_FILE_RSP : Z := 0x16.
Definition FILE_SYNC_DST_2_SRC : Z := 0x81.
Definition TASK_ADDFILE : Z := 48.
Definition TASK_DELFILE : Z := 49.
Definition TASK_MODYFILE : Z := 50.
Definition ADD_PATH_BY_BNAME : Z := 2.
Definition ADD_QUERY_DIR : Z := 5.
Definition RET_CLOSE_MALLOC : Z := 303.

Record peer := mk_peer {
  p_fd : Z;
  local_in_fd : Z;
  hbtime : Z;
  p_ip : Z;
  headlen : Z;
  sock_stat : Z;
  mode : Z;
  p_close : bool;
  ctx : Md5.MD5Context;
  recvtask : option Z;
  sendtask : option Z
}.

Record up (Y : Type) := mk_up {
  peers : gmap Z peer;
  active : list Z;
  files : lf;
  queue : TaskQueue.state;
  disks : Disk.disks;
  pic_index : Z;
  extra : Y
}.
Arguments mk_up {Y}. Arguments peers {Y}. Arguments active {Y}. Arguments files {Y}.
Arguments queue {Y}. Arguments disks {Y}. Arguments pic_index {Y}. Arguments extra {Y}.

(** What the thread's surroundings decide: the memory before the tasks' names
    (in the message on the stack, and in a task node), what the stack holds
    where a message body is parsed to, the byte after the digest on the stack, the task [malloc] would give, the outcome of the
    queue locks, of [malloc] and of [write], the texts of [%m]. *)
Class Surroundings := mk_surroundings {
  before_msg : bytes;
  before_node : bytes;
  stack_body : bytes;
  stray : Z;
  task_mem : option (LinkedList.loc * t_pfs_tasklist);
  timer_mem : option Z;
  q_lock : Z;
  mem_ok : Z -> bool;
  k_write : Z -> bytes -> Z;
  errmsg : bytes;
  time_text : Z -> bytes;
  self_ip : Z;
  self_domain : bytes
}.

Section Service.
Context {Y : Type} {E : Env} {K : Kernel} {C : Site} {X : Surroundings}.
Implicit Types h : host (up Y).

Definition with_peer h (fd : Z) (p : peer) : host (up Y) :=
  let u := user h in
  set_user h (mk_up (<[fd := p]> (peers u)) (active u) (files u) (queue u) (disks u) (pic_index u) (extra u)).
Definition with_files h (l : lf) : host (up Y) :=
  let u := user h in
  set_user h (mk_up (peers u) (active u) l (queue u) (disks u) (pic_index u) (extra u)).
Definition with_queue h (q : TaskQueue.state) : host (up Y) :=
  let u := user h in
  set_user h (mk_up (peers u) (active u) (files u) q (disks u) (pic_index u) (extra u)).

Definition set_stat (p : peer) (s : Z) : peer :=
  mk_peer (p_fd p) (local_in_fd p) (hbtime p) (p_ip p) (headlen p) s (mode p) (p_close p)
    (ctx p) (recvtask p) (sendtask p).
Definition set_recvtask (p : peer) (t : option Z) : peer :=
  mk_peer (p_fd p) (local_in_fd p) (hbtime p) (p_ip p) (headlen p) (sock_stat p) (mode p)
    (p_close p) (ctx p) t (sendtask p).
Definition set_sendtask (p : peer) (t : option Z) : peer :=
  mk_peer (p_fd p) (local_in_fd p) (hbtime p) (p_ip p) (headlen p) (sock_stat p) (mode p)
    (p_close p) (ctx p) (recvtask p) t.
Definition set_infd (p : peer) (f : Z) : peer :=
  mk_peer (p_fd p) f (hbtime p) (p_ip p) (headlen p) (sock_stat p) (mode p) (p_close p)
    (ctx p) (recvtask p) (sendtask p).
Definition set_ctx (p : peer) (c : Md5.MD5Context) : peer :=
  mk_peer (p_fd p) (local_in_fd p) (hbtime p) (p_ip p) (headlen p) (sock_stat p) (mode p)
    (p_close p) c (recvtask p) (sendtask p).
Definition set_close (p : peer) : peer :=
  mk_peer (p_fd p) (local_in_fd p) (hbtime p) (p_ip p) (headlen p) (sock_stat p) (mode p)
    true (ctx p) (recvtask p) (sendtask p).
Definition set_hbtime (p : peer) (t : Z) : peer :=
  mk_peer (p_fd p) (local_in_fd p) t (p_ip p) (headlen p) (sock_stat p) (mode p) (p_close
    p) (ctx p) (recvtask p) (sendtask p).
Definition set_headlen (p : peer) (n : Z) : peer :=
  mk_peer (p_fd p) (local_in_fd p) (hbtime p) (p_ip p) n (sock_stat p) (mode p) (p_close
    p) (ctx p) (recvtask p) (sendtask p).
Definition set_mode (p : peer) (m : Z) : peer :=
  mk_peer (p_fd p) (local_in_fd p) (hbtime p) (p_ip p) (headlen p) (sock_stat p) m
    (p_close p) (ctx p) (recvtask p) (sendtask p).

(** The task node [t] changed, and a task moved to a queue. *)
Definition map_task h (t : Z) (f : t_pfs_tasklist -> t_pfs_tasklist) : option (host (up Y)) :=
  r ← TaskQueue.tasks (queue (user h)) !! t;
  Some (with_queue h (TaskQueue.with_task (queue (user h)) t (f r))).

Definition set_over (o : Z) (r : t_pfs_tasklist) : t_pfs_tasklist :=
  set_base r (set_overstatus (base r) o).

Definition set_task h (t s : Z) : option (host (up Y)) :=
  '(_, q) ← TaskQueue.pfs_set_task (queue (user h)) t s q_lock (now h);
  Some (with_queue h q).

(** ** Answers, names, the opening of a file (U/pfs_up_task.c, D/pfs_data_task.c) *)

(** [create_push_rsp]: 256 bytes, the string and zeros. *)
Definition create_push_rsp h (retfile : bytes) (fd : Z) : option (host (up Y)) :=
  p ← peers (user h) !! fd;
  let h := with_peer h fd (set_close p) in
  let retbuf := DelFile.field 256 (str "OK|" ++ retfile ++ 124 :: self_domain) in
  let h := set_client_data h fd (create_sig_msg CMD_PUT_FILE_RSP 0 retbuf 256) in
  Some (modify_fd_event h fd EPOLLOUT).

Definition create_push_rsp_err h (msg : bytes) (fd : Z) : option (host (up Y)) :=
  p ← peers (user h) !! fd;
  let h := with_peer h fd (set_close p) in
  let h := set_client_data h fd (create_sig_msg CMD_PUT_FILE_RSP 0 msg (u16 (zlen msg))) in
  Some (modify_fd_event h fd EPOLLOUT).

(** [do_recv_task]: the answer to a request for a file. *)
Definition do_recv_task h (fd : Z) (hd : t_pfs_sig_head) (b : t_task_base) : option (Z * host (up Y)) :=
  p ← peers (user h) !! fd;
  if negb (sock_stat p =? PREPARE_RECVFILE) then Some (RECV_CLOSE, h)
  else
    t ← recvtask p;
    if negb (Sig.status hd =? FILE_SYNC_DST_2_SRC) then
      let h := with_peer h fd (set_stat p IDLE) in
      h ← map_task h t (set_over OVER_E_OPEN_SRCFILE);
      h ← set_task h t TASK_Q_FIN;
      Some (RECV_CLOSE, with_peer h fd (set_recvtask (set_stat p IDLE) None))
    else
      r ← TaskQueue.tasks (queue (user h)) !! t;
      h ← (if negb (bool_decide (filemd5 (base r) = filemd5 b))
           then map_task h t (fun r => set_sub (set_base r b)
                  (mk_sub (fsize b) (lastlen (sub r)) (lasttime (sub r)) (starttime (sub r))
                     (endtime (sub r)) (TaskData.peerip (sub r)) (oper_type (sub r)) (need_sync (sub r))
                     (sync_dir (sub r))))
           else Some h);
      r ← TaskQueue.tasks (queue (user h)) !! t;
      let h := if 0 <? local_in_fd p
               then with_files h (with_sys (files (user h)) (close (sys (files (user h))) (local_in_fd p)))
               else h in
      '(rc, lfd, b1, l1) ← open_tmp_localfile_4_write before_node (time_text (now h))
                             (files (user h)) (base r) (local_in_fd p);
      let h := with_files h l1 in
      h ← map_task h t (fun r => set_base r b1);
      if negb (rc =? LOCALFILE_OK) then
        h ← map_task h t (set_over OVER_E_OPEN_DSTFILE);
        h ← set_task h t TASK_Q_CLEAN;
        Some (RECV_CLOSE, with_peer h fd (set_recvtask (set_infd p lfd) None))
      else Some (RECV_ADD_EPOLLIN, with_peer h fd (set_stat (set_infd p lfd) RECVFILEING)).

Definition set_filename (b : t_task_base) (f : bytes) : t_task_base :=
  mk_base f (tmpfile b) (retfile b) (filemd5 b) (dstip b) (b_starttime b) (mtime b) (fsize b)
          (type b) (retry b) (overstatus b).

(** [get_max_free_storage] with the caller's [d1 = d2 = 0]. *)
Definition free_dir h : option ((Z * Z) * host (up Y)) :=
  r ← Disk.get_max_free_storage DIR1 (disks (user h));
  match r with
  | inl _ => Some ((0, 0), h)
  | inr (d, ds) =>
      let u := user h in
      Some (d, set_user h (mk_up (peers u) (active u) (files u) (queue u) ds (pic_index u) (extra u)))
  end.

Definition dir_path (d : Z * Z) (name : bytes) : bytes :=
  47 :: dec (fst d) ++ 47 :: dec (snd d) ++ 47 :: name.

(** The name of an upload before the extension. *)
Definition pic_name (t ip idx : Z) : bytes :=
  Base64.base64_encode (snprintf 256 (dec t ++ 95 :: udec ip ++ 95 :: dec0 4 idx)) false.

(** [get_local_filename]: [None] when the extension does not fit in
    [localfile[256]]. *)
Definition get_local_filename h (b : t_task_base) : option (t_task_base * host (up Y)) :=
  if negb (type b =? TASK_ADDFILE) then Some (b, h)
  else
    let u := user h in
    let idx := pic_index u in
    let ext := match strchr (filename b) 46 with Some i => drop i (filename b) | None => [] end in
    let localfile := pic_name (now h) self_ip idx ++ ext in
    if 256 <=? zlen localfile then None
    else
      let h := set_user h (mk_up (peers u) (active u) (files u) (queue u) (disks u) (u32 (idx + 1)) (extra u)) in
      '(d, h) ← free_dir h;
      let u := user h in
      Some (set_filename b (snprintf 256 (dir_path d localfile)),
            set_user h (mk_up (peers u) (active u) (files u) (queue u) (disks u)
                          (if 99999 <=? pic_index u then 0 else pic_index u) (extra u))).

(** ** The connection (U/pfs_up.c, D/pfs_data.c) *)

(** The head of [svc_recv]: the peer's time, its place in the active list. *)
Definition refresh h (fd : Z) : option (host (up Y)) :=
  p ← peers (user h) !! fd;
  let u := user h in
  Some (set_user h (mk_up (<[fd := set_hbtime p (u32 (now h))]> (peers u))
                      (filter (fun x => x <> fd) (active u) ++ [fd]) (files u) (queue u) (disks u)
                      (pic_index u) (extra u))).

Definition add_lastlen (n : Z) (r : t_pfs_tasklist) : t_pfs_tasklist :=
  let s := sub r in
  set_sub r (mk_sub (processlen s) (lastlen s + n) (lasttime s) (starttime s) (endtime s)
               (TaskData.peerip s) (oper_type s) (need_sync s) (sync_dir s)).

(** The type of the tasks whose sender waits for an answer. *)
Context (oper : Z).

Definition rsp_err_if_up h (r : t_pfs_tasklist) (msg : bytes) (fd : Z) : option (host (up Y)) :=
  if oper_type (sub r) =? oper then create_push_rsp_err h msg fd else Some h.

(** The last byte is in: check, publish, answer. *)
Definition finish_file h (fd t : Z) : option (Z * host (up Y)) :=
  p ← peers (user h) !! fd;
  r ← TaskQueue.tasks (queue (user h)) !! t;
  let '(omd5, c1) := Md5.MD5Final (ctx p) in
  let p := set_ctx p c1 in
  let '(rc, l1) := close_tmp_check_mv (files (user h)) (base r) (local_in_fd p) (omd5 ++ [stray]) in
  let h := with_peer (with_files h l1) fd p in
  if negb (rc =? LOCALFILE_OK) then
    h ← map_task h t (set_over OVER_E_MD5);
    let h := with_peer h fd (set_recvtask p None) in
    h ← set_task h t TASK_Q_FIN;
    h ← rsp_err_if_up h r (snprintf 256 (str "md5 error " ++ errmsg)) fd;
    Some (RECV_SEND, h)
  else
    h ← map_task h t (set_over OVER_OK);
    h ← (if oper_type (sub r) =? oper then create_push_rsp h (retfile (base r)) fd else Some h);
    h ← set_task h t TASK_Q_FIN;
    p ← peers (user h) !! fd;
    Some (RECV_SEND, with_peer h fd (set_stat (set_recvtask (set_infd p (-1)) None) IDLE)).

(** The first [n] bytes of the receive buffer's memory: what a pointer from
    [get_client_data] leads to after [consume_client_data] has moved the rest
    of the data to the front. *)
Definition raw_data h (fd n : Z) : bytes :=
  match data (recv_buff (conn_of h fd)) with
  | Some blk => take (Z.to_nat n) blk
  | None => []
  end.

(** The [RECVFILEING] branch of [svc_recv]; [MD5Update] is called with the
    old pointer after the data was consumed. *)
Definition recv_file h (fd : Z) : option (Z * host (up Y)) :=
  p ← peers (user h) !! fd;
  match recvtask p with
  | None => Some (RECV_CLOSE, h)
  | Some t =>
      let '(rc, data) := get_client_data h fd in
      if negb (rc =? 0) then Some (RECV_ADD_EPOLLIN, h)
      else
        r ← TaskQueue.tasks (queue (user h)) !! t;
        let remainlen := i32 (processlen (sub r) - lastlen (sub r)) in
        let datalen := if zlen data <=? u64 remainlen then zlen data else u64 remainlen in
        let data := take (Z.to_nat datalen) data in
        let n := i32 (k_write (local_in_fd p) data) in
        if n <? 0 then
          h ← rsp_err_if_up h r (snprintf 256 (str "write err " ++ errmsg)) fd;
          Some (RECV_ADD_EPOLLOUT, h)
        else
          let data := take (Z.to_nat n) data in
          let l := files (user h) in
          let h := with_files h (with_sys l (write (sys l) (local_in_fd p) data)) in
          let h := consume_client_data h fd n in
          h ← map_task h t (add_lastlen n);
          let h := with_peer h fd (set_ctx p (Md5.MD5Update (ctx p) (raw_data h fd n))) in
          if processlen (sub r) <=? lastlen (sub r) + n then finish_file h fd t
          else Some (RECV_ADD_EPOLLIN, h)
  end.

(** The service's request handler. *)
Context (do_req : host (up Y) -> Z -> t_pfs_sig_head -> t_pfs_sig_body -> option (Z * host (up Y))).

(** [check_req]; the header and the body are not initialised, but the parser
    always sets the header when it accepts a message. *)
Definition check_req : host (up Y) -> Z -> option (Z * host (up Y)) := SigStream.check_part stack_body do_req.

(** The request loop; a message that starts a transfer continues with the
    bytes behind it. *)
Fixpoint req_loop (fuel : nat) h (fd : Z) : option (Z * host (up Y)) :=
  match fuel with
  | O => None
  | S fuel' =>
      '(subret, h) ← check_req h fd;
      if subret =? -1 then Some (RECV_ADD_EPOLLIN, h)
      else if subret =? RECV_ADD_EPOLLOUT then Some (RECV_ADD_EPOLLOUT, h)
      else if subret =? RECV_SEND then Some (RECV_SEND, h)
      else if subret =? RECV_CLOSE then Some (RECV_CLOSE, h)
      else
        p ← peers (user h) !! fd;
        if sock_stat p =? RECVFILEING then h ← refresh h fd; recv_file h fd
        else if sock_stat p =? SENDFILEING then Some (RECV_ADD_EPOLLOUT, h)
        else req_loop fuel' h fd
  end.

(** [svc_recv]. *)
Definition svc_recv h (fd : Z) : option (Z * host (up Y)) :=
  h ← refresh h fd;
  p ← peers (user h) !! fd;
  if sock_stat p =? RECVFILEING then recv_file h fd
  else req_loop (S (length (inq h fd))) h fd.

Definition svc_send_once h (fd : Z) : option (Z * host (up Y)) :=
  p ← peers (user h) !! fd;
  Some (SEND_ADD_EPOLLIN, with_peer h fd (set_hbtime p (u32 (now h)))).

(** [do_close] with the service's [svc_finiconn]. *)
Context (fini : host (up Y) -> Z -> option (host (up Y))).

Definition close_conn h (fd : Z) : option (host (up Y)) :=
  if (0 <=? fd) && (fd <? maxfds) && negb (c_fd (conn_of h fd) <? 0)
  then h1 ← fini h fd; Some (do_close (Some (fun _ _ => h1)) h fd)
  else Some h.

(** The loop of [svc_timeout]: the active list is in the order the peers were last heard
    of; the loop stops at the first one that is not overdue. *)
Fixpoint timeout_loop (limit : Z) h (l : list Z) : option (host (up Y)) :=
  match l with
  | [] => Some h
  | fd :: t =>
      p ← peers (user h) !! fd;
      if now h - hbtime p <? limit then Some h
      else h ← close_conn h (p_fd p); timeout_loop limit h t
  end.

Definition close_overdue (timeout : Z) h : option (host (up Y)) :=
  timeout_loop (timeout * 10) h (active (user h)).

(** ** A transfer in progress *)

(** [c] has arrived on connection [fd] for task [t]: it is what the temporary
    file (inode [i], open as [lfd]) holds and, with [dig], what the context has
    digested. *)
Record receiving (dig : bool) h (fd t lfd i : Z) (c : bytes) (r : t_pfs_tasklist) : Prop := mk_receiving {
  rc_peer : exists p, peers (user h) !! fd = Some p /\ sock_stat p = RECVFILEING /\
    recvtask p = Some t /\ local_in_fd p = lfd /\ (dig = true -> Md5Facts.absorbed (ctx p) c);
  rc_task : TaskQueue.tasks (queue (user h)) !! t = Some r;
  rc_len : lastlen (sub r) = zlen c;
  rc_file : appending (sys (files (user h))) lfd i c /\
    paths (sys (files (user h))) !! tmpfile (base r) = Some i /\ 0 < lfd;
  rc_conn : wf_conn h fd;
  rc_queue : exists off qs, TaskQueue.queues off (queue (user h)) qs /\
    TaskQueue.held (queue (user h)) qs t
}.

Implicit Types dig : bool.

Lemma receiving_refresh dig h fd t lfd i c r :
  receiving dig h fd t lfd i c r ->
  exists h', refresh h fd = Some h' /\ receiving dig h' fd t lfd i c r /\ inq h' fd = inq h fd /\
    files (user h') = files (user h) /\ outq h' fd = outq h fd.
Proof.
  intros [(p & P1 & P2 & P3 & P4 & P5) T L F W Q]. unfold refresh. rewrite P1. simpl.
  eexists. split; [done|]. split; [|done]. split; try done. simpl.
  eexists. rewrite lookup_insert_eq. by split_and!.
Qed.

Lemma receiving_arrive dig h fd t lfd i c r d :
  receiving dig h fd t lfd i c r ->
  receiving dig (arrive h fd d) fd t lfd i c r /\ inq (arrive h fd d) fd = inq h fd ++ d.
Proof.
  intros [P T L F W Q]. destruct (arrive_spec h fd d W) as (A & B & _). split; [|done].
  by split.
Qed.

(** Consuming all the data leaves the memory of the buffer as it was. *)
Lemma raw_after_consume h fd :
  wf_conn h fd -> raw_data (consume_client_data h fd (zlen (inq h fd))) fd (zlen (inq h fd)) = inq h fd.
Proof.
  intros [_ W]. unfold raw_data, consume_client_data. rewrite conn_set, decide_True by done. simpl.
  unfold inq, MyBuff.contents, wf in *. destruct (recv_buff (conn_of h fd)) as [[blk|] sz ln f o fl]; simpl in *;
    [|done].
  destruct W as [W1 W2]. rewrite length_take, Nat.min_l by lia.
  unfold mybuff_skipdata; simpl. rewrite Z2Nat.id by lia. rewrite Z.leb_refl. simpl. done.
Qed.

Lemma outq_consume h fd n : outq (consume_client_data h fd n) fd = outq h fd.
Proof. unfold outq, consume_client_data. by rewrite conn_set, decide_True. Qed.

Lemma outq_reply h fd d : wf_conn h fd -> outq (set_client_data h fd d) fd = outq h fd ++ d.
Proof.
  intros [A _]. unfold outq, set_client_data. rewrite conn_set, decide_True by done. simpl.
  by apply put_spec.
Qed.

Lemma outq_modify h fd ev : outq (modify_fd_event h fd ev) fd = outq h fd.
Proof. unfold modify_fd_event, epoll_mod. by case_match. Qed.

(** A message queued on a connection that is then polled for output. *)
Lemma reply_spec h fd d :
  wf_conn h fd ->
  let h' := modify_fd_event (set_client_data h fd d) fd EPOLLOUT in
  wf_conn h' fd /\ inq h' fd = inq h fd /\ outq h' fd = outq h fd ++ d /\ user h' = user h /\ now h' = now h.
Proof.
  intros W. destruct (put_spec (send_buff (conn_of h fd)) d (proj1 W)) as (A & B & _).
  assert (Hm : forall x : host (up Y), let x' := modify_fd_event x fd EPOLLOUT in
    acon x' = acon x /\ user x' = user x /\ now x' = now x).
  { intros x. unfold modify_fd_event, epoll_mod. by case_match. }
  destruct (Hm (set_client_data h fd d)) as (M1 & M2 & M3). cbv zeta. rewrite M2, M3.
  unfold wf_conn, inq, outq, conn_of. rewrite M1. fold (conn_of (set_client_data h fd d) fd).
  unfold set_client_data. rewrite conn_set, decide_True by done. simpl. by destruct W.
Qed.

(** What a positive reply changes. *)
Lemma push_rsp_spec h fd ret p :
  peers (user h) !! fd = Some p -> wf_conn h fd ->
  exists h', create_push_rsp h ret fd = Some h' /\
    user h' = user (with_peer h fd (set_close p)) /\ now h' = now h /\
    outq h' fd = outq h fd ++ create_sig_msg CMD_PUT_FILE_RSP 0
                   (DelFile.field 256 (str "OK|" ++ ret ++ 124 :: self_domain)) 256.
Proof.
  intros Hp Hw. unfold create_push_rsp. rewrite Hp. cbn [mbind option_bind].
  eexists. split; [done|]. rewrite outq_modify, outq_reply by done.
  split_and!; [..|done]; unfold modify_fd_event, epoll_mod; by case_match.
Qed.

Hypothesis write_all : forall lfd d, k_write lfd d = zlen d.

(** The state after the bytes of the buffer are stored, before the test for
    the end of the file. *)
Lemma recv_file_store dig h fd t lfd i c r :
  receiving dig h fd t lfd i c r -> inq h fd <> [] ->
  zlen c + zlen (inq h fd) <= processlen (sub r) < 2 ^ 31 ->
  exists h', recv_file h fd
    = (if processlen (sub r) <=? zlen c + zlen (inq h fd) then finish_file h' fd t
       else Some (RECV_ADD_EPOLLIN, h')) /\
    receiving dig h' fd t lfd i (c ++ inq h fd) (add_lastlen (zlen (inq h fd)) r) /\ inq h' fd = [] /\
    paths (sys (files (user h'))) = paths (sys (files (user h))) /\ outq h' fd = outq h fd.
Proof.
  intros [(p & P1 & P2 & P3 & P4 & P5) T L1 (F1 & F2 & F3) W (off & qs & Q1 & Q2)] Hne Hn.
  set (d := inq h fd) in *. unfold recv_file. rewrite P1. cbn [mbind option_bind]. rewrite P3.
  rewrite SigStream.get_client_data_spec, decide_False by done. fold d. simpl (negb _). cbv iota.
  rewrite T. cbn [mbind option_bind]. rewrite L1.
  rewrite (i32_small (processlen (sub r) - zlen c)) by lia.
  rewrite u64_small by lia.
  destruct (zlen d <=? processlen (sub r) - zlen c) eqn:El; b2p; [|lia].
  rewrite Nat2Z.id, (take_ge d) by lia. rewrite write_all.
  rewrite i32_small by lia. destruct (zlen d <? 0) eqn:E0; b2p; [lia|].
  rewrite Nat2Z.id, (take_ge d) by lia. cbv zeta.
  set (h1 := with_files h _).
  assert (W1 : wf_conn h1 fd) by done. assert (I1 : inq h1 fd = d) by done.
  destruct (SigStream.consume_spec fd h1 (zlen d) W1 ltac:(lia)) as [W2 I2].
  pose proof (raw_after_consume h1 fd W1) as Hraw. rewrite I1 in Hraw, I2.
  unfold map_task. change (queue (user (consume_client_data h1 fd (zlen d)))) with (queue (user h)).
  rewrite T. cbn [mbind option_bind].
  set (h2 := with_queue (consume_client_data h1 fd (zlen d)) _).
  change (raw_data h2 fd (zlen d)) with (raw_data (consume_client_data h1 fd (zlen d)) fd (zlen d)).
  rewrite Hraw.
  exists (with_peer h2 fd (set_ctx p (Md5.MD5Update (ctx p) d))). split; [done|].
  assert (I3 : inq (consume_client_data h1 fd (zlen d)) fd = []) by (rewrite I2; apply drop_ge; lia).
  split; [|split; [exact I3|]]; [|split].
  - split.
    + eexists. simpl. rewrite lookup_insert_eq. split; [done|]. split_and!; try done.
      simpl. intros Hg. apply Md5Facts.update_absorbed; [auto|lia].
    + simpl. by rewrite lookup_insert_eq.
    + simpl. rewrite length_app. lia.
    + simpl. rewrite P4. split; [by apply write_appending|]. rewrite write_paths. done.
    + exact W2.
    + exists off, qs. by apply (TaskQueue.with_task_held off _ qs t r).
  - simpl. apply write_paths.
  - exact (outq_consume h1 fd (zlen d)).
Qed.

(** The reply to a finished upload. *)
Definition ok_reply (ret : bytes) : bytes :=
  create_sig_msg CMD_PUT_FILE_RSP 0 (DelFile.field 256 (str "OK|" ++ ret ++ 124 :: self_domain)) 256.

Hypothesis lock_free : q_lock = 0.

Lemma set_task_shape q t s r now' c q' :
  TaskQueue.pfs_set_task (TaskQueue.with_task q t r) t s 0 now' = Some (c, q') ->
  TaskQueue.in_range s = true ->
  exists r', TaskQueue.tasks q' !! t = Some r' /\ base r' = base r /\ TaskData.status r' = s /\
    sub r' = sub r.
Proof.
  intros Eq Hs. unfold TaskQueue.pfs_set_task in Eq. rewrite Hs in Eq. simpl in Eq.
  destruct (LinkedList.list_del_init _ _) as [hh|]; simpl in Eq; [|done].
  destruct (LinkedList.list_add_tail _ _ _) as [hh'|]; simpl in Eq; [|done].
  rewrite lookup_insert_eq in Eq. simpl in Eq. unfold TaskQueue.atomic_add in Eq.
  destruct (TaskQueue.taskcount _ !! _); simpl in Eq; [|done]. simplify_eq. simpl.
  rewrite lookup_insert_eq. by eexists.
Qed.

(** The digest announced is the file's: it is published, whatever the context
    has digested, since a mismatch leads to a second look at the file. *)
Lemma finish_file_ok dig h fd t lfd i c r :
  receiving dig h fd t lfd i c r -> filemd5 (base r) = Rfc1321.md5 c ++ [0] ->
  tmpfile (base r) <> filename (base r) -> k_rename (tmpfile (base r)) (filename (base r)) = true ->
  exists h' r' p', finish_file h fd t = Some (RECV_SEND, h') /\
    contents (sys (files (user h'))) (filename (base r)) = Some c /\
    paths (sys (files (user h'))) !! tmpfile (base r) = None /\
    TaskQueue.tasks (queue (user h')) !! t = Some r' /\
    overstatus (base r') = OVER_OK /\ TaskData.status r' = TASK_Q_FIN /\
    outq h' fd = outq h fd ++ (if oper_type (sub r) =? oper then ok_reply (retfile (base r)) else []) /\
    peers (user h') !! fd = Some p' /\ sock_stat p' = IDLE /\ recvtask p' = None.
Proof.
  intros HR Hm Hne Hk.
  destruct HR as [(p & P1 & P2 & P3 & P4 & P5) T L1 ((F1 & F1') & F2 & F3) W (off & qs & Q1 & Q2)].
  unfold finish_file. rewrite P1. cbn [mbind option_bind]. rewrite T. cbn [mbind option_bind].
  destruct (Md5.MD5Final (ctx p)) as [om c1]. cbn [local_in_fd set_ctx]. rewrite P4.
  destruct (close_tmp_publishes (files (user h)) (base r) lfd i c (om ++ [stray]))
    as (l1 & -> & C1 & C2); try done; [lia|].
  simpl (negb _). cbv iota.
  set (h1 := with_peer (with_files h l1) fd (set_ctx p c1)).
  unfold map_task at 1. change (queue (user h1)) with (queue (user h)). rewrite T.
  cbn [mbind option_bind].
  set (h2 := with_queue h1 _).
  assert (R3 : exists h3 p3, (if oper_type (sub r) =? oper then create_push_rsp h2 (retfile (base r)) fd
                              else Some h2) = Some h3 /\
    user h3 = user (with_peer h2 fd p3) /\ now h3 = now h2 /\
    outq h3 fd = outq h fd ++ (if oper_type (sub r) =? oper then ok_reply (retfile (base r)) else [])).
  { destruct (oper_type (sub r) =? oper).
    - destruct (push_rsp_spec h2 fd (retfile (base r)) (set_ctx p c1)) as (h3 & -> & U3 & N3 & O3);
        [simpl; by rewrite lookup_insert_eq|exact W|]. by exists h3, (set_close (set_ctx p c1)).
    - exists h2, (set_ctx p c1). split_and!; try done; [|by rewrite app_nil_r].
      unfold h2, h1, with_queue, with_peer, set_user; simpl. by rewrite insert_insert_eq. }
  destruct R3 as (h3 & p3 & -> & U3 & N3 & O3). cbn [mbind option_bind].
  destruct (TaskQueue.with_task_held off (queue (user h)) qs t r (set_over OVER_OK r) Q1 Q2 T eq_refl) as [Q3 Q4].
  unfold set_task. rewrite U3, N3, lock_free.
  change (queue (user (with_peer h2 fd p3)))
    with (TaskQueue.with_task (queue (user h)) t (set_over OVER_OK r)).
  destruct (TaskQueue.set_task_held _ _ _ t TASK_Q_FIN 0 (now h2) Q3 Q4) as (_ & q' & _ & _ & Eq & _); [done|by left|].
  rewrite Eq. cbn [mbind option_bind].
  assert (Hp3 : peers (user (with_queue h3 q')) !! fd = Some p3).
  { simpl. rewrite U3. simpl. by rewrite lookup_insert_eq. }
  rewrite Hp3. cbn [mbind option_bind].
  destruct (set_task_shape _ _ _ _ _ _ _ Eq) as (r' & T1 & T2 & T3 & _); [done|].
  eexists _, r', (set_stat (set_recvtask (set_infd p3 (-1)) None) IDLE). split; [done|].
  change (files (user (with_peer ?x _ _))) with (files (user x)).
  change (files (user (with_queue h3 q'))) with (files (user h3)).
  change (queue (user (with_peer (with_queue h3 q') _ _))) with q'.
  rewrite U3. change (files (user (with_peer h2 fd p3))) with l1.
  split_and!; try done; [by rewrite T2|simpl; by rewrite lookup_insert_eq].
Qed.

Lemma push_rsp_err_spec h fd msg p :
  peers (user h) !! fd = Some p -> wf_conn h fd ->
  exists h', create_push_rsp_err h msg fd = Some h' /\
    user h' = user (with_peer h fd (set_close p)) /\ trace h' = trace h.
Proof.
  intros Hp Hw. unfold create_push_rsp_err. rewrite Hp. cbn [mbind option_bind].
  eexists. split; [done|]. split; unfold modify_fd_event, epoll_mod; by case_match.
Qed.

(** The digest does not agree: nothing is published, the task ends with
    [OVER_E_MD5], and the peer keeps the descriptor that was just closed. *)
(** The error reply, sent or not: the peer keeps what matters. *)
Lemma rsp_err_spec h fd r msg p :
  peers (user h) !! fd = Some p -> wf_conn h fd ->
  exists h' p', rsp_err_if_up h r msg fd = Some h' /\ user h' = user (with_peer h fd p') /\
    recvtask p' = recvtask p /\ local_in_fd p' = local_in_fd p /\ trace h' = trace h.
Proof.
  intros Hp Hw. unfold rsp_err_if_up. destruct (_ =? _).
  - destruct (push_rsp_err_spec h fd msg p Hp Hw) as (h' & -> & U & T). by exists h', (set_close p).
  - exists h, p. split_and!; try done. simpl. unfold with_peer; simpl. rewrite insert_id by done.
    by destruct (user h).
Qed.

Lemma finish_file_bad h fd t lfd i c r :
  receiving true h fd t lfd i c r -> tmpfile (base r) <> filename (base r) ->
  take 16 (filemd5 (base r)) <> Rfc1321.md5 c ->
  exists h' r' p', finish_file h fd t = Some (RECV_SEND, h') /\
    paths (sys (files (user h'))) = paths (sys (files (user h))) /\
    inodes (sys (files (user h'))) = inodes (sys (files (user h))) /\
    fds (sys (files (user h'))) = delete lfd (fds (sys (files (user h)))) /\
    TaskQueue.tasks (queue (user h')) !! t = Some r' /\
    overstatus (base r') = OVER_E_MD5 /\ TaskData.status r' = TASK_Q_FIN /\
    peers (user h') !! fd = Some p' /\ recvtask p' = None /\ local_in_fd p' = lfd.
Proof.
  intros HR Hne Hm. destruct HR as [(p & P1 & P2 & P3 & P4 & P5) T L1 ((F1 & F1') & F2 & F3) W (off & qs & Q1 & Q2)].
  unfold finish_file. rewrite P1. cbn [mbind option_bind]. rewrite T. cbn [mbind option_bind].
  pose proof (Md5Facts.final_absorbed (ctx p) c (P5 eq_refl)) as Hd.
  destruct (Md5.MD5Final (ctx p)) as [om c1]. simpl in Hd. subst om. cbn [local_in_fd set_ctx].
  rewrite P4.
  assert (Hb : forall x, Rfc1321.md5 c ++ [x] <> filemd5 (base r)).
  { intros x Hx. apply Hm. rewrite <- Hx. apply take_app_length'. by rewrite Md5Facts.length_md5. }
  assert (Ec : close_tmp_check_mv (files (user h)) (base r) lfd (Rfc1321.md5 c ++ [stray])
    = (LOCALFILE_MD5_E, with_sys (files (user h)) (close (sys (files (user h))) lfd))).
  { unfold close_tmp_check_mv. destruct (lfd <? 0) eqn:E0; b2p; [lia|].
    rewrite bool_decide_eq_false_2 by done. unfold check_localfile_md5. simpl.
    rewrite (getfilemd5_spec _ _ c) by (unfold contents; simpl; by rewrite F2).
    by rewrite bool_decide_eq_false_2. }
  rewrite Ec. simpl (negb _). cbv iota.
  set (h1 := with_peer _ fd (set_ctx p c1)).
  unfold map_task. change (queue (user h1)) with (queue (user h)). rewrite T. cbn [mbind option_bind].
  destruct (TaskQueue.with_task_held off (queue (user h)) qs t r (set_over OVER_E_MD5 r) Q1 Q2 T eq_refl) as [Q3 Q4].
  unfold set_task. rewrite lock_free.
  set (h2 := with_peer (with_queue h1 _) fd _).
  change (queue (user h2)) with (TaskQueue.with_task (queue (user h)) t (set_over OVER_E_MD5 r)).
  destruct (TaskQueue.set_task_held _ _ _ t TASK_Q_FIN 0 (now h2) Q3 Q4) as (_ & q' & _ & _ & Eq & _); [done|by left|].
  rewrite Eq. cbn [mbind option_bind].
  destruct (set_task_shape _ _ _ _ _ _ _ Eq) as (r' & T1 & T2 & T3 & _); [done|].
  destruct (rsp_err_spec (with_queue h2 q') fd r (snprintf 256 (str "md5 error " ++ errmsg))
              (set_recvtask (set_ctx p c1) None)) as (h3 & p3 & -> & U3 & K3).
  { simpl. by rewrite lookup_insert_eq. }
  { exact W. }
  cbn [mbind option_bind].
  exists h3, r', p3. rewrite U3. simpl. rewrite lookup_insert_eq.
  destruct K3 as (K3 & K4 & _). split_and!; try done; by rewrite ?T2, ?K3, ?K4.
Qed.

(** ** Whole transfers *)

(** The bytes of a file arriving chunk by chunk. *)
Fixpoint feed h (fd : Z) (chunks : list bytes) : option (Z * host (up Y)) :=
  match chunks with
  | [] => Some (RECV_ADD_EPOLLIN, h)
  | [d] => svc_recv (arrive h fd d) fd
  | d :: t => '(rc, h1) ← svc_recv (arrive h fd d) fd;
              if rc =? RECV_ADD_EPOLLIN then feed h1 fd t else Some (rc, h1)
  end.

(** One chunk: stored, and the file finished if it was the last. *)
Lemma chunk_step dig h fd t lfd i c r d :
  receiving dig h fd t lfd i c r -> inq h fd = [] -> d <> [] ->
  zlen c + zlen d <= processlen (sub r) < 2 ^ 31 ->
  exists h', svc_recv (arrive h fd d) fd
    = (if processlen (sub r) <=? zlen c + zlen d then finish_file h' fd t
       else Some (RECV_ADD_EPOLLIN, h')) /\
    receiving dig h' fd t lfd i (c ++ d) (add_lastlen (zlen d) r) /\ inq h' fd = [] /\
    paths (sys (files (user h'))) = paths (sys (files (user h))) /\ outq h' fd = outq h fd.
Proof.
  intros HR Hq Hd Hl. destruct (receiving_arrive dig h fd t lfd i c r d HR) as [HA IA].
  destruct (arrive_spec h fd d) as (_ & _ & OA); [apply HR|].
  rewrite Hq in IA. simpl in IA. unfold svc_recv.
  destruct (receiving_refresh _ _ _ _ _ _ _ _ HA) as (h1 & -> & HR1 & I1 & F1 & O1).
  cbn [mbind option_bind]. destruct (rc_peer _ _ _ _ _ _ _ _ HR1) as (p & P1 & P2 & _).
  rewrite P1. cbn [mbind option_bind]. rewrite P2. simpl (RECVFILEING =? RECVFILEING). cbv iota.
  rewrite <- I1 in IA. rewrite <- IA in Hd, Hl.
  destruct (recv_file_store dig h1 fd t lfd i c r HR1 Hd Hl) as (h2 & -> & HR2 & I2 & Pt & O2).
  exists h2. rewrite IA in *. split; [done|]. split; [done|]. split; [done|].
  split; [rewrite Pt, F1; done|congruence].
Qed.

Lemma feed_receiving dig chunks : forall h fd t lfd i c r,
  receiving dig h fd t lfd i c r -> inq h fd = [] -> chunks <> [] -> Forall (fun d => d <> []) chunks ->
  processlen (sub r) = zlen c + zlen (concat chunks) -> processlen (sub r) < 2 ^ 31 ->
  exists h' r', feed h fd chunks = finish_file h' fd t /\
    receiving dig h' fd t lfd i (c ++ concat chunks) r' /\ base r' = base r /\
    oper_type (sub r') = oper_type (sub r) /\
    paths (sys (files (user h'))) = paths (sys (files (user h))) /\ outq h' fd = outq h fd.
Proof.
  induction chunks as [|d chunks IH]; intros h fd t lfd i c r HR Hq Hne Hall Hl Hs; [done|].
  apply Forall_cons in Hall as [Hd Hall]. simpl in Hl. rewrite length_app in Hl.
  destruct (chunk_step dig h fd t lfd i c r d HR Hq Hd) as (h1 & E1 & HR1 & I1 & Pt1 & O1); [lia|].
  destruct chunks as [|d2 chunks].
  - cbn [feed concat app]. rewrite E1. rewrite app_nil_r.
    destruct (_ <=? _) eqn:El; b2p; [|simpl in *; lia]. by exists h1, (add_lastlen (zlen d) r).
  - assert (Hd2 : 0 < zlen (concat (d2 :: chunks))).
    { apply Forall_cons in Hall as [Hd2 _]. simpl. rewrite length_app. destruct d2; [done|simpl; lia]. }
    destruct (IH h1 fd t lfd i (c ++ d) (add_lastlen (zlen d) r) HR1 I1) as (h2 & r2 & E2 & HR2 & B2 & B3 & Pt2 & O2);
      [done|done|simpl; rewrite length_app; simpl in Hl; lia|done|].
    exists h2, r2. change (feed h fd (d :: d2 :: chunks)) with
      ('(rc, h1) ← svc_recv (arrive h fd d) fd;
       if rc =? RECV_ADD_EPOLLIN then feed h1 fd (d2 :: chunks) else Some (rc, h1)).
    rewrite E1. destruct (_ <=? _) eqn:El; b2p; [lia|]. cbn [mbind option_bind].
    simpl (RECV_ADD_EPOLLIN =? RECV_ADD_EPOLLIN). cbv iota. rewrite E2.
    cbn [concat] in *. rewrite app_assoc. split_and!; try done; congruence.
Qed.

Lemma storage_convert_fields before b rc bc :
  storage_convert before b = Some (rc, bc) ->
  filemd5 bc = filemd5 b /\ fsize bc = fsize b /\ mtime bc = mtime b.
Proof.
  unfold storage_convert. case_match; [|intros; by simplify_eq].
  destruct (walk _ _ _); simpl; [|done]. case_match; [done|]. intros; by simplify_eq.
Qed.

Lemma tmp_name_ne file st idx : tmp_name file st idx <> file.
Proof.
  intros Hx. apply (f_equal length) in Hx. unfold tmp_name in Hx.
  rewrite length_app in Hx. simpl in Hx. lia.
Qed.

Lemma map_task_some h t f r :
  TaskQueue.tasks (queue (user h)) !! t = Some r ->
  map_task h t f = Some (with_queue h (TaskQueue.with_task (queue (user h)) t (f r))).
Proof. intros Hr. unfold map_task. by rewrite Hr. Qed.

Lemma receiving_consume dig h fd t lfd i c r n :
  receiving dig h fd t lfd i c r -> 0 <= n ->
  receiving dig (consume_client_data h fd n) fd t lfd i c r /\
  inq (consume_client_data h fd n) fd = drop (Z.to_nat n) (inq h fd).
Proof.
  intros [P T L F W Q] Hn. destruct (SigStream.consume_spec fd h n W Hn) as [A B].
  split; [|done]. by split.
Qed.

Lemma feed_end (x : option (Z * host (up Y))) fd :
  ('(rc, h1) ← x; if rc =? RECV_ADD_EPOLLIN then feed h1 fd [] else Some (rc, h1)) = x.
Proof.
  destruct x as [[rc h1]|]; simpl; [|done].
  destruct (rc =? RECV_ADD_EPOLLIN) eqn:Er; [|done]. apply Z.eqb_eq in Er. by subst.
Qed.

Lemma feed_cons h fd d l :
  feed h fd (d :: l) = '(rc, h1) ← svc_recv (arrive h fd d) fd;
                       if rc =? RECV_ADD_EPOLLIN then feed h1 fd l else Some (rc, h1).
Proof. destruct l as [|d2 l]; [|done]. by rewrite feed_end. Qed.

(** A connection that is receiving and has nothing to read. *)
Lemma recv_file_empty dig h fd t lfd i c r :
  receiving dig h fd t lfd i c r -> inq h fd = [] -> recv_file h fd = Some (RECV_ADD_EPOLLIN, h).
Proof.
  intros HR Hq. unfold recv_file. destruct (rc_peer _ _ _ _ _ _ _ _ HR) as (p & P1 & P2 & P3 & _).
  rewrite P1. cbn [mbind option_bind]. rewrite P3.
  rewrite SigStream.get_client_data_spec, decide_True by (done || apply HR). done.
Qed.

(** The bytes behind the message, the first of them read with it. *)
Lemma feed_rest dig h fd t lfd r c0 chunks c :
  receiving dig h fd t lfd lfd [] r -> inq h fd = c0 -> Forall (fun d => d <> []) chunks ->
  c0 ++ concat chunks = c -> c <> [] -> zlen c = processlen (sub r) -> processlen (sub r) < 2 ^ 31 ->
  exists h' r', ('(rc, h1) ← recv_file h fd;
                 if rc =? RECV_ADD_EPOLLIN then feed h1 fd chunks else Some (rc, h1)) = finish_file h' fd t /\
    receiving dig h' fd t lfd lfd c r' /\ base r' = base r /\ oper_type (sub r') = oper_type (sub r) /\
    outq h' fd = outq h fd /\ paths (sys (files (user h'))) = paths (sys (files (user h))).
Proof.
  intros R1 I1 Hall He Hc Hl Hs. destruct (decide (c0 = [])) as [E0|E0].
  { rewrite E0 in *. rewrite (recv_file_empty dig h fd t lfd lfd [] r R1 I1).
    cbn [mbind option_bind]. simpl (RECV_ADD_EPOLLIN =? _). cbv iota. simpl in He.
    destruct (feed_receiving dig chunks h fd t lfd lfd [] r R1 I1) as (h2 & r2 & A & B & B4 & B5 & F2 & O2);
      [by intros -> |done|rewrite He; simpl; lia|lia|].
    exists h2, r2. rewrite app_nil_l, He in B. split_and!; done. }
  rewrite <- I1 in E0. rewrite <- He, length_app in Hl.
  destruct (recv_file_store dig h fd t lfd lfd [] r R1 E0) as (h2 & -> & R2 & I2 & F2 & O2);
    [rewrite I1; simpl; lia|].
  rewrite I1 in *. simpl zlen. rewrite app_nil_l in R2. rewrite Z.add_0_l.
  destruct chunks as [|d2 chunks].
  - simpl in He, Hl. rewrite app_nil_r in He. rewrite He in *.
    destruct (_ <=? _) eqn:El; b2p; [|lia]. rewrite feed_end.
    exists h2, (add_lastlen (zlen c) r). split_and!; done || congruence.
  - assert (Hd2 : 0 < zlen (concat (d2 :: chunks))).
    { apply Forall_cons in Hall as [Hd2 _]. simpl. rewrite length_app. destruct d2; [done|simpl; lia]. }
    destruct (_ <=? _) eqn:El; b2p; [lia|]. cbn [mbind option_bind].
    simpl (RECV_ADD_EPOLLIN =? _). cbv iota.
    destruct (feed_receiving dig (d2 :: chunks) h2 fd t lfd lfd c0 (add_lastlen (zlen c0) r) R2 I2)
      as (h3 & r3 & A & B & B4 & B5 & F3 & O3); [done|done|simpl (processlen _); lia|simpl; lia|].
    exists h3, r3. rewrite He in B. split_and!; try done; congruence.
Qed.

(** [svc_recv] on a connection that is not receiving a file. *)
Lemma svc_recv_idle h fd p :
  peers (user h) !! fd = Some p -> sock_stat p <> RECVFILEING ->
  exists h0 k, refresh h fd = Some h0 /\ svc_recv h fd = req_loop (S k) h0 fd /\ acon h0 = acon h /\
    peers (user h0) !! fd = Some (set_hbtime p (u32 (now h))) /\
    files (user h0) = files (user h) /\ queue (user h0) = queue (user h) /\ now h0 = now h.
Proof.
  intros P1 P2. unfold svc_recv, refresh. rewrite P1. cbn [mbind option_bind].
  set (h0 := set_user _ _). assert (E0 : peers (user h0) !! fd = Some (set_hbtime p (u32 (now h))))
    by apply lookup_insert_eq.
  exists h0, (length (inq h0 fd)). rewrite E0. cbn [mbind option_bind sock_stat set_hbtime].
  apply Z.eqb_neq in P2. by rewrite P2.
Qed.

(** ** A message that starts a transfer

    [ready] describes an idle connection [fd] on which the message [m] would
    start the transfer of a file of [n] bytes into the task [t], whose record
    becomes [b]: it does not depend on when the peer was last heard of nor on
    bytes that wait unread, and handling the message leaves the connection
    receiving. *)
Lemma encode_nonempty m : (length (@nil Z) < length (SigStream.encode m))%nat.
Proof.
  unfold SigStream.encode, create_sig_msg. destruct (_ =? 0); rewrite ?length_app, length_head_image; simpl; lia.
Qed.

Lemma app_split_prefix (x y e c : bytes) :
  x ++ y = e ++ c -> (length e <= length x)%nat -> exists c0, x = e ++ c0 /\ c0 ++ y = c.
Proof.
  intros He Hl. exists (drop (length e) x). assert (Ht : take (length e) x = e).
  { rewrite <- (take_app_le _ y) by lia. rewrite He. apply take_app_length. }
  pose proof (take_drop (length e) x) as Hx. rewrite Ht in Hx. split; [done|].
  rewrite <- Hx, <- app_assoc in He. by apply app_inv_head in He.
Qed.

Section Announce.
Context (dig : bool) (fd t n o : Z) (m : SigStream.msg) (b : t_task_base) (ready : host (up Y) -> Prop).

Record announces : Prop := mk_announces {
  an_msg : SigStream.msg_ok m;
  an_conn : forall h, ready h -> wf_conn h fd;
  an_idle : forall h, ready h -> exists p, peers (user h) !! fd = Some p /\ sock_stat p <> RECVFILEING;
  an_refresh : forall h h', ready h -> refresh h fd = Some h' -> ready h';
  an_arrive : forall h d, ready h -> ready (arrive h fd d);
  an_start : forall h, ready h ->
    exists h1 r lfd, do_req h fd (SigStream.head_of m) (memcpy stack_body 0 (SigStream.m_body m))
      = Some (RECV_ADD_EPOLLIN, h1) /\
    receiving dig h1 fd t lfd lfd [] r /\ base r = b /\ processlen (sub r) = n /\ oper_type (sub r) = o /\
    inq h1 fd = inq h fd /\ outq h1 fd = outq h fd /\
    paths (sys (files (user h1))) = <[tmpfile b := lfd]> (paths (sys (files (user h))))
}.

Hypothesis AN : announces.

(** What [svc_recv] does first with new bytes on an idle connection. *)
Lemma idle_recv h d :
  ready h ->
  exists h1 k, svc_recv (arrive h fd d) fd = req_loop (S k) h1 fd /\
    ready h1 /\ inq h1 fd = inq h fd ++ d /\ outq h1 fd = outq h fd /\
    files (user h1) = files (user h).
Proof.
  intros Hr. destruct (arrive_spec h fd d (an_conn AN h Hr)) as (_ & A & B).
  pose proof (an_arrive AN h d Hr) as Ha. destruct (an_idle AN _ Ha) as (p & P1 & P2).
  destruct (svc_recv_idle _ fd p P1 P2) as (h0 & k & E0 & E1 & A0 & _ & F0 & _).
  exists h0, k. split; [done|]. split; [by apply (an_refresh AN (arrive h fd d))|].
  unfold inq, outq, conn_of in *. by rewrite A0.
Qed.

(** Part of the message: nothing happens yet. *)
Lemma idle_waits h d k :
  ready h -> (k < length (SigStream.encode m))%nat -> inq h fd ++ d = take k (SigStream.encode m) ->
  exists h', svc_recv (arrive h fd d) fd = Some (RECV_ADD_EPOLLIN, h') /\
    ready h' /\ inq h' fd = inq h fd ++ d /\ outq h' fd = outq h fd /\
    files (user h') = files (user h).
Proof.
  intros Hr Hk Hq. destruct (idle_recv h d Hr) as (h1 & j & -> & R1 & I1 & O1 & F1).
  exists h1. split; [|done]. cbn [req_loop]. unfold check_req.
  by rewrite (SigStream.check_part_waits stack_body do_req h1 fd m k) by (congruence || done || apply AN; done).
Qed.

(** The whole message, and perhaps the first bytes of the file. *)
Lemma idle_starts h d c :
  ready h -> inq h fd ++ d = SigStream.encode m ++ c ->
  exists h1 r lfd, svc_recv (arrive h fd d) fd = recv_file h1 fd /\
    receiving dig h1 fd t lfd lfd [] r /\ inq h1 fd = c /\ outq h1 fd = outq h fd /\
    base r = b /\ processlen (sub r) = n /\ oper_type (sub r) = o /\
    paths (sys (files (user h1))) = <[tmpfile b := lfd]> (paths (sys (files (user h)))).
Proof.
  intros Hr Hq. destruct (idle_recv h d Hr) as (h0 & k & -> & R1 & I1 & O1 & F1).
  rewrite Hq in I1. cbn [req_loop]. pose proof (SigStream.length_message m (an_msg AN)) as Hl.
  unfold check_req. rewrite (SigStream.check_part_message stack_body do_req h0 fd m c) by (done || apply AN; done).
  destruct (an_start AN h0 R1) as (h1 & r & lfd & -> & HR & B1 & B2 & B3 & I2 & O2 & F2).
  cbn [mbind option_bind].
  set (len := zlen (SigStream.m_body m) + SIG_HEADSIZE).
  destruct (receiving_consume dig h1 fd t _ _ [] r len HR) as [HR2 I3]; [unfold len, SIG_HEADSIZE; lia|].
  set (h2 := consume_client_data h1 fd len) in *.
  simpl (RECV_ADD_EPOLLIN =? -1). simpl (RECV_ADD_EPOLLIN =? RECV_ADD_EPOLLOUT).
  simpl (RECV_ADD_EPOLLIN =? RECV_SEND). simpl (RECV_ADD_EPOLLIN =? RECV_CLOSE). cbv iota.
  destruct (rc_peer _ _ _ _ _ _ _ _ HR2) as (p2 & X1 & X2 & _). rewrite X1. cbn [mbind option_bind].
  rewrite X2. simpl (RECVFILEING =? RECVFILEING). cbv iota.
  destruct (receiving_refresh _ _ _ _ _ _ _ _ HR2) as (h3 & -> & HR3 & I4 & F4 & O4).
  cbn [mbind option_bind]. exists h3, r, lfd.
  split; [done|]. split; [done|]. split.
  { rewrite I4, I3, I2, I1. apply drop_app_length'. rewrite Hl. unfold len, SIG_HEADSIZE. lia. }
  split; [rewrite O4; unfold h2; rewrite outq_consume; congruence|].
  split_and!; [done..|]. rewrite F4. change (files (user h2)) with (files (user h1)).
  by rewrite F2, F1.
Qed.

(** However the stream is cut, the bytes behind the message are what the
    transfer is finished with. *)
Lemma feed_announced chunks : forall h c,
  ready h -> Forall (fun d => d <> []) chunks -> c <> [] -> zlen c = n -> n < 2 ^ 31 ->
  (length (inq h fd) < length (SigStream.encode m))%nat ->
  inq h fd ++ concat chunks = SigStream.encode m ++ c ->
  exists h' r lfd, feed h fd chunks = finish_file h' fd t /\
    receiving dig h' fd t lfd lfd c r /\ base r = b /\ oper_type (sub r) = o /\ outq h' fd = outq h fd /\
    paths (sys (files (user h'))) = <[tmpfile b := lfd]> (paths (sys (files (user h)))).
Proof.
  induction chunks as [|d chunks IH]; intros h c Hr Hall Hc Hlc Hs Hq He;
    pose proof (SigStream.length_message m (an_msg AN)) as Hle.
  { apply (f_equal length) in He. simpl in He. rewrite app_nil_r, length_app in He. lia. }
  apply Forall_cons in Hall as [Hd Hall]. simpl in He. rewrite app_assoc in He. rewrite feed_cons.
  set (e := SigStream.encode m) in *.
  destruct (decide (length (inq h fd ++ d) < length e)%nat) as [Hk|Hk].
  - destruct (idle_waits h d (length (inq h fd ++ d)) Hr Hk) as (h1 & -> & R1 & I1 & O1 & F1).
    { rewrite <- (take_app_length (inq h fd ++ d) (concat chunks)) at 1. rewrite He.
      apply take_app_le. fold e. lia. }
    cbn [mbind option_bind]. simpl (RECV_ADD_EPOLLIN =? _). cbv iota. rewrite <- I1 in *.
    destruct (IH h1 c R1 Hall Hc Hlc Hs Hk He) as (h' & r & lfd & A & B & B1 & B2 & O2 & F2).
    exists h', r, lfd. split_and!; try done; congruence.
  - destruct (app_split_prefix (inq h fd ++ d) (concat chunks) e c He) as (c0 & Hsplit & Hrest); [lia|].
    destruct (idle_starts h d c0 Hr Hsplit) as (h1 & r & lfd & -> & R1 & I1 & O1 & B1 & B2 & B3 & F1).
    destruct (feed_rest dig h1 fd t lfd r c0 chunks c R1 I1 Hall Hrest Hc) as (h2 & r2 & -> & R2 & X1 & X2 & X3 & X4);
      [lia..|].
    exists h2, r2, lfd. split_and!; try done; congruence.
Qed.

End Announce.

Lemma map_task_trace h t f h' : map_task h t f = Some h' -> trace h' = trace h.
Proof. unfold map_task. destruct (_ !! t); simpl; intros; by simplify_eq. Qed.

Lemma set_task_trace h t s h' : set_task h t s = Some h' -> trace h' = trace h.
Proof. unfold set_task. destruct (TaskQueue.pfs_set_task _ _ _ _ _) as [[? ?]|]; simpl; intros; by simplify_eq. Qed.

(** ** The names of uploads *)

Lemma split_at_sep (c : Z) (a b x y : bytes) :
  c ∉ a -> c ∉ b -> a ++ c :: x = b ++ c :: y -> a = b /\ x = y.
Proof.
  intros Ha Hb He. pose proof (strchr_app_r a x c Ha) as H1.
  rewrite He, strchr_app_r in H1 by done. injection H1 as Hl.
  apply app_inj_1 in He as [-> He]; [|done]. by injection He.
Qed.

Lemma digits_no_sep l : Forall is_dec_digit l -> 95 ∉ l /\ Bytes l.
Proof.
  intros Hl. split.
  - intros Hin. rewrite Forall_forall in Hl. apply Hl in Hin. unfold is_dec_digit in Hin. lia.
  - eapply Forall_impl; [done|]. intros x Hx. unfold is_dec_digit in Hx. split; lia.
Qed.

Lemma pic_name_inj t ip idx t' ip' idx' :
  0 <= t < 10 ^ 18 -> 0 <= t' < 10 ^ 18 -> 0 <= ip < 2 ^ 32 -> 0 <= ip' < 2 ^ 32 ->
  0 <= idx < 10 ^ 5 -> 0 <= idx' < 10 ^ 5 ->
  pic_name t ip idx = pic_name t' ip' idx' -> t = t' /\ ip = ip' /\ idx = idx'.
Proof.
  assert (Hshort : forall t ip idx, 0 <= t < 10 ^ 18 -> 0 <= ip < 2 ^ 32 -> 0 <= idx < 10 ^ 5 ->
    snprintf 256 (dec t ++ 95 :: udec ip ++ 95 :: dec0 4 idx) = udec t ++ 95 :: udec ip ++ 95 :: dec0 4 idx).
  { intros t0 ip0 i0 H1 H2 H3. rewrite dec_nonneg by lia. unfold snprintf. apply take_ge.
    pose proof (length_udec t0 17 ltac:(exact H1)) as L1.
    pose proof (length_udec ip0 9 ltac:(split; [lia|]; eapply Z.lt_le_trans; [apply H2|done])) as L2.
    pose proof (length_udec i0 4 ltac:(exact H3)) as L3.
    rewrite length_app. simpl. rewrite length_app. simpl.
    unfold dec0. rewrite length_app, length_replicate. lia. }
  intros H1 H2 H3 H4 H5 H6 He. unfold pic_name in He. rewrite !Hshort in He by done.
  assert (HB : forall t ip idx, Bytes (udec t ++ 95 :: udec ip ++ 95 :: dec0 4 idx)).
  { intros t0 ip0 i0. apply Forall_app. split; [apply digits_no_sep, udec_digits|].
    apply Forall_cons. split; [done|]. apply Forall_app. split; [apply digits_no_sep, udec_digits|].
    apply Forall_cons. split; [done|]. apply digits_no_sep, dec0_digits. }
  apply (f_equal Base64.b64_decode) in He. rewrite !Base64.decode_encode in He by apply HB.
  destruct (digits_no_sep (udec t) (udec_digits t)), (digits_no_sep (udec t') (udec_digits t')).
  destruct (digits_no_sep (udec ip) (udec_digits ip)), (digits_no_sep (udec ip') (udec_digits ip')).
  apply split_at_sep in He as [Ht He]; [|done..]. apply split_at_sep in He as [Hi He]; [|done..].
  apply udec_inj in Ht; [|lia..]. apply udec_inj in Hi; [|lia..]. split_and!; try done.
  pose proof (scan_dec_dec0 4 idx [] ltac:(lia) ltac:(done)) as S1.
  pose proof (scan_dec_dec0 4 idx' [] ltac:(lia) ltac:(done)) as S2.
  rewrite He in S1. congruence.
Qed.

Lemma dec_no_slash n : 47 ∉ dec n.
Proof.
  assert (H0 : forall m, 47 ∉ udec m).
  { intros m Hin. pose proof (udec_digits m) as Hd. rewrite Forall_forall in Hd. apply Hd in Hin.
    unfold is_dec_digit in Hin. lia. }
  unfold dec. destruct (n <? 0); [|apply H0]. rewrite not_elem_of_cons. split; [lia|apply H0].
Qed.

(** What [get_local_filename] returns for a name that was not truncated. *)
Lemma get_local_filename_spec h b b' h' :
  get_local_filename h b = Some (b', h') -> type b = TASK_ADDFILE -> zlen (filename b') < 255 ->
  exists d ext, filename b' = dir_path d (pic_name (now h) self_ip (pic_index (user h)) ++ ext) /\
    (ext = [] \/ exists x, ext = 46 :: x) /\ pic_index (user h') = (let i := u32 (pic_index (user h) + 1) in
      if 99999 <=? i then 0 else i).
Proof.
  unfold get_local_filename. intros He Ht Hl. rewrite Ht in He. simpl in He.
  destruct (256 <=? _); [done|].
  set (h1 := set_user h _) in He. apply bind_Some in He as ([d h2] & E2 & He). simplify_eq.
  set (ext := match strchr (filename b) 46 with Some i => drop i (filename b) | None => [] end) in *.
  exists d, ext. split.
  - cbn [filename set_filename] in *. unfold snprintf in *. rewrite length_take in Hl. apply take_ge. lia.
  - split.
    + unfold ext. destruct (strchr (filename b) 46) as [i|] eqn:Es; [right|by left].
      apply strchr_Some in Es as [Es _]. rewrite (drop_S _ _ _ Es). by eexists.
    + assert (Hp : pic_index (user h2) = u32 (pic_index (user h) + 1)).
      { unfold free_dir in E2. apply bind_Some in E2 as ([x|[x ds]] & _ & E2); by simplify_eq. }
      simpl. by rewrite Hp.
Qed.

Lemma ext_split a b x y :
  46 ∉ a -> 46 ∉ b -> (x = [] \/ exists x', x = 46 :: x') -> (y = [] \/ exists y', y = 46 :: y') ->
  a ++ x = b ++ y -> a = b.
Proof.
  intros Ha Hb [->|[x' ->]] [->|[y' ->]] He.
  - by rewrite !app_nil_r in He.
  - rewrite app_nil_r in He. subst a. destruct Ha. apply elem_of_app. right. constructor.
  - rewrite app_nil_r in He. subst b. destruct Hb. apply elem_of_app. right. constructor.
  - by apply split_at_sep in He as [? _].
Qed.

End Service.

(** Small surroundings for the witnesses. *)
Definition demo_around : Surroundings :=
  mk_surroundings [0] [0] (replicate 10 7) 77 None (Some 1) 0 (fun _ => true) (fun _ d => zlen d) (str "Success")
    (fun _ => str "20140101000000") 16820416 (str "img1").

End Transfer.
