(* ===== verification/NameServer.v ===== *)
(** * The name server (network/N)

    Storage servers keep a signalling connection to the name server and report
    their load; clients ask it which storage server to upload to, modify or
    delete on.  The state is the set of connected peers, indexed by address,
    the best domain of each group, three configuration tables and the domain
    table of pfs_init.c. *)

From S2P Require Import Prelude.
From S2P Require Import CString.
From S2P Require Import Protocol.
From S2P Require Import Codec.
From S2P Require Import MyBuff.
From S2P Require Import EventLoop.
From S2P Require Import SigStream.
From S2P Require Import Domain.
From S2P Require Import Storage.

Module NameServer.
Import Conn Loop Sig Domain.

(** ** Data (N/pfs_sig.h) *)

(** [pfs_fcs_peer]; its two list nodes are the memberships below. *)
Record peer := mk_peer {
  p_fd : Z;
  p_hbtime : Z;
  p_ip : Z;
  p_taskcount : Z;
  p_load : Z;
  p_diskfree : Z;
  p_server_stat : Z;
  p_close : bool
}.

Record ns := mk_ns {
  dst : Domain.state;
  peers : gmap Z peer;                (* acon[fd].user *)
  active : list Z;                    (* activelist *)
  online : gmap Z (list Z);           (* online_list *)
  best : list (bytes * t_pfs_domain); (* group_array, bestdomain *)
  changes : gmap Z (list (bytes * bytes));   (* domain_change_list *)
  selects : gmap Z (list (bytes * Z));       (* storage_select_list *)
  proxies : list (Z * bytes);         (* proxy_ip, proxy_sip *)
  last : Z;
  self_stat : Z;
  stop : bool
}.

(** The settings of [g_config] the server reads, whether the configuration
    lock can be taken, and whether [malloc] succeeds for a new peer. *)
Class Settings := mk_settings {
  policy : Z;
  timeout : Z;
  up_port : Z;
  cfg_lock : bool;
  alloc : Z -> bool
}.

Definition MAX_GROUP : Z := 64.
Definition ALLMASK : Z := 0xFF.
Definition ADD_SET_GROUP : Z := 0.
Definition ADD_QUERY_DIR : Z := 5.
Definition HEARTBEAT_REQ : Z := 0x01.
Definition HEARTBEAT_RSP : Z := 0x02.
Definition UPLOAD_REQ : Z := 0x03.
Definition UPLOAD_RSP : Z := 0x04.
Definition LOADINFO_REQ : Z := 0x05.
Definition MODI_DEL_REQ : Z := 0x07.
Definition MODI_DEL_RSP : Z := 0x08.
Definition RET_CLOSE_MALLOC : Z := 303.

Definition with_dst (u : ns) (d : Domain.state) : ns :=
  mk_ns d (peers u) (active u) (online u) (best u) (changes u) (selects u) (proxies u)
        (last u) (self_stat u) (stop u).
Definition with_conns (u : ns) (p : gmap Z peer) (a : list Z) (o : gmap Z (list Z)) : ns :=
  mk_ns (dst u) p a o (best u) (changes u) (selects u) (proxies u) (last u) (self_stat u) (stop u).
Definition with_best (u : ns) (b : list (bytes * t_pfs_domain)) : ns :=
  mk_ns (dst u) (peers u) (active u) (online u) b (changes u) (selects u) (proxies u)
        (last u) (self_stat u) (stop u).
Definition with_last (u : ns) (t : Z) : ns :=
  mk_ns (dst u) (peers u) (active u) (online u) (best u) (changes u) (selects u) (proxies u)
        t (self_stat u) (stop u).
Definition with_stop (u : ns) : ns :=
  mk_ns (dst u) (peers u) (active u) (online u) (best u) (changes u) (selects u) (proxies u)
        (last u) (self_stat u) true.
Definition with_changes (u : ns) (c : gmap Z (list (bytes * bytes))) : ns :=
  mk_ns (dst u) (peers u) (active u) (online u) (best u) c (selects u) (proxies u)
        (last u) (self_stat u) (stop u).
Definition with_selects (u : ns) (c : gmap Z (list (bytes * Z))) : ns :=
  mk_ns (dst u) (peers u) (active u) (online u) (best u) (changes u) c (proxies u)
        (last u) (self_stat u) (stop u).
Definition with_proxies (u : ns) (l : list (Z * bytes)) : ns :=
  mk_ns (dst u) (peers u) (active u) (online u) (best u) (changes u) (selects u) l
        (last u) (self_stat u) (stop u).

Definition online_bucket (u : ns) (k : Z) : list Z := default [] (online u !! k).

(** ** pfs_sig_base.c *)

(** [find_ip_stat]: the descriptor of the first peer with that address.  A
    listed descriptor without a peer would be a dangling pointer; the
    invariant [safe] below excludes it. *)
Definition find_ip_stat (u : ns) (ip : Z) : option Z :=
  find_first (fun fd => match peers u !! fd with Some p => p_ip p =? ip | None => false end)
             (online_bucket u (Z.land ALLMASK ip)).

Definition pfs_max (a b : Z) : Z := if a <? b then b else a.
Definition pfs_min (a b : Z) : Z := if b <? a then b else a.

(** The loop of [check_more_half_online] over the servers of a domain. *)
Fixpoint half_loop (u : ns) (l : list slot) (d : t_pfs_domain) (cnt : Z) : t_pfs_domain * Z :=
  match l with
  | [] => (d, cnt)
  | s :: t =>
      match find_ip_stat u (s_ip s) ≫= fun fd => peers u !! fd with
      | None => half_loop u t d cnt
      | Some p =>
          half_loop u t
            (mk_domain (domain d) (slots d) (pfs_max (diskfree d) (p_diskfree p))
               (pfs_min (taskcount d) (p_taskcount p)) (pfs_min (load d) (p_load p)) (index d))
            (cnt + 1)
      end
  end.

Definition check_more_half_online (u : ns) (d : t_pfs_domain) : Z * t_pfs_domain :=
  let '(d', cnt) := half_loop u (slots d) d 0 in
  (if ipcount d' <=? cnt * 2 then 0 else -1, d').

Section Ops.
Context {CF : Settings}.

Definition sortdomain (s1 s2 : t_pfs_domain) : bool :=
  if policy =? Config.POLICY_LOAD then load s2 <? load s1
  else if policy =? Config.POLICY_TASKCOUNT then taskcount s2 <? taskcount s1
  else diskfree s1 <? diskfree s2.

(** The domains of a group, updated in place, and the one to prefer. *)
Fixpoint best_loop (u : ns) (l : list Z) (ddomain : option Z) : ns * option Z :=
  match l with
  | [] => (u, ddomain)
  | a :: t =>
      match domains (dst u) !! a with
      | None => best_loop u t ddomain
      | Some d0 =>
          let '(rc, d) := check_more_half_online u d0 in
          let u := with_dst u (with_domain (dst u) a d) in
          if negb (rc =? 0) then best_loop u t ddomain
          else
            match ddomain ≫= fun b => domains (dst u) !! b with
            | None => best_loop u t (Some a)
            | Some db => best_loop u t (if sortdomain db d then Some a else ddomain)
            end
      end
  end.

(** The entry of the group in the table of best domains, or the first free
    one; a full table is left as it is. *)
Fixpoint set_best (l : list (bytes * t_pfs_domain)) (g : bytes) (d : t_pfs_domain) :=
  match l with
  | [] => []
  | (n, d0) :: t =>
      if zlen n =? 0 then (snprintf 128 g, d) :: t
      else if streq g n then (n, d) :: t
      else (n, d0) :: set_best t g d
  end.

Definition update_group_domain (u : ns) (g : t_pfs_group) : Z * ns :=
  let '(u, ddomain) := best_loop u (g_dlist g) None in
  match ddomain ≫= fun b => domains (dst u) !! b with
  | Some d => (0, with_best u (set_best (best u) (group g) d))
  | None => (-1, u)
  end.

Fixpoint update_groups (u : ns) (l : list t_pfs_group) (err : bool) : ns * bool :=
  match l with
  | [] => (u, err)
  | g :: t => let '(rc, u) := update_group_domain u g in
              update_groups u t (err || negb (rc =? 0))
  end.

Definition update_sort_policy (u : ns) (now : Z) : ns :=
  if now - last u <? 600 then u
  else if negb cfg_lock then with_stop u
  else
    let '(u, err) := update_groups (with_last u now) (grouplist (dst u)) false in
    if err : bool then with_last u 0 else u.

Fixpoint get_domain_by_group (l : list (bytes * t_pfs_domain)) (g : bytes) : option nat :=
  match l with
  | [] => None
  | (n, _) :: t => if zlen n =? 0 then None else if streq g n then Some O
                   else S <$> get_domain_by_group t g
  end.

Definition name_hash (s : bytes) : Z := Z.land (Misc.r5hash s) 0x0F.

Definition get_newname_by_oldname (u : ns) (oldname : bytes) : option bytes :=
  snd <$> find_first (fun c => streq (fst c) oldname)
                     (default [] (changes u !! name_hash oldname)).

Definition add_name_change (mem : bool) (u : ns) (oldname newname : bytes) : Z * ns :=
  match get_newname_by_oldname u oldname with
  | Some n2 => (if streq n2 newname then 0 else -1, u)
  | None =>
      if negb mem then (-1, u)
      else
        let k := name_hash oldname in
        (0, with_changes u (<[k := (snprintf 64 oldname, snprintf 64 newname)
                                     :: default [] (changes u !! k)]> (changes u)))
  end.

(** A configuration line without its line feed, cut at the first colon. *)
Definition split_line (buf : bytes) : option (bytes * bytes) :=
  let buf := match strrchr buf 10 with Some i => take i buf | None => buf end in
  i ← strchr buf 58; Some (take i buf, drop (S i) buf).

(** [do_init_name_change]: the lines of the file, [None] if it cannot be opened. *)
Fixpoint name_change_lines (mem : bool) (u : ns) (lines : list bytes) : Z * ns :=
  match lines with
  | [] => (0, u)
  | buf :: t =>
      match split_line buf with
      | None => (-1, u)
      | Some (o, n) =>
          let '(rc, u1) := add_name_change mem u o n in
          if negb (rc =? 0) then (-1, u1) else name_change_lines mem u1 t
      end
  end.

Definition do_init_name_change (mem : bool) (u : ns) (file : option (list bytes)) : Z * ns :=
  match file with
  | None => (-1, u)
  | Some lines => name_change_lines mem u lines
  end.

Definition get_type_by_name (u : ns) (oldname : bytes) : Z :=
  default (-1) (snd <$> find_first (fun c => streq (fst c) oldname)
                          (default [] (selects u !! name_hash oldname))).

Definition add_storage_select (mem : bool) (u : ns) (oldname : bytes) (type : Z) : Z * ns :=
  let type1 := get_type_by_name u oldname in
  if 0 <=? type1 then (if type1 =? type then 0 else -1, u)
  else if negb mem then (-1, u)
  else
    let k := name_hash oldname in
    (0, with_selects u (<[k := (snprintf 64 oldname, type) :: default [] (selects u !! k)]>
                           (selects u))).

Fixpoint storage_select_lines (mem : bool) (u : ns) (lines : list bytes) : Z * ns :=
  match lines with
  | [] => (0, u)
  | buf :: t =>
      match split_line buf with
      | None => (-1, u)
      | Some (o, n) =>
          let '(rc, u1) := add_storage_select mem u o (atoi n) in
          if negb (rc =? 0) then (-1, u1) else storage_select_lines mem u1 t
      end
  end.

Definition do_init_storage_select (mem : bool) (u : ns) (file : option (list bytes)) : Z * ns :=
  match file with
  | None => (-1, u)
  | Some lines => storage_select_lines mem u lines
  end.

(** [do_init_proxy]: the arrays have 16 entries and the index is not checked;
    the 17th line is a store past the end, [None]. *)
Fixpoint proxy_lines (idx : nat) (l : list (Z * bytes)) (lines : list bytes)
  : option (list (Z * bytes)) :=
  match lines with
  | [] => Some l
  | buf :: t =>
      let buf := match strrchr buf 10 with Some i => take i buf | None => buf end in
      if (idx <? length l)%nat
      then proxy_lines (S idx) (<[idx := (Ip.str2ip buf, snprintf 16 buf)]> l) t
      else None
  end.

Definition do_init_proxy (u : ns) (file : option (list bytes)) : option (Z * ns) :=
  match file with
  | None => Some (-1, u)
  | Some lines =>
      l ← proxy_lines 0 (map (fun x => (fst x, [])) (proxies u)) lines;
      Some (0, with_proxies u l)
  end.

(** ** pfs_sig_sub.c *)

Definition ip_online (u : ns) (ip : Z) : bool :=
  match find_ip_stat u ip with Some _ => true | None => false end.

(** The search of [get_valid_ip_4_up] for the first server on line: where the
    loop stopped and the address it copied. *)
Fixpoint first_online (u : ns) (l : list slot) (j : Z) : Z * bytes :=
  match l with
  | [] => (j, [])
  | s :: t => if ip_online u (s_ip s) then (j, snprintf 16 (s_sip s)) else first_online u t (j + 1)
  end.

(** [get_valid_ip_4_up]: the return code, the address and the domain with its
    rotation index moved. *)
Definition get_valid_ip_4_up (u : ns) (d : t_pfs_domain) : Z * bytes * t_pfs_domain :=
  let i := if ipcount d <=? index d then 0 else index d in
  let type := get_type_by_name u (domain d) in
  let i := if type =? 1 then 0 else i in
  let '(j, sip) := first_online u (slots d) 0 in
  let sip :=
    if negb (type =? 1) && negb (j =? i) then
      match slots d !! Z.to_nat i with
      | Some s => if ip_online u (s_ip s) then snprintf 16 (s_sip s) else sip
      | None => sip
      end
    else sip in
  (if zlen sip =? 0 then -1 else 0, sip, set_index d (if type =? 1 then i else i + 1)).

Definition no_storage : bytes := str "N not found valid storage!".
Definition endpoint (sip : bytes) : bytes := sip ++ 58 :: dec up_port.

(** The copy [get_domain] makes for the name, or for its new name. *)
Definition find_domain (u : ns) (name : bytes) : option t_pfs_domain * ns :=
  let try (n : bytes) : option (t_pfs_domain * ns) :=
    match Domain.get_domain (dst u) n with
    | Some (rc, Some d, st) => if rc =? 0 then Some (d, with_dst u st) else None
    | _ => None
    end in
  match try name with
  | Some (d, u1) => (Some d, u1)
  | None =>
      match get_newname_by_oldname u name ≫= try with
      | Some (d, u1) => (Some d, u1)
      | None => (None, u)
      end
  end.

(** The answer for a domain: an address of it that is on line. *)
Definition answer (u : ns) (d : t_pfs_domain) : bytes * t_pfs_domain :=
  let '(rc, sip, d1) := get_valid_ip_4_up u d in
  (if negb (rc =? 0) then no_storage else endpoint sip, d1).

(** The answer from entry [k] of the table of best domains, whose index moves. *)
Definition answer_best (u : ns) (k : nat) : bytes * ns :=
  match best u !! k with
  | Some (n, d) =>
      let '(r, d1) := answer u d in (r, with_best u (<[k := (n, d1)]> (best u)))
  | None => ([], u)
  end.

(** [get_dstip_group(buf, group, type)]: what it prints. *)
Definition get_dstip_group (u : ns) (g : bytes) (type : Z) : bytes * ns :=
  if zlen g =? 0 then answer_best u 0
  else if type =? ADD_SET_GROUP then
    match get_domain_by_group (best u) g with
    | Some k => answer_best u k
    | None => (str "ERROR group name " ++ g, u)
    end
  else
    match find_domain u g with
    | (Some d, u1) => (fst (answer u1 d), u1)
    | (None, u1) => (str "ERROR group name " ++ g, u1)
    end.

(** [get_dstip_group_modi_del(buf, domain)]. *)
Definition get_dstip_group_modi_del (u : ns) (name : bytes) : bytes * ns :=
  if zlen name =? 0 then (str "domain is NULL", u)
  else
    match find_domain u name with
    | (Some d, u1) => (fst (answer u1 d), u1)
    | (None, u1) => (str "domain '" ++ name ++ str "' not found", u1)
    end.

Section Handlers.
Context {E : Env}.
Implicit Types h : host ns.

Definition peer_of h (fd : Z) : peer := default (mk_peer 0 0 0 0 0 0 0 false) (peers (user h) !! fd).

Definition put_peer h (fd : Z) (p : peer) : host ns :=
  set_user h (with_conns (user h) (<[fd := p]> (peers (user h))) (active (user h)) (online (user h))).

Definition touch h (p : peer) : peer :=
  mk_peer (p_fd p) (u32 (now h)) (p_ip p) (p_taskcount p) (p_load p) (p_diskfree p)
          (p_server_stat p) (p_close p).
Definition close_after (p : peer) : peer :=
  mk_peer (p_fd p) (p_hbtime p) (p_ip p) (p_taskcount p) (p_load p) (p_diskfree p)
          (p_server_stat p) true.

(** A reply put in the send buffer; [obuf] has 2048 bytes, which bounds the
    replies the code can build. *)
Definition reply h (fd cmd st : Z) (body : bytes) : host ns :=
  set_client_data h fd (create_sig_msg cmd st body (u16 (zlen body))).

(** The scan of the proxy table: up to its first zero address. *)
Fixpoint find_proxy (l : list (Z * bytes)) (ip : Z) : option bytes :=
  match l with
  | [] => None
  | (a, s) :: t => if a =? 0 then None else if a =? ip then Some s else find_proxy t ip
  end.

Definition check_proxy_ip h (fd ip cmdid status : Z) : Z * host ns :=
  match find_proxy (take 16 (proxies (user h))) ip with
  | Some sip =>
      let cmd := if cmdid =? UPLOAD_REQ then UPLOAD_RSP else MODI_DEL_RSP in
      (-1, modify_fd_event (reply h fd cmd status (endpoint sip)) fd EPOLLOUT)
  | None => (0, h)
  end.

(** A query answered, the peer marked to be closed once the answer is sent. *)
Definition answer_query h (fd cmd st : Z) (r : bytes * ns) : host ns :=
  let h := set_user h (snd r) in
  let h := modify_fd_event (reply h fd cmd st (fst r)) fd EPOLLOUT in
  put_peer h fd (close_after (peer_of h fd)).

Definition word_at (b : bytes) (off : nat) : Z := le_combine (take 4 (drop off b)).

(** [do_req]. *)
Definition do_req h (fd : Z) (hd : t_pfs_sig_head) (b : t_pfs_sig_body) : Z * host ns :=
  let '(rc, h) := check_proxy_ip h fd (p_ip (peer_of h fd)) (cmdid hd) (status hd) in
  if negb (rc =? 0) then (RECV_SEND, put_peer h fd (close_after (peer_of h fd)))
  else
    let h := put_peer h fd (touch h (peer_of h fd)) in
    if cmdid hd =? HEARTBEAT_REQ then
      let h := reply h fd HEARTBEAT_RSP (status hd) [self_stat (user h)] in
      let p := peer_of h fd in
      (RECV_SEND,
       if negb (bodylen hd =? 1) then h
       else put_peer h fd (mk_peer (p_fd p) (p_hbtime p) (p_ip p) (p_taskcount p) (p_load p)
                             (p_diskfree p) (u8 (at_ b 0)) (p_close p)))
    else if cmdid hd =? UPLOAD_REQ then
      (RECV_SEND, answer_query h fd UPLOAD_RSP (status hd)
                    (get_dstip_group (user h) (until0 b) (status hd)))
    else if cmdid hd =? MODI_DEL_REQ then
      (RECV_SEND, answer_query h fd MODI_DEL_RSP (status hd)
                    (if status hd =? ADD_QUERY_DIR
                     then get_dstip_group (user h) (until0 b) ADD_SET_GROUP
                     else get_dstip_group_modi_del (user h) (until0 b)))
    else if cmdid hd =? LOADINFO_REQ then
      let p := peer_of h fd in
      (RECV_ADD_EPOLLIN,
       if negb (bodylen hd =? 12) then h
       else put_peer h fd (mk_peer (p_fd p) (p_hbtime p) (p_ip p) (word_at b 0) (word_at b 4)
                             (word_at b 8) (p_server_stat p) (p_close p)))
    else (RECV_ADD_EPOLLIN, h).

(** ** pfs_sig.c *)

Definition list_del (fd : Z) (l : list Z) : list Z := filter (fun x => x <> fd) l.

(** [svc_initconn]; the peer joins the tail of the active list and the head of
    its address's bucket. *)
Definition svc_initconn h (fd ip : Z) : Z * host ns :=
  let u := user h in
  match peers u !! fd with
  | None => if negb (alloc fd) then (RET_CLOSE_MALLOC, h)
            else
              let p := mk_peer fd (u32 (now h)) ip 0 0 0 0 false in
              let k := Z.land ip ALLMASK in
              (0, set_user h (with_conns u (<[fd := p]> (peers u)) (active u ++ [fd])
                                (<[k := fd :: online_bucket u k]> (online u))))
  | Some _ =>
      let p := mk_peer fd (u32 (now h)) ip 0 0 0 0 false in
      let k := Z.land ip ALLMASK in
      (0, set_user h (with_conns u (<[fd := p]> (peers u)) (active u ++ [fd])
                        (<[k := fd :: online_bucket u k]> (online u))))
  end.

(** The peer is heard of: its time is noted and it moves to the tail of the
    active list. *)
Definition refresh h (fd : Z) : host ns :=
  let u := user h in
  set_user h (with_conns u (<[fd := touch h (peer_of h fd)]> (peers u))
                (list_del fd (active u) ++ [fd]) (online u)).

Definition svc_recv h (fd : Z) : Z * host ns :=
  default (RECV_ADD_EPOLLIN, h) (SigStream.drain do_req (refresh h fd) fd).

Definition svc_send h (fd : Z) : Z * host ns :=
  if p_close (peer_of h fd) then (SEND_CLOSE, h) else (SEND_ADD_EPOLLIN, refresh h fd).

Definition svc_finiconn h (fd : Z) : host ns :=
  let u := user h in
  match peers u !! fd with
  | None => h
  | Some p =>
      let k := Z.land (p_ip p) ALLMASK in
      set_user h (with_conns u (delete fd (peers u)) (list_del fd (active u))
                    (<[k := list_del fd (online_bucket u k)]> (online u)))
  end.

(** [svc_timeout]: the silent peers are closed, then the best domains are
    computed again. *)
Fixpoint timeout_loop h (l : list Z) : host ns :=
  match l with
  | [] => h
  | fd :: t =>
      let idle := now h - p_hbtime (peer_of h fd) in
      if idle <? timeout then timeout_loop h t
      else if timeout * 10 <? idle
           then timeout_loop (do_close (Some svc_finiconn) h (p_fd (peer_of h fd))) t
           else timeout_loop h t
  end.

Definition svc_timeout h : host ns :=
  let h := timeout_loop h (active (user h)) in
  set_user h (update_sort_policy (user h) (now h)).

#[export] Instance ns_service : Service ns :=
  mk_service ns _ svc_initconn svc_recv svc_send None None (Some svc_finiconn) (Some svc_timeout).

(** ** The invariant *)

(** The peers are those of the open connections, each once in the active list
    and once in the bucket of its address, and nothing else is listed. *)
Record safe (u : ns) (O : gset Z) : Prop := mk_safe {
  safe_dom : dom (peers u) = O;
  safe_active_nodup : NoDup (active u);
  safe_active fd : fd ∈ active u <-> fd ∈ O;
  safe_bucket_nodup k : NoDup (online_bucket u k);
  safe_bucket k fd : fd ∈ online_bucket u k <->
    exists p, peers u !! fd = Some p /\ Z.land (p_ip p) ALLMASK = k;
  safe_fd fd p : peers u !! fd = Some p -> p_fd p = fd
}.

(** What a step of a handler on connection [fd] leaves alone: the table, the
    connection's input and the invariant. *)
Record gentle (fd : Z) h h' : Prop := mk_gentle {
  g_frame : frame h h';
  g_wf : wf_conn h fd -> wf_conn h' fd;
  g_inq : inq h' fd = inq h fd;
  g_safe O : safe (user h) O -> fd ∈ O -> safe (user h') O
}.

#[export] Instance gentle_pre fd : PreOrder (gentle fd).
Proof.
  split; [by intros h|]. intros h1 h2 h3 [A B C D] [A' B' C' D'].
  split; [by etransitivity|by auto|congruence|by auto].
Qed.

Lemma gentle_user fd h u :
  peers u = peers (user h) -> active u = active (user h) -> online u = online (user h) ->
  gentle fd h (set_user h u).
Proof.
  intros E1 E2 E3. split; [done..|]. intros O [A B C D F G] _.
  split; unfold online_bucket in *; simpl; rewrite ?E1, ?E2, ?E3; done.
Qed.

Lemma gentle_put_peer fd h p :
  p_ip p = p_ip (peer_of h fd) -> p_fd p = p_fd (peer_of h fd) -> gentle fd h (put_peer h fd p).
Proof.
  intros Hip Hfd. split; [done..|]. intros O [A B C D F G] Hin.
  assert (is_Some (peers (user h) !! fd)) as [p0 Hp0] by (apply elem_of_dom; by rewrite A).
  unfold peer_of in *. rewrite Hp0 in *. simpl in *.
  split; simpl; [|done|done|done| |].
  - rewrite dom_insert_L, A. set_solver.
  - intros k x. change (online_bucket _ k) with (online_bucket (user h) k). rewrite F.
    destruct (decide (x = fd)) as [->|Hn]; [rewrite lookup_insert_eq|by rewrite lookup_insert_ne].
    split; intros (q & Hq & Hk); simplify_eq; eexists; split; try done; congruence.
  - intros x q. destruct (decide (x = fd)) as [->|Hn];
      [rewrite lookup_insert_eq|rewrite lookup_insert_ne by done; apply G].
    intros; simplify_eq. rewrite Hfd. by apply G.
Qed.

Lemma gentle_reply fd h cmd st body : gentle fd h (reply h fd cmd st body).
Proof.
  unfold reply. split; [apply frame_put| | |done].
  - unfold wf_conn, set_client_data. rewrite conn_set, decide_True by done. simpl.
    intros [A B]. split; [by apply put_spec|done].
  - unfold inq, set_client_data. by rewrite conn_set, decide_True.
Qed.

Lemma gentle_modify fd h ev : gentle fd h (modify_fd_event h fd ev).
Proof.
  assert (Hc : conn_of (modify_fd_event h fd ev) fd = conn_of h fd)
    by (unfold modify_fd_event, epoll_mod; by case_match).
  split; [apply frame_modify|unfold wf_conn; by rewrite Hc|unfold inq; by rewrite Hc|].
  intros O. unfold modify_fd_event, epoll_mod. by case_match.
Qed.

Definition same_conns (u u' : ns) : Prop :=
  peers u' = peers u /\ active u' = active u /\ online u' = online u.

Lemma find_domain_conns u n : same_conns u (snd (find_domain u n)).
Proof.
  unfold find_domain. repeat (case_match; simplify_eq/=; try done).
  all: repeat match goal with H : (_ ≫= _) = Some _ |- _ =>
    apply bind_Some in H as (? & ? & ?) end; repeat (case_match; simplify_eq/=; try done).
Qed.

Lemma answer_best_conns u k : same_conns u (snd (answer_best u k)).
Proof. unfold answer_best. destruct (best u !! k) as [[n d]|]; [|done]. by destruct (answer u d). Qed.

Lemma get_dstip_group_conns u g t : same_conns u (snd (get_dstip_group u g t)).
Proof.
  unfold get_dstip_group. destruct (_ =? 0); [apply answer_best_conns|].
  destruct (t =? ADD_SET_GROUP).
  - case_match; [apply answer_best_conns|done].
  - pose proof (find_domain_conns u g). destruct (find_domain u g) as [[d|] u1]; done.
Qed.

Lemma get_dstip_group_modi_del_conns u n : same_conns u (snd (get_dstip_group_modi_del u n)).
Proof.
  unfold get_dstip_group_modi_del. destruct (_ =? 0); [done|].
  pose proof (find_domain_conns u n). destruct (find_domain u n) as [[d|] u1]; done.
Qed.

Lemma gentle_answer_query fd h cmd st r :
  same_conns (user h) (snd r) -> gentle fd h (answer_query h fd cmd st r).
Proof.
  intros (A & B & C). unfold answer_query.
  etransitivity; [apply (gentle_user fd h (snd r) A B C)|].
  etransitivity; [apply gentle_reply|]. etransitivity; [apply gentle_modify|].
  by apply gentle_put_peer.
Qed.

Lemma gentle_check_proxy fd h ip c st : gentle fd h (snd (check_proxy_ip h fd ip c st)).
Proof.
  unfold check_proxy_ip. case_match; [|done]. simpl.
  etransitivity; [apply gentle_reply|apply gentle_modify].
Qed.

Lemma gentle_do_req fd h hd b : gentle fd h (snd (do_req h fd hd b)).
Proof.
  unfold do_req. pose proof (gentle_check_proxy fd h (p_ip (peer_of h fd)) (cmdid hd) (status hd)) as Hp.
  destruct (check_proxy_ip _ _ _ _ _) as [rc h1]. cbn [snd] in Hp. etransitivity; [apply Hp|].
  destruct (negb (rc =? 0)); cbn [snd]; cbv zeta; [by apply gentle_put_peer|].
  etransitivity; [by apply (gentle_put_peer fd h1 (touch h1 (peer_of h1 fd)))|].
  generalize (put_peer h1 fd (touch h1 (peer_of h1 fd))). intros h2.
  destruct (cmdid hd =? HEARTBEAT_REQ); cbn [snd]; cbv zeta.
  { etransitivity; [apply gentle_reply|]. destruct (negb _); [done|by apply gentle_put_peer]. }
  destruct (cmdid hd =? UPLOAD_REQ); cbn [snd]; cbv zeta.
  { apply gentle_answer_query, get_dstip_group_conns. }
  destruct (cmdid hd =? MODI_DEL_REQ); cbn [snd]; cbv zeta.
  { apply gentle_answer_query. destruct (status hd =? ADD_QUERY_DIR);
      [apply get_dstip_group_conns|apply get_dstip_group_modi_del_conns]. }
  destruct (cmdid hd =? LOADINFO_REQ); cbn [snd]; cbv zeta; [|done].
  destruct (negb _); [done|by apply gentle_put_peer].
Qed.

Lemma do_req_codes h fd hd b :
  fst (do_req h fd hd b) = RECV_SEND \/ fst (do_req h fd hd b) = RECV_ADD_EPOLLIN.
Proof.
  unfold do_req. destruct (check_proxy_ip _ _ _ _ _) as [rc h1].
  destruct (negb (rc =? 0)); simpl; [by left|].
  repeat match goal with |- context [if ?c =? ?k then _ else _] => destruct (c =? k) end; auto.
Qed.

Lemma gentle_consume fd h n : 0 <= n -> wf_conn h fd ->
  frame h (consume_client_data h fd n) /\ wf_conn (consume_client_data h fd n) fd /\
  user (consume_client_data h fd n) = user h.
Proof.
  intros. split; [apply frame_consume|]. split; [|done]. by apply SigStream.consume_spec.
Qed.

Lemma keeps_input fd h hd b :
  wf_conn h fd -> wf_conn (snd (do_req h fd hd b)) fd /\
  inq (snd (do_req h fd hd b)) fd = inq h fd.
Proof. destruct (gentle_do_req fd h hd b) as [_ B C _]. auto. Qed.

Lemma never_stops fd h hd b :
  fst (do_req h fd hd b) <> -1 /\ fst (do_req h fd hd b) <> RECV_CLOSE.
Proof. destruct (do_req_codes h fd hd b) as [-> | ->]; done. Qed.

(** One round of the request loop, whatever is in the buffer. *)
Lemma check_req_keeps fd h O :
  safe (user h) O -> fd ∈ O ->
  frame h (snd (SigStream.check_req do_req h fd)) /\
  safe (user (snd (SigStream.check_req do_req h fd))) O.
Proof.
  intros Hs Hin. unfold SigStream.check_req.
  destruct (get_client_data h fd) as [rc d]. destruct (negb _); [done|].
  destruct (parse_sig_msg _ _ _) as [[ret hd] b]. destruct (0 <? ret); [done|].
  destruct (ret =? E_PACKET_ERR_CLOSE); [done|].
  destruct (gentle_do_req fd h hd b) as [A _ _ D].
  destruct (do_req h fd hd b) as [r h1]. simpl in *.
  split; [etransitivity; [apply A|apply frame_consume]|]. by apply D.
Qed.

Lemma req_loop_keeps fd O fuel : forall h ret r h',
  safe (user h) O -> fd ∈ O ->
  SigStream.req_loop do_req fuel h fd ret = Some (r, h') -> frame h h' /\ safe (user h') O.
Proof.
  induction fuel as [|fuel IH]; intros h ret r h' Hs Hin Hr; simpl in Hr; [done|].
  destruct (check_req_keeps fd h O Hs Hin) as [A B].
  destruct (SigStream.check_req do_req h fd) as [sr h1]. simpl in *.
  repeat case_match; simplify_eq; try done.
  destruct (IH _ _ _ _ B Hin Hr). split; [by etransitivity|done].
Qed.

Lemma elem_list_del x fd l : x ∈ list_del fd l <-> x ∈ l /\ x <> fd.
Proof. unfold list_del. rewrite list_elem_of_filter. tauto. Qed.

Lemma list_del_absent fd l : fd ∉ l -> list_del fd l = l.
Proof.
  unfold list_del. induction l as [|x l IH]; intros Hn; [done|].
  rewrite filter_cons_True by set_solver. f_equal. set_solver.
Qed.

Lemma refresh_keeps fd h O :
  safe (user h) O -> fd ∈ O -> frame h (refresh h fd) /\ safe (user (refresh h fd)) O.
Proof.
  intros Hs Hin. split; [done|].
  destruct (gentle_put_peer fd h (touch h (peer_of h fd)) eq_refl eq_refl) as [_ _ _ D].
  destruct (D O Hs Hin) as [A B C F G K]. destruct Hs as [_ B0 C0 _ _ _].
  split; try done; simpl.
  - apply NoDup_app. split; [by apply NoDup_filter|]. split; [|apply NoDup_singleton].
    intros x Hx. apply elem_list_del in Hx. set_solver.
  - intros x. rewrite elem_of_app, elem_list_del, list_elem_of_singleton, C0.
    destruct (decide (x = fd)); set_solver.
Qed.

Lemma initconn_keeps h fd ip rc h1 :
  safe (user h) (members h) -> fd ∉ members h -> svc_initconn h fd ip = (rc, h1) ->
  frame h h1 /\ safe (user h1) (if rc =? 0 then {[fd]} ∪ members h else members h).
Proof.
  intros [A B C D F G] Hm. unfold svc_initconn.
  assert (Hn : peers (user h) !! fd = None) by (apply not_elem_of_dom; by rewrite A).
  rewrite Hn. destruct (alloc fd); simpl; intros; simplify_eq; [|done].
  split; [done|]. simpl. set (k0 := Z.land ip ALLMASK).
  assert (Hb : forall k, online_bucket (with_conns (user h)
     (<[fd := mk_peer fd (u32 (now h)) ip 0 0 0 0 false]> (peers (user h))) (active (user h) ++ [fd])
     (<[k0 := fd :: online_bucket (user h) k0]> (online (user h)))) k
     = if decide (k = k0) then fd :: online_bucket (user h) k else online_bucket (user h) k).
  { intros k. unfold online_bucket at 1; simpl. case_decide; subst;
      [by rewrite lookup_insert_eq|by rewrite lookup_insert_ne]. }
  assert (Hnb : forall k, fd ∉ online_bucket (user h) k).
  { intros k Hx. apply F in Hx as (p & Hp & _). congruence. }
  split; simpl.
  - by rewrite dom_insert_L, A.
  - apply NoDup_app. split; [done|]. split; [|apply NoDup_singleton].
    intros x Hx. apply C in Hx. set_solver.
  - intros x. rewrite elem_of_app, list_elem_of_singleton, C. set_solver.
  - intros k. rewrite Hb. case_decide; [|done]. constructor; [apply Hnb|apply D].
  - intros k x. rewrite Hb. destruct (decide (x = fd)) as [->|Hx].
    + rewrite lookup_insert_eq. split.
      * intros Hx. eexists. split; [done|]. simpl. fold k0. case_decide; [done|].
        by apply Hnb in Hx.
      * intros (p & ? & <-). simplify_eq. simpl. fold k0. rewrite decide_True by done. set_solver.
    + rewrite lookup_insert_ne by done. rewrite <- F. case_decide; [|done]. set_solver.
  - intros x p. destruct (decide (x = fd)) as [->|Hx];
      [rewrite lookup_insert_eq; by intros; simplify_eq|rewrite lookup_insert_ne by done; apply G].
Qed.

Lemma finiconn_keeps h fd O :
  safe (user h) O -> fd ∈ O ->
  frame h (svc_finiconn h fd) /\ safe (user (svc_finiconn h fd)) (O ∖ {[fd]}).
Proof.
  intros [A B C D F G] Hin. unfold svc_finiconn.
  assert (is_Some (peers (user h) !! fd)) as [p0 Hp0] by (apply elem_of_dom; by rewrite A).
  rewrite Hp0. split; [done|]. set (k0 := Z.land (p_ip p0) ALLMASK). simpl.
  assert (Hb : forall k, online_bucket (with_conns (user h) (delete fd (peers (user h)))
     (list_del fd (active (user h)))
     (<[k0 := list_del fd (online_bucket (user h) k0)]> (online (user h)))) k
     = list_del fd (online_bucket (user h) k)).
  { intros k. unfold online_bucket at 1; simpl. destruct (decide (k = k0)) as [->|Hk].
    - by rewrite lookup_insert_eq.
    - rewrite lookup_insert_ne by done. change (default [] (online (user h) !! k)) with (online_bucket (user h) k).
      symmetry. apply list_del_absent. intros Hx.
      apply F in Hx as (p & Hp & <-). apply Hk. unfold k0. congruence. }
  split; simpl.
  - by rewrite dom_delete_L, A.
  - by apply NoDup_filter.
  - intros x. rewrite elem_list_del, C. set_solver.
  - intros k. rewrite Hb. by apply NoDup_filter.
  - intros k x. rewrite Hb, elem_list_del, F. destruct (decide (x = fd)) as [->|Hx].
    + rewrite lookup_delete_eq. naive_solver.
    + rewrite lookup_delete_ne by done. naive_solver.
  - intros x p Hp. apply lookup_delete_Some in Hp as [_ Hp]. by apply G.
Qed.

Lemma timeout_loop_ok l : forall h,
  consistent safe h -> NoDup l -> (forall fd, fd ∈ l -> fd ∈ members h) ->
  consistent safe (timeout_loop h l).
Proof.
  induction l as [|fd l IH]; intros h Hok Hnd Hl; simpl; [done|].
  apply NoDup_cons in Hnd as [Hn Hnd].
  assert (Hskip : consistent safe (timeout_loop h l)) by (apply IH; [done..|set_solver]).
  destruct (_ <? timeout); [done|]. destruct (timeout * 10 <? _); [|done].
  assert (Hm : fd ∈ members h) by set_solver.
  destruct Hok as [Hs A]. assert (Hfd : p_fd (peer_of h fd) = fd).
  { unfold peer_of. destruct (peers (user h) !! fd) as [p|] eqn:Ep; [by eapply safe_fd|].
    apply not_elem_of_dom in Ep. by rewrite (safe_dom _ _ Hs) in Ep. }
  rewrite Hfd.
  destruct (do_close_member safe (Some svc_finiconn) h fd) as (B & _ & C);
    [done|done|by apply finiconn_keeps|].
  apply IH; [done..|]. intros x Hx. rewrite C. set_solver.
Qed.

Lemma update_conns u : forall l ddomain, same_conns u (fst (best_loop u l ddomain)).
Proof.
  intros l. revert u. induction l as [|a l IH]; intros u dd; simpl; [done|].
  destruct (domains (dst u) !! a) as [d0|]; [|apply IH].
  destruct (check_more_half_online u d0) as [rc d].
  pose proof (IH (with_dst u (with_domain (dst u) a d))) as IH'.
  destruct (negb _); [apply IH'|]. case_match; apply IH'.
Qed.

Lemma update_groups_conns l : forall u err, same_conns u (fst (update_groups u l err)).
Proof.
  induction l as [|g l IH]; intros u err; simpl; [done|].
  unfold update_group_domain. pose proof (update_conns u (g_dlist g) None) as (A & B & C).
  destruct (best_loop u (g_dlist g) None) as [u1 dd]. simpl in *.
  destruct (dd ≫= _) as [d|]; simpl.
  - destruct (IH (with_best u1 (set_best (best u1) (group g) d)) (err || false)) as (A' & B' & C').
    split_and!; simpl in *; congruence.
  - destruct (IH u1 (err || true)) as (A' & B' & C'). split_and!; congruence.
Qed.

Lemma update_sort_conns u t : same_conns u (update_sort_policy u t).
Proof.
  unfold update_sort_policy. destruct (_ <? 600); [done|]. destruct (negb cfg_lock); [done|].
  pose proof (update_groups_conns (grouplist (dst u)) (with_last u t) false) as (A & B & C).
  destruct (update_groups _ _ _) as [u1 err]. simpl in *. by destruct err.
Qed.

Lemma svc_timeout_ok h : consistent safe h -> consistent safe (svc_timeout h).
Proof.
  intros Hok. unfold svc_timeout.
  assert (consistent safe (timeout_loop h (active (user h)))) as [Hs A].
  { apply timeout_loop_ok; [done|apply Hok|]. intros fd. apply (safe_active _ _ (proj1 Hok)). }
  set (h1 := timeout_loop _ _) in *. clearbody h1. split; [|done]. simpl.
  destruct (update_sort_conns (user h1) (now h1)) as (E1 & E2 & E3).
  destruct Hs as [S1 S2 S3 S4 S5 S6]. change (members (set_user h1 _)) with (members h1).
  split; unfold online_bucket in *; rewrite ?E1, ?E2, ?E3; done.
Qed.

#[export] Instance ns_safe : ServiceSafe ns.
Proof.
  refine {| Loop.safe := safe |}; simpl.
  - apply initconn_keeps.
  - intros h fd Hs Hin. unfold svc_recv, SigStream.drain.
    destruct (refresh_keeps fd h _ Hs Hin) as [A B].
    destruct (SigStream.req_loop _ _ _ _ _) as [[r h1]|] eqn:Er; simpl; [|done].
    eapply req_loop_keeps in Er as [C D]; [|done..]. split; [by etransitivity|done].
  - intros h fd Hs Hin. unfold svc_send. destruct (p_close _); [done|]. by apply refresh_keeps.
  - done.
  - done.
  - intros h fd Hs Hin. by apply finiconn_keeps.
  - intros f h Hf Hok. simplify_eq. by apply svc_timeout_ok.
Defined.

End Handlers.

(** ** Looking peers up *)

Lemma find_ip_stat_some u O ip fd :
  safe u O -> find_ip_stat u ip = Some fd ->
  exists p, peers u !! fd = Some p /\ p_ip p = ip /\ fd ∈ O.
Proof.
  intros Hs Hf. apply find_first_Some in Hf as [Hin Hp].
  destruct (peers u !! fd) as [p|] eqn:Ep; [|done]. b2p.
  exists p. split; [done|]. split; [done|].
  rewrite <- (safe_dom _ _ Hs). apply elem_of_dom. by eexists.
Qed.

Lemma ip_online_spec u O ip :
  safe u O -> ip_online u ip = true <-> exists fd p, peers u !! fd = Some p /\ p_ip p = ip.
Proof.
  intros Hs. unfold ip_online. split.
  - destruct (find_ip_stat u ip) as [fd|] eqn:Ef; [|done]. intros _.
    destruct (find_ip_stat_some u O ip fd Hs Ef) as (p & A & B & _). by exists fd, p.
  - intros (fd & p & A & B). destruct (find_ip_stat u ip) eqn:Ef; [done|].
    unfold find_ip_stat in Ef. eapply find_first_None in Ef as Hn.
    { rewrite A in Hn. simpl in Hn. apply Z.eqb_neq in Hn. done. }
    apply (safe_bucket _ _ Hs). exists p. split; [done|]. rewrite B. apply Z.land_comm.
Qed.

(** ** Choosing a server of a domain *)

(** The addresses a domain holds: non-empty, and short enough for [sip]. *)
Definition addrs_ok (d : t_pfs_domain) : Prop :=
  Forall (fun s => s_sip s <> [] /\ (length (s_sip s) < 16)%nat) (slots d) /\ 0 <= index d.

Lemma snprintf_sip s : (length (s_sip s) < 16)%nat -> snprintf 16 (s_sip s) = s_sip s.
Proof. intros. unfold snprintf. apply take_ge. lia. Qed.

Lemma first_online_spec u l : forall j,
  Forall (fun s => s_sip s <> [] /\ (length (s_sip s) < 16)%nat) l ->
  (exists pre s post, l = pre ++ s :: post /\ ip_online u (s_ip s) = true /\
     Forall (fun x => ip_online u (s_ip x) = false) pre /\
     first_online u l j = (j + zlen pre, s_sip s)) \/
  (Forall (fun x => ip_online u (s_ip x) = false) l /\ first_online u l j = (j + zlen l, [])).
Proof.
  induction l as [|s l IH]; intros j Hl; simpl; [right; split; [done|]; f_equal; lia|].
  apply Forall_cons in Hl as [[Hs1 Hs2] Hl]. destruct (ip_online u (s_ip s)) eqn:Eo.
  - left. exists [], s, l. rewrite snprintf_sip by done. split_and!; try done. simpl. f_equal. lia.
  - destruct (IH (j + 1) Hl) as [(pre & s' & post & -> & A & B & C)|[A B]].
    + left. exists (s :: pre), s', post. split_and!; try done; [by constructor|].
      rewrite C. simpl. f_equal. lia.
    + right. split; [by constructor|]. rewrite B. f_equal. lia.
Qed.

(** The rotation slot the call looks at. *)
Definition turn (u : ns) (d : t_pfs_domain) : Z :=
  if get_type_by_name u (domain d) =? 1 then 0
  else if ipcount d <=? index d then 0 else index d.

Lemma get_valid_ip_spec u d rc sip d' :
  addrs_ok d -> get_valid_ip_4_up u d = (rc, sip, d') ->
  (rc = 0 /\ (exists s, s ∈ slots d /\ ip_online u (s_ip s) = true /\ sip = s_sip s) \/
   rc = -1 /\ (forall s, s ∈ slots d -> ip_online u (s_ip s) = false)) /\
  (forall s, slots d !! Z.to_nat (turn u d) = Some s -> ip_online u (s_ip s) = true ->
     sip = s_sip s) /\
  slots d' = slots d /\
  index d' = (if get_type_by_name u (domain d) =? 1 then 0 else turn u d + 1).
Proof.
  intros [Ha Hi] Hg. unfold get_valid_ip_4_up in Hg.
  set (t := get_type_by_name u (domain d)) in *.
  assert (Et : turn u d = if t =? 1 then 0 else if ipcount d <=? index d then 0 else index d) by done.
  rewrite <- Et in Hg.
  assert (Hti : 0 <= turn u d) by (rewrite Et; repeat case_match; lia).
  assert (Hturn : t =? 1 = true -> turn u d = 0) by (rewrite Et; by intros ->).
  assert (Hsip : forall s, s ∈ slots d -> s_sip s <> [] /\ snprintf 16 (s_sip s) = s_sip s).
  { intros s Hs. rewrite Forall_forall in Ha. destruct (Ha s Hs). split; [done|]. by apply snprintf_sip. }
  clearbody t. generalize (turn u d), Hti, Hturn, Hg. clear Et Hti Hturn Hg. intros i Hti Hturn Hg.
  assert (Hz : forall s, s ∈ slots d -> zlen (s_sip s) =? 0 = false).
  { intros s Hs. destruct (Hsip s Hs) as [Hne _]. apply Z.eqb_neq. destruct (s_sip s); [done|simpl; lia]. }
  destruct (first_online_spec u (slots d) 0 Ha) as [(pre & s0 & post & El & Eo & Ep & Ef)|[Eo Ef]];
    rewrite Ef in Hg.
  - assert (Hin0 : s0 ∈ slots d) by (rewrite El; set_solver).
    assert (Hpick : exists s, s ∈ slots d /\ ip_online u (s_ip s) = true /\ sip = s_sip s /\
      (forall s1, slots d !! Z.to_nat i = Some s1 -> ip_online u (s_ip s1) = true -> sip = s_sip s1) /\
      rc = (if zlen sip =? 0 then -1 else 0) /\ d' = set_index d (if t =? 1 then i else i + 1)).
    { destruct (slots d !! Z.to_nat i) as [s1|] eqn:E1.
      - pose proof (list_elem_of_lookup_2 _ _ _ E1) as Hin1. destruct (Hsip s1 Hin1) as [_ Es1].
        destruct (negb (t =? 1) && negb (0 + zlen pre =? i)) eqn:Eb.
        + destruct (ip_online u (s_ip s1)) eqn:Eo1; simplify_eq.
          * exists s1. rewrite Es1. split_and!; try done. by intros ? [= <-].
          * exists s0. split_and!; try done. intros ? [= <-]. congruence.
        + simplify_eq. exists s0. split_and!; try done. intros ? [= <-] Hon.
          apply andb_false_iff in Eb as [Eb|Eb]; apply negb_false_iff in Eb.
          * specialize (Hturn Eb). subst i. rewrite El in E1. destruct pre as [|x pre]; [by simplify_eq/=|].
            simplify_eq/=. apply Forall_cons in Ep as [Ep _]. congruence.
          * b2p. subst i. rewrite El, lookup_app_r in E1 by lia.
            replace (Z.to_nat (0 + zlen pre) - length pre)%nat with 0%nat in E1 by lia. by simplify_eq/=.
      - destruct (_ && _); simplify_eq; exists s0; by split_and!. }
    destruct Hpick as (s & Hs & Hon & Hsp & Hrot & Hrc & Hd).
    split; [left|].
    + rewrite Hrc, Hsp, (Hz s Hs). split; [done|]. by exists s.
    + split; [done|]. subst d'. split; [done|]. simpl. destruct (t =? 1); auto.
  - assert (Hoff : forall s, s ∈ slots d -> ip_online u (s_ip s) = false)
      by (by rewrite Forall_forall in Eo).
    assert (sip = [] /\ rc = -1 /\ d' = set_index d (if t =? 1 then i else i + 1)) as (-> & -> & ->).
    { destruct (slots d !! Z.to_nat i) as [s1|] eqn:E1.
      - pose proof (list_elem_of_lookup_2 _ _ _ E1) as Hin1. rewrite (Hoff s1 Hin1) in Hg.
        destruct (_ && _); by simplify_eq.
      - destruct (_ && _); by simplify_eq. }
    split; [by right|]. split.
    + intros s Hl Hon. apply list_elem_of_lookup_2 in Hl. rewrite (Hoff s Hl) in Hon. done.
    + split; [done|]. simpl. destruct (t =? 1); auto.
Qed.

(** ** Choosing the domain of a group *)

(** The figure the policy compares, smaller being better. *)
Definition key (d : t_pfs_domain) : Z :=
  if policy =? Config.POLICY_LOAD then load d
  else if policy =? Config.POLICY_TASKCOUNT then taskcount d
  else - diskfree d.

Lemma sortdomain_key s1 s2 : sortdomain s1 s2 = (key s2 <? key s1).
Proof.
  unfold sortdomain, key. repeat case_match; try done.
  destruct (diskfree s1 <? diskfree s2) eqn:Ed; b2p; symmetry; [apply Z.ltb_lt|apply Z.ltb_ge]; lia.
Qed.

Lemma half_loop_ext u u' l : forall d c,
  same_conns u u' -> half_loop u' l d c = half_loop u l d c.
Proof.
  induction l as [|s l IH]; intros d c Hc; simpl; [done|].
  assert (Hf : find_ip_stat u' (s_ip s) = find_ip_stat u (s_ip s) /\ peers u' = peers u).
  { destruct Hc as (A & B & C). unfold find_ip_stat, online_bucket. by rewrite A, C. }
  destruct Hf as [-> ->]. case_match; by apply IH.
Qed.

Lemma check_half_ext u u' d :
  same_conns u u' -> check_more_half_online u' d = check_more_half_online u d.
Proof. intros. unfold check_more_half_online. by rewrite (half_loop_ext u u'). Qed.

Definition eligible (u : ns) (d : t_pfs_domain) : Prop := fst (check_more_half_online u d) = 0.
Definition refreshed (u : ns) (d : t_pfs_domain) : t_pfs_domain := snd (check_more_half_online u d).

(** Among the domains [pre], the candidate is the best eligible one. *)
Definition is_best (u0 : ns) (ds : Z -> option t_pfs_domain) (pre : list Z) (dd : option Z) : Prop :=
  match dd with
  | None => forall a d, a ∈ pre -> ds a = Some d -> ~ eligible u0 d
  | Some b => exists db, b ∈ pre /\ ds b = Some db /\ eligible u0 db /\
      forall a d, a ∈ pre -> ds a = Some d -> eligible u0 d ->
        key (refreshed u0 db) <= key (refreshed u0 d)
  end.

(** One more domain examined. *)
Definition pick (u0 : ns) (ds : Z -> option t_pfs_domain) (dd : option Z) (a : Z) (d0 : t_pfs_domain) :=
  if fst (check_more_half_online u0 d0) =? 0 then
    match dd ≫= ds with
    | Some db => if key (refreshed u0 d0) <? key (refreshed u0 db) then Some a else dd
    | None => Some a
    end
  else dd.

Lemma is_best_snoc u0 ds pre dd a d0 :
  ds a = Some d0 -> is_best u0 ds pre dd -> is_best u0 ds (pre ++ [a]) (pick u0 ds dd a d0).
Proof.
  intros Hd0 Hb. unfold pick.
  assert (Hin : forall (P : Z -> t_pfs_domain -> Prop), P a d0 ->
    (forall x d, x ∈ pre -> ds x = Some d -> P x d) ->
    forall x d, x ∈ pre ++ [a] -> ds x = Some d -> P x d).
  { intros P Ha Hp x d Hx Hd. apply elem_of_app in Hx as [Hx|Hx]; [by apply Hp|].
    apply list_elem_of_singleton in Hx. by simplify_eq. }
  destruct (fst (check_more_half_online u0 d0) =? 0) eqn:Er; b2p.
  - destruct dd as [b|]; simpl.
    + destruct Hb as (db & B1 & B2 & B3 & B4). rewrite B2.
      destruct (key (refreshed u0 d0) <? key (refreshed u0 db)) eqn:Ek; b2p.
      * exists d0. split_and!; [set_solver|done..|].
        apply (Hin (fun _ d => eligible u0 d -> _ <= key (refreshed u0 d))); [lia|].
        intros x d Hx Hd He. specialize (B4 x d Hx Hd He). lia.
      * exists db. split_and!; [set_solver|done..|].
        apply (Hin (fun _ d => eligible u0 d -> _ <= key (refreshed u0 d))); [lia|]. apply B4.
    + exists d0. split_and!; [set_solver|done..|].
      apply (Hin (fun _ d => eligible u0 d -> _ <= key (refreshed u0 d))); [lia|].
      intros x d Hx Hd He. by destruct (Hb x d Hx Hd).
  - destruct dd as [b|]; simpl.
    + destruct Hb as (db & B1 & B2 & B3 & B4). exists db. split_and!; [set_solver|done..|].
      apply (Hin (fun _ d => eligible u0 d -> _ <= key (refreshed u0 d))); [done|]. apply B4.
    + by apply (Hin (fun _ d => ~ eligible u0 d)).
Qed.

(** The domains of [pre] hold their refreshed figures, the others the old ones. *)
Definition refreshed_in (u0 u : ns) (ds : Z -> option t_pfs_domain) (pre : list Z) : Prop :=
  same_conns u0 u /\
  forall a, domains (dst u) !! a = if decide (a ∈ pre) then refreshed u0 <$> ds a else ds a.

Lemma refreshed_snoc u0 u ds pre a d0 :
  ds a = Some d0 -> refreshed_in u0 u ds pre ->
  refreshed_in u0 (with_dst u (with_domain (dst u) a (refreshed u0 d0))) ds (pre ++ [a]).
Proof.
  intros Hd0 [Hc Hd]. split; [done|]. intros x. simpl.
  destruct (decide (x = a)) as [->|Hx].
  - rewrite lookup_insert_eq, decide_True by set_solver. by rewrite Hd0.
  - rewrite lookup_insert_ne, Hd by done.
    destruct (decide (x ∈ pre)); [rewrite decide_True by set_solver|
      rewrite decide_False by set_solver]; done.
Qed.

Lemma best_loop_spec u0 ds l : forall u pre dd,
  NoDup (pre ++ l) -> (forall a, a ∈ l -> is_Some (ds a)) ->
  refreshed_in u0 u ds pre -> is_best u0 ds pre dd ->
  refreshed_in u0 (fst (best_loop u l dd)) ds (pre ++ l) /\
  is_best u0 ds (pre ++ l) (snd (best_loop u l dd)).
Proof.
  induction l as [|a l IH]; intros u pre dd Hnd Hall Hr Hb; simpl; [by rewrite app_nil_r|].
  assert (Hna : a ∉ pre) by (apply NoDup_app in Hnd as (_ & Hd & _); set_solver).
  destruct (Hall a ltac:(set_solver)) as [d0 Hd0].
  replace (pre ++ a :: l) with ((pre ++ [a]) ++ l) in * by (by rewrite <- app_assoc).
  destruct Hr as [Hc Hdom]. rewrite Hdom, decide_False, Hd0 by done.
  rewrite (check_half_ext u0 u) by done.
  pose proof (refreshed_snoc u0 u ds pre a d0 Hd0 (conj Hc Hdom)) as Hr1.
  pose proof (is_best_snoc u0 ds pre dd a d0 Hd0 Hb) as Hb1. unfold pick in Hb1.
  assert (Hall1 : forall x, x ∈ l -> is_Some (ds x)) by set_solver.
  unfold refreshed in Hr1 at 1.
  destruct (check_more_half_online u0 d0) as [rc d] eqn:Ecm. cbn [fst snd] in *.
  destruct (rc =? 0); simpl; [|by apply IH].
  destruct dd as [b|]; simpl; simpl in Hb1; [|by apply IH].
  destruct Hb as (db & B1 & B2 & _). rewrite B2 in Hb1.
  assert (Hdb : <[a := d]> (domains (dst u)) !! b = Some (refreshed u0 db)).
  { destruct Hr1 as [_ Hr1]. specialize (Hr1 b). simpl in Hr1. rewrite Hr1, decide_True by set_solver.
    by rewrite B2. }
  rewrite Hdb, sortdomain_key. unfold refreshed at 1 in Hb1. rewrite Ecm in Hb1. by apply IH.
Qed.

Lemma best_loop_best l : forall u dd, best (fst (best_loop u l dd)) = best u.
Proof.
  induction l as [|a l IH]; intros u dd; simpl; [done|].
  destruct (domains (dst u) !! a) as [d0|]; [|apply IH].
  destruct (check_more_half_online u d0) as [rc d].
  destruct (negb _); [by rewrite IH|]. case_match; by rewrite IH.
Qed.

(** ** The name-change table *)

Lemma get_newname_add u o n u' o' :
  (length o < 64)%nat -> (length n < 64)%nat -> get_newname_by_oldname u o = None ->
  add_name_change true u o n = (0, u') ->
  get_newname_by_oldname u' o' = if decide (o' = o) then Some n else get_newname_by_oldname u o'.
Proof.
  intros Ho Hn Hg. unfold add_name_change. rewrite Hg. simpl. intros; simplify_eq.
  unfold snprintf. rewrite !take_ge by lia. unfold get_newname_by_oldname; simpl.
  destruct (decide (name_hash o' = name_hash o)) as [Hh|Hh].
  - rewrite Hh, lookup_insert_eq. simpl. unfold streq at 1.
    case_decide as Hd; [subst; by rewrite bool_decide_eq_true_2|].
    rewrite bool_decide_eq_false_2 by (intros Hx; by apply Hd). done.
  - rewrite lookup_insert_ne by done. rewrite decide_False; [done|]. by intros ->.
Qed.

(** A line of the file, as it is written. *)
Definition change_line (c : bytes * bytes) : bytes := fst c ++ 58 :: snd c ++ [10].

Definition change_ok (c : bytes * bytes) : Prop :=
  58 ∉ fst c /\ 10 ∉ fst c /\ 10 ∉ snd c /\ (length (fst c) < 64)%nat /\ (length (snd c) < 64)%nat.

Lemma split_change_line c : change_ok c -> split_line (change_line c) = Some c.
Proof.
  destruct c as [o n]. intros (H1 & H2 & H3 & _). unfold split_line, change_line; simpl in *.
  replace (o ++ 58 :: n ++ [10]) with ((o ++ 58 :: n) ++ 10 :: []) by (by rewrite <- app_assoc).
  rewrite strrchr_app_r by set_solver.
  rewrite take_app_length, strchr_app_r by done. simpl.
  rewrite take_app_length. f_equal. f_equal.
  rewrite drop_app_ge by lia. by replace (S (length o) - length o)%nat with 1%nat by lia.
Qed.

Lemma name_change_lines_spec l : forall u,
  Forall change_ok l -> NoDup (map fst l) ->
  (forall c, c ∈ l -> get_newname_by_oldname u (fst c) = None) ->
  exists u', name_change_lines true u (map change_line l) = (0, u') /\
    (forall o n, (o, n) ∈ l -> get_newname_by_oldname u' o = Some n) /\
    (forall o, o ∉ map fst l -> get_newname_by_oldname u' o = get_newname_by_oldname u o).
Proof.
  induction l as [|c l IH]; intros u Hok Hnd Hf; simpl.
  { exists u. split; [done|]. split; [|done]. intros o n Hx. by apply not_elem_of_nil in Hx. }
  apply Forall_cons in Hok as [Hc Hok]. apply NoDup_cons in Hnd as [Hn Hnd].
  rewrite split_change_line by done. destruct c as [o n].
  pose proof (Hf (o, n) ltac:(set_solver)) as Hnone. simpl in Hnone, Hn.
  destruct (add_name_change true u o n) as [rc u1] eqn:Ea.
  assert (rc = 0) as -> by (unfold add_name_change in Ea; rewrite Hnone in Ea; by simplify_eq/=).
  destruct Hc as (_ & _ & _ & L1 & L2).
  assert (Hg : forall o', get_newname_by_oldname u1 o'
     = if decide (o' = o) then Some n else get_newname_by_oldname u o')
    by (intros o'; by eapply get_newname_add).
  destruct (IH u1 Hok Hnd) as (u' & E1 & E2 & E3).
  { intros [o' n'] Hin. simpl. rewrite Hg, decide_False; [apply (Hf (o', n')); set_solver|].
    intros ->. apply Hn. apply list_elem_of_fmap. by exists (o, n'). }
  simpl. rewrite E1. exists u'. split; [done|]. split.
  - intros o' n' Hin. apply elem_of_cons in Hin as [Hin|Hin]; [|by apply E2].
    simplify_eq. rewrite E3 by done. by rewrite Hg, decide_True.
  - intros o' Hin. rewrite E3 by set_solver. rewrite Hg, decide_False; [done|]. set_solver.
Qed.

(** ** The code [svc_recv] returns *)

Section Codes.
Context {E : Env}.
Implicit Types h : host ns.

Lemma handle_code fd ms : forall ret h,
  ret = RECV_ADD_EPOLLIN \/ ret = 0x0A ->
  fst (foldl (SigStream.handle do_req fd) (ret, h) ms) = RECV_ADD_EPOLLIN \/
  fst (foldl (SigStream.handle do_req fd) (ret, h) ms) = 0x0A.
Proof.
  induction ms as [|m ms IH]; intros ret h Hr; [done|]. cbn [foldl].
  unfold SigStream.handle at 2 4. cbn [fst snd].
  pose proof (do_req_codes h fd (SigStream.head_of m) (memcpy zero_body 0 (SigStream.m_body m))) as Hc.
  destruct (do_req h fd _ _) as [r h1]. cbn [fst] in *. apply IH.
  destruct Hr as [-> | ->], Hc as [-> | ->]; unfold RECV_ADD_EPOLLIN, RECV_SEND; cbn; auto.
Qed.

Lemma dispatch_0A h fd ss : recv_dispatch h fd 0x0A ss = Some (h, ss).
Proof. done. Qed.

End Codes.

(** ** Properties *)

Section Properties.
Context {E : Env}.
Implicit Types h : host ns.

Lemma safe_empty u : peers u = ∅ -> active u = [] -> online u = ∅ -> safe u ∅.
Proof.
  intros H1 H2 H3. split; unfold online_bucket; rewrite ?H1, ?H2, ?H3; try done; try by constructor.
  - intros fd. set_solver.
  - intros k fd. split; [set_solver|]. intros (p & Hp & _). by rewrite lookup_empty in Hp.
Qed.



(** C31: the address given to an uploading client is that of a server of the
    domain that has a signalling connection open, the one whose turn it is if
    that one is connected; the request is refused only when no server of the
    domain is connected. *)
Theorem upload_server_online u O d rc sip d' :
  safe u O -> addrs_ok d -> get_valid_ip_4_up u d = (rc, sip, d') ->
  (rc = 0 /\ (exists s fd p, s ∈ slots d /\ sip = s_sip s /\ fd ∈ O /\ peers u !! fd = Some p /\
     p_ip p = s_ip s) \/
   rc = -1 /\ (forall s fd p, s ∈ slots d -> peers u !! fd = Some p -> p_ip p <> s_ip s)) /\
  (forall s fd p, slots d !! Z.to_nat (turn u d) = Some s -> peers u !! fd = Some p ->
     p_ip p = s_ip s -> sip = s_sip s) /\
  index d' = (if get_type_by_name u (domain d) =? 1 then 0 else turn u d + 1).
Proof.
  intros Hs Ha Hg. destruct (get_valid_ip_spec u d rc sip d' Ha Hg) as (A & B & _ & D).
  split; [|split; [|done]].
  - destruct A as [[-> (s & S1 & S2 & ->)]|[-> A]]; [left|right]; (split; [done|]).
    + destruct (proj1 (ip_online_spec u O (s_ip s) Hs) S2) as (fd & p & P1 & P2).
      exists s, fd, p. split_and!; try done. rewrite <- (safe_dom _ _ Hs). apply elem_of_dom. by eexists.
    + intros s fd p S1 P1 P2. specialize (A s S1).
      assert (ip_online u (s_ip s) = true) by (apply (ip_online_spec u O); [done|]; by exists fd, p).
      congruence.
  - intros s fd p S1 P1 P2. apply B; [done|]. apply (ip_online_spec u O); [done|]. by exists fd, p.
Qed.

(** The domain a group recommends is, among its domains with at least half
    of their servers connected, one the policy ranks best after their figures
    are refreshed; if there is none, the table of recommendations keeps what
    it had. *)
Theorem best_domain_chosen u g rc u' :
  NoDup (g_dlist g) -> (forall a, a ∈ g_dlist g -> is_Some (domains (dst u) !! a)) ->
  update_group_domain u g = (rc, u') ->
  (rc = 0 /\ exists a d, a ∈ g_dlist g /\ domains (dst u) !! a = Some d /\ eligible u d /\
     best u' = set_best (best u) (group g) (refreshed u d) /\
     forall x dx, x ∈ g_dlist g -> domains (dst u) !! x = Some dx -> eligible u dx ->
       key (refreshed u d) <= key (refreshed u dx)) \/
  (rc = -1 /\ best u' = best u /\
     forall x dx, x ∈ g_dlist g -> domains (dst u) !! x = Some dx -> ~ eligible u dx).
Proof.
  intros Hnd Hall Hu. unfold update_group_domain in Hu.
  destruct (best_loop_spec u (fun a => domains (dst u) !! a) (g_dlist g) u [] None) as [[Hc Hd] Hb];
    [done|done|split; [done|intros a; by rewrite decide_False by set_solver]|
     intros a d Ha; by apply not_elem_of_nil in Ha|].
  pose proof (best_loop_best (g_dlist g) u None) as Hbb.
  destruct (best_loop u (g_dlist g) None) as [u1 dd]. cbn [fst snd app] in *.
  destruct dd as [a|]; cbn [mbind option_bind] in Hu.
  - destruct Hb as (d & B1 & B2 & B3 & B4). cbn in Hu.
    rewrite Hd, decide_True, B2 in Hu by done. simplify_eq/=. left. split; [done|].
    exists a, d. rewrite Hbb. by split_and!.
  - cbn in Hu. simplify_eq. right. by split_and!.
Qed.

(** After the name-change file is read, every old name it lists is
    answered with its new name and every other name as before. *)
Theorem name_changes_loaded u l :
  Forall change_ok l -> NoDup (map fst l) ->
  (forall c, c ∈ l -> get_newname_by_oldname u (fst c) = None) ->
  exists u', do_init_name_change true u (Some (map change_line l)) = (0, u') /\
    (forall o n, (o, n) ∈ l -> get_newname_by_oldname u' o = Some n) /\
    (forall o, o ∉ map fst l -> get_newname_by_oldname u' o = get_newname_by_oldname u o).
Proof. apply name_change_lines_spec. Qed.

Lemma do_req_heartbeat h fd st b :
  find_proxy (take 16 (proxies (user h))) (p_ip (peer_of h fd)) = None ->
  do_req h fd (mk_head 0 HEARTBEAT_REQ st) b
  = (RECV_SEND, reply (put_peer h fd (touch h (peer_of h fd))) fd HEARTBEAT_RSP st [self_stat (user h)]).
Proof. intros Hp. unfold do_req, check_proxy_ip. cbn [cmdid status]. by rewrite Hp. Qed.

(** The reply to a heartbeat is put in the send buffer and stays there:
    [svc_recv] or-s [RECV_ADD_EPOLLIN] and [RECV_SEND] into a code no case of
    the event loop matches, so nothing is written to the socket and the
    connection is not watched for writing either. *)
Theorem heartbeat_reply_unsent h fd st ss :
  wf_conn h fd -> is_byte st -> find_proxy (take 16 (proxies (user h))) (p_ip (peer_of h fd)) = None ->
  inq h fd = SigStream.encode (SigStream.mk_msg HEARTBEAT_REQ st []) ->
  exists h', svc_recv h fd = (0x0A, h') /\ recv_dispatch h' fd 0x0A ss = Some (h', ss) /\
    outq h' fd = outq h fd ++ create_sig_msg HEARTBEAT_RSP st [self_stat (user h)] 1 /\
    trace h' = trace h /\ epoll h' = epoll h.
Proof.
  intros Hw Hst Hp Hq. set (m := SigStream.mk_msg HEARTBEAT_REQ st []) in *.
  destruct (SigStream.drain_messages do_req fd (keeps_input fd) (never_stops fd) [m] [] (refresh h fd))
    as [F _]; [done| |by left|cbn [map concat]; rewrite !app_nil_r; exact Hq|].
  { constructor; [|done]. by split_and!. }
  unfold svc_recv. rewrite F. cbn [default from_option foldl]. unfold SigStream.handle. cbn [fst snd].
  change (SigStream.head_of m) with (mk_head 0 HEARTBEAT_REQ st).
  rewrite do_req_heartbeat by (unfold peer_of; simpl; rewrite lookup_insert_eq; exact Hp).
  eexists. split; [reflexivity|]. split; [done|]. split; [|done].
  unfold outq, consume_client_data, reply, set_client_data. rewrite !conn_set, !decide_True by done.
  cbn [set_send set_recv send_buff recv_buff]. destruct Hw as [Hw _].
  by apply put_spec.
Qed.

End Properties.

End Ops.

(** ** A small name server for the witnesses *)

#[local] Existing Instance demo_env.
Definition demo_settings : Settings := mk_settings Config.POLICY_LOAD 60 49710 true (fun _ => true).
#[local] Existing Instance demo_settings.

(** A domain of one server, in the group [photo]; nobody is connected yet. *)
Definition demo_domain : t_pfs_domain :=
  mk_domain (str "img1") [mk_slot (str "10.0.0.1") 16777226 0 0 (replicate 32 0)] 0 0 0 0.
Definition demo_group : t_pfs_group := mk_group (str "photo") [1].
Definition demo_ns : ns :=
  mk_ns (Domain.mk_state {[ 1 := demo_domain ]} [1] [demo_group] ∅ (replicate 64 0) 2)
    ∅ [] ∅ [([], demo_domain)] ∅ ∅ (replicate 16 (0, [])) 0 0 false.
Definition demo_host : host ns := mk_host ∅ ∅ [] 1000 demo_ns.

(** The server of the domain has connected, and its heartbeat has arrived. *)
Definition demo_up : host ns := accept_new demo_host [(5, 16777226)].
Definition demo_beat : host ns :=
  let c := conn_of demo_up 5 in
  set_conn demo_up 5 (set_recv c (put (recv_buff c)
    (SigStream.encode (SigStream.mk_msg HEARTBEAT_REQ 0 [])))).

Lemma demo_safe : safe (user demo_up) {[5]}.
Proof.
  destruct (initconn_keeps demo_host 5 16777226 0 (snd (svc_initconn demo_host 5 16777226))) as [_ Hs];
    [by apply safe_empty|done|done|].
  change (0 =? 0) with true in Hs. cbv iota in Hs.
  assert (He : members demo_host = ∅) by done. by rewrite He, union_empty_r_L in Hs.
Qed.

Lemma demo_beat_wf : wf_conn demo_beat 5.
Proof. split; vm_compute; repeat split; discriminate. Qed.



Lemma upload_server_online_witness :
  exists d', get_valid_ip_4_up (user demo_up) demo_domain = (0, str "10.0.0.1", d') /\
  (0 = 0 /\ (exists s fd p, s ∈ slots demo_domain /\ str "10.0.0.1" = s_sip s /\ fd ∈ ({[5]} : gset Z) /\
     peers (user demo_up) !! fd = Some p /\ p_ip p = s_ip s) \/
   0 = -1 /\ (forall s fd p, s ∈ slots demo_domain -> peers (user demo_up) !! fd = Some p -> p_ip p <> s_ip s)) /\
  (forall s fd p, slots demo_domain !! Z.to_nat (turn (user demo_up) demo_domain) = Some s ->
     peers (user demo_up) !! fd = Some p -> p_ip p = s_ip s -> str "10.0.0.1" = s_sip s) /\
  index d' = (if get_type_by_name (user demo_up) (domain demo_domain) =? 1 then 0
              else turn (user demo_up) demo_domain + 1).
Proof.
  eexists. split; [reflexivity|].
  apply (upload_server_online (user demo_up) {[5]} demo_domain); [apply demo_safe| |reflexivity].
  split; [|done]. repeat constructor; simpl; done || lia.
Defined.

Lemma best_domain_chosen_witness :
  exists u', update_group_domain (user demo_up) demo_group = (0, u') /\
  ((0 = 0 /\ exists a d, a ∈ g_dlist demo_group /\ domains (dst (user demo_up)) !! a = Some d /\
     eligible (user demo_up) d /\
     best u' = set_best (best (user demo_up)) (group demo_group) (refreshed (user demo_up) d) /\
     forall x dx, x ∈ g_dlist demo_group -> domains (dst (user demo_up)) !! x = Some dx ->
       eligible (user demo_up) dx -> key (refreshed (user demo_up) d) <= key (refreshed (user demo_up) dx)) \/
   (0 = -1 /\ best u' = best (user demo_up) /\
     forall x dx, x ∈ g_dlist demo_group -> domains (dst (user demo_up)) !! x = Some dx ->
       ~ eligible (user demo_up) dx)).
Proof.
  eexists. split; [reflexivity|].
  apply (best_domain_chosen (user demo_up) demo_group 0); [apply NoDup_singleton| |reflexivity].
  intros a Ha. apply list_elem_of_singleton in Ha. subst a. by eexists.
Defined.

Lemma name_changes_loaded_witness :
  let l := [(str "img1.old.com", str "img1"); (str "img2.old.com", str "img2")] in
  exists u', do_init_name_change true demo_ns (Some (map change_line l)) = (0, u') /\
    (forall o n, (o, n) ∈ l -> get_newname_by_oldname u' o = Some n) /\
    (forall o, o ∉ map fst l -> get_newname_by_oldname u' o = get_newname_by_oldname demo_ns o).
Proof.
  intros l. apply (name_changes_loaded demo_ns l).
  - unfold change_ok. apply (bool_decide_unpack _). vm_compute. exact I.
  - apply (bool_decide_unpack _). vm_compute. exact I.
  - intros c Hc. reflexivity.
Defined.

Lemma heartbeat_reply_unsent_witness :
  exists h', svc_recv demo_beat 5 = (0x0A, h') /\ recv_dispatch h' 5 0x0A [] = Some (h', []) /\
    outq h' 5 = outq demo_beat 5 ++ create_sig_msg HEARTBEAT_RSP 0 [self_stat (user demo_beat)] 1 /\
    trace h' = trace demo_beat /\ epoll h' = epoll demo_beat.
Proof.
  apply (heartbeat_reply_unsent demo_beat 5 0 [] demo_beat_wf); done.
Defined.

End NameServer.
