(* ===== verification/Upload.v ===== *)
(** * The upload service of a storage server (network/U)

    A client connects, announces a file ([CMD_PUT_FILE_REQ] with a
    [t_task_base]) and sends its bytes.  The service writes them to a
    temporary file while it digests them, and publishes the file under its
    final name once the last byte is in and the digest agrees with the one
    announced.  The receiving itself is in [Transfer]; this file has the
    handling of the announcement, the connection's life and the theorems on
    whole uploads. *)

From stdpp Require Import functions.
From S2P Require Import Prelude.
From S2P Require Import CString.
From S2P Require Import Protocol.
From S2P Require Import MyBuff.
From S2P Require Import Codec.
From S2P Require Import MD5.
From S2P Require Import LinkedList.
From S2P Require Import TaskData.
From S2P Require Import TaskQueue.
From S2P Require Import Timer.
From S2P Require Import Storage.
From S2P Require Import Records.
From S2P Require Import LocalFile.
From S2P Require Import EventLoop.
From S2P Require Import SigStream.
From S2P Require Import Wire.
From S2P Require Import Transfer.

Module Upload.
Import MyBuff Conn Loop Sig Fs LocalFile Transfer.

Section Service.
Context {E : Env} {K : Kernel} {C : Site} {X : Surroundings}.
Abbreviation up := (Transfer.up unit).
Implicit Types h : host up.

(** ** U/pfs_up_task.c *)

(** POSIX [basename]: trailing slashes do not count. *)
Fixpoint skip_slashes (s : bytes) : bytes :=
  match s with c :: t => if c =? 47 then skip_slashes t else s | [] => [] end.

Definition basename (s : bytes) : bytes :=
  let body := rev (skip_slashes (rev s)) in
  if zlen s =? 0 then str "."
  else if zlen body =? 0 then str "/"
  else match strrchr body 47 with Some i => drop (S i) body | None => body end.

Definition get_local_bname h (b : t_task_base) : option (t_task_base * host up) :=
  '(d, h) ← free_dir h;
  Some (set_filename b (snprintf 256 (dir_path d (snprintf 128 (basename (filename b))))), h).

Definition do_query_other h (fd : Z) : option (host up) :=
  '(d, h) ← free_dir h;
  create_push_rsp h (snprintf 256 (dir_path d [])) fd.

Definition set_times (b : t_task_base) (st mt ip : Z) : t_task_base :=
  mk_base (filename b) (tmpfile b) (retfile b) (filemd5 b) ip st mt (fsize b)
          (type b) (retry b) (overstatus b).

(** The name an upload gets, by the status of the request. *)
Definition place_name h (hd : t_pfs_sig_head) (b : t_task_base) : option (t_task_base * host up) :=
  if type b =? TASK_DELFILE then Some (b, h)
  else if Sig.status hd =? 0 then get_local_filename h b
  else if Sig.status hd =? ADD_PATH_BY_BNAME then get_local_bname h b
  else Some (b, h).

(** [do_push_task]. *)
Definition do_push_task h (fd : Z) (hd : t_pfs_sig_head) (b : t_task_base) : option (Z * host up) :=
  if (type b =? TASK_DELFILE) && (Sig.status hd =? ADD_QUERY_DIR) then
    h ← do_query_other h fd; Some (RECV_ADD_EPOLLOUT, h)
  else
    p ← peers (user h) !! fd;
    let h := with_peer h fd (set_stat p PREPARE_RECVFILE) in
    '(rc, task, q) ← TaskQueue.pfs_get_task (queue (user h)) TASK_Q_HOME q_lock (now h) task_mem;
    let h := with_queue h q in
    if negb (rc =? 0) then
      h ← create_push_rsp_err h (str "malloc error!") fd; Some (RECV_ADD_EPOLLOUT, h)
    else
      t ← task;
      '(b, h) ← place_name h hd b;
      let sub := mk_sub (fsize b) 0 0 (now h) 0 (Ip.ip2str (p_ip p)) OPER_UP_REQ TASK_SOURCE 0 in
      let b0 := set_times b (now h) (mtime b) (p_ip p) in
      h ← map_task h t (fun r => set_sub (set_base r b0) sub);
      if type b =? TASK_DELFILE then
        h ← map_task h t (fun r => set_base r (set_times b0 (now h) (now h) (p_ip p)));
        '(_, _, l1) ← delete_localfile before_msg timer_mem (now h) (files (user h))
                        (set_times b (b_starttime b) (now h) (dstip b));
        let h := with_files h l1 in
        h ← map_task h t (set_over OVER_OK);
        h ← set_task h t TASK_Q_FIN;
        let h := with_peer h fd (set_recvtask (set_stat p PREPARE_RECVFILE) None) in
        h ← create_push_rsp h (retfile b0) fd;
        Some (RECV_SEND, h)
      else
        let h := if 0 <? local_in_fd p
                 then with_files h (with_sys (files (user h)) (close (sys (files (user h))) (local_in_fd p)))
                 else h in
        '(rc, lfd, b1, l1) ← open_tmp_localfile_4_write before_node (time_text (now h))
                               (files (user h)) b0 (local_in_fd p);
        let h := with_files h l1 in
        h ← map_task h t (fun r => set_base r b1);
        if negb (rc =? LOCALFILE_OK) then
          h ← map_task h t (set_over OVER_E_OPEN_DSTFILE);
          h ← set_task h t TASK_Q_CLEAN;
          let h := with_peer h fd (set_recvtask (set_infd (set_stat p PREPARE_RECVFILE) lfd) None) in
          h ← create_push_rsp_err h (str "open remote file err") fd;
          Some (RECV_ADD_EPOLLOUT, h)
        else Some (RECV_ADD_EPOLLIN,
                   with_peer h fd (set_recvtask (set_infd (set_stat p RECVFILEING) lfd) (Some t))).

(** ** U/pfs_up_sub.c and U/pfs_up.c *)

(** [check_client_ip] admits everybody. *)
Definition check_client_ip (fd : Z) : Z := 0.

(** [do_req]. *)
Definition do_req h (fd : Z) (hd : t_pfs_sig_head) (b : t_pfs_sig_body) : option (Z * host up) :=
  let sized := bodylen hd =? Wire.sizeof_base in
  if cmdid hd =? CMD_GET_FILE_RSP then
    if negb sized then Some (RECV_CLOSE, h) else do_recv_task h fd hd (Wire.base_of_image b)
  else if cmdid hd =? CMD_PUT_FILE_REQ then
    if negb (check_client_ip fd =? 0) then Some (RECV_CLOSE, h)
    else if negb sized then Some (RECV_CLOSE, h) else do_push_task h fd hd (Wire.base_of_image b)
  else Some (RECV_CLOSE, h).

(** [svc_initconn]. *)
Definition svc_initconn h (fd ip : Z) : Z * host up :=
  let u := user h in
  if negb (mem_ok fd) then (RET_CLOSE_MALLOC, h)
  else
    let p := mk_peer fd 0 (u32 (now h)) ip 0 CONNECTED CON_PASSIVE false (Md5.MD5Init (replicate 64 0)) None None in
    (0, set_user h (mk_up (<[fd := p]> (peers u)) (active u ++ [fd]) (files u) (queue u) (disks u)
                      (pic_index u) (extra u))).

(** [svc_recv], with this [do_req]; the clients of an upload are answered. *)
Definition svc_recv : host up -> Z -> option (Z * host up) := Transfer.svc_recv OPER_UP_REQ do_req.

Definition svc_send h (fd : Z) : Z * host up := (SEND_ADD_EPOLLIN, h).

(** [svc_finiconn]. *)
Definition svc_finiconn h (fd : Z) : option (host up) :=
  match peers (user h) !! fd with
  | None => Some h
  | Some p =>
      let h := if 0 <? local_in_fd p
               then emit (with_files h (with_sys (files (user h))
                                          (close (sys (files (user h))) (local_in_fd p))))
                         [Closed (local_in_fd p)]
               else h in
      h ← match sendtask p with
          | Some t => h ← map_task h t (set_over OVER_SEND_LEN); set_task h t TASK_Q_FIN
          | None => Some h
          end;
      h ← match recvtask p with
          | Some t =>
              r ← TaskQueue.tasks (queue (user h)) !! t;
              h ← map_task h t (set_over OVER_UP_ERR);
              set_task (with_files h (with_sys (files (user h))
                                        (real_rm_file (sys (files (user h))) (tmpfile (base r))))) t TASK_Q_FIN
          | None => Some h
          end;
      let u := user h in
      Some (set_user h (mk_up (delete fd (peers u)) (filter (fun x => x <> fd) (active u)) (files u)
                          (queue u) (disks u) (pic_index u) (extra u)))
  end.

(** [svc_timeout]. *)
Definition svc_timeout (timeout : Z) h : option (host up) := close_overdue svc_finiconn timeout h.

(** ** The announcement of an upload *)

Hypothesis write_all : forall lfd d, k_write lfd d = zlen d.
Hypothesis lock_free : q_lock = 0.

(** A client that chooses the path itself ([ADD_PATH_BY_UPLOAD]) is ready to
    send once the request is handled. *)
Lemma push_starts h fd hd b p off qs t rest bc j :
  peers (user h) !! fd = Some p -> local_in_fd p <= 0 -> Md5Facts.absorbed (ctx p) [] ->
  wf_conn h fd -> TaskQueue.queues off (queue (user h)) qs -> qs TASK_Q_HOME = t :: rest ->
  type b <> TASK_DELFILE -> Sig.status hd = 1 ->
  storage_convert before_node (set_times b (now h) (mtime b) (p_ip p)) = Some (LOCALFILE_OK, bc) ->
  47 ∉ time_text (now h) -> strrchr (filename bc) 47 = Some (S j) ->
  take (S j) (filename bc) ∈ dirs (sys (files (user h))) ->
  let tmp := tmp_name (filename bc) (time_text (now h)) (g_index (files (user h))) in
  zlen tmp < 256 -> k_open tmp = None -> paths (sys (files (user h))) !! tmp = None ->
  0 < next (sys (files (user h))) ->
  exists h' r, do_push_task h fd hd b = Some (RECV_ADD_EPOLLIN, h') /\
    receiving true h' fd t (next (sys (files (user h)))) (next (sys (files (user h)))) [] r /\
    base r = set_tmpfile bc tmp /\ filemd5 (base r) = filemd5 b /\
    processlen (sub r) = fsize b /\ oper_type (sub r) = OPER_UP_REQ /\
    inq h' fd = inq h fd /\ outq h' fd = outq h fd /\
    paths (sys (files (user h'))) = <[tmp := next (sys (files (user h)))]> (paths (sys (files (user h)))).
Proof.
  intros P1 P2 P3 W Q1 Q2 Ht Hs Hc Htt Hst Hd tmp Hl Hk Hp Hn.
  unfold do_push_task. apply Z.eqb_neq in Ht. rewrite Ht. cbn [andb]. rewrite P1.
  cbn [mbind option_bind]. rewrite lock_free.
  change (queue (user (with_peer h fd (set_stat p PREPARE_RECVFILE)))) with (queue (user h)).
  destruct (TaskQueue.get_task_step Q1 TASK_Q_HOME t rest 0 (now (with_peer h fd (set_stat p PREPARE_RECVFILE)))
              task_mem) as (q1 & -> & Q3 & Q4 & _); [done|by left|done|].
  cbn [mbind option_bind]. simpl (negb _). cbv iota.
  unfold place_name. rewrite Ht, Hs. simpl (1 =? 0). simpl (1 =? ADD_PATH_BY_BNAME). cbv iota.
  cbn [mbind option_bind]. destruct (TaskQueue.d_task _ _ _ Q4) as [r0 Hr0].
  rewrite (map_task_some _ t _ r0) by exact Hr0.
  cbn [mbind option_bind]. rewrite Ht.
  destruct (0 <? local_in_fd p) eqn:El; [apply Z.ltb_lt in El; lia|].
  set (h1 := with_queue (with_queue _ q1) _).
  change (now (with_queue (with_peer h fd (set_stat p PREPARE_RECVFILE)) q1)) with (now h) in *.
  change (now h1) with (now h). change (files (user h1)) with (files (user h)).
  destruct (open_tmp_fresh before_node (time_text (now h)) (files (user h)) _ bc (local_in_fd p) j Hc Htt Hst Hd Hl Hk Hp)
    as (lfd & l1 & -> & Ha & Hpath & ->).
  cbn [mbind option_bind].
  erewrite (map_task_some (with_files h1 l1) t) by (simpl; apply lookup_insert_eq).
  cbn [mbind option_bind]. simpl (negb _). cbv iota.
  eexists _, (set_base (set_sub (set_base r0 (set_times b (now h) (mtime b) (p_ip p)))
    (mk_sub (fsize b) 0 0 (now h) 0 (Ip.ip2str (p_ip p)) OPER_UP_REQ TASK_SOURCE 0)) (set_tmpfile bc tmp)).
  split; [reflexivity|].
  destruct (storage_convert_fields _ _ _ _ Hc) as (F1 & F2 & F3).
  split; [|split; [reflexivity|]; split; [exact F1|done]].
  destruct (TaskQueue.with_task_held off q1 _ t r0 (set_sub (set_base r0 (set_times b (now h) (mtime b) (p_ip p)))
     (mk_sub (fsize b) 0 0 (now h) 0 (Ip.ip2str (p_ip p)) OPER_UP_REQ TASK_SOURCE 0)) Q3 ltac:(by left) Hr0 eq_refl)
     as [Q5 Q6].
  split; simpl.
  - eexists. rewrite lookup_insert_eq. by split_and!.
  - by rewrite lookup_insert_eq.
  - done.
  - rewrite Hpath. split; [done|]. split; [apply lookup_insert_eq|done].
  - exact W.
  - exists off, (<[TASK_Q_HOME := rest]> qs).
    by eapply (TaskQueue.with_task_held off _ _ t); [..|apply lookup_insert_eq|].
Qed.

(** ** The byte stream of an upload *)

(** Connection [fd] is idle and everything [do_push_task] needs for the task
    [b] is at hand: a free task [t], a name that leads to an existing
    directory, a fresh temporary file. *)
Record ready h (fd ip : Z) (b bc : t_task_base) (t : Z) (tmp : bytes) : Prop := mk_ready {
  rd_peer : exists p, peers (user h) !! fd = Some p /\ sock_stat p <> RECVFILEING /\ p_ip p = ip /\
    local_in_fd p <= 0 /\ Md5Facts.absorbed (ctx p) [];
  rd_conn : wf_conn h fd;
  rd_queue : exists off qs rest, TaskQueue.queues off (queue (user h)) qs /\ qs TASK_Q_HOME = t :: rest;
  rd_name : storage_convert before_node (set_times b (now h) (mtime b) ip) = Some (LOCALFILE_OK, bc);
  rd_dir : exists j, strrchr (filename bc) 47 = Some (S j) /\
    take (S j) (filename bc) ∈ dirs (sys (files (user h)));
  rd_tmp : tmp = tmp_name (filename bc) (time_text (now h)) (g_index (files (user h))) /\
    47 ∉ time_text (now h) /\ zlen tmp < 256 /\ k_open tmp = None /\
    paths (sys (files (user h))) !! tmp = None /\ 0 < next (sys (files (user h)))
}.

Definition push_request (b : t_task_base) : SigStream.msg :=
  SigStream.mk_msg CMD_PUT_FILE_REQ 1 (Wire.base_image b).

Lemma length_push_request b : Wire.fits b -> length (SigStream.encode (push_request b)) = 828%nat.
Proof.
  intros Hf. pose proof (Wire.length_base_image b (Wire.fit_md5 _ Hf)) as Hl.
  unfold Wire.sizeof_base in Hl. rewrite SigStream.length_message; [simpl; lia|].
  split_and!; try done. simpl. lia.
Qed.

Lemma push_announces fd ip b bc t tmp :
  Wire.fits b -> type b <> TASK_DELFILE ->
  announces do_req true fd t (fsize b) OPER_UP_REQ (push_request b) (set_tmpfile bc tmp)
    (fun h => ready h fd ip b bc t tmp).
Proof.
  intros Hf Ht. pose proof (Wire.length_base_image b (Wire.fit_md5 _ Hf)) as Hl.
  unfold Wire.sizeof_base in Hl. split.
  - split_and!; try done. simpl. lia.
  - by intros h [].
  - intros h [(p & P1 & P2 & _)]. by exists p.
  - intros h h' [(p & P1 & P2 & P3 & P4 & P5) W Q N D T]. unfold refresh. rewrite P1.
    cbn [mbind option_bind]. intros; simplify_eq. split; try done. simpl.
    eexists. rewrite lookup_insert_eq. by split_and!.
  - intros h d [P W Q N D T]. destruct (arrive_spec h fd d W) as (A & _). by split.
  - intros h [(p & P1 & P2 & P3 & P4 & P5) W (off & qs & rest & Q1 & Q2) N (j & D1 & D2) T].
    destruct T as (T0 & T1 & T2 & T3 & T4 & T5). subst tmp ip.
    assert (Hb : Wire.base_of_image (memcpy stack_body 0 (Wire.base_image b)) = b).
    { unfold memcpy. rewrite take_0, app_nil_l. rewrite Wire.base_of_image_app by lia.
      by apply Wire.base_image_roundtrip. }
    unfold do_req, SigStream.head_of. cbn [bodylen cmdid SigStream.m_cmd SigStream.m_status SigStream.m_body push_request].
    rewrite Hl, Hb. simpl (CMD_PUT_FILE_REQ =? _). simpl (824 =? Wire.sizeof_base).
    simpl (check_client_ip fd =? 0). cbn [negb]. cbv iota zeta.
    destruct (push_starts h fd (mk_head 824 CMD_PUT_FILE_REQ 1) b p off qs t rest bc j)
      as (h1 & r & -> & HR & B1 & B2 & B3 & B4 & I2 & O2 & F2); try done.
    by exists h1, r, (next (sys (files (user h)))).
Qed.

(** ** Properties *)

Lemma finiconn_trace h fd p h' :
  peers (user h) !! fd = Some p -> 0 < local_in_fd p -> svc_finiconn h fd = Some h' ->
  trace h' = trace h ++ [Closed (local_in_fd p)].
Proof.
  intros Hp Hl. unfold svc_finiconn. rewrite Hp. apply Z.ltb_lt in Hl. rewrite Hl.
  set (h1 := emit _ _). assert (T1 : trace h1 = trace h ++ [Closed (local_in_fd p)]) by done.
  clearbody h1. intros He. apply bind_Some in He as (h2 & E2 & He). apply bind_Some in He as (h3 & E3 & He).
  assert (T2 : trace h2 = trace h1).
  { destruct (sendtask p); [|by simplify_eq]. apply bind_Some in E2 as (x & X1 & X2).
    by rewrite (set_task_trace _ _ _ _ X2), (map_task_trace _ _ _ _ X1). }
  assert (T3 : trace h3 = trace h2).
  { destruct (recvtask p); [|by simplify_eq]. apply bind_Some in E3 as (x & _ & E3).
    apply bind_Some in E3 as (y & X1 & X2). rewrite (set_task_trace _ _ _ _ X2). simpl.
    by rewrite (map_task_trace _ _ _ _ X1). }
  simplify_eq. simpl. congruence.
Qed.

(** A push that arrives whole, in whatever reads. *)
Lemma push_arrives h fd ip b bc t tmp chunks c :
  ready h fd ip b bc t tmp -> inq h fd = [] -> Wire.fits b -> type b <> TASK_DELFILE ->
  Forall (fun d => d <> []) chunks -> concat chunks = SigStream.encode (push_request b) ++ c ->
  c <> [] -> zlen c = fsize b -> fsize b < 2 ^ 31 ->
  filemd5 b = Rfc1321.md5 c ++ [0] -> k_rename tmp (filename bc) = true ->
  exists h' r, feed OPER_UP_REQ do_req h fd chunks = Some (RECV_SEND, h') /\
    contents (sys (files (user h'))) (filename bc) = Some c /\
    paths (sys (files (user h'))) !! tmp = None /\
    TaskQueue.tasks (queue (user h')) !! t = Some r /\
    overstatus (base r) = OVER_OK /\ TaskData.status r = TASK_Q_FIN /\
    outq h' fd = outq h fd ++ ok_reply (retfile bc).
Proof.
  intros Hr Hq Hf Ht Hall Hs Hc Hl Hsz Hm Hk.
  destruct (feed_announced OPER_UP_REQ do_req write_all _ _ _ _ _ _ _ _ (push_announces fd ip b bc t tmp Hf Ht) chunks h c)
    as (h1 & r1 & lfd & E1 & R1 & B1 & B2 & O1 & _); try done; [rewrite Hq; apply encode_nonempty|by rewrite Hq|].
  assert (Hne : tmp <> filename bc) by (destruct Hr as [_ _ _ _ _ [-> _]]; apply tmp_name_ne).
  assert (Hmd : filemd5 bc = filemd5 b) by apply (storage_convert_fields _ _ _ _ (rd_name _ _ _ _ _ _ _ Hr)).
  destruct (finish_file_ok OPER_UP_REQ lock_free _ h1 fd t lfd lfd c r1 R1)
    as (h2 & r2 & p2 & E2 & A1 & A2 & A3 & A4 & A5 & A6 & _); try by rewrite B1.
  { rewrite B1. simpl. congruence. }
  exists h2, r2. rewrite E1, A6, O1, B2, B1 in *. by split_and!.
Qed.

(** C1: an upload is published exactly: however TCP cuts the client's stream
    (the request, then the bytes of the file) into reads, when the digest
    announced is the MD5 of those bytes the service ends with the final name
    holding exactly them and the temporary name gone, the task in the finished
    queue with [OVER_OK], and the answer [OK|path|domain] queued for the
    client. *)
Theorem upload_publishes h fd ip b bc t tmp chunks c :
  ready h fd ip b bc t tmp -> inq h fd = [] -> Wire.fits b -> type b <> TASK_DELFILE ->
  Forall (fun d => d <> []) chunks -> concat chunks = SigStream.encode (push_request b) ++ c ->
  c <> [] -> zlen c = fsize b -> fsize b < 2 ^ 31 ->
  filemd5 b = Rfc1321.md5 c ++ [0] -> k_rename tmp (filename bc) = true ->
  exists h' r, feed OPER_UP_REQ do_req h fd chunks = Some (RECV_SEND, h') /\
    contents (sys (files (user h'))) (filename bc) = Some c /\
    paths (sys (files (user h'))) !! tmp = None /\
    TaskQueue.tasks (queue (user h')) !! t = Some r /\
    overstatus (base r) = OVER_OK /\ TaskData.status r = TASK_Q_FIN /\
    outq h' fd = outq h fd ++ ok_reply (retfile bc).
Proof. apply push_arrives. Qed.

(** C8: when the bytes received do not have the announced digest, nothing is
    published (the directory entry of the final name is what it was) and the
    task ends in the finished queue with [OVER_E_MD5].  The peer, however,
    still names the descriptor of the temporary file, which is already closed,
    and the end of the connection closes that number a second time. *)
Theorem upload_bad_digest h fd ip b bc t tmp chunks c :
  ready h fd ip b bc t tmp -> inq h fd = [] -> Wire.fits b -> type b <> TASK_DELFILE ->
  Forall (fun d => d <> []) chunks -> concat chunks = SigStream.encode (push_request b) ++ c ->
  c <> [] -> zlen c = fsize b -> fsize b < 2 ^ 31 ->
  take 16 (filemd5 b) <> Rfc1321.md5 c ->
  exists h' r p, feed OPER_UP_REQ do_req h fd chunks = Some (RECV_SEND, h') /\
    paths (sys (files (user h'))) !! filename bc = paths (sys (files (user h))) !! filename bc /\
    TaskQueue.tasks (queue (user h')) !! t = Some r /\
    overstatus (base r) = OVER_E_MD5 /\ TaskData.status r = TASK_Q_FIN /\
    peers (user h') !! fd = Some p /\ fds (sys (files (user h'))) !! local_in_fd p = None /\
    (forall h'', svc_finiconn h' fd = Some h'' -> trace h'' = trace h' ++ [Closed (local_in_fd p)]).
Proof.
  intros Hr Hq Hf Ht Hall Hs Hc Hl Hsz Hm.
  destruct (feed_announced OPER_UP_REQ do_req write_all _ _ _ _ _ _ _ _ (push_announces fd ip b bc t tmp Hf Ht) chunks h c)
    as (h1 & r1 & lfd & -> & R1 & B1 & B2 & O1 & P1); try done; [rewrite Hq; apply encode_nonempty|by rewrite Hq|].
  assert (Hne : tmp <> filename bc) by (destruct Hr as [_ _ _ _ _ [-> _]]; apply tmp_name_ne).
  assert (Hmd : filemd5 bc = filemd5 b) by apply (storage_convert_fields _ _ _ _ (rd_name _ _ _ _ _ _ _ Hr)).
  assert (Hlf : 0 < lfd) by apply R1.
  destruct (finish_file_bad OPER_UP_REQ lock_free h1 fd t lfd lfd c r1 R1)
    as (h2 & r2 & p2 & E2 & A1 & A2 & A3 & A4 & A5 & A6 & A7 & A8 & A9).
  { by rewrite B1. } { rewrite B1. simpl. congruence. }
  exists h2, r2, p2. rewrite A1, P1, A3, A9, lookup_insert_ne, lookup_delete_eq by done.
  split_and!; try done. intros h3 H3. rewrite (finiconn_trace _ _ _ _ A7 ltac:(lia) H3). congruence.
Qed.

Lemma feed_idle k : forall h fd t lfd i r,
  receiving true h fd t lfd i [] r -> inq h fd = [] ->
  exists h', feed OPER_UP_REQ do_req h fd (replicate k []) = Some (RECV_ADD_EPOLLIN, h') /\
    receiving true h' fd t lfd i [] r /\ outq h' fd = outq h fd.
Proof.
  induction k as [|k IH]; intros h fd t lfd i r HR Hq; [by exists h|].
  cbn [replicate]. rewrite feed_cons. unfold Transfer.svc_recv.
  destruct (receiving_arrive true h fd t lfd i [] r [] HR) as [HA IA].
  destruct (arrive_spec h fd []) as (_ & _ & OA); [apply HR|].
  destruct (receiving_refresh _ _ _ _ _ _ _ _ HA) as (h1 & -> & HR1 & I1 & F1 & O1).
  cbn [mbind option_bind]. destruct (rc_peer _ _ _ _ _ _ _ _ HR1) as (p & P1 & P2 & P3 & _).
  rewrite P1. cbn [mbind option_bind]. rewrite P2. simpl (RECVFILEING =? RECVFILEING). cbv iota.
  rewrite IA, Hq in I1. rewrite (recv_file_empty _ _ _ _ _ _ _ _ _ HR1 I1).
  cbn [mbind option_bind]. simpl (RECV_ADD_EPOLLIN =? _). cbv iota.
  destruct (IH h1 fd t lfd i r HR1 I1) as (h2 & -> & R2 & O2). exists h2. split_and!; try done. congruence.
Qed.

(** C38: an upload of an empty file never completes: the request is accepted,
    and from then on every wake-up of the connection finds no data and leaves
    the task taken, the file unpublished and the client unanswered. *)
Theorem empty_upload_stalls h fd ip b bc t tmp k :
  ready h fd ip b bc t tmp -> inq h fd = [] -> Wire.fits b -> type b <> TASK_DELFILE -> fsize b = 0 ->
  exists h' r lfd, feed OPER_UP_REQ do_req h fd (SigStream.encode (push_request b) :: replicate k [])
      = Some (RECV_ADD_EPOLLIN, h') /\
    receiving true h' fd t lfd lfd [] r /\ processlen (sub r) = lastlen (sub r) /\ outq h' fd = outq h fd.
Proof.
  intros Hr Hq Hf Ht Hz. rewrite feed_cons.
  destruct (idle_starts OPER_UP_REQ do_req _ _ _ _ _ _ _ _ (push_announces fd ip b bc t tmp Hf Ht) h
              (SigStream.encode (push_request b)) [] Hr)
    as (h1 & r & lfd & -> & R1 & I1 & O1 & B1 & B2 & B3 & F1); [by rewrite Hq, app_nil_r|].
  rewrite (recv_file_empty _ _ _ _ _ _ _ _ _ R1 I1).
  cbn [mbind option_bind]. simpl (RECV_ADD_EPOLLIN =? _). cbv iota.
  destruct (feed_idle k h1 fd t lfd lfd r R1 I1) as (h2 & -> & R2 & O2).
  exists h2, r, lfd. split_and!; try done; [|congruence].
  by rewrite (rc_len _ _ _ _ _ _ _ _ R2), B2, Hz.
Qed.

(** A name without a slash: the temporary file is not opened, the client is
    told, and the connection is left in [PREPARE_RECVFILE] without a task. *)
Lemma push_refused h fd hd b p off qs t rest :
  peers (user h) !! fd = Some p -> wf_conn h fd -> local_in_fd p <= 0 ->
  TaskQueue.queues off (queue (user h)) qs -> qs TASK_Q_HOME = t :: rest ->
  type b <> TASK_DELFILE -> Sig.status hd = 1 -> strrchr (filename b) 47 = None ->
  exists h' p', do_push_task h fd hd b = Some (RECV_ADD_EPOLLOUT, h') /\
    peers (user h') !! fd = Some p' /\ sock_stat p' = PREPARE_RECVFILE /\ recvtask p' = None /\
    wf_conn h' fd /\ inq h' fd = inq h fd.
Proof.
  intros P1 W Pl Q1 Q2 Ht Hs Hn. unfold do_push_task. apply Z.eqb_neq in Ht. rewrite Ht. cbn [andb]. rewrite P1.
  cbn [mbind option_bind]. rewrite lock_free.
  change (queue (user (with_peer h fd (set_stat p PREPARE_RECVFILE)))) with (queue (user h)).
  destruct (TaskQueue.get_task_step Q1 TASK_Q_HOME t rest 0 (now (with_peer h fd (set_stat p PREPARE_RECVFILE)))
              task_mem) as (q1 & -> & Q3 & Q4 & _); [done|by left|done|].
  cbn [mbind option_bind]. simpl (negb _). cbv iota.
  unfold place_name. rewrite Ht, Hs. simpl (1 =? 0). simpl (1 =? ADD_PATH_BY_BNAME). cbv iota.
  cbn [mbind option_bind]. destruct (TaskQueue.d_task _ _ _ Q4) as [r0 Hr0].
  rewrite (map_task_some _ t _ r0) by exact Hr0. cbn [mbind option_bind]. rewrite Ht.
  destruct (0 <? local_in_fd p) eqn:El; [apply Z.ltb_lt in El; lia|].
  unfold open_tmp_localfile_4_write, storage_convert. cbn [filename set_times]. rewrite Hn.
  cbn [mbind option_bind]. simpl (negb _). cbv iota. cbn [mbind option_bind].
  set (r1 := set_sub _ _). set (h1 := with_files _ _). set (b0 := set_times b _ _ _) in *.
  rewrite (map_task_some h1 t _ r1) by apply lookup_insert_eq. cbn [mbind option_bind]. simpl (negb _). cbv iota.
  set (r2 := set_base r1 b0). set (h2 := with_queue h1 _).
  rewrite (map_task_some h2 t _ r2) by apply lookup_insert_eq. cbn [mbind option_bind].
  set (r3 := set_over OVER_E_OPEN_DSTFILE r2). set (h3 := with_queue h2 _).
  destruct (TaskQueue.with_task_detached off q1 _ t r1 Q3 Q4) as [Q5 Q6].
  destruct (TaskQueue.with_task_detached off _ _ t r2 Q5 Q6) as [Q7 Q8].
  destruct (TaskQueue.with_task_detached off _ _ t r3 Q7 Q8) as [Q9 Q10].
  unfold set_task. rewrite lock_free.
  destruct (TaskQueue.set_task_step Q9 TASK_Q_CLEAN t 0 (now h3)) as (q2 & Eq & _); [done|by left|exact Q10|].
  change (queue (user h3)) with (TaskQueue.with_task (TaskQueue.with_task (TaskQueue.with_task q1 t r1) t r2) t r3).
  rewrite Eq. cbn [mbind option_bind]. unfold create_push_rsp_err. set (h4 := with_peer (with_queue h3 q2) fd _).
  set (p4 := set_recvtask _ None) in h4. assert (P4 : peers (user h4) !! fd = Some p4) by apply lookup_insert_eq.
  rewrite P4. cbn [mbind option_bind]. set (h5 := with_peer h4 fd (set_close p4)).
  set (m := create_sig_msg _ _ _ _). destruct (reply_spec h5 fd m W) as (W5 & I5 & _ & U5 & _).
  eexists _, (set_close p4). split; [done|]. rewrite U5. split; [apply lookup_insert_eq|]. by split_and!.
Qed.

Definition stray_answer (b : t_task_base) : SigStream.msg :=
  SigStream.mk_msg CMD_GET_FILE_RSP FILE_SYNC_DST_2_SRC (Wire.base_image b).

Lemma msg_ok_base c s b :
  is_byte c -> is_byte s -> Wire.fits b -> SigStream.msg_ok (SigStream.mk_msg c s (Wire.base_image b)).
Proof.
  intros Hc Hs Hf. destruct (Wire.carried [] b Hf) as [Hl _].
  split; [done|]. split; [done|]. simpl. unfold Wire.sizeof_base in Hl. lia.
Qed.

Lemma stray_answer_stops h fd b p :
  peers (user h) !! fd = Some p -> sock_stat p = PREPARE_RECVFILE -> recvtask p = None ->
  wf_conn h fd -> inq h fd = [] -> Wire.fits b ->
  svc_recv (arrive h fd (SigStream.encode (stray_answer b))) fd = None.
Proof.
  intros P1 P2 P3 W I Hf. destruct (Wire.carried stack_body b Hf) as [Hl Hb].
  set (e := SigStream.encode (stray_answer b)). destruct (arrive_spec h fd e W) as (A1 & A2 & _).
  destruct (svc_recv_idle OPER_UP_REQ do_req (arrive h fd e) fd p P1) as (h0 & k & _ & E1 & C0 & E0 & _);
    [by rewrite P2|]. unfold svc_recv. rewrite E1. cbn [req_loop].
  assert (W0 : wf_conn h0 fd) by (unfold wf_conn, conn_of in *; by rewrite C0).
  assert (I0 : inq h0 fd = e) by (unfold inq, conn_of in *; by rewrite C0, A2, I).
  unfold Transfer.check_req; rewrite (SigStream.check_part_message stack_body do_req h0 fd (stray_answer b) [] W0) by
    (done || (by apply msg_ok_base) || by rewrite app_nil_r).
  unfold do_req, SigStream.head_of.
  cbn [bodylen cmdid SigStream.m_cmd SigStream.m_status SigStream.m_body stray_answer]. rewrite Hl, Hb.
  simpl (CMD_GET_FILE_RSP =? _). simpl (Wire.sizeof_base =? Wire.sizeof_base).
  simpl (check_client_ip fd =? 0). cbn [negb]. cbv iota zeta.
  unfold do_recv_task. rewrite E0. cbn [mbind option_bind sock_stat set_hbtime recvtask]. rewrite P2.
  simpl (negb _). cbv iota. by rewrite P3.
Qed.

(** C36: two messages from any client stop the upload service.  After a push
    request whose name holds no slash the connection waits for a file without
    having a task; the answer to a request for a file, which no client has a
    reason to send, then makes [do_recv_task] follow the null task pointer. *)
Theorem stray_answer_crashes h fd b p off qs t rest :
  peers (user h) !! fd = Some p -> sock_stat p <> RECVFILEING -> local_in_fd p <= 0 ->
  wf_conn h fd -> inq h fd = [] ->
  TaskQueue.queues off (queue (user h)) qs -> qs TASK_Q_HOME = t :: rest ->
  Wire.fits b -> type b <> TASK_DELFILE -> 47 ∉ filename b ->
  exists h1, svc_recv (arrive h fd (SigStream.encode (push_request b))) fd = Some (RECV_ADD_EPOLLOUT, h1) /\
    svc_recv (arrive h1 fd (SigStream.encode (stray_answer b))) fd = None.
Proof.
  intros P1 P3 Pl W I Q1 Q2 Hf Ht Hn. apply strrchr_None in Hn.
  destruct (Wire.carried stack_body b Hf) as [Hl Hb].
  set (e := SigStream.encode (push_request b)). destruct (arrive_spec h fd e W) as (A1 & A2 & _).
  destruct (svc_recv_idle OPER_UP_REQ do_req (arrive h fd e) fd p P1 P3) as (h0 & k & _ & E1 & C0 & E0 & F0 & U0 & N0).
  unfold svc_recv at 1. rewrite E1. cbn [req_loop].
  assert (W0 : wf_conn h0 fd) by (unfold wf_conn, conn_of in *; by rewrite C0).
  assert (I0 : inq h0 fd = e) by (unfold inq, conn_of in *; by rewrite C0, A2, I).
  unfold Transfer.check_req; rewrite (SigStream.check_part_message stack_body do_req h0 fd (push_request b) [] W0) by
    (done || (by apply msg_ok_base) || by rewrite app_nil_r).
  assert (Hd : forall h', do_req h' fd (SigStream.head_of (push_request b))
      (memcpy stack_body 0 (SigStream.m_body (push_request b))) = do_push_task h' fd (mk_head Wire.sizeof_base CMD_PUT_FILE_REQ 1) b).
  { intros h'. unfold do_req, SigStream.head_of.
    cbn [bodylen cmdid SigStream.m_cmd SigStream.m_status SigStream.m_body push_request]. rewrite Hl, Hb. done. }
  rewrite Hd. clear Hd.
  destruct (push_refused h0 fd (mk_head Wire.sizeof_base CMD_PUT_FILE_REQ 1) b (set_hbtime p (u32 (now (arrive h fd e))))
              off qs t rest) as (h1 & p1 & -> & R1 & R2 & R3 & R4 & R5); rewrite ?U0; try done.
  cbn [mbind option_bind]. simpl (RECV_ADD_EPOLLOUT =? -1). simpl (RECV_ADD_EPOLLOUT =? RECV_ADD_EPOLLOUT). cbv iota.
  set (h2 := consume_client_data h1 fd _). exists h2. split; [done|].
  destruct (SigStream.consume_spec fd h1 (zlen (SigStream.m_body (push_request b)) + SIG_HEADSIZE) R4) as [C1 C2];
    [unfold SIG_HEADSIZE; lia|].
  apply (stray_answer_stops h2 fd b p1); try done.
  unfold h2. rewrite C2, R5, I0. apply drop_ge. unfold e.
  rewrite (SigStream.length_message (push_request b)) by (by apply msg_ok_base). unfold SIG_HEADSIZE. lia.
Qed.

End Service.

(** C32: no two uploads get the same name: the names two servers (or one, at
    two moments) give to files are equal only if the second, the server's
    address and the running number all agree; the running number stays in its
    range. *)
Theorem upload_names_unique {Y : Type} (C1 C2 : Site) (X1 X2 : Surroundings) (h1 h2 : host (up Y)) b1 b2 b1' b2' h1' h2' :
  get_local_filename (C := C1) (X := X1) h1 b1 = Some (b1', h1') -> type b1 = TASK_ADDFILE ->
  get_local_filename (C := C2) (X := X2) h2 b2 = Some (b2', h2') -> type b2 = TASK_ADDFILE ->
  0 <= now h1 < 10 ^ 18 -> 0 <= self_ip (Surroundings := X1) < 2 ^ 32 -> 0 <= pic_index (user h1) < 10 ^ 5 ->
  0 <= now h2 < 10 ^ 18 -> 0 <= self_ip (Surroundings := X2) < 2 ^ 32 -> 0 <= pic_index (user h2) < 10 ^ 5 ->
  zlen (filename b1') < 255 -> filename b1' = filename b2' ->
  now h1 = now h2 /\ self_ip (Surroundings := X1) = self_ip (Surroundings := X2) /\
  pic_index (user h1) = pic_index (user h2) /\ 0 <= pic_index (user h1') < 10 ^ 5.
Proof.
  intros E1 T1 E2 T2 N1 S1 I1 N2 S2 I2 L1 He.
  destruct (get_local_filename_spec _ _ _ _ E1 T1 L1) as (d1 & x1 & F1 & Hx1 & P1).
  destruct (get_local_filename_spec _ _ _ _ E2 T2 ltac:(by rewrite <- He)) as (d2 & x2 & F2 & Hx2 & _).
  rewrite F1, F2 in He. unfold dir_path in He. injection He as He.
  apply split_at_sep in He as [_ He]; [|apply dec_no_slash..].
  apply split_at_sep in He as [_ He]; [|apply dec_no_slash..].
  assert (Hd : forall a i j, 46 ∉ pic_name a i j) by (intros; exact (Base64.encode_no_dot _)).
  pose proof (ext_split _ _ _ _ (Hd _ _ _) (Hd _ _ _) Hx1 Hx2 He) as Hn.
  apply pic_name_inj in Hn as (A & B & D); [|done..]. split_and!; try done.
  all: rewrite P1; cbv zeta; rewrite u32_small by lia; destruct (99999 <=? _) eqn:El; b2p; lia.
Qed.

(** ** A small server for the witnesses *)

Definition demo_peer : peer :=
  mk_peer 5 0 0 16777226 0 CONNECTED CON_PASSIVE false (Md5.MD5Init (replicate 64 0)) None None.
Definition demo_host : host (up unit) :=
  mk_host {[ 5 := mk_conn 5 0 [] mybuff_init mybuff_init ]} {[ 5 := EPOLLIN ]} [] 1388534400
    (mk_up {[ 5 := demo_peer ]} [5] (demo_lf (demo_fs (str "/other") [])) (TaskQueue.demo [944; 1888])
       (Disk.mk_disks [] None 0) 0 tt).

(** The announcement of a file of [n] bytes, and the task it becomes. *)
Definition demo_task (md5 : bytes) (n : Z) : t_task_base :=
  mk_base (str "/1/2/a.jpg") [] [] md5 0 0 1388534400 n TASK_ADDFILE 0 0.
Definition demo_placed (md5 : bytes) (n : Z) : t_task_base :=
  set_names (set_times (demo_task md5 n) 1388534400 1388534400 16777226)
            (str "/data/1/2/a.jpg") (str "/1/2/a.jpg").
Definition demo_tmp : bytes := tmp_name (str "/data/1/2/a.jpg") (str "20140101000000") 0.

#[local] Existing Instances demo_env demo_kernel demo_site demo_around.

Lemma demo_ready md5 n : ready demo_host 5 16777226 (demo_task md5 n) (demo_placed md5 n) 1888 demo_tmp.
Proof.
  split.
  - exists demo_peer. split_and!; try done; by apply Md5Facts.absorbed_init.
  - split; apply MyBuff.wf_init.
  - destruct (TaskQueue.demo_queues [944; 1888]) as [HQ _];
      [by repeat constructor|by apply (bool_decide_unpack _)|].
    by eexists _, _, _.
  - reflexivity.
  - exists 8%nat. split; [reflexivity|]. apply (bool_decide_unpack _). vm_compute. exact I.
  - split_and!; try reflexivity. apply (bool_decide_unpack _). vm_compute. exact I.
Qed.

Lemma demo_fits md5 n : length md5 = 17%nat -> 0 <= n < 2 ^ 31 -> Wire.fits (demo_task md5 n).
Proof. intros. split; try done; repeat constructor; try done; simpl; lia. Qed.

(** The stream of a client, cut after its first hundred bytes. *)
Definition demo_chunks (md5 c : bytes) : list bytes :=
  let s := SigStream.encode (push_request (demo_task md5 (zlen c))) ++ c in [take 100 s; drop 100 s].

Lemma demo_chunks_ok md5 c :
  length md5 = 17%nat -> zlen c < 2 ^ 31 ->
  Forall (fun d => d <> []) (demo_chunks md5 c) /\
  concat (demo_chunks md5 c) = SigStream.encode (push_request (demo_task md5 (zlen c))) ++ c.
Proof.
  intros Hm Hc. pose proof (length_push_request _ (demo_fits md5 (zlen c) Hm ltac:(lia))) as Hl.
  unfold demo_chunks. set (e := SigStream.encode _) in *. clearbody e.
  split; [|cbn [concat]; rewrite app_nil_r; apply take_drop].
  repeat constructor; intros Hx; apply (f_equal length) in Hx;
    rewrite ?length_take, ?length_drop, length_app, Hl in Hx; simpl in Hx; lia.
Qed.

Lemma upload_publishes_witness :
  let c := str "abc" in
  let md5 := Rfc1321.md5 c ++ [0] in
  exists h' r, feed OPER_UP_REQ do_req demo_host 5 (demo_chunks md5 c) = Some (RECV_SEND, h') /\
    Fs.contents (sys (files (user h'))) (str "/data/1/2/a.jpg") = Some c /\
    paths (sys (files (user h'))) !! demo_tmp = None /\
    TaskQueue.tasks (queue (user h')) !! 1888 = Some r /\
    overstatus (base r) = OVER_OK /\ TaskData.status r = TASK_Q_FIN /\
    outq h' 5 = outq demo_host 5 ++ ok_reply (str "/1/2/a.jpg").
Proof.
  intros c md5.
  apply (upload_publishes (X := demo_around) (fun _ _ => eq_refl) eq_refl demo_host 5 16777226 (demo_task md5 3)
           (demo_placed md5 3) 1888 demo_tmp (demo_chunks md5 c) c);
    [apply demo_ready|reflexivity|by apply demo_fits|discriminate| | |discriminate|reflexivity|reflexivity
    |reflexivity|reflexivity].
  - by apply demo_chunks_ok.
  - by apply (demo_chunks_ok md5 c).
Defined.

Lemma upload_bad_digest_witness :
  let c := str "abc" in
  let md5 := replicate 17 0 in
  exists h' r p, feed OPER_UP_REQ do_req demo_host 5 (demo_chunks md5 c) = Some (RECV_SEND, h') /\
    paths (sys (files (user h'))) !! str "/data/1/2/a.jpg" = None /\
    TaskQueue.tasks (queue (user h')) !! 1888 = Some r /\
    overstatus (base r) = OVER_E_MD5 /\ TaskData.status r = TASK_Q_FIN /\
    peers (user h') !! 5 = Some p /\ fds (sys (files (user h'))) !! local_in_fd p = None /\
    (forall h'', svc_finiconn h' 5 = Some h'' -> trace h'' = trace h' ++ [Closed (local_in_fd p)]).
Proof.
  intros c md5.
  apply (upload_bad_digest (X := demo_around) (fun _ _ => eq_refl) eq_refl demo_host 5 16777226 (demo_task md5 3)
           (demo_placed md5 3) 1888 demo_tmp (demo_chunks md5 c) c);
    [apply demo_ready|reflexivity|by apply demo_fits|discriminate| | |discriminate|reflexivity|reflexivity
    |vm_compute; discriminate].
  - by apply demo_chunks_ok.
  - by apply (demo_chunks_ok md5 c).
Defined.

Lemma empty_upload_stalls_witness :
  let b := demo_task (Rfc1321.md5 [] ++ [0]) 0 in
  exists h' r lfd, feed OPER_UP_REQ do_req demo_host 5 (SigStream.encode (push_request b) :: replicate 9 [])
      = Some (RECV_ADD_EPOLLIN, h') /\
    receiving true h' 5 1888 lfd lfd [] r /\ processlen (sub r) = lastlen (sub r) /\ outq h' 5 = outq demo_host 5.
Proof.
  intros b.
  apply (empty_upload_stalls (X := demo_around) eq_refl demo_host 5 16777226 b (demo_placed (Rfc1321.md5 [] ++ [0]) 0) 1888 demo_tmp 9);
    [apply demo_ready|reflexivity|by apply demo_fits|discriminate|reflexivity].
Defined.

Lemma stray_answer_crashes_witness :
  let b := set_filename (demo_task (replicate 17 0) 3) (str "a.jpg") in
  exists h1, svc_recv (arrive demo_host 5 (SigStream.encode (push_request b))) 5 = Some (RECV_ADD_EPOLLOUT, h1) /\
    svc_recv (arrive h1 5 (SigStream.encode (stray_answer b))) 5 = None.
Proof.
  intros b. destruct (demo_ready (replicate 17 0) 3) as [(p & P1 & P2 & P3 & _) W (off & qs & rest & Q1 & Q2) _ _ _].
  eapply (stray_answer_crashes (X := demo_around) eq_refl demo_host 5 b demo_peer off qs 1888 rest);
    [reflexivity|discriminate|discriminate|done|reflexivity|done|done| |discriminate|].
  - split; try done; repeat constructor; done.
  - apply (bool_decide_unpack _). vm_compute. exact I.
Defined.

Lemma upload_names_unique_witness :
  let r := get_local_filename demo_host (demo_task [] 3) in
  exists b' h', r = Some (b', h') /\ now demo_host = now demo_host /\ self_ip = self_ip /\
    pic_index (user demo_host) = pic_index (user demo_host) /\ 0 <= pic_index (user h') < 10 ^ 5.
Proof.
  intros r. destruct r as [[b' h']|] eqn:Er; [|vm_compute in Er; discriminate].
  exists b', h'. split; [reflexivity|].
  apply (upload_names_unique demo_site demo_site demo_around demo_around demo_host demo_host
           (demo_task [] 3) (demo_task [] 3) b' b' h' h' Er eq_refl Er eq_refl);
    try (split; vm_compute; congruence).
  vm_compute in Er. injection Er as <- _. reflexivity.
Defined.

End Upload.
