(* ===== verification/Client.v ===== *)
(** * The client library (lib/pfs_api.c)

    [operate_pfs] uploads, changes or deletes a file: it asks the name server
    for a storage server, sends that server the request and the file, and reads
    the answer.  What the kernel does is a script: the outcomes of the calls to
    [createsocket], [select], [send] or [sendfile64] and [recv], in their order.
    [None]: the script is used up, or the process crashes because a string
    leaves its buffer.

    The state the library keeps between calls is [thread]; the state of one call
    is [call]. *)

From S2P Require Import Prelude.
From S2P Require Import CString.
From S2P Require Import Protocol.
From S2P Require Import MyBuff.
From S2P Require Import MD5.
From S2P Require Import TaskData.
From S2P Require Import Records.
From S2P Require Import LocalFile.
From S2P Require Import EventLoop.
From S2P Require Import SigStream.
From S2P Require Import Wire.
From S2P Require Import Transfer.
From S2P Require Import NameServer.
From S2P Require Import Upload.

Module Client.
Import MyBuff Conn Loop Sig Fs.

(** ** Data *)

Definition SOCK_SWITCH : Z := 0x01.
Definition SOCK_DATA_OVER : Z := 0x02.
Definition SOCK_CLOSE : Z := 0x10.
Definition SOCK_SEND : Z := 0x20.
Definition SOCK_SELECT_ERR : Z := 0x30.
Definition SOCK_COMP : Z := 0x40.
Definition SOCK_SELECT_TO : Z := 0x60.
Definition SOCK_RECV : Z := 0x80.

Definition GET_STORAGE : Z := 0.
Definition PUT_DATA : Z := 1.

Definition ADD_PATH_BY_STORAGE : Z := 0.
Definition ADD_PATH_BY_UPLOAD : Z := 1.
Definition ADD_DIR_BY_UPLOAD : Z := 4.

Definition TASK_ADDFILE : Z := 48.
Definition TASK_DELFILE : Z := 49.
Definition TASK_MODYFILE : Z := 50.

Definition PFS_OK : Z := 0.
Definition PFS_CON_NAMESERVER : Z := 3.
Definition PFS_CON_STORAGE : Z := 4.
Definition PFS_LOCAL_FILE : Z := 5.
Definition PFS_ERR_TYPE : Z := 7.
Definition PFS_ERR_INFO_UNCOM : Z := 8.
Definition PFS_STORAGE_FILE : Z := 10.

(** The arrays are strings: [errmsg[256]], [localfile[256]], [remotefile[256]],
    [group[128]]. *)
Record t_api_info := mk_api {
  errmsg : bytes;
  localfile : bytes;
  remotefile : bytes;
  group : bytes;
  a_type : Z;
  addtype : Z;
  nametype : Z
}.

Record t_api_cache := mk_cache { uptime : Z; cache_ip : bytes; cache_port : Z; cache_fd : Z }.

(** The thread-local variables. *)
Record thread := mk_thread {
  client_stat : Z;
  ns_cache_flag : bool;
  ns_cache : t_api_cache
}.

(** [select]: an error, nothing within five seconds, or the socket ready for
    writing or reading. *)
Inductive turn :=
| SelectErr
| SelectTimeout
| Ready (w r : bool).

(** What the kernel will answer. *)
Record script := mk_script {
  connects : list Z;
  turns : list turn;
  sends : list send_result;
  recvs : list recv_result;
  clock : Z
}.

Record call := mk_call {
  sock : Z;
  havedata : bool;
  sendb : mybuff;
  recvb : mybuff;
  result : bytes;               (* the whole array, 2048 bytes *)
  api : t_api_info;
  th : thread;
  local : fs;
  io : script;
  dials : list (bytes * Z);     (* the addresses [createsocket] was called with *)
  events : list event
}.

Definition set_errmsg (a : t_api_info) (m : bytes) : t_api_info :=
  mk_api m (localfile a) (remotefile a) (group a) (a_type a) (addtype a) (nametype a).
Definition set_addtype (a : t_api_info) (t : Z) : t_api_info :=
  mk_api (errmsg a) (localfile a) (remotefile a) (group a) (a_type a) t (nametype a).
Definition set_answer (a : t_api_info) (r g : bytes) : t_api_info :=
  mk_api (errmsg a) (localfile a) r g (a_type a) (addtype a) (nametype a).
Definition set_stat (t : thread) (st : Z) : thread := mk_thread st (ns_cache_flag t) (ns_cache t).

Section Api.
Context {E : Env} {K : Kernel}.

(** ** Sending and receiving *)

(** [do_recv]; [total] is what earlier calls of the loop have read. *)
Fixpoint do_recv (total : Z) (b : mybuff) (rs : list recv_result) : option (Z * mybuff * list recv_result) :=
  match rs with
  | [] => None
  | Got d :: rs' =>
      let b := put b d in
      if zlen d =? 2048 then do_recv (total + zlen d) b rs' else Some (total + zlen d, b, rs')
  | Eof :: rs' => Some (-1, b, rs')
  | RErrno e :: rs' =>
      if e =? EINTR then do_recv total b rs'
      else if e =? EAGAIN then Some (0, b, rs')
      else Some (-1, b, rs')
  end.

(** The two loops of [do_send].  [n] is a [size_t]: the -1 of a failed call is
    the largest number there is.  [Some None]: go on to the file. *)
Fixpoint send_data (fd : Z) (b : mybuff) (d : bytes) (ss : list send_result)
  : option (option Z * mybuff * list event * list send_result) :=
  match ss with
  | [] => None
  | s :: ss' =>
      let n := u64 (s_n s) in
      if 0 <? n then
        let ev := if 0 <? s_n s then [Sent fd (take (Z.to_nat (s_n s)) d)] else [] in
        Some (if n <? zlen d then Some SOCK_SEND else None, mybuff_skipdata b n, ev, ss')
      else if s_errno s =? EINTR then send_data fd b d ss'
      else Some (Some (if s_errno s =? EAGAIN then SOCK_SEND else SOCK_CLOSE), b, [], ss')
  end.

Fixpoint send_file (fd : Z) (b : mybuff) (lfd start len : Z) (ss : list send_result)
  : option (Z * mybuff * list event * list send_result) :=
  match ss with
  | [] => None
  | s :: ss' =>
      let n := u64 (s_n s) in
      if 0 <? n then
        let '(b, cl) := mybuff_skipfile b n in
        let ev := if 0 <? s_n s then [SentFile fd lfd start (s_n s)] else [] in
        Some (if n <? len then SOCK_SEND else SOCK_COMP, b, ev ++ map Closed cl, ss')
      else if s_errno s =? EINTR then send_file fd b lfd start len ss'
      else Some (if s_errno s =? EAGAIN then SOCK_SEND else SOCK_CLOSE, b, [], ss')
  end.

Definition do_send (fd : Z) (b : mybuff) (ss : list send_result) : option (Z * mybuff * list event * list send_result) :=
  let '(rc, d) := mybuff_getdata b in
  '(ret, b, ev, ss) ← (if rc =? 0 then send_data fd b d ss else Some (None, b, [], ss));
  match ret with
  | Some r => Some (r, b, ev, ss)
  | None =>
      match mybuff_getfile b with
      | None => Some (SOCK_COMP, b, ev, ss)
      | Some (lfd, start, len) =>
          '(r, b, ev', ss) ← send_file fd b lfd start len ss;
          Some (r, b, ev ++ ev', ss)
      end
  end.

(** ** Requests and answers *)

(** [check_req]: what came, copied over the start of [result]. *)
Definition check_req (stat : Z) (b : mybuff) (res : bytes) : option (Z * bytes) :=
  let '(rc, d) := mybuff_getdata b in
  if negb (rc =? 0) then Some (SOCK_RECV, res)
  else
    let '(ret, hd, body) := parse_sig_msg zero_head zero_body d in
    if 0 <? ret then Some (SOCK_RECV, res)
    else if ret =? E_PACKET_ERR_CLOSE then Some (SOCK_CLOSE, res)
    else if 2048 <? bodylen hd then None
    else
      let res := memcpy res 0 (take (Z.to_nat (bodylen hd)) body) in
      Some (if stat =? GET_STORAGE then SOCK_SWITCH else SOCK_DATA_OVER, res).

(** [createsocket(ip, port)]. *)
Definition createsocket (c : call) (ip : bytes) (port : Z) : option (Z * call) :=
  match connects (io c) with
  | [] => None
  | fd :: cs =>
      let sc := mk_script cs (turns (io c)) (sends (io c)) (recvs (io c)) (clock (io c)) in
      Some (fd, mk_call (sock c) (havedata c) (sendb c) (recvb c) (result c) (api c) (th c) (local c) sc
                  (dials c ++ [(ip, port)]) (events c))
  end.

Definition set_api (c : call) (a : t_api_info) : call :=
  mk_call (sock c) (havedata c) (sendb c) (recvb c) (result c) a (th c) (local c) (io c) (dials c) (events c).
Definition set_result (c : call) (r : bytes) : call :=
  mk_call (sock c) (havedata c) (sendb c) (recvb c) r (api c) (th c) (local c) (io c) (dials c) (events c).
Definition set_th (c : call) (t : thread) : call :=
  mk_call (sock c) (havedata c) (sendb c) (recvb c) (result c) (api c) t (local c) (io c) (dials c) (events c).
Definition set_sock (c : call) (fd : Z) (hd : bool) : call :=
  mk_call fd hd (sendb c) (recvb c) (result c) (api c) (th c) (local c) (io c) (dials c) (events c).
Definition emit (c : call) (ev : list event) : call :=
  mk_call (sock c) (havedata c) (sendb c) (recvb c) (result c) (api c) (th c) (local c) (io c) (dials c) (events c ++ ev).

(** [connect_storage(result, errmsg)]; the colon is overwritten. *)
Definition connect_storage (c : call) : option (Z * call) :=
  let s := until0 (result c) in
  match strchr s 58 with
  | None =>
      let m := str "errmsg:" ++ s in
      if 256 <=? zlen m then None else Some (-1, set_api c (set_errmsg (api c) m))
  | Some i =>
      let ip := take i s in
      let port := atoi (drop (S i) s) in
      '(fd, c) ← createsocket (set_result c (memcpy (result c) i [0])) ip port;
      let t := th c in
      Some (fd, if (0 <=? fd) && ns_cache_flag t && (cache_port (ns_cache t) =? 0)
                then set_th c (mk_thread (client_stat t) (ns_cache_flag t) (mk_cache (clock (io c)) (snprintf 16 ip) port (-1)))
                else c)
  end.

(** [stat] of a regular file: its time and its size. *)
Definition stat (f : fs) (p : bytes) : option (Z * Z) :=
  i ← paths f !! p; c ← inodes f !! i; Some (default 0 (times f !! i), zlen c).

Definition get_localfile_stat (f : fs) (b : t_task_base) : option t_task_base :=
  '(mt, size) ← stat f (filename b);
  m ← getfilemd5 f (filename b);
  Some (mk_base (filename b) (tmpfile b) (retfile b) (m ++ [0]) (dstip b) (b_starttime b) mt size
          (type b) (retry b) (overstatus b)).

Definition rename_task (b : t_task_base) (n : bytes) : t_task_base :=
  mk_base n (tmpfile b) (retfile b) (filemd5 b) (dstip b) (b_starttime b) (mtime b) (fsize b)
          (type b) (retry b) (overstatus b).

(** The task that is sent to the storage server, and the way its name is to be
    understood; [None] when the file cannot be read or is empty. *)
Definition request_task (f : fs) (a : t_api_info) : option (t_task_base * t_api_info) :=
  let base n := mk_base n [] [] (replicate 17 0) 0 0 0 0 (a_type a) 0 0 in
  if a_type a =? TASK_DELFILE then Some (base (snprintf 256 (remotefile a)), a)
  else
    b ← get_localfile_stat f (base (snprintf 256 (localfile a)));
    if fsize b =? 0 then None
    else
      let '(b, a) := if a_type a =? TASK_MODYFILE
                     then (rename_task b (snprintf 256 (47 :: remotefile a)), set_addtype a ADD_PATH_BY_UPLOAD)
                     else (b, a) in
      Some (if addtype a =? ADD_DIR_BY_UPLOAD then rename_task b (snprintf 256 (remotefile a)) else b, a).

(** [create_req_msg]: both buffers are emptied and the request is put in the
    one for sending; -1 when the file cannot be sent. *)
Definition create_req_msg (c : call) : Z * call :=
  let '(sb, cl1) := mybuff_reinit init_buff_size junk true (sendb c) in
  let '(rb, cl2) := mybuff_reinit init_buff_size junk true (recvb c) in
  let ev := events c ++ map Closed (cl1 ++ cl2) in
  let done rc sb a f ev := (rc, mk_call (sock c) (havedata c) sb rb (result c) a (th c) f (io c) (dials c) ev) in
  if client_stat (th c) =? GET_STORAGE then
    let g := group (api c) in
    let m := if a_type (api c) =? TASK_ADDFILE
             then create_sig_msg NameServer.UPLOAD_REQ (nametype (api c)) g (zlen g)
             else create_sig_msg NameServer.MODI_DEL_REQ (addtype (api c)) g (zlen g) in
    done 0 (put sb m) (api c) (local c) ev
  else
    match request_task (local c) (api c) with
    | None => done (-1) sb (api c) (local c) ev
    | Some (b, a) =>
        let sb := put sb (create_sig_msg Transfer.CMD_PUT_FILE_REQ (addtype a) (Wire.base_image b) Wire.sizeof_base) in
        if type b =? TASK_DELFILE then done 0 sb a (local c) ev
        else
          match open_read (local c) (localfile a) with
          | (inr _, f) => done (-1) sb a f ev
          | (inl lfd, f) =>
              let '(sb, cl) := mybuff_setfile sb lfd 0 (fsize b) in
              done 0 sb a f (ev ++ map Closed cl)
          end
    end.

(** [check_rsp_from_storage]: [t] stops one character before the first that is
    no slash, be that the bar in front of the name. *)
Definition skip_slashes (s : bytes) : bytes :=
  (fix go (prev : Z) (s : bytes) : bytes :=
     match s with
     | c :: s' => if c =? 47 then go 47 s' else prev :: s
     | [] => [prev]
     end) 124 s.

Definition check_rsp_from_storage (a : t_api_info) : option (Z * t_api_info) :=
  if negb (strncmp0 (errmsg a) (str "OK|") 3) then Some (-1, a)
  else
    let s := drop 3 (errmsg a) in
    match strchr s 124 with
    | None => Some (-1, a)
    | Some i =>
        let r := skip_slashes (take i s) in
        let g := drop (S i) s in
        if 128 <=? zlen g then None else Some (0, set_answer a r g)
    end.

(** ** The call *)

(** The end of [upload_file_inter], at [up_err]. *)
Definition up_err (ret : Z) (c : call) : option (Z * call) :=
  let cl1 := fst (mybuff_fini init_buff_size junk true (sendb c)) in
  let cl2 := fst (mybuff_fini init_buff_size junk true (recvb c)) in
  let c := emit c ((if 0 <? sock c then [Closed (sock c)] else []) ++ map Closed (cl1 ++ cl2)) in
  if negb (ret =? SOCK_DATA_OVER) then Some (ret, c)
  else
    '(rc, a) ← check_rsp_from_storage (api c);
    Some (if negb (rc =? 0) then PFS_STORAGE_FILE else PFS_OK, set_api c a).

(** The answer of the name server has come: [inl] to go on, [inr] to end. *)
Definition switch (c : call) : option (call + Z * call) :=
  let c := set_th (emit c [Closed (sock c)]) (set_stat (th c) PUT_DATA) in
  let '(rc, c) := create_req_msg c in
  if negb (rc =? 0) then Some (inr (PFS_LOCAL_FILE, c))
  else
    '(fd, c) ← connect_storage c;
    let c := set_sock c fd (havedata c) in
    if fd <? 0 then Some (inr (PFS_CON_STORAGE, set_api c (set_errmsg (api c) (snprintf 256 (until0 (result c))))))
    else Some (inl (set_sock c fd true)).

(** The two halves of a turn of the loop: the socket can be written, or read. *)
Definition write_turn (c : call) : option (Z * call) :=
  '(ret, sb, ev, ss) ← do_send (sock c) (sendb c) (sends (io c));
  let sc := mk_script (connects (io c)) (turns (io c)) ss (recvs (io c)) (clock (io c)) in
  Some (ret, mk_call (sock c) (ret =? SOCK_SEND) sb (recvb c) (result c) (api c) (th c) (local c) sc (dials c) (events c ++ ev)).

Definition read_turn (c : call) : option (call + Z * call) :=
  '(n, rb, rs) ← do_recv 0 (recvb c) (recvs (io c));
  let sc := mk_script (connects (io c)) (turns (io c)) (sends (io c)) rs (clock (io c)) in
  let c := mk_call (sock c) (havedata c) (sendb c) rb (result c) (api c) (th c) (local c) sc (dials c) (events c) in
  if n <? 0 then Some (inr (n, c))
  else if n =? 0 then Some (inl c)
  else
    '(ret, res) ← check_req (client_stat (th c)) (recvb c) (result c);
    let c := set_result c res in
    if ret =? SOCK_SWITCH then switch c
    else if ret =? SOCK_DATA_OVER then Some (inr (ret, set_api c (set_errmsg (api c) (snprintf 256 (until0 res)))))
    else if ret =? SOCK_CLOSE then Some (inr (ret, c))
    else Some (inl c).

Fixpoint select_loop (ts : list turn) (c : call) : option (Z * call) :=
  match ts with
  | [] => None
  | SelectErr :: _ => up_err SOCK_SELECT_ERR c
  | SelectTimeout :: _ =>
      up_err SOCK_SELECT_TO (set_api c (set_errmsg (api c)
        (snprintf 256 (str "time out " ++ dec (client_stat (th c)) ++ str "!"))))
  | Ready w r :: ts' =>
      '(ret, c) ← (if w && havedata c then write_turn c else Some (0, c));
      if ret =? SOCK_CLOSE then up_err ret c
      else if r then
        o ← read_turn c;
        match o with
        | inl c => select_loop ts' c
        | inr (ret, c) => up_err ret c
        end
      else select_loop ts' c
  end.

(** The socket the call begins with, from the cache or the name server. *)
Definition first_socket (nameip : bytes) (nameport : Z) (c : call) : option (Z * call) :=
  let c := set_th c (set_stat (th c) GET_STORAGE) in
  let k := ns_cache (th c) in
  '(fd, c) ← (if ns_cache_flag (th c) && (0 <? cache_port k) then
                if 0 <? cache_fd k then Some (cache_fd k, set_th c (set_stat (th c) PUT_DATA))
                else
                  '(fd, c) ← createsocket c (cache_ip k) (cache_port k);
                  Some (fd, if fd <? 0 then c else set_th c (set_stat (th c) PUT_DATA))
              else Some (-1, c));
  if fd <? 0 then createsocket c nameip nameport else Some (fd, c).

Definition upload_file_inter (nameip : bytes) (nameport : Z) (c : call) : option (Z * call) :=
  '(fd, c) ← first_socket nameip nameport c;
  if fd <? 0 then Some (PFS_CON_NAMESERVER, c)
  else
    let '(rc, c) := create_req_msg (set_sock c fd true) in
    if negb (rc =? 0) then up_err PFS_LOCAL_FILE c else select_loop (turns (io c)) c.

(** A call begins with empty buffers. *)
Definition new_call (a : t_api_info) (t : thread) (f : fs) (sc : script) : call :=
  mk_call (-1) true mybuff_init mybuff_init (replicate 2048 0) a t f sc [] [].

Definition operate_pfs (nameip : bytes) (nameport : Z) (a : t_api_info) (t : thread) (f : fs) (sc : script)
  : option (Z * call) :=
  let c := new_call a t f sc in
  if (TASK_MODYFILE <? a_type a) || (a_type a <? TASK_ADDFILE) then Some (PFS_ERR_TYPE, c)
  else if a_type a =? TASK_ADDFILE then
    if zlen (localfile a) =? 0 then Some (PFS_ERR_INFO_UNCOM, c) else upload_file_inter nameip nameport c
  else if (zlen (remotefile a) =? 0) || (zlen (group a) =? 0) then Some (PFS_ERR_INFO_UNCOM, c)
  else upload_file_inter nameip nameport c.

Definition init_ns_cache (t : thread) : thread := mk_thread (client_stat t) true (mk_cache 0 [] 0 0).


(** ** What goes over the wire *)

Definition file_at (f : fs) (lfd : Z) : bytes :=
  match fds f !! lfd with Some (i, _) => default [] (inodes f !! i) | None => [] end.

Definition sent_by (f : fs) (fd : Z) (e : event) : bytes :=
  match e with
  | Closed _ => []
  | Sent fd' d => if fd' =? fd then d else []
  | SentFile fd' lfd off n => if fd' =? fd then take (Z.to_nat n) (drop (Z.to_nat off) (file_at f lfd)) else []
  end.

(** The bytes sent on a socket. *)
Definition wire (f : fs) (fd : Z) (ev : list event) : bytes := concat (map (sent_by f fd) ev).

Lemma wire_app f fd ev1 ev2 : wire f fd (ev1 ++ ev2) = wire f fd ev1 ++ wire f fd ev2.
Proof. unfold wire. by rewrite map_app, concat_app. Qed.

Lemma wire_closed f fd l : wire f fd (map Closed l) = [].
Proof. induction l; [done|]. by unfold wire in *. Qed.

(** A call after some turns that only write. *)
Record wrote (c c' : call) (rest : list send_result) : Prop := mk_wrote {
  wr_sock : sock c' = sock c;
  wr_recvb : recvb c' = recvb c;
  wr_result : result c' = result c;
  wr_api : api c' = api c;
  wr_th : th c' = th c;
  wr_local : local c' = local c;
  wr_io : io c' = mk_script (connects (io c)) (turns (io c)) rest (recvs (io c)) (clock (io c));
  wr_dials : dials c' = dials c
}.

Lemma wrote_trans c1 c2 c3 r1 r2 : wrote c1 c2 r1 -> wrote c2 c3 r2 -> wrote c1 c3 r2.
Proof. intros [] [Hs ? ? ? ? ? Hio ?]. split; try congruence. rewrite Hio. destruct (io c2). simplify_eq/=. done. Qed.

Lemma wrote_refl c rest : sends (io c) = rest -> wrote c c rest.
Proof. intros <-. split; try done. by destruct (io c). Qed.

Definition ok_send (n : Z) : send_result := mk_sent n 0.
Definition sum (l : list Z) : Z := foldr Z.add 0 l.

(** What is still to be sent. *)
Definition pending (c : call) (d : bytes) (fl : option (Z * Z * Z)) : Prop :=
  wf (sendb c) /\ MyBuff.contents (sendb c) = d /\ file (sendb c) = fl.

Lemma getfile_spec b lfd off len : file b = Some (lfd, off, len) -> 0 < len -> mybuff_getfile b = Some (lfd, off, len).
Proof.
  unfold file, mybuff_getfile. intros Hf Hl. destruct (0 <=? MyBuff.fd b); [|done]. injection Hf as <- <- <-.
  apply Z.ltb_lt in Hl. by rewrite Hl.
Qed.

Lemma skipfile_spec b lfd off len n :
  wf b -> file b = Some (lfd, off, len) ->
  exists b' cl, mybuff_skipfile b n = (b', cl) /\ wf b' /\ MyBuff.contents b' = MyBuff.contents b /\
    file b' = if len <=? n then None else Some (lfd, off + n, len - n).
Proof.
  intros Hw. unfold file, mybuff_skipfile. destruct (0 <=? MyBuff.fd b) eqn:Ef; [|done]. intros [= <- <- <-].
  destruct (flen b <=? n); eexists _, _; (split; [done|]); (split; [done|]); (split; [done|]); simpl; by rewrite ?Ef.
Qed.

(** A piece of the data that is not the last. *)
Lemma write_piece c d fl k rest :
  pending c d fl -> 0 < k < zlen d -> zlen d < 2 ^ 64 -> sends (io c) = ok_send k :: rest ->
  exists c', write_turn c = Some (SOCK_SEND, c') /\ havedata c' = true /\ wrote c c' rest /\
    pending c' (drop (Z.to_nat k) d) fl /\
    forall f fd, wire f fd (events c') = wire f fd (events c) ++ (if sock c =? fd then take (Z.to_nat k) d else []).
Proof.
  intros (Hw & Hd & Hf) Hk Hl Hs. unfold write_turn, do_send. rewrite getdata_spec, Hd by done.
  rewrite decide_False by (intros ->; simpl in Hk; lia). rewrite Hs. change (0 =? 0) with true. cbv iota.
  cbn [send_data ok_send s_n]. rewrite u64_small by lia. rewrite (proj2 (Z.ltb_lt 0 k)), (proj2 (Z.ltb_lt k (zlen d))) by lia.
  cbn [mbind option_bind]. eexists. split; [done|]. split; [done|]. split; [by split|].
  destruct (skipdata_spec (sendb c) k Hw ltac:(lia)) as (W & C & F). rewrite Hd in C. rewrite Hf in F. split; [by split_and!|].
  intros f fd. cbn [events]. rewrite wire_app. f_equal. unfold wire. simpl. by rewrite app_nil_r.
Qed.

Lemma write_pieces ks : forall c d fl rest ts,
  havedata c = true -> pending c d fl -> Forall (fun k => 0 < k) ks -> sum ks < zlen d -> zlen d < 2 ^ 64 ->
  sends (io c) = map ok_send ks ++ rest ->
  exists c', select_loop (replicate (length ks) (Ready true false) ++ ts) c = select_loop ts c' /\ havedata c' = true /\
    wrote c c' rest /\ pending c' (drop (Z.to_nat (sum ks)) d) fl /\
    forall f fd, wire f fd (events c') = wire f fd (events c) ++ (if sock c =? fd then take (Z.to_nat (sum ks)) d else []).
Proof.
  induction ks as [|k ks IH]; intros c d fl rest ts Hh Hp HF Hsum Hl Hs.
  { exists c. split; [done|]. split; [done|]. split; [by apply wrote_refl|].
    split; [done|]. intros f fd. destruct (_ =? _); by rewrite ?app_nil_r. }
  apply Forall_cons in HF as [Hk HF]. cbn [sum foldr] in Hsum. fold (sum ks) in Hsum.
  assert (H0 : 0 <= sum ks) by (clear - HF; induction HF; simpl; [done|]; unfold sum in *; lia).
  destruct (write_piece c d fl k (map ok_send ks ++ rest) Hp ltac:(lia) Hl Hs) as (c1 & E1 & H1 & W1 & P1 & T1).
  cbn [length replicate app select_loop]. rewrite Hh. cbn [andb]. rewrite E1. cbn [mbind option_bind].
  change (SOCK_SEND =? SOCK_CLOSE) with false. cbv iota.
  destruct (IH c1 (drop (Z.to_nat k) d) fl rest ts H1 P1 HF) as (c2 & E2 & H2 & W2 & P2 & T2).
  { rewrite length_drop. lia. } { rewrite length_drop. lia. } { by rewrite (wr_io _ _ _ W1). }
  exists c2. split; [done|]. split; [done|]. split; [by apply (wrote_trans _ c1 _ _ _ W1)|].
  replace (Z.to_nat (sum (k :: ks))) with (Z.to_nat k + Z.to_nat (sum ks))%nat by (simpl; unfold sum in *; lia).
  split; [by rewrite drop_drop in P2|]. intros f fd. rewrite T2, T1, (wr_sock _ _ _ W1).
  destruct (_ =? _); [|by rewrite !app_nil_r]. rewrite <- app_assoc. f_equal. apply take_take_drop.
Qed.

(** The last piece of the data, with no file behind it. *)
Lemma write_last c d rest :
  pending c d None -> d <> [] -> zlen d < 2 ^ 64 -> sends (io c) = ok_send (zlen d) :: rest ->
  exists c', write_turn c = Some (SOCK_COMP, c') /\ havedata c' = false /\ wrote c c' rest /\ pending c' [] None /\
    forall f fd, wire f fd (events c') = wire f fd (events c) ++ (if sock c =? fd then d else []).
Proof.
  intros (Hw & Hd & Hf) Hne Hl Hs. unfold write_turn, do_send. rewrite getdata_spec, Hd, decide_False by done. rewrite Hs.
  change (0 =? 0) with true. cbv iota. assert (0 < zlen d) by (destruct d; [done|rewrite length_cons; lia]).
  cbn [send_data ok_send s_n]. rewrite u64_small by lia. rewrite (proj2 (Z.ltb_lt 0 (zlen d))), Z.ltb_irrefl by lia.
  cbn [mbind option_bind]. destruct (skipdata_spec (sendb c) (zlen d) Hw ltac:(lia)) as (W & C & F). rewrite Hd in C. rewrite Hf in F.
  rewrite (getfile_none _ F). cbn [mbind option_bind]. eexists. split; [done|]. split; [done|]. split; [by split|].
  split; [unfold pending; cbn [sendb]; split_and!; [done| |done]; rewrite C; apply drop_ge; lia|].
  intros f fd. cbn [events]. rewrite wire_app. f_equal. unfold wire. simpl. rewrite app_nil_r.
  destruct (_ =? _); [|done]. apply take_ge. lia.
Qed.

Definition file_rest (lfd off len m : Z) : option (Z * Z * Z) := if len <=? m then None else Some (lfd, off + m, len - m).

(** A piece of the file, when the data is gone. *)
Lemma write_file_piece c lfd off len m rest :
  pending c [] (Some (lfd, off, len)) -> 0 < m <= len -> len < 2 ^ 64 -> 0 <= off -> sends (io c) = ok_send m :: rest ->
  exists c' ret, write_turn c = Some (ret, c') /\ ret <> SOCK_CLOSE /\ havedata c' = (m <? len) /\ wrote c c' rest /\
    pending c' [] (file_rest lfd off len m) /\
    forall f fd, wire f fd (events c') = wire f fd (events c) ++
      (if sock c =? fd then take (Z.to_nat m) (drop (Z.to_nat off) (file_at f lfd)) else []).
Proof.
  intros (Hw & Hd & Hf) Hm Hl Ho Hs. unfold write_turn, do_send. rewrite getdata_spec, Hd by done. rewrite decide_True by done.
  change (-1 =? 0) with false. cbv iota. cbn [mbind option_bind]. rewrite (getfile_spec _ _ _ _ Hf) by lia. rewrite Hs.
  cbn [send_file ok_send s_n]. rewrite u64_small by lia. rewrite (proj2 (Z.ltb_lt 0 m)) by lia.
  destruct (skipfile_spec (sendb c) lfd off len m Hw Hf) as (b & cl & -> & W & C & F). cbn [mbind option_bind].
  eexists _, _. split; [done|]. split; [by destruct (m <? len)|]. split; [by destruct (m <? len)|]. split; [by split|].
  split; [unfold pending; cbn [sendb]; split_and!; [done|by rewrite C|done]|].
  intros f fd. cbn [events]. rewrite !wire_app, wire_closed. f_equal. unfold wire. simpl. by rewrite !app_nil_r.
Qed.

(** The last piece of the data and the first of the file, in one turn. *)
Lemma write_join c d lfd off len m rest :
  pending c d (Some (lfd, off, len)) -> d <> [] -> zlen d < 2 ^ 64 -> 0 < m <= len -> len < 2 ^ 64 -> 0 <= off ->
  sends (io c) = ok_send (zlen d) :: ok_send m :: rest ->
  exists c' ret, write_turn c = Some (ret, c') /\ ret <> SOCK_CLOSE /\ havedata c' = (m <? len) /\ wrote c c' rest /\
    pending c' [] (file_rest lfd off len m) /\
    forall f fd, wire f fd (events c') = wire f fd (events c) ++
      (if sock c =? fd then d ++ take (Z.to_nat m) (drop (Z.to_nat off) (file_at f lfd)) else []).
Proof.
  intros (Hw & Hd & Hf) Hne Hdl Hm Hl Ho Hs. unfold write_turn, do_send. rewrite getdata_spec, Hd, decide_False by done. rewrite Hs.
  change (0 =? 0) with true. cbv iota. assert (0 < zlen d) by (destruct d; [done|rewrite length_cons; lia]).
  cbn [send_data ok_send s_n]. rewrite u64_small by lia. rewrite (proj2 (Z.ltb_lt 0 (zlen d))), Z.ltb_irrefl by lia.
  cbn [mbind option_bind]. destruct (skipdata_spec (sendb c) (zlen d) Hw ltac:(lia)) as (W & C & F). rewrite Hd in C. rewrite Hf in F.
  rewrite (getfile_spec _ _ _ _ F) by lia. cbn [send_file ok_send s_n]. rewrite u64_small by lia. rewrite (proj2 (Z.ltb_lt 0 m)) by lia.
  destruct (skipfile_spec _ lfd off len m W F) as (b & cl & -> & W' & C' & F'). cbn [mbind option_bind].
  eexists _, _. split; [done|]. split; [by destruct (m <? len)|]. split; [by destruct (m <? len)|]. split; [by split|].
  split; [unfold pending; cbn [sendb]; split_and!; [done| |done]; rewrite C', C; apply drop_ge; lia|].
  intros f fd. cbn [events]. rewrite !wire_app, wire_closed, app_nil_r. f_equal. unfold wire. simpl. rewrite !app_nil_r.
  destruct (_ =? _); [|done]. f_equal. apply take_ge. lia.
Qed.

(** One turn that can only write. *)
Lemma loop_write ts c c' ret :
  havedata c = true -> write_turn c = Some (ret, c') -> ret <> SOCK_CLOSE ->
  select_loop (Ready true false :: ts) c = select_loop ts c'.
Proof.
  intros Hh E1 Hr. cbn [select_loop]. rewrite Hh. cbn [andb]. rewrite E1. cbn [mbind option_bind].
  apply Z.eqb_neq in Hr. by rewrite Hr.
Qed.

Lemma sum_nonneg ks : Forall (fun k => 0 < k) ks -> 0 <= sum ks.
Proof. induction 1; simpl; [done|]. unfold sum in *. lia. Qed.

Lemma write_file ms : forall c lfd off len rest ts,
  havedata c = true -> pending c [] (Some (lfd, off, len)) -> ms <> [] -> Forall (fun m => 0 < m) ms -> sum ms = len ->
  0 <= off -> len < 2 ^ 64 -> sends (io c) = map ok_send ms ++ rest ->
  exists c', select_loop (replicate (length ms) (Ready true false) ++ ts) c = select_loop ts c' /\ havedata c' = false /\
    wrote c c' rest /\ pending c' [] None /\
    forall f fd, wire f fd (events c') = wire f fd (events c) ++
      (if sock c =? fd then take (Z.to_nat len) (drop (Z.to_nat off) (file_at f lfd)) else []).
Proof.
  induction ms as [|m ms IH]; intros c lfd off len rest ts Hh Hp Hne HF Hsum Ho Hl Hs; [done|].
  apply Forall_cons in HF as [Hm HF]. pose proof (sum_nonneg ms HF) as H0. cbn [sum foldr] in Hsum. fold (sum ms) in Hsum.
  destruct (write_file_piece c lfd off len m (map ok_send ms ++ rest) Hp ltac:(lia) Hl Ho Hs) as (c1 & ret & E1 & R1 & H1 & W1 & P1 & T1).
  cbn [length replicate app]. rewrite (loop_write _ _ _ _ Hh E1 R1). unfold file_rest in P1.
  destruct ms as [|m' ms'].
  - simpl in Hsum. assert (m = len) by lia. subst m. rewrite Z.leb_refl in P1. rewrite Z.ltb_irrefl in H1.
    exists c1. split; [done|]. split; [done|]. split; [done|]. by split.
  - assert (0 < sum (m' :: ms')) by (apply Forall_cons in HF as [? HF']; pose proof (sum_nonneg _ HF'); simpl; unfold sum in *; lia).
    rewrite (proj2 (Z.leb_gt len m)) in P1 by lia. rewrite (proj2 (Z.ltb_lt m len)) in H1 by lia.
    destruct (IH c1 lfd (off + m) (len - m) rest ts H1 P1) as (c2 & E2 & H2 & W2 & P2 & T2); try done; try lia.
    { by rewrite (wr_io _ _ _ W1). }
    exists c2. split; [done|]. split; [done|]. split; [by apply (wrote_trans _ c1 _ _ _ W1)|]. split; [done|].
    intros f fd. rewrite T2, T1, (wr_sock _ _ _ W1). destruct (_ =? _); [|by rewrite !app_nil_r].
    rewrite <- app_assoc. f_equal. replace (Z.to_nat len) with (Z.to_nat m + Z.to_nat (len - m))%nat by lia.
    rewrite <- take_take_drop, drop_drop. do 3 f_equal. lia.
Qed.

(** ** Reading *)

Definition got (c : call) (rb : mybuff) (rs : list recv_result) : call :=
  mk_call (sock c) (havedata c) (sendb c) rb (result c) (api c) (th c) (local c)
    (mk_script (connects (io c)) (turns (io c)) (sends (io c)) rs (clock (io c))) (dials c) (events c).

Definition chunk_ok (d : bytes) : Prop := d <> [] /\ zlen d <> 2048.

Lemma recv_chunk b d rs : chunk_ok d -> do_recv 0 b (Got d :: rs) = Some (zlen d, put b d, rs).
Proof. intros [_ Hd]. cbn [do_recv]. apply Z.eqb_neq in Hd. by rewrite Hd. Qed.

(** Part of a message, and the whole of it. *)
Lemma check_waits st b res m k :
  wf b -> SigStream.msg_ok m -> (k < length (SigStream.encode m))%nat -> MyBuff.contents b = take k (SigStream.encode m) ->
  check_req st b res = Some (SOCK_RECV, res).
Proof.
  intros W (M1 & M2 & M3) Hk Hc. unfold check_req. rewrite getdata_spec by done. case_decide; [done|].
  simpl (negb _). cbv iota. rewrite Hc.
  pose proof (parse_prefix zero_head zero_body (SigStream.m_cmd m) (SigStream.m_status m) (SigStream.m_body m)
    (zlen (SigStream.m_body m)) k M1 M2 ltac:(lia) ltac:(lia) Hk) as Hp.
  fold (SigStream.encode m) in Hp. destruct (parse_sig_msg _ _ _) as [[r hd] bb]. cbn [fst] in Hp.
  apply Z.ltb_lt in Hp. by rewrite Hp.
Qed.

Lemma check_whole st b res m :
  wf b -> SigStream.msg_ok m -> zlen (SigStream.m_body m) <= 2048 -> MyBuff.contents b = SigStream.encode m ->
  check_req st b res = Some (if st =? GET_STORAGE then SOCK_SWITCH else SOCK_DATA_OVER, memcpy res 0 (SigStream.m_body m)).
Proof.
  intros W Hm Hl Hc. pose proof (SigStream.length_message m Hm) as Hlen. destruct Hm as (M1 & M2 & M3).
  unfold check_req. rewrite getdata_spec, Hc by done. rewrite decide_False.
  2: { intros Hx. apply (f_equal length) in Hx. simpl length in Hx at 2. lia. }
  simpl (negb _). cbv iota. rewrite <- (app_nil_r (SigStream.encode m)). unfold SigStream.encode.
  rewrite parse_create by (done || lia). change (0 <? 0) with false. change (0 =? E_PACKET_ERR_CLOSE) with false. cbv iota.
  cbn [bodylen]. rewrite (proj2 (Z.ltb_ge 2048 _)) by lia. f_equal. f_equal.
  rewrite (take_ge (SigStream.m_body m)) by lia. f_equal. unfold memcpy. rewrite take_0, app_nil_l, take_app_le by lia.
  apply take_ge. lia.
Qed.

Lemma loop_read ts c c1 :
  read_turn c = Some (inl c1) -> select_loop (Ready false true :: ts) c = select_loop ts c1.
Proof. intros E1. cbn [select_loop andb]. cbn [mbind option_bind]. change (0 =? SOCK_CLOSE) with false. cbv iota. by rewrite E1. Qed.

Lemma loop_end ts c ret c1 :
  read_turn c = Some (inr (ret, c1)) -> select_loop (Ready false true :: ts) c = up_err ret c1.
Proof. intros E1. cbn [select_loop andb]. cbn [mbind option_bind]. change (0 =? SOCK_CLOSE) with false. cbv iota. by rewrite E1. Qed.

Lemma read_chunk c d rs : chunk_ok d -> recvs (io c) = Got d :: rs ->
  read_turn c =
    let c := got c (put (recvb c) d) rs in
    '(ret, res) ← check_req (client_stat (th c)) (recvb c) (result c);
    let c := set_result c res in
    if ret =? SOCK_SWITCH then switch c
    else if ret =? SOCK_DATA_OVER then Some (inr (ret, set_api c (set_errmsg (api c) (snprintf 256 (until0 res)))))
    else if ret =? SOCK_CLOSE then Some (inr (ret, c))
    else Some (inl c).
Proof.
  intros Hd Hr. unfold read_turn. rewrite Hr, recv_chunk by done. cbn [mbind option_bind].
  destruct Hd as [Hd _]. assert (0 < zlen d) by (destruct d; [done|rewrite length_cons; lia]).
  rewrite (proj2 (Z.ltb_ge (zlen d) 0)), (proj2 (Z.eqb_neq (zlen d) 0)) by lia. done.
Qed.

(** Chunks before the end of the message only collect. *)
Lemma read_chunks cs : forall c m k rs ts,
  wf (recvb c) -> SigStream.msg_ok m -> Forall chunk_ok cs -> (k < length (SigStream.encode m))%nat ->
  MyBuff.contents (recvb c) ++ concat cs = take k (SigStream.encode m) -> recvs (io c) = map Got cs ++ rs ->
  exists rb, select_loop (replicate (length cs) (Ready false true) ++ ts) c = select_loop ts (got c rb rs) /\
    wf rb /\ MyBuff.contents rb = take k (SigStream.encode m) /\ file rb = file (recvb c).
Proof.
  induction cs as [|d cs IH]; intros c m k rs ts W Hm HF Hk Hc Hr.
  { exists (recvb c). split; [|by rewrite app_nil_r in Hc; split_and!]. f_equal. simpl in Hr. destruct c as [? ? ? ? ? ? ? ? [] ? ?]. by simplify_eq/=. }
  apply Forall_cons in HF as [Hd HF]. cbn [concat] in Hc. rewrite app_assoc in Hc.
  destruct (put_spec (recvb c) d W) as (W1 & C1 & F1).
  assert (E1 : read_turn c = Some (inl (got c (put (recvb c) d) (map Got cs ++ rs)))).
  { rewrite (read_chunk c d (map Got cs ++ rs)) by done. cbv zeta. set (c1 := got _ _ _).
    rewrite (check_waits _ (recvb c1) (result c1) m (length (MyBuff.contents (recvb c1)))); [|done|done| |].
    - cbn [mbind option_bind]. done.
    - unfold c1. cbn [recvb got]. rewrite C1. apply (f_equal length) in Hc. rewrite length_app, length_take in Hc. lia.
    - unfold c1. cbn [recvb got]. rewrite C1. apply (f_equal (take (length (MyBuff.contents (recvb c) ++ d)))) in Hc.
      rewrite take_app_length, take_take in Hc. rewrite Hc at 1. f_equal.
      apply (f_equal length) in Hc. rewrite length_take in Hc. lia. }
  cbn [length replicate app]. rewrite (loop_read _ _ _ E1).
  destruct (IH (got c (put (recvb c) d) (map Got cs ++ rs)) m k rs ts) as (rb & E2 & W2 & C2 & F2); try done.
  { cbn [recvb got]. by rewrite C1. }
  exists rb. split_and!; [done|done|done|]. by rewrite F2, <- F1.
Qed.

(** ** A schedule

    A message is written in pieces of any sizes and read in pieces of any sizes,
    one in a turn. *)

Definition pieces (ks : list Z) (total : Z) : Prop := ks <> [] /\ Forall (fun k => 0 < k) ks /\ sum ks = total.
Definition cuts (cs : list bytes) (d : bytes) : Prop := cs <> [] /\ Forall chunk_ok cs /\ concat cs = d.

Lemma sum_snoc ks k : sum (ks ++ [k]) = sum ks + k.
Proof. unfold sum. induction ks as [|x ks IH]; simpl in *; lia. Qed.

Lemma pieces_last ks total : pieces ks total ->
  exists ks' k, ks = ks' ++ [k] /\ Forall (fun k => 0 < k) ks' /\ 0 < k /\ sum ks' + k = total.
Proof.
  intros (Hne & HF & <-). destruct (exists_last Hne) as (ks' & k & ->). exists ks', k.
  apply Forall_app in HF as [HF Hk]. apply Forall_cons in Hk as [Hk _]. split; [done|]. split; [done|].
  split; [done|]. by rewrite sum_snoc.
Qed.

Lemma replicate_snoc {A} n (x : A) l : replicate (n + 1) x ++ l = replicate n x ++ x :: l.
Proof. by rewrite replicate_add, <- app_assoc. Qed.

Lemma write_message c ks d rest ts :
  havedata c = true -> pending c d None -> pieces ks (zlen d) -> zlen d < 2 ^ 64 ->
  sends (io c) = map ok_send ks ++ rest ->
  exists c', select_loop (replicate (length ks) (Ready true false) ++ ts) c = select_loop ts c' /\ havedata c' = false /\
    wrote c c' rest /\ pending c' [] None /\
    forall f fd, wire f fd (events c') = wire f fd (events c) ++ (if sock c =? fd then d else []).
Proof.
  intros Hh Hp Hk Hl Hs. destruct (pieces_last _ _ Hk) as (ks' & k & -> & HF & Hk0 & Hsum).
  pose proof (sum_nonneg _ HF). rewrite map_app, <- app_assoc in Hs. rewrite length_app. cbn [length]. rewrite replicate_snoc.
  destruct (write_pieces ks' c d None _ (Ready true false :: ts) Hh Hp HF ltac:(lia) Hl Hs) as (c1 & -> & H1 & W1 & P1 & T1).
  assert (Hk' : k = zlen (drop (Z.to_nat (sum ks')) d)) by (rewrite length_drop; lia).
  destruct (write_last c1 (drop (Z.to_nat (sum ks')) d) rest P1) as (c2 & E2 & H2 & W2 & P2 & T2).
  { intros Hd. rewrite Hd in Hk'. simpl in Hk'. lia. } { rewrite length_drop. lia. }
  { rewrite (wr_io _ _ _ W1). simpl. by rewrite <- Hk'. }
  rewrite (loop_write ts c1 c2 SOCK_COMP H1 E2) by done. exists c2. split; [done|]. split; [done|].
  split; [by apply (wrote_trans _ c1 _ _ _ W1)|]. split; [done|]. intros f fd. rewrite T2, T1, (wr_sock _ _ _ W1).
  destruct (_ =? _); [|by rewrite !app_nil_r]. by rewrite <- app_assoc, take_drop.
Qed.

Lemma write_request c ks ms d lfd len rest ts :
  havedata c = true -> pending c d (Some (lfd, 0, len)) -> pieces ks (zlen d) -> pieces ms len ->
  zlen d < 2 ^ 64 -> len < 2 ^ 64 -> sends (io c) = map ok_send (ks ++ ms) ++ rest ->
  exists c', select_loop (replicate (length ks + length ms - 1) (Ready true false) ++ ts) c = select_loop ts c' /\
    havedata c' = false /\ wrote c c' rest /\ pending c' [] None /\
    forall f fd, wire f fd (events c') = wire f fd (events c) ++
      (if sock c =? fd then d ++ take (Z.to_nat len) (file_at f lfd) else []).
Proof.
  intros Hh Hp Hk (Hne & HM & Hms) Hl Hlen Hs. destruct (pieces_last _ _ Hk) as (ks' & k & -> & HF & Hk0 & Hsum).
  pose proof (sum_nonneg _ HF). destruct ms as [|m ms]; [done|]. apply Forall_cons in HM as [Hm HM].
  pose proof (sum_nonneg _ HM). cbn [sum foldr] in Hms. fold (sum ms) in Hms.
  rewrite !map_app, <- !app_assoc in Hs. rewrite length_app. cbn [length].
  replace (length ks' + 1 + S (length ms) - 1)%nat with (length ks' + S (length ms))%nat by lia.
  rewrite replicate_add, <- app_assoc. cbn [replicate app].
  destruct (write_pieces ks' c d _ _ (Ready true false :: replicate (length ms) (Ready true false) ++ ts) Hh Hp HF ltac:(lia) Hl Hs)
    as (c1 & -> & H1 & W1 & P1 & T1).
  assert (Hk' : k = zlen (drop (Z.to_nat (sum ks')) d)) by (rewrite length_drop; lia).
  destruct (write_join c1 (drop (Z.to_nat (sum ks')) d) lfd 0 len m (map ok_send ms ++ rest) P1) as (c2 & ret & E2 & R2 & H2 & W2 & P2 & T2).
  { intros Hd. rewrite Hd in Hk'. simpl in Hk'. lia. } { rewrite length_drop. lia. } { lia. } { done. } { done. }
  { rewrite (wr_io _ _ _ W1). simpl. by rewrite <- Hk'. }
  rewrite (loop_write _ c1 c2 ret H1 E2) by done. unfold file_rest in P2. pose proof (wrote_trans _ _ _ _ _ W1 W2) as W12.
  destruct ms as [|m' ms'].
  - simpl in Hms. assert (m = len) by lia. subst m. rewrite Z.leb_refl in P2. rewrite Z.ltb_irrefl in H2.
    exists c2. split; [done|]. split; [done|]. split; [done|]. split; [done|]. intros f fd. rewrite T2, T1, (wr_sock _ _ _ W1).
    destruct (_ =? _); [|by rewrite !app_nil_r]. by rewrite <- !app_assoc, (app_assoc (take _ d)), take_drop.
  - assert (0 < sum (m' :: ms')) by (apply Forall_cons in HM as [? HF']; pose proof (sum_nonneg _ HF'); simpl; unfold sum in *; lia).
    rewrite (proj2 (Z.leb_gt len m)) in P2 by lia. rewrite (proj2 (Z.ltb_lt m len)) in H2 by lia.
    destruct (write_file (m' :: ms') c2 lfd (0 + m) (len - m) rest ts H2 P2) as (c3 & E3 & D3 & W3 & P3 & T3); try done; try lia.
    { by rewrite (wr_io _ _ _ W2). }
    exists c3. split; [done|]. split; [done|]. split; [by apply (wrote_trans _ c2 _ _ _ W12)|]. split; [done|].
    intros f fd. rewrite T3, T2, T1, (wr_sock _ _ _ W12), (wr_sock _ _ _ W1). destruct (_ =? _); [|by rewrite !app_nil_r].
    rewrite <- !app_assoc. rewrite (app_assoc (take _ d)), take_drop, drop_0. do 2 f_equal. rewrite take_take_drop. f_equal. lia.
Qed.

(** A whole message in pieces, and what is done when the last one is there. *)
Lemma read_message c cs m rs ts :
  wf (recvb c) -> MyBuff.contents (recvb c) = [] -> SigStream.msg_ok m -> zlen (SigStream.m_body m) <= 2048 ->
  cuts cs (SigStream.encode m) -> recvs (io c) = map Got cs ++ rs ->
  exists rb c1, select_loop (replicate (length cs) (Ready false true) ++ ts) c = select_loop (Ready false true :: ts) c1 /\
    let c2 := set_result (got c rb rs) (memcpy (result c) 0 (SigStream.m_body m)) in
    read_turn c1 = (if client_stat (th c) =? GET_STORAGE then switch c2
                    else Some (inr (SOCK_DATA_OVER, set_api c2 (set_errmsg (api c2) (snprintf 256 (until0 (result c2))))))) /\
    wf rb /\ file rb = file (recvb c).
Proof.
  intros W Hc Hm Hl (Hne & HF & Hcat) Hr. destruct (exists_last Hne) as (cs' & d & ->).
  apply Forall_app in HF as [HF Hd]. apply Forall_cons in Hd as [Hd _]. rewrite concat_app in Hcat. cbn [concat] in Hcat.
  rewrite app_nil_r in Hcat. rewrite map_app, <- app_assoc in Hr. cbn [map app] in Hr. rewrite length_app. cbn [length]. rewrite replicate_snoc.
  assert (Hk : (length (concat cs') < length (SigStream.encode m))%nat).
  { rewrite <- Hcat, length_app. destruct Hd as [Hd _]. destruct d; [done|]. simpl. lia. }
  destruct (read_chunks cs' c m (length (concat cs')) (Got d :: rs) (Ready false true :: ts)) as (rb & -> & W1 & C1 & F1); try done.
  { by rewrite Hc, <- Hcat, take_app_length. }
  set (c1 := got c rb (Got d :: rs)). destruct (put_spec rb d W1) as (W2 & C2 & F2).
  exists (put rb d), c1. split; [done|]. split; [|split; [done|by rewrite F2]]. rewrite (read_chunk c1 d rs) by done. cbv zeta.
  rewrite (check_whole _ _ _ m); [|done|done|done|]; unfold c1; cbn [recvb got th result io].
  2: { rewrite C2, C1, <- Hcat, take_app_length. done. }
  cbn [mbind option_bind]. by destruct (client_stat (th c) =? GET_STORAGE).
Qed.

(** ** The requests *)

Lemma reinit_quiet b : file b = None -> snd (mybuff_reinit init_buff_size junk true b) = [].
Proof. unfold file, mybuff_reinit. destruct (0 <=? MyBuff.fd b) eqn:Ef; [done|]. by destruct (_ <? _). Qed.

(** Buffers with no file attached. *)
Definition idle (c : call) : Prop := wf (sendb c) /\ file (sendb c) = None /\ wf (recvb c) /\ file (recvb c) = None.

Lemma reinit_idle b : wf b -> file b = None ->
  exists b', mybuff_reinit init_buff_size junk true b = (b', []) /\ wf b' /\ MyBuff.contents b' = [] /\ file b' = None.
Proof.
  intros W F. pose proof (reinit_quiet b F) as Hq. pose proof (reinit_spec init_buff_size junk init_pos junk_len b W) as (R1 & R2 & R3).
  destruct (mybuff_reinit _ _ _ b) as [b' cl]. simpl in *. subst cl. by exists b'.
Qed.

Definition name_request (a : t_api_info) : SigStream.msg := SigStream.mk_msg NameServer.UPLOAD_REQ (nametype a) (group a).

Lemma ask_name_server c :
  idle c -> client_stat (th c) = GET_STORAGE -> a_type (api c) = TASK_ADDFILE ->
  exists c', create_req_msg c = (0, c') /\ pending c' (SigStream.encode (name_request (api c))) None /\
    wf (recvb c') /\ MyBuff.contents (recvb c') = [] /\ file (recvb c') = None /\
    c' = mk_call (sock c) (havedata c) (sendb c') (recvb c') (result c) (api c) (th c) (local c) (io c) (dials c) (events c).
Proof.
  intros (W1 & F1 & W2 & F2) Hst Hty. unfold create_req_msg.
  destruct (reinit_idle _ W1 F1) as (sb & -> & A1 & A2 & A3). destruct (reinit_idle _ W2 F2) as (rb & -> & B1 & B2 & B3).
  rewrite Hst, Hty. change (GET_STORAGE =? GET_STORAGE) with true. change (TASK_ADDFILE =? TASK_ADDFILE) with true. cbv iota zeta.
  cbn [app map]. rewrite app_nil_r. set (m := create_sig_msg _ _ _ _). destruct (put_spec sb m A1) as (P1 & P2 & P3).
  eexists. split; [done|]. cbn [sendb recvb]. split; [|by split_and!]. split; [done|]. cbn [sendb]. by rewrite P2, P3, A2, A3.
Qed.

(** The task that announces the local file. *)
Definition upload_task (f : fs) (a : t_api_info) (content : bytes) : t_task_base :=
  mk_base (localfile a) [] [] (Rfc1321.md5 content ++ [0]) 0 0
    (default 0 (i ← paths f !! localfile a; times f !! i)) (zlen content) TASK_ADDFILE 0 0.

Lemma ask_storage c content :
  idle c -> client_stat (th c) = PUT_DATA -> a_type (api c) = TASK_ADDFILE -> addtype (api c) = ADD_PATH_BY_UPLOAD ->
  (length (localfile (api c)) < 256)%nat -> Fs.contents (local c) (localfile (api c)) = Some content -> content <> [] ->
  k_open (localfile (api c)) = None -> 0 <= next (local c) ->
  exists c', create_req_msg c = (0, c') /\
    pending c' (SigStream.encode (Upload.push_request (upload_task (local c) (api c) content))) (Some (next (local c), 0, zlen content)) /\
    wf (recvb c') /\ MyBuff.contents (recvb c') = [] /\ file (recvb c') = None /\
    file_at (local c') (next (local c)) = content /\
    c' = mk_call (sock c) (havedata c) (sendb c') (recvb c') (result c) (api c) (th c) (local c') (io c) (dials c) (events c).
Proof.
  intros (W1 & F1 & W2 & F2) Hst Hty Hadd Hlen Hc Hne Hop Hnx. unfold create_req_msg.
  destruct (reinit_idle _ W1 F1) as (sb & -> & A1 & A2 & A3). destruct (reinit_idle _ W2 F2) as (rb & -> & B1 & B2 & B3).
  rewrite Hst. change (PUT_DATA =? GET_STORAGE) with false. cbv iota zeta. cbn [app map]. rewrite app_nil_r.
  assert (Hz : zlen content =? 0 = false) by (apply Z.eqb_neq; destruct content; [done|rewrite length_cons; lia]).
  assert (Hr : request_task (local c) (api c) = Some (upload_task (local c) (api c) content, api c)).
  { unfold request_task. rewrite Hty. change (TASK_ADDFILE =? TASK_DELFILE) with false. change (TASK_ADDFILE =? TASK_MODYFILE) with false.
    cbv iota zeta. unfold get_localfile_stat, stat. cbn [filename]. rewrite (snprintf_fits 256 (localfile (api c))) by done.
    rewrite (getfilemd5_spec _ _ content Hc). unfold Fs.contents in Hc. destruct (paths (local c) !! localfile (api c)) as [i|] eqn:Ep; [|done].
    simpl in Hc. cbn [mbind option_bind]. rewrite Hc. cbn [mbind option_bind fsize]. rewrite Hz. rewrite Hadd. change (ADD_PATH_BY_UPLOAD =? ADD_DIR_BY_UPLOAD) with false.
    cbv iota. unfold upload_task. rewrite Ep. done. }
  rewrite Hr. change (type (upload_task _ _ _) =? TASK_DELFILE) with false. cbv iota.
  unfold open_read. rewrite Hop. unfold Fs.contents in Hc. destruct (paths (local c) !! localfile (api c)) as [i|] eqn:Ep; [|done]. simpl in Hc.
  set (m := create_sig_msg _ _ _ _). destruct (put_spec sb m A1) as (P1 & P2 & P3).
  assert (Hfd : 0 <=? MyBuff.fd (put sb m) = false).
  { rewrite A3 in P3. unfold file in P3. by destruct (0 <=? MyBuff.fd (put sb m)). }
  unfold mybuff_setfile. rewrite Hfd. cbn [map]. rewrite app_nil_r. eexists. split; [done|]. cbn [sendb recvb local].
  assert (Hm : m = SigStream.encode (Upload.push_request (upload_task (local c) (api c) content))).
  { unfold m, SigStream.encode, Upload.push_request. cbn [SigStream.m_cmd SigStream.m_status SigStream.m_body]. rewrite Hadd.
    rewrite Wire.length_base_image; [done|]. simpl. rewrite length_app, Md5Facts.length_md5. done. }
  split; [|split; [done|split; [done|split; [done|split]]]].
  - split; [exact P1|]. cbn [sendb]. unfold MyBuff.contents, file in *. cbn [data len fd foffset flen]. rewrite P2, A2. split; [done|].
    apply Z.leb_le in Hnx. by rewrite Hnx.
  - unfold file_at. cbn [fds inodes]. rewrite lookup_insert_eq. by rewrite Hc.
  - done.
Qed.

(** ** The answers *)

(** The storage server's answer, as [create_push_rsp] of network/U makes it. *)
Definition stored_text (name dom : bytes) : bytes := str "OK|" ++ name ++ 124 :: dom.
Definition stored_answer (name dom : bytes) : SigStream.msg :=
  SigStream.mk_msg Transfer.CMD_PUT_FILE_RSP 0 (DelFile.field 256 (stored_text name dom)).

(** Names as storage servers give them: one slash in front, no bar. *)
Record stored_ok (name dom : bytes) : Prop := mk_stored_ok {
  st_slash : exists n, name = 47 :: n /\ at_ n 0 <> 47;
  st_bar : 124 ∉ name;
  st_dom : (length dom < 128)%nat;
  st_len : (length (stored_text name dom) < 256)%nat;
  st_cstr : cstr (stored_text name dom)
}.

Lemma drop_past {A} (l : list A) x r : drop (S (length l)) (l ++ x :: r) = r.
Proof. rewrite drop_app_ge by lia. by replace (S (length l) - length l)%nat with 1%nat by lia. Qed.

Lemma answer_taken a name dom : stored_ok name dom -> errmsg a = stored_text name dom ->
  check_rsp_from_storage a = Some (0, set_answer a name dom).
Proof.
  intros [(n & -> & Hn) Hb Hd _ _] He. unfold check_rsp_from_storage. rewrite He. unfold stored_text.
  assert (strncmp0 (str "OK|" ++ (47 :: n) ++ 124 :: dom) (str "OK|") 3 = true) as -> by done. cbn [negb]. cbv iota.
  change (drop 3 (str "OK|" ++ (47 :: n) ++ 124 :: dom)) with ((47 :: n) ++ 124 :: dom). generalize Hb. set (nm := 47 :: n) in *. intros Hb'.
  rewrite strchr_app_r, take_app_length by done. cbv zeta. rewrite drop_past.
  rewrite (proj2 (Z.leb_gt 128 (zlen dom))) by lia. do 3 f_equal.
  unfold skip_slashes, nm. change (47 =? 47) with true. cbv iota. destruct n as [|x n]; [done|]. unfold at_ in Hn. simpl in Hn.
  apply Z.eqb_neq in Hn. by rewrite Hn.
Qed.

Lemma stored_text_read res name dom : stored_ok name dom ->
  until0 (memcpy res 0 (DelFile.field 256 (stored_text name dom))) = stored_text name dom.
Proof.
  intros [_ _ _ Hl Hc]. destruct (DelFile.field_text 256 (stored_text name dom)) as [k ->]; [lia|].
  rewrite snprintf_fits by done. unfold memcpy. rewrite take_0, app_nil_l, <- app_assoc. by apply until0_cstr.
Qed.

(** The name server's answer, [ip:port]. *)
Record place_ok (ip port : bytes) : Prop := mk_place_ok {
  pl_ip : 58 ∉ ip;
  pl_len : zlen (ip ++ 58 :: port) < 2048;
  pl_cstr : cstr (ip ++ 58 :: port)
}.

Lemma place_read ip port : place_ok ip port ->
  until0 (memcpy (replicate 2048 0) 0 (ip ++ 58 :: port)) = ip ++ 58 :: port.
Proof.
  intros [_ Hl Hc]. unfold memcpy. rewrite take_0, app_nil_l, drop_replicate.
  set (t := ip ++ 58 :: port) in *. replace (2048 - (0 + length t))%nat with (S (2047 - length t)) by lia. cbn [replicate].
  by apply until0_cstr.
Qed.

(** The switch to the storage server, when all goes well. *)
Lemma switch_connects c content ip port fd2 rest :
  idle c -> a_type (api c) = TASK_ADDFILE -> addtype (api c) = ADD_PATH_BY_UPLOAD ->
  (length (localfile (api c)) < 256)%nat -> Fs.contents (local c) (localfile (api c)) = Some content -> content <> [] ->
  k_open (localfile (api c)) = None -> 0 <= next (local c) -> ns_cache_flag (th c) = false ->
  place_ok ip port -> result c = memcpy (replicate 2048 0) 0 (ip ++ 58 :: port) ->
  connects (io c) = fd2 :: rest -> 0 < fd2 ->
  exists c', switch c = Some (inl c') /\ sock c' = fd2 /\ havedata c' = true /\
    pending c' (SigStream.encode (Upload.push_request (upload_task (local c) (api c) content))) (Some (next (local c), 0, zlen content)) /\
    wf (recvb c') /\ MyBuff.contents (recvb c') = [] /\ file (recvb c') = None /\
    file_at (local c') (next (local c)) = content /\ client_stat (th c') = PUT_DATA /\ api c' = api c /\
    io c' = mk_script rest (turns (io c)) (sends (io c)) (recvs (io c)) (clock (io c)) /\
    dials c' = dials c ++ [(ip, atoi port)] /\
    events c' = events c ++ [Closed (sock c)].
Proof.
  intros HI Hty Hadd Hlen Hc Hne Hop Hnx Hfl Hpl Hres Hcs Hfd. unfold switch. set (c0 := set_th _ _).
  destruct (ask_storage c0 content) as (c1 & E1 & P1 & R1 & R2 & R3 & F1 & Ec); try done. rewrite E1. change (negb (0 =? 0)) with false. cbv iota.
  assert (Hr : until0 (result c0) = ip ++ 58 :: port) by (unfold c0; cbn [result set_th emit]; rewrite Hres; by apply place_read).
  unfold connect_storage. rewrite Ec. cbn [result]. rewrite Hr.
  rewrite strchr_app_r by apply (pl_ip _ _ Hpl). cbv iota zeta. rewrite take_app_length, drop_past.
  unfold createsocket. cbn [io set_result]. unfold c0 at 1. cbn [io set_th emit]. rewrite Hcs. cbn [mbind option_bind th].
  unfold c0. cbn [th set_th set_stat set_result ns_cache_flag emit]. rewrite Hfl, andb_false_r. cbn [andb]. cbv iota.
  rewrite (proj2 (Z.ltb_ge fd2 0)) by lia. eexists. split; [done|].
  cbn [sock havedata sendb recvb local th api io dials events set_sock set_result client_stat set_th emit set_stat connects turns sends recvs clock].
  by split_and!.
Qed.

(** ** A whole call *)

(** The upload of a file under the client's own name. *)
Record upload_ok (a : t_api_info) (t : thread) (f : fs) (content : bytes) : Prop := mk_upload_ok {
  up_type : a_type a = TASK_ADDFILE;
  up_addtype : addtype a = ADD_PATH_BY_UPLOAD;
  up_nametype : is_byte (nametype a);
  up_group : zlen (group a) < 128;
  up_name : 0 < zlen (localfile a) < 256;
  up_content : Fs.contents f (localfile a) = Some content;
  up_size : 0 < zlen content < 2 ^ 63;
  up_open : k_open (localfile a) = None;
  up_next : 0 <= next f;
  up_nocache : ns_cache_flag t = false
}.

(** What the kernel does in the course of it: the request to the name server is
    written in the pieces [k1] and its answer read in the pieces [c1]; then the
    request to the storage server goes in the pieces [k2], the file in the pieces
    [ms], and the answer comes in the pieces [c2]. *)
Definition schedule (fd1 fd2 : Z) (k1 k2 ms : list Z) (c1 c2 : list bytes) (now : Z) : script :=
  mk_script [fd1; fd2]
    (replicate (length k1) (Ready true false) ++ replicate (length c1) (Ready false true) ++
     replicate (length k2 + length ms - 1) (Ready true false) ++ replicate (length c2) (Ready false true))
    (map ok_send (k1 ++ k2 ++ ms)) (map Got (c1 ++ c2)) now.

Lemma idle_new a t f sc : idle (new_call a t f sc).
Proof. split_and!; try done; apply wf_init. Qed.

Lemma up_err_ok c name dom : stored_ok name dom -> errmsg (api c) = stored_text name dom ->
  exists c', up_err SOCK_DATA_OVER c = Some (PFS_OK, c') /\ api c' = set_answer (api c) name dom /\
    dials c' = dials c /\ local c' = local c /\ forall f fd, wire f fd (events c') = wire f fd (events c).
Proof.
  intros Hok He. unfold up_err. change (negb (SOCK_DATA_OVER =? SOCK_DATA_OVER)) with false. cbv iota. cbn [api emit].
  rewrite (answer_taken _ name dom Hok He). cbn [mbind option_bind]. change (negb (0 =? 0)) with false. cbv iota.
  eexists. split; [done|]. split_and!; try done. intros f fd. cbn [events set_api emit].
  rewrite wire_app. assert (forall l, wire f fd (map Closed l) = []) as Hcl by apply wire_closed.
  destruct (0 <? sock c); rewrite wire_app, ?(Hcl _); rewrite ?(wire_closed f fd [sock c] : wire f fd [Closed (sock c)] = []); by rewrite ?app_nil_r.
Qed.

(** The first half: the name server is asked and answers. *)
Lemma asked a t f content nameip nameport fd1 fd2 k1 k2 ms c1 c2 now status ip port :
  upload_ok a t f content -> 0 < fd1 -> 0 < fd2 -> place_ok ip port ->
  let m1 := SigStream.mk_msg NameServer.UPLOAD_RSP status (ip ++ 58 :: port) in is_byte status ->
  pieces k1 (zlen (SigStream.encode (name_request a))) -> cuts c1 (SigStream.encode m1) ->
  let rest := replicate (length k2 + length ms - 1) (Ready true false) ++ replicate (length c2) (Ready false true) in
  exists c', operate_pfs nameip nameport a t f (schedule fd1 fd2 k1 k2 ms c1 c2 now) = select_loop rest c' /\
    sock c' = fd2 /\ havedata c' = true /\
    pending c' (SigStream.encode (Upload.push_request (upload_task f a content))) (Some (next f, 0, zlen content)) /\
    wf (recvb c') /\ MyBuff.contents (recvb c') = [] /\ file (recvb c') = None /\
    file_at (local c') (next f) = content /\ client_stat (th c') = PUT_DATA /\ api c' = a /\
    sends (io c') = map ok_send (k2 ++ ms) /\ recvs (io c') = map Got c2 /\
    dials c' = [(nameip, nameport); (ip, atoi port)] /\
    forall g fd, wire g fd (events c') = if fd1 =? fd then SigStream.encode (name_request a) else [].
Proof.
  intros [T1 T2 T3 T4 T5 T6 T7 T8 T9 T10] H1 H2 Hpl m1 Hst Hk1 Hc1 rest.
  unfold operate_pfs. rewrite T1. change ((TASK_MODYFILE <? TASK_ADDFILE) || (TASK_ADDFILE <? TASK_ADDFILE)) with false.
  change (TASK_ADDFILE =? TASK_ADDFILE) with true. cbv iota. rewrite (proj2 (Z.eqb_neq _ 0)) by lia.
  set (sc := schedule fd1 fd2 k1 k2 ms c1 c2 now). unfold upload_file_inter, first_socket. cbn [th new_call set_th set_stat ns_cache_flag].
  rewrite T10. cbn [andb mbind option_bind]. change (-1 <? 0) with true. cbv iota. cbn [createsocket io new_call set_th sc schedule connects].
  cbn [mbind option_bind]. rewrite (proj2 (Z.ltb_ge fd1 0)) by lia.
  match goal with |- context [create_req_msg ?x] => set (cc := x) end.
  assert (Hi : idle cc) by apply (idle_new a t f sc).
  destruct (ask_name_server cc Hi eq_refl T1) as (q1 & -> & P1 & R1 & R2 & R3 & Eq). change (negb (0 =? 0)) with false. cbv iota.
  assert (Hm0 : SigStream.msg_ok (name_request a)) by (split_and!; [done|done|cbn; lia]).
  assert (turns (io q1) = turns sc) as -> by (by rewrite Eq).
  change (turns sc) with (replicate (length k1) (Ready true false) ++ replicate (length c1) (Ready false true) ++ rest).
  destruct (write_message q1 k1 (SigStream.encode (name_request a)) (map ok_send (k2 ++ ms)) (replicate (length c1) (Ready false true) ++ rest))
    as (q2 & -> & D2 & W2 & P2 & V2); try done.
  { by rewrite Eq. } { pose proof (SigStream.length_message _ Hm0) as Hl. cbn [SigStream.m_body name_request] in Hl. lia. }
  { rewrite Eq. cbn [io cc set_sock sends]. by rewrite <- map_app. }
  pose proof (wr_recvb _ _ _ W2) as X1. pose proof (wr_io _ _ _ W2) as X2. assert (Hio : io q1 = io cc) by (by rewrite Eq). rewrite Hio in X2.
  assert (Hm1 : SigStream.msg_ok m1) by (split; [done|split; [done|]]; pose proof (pl_len _ _ Hpl); unfold m1; cbn [SigStream.m_body]; lia).
  destruct (read_message q2 c1 m1 (map Got c2) rest) as (rb & q3 & -> & E3 & R4 & R5); try done.
  { by rewrite X1. } { by rewrite X1. } { pose proof (pl_len _ _ Hpl). unfold m1. cbn [SigStream.m_body]. lia. } { rewrite X2, <- map_app. done. }
  cbv zeta in E3. assert (Hth : th q2 = th cc) by (rewrite (wr_th _ _ _ W2), Eq; done). rewrite Hth in E3.
  change (client_stat (th cc) =? GET_STORAGE) with true in E3. cbv iota in E3.
  match type of E3 with _ = switch ?x => set (q4 := x) in E3 end.
  assert (Hap : api q4 = a) by (unfold q4; cbn [api set_result got]; rewrite (wr_api _ _ _ W2), Eq; done).
  assert (Hlo : local q4 = f) by (unfold q4; cbn [local set_result got]; rewrite (wr_local _ _ _ W2), Eq; done).
  destruct (switch_connects q4 content ip port fd2 []) as (q5 & E5 & S1 & S2 & S3 & S4 & S5 & S6 & S7 & S8 & S9 & S10 & S11 & S12);
    rewrite ?Hap, ?Hlo in *; try done; try lia.
  { split_and!; try done; unfold q4; cbn [sendb recvb set_result got]; try apply P2. by rewrite R5, X1. }
  { intros ->. simpl in T7. lia. }
  { unfold q4. cbn [th set_result got]. by rewrite Hth. }
  { unfold q4. cbn [result set_result got]. by rewrite (wr_result _ _ _ W2), Eq. }
  { unfold q4. cbn [io set_result got]. by rewrite X2. }
  rewrite (loop_read rest q3 q5) by congruence. exists q5. split_and!; try done.
  - rewrite S10. unfold q4. cbn [io set_result got sends]. by rewrite X2.
  - rewrite S10. unfold q4. cbn [io set_result got recvs]. done.
  - rewrite S11. unfold q4. cbn [dials set_result got]. by rewrite (wr_dials _ _ _ W2), Eq.
  - intros g fd. rewrite S12, wire_app, (wire_closed g fd [sock q4] : wire g fd [Closed (sock q4)] = []), app_nil_r.
    unfold q4. cbn [events set_result got]. rewrite V2, Eq. done.
Qed.

Lemma stored_msg name dom : SigStream.msg_ok (stored_answer name dom) /\ zlen (SigStream.m_body (stored_answer name dom)) = 256.
Proof. unfold stored_answer, SigStream.msg_ok. cbn [SigStream.m_cmd SigStream.m_status SigStream.m_body]. by rewrite DelFile.length_field. Qed.

(** The whole call. *)
Lemma uploaded a t f content nameip nameport fd1 fd2 k1 k2 ms c1 c2 now status ip port name dom :
  upload_ok a t f content -> 0 < fd1 -> 0 < fd2 -> fd1 <> fd2 -> place_ok ip port -> is_byte status -> stored_ok name dom ->
  pieces k1 (zlen (SigStream.encode (name_request a))) ->
  cuts c1 (SigStream.encode (SigStream.mk_msg NameServer.UPLOAD_RSP status (ip ++ 58 :: port))) ->
  let req := SigStream.encode (Upload.push_request (upload_task f a content)) in
  pieces k2 (zlen req) -> pieces ms (zlen content) -> cuts c2 (SigStream.encode (stored_answer name dom)) ->
  exists c', operate_pfs nameip nameport a t f (schedule fd1 fd2 k1 k2 ms c1 c2 now) = Some (PFS_OK, c') /\
    dials c' = [(nameip, nameport); (ip, atoi port)] /\
    wire (local c') fd1 (events c') = SigStream.encode (name_request a) /\
    wire (local c') fd2 (events c') = req ++ content /\
    remotefile (api c') = name /\ group (api c') = dom.
Proof.
  intros Ha H1 H2 H12 Hpl Hst Hok Hk1 Hc1 req Hk2 Hms Hc2. pose proof (up_size _ _ _ _ Ha) as Hsz.
  destruct (asked a t f content nameip nameport fd1 fd2 k1 k2 ms c1 c2 now status ip port Ha H1 H2 Hpl Hst Hk1 Hc1)
    as (q & -> & S1 & S2 & S3 & S4 & S5 & S6 & S7 & S8 & S9 & S10 & S11 & S12 & S13).
  assert (Hreq : zlen req < 2 ^ 64).
  { unfold req. rewrite SigStream.length_message.
    - pose proof (Wire.length_base_image (upload_task f a content)) as Hl. unfold Upload.push_request. cbn [SigStream.m_body].
      rewrite Nat2Z.inj_add, Hl; [done|]. simpl. by rewrite length_app, Md5Facts.length_md5.
    - split; [done|]. split; [done|]. unfold Upload.push_request. cbn [SigStream.m_body]. rewrite Wire.length_base_image; [done|].
      simpl. by rewrite length_app, Md5Facts.length_md5. }
  destruct (write_request q k2 ms req (next f) (zlen content) [] (replicate (length c2) (Ready false true)))
    as (q1 & -> & D1 & W1 & P1 & V1); try done; [lia|by rewrite app_nil_r|].
  destruct (stored_msg name dom) as [M1 M2].
  destruct (read_message q1 c2 (stored_answer name dom) [] []) as (rb & q2 & E2 & E3 & _); try done.
  { by rewrite (wr_recvb _ _ _ W1). } { by rewrite (wr_recvb _ _ _ W1). } { by rewrite M2. }
  { rewrite (wr_io _ _ _ W1). cbn [recvs]. by rewrite app_nil_r. }
  rewrite app_nil_r in E2. rewrite E2. cbv zeta in E3. rewrite (wr_th _ _ _ W1), S8 in E3.
  change (PUT_DATA =? GET_STORAGE) with false in E3. cbv iota in E3. rewrite (loop_end _ _ _ _ E3).
  match goal with |- context [up_err _ ?x] => set (q3 := x) end.
  assert (He : errmsg (api q3) = stored_text name dom).
  { unfold q3. cbn [api set_api errmsg set_errmsg result set_result]. rewrite (stored_text_read _ _ _ Hok).
    apply snprintf_fits, Hok. }
  destruct (up_err_ok q3 name dom Hok He) as (c' & E4 & A1 & A2 & A3 & A4). exists c'.
  assert (Hloc : file_at (local c') (next f) = content) by (rewrite A3; unfold q3; cbn [local set_api set_result got]; by rewrite (wr_local _ _ _ W1)).
  assert (Hv : forall fd, wire (local c') fd (events c') = (if fd1 =? fd then SigStream.encode (name_request a) else []) ++
            (if fd2 =? fd then req ++ content else [])).
  { intros fd. rewrite A4. unfold q3. cbn [events set_api set_result got]. rewrite V1, S13, S1, Hloc.
    by rewrite (take_ge content) by lia. }
  split_and!; try done.
  - rewrite A2. unfold q3. cbn [dials set_api set_result got]. by rewrite (wr_dials _ _ _ W1).
  - rewrite Hv, Z.eqb_refl, (proj2 (Z.eqb_neq fd2 fd1)) by done. apply app_nil_r.
  - by rewrite Hv, Z.eqb_refl, (proj2 (Z.eqb_neq fd1 fd2)) by done.
  - by rewrite A1.
  - by rewrite A1.
Qed.

(** ** Properties *)

(** An error of [send] or [sendfile64] is taken for success: the result goes
    into a [size_t], so that the -1 of a failed call, also of one that would
    block, counts as more than all there was.  The request and the file are
    thrown away, nothing is sent, and the call goes on to wait for the answer. *)
Theorem client_send_error_ignored c d fl e1 e2 rest :
  pending c d fl -> d <> [] -> zlen d < 2 ^ 63 -> (forall lfd off len, fl = Some (lfd, off, len) -> 0 < len < 2 ^ 63) ->
  sends (io c) = mk_sent (-1) e1 :: mk_sent (-1) e2 :: rest ->
  exists c', write_turn c = Some (SOCK_COMP, c') /\ havedata c' = false /\ pending c' [] None /\
    forall f fd, wire f fd (events c') = wire f fd (events c).
Proof.
  intros (Hw & Hd & Hf) Hne Hl Hfl Hs. unfold write_turn, do_send. rewrite getdata_spec, Hd, decide_False by done. rewrite Hs.
  change (0 =? 0) with true. cbv iota. assert (Hu : u64 (-1) = 2 ^ 64 - 1) by done.
  cbn [send_data s_n]. rewrite Hu. rewrite (proj2 (Z.ltb_lt 0 (2 ^ 64 - 1))), (proj2 (Z.ltb_ge (2 ^ 64 - 1) (zlen d))) by lia.
  change (0 <? -1) with false. cbn [mbind option_bind].
  destruct (skipdata_spec (sendb c) (2 ^ 64 - 1) Hw ltac:(lia)) as (W & Cn & F). rewrite Hd, drop_ge in Cn by lia. rewrite Hf in F.
  destruct fl as [[[lfd off] len]|].
  - specialize (Hfl _ _ _ eq_refl). rewrite (getfile_spec _ _ _ _ F) by lia. cbn [send_file s_n]. rewrite Hu.
    rewrite (proj2 (Z.ltb_lt 0 (2 ^ 64 - 1))), (proj2 (Z.ltb_ge (2 ^ 64 - 1) len)) by lia. change (0 <? -1) with false.
    destruct (skipfile_spec _ lfd off len (2 ^ 64 - 1) W F) as (b & cl & -> & W' & C' & F'). rewrite (proj2 (Z.leb_le len (2 ^ 64 - 1))) in F' by lia.
    cbn [mbind option_bind]. eexists. split; [done|]. split; [done|]. split; [unfold pending; cbn [sendb]; split_and!; congruence|].
    intros f fd. cbn [events app]. by rewrite wire_app, wire_closed, app_nil_r.
  - rewrite (getfile_none _ F). cbn [mbind option_bind]. eexists. split; [done|]. split; [done|]. split; [done|].
    intros f fd. cbn [events]. by rewrite wire_app, app_nil_r.
Qed.

End Api.

(** The client and the storage server run on machines of their own. *)
Section EndToEnd.
Context {Ec : Env} {Kc : Kernel} {Es : Env} {Ks : Kernel} {Cs : LocalFile.Site} {Xs : Transfer.Surroundings}.
Hypothesis write_all : forall lfd d, Transfer.k_write (Surroundings := Xs) lfd d = zlen d.
Hypothesis lock_free : Transfer.q_lock (Surroundings := Xs) = 0.

(** C2: an upload from end to end.  A client that adds a file under its own
    name, and is sent by the name server to a storage server that is ready for
    it, ends with [PFS_OK] and the name and the domain under which the file is
    stored; what it sent is, byte for byte, what makes the storage server
    publish exactly the contents of the local file, and what the client read is
    what that server answered.  Into what pieces the kernels cut the four
    messages and the file does not matter. *)
Theorem upload_end_to_end a t f content nameip nameport fd1 fd2 k1 k2 ms c1 c2 now status ip port h sfd cip bc task tmp chunks :
  upload_ok (K := Kc) a t f content -> 0 < fd1 -> 0 < fd2 -> fd1 <> fd2 -> place_ok ip port -> is_byte status ->
  let b := upload_task f a content in
  Upload.ready (K := Ks) h sfd cip b bc task tmp -> inq h sfd = [] -> outq h sfd = [] -> Wire.fits b -> zlen content < 2 ^ 31 ->
  k_rename (Kernel := Ks) tmp (filename bc) = true -> stored_ok (retfile bc) Transfer.self_domain ->
  pieces k1 (zlen (SigStream.encode (name_request a))) ->
  cuts c1 (SigStream.encode (SigStream.mk_msg NameServer.UPLOAD_RSP status (ip ++ 58 :: port))) ->
  pieces k2 (zlen (SigStream.encode (Upload.push_request b))) -> pieces ms (zlen content) ->
  Forall (fun d => d <> []) chunks -> concat chunks = SigStream.encode (Upload.push_request b) ++ content ->
  cuts c2 (Transfer.ok_reply (retfile bc)) ->
  exists c' h', operate_pfs (E := Ec) (K := Kc) nameip nameport a t f (schedule fd1 fd2 k1 k2 ms c1 c2 now) = Some (PFS_OK, c') /\
    dials c' = [(nameip, nameport); (ip, atoi port)] /\
    wire (local c') fd1 (events c') = SigStream.encode (name_request a) /\
    wire (local c') fd2 (events c') = concat chunks /\
    Transfer.feed (E := Es) (K := Ks) OPER_UP_REQ Upload.do_req h sfd chunks = Some (RECV_SEND, h') /\
    Fs.contents (LocalFile.sys (Transfer.files (user h'))) (filename bc) = Some content /\
    outq h' sfd = concat c2 /\ remotefile (api c') = retfile bc /\ group (api c') = Transfer.self_domain.
Proof.
  intros Ha H1 H2 H12 Hpl Hst b Hr Hi Ho Hfit Hsz Hk Hok Hk1 Hc1 Hk2 Hms Hall Hcat Hc2. pose proof (up_size _ _ _ _ Ha) as Hs.
  assert (Hrep : Transfer.ok_reply (retfile bc) = SigStream.encode (stored_answer (retfile bc) Transfer.self_domain)).
  { unfold Transfer.ok_reply, SigStream.encode, stored_answer, stored_text. cbn [SigStream.m_cmd SigStream.m_status SigStream.m_body].
    by rewrite DelFile.length_field. }
  rewrite Hrep in Hc2.
  destruct (uploaded (E := Ec) (K := Kc) a t f content nameip nameport fd1 fd2 k1 k2 ms c1 c2 now status ip port (retfile bc) Transfer.self_domain)
    as (c' & E1 & E2 & E3 & E4 & E5 & E6); try done.
  destruct (Upload.push_arrives write_all lock_free h sfd cip b bc task tmp chunks content) as (h' & r & F1 & F2 & _ & _ & _ & _ & F7); try done.
  { intros ->. simpl in Hs. lia. }
  exists c', h'. split_and!; try done.
  - by rewrite E4, Hcat.
  - rewrite F7, Ho, Hrep. by destruct Hc2 as (_ & _ & ->).
Qed.

End EndToEnd.

(** ** Witnesses *)

#[local] Existing Instances demo_env LocalFile.demo_kernel LocalFile.demo_site Transfer.demo_around.

(** A client with a file of three bytes. *)
Definition demo_api : t_api_info := mk_api [] (str "/1/2/a.jpg") [] (str "group1") TASK_ADDFILE ADD_PATH_BY_UPLOAD 0.
Definition demo_thread : thread := mk_thread 0 false (mk_cache 0 [] 0 0).
Definition demo_local : fs :=
  mk_fs {[ str "/1/2/a.jpg" := 5 ]} {[ 5 := str "abc" ]} {[ 5 := 1388534400 ]} ∅ ∅ 10.

Lemma demo_upload_ok : upload_ok demo_api demo_thread demo_local (str "abc").
Proof. by split. Qed.

Lemma demo_upload_task : upload_task demo_local demo_api (str "abc") = Upload.demo_task (Rfc1321.md5 (str "abc") ++ [0]) 3.
Proof. reflexivity. Qed.

Lemma demo_place : place_ok (str "10.0.0.1") (str "49711").
Proof. split; [by apply (bool_decide_unpack _)|reflexivity|by repeat constructor]. Qed.

Lemma demo_stored : stored_ok (str "/1/2/a.jpg") (str "img1").
Proof.
  split; [by exists (str "1/2/a.jpg")|by apply (bool_decide_unpack _)|simpl; lia|vm_compute; lia|by repeat constructor].
Qed.

Lemma whole_piece n : 0 < n -> pieces [n] n.
Proof. intros Hn. split; [done|]. split; [by repeat constructor|]. simpl. lia. Qed.

Lemma whole_cut d : chunk_ok d -> cuts [d] d.
Proof. intros Hd. split; [done|]. split; [by apply Forall_singleton|]. simpl. by rewrite app_nil_r. Qed.

Lemma client_send_error_ignored_witness :
  let c := mk_call 7 true (put mybuff_init (str "abc")) mybuff_init [] demo_api demo_thread demo_local
             (mk_script [] [] [mk_sent (-1) 11; mk_sent (-1) 11] [] 0) [] [] in
  exists c', write_turn c = Some (SOCK_COMP, c') /\ havedata c' = false /\ pending c' [] None /\
    forall f fd, wire f fd (events c') = wire f fd (events c).
Proof.
  intros c. destruct (put_spec mybuff_init (str "abc") wf_init) as (W & Cn & F).
  apply (client_send_error_ignored c (str "abc") None 11 11 []); [by split_and!|done|done|done|done].
Defined.

Lemma upload_end_to_end_witness :
  let c := str "abc" in
  let b := upload_task demo_local demo_api c in
  let req := SigStream.encode (Upload.push_request b) in
  let ask := SigStream.encode (name_request demo_api) in
  let place := SigStream.encode (SigStream.mk_msg NameServer.UPLOAD_RSP 0 (str "10.0.0.1" ++ 58 :: str "49711")) in
  let ans := Transfer.ok_reply (str "/1/2/a.jpg") in
  exists c' h', operate_pfs (str "10.0.0.9") 49710 demo_api demo_thread demo_local
      (schedule 7 8 [zlen ask] [zlen req] [1; 2] [place] [ans] 0) = Some (PFS_OK, c') /\
    dials c' = [(str "10.0.0.9", 49710); (str "10.0.0.1", 49711)] /\
    wire (local c') 7 (events c') = ask /\
    wire (local c') 8 (events c') = concat (Upload.demo_chunks (Rfc1321.md5 c ++ [0]) c) /\
    Transfer.feed OPER_UP_REQ Upload.do_req Upload.demo_host 5 (Upload.demo_chunks (Rfc1321.md5 c ++ [0]) c) = Some (RECV_SEND, h') /\
    Fs.contents (LocalFile.sys (Transfer.files (user h'))) (str "/data/1/2/a.jpg") = Some c /\
    outq h' 5 = concat [ans] /\ remotefile (api c') = str "/1/2/a.jpg" /\ group (api c') = str "img1".
Proof.
  intros c b req ask place ans.
  destruct (Upload.demo_chunks_ok (Rfc1321.md5 c ++ [0]) c eq_refl eq_refl) as [H1 H2].
  pose proof (demo_upload_task : upload_task demo_local demo_api c = Upload.demo_task (Rfc1321.md5 c ++ [0]) 3) as Hb.
  apply (upload_end_to_end (Xs := Transfer.demo_around) (fun _ _ => eq_refl) eq_refl demo_api demo_thread demo_local c (str "10.0.0.9") 49710 7 8 [zlen ask]
           [zlen req] [1; 2] [place] [ans] 0 0 (str "10.0.0.1") (str "49711") Upload.demo_host 5 16777226
           (Upload.demo_placed (Rfc1321.md5 c ++ [0]) 3) 1888 Upload.demo_tmp (Upload.demo_chunks (Rfc1321.md5 c ++ [0]) c)).
  - exact demo_upload_ok.
  - lia.
  - lia.
  - lia.
  - exact demo_place.
  - unfold is_byte. lia.
  - rewrite Hb. apply Upload.demo_ready.
  - reflexivity.
  - reflexivity.
  - rewrite Hb. apply Upload.demo_fits; [reflexivity|lia].
  - reflexivity.
  - reflexivity.
  - exact demo_stored.
  - apply whole_piece. vm_compute. reflexivity.
  - apply whole_cut. split; vm_compute; discriminate.
  - apply whole_piece. vm_compute. reflexivity.
  - split; [discriminate|]. split; [repeat constructor|reflexivity].
  - exact H1.
  - rewrite Hb. exact H2.
  - apply whole_cut. split; vm_compute; discriminate.
Defined.

End Client.
