(* ===== verification/Data.v ===== *)
(** * The data service of a storage server (network/D)

    Storage servers fetch files from each other over data connections.  The
    server that wants a file has a task in [TASK_Q_WAIT] or [TASK_Q_SYNC_DIR];
    [check_task] connects to the owner and asks ([CMD_GET_FILE_REQ] with the
    task); the owner answers with the task and the file ([do_send_task]); the
    first server stores the bytes and publishes the file ([do_recv_task], then
    [Transfer.recv_file]).  Clients can also push files here, as in
    [Upload]. *)

From stdpp Require Import functions.
From S2P Require Import Prelude.
From S2P Require Import CString.
From S2P Require Import Protocol.
From S2P Require Import MyBuff.
From S2P Require Import Codec.
From S2P Require Import MD5.
From S2P Require Import LinkedList.
From S2P Require Import TaskData.
From S2P Require Import TaskQueue.
From S2P Require Import Timer.
From S2P Require Import Storage.
From S2P Require Import Records.
From S2P Require Import LocalFile.
From S2P Require Import EventLoop.
From S2P Require Import SigStream.
From S2P Require Import Wire.
From S2P Require Import Transfer.

Module Data.
Import MyBuff Conn Loop Sig Fs LocalFile Transfer.

(** ** Data (D/pfs_data.h, D/pfs_data.c) *)

(** [online_list]: the peers by the last byte of their address. *)
Definition online_t : Type := gmap Z (list Z).
Abbreviation data := (Transfer.up online_t).

Definition ALLMASK : Z := 0xFF.
Definition FILE_SYNC_DST_2_SRC_E_OPENFILE : Z := 0x86.
Definition FILE_SYNC_DST_2_SRC_E_MALLOC : Z := 0x87.

(** The settings of [g_config] the service reads, and what a [connect] to an
    address in text gives: the descriptor and the peer's address. *)
Class DataSettings := mk_data_settings {
  max_task_run_once : Z;
  cfg_retry : Z;
  max_data_connects : Z;
  pfs_test : Z;
  k_socket : host data -> bytes -> option (Z * Z)
}.

(** ** Where tasks are *)

(** The queues after the two temporary ones were emptied. *)
Definition refilled (qs : Z -> list Z) : Z -> list Z :=
  let q1 := <[TASK_Q_WAIT := qs TASK_Q_WAIT ++ qs TASK_Q_WAIT_TMP]> (<[TASK_Q_WAIT_TMP := []]> qs) in
  <[TASK_Q_SYNC_DIR := q1 TASK_Q_SYNC_DIR ++ q1 TASK_Q_SYNC_DIR_TMP]> (<[TASK_Q_SYNC_DIR_TMP := []]> q1).

Lemma kept_refilled qs : TaskQueue.kept qs (refilled qs).
Proof.
  intros s x Hs Hx. unfold refilled.
  destruct (decide (s = TASK_Q_WAIT_TMP)) as [-> |]; [exists TASK_Q_WAIT; unfold insert, fn_insert; simpl; set_solver|].
  destruct (decide (s = TASK_Q_SYNC_DIR_TMP)) as [-> |];
    [exists TASK_Q_SYNC_DIR; unfold insert, fn_insert; simpl; set_solver|].
  exists s. unfold insert, fn_insert; repeat case_decide; subst; simpl; set_solver.
Qed.

Section Service.
Context {E : Env} {K : Kernel} {C : Site} {X : Surroundings} {G : DataSettings}.
Implicit Types h : host data.

Definition bucket h (k : Z) : list Z := default [] (extra (user h) !! k).

(** ** Connections (D/pfs_data.c) *)

(** [svc_initconn]. *)
Definition svc_initconn h (fd ip : Z) : Z * host data :=
  let u := user h in
  if negb (mem_ok fd) then (RET_CLOSE_MALLOC, h)
  else
    let p := mk_peer fd 0 (u32 (now h)) ip 0 CONNECTED CON_PASSIVE false
               (Md5.MD5Init (replicate 64 0)) None None in
    let k := Z.land ip ALLMASK in
    (0, set_user h (mk_up (<[fd := p]> (peers u)) (active u ++ [fd]) (files u) (queue u) (disks u)
                      (pic_index u) (<[k := fd :: bucket h k]> (extra u)))).

Definition svc_check_send h (fd : Z) : option Z :=
  p ← peers (user h) !! fd;
  match sendtask p with
  | None => Some (-1)
  | Some t =>
      r ← TaskQueue.tasks (queue (user h)) !! t;
      match paths (sys (files (user h))) !! filename (base r) with
      | None => Some (-1)
      | Some i => Some (if zlen (default [] (inodes (sys (files (user h))) !! i)) =? fsize (base r)
                        then 0 else -1)
      end
  end.

(** [svc_send]: everything queued is sent; a file that is shorter than
    announced ends the connection. *)
Definition svc_send h (fd : Z) : option (Z * host data) :=
  h ← refresh h fd;
  p ← peers (user h) !! fd;
  let fin h := Some (if p_close p then SEND_CLOSE else SEND_ADD_EPOLLIN, h) in
  if sock_stat p =? SENDFILEING then
    t ← sendtask p;
    r ← TaskQueue.tasks (queue (user h)) !! t;
    let finish_send o h :=
      h ← map_task h t (set_over o);
      h ← set_task h t TASK_Q_FIN;
      Some (with_peer h fd (set_sendtask (set_stat p IDLE) None)) in
    if headlen p + processlen (sub r) <=? send_len (conn_of h fd)
    then h ← finish_send OVER_OK h; fin h
    else h ← finish_send OVER_SEND_LEN h; Some (SEND_CLOSE, h)
  else fin h.

Definition bump_retry (r : t_pfs_tasklist) : t_pfs_tasklist :=
  let b := base r in
  set_base r (mk_base (filename b) (tmpfile b) (retfile b) (filemd5 b) (dstip b) (b_starttime b)
                (mtime b) (fsize b) (type b) (u8 (TaskData.retry b + 1)) (overstatus b)).

(** [svc_finiconn]: a file being sent is given up, one being received is
    asked for again. *)
Definition svc_finiconn h (fd : Z) : option (host data) :=
  match peers (user h) !! fd with
  | None => Some h
  | Some p =>
      let h := if 0 <? local_in_fd p
               then emit (with_files h (with_sys (files (user h))
                                          (close (sys (files (user h))) (local_in_fd p))))
                         [Closed (local_in_fd p)]
               else h in
      h ← match sendtask p with
          | Some t => h ← map_task h t (set_over OVER_SEND_LEN); set_task h t TASK_Q_FIN
          | None => Some h
          end;
      h ← match recvtask p with
          | Some t =>
              r ← TaskQueue.tasks (queue (user h)) !! t;
              h ← map_task h t bump_retry;
              set_task (with_files h (with_sys (files (user h))
                                        (real_rm_file (sys (files (user h))) (tmpfile (base r))))) t TASK_Q_WAIT
          | None => Some h
          end;
      let u := user h in
      let k := Z.land (p_ip p) ALLMASK in
      Some (set_user h (mk_up (delete fd (peers u)) (filter (fun x => x <> fd) (active u)) (files u)
                          (queue u) (disks u) (pic_index u)
                          (<[k := filter (fun x => x <> fd) (bucket h k)]> (extra u))))
  end.

(** ** Tasks (D/pfs_data_task.c) *)

(** The part of [do_send_task] that takes a task for the transfer and attaches
    the file to the connection: the status of the answer. *)
Definition attach_file h (fd : Z) (b : t_task_base) : option (Z * host data) :=
  p ← peers (user h) !! fd;
  '(rc, task, q) ← TaskQueue.pfs_get_task (queue (user h)) TASK_Q_HOME q_lock (now h) task_mem;
  let h := with_queue h q in
  if negb (rc =? 0) then Some (FILE_SYNC_DST_2_SRC_E_MALLOC, h)
  else
    t ← task;
    let sub := mk_sub (fsize b) 0 0 (now h) 0 (Ip.ip2str (p_ip p)) OPER_GET_RSP TASK_SRC_NOSYNC 0 in
    h ← map_task h t (fun r => set_sub (set_base r b) sub);
    let '(rc, lfd, f1) := open_localfile_4_read (sys (files (user h))) b in
    let h := with_files h (with_sys (files (user h)) f1) in
    if negb (rc =? LOCALFILE_OK) then
      h ← map_task h t (set_over OVER_E_OPEN_SRCFILE);
      h ← set_task h t TASK_Q_FIN;
      Some (FILE_SYNC_DST_2_SRC_E_OPENFILE, h)
    else
      h ← map_task h t (set_over OVER_UNKNOWN);
      h ← set_task h t TASK_Q_SEND;
      let h := with_peer h fd (set_stat (set_sendtask p (Some t)) SENDFILEING) in
      Some (FILE_SYNC_DST_2_SRC, set_client_fd h fd lfd 0 (fsize b)).

(** [do_send_task]: the answer to a request for a file, and the file. *)
Definition do_send_task h (fd : Z) (b : t_task_base) : option (host data) :=
  let c := conn_of h fd in
  let h := set_conn h fd (mk_conn (c_fd c) 0 (Conn.peerip c) (send_buff c) (recv_buff c)) in
  p ← peers (user h) !! fd;
  let h := with_peer h fd (set_hbtime p (u32 (now h))) in
  let '(st, b) :=
    if (fsize b =? 0) || negb (TaskData.retry b =? 0) then
      let '(rc, b1) := get_localfile_stat (sys (files (user h))) b in
      (if rc =? LOCALFILE_OK then FILE_SYNC_DST_2_SRC else FILE_SYNC_DST_2_SRC_E_OPENFILE, b1)
    else (FILE_SYNC_DST_2_SRC, b) in
  '(st, h) ← (if st =? FILE_SYNC_DST_2_SRC then attach_file h fd b else Some (st, h));
  let msg := create_sig_msg CMD_GET_FILE_RSP st (Wire.base_image b) Wire.sizeof_base in
  let h := set_client_data h fd msg in
  p ← peers (user h) !! fd;
  Some (with_peer h fd (set_headlen p (zlen msg))).

(** [do_recv_task], [create_push_rsp], [create_push_rsp_err] and
    [get_local_filename] are those of [Transfer]. *)
Definition do_recv_task := Transfer.do_recv_task (Y := online_t).
Definition create_push_rsp := Transfer.create_push_rsp (Y := online_t).
Definition create_push_rsp_err := Transfer.create_push_rsp_err (Y := online_t).
Definition get_local_filename := Transfer.get_local_filename (Y := online_t).

Definition set_starttime (b : t_task_base) (t : Z) : t_task_base :=
  mk_base (filename b) (tmpfile b) (retfile b) (filemd5 b) (dstip b) t (mtime b) (fsize b)
          (type b) (TaskData.retry b) (overstatus b).

(** [do_push_task]. *)
Definition do_push_task h (fd : Z) (hd : t_pfs_sig_head) (b : t_task_base) : option (Z * host data) :=
  p ← peers (user h) !! fd;
  let h := with_peer h fd (set_stat p PREPARE_RECVFILE) in
  '(rc, task, q) ← TaskQueue.pfs_get_task (queue (user h)) TASK_Q_HOME q_lock (now h) task_mem;
  let h := with_queue h q in
  if negb (rc =? 0) then
    h ← create_push_rsp_err h (str "get task home error!") fd; Some (RECV_ADD_EPOLLOUT, h)
  else
    t ← task;
    '(b, h) ← (if negb (type b =? TASK_DELFILE) && (Sig.status hd =? 0)
               then get_local_filename h b else Some (b, h));
    let sub := mk_sub (fsize b) 0 0 (now h) 0 (Ip.ip2str (p_ip p)) OPER_PUT_REQ TASK_SOURCE 0 in
    let b0 := set_starttime b (now h) in
    h ← map_task h t (fun r => set_sub (set_base r b0) sub);
    if type b =? TASK_DELFILE then
      '(_, _, l1) ← delete_localfile before_msg timer_mem (now h) (files (user h)) b;
      let h := with_files h l1 in
      h ← map_task h t (set_over OVER_OK);
      h ← set_task h t TASK_Q_FIN;
      let h := with_peer h fd (set_recvtask (set_stat p PREPARE_RECVFILE) None) in
      h ← create_push_rsp h (retfile b0) fd;
      Some (RECV_SEND, h)
    else
      let h := if 0 <? local_in_fd p
               then with_files h (with_sys (files (user h)) (close (sys (files (user h))) (local_in_fd p)))
               else h in
      '(rc, lfd, b1, l1) ← open_tmp_localfile_4_write before_node (time_text (now h))
                             (files (user h)) b0 (local_in_fd p);
      let h := with_files h l1 in
      h ← map_task h t (fun r => set_base r b1);
      if negb (rc =? LOCALFILE_OK) then
        h ← map_task h t (set_over OVER_E_OPEN_DSTFILE);
        h ← set_task h t TASK_Q_CLEAN;
        let h := with_peer h fd (set_recvtask (set_infd (set_stat p PREPARE_RECVFILE) lfd) None) in
        h ← create_push_rsp_err h (str "open remote file err") fd;
        Some (RECV_ADD_EPOLLOUT, h)
      else Some (RECV_ADD_EPOLLIN,
                 with_peer h fd (set_recvtask (set_infd (set_stat p RECVFILEING) lfd) (Some t))).

(** ** Requests (D/pfs_data_sub.c) *)

Definition check_client_ip (fd : Z) : Z := 0.

(** [active_send]: the message is queued and the connection polled for
    output. *)
Definition active_send h (fd : Z) (hd : t_pfs_sig_head) (body : bytes) : option (host data) :=
  p ← peers (user h) !! fd;
  let h := with_peer h fd (set_hbtime p (u32 (now h))) in
  let h := set_client_data h (p_fd p) (create_sig_msg (cmdid hd) (Sig.status hd) body (bodylen hd)) in
  Some (modify_fd_event h (p_fd p) EPOLLOUT).

Definition do_req h (fd : Z) (hd : t_pfs_sig_head) (b : t_pfs_sig_body) : option (Z * host data) :=
  let sized := bodylen hd =? Wire.sizeof_base in
  if cmdid hd =? CMD_GET_FILE_RSP then
    if negb sized then Some (RECV_CLOSE, h) else do_recv_task h fd hd (Wire.base_of_image b)
  else if cmdid hd =? CMD_GET_FILE_REQ then
    if negb sized then Some (RECV_CLOSE, h)
    else h ← do_send_task h fd (Wire.base_of_image b); Some (RECV_ADD_EPOLLOUT, h)
  else if cmdid hd =? CMD_PUT_FILE_REQ then
    if negb (check_client_ip fd =? 0) then Some (RECV_CLOSE, h)
    else if negb sized then Some (RECV_CLOSE, h) else do_push_task h fd hd (Wire.base_of_image b)
  else Some (RECV_CLOSE, h).

(** [check_req] and [svc_recv], with this [do_req]; pushing clients are
    answered. *)
Definition check_req : host data -> Z -> option (Z * host data) := Transfer.check_req do_req.
Definition svc_recv : host data -> Z -> option (Z * host data) := Transfer.svc_recv OPER_PUT_REQ do_req.
Definition svc_send_once : host data -> Z -> option (Z * host data) := Transfer.svc_send_once.

(** ** Waiting tasks (D/pfs_data_base.c) *)

(** A listed descriptor without a peer would be a dangling pointer. *)
Definition peer_is h (ip : Z) (test : peer -> bool) (fd : Z) : bool :=
  match peers (user h) !! fd with Some p => (p_ip p =? ip) && test p | None => false end.

(** [get_ip_connect_count]. *)
Definition get_ip_connect_count h (ip : Z) : Z :=
  zlen (filter (fun fd => peer_is h ip (fun p => mode p =? CON_ACTIVE) fd) (bucket h (Z.land ALLMASK ip))).

(** [find_ip_stat]. *)
Definition find_ip_stat h (ip md st : Z) : option Z :=
  find_first (peer_is h ip (fun p => (md =? mode p) && (st =? sock_stat p))) (bucket h (Z.land ALLMASK ip)).

(** [active_connect]; [None] is a store past the connection table. *)
Definition active_connect h (ip : bytes) : option (host data) :=
  match k_socket h ip with
  | None => Some h
  | Some (fd, addr) =>
      if maxfds <=? fd then None
      else
        let '(rc, h) := svc_initconn h fd addr in
        if negb (rc =? 0) then Some (emit h [Closed fd])
        else
          let h := add_fd_2_efd h fd addr in
          p ← peers (user h) !! fd;
          Some (with_peer h fd (set_mode (set_stat p IDLE) CON_ACTIVE))
  end.

(** The loops of [check_task] that put the tasks of a temporary queue back. *)
Fixpoint move_all (fuel : nat) h (from to : Z) : option (host data) :=
  match fuel with
  | O => None
  | S fuel' =>
      '(rc, task, q) ← TaskQueue.pfs_get_task (queue (user h)) from q_lock (now h) task_mem;
      let h := with_queue h q in
      if negb (rc =? GET_TASK_Q_OK) then Some h
      else t ← task; h ← set_task h t to; move_all fuel' h from to
  end.

(** A task that has to wait goes to the temporary queue of its kind. *)
Definition put_off h (t : Z) (r : t_pfs_tasklist) : option (host data) :=
  set_task h t (if need_sync (sub r) =? TASK_SYNC_ISDIR then TASK_Q_SYNC_DIR_TMP else TASK_Q_WAIT_TMP).

Definition finish h (t over : Z) : option (host data) :=
  h ← map_task h t (set_over over); set_task h t TASK_Q_FIN.

Definition set_lastlen0 (r : t_pfs_tasklist) : t_pfs_tasklist :=
  let s := sub r in
  set_sub r (mk_sub (processlen s) 0 (lasttime s) (starttime s) (endtime s)
               (TaskData.peerip s) (oper_type s) (need_sync s) (sync_dir s)).

(** The request for task [t], sent on the idle connection [fd]. *)
Definition ask_for h (fd t : Z) : option (host data) :=
  h ← map_task h t set_lastlen0;
  r ← TaskQueue.tasks (queue (user h)) !! t;
  h ← active_send h fd (mk_head Wire.sizeof_base CMD_GET_FILE_REQ FILE_SYNC_DST_2_SRC)
        (Wire.base_image (base r));
  p ← peers (user h) !! fd;
  let h := with_peer h fd (set_stat p PREPARE_RECVFILE) in
  h ← set_task h t TASK_Q_RECV;
  p ← peers (user h) !! fd;
  Some (with_peer h fd (set_recvtask p (Some t))).

(** What is left to do with a task whose file is not here yet. *)
Definition fetch h (t : Z) (found : option Z) : option (host data) :=
  r ← TaskQueue.tasks (queue (user h)) !! t;
  let ip := Ip.str2ip (TaskData.peerip (sub r)) in
  '(h, fd) ←
    match found with
    | Some fd => Some (h, Some fd)
    | None =>
        if max_data_connects <? get_ip_connect_count h ip then h ← put_off h t r; Some (h, None)
        else
          h ← active_connect h (TaskData.peerip (sub r));
          match find_ip_stat h ip CON_ACTIVE IDLE with
          | Some fd => Some (h, Some fd)
          | None => h ← put_off h t r; Some (h, None)
          end
    end;
  match fd with
  | None => Some h
  | Some fd => if negb (pfs_test =? 0) then finish h t OVER_OK else ask_for h fd t
  end.

(** One task taken from a queue: the body of the last loop of [check_task]. *)
Definition run_task h (t : Z) : option (host data) :=
  r ← TaskQueue.tasks (queue (user h)) !! t;
  if cfg_retry <? TaskData.retry (base r) then finish h t OVER_TOO_MANY_TRY
  else
    '(here, h) ←
      (if 0 <? fsize (base r) then
         '(rc, b1, f1) ← check_localfile_md5 before_node (sys (files (user h))) (base r) VIDEOFILE;
         h ← map_task (with_files h (with_sys (files (user h)) f1)) t (fun r => set_base r b1);
         Some (rc =? LOCALFILE_OK, h)
       else Some (false, h));
    if here : bool then finish h t OVER_OK
    else
      r ← TaskQueue.tasks (queue (user h)) !! t;
      let s := sub r in
      let found := find_ip_stat h (Ip.str2ip (TaskData.peerip s)) CON_ACTIVE IDLE in
      if negb (oper_type s =? OPER_GET_REQ) && negb (oper_type s =? OPER_FROM_POSS)
      then finish h t OVER_E_TYPE
      else
        let '(rc, f1) := check_disk_space (sys (files (user h))) (base r) in
        let h := with_files h (with_sys (files (user h)) f1) in
        if negb (rc =? DISK_OK) then
          let '(rc2, f2) := check_disk_space (sys (files (user h))) (base r) in
          let h := with_files h (with_sys (files (user h)) f2) in
          if rc2 =? DISK_SPACE_TOO_SMALL then put_off h t r else finish h t OVER_DISK_ERR
        else fetch h t found.

(** The last loop of [check_task]; [once_run] is a [uint16_t]. *)
Fixpoint run_tasks (fuel : nat) (once_run : Z) h : option (host data) :=
  match fuel with
  | O => None
  | S fuel' =>
      let once_run := u16 (once_run + 1) in
      if max_task_run_once <=? once_run then Some h
      else
        '(rc, task, q) ← TaskQueue.pfs_get_task (queue (user h)) TASK_Q_WAIT q_lock (now h) task_mem;
        let h := with_queue h q in
        '(rc, task, h) ←
          (if negb (rc =? GET_TASK_Q_OK) then
             '(rc, task, q) ← TaskQueue.pfs_get_task (queue (user h)) TASK_Q_SYNC_DIR q_lock (now h) task_mem;
             Some (rc, task, with_queue h q)
           else Some (rc, task, h));
        if negb (rc =? GET_TASK_Q_OK) then Some h
        else t ← task; h ← run_task h t; run_tasks fuel' once_run h
  end.

(** [check_task]: every loop takes a task from a queue it does not put tasks
    back into, so that one iteration per task and one more are enough. *)
Definition check_task h : option (host data) :=
  let fuel := S (length (map_to_list (TaskQueue.tasks (queue (user h))))) in
  h ← move_all fuel h TASK_Q_WAIT_TMP TASK_Q_WAIT;
  h ← move_all fuel h TASK_Q_SYNC_DIR_TMP TASK_Q_SYNC_DIR;
  run_tasks fuel 0 h.

(** [svc_timeout]. *)
Definition svc_timeout (timeout : Z) h : option (host data) :=
  h ← close_overdue svc_finiconn timeout h; check_task h.

(** ** The answer to a request *)

(** The task of a request after the answer [b]: a file that has changed since
    the task was made is taken as it is now. *)
Definition take_answer (r : t_pfs_tasklist) (b : t_task_base) : t_pfs_tasklist :=
  if bool_decide (filemd5 (base r) = filemd5 b) then r
  else set_sub (set_base r b)
         (mk_sub (fsize b) (lastlen (sub r)) (lasttime (sub r)) (starttime (sub r)) (endtime (sub r))
            (TaskData.peerip (sub r)) (oper_type (sub r)) (need_sync (sub r)) (sync_dir (sub r))).

(** Connection [fd] waits for the answer [b] to the request of task [t], for
    which everything is at hand: a name ([bc]) that leads to an existing
    directory, a fresh temporary file. *)
Record awaiting h (fd t : Z) (b bc : t_task_base) (n o : Z) (tmp : bytes) : Prop := mk_awaiting {
  aw_peer : exists p, peers (user h) !! fd = Some p /\ sock_stat p = PREPARE_RECVFILE /\
    recvtask p = Some t /\ local_in_fd p <= 0;
  aw_conn : wf_conn h fd;
  aw_task : exists r off qs, TaskQueue.tasks (queue (user h)) !! t = Some r /\
    TaskQueue.queues off (queue (user h)) qs /\ TaskQueue.held (queue (user h)) qs t /\
    lastlen (sub r) = 0 /\ oper_type (sub r) = o /\ processlen (sub (take_answer r b)) = n /\
    storage_convert before_node (base (take_answer r b)) = Some (LOCALFILE_OK, bc);
  aw_dir : exists j, strrchr (filename bc) 47 = Some (S j) /\
    take (S j) (filename bc) ∈ dirs (sys (files (user h)));
  aw_tmp : tmp = tmp_name (filename bc) (time_text (now h)) (g_index (files (user h))) /\
    47 ∉ time_text (now h) /\ zlen tmp < 256 /\ k_open tmp = None /\
    paths (sys (files (user h))) !! tmp = None /\ 0 < next (sys (files (user h)))
}.

Definition answer (b : t_task_base) : SigStream.msg :=
  SigStream.mk_msg CMD_GET_FILE_RSP FILE_SYNC_DST_2_SRC (Wire.base_image b).
Definition request (b : t_task_base) : SigStream.msg :=
  SigStream.mk_msg CMD_GET_FILE_REQ FILE_SYNC_DST_2_SRC (Wire.base_image b).

Lemma task_msg_ok cmd st b :
  Wire.fits b -> is_byte cmd -> is_byte st -> SigStream.msg_ok (SigStream.mk_msg cmd st (Wire.base_image b)).
Proof.
  intros Hf Hc Hs. destruct (Wire.carried stack_body b Hf) as [Hl _]. unfold Wire.sizeof_base in Hl.
  split; [done|]. split; [done|]. simpl. lia.
Qed.

(** The state [do_recv_task] opens the file in: the answer taken over. *)
Lemma recv_takes_answer h t r b off qs :
  TaskQueue.tasks (queue (user h)) !! t = Some r ->
  TaskQueue.queues off (queue (user h)) qs -> TaskQueue.held (queue (user h)) qs t ->
  exists q, (if negb (bool_decide (filemd5 (base r) = filemd5 b))
     then map_task h t (fun r => set_sub (set_base r b)
            (mk_sub (fsize b) (lastlen (sub r)) (lasttime (sub r)) (starttime (sub r))
               (endtime (sub r)) (TaskData.peerip (sub r)) (oper_type (sub r)) (need_sync (sub r))
               (sync_dir (sub r))))
     else Some h) = Some (with_queue h q) /\
    TaskQueue.tasks q !! t = Some (take_answer r b) /\
    TaskQueue.queues off q qs /\ TaskQueue.held q qs t.
Proof.
  intros Hr Q1 Q2. unfold take_answer. case_bool_decide; simpl.
  - exists (queue (user h)). split_and!; try done. by destruct h as [? ? ? ? []].
  - rewrite (map_task_some h t _ r Hr). eexists. split; [done|]. simpl. rewrite lookup_insert_eq.
    split; [done|]. by apply (TaskQueue.with_task_held off _ qs t r).
Qed.

Lemma recv_task_starts h fd t b bc n o tmp :
  awaiting h fd t b bc n o tmp ->
  exists h1 r lfd, do_recv_task h fd (mk_head Wire.sizeof_base CMD_GET_FILE_RSP FILE_SYNC_DST_2_SRC) b
    = Some (RECV_ADD_EPOLLIN, h1) /\
    receiving false h1 fd t lfd lfd [] r /\ base r = set_tmpfile bc tmp /\ processlen (sub r) = n /\
    oper_type (sub r) = o /\ inq h1 fd = inq h fd /\ outq h1 fd = outq h fd /\
    paths (sys (files (user h1))) = <[tmp := lfd]> (paths (sys (files (user h)))).
Proof.
  intros [(p & P1 & P2 & P3 & P4) W (r & off & qs & T1 & Q1 & Q2 & L & O1 & N & S) (j & D1 & D2) T].
  destruct T as (T0 & T2 & T3 & T4 & T5 & T6). subst tmp.
  unfold do_recv_task, Transfer.do_recv_task. rewrite P1. cbn [mbind option_bind]. rewrite P2.
  simpl (negb _). cbv iota. rewrite P3. cbn [mbind option_bind]. simpl (negb _). cbv iota.
  rewrite T1. cbn [mbind option_bind].
  destruct (recv_takes_answer h t r b off qs T1 Q1 Q2) as (q & -> & T7 & Q3 & Q4).
  cbn [mbind option_bind]. change (queue (user (with_queue h q))) with q. rewrite T7.
  cbn [mbind option_bind].
  destruct (0 <? local_in_fd p) eqn:El; [apply Z.ltb_lt in El; lia|].
  change (now (with_queue h q)) with (now h). change (files (user (with_queue h q))) with (files (user h)).
  destruct (open_tmp_fresh before_node (time_text (now h)) (files (user h)) _ bc (local_in_fd p) j S T2 D1 D2 T3 T4 T5)
    as (lfd & l1 & -> & Ha & Hpath & ->).
  cbn [mbind option_bind]. rewrite (map_task_some _ t _ (take_answer r b)) by exact T7.
  cbn [mbind option_bind]. simpl (negb _). cbv iota.
  assert (X1 : lastlen (sub (take_answer r b)) = 0 /\ oper_type (sub (take_answer r b)) = o).
  { unfold take_answer. by case_bool_decide. }
  eexists _, (set_base (take_answer r b) _), _. split; [reflexivity|].
  split; [|split_and!; [done|done|apply X1|done..]].
  split; simpl.
  - eexists. rewrite lookup_insert_eq. by split_and!.
  - by rewrite lookup_insert_eq.
  - apply X1.
  - rewrite Hpath. split; [done|]. split; [apply lookup_insert_eq|done].
  - exact W.
  - exists off, qs. by apply (TaskQueue.with_task_held off q qs t (take_answer r b)).
Qed.

Lemma answer_announces fd t b bc n o tmp :
  Wire.fits b ->
  announces do_req false fd t n o (answer b) (set_tmpfile bc tmp) (fun h => awaiting h fd t b bc n o tmp).
Proof.
  intros Hf. destruct (Wire.carried stack_body b Hf) as [Hl Hb]. split.
  - by apply task_msg_ok.
  - by intros h [].
  - intros h [(p & P1 & P2 & _)]. exists p. by rewrite P2.
  - intros h h' [(p & P1 & P2 & P3 & P4) W T D M]. unfold refresh. rewrite P1.
    cbn [mbind option_bind]. intros; simplify_eq. split; try done. simpl.
    eexists. rewrite lookup_insert_eq. by split_and!.
  - intros h d [P W T D M]. destruct (arrive_spec h fd d W) as (A & _). by split.
  - intros h Ha. unfold do_req, SigStream.head_of.
    cbn [bodylen cmdid SigStream.m_cmd SigStream.m_status SigStream.m_body answer].
    rewrite Hl, Hb. simpl (CMD_GET_FILE_RSP =? _). simpl (Wire.sizeof_base =? Wire.sizeof_base).
    cbn [negb]. cbv iota zeta.
    destruct (recv_task_starts h fd t b bc n o tmp Ha) as (h1 & r & lfd & E1 & R). by exists h1, r, lfd.
Qed.

Hypothesis lock_free : q_lock = 0.

(** A whole answer, however it is cut. *)
Lemma answer_received h fd t b bc n o tmp chunks c :
  (forall lfd d, k_write lfd d = zlen d) ->
  awaiting h fd t b bc n o tmp -> inq h fd = [] -> Wire.fits b ->
  Forall (fun d => d <> []) chunks -> concat chunks = SigStream.encode (answer b) ++ c ->
  c <> [] -> zlen c = n -> n < 2 ^ 31 -> o <> OPER_PUT_REQ ->
  filemd5 bc = Rfc1321.md5 c ++ [0] -> k_rename tmp (filename bc) = true ->
  exists h' r p, feed OPER_PUT_REQ do_req h fd chunks = Some (RECV_SEND, h') /\
    contents (sys (files (user h'))) (filename bc) = Some c /\
    paths (sys (files (user h'))) !! tmp = None /\
    TaskQueue.tasks (queue (user h')) !! t = Some r /\
    overstatus (base r) = OVER_OK /\ TaskData.status r = TASK_Q_FIN /\ outq h' fd = outq h fd /\
    peers (user h') !! fd = Some p /\ sock_stat p = IDLE /\ recvtask p = None.
Proof.
  intros Hw Hr Hq Hf Hall Hs Hc Hl Hsz Ho Hm Hk.
  destruct (feed_announced OPER_PUT_REQ do_req Hw _ _ _ _ _ _ _ _ (answer_announces fd t b bc n o tmp Hf)
              chunks h c) as (h1 & r1 & lfd & E1 & R1 & B1 & B2 & O1 & _);
    try done; [rewrite Hq; apply encode_nonempty|by rewrite Hq|].
  assert (Hne : tmp <> filename bc) by (destruct Hr as [_ _ _ _ [-> _]]; apply tmp_name_ne).
  destruct (finish_file_ok OPER_PUT_REQ lock_free _ h1 fd t lfd lfd c r1 R1)
    as (h2 & r2 & p2 & E2 & A1 & A2 & A3 & A4 & A5 & A6 & A7 & A8 & A9); try by rewrite B1.
  apply Z.eqb_neq in Ho. rewrite B2, Ho, app_nil_r in A6. rewrite B1 in A1, A2.
  exists h2, r2, p2. split_and!; try done; congruence.
Qed.

(** The request: the task is in [TASK_Q_RECV], the message is queued. *)
Lemma ask_for_spec h fd t p r off qs :
  peers (user h) !! fd = Some p -> p_fd p = fd -> wf_conn h fd -> Wire.fits (base r) ->
  TaskQueue.tasks (queue (user h)) !! t = Some r ->
  TaskQueue.queues off (queue (user h)) qs -> TaskQueue.detached (queue (user h)) qs t ->
  exists h1 p1 r1 qs1, ask_for h fd t = Some h1 /\
    outq h1 fd = outq h fd ++ SigStream.encode (request (base r)) /\ inq h1 fd = inq h fd /\
    wf_conn h1 fd /\ files (user h1) = files (user h) /\ now h1 = now h /\
    peers (user h1) !! fd = Some p1 /\ sock_stat p1 = PREPARE_RECVFILE /\ recvtask p1 = Some t /\
    local_in_fd p1 = local_in_fd p /\
    TaskQueue.tasks (queue (user h1)) !! t = Some r1 /\ base r1 = base r /\ sub r1 = sub (set_lastlen0 r) /\
    TaskQueue.queues off (queue (user h1)) qs1 /\ qs1 = <[TASK_Q_RECV := qs TASK_Q_RECV ++ [t]]> qs.
Proof.
  intros P1 P2 W Hf T Q1 Q2. unfold ask_for.
  rewrite (map_task_some h t _ r T). cbn [mbind option_bind].
  set (h0 := with_queue h _). assert (T0 : TaskQueue.tasks (queue (user h0)) !! t = Some (set_lastlen0 r))
    by apply lookup_insert_eq.
  rewrite T0. cbn [mbind option_bind]. unfold active_send.
  change (peers (user h0)) with (peers (user h)). rewrite P1. cbn [mbind option_bind cmdid Sig.status bodylen].
  rewrite P2. destruct (Wire.carried stack_body (base r) Hf) as [Hl _].
  change (base (set_lastlen0 r)) with (base r).
  assert (Em : create_sig_msg CMD_GET_FILE_REQ FILE_SYNC_DST_2_SRC (Wire.base_image (base r)) Wire.sizeof_base
    = SigStream.encode (request (base r))) by (rewrite <- Hl; done).
  rewrite Em. set (m := SigStream.encode _). set (ha := with_peer h0 fd _).
  assert (Wa : wf_conn ha fd) by exact W.
  destruct (reply_spec ha fd m Wa) as (W1 & I1 & O1 & U1 & N1).
  set (h1 := modify_fd_event (set_client_data ha fd m) fd EPOLLOUT) in *.
  rewrite U1. assert (Pa : peers (user ha) !! fd = Some (set_hbtime p (u32 (now h0)))) by apply lookup_insert_eq.
  rewrite Pa. cbn [mbind option_bind]. set (hb := with_peer h1 fd _).
  destruct (TaskQueue.with_task_held off (queue (user h)) qs t r (set_lastlen0 r) Q1 (or_introl Q2) T eq_refl)
    as [Q3 _].
  assert (Qb : queue (user hb) = TaskQueue.with_task (queue (user h)) t (set_lastlen0 r)).
  { unfold hb, with_peer. simpl. by rewrite U1. }
  assert (D3 : TaskQueue.detached (TaskQueue.with_task (queue (user h)) t (set_lastlen0 r)) qs t).
  { destruct Q2 as [X1 X2 X3 X4]. split; try done; simpl; by rewrite lookup_insert_eq. }
  unfold set_task. rewrite Qb, lock_free.
  destruct (TaskQueue.set_task_step Q3 TASK_Q_RECV t 0 (now hb)) as (q' & Eq & Q4 & _); [done|by left|done|].
  rewrite Eq. cbn [mbind option_bind]. destruct (set_task_shape _ _ _ _ _ _ _ Eq) as (r' & T1 & T2 & T3 & T4); [done|].
  assert (Pb : peers (user (with_queue hb q')) !! fd
    = Some (set_stat (set_hbtime p (u32 (now h0))) PREPARE_RECVFILE)).
  { simpl. apply lookup_insert_eq. }
  rewrite Pb. cbn [mbind option_bind].
  eexists _, _, r', _. split; [reflexivity|]. split; [exact O1|]. split; [exact I1|]. split; [exact W1|].
  simpl. rewrite lookup_insert_eq. rewrite U1. by split_and!.
Qed.

(** A file attached to a connection, then a message queued before it. *)
Lemma set_file_spec h fd lfd n :
  wf_conn h fd -> 0 <= lfd ->
  let h' := set_client_fd h fd lfd 0 n in
  wf_conn h' fd /\ inq h' fd = inq h fd /\ outq h' fd = outq h fd /\
  outfile h' fd = Some (lfd, 0, n) /\ user h' = user h /\ send_len (conn_of h' fd) = send_len (conn_of h fd).
Proof.
  intros [W1 W2] Hl. unfold set_client_fd. simpl. set (b := mk_buff _ _ _ lfd 0 n).
  set (h1 := emit _ _).
  assert (C1 : conn_of h1 fd = set_send (conn_of h fd) b).
  { unfold h1. change (conn_of (emit ?x _) fd) with (conn_of x fd). by rewrite conn_set, decide_True. }
  unfold wf_conn, inq, outq, outfile. rewrite C1. split_and!; try done.
  unfold MyBuff.file, b; simpl. destruct (0 <=? lfd) eqn:El; b2p; [done|lia].
Qed.

Lemma set_data_spec h fd d :
  wf_conn h fd ->
  let h' := set_client_data h fd d in
  wf_conn h' fd /\ inq h' fd = inq h fd /\ outq h' fd = outq h fd ++ d /\
  outfile h' fd = outfile h fd /\ send_len (conn_of h' fd) = send_len (conn_of h fd).
Proof.
  intros [W1 W2]. destruct (put_spec (send_buff (conn_of h fd)) d W1) as (A & B & F).
  unfold wf_conn, inq, outq, outfile, set_client_data. rewrite conn_set, decide_True by done. by simpl.
Qed.

(** The file [b] names is open under a new descriptor [lfd] and attached to
    the connection, and task [t] stands for its transfer. *)
Record attached h (fd t lfd i : Z) (c : bytes) : Prop := mk_attached {
  at_peer : exists p, peers (user h) !! fd = Some p /\ sock_stat p = SENDFILEING /\ sendtask p = Some t;
  at_conn : wf_conn h fd;
  at_file : outfile h fd = Some (lfd, 0, zlen c) /\ fds (sys (files (user h))) !! lfd = Some (i, 0) /\
    inodes (sys (files (user h))) !! i = Some c;
  at_task : exists r off qs, TaskQueue.tasks (queue (user h)) !! t = Some r /\
    processlen (sub r) = zlen c /\ TaskData.status r = TASK_Q_SEND /\
    TaskQueue.queues off (queue (user h)) qs /\ TaskQueue.held (queue (user h)) qs t
}.

Lemma attach_file_spec h fd b p off qs t rest i c :
  peers (user h) !! fd = Some p -> wf_conn h fd ->
  TaskQueue.queues off (queue (user h)) qs -> qs TASK_Q_HOME = t :: rest ->
  fsize b = zlen c -> k_open (filename b) = None ->
  paths (sys (files (user h))) !! filename b = Some i -> inodes (sys (files (user h))) !! i = Some c ->
  0 <= next (sys (files (user h))) ->
  exists h1 lfd, attach_file h fd b = Some (FILE_SYNC_DST_2_SRC, h1) /\ attached h1 fd t lfd i c /\
    outq h1 fd = outq h fd /\ inq h1 fd = inq h fd /\
    send_len (conn_of h1 fd) = send_len (conn_of h fd).
Proof.
  intros P1 W Q1 Q2 Hs Hk Hp Hi Hnx. unfold attach_file. rewrite P1. cbn [mbind option_bind].
  rewrite lock_free.
  destruct (TaskQueue.get_task_step Q1 TASK_Q_HOME t rest 0 (now h) task_mem)
    as (q1 & -> & Q3 & Q4 & _); [done|by left|done|].
  cbn [mbind option_bind]. simpl (negb _). cbv iota. destruct (TaskQueue.d_task _ _ _ Q4) as [r0 Hr0].
  rewrite (map_task_some _ t _ r0) by exact Hr0. cbn [mbind option_bind].
  set (r1 := set_sub (set_base r0 b) _). set (h2 := with_queue (with_queue h q1) _).
  change (files (user h2)) with (files (user h)).
  unfold open_localfile_4_read, open_read. rewrite Hk, Hp. cbn [fst snd]. simpl (negb _). cbv iota.
  set (f1 := mk_fs _ _ _ _ _ _). set (h3 := with_files h2 _).
  rewrite (map_task_some h3 t _ r1) by apply lookup_insert_eq. cbn [mbind option_bind].
  set (h4 := with_queue h3 _).
  destruct (TaskQueue.with_task_held off q1 _ t r0 r1 Q3 (or_introl Q4) Hr0 eq_refl) as [Q5 Q6].
  destruct (TaskQueue.with_task_held off _ _ t r1 (set_over OVER_UNKNOWN r1) Q5 Q6) as [Q7 Q8];
    [apply lookup_insert_eq|done|].
  unfold set_task. rewrite lock_free. change (queue (user h4))
    with (TaskQueue.with_task (TaskQueue.with_task q1 t r1) t (set_over OVER_UNKNOWN r1)).
  destruct (TaskQueue.set_task_held _ _ _ t TASK_Q_SEND 0 (now h4) Q7 Q8) as (off' & q' & qs' & l & Eq & Q9 & Q10);
    [done|by left|].
  rewrite Eq. cbn [mbind option_bind]. destruct (set_task_shape _ _ _ _ _ _ _ Eq) as (r' & T1 & T2 & T3 & T4); [done|].
  set (h5 := with_peer (with_queue h4 q') fd _).
  destruct (set_file_spec h5 fd (next (sys (files (user h)))) (fsize b) W Hnx) as (W6 & I6 & O6 & F6 & U6 & S6).
  eexists _, _. split; [reflexivity|]. split; [|by split_and!].
  split; [|done|..]; rewrite U6.
  - eexists. split; [apply lookup_insert_eq|done].
  - rewrite F6, Hs. split_and!; [done| |done]. apply lookup_insert_eq.
  - exists r', off', qs'. split_and!; try done; [by rewrite T4|]. right. by exists TASK_Q_SEND, l, [].
Qed.

(** The owner's side: the answer and the file are queued, the file from its
    first byte. *)
Lemma send_task_spec h fd b p off qs t rest i c :
  peers (user h) !! fd = Some p -> wf_conn h fd -> Wire.fits b ->
  TaskQueue.queues off (queue (user h)) qs -> qs TASK_Q_HOME = t :: rest ->
  fsize b = zlen c -> c <> [] -> TaskData.retry b = 0 -> k_open (filename b) = None ->
  paths (sys (files (user h))) !! filename b = Some i -> inodes (sys (files (user h))) !! i = Some c ->
  0 <= next (sys (files (user h))) ->
  exists h1 lfd, do_send_task h fd b = Some h1 /\ attached h1 fd t lfd i c /\
    outq h1 fd = outq h fd ++ SigStream.encode (answer b) /\ inq h1 fd = inq h fd /\
    send_len (conn_of h1 fd) = 0 /\ exists p1, peers (user h1) !! fd = Some p1 /\ headlen p1 = 828.
Proof.
  intros P1 W Hf Q1 Q2 Hs Hc Hr Hk Hp Hi Hnx. unfold do_send_task.
  set (h0 := set_conn h fd _).
  assert (C0 : conn_of h0 fd = mk_conn (c_fd (conn_of h fd)) 0 (Conn.peerip (conn_of h fd))
    (send_buff (conn_of h fd)) (recv_buff (conn_of h fd))) by (unfold h0; by rewrite conn_set, decide_True).
  change (peers (user h0)) with (peers (user h)). rewrite P1. cbn [mbind option_bind].
  assert (Hz : fsize b =? 0 = false) by (apply Z.eqb_neq; destruct c; [done|simpl in Hs; lia]).
  rewrite Hz, Hr. simpl (negb _). cbn [orb]. cbv iota. simpl (FILE_SYNC_DST_2_SRC =? _). cbv iota.
  set (h1 := with_peer h0 fd _).
  destruct (attach_file_spec h1 fd b (set_hbtime p (u32 (now h0))) off qs t rest i c)
    as (h2 & lfd & -> & [(p2 & P2 & P3 & P4) W2 F2 T2] & O2 & I2 & S2); try done.
  { apply lookup_insert_eq. }
  { unfold wf_conn. change (conn_of h1 fd) with (conn_of h0 fd). rewrite C0. exact W. }
  cbn [mbind option_bind]. destruct (Wire.carried stack_body b Hf) as [Hl _].
  assert (Em : create_sig_msg CMD_GET_FILE_RSP FILE_SYNC_DST_2_SRC (Wire.base_image b) Wire.sizeof_base
    = SigStream.encode (answer b)) by (rewrite <- Hl; done).
  rewrite Em. destruct (set_data_spec h2 fd (SigStream.encode (answer b)) W2) as (W3 & I3 & O3 & F3 & S3).
  set (h3 := set_client_data h2 fd _) in *. change (user h3) with (user h2). rewrite P2.
  cbn [mbind option_bind]. eexists _, lfd. split; [reflexivity|].
  assert (H0 : outq h1 fd = outq h fd /\ inq h1 fd = inq h fd /\ send_len (conn_of h1 fd) = 0).
  { unfold outq, inq. change (conn_of h1 fd) with (conn_of h0 fd). by rewrite C0. }
  destruct H0 as (H0 & H1 & H2). split; [|split; [|split; [|split]]].
  - split; [|done|..].
    + eexists. split; [apply lookup_insert_eq|done].
    + split; [|apply F2]. etransitivity; [exact F3|apply F2].
    + exact T2.
  - etransitivity; [exact O3|]. congruence.
  - etransitivity; [exact I3|]. congruence.
  - etransitivity; [exact S3|]. congruence.
  - eexists. split; [apply lookup_insert_eq|]. simpl.
    rewrite SigStream.length_message by (by apply task_msg_ok). simpl. unfold Wire.sizeof_base in Hl. lia.
Qed.

(** ** A request served *)

(** What a connection has still to send: the queued bytes, then its file. *)
Definition stream h (fd : Z) : bytes :=
  outq h fd ++
  match outfile h fd with
  | Some (lfd, st, n) =>
      match fds (sys (files (user h))) !! lfd with
      | Some (i, _) => take (Z.to_nat n) (drop (Z.to_nat st) (default [] (inodes (sys (files (user h))) !! i)))
      | None => []
      end
  | None => []
  end.

(** The owner of the file a task [b] names: an idle connection, a free task,
    a file of the announced length [c]. *)
Record owning h (fd : Z) (b : t_task_base) (c : bytes) : Prop := mk_owning {
  ow_peer : exists p, peers (user h) !! fd = Some p /\ sock_stat p <> RECVFILEING;
  ow_conn : wf_conn h fd /\ inq h fd = [] /\ outq h fd = [];
  ow_queue : exists off qs t rest, TaskQueue.queues off (queue (user h)) qs /\ qs TASK_Q_HOME = t :: rest;
  ow_file : k_open (filename b) = None /\ 0 <= next (sys (files (user h))) /\
    contents (sys (files (user h))) (filename b) = Some c
}.

Lemma request_served h fd b c :
  owning h fd b c -> Wire.fits b -> fsize b = zlen c -> c <> [] -> TaskData.retry b = 0 ->
  exists h1 t lfd i, svc_recv (arrive h fd (SigStream.encode (request b))) fd = Some (RECV_ADD_EPOLLOUT, h1) /\
    attached h1 fd t lfd i c /\ stream h1 fd = SigStream.encode (answer b) ++ c.
Proof.
  intros [(p & P1 & P2) (W & I & O) (off & qs & t & rest & Q1 & Q2) (K1 & K2 & K3)] Hf Hs Hc Hr.
  unfold contents in K3. destruct (paths (sys (files (user h))) !! filename b) as [i|] eqn:Hp; [|done].
  simpl in K3. set (e := SigStream.encode (request b)). destruct (arrive_spec h fd e W) as (A1 & A2 & A3).
  rewrite I in A2. simpl in A2. rewrite O in A3.
  destruct (svc_recv_idle OPER_PUT_REQ do_req (arrive h fd e) fd p P1 P2)
    as (h0 & k & _ & E1 & C0 & E0 & F0 & U0 & N0).
  unfold svc_recv. rewrite E1. cbn [req_loop].
  assert (I0 : inq h0 fd = e ++ []) by (rewrite app_nil_r; unfold inq, conn_of in *; by rewrite C0).
  assert (W0 : wf_conn h0 fd) by (unfold wf_conn, conn_of in *; by rewrite C0).
  assert (O0 : outq h0 fd = []) by (unfold outq, conn_of in *; by rewrite C0).
  unfold Transfer.check_req; rewrite (SigStream.check_part_message stack_body do_req h0 fd (request b) []) by (done || by apply task_msg_ok).
  destruct (Wire.carried stack_body b Hf) as [Hl Hb]. unfold do_req, SigStream.head_of.
  cbn [bodylen cmdid SigStream.m_cmd SigStream.m_status SigStream.m_body request]. rewrite Hl, Hb.
  simpl (CMD_GET_FILE_REQ =? CMD_GET_FILE_RSP). simpl (CMD_GET_FILE_REQ =? CMD_GET_FILE_REQ).
  simpl (Wire.sizeof_base =? Wire.sizeof_base). cbn [negb]. cbv iota zeta.
  destruct (send_task_spec h0 fd b (set_hbtime p (u32 (now (arrive h fd e)))) off qs t rest i c)
    as (h1 & lfd & -> & [B1 B2 (B3 & B4 & B5) B6] & O1 & I1 & _); rewrite ?F0, ?U0; try done.
  cbn [mbind option_bind].
  destruct (SigStream.consume_spec fd h1 (Wire.sizeof_base + SIG_HEADSIZE) B2) as [W2 _]; [done|].
  set (h2 := consume_client_data h1 fd _) in *.
  simpl (RECV_ADD_EPOLLOUT =? -1). simpl (RECV_ADD_EPOLLOUT =? RECV_ADD_EPOLLOUT). cbv iota.
  assert (X2 : outfile h2 fd = outfile h1 fd /\ outq h2 fd = outq h1 fd).
  { unfold outfile, outq, h2, consume_client_data. by rewrite conn_set, decide_True. }
  destruct X2 as [X2 X3].
  exists h2, t, lfd, i. split; [done|]. split; [by split; rewrite ?X2|].
  unfold stream. rewrite X2, X3, B3, O1, O0. change (user h2) with (user h1). rewrite B4, B5. simpl.
  by rewrite drop_0, Nat2Z.id, take_ge.
Qed.

(** The server that wants the file: an idle connection to the owner, the task
    just taken from its queue, and room for the file under its name. *)
Record wanting h (fd t : Z) (b bc : t_task_base) (tmp c : bytes) : Prop := mk_wanting {
  wa_peer : exists p, peers (user h) !! fd = Some p /\ p_fd p = fd /\ local_in_fd p <= 0;
  wa_conn : wf_conn h fd /\ inq h fd = [] /\ outq h fd = [];
  wa_task : exists r off qs, TaskQueue.tasks (queue (user h)) !! t = Some r /\ base r = b /\
    oper_type (sub r) = OPER_GET_REQ /\ processlen (sub r) = zlen c /\
    TaskQueue.queues off (queue (user h)) qs /\ TaskQueue.detached (queue (user h)) qs t;
  wa_name : storage_convert before_node b = Some (LOCALFILE_OK, bc);
  wa_dir : exists j, strrchr (filename bc) 47 = Some (S j) /\
    take (S j) (filename bc) ∈ dirs (sys (files (user h)));
  wa_tmp : tmp = tmp_name (filename bc) (time_text (now h)) (g_index (files (user h))) /\
    47 ∉ time_text (now h) /\ zlen tmp < 256 /\ k_open tmp = None /\
    paths (sys (files (user h))) !! tmp = None /\ 0 < next (sys (files (user h)))
}.

Lemma request_sent h fd t b bc tmp c :
  wanting h fd t b bc tmp c -> Wire.fits b ->
  exists h1, ask_for h fd t = Some h1 /\ outq h1 fd = SigStream.encode (request b) /\ inq h1 fd = [] /\
    awaiting h1 fd t b bc (zlen c) OPER_GET_REQ tmp.
Proof.
  intros [(p & P1 & P2 & P3) (W & I & O) (r & off & qs & T & B & O1 & N & Q1 & Q2) S D M] Hf. subst b.
  destruct (ask_for_spec h fd t p r off qs) as (h1 & p1 & r1 & qs1 & E1 & X1 & X2 & X3 & X4 & X5 & X6 & X7 & X8 & X9
    & Y1 & Y2 & Y3 & Y4 & Y5); try done.
  exists h1. rewrite X1, X2, I, O. split_and!; try done.
  split; rewrite ?X4, ?X5; try done.
  - exists p1. split_and!; try done. lia.
  - assert (Ta : take_answer r1 (base r) = r1) by (unfold take_answer; by rewrite bool_decide_eq_true_2 by congruence).
    exists r1, off, qs1. rewrite Ta, Y2, Y3. split_and!; try done. right. subst qs1.
    exists TASK_Q_RECV, (qs TASK_Q_RECV), []. by rewrite fn_lookup_insert.
Qed.

(** ** The rounds of [check_task] *)

(** Task [t] has been taken from the queues [qs]; the other tasks are [T]. *)
Record holding off (qs : Z -> list Z) (t : Z) (T : gmap Z t_pfs_tasklist) (q : TaskQueue.state) : Prop :=
  mk_holding {
  ho_queues : TaskQueue.queues off q qs;
  ho_free : TaskQueue.detached q qs t;
  ho_others : forall x, x <> t -> TaskQueue.tasks q !! x = T !! x
}.

(** It was put in queue [s]. *)
Record placed off (qs : Z -> list Z) (t : Z) (T : gmap Z t_pfs_tasklist) (s : Z) (q : TaskQueue.state) : Prop :=
  mk_placed {
  pl_queues : TaskQueue.queues off q (<[s := qs s ++ [t]]> qs);
  pl_others : forall x, x <> t -> TaskQueue.tasks q !! x = T !! x
}.

(** Where a round of [check_task] can put a task. *)
Definition outcomes : list Z := [TASK_Q_FIN; TASK_Q_WAIT_TMP; TASK_Q_SYNC_DIR_TMP; TASK_Q_RECV].

Lemma outcome_range s : s ∈ outcomes -> TaskQueue.in_range s = true /\ s <> TASK_Q_WAIT /\ s <> TASK_Q_SYNC_DIR.
Proof. unfold outcomes. rewrite !elem_of_cons, elem_of_nil. by intros [-> |[-> |[-> |[-> |]]]]. Qed.

Section Round.
Context (off : Z -> Z) (qs : Z -> list Z) (t : Z) (T : gmap Z t_pfs_tasklist).
Abbreviation holds h := (holding off qs t T (queue (user h))).
Abbreviation done_in h s := (placed off qs t T s (queue (user h))).

Lemma holds_task h : holds h -> exists r, TaskQueue.tasks (queue (user h)) !! t = Some r.
Proof. intros [_ [_ _ _ [r Hr]] _]. by exists r. Qed.

Lemma map_task_holds h f : holds h -> exists h', map_task h t f = Some h' /\ holds h' /\
  (forall r, TaskQueue.tasks (queue (user h)) !! t = Some r -> TaskQueue.tasks (queue (user h')) !! t = Some (f r)) /\
  peers (user h') = peers (user h) /\ files (user h') = files (user h).
Proof.
  intros Hh. destruct (holds_task h Hh) as [r Hr]. destruct Hh as [Q1 Q2 Q3].
  rewrite (map_task_some h t f r Hr). eexists. split; [done|].
  destruct (TaskQueue.with_task_detached off _ qs t (f r) Q1 Q2) as [Q4 Q5]. split; [split; try done|].
  - intros x Hx. simpl. rewrite lookup_insert_ne by done. by apply Q3.
  - split; [|done]. intros r' Hr'. simplify_eq. apply lookup_insert_eq.
Qed.

Lemma set_task_done h s : holds h -> TaskQueue.in_range s = true ->
  exists h', set_task h t s = Some h' /\ done_in h' s /\ peers (user h') = peers (user h).
Proof.
  intros [Q1 Q2 Q3] Hs. unfold set_task. rewrite lock_free.
  destruct (TaskQueue.set_task_step Q1 s t 0 (now h) Hs ltac:(by left) Q2) as (q & Eq & Q4 & _).
  rewrite Eq. eexists. split; [done|]. split; [|done]. split; [done|]. intros x Hx. simpl.
  rewrite (proj2 (TaskQueue.set_task_keeps _ _ _ _ _ _ _ Eq) x Hx). by apply Q3.
Qed.

Lemma finish_done h o : holds h -> exists h', finish h t o = Some h' /\ done_in h' TASK_Q_FIN.
Proof.
  intros Hh. unfold finish. destruct (map_task_holds h (set_over o) Hh) as (h1 & -> & H1 & _).
  cbn [mbind option_bind]. destruct (set_task_done h1 TASK_Q_FIN H1 ltac:(done)) as (h2 & -> & H2 & _). eauto.
Qed.

Lemma put_off_done h r : holds h -> exists h' s, put_off h t r = Some h' /\ s ∈ outcomes /\ done_in h' s.
Proof.
  intros Hh. unfold put_off. destruct (_ =? _).
  - destruct (set_task_done h TASK_Q_SYNC_DIR_TMP Hh ltac:(done)) as (h' & -> & H1 & _).
    eexists _, _. split; [done|]. split; [|done]. unfold outcomes. set_solver.
  - destruct (set_task_done h TASK_Q_WAIT_TMP Hh ltac:(done)) as (h' & -> & H1 & _).
    eexists _, _. split; [done|]. split; [|done]. unfold outcomes. set_solver.
Qed.

Lemma ask_for_done h fd p : holds h -> peers (user h) !! fd = Some p ->
  exists h', ask_for h fd t = Some h' /\ done_in h' TASK_Q_RECV.
Proof.
  intros Hh Hp. unfold ask_for. destruct (map_task_holds h set_lastlen0 Hh) as (h1 & -> & H1 & R1 & P1 & _).
  cbn [mbind option_bind]. destruct (holds_task h1 H1) as [r ->]. cbn [mbind option_bind].
  unfold active_send. rewrite P1, Hp. cbn [mbind option_bind]. set (h2 := modify_fd_event _ _ _).
  assert (U2 : user h2 = user (with_peer h1 fd (set_hbtime p (u32 (now h1))))).
  { unfold h2, modify_fd_event, epoll_mod. by case_match. }
  rewrite U2. assert (P2 : peers (user (with_peer h1 fd (set_hbtime p (u32 (now h1))))) !! fd
    = Some (set_hbtime p (u32 (now h1)))) by apply lookup_insert_eq.
  rewrite P2. cbn [mbind option_bind]. set (h3 := with_peer h2 fd _).
  assert (Q3 : queue (user h3) = queue (user h1)) by (unfold h3, with_peer; simpl; by rewrite U2).
  destruct (set_task_done h3 TASK_Q_RECV) as (h4 & -> & H4 & P4); [by rewrite Q3|done|].
  cbn [mbind option_bind].
  assert (P5 : peers (user h3) !! fd = Some (set_stat (set_hbtime p (u32 (now h1))) PREPARE_RECVFILE))
    by apply lookup_insert_eq.
  rewrite P4, P5. cbn [mbind option_bind]. eauto.
Qed.

Lemma find_ip_peer h ip md st fd : find_ip_stat h ip md st = Some fd -> exists p, peers (user h) !! fd = Some p.
Proof.
  intros Hf. apply find_first_Some in Hf as [_ Hf]. unfold peer_is in Hf.
  destruct (peers (user h) !! fd) as [p|]; [by exists p|done].
Qed.

Hypothesis sockets_fit : forall h ip fd addr, k_socket h ip = Some (fd, addr) -> fd < maxfds.

Lemma connect_keeps h ip : exists h', active_connect h ip = Some h' /\ queue (user h') = queue (user h).
Proof.
  unfold active_connect. destruct (k_socket h ip) as [[fd addr]|] eqn:Es; [|by exists h].
  apply sockets_fit in Es. destruct (maxfds <=? fd) eqn:El; b2p; [lia|].
  unfold svc_initconn. destruct (negb (mem_ok fd)); [by eexists|]. simpl (negb _). cbv iota.
  set (h1 := set_user h _). assert (U : user (add_fd_2_efd h1 fd addr) = user h1).
  { unfold add_fd_2_efd, epoll_add. destruct (epoll h1 !! fd);
      destruct (mybuff_reinit _ _ _ _); destruct (mybuff_reinit _ _ _ _); done. }
  rewrite U. assert (P : exists p, peers (user h1) !! fd = Some p) by (eexists; apply lookup_insert_eq).
  destruct P as [p ->]. cbn [mbind option_bind]. eexists. split; [done|].
  unfold with_peer. simpl. by rewrite U.
Qed.

Lemma fetch_done h found :
  holds h -> (forall fd, found = Some fd -> exists p, peers (user h) !! fd = Some p) ->
  exists h' s, fetch h t found = Some h' /\ s ∈ outcomes /\ done_in h' s.
Proof.
  intros Hh Hf. unfold fetch. destruct (holds_task h Hh) as [r ->]. cbn [mbind option_bind].
  assert (Hend : forall h fd p, holds h -> peers (user h) !! fd = Some p ->
    exists h' s, (if negb (pfs_test =? 0) then finish h t OVER_OK else ask_for h fd t) = Some h' /\
      s ∈ outcomes /\ done_in h' s).
  { intros h1 fd p H1 P1. destruct (negb _).
    - destruct (finish_done h1 OVER_OK H1) as (h' & -> & D). eexists _, _. split_and!; [done| |done]. constructor.
    - destruct (ask_for_done h1 fd p H1 P1) as (h' & -> & D). eexists _, _. split_and!; [done| |done].
      unfold outcomes. set_solver. }
  destruct found as [fd|]; cbn [mbind option_bind].
  { destruct (Hf fd eq_refl) as [p P]. by apply (Hend h fd p). }
  destruct (max_data_connects <? _).
  { destruct (put_off_done h r Hh) as (h' & s & -> & D). cbn [mbind option_bind]. eauto. }
  destruct (connect_keeps h (TaskData.peerip (sub r))) as (h1 & -> & Q1). cbn [mbind option_bind].
  assert (H1 : holds h1) by (by rewrite Q1).
  destruct (find_ip_stat h1 _ _ _) as [fd|] eqn:Ef; cbn [mbind option_bind].
  - destruct (find_ip_peer _ _ _ _ _ Ef) as [p P]. by apply (Hend h1 fd p).
  - destruct (put_off_done h1 r H1) as (h' & s & -> & D). cbn [mbind option_bind]. eauto.
Qed.

Lemma run_task_done h :
  holds h ->
  (forall r, TaskQueue.tasks (queue (user h)) !! t = Some r -> is_Some (storage_convert before_node (base r))) ->
  exists h' s, run_task h t = Some h' /\ s ∈ outcomes /\ done_in h' s.
Proof.
  intros Hh Hn. unfold run_task. destruct (holds_task h Hh) as [r Hr]. rewrite Hr. cbn [mbind option_bind].
  assert (Hfin : forall h o, holds h -> exists h' s, finish h t o = Some h' /\ s ∈ outcomes /\ done_in h' s).
  { intros h1 o H1. destruct (finish_done h1 o H1) as (h' & -> & D). eexists _, _. split_and!; [done| |done]. constructor. }
  destruct (cfg_retry <? _); [by apply Hfin|].
  assert (Hchk : exists here h1, (if 0 <? fsize (base r) then
         '(rc, b1, f1) ← check_localfile_md5 before_node (sys (files (user h))) (base r) VIDEOFILE;
         h ← map_task (with_files h (with_sys (files (user h)) f1)) t (fun r => set_base r b1);
         Some (rc =? LOCALFILE_OK, h)
       else Some (false, h)) = Some (here, h1) /\ holds h1).
  { destruct (0 <? _); [|by exists false, h]. unfold check_localfile_md5. simpl (VIDEOFILE =? VIDEOTMP). cbv iota.
    destruct (Hn r Hr) as [[rc b1] ->]. cbn [fmap option_fmap option_map snd mbind option_bind].
    destruct (match getfilemd5 _ _ with Some _ => _ | None => _ end) as [[rc' b'] f'].
    destruct (map_task_holds (with_files h (with_sys (files (user h)) f')) (fun r => set_base r b') Hh)
      as (h1 & -> & H1 & _). cbn [mbind option_bind]. eauto. }
  destruct Hchk as (here & h1 & -> & H1). cbn [mbind option_bind]. destruct here; [by apply Hfin|].
  destruct (holds_task h1 H1) as [r1 ->]. cbn [mbind option_bind].
  destruct (negb _ && negb _); [by apply Hfin|].
  destruct (check_disk_space _ _) as [rc f1]. destruct (negb (rc =? DISK_OK)).
  - destruct (check_disk_space _ _) as [rc2 f2]. destruct (rc2 =? DISK_SPACE_TOO_SMALL);
      [by apply put_off_done|by apply Hfin].
  - apply fetch_done; [done|]. intros fd Hfd. by apply find_ip_peer in Hfd.
Qed.

End Round.

Lemma move_all_spec off from to fuel : forall h qs,
  TaskQueue.queues off (queue (user h)) qs -> (length (qs from) < fuel)%nat ->
  TaskQueue.in_range from = true -> TaskQueue.in_range to = true -> from <> to -> from <> TASK_Q_HOME ->
  exists h', move_all fuel h from to = Some h' /\
    TaskQueue.queues off (queue (user h')) (<[to := qs to ++ qs from]> (<[from := []]> qs)) /\
    TaskQueue.same_jobs (queue (user h)) (queue (user h')).
Proof.
  induction fuel as [|fuel IH]; intros h qs Q Hl Hf Ht Hne Hh; [lia|]. cbn [move_all]. rewrite lock_free.
  destruct (qs from) as [|t rest] eqn:Eq.
  - rewrite (TaskQueue.get_task_nothing Q from 0 (now h) task_mem Hf ltac:(by left) Eq Hh).
    cbn [mbind option_bind]. simpl (negb _). cbv iota. eexists. split; [done|]. split; [|done]. simpl.
    eapply TaskQueue.queues_ext; [|exact Q]. intros s. unfold insert, fn_insert.
    case_decide; [subst; by rewrite app_nil_r|]. case_decide; by subst.
  - destruct (TaskQueue.get_task_step Q from t rest 0 (now h) task_mem Hf ltac:(by left) Eq)
      as (q1 & E1 & Q1 & D1 & _).
    pose proof (TaskQueue.get_task_jobs _ _ _ _ _ _ _ _ Hh E1) as J1. rewrite E1. cbn [mbind option_bind].
    simpl (negb _). cbv iota. unfold set_task. rewrite lock_free. change (queue (user (with_queue h q1))) with q1.
    destruct (TaskQueue.set_task_step Q1 to t 0 (now (with_queue h q1)) Ht ltac:(by left) D1) as (q2 & E2 & Q2 & _).
    pose proof (TaskQueue.set_task_jobs _ _ _ _ _ _ _ E2) as J2. rewrite E2. cbn [mbind option_bind].
    destruct (IH (with_queue (with_queue h q1) q2) _ Q2) as (h' & -> & Q3 & J3); try done.
    { rewrite fn_lookup_insert_ne, fn_lookup_insert by done. simpl in Hl. lia. }
    exists h'. split; [done|]. split; [|by etransitivity; [exact J1|]; etransitivity; [exact J2|]].
    eapply TaskQueue.queues_ext; [|exact Q3]. intros s. unfold insert, fn_insert.
    repeat case_decide; subst; try done. by rewrite <- app_assoc.
Qed.

(** The names of waiting tasks can be converted. *)
Definition named (q : TaskQueue.state) (l : list Z) : Prop :=
  forall t r, t ∈ l -> TaskQueue.tasks q !! t = Some r -> is_Some (storage_convert before_node (base r)).

Hypothesis sockets_fit : forall h ip fd addr, k_socket h ip = Some (fd, addr) -> fd < maxfds.

(** One round, for the task at the head of queue [s]. *)
Lemma round_step off h qs s t rest :
  TaskQueue.queues off (queue (user h)) qs -> s = TASK_Q_WAIT \/ s = TASK_Q_SYNC_DIR -> qs s = t :: rest ->
  named (queue (user h)) (qs TASK_Q_WAIT ++ qs TASK_Q_SYNC_DIR) ->
  exists q1, TaskQueue.pfs_get_task (queue (user h)) s 0 (now h) task_mem = Some (GET_TASK_Q_OK, Some t, q1) /\
  exists h' qs', run_task (with_queue h q1) t = Some h' /\ TaskQueue.queues off (queue (user h')) qs' /\
    TaskQueue.kept qs qs' /\ qs' TASK_Q_WAIT = (<[s := rest]> qs) TASK_Q_WAIT /\
    qs' TASK_Q_SYNC_DIR = (<[s := rest]> qs) TASK_Q_SYNC_DIR /\
    named (queue (user h')) (qs' TASK_Q_WAIT ++ qs' TASK_Q_SYNC_DIR).
Proof.
  intros Q Hs Hq Hn. assert (Hr : TaskQueue.in_range s = true /\ s <> TASK_Q_HOME) by (by destruct Hs as [-> | ->]).
  destruct Hr as [Hr Hh].
  destruct (TaskQueue.get_task_step Q s t rest 0 (now h) task_mem Hr ltac:(by left) Hq) as (q1 & E1 & Q1 & D1 & _).
  pose proof (TaskQueue.get_task_jobs _ _ _ _ _ _ _ _ Hh E1) as J1. exists q1. split; [done|].
  assert (Hnm : forall x r, x ∈ qs TASK_Q_WAIT ++ qs TASK_Q_SYNC_DIR -> TaskQueue.tasks q1 !! x = Some r ->
    is_Some (storage_convert before_node (base r))).
  { intros x r Hx Hr1. specialize (J1 x). rewrite Hr1 in J1. simpl in J1.
    destruct (TaskQueue.tasks (queue (user h)) !! x) as [r0|] eqn:E0; [|done]. simpl in J1.
    injection J1 as -> _. by apply (Hn x r0). }
  destruct (run_task_done off (<[s := rest]> qs) t (TaskQueue.tasks q1) sockets_fit (with_queue h q1))
    as (h' & s' & E2 & Hs' & [P1 P2]).
  { by split. }
  { intros r. apply (Hnm t). apply elem_of_app. destruct Hs as [-> | ->]; rewrite Hq; [left|right]; constructor. }
  destruct (outcome_range s' Hs') as (R1 & R2 & R3).
  assert (Hne : s <> s') by (intros ->; by destruct Hs).
  eexists h', _. split; [done|]. split; [exact P1|]. split; [by apply TaskQueue.kept_move|].
  rewrite (fn_lookup_insert_ne _ s' TASK_Q_WAIT), (fn_lookup_insert_ne _ s' TASK_Q_SYNC_DIR) by done.
  split; [done|]. split; [done|].
  intros x r Hx Hr1. assert (Hxt : x <> t).
  { intros ->. apply elem_of_app in Hx as [Hx|Hx].
    - by apply (TaskQueue.d_free _ _ _ D1 TASK_Q_WAIT eq_refl).
    - by apply (TaskQueue.d_free _ _ _ D1 TASK_Q_SYNC_DIR eq_refl). }
  rewrite P2 in Hr1 by done. apply (Hnm x); [|done]. apply elem_of_app. apply elem_of_app in Hx.
  destruct Hs as [-> | ->]; unfold insert, fn_insert in Hx; simpl in Hx; rewrite Hq; set_solver.
Qed.

Lemma run_tasks_spec off fuel : forall once h qs,
  TaskQueue.queues off (queue (user h)) qs ->
  (length (qs TASK_Q_WAIT) + length (qs TASK_Q_SYNC_DIR) < fuel)%nat ->
  named (queue (user h)) (qs TASK_Q_WAIT ++ qs TASK_Q_SYNC_DIR) ->
  exists h' qs', run_tasks fuel once h = Some h' /\ TaskQueue.queues off (queue (user h')) qs' /\ TaskQueue.kept qs qs' /\
    (0 <= once -> once + zlen (qs TASK_Q_WAIT) + zlen (qs TASK_Q_SYNC_DIR) + 1 < Z.min max_task_run_once 65536 ->
     qs' TASK_Q_WAIT = [] /\ qs' TASK_Q_SYNC_DIR = []).
Proof.
  induction fuel as [|fuel IH]; intros once h qs Q Hl Hn; [lia|]. cbn [run_tasks]. cbv zeta.
  destruct (max_task_run_once <=? u16 (once + 1)) eqn:Em.
  { exists h, qs. split_and!; try done. intros Ho Hb. b2p. rewrite u16_small in Em by lia. lia. }
  assert (Hnext : forall s t rest, s = TASK_Q_WAIT \/ s = TASK_Q_SYNC_DIR -> qs s = t :: rest ->
    (s = TASK_Q_SYNC_DIR -> qs TASK_Q_WAIT = []) ->
    exists q1, TaskQueue.pfs_get_task (queue (user h)) s 0 (now h) task_mem = Some (GET_TASK_Q_OK, Some t, q1) /\
    exists h' qs', (h ← run_task (with_queue h q1) t; run_tasks fuel (u16 (once + 1)) h) = Some h' /\
      TaskQueue.queues off (queue (user h')) qs' /\ TaskQueue.kept qs qs' /\
      (0 <= once -> once + zlen (qs TASK_Q_WAIT) + zlen (qs TASK_Q_SYNC_DIR) + 1 < Z.min max_task_run_once 65536 ->
       qs' TASK_Q_WAIT = [] /\ qs' TASK_Q_SYNC_DIR = [])).
  { intros s t rest Hs Hq Hw. destruct (round_step off h qs s t rest Q Hs Hq Hn)
      as (q1 & E1 & h1 & qs1 & E2 & Q1 & K1 & X1 & X2 & N1).
    exists q1. split; [done|]. rewrite E2. cbn [mbind option_bind].
    assert (Hlen : (length (qs1 TASK_Q_WAIT) + length (qs1 TASK_Q_SYNC_DIR)
      = length (qs TASK_Q_WAIT) + length (qs TASK_Q_SYNC_DIR) - 1)%nat).
    { rewrite X1, X2. destruct Hs as [-> | ->]; unfold insert, fn_insert; simpl; rewrite Hq; simpl; lia. }
    assert (Hpos : (0 < length (qs TASK_Q_WAIT) + length (qs TASK_Q_SYNC_DIR))%nat).
    { destruct Hs as [-> | ->]; rewrite Hq; simpl; lia. }
    destruct (IH (u16 (once + 1)) h1 qs1 Q1) as (h2 & qs2 & E3 & Q2 & K2 & Z2); [lia|done|].
    exists h2, qs2. split; [done|]. split; [done|]. split; [by etransitivity|].
    intros Ho Hb. rewrite u16_small in Z2 by lia. apply Z2; lia. }
  rewrite lock_free. destruct (qs TASK_Q_WAIT) as [|t rest] eqn:Ew.
  - rewrite (TaskQueue.get_task_nothing Q TASK_Q_WAIT 0 (now h) task_mem ltac:(done) ltac:(by left) Ew ltac:(done)).
    cbn [mbind option_bind]. simpl (negb _). cbv iota.
    change (queue (user (with_queue h (queue (user h))))) with (queue (user h)).
    change (now (with_queue h (queue (user h)))) with (now h).
    destruct (qs TASK_Q_SYNC_DIR) as [|t rest] eqn:Es.
    + rewrite (TaskQueue.get_task_nothing Q TASK_Q_SYNC_DIR 0 (now h) task_mem ltac:(done) ltac:(by left) Es ltac:(done)).
      cbn [mbind option_bind]. simpl (negb _). cbv iota. by eexists _, qs.
    + destruct (Hnext TASK_Q_SYNC_DIR t rest) as (q1 & E1 & Hx); [by right|done|done|].
      rewrite E1. cbn [mbind option_bind]. simpl (negb _). cbv iota. exact Hx.
  - destruct (Hnext TASK_Q_WAIT t rest) as (q1 & E1 & Hx); [by left|done|done|].
    rewrite E1. cbn [mbind option_bind]. simpl (negb _). cbv iota. exact Hx.
Qed.

Lemma lost_fetch h fd p t r off qs :
  peers (user h) !! fd = Some p -> recvtask p = Some t -> sendtask p = None ->
  TaskQueue.tasks (queue (user h)) !! t = Some r ->
  TaskQueue.queues off (queue (user h)) qs -> TaskQueue.held (queue (user h)) qs t ->
  exists h' r', svc_finiconn h fd = Some h' /\ peers (user h') !! fd = None /\
    paths (sys (files (user h'))) !! tmpfile (base r) = None /\
    TaskQueue.tasks (queue (user h')) !! t = Some r' /\ TaskData.status r' = TASK_Q_WAIT /\
    TaskData.retry (base r') = u8 (TaskData.retry (base r) + 1) /\ filename (base r') = filename (base r) /\
    sub r' = sub r.
Proof.
  intros P1 P2 P3 T Q1 Q2. unfold svc_finiconn. rewrite P1, P2, P3. cbn [mbind option_bind].
  set (h0 := if 0 <? local_in_fd p then _ else h).
  assert (U0 : queue (user h0) = queue (user h)) by (unfold h0; by case_match).
  rewrite U0, T. cbn [mbind option_bind].
  rewrite (map_task_some h0 t _ r) by (by rewrite U0). cbn [mbind option_bind]. rewrite U0.
  set (h1 := with_files _ _).
  destruct (TaskQueue.with_task_held off _ qs t r (bump_retry r) Q1 Q2 T eq_refl) as [Q3 Q4].
  unfold set_task. rewrite lock_free.
  change (queue (user h1)) with (TaskQueue.with_task (queue (user h)) t (bump_retry r)).
  destruct (TaskQueue.set_task_held _ _ _ t TASK_Q_WAIT 0 (now h1) Q3 Q4) as (_ & q' & _ & _ & Eq & _);
    [done|by left|].
  rewrite Eq. cbn [mbind option_bind]. destruct (set_task_shape _ _ _ _ _ _ _ Eq) as (r' & T1 & T2 & T3 & T4); [done|].
  eexists _, r'. split; [reflexivity|]. simpl. rewrite !lookup_delete_eq, T2, T4. by split_and!.
Qed.

End Service.

(** ** Properties *)


(** C12: every round of [check_task] ends, and loses no task: each of its three
    loops takes tasks from a queue it does not fill, so that with one turn per
    task the function returns, with every task that was in a queue in a queue
    again; and when the tasks are fewer than the limit per round none is left
    waiting. *)
Theorem check_task_terminates {E : Env} {K : Kernel} {C : Site} {X : Surroundings} {G : DataSettings} h off qs :
  q_lock = 0 -> (forall h ip fd addr, k_socket h ip = Some (fd, addr) -> fd < maxfds) ->
  TaskQueue.queues off (queue (user h)) qs ->
  named (queue (user h)) (refilled qs TASK_Q_WAIT ++ refilled qs TASK_Q_SYNC_DIR) ->
  exists h' qs', check_task h = Some h' /\ TaskQueue.queues off (queue (user h')) qs' /\ TaskQueue.kept qs qs' /\
    (zlen (refilled qs TASK_Q_WAIT) + zlen (refilled qs TASK_Q_SYNC_DIR) + 1 < Z.min max_task_run_once 65536 ->
     qs' TASK_Q_WAIT = [] /\ qs' TASK_Q_SYNC_DIR = []).
Proof.
  intros Hl Hf Q Hn. unfold check_task. set (fuel := S _).
  pose proof (TaskQueue.queues_bound off _ qs TASK_Q_WAIT_TMP TASK_Q_WAIT Q ltac:(done) ltac:(done) ltac:(done)) as B1.
  destruct (move_all_spec Hl off TASK_Q_WAIT_TMP TASK_Q_WAIT fuel h qs Q) as (h1 & -> & Q1 & J1); try done; [lia|].
  cbn [mbind option_bind].
  pose proof (TaskQueue.queues_bound _ _ _ TASK_Q_SYNC_DIR_TMP TASK_Q_WAIT Q1 ltac:(done) ltac:(done) ltac:(done)) as B2.
  rewrite (TaskQueue.same_jobs_dom _ _ J1) in B2.
  destruct (move_all_spec Hl off TASK_Q_SYNC_DIR_TMP TASK_Q_SYNC_DIR fuel h1 _ Q1) as (h2 & -> & Q2 & J2); try done; [lia|].
  cbn [mbind option_bind]. fold (refilled qs) in Q2.
  pose proof (TaskQueue.queues_bound _ _ _ TASK_Q_WAIT TASK_Q_SYNC_DIR Q2 ltac:(done) ltac:(done) ltac:(done)) as B3.
  rewrite (TaskQueue.same_jobs_dom _ _ J2), (TaskQueue.same_jobs_dom _ _ J1) in B3.
  destruct (run_tasks_spec Hl Hf off fuel 0 h2 _ Q2) as (h3 & qs3 & -> & Q3 & K3 & Z3); [lia| |].
  - intros t r Ht Hr. specialize (J2 t). specialize (J1 t). rewrite Hr in J2. rewrite <- J2 in J1. simpl in J1.
    destruct (TaskQueue.tasks (queue (user h)) !! t) as [r0|] eqn:E0; [|done]. simpl in J1. injection J1 as -> _.
    by apply (Hn t r0).
  - exists h3, qs3. split; [done|]. split; [done|]. split; [etransitivity; [apply kept_refilled|done]|].
    intros Hb. apply Z3; lia.
Qed.


(** ** Two small servers for the witnesses *)

Definition demo_data_peer (fd : Z) (md st : Z) : peer :=
  mk_peer fd 0 0 16777226 0 st md false (Md5.MD5Init (replicate 64 0)) None None.
Definition demo_server (f : fs) (q : TaskQueue.state) (p : peer) : host data :=
  mk_host {[ 5 := mk_conn 5 0 [] mybuff_init mybuff_init ]} {[ 5 := EPOLLIN ]} [] 1388534400
    (mk_up {[ 5 := p ]} [5] (demo_lf f) q (Disk.mk_disks [] None 0) 0 {[ 10 := [5] ]}).

Definition demo_copy (m : bytes) (n : Z) : t_task_base :=
  mk_base (str "/data/1/2/a.jpg") [] (str "/1/2/a.jpg") m 0 1388534400 1388534400 n
    TASK_ADDFILE 0 0.
Definition demo_copy_sub (n : Z) : t_task_sub :=
  mk_sub n 0 0 1388534400 0 (str "10.0.0.1") OPER_GET_REQ TASK_DST 0.
(** The queues with task 1888 taken for the copy. *)
Definition demo_taken (m : bytes) (n : Z) : TaskQueue.state :=
  match TaskQueue.pfs_get_task (TaskQueue.demo [944; 1888]) TASK_Q_HOME 0 0 None with
  | Some (_, _, q) => TaskQueue.with_task q 1888 (mk_task (demo_copy m n) (demo_copy_sub n) (-1) TASK_Q_UNKNOWN)
  | None => TaskQueue.demo []
  end.

Definition demo_owner (c : bytes) : host data :=
  demo_server (demo_fs (str "/data/1/2/a.jpg") c) (TaskQueue.demo [944; 1888]) (demo_data_peer 5 CON_PASSIVE CONNECTED).
Definition demo_wanter (m : bytes) (n : Z) : host data :=
  demo_server (demo_fs (str "/other") []) (demo_taken m n) (demo_data_peer 5 CON_ACTIVE IDLE).
Definition demo_copy_tmp : bytes := tmp_name (str "/data/1/2/a.jpg") (str "20140101000000") 0.

#[local] Existing Instances demo_env demo_kernel demo_site demo_around.

Lemma demo_owning m n c : owning (demo_owner c) 5 (demo_copy m n) c.
Proof.
  destruct (TaskQueue.demo_queues [944; 1888]) as [HQ _];
    [by repeat constructor|by apply (bool_decide_unpack _)|].
  split.
  - by exists (demo_data_peer 5 CON_PASSIVE CONNECTED).
  - split_and!; try done; split; apply MyBuff.wf_init.
  - by eexists _, _, _, _.
  - split_and!; try done.
Qed.

Definition demo_qs : Z -> list Z :=
  <[TASK_Q_HOME := [944]]> (fun s => if s =? TASK_Q_HOME then rev [944; 1888] else []).

Lemma demo_taken_spec m n :
  let r := mk_task (demo_copy m n) (demo_copy_sub n) (-1) TASK_Q_UNKNOWN in
  TaskQueue.tasks (demo_taken m n) !! 1888 = Some r /\
  TaskQueue.queues (TaskQueue.bias 2) (demo_taken m n) demo_qs /\
  TaskQueue.detached (demo_taken m n) demo_qs 1888.
Proof.
  intros r. destruct (TaskQueue.demo_queues [944; 1888]) as [HQ _];
    [by repeat constructor|by apply (bool_decide_unpack _)|].
  destruct (TaskQueue.get_task_step HQ TASK_Q_HOME 1888 [944] 0 0 None) as (q & Eq & Q1 & Q2 & _);
    [done|by left|done|].
  assert (Ed : demo_taken m n = TaskQueue.with_task q 1888 r) by (unfold demo_taken; by rewrite Eq).
  rewrite Ed. clear Ed Eq HQ. clearbody r. split; [apply lookup_insert_eq|].
  destruct Q1 as [A1 A2 A3 A4 A5], Q2 as [B1 B2 B3 B4]. split; split; try done; simpl.
  - intros s x Hs Hx. rewrite lookup_insert_ne; [by apply A4|]. intros <-. by apply (B2 s).
  - by rewrite lookup_insert_eq.
Qed.

Lemma demo_wanting m c :
  wanting (demo_wanter m (zlen c)) 5 1888 (demo_copy m (zlen c)) (demo_copy m (zlen c)) demo_copy_tmp c.
Proof.
  remember (zlen c) as n eqn:Hn. split.
  - by exists (demo_data_peer 5 CON_ACTIVE IDLE).
  - split_and!; try done; split; apply MyBuff.wf_init.
  - destruct (demo_taken_spec m n) as (T & Q1 & Q2).
    eexists _, _, _. split; [exact T|]. split; [done|]. split; [done|]. split; [exact Hn|].
    split; [exact Q1|exact Q2].
  - reflexivity.
  - exists 8%nat. split; [reflexivity|]. apply (bool_decide_unpack _). vm_compute. exact I.
  - split_and!; try reflexivity. apply (bool_decide_unpack _). vm_compute. exact I.
Qed.

Lemma demo_copy_fits m n : length m = 17%nat -> 0 <= n < 2 ^ 31 -> Wire.fits (demo_copy m n).
Proof.
  intros Hm Hn. split; simpl; try done.
  - repeat constructor; done.
  - repeat constructor; lia.
  - repeat constructor; done.
Qed.


Definition demo_settings : DataSettings := mk_data_settings 100 3 5 0 (fun _ _ => None).
#[local] Existing Instance demo_settings.

(** The copy's task waiting in [TASK_Q_WAIT]. *)
Definition demo_waiting (m : bytes) (n : Z) : TaskQueue.state :=
  match TaskQueue.pfs_set_task (demo_taken m n) 1888 TASK_Q_WAIT 0 7 with
  | Some (_, q) => q
  | None => demo_taken m n
  end.
Definition demo_wait_qs : Z -> list Z := <[TASK_Q_WAIT := demo_qs TASK_Q_WAIT ++ [1888]]> demo_qs.

Lemma demo_waiting_spec m n :
  TaskQueue.queues (TaskQueue.bias 2) (demo_waiting m n) demo_wait_qs /\
  exists r, TaskQueue.tasks (demo_waiting m n) !! 1888 = Some r /\ base r = demo_copy m n.
Proof.
  destruct (demo_taken_spec m n) as (T & Q1 & Q2).
  destruct (TaskQueue.set_task_step Q1 TASK_Q_WAIT 1888 0 7) as (q & Eq & Q3 & _); [done|by left|exact Q2|].
  assert (Ed : demo_waiting m n = q) by (unfold demo_waiting; by rewrite Eq).
  rewrite Ed. split; [exact Q3|]. pose proof (TaskQueue.set_task_jobs _ _ _ _ _ _ _ Eq 1888) as J.
  rewrite T in J. simpl in J. destruct (TaskQueue.tasks q !! 1888) as [r|]; [|discriminate].
  simpl in J. injection J as J _. exists r. split; [reflexivity|exact J].
Qed.

Lemma check_task_terminates_witness :
  let h := demo_server (demo_fs (str "/other") []) (demo_waiting [] 3) (demo_data_peer 5 CON_ACTIVE CONNECTED) in
  exists h' qs', check_task h = Some h' /\ TaskQueue.queues (TaskQueue.bias 2) (queue (user h')) qs' /\
    TaskQueue.kept demo_wait_qs qs' /\ qs' TASK_Q_WAIT = [] /\ qs' TASK_Q_SYNC_DIR = [].
Proof.
  intros h. destruct (demo_waiting_spec [] 3) as (Q & r0 & R0 & B0).
  assert (Hn : named (queue (user h)) (refilled demo_wait_qs TASK_Q_WAIT ++ refilled demo_wait_qs TASK_Q_SYNC_DIR)).
  { intros t r Ht Hr. change (refilled demo_wait_qs TASK_Q_WAIT ++ refilled demo_wait_qs TASK_Q_SYNC_DIR) with [1888] in Ht.
    apply list_elem_of_singleton in Ht as ->. change (queue (user h)) with (demo_waiting [] 3) in Hr.
    rewrite R0 in Hr. injection Hr as <-. rewrite B0. eexists. reflexivity. }
  destruct (check_task_terminates (X := demo_around) (G := demo_settings) h (TaskQueue.bias 2) demo_wait_qs eq_refl
              (fun _ _ _ _ Hx => match Hx with eq_refl => I end) Q Hn)
    as (h' & qs' & A1 & A2 & A3 & A4).
  exists h', qs'. split; [exact A1|]. split; [exact A2|]. split; [exact A3|]. apply A4. reflexivity.
Defined.


End Data.
