(* ===== verification/StorageSig.v ===== *)
(** * The signalling service of a storage server (network/S)

    The storage servers of a domain keep signalling connections to each other
    and to the name servers.  Over them they announce files ([NEWTASK_REQ]
    with the task: the receiver queues it for the data service to fetch),
    bring a server that comes up level with the others directory by directory
    ([SYNC_DIR_REQ], [SYNC_DEL_REQ]), and report load and broken disks.
    [svc_timeout] drives all of it: it sends heartbeats, connects to servers
    that are missing, asks for directories, and runs the task queues
    ([check_task]).  A second thread answers the requests for directories
    ([sync_dir_round]).

    The directories still to be asked for are nodes of a linked list,
    [sync_list], that the peers asked also point to: the list is the pointer
    structure of [LinkedList], with its head at address 0. *)

From stdpp Require Import functions.
From S2P Require Import Prelude.
From S2P Require Import CString.
From S2P Require Import Protocol.
From S2P Require Import MyBuff.
From S2P Require Import Codec.
From S2P Require Import LinkedList.
From S2P Require Import TaskData.
From S2P Require Import TaskQueue.
From S2P Require Import Timer.
From S2P Require Import Domain.
From S2P Require Import Storage.
From S2P Require Import Records.
From S2P Require Import LocalFile.
From S2P Require Import EventLoop.
From S2P Require Import SigStream.
From S2P Require Import Wire.

Module StorageSig.
Import MyBuff Conn Loop Sig Fs LocalFile.

(** ** Data (S/pfs_sig.h, lib/protocol.h, network/global.h) *)

Definition CONNECTED : Z := 1.
Definition IDLE : Z := 5.
Definition SEND_LAST : Z := 7.

Definition UNKOWN_STAT : Z := 0.
Definition WAIT_SYNC : Z := 1.
Definition SYNCING : Z := 2.
Definition ON_LINE : Z := 3.
Definition OFF_LINE : Z := 4.

Definition HEARTBEAT_REQ : Z := 0x01.
Definition HEARTBEAT_RSP : Z := 0x02.
Definition LOADINFO_REQ : Z := 0x05.
Definition DISKINFO_RSP : Z := 0x0C.
Definition HB_C_2_C : Z := 0x04.
Definition NEWTASK_REQ : Z := 0x0D.
Definition NEWTASK_RSP : Z := 0x0E.
Definition SYNC_DIR_REQ : Z := 0x0F.
Definition SYNC_DIR_RSP : Z := 0x10.
Definition SYNC_DEL_REQ : Z := 0x13.
Definition SYNC_DEL_RSP : Z := 0x14.
Definition TASK_SYNC_DIR : Z := 0x09.
Definition TASK_SYNC : Z := 0x03.
Definition TASK_FAILED : Z := 0x08.
Definition TASK_ADDFILE : Z := 48.
Definition TASK_DELFILE : Z := 49.
Definition RET_CLOSE_MALLOC : Z := 303.
Definition ALLMASK : Z := 0xFF.

(** [t_pfs_sync_task]: 28 bytes and four of padding. *)
Record t_pfs_sync_task := mk_sync {
  d1 : Z;
  d2 : Z;
  starttime : Z;
  endtime : Z;
  type : Z
}.
Definition sizeof_sync : Z := 32.
Definition sync_image (s : t_pfs_sync_task) : bytes :=
  le_split 4 (d1 s) ++ le_split 4 (d2 s) ++ le_split 8 (starttime s) ++ le_split 8 (endtime s)
  ++ [u8 (type s)] ++ replicate 7 0.
Definition sync_of_image (m : bytes) : t_pfs_sync_task :=
  mk_sync (i32 (le_combine (Wire.slice m 0 4))) (i32 (le_combine (Wire.slice m 4 4)))
    (i64 (le_combine (Wire.slice m 8 8))) (i64 (le_combine (Wire.slice m 16 8))) (at_ m 24).

Record peer := mk_peer {
  p_fd : Z;
  hbtime : Z;
  p_ip : Z;
  sock_stat : Z;
  server_stat : Z;
  pfs_sync_list : option Z      (* a node of [sync_list], or one taken from it *)
}.

Record t_sync_para := mk_para {
  flag : Z;
  para_last : Z;
  total_sync_task : Z;
  total_synced_task : Z
}.

(** The function-level statics: of [check_count_one_day], [do_active_sync] and
    [svc_timeout]. *)
Record statics := mk_statics {
  day_last : Z;
  day_count : Z;
  last_sync : Z;
  report_info : Z;
  last_scan_timeout : Z
}.

Record sg := mk_sg {
  peers : gmap Z peer;
  active : list Z;
  online : gmap Z (list Z);
  ring : LinkedList.heap;                  (* the [list] members of the sync nodes *)
  syncs : gmap Z t_pfs_sync_task;          (* their contents *)
  para : t_sync_para;
  self_stat : Z;
  init_sync_flag : Z;
  self_domain : Domain.t_pfs_domain;
  files : lf;
  queue : TaskQueue.state;
  vars : statics
}.

(** The address of [sync_list]. *)
Definition sync_list : Z := 0.

(** A directory entry as [readdir], [stat] and [access] show it: size, whether
    a regular file, change and modification time; whether readable. *)
Record stat_t := mk_stat { st_size : Z; st_reg : bool; st_ctime : Z; st_mtime : Z }.
Record dirent := mk_dirent { d_name : bytes; d_stat : option stat_t; d_access : bool }.

(** The settings of [g_config] the service reads, and what its surroundings
    decide: the locks, the allocators, the network, the directories. *)
Class SigSettings := mk_sig_settings {
  timeout : Z;
  cfg_retry : Z;
  max_task_run_once : Z;
  sync_dir_count : Z;
  sync_dir_span : Z;
  sync_stime : bytes;
  sync_etime : bytes;
  task_timeout : Z;
  check_task_timeout_flag : Z;
  cfg_datadir : option bytes;
  self_ip : Z;
  nameservers : list (bytes * Z);
  before_msg : bytes;
  q_lock : Z;
  task_mem : TaskQueue.state -> option (LinkedList.loc * t_pfs_tasklist);
  timer_mem : option Z;
  mem_ok : Z -> bool;
  node_mem : sg -> option Z;
  k_socket : host sg -> bytes -> option (Z * Z);
  k_readdir : fs -> bytes -> option (list dirent);
  k_peerip : Z -> Z;
  loadinfo : Z;
  maxfreevalue : Z;
  time_text : Z -> bytes
}.

Section Service.
Context {E : Env} {K : Kernel} {C : Site} {G : SigSettings}.
Implicit Types h : host sg.

Definition with_conns h (ps : gmap Z peer) (a : list Z) (o : gmap Z (list Z)) : host sg :=
  let u := user h in
  set_user h (mk_sg ps a o (ring u) (syncs u) (para u) (self_stat u) (init_sync_flag u)
                (self_domain u) (files u) (queue u) (vars u)).
Definition with_peer h (fd : Z) (p : peer) : host sg :=
  with_conns h (<[fd := p]> (peers (user h))) (active (user h)) (online (user h)).
Definition with_ring h (r : LinkedList.heap) : host sg :=
  let u := user h in
  set_user h (mk_sg (peers u) (active u) (online u) r (syncs u) (para u) (self_stat u) (init_sync_flag u)
                (self_domain u) (files u) (queue u) (vars u)).
Definition with_para h (p : t_sync_para) : host sg :=
  let u := user h in
  set_user h (mk_sg (peers u) (active u) (online u) (ring u) (syncs u) p (self_stat u) (init_sync_flag u)
                (self_domain u) (files u) (queue u) (vars u)).
Definition with_stat h (s : Z) : host sg :=
  let u := user h in
  set_user h (mk_sg (peers u) (active u) (online u) (ring u) (syncs u) (para u) s (init_sync_flag u)
                (self_domain u) (files u) (queue u) (vars u)).
Definition with_domain h (d : Domain.t_pfs_domain) : host sg :=
  let u := user h in
  set_user h (mk_sg (peers u) (active u) (online u) (ring u) (syncs u) (para u) (self_stat u) (init_sync_flag u)
                d (files u) (queue u) (vars u)).
Definition with_files h (l : lf) : host sg :=
  let u := user h in
  set_user h (mk_sg (peers u) (active u) (online u) (ring u) (syncs u) (para u) (self_stat u) (init_sync_flag u)
                (self_domain u) l (queue u) (vars u)).
Definition with_queue h (q : TaskQueue.state) : host sg :=
  let u := user h in
  set_user h (mk_sg (peers u) (active u) (online u) (ring u) (syncs u) (para u) (self_stat u) (init_sync_flag u)
                (self_domain u) (files u) q (vars u)).
Definition with_vars h (v : statics) : host sg :=
  let u := user h in
  set_user h (mk_sg (peers u) (active u) (online u) (ring u) (syncs u) (para u) (self_stat u) (init_sync_flag u)
                (self_domain u) (files u) (queue u) v).

Definition set_flag h (f : Z) : host sg :=
  let p := para (user h) in
  with_para h (mk_para f (para_last p) (total_sync_task p) (total_synced_task p)).

Definition set_hbtime (p : peer) (t : Z) : peer :=
  mk_peer (p_fd p) t (p_ip p) (sock_stat p) (server_stat p) (pfs_sync_list p).
Definition set_stat (p : peer) (s : Z) : peer :=
  mk_peer (p_fd p) (hbtime p) (p_ip p) s (server_stat p) (pfs_sync_list p).
Definition set_server (p : peer) (s : Z) : peer :=
  mk_peer (p_fd p) (hbtime p) (p_ip p) (sock_stat p) s (pfs_sync_list p).
Definition set_sync (p : peer) (n : option Z) : peer :=
  mk_peer (p_fd p) (hbtime p) (p_ip p) (sock_stat p) (server_stat p) n.

Definition get_task h (s : Z) : option (Z * option Z * host sg) :=
  '(rc, t, q) ← TaskQueue.pfs_get_task (queue (user h)) s q_lock (now h) (task_mem (queue (user h)));
  Some (rc, t, with_queue h q).
Definition set_task h (t s : Z) : option (host sg) :=
  '(_, q) ← TaskQueue.pfs_set_task (queue (user h)) t s q_lock (now h);
  Some (with_queue h q).
Definition map_task h (t : Z) (f : t_pfs_tasklist -> t_pfs_tasklist) : option (host sg) :=
  r ← TaskQueue.tasks (queue (user h)) !! t;
  Some (with_queue h (TaskQueue.with_task (queue (user h)) t (f r))).

(** ** Connections (S/pfs_sig_base.c, S/pfs_sig.c) *)

Definition bucket h (k : Z) : list Z := default [] (online (user h) !! k).

Definition peer_at h (ip fd : Z) : bool :=
  match peers (user h) !! fd with Some p => p_ip p =? ip | None => false end.

(** [find_ip_stat]: the descriptor of the first peer with the address. *)
Definition find_ip_stat h (ip : Z) : option Z :=
  find_first (peer_at h ip) (bucket h (Z.land ALLMASK ip)).

Definition svc_initconn h (fd ip : Z) : Z * host sg :=
  if negb (mem_ok fd) then (RET_CLOSE_MALLOC, h)
  else
    let u := user h in
    let k := Z.land ip ALLMASK in
    (0, with_conns h (<[fd := mk_peer fd (u32 (now h)) ip CONNECTED 0 None]> (peers u))
          (active u ++ [fd]) (<[k := fd :: bucket h k]> (online u))).

(** [svc_finiconn]: the directory the peer was asked for goes back to the
    list. *)
Definition svc_finiconn h (fd : Z) : option (host sg) :=
  match peers (user h) !! fd with
  | None => Some h
  | Some p =>
      let u := user h in
      let k := Z.land (p_ip p) ALLMASK in
      let h := with_conns h (delete fd (peers u)) (filter (fun x => x <> fd) (active u))
                 (<[k := filter (fun x => x <> fd) (bucket h k)]> (online u)) in
      match pfs_sync_list p with
      | None => Some h
      | Some n => r ← LinkedList.list_add_tail (ring (user h)) n sync_list;
                  Some (set_flag (with_ring h r) 0)
      end
  end.

(** [active_connect]; [None] is a store past the connection table. *)
Definition active_connect h (ip : bytes) : option (host sg) :=
  match k_socket h ip with
  | None => Some h
  | Some (fd, addr) =>
      if maxfds <=? fd then None
      else
        let '(rc, h) := svc_initconn h fd addr in
        if negb (rc =? 0) then Some (emit h [Closed fd]) else Some (add_fd_2_efd h fd addr)
  end.

(** [active_send]. *)
Definition active_send h (fd : Z) (hd : t_pfs_sig_head) (body : bytes) : option (host sg) :=
  p ← peers (user h) !! fd;
  let h := with_peer h fd (set_hbtime p (u32 (now h))) in
  let h := set_client_data h (p_fd p) (create_sig_msg (cmdid hd) (Sig.status hd) body (bodylen hd)) in
  Some (modify_fd_event h (p_fd p) EPOLLOUT).

(** [scan_cfg_iplist_and_connect]. *)
Fixpoint connect_ns h (l : list (bytes * Z)) : option (host sg) :=
  match l with
  | [] => Some h
  | (ip, uip) :: l' =>
      if uip =? 0 then Some h
      else
        h ← (match find_ip_stat h uip with Some _ => Some h | None => active_connect h ip end);
        connect_ns h l'
  end.

Fixpoint connect_domain h (l : list Domain.slot) : option (host sg) :=
  match l with
  | [] => Some h
  | s :: l' =>
      h ← (if negb (Domain.s_self s =? 0) || negb (Domain.s_offline s =? 0) then Some h
           else match find_ip_stat h (Domain.s_ip s) with
                | Some _ => Some h
                | None => active_connect h (Domain.s_sip s)
                end);
      connect_domain h l'
  end.

Definition scan_cfg_iplist_and_connect h : option (host sg) :=
  h ← connect_ns h (take 64 nameservers);
  connect_domain h (Domain.slots (self_domain (user h))).

(** A message for the peer [fd], sent when the connection can take it. *)
Definition post h (fd cmd st : Z) (body : bytes) (n : Z) : option (host sg) :=
  p ← peers (user h) !! fd;
  let h := set_client_data h (p_fd p) (create_sig_msg cmd st body n) in
  Some (modify_fd_event h (p_fd p) EPOLLOUT).

(** ** Tasks (S/pfs_sig_task.c) *)

(** The two fields [do_newtask] sets in the message it was given. *)
Definition stamp_msg (b : bytes) (t ip : Z) : bytes :=
  memcpy (memcpy b 788 (le_split 4 ip)) 792 (le_split 8 t).

Definition set_over (o : Z) (r : t_pfs_tasklist) : t_pfs_tasklist :=
  set_base r (set_overstatus (base r) o).

(** [do_newtask]: the code, the status and the message as they are left. *)
Definition do_newtask h (fd : Z) (hd : t_pfs_sig_head) (b : bytes) : option (Z * Z * bytes * host sg) :=
  if self_stat (user h) =? OFF_LINE then Some (0, Sig.status hd, b, h)
  else
    let b := stamp_msg b (now h) self_ip in
    let bs := Wire.base_of_image b in
    p ← peers (user h) !! fd;
    '(rc, task, h) ← get_task h TASK_Q_HOME;
    if negb (rc =? 0) then Some (-1, TASK_FAILED, b, h)
    else
      t ← task;
      let sub := mk_sub (fsize bs) 0 (now h) (now h) 0 (Ip.ip2str (p_ip p)) OPER_GET_REQ TASK_DST 0 in
      h ← map_task h t (fun r => set_sub (set_base r bs) sub);
      if TaskData.type bs =? TASK_DELFILE then
        '(_, _, l1) ← delete_localfile before_msg timer_mem (now h) (files (user h)) bs;
        h ← map_task (with_files h l1) t (set_over OVER_OK);
        h ← set_task h t TASK_Q_FIN;
        Some (0, Sig.status hd, b, h)
      else
        '(rc, _, f1) ← check_localfile_md5 before_msg (sys (files (user h))) bs VIDEOFILE;
        let h := with_files h (with_sys (files (user h)) f1) in
        if rc =? LOCALFILE_OK then
          h ← map_task h t (set_over OVER_OK);
          h ← set_task h t TASK_Q_FIN;
          Some (0, Sig.status hd, b, h)
        else
          h ← map_task h t (set_over OVER_UNKNOWN);
          h ← set_task h t (if negb (Sig.status hd =? TASK_Q_SYNC_DIR) then TASK_Q_WAIT else TASK_Q_SYNC_DIR);
          Some (0, Sig.status hd, b, h).

(** [do_dispatch_task]: the task [t] announced to the peer [fd]. *)
Definition do_dispatch_task h (t fd st : Z) : option (host sg) :=
  r ← TaskQueue.tasks (queue (user h)) !! t;
  post h fd NEWTASK_REQ st (Wire.base_image (base r)) Wire.sizeof_base.

Definition set_starttime (t : Z) (b : t_task_base) : t_task_base :=
  mk_base (filename b) (tmpfile b) (retfile b) (filemd5 b) (dstip b) t (mtime b) (fsize b)
          (TaskData.type b) (retry b) (overstatus b).

(** [create_delay_task(ip, &task->base)]: the announcement is kept until the
    server at [ip] is back.  The start time of task [t] itself is set too. *)
Definition create_delay_task h (ip t : Z) : option (host sg) :=
  '(rc, task, h) ← get_task h TASK_Q_HOME;
  if negb (rc =? 0) then Some h
  else
    t' ← task;
    u ← LinkedList.list_del_init (TaskQueue.umem (queue (user h))) t';
    let h := with_queue h (TaskQueue.with_umem (queue (user h)) u) in
    h ← map_task h t (fun r => set_base r (set_starttime (now h) (base r)));
    r ← TaskQueue.tasks (queue (user h)) !! t;
    h ← map_task h t' (fun r' => set_sub (set_base r' (base r))
           (mk_sub 0 0 0 0 0 (Ip.ip2str ip) OPER_SYNC_2_DOMAIN 0 0));
    set_task h t' TASK_Q_WAIT_SYNC.

(** [sync_task_2_domain]: every other server of the domain is told, now or
    when it is back. *)
Fixpoint tell_domain h (t : Z) (l : list Domain.slot) : option (host sg) :=
  match l with
  | [] => Some h
  | s :: l' =>
      h ← (if (Domain.s_ip s =? self_ip) || negb (Domain.s_offline s =? 0) then Some h
           else match find_ip_stat h (Domain.s_ip s) with
                | None => create_delay_task h (Domain.s_ip s) t
                | Some fd => do_dispatch_task h t fd TASK_SYNC
                end);
      tell_domain h t l'
  end.

Definition sync_task_2_domain h (t : Z) : option (Z * host sg) :=
  h ← tell_domain h t (Domain.slots (self_domain (user h)));
  Some (0, h).

(** [do_sync_dir_req]: the request is kept in a task, over the bytes of its
    name, until the other thread has looked at the directory. *)
Definition do_sync_dir_req h (fd : Z) (b : bytes) : option (host sg) :=
  '(rc, task, h) ← get_task h TASK_Q_HOME;
  if negb (rc =? 0) then
    let h := set_client_data h fd (create_sig_msg SYNC_DIR_RSP TASK_SYNC_DIR b sizeof_sync) in
    Some (modify_fd_event h fd EPOLLOUT)
  else
    t ← task;
    h ← map_task h t (fun r => set_base r
           (mk_base (take 32 b) [] [] (replicate 17 0) (k_peerip fd) 0 0 0 0 0 0));
    set_task h t TASK_Q_SYNC_DIR_REQ.

(** [do_sync_del_req]: the deletions recorded since the requested time, one
    announcement each.  The loop only moves forward in the file. *)
Fixpoint send_dels (fuel : nat) h (fd : Z) (bs : t_task_base) (next : Z) : option (host sg) :=
  match fuel with
  | O => None
  | S fuel' =>
      let h := set_client_data h fd (create_sig_msg NEWTASK_REQ TASK_SYNC_DIR (Wire.base_image bs) Wire.sizeof_base) in
      let bs := mk_base [] (tmpfile bs) (retfile bs) (filemd5 bs) (dstip bs) (b_starttime bs) (mtime bs)
                  (fsize bs) (TaskData.type bs) (retry bs) (overstatus bs) in
      let next := DelFile.get_from_del_file (del_list (files (user h))) (next + 1) (now h) in
      if next =? -1 then Some h else send_dels fuel' h fd bs next
  end.

Definition do_sync_del_req h (fd : Z) (b : bytes) : option (host sg) :=
  let task := sync_of_image b in
  let log := del_list (files (user h)) in
  let bs := mk_base [] [] [] (replicate 17 0) 0 0 0 0 TASK_DELFILE 0 0 in
  let '(next, name) := DelFile.find_last_index log bs (starttime task) in
  h ← (if next =? -1 then Some h
       else send_dels (S (length (default [] log))) h fd
              (mk_base name [] [] (replicate 17 0) 0 0 0 0 TASK_DELFILE 0 0) next);
  let h := set_client_data h fd (create_sig_msg SYNC_DEL_RSP TASK_SYNC_DIR b sizeof_sync) in
  Some (modify_fd_event h fd EPOLLOUT).

(** ** The other thread (S/pfs_sig_base.c, S/pfs_sig_sync_dir.c) *)

(** The tests a directory entry has to pass. *)
Definition eligible (s : t_pfs_sync_task) (e : dirent) : option stat_t :=
  if at_ (d_name e) 0 =? 46 then None
  else if negb (FileFilter.check_file_filter filters (d_name e) =? 0) then None
  else
    st ← d_stat e;
    if st_size st =? 0 then None
    else if negb (st_reg st) then None
    else if negb (starttime s =? 0) && (st_ctime st <? starttime s) then None
    else if negb (endtime s =? 0) && (endtime s <? st_ctime st) then None
    else if negb (d_access e) then None
    else Some st.

(** A task for one file of the directory, to be announced to [ip]. *)
Definition queue_file h (realpath : bytes) (s : t_pfs_sync_task) (ip : Z) (e : dirent) : option (host sg) :=
  match eligible s e with
  | None => Some h
  | Some st =>
      let file := snprintf 256 (realpath ++ 47 :: d_name e) in
      match getfilemd5 (sys (files (user h))) file with
      | None => Some h
      | Some m =>
          '(rc, task, h) ← get_task h TASK_Q_HOME;
          if negb (rc =? 0) then Some h
          else
            t ← task;
            h ← map_task h t (fun r => set_sub (set_base r
                   (mk_base file [] [] (m ++ [0]) 0 0 (st_mtime st) (st_size st) TASK_ADDFILE 0 0))
                   (mk_sub 0 0 0 0 0 (Ip.ip2str ip) 0 0 0));
            set_task h t TASK_Q_WAIT_SYNC_DIR
      end
  end.

Fixpoint queue_files h (realpath : bytes) (s : t_pfs_sync_task) (ip : Z) (l : list dirent) : option (host sg) :=
  match l with
  | [] => Some h
  | e :: l' => h ← queue_file h realpath s ip e; queue_files h realpath s ip l'
  end.

Definition sync_dir_path (s : t_pfs_sync_task) : bytes :=
  snprintf 256 (default (str "/diska/m2v/photo2video/upImg/") cfg_datadir ++ 47 :: dec (d1 s) ++ 47 :: dec (d2 s)).

(** [do_sync_dir_req_sub], for the task [t]. *)
Definition do_sync_dir_req_sub h (t : Z) : option (host sg) :=
  r ← TaskQueue.tasks (queue (user h)) !! t;
  let s := sync_of_image (Wire.base_image (base r)) in
  match k_readdir (sys (files (user h))) (sync_dir_path s) with
  | None => map_task h t (set_over OVER_E_OPEN_SRCFILE)
  | Some l => h ← queue_files h (sync_dir_path s) s (dstip (base r)) l;
              map_task h t (set_over OVER_OK)
  end.

(** One turn of the loop of [sync_dir_thread]; [false] when it goes to sleep. *)
Definition sync_dir_round h : option (bool * host sg) :=
  '(rc, task, h) ← get_task h TASK_Q_SYNC_DIR_REQ;
  if negb (rc =? GET_TASK_Q_OK) then Some (false, h)
  else
    t ← task;
    h ← do_sync_dir_req_sub h t;
    h ← set_task h t TASK_Q_SYNC_DIR_RSP;
    Some (true, h).

(** ** The queues (S/pfs_sig_sub.c) *)

Definition retry_task (r : t_pfs_tasklist) : t_pfs_tasklist :=
  let b := base r in
  set_base r (mk_base (filename b) (tmpfile b) (retfile b) (filemd5 b) (dstip b) (b_starttime b)
                (mtime b) (fsize b) (TaskData.type b) (u8 (retry b + 1)) OVER_UNKNOWN).

(** What [do_fin_task] does before it files a task away. *)
Definition fin_sync h (t : Z) (r : t_pfs_tasklist) : option (Z * host sg) :=
  if need_sync (sub r) =? TASK_SOURCE then
    if (overstatus (base r) =? OVER_OK) || (overstatus (base r) =? OVER_UNLINK)
    then sync_task_2_domain h t else Some (0, h)
  else if need_sync (sub r) =? TASK_SYNC_ISDIR then
    let p := para (user h) in
    let p := mk_para (flag p) (para_last p) (total_sync_task p) (i32 (total_synced_task p + 1)) in
    let h := with_para h p in
    Some (0, if (flag p =? 2) && (total_sync_task p <=? total_synced_task p)
                && negb (self_stat (user h) =? OFF_LINE)
             then with_stat h ON_LINE else h)
  else Some (0, h).

Definition fin_one h (t : Z) : option (host sg) :=
  r ← TaskQueue.tasks (queue (user h)) !! t;
  if (overstatus (base r) =? OVER_E_MD5) && (negb (cfg_retry =? 0) && (retry (base r) <? cfg_retry)) then
    h ← map_task h t retry_task; set_task h t TASK_Q_WAIT
  else
    '(rc, h) ← fin_sync h t r;
    if negb (rc =? 0) then set_task h t TASK_Q_DELAY
    else
      r ← TaskQueue.tasks (queue (user h)) !! t;
      let l := files (user h) in
      let h := if (TaskData.type (base r) =? TASK_ADDFILE) && (overstatus (base r) =? OVER_OK)
               then with_files h (mk_lf (sys l) (g_index l) (del_list l) (timers l)
                                    (snd (TimeStamp.set_time_stamp DIR1 DIR2 (stamps l) (base r))))
               else h in
      set_task h t TASK_Q_CLEAN.

Fixpoint do_fin_task (fuel : nat) h : option (host sg) :=
  match fuel with
  | O => None
  | S fuel' =>
      '(rc, task, h) ← get_task h TASK_Q_FIN;
      if negb (rc =? 0) then Some h
      else t ← task; h ← fin_one h t; do_fin_task fuel' h
  end.

(** [do_check_sync_task]: the answers to requests for directories. *)
Fixpoint do_check_sync_task (fuel : nat) h : option (host sg) :=
  match fuel with
  | O => None
  | S fuel' =>
      '(rc, task, h) ← get_task h TASK_Q_SYNC_DIR_RSP;
      if negb (rc =? GET_TASK_Q_OK) then Some h
      else
        t ← task;
        r ← TaskQueue.tasks (queue (user h)) !! t;
        h ← (match find_ip_stat h (dstip (base r)) with
             | None => Some h
             | Some fd => post h fd SYNC_DIR_RSP TASK_SYNC_DIR (take 32 (Wire.base_image (base r))) sizeof_sync
             end);
        h ← set_task h t TASK_Q_HOME;
        do_check_sync_task fuel' h
  end.

(** The first two loops of [check_task]. *)
Fixpoint move_some (fuel : nat) (once : Z) h (from to : Z) : option (host sg) :=
  match fuel with
  | O => None
  | S fuel' =>
      if max_task_run_once <=? once then Some h
      else
        '(rc, task, h) ← get_task h from;
        if negb (rc =? GET_TASK_Q_OK) then Some h
        else t ← task; h ← set_task h t to; move_some fuel' (once + 1) h from to
  end.

(** A task of the third loop: announced, or put off. *)
Definition dispatch_one h (t st : Z) : option (host sg) :=
  r ← TaskQueue.tasks (queue (user h)) !! t;
  match find_ip_stat h (Ip.str2ip (TaskData.peerip (sub r))) with
  | None => set_task h t (if st =? TASK_Q_SYNC_DIR then TASK_Q_WAIT_SYNC_DIR_TMP else TASK_Q_WAIT_SYNC_IP)
  | Some fd => h ← do_dispatch_task h t fd st; set_task h t TASK_Q_HOME
  end.

Fixpoint dispatch_loop (fuel : nat) (once : Z) h : option (host sg) :=
  match fuel with
  | O => None
  | S fuel' =>
      if max_task_run_once <=? once then Some h
      else
        '(rc, task, h) ← get_task h TASK_Q_WAIT_SYNC;
        '(rc, task, st, h) ←
          (if negb (rc =? GET_TASK_Q_OK)
           then '(rc, task, h) ← get_task h TASK_Q_WAIT_SYNC_DIR; Some (rc, task, TASK_Q_SYNC_DIR, h)
           else Some (rc, task, TASK_SYNC, h));
        if negb (rc =? GET_TASK_Q_OK) then Some h
        else t ← task; h ← dispatch_one h t st; dispatch_loop fuel' (once + 1) h
  end.

(** [check_task].  No loop puts a task into a queue it takes tasks from, so
    one turn per task and one more are enough; [do_fin_task] may have taken
    tasks from the allocator, which the later bound counts. *)
Definition turns h : nat := S (length (map_to_list (TaskQueue.tasks (queue (user h))))).

Definition check_task h : option (host sg) :=
  h ← move_some (turns h) 0 h TASK_Q_WAIT_SYNC_IP TASK_Q_WAIT_SYNC;
  h ← move_some (turns h) 0 h TASK_Q_WAIT_SYNC_DIR_TMP TASK_Q_WAIT_SYNC_DIR;
  h ← dispatch_loop (turns h) 0 h;
  h ← do_fin_task (turns h) h;
  do_check_sync_task (turns h) h.

(** ** Reports (S/pfs_sig_sub.c) *)

Fixpoint send_domain h (hd : t_pfs_sig_head) (body : bytes) (l : list Domain.slot) : option (host sg) :=
  match l with
  | [] => Some h
  | s :: l' =>
      h ← (if (Domain.s_ip s =? self_ip) || negb (Domain.s_offline s =? 0) then Some h
           else match find_ip_stat h (Domain.s_ip s) with
                | None => Some h
                | Some fd => active_send h fd hd body
                end);
      send_domain h hd body l'
  end.

Definition sync_diskerr_2_domain h : option (host sg) :=
  let d := self_domain (user h) in
  match Domain.get_self_err_disk d with
  | None => Some h
  | Some errdisk => send_domain h (mk_head Domain.MAXDISKS DISKINFO_RSP HB_C_2_C) errdisk (Domain.slots d)
  end.

Fixpoint send_ns h (hd : t_pfs_sig_head) (body : bytes) (l : list (bytes * Z)) : option (host sg) :=
  match l with
  | [] => Some h
  | (_, uip) :: l' =>
      if uip =? 0 then Some h
      else
        h ← (match find_ip_stat h uip with None => Some h | Some fd => active_send h fd hd body end);
        send_ns h hd body l'
  end.

Definition report_local_diskerr h : option (host sg) :=
  h ← sync_diskerr_2_domain h;
  let taskcount := u32 (TaskQueue.get_task_count (queue (user h)) TASK_Q_WAIT) in
  send_ns h (mk_head 12 LOADINFO_REQ HB_C_2_C)
    (le_split 4 loadinfo ++ le_split 4 taskcount ++ le_split 4 maxfreevalue) (take 64 nameservers).

(** ** Requests (S/pfs_sig_sub.c, S/pfs_sig.c) *)

Definition do_req h (fd : Z) (hd : t_pfs_sig_head) (b : t_pfs_sig_body) : option (Z * host sg) :=
  p ← peers (user h) !! fd;
  let p := set_hbtime p (u32 (now h)) in
  let h := with_peer h fd p in
  let told p := if negb (bodylen hd =? 1) then p else set_server p (at_ b 0) in
  if cmdid hd =? HEARTBEAT_REQ then
    let h := set_client_data h fd (create_sig_msg HEARTBEAT_RSP (Sig.status hd) [u8 (self_stat (user h))] 1) in
    Some (RECV_ADD_EPOLLOUT, with_peer h fd (told (set_stat p SEND_LAST)))
  else if cmdid hd =? HEARTBEAT_RSP then
    Some (RECV_ADD_EPOLLIN, with_peer h fd (told (set_stat p IDLE)))
  else if cmdid hd =? NEWTASK_REQ then
    if negb (bodylen hd =? Wire.sizeof_base) then Some (RECV_CLOSE, h)
    else
      '(rc, st, b, h) ← do_newtask h fd hd b;
      if negb (rc =? 0) then
        let h := set_client_data h fd (create_sig_msg NEWTASK_RSP st b Wire.sizeof_base) in
        Some (RECV_ADD_EPOLLOUT, with_peer h fd (set_stat p SEND_LAST))
      else Some (RECV_ADD_EPOLLIN, h)
  else if cmdid hd =? NEWTASK_RSP then Some (RECV_ADD_EPOLLIN, h)
  else if cmdid hd =? SYNC_DIR_REQ then
    if negb (bodylen hd =? sizeof_sync) then Some (RECV_ADD_EPOLLIN, h)
    else h ← do_sync_dir_req h fd b; Some (RECV_ADD_EPOLLOUT, h)
  else if (cmdid hd =? SYNC_DIR_RSP) || (cmdid hd =? SYNC_DEL_RSP) then
    Some (RECV_ADD_EPOLLIN, set_flag (with_peer h fd (set_sync p None)) 0)
  else if cmdid hd =? SYNC_DEL_REQ then
    if negb (bodylen hd =? sizeof_sync) then Some (RECV_ADD_EPOLLIN, h)
    else h ← do_sync_del_req h fd b; Some (RECV_ADD_EPOLLOUT, h)
  else if cmdid hd =? DISKINFO_RSP then
    Some (RECV_ADD_EPOLLIN,
          if negb (bodylen hd =? Domain.MAXDISKS) then h
          else with_domain h (Domain.set_domain_diskerr (self_domain (user h)) b (k_peerip fd)))
  else Some (RECV_CLOSE, h).

Definition check_req : host sg -> Z -> option (Z * host sg) := SigStream.check_part zero_body do_req.

Definition refresh h (fd : Z) : option (host sg) :=
  p ← peers (user h) !! fd;
  let u := user h in
  Some (with_conns h (<[fd := set_hbtime p (u32 (now h))]> (peers u))
          (filter (fun x => x <> fd) (active u) ++ [fd]) (online u)).

Definition svc_recv h (fd : Z) : option (Z * host sg) :=
  h ← refresh h fd;
  SigStream.or_loop zero_body do_req (S (length (inq h fd))) h fd RECV_ADD_EPOLLIN.

Definition svc_send h (fd : Z) : option (Z * host sg) :=
  h ← refresh h fd; Some (SEND_ADD_EPOLLIN, h).

(** ** Directories (S/pfs_sig_base.c) *)

(** [check_count_one_day]: the first [sync_dir_count] calls of a day pass. *)
Definition check_count_one_day h : Z * host sg :=
  let v := vars (user h) in
  let last := if day_last v =? 0 then now h else day_last v in
  let set l c := with_vars h (mk_statics l c (last_sync v) (report_info v) (last_scan_timeout v)) in
  if day_count v <? sync_dir_count then (0, set last (day_count v + 1))
  else if 86400 <=? now h - last then (0, set (now h) 1)
  else (-1, set last (day_count v)).

(** [do_sub_sync(pfs_sync, peer)]. *)
Definition do_sub_sync h (n fd : Z) : option (host sg) :=
  s ← syncs (user h) !! n;
  h ← post h fd (if type s =? TASK_ADDFILE then SYNC_DIR_REQ else SYNC_DEL_REQ) TASK_SYNC (sync_image s) sizeof_sync;
  p ← peers (user h) !! fd;
  let h := with_peer h fd (set_sync p (Some n)) in
  let q := para (user h) in
  Some (with_para h (mk_para 1 (now h) (total_sync_task q) (total_synced_task q))).

(** The loop of [do_active_sync] over the domain. *)
Fixpoint ask_domain h (n : Z) (l : list Domain.slot) : option (host sg) :=
  match l with
  | [] => Some h
  | s :: l' =>
      h ← (if negb (Domain.s_self s =? 0) || negb (Domain.s_offline s =? 0) then Some h
           else match find_ip_stat h (Domain.s_ip s) with
                | None => Some h
                | Some fd =>
                    h ← do_sub_sync h n fd;
                    r ← LinkedList.list_del_init (ring (user h)) n;
                    Some (with_ring h r)
                end);
      ask_domain h n l'
  end.

(** The time of day as [%.2s:%.2s:%.2s] of the text of the time. *)
Definition hour_of (t : Z) : bytes :=
  let c := time_text t in
  snprintf 12 (take 2 (drop 8 c) ++ 58 :: take 2 (drop 10 c) ++ 58 :: take 2 (drop 12 c)).

Definition do_active_sync h : option (host sg) :=
  if init_sync_flag (user h) =? 0 then Some h
  else
    let '(rc, h) := check_count_one_day h in
    if negb (rc =? 0) then Some h
    else
      let v := vars (user h) in
      let q := queue (user h) in
      if now h - last_sync v <? sync_dir_span then Some h
      else if 1024 <=? TaskQueue.get_task_count q TASK_Q_SYNC_DIR + TaskQueue.get_task_count q TASK_Q_SYNC_DIR_TMP
      then Some h
      else if (strcmp (hour_of (now h)) sync_stime <? 0) || (0 <? strcmp (hour_of (now h)) sync_etime) then Some h
      else
        let h := with_vars h (mk_statics (day_last v) (day_count v) (now h) (report_info v) (last_scan_timeout v)) in
        n ← LinkedList.load_next (ring (user h)) sync_list;
        if n =? sync_list then Some (set_flag h 2)
        else ask_domain h n (Domain.slots (self_domain (user h))).

(** [init_sync_list]; both loops go to [DIR1]. *)
Definition sync_since h (a b : Z) : Z :=
  let last := TimeStamp.get_time_stamp_by_int DIR2 (stamps (files (user h))) a b - task_timeout in
  if last <=? 0 then
    get_dir_lasttime (now h)
      ((fun l => map (fun e => (d_name e, st_ctime <$> d_stat e)) l)
         <$> k_readdir (sys (files (user h))) (default (str "(null)") cfg_datadir ++ 47 :: dec a ++ 47 :: dec b ++ [47]))
  else last.

Definition add_sync h (a b : Z) : option (bool * host sg) :=
  match node_mem (user h) with
  | None => Some (false, h)
  | Some n =>
      let u := user h in
      let m := mk_sync a b (sync_since h a b) (now h) TASK_ADDFILE in
      let r := LinkedList.mk_heap (<[n := n]> (LinkedList.nx (ring u))) (<[n := n]> (LinkedList.pv (ring u))) in
      r ← LinkedList.list_add_tail r n sync_list;
      Some (true, set_user h (mk_sg (peers u) (active u) (online u) r (<[n := m]> (syncs u)) (para u) (self_stat u)
                                (init_sync_flag u) (self_domain u) (files u) (queue u) (vars u)))
  end.

Fixpoint add_syncs h (l : list (Z * Z)) : option (Z * host sg) :=
  match l with
  | [] => Some (0, h)
  | (a, b) :: l' => '(ok, h) ← add_sync h a b; if ok : bool then add_syncs h l' else Some (-1, h)
  end.

Definition sync_dirs : list (Z * Z) :=
  a ← seqZ 0 DIR1; (fun b => (a, b)) <$> seqZ 0 DIR1.

Definition init_sync_list h : option (Z * host sg) := add_syncs h sync_dirs.

(** The start of [sync_dir_thread]. *)
Definition sync_dir_start h : option (host sg) :=
  '(_, h) ← init_sync_list h;
  let u := user h in
  Some (set_user h (mk_sg (peers u) (active u) (online u) (ring u) (syncs u) (para u) (self_stat u) 1
                      (self_domain u) (files u) (queue u) (vars u))).

(** ** The clock (S/pfs_sig.c) *)

(** [do_close] with this service's [svc_finiconn]. *)
Definition close_conn h (fd : Z) : option (host sg) :=
  if (0 <=? fd) && (fd <? maxfds) && negb (c_fd (conn_of h fd) <? 0)
  then h1 ← svc_finiconn h fd; Some (do_close (Some (fun _ _ => h1)) h fd)
  else Some h.

(** Heartbeats for the peers not heard of for a while, the end for those not
    heard of for long. *)
Fixpoint beat_loop h (l : list Z) : option (host sg) :=
  match l with
  | [] => Some h
  | fd :: l' =>
      p ← peers (user h) !! fd;
      let idle := now h - hbtime p in
      if idle <? timeout then Some h
      else if (timeout <? idle) && (idle <? timeout * 10) then
        h ← active_send h fd (mk_head 1 HEARTBEAT_REQ HB_C_2_C) [u8 (self_stat (user h))];
        beat_loop h l'
      else
        h ← (if timeout * 10 <? idle then close_conn h (p_fd p) else Some h);
        beat_loop h l'
  end.

(** The part of [svc_timeout] that follows the synchronisation of a server
    that comes up. *)
Definition sync_stage h : option (host sg) :=
  let h := if self_stat (user h) =? UNKOWN_STAT then set_flag (with_stat h WAIT_SYNC) 0 else h in
  if self_stat (user h) =? WAIT_SYNC then
    let h := if (flag (para (user h)) =? 1) && (3600 <? now h - para_last (para (user h)))
             then set_flag h 0 else h in
    h ← (if flag (para (user h)) =? 0 then do_active_sync h else Some h);
    let p := para (user h) in
    Some (if (flag p =? 2) && (total_sync_task p <=? total_synced_task p) then with_stat h ON_LINE else h)
  else Some h.

Definition svc_timeout h : option (host sg) :=
  let v := vars (user h) in
  h ← (if 300 <? now h - report_info v
       then report_local_diskerr (with_vars h (mk_statics (day_last v) (day_count v) (last_sync v) (now h)
                                                 (last_scan_timeout v)))
       else Some h);
  h ← beat_loop h (active (user h));
  h ← scan_cfg_iplist_and_connect h;
  h ← sync_stage h;
  h ← check_task h;
  let v := vars (user h) in
  if 1800 <? now h - last_scan_timeout v then
    let h := with_vars h (mk_statics (day_last v) (day_count v) (last_sync v) (report_info v) (now h)) in
    q ← TaskQueue.do_timeout_task task_timeout check_task_timeout_flag (now h) q_lock q_lock (turns h)
          (queue (user h));
    Some (with_queue h q)
  else Some h.

(** ** Lemmas: the queues

    [ready off qs h]: the queues of [h] are [qs]; the [userlist] heads, which
    [create_delay_task] unlinks, are sound. *)

Definition users_ok (q : TaskQueue.state) : Prop :=
  LinkedList.closed (TaskQueue.umem q) /\
  forall t, is_Some (TaskQueue.tasks q !! t) -> LinkedList.valid (TaskQueue.umem q) t.

Record ready (off : Z -> Z) (qs : Z -> list Z) h : Prop := mk_ready {
  rd_queues : TaskQueue.queues off (queue (user h)) qs;
  rd_users : users_ok (queue (user h))
}.

(** What the work on the queues leaves alone. *)
Record steady h h' : Prop := mk_steady {
  sd_peers : peers (user h') = peers (user h);
  sd_online : online (user h') = online (user h);
  sd_domain : self_domain (user h') = self_domain (user h);
  sd_now : now h' = now h
}.

#[global] Instance steady_pre : PreOrder steady.
Proof. split; [by intros h|]. intros a b c [] []. split; congruence. Qed.

Lemma steady_find h h' ip : steady h h' -> find_ip_stat h' ip = find_ip_stat h ip.
Proof.
  intros [P O _ _]. unfold find_ip_stat, bucket. rewrite O.
  induction (default [] _) as [|fd l IH]; [done|]. cbn [find_first]. unfold peer_at at 1 3. by rewrite P, IH.
Qed.

Lemma find_ip_conn h ip fd : find_ip_stat h ip = Some fd -> exists p, peers (user h) !! fd = Some p /\ p_ip p = ip.
Proof.
  intros Hf. apply find_first_Some in Hf as [_ Hf]. unfold peer_at in Hf.
  destruct (peers (user h) !! fd) as [p|]; [|done]. b2p. by exists p.
Qed.

Lemma post_steady h fd cmd st body n p :
  peers (user h) !! fd = Some p ->
  exists h', post h fd cmd st body n = Some h' /\ user h' = user h /\ now h' = now h /\
    (forall fd', fd' <> p_fd p -> conn_of h' fd' = conn_of h fd') /\
    (wf_conn h (p_fd p) -> outq h' (p_fd p) = outq h (p_fd p) ++ create_sig_msg cmd st body n).
Proof.
  intros Hp. unfold post. rewrite Hp. cbn [mbind option_bind]. set (m := create_sig_msg _ _ _ _).
  set (h1 := set_client_data h (p_fd p) m).
  assert (A : acon (modify_fd_event h1 (p_fd p) EPOLLOUT) = acon h1 /\ user (modify_fd_event h1 (p_fd p) EPOLLOUT) = user h
    /\ now (modify_fd_event h1 (p_fd p) EPOLLOUT) = now h) by (unfold modify_fd_event, epoll_mod; by case_match).
  destruct A as (A1 & A2 & A3). eexists. split; [done|]. split; [done|]. split; [done|].
  unfold outq, conn_of. rewrite A1. split.
  - intros fd' Hne. f_equal. unfold h1, set_client_data, set_conn. simpl. by rewrite lookup_insert_ne.
  - intros [W _]. unfold h1, set_client_data, set_conn. simpl. rewrite lookup_insert_eq. simpl. by apply put_spec.
Qed.

Section Queues.
Hypothesis lock_free : q_lock = 0.
Hypothesis mem_sound : forall q t junk, task_mem q = Some (t, junk) ->
  0 < t /\ t ∉ dom (LinkedList.nx (TaskQueue.mem q)) /\ t ∉ dom (LinkedList.pv (TaskQueue.mem q)).

Context (off : Z -> Z).

Lemma users_get q s lk nw fresh c o q' :
  users_ok q -> TaskQueue.pfs_get_task q s lk nw fresh = Some (c, o, q') -> users_ok q'.
Proof.
  intros [U1 U2]. unfold TaskQueue.pfs_get_task. destruct (negb _); [by intros [= _ _ <-]|].
  destruct (TaskQueue.lock_failed lk); [by intros [= _ _ <-]|].
  destruct (LinkedList.load_next _ _) as [pos|]; [|done]. cbn [mbind option_bind].
  destruct (LinkedList.load_next _ _) as [x|]; [|done]. cbn [mbind option_bind].
  destruct (negb (pos =? TaskQueue.pfstask s)).
  - unfold TaskQueue.atomic_add. destruct (TaskQueue.taskcount q !! s); [|done]. cbn [mbind option_bind].
    simpl (TaskQueue.tasks _). destruct (TaskQueue.tasks q !! pos) as [r|] eqn:Er; [|done]. cbn [mbind option_bind].
    destruct (LinkedList.list_del_init _ _); [|done]. cbn [mbind option_bind]. intros [= _ _ <-].
    split; [done|]. simpl. intros t Ht. apply U2. destruct (decide (t = pos)) as [-> |]; [done|].
    by rewrite lookup_insert_ne in Ht.
  - destruct (s =? TASK_Q_HOME); [|by intros [= _ _ <-]]. destruct fresh as [[t junk]|]; [|by intros [= _ _ <-]].
    intros [= _ _ <-]. assert (V : forall a, LinkedList.valid (TaskQueue.umem q) a ->
      LinkedList.valid (TaskQueue.umem (TaskQueue.alloc_task q t junk nw)) a).
    { intros a [V1 V2]. split; simpl; by apply LinkedList.insert_is_Some. }
    assert (Vt : LinkedList.valid (TaskQueue.umem (TaskQueue.alloc_task q t junk nw)) t)
      by (split; simpl; rewrite lookup_insert_eq; eauto).
    split.
    + intros a b Hab. simpl in Hab. destruct (decide (a = t)) as [-> |].
      * rewrite !lookup_insert_eq in Hab. assert (t = b) as <- by (destruct Hab; congruence). done.
      * rewrite !lookup_insert_ne in Hab by done. apply V. by apply (U1 a).
    + intros a Ha. simpl in Ha. destruct (decide (a = t)) as [-> |]; [done|].
      rewrite lookup_insert_ne in Ha by done. apply V. by apply U2.
Qed.

Lemma users_set q t s lk nw c q' :
  users_ok q -> TaskQueue.pfs_set_task q t s lk nw = Some (c, q') -> users_ok q'.
Proof.
  intros [U1 U2] Es. destruct (TaskQueue.set_task_keeps _ _ _ _ _ _ _ Es) as [Um Ot].
  pose proof (TaskQueue.set_task_jobs _ _ _ _ _ _ _ Es) as J. split; [by rewrite Um|].
  intros x Hx. rewrite Um. apply U2. specialize (J x). destruct Hx as [r Hr]. rewrite Hr in J. simpl in J.
  destruct (TaskQueue.tasks q !! x); [eauto|done].
Qed.

Lemma users_with_task q t r r' : users_ok q -> TaskQueue.tasks q !! t = Some r -> users_ok (TaskQueue.with_task q t r').
Proof.
  intros [U1 U2] Hr. split; [done|]. simpl. intros x Hx. apply U2.
  destruct (decide (x = t)) as [-> |]; [eauto|by rewrite lookup_insert_ne in Hx].
Qed.

Lemma take_task qs h s t rest :
  ready off qs h -> TaskQueue.in_range s = true -> qs s = t :: rest ->
  exists h', get_task h s = Some (GET_TASK_Q_OK, Some t, h') /\ ready off (<[s := rest]> qs) h' /\
    TaskQueue.detached (queue (user h')) (<[s := rest]> qs) t /\
    (forall t', TaskQueue.detached (queue (user h)) qs t' ->
                TaskQueue.detached (queue (user h')) (<[s := rest]> qs) t') /\
    steady h h' /\ acon h' = acon h /\ files (user h') = files (user h) /\
    TaskQueue.same_jobs (queue (user h)) (queue (user h')).
Proof.
  intros [Q U] Hs Hq. unfold get_task. rewrite lock_free.
  destruct (TaskQueue.get_task_step Q s t rest 0 (now h) (task_mem (queue (user h))) Hs ltac:(by left) Hq)
    as (q & Eq & Q1 & D & D'). rewrite Eq. cbn [mbind option_bind]. eexists. split; [done|].
  split; [split; [done|by apply (users_get _ _ _ _ _ _ _ _ U Eq)]|]. split; [done|]. split; [done|].
  split; [done|]. split; [done|]. split; [done|]. by apply (TaskQueue.get_task_same _ _ _ _ _ _ _ _ _ _ Q Hs Hq Eq).
Qed.

Lemma no_task qs h s :
  ready off qs h -> TaskQueue.in_range s = true -> qs s = [] -> s <> TASK_Q_HOME ->
  exists h', get_task h s = Some (GET_TASK_Q_NOTHING, None, h') /\ ready off qs h' /\ steady h h' /\
    queue (user h') = queue (user h) /\ acon h' = acon h.
Proof.
  intros [Q U] Hs Hq Hh. unfold get_task. rewrite lock_free.
  rewrite (TaskQueue.get_task_nothing Q s 0 (now h) (task_mem (queue (user h))) Hs ltac:(by left) Hq Hh).
  cbn [mbind option_bind]. eexists. split; [done|]. by split_and!.
Qed.

Lemma put_task qs h t s :
  ready off qs h -> TaskQueue.in_range s = true -> TaskQueue.detached (queue (user h)) qs t ->
  exists h', set_task h t s = Some h' /\ ready off (<[s := qs s ++ [t]]> qs) h' /\
    (forall t', t' <> t -> TaskQueue.detached (queue (user h)) qs t' ->
                TaskQueue.detached (queue (user h')) (<[s := qs s ++ [t]]> qs) t') /\
    steady h h' /\ acon h' = acon h /\ TaskQueue.same_jobs (queue (user h)) (queue (user h')) /\
    files (user h') = files (user h).
Proof.
  intros [Q U] Hs D. unfold set_task. rewrite lock_free.
  destruct (TaskQueue.set_task_step Q s t 0 (now h) Hs ltac:(by left) D) as (q & Eq & Q1 & D1).
  rewrite Eq. cbn [mbind option_bind]. eexists. split; [done|].
  split; [split; [done|by apply (users_set _ _ _ _ _ _ _ U Eq)]|]. split; [done|]. split; [done|]. split; [done|].
  split; [by apply (TaskQueue.set_task_jobs _ _ _ _ _ _ _ Eq)|done].
Qed.

(** Changing the record of a detached task. *)
Lemma change_task qs h t f :
  ready off qs h -> TaskQueue.detached (queue (user h)) qs t ->
  exists r h', TaskQueue.tasks (queue (user h)) !! t = Some r /\ map_task h t f = Some h' /\ ready off qs h' /\
    (forall t', TaskQueue.detached (queue (user h)) qs t' -> TaskQueue.detached (queue (user h')) qs t') /\
    TaskQueue.tasks (queue (user h')) = <[t := f r]> (TaskQueue.tasks (queue (user h))) /\
    steady h h' /\ acon h' = acon h /\ files (user h') = files (user h).
Proof.
  intros [Q U] D. pose proof (TaskQueue.d_task _ _ _ D) as [r Hr]. unfold map_task. rewrite Hr. cbn [mbind option_bind].
  eexists r, _. split; [done|]. split; [done|].
  destruct (TaskQueue.with_task_detached off _ qs t (f r) Q D) as [Q1 D1].
  split; [split; [done|by apply (users_with_task _ _ r)]|]. split; [|by split_and!].
  intros t' [A1 A2 A3 A4]. split; [done..|]. simpl. destruct (decide (t' = t)) as [-> |];
    [by rewrite lookup_insert_eq|by rewrite lookup_insert_ne].
Qed.

(** Taking a free task. *)
Lemma take_home qs h :
  ready off qs h ->
  exists c o h', get_task h TASK_Q_HOME = Some (c, o, h') /\ steady h h' /\ acon h' = acon h /\
    files (user h') = files (user h) /\
    ((c = GET_TASK_Q_NOTHING /\ queue (user h') = queue (user h)) \/
     exists t qs1, c = GET_TASK_Q_OK /\ o = Some t /\ ready off qs1 h' /\
       TaskQueue.detached (queue (user h')) qs1 t /\
       (forall t', TaskQueue.detached (queue (user h)) qs t' ->
                   t' <> t /\ TaskQueue.detached (queue (user h')) qs1 t') /\
       (forall s, s <> TASK_Q_HOME -> qs1 s = qs s) /\
       (forall x, x ∈ qs TASK_Q_HOME -> x = t \/ x ∈ qs1 TASK_Q_HOME)).
Proof.
  intros [Q U]. unfold get_task. rewrite lock_free.
  destruct (TaskQueue.get_home off (queue (user h)) qs 0 (now h) (task_mem (queue (user h))) Q ltac:(by left)
              (mem_sound (queue (user h)))) as (c & o & q & Eq & Hc).
  rewrite Eq. cbn [mbind option_bind]. eexists _, _, _. split; [done|]. split; [done|]. split; [done|]. split; [done|].
  destruct Hc as [[-> ->]|(t & qs1 & -> & -> & Q1 & D & D' & X1 & X2)]; [by left|]. right.
  exists t, qs1. split; [done|]. split; [done|]. split; [|done]. split; [done|].
  by apply (users_get _ _ _ _ _ _ _ _ U Eq).
Qed.

Lemma kept_home qs qs1 t s :
  (forall s', s' <> TASK_Q_HOME -> qs1 s' = qs s') -> (forall x, x ∈ qs TASK_Q_HOME -> x = t \/ x ∈ qs1 TASK_Q_HOME) ->
  TaskQueue.in_range s = true -> TaskQueue.kept qs (<[s := qs1 s ++ [t]]> qs1).
Proof.
  intros X1 X2 Hs s0 x Hs0 Hx. assert (Hq : x = t \/ x ∈ qs1 s0).
  { destruct (decide (s0 = TASK_Q_HOME)) as [-> |]; [by apply X2|rewrite X1 by done; by right]. }
  destruct Hq as [-> |Hq]; [exists s; rewrite fn_lookup_insert; set_solver|].
  exists s0. split; [done|]. unfold insert, fn_insert. case_decide; subst; set_solver.
Qed.

(** [create_delay_task], whatever is left in the home queue. *)
Lemma delay_kept qs h ip t :
  ready off qs h -> TaskQueue.detached (queue (user h)) qs t ->
  exists h' qs', create_delay_task h ip t = Some h' /\ ready off qs' h' /\
    TaskQueue.detached (queue (user h')) qs' t /\ TaskQueue.kept qs qs' /\
    (forall s, s <> TASK_Q_HOME -> s <> TASK_Q_WAIT_SYNC -> qs' s = qs s) /\ steady h h'.
Proof.
  intros R D. unfold create_delay_task.
  destruct (take_home qs h R) as (c & o & h1 & -> & S1 & _ & _ & Hc). cbn [mbind option_bind].
  destruct Hc as [[-> Hq]|(t' & qs1 & -> & -> & R1 & D1 & D1' & X1 & X2)].
  { simpl (negb _). cbv iota. exists h1, qs. split; [done|]. split; [destruct R; split; by rewrite Hq|].
    split; [by rewrite Hq|]. split_and!; try done. }
  simpl (negb _). cbv iota. cbn [mbind option_bind]. destruct R1 as [Q1 [U1 U2]].
  destruct (LinkedList.closed_del_init _ t' U1 (U2 t' (TaskQueue.d_task _ _ _ D1))) as (u & -> & C1 & V1).
  cbn [mbind option_bind]. set (h2 := with_queue h1 _).
  assert (R2 : ready off qs1 h2).
  { split; [by destruct Q1; split|]. split; [done|]. intros x Hx. by apply V1, U2. }
  assert (D2 : forall x, TaskQueue.detached (queue (user h1)) qs1 x -> TaskQueue.detached (queue (user h2)) qs1 x)
    by (by intros x []; split).
  destruct (D1' t D) as [Hne D1t]. pose proof (D2 t D1t) as Dt. pose proof (D2 t' D1) as Dt'.
  destruct (change_task qs1 h2 t (fun r => set_base r (set_starttime (now h2) (base r))) R2 Dt)
    as (r & h3 & _ & -> & R3 & D3 & T3 & S3 & _). cbn [mbind option_bind].
  destruct (TaskQueue.d_task _ _ _ (D3 t Dt)) as [r3 ->]. cbn [mbind option_bind].
  destruct (change_task qs1 h3 t' (fun r' => set_sub (set_base r' (base r3))
      (mk_sub 0 0 0 0 0 (Ip.ip2str ip) OPER_SYNC_2_DOMAIN 0 0)) R3 (D3 t' Dt')) as (r' & h4 & _ & -> & R4 & D4 & _ & S4 & _).
  cbn [mbind option_bind].
  destruct (put_task qs1 h4 t' TASK_Q_WAIT_SYNC R4 eq_refl (D4 t' (D3 t' Dt'))) as (h5 & -> & R5 & D5 & S5 & _).
  eexists h5, _. split; [done|]. split; [exact R5|].
  split; [by apply D5; [|apply D4, D3]|]. split; [by apply kept_home|].
  split; [intros s Hs Hs'; rewrite fn_lookup_insert_ne by done; by apply X1|].
  transitivity h1; [done|]. transitivity h2; [by split|]. transitivity h3; [done|]. by transitivity h4.
Qed.

(** [do_dispatch_task] to a peer that is there. *)
Lemma dispatch_spec h t fd st p r :
  peers (user h) !! fd = Some p -> TaskQueue.tasks (queue (user h)) !! t = Some r ->
  exists h', do_dispatch_task h t fd st = Some h' /\ user h' = user h /\ now h' = now h /\
    (forall fd', fd' <> p_fd p -> conn_of h' fd' = conn_of h fd') /\
    (wf_conn h (p_fd p) -> outq h' (p_fd p) =
       outq h (p_fd p) ++ create_sig_msg NEWTASK_REQ st (Wire.base_image (base r)) Wire.sizeof_base).
Proof. intros Hp Hr. unfold do_dispatch_task. rewrite Hr. by apply post_steady. Qed.

Lemma steady_user h h' : user h' = user h -> now h' = now h -> steady h h'.
Proof. intros U N. split; [by rewrite U..|done]. Qed.

Lemma ready_user qs h h' : queue (user h') = queue (user h) -> ready off qs h -> ready off qs h'.
Proof. intros U []. split; by rewrite U. Qed.

Lemma tell_kept l : forall qs h t,
  ready off qs h -> TaskQueue.detached (queue (user h)) qs t ->
  exists h' qs', tell_domain h t l = Some h' /\ ready off qs' h' /\ TaskQueue.detached (queue (user h')) qs' t /\
    TaskQueue.kept qs qs' /\ (forall s, s <> TASK_Q_HOME -> s <> TASK_Q_WAIT_SYNC -> qs' s = qs s) /\ steady h h'.
Proof.
  induction l as [|s l IH]; intros qs h t R D; cbn [tell_domain]; [by eexists _, qs|].
  assert (Hstep : exists h1 qs1, (if (Domain.s_ip s =? self_ip) || negb (Domain.s_offline s =? 0) then Some h
           else match find_ip_stat h (Domain.s_ip s) with
                | None => create_delay_task h (Domain.s_ip s) t
                | Some fd => do_dispatch_task h t fd TASK_SYNC
                end) = Some h1 /\ ready off qs1 h1 /\ TaskQueue.detached (queue (user h1)) qs1 t /\
    TaskQueue.kept qs qs1 /\ (forall s, s <> TASK_Q_HOME -> s <> TASK_Q_WAIT_SYNC -> qs1 s = qs s) /\ steady h h1).
  { destruct (_ || _); [by exists h, qs|]. destruct (find_ip_stat h _) as [fd|] eqn:Ef; [|by apply delay_kept].
    destruct (find_ip_conn _ _ _ Ef) as (p & Hp & _). destruct (TaskQueue.d_task _ _ _ D) as [r Hr].
    destruct (dispatch_spec h t fd TASK_SYNC p r Hp Hr) as (h1 & -> & U1 & N1 & _). exists h1, qs.
    split; [done|]. split; [by apply (ready_user _ h); [rewrite U1|]|]. rewrite U1. split_and!; try done.
    by apply steady_user. }
  destruct Hstep as (h1 & qs1 & -> & R1 & D1 & K1 & X1 & S1). cbn [mbind option_bind].
  destruct (IH qs1 h1 t R1 D1) as (h2 & qs2 & -> & R2 & D2 & K2 & X2 & S2). exists h2, qs2.
  split_and!; try done; [by etransitivity| |by etransitivity].
  intros s' H1 H2. by rewrite X2, X1.
Qed.

(** A finished task always gets filed. *)
Lemma fin_one_kept qs h t :
  ready off qs h -> TaskQueue.detached (queue (user h)) qs t ->
  exists h' qs', fin_one h t = Some h' /\ ready off qs' h' /\ TaskQueue.kept qs qs' /\
    (exists s, TaskQueue.in_range s = true /\ t ∈ qs' s) /\
    (forall s, s ∉ [TASK_Q_HOME; TASK_Q_WAIT_SYNC; TASK_Q_WAIT; TASK_Q_DELAY; TASK_Q_CLEAN] -> qs' s = qs s) /\
    steady h h'.
Proof.
  intros R D. unfold fin_one. destruct (TaskQueue.d_task _ _ _ D) as [r Hr]. rewrite Hr. cbn [mbind option_bind].
  assert (Hput : forall h1 qs1 s, ready off qs1 h1 -> TaskQueue.detached (queue (user h1)) qs1 t ->
    TaskQueue.kept qs qs1 -> (forall s, s <> TASK_Q_HOME -> s <> TASK_Q_WAIT_SYNC -> qs1 s = qs s) -> steady h h1 ->
    s ∈ [TASK_Q_WAIT; TASK_Q_DELAY; TASK_Q_CLEAN] ->
    exists h' qs', set_task h1 t s = Some h' /\ ready off qs' h' /\ TaskQueue.kept qs qs' /\
    (exists s, TaskQueue.in_range s = true /\ t ∈ qs' s) /\
    (forall s, s ∉ [TASK_Q_HOME; TASK_Q_WAIT_SYNC; TASK_Q_WAIT; TASK_Q_DELAY; TASK_Q_CLEAN] -> qs' s = qs s) /\
    steady h h').
  { intros h1 qs1 s R1 D1 K1 X1 S1 Hs.
    assert (Hr1 : TaskQueue.in_range s = true) by (rewrite !elem_of_cons, elem_of_nil in Hs; by intuition subst).
    destruct (put_task qs1 h1 t s R1 Hr1 D1) as (h2 & -> & R2 & _ & S2 & _). eexists h2, _.
    split; [done|]. split; [exact R2|]. split.
    { etransitivity; [exact K1|]. intros s0 x Hs0 Hx. exists s0. split; [done|]. unfold insert, fn_insert.
      case_decide; subst; set_solver. }
    split; [exists s; rewrite fn_lookup_insert; set_solver|]. split; [|by etransitivity].
    intros s' Hs'. rewrite fn_lookup_insert_ne by set_solver. apply X1; set_solver. }
  destruct (_ && _).
  { destruct (change_task qs h t retry_task R D) as (_ & h1 & _ & -> & R1 & D1 & _ & S1 & _). cbn [mbind option_bind].
    apply (Hput h1 qs); try done; [by apply D1|set_solver]. }
  assert (Hsync : exists rc h1 qs1, fin_sync h t r = Some (rc, h1) /\ ready off qs1 h1 /\
    TaskQueue.detached (queue (user h1)) qs1 t /\ TaskQueue.kept qs qs1 /\
    (forall s, s <> TASK_Q_HOME -> s <> TASK_Q_WAIT_SYNC -> qs1 s = qs s) /\ steady h h1).
  { unfold fin_sync. destruct (_ =? TASK_SOURCE).
    - destruct (_ || _); [|by exists 0, h, qs]. unfold sync_task_2_domain.
      destruct (tell_kept (Domain.slots (self_domain (user h))) qs h t R D) as (h1 & qs1 & -> & Hx).
      cbn [mbind option_bind]. by exists 0, h1, qs1.
    - destruct (_ =? TASK_SYNC_ISDIR); [|by exists 0, h, qs]. eexists _, _, qs. split; [done|].
      destruct (_ && _); split_and!; try done; by destruct R; split. }
  destruct Hsync as (rc & h1 & qs1 & -> & R1 & D1 & K1 & X1 & S1). cbn [mbind option_bind].
  destruct (negb (rc =? 0)); [apply (Hput h1 qs1); try done; set_solver|].
  destruct (TaskQueue.d_task _ _ _ D1) as [r1 Hr1]. rewrite Hr1. cbn [mbind option_bind]. cbv zeta.
  destruct (_ && _); [|apply (Hput h1 qs1); try done; set_solver].
  apply (Hput _ qs1); try done; [by destruct R1; split| |set_solver].
  transitivity h1; [done|by split].
Qed.


Lemma move_some_kept from to fuel : forall once qs h,
  TaskQueue.in_range from = true -> TaskQueue.in_range to = true -> from <> to -> from <> TASK_Q_HOME ->
  ready off qs h -> (length (qs from) < fuel)%nat ->
  exists h' qs', move_some fuel once h from to = Some h' /\ ready off qs' h' /\ TaskQueue.kept qs qs' /\ steady h h'.
Proof.
  induction fuel as [|fuel IH]; intros once qs h Hf Ht Hne Hh R Hl; [lia|]. cbn [move_some].
  destruct (_ <=? once); [by exists h, qs|]. destruct (qs from) as [|t rest] eqn:Eq.
  - destruct (no_task qs h from R Hf Eq Hh) as (h1 & -> & R1 & S1 & _). cbn [mbind option_bind].
    simpl (negb _). cbv iota. by exists h1, qs.
  - destruct (take_task qs h from t rest R Hf Eq) as (h1 & -> & R1 & D1 & _ & S1 & _). cbn [mbind option_bind].
    simpl (negb _). cbv iota. cbn [mbind option_bind].
    destruct (put_task _ h1 t to R1 Ht D1) as (h2 & -> & R2 & _ & S2 & _). cbn [mbind option_bind].
    destruct (IH (once + 1) _ h2 Hf Ht Hne Hh R2) as (h3 & qs3 & -> & R3 & K3 & S3).
    { rewrite fn_lookup_insert_ne, fn_lookup_insert by done. simpl in Hl. lia. }
    exists h3, qs3. split; [done|]. split; [done|].
    split; [etransitivity; [by apply (TaskQueue.kept_move qs from to t rest)|done]|].
    transitivity h1; [done|]. by transitivity h2.
Qed.

(** One task of the third loop. *)
Lemma dispatch_one_done qs h t st :
  ready off qs h -> TaskQueue.detached (queue (user h)) qs t ->
  exists h' s, dispatch_one h t st = Some h' /\ ready off (<[s := qs s ++ [t]]> qs) h' /\ steady h h' /\
    s ∈ [TASK_Q_WAIT_SYNC_DIR_TMP; TASK_Q_WAIT_SYNC_IP; TASK_Q_HOME].
Proof.
  intros R D. unfold dispatch_one. destruct (TaskQueue.d_task _ _ _ D) as [r Hr]. rewrite Hr. cbn [mbind option_bind].
  destruct (find_ip_stat h _) as [fd|] eqn:Ef.
  - destruct (find_ip_conn _ _ _ Ef) as (p & Hp & _).
    destruct (dispatch_spec h t fd st p r Hp Hr) as (h1 & -> & U1 & N1 & _). cbn [mbind option_bind].
    destruct (put_task qs h1 t TASK_Q_HOME) as (h2 & -> & R2 & _ & S2 & _);
      [by apply (ready_user _ h); [rewrite U1|]|done|by rewrite U1|].
    exists h2, TASK_Q_HOME. split; [done|]. split; [done|]. split; [|set_solver].
    transitivity h1; [by apply steady_user|done].
  - set (s := if st =? TASK_Q_SYNC_DIR then _ else _).
    assert (Hs : TaskQueue.in_range s = true /\ s ∈ [TASK_Q_WAIT_SYNC_DIR_TMP; TASK_Q_WAIT_SYNC_IP; TASK_Q_HOME])
      by (unfold s; destruct (_ =? _); split; [done|set_solver|done|set_solver]).
    destruct Hs as [Hs Hin]. destruct (put_task qs h t s R Hs D) as (h2 & -> & R2 & _ & S2 & _). by exists h2, s.
Qed.

Lemma dispatch_loop_kept fuel : forall once qs h,
  ready off qs h -> (length (qs TASK_Q_WAIT_SYNC) + length (qs TASK_Q_WAIT_SYNC_DIR) < fuel)%nat ->
  exists h' qs', dispatch_loop fuel once h = Some h' /\ ready off qs' h' /\ TaskQueue.kept qs qs' /\ steady h h'.
Proof.
  induction fuel as [|fuel IH]; intros once qs h R Hl; [lia|]. cbn [dispatch_loop].
  destruct (_ <=? once); [by exists h, qs|].
  assert (Hgo : forall s h0 t rest st, s = TASK_Q_WAIT_SYNC \/ s = TASK_Q_WAIT_SYNC_DIR ->
    ready off qs h0 -> steady h h0 -> qs s = t :: rest ->
    exists h1, get_task h0 s = Some (GET_TASK_Q_OK, Some t, h1) /\
    exists h' qs', (h1 ← dispatch_one h1 t st; dispatch_loop fuel (once + 1) h1) = Some h' /\ ready off qs' h' /\
      TaskQueue.kept qs qs' /\ steady h h').
  { intros s h0 t rest st Hs R0 S0 Eq.
    assert (Hr : TaskQueue.in_range s = true) by (by destruct Hs as [-> | ->]).
    destruct (take_task qs h0 s t rest R0 Hr Eq) as (h1 & -> & R1 & D1 & _ & S1 & _).
    exists h1. split; [done|]. destruct (dispatch_one_done _ h1 t st R1 D1) as (h2 & s' & -> & R2 & S2 & Hin).
    cbn [mbind option_bind].
    assert (Hs' : TaskQueue.in_range s' = true /\ s <> s' /\ s' <> TASK_Q_WAIT_SYNC /\ s' <> TASK_Q_WAIT_SYNC_DIR).
    { rewrite !elem_of_cons, elem_of_nil in Hin. destruct Hs as [-> | ->]; by intuition subst. }
    destruct Hs' as (Hs1 & Hs2 & Hs3 & Hs4).
    destruct (IH (once + 1) _ h2 R2) as (h3 & qs3 & -> & R3 & K3 & S3).
    { rewrite !(fn_lookup_insert_ne _ s') by done.
      destruct Hs as [-> | ->]; unfold insert, fn_insert; simpl; rewrite Eq in Hl; simpl in Hl; lia. }
    exists h3, qs3. split; [done|]. split; [done|].
    split; [etransitivity; [by apply (TaskQueue.kept_move qs s s' t rest)|done]|].
    transitivity h0; [done|]. transitivity h1; [done|]. by transitivity h2. }
  destruct (qs TASK_Q_WAIT_SYNC) as [|t rest] eqn:E1.
  - destruct (no_task qs h TASK_Q_WAIT_SYNC R eq_refl E1 ltac:(done)) as (h1 & -> & R1 & S1 & _).
    cbn [mbind option_bind]. simpl (negb _). cbv iota. destruct (qs TASK_Q_WAIT_SYNC_DIR) as [|t rest] eqn:E2.
    + destruct (no_task qs h1 TASK_Q_WAIT_SYNC_DIR R1 eq_refl E2 ltac:(done)) as (h2 & -> & R2 & S2 & _).
      cbn [mbind option_bind]. simpl (negb _). cbv iota. exists h2, qs. split_and!; try done. by etransitivity.
    + destruct (Hgo TASK_Q_WAIT_SYNC_DIR h1 t rest TASK_Q_SYNC_DIR) as (h2 & -> & Hx); [by right|done..|].
      cbn [mbind option_bind]. simpl (negb _). cbv iota. exact Hx.
  - destruct (Hgo TASK_Q_WAIT_SYNC h t rest TASK_SYNC) as (h1 & -> & Hx); [by left|done..|].
    cbn [mbind option_bind]. simpl (negb _). cbv iota. exact Hx.
Qed.

Lemma do_fin_task_kept fuel : forall qs h,
  ready off qs h -> (length (qs TASK_Q_FIN) < fuel)%nat ->
  exists h' qs', do_fin_task fuel h = Some h' /\ ready off qs' h' /\ TaskQueue.kept qs qs' /\ steady h h' /\
    qs' TASK_Q_FIN = [].
Proof.
  induction fuel as [|fuel IH]; intros qs h R Hl; [lia|]. cbn [do_fin_task].
  destruct (qs TASK_Q_FIN) as [|t rest] eqn:Eq.
  - destruct (no_task qs h TASK_Q_FIN R eq_refl Eq ltac:(done)) as (h1 & -> & R1 & S1 & _). cbn [mbind option_bind].
    simpl (negb _). cbv iota. by exists h1, qs.
  - destruct (take_task qs h TASK_Q_FIN t rest R eq_refl Eq) as (h1 & -> & R1 & D1 & _ & S1 & _). cbn [mbind option_bind].
    simpl (negb _). cbv iota. cbn [mbind option_bind].
    destruct (fin_one_kept _ h1 t R1 D1) as (h2 & qs2 & -> & R2 & K2 & (s & Hs & Hin) & X2 & S2). cbn [mbind option_bind].
    destruct (IH qs2 h2 R2) as (h3 & qs3 & -> & R3 & K3 & S3 & F3).
    { rewrite X2 by set_solver. rewrite fn_lookup_insert. simpl in Hl. lia. }
    exists h3, qs3. split; [done|]. split; [done|]. split.
    { etransitivity; [|exact K3]. intros s0 x Hs0 Hx. destruct (decide (s0 = TASK_Q_FIN)) as [-> |].
      - rewrite Eq in Hx. apply elem_of_cons in Hx as [-> |Hx]; [by exists s|].
        apply (K2 TASK_Q_FIN); [done|by rewrite fn_lookup_insert].
      - apply (K2 s0); [done|by rewrite fn_lookup_insert_ne]. }
    split; [|done]. transitivity h1; [done|]. by transitivity h2.
Qed.

Lemma do_check_sync_kept fuel : forall qs h,
  ready off qs h -> (length (qs TASK_Q_SYNC_DIR_RSP) < fuel)%nat ->
  exists h' qs', do_check_sync_task fuel h = Some h' /\ ready off qs' h' /\ TaskQueue.kept qs qs' /\ steady h h' /\
    qs' TASK_Q_SYNC_DIR_RSP = [] /\ qs' TASK_Q_FIN = qs TASK_Q_FIN.
Proof.
  induction fuel as [|fuel IH]; intros qs h R Hl; [lia|]. cbn [do_check_sync_task].
  destruct (qs TASK_Q_SYNC_DIR_RSP) as [|t rest] eqn:Eq.
  - destruct (no_task qs h TASK_Q_SYNC_DIR_RSP R eq_refl Eq ltac:(done)) as (h1 & -> & R1 & S1 & _).
    cbn [mbind option_bind]. simpl (negb _). cbv iota. by exists h1, qs.
  - destruct (take_task qs h TASK_Q_SYNC_DIR_RSP t rest R eq_refl Eq) as (h1 & -> & R1 & D1 & _ & S1 & _).
    cbn [mbind option_bind]. simpl (negb _). cbv iota. cbn [mbind option_bind].
    destruct (TaskQueue.d_task _ _ _ D1) as [r Hr]. rewrite Hr. cbn [mbind option_bind].
    assert (Hpost : exists h2, match find_ip_stat h1 (dstip (base r)) with
             | None => Some h1
             | Some fd => post h1 fd SYNC_DIR_RSP TASK_SYNC_DIR (take 32 (Wire.base_image (base r))) sizeof_sync
             end = Some h2 /\ user h2 = user h1 /\ now h2 = now h1).
    { destruct (find_ip_stat h1 _) as [fd|] eqn:Ef; [|by exists h1]. destruct (find_ip_conn _ _ _ Ef) as (p & Hp & _).
      destruct (post_steady h1 fd SYNC_DIR_RSP TASK_SYNC_DIR (take 32 (Wire.base_image (base r))) sizeof_sync p Hp)
        as (h2 & -> & U2 & N2 & _). by exists h2. }
    destruct Hpost as (h2 & -> & U2 & N2). cbn [mbind option_bind].
    destruct (put_task _ h2 t TASK_Q_HOME (ready_user _ h1 h2 ltac:(by rewrite U2) R1) eq_refl) as (h3 & -> & R3 & _ & S3 & _);
      [by rewrite U2|]. cbn [mbind option_bind].
    destruct (IH _ h3 R3) as (h4 & qs4 & -> & R4 & K4 & S4 & F4 & G4).
    { rewrite fn_lookup_insert_ne, fn_lookup_insert by done. simpl in Hl. lia. }
    exists h4, qs4. split; [done|]. split; [done|].
    split; [etransitivity; [by apply (TaskQueue.kept_move qs TASK_Q_SYNC_DIR_RSP TASK_Q_HOME t rest)|done]|].
    split; [transitivity h1; [done|]; transitivity h2; [by apply steady_user|]; by transitivity h3|]. split; [done|].
    by rewrite G4, !fn_lookup_insert_ne by done.
Qed.

Lemma turns_bound qs h s s' :
  ready off qs h -> TaskQueue.in_range s = true -> TaskQueue.in_range s' = true -> s <> s' ->
  (length (qs s) + length (qs s') < turns h)%nat.
Proof.
  intros [Q _] Hs Hs' Hne. pose proof (TaskQueue.queues_bound off _ qs s s' Q Hs Hs' Hne). unfold turns. lia.
Qed.

Lemma check_task_runs qs h :
  ready off qs h ->
  exists h' qs', check_task h = Some h' /\ ready off qs' h' /\ TaskQueue.kept qs qs' /\
    qs' TASK_Q_FIN = [] /\ qs' TASK_Q_SYNC_DIR_RSP = [] /\ steady h h'.
Proof.
  intros R. unfold check_task.
  pose proof (turns_bound qs h TASK_Q_WAIT_SYNC_IP TASK_Q_HOME R eq_refl eq_refl ltac:(done)).
  destruct (move_some_kept TASK_Q_WAIT_SYNC_IP TASK_Q_WAIT_SYNC (turns h) 0 qs h) as (h1 & q1 & -> & R1 & K1 & S1);
    [done..|lia|]. cbn [mbind option_bind].
  pose proof (turns_bound q1 h1 TASK_Q_WAIT_SYNC_DIR_TMP TASK_Q_HOME R1 eq_refl eq_refl ltac:(done)).
  destruct (move_some_kept TASK_Q_WAIT_SYNC_DIR_TMP TASK_Q_WAIT_SYNC_DIR (turns h1) 0 q1 h1)
    as (h2 & q2 & -> & R2 & K2 & S2); [done..|lia|]. cbn [mbind option_bind].
  pose proof (turns_bound q2 h2 TASK_Q_WAIT_SYNC TASK_Q_WAIT_SYNC_DIR R2 eq_refl eq_refl ltac:(done)).
  destruct (dispatch_loop_kept (turns h2) 0 q2 h2 R2) as (h3 & q3 & -> & R3 & K3 & S3); [done|]. cbn [mbind option_bind].
  pose proof (turns_bound q3 h3 TASK_Q_FIN TASK_Q_HOME R3 eq_refl eq_refl ltac:(done)).
  destruct (do_fin_task_kept (turns h3) q3 h3 R3) as (h4 & q4 & -> & R4 & K4 & S4 & F4); [lia|]. cbn [mbind option_bind].
  pose proof (turns_bound q4 h4 TASK_Q_SYNC_DIR_RSP TASK_Q_HOME R4 eq_refl eq_refl ltac:(done)).
  destruct (do_check_sync_kept (turns h4) q4 h4 R4) as (h5 & q5 & -> & R5 & K5 & S5 & F5 & G5); [lia|].
  exists h5, q5. split; [done|]. split; [done|].
  split; [by transitivity q1; [|transitivity q2; [|transitivity q3; [|transitivity q4]]]|].
  split; [congruence|]. split; [done|].
  by transitivity h1; [|transitivity h2; [|transitivity h3; [|transitivity h4]]].
Qed.

(** ** Announcements *)

(** The message that announces a file to the rest of the domain. *)
Definition announcement (st : Z) (b : t_task_base) : SigStream.msg :=
  SigStream.mk_msg NEWTASK_REQ st (Wire.base_image b).

(** The servers of the domain an announcement is for, and those of them that
    are not connected. *)
Definition others (l : list Domain.slot) : list Domain.slot :=
  base.filter (fun s => Domain.s_ip s <> self_ip /\ Domain.s_offline s = 0) l.
Definition missing h (l : list Domain.slot) : list Domain.slot :=
  base.filter (fun s => find_ip_stat h (Domain.s_ip s) = None) (others l).

(** What the task [x] is about. *)
Definition job_of h (x : Z) : option (t_task_base * t_task_sub) := TaskQueue.job <$> TaskQueue.tasks (queue (user h)) !! x.

(** The task kept for a server that is not connected. *)
Definition delayed_job (b : t_task_base) (nw ip : Z) : t_task_base * t_task_sub :=
  (set_starttime nw b, mk_sub 0 0 0 0 0 (Ip.ip2str ip) OPER_SYNC_2_DOMAIN 0 0).

Lemma delay_spec qs h ip t b s t' rest :
  ready off qs h -> TaskQueue.detached (queue (user h)) qs t -> job_of h t = Some (b, s) ->
  qs TASK_Q_HOME = t' :: rest ->
  let qs' := <[TASK_Q_WAIT_SYNC := qs TASK_Q_WAIT_SYNC ++ [t']]> (<[TASK_Q_HOME := rest]> qs) in
  exists h', create_delay_task h ip t = Some h' /\ ready off qs' h' /\
    TaskQueue.detached (queue (user h')) qs' t /\
    job_of h' t' = Some (delayed_job b (now h) ip) /\ job_of h' t = Some (set_starttime (now h) b, s) /\
    (forall x, x <> t -> x <> t' -> job_of h' x = job_of h x) /\ steady h h' /\ acon h' = acon h.
Proof.
  intros R D Hr Hq qs'. assert (Hne : t <> t').
  { intros ->. apply (TaskQueue.d_free _ _ _ D TASK_Q_HOME eq_refl). rewrite Hq. constructor. }
  unfold create_delay_task.
  destruct (take_task qs h TASK_Q_HOME t' rest R eq_refl Hq) as (h1 & -> & R1 & D1 & D1' & S1 & A1 & F1 & J1).
  cbn [mbind option_bind]. simpl (negb _). cbv iota. cbn [mbind option_bind]. destruct R1 as [Q1 [U1 U2]].
  destruct (LinkedList.closed_del_init _ t' U1 (U2 t' (TaskQueue.d_task _ _ _ D1))) as (u & -> & C1 & V1).
  cbn [mbind option_bind]. set (h2 := with_queue h1 _). set (q1 := <[TASK_Q_HOME := rest]> qs) in *.
  assert (R2 : ready off q1 h2).
  { split; [by destruct Q1; split|]. split; [done|]. intros x Hx. by apply V1, U2. }
  assert (D2 : forall x, TaskQueue.detached (queue (user h1)) q1 x -> TaskQueue.detached (queue (user h2)) q1 x)
    by (by intros x []; split).
  pose proof (D2 t (D1' t D)) as Dt. pose proof (D2 t' D1) as Dt'.
  destruct (change_task q1 h2 t (fun r => set_base r (set_starttime (now h2) (base r))) R2 Dt)
    as (r & h3 & Hr2 & -> & R3 & D3 & T3 & S3 & A3 & _). cbn [mbind option_bind].
  rewrite T3, lookup_insert_eq. cbn [mbind option_bind].
  destruct (change_task q1 h3 t' (fun r' => set_sub (set_base r' (base (set_base r (set_starttime (now h2) (base r)))))
      (mk_sub 0 0 0 0 0 (Ip.ip2str ip) OPER_SYNC_2_DOMAIN 0 0)) R3 (D3 t' Dt')) as (r' & h4 & _ & -> & R4 & D4 & T4 & S4 & A4 & _).
  cbn [mbind option_bind].
  destruct (put_task q1 h4 t' TASK_Q_WAIT_SYNC R4 eq_refl (D4 t' (D3 t' Dt'))) as (h5 & -> & R5 & D5 & S5 & A5 & J5 & _).
  assert (Hb : TaskQueue.job r = (b, s)).
  { specialize (J1 t). unfold job_of in Hr. rewrite Hr in J1. change (queue (user h2)) with
      (TaskQueue.with_umem (queue (user h1)) u) in Hr2. simpl in Hr2. rewrite Hr2 in J1. simpl in J1. congruence. }
  unfold TaskQueue.job in Hb. injection Hb as Hb1 Hb2.
  assert (Hj : forall x, job_of h5 x = TaskQueue.job <$> TaskQueue.tasks (queue (user h4)) !! x) by (intros x; apply J5).
  pose proof (sd_now _ _ S1) as N1. change (now h2) with (now h1) in *. rewrite N1 in *.
  exists h5. split; [done|]. split; [exact R5|]. split; [by apply D5; [|apply D4, D3]|]. rewrite !Hj, T4, T3.
  split; [by rewrite lookup_insert_eq; simpl; unfold TaskQueue.job; simpl; subst|].
  split; [by rewrite lookup_insert_ne, lookup_insert_eq by done; simpl; unfold TaskQueue.job; simpl; subst|].
  split; [|split; [transitivity h1; [done|]; transitivity h2; [by split|]; transitivity h3; [done|]; by transitivity h4
                  |rewrite A5, A4, A3; exact A1]].
  intros x X1 X2. rewrite Hj, T4, T3, !lookup_insert_ne by done. apply J1.
Qed.

Lemma set_starttime_id b : set_starttime (b_starttime b) b = b.
Proof. by destruct b. Qed.

Lemma find_fd_inj h ip ip' fd : find_ip_stat h ip = Some fd -> find_ip_stat h ip' = Some fd -> ip = ip'.
Proof.
  intros H1 H2. destruct (find_ip_conn _ _ _ H1) as (p & P1 & <-). destruct (find_ip_conn _ _ _ H2) as (p' & P2 & <-).
  congruence.
Qed.

(** What [tell_domain] leaves, for the slots [l]. *)
Record told h h' (t : Z) (b : t_task_base) (s : t_task_sub) (new : list Z) (l : list Domain.slot) : Prop := mk_told {
  td_steady : steady h h';
  td_sent : forall x fd, x ∈ others l -> find_ip_stat h (Domain.s_ip x) = Some fd ->
    exists st, outq h' fd = outq h fd ++ SigStream.encode (announcement TASK_SYNC (set_starttime st b));
  td_rest : forall fd, (forall x, x ∈ others l -> find_ip_stat h (Domain.s_ip x) <> Some fd) -> conn_of h' fd = conn_of h fd;
  td_delayed : Forall2 (fun t' x => job_of h' t' = Some (delayed_job b (now h) (Domain.s_ip x))) new (missing h l);
  td_task : exists st, job_of h' t = Some (set_starttime st b, s);
  td_jobs : forall x, x <> t -> x ∉ new -> job_of h' x = job_of h x
}.

Lemma others_cons x l :
  others (x :: l) = (if (Domain.s_ip x =? self_ip) || negb (Domain.s_offline x =? 0) then [] else [x]) ++ others l.
Proof.
  unfold others. rewrite filter_cons. destruct (_ =? self_ip) eqn:E1; b2p.
  { by rewrite decide_False by naive_solver. }
  destruct (Domain.s_offline x =? 0) eqn:E2; b2p; [by rewrite decide_True|by rewrite decide_False by naive_solver].
Qed.

Lemma missing_cons h x l :
  missing h (x :: l) = (if (Domain.s_ip x =? self_ip) || negb (Domain.s_offline x =? 0) then []
                        else match find_ip_stat h (Domain.s_ip x) with Some _ => [] | None => [x] end) ++ missing h l.
Proof.
  unfold missing. rewrite others_cons. destruct (_ || _); [done|]. cbn [app]. rewrite filter_cons.
  destruct (find_ip_stat h _); [by rewrite decide_False|by rewrite decide_True].
Qed.

Lemma missing_steady h h' l : steady h h' -> missing h' l = missing h l.
Proof. intros S. unfold missing. apply filter_ext_in. intros x _. by rewrite (steady_find h h'). Qed.

(** One slot more in front. *)
Lemma told_step h h1 h2 t b b1 s new new2 x l :
  told h h1 t b s new [x] -> told h1 h2 t b1 s new2 l -> b1 = set_starttime (b_starttime b1) b ->
  Domain.s_ip x ∉ Domain.s_ip <$> l -> (forall y, y ∈ new -> y <> t /\ y ∉ new2) ->
  told h h2 t b s (new ++ new2) (x :: l).
Proof.
  intros [S1 A1 C1 F1 T1 J1] [S2 A2 C2 F2 T2 J2] Hb Hx Hd.
  assert (Hst : forall st, set_starttime st b1 = set_starttime st b) by (intros; by rewrite Hb).
  assert (Ho : others (x :: l) = others [x] ++ others l) by (rewrite !others_cons; simpl; by rewrite app_nil_r).
  assert (Hm : missing h (x :: l) = missing h [x] ++ missing h l) by (rewrite !missing_cons; simpl; by rewrite app_nil_r).
  assert (Hdis : forall y z fd, y ∈ others [x] -> z ∈ others l -> find_ip_stat h (Domain.s_ip y) = Some fd ->
    find_ip_stat h (Domain.s_ip z) <> Some fd).
  { intros y z fd Hy Hz E1 E2. apply Hx. apply list_elem_of_fmap. exists z.
    unfold others in Hy, Hz. apply list_elem_of_filter in Hy as [_ Hy], Hz as [_ Hz].
    apply list_elem_of_singleton in Hy as ->. split; [|done]. by apply (find_fd_inj h _ _ fd). }
  split.
  - by transitivity h1.
  - intros y fd Hy Ef. rewrite Ho in Hy. apply elem_of_app in Hy as [Hy|Hy].
    + destruct (A1 y fd Hy Ef) as [st E1]. exists st. unfold outq in *. rewrite C2; [done|].
      intros z Hz. rewrite (steady_find h h1) by done. by apply (Hdis y z fd).
    + destruct (A2 y fd Hy) as [st E2]; [by rewrite (steady_find h h1)|]. exists st. rewrite E2, Hst. f_equal.
      unfold outq. rewrite C1; [done|]. intros z Hz E1. by apply (Hdis z y fd Hz Hy E1).
  - intros fd Hfd. rewrite C2, C1; [done| |].
    + intros z Hz. apply Hfd. rewrite Ho. set_solver.
    + intros z Hz. rewrite (steady_find h h1) by done. apply Hfd. rewrite Ho. set_solver.
  - rewrite Hm. apply Forall2_app.
    + clear F2. revert F1. generalize (missing h [x]).
      intros m F1. apply Forall2_same_length_lookup. apply Forall2_same_length_lookup in F1 as [L F1]. split; [done|].
      intros i y z Hy Hz. rewrite J2; [by apply (F1 i)|..]; apply Hd; by apply list_elem_of_lookup_2 in Hy.
    + rewrite (missing_steady h h1) in F2 by done. eapply Forall2_impl; [exact F2|]. intros y z ->.
      unfold delayed_job. by rewrite Hst, (sd_now _ _ S1).
  - destruct T2 as [st ->]. exists st. by rewrite Hst.
  - intros y Y1 Y2. rewrite J2, J1; try done; set_solver.
Qed.

Lemma ready_ext qs qs' h : (forall s, qs s = qs' s) -> ready off qs h -> ready off qs' h.
Proof. intros Hq [Q U]. split; [by eapply TaskQueue.queues_ext|done]. Qed.

Lemma detached_ext qs qs' q t : (forall s, qs s = qs' s) -> TaskQueue.detached q qs t -> TaskQueue.detached q qs' t.
Proof. intros Hq [A B1 B2 B3]. split; [done| |done|done]. intros s Hs. rewrite <- Hq. by apply B1. Qed.

Lemma told_one qs h t b s x :
  ready off qs h -> TaskQueue.detached (queue (user h)) qs t -> job_of h t = Some (b, s) ->
  (forall fd p, peers (user h) !! fd = Some p -> p_fd p = fd) -> length (filemd5 b) = 17%nat ->
  (forall fd, find_ip_stat h (Domain.s_ip x) = Some fd -> wf_conn h fd) ->
  (length (missing h [x]) <= length (qs TASK_Q_HOME))%nat ->
  let k := length (missing h [x]) in
  let qs' := TaskQueue.drawn TASK_Q_WAIT_SYNC k qs in
  exists h' b1, tell_domain h t [x] = Some h' /\ ready off qs' h' /\ TaskQueue.detached (queue (user h')) qs' t /\
    job_of h' t = Some (b1, s) /\ b1 = set_starttime (b_starttime b1) b /\
    told h h' t b s (take k (qs TASK_Q_HOME)) [x].
Proof.
  intros R D J Hfd Hfit Hw. rewrite missing_cons. change (missing h []) with (@nil Domain.slot). rewrite app_nil_r.
  cbn [tell_domain].
  assert (Hr0 : forall h', ready off qs h' -> ready off (TaskQueue.drawn TASK_Q_WAIT_SYNC 0 qs) h')
    by (intros h'; apply ready_ext; intros; by rewrite TaskQueue.drawn_0).
  assert (Hd0 : forall h', TaskQueue.detached (queue (user h')) qs t ->
    TaskQueue.detached (queue (user h')) (TaskQueue.drawn TASK_Q_WAIT_SYNC 0 qs) t)
    by (intros h'; apply detached_ext; intros; by rewrite TaskQueue.drawn_0).
  destruct (_ || _) eqn:Eo.
  { intros Hl. exists h, b. cbn [mbind option_bind length] in *. split; [done|]. split; [by apply (Hr0 h)|].
    split; [by apply (Hd0 h)|]. split; [done|]. split; [by destruct b|].
    assert (Hx : others [x] = []) by (by rewrite others_cons, Eo).
    split; try done.
    - rewrite Hx. intros y fd Hy. by apply not_elem_of_nil in Hy.
    - unfold missing. rewrite Hx. by constructor.
    - exists (b_starttime b). by rewrite set_starttime_id. }
  assert (Hx : others [x] = [x]) by (by rewrite others_cons, Eo).
  destruct (find_ip_stat h (Domain.s_ip x)) as [fd|] eqn:Ef.
  - intros Hl. destruct (find_ip_conn _ _ _ Ef) as (p & Hp & _).
    destruct (TaskQueue.d_task _ _ _ D) as [r Hr]. unfold job_of in J. rewrite Hr in J. simpl in J. injection J as J1 J2.
    destruct (dispatch_spec h t fd TASK_SYNC p r Hp Hr) as (h1 & -> & U1 & N1 & C1 & O1).
    rewrite (Hfd fd p Hp) in *. cbn [mbind option_bind length] in *. exists h1, b.
    split; [done|]. split; [apply (Hr0 h1); by apply (ready_user _ h); [rewrite U1|]|].
    split; [apply (Hd0 h1); by rewrite U1|]. unfold job_of. rewrite U1, Hr. simpl. unfold TaskQueue.job. rewrite J1, J2.
    split; [done|]. split; [by destruct b|]. split.
    + by apply steady_user.
    + intros y fd' Hy Ey. rewrite Hx in Hy. apply list_elem_of_singleton in Hy as ->. rewrite Ef in Ey. injection Ey as <-.
      exists (b_starttime b). rewrite set_starttime_id, O1, J1 by (by apply Hw). unfold SigStream.encode, announcement. simpl.
      by rewrite (Wire.length_base_image b) by done.
    + intros fd' Hne. apply C1. intros ->. by apply (Hne x); [rewrite Hx; constructor|].
    + unfold missing. rewrite Hx, filter_cons, decide_False by (by rewrite Ef). constructor.
    + exists (b_starttime b). unfold job_of. rewrite U1, Hr. simpl. unfold TaskQueue.job. by rewrite J1, J2, set_starttime_id.
    + intros y _ _. unfold job_of. by rewrite U1.
  - cbn [length]. unfold TaskQueue.drawn. intros Hl. destruct (qs TASK_Q_HOME) as [|t' rest] eqn:Eq; [simpl in Hl; lia|].
    destruct (delay_spec qs h (Domain.s_ip x) t b s t' rest R D J Eq) as (h1 & -> & R1 & D1 & J1 & J2 & J3 & S1 & A1).
    cbn [mbind option_bind]. exists h1, (set_starttime (now h) b). split; [done|]. split; [exact R1|].
    split; [exact D1|]. split; [done|]. split; [by destruct b|]. split.
    + done.
    + intros y fd' Hy Ey. rewrite Hx in Hy. apply list_elem_of_singleton in Hy as ->. congruence.
    + intros fd' _. unfold conn_of. by rewrite A1.
    + unfold missing. rewrite Hx, filter_cons, decide_True by done. simpl. rewrite take_0. by repeat constructor.
    + by exists (now h).
    + intros y Y1 Y2. simpl in Y2. apply J3; [done|]. set_solver.
Qed.

Lemma tell_domain_cons h t x l : tell_domain h t (x :: l) = (h1 ← tell_domain h t [x]; tell_domain h1 t l).
Proof. cbn [tell_domain]. unfold mbind, option_bind. by repeat case_match. Qed.

Lemma tell_spec l : forall qs h t b s,
  ready off qs h -> TaskQueue.detached (queue (user h)) qs t -> job_of h t = Some (b, s) ->
  (forall fd p, peers (user h) !! fd = Some p -> p_fd p = fd) -> length (filemd5 b) = 17%nat ->
  (forall x fd, x ∈ l -> find_ip_stat h (Domain.s_ip x) = Some fd -> wf_conn h fd) ->
  NoDup (Domain.s_ip <$> l) -> (length (missing h l) <= length (qs TASK_Q_HOME))%nat ->
  exists h', tell_domain h t l = Some h' /\ ready off (TaskQueue.drawn TASK_Q_WAIT_SYNC (length (missing h l)) qs) h' /\
    told h h' t b s (take (length (missing h l)) (qs TASK_Q_HOME)) l.
Proof.
  induction l as [|x l IH]; intros qs h t b s R D J Hfd Hfit Hw Hnd Hl.
  { exists h. split; [done|]. change (length (missing h [])) with 0%nat. split.
    - apply (ready_ext qs); [intros; by rewrite TaskQueue.drawn_0|done].
    - rewrite take_0. split; [done| |done|by constructor| |done].
      + intros y fd Hy. by apply not_elem_of_nil in Hy.
      + exists (b_starttime b). by rewrite set_starttime_id. }
  apply NoDup_cons in Hnd as [Hx Hnd].
  assert (Hm : length (missing h (x :: l)) = (length (missing h [x]) + length (missing h l))%nat)
    by (rewrite <- length_app, !missing_cons; simpl; by rewrite app_nil_r).
  set (k1 := length (missing h [x])) in *. set (k2 := length (missing h l)) in *.
  destruct (told_one qs h t b s x R D J Hfd Hfit) as (h1 & b1 & E1 & R1 & D1 & J1 & B1 & T1);
    [intros fd; apply Hw; constructor|fold k1; lia|]. fold k1 in R1, D1, T1.
  pose proof (td_steady _ _ _ _ _ _ _ T1) as S1.
  assert (Et : tell_domain h t (x :: l) = tell_domain h1 t l) by (rewrite tell_domain_cons, E1; done).
  assert (Hne : forall y, y ∈ others [x] -> y = x).
  { intros y Hy. unfold others in Hy. apply list_elem_of_filter in Hy as [_ Hy]. by apply list_elem_of_singleton in Hy. }
  destruct (IH (TaskQueue.drawn TASK_Q_WAIT_SYNC k1 qs) h1 t b1 s R1 D1 J1) as (h2 & E2 & R2 & T2); rewrite ?(missing_steady h h1), ?(sd_now _ _ S1) by done.
  { by rewrite (sd_peers _ _ S1). }
  { by rewrite B1. }
  { intros y fd Hy Ef. rewrite (steady_find h h1) in Ef by done. unfold wf_conn.
    rewrite (td_rest _ _ _ _ _ _ _ T1); [by apply (Hw y fd); [constructor|]|].
    intros z Hz Ez. apply Hne in Hz as ->. apply Hx, list_elem_of_fmap. exists y. split; [|done].
    by apply (find_fd_inj h _ _ fd). }
  { done. }
  { fold k2. rewrite TaskQueue.drawn_home, length_drop by done. lia. }
  rewrite (missing_steady h h1) in R2, T2 by done. fold k2 in R2, T2.
  exists h2. rewrite Et, Hm. split; [done|]. split.
  { apply (ready_ext _ _ _ (fun s' => eq_sym (TaskQueue.drawn_add TASK_Q_WAIT_SYNC k1 k2 qs s' ltac:(done)))). exact R2. }
  rewrite TaskQueue.drawn_home in T2 by done.
  rewrite <- take_take_drop. apply (told_step h h1 h2 t b b1 s); try done.
  destruct (TaskQueue.q_ring _ _ _ (rd_queues _ _ _ R) TASK_Q_HOME eq_refl) as [_ Hnd0].
  apply NoDup_cons in Hnd0 as [_ Hnd0]. rewrite <- (take_drop k1 (qs TASK_Q_HOME)) in Hnd0.
  apply NoDup_app in Hnd0 as (_ & Hdis & _). intros y Hy. split.
  - intros ->. apply (TaskQueue.d_free _ _ _ D TASK_Q_HOME eq_refl).
    apply elem_of_take in Hy as (i & Hi & _). by apply list_elem_of_lookup_2 in Hi.
  - intros Hy2. apply (Hdis y Hy). apply elem_of_take in Hy2 as (i & Hi & _). by apply list_elem_of_lookup_2 in Hi.
Qed.

(** The task as the server that is told of it keeps it. *)
Definition accepted (b : t_task_base) (nw : Z) : t_task_base :=
  mk_base (filename b) (tmpfile b) (retfile b) (filemd5 b) self_ip nw (mtime b) (fsize b)
          (TaskData.type b) (retry b) (overstatus b).

Lemma memcpy_at (x d y src : bytes) n :
  length x = n -> length d = length src -> memcpy (x ++ d ++ y) n src = x ++ src ++ y.
Proof.
  intros <- Hd. unfold memcpy. rewrite take_app_length, drop_app_ge by lia.
  rewrite drop_app_ge by lia. replace (_ - _ - _)%nat with 0%nat by lia. done.
Qed.

Lemma stamp_image junk b nw :
  length (filemd5 b) = 17%nat ->
  stamp_msg (memcpy junk 0 (Wire.base_image b)) nw self_ip = memcpy junk 0 (Wire.base_image (accepted b nw)).
Proof.
  intros Hm. unfold stamp_msg, Wire.base_image, accepted. cbn [filename tmpfile retfile filemd5 dstip b_starttime mtime fsize
    TaskData.type retry overstatus]. unfold memcpy at 3 4. rewrite !take_0, !app_nil_l.
  set (x := DelFile.field 256 (filename b) ++ DelFile.field 256 (tmpfile b) ++ DelFile.field 256 (retfile b)
    ++ take 17 (filemd5 b ++ replicate 17 0) ++ replicate 3 0).
  assert (Hx : length x = 788%nat).
  { unfold x. rewrite !length_app, !DelFile.length_field, length_take, length_app, Hm. done. }
  set (z := le_split 8 (mtime b) ++ _).
  assert (Hz : forall ip t, DelFile.field 256 (filename b) ++ DelFile.field 256 (tmpfile b) ++ DelFile.field 256 (retfile b)
    ++ take 17 (filemd5 b ++ replicate 17 0) ++ replicate 3 0 ++ le_split 4 ip ++ le_split 8 t ++ z
    = x ++ le_split 4 ip ++ le_split 8 t ++ z) by (intros; unfold x; by rewrite <- !app_assoc).
  rewrite !Hz. rewrite !length_app, !length_le_split, <- !app_assoc.
  set (y := drop _ junk). rewrite memcpy_at by done.
  rewrite (app_assoc x (le_split 4 self_ip)), memcpy_at by (rewrite ?length_app, ?length_le_split, ?Hx; done).
  by rewrite <- app_assoc.
Qed.

(** An announcement makes a task that waits for the data service. *)
Lemma newtask_queues qs h fd p b t rest :
  ready off qs h -> qs TASK_Q_HOME = t :: rest -> peers (user h) !! fd = Some p -> self_stat (user h) <> OFF_LINE ->
  TaskData.type b <> TASK_DELFILE -> length (filemd5 b) = 17%nat ->
  Wire.base_of_image (memcpy zero_body 0 (Wire.base_image (accepted b (now h)))) = accepted b (now h) ->
  (exists rc b1 f1, check_localfile_md5 before_msg (sys (files (user h))) (accepted b (now h)) VIDEOFILE = Some (rc, b1, f1) /\
     rc <> LOCALFILE_OK) ->
  exists st b' h', do_newtask h fd (mk_head Wire.sizeof_base NEWTASK_REQ TASK_SYNC) (memcpy zero_body 0 (Wire.base_image b))
      = Some (0, st, b', h') /\
    ready off (<[TASK_Q_WAIT := qs TASK_Q_WAIT ++ [t]]> (<[TASK_Q_HOME := rest]> qs)) h' /\
    job_of h' t = Some (set_overstatus (accepted b (now h)) OVER_UNKNOWN,
      mk_sub (fsize b) 0 (now h) (now h) 0 (Ip.ip2str (p_ip p)) OPER_GET_REQ TASK_DST 0) /\
    steady h h' /\ acon h' = acon h.
Proof.
  intros R Hq Hp Hs Ht Hm Hb (rc & b1 & f1 & Hc & Hrc). unfold do_newtask. apply Z.eqb_neq in Hs, Ht, Hrc. rewrite Hs.
  rewrite stamp_image, Hb, Hp by done. cbn [mbind option_bind].
  destruct (take_task qs h TASK_Q_HOME t rest R eq_refl Hq) as (h1 & -> & R1 & D1 & _ & S1 & A1 & F1 & J1).
  cbn [mbind option_bind]. simpl (negb _). cbv iota. cbn [mbind option_bind]. rewrite (sd_now _ _ S1).
  destruct (change_task _ h1 t (fun r => set_sub (set_base r (accepted b (now h)))
    (mk_sub (fsize (accepted b (now h))) 0 (now h) (now h) 0 (Ip.ip2str (p_ip p)) OPER_GET_REQ TASK_DST 0)) R1 D1)
    as (r1 & h2 & _ & -> & R2 & D2 & T2 & S2 & A2 & F2). cbn [mbind option_bind].
  change (TaskData.type (accepted b (now h))) with (TaskData.type b). rewrite Ht, F2, F1, Hc. cbn [mbind option_bind]. rewrite Hrc.
  set (h3 := with_files h2 _).
  destruct (change_task (<[TASK_Q_HOME := rest]> qs) h3 t (set_over OVER_UNKNOWN)) as (r2 & h4 & Hr2 & -> & R4 & D4 & T4 & S4 & A4 & _);
    [by destruct R2; split|by apply D2|]. cbn [mbind option_bind]. simpl (negb _). cbv iota.
  destruct (put_task _ h4 t TASK_Q_WAIT R4 eq_refl) as (h5 & -> & R5 & _ & S5 & A5 & J5 & _); [by apply D4, D2|].
  cbn [mbind option_bind]. eexists _, _, h5. split; [done|]. split; [exact R5|]. split.
  { unfold job_of. rewrite (J5 t), T4, lookup_insert_eq. simpl. f_equal.
    change (queue (user h3)) with (queue (user h2)) in Hr2. rewrite T2, lookup_insert_eq in Hr2. injection Hr2 as <-. done. }
  split; [|by rewrite A5, A4; change (acon h3) with (acon h2); rewrite A2, A1].
  transitivity h1; [done|]. transitivity h2; [done|]. transitivity h3; [by split|]. by transitivity h4.
Qed.

(** A single message on an idle connection; [h0] is [h] with the message in
    the buffer and the peer's time and place brought up to date. *)
Lemma recv_one h fd p m :
  peers (user h) !! fd = Some p -> wf_conn h fd -> inq h fd = [] -> SigStream.msg_ok m ->
  exists h0, refresh (arrive h fd (SigStream.encode m)) fd = Some h0 /\
    peers (user h0) !! fd = Some (set_hbtime p (u32 (now h))) /\ queue (user h0) = queue (user h) /\
    files (user h0) = files (user h) /\ self_stat (user h0) = self_stat (user h) /\ now h0 = now h /\
    forall ret h1, do_req h0 fd (SigStream.head_of m) (memcpy zero_body 0 (SigStream.m_body m)) = Some (ret, h1) ->
    ret <> -1 -> ret <> RECV_CLOSE -> acon h1 = acon h0 ->
    svc_recv (arrive h fd (SigStream.encode m)) fd
    = Some (Z.lor RECV_ADD_EPOLLIN ret, consume_client_data h1 fd (zlen (SigStream.m_body m) + SIG_HEADSIZE)).
Proof.
  intros Hp W I Hm. set (e := SigStream.encode m). destruct (arrive_spec h fd e W) as (W1 & I1 & _).
  unfold svc_recv, refresh. change (peers (user (arrive h fd e))) with (peers (user h)). rewrite Hp. cbn [mbind option_bind].
  set (h0 := with_conns _ _ _ _). assert (A0 : acon h0 = acon (arrive h fd e)) by done.
  exists h0. split; [done|]. split; [apply lookup_insert_eq|]. do 4 (split; [done|]). intros ret h1 Hd R1 R2 A1.
  assert (W0 : wf_conn h0 fd) by (unfold wf_conn, conn_of in *; by rewrite A0).
  assert (I0 : inq h0 fd = e) by (unfold inq, conn_of in *; rewrite A0, I1, I; done).
  rewrite I0. pose proof (SigStream.length_message m Hm) as Hl. fold e in Hl. rewrite Hl.
  cbn [SigStream.or_loop Nat.add].
  rewrite (SigStream.check_part_message zero_body do_req h0 fd m []) by (done || by rewrite app_nil_r).
  rewrite Hd. cbn [mbind option_bind]. apply Z.eqb_neq in R1, R2. rewrite R1, R2.
  set (h2 := consume_client_data h1 fd _).
  assert (W1' : wf_conn h1 fd) by (unfold wf_conn, conn_of in *; by rewrite A1).
  assert (I1' : inq h1 fd = e) by (unfold inq, conn_of in *; by rewrite A1).
  destruct (SigStream.consume_spec fd h1 (zlen (SigStream.m_body m) + SIG_HEADSIZE) W1') as [W2 I2];
    [unfold SIG_HEADSIZE; lia|].
  assert (Hw : SigStream.check_part zero_body do_req h2 fd = Some (-1, h2)).
  { unfold SigStream.check_part. rewrite SigStream.get_client_data_spec by done. unfold h2. rewrite I2, I1'.
    rewrite drop_ge by (rewrite Hl; unfold SIG_HEADSIZE; lia). done. }
  by rewrite Hw.
Qed.

Lemma announcement_ok st b :
  is_byte st -> length (filemd5 b) = 17%nat -> SigStream.msg_ok (announcement st b).
Proof.
  intros Hs Hm. pose proof (Wire.length_base_image b Hm) as Hl. unfold Wire.sizeof_base in Hl.
  split; [done|]. split; [done|]. simpl. lia.
Qed.

Lemma accepted_fits b nw : Wire.fits b -> 0 <= self_ip < 2 ^ 32 -> - 2 ^ 63 <= nw < 2 ^ 63 -> Wire.fits (accepted b nw).
Proof. intros [F1 F2 F3 F4 F5] Hi Hn. apply Forall_cons in F4 as [_ F4]. split; try done. by constructor. Qed.

(** ** Properties *)

(** C14: a task that is finished here is announced to every other server of the
    domain that is not marked offline.  The servers that are connected get one
    message with the task on their connection, and no other connection is
    touched; for each that is not, in their order, a task of the home queue
    becomes a waiting announcement with its address.  No other task changes. *)
Theorem announcement_reaches_domain qs h t b s :
  let l := Domain.slots (self_domain (user h)) in
  ready off qs h -> TaskQueue.detached (queue (user h)) qs t -> job_of h t = Some (b, s) ->
  (forall fd p, peers (user h) !! fd = Some p -> p_fd p = fd) -> length (filemd5 b) = 17%nat ->
  (forall x fd, x ∈ l -> find_ip_stat h (Domain.s_ip x) = Some fd -> wf_conn h fd) ->
  NoDup (Domain.s_ip <$> l) -> (length (missing h l) <= length (qs TASK_Q_HOME))%nat ->
  exists h', sync_task_2_domain h t = Some (0, h') /\ ready off (TaskQueue.drawn TASK_Q_WAIT_SYNC (length (missing h l)) qs) h' /\
    told h h' t b s (take (length (missing h l)) (qs TASK_Q_HOME)) l.
Proof.
  intros l R D J Hfd Hm Hw Hnd Hl. destruct (tell_spec l qs h t b s R D J Hfd Hm Hw Hnd Hl) as (h' & E1 & R1 & T1).
  exists h'. unfold sync_task_2_domain. fold l. by rewrite E1.
Qed.

(** C15: an announcement that arrives at a server whose file is missing or
    different makes a task there: the first task of the home queue goes to the
    end of the queue the data service takes from, with the announced file, the
    address of the announcing server to fetch it from, and this server as the
    destination.  Nothing is answered. *)
Theorem announced_file_queued qs h fd p b t rest :
  ready off qs h -> qs TASK_Q_HOME = t :: rest -> peers (user h) !! fd = Some p ->
  self_stat (user h) <> OFF_LINE -> wf_conn h fd -> inq h fd = [] ->
  Wire.fits b -> 0 <= self_ip < 2 ^ 32 -> - 2 ^ 63 <= now h < 2 ^ 63 -> TaskData.type b <> TASK_DELFILE ->
  (exists rc b1 f1, check_localfile_md5 before_msg (sys (files (user h))) (accepted b (now h)) VIDEOFILE = Some (rc, b1, f1) /\
     rc <> LOCALFILE_OK) ->
  exists h', svc_recv (arrive h fd (SigStream.encode (announcement TASK_SYNC b))) fd = Some (RECV_ADD_EPOLLIN, h') /\
    TaskQueue.queues off (queue (user h')) (<[TASK_Q_WAIT := qs TASK_Q_WAIT ++ [t]]> (<[TASK_Q_HOME := rest]> qs)) /\
    job_of h' t = Some (set_overstatus (accepted b (now h)) OVER_UNKNOWN,
      mk_sub (fsize b) 0 (now h) (now h) 0 (Ip.ip2str (p_ip p)) OPER_GET_REQ TASK_DST 0) /\
    outq h' fd = outq h fd /\ inq h' fd = [].
Proof.
  intros R Hq Hp Hs W I Hf Hi Hn Ht Hc. pose proof (Wire.fit_md5 _ Hf) as Hm.
  pose proof (announcement_ok TASK_SYNC b ltac:(done) Hm) as Hok.
  destruct (recv_one h fd p _ Hp W I Hok) as (h0 & E0 & P0 & Q0 & F0 & S0 & N0 & Hgo).
  destruct (arrive_spec h fd (SigStream.encode (announcement TASK_SYNC b)) W) as (W1 & I1 & O1).
  destruct (newtask_queues qs (with_peer h0 fd (set_hbtime (set_hbtime p (u32 (now h))) (u32 (now h0)))) fd
    (set_hbtime (set_hbtime p (u32 (now h))) (u32 (now h0))) b t rest) as (st & b' & h1 & E1 & R1 & J1 & S1 & A1);
    try done.
  { destruct R as [Q U]. split; simpl; by rewrite Q0. }
  { apply lookup_insert_eq. }
  { simpl. by rewrite S0. }
  { simpl. rewrite N0. apply Wire.carried. by apply accepted_fits. }
  { simpl. by rewrite N0, F0. }
  simpl (now _) in *. rewrite N0 in *.
  assert (Hd : do_req h0 fd (SigStream.head_of (announcement TASK_SYNC b))
      (memcpy zero_body 0 (SigStream.m_body (announcement TASK_SYNC b))) = Some (RECV_ADD_EPOLLIN, h1)).
  { unfold do_req, SigStream.head_of. cbn [cmdid bodylen SigStream.m_cmd SigStream.m_status SigStream.m_body announcement].
    rewrite P0, (Wire.length_base_image b Hm), N0. cbn [mbind option_bind]. simpl (NEWTASK_REQ =? _).
    simpl (Wire.sizeof_base =? Wire.sizeof_base). simpl (negb _). cbv iota zeta. by rewrite E1. }
  assert (Ah : acon h0 = acon (arrive h fd (SigStream.encode (announcement TASK_SYNC b)))).
  { unfold refresh in E0. change (peers (user (arrive h fd (SigStream.encode (announcement TASK_SYNC b)))))
      with (peers (user h)) in E0. rewrite Hp in E0. cbn [mbind option_bind] in E0. by injection E0 as <-. }
  pose proof (Hgo RECV_ADD_EPOLLIN h1 Hd ltac:(done) ltac:(done) A1) as Hr.
  assert (W2 : wf_conn h1 fd) by (unfold wf_conn, conn_of in *; by rewrite A1; simpl; rewrite Ah).
  destruct (SigStream.consume_spec fd h1 (zlen (SigStream.m_body (announcement TASK_SYNC b)) + SIG_HEADSIZE) W2) as [W3 I3];
    [unfold SIG_HEADSIZE; lia|].
  eexists. split; [exact Hr|]. split; [apply R1|]. split; [exact J1|]. split.
  - unfold outq, consume_client_data. rewrite conn_set, decide_True by done. simpl. unfold outq, conn_of in *.
    rewrite A1. simpl. by rewrite Ah.
  - assert (Hin : inq h1 fd = SigStream.encode (announcement TASK_SYNC b)).
    { unfold inq, conn_of in *. rewrite A1. simpl. by rewrite Ah, I1, I. }
    rewrite I3, Hin. apply drop_ge. rewrite (SigStream.length_message _ Hok). unfold SIG_HEADSIZE. lia.
Qed.

(** C17: [check_task] always comes to an end, whatever the queues hold, and
    loses nothing: every task that was in a queue is in a queue afterwards, the
    finished tasks have all been filed, and every answer to a request for a
    directory has been dealt with. *)
Theorem signal_round_terminates qs h :
  ready off qs h ->
  exists h' qs', check_task h = Some h' /\ ready off qs' h' /\ TaskQueue.kept qs qs' /\
    qs' TASK_Q_FIN = [] /\ qs' TASK_Q_SYNC_DIR_RSP = [].
Proof. intros R. destruct (check_task_runs qs h R) as (h' & qs' & E1 & R1 & K1 & F1 & F2 & _). by exists h', qs'. Qed.

End Queues.

End Service.

(** ** A small server for the witnesses *)

Definition demo_settings : SigSettings :=
  mk_sig_settings 3 3 100 20 300 (str "00:00:00") (str "23:59:59") 86400 1 (Some (str "/data")) 16820416 []
    [0] 0 (fun _ => None) (Some 1) (fun _ => true) (fun _ => Some 7) (fun _ _ => None) (fun _ _ => None)
    (fun _ => 16777226) 0 0 (fun _ => str "20140101000000").

(** Two other servers in the domain: one is connected, one is not. *)
Definition demo_domain : Domain.t_pfs_domain :=
  Domain.mk_domain (str "img1")
    [Domain.mk_slot (str "192.168.0.1") 16820416 1 0 []; Domain.mk_slot (str "10.0.0.1") 16777226 0 0 [];
     Domain.mk_slot (str "10.0.0.2") 33554442 0 0 []] 0 0 0 0.

Definition demo_peer : peer := mk_peer 5 1388534400 16777226 CONNECTED 0 None.

Definition demo_host (st : Z) (q : TaskQueue.state) : host sg :=
  mk_host {[ 5 := mk_conn 5 0 [] mybuff_init mybuff_init ]} {[ 5 := EPOLLIN ]} [] 1388534400
    (mk_sg {[ 5 := demo_peer ]} [5] {[ 10 := [5] ]} (LinkedList.mk_heap {[ 0 := 0 ]} {[ 0 := 0 ]}) ∅
       (mk_para 0 0 0 0) st 1 demo_domain (demo_lf (demo_fs (str "/other") [])) q (mk_statics 0 0 0 0 0)).

Definition demo_file (m : bytes) : t_task_base :=
  mk_base (str "/1/2/a.jpg") [] [] m 0 0 1388534400 3 TASK_ADDFILE 0 OVER_OK.

(** The queues with the finished task 2832 taken. *)
Definition demo_taken (m : bytes) : TaskQueue.state :=
  match TaskQueue.pfs_get_task (TaskQueue.demo [944; 1888; 2832]) TASK_Q_HOME 0 0 None with
  | Some (_, _, q) => TaskQueue.with_task q 2832 (mk_task (demo_file m) zero_sub (-1) TASK_Q_UNKNOWN)
  | None => TaskQueue.demo []
  end.

Definition demo_qs : Z -> list Z := fun s => if s =? TASK_Q_HOME then [2832; 1888; 944] else [].

#[local] Existing Instances demo_env demo_kernel demo_site demo_settings.

Lemma demo_sig_ready st : ready (TaskQueue.bias 3) demo_qs (demo_host st (TaskQueue.demo [944; 1888; 2832])).
Proof.
  destruct (TaskQueue.demo_queues [944; 1888; 2832]) as [HQ [HC HV]];
    [by repeat constructor|by apply (bool_decide_unpack _)|].
  split; [exact HQ|]. split; [exact HC|]. intros t Ht. apply (HV TASK_Q_HOME); [done|].
  assert (Hd : forall x, TaskQueue.tasks (TaskQueue.demo [944; 1888; 2832]) !! x <> None ->
    x ∈ map fst (map_to_list (TaskQueue.tasks (TaskQueue.demo [944; 1888; 2832])))).
  { intros x Hx. destruct (_ !! x) as [r|] eqn:Ex; [|done]. apply list_elem_of_In, in_map_iff. exists (x, r).
    split; [done|]. apply list_elem_of_In. by apply elem_of_map_to_list. }
  assert (Hl : map fst (map_to_list (TaskQueue.tasks (TaskQueue.demo [944; 1888; 2832]))) ⊆ [2832; 1888; 944])
    by (apply (bool_decide_unpack _); vm_compute; exact I).
  apply Hl, Hd. destruct Ht as [r Hr]. change (queue (user _)) with (TaskQueue.demo [944; 1888; 2832]) in Hr.
  rewrite Hr. discriminate.
Qed.

Lemma demo_mem_sound q t junk : task_mem q = Some (t, junk) ->
  0 < t /\ t ∉ dom (LinkedList.nx (TaskQueue.mem q)) /\ t ∉ dom (LinkedList.pv (TaskQueue.mem q)).
Proof. done. Qed.

Lemma demo_detached m :
  ready (TaskQueue.bias 3) (<[TASK_Q_HOME := [1888; 944]]> demo_qs) (demo_host ON_LINE (demo_taken m)) /\
  TaskQueue.detached (demo_taken m) (<[TASK_Q_HOME := [1888; 944]]> demo_qs) 2832 /\
  job_of (demo_host ON_LINE (demo_taken m)) 2832 = Some (demo_file m, zero_sub).
Proof.
  destruct (demo_sig_ready ON_LINE) as [HQ HU]. change (queue (user _)) with (TaskQueue.demo [944; 1888; 2832]) in HQ, HU.
  destruct (TaskQueue.get_task_step HQ TASK_Q_HOME 2832 [1888; 944] 0 0 None) as (q & Eq & Q1 & D1 & _);
    [done|by left|done|].
  pose proof (users_get _ _ _ _ _ _ _ _ HU Eq) as U1.
  set (r := mk_task (demo_file m) zero_sub (-1) TASK_Q_UNKNOWN).
  assert (Ed : demo_taken m = TaskQueue.with_task q 2832 r) by (unfold demo_taken; by rewrite Eq).
  destruct (TaskQueue.with_task_detached (TaskQueue.bias 3) q _ 2832 r Q1 D1) as [Q2 D2].
  destruct (TaskQueue.d_task _ _ _ D1) as [r0 Hr0]. pose proof (users_with_task q 2832 r0 r U1 Hr0) as U2.
  rewrite Ed. clear Ed Eq HQ HU. split; [by split|]. split; [done|].
  unfold job_of. change (queue (user _)) with (TaskQueue.with_task q 2832 r). simpl (TaskQueue.tasks _).
  by rewrite lookup_insert_eq.
Qed.

Lemma demo_conn st q : wf_conn (demo_host st q) 5.
Proof. split; apply MyBuff.wf_init. Qed.

Lemma announcement_reaches_domain_witness :
  let h := demo_host ON_LINE (demo_taken (replicate 17 0)) in
  exists h', sync_task_2_domain h 2832 = Some (0, h') /\
    ready (TaskQueue.bias 3) (TaskQueue.drawn TASK_Q_WAIT_SYNC 1 (<[TASK_Q_HOME := [1888; 944]]> demo_qs)) h' /\
    told h h' 2832 (demo_file (replicate 17 0)) zero_sub [1888] (Domain.slots demo_domain).
Proof.
  intros h. destruct (demo_detached (replicate 17 0)) as (R & D & J).
  apply (announcement_reaches_domain (G := demo_settings) eq_refl demo_mem_sound (TaskQueue.bias 3)
    (<[TASK_Q_HOME := [1888; 944]]> demo_qs) h 2832 (demo_file (replicate 17 0)) zero_sub R D J).
  - intros fd p Hp. change (peers (user h)) with ({[5 := demo_peer]} : gmap Z peer) in Hp.
    apply lookup_singleton_Some in Hp as [<- <-]. reflexivity.
  - reflexivity.
  - intros x fd _ Hf. apply find_ip_conn in Hf as (p & Hp & _).
    change (peers (user h)) with ({[5 := demo_peer]} : gmap Z peer) in Hp. apply lookup_singleton_Some in Hp as [<- _].
    apply demo_conn.
  - apply (bool_decide_unpack _). vm_compute. exact I.
  - vm_compute. lia.
Defined.

Lemma announced_file_queued_witness :
  let h := demo_host ON_LINE (TaskQueue.demo [944; 1888; 2832]) in
  let b := demo_file (replicate 17 0) in
  exists h', svc_recv (arrive h 5 (SigStream.encode (announcement TASK_SYNC b))) 5 = Some (RECV_ADD_EPOLLIN, h') /\
    TaskQueue.queues (TaskQueue.bias 3) (queue (user h'))
      (<[TASK_Q_WAIT := demo_qs TASK_Q_WAIT ++ [2832]]> (<[TASK_Q_HOME := [1888; 944]]> demo_qs)) /\
    job_of h' 2832 = Some (set_overstatus (accepted b (now h)) OVER_UNKNOWN,
      mk_sub (fsize b) 0 (now h) (now h) 0 (Ip.ip2str (p_ip demo_peer)) OPER_GET_REQ TASK_DST 0) /\
    outq h' 5 = outq h 5 /\ inq h' 5 = [].
Proof.
  intros h b. pose proof (demo_sig_ready ON_LINE) as R.
  apply (announced_file_queued (G := demo_settings) eq_refl (TaskQueue.bias 3) demo_qs h 5 demo_peer b 2832
    [1888; 944] R); try reflexivity; try discriminate.
  - apply demo_conn.
  - split; try reflexivity; repeat constructor; done.
  - done.
  - done.
  - eexists _, _, _. split; [vm_compute; reflexivity|discriminate].
Defined.

Lemma signal_round_terminates_witness :
  let h := demo_host ON_LINE (TaskQueue.demo [944; 1888; 2832]) in
  exists h' qs', check_task h = Some h' /\ ready (TaskQueue.bias 3) qs' h' /\ TaskQueue.kept demo_qs qs' /\
    qs' TASK_Q_FIN = [] /\ qs' TASK_Q_SYNC_DIR_RSP = [].
Proof.
  intros h. apply (signal_round_terminates (G := demo_settings) eq_refl demo_mem_sound (TaskQueue.bias 3) demo_qs h).
  apply demo_sig_ready.
Defined.

End StorageSig.
