(* ===== verification/SyncDir.v ===== *)
(** * Bringing directories level (network/S)

    A storage server that comes up asks the servers of its domain for their
    files, directory by directory.  [StorageSig] defines the service; this file
    shows what the synchronisation of directories does: what the list of
    directories holds, what a request makes the other side queue and answer,
    and where it goes wrong: the list of directories when two peers are lost,
    the daily quota, the heartbeats, the names of deleted files. *)

From stdpp Require Import functions.
From S2P Require Import Prelude.
From S2P Require Import CString.
From S2P Require Import Protocol.
From S2P Require Import MyBuff.
From S2P Require Import Codec.
From S2P Require Import LinkedList.
From S2P Require Import TaskData.
From S2P Require Import TaskQueue.
From S2P Require Import Domain.
From S2P Require Import Records.
From S2P Require Import LocalFile.
From S2P Require Import EventLoop.
From S2P Require Import SigStream.
From S2P Require Import Wire.
From S2P Require Import StorageSig.

Module SyncDir.
Import MyBuff Conn Loop Sig Fs LocalFile StorageSig.

(** ** The list of directories *)

(** [k] steps along the [next] pointers from [a]. *)
Fixpoint walk (r : LinkedList.heap) (a : Z) (k : nat) : option Z :=
  match k with
  | O => Some a
  | S k' => b ← LinkedList.load_next r a; walk r b k'
  end.

Lemma walk_fixed r n k : LinkedList.nx r !! n = Some n -> walk r n k = Some n.
Proof. intros Hn. induction k as [|k IH]; simpl; [done|]. unfold LinkedList.load_next. by rewrite Hn. Qed.

(** Walking along a list whose last node has been changed. *)
Lemma walk_past r r' l hd n : forall a k,
  LinkedList.dseg r a (l ++ [n]) hd -> a <> n -> n ∉ l ->
  (forall x, x <> n -> LinkedList.nx r' !! x = LinkedList.nx r !! x) -> (length l <= k)%nat ->
  walk r' a (S k) = walk r' n (k - length l).
Proof.
  induction l as [|x l IH]; intros a k Hd Ha Hl Ho Hk; destruct Hd as (H1 & _ & Hd).
  - cbn [walk length]. unfold LinkedList.load_next. rewrite Ho, H1 by done. cbn [mbind option_bind]. by rewrite Nat.sub_0_r.
  - destruct k as [|k]; [simpl in Hk; lia|].
    assert (Hs : walk r' a (S (S k)) = walk r' x (S k)).
    { cbn [walk]. unfold LinkedList.load_next. by rewrite (Ho a), H1. }
    rewrite Hs. change (length (x :: l)) with (S (length l)). rewrite Nat.sub_succ.
    apply IH; [done|set_solver|set_solver|done|simpl in Hk; lia].
Qed.

(** Appending the last node of a list once more cuts the list off behind it. *)
Lemma add_tail_twice r hd l n :
  LinkedList.is_list r hd (l ++ [n]) ->
  exists r', LinkedList.list_add_tail r n hd = Some r' /\ LinkedList.nx r' !! n = Some n /\
    LinkedList.is_list r' n [] /\ forall a, a <> n -> LinkedList.nx r' !! a = LinkedList.nx r !! a.
Proof.
  intros HL. pose proof HL as [HD HN]. unfold LinkedList.list_add_tail, LinkedList.load_prev.
  rewrite (LinkedList.dseg_prev _ _ _ _ HD). rewrite List.last_last. cbn [mbind option_bind].
  destruct (LinkedList.is_list_valid _ _ _ n HL ltac:(set_solver)) as [[v Hv] [w Hw]].
  destruct (LinkedList.is_list_valid _ _ _ hd HL ltac:(set_solver)) as [_ [x Hx]].
  assert (Hne : n <> hd) by (apply NoDup_cons in HN as [HN _]; set_solver).
  unfold LinkedList.list_add_between.
  rewrite (LinkedList.store_prev_eq r hd n x Hx). cbn [mbind option_bind].
  rewrite (LinkedList.store_next_eq _ n hd v) by done. cbn [mbind option_bind].
  rewrite (LinkedList.store_prev_eq _ n n w) by (simpl; by rewrite lookup_insert_ne). cbn [mbind option_bind].
  rewrite (LinkedList.store_next_eq _ n n hd) by (simpl; by rewrite lookup_insert_eq).
  eexists. split; [done|]. simpl. split; [by rewrite lookup_insert_eq|]. split.
  - split; [|apply NoDup_singleton]. simpl. by rewrite !lookup_insert_eq.
  - intros a Ha. by rewrite !lookup_insert_ne.
Qed.

Section Service.
Context {E : Env} {K : Kernel} {C : Site} {G : SigSettings}.
Implicit Types h : host sg.

Lemma finiconn_ring h fd p n :
  peers (user h) !! fd = Some p -> pfs_sync_list p = Some n ->
  svc_finiconn h fd =
    (r ← LinkedList.list_add_tail (ring (user h)) n sync_list;
     Some (set_flag (with_ring (with_conns h (delete fd (peers (user h)))
                      (base.filter (fun x => x <> fd) (active (user h)))
                      (<[Z.land (p_ip p) ALLMASK := base.filter (fun x => x <> fd) (bucket h (Z.land (p_ip p) ALLMASK))]>
                         (online (user h)))) r) 0)).
Proof. intros Hp Hn. unfold svc_finiconn. by rewrite Hp, Hn. Qed.

(** Two peers that were asked for the same directory point to the same
    node.  When both are lost, the node is appended to the list twice, and the
    second time closes it on itself: from the head one comes to the node and
    never gets past it, whatever is done to take it out of the list, so the
    list is never empty again and the server never gets out of the state in
    which it waits for its directories. *)
Theorem sync_list_never_empties h fd1 fd2 p1 p2 n l :
  peers (user h) !! fd1 = Some p1 -> peers (user h) !! fd2 = Some p2 -> fd1 <> fd2 ->
  pfs_sync_list p1 = Some n -> pfs_sync_list p2 = Some n ->
  LinkedList.is_list (ring (user h)) sync_list l -> LinkedList.is_list (ring (user h)) n [] ->
  n ∉ sync_list :: l ->
  exists h1 h2, svc_finiconn h fd1 = Some h1 /\ svc_finiconn h1 fd2 = Some h2 /\
    (forall k, (length l <= k)%nat -> walk (ring (user h2)) sync_list (S k) = Some n) /\
    LinkedList.list_del_init (ring (user h2)) n = Some (ring (user h2)).
Proof.
  intros P1 P2 Hne N1 N2 HL HA Hn.
  destruct (LinkedList.list_add_tail_spec (ring (user h)) sync_list l n HL Hn) as (r1 & E1 & L1 & _);
    [by apply (LinkedList.is_list_valid _ n []); [|constructor]|].
  destruct (add_tail_twice r1 sync_list l n L1) as (r2 & E2 & X2 & L2 & O2).
  rewrite (finiconn_ring h fd1 p1 n P1 N1), E1. cbn [mbind option_bind]. set (h1 := set_flag _ 0).
  exists h1. rewrite (finiconn_ring h1 fd2 p2 n) by (simpl; by rewrite ?lookup_delete_ne).
  change (ring (user h1)) with r1. rewrite E2. cbn [mbind option_bind]. eexists. split; [done|]. split; [done|].
  split; [|by apply LinkedList.list_del_init_alone].
  intros k Hk. change (ring (user _)) with r2. destruct L1 as [D1 _].
  rewrite (walk_past r1 r2 l sync_list n) by (done || set_solver). by apply walk_fixed.
Qed.

(** ** Requests for a directory *)

Record sync_ok (s : t_pfs_sync_task) : Prop := mk_sync_ok {
  so_dirs : - 2 ^ 31 <= d1 s < 2 ^ 31 /\ - 2 ^ 31 <= d2 s < 2 ^ 31;
  so_times : - 2 ^ 63 <= starttime s < 2 ^ 63 /\ - 2 ^ 63 <= endtime s < 2 ^ 63;
  so_type : is_byte (type s)
}.

Lemma length_sync_image s : length (sync_image s) = 32%nat.
Proof. unfold sync_image. rewrite !length_app, !length_le_split. done. Qed.

Lemma sync_slices a b c d x z :
  length a = 4%nat -> length b = 4%nat -> length c = 8%nat -> length d = 8%nat ->
  let s := a ++ b ++ c ++ d ++ [x] ++ z in
  Wire.slice s 0 4 = a /\ Wire.slice s 4 4 = b /\ Wire.slice s 8 8 = c /\ Wire.slice s 16 8 = d /\ Wire.slice s 24 1 = [x].
Proof.
  intros L1 L2 L3 L4 s. unfold s.
  split_and!;
    repeat first [by apply Wire.slice_here | erewrite Wire.slice_next; [|eassumption|lia]; simpl (_ - _)%nat];
    done.
Qed.

Lemma i32_split x : - 2 ^ 31 <= x < 2 ^ 31 -> i32 (le_combine (le_split 4 x)) = x.
Proof.
  intros Hx. rewrite le_combine_split. change (256 ^ Z.of_nat 4) with (2 ^ 32).
  unfold i32. rewrite Zplus_mod_idemp_l. rewrite Z.mod_small; lia.
Qed.

(** A request is read back as it was written, whatever follows it. *)
Lemma sync_roundtrip s rest : sync_ok s -> sync_of_image (sync_image s ++ rest) = s.
Proof.
  intros [[A1 A2] [B1 B2] T]. unfold sync_of_image, sync_image. rewrite Wire.at_slice, <- !app_assoc.
  destruct (sync_slices (le_split 4 (d1 s)) (le_split 4 (d2 s)) (le_split 8 (starttime s)) (le_split 8 (endtime s))
    (u8 (type s)) (replicate 7 0 ++ rest)) as (-> & -> & -> & -> & ->); try apply length_le_split.
  rewrite !i32_split, !Wire.i64_split by done. unfold at_; simpl. rewrite u8_small by done. by destruct s.
Qed.

(** The task that keeps a request. *)
Definition request_base (s : t_pfs_sync_task) (ip : Z) : t_task_base :=
  mk_base (sync_image s) [] [] (replicate 17 0) ip 0 0 0 0 0 0.

Lemma request_image s ip : exists rest, Wire.base_image (request_base s ip) = sync_image s ++ rest.
Proof.
  unfold Wire.base_image. cbn [filename request_base]. unfold DelFile.field, memcpy at 1. rewrite take_0, app_nil_l.
  unfold snprintf. rewrite take_ge by (rewrite length_sync_image; lia). rewrite <- app_assoc. by eexists.
Qed.

(** ** What a directory yields *)

(** The task for an entry of the directory, if it gets one. *)
Definition listed (f : fs) (path : bytes) (s : t_pfs_sync_task) (ip : Z) (e : dirent)
  : option (t_task_base * t_task_sub) :=
  st ← eligible s e;
  let file := snprintf 256 (path ++ 47 :: d_name e) in
  m ← getfilemd5 f file;
  Some (mk_base file [] [] (m ++ [0]) 0 0 (st_mtime st) (st_size st) TASK_ADDFILE 0 0,
        mk_sub 0 0 0 0 0 (Ip.ip2str ip) 0 0 0).

Section Queues.
Hypothesis lock_free : q_lock = 0.
Context (off : Z -> Z).

Lemma queue_file_spec qs h path s ip e t0 :
  ready off qs h -> TaskQueue.detached (queue (user h)) qs t0 ->
  let j := listed (sys (files (user h))) path s ip e in
  let k := length (option_list j) in
  (k <= length (qs TASK_Q_HOME))%nat ->
  exists h', queue_file h path s ip e = Some h' /\ ready off (TaskQueue.drawn TASK_Q_WAIT_SYNC_DIR k qs) h' /\
    TaskQueue.detached (queue (user h')) (TaskQueue.drawn TASK_Q_WAIT_SYNC_DIR k qs) t0 /\
    Forall2 (fun t x => job_of h' t = Some x) (take k (qs TASK_Q_HOME)) (option_list j) /\
    (forall x, x ∉ take k (qs TASK_Q_HOME) -> job_of h' x = job_of h x) /\
    steady h h' /\ files (user h') = files (user h) /\ acon h' = acon h.
Proof.
  intros R D j k. unfold queue_file, k, j, listed.
  destruct (eligible s e) as [st|] eqn:Ee; cbn [mbind option_bind].
  2:{ intros _. exists h. cbn [option_list length]. split; [done|]. rewrite take_0.
      split; [apply (ready_ext off qs); [intros; by rewrite TaskQueue.drawn_0|done]|].
      split; [apply (detached_ext qs); [intros; by rewrite TaskQueue.drawn_0|done]|]. by split_and!. }
  destruct (getfilemd5 _ _) as [m|] eqn:Em; cbn [mbind option_bind].
  2:{ intros _. exists h. cbn [option_list length]. split; [done|]. rewrite take_0.
      split; [apply (ready_ext off qs); [intros; by rewrite TaskQueue.drawn_0|done]|].
      split; [apply (detached_ext qs); [intros; by rewrite TaskQueue.drawn_0|done]|]. by split_and!. }
  cbn [option_list length]. intros Hl. destruct (qs TASK_Q_HOME) as [|t rest] eqn:Eq; [simpl in Hl; lia|].
  destruct (take_task lock_free off qs h TASK_Q_HOME t rest R eq_refl Eq)
    as (h1 & -> & R1 & D1 & D1' & S1 & A1 & F1 & J1).
  cbn [mbind option_bind]. simpl (negb _). cbv iota. cbn [mbind option_bind].
  match goal with |- context [map_task h1 t ?f] => 
    destruct (change_task off _ h1 t f R1 D1) as (r1 & h2 & _ & -> & R2 & D2 & T2 & S2 & A2 & F2) end.
  cbn [mbind option_bind].
  destruct (put_task lock_free off _ h2 t TASK_Q_WAIT_SYNC_DIR R2 eq_refl (D2 t D1)) as (h3 & -> & R3 & D3 & S3 & A3 & J3 & F3).
  assert (Hne : t0 <> t).
  { intros ->. apply (TaskQueue.d_free _ _ _ D TASK_Q_HOME eq_refl). rewrite Eq. constructor. }
  exists h3. split; [done|]. unfold TaskQueue.drawn. rewrite Eq. cbn [take drop firstn skipn].
  split; [exact R3|]. split; [by apply D3; [done|apply D2, D1']|].
  split; [|split].
  - repeat constructor. unfold job_of. by rewrite (J3 t), T2, lookup_insert_eq.
  - intros x Hx. unfold job_of. rewrite (J3 x), T2, lookup_insert_ne by set_solver. apply J1.
  - split; [transitivity h1; [done|]; by transitivity h2|]. split; congruence.
Qed.

Lemma option_list_omap {A B} (f : A -> option B) x l : omap f (x :: l) = option_list (f x) ++ omap f l.
Proof. simpl. by destruct (f x). Qed.

Lemma queue_files_spec path s ip t0 l : forall qs h,
  ready off qs h -> TaskQueue.detached (queue (user h)) qs t0 ->
  let js := omap (listed (sys (files (user h))) path s ip) l in
  (length js <= length (qs TASK_Q_HOME))%nat ->
  exists h', queue_files h path s ip l = Some h' /\ ready off (TaskQueue.drawn TASK_Q_WAIT_SYNC_DIR (length js) qs) h' /\
    TaskQueue.detached (queue (user h')) (TaskQueue.drawn TASK_Q_WAIT_SYNC_DIR (length js) qs) t0 /\
    Forall2 (fun t x => job_of h' t = Some x) (take (length js) (qs TASK_Q_HOME)) js /\
    (forall x, x ∉ take (length js) (qs TASK_Q_HOME) -> job_of h' x = job_of h x) /\
    steady h h' /\ acon h' = acon h.
Proof.
  induction l as [|e l IH]; intros qs h R D js Hl.
  { exists h. unfold js. cbn [omap list_omap length]. rewrite take_0. split; [done|].
    split; [apply (ready_ext off qs); [intros; by rewrite TaskQueue.drawn_0|done]|].
    split; [apply (detached_ext qs); [intros; by rewrite TaskQueue.drawn_0|done]|]. by split_and!. }
  unfold js in *. rewrite option_list_omap, length_app in *.
  set (j1 := option_list (listed (sys (files (user h))) path s ip e)) in *.
  destruct (queue_file_spec qs h path s ip e t0 R D) as (h1 & E1 & R1 & D1 & F1 & O1 & S1 & L1 & A1);
    [fold j1; lia|]. fold j1 in R1, D1, F1, O1.
  destruct (IH _ h1 R1 D1) as (h2 & E2 & R2 & D2 & F2 & O2 & S2 & A2); rewrite L1 in *.
  { rewrite TaskQueue.drawn_home, length_drop by done. lia. }
  set (k1 := length j1) in *. set (js2 := omap _ l) in *. rewrite TaskQueue.drawn_home in F2, O2 by done.
  exists h2. cbn [queue_files]. rewrite E1. cbn [mbind option_bind]. split; [done|].
  split; [apply (ready_ext off (TaskQueue.drawn TASK_Q_WAIT_SYNC_DIR (length js2) (TaskQueue.drawn TASK_Q_WAIT_SYNC_DIR k1 qs)));
    [intros; by rewrite TaskQueue.drawn_add|done]|].
  split; [apply (detached_ext (TaskQueue.drawn TASK_Q_WAIT_SYNC_DIR (length js2) (TaskQueue.drawn TASK_Q_WAIT_SYNC_DIR k1 qs)));
    [intros; by rewrite TaskQueue.drawn_add|done]|].
  rewrite <- take_take_drop. split.
  - apply Forall2_app; [|done].
    destruct (TaskQueue.q_ring _ _ _ (rd_queues _ _ _ R) TASK_Q_HOME eq_refl) as [_ Hnd].
    apply NoDup_cons in Hnd as [_ Hnd]. rewrite <- (take_drop k1 (qs TASK_Q_HOME)) in Hnd.
    apply NoDup_app in Hnd as (_ & Hdis & _). apply Forall2_same_length_lookup.
    apply Forall2_same_length_lookup in F1 as [Hlen F1]. split; [done|]. intros i y z Hy Hz.
    rewrite O2; [by apply (F1 i)|]. intros Hin. apply list_elem_of_lookup_2 in Hy. apply (Hdis y Hy).
    apply elem_of_take in Hin as (i' & Hi' & _). by apply list_elem_of_lookup_2 in Hi'.
  - split; [|split; [by transitivity h1|congruence]].
    intros x Hx. rewrite O2, O1; set_solver.
Qed.

(** The message that asks for a directory, and the answer. *)
Definition dir_answer (s : t_pfs_sync_task) : SigStream.msg := SigStream.mk_msg SYNC_DIR_RSP TASK_SYNC_DIR (sync_image s).

Lemma request_kept qs h fd s t rest :
  ready off qs h -> qs TASK_Q_HOME = t :: rest -> qs TASK_Q_SYNC_DIR_REQ = [] ->
  exists h', do_sync_dir_req h fd (memcpy zero_body 0 (sync_image s)) = Some h' /\
    ready off (<[TASK_Q_SYNC_DIR_REQ := [t]]> (<[TASK_Q_HOME := rest]> qs)) h' /\
    fst <$> job_of h' t = Some (request_base s (k_peerip fd)) /\ steady h h' /\ acon h' = acon h /\
    files (user h') = files (user h).
Proof.
  intros R Hq Hr. unfold do_sync_dir_req.
  destruct (take_task lock_free off qs h TASK_Q_HOME t rest R eq_refl Hq)
    as (h1 & -> & R1 & D1 & D1' & S1 & A1 & F1 & J1).
  cbn [mbind option_bind]. simpl (negb _). cbv iota. cbn [mbind option_bind].
  assert (Hb : take 32 (memcpy zero_body 0 (sync_image s)) = sync_image s).
  { unfold memcpy. rewrite take_0, app_nil_l. apply take_app_length'. by rewrite length_sync_image. }
  rewrite Hb. fold (request_base s (k_peerip fd)).
  destruct (change_task off _ h1 t (fun r => set_base r (request_base s (k_peerip fd))) R1 D1)
    as (r1 & h2 & _ & -> & R2 & D2 & T2 & S2 & A2 & F2). cbn [mbind option_bind].
  destruct (put_task lock_free off _ h2 t TASK_Q_SYNC_DIR_REQ R2 eq_refl (D2 t D1)) as (h3 & -> & R3 & D3 & S3 & A3 & J3 & F3).
  exists h3. split; [done|]. split.
  { apply (ready_ext off (<[TASK_Q_SYNC_DIR_REQ := (<[TASK_Q_HOME := rest]> qs) TASK_Q_SYNC_DIR_REQ ++ [t]]> (<[TASK_Q_HOME := rest]> qs)));
      [|done]. intros s'. rewrite (fn_lookup_insert_ne qs TASK_Q_HOME) by done. by rewrite Hr. }
  split; [unfold job_of; by rewrite (J3 t), T2, lookup_insert_eq|].
  split; [transitivity h1; [done|]; by transitivity h2|]. split; congruence.
Qed.

Lemma round_spec qs h t s ip l :
  ready off qs h -> qs TASK_Q_SYNC_DIR_REQ = [t] -> fst <$> job_of h t = Some (request_base s ip) -> sync_ok s ->
  k_readdir (sys (files (user h))) (sync_dir_path s) = Some l ->
  let js := omap (listed (sys (files (user h))) (sync_dir_path s) s ip) l in
  let qs1 := TaskQueue.drawn TASK_Q_WAIT_SYNC_DIR (length js) (<[TASK_Q_SYNC_DIR_REQ := []]> qs) in
  (length js <= length (qs TASK_Q_HOME))%nat ->
  exists h', sync_dir_round h = Some (true, h') /\
    ready off (<[TASK_Q_SYNC_DIR_RSP := qs TASK_Q_SYNC_DIR_RSP ++ [t]]> qs1) h' /\
    Forall2 (fun t x => job_of h' t = Some x) (take (length js) (qs TASK_Q_HOME)) js /\
    fst <$> job_of h' t = Some (set_overstatus (request_base s ip) OVER_OK) /\ steady h h' /\ acon h' = acon h.
Proof.
  intros R Hq Hj Hok Hrd js qs1 Hl. unfold sync_dir_round.
  destruct (take_task lock_free off qs h TASK_Q_SYNC_DIR_REQ t [] R eq_refl Hq)
    as (h1 & -> & R1 & D1 & D1' & S1 & A1 & F1 & J1).
  cbn [mbind option_bind]. simpl (negb _). cbv iota. cbn [mbind option_bind].
  unfold do_sync_dir_req_sub. destruct (TaskQueue.d_task _ _ _ D1) as [r1 Hr1]. rewrite Hr1. cbn [mbind option_bind].
  assert (Hb : base r1 = request_base s ip).
  { specialize (J1 t). unfold job_of in Hj. rewrite Hr1 in J1. simpl in J1.
    destruct (TaskQueue.tasks (queue (user h)) !! t) as [r|]; [|done]. simpl in *. injection J1 as J1 _. congruence. }
  rewrite Hb. destruct (request_image s ip) as [rest ->]. rewrite sync_roundtrip by done. rewrite F1, Hrd.
  cbn [dstip request_base].
  assert (Hh : (<[TASK_Q_SYNC_DIR_REQ := []]> qs) TASK_Q_HOME = qs TASK_Q_HOME) by (by rewrite fn_lookup_insert_ne).
  destruct (queue_files_spec (sync_dir_path s) s ip t l _ h1 R1 D1) as (h2 & E2 & R2 & D2 & L2 & O2 & S2 & A2);
    rewrite ?F1, ?Hh; [exact Hl|]. rewrite F1 in *. fold js in R2, D2, L2, O2. fold qs1 in R2, D2. rewrite Hh in L2, O2.
  rewrite E2. cbn [mbind option_bind].
  assert (Ht : forall y, y ∈ take (length js) (qs TASK_Q_HOME) -> y <> t).
  { intros y Hy ->. apply (TaskQueue.d_free _ _ _ D1 TASK_Q_HOME eq_refl). rewrite Hh.
    apply elem_of_take in Hy as (i & Hi & _). by apply list_elem_of_lookup_2 in Hi. }
  destruct (change_task off _ h2 t (set_over OVER_OK) R2 D2) as (r2 & h3 & Hr2 & -> & R3 & D3 & T3 & S3 & A3 & F3).
  cbn [mbind option_bind].
  destruct (put_task lock_free off _ h3 t TASK_Q_SYNC_DIR_RSP R3 eq_refl (D3 t D2)) as (h4 & -> & R4 & D4 & S4 & A4 & J4 & F4).
  cbn [mbind option_bind]. exists h4. split; [done|].
  assert (Hrsp : qs1 TASK_Q_SYNC_DIR_RSP = qs TASK_Q_SYNC_DIR_RSP) by (unfold qs1, TaskQueue.drawn; by rewrite !fn_lookup_insert_ne).
  rewrite <- Hrsp. split; [done|]. split; [|split].
  - eapply Forall2_impl; [|intros y z Hyz; exact Hyz]. apply Forall2_same_length_lookup.
    apply Forall2_same_length_lookup in L2 as [Hlen L2]. split; [done|]. intros i y z Hy Hz.
    unfold job_of. rewrite (J4 y), T3, lookup_insert_ne; [by apply (L2 i)|].
    apply list_elem_of_lookup_2 in Hy. intros <-. by apply (Ht t Hy).
  - unfold job_of. rewrite (J4 t), T3, lookup_insert_eq. simpl. f_equal. f_equal.
    assert (Hjt : job_of h2 t = job_of h1 t) by (apply O2; intros Hy; by apply (Ht t Hy)).
    unfold job_of in Hjt. rewrite Hr2, Hr1 in Hjt. simpl in Hjt. injection Hjt as Hjt _. congruence.
  - split; [transitivity h1; [done|]; transitivity h2; [done|]; by transitivity h3|congruence].
Qed.

Lemma answer_sent qs h t s ip fd p fuel :
  ready off qs h -> qs TASK_Q_SYNC_DIR_RSP = [t] ->
  fst <$> job_of h t = Some (set_overstatus (request_base s ip) OVER_OK) ->
  find_ip_stat h ip = Some fd -> peers (user h) !! fd = Some p -> p_fd p = fd -> wf_conn h fd ->
  exists h', do_check_sync_task (S (S fuel)) h = Some h' /\
    ready off (<[TASK_Q_HOME := qs TASK_Q_HOME ++ [t]]> (<[TASK_Q_SYNC_DIR_RSP := []]> qs)) h' /\
    outq h' fd = outq h fd ++ SigStream.encode (dir_answer s) /\
    (forall x, job_of h' x = job_of h x).
Proof.
  intros R Hq Hj Hf Hp Hpf W. cbn [do_check_sync_task].
  destruct (take_task lock_free off qs h TASK_Q_SYNC_DIR_RSP t [] R eq_refl Hq)
    as (h1 & -> & R1 & D1 & D1' & S1 & A1 & F1 & J1).
  cbn [mbind option_bind]. simpl (negb _). cbv iota. cbn [mbind option_bind].
  destruct (TaskQueue.d_task _ _ _ D1) as [r1 Hr1]. rewrite Hr1. cbn [mbind option_bind].
  assert (Hb : base r1 = set_overstatus (request_base s ip) OVER_OK).
  { specialize (J1 t). unfold job_of in Hj. rewrite Hr1 in J1. simpl in J1.
    destruct (TaskQueue.tasks (queue (user h)) !! t) as [r|]; [|done]. simpl in *. injection J1 as J1 _. congruence. }
  rewrite Hb. change (dstip (set_overstatus (request_base s ip) OVER_OK)) with ip. rewrite (steady_find h h1), Hf by done.
  assert (Ht : take 32 (Wire.base_image (set_overstatus (request_base s ip) OVER_OK)) = sync_image s).
  { unfold Wire.base_image. cbn [filename set_overstatus request_base]. unfold DelFile.field, memcpy at 1.
    rewrite take_0, app_nil_l. unfold snprintf. rewrite (take_ge (sync_image s)) by (rewrite length_sync_image; lia).
    rewrite <- app_assoc. apply take_app_length'. by rewrite length_sync_image. }
  rewrite Ht. rewrite <- (sd_peers _ _ S1) in Hp.
  destruct (post_steady h1 fd SYNC_DIR_RSP TASK_SYNC_DIR (sync_image s) sizeof_sync p Hp) as (h2 & -> & U2 & N2 & _ & O2).
  rewrite Hpf in O2. cbn [mbind option_bind].
  destruct (put_task lock_free off _ h2 t TASK_Q_HOME (ready_user off _ h1 h2 ltac:(by rewrite U2) R1) eq_refl)
    as (h3 & -> & R3 & _ & S3 & A3 & J3 & F3); [by rewrite U2|]. cbn [mbind option_bind].
  set (qs2 := <[TASK_Q_SYNC_DIR_RSP := []]> qs) in *.
  destruct (no_task lock_free off _ h3 TASK_Q_SYNC_DIR_RSP R3 eq_refl) as (h4 & -> & R4 & S4 & Q4 & A4);
    [unfold qs2; by rewrite fn_lookup_insert_ne, fn_lookup_insert|done|].
  cbn [mbind option_bind]. simpl (negb _). cbv iota. exists h4. split; [done|]. split.
  { apply (ready_ext off (<[TASK_Q_HOME := qs2 TASK_Q_HOME ++ [t]]> qs2)); [|done]. intros s'. unfold qs2.
    by rewrite (fn_lookup_insert_ne qs TASK_Q_SYNC_DIR_RSP). }
  split.
  - unfold outq, conn_of in *. rewrite A4, A3, O2; [|unfold wf_conn, conn_of in *; by rewrite A1]. rewrite A1.
    unfold SigStream.encode, dir_answer. cbn [SigStream.m_cmd SigStream.m_status SigStream.m_body]. by rewrite length_sync_image.
  - intros x. unfold job_of. rewrite Q4, (J3 x), U2. apply J1.
Qed.


End Queues.

(** ** The daily quota *)

(** The host at another time. *)
Definition tick h (t : Z) : host sg := mk_host (acon h) (epoll h) (trace h) t (user h).

(** Calls of [do_active_sync] at the times [ts]. *)
Fixpoint sync_rounds h (ts : list Z) : option (host sg) :=
  match ts with
  | [] => Some h
  | t :: ts' => h ← do_active_sync (tick h t); sync_rounds h ts'
  end.

(** What a call that does nothing leaves. *)
Record idle_round h h' (n : Z) : Prop := mk_idle_round {
  ir_acon : acon h' = acon h;
  ir_user : exists last, user h' = user (with_vars h
    (mk_statics last (day_count (vars (user h)) + n) (last_sync (vars (user h))) (report_info (vars (user h)))
       (last_scan_timeout (vars (user h))))) /\
    (day_last (vars (user h)) <> 0 -> last = day_last (vars (user h)))
}.

Lemma idle_in_span h t :
  init_sync_flag (user h) <> 0 -> day_count (vars (user h)) < sync_dir_count ->
  t - last_sync (vars (user h)) < sync_dir_span ->
  exists h', do_active_sync (tick h t) = Some h' /\ idle_round h h' 1.
Proof.
  intros Hi Hc Hs. unfold do_active_sync. apply Z.eqb_neq in Hi. simpl (init_sync_flag _). rewrite Hi.
  unfold check_count_one_day. simpl (vars _). apply Z.ltb_lt in Hc. rewrite Hc. simpl (negb _). cbv iota zeta.
  simpl (last_sync _). simpl (now _). apply Z.ltb_lt in Hs. rewrite Hs. eexists. split; [done|]. split; [done|].
  eexists. split; [done|]. intros Hl. apply Z.eqb_neq in Hl. by rewrite Hl.
Qed.

Lemma idle_used_up h t :
  init_sync_flag (user h) <> 0 -> sync_dir_count <= day_count (vars (user h)) ->
  day_last (vars (user h)) <> 0 -> t - day_last (vars (user h)) < 86400 ->
  exists h', do_active_sync (tick h t) = Some h' /\ idle_round h h' 0.
Proof.
  intros Hi Hc Hl Hs. unfold do_active_sync. apply Z.eqb_neq in Hi. simpl (init_sync_flag _). rewrite Hi.
  unfold check_count_one_day. simpl (vars _). destruct (_ <? sync_dir_count) eqn:E1; b2p; [lia|].
  pose proof Hl as Hl'. apply Z.eqb_neq in Hl'. rewrite Hl'. simpl (now _).
  destruct (86400 <=? _) eqn:E2; b2p; [lia|]. simpl (negb _). cbv iota. eexists. split; [done|]. split; [done|].
  eexists. split; [|done]. by rewrite Z.add_0_r.
Qed.

Lemma idle_trans h1 h2 h3 n m : idle_round h1 h2 n -> idle_round h2 h3 m -> idle_round h1 h3 (n + m).
Proof.
  intros [A1 (l1 & U1 & L1)] [A2 (l2 & U2 & L2)]. split; [congruence|]. exists l2.
  assert (Hv : vars (user h2) = mk_statics l1 (day_count (vars (user h1)) + n) (last_sync (vars (user h1)))
    (report_info (vars (user h1))) (last_scan_timeout (vars (user h1)))) by (by rewrite U1).
  split.
  - rewrite U2. unfold with_vars. simpl. rewrite Hv. simpl. rewrite U1. simpl. by rewrite Z.add_assoc.
  - intros Hl. rewrite Hv in L2. simpl in L2. specialize (L1 Hl). subst l1. by apply L2.
Qed.

Lemma idle_rounds ts : forall h,
  init_sync_flag (user h) <> 0 -> day_count (vars (user h)) + zlen ts <= sync_dir_count ->
  Forall (fun t => t - last_sync (vars (user h)) < sync_dir_span) ts ->
  exists h', sync_rounds h ts = Some h' /\ idle_round h h' (zlen ts).
Proof.
  induction ts as [|t ts IH]; intros h Hi Hc Hs.
  { exists h. split; [done|]. split; [done|]. exists (day_last (vars (user h))). split; [|done].
    simpl. rewrite Z.add_0_r. by destruct h as [? ? ? ? [? ? ? ? ? ? ? ? ? ? ? []]]. }
  apply Forall_cons in Hs as [H1 Hs]. rewrite length_cons in Hc.
  destruct (idle_in_span h t Hi ltac:(lia) H1) as (h1 & E1 & R1). cbn [sync_rounds]. rewrite E1. cbn [mbind option_bind].
  pose proof R1 as [A1 (l1 & U1 & L1)].
  destruct (IH h1) as (h2 & -> & R2); [by rewrite U1|rewrite U1; simpl; lia|by rewrite U1|].
  exists h2. split; [done|]. replace (zlen (t :: ts)) with (1 + zlen ts) by (rewrite length_cons; lia).
  by apply (idle_trans h h1 h2).
Qed.

(** The daily quota of directories is spent by calls that ask for nothing.
    [check_count_one_day] counts before the other tests are made: as many calls
    within [sync_dir_span] of the last request as the quota has left, and from
    then on until the day is over no directory is asked for, at no time, with
    nothing sent and the list of directories as it was. *)
Theorem sync_quota_wasted h ts t :
  init_sync_flag (user h) <> 0 -> day_last (vars (user h)) <> 0 ->
  day_count (vars (user h)) + zlen ts = sync_dir_count ->
  Forall (fun t => t - last_sync (vars (user h)) < sync_dir_span) ts ->
  t - day_last (vars (user h)) < 86400 ->
  exists h1 h2, sync_rounds h ts = Some h1 /\ do_active_sync (tick h1 t) = Some h2 /\
    acon h2 = acon h /\ ring (user h2) = ring (user h) /\ para (user h2) = para (user h) /\
    peers (user h2) = peers (user h).
Proof.
  intros Hi Hl Hc Hs Ht. destruct (idle_rounds ts h Hi ltac:(lia) Hs) as (h1 & E1 & R1).
  pose proof R1 as [A1 (l1 & U1 & L1)]. specialize (L1 Hl). subst l1.
  destruct (idle_used_up h1 t) as (h2 & E2 & R2); rewrite ?U1; simpl; [done|lia|done|done|].
  exists h1, h2. split; [done|]. split; [done|]. destruct (idle_trans _ _ _ _ _ R1 R2) as [A (l2 & U2 & _)].
  split; [done|]. by rewrite U2.
Qed.

(** ** Heartbeats *)

Fixpoint beat_rounds h (ts : list Z) : option (host sg) :=
  match ts with
  | [] => Some h
  | t :: ts' => h ← beat_loop (tick h t) (active (user h)); beat_rounds h ts'
  end.

(** Rounds that follow each other within nine time-outs. *)
Fixpoint paced (last : Z) (ts : list Z) : Prop :=
  match ts with
  | [] => True
  | t :: ts' => last <= t < last + 9 * timeout /\ 0 <= t < 2 ^ 32 /\ paced t ts'
  end.

(** A peer that never answers is never given up.  The heartbeat that is
    sent to it counts as a sign of life, so as long as the rounds of
    [svc_timeout] follow each other within nine time-outs its connection stays
    open for ever, however long it has been silent. *)
Theorem silent_peer_kept ts : forall h fd p last,
  0 < timeout -> active (user h) = [fd] -> peers (user h) !! fd = Some p -> p_fd p = fd ->
  hbtime p <= last <= hbtime p + timeout -> paced last ts ->
  exists h' p', beat_rounds h ts = Some h' /\ peers (user h') !! fd = Some p' /\ active (user h') = [fd] /\
    trace h' = trace h /\ c_fd (conn_of h' fd) = c_fd (conn_of h fd).
Proof.
  induction ts as [|t ts IH]; intros h fd p last Ht Ha Hp Hf Hl Hpc.
  { exists h, p. by split_and!. }
  destruct Hpc as (H1 & H2 & Hpc). cbn [beat_rounds]. rewrite Ha. cbn [beat_loop].
  change (peers (user (tick h t))) with (peers (user h)). rewrite Hp. cbn [mbind option_bind].
  change (now (tick h t)) with t.
  destruct (t - hbtime p <? timeout) eqn:E1; b2p.
  { cbn [mbind option_bind]. destruct (IH (tick h t) fd p t) as (h' & p' & Eb & P' & A' & T' & C'); try done; [lia|].
    exists h', p'. by split_and!. }
  destruct ((timeout <? t - hbtime p) && (t - hbtime p <? timeout * 10)) eqn:E2.
  - unfold active_send. change (peers (user (tick h t))) with (peers (user h)). rewrite Hp. cbn [mbind option_bind].
    rewrite Hf. change (now (tick h t)) with t. set (h1 := modify_fd_event _ _ _).
    assert (X : acon h1 = acon (set_client_data (with_peer (tick h t) fd (set_hbtime p (u32 t))) fd
        (create_sig_msg HEARTBEAT_REQ HB_C_2_C [u8 (self_stat (user (tick h t)))] 1)) /\
      user h1 = user (with_peer (tick h t) fd (set_hbtime p (u32 t))) /\ trace h1 = trace h)
      by (unfold h1, modify_fd_event, epoll_mod; by case_match).
    destruct X as (X1 & X2 & X3).
    destruct (IH h1 fd (set_hbtime p (u32 t)) t) as (h' & p' & Eb & P' & A' & T' & C'); rewrite ?X2; simpl; try done.
    { apply lookup_insert_eq. } { rewrite u32_small by lia. lia. }
    exists h', p'. split; [done|]. split; [done|]. split; [done|]. split; [congruence|]. rewrite C'.
    unfold conn_of. rewrite X1. simpl. by rewrite lookup_insert_eq.
  - assert (t - hbtime p = timeout).
    { apply andb_false_iff in E2 as [E2|E2]; [apply Z.ltb_ge in E2|apply Z.ltb_ge in E2]; lia. }
    clear E2. destruct (timeout * 10 <? t - hbtime p) eqn:E3; b2p; [lia|]. cbn [mbind option_bind].
    destruct (IH (tick h t) fd p t) as (h' & p' & Eb & P' & A' & T' & C'); try done; [lia|].
    exists h', p'. by split_and!.
Qed.

(** ** Deletions *)

(** The task that announces a deletion. *)
Definition deletion (name : bytes) : t_task_base :=
  mk_base name [] [] (replicate 17 0) 0 0 0 0 TASK_DELFILE 0 0.
Definition deletion_msg (name : bytes) : bytes := SigStream.encode (announcement TASK_SYNC_DIR (deletion name)).

Lemma put_out h fd d :
  wf_conn h fd -> wf_conn (set_client_data h fd d) fd /\ outq (set_client_data h fd d) fd = outq h fd ++ d /\
    files (user (set_client_data h fd d)) = files (user h).
Proof.
  intros [A B]. unfold wf_conn, outq, set_client_data. rewrite conn_set, decide_True by done. simpl.
  destruct (put_spec (send_buff (conn_of h fd)) d A) as (P1 & P2 & _). by split_and!.
Qed.

Lemma i32_le z : 0 <= z -> i32 z <= z.
Proof. intros Hz. unfold i32. pose proof (Z.mod_le (z + 2 ^ 31) (2 ^ 32) ltac:(lia) ltac:(lia)). lia. Qed.

(** The loop ends at the end of the file and names nothing after its first
    announcement. *)
Lemma send_dels_spec fd log fuel : forall h name next,
  wf_conn h fd -> del_list (files (user h)) = Some log -> 0 <= next ->
  (length log < fuel + Z.to_nat next)%nat ->
  (0 < fuel)%nat ->
  exists h' k, send_dels fuel h fd (deletion name) next = Some h' /\ wf_conn h' fd /\
    outq h' fd = outq h fd ++ deletion_msg name ++ concat (replicate k (deletion_msg [])).
Proof.
  induction fuel as [|fuel IH]; intros h name next W Hd Hn Hf Hp; [lia|]. cbn [send_dels].
  set (m := create_sig_msg _ _ _ _). destruct (put_out h fd m W) as (W1 & O1 & F1). set (h1 := set_client_data h fd m) in *.
  assert (Hm : m = deletion_msg name).
  { unfold deletion_msg, SigStream.encode, announcement. cbn [SigStream.m_cmd SigStream.m_status SigStream.m_body].
    by rewrite Wire.length_base_image. }
  rewrite F1, Hd. destruct (_ =? -1) eqn:Eg.
  { exists h1, 0%nat. split; [done|]. split; [done|]. rewrite O1, Hm. simpl. by rewrite app_nil_r. }
  assert (Hg : DelFile.get_from_del_file (Some log) (next + 1) (now h1) = next + 1 /\ next + 1 < zlen log).
  { unfold DelFile.get_from_del_file in *. destruct (i32 _ <=? next + 1) eqn:E1; [done|].
    destruct (zlen _ =? 0); [done|]. destruct (now h1 <? _); [done|]. split; [done|]. b2p.
    pose proof (i32_le (zlen log / Z.of_nat DelFile.RECORD) ltac:(apply Z.div_pos; [lia|done])).
    pose proof (Z.div_le_upper_bound (zlen log) (Z.of_nat DelFile.RECORD) (zlen log) ltac:(done)
      ltac:(change (Z.of_nat DelFile.RECORD) with 268; lia)). lia. }
  destruct Hg as [Hg1 Hg2]. rewrite Hg1.
  change (mk_base [] (tmpfile (deletion name)) _ _ _ _ _ _ _ _ _) with (deletion []).
  destruct (IH h1 [] (next + 1) W1) as (h2 & k & -> & W2 & O2); [by rewrite F1|lia|lia|lia|].
  exists h2, (S k). split; [done|]. split; [done|]. rewrite O2, O1, Hm. simpl. by rewrite <- !app_assoc.
Qed.

Lemma find_loop_pos fuel : forall f prev index last i name,
  DelFile.find_loop fuel f prev index last = Some (i, name) -> index < i.
Proof.
  induction fuel as [|fuel IH]; intros f prev index last i name; simpl; [done|].
  destruct (_ =? 0); [done|]. destruct (_ =? last); [intros [= <- _]; lia|]. intros H. apply IH in H. lia.
Qed.

(** A request for deletions is always answered, and the deletions sent
    before the answer are unusable but for the first: [get_from_del_file] does
    not fill in the name, which the loop has just cleared, so every later
    announcement asks to delete a file with an empty name. *)
Theorem deletions_unnamed h fd b :
  wf_conn h fd ->
  exists h' sent, do_sync_del_req h fd b = Some h' /\
    outq h' fd = outq h fd ++ sent ++ create_sig_msg SYNC_DEL_RSP TASK_SYNC_DIR b sizeof_sync /\
    (let '(next, name) := DelFile.find_last_index (del_list (files (user h))) (deletion []) (starttime (sync_of_image b)) in
     if next =? -1 then sent = []
     else exists k, sent = deletion_msg name ++ concat (replicate k (deletion_msg []))).
Proof.
  intros W. unfold do_sync_del_req. cbv zeta. fold (deletion []).
  assert (Hend : forall h1 sent, wf_conn h1 fd -> outq h1 fd = outq h fd ++ sent ->
    let h2 := modify_fd_event (set_client_data h1 fd (create_sig_msg SYNC_DEL_RSP TASK_SYNC_DIR b sizeof_sync)) fd EPOLLOUT in
    outq h2 fd = outq h fd ++ sent ++ create_sig_msg SYNC_DEL_RSP TASK_SYNC_DIR b sizeof_sync).
  { intros h1 sent W1 O1 h2. destruct (put_out h1 fd (create_sig_msg SYNC_DEL_RSP TASK_SYNC_DIR b sizeof_sync) W1) as (_ & O2 & _).
    rewrite app_assoc, <- O1, <- O2. unfold h2, modify_fd_event, epoll_mod. by case_match. }
  destruct (DelFile.find_last_index _ _ _) as [next name] eqn:Ef. fold (deletion name).
  destruct (next =? -1) eqn:En; b2p.
  { cbn [mbind option_bind]. eexists _, []. split; [done|]. split; [|done]. apply Hend; [done|]. by rewrite app_nil_r. }
  unfold DelFile.find_last_index in Ef. destruct (del_list (files (user h))) as [log|] eqn:El; [|congruence].
  destruct (DelFile.find_loop _ _ _ _ _) as [[i nm]|] eqn:Ei; [|congruence]. injection Ef as -> _.
  apply find_loop_pos in Ei.
  destruct (send_dels_spec fd log (S (length log)) h name next W El ltac:(lia) ltac:(lia) ltac:(lia))
    as (h1 & k & Es & W1 & O1). change (default [] (Some log)) with log. rewrite Es. cbn [mbind option_bind]. eexists _, _. split; [done|]. split; [apply Hend; [done|exact O1]|].
  by exists k.
Qed.

(** ** The directories to ask for *)

Definition nodes_ok (ns : list Z) (m : gmap Z t_pfs_sync_task) (dirs : list (Z * Z)) : Prop :=
  Forall2 (fun n d => exists s, m !! n = Some s /\ (d1 s, d2 s) = d /\ type s = TASK_ADDFILE) ns dirs.

Section Nodes.
Hypothesis node_sound : forall u, exists n, node_mem u = Some n /\ n <> sync_list /\
  n ∉ dom (LinkedList.nx (ring u)) /\ n ∉ dom (LinkedList.pv (ring u)) /\ syncs u !! n = None.

Lemma add_syncs_spec l : forall h ns,
  LinkedList.is_list (ring (user h)) sync_list ns -> Forall (fun n => is_Some (syncs (user h) !! n)) ns ->
  exists h' ns', add_syncs h l = Some (0, h') /\ LinkedList.is_list (ring (user h')) sync_list (ns ++ ns') /\
    nodes_ok ns' (syncs (user h')) l /\ (forall n s, syncs (user h) !! n = Some s -> syncs (user h') !! n = Some s).
Proof.
  induction l as [|[a b] l IH]; intros h ns HL HS.
  { exists h, []. rewrite app_nil_r. split; [done|]. split; [done|]. split; [constructor|done]. }
  cbn [add_syncs]. unfold add_sync. destruct (node_sound (user h)) as (n & -> & N1 & N2 & N3 & N4).
  destruct (TaskQueue.alloc_frame (ring (user h)) n N2 N3) as [HA HF].
  set (r0 := LinkedList.mk_heap _ _) in *.
  assert (Hn : n ∉ sync_list :: ns).
  { apply not_elem_of_cons. split; [done|]. intros Hin. rewrite Forall_forall in HS. apply HS in Hin as [s Hs]. congruence. }
  assert (HL0 : LinkedList.is_list r0 sync_list ns).
  { eapply LinkedList.is_list_frame; [exact HF| |exact HL]. intros x Hx. set_solver. }
  destruct (LinkedList.list_add_tail_spec r0 sync_list ns n HL0 Hn) as (r1 & -> & L1 & _);
    [by apply (LinkedList.is_list_valid _ n []); [|constructor]|]. cbn [mbind option_bind].
  set (m := mk_sync a b _ _ _). set (h1 := set_user h _).
  destruct (IH h1 (ns ++ [n])) as (h2 & ns' & -> & L2 & K2 & M2); [exact L1| |].
  { simpl. apply Forall_app. split; [|repeat constructor; by rewrite lookup_insert_eq].
    eapply Forall_impl; [exact HS|]. intros x [s Hs]. rewrite lookup_insert_ne; [eauto|]. intros ->. congruence. }
  exists h2, (n :: ns'). split; [done|]. split; [by rewrite <- app_assoc in L2|]. split.
  - constructor; [|done]. exists m. split; [|done]. apply M2. apply lookup_insert_eq.
  - intros x s Hx. apply M2. simpl. rewrite lookup_insert_ne; [done|]. intros ->. congruence.
Qed.

(** The thread that starts lists every directory [a/b] with both numbers
    below [DIR1] once, in order, each with the time since which it may have
    missed files.  With more than [DIR1] directories on the second level the
    others are left out. *)
Theorem sync_list_covers h :
  LinkedList.is_list (ring (user h)) sync_list [] ->
  exists h' ns, init_sync_list h = Some (0, h') /\ LinkedList.is_list (ring (user h')) sync_list ns /\
    nodes_ok ns (syncs (user h')) sync_dirs /\ NoDup sync_dirs /\
    forall a b, (a, b) ∈ sync_dirs <-> 0 <= a < DIR1 /\ 0 <= b < DIR1.
Proof.
  intros HL. destruct (add_syncs_spec sync_dirs h [] HL ltac:(constructor)) as (h' & ns & E1 & L1 & K1 & _).
  exists h', ns. split; [done|]. split; [done|]. split; [done|]. split.
  - unfold sync_dirs. apply NoDup_bind.
    + intros x1 x2 [a b] Hx1 Hx2 H1 H2. apply list_elem_of_fmap in H1 as (y1 & E2 & _), H2 as (y2 & E3 & _). congruence.
    + intros x _. apply NoDup_fmap_2; [|apply NoDup_seqZ]. intros y1 y2 [= ->]. done.
    + apply NoDup_seqZ.
  - intros a b. unfold sync_dirs. rewrite list_elem_of_bind. split.
    + intros (x & Hx & Hs). apply list_elem_of_fmap in Hx as (y & [= -> ->] & Hy). apply elem_of_seqZ in Hs, Hy. lia.
    + intros [Ha Hb]. exists a. split; [apply list_elem_of_fmap; exists b; split; [done|]; apply elem_of_seqZ; lia|].
      apply elem_of_seqZ. lia.
Qed.

End Nodes.

End Service.

(** ** Examples *)

#[local] Existing Instances demo_env demo_kernel demo_site.

(** A server with a directory that holds one file beside [..], and an allocator
    that never returns an address in use. *)
Definition fresh_node (u : sg) : Z :=
  fresh ({[sync_list]} ∪ dom (LinkedList.nx (ring u)) ∪ dom (LinkedList.pv (ring u)) ∪ dom (syncs u)).

Definition dir_settings : SigSettings :=
  mk_sig_settings 3 3 100 20 300 (str "00:00:00") (str "23:59:59") 86400 1 (Some (str "/data")) 16820416 []
    [0] 0 (fun _ => None) (Some 1) (fun _ => true) (fun u => Some (fresh_node u)) (fun _ _ => None)
    (fun _ _ => Some [mk_dirent (str "..") (Some (mk_stat 4096 false 0 0)) true;
                      mk_dirent (str "a.jpg") (Some (mk_stat 3 true 1388534500 1388534500)) true])
    (fun _ => 16777226) 0 0 (fun _ => str "20140101000000").

#[local] Existing Instance dir_settings.

Lemma fresh_node_sound u : exists n, node_mem u = Some n /\ n <> sync_list /\
  n ∉ dom (LinkedList.nx (ring u)) /\ n ∉ dom (LinkedList.pv (ring u)) /\ syncs u !! n = None.
Proof.
  exists (fresh_node u). split; [done|]. unfold fresh_node.
  pose proof (is_fresh (({[sync_list]} ∪ dom (LinkedList.nx (ring u)) ∪ dom (LinkedList.pv (ring u)) ∪ dom (syncs u)) : gset Z)) as Hf.
  apply not_elem_of_union in Hf as [Hf H4]. apply not_elem_of_union in Hf as [Hf H3]. apply not_elem_of_union in Hf as [H1 H2].
  split; [set_solver|]. split; [done|]. split; [done|]. by apply not_elem_of_dom.
Qed.

Definition dir_host : host sg :=
  let h := demo_host ON_LINE (TaskQueue.demo [944; 1888; 2832]) in
  mk_host (acon h) (epoll h) (trace h) (now h)
    (mk_sg (peers (user h)) (active (user h)) (online (user h)) (ring (user h)) (syncs (user h)) (para (user h))
       (self_stat (user h)) (init_sync_flag (user h)) (self_domain (user h))
       (demo_lf (demo_fs (str "/data/1/2/a.jpg") [1; 2; 3])) (queue (user h)) (vars (user h))).

Lemma dir_ready : ready (TaskQueue.bias 3) demo_qs dir_host.
Proof. destruct (demo_sig_ready ON_LINE) as [A B]. split; [exact A|exact B]. Qed.


Lemma sync_list_covers_witness :
  exists h' ns, init_sync_list dir_host = Some (0, h') /\ LinkedList.is_list (ring (user h')) sync_list ns /\
    nodes_ok ns (syncs (user h')) sync_dirs /\ NoDup sync_dirs /\
    forall a b, (a, b) ∈ sync_dirs <-> 0 <= a < DIR1 /\ 0 <= b < DIR1.
Proof. 
  apply (sync_list_covers (G := dir_settings) fresh_node_sound dir_host).
  split; [by split|by apply (bool_decide_unpack _)].
Defined.

Definition with_sg (u : sg) : host sg := mk_host (acon dir_host) (epoll dir_host) [] 1388534400 u.

(** Two connected peers that were asked for the same directory, node 7. *)
Definition shared_peer (fd : Z) : peer := mk_peer fd 1388534400 16777226 CONNECTED 0 (Some 7).
Definition shared_host : host sg :=
  with_sg (mk_sg {[ 5 := shared_peer 5; 6 := shared_peer 6 ]} [5; 6] {[ 10 := [5; 6] ]}
    (LinkedList.mk_heap {[ 0 := 0; 7 := 7 ]} {[ 0 := 0; 7 := 7 ]}) {[ 7 := mk_sync 1 2 0 0 TASK_ADDFILE ]}
    (mk_para 0 0 0 0) ON_LINE 1 demo_domain (files (user dir_host)) (TaskQueue.demo []) (mk_statics 0 0 0 0 0)).

Lemma sync_list_never_empties_witness :
  exists h1 h2, svc_finiconn shared_host 5 = Some h1 /\ svc_finiconn h1 6 = Some h2 /\
    (forall k, (0 <= k)%nat -> walk (ring (user h2)) sync_list (S k) = Some 7) /\
    LinkedList.list_del_init (ring (user h2)) 7 = Some (ring (user h2)).
Proof.
  apply (sync_list_never_empties shared_host 5 6 (shared_peer 5) (shared_peer 6) 7 []); try reflexivity; try done.
  1,2: split; [by split|by apply (bool_decide_unpack _)].
  by apply (bool_decide_unpack _).
Defined.

Lemma sync_quota_wasted_witness :
  let h := with_sg (mk_sg {[ 5 := demo_peer ]} [5] {[ 10 := [5] ]} (LinkedList.mk_heap {[ 0 := 0 ]} {[ 0 := 0 ]}) ∅
    (mk_para 0 0 0 0) ON_LINE 1 demo_domain (files (user dir_host)) (TaskQueue.demo [])
    (mk_statics 1388534400 18 1388534400 0 0)) in
  exists h1 h2, sync_rounds h [1388534410; 1388534420] = Some h1 /\ do_active_sync (tick h1 1388580000) = Some h2 /\
    acon h2 = acon h /\ ring (user h2) = ring (user h) /\ para (user h2) = para (user h) /\
    peers (user h2) = peers (user h).
Proof.
  intros h. apply (sync_quota_wasted (G := dir_settings) h); try reflexivity; try discriminate.
  repeat constructor.
Defined.

Lemma silent_peer_kept_witness :
  exists h' p', beat_rounds dir_host [1388534404; 1388534408; 1388534412] = Some h' /\
    peers (user h') !! 5 = Some p' /\ active (user h') = [5] /\
    trace h' = trace dir_host /\ c_fd (conn_of h' 5) = c_fd (conn_of dir_host 5).
Proof.
  apply (silent_peer_kept (G := dir_settings) [1388534404; 1388534408; 1388534412] dir_host 5 demo_peer 1388534401);
    try reflexivity; try discriminate; simpl; lia.
Defined.

(** A server that has recorded two deletions, asked for those since the first. *)
Definition del_host : host sg :=
  let gone f m := DelFile.del_record (mk_base (str f) [] [] [] 0 0 m 0 TASK_DELFILE 0 0) in
  with_sg (mk_sg {[ 5 := demo_peer ]} [5] {[ 10 := [5] ]} (LinkedList.mk_heap {[ 0 := 0 ]} {[ 0 := 0 ]}) ∅
    (mk_para 0 0 0 0) ON_LINE 1 demo_domain
    (mk_lf (demo_fs (str "/other") []) 0 (Some (gone "/1/2/a.jpg"%string 500 ++ gone "/1/2/b.jpg"%string 600))
       (timers (files (user dir_host))) (replicate 128 0)) (TaskQueue.demo []) (mk_statics 0 0 0 0 0)).

Lemma deletions_unnamed_witness :
  let b := memcpy zero_body 0 (sync_image (mk_sync 1 2 500 0 TASK_DELFILE)) in
  exists h' k, do_sync_del_req del_host 5 b = Some h' /\
    outq h' 5 = outq del_host 5 ++ (deletion_msg (str "/1/2/a.jpg") ++ concat (replicate k (deletion_msg []))) ++
      create_sig_msg SYNC_DEL_RSP TASK_SYNC_DIR b sizeof_sync.
Proof.
  intros b. destruct (deletions_unnamed del_host 5 b) as (h' & sent & E1 & E2 & E3); [split; apply MyBuff.wf_init|].
  assert (Ef : DelFile.find_last_index (del_list (files (user del_host))) (deletion []) (starttime (sync_of_image b)) =
    (0, str "/1/2/a.jpg")) by (vm_compute; reflexivity).
  rewrite Ef in E3. destruct E3 as [k ->]. exists h', k. by split.
Defined.

End SyncDir.
