(* ===== verification/PossMaster.v ===== *)
(** * The maintenance master (network/POSS)

    The agents of the storage servers connect to it ([Agent]).  What they submit
    is collected in files of the working directory that are moved to [outdir]
    when they are old enough; heartbeats and the answers to commands go to a
    status file that is renewed every two minutes; the lines of the files put
    in [indir] are commands that are passed on to the agents.

    [None]: the process crashes (a copy leaves its buffer), or [svc_recv] does
    not return, which happens when a message announces a length of zero. *)

From S2P Require Import Prelude.
From S2P Require Import CString.
From S2P Require Import Codec.
From S2P Require Import Protocol.
From S2P Require Import MyBuff.
From S2P Require Import LocalFile.
From S2P Require Import EventLoop.
From S2P Require Import SigStream.

Module PossMaster.
Import MyBuff Conn Loop Poss Fs.

(** ** Data *)

Definition REQ_AUTH : Z := 0x00000001.
Definition REQ_SUBMIT : Z := 0x00000002.
Definition REQ_HEARTBEAT : Z := 0x00000005.
Definition REQ_PFS_CMD : Z := 0x00000008.
Definition RSP_PFS_CMD : Z := 0x80000008.
Definition REQ_STOPPFS : Z := 0x00000009.

Definition VOSSPREFIX : bytes := str "poss_".
Definition VOSSSUFFIX : bytes := str ".master".

Definition LOGOUT : Z := 0.
Definition CONNECTED : Z := 1.
Definition IDLE : Z := 5.
Definition PREPARE_SYNCFILE : Z := 8.
Definition SYNCFILEING : Z := 9.

Definition STAT_MAX : Z := 5.
Definition s_server_stat : list bytes :=
  [str "UNKOWN_STAT"; str "WAIT_SYNC"; str "SYNCING"; str "ON_LINE"; str "OFFLINE"].
Definition iprole : list bytes :=
  [str "unkown"; str "storage"; str "nameserver"; str "poss_master"; str "self_ip"].

Definition INDIR : bytes := str "indir".
Definition OUTDIR : bytes := str "outdir".
Definition WKDIR : bytes := str "workdir".
Definition BKDIR : bytes := str "bkdir".

Definition ALLMASK : Z := 0xFF.
Definition RET_CLOSE_MALLOC : Z := 303.
Definition poss_stat_interval : Z := 120.

Record t_client_stat := mk_stat { st_fd : Z; st_file : bytes; st_last : Z }.

(** [pfs_poss_peer], its [datainfo] included. *)
Record peer := mk_peer {
  p_ip : bytes;
  cfgip : Z;
  con_ip : Z;
  p_fd : Z;
  local_in_fd : Z;
  hbtime : Z;
  recvlen : Z;
  datalen : Z;
  opentime : Z;
  outfile : bytes;
  sock_stat : Z;
  server_stat : Z;
  role : Z
}.

(** The three tables hold descriptors; [online] and [cfg] are the buckets of
    [online_list] and [cfg_list]. *)
Record master := mk_master {
  peers : gmap Z peer;
  active : list Z;
  online : gmap Z (list Z);
  cfg : gmap Z (list Z);
  c_stat : t_client_stat;
  sys : fs;
  seqno : Z
}.

(** [g_config.path], [poss_interval], [timeout]; the text of a time; what
    [write], [malloc] (for a connection that has no memory yet), [readdir] and the
    resolver do; the byte behind the data of a receive buffer. *)
Class Around := mk_around {
  path : bytes;
  poss_interval : Z;
  timeout : Z;
  time_text : Z -> bytes;
  k_write : Z -> bytes -> Z;
  alloc : Z -> bool;
  k_readdir : fs -> bytes -> option (list bytes);
  gethostbyname : bytes -> option (list bytes);
  beyond : Z
}.

Definition with_peers (u : master) (p : gmap Z peer) : master :=
  mk_master p (active u) (online u) (cfg u) (c_stat u) (sys u) (seqno u).
Definition with_conns (u : master) (p : gmap Z peer) (a : list Z) (o : gmap Z (list Z)) : master :=
  mk_master p a o (cfg u) (c_stat u) (sys u) (seqno u).
Definition with_sys (u : master) (f : fs) : master :=
  mk_master (peers u) (active u) (online u) (cfg u) (c_stat u) f (seqno u).
Definition with_stat (u : master) (c : t_client_stat) (f : fs) : master :=
  mk_master (peers u) (active u) (online u) (cfg u) c f (seqno u).
Definition with_seq (u : master) (s : Z) : master :=
  mk_master (peers u) (active u) (online u) (cfg u) (c_stat u) (sys u) s.

Definition zero_peer : peer := mk_peer [] 0 0 0 0 0 0 0 0 [] 0 0 0.
Definition set_hbtime (p : peer) (t : Z) : peer :=
  mk_peer (p_ip p) (cfgip p) (con_ip p) (p_fd p) (local_in_fd p) t (recvlen p) (datalen p) (opentime p) (outfile p)
          (sock_stat p) (server_stat p) (role p).
Definition set_local (p : peer) (lfd : Z) : peer :=
  mk_peer (p_ip p) (cfgip p) (con_ip p) (p_fd p) lfd (hbtime p) (recvlen p) (datalen p) (opentime p) (outfile p)
          (sock_stat p) (server_stat p) (role p).
Definition set_open (p : peer) (lfd t : Z) (name : bytes) : peer :=
  mk_peer (p_ip p) (cfgip p) (con_ip p) (p_fd p) lfd (hbtime p) (recvlen p) (datalen p) t name
          (sock_stat p) (server_stat p) (role p).
Definition set_lens (p : peer) (st r d : Z) : peer :=
  mk_peer (p_ip p) (cfgip p) (con_ip p) (p_fd p) (local_in_fd p) (hbtime p) r d (opentime p) (outfile p)
          st (server_stat p) (role p).
Definition set_server_stat (p : peer) (s : Z) : peer :=
  mk_peer (p_ip p) (cfgip p) (con_ip p) (p_fd p) (local_in_fd p) (hbtime p) (recvlen p) (datalen p) (opentime p) (outfile p)
          (sock_stat p) s (role p).

Definition bucket (m : gmap Z (list Z)) (k : Z) : list Z := default [] (m !! k).
Definition list_del (fd : Z) (l : list Z) : list Z := filter (fun x => x <> fd) l.

(** [basename], for a path that does not end in a slash. *)
Definition basename (p : bytes) : bytes :=
  match strrchr p 47 with Some i => drop (S i) p | None => p end.

(** What [fgets] reads from a file with a buffer of [n] bytes, line by line. *)
Fixpoint fgets_lines (n room : nat) (acc s : bytes) : list bytes :=
  match s with
  | [] => if bool_decide (acc = []) then [] else [acc]
  | c :: t =>
      if (c =? 10) || bool_decide (room = 1%nat) then (acc ++ [c]) :: fgets_lines n (n - 1) [] t
      else fgets_lines n (room - 1) (acc ++ [c]) t
  end.

Section Service.
Context {E : Env} {K : Kernel} {X : Around}.
Implicit Types h : host master.

Definition peer_of h (fd : Z) : peer := default zero_peer (peers (user h) !! fd).
Definition put_peer h (fd : Z) (p : peer) : host master :=
  set_user h (with_peers (user h) (<[fd := p]> (peers (user h)))).

(** [write(lfd, d, strlen(d))]: the count, and the file system. *)
Definition put_file (f : fs) (lfd : Z) (d : bytes) : Z * fs :=
  let n := k_write lfd d in (n, if n <? 0 then f else append f lfd (take (Z.to_nat n) d)).

(** ** Files *)

Definition work_name (dir name : bytes) : bytes := path ++ 47 :: dir ++ 47 :: name.

(** A file of the working directory is moved to [outdir]. *)
Definition publish (f : fs) (work : bytes) : fs :=
  snd (rename f (snprintf 256 work) (snprintf 256 (work_name OUTDIR (basename work)))).

Definition check_stat_file h : Z * host master :=
  let u := user h in
  let c := c_stat u in
  let reopen (f : fs) :=
    let name := snprintf 256 (work_name WKDIR (VOSSPREFIX ++ str "stat_" ++ time_text (now h))) in
    match open_create f name with
    | (inl lfd, f) => (0, set_user h (with_stat u (mk_stat lfd name (now h)) f))
    | (inr _, f) => (-1, set_user h (with_stat u (mk_stat (-1) name (st_last c)) f))
    end in
  if 0 <=? st_fd c then
    if poss_stat_interval <=? now h - st_last c then reopen (publish (close (sys u) (st_fd c)) (st_file c))
    else (0, h)
  else reopen (sys u).

Definition check_close_local h (fd : Z) : Z * host master :=
  let p := peer_of h fd in
  if (0 <? local_in_fd p) && (poss_interval <=? now h - opentime p) then
    let f := publish (close (sys (user h)) (local_in_fd p)) (outfile p) in
    (RECV_ADD_EPOLLOUT, put_peer (set_user h (with_sys (user h) f)) fd (set_local p (-1)))
  else (RECV_ADD_EPOLLOUT, h).

(** ** Connections *)

Definition svc_initconn h (fd ip : Z) : Z * host master :=
  let u := user h in
  if negb (bool_decide (is_Some (peers u !! fd))) && negb (alloc fd) then (RET_CLOSE_MALLOC, h)
  else
    let p := mk_peer (Ip.ip2str ip) 0 ip fd (-1) (u32 (now h)) 0 0 0 [] CONNECTED 0 0 in
    let k := Z.land ip ALLMASK in
    (0, set_user h (with_conns u (<[fd := p]> (peers u)) (active u ++ [fd]) (<[k := fd :: bucket (online u) k]> (online u)))).

(** The peer is heard of. *)
Definition refresh h (fd : Z) : host master :=
  let u := user h in
  set_user h (with_conns u (<[fd := set_hbtime (peer_of h fd) (u32 (now h))]> (peers u))
                (list_del fd (active u) ++ [fd]) (online u)).

(** [opentime] is set to 0 so that the file is published at once. *)
Definition svc_finiconn h (fd : Z) : host master :=
  match peers (user h) !! fd with
  | None => h
  | Some p =>
      let h := snd (check_close_local (put_peer h fd (set_open p (local_in_fd p) 0 (outfile p))) fd) in
      let u := user h in
      let f := if 0 <? local_in_fd (peer_of h fd) then close (sys u) (local_in_fd (peer_of h fd)) else sys u in
      let k := Z.land (con_ip p) ALLMASK in
      set_user h (with_sys (with_conns u (delete fd (peers u)) (list_del fd (active u))
                              (<[k := list_del fd (bucket (online u) k)]> (online u))) f)
  end.

(** ** Requests *)

(** [sub_recv]; the length is compared as a [size_t]. *)
Definition sub_recv h (fd : Z) : Z * host master :=
  let h := refresh h fd in
  let p := peer_of h fd in
  if (sock_stat p =? PREPARE_SYNCFILE) || (sock_stat p =? SYNCFILEING) then
    let '(rc, d) := get_client_data h fd in
    if negb (rc =? 0) then (RECV_ADD_EPOLLIN, h)
    else
      let remain := i32 (datalen p - recvlen p) in
      let d := if zlen d <=? u64 remain then d else take (Z.to_nat remain) d in
      let '(n, f) := put_file (sys (user h)) (local_in_fd p) d in
      if n <? 0 then (RECV_CLOSE, h)
      else
        let h := consume_client_data (set_user h (with_sys (user h) f)) fd n in
        let r := i32 (recvlen p + n) in
        if datalen p <=? r then check_close_local (put_peer h fd (set_lens p IDLE r (datalen p))) fd
        else (RECV_ADD_EPOLLIN, put_peer h fd (set_lens p (sock_stat p) r (datalen p)))
  else (RECV_ADD_EPOLLIN, h).

(** The file an agent's submissions go to; the role of a peer stays 0. *)
Definition submit_name h (p : peer) : bytes :=
  snprintf 256 (work_name WKDIR (nth (Z.to_nat (role p)) iprole [] ++ 95 :: VOSSPREFIX ++ p_ip p ++
                                 95 :: time_text (now h) ++ VOSSSUFFIX)).

Definition process_data_req h (fd : Z) (hd : t_head_info) : Z * host master :=
  let p := peer_of h fd in
  let start h :=
    let p := peer_of h fd in
    let h := put_peer h fd (set_lens p SYNCFILEING 0 (i32 (totallen hd - HEADSIZE))) in
    sub_recv (consume_client_data h fd HEADSIZE) fd in
  if local_in_fd p <? 0 then
    let name := submit_name h p in
    match open_create (sys (user h)) name with
    | (inr _, f) => (RECV_CLOSE, put_peer (set_user h (with_sys (user h) f)) fd (set_open p (local_in_fd p) (opentime p) name))
    | (inl lfd, f) => start (put_peer (set_user h (with_sys (user h) f)) fd (set_open p lfd (now h) name))
    end
  else start h.

(** A line of the status file. *)
Definition put_all (f : fs) (lfd : Z) (l : list bytes) : fs := fold_left (fun f d => snd (put_file f lfd d)) l f.

(** The line for a heartbeat, and for the answer to a command; [d] is all that
    has arrived. *)
Definition note_status h (fd : Z) (hd : t_head_info) (d : bytes) : option (host master) :=
  let p := peer_of h fd in
  let lfd := st_fd (c_stat (user h)) in
  let line x := [time_text (now h); [124]; p_ip p; [124]; x; [10]] in
  if lfd <? 0 then Some h
  else if cmdid hd =? REQ_HEARTBEAT then
    let s := nth 12 d beyond in
    let h := put_peer h fd (set_server_stat p s) in
    let t := nth (Z.to_nat (s mod STAT_MAX)) s_server_stat [] in
    Some (set_user h (with_sys (user h) (put_all (sys (user h)) lfd (line t))))
  else if totallen hd <? HEADSIZE then None
  else Some (set_user h (with_sys (user h) (put_all (sys (user h)) lfd
                          (line (take (Z.to_nat (totallen hd - HEADSIZE)) (drop 12 d)))))).

Definition check_req h (fd : Z) : option (Z * host master) :=
  let '(rc, d) := get_client_data h fd in
  if negb (rc =? 0) then Some (-1, h)
  else
    let '(ret, hd) := parse_msg d (mk_info 0 0 0) in
    if 0 <? ret then Some (-1, h)
    else if (cmdid hd =? REQ_HEARTBEAT) || (cmdid hd =? RSP_PFS_CMD) || (cmdid hd =? REQ_AUTH) then
      if zlen d <? totallen hd then Some (-1, h)
      else
        h ← (if cmdid hd =? REQ_AUTH then
               if (totallen hd <? HEADSIZE) || (HEADSIZE + 128 <? totallen hd) then None else Some h
             else note_status h fd hd d);
        Some (0, consume_client_data h fd (totallen hd))
    else if cmdid hd =? REQ_SUBMIT then Some (process_data_req h fd hd)
    else Some (RECV_CLOSE, h).

(** The loop of [svc_recv]. *)
Fixpoint req_loop (fuel : nat) h (fd : Z) : option (Z * host master) :=
  match fuel with
  | O => None
  | S k =>
      '(r, h) ← check_req h fd;
      if r =? -1 then Some (RECV_ADD_EPOLLIN, h)
      else if (r =? RECV_CLOSE) || (r =? RECV_ADD_EPOLLIN) then Some (r, h)
      else req_loop k h fd
  end.

(** A round that goes on takes something off the input, unless the length
    announced is 0. *)
Definition svc_recv h (fd : Z) : option (Z * host master) :=
  let h := refresh h fd in
  let st := sock_stat (peer_of h fd) in
  let loop h := req_loop (S (length (snd (get_client_data h fd)))) h fd in
  if (st =? PREPARE_SYNCFILE) || (st =? SYNCFILEING) then
    let '(r, h) := sub_recv h fd in
    if (r =? RECV_ADD_EPOLLIN) || (r =? RECV_CLOSE) then Some (r, h) else loop h
  else loop h.

Definition svc_send h (fd : Z) : Z * host master := (SEND_ADD_EPOLLIN, h).

(** ** Commands *)

(** [find_ip_stat]; nothing is ever put in [cfg_list]. *)
Definition find_ip_stat (u : master) (ip : Z) : option Z :=
  let k := Z.land ALLMASK ip in
  let by_ (g : peer -> Z) fd := match peers u !! fd with Some p => g p =? ip | None => false end in
  match find_first (by_ cfgip) (bucket (cfg u) k) with
  | Some fd => Some fd
  | None => find_first (by_ con_ip) (bucket (online u) k)
  end.

(** [do_peer_msg]: the message is cut at its last line end, for good. *)
Definition do_peer_msg h (msg : bytes) (fd : Z) : bytes * host master :=
  let msg := match strrchr msg 10 with Some i => take i msg | None => msg end in
  let p := peer_of h fd in
  let u := user h in
  if strncasecmp0 msg (str "pfs_cmd=stoppfs") 15 then
    let '(head, sq) := create_poss_head (seqno u) REQ_STOPPFS 0 in
    (msg, modify_fd_event (set_client_data (set_user h (with_seq u sq)) (p_fd p) head) (p_fd p) EPOLLOUT)
  else
    let '(head, sq) := create_poss_head (seqno u) REQ_PFS_CMD (zlen msg) in
    let h := set_client_data (set_user h (with_seq u sq)) (p_fd p) head in
    (msg, modify_fd_event (set_client_data h (p_fd p) msg) (p_fd p) EPOLLOUT).

Definition do_ip_msg (s : bytes * host master) (sip : bytes) : bytes * host master :=
  let '(msg, h) := s in
  let ip := fst (Ip.get_uint32_ip gethostbyname sip) in
  if ip =? Ip.INADDR_NONE then s
  else match find_ip_stat (user h) ip with
       | None => s
       | Some fd => do_peer_msg h msg fd
       end.

Definition do_domain_msg h (msg : bytes) : host master :=
  snd (fold_left (fun s fd => do_peer_msg (snd s) (fst s) fd) (active (user h)) (msg, h)).

(** The parts of a list with commas. *)
Fixpoint comma_parts (acc s : bytes) : list bytes :=
  match s with
  | [] => [acc]
  | c :: t => if c =? 44 then acc :: comma_parts [] t else comma_parts (acc ++ [c]) t
  end.

Definition do_sub_msg h (buf : bytes) : host master :=
  if negb (strncasecmp0 buf (str "iplist=") 7) then h
  else
    match strchr buf 38 with
    | None => h
    | Some e =>
        let s := drop 7 (take e buf) in
        let msg := drop (S e) buf in
        if strncasecmp0 s (str "allip") 5 then do_domain_msg h msg
        else snd (fold_left do_ip_msg (comma_parts [] s) (msg, h))
    end.

(** One file of [indir]. *)
Definition do_infile h (dir name : bytes) : host master :=
  if at_ name 0 =? 46 then h
  else
    let file := snprintf 256 (dir ++ 47 :: name) in
    match k_open file, Fs.contents (sys (user h)) file with
    | None, Some c =>
        let h := fold_left (fun h l => do_sub_msg h (until0 l)) (fgets_lines (Z.to_nat 20480) (Z.to_nat 20479) [] c) h in
        let '(ok, f) := rename (sys (user h)) file (snprintf 256 (work_name BKDIR name)) in
        set_user h (with_sys (user h) (if ok then f else unlink f file))
    | _, _ => h
    end.

Definition check_indir h : host master :=
  let dir := snprintf 256 (path ++ 47 :: INDIR) in
  match k_readdir (sys (user h)) dir with
  | None => h
  | Some names => fold_left (fun h n => do_infile h dir n) names h
  end.

(** ** The clock *)

Definition timeout_one h (fd : Z) : host master :=
  let p := peer_of h fd in
  let h := if (0 <? p_fd p) && negb ((sock_stat p =? PREPARE_SYNCFILE) || (sock_stat p =? SYNCFILEING))
           then snd (check_close_local h (p_fd p)) else h in
  if i32 (timeout * 10) <? now h - hbtime p then do_close (Some svc_finiconn) h (p_fd p) else h.

Definition svc_timeout h : host master :=
  let h := fold_left timeout_one (active (user h)) h in
  check_indir (snd (check_stat_file h)).

(** [svc_init] behind the opening of the log. *)
Definition svc_init h : Z * host master :=
  check_stat_file (set_user h (mk_master (peers (user h)) [] ∅ ∅ (mk_stat (-1) [] 0) (sys (user h)) (seqno (user h)))).

(** ** What an agent sends *)

Inductive amsg :=
| Submit (sq : Z) (b : bytes)
| Beat (sq st : Z)
| Answer (sq : Z) (b : bytes).

Definition head (sq cmd n : Z) : bytes := fst (create_poss_head sq cmd n).

Definition enc (m : amsg) : bytes :=
  match m with
  | Submit sq b => head sq REQ_SUBMIT (zlen b) ++ b
  | Beat sq st => head sq REQ_HEARTBEAT 1 ++ [st]
  | Answer sq b => head sq RSP_PFS_CMD (zlen b) ++ b
  end.

Definition amsg_ok (m : amsg) : Prop :=
  match m with
  | Submit sq b | Answer sq b => 0 <= sq < 2 ^ 32 /\ zlen b < 2 ^ 31
  | Beat sq st => 0 <= sq < 2 ^ 32 /\ is_byte st
  end.

Definition stream (ms : list amsg) : bytes := concat (map enc ms).
Definition body (m : amsg) : bytes := match m with Submit _ b => b | _ => [] end.
Definition bodies (ms : list amsg) : bytes := concat (map body ms).

Lemma length_head sq cmd n : length (head sq cmd n) = 12%nat.
Proof. done. Qed.

Lemma parse_head sq cmd n rest :
  0 <= sq < 2 ^ 32 -> 0 <= cmd < 2 ^ 32 -> 0 <= n < 2 ^ 31 ->
  parse_msg (head sq cmd n ++ rest) (mk_info 0 0 0) = (0, mk_info (HEADSIZE + n) cmd sq).
Proof. intros. apply parse_create_head; lia. Qed.

Lemma parse_short d : (length d < 12)%nat -> parse_msg d (mk_info 0 0 0) = (E_NOT_SUFFIC, mk_info 0 0 0).
Proof. intros Hl. unfold parse_msg, HEADSIZE. by rewrite (proj2 (Z.ltb_lt _ _)) by lia. Qed.

(** The header of the next message, once twelve bytes of it are there. *)
Lemma head_in q fut sq cmd n rest :
  q ++ fut = head sq cmd n ++ rest -> (12 <= length q)%nat -> exists q', q = head sq cmd n ++ q' /\ q' ++ fut = rest.
Proof.
  intros He Hl. exists (drop 12 q). assert (Ht : take 12 q = head sq cmd n).
  { apply (f_equal (take 12)) in He. rewrite take_app_le, (take_app_length' (head sq cmd n)) in He by done. done. }
  split; [by rewrite <- Ht, take_drop|]. rewrite <- (take_drop 12 q), Ht, <- app_assoc in He. by simplify_list_eq.
Qed.

Section Stream.
Context (fd t j : Z) (ip name : bytes).
Hypothesis write_all : forall lfd d, k_write lfd d = zlen d.
Hypothesis interval : 0 < poss_interval.
Hypothesis can_open : k_open name = None.

Lemma put_file_all f lfd d : put_file f lfd d = (zlen d, append f lfd d).
Proof. unfold put_file. rewrite write_all, (proj2 (Z.ltb_ge _ _)), take_ge by lia. done. Qed.

(** The line a message leaves in the status file. *)
Definition line (m : amsg) : bytes :=
  let l x := time_text t ++ 124 :: ip ++ 124 :: x ++ [10] in
  match m with
  | Submit _ _ => []
  | Beat _ st => l (nth (Z.to_nat (st mod STAT_MAX)) s_server_stat [])
  | Answer _ b => l b
  end.
Definition lines (ms : list amsg) : bytes := concat (map line ms).

(** The file of the peer: not opened yet, or holding [c]. *)
Definition filed (f : fs) (sfd : Z) (p : peer) (c : bytes) : Prop :=
  (local_in_fd p < 0 /\ c = [] /\ paths f !! name = None /\ parent name ∈ dirs f) \/
  (0 < local_in_fd p /\ local_in_fd p <> sfd /\ outfile p = name /\ opentime p = t /\
   exists i, i <> j /\ opened f (local_in_fd p) i c /\ paths f !! name = Some i).

(** The connection of an agent whose file holds [c], with [s] in the status
    file. *)
Record link h (c s : bytes) (p : peer) : Prop := mk_link {
  lk_peer : peers (user h) !! fd = Some p;
  lk_wf : wf_conn h fd;
  lk_now : now h = t;
  lk_role : role p = 0;
  lk_ip : p_ip p = ip;
  lk_name : submit_name h p = name;
  lk_file : filed (sys (user h)) (st_fd (c_stat (user h))) p c;
  lk_stat : 0 <= st_fd (c_stat (user h)) /\ opened (sys (user h)) (st_fd (c_stat (user h))) j s;
  lk_new : 0 < next (sys (user h)) /\ st_fd (c_stat (user h)) < next (sys (user h)) /\ j < next (sys (user h))
}.

Lemma peer_put h x p : peer_of (put_peer h x p) x = p.
Proof. unfold peer_of. simpl. by rewrite lookup_insert_eq. Qed.

Lemma link_peer_of h c s p : link h c s p -> peer_of h fd = p.
Proof. intros L. unfold peer_of. by rewrite (lk_peer _ _ _ _ L). Qed.

(** Steps that keep the file system. *)
Lemma link_put h c s p p' :
  link h c s p -> p_ip p' = p_ip p -> role p' = role p -> local_in_fd p' = local_in_fd p -> opentime p' = opentime p ->
  outfile p' = outfile p -> link (put_peer h fd p') c s p'.
Proof.
  intros [A B C D F G H I J] E1 E2 E3 E4 E5. split; simpl; try done; try congruence.
  - by rewrite lookup_insert_eq.
  - unfold submit_name in *. simpl. by rewrite E1, E2.
  - unfold filed in *. by rewrite E3, E4, E5.
Qed.

Lemma link_refresh h c s p : link h c s p ->
  link (refresh h fd) c s (set_hbtime p (u32 t)) /\ inq (refresh h fd) fd = inq h fd.
Proof.
  intros L. split; [|done]. pose proof (link_peer_of _ _ _ _ L) as Hp. unfold refresh. rewrite Hp, (lk_now _ _ _ _ L).
  destruct L as [A B C D F G H I J]. split; simpl; try done. by rewrite lookup_insert_eq.
Qed.

Lemma link_consume h c s p n : link h c s p -> 0 <= n ->
  link (consume_client_data h fd n) c s p /\ inq (consume_client_data h fd n) fd = drop (Z.to_nat n) (inq h fd).
Proof.
  intros L Hn. destruct (SigStream.consume_spec fd h n (lk_wf _ _ _ _ L) Hn) as [W I]. split; [|done].
  destruct L as [A B C D F G H I' J]. by split.
Qed.

Lemma link_arrive h c s p d : link h c s p -> link (arrive h fd d) c s p /\ inq (arrive h fd d) fd = inq h fd ++ d.
Proof.
  intros L. destruct (arrive_spec h fd d (lk_wf _ _ _ _ L)) as (W & I & _). split; [|done].
  destruct L as [A B C D F G H I' J]. by split.
Qed.

(** Bytes go into the peer's file, or into the status file. *)
Lemma link_write h c s p d : link h c s p -> 0 < local_in_fd p ->
  link (set_user h (with_sys (user h) (append (sys (user h)) (local_in_fd p) d))) (c ++ d) s p.
Proof.
  intros [A B C D F G H [I I'] J] Hl. destruct H as [[H _]|(H1 & H2 & H3 & H4 & i & H5 & H6 & H7)]; [lia|].
  destruct (append_frame (sys (user h)) (local_in_fd p) d) as (P1 & P2 & P3).
  split; simpl; rewrite ?P3; try done.
  - right. split_and!; try done. exists i. rewrite P1. split_and!; try done. by apply opened_append.
  - split; [done|]. by apply (opened_append_ne _ _ i c).
Qed.

Lemma link_status h c s p d : link h c s p ->
  link (set_user h (with_sys (user h) (append (sys (user h)) (st_fd (c_stat (user h))) d))) c (s ++ d) p.
Proof.
  intros [A B C D F G H [I I'] J]. destruct (append_frame (sys (user h)) (st_fd (c_stat (user h))) d) as (P1 & P2 & P3).
  split; simpl; rewrite ?P3; try done.
  - destruct H as [(H1 & H2 & H3 & H4)|(H1 & H2 & H3 & H4 & i & H5 & H6 & H7)]; [left|right]; rewrite ?P1, ?P2; [done|].
    split_and!; try done. exists i. split_and!; try done. by apply (opened_append_ne _ _ j s).
  - split; [done|]. by apply opened_append.
Qed.

Lemma put_all_link l : forall h c s p, link h c s p ->
  link (set_user h (with_sys (user h) (put_all (sys (user h)) (st_fd (c_stat (user h))) l))) c (s ++ concat l) p.
Proof.
  induction l as [|d l IH]; intros h c s p L.
  - rewrite app_nil_r. destruct L as [A B C D F G H I J]. by split.
  - cbn [put_all fold_left concat]. rewrite put_file_all. cbn [snd]. rewrite app_assoc.
    apply (IH _ _ _ _ (link_status h c s p d L)).
Qed.

(** The file is opened when the first submission comes. *)
Lemma link_open h c s p : link h c s p -> local_in_fd p < 0 ->
  exists f lfd, open_create (sys (user h)) name = (inl lfd, f) /\ 0 < lfd /\
    link (put_peer (set_user h (with_sys (user h) f)) fd (set_open p lfd (now h) name)) c s (set_open p lfd (now h) name).
Proof.
  intros [A B C D F G H [I I'] (J1 & J2 & J3)] Hl. destruct H as [(_ & -> & H3 & H4)|H]; [|lia].
  destruct (opened_create (sys (user h)) name can_open H4 H3) as (f & E1 & E2 & E3 & E4 & E5 & E6).
  exists f, (next (sys (user h))). split; [done|]. split; [done|].
  split; simpl; rewrite ?E5; try done; try lia.
  - by rewrite lookup_insert_eq.
  - right. cbn [local_in_fd set_open outfile opentime]. split_and!; try done; try lia. exists (next (sys (user h))). split_and!; try done. lia.
  - split; [done|]. apply E6; [done|lia|lia].
Qed.

(** ** One step *)

(** Where the connection stands: the bytes that have come and those still to
    come, [fut], are the messages [ms], preceded, in the middle of a submission,
    by the rest of its body. *)
Definition idle_at h (ms : list amsg) (fut c s : bytes) : Prop :=
  exists p, link h c s p /\ sock_stat p <> PREPARE_SYNCFILE /\ sock_stat p <> SYNCFILEING /\ inq h fd ++ fut = stream ms.
Definition mid_at h (b : bytes) (ms : list amsg) (fut c s : bytes) : Prop :=
  exists p, link h c s p /\ sock_stat p = SYNCFILEING /\ 0 < local_in_fd p /\ 0 <= recvlen p /\ recvlen p + zlen b = datalen p /\
    datalen p < 2 ^ 31 /\ inq h fd ++ fut = b ++ stream ms.

Lemma close_local_late h c s p : link h c s p -> check_close_local h fd = (RECV_ADD_EPOLLOUT, h).
Proof.
  intros L. unfold check_close_local. rewrite (link_peer_of _ _ _ _ L).
  destruct (lk_file _ _ _ _ L) as [(H & _)|(_ & _ & _ & H & _)].
  - rewrite (proj2 (Z.ltb_ge _ _)) by lia. done.
  - rewrite H, (lk_now _ _ _ _ L), (proj2 (Z.leb_gt poss_interval (t - t))), andb_false_r by lia. done.
Qed.

(** The part of what has come that belongs to the body. *)
Lemma body_part (q fut b rest : bytes) : q ++ fut = b ++ rest ->
  (length q < length b)%nat /\ b = q ++ drop (length q) b /\ fut = drop (length q) b ++ rest \/
  (length b <= length q)%nat /\ q = b ++ drop (length b) q /\ drop (length b) q ++ fut = rest.
Proof.
  intros He. destruct (decide (length q < length b)%nat) as [Hl|Hl]; [left|right]; (split; [lia|]).
  - assert (Ht : take (length q) b = q).
    { apply (f_equal (take (length q))) in He. rewrite take_app_length, take_app_le in He by lia. done. }
    split; [by rewrite <- Ht at 1; rewrite take_drop|].
    rewrite <- (take_drop (length q) b), Ht, <- app_assoc in He at 1. by simplify_list_eq.
  - assert (Ht : take (length b) q = b).
    { apply (f_equal (take (length b))) in He. rewrite take_app_length, take_app_le in He by lia. done. }
    split; [by rewrite <- Ht at 1; rewrite take_drop|].
    rewrite <- (take_drop (length b) q), Ht, <- app_assoc in He at 1. by simplify_list_eq.
Qed.

Lemma sub_step h b ms fut c s : mid_at h b ms fut c s ->
  (exists h' b' c', sub_recv h fd = (RECV_ADD_EPOLLIN, h') /\ mid_at h' b' ms fut c' s /\ inq h' fd = [] /\ c' ++ b' = c ++ b) \/
  (exists h', sub_recv h fd = (RECV_ADD_EPOLLOUT, h') /\ idle_at h' ms fut (c ++ b) s /\ (length (inq h' fd) <= length (inq h fd))%nat).
Proof.
  intros (p & L & Hs & Hl & Hr & Hd & Hm & He). unfold sub_recv. destruct (link_refresh _ _ _ _ L) as [L1 I1].
  rewrite (link_peer_of _ _ _ _ L1). cbn [sock_stat set_hbtime]. rewrite Hs.
  change ((SYNCFILEING =? PREPARE_SYNCFILE) || (SYNCFILEING =? SYNCFILEING)) with true. cbv iota.
  set (h1 := refresh h fd) in *. set (p1 := set_hbtime p (u32 t)) in *. unfold get_client_data.
  rewrite getdata_spec by apply (lk_wf _ _ _ _ L1). fold (inq h1 fd). case_decide as Hq.
  { left. exists h1, b, c. split; [done|]. split; [|done]. exists p1. split; [done|]. by rewrite I1. }
  change (negb (0 =? 0)) with false. cbv iota. cbn [recvlen datalen set_hbtime p1 local_in_fd].
  rewrite I1 in *. assert (Hrem : i32 (datalen p - recvlen p) = zlen b) by (rewrite i32_small; lia). rewrite Hrem.
  rewrite u64_small by lia. rewrite put_file_all.
  destruct (body_part _ _ _ _ He) as [(Hlt & Hb & Hf)|(Hge & Hb & Hf)].
  - left. rewrite (proj2 (Z.leb_le (zlen (inq h fd)) (zlen b))) by lia. rewrite (proj2 (Z.ltb_ge (zlen (inq h fd)) 0)) by lia.
    pose proof (link_write h1 c s p1 (inq h fd) L1 Hl) as L2. change (local_in_fd p1) with (local_in_fd p) in L2.
    destruct (link_consume _ _ _ _ (zlen (inq h fd)) L2 ltac:(lia)) as [L3 I3].
    rewrite i32_small by lia. rewrite (proj2 (Z.leb_gt (datalen p) _)) by lia.
    eexists _, (drop (length (inq h fd)) b), (c ++ inq h fd). split; [done|]. split; [|split].
    + eexists. split; [apply (link_put _ _ _ p1 _ L3); done|]. cbn [sock_stat set_lens local_in_fd recvlen datalen].
      change (inq (put_peer ?x fd ?y) fd) with (inq x fd). rewrite I3. change (inq (set_user h1 _) fd) with (inq h1 fd).
      rewrite I1, Nat2Z.id, drop_all. split_and!; try done; try lia. rewrite length_drop. lia.
    + change (inq (put_peer ?x fd ?y) fd) with (inq x fd). rewrite I3. change (inq (set_user h1 _) fd) with (inq h1 fd).
      rewrite I1. apply drop_ge. lia.
    + rewrite <- app_assoc. by rewrite <- Hb.
  - right. assert (Htk : (if zlen (inq h fd) <=? zlen b then inq h fd else take (Z.to_nat (zlen b)) (inq h fd)) = b).
    { rewrite Nat2Z.id. destruct (zlen (inq h fd) <=? zlen b) eqn:El; b2p.
      - rewrite Hb. rewrite drop_ge by lia. apply app_nil_r.
      - rewrite Hb at 1. apply take_app_length. }
    rewrite Htk. rewrite (proj2 (Z.ltb_ge (zlen b) 0)) by lia. pose proof (link_write h1 c s p1 b L1 Hl) as L2.
    change (local_in_fd p1) with (local_in_fd p) in L2.
    destruct (link_consume _ _ _ _ (zlen b) L2 ltac:(lia)) as [L3 I3].
    rewrite i32_small by lia. rewrite (proj2 (Z.leb_le (datalen p) _)) by lia.
    match goal with |- context [check_close_local (put_peer ?x fd ?y) fd] => pose proof (link_put x _ _ p1 y L3 eq_refl eq_refl eq_refl eq_refl eq_refl) as L4 end.
    rewrite (close_local_late _ _ _ _ L4). eexists. split; [done|].
    change (inq (put_peer ?x fd ?y) fd) with (inq x fd). rewrite I3. change (inq (set_user h1 _) fd) with (inq h1 fd). rewrite I1, Nat2Z.id.
    split; [|rewrite length_drop; lia]. eexists. split; [exact L4|]. split; [done|]. split; [done|].
    change (inq (put_peer ?x fd ?y) fd) with (inq x fd). rewrite I3. change (inq (set_user h1 _) fd) with (inq h1 fd). by rewrite I1, Nat2Z.id.
Qed.

(** A submission begins. *)
Lemma submit_step h sq b ms fut c s :
  idle_at h (Submit sq b :: ms) fut c s -> amsg_ok (Submit sq b) -> (12 <= length (inq h fd))%nat ->
  (exists h' b' c', check_req h fd = Some (RECV_ADD_EPOLLIN, h') /\ mid_at h' b' ms fut c' s /\ inq h' fd = [] /\ c' ++ b' = c ++ b) \/
  (exists h', check_req h fd = Some (RECV_ADD_EPOLLOUT, h') /\ idle_at h' ms fut (c ++ b) s /\ (length (inq h' fd) < length (inq h fd))%nat).
Proof.
  intros (p & L & Hs1 & Hs2 & He) [Hsq Hb] Hl. unfold stream in He. cbn [map concat enc] in He. fold (stream ms) in He.
  rewrite <- app_assoc in He. destruct (head_in _ _ _ _ _ _ He Hl) as (q & Hq & Hf).
  unfold check_req, get_client_data. rewrite getdata_spec by apply (lk_wf _ _ _ _ L). fold (inq h fd).
  rewrite decide_False by (intros Hx; rewrite Hx in Hl; simpl in Hl; lia). change (negb (0 =? 0)) with false. cbv iota.
  assert (parse_msg (inq h fd) (mk_info 0 0 0) = (0, mk_info (HEADSIZE + zlen b) REQ_SUBMIT sq)) as -> by (rewrite Hq; apply parse_head; done || lia).
  change (0 <? 0) with false. cbn [cmdid totallen].
  change ((REQ_SUBMIT =? REQ_HEARTBEAT) || (REQ_SUBMIT =? RSP_PFS_CMD) || (REQ_SUBMIT =? REQ_AUTH)) with false.
  change (REQ_SUBMIT =? REQ_SUBMIT) with true. cbv iota. unfold process_data_req. rewrite (link_peer_of _ _ _ _ L).
  assert (Hgo : forall h1 p1, link h1 c s p1 -> 0 < local_in_fd p1 -> inq h1 fd = inq h fd ->
    let h2 := consume_client_data (put_peer h1 fd (set_lens p1 SYNCFILEING 0 (i32 (HEADSIZE + zlen b - HEADSIZE)))) fd HEADSIZE in
    mid_at h2 b ms fut c s /\ inq h2 fd = q).
  { intros h1 p1 L1 Hp1 Hi. cbv zeta. replace (i32 (HEADSIZE + zlen b - HEADSIZE)) with (zlen b) by (rewrite i32_small; unfold HEADSIZE; lia).
    pose proof (link_put h1 c s p1 (set_lens p1 SYNCFILEING 0 (zlen b)) L1 eq_refl eq_refl eq_refl eq_refl eq_refl) as L2.
    destruct (link_consume _ _ _ _ HEADSIZE L2 ltac:(done)) as [L3 I3].
    change (inq (put_peer h1 fd _) fd) with (inq h1 fd) in I3. rewrite Hi, Hq in I3. rewrite (drop_app_length' (head _ _ _)) in I3 by done.
    split; [|exact I3]. eexists. split; [exact L3|]. rewrite I3. cbn [sock_stat set_lens local_in_fd recvlen datalen]. split_and!; try done; lia. }
  assert (Hq' : (length q < length (inq h fd))%nat) by (rewrite Hq, length_app, length_head; lia).
  destruct (local_in_fd p <? 0) eqn:El; b2p.
  - rewrite (lk_name _ _ _ _ L). destruct (link_open _ _ _ _ L El) as (f & lfd & -> & Hlfd & L1).
    cbv beta iota zeta. cbn [totallen]. rewrite (link_peer_of _ _ _ _ L1). destruct (Hgo _ _ L1 Hlfd eq_refl) as [M1 M2].
    destruct (sub_step _ _ _ _ _ _ M1) as [(h' & b' & c' & E1 & E2 & E3)|(h' & E1 & E2 & E3)]; [left|right].
    + exists h', b', c'. by rewrite E1.
    + exists h'. rewrite E1. split_and!; try done. rewrite M2 in E3. lia.
  - assert (Hp : 0 < local_in_fd p) by (destruct (lk_file _ _ _ _ L) as [(H & _)|(H & _)]; lia).
    cbv beta iota zeta. cbn [totallen]. rewrite ?(link_peer_of _ _ _ _ L). destruct (Hgo _ _ L Hp eq_refl) as [M1 M2].
    destruct (sub_step _ _ _ _ _ _ M1) as [(h' & b' & c' & E1 & E2 & E3)|(h' & E1 & E2 & E3)]; [left|right].
    + exists h', b', c'. by rewrite E1.
    + exists h'. rewrite E1. split_and!; try done. rewrite M2 in E3. lia.
Qed.

(** Nothing can be done before the next message is there. *)
Lemma short_step h ms fut c s :
  idle_at h ms fut c s -> (length (inq h fd) < 12)%nat -> check_req h fd = Some (-1, h).
Proof.
  intros (p & L & _) Hl. unfold check_req, get_client_data. rewrite getdata_spec by apply (lk_wf _ _ _ _ L). fold (inq h fd).
  case_decide; [done|]. change (negb (0 =? 0)) with false. cbv iota. by rewrite parse_short.
Qed.

(** A heartbeat or an answer, complete or not. *)
Lemma status_step h m ms fut c s :
  idle_at h (m :: ms) fut c s -> amsg_ok m -> (forall sq b, m <> Submit sq b) -> (12 <= length (inq h fd))%nat ->
  check_req h fd = Some (-1, h) /\ (length (inq h fd) < length (enc m))%nat \/
  (exists h', check_req h fd = Some (0, h') /\ idle_at h' ms fut c (s ++ line m) /\ (length (inq h' fd) < length (inq h fd))%nat).
Proof.
  intros (p & L & Hs1 & Hs2 & He) Hok Hm Hl. set (q := inq h fd) in *.
  unfold check_req, get_client_data. rewrite getdata_spec by apply (lk_wf _ _ _ _ L). fold (inq h fd). fold q.
  rewrite decide_False by (intros Hx; rewrite Hx in Hl; simpl in Hl; lia). change (negb (0 =? 0)) with false. cbv iota.
  assert (Hx : exists sq cmd b, enc m = head sq cmd (zlen b) ++ b /\ 0 <= sq < 2 ^ 32 /\ 0 <= zlen b < 2 ^ 31 /\
    (cmd = REQ_HEARTBEAT /\ (exists st, b = [st] /\ m = Beat sq st) \/ cmd = RSP_PFS_CMD /\ m = Answer sq b)).
  { destruct m as [sq b|sq st|sq b]; [by destruct (Hm sq b)| |]; destruct Hok as [H1 H2].
    - exists sq, REQ_HEARTBEAT, [st]. split; [done|]. split; [done|]. split; [done|]. left. split; [done|]. by exists st.
    - exists sq, RSP_PFS_CMD, b. split; [done|]. split; [done|]. split; [lia|]. by right. }
  destruct Hx as (sq & cmd & b & Hen & Hsq & Hb & Hcmd). assert (Hcr : 0 <= cmd < 2 ^ 32) by (destruct Hcmd as [[-> _]|[-> _]]; done).
  unfold stream in He. cbn [map concat] in He. fold (stream ms) in He. rewrite Hen, <- app_assoc in He.
  destruct (head_in _ _ _ _ _ _ He Hl) as (q' & Hq & Hf).
  assert (parse_msg q (mk_info 0 0 0) = (0, mk_info (HEADSIZE + zlen b) cmd sq)) as -> by (rewrite Hq; by apply parse_head).
  change (0 <? 0) with false. cbn [cmdid totallen].
  assert ((cmd =? REQ_HEARTBEAT) || (cmd =? RSP_PFS_CMD) || (cmd =? REQ_AUTH) = true) as -> by (destruct Hcmd as [[-> _]|[-> _]]; done).
  assert (cmd =? REQ_AUTH = false) as -> by (destruct Hcmd as [[-> _]|[-> _]]; done).
  assert (Hlen : length (enc m) = (12 + length b)%nat) by (by rewrite Hen, length_app, length_head).
  destruct (zlen q <? HEADSIZE + zlen b) eqn:El; b2p; unfold HEADSIZE in El; [left; split; [done|lia]|right].
  destruct (body_part _ _ _ _ Hf) as [(Hlt & _)|(Hge & Hb1 & Hf1)].
  { rewrite Hq, length_app, length_head in El. lia. }
  assert (Hn : exists h1 p1, note_status h fd (mk_info (HEADSIZE + zlen b) cmd sq) q = Some h1 /\ link h1 c (s ++ line m) p1 /\
    sock_stat p1 = sock_stat p /\ inq h1 fd = q).
  { unfold note_status. rewrite (proj2 (Z.ltb_ge _ _)) by apply (proj1 (lk_stat _ _ _ _ L)). cbn [cmdid totallen].
    rewrite (link_peer_of _ _ _ _ L), (lk_now _ _ _ _ L), (lk_ip _ _ _ _ L).
    destruct Hcmd as [[-> (st & -> & ->)]|[-> ->]].
    - change (REQ_HEARTBEAT =? REQ_HEARTBEAT) with true. cbv iota zeta.
      assert (nth 12 q beyond = st) as -> by (rewrite Hq, Hb1; done).
      eexists _, (set_server_stat p st). split; [done|].
      pose proof (put_all_link [time_text t; [124]; ip; [124]; nth (Z.to_nat (st mod STAT_MAX)) s_server_stat []; [10]] _ _ _ _
        (link_put h c s p (set_server_stat p st) L eq_refl eq_refl eq_refl eq_refl eq_refl)) as L1.
      cbn [concat] in L1. unfold line. split; [|done].
      replace (time_text t ++ 124 :: ip ++ 124 :: nth (Z.to_nat (st mod STAT_MAX)) s_server_stat [] ++ [10])
        with (time_text t ++ [124] ++ ip ++ [124] ++ nth (Z.to_nat (st mod STAT_MAX)) s_server_stat [] ++ [10] ++ []) by done.
      exact L1.
    - change (RSP_PFS_CMD =? REQ_HEARTBEAT) with false. cbv iota zeta. rewrite (proj2 (Z.ltb_ge _ _)) by (unfold HEADSIZE; lia).
      assert (take (Z.to_nat (HEADSIZE + zlen b - HEADSIZE)) (drop 12 q) = b) as ->.
      { rewrite Hq, (drop_app_length' (head _ _ _)) by done. replace (Z.to_nat (HEADSIZE + zlen b - HEADSIZE)) with (length b) by (unfold HEADSIZE; lia).
        rewrite Hb1. apply take_app_length. }
      eexists _, p. split; [done|]. split; [|done].
      pose proof (put_all_link [time_text t; [124]; ip; [124]; b; [10]] _ _ _ _ L) as L1. cbn [concat] in L1. exact L1. }
  destruct Hn as (h1 & p1 & -> & L1 & Hst & Hi). cbn [mbind option_bind].
  destruct (link_consume _ _ _ _ (HEADSIZE + zlen b) L1 ltac:(unfold HEADSIZE; lia)) as [L2 I2].
  eexists. split; [done|]. rewrite Hi in I2. assert (Hd : inq (consume_client_data h1 fd (HEADSIZE + zlen b)) fd = drop (length b) q').
  { rewrite I2, Hq. replace (Z.to_nat (HEADSIZE + zlen b)) with (12 + length b)%nat by (unfold HEADSIZE; lia).
    rewrite <- drop_drop. by rewrite (drop_app_length' (head _ _ _)). }
  rewrite Hd. split; [|rewrite length_drop, Hq, length_app, length_head; lia].
  exists p1. rewrite Hst, Hd. by split_and!.
Qed.

(** Where the loop stops: between messages, with less than the next one there,
    or inside a body, with all that has come stored. *)
Inductive settled h (ms : list amsg) (fut c s : bytes) : Prop :=
| settled_idle : idle_at h ms fut c s -> (forall m ms', ms = m :: ms' -> (length (inq h fd) < length (enc m))%nat) ->
    settled h ms fut c s
| settled_mid b ms' c' : mid_at h b ms' fut c' s -> inq h fd = [] -> c' ++ b ++ bodies ms' = c ++ bodies ms ->
    lines ms' = lines ms -> Forall amsg_ok ms' -> settled h ms fut c s.

(** The file and the status file, with what is still to come, stay the same. *)
Definition same_total (c s : bytes) (ms : list amsg) (c' s' : bytes) (ms' : list amsg) : Prop :=
  c' ++ bodies ms' = c ++ bodies ms /\ s' ++ lines ms' = s ++ lines ms.

Lemma req_loop_spec ms : forall h fut c s fuel,
  idle_at h ms fut c s -> Forall amsg_ok ms -> (length (inq h fd) < fuel)%nat ->
  exists h' ms' c' s', req_loop fuel h fd = Some (RECV_ADD_EPOLLIN, h') /\ settled h' ms' fut c' s' /\ Forall amsg_ok ms' /\
    same_total c s ms c' s' ms'.
Proof.
  induction ms as [|m ms IH]; intros h fut c s fuel HI HF Hfu; (destruct fuel as [|fuel]; [lia|]).
  { exists h, [], c, s. assert (Hq : inq h fd = []).
    { destruct HI as (p & _ & _ & _ & He). unfold stream in He. simpl in He. by apply app_nil in He as [-> _]. }
    cbn [req_loop]. rewrite (short_step h [] fut c s HI) by (rewrite Hq; simpl; lia). cbn [mbind option_bind].
    change (-1 =? -1) with true. cbv iota. split_and!; try done. by apply settled_idle. }
  assert (H12 : (12 <= length (enc m))%nat) by (destruct m; cbn [enc]; rewrite length_app, length_head; lia).
  destruct (decide (length (inq h fd) < 12)%nat) as [Hs|Hs].
  { exists h, (m :: ms), c, s. cbn [req_loop]. rewrite (short_step h (m :: ms) fut c s HI Hs). cbn [mbind option_bind].
    change (-1 =? -1) with true. cbv iota. split_and!; try done. apply settled_idle; [done|]. intros m' ms' [= <- <-]. lia. }
  apply Forall_cons in HF as [Hm HF]. cbn [req_loop].
  assert (Hc : (exists sq b, m = Submit sq b) \/ ~ (exists sq b, m = Submit sq b))
    by (destruct m; [left; by eexists _, _|right; by intros (? & ? & ?)..]).
  destruct Hc as [(sq & b & ->)|Hn].
  - destruct (submit_step h sq b ms fut c s HI Hm ltac:(lia)) as [(h' & b' & c' & -> & M1 & M2 & M3)|(h' & -> & M1 & M2)].
    + cbn [mbind option_bind]. change (RECV_ADD_EPOLLIN =? -1) with false. cbv iota.
      change ((RECV_ADD_EPOLLIN =? RECV_CLOSE) || (RECV_ADD_EPOLLIN =? RECV_ADD_EPOLLIN)) with true. cbv iota.
      exists h', (Submit sq b :: ms), c, s. split; [done|]. split; [|by split_and!; [constructor|..]].
      apply (settled_mid _ _ _ _ _ b' ms c'); try done. unfold bodies. cbn [map concat body]. by rewrite !app_assoc, M3.
    + cbn [mbind option_bind]. change (RECV_ADD_EPOLLOUT =? -1) with false. cbv iota.
      change ((RECV_ADD_EPOLLOUT =? RECV_CLOSE) || (RECV_ADD_EPOLLOUT =? RECV_ADD_EPOLLIN)) with false. cbv iota.
      destruct (IH h' fut (c ++ b) s fuel M1 HF ltac:(lia)) as (h2 & ms2 & c2 & s2 & -> & S1 & S2 & S3 & S4).
      exists h2, ms2, c2, s2. split_and!; try done. split; [|done]. rewrite S3, <- app_assoc. done.
  - destruct (status_step h m ms fut c s HI Hm) as [[-> Hl]|(h' & -> & M1 & M2)].
    { intros sq b ->. apply Hn. by exists sq, b. } { lia. }
    + cbn [mbind option_bind]. change (-1 =? -1) with true. cbv iota. exists h, (m :: ms), c, s. split_and!; try done.
      * apply settled_idle; [done|]. by intros m' ms' [= <- <-].
      * by constructor.
    + cbn [mbind option_bind]. change (0 =? -1) with false. change ((0 =? RECV_CLOSE) || (0 =? RECV_ADD_EPOLLIN)) with false. cbv iota.
      destruct (IH h' fut c (s ++ line m) fuel M1 HF ltac:(lia)) as (h2 & ms2 & c2 & s2 & -> & S1 & S2 & S3 & S4).
      exists h2, ms2, c2, s2. split_and!; try done. split.
      * rewrite S3. destruct m as [sq b| |]; [|done|done]. destruct Hn. by exists sq, b.
      * rewrite S4, <- app_assoc. done.
Qed.

Lemma idle_refresh h ms fut c s : idle_at h ms fut c s ->
  idle_at (refresh h fd) ms fut c s /\ inq (refresh h fd) fd = inq h fd /\
  (sock_stat (peer_of (refresh h fd) fd) =? PREPARE_SYNCFILE) || (sock_stat (peer_of (refresh h fd) fd) =? SYNCFILEING) = false.
Proof.
  intros (p & L & H1 & H2 & He). destruct (link_refresh _ _ _ _ L) as [L1 I1]. split; [|split; [done|]].
  - exists (set_hbtime p (u32 t)). rewrite I1. by split_and!.
  - rewrite (link_peer_of _ _ _ _ L1). cbn [sock_stat set_hbtime]. by rewrite (proj2 (Z.eqb_neq _ _) H1), (proj2 (Z.eqb_neq _ _) H2).
Qed.

Lemma mid_refresh h b ms fut c s : mid_at h b ms fut c s ->
  mid_at (refresh h fd) b ms fut c s /\ sock_stat (peer_of (refresh h fd) fd) = SYNCFILEING.
Proof.
  intros (p & L & H1 & H2 & H3 & H4 & H5 & He). destruct (link_refresh _ _ _ _ L) as [L1 I1]. split.
  - exists (set_hbtime p (u32 t)). rewrite I1. by split_and!.
  - by rewrite (link_peer_of _ _ _ _ L1).
Qed.

Lemma idle_wf h ms fut c s : idle_at h ms fut c s -> length (snd (get_client_data h fd)) = length (inq h fd).
Proof.
  intros (p & L & _). unfold get_client_data. rewrite getdata_spec by apply (lk_wf _ _ _ _ L). fold (inq h fd).
  case_decide as Hq; [by rewrite Hq|done].
Qed.

Lemma recv_step h ms fut c s d : settled h ms (d ++ fut) c s -> Forall amsg_ok ms ->
  exists h' ms' c' s', svc_recv (arrive h fd d) fd = Some (RECV_ADD_EPOLLIN, h') /\ settled h' ms' fut c' s' /\ Forall amsg_ok ms' /\
    same_total c s ms c' s' ms'.
Proof.
  intros [(p & L & H1 & H2 & He) _|b ms1 c1 (p & L & H1 & H2 & H3 & H4 & H5 & He) Hq Hb Hls HF1] HF;
    destruct (link_arrive _ _ _ _ d L) as [LA IA]; unfold svc_recv.
  - destruct (idle_refresh (arrive h fd d) ms fut c s) as (I1 & I2 & ->).
    { exists p. rewrite IA, <- app_assoc. by split_and!. }
    apply req_loop_spec; [done|done|]. rewrite (idle_wf _ _ _ _ _ I1). lia.
  - destruct (mid_refresh (arrive h fd d) b ms1 fut c1 s) as (M1 & M2).
    { exists p. rewrite IA, <- app_assoc. by split_and!. }
    rewrite M2. change ((SYNCFILEING =? PREPARE_SYNCFILE) || (SYNCFILEING =? SYNCFILEING)) with true. cbv iota.
    destruct (sub_step _ _ _ _ _ _ M1) as [(h' & b' & c' & -> & N1 & N2 & N3)|(h' & -> & N1 & N2)].
    + change ((RECV_ADD_EPOLLIN =? RECV_ADD_EPOLLIN) || (RECV_ADD_EPOLLIN =? RECV_CLOSE)) with true. cbv iota.
      exists h', ms, c, s. split; [done|]. split; [|done]. apply (settled_mid _ _ _ _ _ b' ms1 c'); try done.
      by rewrite <- Hb, !app_assoc, N3.
    + change ((RECV_ADD_EPOLLOUT =? RECV_ADD_EPOLLIN) || (RECV_ADD_EPOLLOUT =? RECV_CLOSE)) with false. cbv iota.
      destruct (req_loop_spec ms1 h' fut (c1 ++ b) s (S (length (snd (get_client_data h' fd)))) N1 HF1) as (h2 & ms2 & c2 & s2 & E2 & S1 & S2 & S3 & S4).
      { rewrite (idle_wf _ _ _ _ _ N1). lia. }
      exists h2, ms2, c2, s2. split_and!; try done. split; [rewrite S3, <- app_assoc; done|]. by rewrite S4, Hls.
Qed.

(** The agent's bytes, as they come. *)
Fixpoint feed h (chunks : list bytes) : option (host master) :=
  match chunks with
  | [] => Some h
  | d :: ds => '(r, h) ← svc_recv (arrive h fd d) fd; if r =? RECV_ADD_EPOLLIN then feed h ds else None
  end.

Lemma feed_spec chunks : forall h ms fut c s, settled h ms (concat chunks ++ fut) c s -> Forall amsg_ok ms ->
  exists h' ms' c' s', feed h chunks = Some h' /\ settled h' ms' fut c' s' /\ Forall amsg_ok ms' /\ same_total c s ms c' s' ms'.
Proof.
  induction chunks as [|d ds IH]; intros h ms fut c s HS HF.
  { by exists h, ms, c, s. }
  cbn [concat] in HS. rewrite <- app_assoc in HS. destruct (recv_step h ms _ c s d HS HF) as (h1 & ms1 & c1 & s1 & E1 & S1 & F1 & T1 & T2).
  cbn [feed]. rewrite E1. cbn [mbind option_bind]. change (RECV_ADD_EPOLLIN =? RECV_ADD_EPOLLIN) with true. cbv iota.
  destruct (IH h1 ms1 fut c1 s1 S1 F1) as (h2 & ms2 & c2 & s2 & E2 & S2 & F2 & U1 & U2).
  exists h2, ms2, c2, s2. split_and!; try done. split; congruence.
Qed.

Lemma stream_nil ms : stream ms = [] -> ms = [].
Proof.
  destruct ms as [|m ms]; [done|]. unfold stream. cbn [map concat]. intros H. apply app_nil in H as [H _].
  apply (f_equal length) in H. destruct m; cbn [enc] in H; rewrite length_app, length_head in H; simpl in H; lia.
Qed.

(** Nothing more is to come. *)
Lemma settled_end h ms c s : settled h ms [] c s ->
  exists p, link h (c ++ bodies ms) (s ++ lines ms) p /\ inq h fd = [].
Proof.
  intros [(p & L & H1 & H2 & He) Hs|b ms1 c1 (p & L & H1 & H2 & H3 & H4 & H5 & He) Hq Hb Hls HF1]; rewrite app_nil_r in He.
  - destruct ms as [|m ms]; [exists p; by rewrite !app_nil_r|]. specialize (Hs m ms eq_refl). rewrite He in Hs.
    unfold stream in Hs. cbn [map concat] in Hs. rewrite length_app in Hs. lia.
  - rewrite Hq in He. symmetry in He. apply app_nil in He as [-> He]. apply stream_nil in He as ->.
    exists p. rewrite <- Hb, <- Hls, !app_nil_r. done.
Qed.

Lemma link_contents h c s p : link h c s p -> default [] (Fs.contents (sys (user h)) name) = c.
Proof.
  intros L. unfold Fs.contents. destruct (lk_file _ _ _ _ L) as [(_ & H2 & H3 & _)|(_ & _ & _ & _ & i & _ & [_ H6] & H7)].
  - rewrite H3. simpl. by rewrite H2.
  - rewrite H7. cbn [mbind option_bind]. by rewrite H6.
Qed.

(** All the messages of a new connection. *)
Lemma feed_all chunks h ms s p :
  link h [] s p -> sock_stat p = CONNECTED -> inq h fd = [] -> Forall amsg_ok ms -> concat chunks = stream ms ->
  exists h' p', feed h chunks = Some h' /\ link h' (bodies ms) (s ++ lines ms) p' /\ inq h' fd = [].
Proof.
  intros L Hst Hq HF Hc.
  destruct (feed_spec chunks h ms [] [] s) as (h' & ms' & c' & s' & E1 & S1 & _ & T1 & T2); [|done|].
  { rewrite app_nil_r, Hc. apply settled_idle.
    - exists p. rewrite Hq, Hst. by split_and!.
    - intros m ms' ->. rewrite Hq. destruct m; cbn [enc]; rewrite length_app, length_head; simpl; lia. }
  destruct (settled_end h' ms' c' s' S1) as (p' & L' & Hq'). rewrite T1, T2 in L'. by exists h', p'.
Qed.

(** The end of the connection publishes the file. *)
Lemma fini_publishes h c s p : link h c s p -> 0 < local_in_fd p -> poss_interval <= t -> k_rename name (snprintf 256 (work_name OUTDIR (basename name))) = true ->
  snprintf 256 name = name -> name <> snprintf 256 (work_name OUTDIR (basename name)) ->
  let f := sys (user (svc_finiconn h fd)) in
  Fs.contents f (snprintf 256 (work_name OUTDIR (basename name))) = Some c /\ paths f !! name = None.
Proof.
  intros L Hl Ht Hk Hn Hne f. unfold f, svc_finiconn. rewrite (lk_peer _ _ _ _ L).
  destruct (lk_file _ _ _ _ L) as [(H & _)|(_ & H2 & H3 & H4 & i & H5 & [_ H6] & H7)]; [lia|].
  unfold check_close_local. rewrite peer_put. cbv zeta. cbn [local_in_fd set_open opentime outfile].
  change (now (put_peer h fd ?x)) with (now h). rewrite (lk_now _ _ _ _ L).
  rewrite (proj2 (Z.ltb_lt _ _) Hl), (proj2 (Z.leb_le poss_interval (t - 0))) by lia. cbn [andb snd].
  rewrite peer_put. cbn [local_in_fd set_local]. change (0 <? -1) with false. cbv iota.
  cbn [put_peer user set_user with_peers peers with_sys with_conns sys].
  rewrite H3. unfold publish, rename. rewrite Hn. cbn [paths close]. rewrite H7, Hk. cbn [snd].
  unfold Fs.contents. cbn [paths inodes close]. rewrite lookup_insert_eq. cbn [mbind option_bind]. split; [done|].
  rewrite lookup_insert_ne by done. apply lookup_delete_eq.
Qed.

End Stream.

(** ** Commands *)

(** The message for an agent. *)
Definition command (sq : Z) (msg : bytes) : bytes := head sq REQ_PFS_CMD (zlen msg) ++ msg.

(** A server is named, and connected. *)
Definition reaches h (sip : bytes) (fd : Z) : Prop :=
  exists ip, fst (Ip.get_uint32_ip gethostbyname sip) = ip /\ ip <> Ip.INADDR_NONE /\ find_ip_stat (user h) ip = Some fd /\
    p_fd (peer_of h fd) = fd /\ wf_conn h fd.

Lemma do_peer_msg_spec h msg fd :
  p_fd (peer_of h fd) = fd -> wf_conn h fd -> strrchr msg 10 = None -> strncasecmp0 msg (str "pfs_cmd=stoppfs") 15 = false ->
  exists h', do_peer_msg h msg fd = (msg, h') /\ outq h' fd = outq h fd ++ command (seqno (user h)) msg /\
    (forall x, x <> fd -> outq h' x = outq h x) /\ (forall x, wf_conn h x -> wf_conn h' x) /\
    user h' = with_seq (user h) (u32 (seqno (user h) + 1)).
Proof.
  intros Hp Hw Hm Hs. unfold do_peer_msg. rewrite Hm, Hs, Hp. unfold create_poss_head, getseq. eexists. split; [done|].
  set (u := with_seq _ _). set (h1 := set_client_data (set_user h u) _ _).
  assert (Hc : forall b d, wf b -> wf (put b d) /\ MyBuff.contents (put b d) = MyBuff.contents b ++ d) by (intros b d Hb; split; apply (put_spec b d Hb)).
  unfold outq, wf_conn. assert (Hmod : forall g x, conn_of (modify_fd_event g fd EPOLLOUT) x = conn_of (U := master) g x).
  { intros g x. unfold modify_fd_event, epoll_mod. by destruct (epoll g !! fd). }
  assert (Hus : forall g, user (modify_fd_event g fd EPOLLOUT) = user (U := master) g).
  { intros g. unfold modify_fd_event, epoll_mod. by destruct (epoll g !! fd). }
  assert (H1 : conn_of h1 fd = set_send (conn_of h fd) (put (send_buff (conn_of h fd)) (head (seqno (user h)) REQ_PFS_CMD (zlen msg)))).
  { unfold h1, set_client_data. by rewrite conn_set, decide_True by done. }
  assert (H2 : forall x, x <> fd -> conn_of h1 x = conn_of h x).
  { intros x Hx. unfold h1, set_client_data. by rewrite conn_set, decide_False by done. }
  destruct Hw as [W1 W2]. destruct (Hc _ (head (seqno (user h)) REQ_PFS_CMD (zlen msg)) W1) as [W3 C3].
  destruct (Hc _ msg W3) as [W4 C4]. split_and!.
  - rewrite Hmod. unfold set_client_data. rewrite conn_set, decide_True by done. rewrite H1. cbn [send_buff set_send]. by rewrite C4, C3, <- app_assoc.
  - intros x Hx. rewrite Hmod. unfold set_client_data. by rewrite conn_set, decide_False, H2 by done.
  - intros x [X1 X2]. rewrite Hmod. unfold set_client_data. rewrite conn_set. case_decide as Hx; [|by rewrite H2]. rewrite H1. cbn [send_buff recv_buff set_send]. by split.
  - by rewrite Hus.
Qed.

Lemma reaches_kept h h' sip fd s :
  reaches h sip fd -> (forall x, wf_conn h x -> wf_conn h' x) -> user h' = with_seq (user h) s -> reaches h' sip fd.
Proof.
  intros (ip & A & B & C & D & F) Hw Hu. exists ip. split_and!; try done; [|unfold peer_of in *|by apply Hw]; by rewrite Hu.
Qed.

Lemma ip_loop_spec l : forall h msg dst,
  Forall2 (reaches h) l dst -> NoDup dst -> 0 <= seqno (user h) < 2 ^ 32 ->
  strrchr msg 10 = None -> strncasecmp0 msg (str "pfs_cmd=stoppfs") 15 = false ->
  exists h', fold_left do_ip_msg l (msg, h) = (msg, h') /\
    (forall k fd, dst !! k = Some fd -> outq h' fd = outq h fd ++ command (u32 (seqno (user h) + Z.of_nat k)) msg) /\
    (forall fd, fd ∉ dst -> outq h' fd = outq h fd) /\ sys (user h') = sys (user h).
Proof.
  induction l as [|sip l IH]; intros h msg dst HF HN Hq Hm Hs.
  { apply Forall2_nil_inv_l in HF as ->. exists h. by split_and!. }
  apply Forall2_cons_inv_l in HF as (fd & dst' & Hr & HF & ->). apply NoDup_cons in HN as [Hn HN].
  destruct Hr as (ip & A & B & C & D & F). cbn [fold_left do_ip_msg]. rewrite A. rewrite (proj2 (Z.eqb_neq _ _) B), C.
  destruct (do_peer_msg_spec h msg fd D F Hm Hs) as (h1 & -> & O1 & O2 & W1 & U1).
  destruct (IH h1 msg dst') as (h2 & -> & P1 & P2 & P3); try done.
  { eapply Forall2_impl; [exact HF|]. intros x y Hx. by apply (reaches_kept h h1 x y _ Hx W1 U1). }
  { rewrite U1. apply u32_range. }
  exists h2. split; [done|]. split; [|split].
  - intros [|k] x Hk; simpl in Hk.
    + injection Hk as <-. rewrite P2, O1 by done. by rewrite Z.add_0_r, u32_small by lia.
    + rewrite (P1 k x Hk), O2 by (intros ->; apply Hn; by apply (list_elem_of_lookup_2 _ k)). do 2 f_equal.
      rewrite U1. cbn [seqno with_seq]. unfold u32. rewrite Zplus_mod_idemp_l. f_equal. lia.
  - intros x Hx. apply not_elem_of_cons in Hx as [Hx1 Hx2]. by rewrite P2, O2.
  - rewrite P3, U1. done.
Qed.

(** A list with commas. *)
Fixpoint commas (l : list bytes) : bytes :=
  match l with
  | [] => []
  | [x] => x
  | x :: t => x ++ 44 :: commas t
  end.

Lemma comma_parts_app acc x rest : 44 ∉ x -> comma_parts acc (x ++ 44 :: rest) = (acc ++ x) :: comma_parts [] rest.
Proof.
  revert acc. induction x as [|c x IH]; intros acc Hx; cbn [comma_parts app].
  - by rewrite app_nil_r.
  - apply not_elem_of_cons in Hx as [Hc Hx]. rewrite (proj2 (Z.eqb_neq c 44)) by done. rewrite IH by done. by rewrite <- app_assoc.
Qed.

Lemma comma_parts_last acc x : 44 ∉ x -> comma_parts acc x = [acc ++ x].
Proof.
  revert acc. induction x as [|c x IH]; intros acc Hx; cbn [comma_parts].
  - by rewrite app_nil_r.
  - apply not_elem_of_cons in Hx as [Hc Hx]. rewrite (proj2 (Z.eqb_neq c 44)) by done. rewrite IH by done. by rewrite <- app_assoc.
Qed.

Lemma comma_parts_commas l : l <> [] -> Forall (fun x => 44 ∉ x) l -> comma_parts [] (commas l) = l.
Proof.
  intros Hne HF. induction l as [|x l IH]; [done|]. apply Forall_cons in HF as [Hx HF]. destruct l as [|y l].
  - by rewrite comma_parts_last.
  - change (commas (x :: y :: l)) with (x ++ 44 :: commas (y :: l)). rewrite comma_parts_app by done. by rewrite IH.
Qed.


Lemma peer_msg_eol h msg fd : 10 ∉ msg -> do_peer_msg h (msg ++ [10]) fd = do_peer_msg h msg fd.
Proof. intros Hn. unfold do_peer_msg. rewrite (strrchr_app_r msg [] 10), take_app_length by apply not_elem_of_nil.
  by rewrite (proj2 (strrchr_None msg 10)). Qed.

Lemma fgets_line n x : forall room acc, 10 ∉ x -> (length x < room)%nat -> fgets_lines n room acc (x ++ [10]) = [acc ++ x ++ [10]].
Proof.
  induction x as [|c x IH]; intros room acc Hn Hr; cbn [fgets_lines app].
  - change (10 =? 10) with true. cbn [orb]. by rewrite bool_decide_true.
  - apply not_elem_of_cons in Hn as [Hc Hn]. simpl in Hr. rewrite (proj2 (Z.eqb_neq c 10)) by done.
    rewrite bool_decide_false by lia. cbn [orb]. rewrite IH by (done || lia). by rewrite <- app_assoc.
Qed.

(** A line for the servers [l]. *)
Definition command_line (l : list bytes) (msg : bytes) : bytes := str "iplist=" ++ commas l ++ 38 :: msg ++ [10].

Record line_ok (l : list bytes) (msg : bytes) : Prop := mk_line_ok {
  ln_some : l <> [];
  ln_comma : Forall (fun x => 44 ∉ x) l;
  ln_amp : 38 ∉ commas l;
  ln_list : strncasecmp0 (commas l) (str "allip") 5 = false;
  ln_eol : 10 ∉ commas l /\ 10 ∉ msg;
  ln_stop : strncasecmp0 msg (str "pfs_cmd=stoppfs") 15 = false;
  ln_cstr : cstr (command_line l msg);
  ln_len : zlen (command_line l msg) < 20480
}.

Lemma until0_whole s : cstr s -> until0 s = s.
Proof. induction 1 as [|c s Hc _ IH]; simpl; [done|]. rewrite (proj2 (Z.eqb_neq c 0)) by lia. by rewrite IH. Qed.

Lemma sub_msg_spec h l msg dst :
  line_ok l msg -> Forall2 (reaches h) l dst -> NoDup dst -> 0 <= seqno (user h) < 2 ^ 32 ->
  exists h', do_sub_msg h (command_line l msg) = h' /\
    (forall k fd, dst !! k = Some fd -> outq h' fd = outq h fd ++ command (u32 (seqno (user h) + Z.of_nat k)) msg) /\
    (forall fd, fd ∉ dst -> outq h' fd = outq h fd) /\ sys (user h') = sys (user h).
Proof.
  intros [A B C D [F1 F2] G _ _] HF HN Hq. unfold do_sub_msg. change (strncasecmp0 (command_line l msg) (str "iplist=") 7) with true. cbv iota.
  cbn [negb]. unfold command_line.
  rewrite app_assoc, strchr_app_r.
  2: { rewrite not_elem_of_app. split; [|done]. by apply (bool_decide_unpack _). }
  cbv zeta. rewrite take_app_length.
  assert (drop (S (length (str "iplist=" ++ commas l))) ((str "iplist=" ++ commas l) ++ 38 :: msg ++ [10]) = msg ++ [10]) as ->.
  { rewrite drop_app_ge by lia. by replace (S (length (str "iplist=" ++ commas l)) - length (str "iplist=" ++ commas l))%nat with 1%nat by lia. }
  change (drop 7 (str "iplist=" ++ commas l)) with (commas l). rewrite D, (comma_parts_commas l A B).
  assert (fold_left do_ip_msg l (msg ++ [10], h) = fold_left do_ip_msg l (msg, h)) as ->.
  { destruct l as [|sip l]; [done|]. apply Forall2_cons_inv_l in HF as (fd & dst' & (ip & R1 & R2 & R3 & _) & _ & ->).
    cbn [fold_left do_ip_msg]. rewrite R1, (proj2 (Z.eqb_neq _ _) R2), R3. by rewrite peer_msg_eol. }
  destruct (ip_loop_spec l h msg dst HF HN Hq (proj2 (strrchr_None _ _) F2) G) as (h' & -> & P). exists h'. by split.
Qed.

(** ** Properties *)

(** C20: what an agent sends is sorted into the two files: however the stream of
    its messages is cut into reads, the bodies of the submissions end up in the
    agent's file, one behind the other in their order, every heartbeat and every
    answer to a command adds its line to the status file, nothing is left in the
    receive buffer, and when the connection ends the file stands in [outdir]
    under the same name. *)
Theorem submissions_collected fd t j ip name h s p ms chunks :
  (forall lfd d, k_write lfd d = zlen d) -> 0 < poss_interval <= t -> k_open name = None ->
  link fd t j ip name h [] s p -> local_in_fd p < 0 -> sock_stat p = CONNECTED -> inq h fd = [] ->
  Forall amsg_ok ms -> concat chunks = stream ms ->
  let out := snprintf 256 (work_name OUTDIR (basename name)) in
  k_rename name out = true -> name <> out ->
  exists h', feed fd h chunks = Some h' /\ inq h' fd = [] /\
    default [] (Fs.contents (sys (user h')) name) = bodies ms /\
    inodes (sys (user h')) !! j = Some (s ++ lines t ip ms) /\
    (bodies ms <> [] -> Fs.contents (sys (user (svc_finiconn h' fd))) out = Some (bodies ms) /\
                        paths (sys (user (svc_finiconn h' fd))) !! name = None).
Proof.
  intros Hw [Hi Ht] Ho L Hl Hst Hq HF Hc out Hk Hne.
  destruct (feed_all fd t j ip name Hw Hi Ho chunks h ms s p L Hst Hq HF Hc) as (h' & p' & E1 & L' & Hq').
  exists h'. split; [done|]. split; [done|]. split; [apply (link_contents _ _ _ _ _ _ _ _ _ L')|]. split.
  - apply (lk_stat _ _ _ _ _ _ _ _ _ L').
  - intros Hb. assert (Hlf : 0 < local_in_fd p').
    { destruct (lk_file _ _ _ _ _ _ _ _ _ L') as [(_ & H2 & _)|(H & _)]; [by destruct Hb|done]. }
    apply (fini_publishes fd t j ip name h' (bodies ms) (s ++ lines t ip ms) p' L' Hlf Ht Hk); [|done].
    rewrite <- (lk_name _ _ _ _ _ _ _ _ _ L'). unfold submit_name, snprintf. rewrite take_take. f_equal.
Qed.

(** C21: a command put in [indir] reaches the servers it names: the line
    [iplist=ip,...&command] makes each of them, when it is connected, the
    addressee of one message with the command, in the order of the list and with
    consecutive numbers; nothing is sent to anyone else, and the file goes to
    [bkdir], so that the command is not given twice. *)
Theorem command_delivered h l msg dst name :
  line_ok l msg -> Forall2 (reaches h) l dst -> NoDup dst -> 0 <= seqno (user h) < 2 ^ 32 ->
  let dir := snprintf 256 (path ++ 47 :: INDIR) in
  let file := snprintf 256 (dir ++ 47 :: name) in
  let bk := snprintf 256 (work_name BKDIR name) in
  at_ name 0 <> 46 -> k_readdir (sys (user h)) dir = Some [str "."; str ".."; name] -> k_open file = None ->
  Fs.contents (sys (user h)) file = Some (command_line l msg) -> k_rename file bk = true -> file <> bk ->
  let h' := check_indir h in
  (forall k fd, dst !! k = Some fd -> outq h' fd = outq h fd ++ command (u32 (seqno (user h) + Z.of_nat k)) msg) /\
  (forall fd, fd ∉ dst -> outq h' fd = outq h fd) /\
  Fs.contents (sys (user h')) bk = Some (command_line l msg) /\ paths (sys (user h')) !! file = None.
Proof.
  intros Hln HF HN Hq dir file bk Hn Hdir Ho Hc Hk Hne h'. unfold h', check_indir. fold dir. rewrite Hdir. cbn [fold_left].
  assert (forall x, do_infile h dir (46 :: x) = h) as Hdot by done.
  rewrite (Hdot [] : do_infile h dir (str ".") = h), (Hdot [46] : do_infile h dir (str "..") = h).
  unfold do_infile. rewrite (proj2 (Z.eqb_neq _ _) Hn). fold file. rewrite Ho, Hc.
  assert (fgets_lines (Z.to_nat 20480) (Z.to_nat 20479) [] (command_line l msg) = [command_line l msg]) as ->.
  { pose proof (ln_len _ _ Hln) as Hlen. destruct (ln_eol _ _ Hln) as [E1 E2]. unfold command_line in *.
    change (38 :: msg ++ [10]) with ((38 :: msg) ++ [10]) in *. rewrite !app_assoc in *.
    rewrite fgets_line; [done| |rewrite length_app in Hlen; simpl length in Hlen at 2; lia].
    rewrite !not_elem_of_app, not_elem_of_cons. split_and!; try done. by apply (bool_decide_unpack _). }
  cbn [fold_left]. rewrite until0_whole by apply Hln. destruct (sub_msg_spec h l msg dst Hln HF HN Hq) as (h1 & -> & P1 & P2 & P3).
  unfold rename. rewrite P3. unfold Fs.contents in Hc. destruct (paths (sys (user h)) !! file) as [i|] eqn:Ei; [|done].
  cbn [mbind option_bind] in Hc. fold bk. rewrite Hk. split_and!; try done.
  - unfold Fs.contents. cbn [sys user set_user with_sys paths inodes]. rewrite lookup_insert_eq. cbn [mbind option_bind]. done.
  - cbn [sys user set_user with_sys paths]. rewrite lookup_insert_ne by done. apply lookup_delete_eq.
Qed.

(** [n] rounds of the loop of [svc_recv], each of which goes on. *)
Fixpoint rounds (n : nat) h (fd : Z) : option (host master) :=
  match n with
  | O => Some h
  | S k => '(r, h) ← check_req h fd; if r =? 0 then rounds k h fd else None
  end.

(** A heartbeat that announces a total length of zero stops the master: the
    message is handled and nothing is taken off the input, so that the loop of
    [svc_recv] goes round for ever; no peer is served any more. *)
Theorem zero_length_spins h fd sq n :
  wf_conn h fd -> parse_msg (inq h fd) (mk_info 0 0 0) = (0, mk_info 0 REQ_HEARTBEAT sq) -> (12 <= length (inq h fd))%nat ->
  exists h', rounds n h fd = Some h' /\ inq h' fd = inq h fd.
Proof.
  revert h. induction n as [|n IH]; intros h Hw Hp Hl; [by exists h|]. cbn [rounds].
  unfold check_req, get_client_data. rewrite getdata_spec by apply Hw. fold (inq h fd).
  rewrite decide_False by (intros Hx; rewrite Hx in Hl; simpl in Hl; lia). change (negb (0 =? 0)) with false. cbv iota. rewrite Hp.
  change (0 <? 0) with false. cbn [cmdid totallen]. change (REQ_HEARTBEAT =? REQ_HEARTBEAT) with true. cbn [orb].
  rewrite (proj2 (Z.ltb_ge (zlen (inq h fd)) 0)) by lia. change (REQ_HEARTBEAT =? REQ_AUTH) with false. cbv iota.
  assert (Hn : exists h1, note_status h fd (mk_info 0 REQ_HEARTBEAT sq) (inq h fd) = Some h1 /\ wf_conn h1 fd /\ inq h1 fd = inq h fd).
  { unfold note_status. destruct (_ <? 0); [by exists h|]. change (cmdid (mk_info 0 REQ_HEARTBEAT sq) =? REQ_HEARTBEAT) with true. cbv iota zeta.
    eexists. split; [done|]. by split. }
  destruct Hn as (h1 & -> & W1 & I1). cbn [mbind option_bind]. change (0 =? 0) with true. cbv iota.
  destruct (SigStream.consume_spec fd h1 0 W1 ltac:(lia)) as [W2 I2]. change (Z.to_nat 0) with 0%nat in I2. rewrite drop_0, I1 in I2.
  rewrite <- I2 in Hp, Hl. destruct (IH _ W2 Hp Hl) as (h' & -> & I3). exists h'. split; [done|]. congruence.
Qed.

End Service.

(** ** Witnesses *)

Definition demo_around : Around :=
  mk_around (str "/poss") 300 3 (fun _ => str "20140101000000") (fun _ d => zlen d) (fun _ => true)
    (fun _ _ => Some [str "."; str ".."; str "cmd"]) (fun _ => None) 0.
#[local] Existing Instances demo_env LocalFile.demo_kernel demo_around.

Definition demo_ip : Z := 16777226.    (* 10.0.0.1 *)
Definition demo_peer : peer := mk_peer (Ip.ip2str demo_ip) 0 demo_ip 5 (-1) 0 0 0 0 [] CONNECTED 0 0.
Definition demo_name : bytes := str "/poss/workdir/unkown_poss_10.0.0.1_20140101000000.master".
Definition demo_in : bytes := str "/poss/indir/cmd".
Definition demo_cmd : bytes := command_line [str "10.0.0.1"] (str "pfs_cmd=M_GETINFO").
Definition demo_files : fs :=
  mk_fs {[ demo_in := 6 ]} {[ 7 := []; 6 := demo_cmd ]} ∅ {[ str "/poss/workdir" ]} {[ 8 := (7, 0) ]} 10.
Definition demo_master : host master :=
  mk_host {[ 5 := mk_conn 5 0 [] mybuff_init mybuff_init ]} {[ 5 := EPOLLIN ]} [] 1388534400
    (mk_master {[ 5 := demo_peer ]} [5] {[ 10 := [5] ]} ∅ (mk_stat 8 (str "/poss/workdir/poss_stat_x") 1388534400) demo_files 3).

Lemma demo_link : link 5 1388534400 7 (str "10.0.0.1") demo_name demo_master [] [] demo_peer.
Proof.
  split; try reflexivity.
  - split; apply wf_init.
  - left. split; [reflexivity|]. split; [reflexivity|]. split; [reflexivity|]. apply (bool_decide_unpack _). vm_compute. exact I.
  - split; [simpl; lia|]. split; [by exists 0|reflexivity].
  - split; [reflexivity|]. split; reflexivity.
Qed.

Lemma submissions_collected_witness :
  let ms := [Beat 0 3; Submit 1 (str "abc"); Submit 2 (str "de")] in
  exists h', feed 5 demo_master [take 20 (stream ms); drop 20 (stream ms)] = Some h' /\ inq h' 5 = [] /\
    default [] (Fs.contents (sys (user h')) demo_name) = bodies ms /\
    inodes (sys (user h')) !! 7 = Some ([] ++ lines 1388534400 (str "10.0.0.1") ms) /\
    (bodies ms <> [] ->
       Fs.contents (sys (user (svc_finiconn h' 5))) (str "/poss/outdir/unkown_poss_10.0.0.1_20140101000000.master") = Some (bodies ms) /\
       paths (sys (user (svc_finiconn h' 5))) !! demo_name = None).
Proof.
  intros ms.
  apply (submissions_collected (X := demo_around) 5 1388534400 7 (str "10.0.0.1") demo_name demo_master [] demo_peer ms [take 20 (stream ms); drop 20 (stream ms)]).
  - reflexivity.
  - split; vm_compute; [reflexivity|discriminate].
  - reflexivity.
  - exact demo_link.
  - reflexivity.
  - reflexivity.
  - reflexivity.
  - repeat constructor; vm_compute; intros Hx; discriminate Hx.
  - vm_compute. reflexivity.
  - reflexivity.
  - vm_compute. discriminate.
Defined.

Lemma demo_line : line_ok [str "10.0.0.1"] (str "pfs_cmd=M_GETINFO").
Proof.
  split; try reflexivity; try discriminate.
  - apply Forall_singleton. by apply (bool_decide_unpack _).
  - by apply (bool_decide_unpack _).
  - split; by apply (bool_decide_unpack _).
  - by repeat constructor.
Qed.

Lemma command_delivered_witness :
  let h' := check_indir demo_master in
  (forall k fd, [5] !! k = Some fd -> outq h' fd = outq demo_master fd ++ command (u32 (3 + Z.of_nat k)) (str "pfs_cmd=M_GETINFO")) /\
  (forall fd, fd ∉ [5] -> outq h' fd = outq demo_master fd) /\
  Fs.contents (sys (user h')) (str "/poss/bkdir/cmd") = Some demo_cmd /\ paths (sys (user h')) !! demo_in = None.
Proof.
  apply (command_delivered (X := demo_around) demo_master [str "10.0.0.1"] (str "pfs_cmd=M_GETINFO") [5] (str "cmd")); try reflexivity.
  - exact demo_line.
  - constructor; [|constructor]. exists demo_ip. split; [reflexivity|]. split; [discriminate|]. split; [reflexivity|].
    split; [reflexivity|]. split; apply wf_init.
  - apply NoDup_singleton.
  - split; vm_compute; [discriminate|reflexivity].
  - vm_compute. discriminate.
  - vm_compute. discriminate.
Defined.

Lemma zero_length_spins_witness :
  let h := arrive demo_master 5 (head 0 REQ_HEARTBEAT (-12)) in
  exists h', rounds 1000 h 5 = Some h' /\ inq h' 5 = inq h 5.
Proof.
  intros h. apply (zero_length_spins h 5 0 1000).
  - split; [apply wf_init|]. apply (arrive_spec demo_master 5). split; apply wf_init.
  - vm_compute. reflexivity.
  - vm_compute. repeat constructor.
Defined.

End PossMaster.
