(* ===== verification/Maintain.v ===== *)
(** * The maintenance commands of a server (network/pfs_maintain.c)

    [do_request] takes the text of a command, [pfs_cmd=NAME&key=value...], and
    puts its answer in the send buffer of the agent's connection ([Agent]).

    [None]: the process crashes or hangs.  It does so when a value is empty (the
    search for its line end leaves the value), when the name of the command has
    no letter or digit, when the answer does not fit its buffer, and for
    [M_GETDIRTIME], whose handler calls itself. *)

From S2P Require Import Prelude.
From S2P Require Import CString.
From S2P Require Import Codec.
From S2P Require Import Protocol.
From S2P Require Import Para.
From S2P Require Import LinkedList.
From S2P Require Import TaskData.
From S2P Require Import TaskQueue.
From S2P Require Import MyConfig.
From S2P Require Import Storage.
From S2P Require Import Records.

Module Maintain.
Import PairList.

(** ** Data *)

Definition M_ONLINE : Z := 0.
Definition M_OFFLINE : Z := 1.
Definition M_GETINFO : Z := 2.
Definition M_SYNCDIR : Z := 3.
Definition M_SYNCFILE : Z := 4.
Definition M_CONFUPDA : Z := 5.
Definition M_SETDIRTIME : Z := 6.
Definition M_GETDIRTIME : Z := 7.

Definition RSP_PFS_CMD : Z := 0x80000008.
Definition TASK_ADDFILE : Z := 48.
Definition TASK_SYNCDIR : Z := 51.

Definition cmd_type : list bytes :=
  map str ["M_ONLINE"; "M_OFFLINE"; "M_GETINFO"; "M_SYNCDIR"; "M_SYNCFILE"; "M_CONFUPDA"; "M_SETDIRTIME";
           "M_GETDIRTIME"; "M_ADD_MOD_GROUP"; "M_DEL_GROUP"]%string.

Definition validcmd : list bytes :=
  map str ["cs_preday"; "fcs_max_connects"; "max_data_connects"; "max_task_run_once"; "pfs_test"; "real_rm_time";
           "task_timeout"; "fcs_max_task"; "cs_sync_dir"; "data_calcu_md5"; "sync_dir_count"; "timeout"]%string.

(** The parts of the server the commands look at and change: the settings as
    read and as stored, the configuration file as last written, the task queues
    and the file of time stamps. *)
Record server := mk_server {
  store : MyConfig.state;
  g_config : Config.t_g_config;
  conf_file : option bytes;
  queue : TaskQueue.state;
  stamps : bytes
}.

Definition with_store (m : server) (s : MyConfig.state) : server := mk_server s (g_config m) (conf_file m) (queue m) (stamps m).
Definition with_queue (m : server) (q : TaskQueue.state) : server := mk_server (store m) (g_config m) (conf_file m) q (stamps m).
Definition with_stamps (m : server) (s : bytes) : server := mk_server (store m) (g_config m) (conf_file m) (queue m) s.

(** The clock and the time zone; [pfs_start_time] and the texts of the build;
    the lock of the queues, a fresh task, [%m]; [self_ip], [DIR1] and [DIR2]; the
    memory behind the text of a command and the fresh list of pairs. *)
Class Around := mk_around {
  now : Z;
  localtime_r : Z -> TimeText.tm;
  mktime : TimeText.tm -> Z;
  pfs_start_time : Z;
  compiling : bytes;
  q_lock : Z;
  task_mem : TaskQueue.state -> option (LinkedList.loc * t_pfs_tasklist);
  errmsg : bytes;
  self_ip : Z;
  DIR1 : Z;
  DIR2 : Z;
  behind : bytes;
  pair_mem : option (list (bytes * bytes))
}.

Section Commands.
Context {S : MyConfig.Surroundings} {X : Around}.
Implicit Types m : server.

Definition strtime (t : Z) : bytes := TimeText.get_strtime_by_t localtime_r t.
Definition time_of (s : bytes) : Z := TimeText.get_time_t mktime s.

(** [while(--n)]: all characters but the last are looked at; an empty value is
    not the end of the search. *)
Fixpoint cut_at_eol (n : nat) (v : bytes) : bytes :=
  match n, v with
  | O, _ | _, [] => v
  | Datatypes.S n', c :: t => if (c =? 13) || (c =? 10) then [] else c :: cut_at_eol n' t
  end.

Definition trim_value (v : bytes) : option bytes :=
  if bool_decide (v = []) then None else Some (cut_at_eol (length v - 1) v).

(** A piece of an answer, if there is room. *)
Definition add_piece (buf piece : bytes) : bytes := if zlen buf <? 40960 then buf ++ piece else buf.

Definition is_cmd (key : bytes) : bool := strcasecmp0 key (str "pfs_cmd").

(** ** M_CONFUPDA *)

Definition isvalid (key : bytes) : bool := negb (existsb (strcasecmp0 key) validcmd).

Fixpoint confupda_loop (st : MyConfig.state) (l : list (bytes * bytes)) : option (Z * MyConfig.state) :=
  match l with
  | [] => Some (0, st)
  | (key, v) :: l' =>
      if is_cmd key then confupda_loop st l'
      else if isvalid key then confupda_loop st l'
      else
        v ← trim_value v;
        '(_, st) ← MyConfig.myconfig_delete_value st [] key;
        '(rc, st) ← MyConfig.myconfig_update_value st key v;
        if rc <? 0 then Some (-1, st) else confupda_loop st l'
  end.

(** [reload_config]: the settings are read one after the other, each reading
    leaves its number in the store. *)
Definition settings : list (string * Z) :=
  [("max_data_connects", 1024); ("max_task_run_once", 1024); ("poss_interval", 300); ("real_rm_time", 7200);
   ("sync_dir_span", 300); ("check_task_timeout", 1); ("pfs_test", 0); ("task_timeout", 86400);
   ("sync_dir_count", 20); ("task_policy", Config.POLICY_DISKFREE); ("timeout", 3)]%string.

Fixpoint read_settings (st : MyConfig.state) (l : list (string * Z)) : option (list (string * Z) * MyConfig.state) :=
  match l with
  | [] => Some ([], st)
  | (k, d) :: l' =>
      '(v, st) ← MyConfig.myconfig_get_intval st (str k) d;
      '(r, st) ← read_settings st l';
      Some ((k, v) :: r, st)
  end.

Definition setting (l : list (string * Z)) (k : string) (d : Z) : Z :=
  match find_first (fun x => String.eqb (fst x) k) l with Some x => snd x | None => d end.

Definition do_confupda (m : server) (l : list (bytes * bytes)) : option (Z * server) :=
  '(rc, st) ← confupda_loop (store m) l;
  if rc <? 0 then Some (-1, with_store m st)
  else
    f ← MyConfig.myconfig_dump_to_file st;
    '(vals, st) ← read_settings st settings;
    Some (0, mk_server st (Config.reload_config (setting vals)) (Some f) (queue m) (stamps m)).

(** ** M_GETINFO *)

Definition get_info (m : server) : bytes :=
  let count s := dec (TaskQueue.get_task_count (queue m) s) in
  str "starttime=" ++ strtime pfs_start_time ++ str "|compile_time=" ++ compiling ++
  str "|pfs_test=" ++ dec (Config.pfs_test (g_config m)) ++ str "|task_timeout=" ++ dec (Config.task_timeout (g_config m)) ++
  str "|task_run=" ++ count TASK_Q_RUN ++ str "|task_wait=" ++ count TASK_Q_WAIT ++ str "|task_fin=" ++ count TASK_Q_FIN ++
  str "|task_clean=" ++ count TASK_Q_CLEAN ++ str "|task_wait_sync=" ++ count TASK_Q_WAIT_SYNC ++
  str "|task_wait_sync_ip=" ++ count TASK_Q_WAIT_SYNC_IP ++ str "|task_wait_tmp=" ++ count TASK_Q_WAIT_TMP ++ str "|".

(** ** M_SETDIRTIME *)

Fixpoint dirtime_loop (m : server) (buf : bytes) (l : list (bytes * bytes)) : option (bytes * server) :=
  match l with
  | [] => Some (buf, m)
  | (key, v) :: l' =>
      if is_cmd key then dirtime_loop m buf l'
      else
        v ← trim_value v;
        match strchr key 44 with
        | None => dirtime_loop m buf l'
        | Some i =>
            let d1 := atoi key in
            let d2 := atoi (drop (Datatypes.S i) key) in
            let tval := time_of v in
            let oval := TimeStamp.get_time_stamp_by_int DIR2 (stamps m) d1 d2 in
            let m := with_stamps m (snd (TimeStamp.set_time_stamp_by_int DIR2 (stamps m) d1 d2 tval)) in
            let piece := str "set fcs " ++ key ++ 61 :: v ++ 40 :: dec tval ++ str "),old " ++ strtime oval ++ 40 :: dec oval ++ str ") " in
            dirtime_loop m (add_piece buf piece) l'
        end
  end.

Definition set_dirtime (m : server) (l : list (bytes * bytes)) : option (bytes * server) :=
  '(buf, m) ← dirtime_loop m [] l; Some (buf ++ [10], m).

(** ** M_SYNCFILE and M_SYNCDIR *)

(** A task from the home queue is filled in and queued. *)
Definition queue_task (m : server) (b : t_task_base) (s : t_task_sub) (q : Z) : option (Z * server) :=
  '(rc, t, st) ← TaskQueue.pfs_get_task (queue m) TASK_Q_HOME q_lock now (task_mem (queue m));
  if negb (rc =? GET_TASK_Q_OK) then Some (-1, with_queue m st)
  else
    t ← t;
    r ← TaskQueue.tasks st !! t;
    '(_, st) ← TaskQueue.pfs_set_task (TaskQueue.with_task st t (set_sub (set_base r b) s)) t q q_lock now;
    Some (0, with_queue m st).

Definition do_poss_sync_file (m : server) (file sip : bytes) : option (Z * server) :=
  queue_task m
    (mk_base (snprintf 256 file) [] [] (replicate 17 0) self_ip now 0 0 TASK_ADDFILE 0 0)
    (mk_sub 0 0 0 0 0 (snprintf 16 sip) OPER_FROM_POSS TASK_SYNC_VOSS_FILE 0) TASK_Q_WAIT.

Definition do_poss_sync_dir (m : server) (file : bytes) (starttime : Z) : option (Z * server) :=
  queue_task m
    (mk_base (snprintf 256 file) [] [] (replicate 17 0) 0 starttime 0 0 TASK_SYNCDIR 0 0)
    (mk_sub 0 0 0 0 0 [] 0 TASK_SYNC_VOSS_FILE 0) TASK_Q_SYNC_POSS.

Definition sync_err (key v : bytes) : bytes := str "sync " ++ key ++ 32 :: v ++ str " err " ++ errmsg.

Fixpoint poss_sync_file (m : server) (buf : bytes) (l : list (bytes * bytes)) : option (bytes * server) :=
  match l with
  | [] => Some (buf, m)
  | (key, v) :: l' =>
      if is_cmd key then poss_sync_file m buf l'
      else
        v ← trim_value v;
        '(rc, m) ← do_poss_sync_file m key v;
        poss_sync_file m (if negb (rc =? 0) then add_piece buf (sync_err key v) else buf) l'
  end.

Fixpoint poss_sync_dir (m : server) (buf : bytes) (l : list (bytes * bytes)) : option (bytes * server) :=
  match l with
  | [] => Some (buf, m)
  | (key, v) :: l' =>
      if is_cmd key then poss_sync_dir m buf l'
      else
        v ← trim_value v;
        match strrchr v 124 with
        | None =>
            poss_sync_dir m (add_piece buf (str "sync " ++ key ++ 32 :: v ++ str " errformat domain=d1,d2|yyyymmddHHMMSS")) l'
        | Some i =>
            '(rc, m) ← do_poss_sync_dir m (take i v) (time_of (drop (Datatypes.S i) v));
            poss_sync_dir m (if negb (rc =? 0) then add_piece buf (sync_err key (take i v)) else buf) l'
        end
  end.

(** [poss_off_on_line] only looks the addresses up. *)
Fixpoint poss_off_on_line (l : list (bytes * bytes)) : option bytes :=
  match l with
  | [] => Some []
  | (key, v) :: l' => if is_cmd key then poss_off_on_line l' else _ ← trim_value v; poss_off_on_line l'
  end.

(** ** do_request *)

Fixpoint position (l : list bytes) (i : Z) (c : bytes) : Z :=
  match l with
  | [] => -1
  | x :: l' => if streq c x then i else position l' (i + 1) c
  end.
Definition get_cmd_position (c : bytes) : Z := position cmd_type 0 c.

Definition isalnum (c : Z) : bool := isdigit c || isupper c || islower c.

(** The name of the command without what follows its last letter or digit; the
    search goes on below the buffer when there is none. *)
Definition strip_cmd (c : bytes) : option bytes :=
  if existsb isalnum c then Some (MyConfig.strip_end (fun x => negb (isalnum x)) c) else None.

Definition or_else (buf t : bytes) : bytes := if bool_decide (buf = []) then t else buf.

(** The answer of a command; [data] is what [%s] prints for its text. *)
Definition answer (m : server) (type : Z) (data : bytes) (l : list (bytes * bytes)) : option (bytes * server) :=
  if type =? M_CONFUPDA then
    '(rc, m) ← do_confupda m l;
    Some (data ++ (if rc =? 0 then str "::Result=OK&Code=0&Msg=Success" else str "::Msg=Failed"), m)
  else if type =? M_GETINFO then Some (get_info m, m)
  else if type =? M_SETDIRTIME then set_dirtime m l
  else if type =? M_GETDIRTIME then None
  else if type =? M_SYNCFILE then '(buf, m) ← poss_sync_file m [] l; Some (or_else buf (str "sync file OK!"), m)
  else if type =? M_SYNCDIR then '(buf, m) ← poss_sync_dir m [] l; Some (or_else buf (str "sync dir OK!"), m)
  else if type =? M_OFFLINE then buf ← poss_off_on_line l; Some (or_else buf (str "offline " ++ data ++ str " OK!"), m)
  else if type =? M_ONLINE then buf ← poss_off_on_line l; Some (or_else buf (str "online " ++ data ++ str " OK!"), m)
  else Some (data ++ str ":: not implement", m).

(** What lies in [sendbuf[40960]] after an answer was printed into it. *)
Definition sent_text (t : bytes) : option bytes :=
  if 40960 <? zlen t then None else Some (take (length t) (snprintf (Z.to_nat 40960) t ++ [0])).

(** [do_request(fd, datalen, data)]: [d] is the text and what has come behind
    it.  What is put in the send buffer, the counter of [getseq], the server. *)
Definition do_request (m : server) (sq datalen : Z) (d : bytes) : option (bytes * Z * server) :=
  match pair_mem with
  | None => Some ([], sq, m)
  | Some junk =>
      '(rc, pl) ← DecodePara (take (Z.to_nat datalen) d) (mk_list 0 20 junk);
      if negb (rc =? 0) then Some ([], sq, m)
      else
        match GetParaValue pl (str "pfs_cmd") 32 with
        | None => Some ([], sq, m)
        | Some (_, c) =>
            c ← strip_cmd (until0 c);
            let type := get_cmd_position c in
            if type =? -1 then Some ([], sq, m)
            else
              '(t, m) ← answer m type (until0 (d ++ behind)) (pairs pl);
              if zlen t <=? 0 then Some ([], sq, m)
              else
                t ← sent_text t;
                let '(head, sq) := Poss.create_poss_head sq RSP_PFS_CMD (zlen t) in
                Some (head ++ t, sq, m)
        end
  end.

(** ** Reading a request *)

(** The text of a request, as [EncodePara] writes it. *)
Definition request (c : bytes) (kvs : list (bytes * bytes)) : bytes :=
  let t := ((str "pfs_cmd", c) :: kvs) ≫= item in take (length t - 1) t.

(** What becomes of the answer of a command. *)
Definition reply (sq : Z) (r : bytes * server) : option (bytes * Z * server) :=
  let '(t, m) := r in
  if zlen t <=? 0 then Some ([], sq, m)
  else
    t ← sent_text t;
    let '(head, sq) := Poss.create_poss_head sq RSP_PFS_CMD (zlen t) in
    Some (head ++ t, sq, m).

Lemma decode_request c kvs junk :
  Forall pair_ok ((str "pfs_cmd", c) :: kvs) -> zlen junk = 20 -> zlen kvs <= 17 ->
  exists pl, DecodePara (request c kvs) (mk_list 0 20 junk) = Some (0, pl) /\ pairs pl = (str "pfs_cmd", c) :: kvs.
Proof.
  intros Hok Hj Hn. unfold request. cbv zeta.
  destruct (exists_last (l := (str "pfs_cmd", c) :: kvs) ltac:(done)) as (l & x & El). rewrite El in *.
  rewrite drop_last_item.
  assert (Hl : zlen l <= 17) by (apply (f_equal (@length _)) in El; rewrite length_app in El; cbn [length] in El; lia).
  destruct (parsepara_items l x junk 20 Hok Hj) as (a' & _ & T & P); [lia|].
  unfold DecodePara. cbn [pStrPairList iMaxPairNum]. rewrite P. cbn [mbind option_bind].
  destruct (0 <=? _) eqn:E0; b2p; [|lia]. eexists. split; [done|]. unfold pairs. cbn [iLast pStrPairList].
  by rewrite Nat2Z.id.
Qed.

(** The names of the commands come through the decoding as they are. *)
Lemma command_name c : c ∈ cmd_type ->
  strip_cmd (until0 (snd (Escape.decode_string c 32))) = Some c /\ 0 <= get_cmd_position c /\ pair_ok (str "pfs_cmd", c).
Proof.
  intros Hc. revert c Hc. apply Forall_forall.
  repeat (constructor; [split; [reflexivity|]; split; [vm_compute; discriminate|]; split;
    [lazy; repeat constructor; discriminate|]; split; [lazy; repeat constructor; discriminate|]; split; reflexivity|]).
  constructor.
Qed.

Lemma do_request_spec m sq c kvs junk rest :
  pair_mem = Some junk -> zlen junk = 20 -> c ∈ cmd_type -> Forall pair_ok kvs -> zlen kvs <= 17 ->
  do_request m sq (zlen (request c kvs)) (request c kvs ++ rest) =
  answer m (get_cmd_position c) (until0 ((request c kvs ++ rest) ++ behind)) ((str "pfs_cmd", c) :: kvs) ≫= reply sq.
Proof.
  intros Hm Hj Hc Hok Hn. unfold do_request. rewrite Hm, Nat2Z.id, take_app_length.
  destruct (command_name c Hc) as (Hs & Hg & Hc1).
  destruct (decode_request c kvs junk (Forall_cons_2 _ _ _ Hc1 Hok) Hj Hn) as (pl & -> & Hp). cbn [mbind option_bind]. simpl (negb _). cbv iota.
  unfold GetParaValue. rewrite Hp. cbn [find_first fst snd].
  change (strcasecmp0 (str "pfs_cmd") (str "pfs_cmd")) with true. cbv iota. cbn [snd].
  destruct (Escape.decode_string c 32) as [rc x]. cbn [snd] in Hs. rewrite Hs.
  cbn [mbind option_bind]. destruct (get_cmd_position c =? -1) eqn:E; b2p; [lia|].
  destruct (answer _ _ _ _) as [[t m']|]; reflexivity.
Qed.

(** A value without line ends is taken as it is. *)
Definition value_ok (v : bytes) : Prop := v <> [] /\ 13 ∉ v /\ 10 ∉ v.

Lemma trim_value_ok v : value_ok v -> trim_value v = Some v.
Proof.
  intros (H0 & H1 & H2). unfold trim_value. rewrite bool_decide_false by done. f_equal. clear H0.
  generalize (length v - 1)%nat. induction v as [|c v IH]; intros n; [by destruct n|]. destruct n as [|n]; [done|].
  cbn [cut_at_eol]. destruct (c =? 13) eqn:E1; b2p; [set_solver|]. destruct (c =? 10) eqn:E2; b2p; [set_solver|].
  cbn [orb]. f_equal. apply IH; set_solver.
Qed.

(** ** Files to fetch *)

Definition sync_job (kv : bytes * bytes) : t_task_base * t_task_sub :=
  (mk_base (snprintf 256 (fst kv)) [] [] (replicate 17 0) self_ip now 0 0 TASK_ADDFILE 0 0,
   mk_sub 0 0 0 0 0 (snprintf 16 (snd kv)) OPER_FROM_POSS TASK_SYNC_VOSS_FILE 0).

Section Queues.
Hypothesis lock_free : q_lock = 0.
Context (off : Z -> Z).

Abbreviation job_of m t := (TaskQueue.job <$> TaskQueue.tasks (queue m) !! t).

Lemma queue_task_spec qs m b s q t rest :
  TaskQueue.queues off (queue m) qs -> TaskQueue.in_range q = true -> q <> TASK_Q_HOME -> qs TASK_Q_HOME = t :: rest ->
  exists st', queue_task m b s q = Some (0, with_queue m st') /\ TaskQueue.queues off st' (TaskQueue.drawn q 1 qs) /\
    TaskQueue.job <$> TaskQueue.tasks st' !! t = Some (b, s) /\
    (forall x, x <> t -> TaskQueue.job <$> TaskQueue.tasks st' !! x = job_of m x).
Proof.
  intros Q Hq Hne Hh. unfold queue_task. rewrite lock_free.
  destruct (TaskQueue.file_task off (queue m) qs q b s now (task_mem (queue m)) t rest Q Hq Hne Hh)
    as (st1 & r & st' & E1 & Hr & E2 & Q2 & J2 & J2'). rewrite E1. cbn [mbind option_bind]. simpl (negb _). cbv iota.
  cbn [mbind option_bind]. rewrite Hr. cbn [mbind option_bind]. rewrite E2. cbn [mbind option_bind]. by exists st'.
Qed.

Lemma poss_sync_file_spec kvs : forall qs m buf,
  TaskQueue.queues off (queue m) qs -> Forall (fun kv => is_cmd (fst kv) = false /\ value_ok (snd kv)) kvs ->
  (length kvs <= length (qs TASK_Q_HOME))%nat ->
  exists st', poss_sync_file m buf kvs = Some (buf, with_queue m st') /\
    TaskQueue.queues off st' (TaskQueue.drawn TASK_Q_WAIT (length kvs) qs) /\
    Forall2 (fun t kv => TaskQueue.job <$> TaskQueue.tasks st' !! t = Some (sync_job kv)) (take (length kvs) (qs TASK_Q_HOME)) kvs /\
    (forall x, x ∉ take (length kvs) (qs TASK_Q_HOME) -> TaskQueue.job <$> TaskQueue.tasks st' !! x = job_of m x).
Proof.
  induction kvs as [|[k v] kvs IH]; intros qs m buf Q Hok Hl; cbn [poss_sync_file length].
  { exists (queue m). rewrite take_0. split; [by destruct m|]. split; [|done].
    apply (TaskQueue.queues_ext off _ qs); [intros; by rewrite TaskQueue.drawn_0|done]. }
  apply Forall_cons in Hok as [[Hk Hv] Hok]. cbn [fst snd length] in *. rewrite Hk, trim_value_ok by done. cbn [mbind option_bind].
  destruct (qs TASK_Q_HOME) as [|t rest] eqn:Eq; [simpl in Hl; lia|]. unfold do_poss_sync_file.
  match goal with |- context [queue_task m ?b ?s ?q] =>
    destruct (queue_task_spec qs m b s q t rest Q eq_refl ltac:(done) Eq) as (st1 & -> & Q1 & J1 & J1') end.
  cbn [mbind option_bind]. simpl (negb _). cbv iota.
  assert (Hrest : TaskQueue.drawn TASK_Q_WAIT 1 qs TASK_Q_HOME = rest) by (by rewrite TaskQueue.drawn_home, Eq).
  assert (Hnd : NoDup (t :: rest)).
  { rewrite <- Eq. destruct (TaskQueue.q_ring _ _ _ Q TASK_Q_HOME eq_refl) as [_ Hnd]. by apply NoDup_cons in Hnd as [_ Hnd]. }
  apply NoDup_cons in Hnd as [Ht _].
  destruct (IH _ (with_queue m st1) buf Q1 Hok) as (st2 & -> & Q2 & F2 & J2); [rewrite Hrest; simpl in Hl; lia|].
  rewrite Hrest in F2, J2. cbn [take firstn].
  assert (Hd : forall n, t ∉ take n rest) by (intros n Hin; apply Ht; apply elem_of_take in Hin as (i & Hi & _); by apply list_elem_of_lookup_2 in Hi).
  exists st2. split; [done|]. split; [|split].
  - apply (TaskQueue.queues_ext off _ (TaskQueue.drawn TASK_Q_WAIT (length kvs) (TaskQueue.drawn TASK_Q_WAIT 1 qs))); [|done].
    intros s. rewrite <- TaskQueue.drawn_add by done. done.
  - constructor; [|done]. rewrite J2 by done. exact J1.
  - intros x Hx. rewrite J2 by set_solver. apply J1'. set_solver.
Qed.

(** The files named in an M_SYNCFILE request are queued to be fetched.
    A request that names up to 17 files, each with the address to fetch it
    from, takes as many tasks off the home queue and puts them at the end of the
    waiting queue in the order of the request; each says the file, the address and
    that the master asked for it, no other task changes, and the answer is one
    message that says OK. *)
Theorem sync_files_queued qs m sq kvs junk rest :
  TaskQueue.queues off (queue m) qs -> (length kvs <= length (qs TASK_Q_HOME))%nat ->
  Forall (fun kv => is_cmd (fst kv) = false /\ value_ok (snd kv)) kvs ->
  pair_mem = Some junk -> zlen junk = 20 -> Forall pair_ok kvs -> zlen kvs <= 17 ->
  let q := request (str "M_SYNCFILE") kvs in
  let head := Poss.create_poss_head sq RSP_PFS_CMD 13 in
  exists st', do_request m sq (zlen q) (q ++ rest) = Some (fst head ++ str "sync file OK!", snd head, with_queue m st') /\
    TaskQueue.queues off st' (TaskQueue.drawn TASK_Q_WAIT (length kvs) qs) /\
    Forall2 (fun t kv => TaskQueue.job <$> TaskQueue.tasks st' !! t = Some (sync_job kv)) (take (length kvs) (qs TASK_Q_HOME)) kvs /\
    (forall x, x ∉ take (length kvs) (qs TASK_Q_HOME) -> TaskQueue.job <$> TaskQueue.tasks st' !! x = job_of m x).
Proof.
  intros Q Hl Hok Hm Hj Hp Hc q head.
  destruct (poss_sync_file_spec kvs qs m [] Q Hok Hl) as (st' & E & Q' & F & J). exists st'. split; [|done].
  unfold q. rewrite (do_request_spec m sq (str "M_SYNCFILE") kvs junk rest Hm Hj) by (done || by apply (list_elem_of_lookup_2 _ 4)).
  change (get_cmd_position (str "M_SYNCFILE")) with M_SYNCFILE. unfold answer. rewrite Z.eqb_refl.
  change (M_SYNCFILE =? M_CONFUPDA) with false. change (M_SYNCFILE =? M_GETINFO) with false.
  change (M_SYNCFILE =? M_SETDIRTIME) with false. change (M_SYNCFILE =? M_GETDIRTIME) with false. cbv iota.
  cbn [poss_sync_file]. change (is_cmd (str "pfs_cmd")) with true. cbv iota. rewrite E. cbn [mbind option_bind].
  change (or_else [] (str "sync file OK!")) with (str "sync file OK!"). unfold reply.
  change (zlen (str "sync file OK!") <=? 0) with false. cbv iota.
  change (sent_text (str "sync file OK!")) with (Some (str "sync file OK!")). cbn [mbind option_bind].
  change (zlen (str "sync file OK!")) with 13. fold head. by destruct head.
Qed.

End Queues.

(** ** Settings *)

Section Settings.
Hypothesis malloc_sound : forall st, exists a, MyConfig.k_malloc st = Some a /\ MyConfig.entries st !! a = None.

Record setting_ok (kv : bytes * bytes) : Prop := mk_setting_ok {
  so_name : fst kv ∈ validcmd;
  so_value : value_ok (snd kv);
  so_short : (length (snd kv) < MyConfig.VAL_MAX_LEN)%nat
}.

Lemma valid_name k : k ∈ validcmd ->
  is_cmd k = false /\ isvalid k = false /\ map MyConfig.sep_char k = k /\
  exists pr k0, map MyConfig.key_char (pr ++ k0) = k /\
    match strchr k 95 with
    | Some i => pr = take i k ++ [45] /\ k0 = drop (Datatypes.S i) k /\ (i < 19)%nat /\ (length k0 < 30)%nat
    | None => pr = [] /\ k0 = k
    end.
Proof.
  intros Hk. revert k Hk. apply Forall_forall.
  repeat (constructor; [split; [reflexivity|]; split; [reflexivity|]; split; [reflexivity|]; eexists _, _; split;
    [|lazy; first [split; [reflexivity|]; split; [reflexivity|]; split; lia|split; reflexivity]]; reflexivity|]).
  constructor.
Qed.

Abbreviation newest := MyConfig.newest.

Lemma newest_app k l1 l2 : newest k (l1 ++ l2) = match newest k l1 with Some v => Some v | None => newest k l2 end.
Proof.
  induction l1 as [|[k' v'] l1 IH]; [done|]. cbn [app]. rewrite !MyConfig.newest_cons, IH. by destruct (streq k _).
Qed.

(** What the loop over the pairs does to the store: the pairs are entered, the
    old values of their keys are gone. *)
Lemma confupda_spec kvs : forall st l,
  MyConfig.loaded st l -> Forall setting_ok kvs -> NoDup (map fst kvs) ->
  (forall a e, MyConfig.entries st !! a = Some e -> MyConfig.key e ∈ map fst kvs -> MyConfig.linked e = true) ->
  exists st' l', confupda_loop st kvs = Some (0, st') /\ MyConfig.loaded st' l' /\
    forall k, newest k l' = newest k (rev kvs ++ l).
Proof.
  induction kvs as [|[k v] kvs IH]; intros st l HL Hok Hn Hlk; cbn [confupda_loop]; [by exists st, l|].
  apply Forall_cons in Hok as [[Hk Hv Hs] Hok]. cbn [fst snd map] in *. apply NoDup_cons in Hn as [Hni Hn].
  destruct (valid_name k Hk) as (-> & -> & Hsep & pr & k0 & Hk0 & Hstr). rewrite trim_value_ok by done. cbn [mbind option_bind].
  destruct (MyConfig.delete_value_spec malloc_sound st l k HL Hsep) as (st1 & l1 & -> & L1 & N1 & O1 & I1);
    [intros a e Ha He; apply (Hlk a); [done|set_solver]|]. cbn [mbind option_bind].
  destruct (MyConfig.update_value_spec malloc_sound st1 l1 k pr k0 v L1 N1 Hs Hstr) as (rc & st2 & Hrc & -> & L2 & I2).
  rewrite Hk0 in *. cbn [mbind option_bind]. destruct (rc <? 0) eqn:Er; b2p; [lia|].
  destruct (IH st2 _ L2 Hok Hn) as (st' & l' & -> & L' & N').
  { intros a e Ha Hin. destruct (I2 a e Ha) as [He|Ha']; [by rewrite He in Hin|]. apply I1 in Ha'. apply (Hlk a); [done|set_solver]. }
  exists st', l'. split; [done|]. split; [done|]. intros x. rewrite N'. cbn [rev]. rewrite <- app_assoc. cbn [app].
  rewrite !newest_app, !MyConfig.newest_cons. cbn [fst snd]. destruct (newest x (rev kvs)); [done|].
  destruct (streq x k) eqn:Ex; [done|]. apply O1. intros ->. by rewrite (proj2 (streq_true k k) eq_refl) in Ex.
Qed.

(** The number a setting has in a store that holds the pairs [l]. *)
Definition number (l : list (bytes * bytes)) (k : string) (d : Z) : Z :=
  default d (v ← newest (str k) l; MyConfig.word_val v).

Lemma read_settings_spec ks : forall st l, MyConfig.loaded st l ->
  exists st', read_settings st ks = Some (map (fun kd => (fst kd, number l (fst kd) (snd kd))) ks, st') /\ MyConfig.loaded st' l.
Proof.
  induction ks as [|[k d] ks IH]; intros st l HL; cbn [read_settings map]; [by exists st|].
  destruct (MyConfig.get_intval_spec st l (str k) d HL) as (st1 & -> & L1). cbn [mbind option_bind].
  destruct (IH st1 l L1) as (st2 & -> & L2). cbn [mbind option_bind]. by exists st2.
Qed.

Lemma reload_reads l l' : (forall k, newest k l = newest k l') ->
  Config.reload_config (setting (map (fun kd => (fst kd, number l (fst kd) (snd kd))) settings)) = Config.reload_config (number l').
Proof.
  intros H. assert (Hn : forall k d, number l k d = number l' k d) by (intros k d; unfold number; by rewrite H).
  unfold Config.reload_config, setting. cbn [settings map find_first fst snd String.eqb Ascii.eqb Bool.eqb]. by rewrite !Hn.
Qed.


End Settings.

End Commands.

(** ** Witnesses *)

Definition demo_around : Around :=
  mk_around 1388534400 (fun _ => TimeText.mk_tm 0 0 0 0 0 0) (fun _ => 0) 0 [] 0 (fun _ => None) [] 16777226 100 100 [0]
    (Some (replicate 20 ([], []))).

Definition demo_server : server :=
  mk_server (MyConfig.demo_store) (Config.reload_config (fun _ d => d)) None (TaskQueue.demo [944; 1888; 2832]) [].

Lemma demo_linked a e : MyConfig.entries MyConfig.demo_store !! a = Some e -> MyConfig.linked e = true.
Proof.
  apply (map_Forall_lookup_1 (fun _ e => MyConfig.linked e = true)). apply (bool_decide_unpack _). vm_compute. exact I.
Qed.


Lemma sync_files_queued_witness :
  let kvs := [(str "/video/a.flv", str "10.0.0.2"); (str "/video/b.flv", str "10.0.0.3")] in
  let q := request (str "M_SYNCFILE") kvs in
  exists st', do_request (S := MyConfig.demo_surroundings) (X := demo_around) demo_server 7 (zlen q) (q ++ []) =
    Some (fst (Poss.create_poss_head 7 RSP_PFS_CMD 13) ++ str "sync file OK!", 8, with_queue demo_server st') /\
    TaskQueue.queues (TaskQueue.bias 3) st'
      (TaskQueue.drawn TASK_Q_WAIT 2 (fun s => if s =? TASK_Q_HOME then rev [944; 1888; 2832] else [])).
Proof.
  intros kvs q. pose proof (proj1 (TaskQueue.demo_queues [944; 1888; 2832] ltac:(repeat constructor) ltac:(repeat constructor; set_solver))) as Q.
  destruct (sync_files_queued (S := MyConfig.demo_surroundings) (X := demo_around) eq_refl (TaskQueue.bias 3) _ demo_server 7 kvs
              (replicate 20 ([], [])) [] Q) as (st' & E & Q' & _).
  - simpl. lia.
  - apply (bool_decide_unpack _). vm_compute. exact I.
  - reflexivity.
  - reflexivity.
  - repeat (constructor; [split; [|split; [|split]]; [lazy; repeat constructor; discriminate|lazy; repeat constructor; discriminate|reflexivity|reflexivity]|]). constructor.
  - vm_compute. discriminate.
  - exists st'. split; [exact E|exact Q'].
Defined.

End Maintain.
