(* ===== verification/Agent.v ===== *)
(** * The agent of the maintenance link (network/pfs_agent.c)

    A thread of every server that keeps a connection to the maintenance master
    ([PossMaster]).  It reports the finished tasks, one line each, and sends the
    tasks home; while there is no connection the reports go to a file, which is
    sent later.  It answers the commands of the master ([Maintain]) and sends
    heartbeats.

    [do_run] is one connection: [start] up to the loop, then one [round] for
    every [select].  What the kernel does in a round is a [turn].  [wire] is what
    has been sent on the connection.  [None]: the process crashes or hangs, or
    the turn lists too few outcomes. *)

From stdpp Require Import functions.
From S2P Require Import Prelude.
From S2P Require Import CString.
From S2P Require Import Codec.
From S2P Require Import Protocol.
From S2P Require Import MyBuff.
From S2P Require Import LinkedList.
From S2P Require Import TaskData.
From S2P Require Import TaskQueue.
From S2P Require Import MyConfig.
From S2P Require Import Storage.
From S2P Require Import LocalFile.
From S2P Require Import EventLoop.
From S2P Require Import SigStream.
From S2P Require Import PossMaster.
From S2P Require Import Maintain.

Module Agent.
Import MyBuff Conn Loop Poss Fs.

(** ** Data *)

Definition MAXTMPFILE : Z := 10240.
Definition PREFIX : bytes := str "poss_".
Definition SUFFIX : bytes := str ".data".

Definition FILE_DATA : Z := 0x02.
Definition SOCK_CLOSE : Z := 0x10.
Definition SOCK_SEND : Z := 0x20.
Definition SOCK_SEND_FILE : Z := 0x40.
Definition SOCK_COMP : Z := 0x80.

Definition GSIZE : Z := 1073741824.

Definition task_status : list bytes :=
  map str ["TASK_Q_DELAY"; "TASK_Q_WAIT"; "TASK_Q_WAIT_TMP"; "TASK_Q_WAIT_SYNC"; "TASK_Q_WAIT_SYNC_IP";
           "TASK_Q_WAIT_SYNC_DIR"; "TASK_Q_WAIT_SYNC_DIR_TMP"; "TASK_Q_SYNC_DIR"; "TASK_Q_SYNC_DIR_TMP"; "TASK_Q_RUN";
           "TASK_Q_FIN"; "TASK_Q_CLEAN"; "TASK_Q_HOME"; "TASK_Q_SEND"; "TASK_Q_RECV"; "TASK_Q_SYNC_VOSS";
           "TASK_Q_SYNC_DIR_REQ"; "TASK_Q_SYNC_DIR_RSP"]%string.

Definition over_status : list bytes :=
  map str ["OVER_UNKNOWN"; "OVER_OK"; "OVER_E_MD5"; "OVER_PEERERR"; "TASK_Q_EXIST"; "OVER_PEERCLOSE"; "OVER_UNLINK";
           "OVER_TIMEOUT"; "OVER_MALLOC"; "OVER_SRC_DOMAIN_ERR"; "OVER_SRC_IP_OFFLINE"; "OVER_E_OPEN_SRCFILE";
           "OVER_E_OPEN_DSTFILE"; "OVER_E_IP"; "OVER_E_TYPE"; "OVER_SEND_LEN"; "OVER_TOO_MANY_TRY"; "OVER_DISK_ERR";
           "OVER_UP_ERR"]%string.

Record fileinfo := mk_fileinfo { fi_mtime : Z; fi_file : bytes }.

(** The buffers of a connection; number -1 is [defconn]. *)
Record link := mk_link { send_buff : mybuff; recv_buff : mybuff }.

(** [g_tmp_files] is NULL before the first use. *)
Record agent := mk_agent {
  server : Maintain.server;
  databuff : mybuff;
  conns : gmap Z link;
  g_tmp_files : option (list fileinfo);
  g_tmp_index : Z;
  files : fs;
  seqno : Z;
  scan_last : Z;          (* the static [last] of [do_scan] *)
  stop : bool;
  wire : bytes
}.

(** [possip] and the resolver; [self_stat] and [self_domain->domain]; the text of
    a time; [readdir], [stat], [write] and [qsort]; the fresh array of files; the
    locks of the queues; whether the uninitialised [wfds] has the bit set. *)
Class Surround := mk_surround {
  possip : bytes;
  gethostbyname : bytes -> option (list bytes);
  self_stat : Z;
  domain : bytes;
  time_text : Z -> bytes;
  k_readdir : gmap bytes Z -> gset bytes -> bytes -> option (list bytes);
  k_mtime : bytes -> Z;
  k_write : Z -> bytes -> Z;
  k_qsort : list fileinfo -> list fileinfo;
  fresh_files : option (list fileinfo);
  lk : Z;
  lk_home : Z;
  wfds0 : bool
}.

Definition set_server (a : agent) (m : Maintain.server) (sq : Z) : agent :=
  mk_agent m (databuff a) (conns a) (g_tmp_files a) (g_tmp_index a) (files a) sq (scan_last a) (stop a) (wire a).
Definition set_conns (a : agent) (c : gmap Z link) : agent :=
  mk_agent (server a) (databuff a) c (g_tmp_files a) (g_tmp_index a) (files a) (seqno a) (scan_last a) (stop a) (wire a).
Definition set_tmp (a : agent) (l : option (list fileinfo)) (i : Z) : agent :=
  mk_agent (server a) (databuff a) (conns a) l i (files a) (seqno a) (scan_last a) (stop a) (wire a).
Definition set_files (a : agent) (f : fs) : agent :=
  mk_agent (server a) (databuff a) (conns a) (g_tmp_files a) (g_tmp_index a) f (seqno a) (scan_last a) (stop a) (wire a).
Definition set_stop (a : agent) : agent :=
  mk_agent (server a) (databuff a) (conns a) (g_tmp_files a) (g_tmp_index a) (files a) (seqno a) (scan_last a) true (wire a).
Definition set_wire (a : agent) (w : bytes) : agent :=
  mk_agent (server a) (databuff a) (conns a) (g_tmp_files a) (g_tmp_index a) (files a) (seqno a) (scan_last a) (stop a) w.
Definition set_data (a : agent) (q : TaskQueue.state) (b : mybuff) : agent :=
  mk_agent (Maintain.with_queue (server a) q) b (conns a) (g_tmp_files a) (g_tmp_index a) (files a) (seqno a) (scan_last a)
           (stop a) (wire a).
Definition set_scanned (a : agent) (q : TaskQueue.state) (t : Z) : agent :=
  mk_agent (Maintain.with_queue (server a) q) (databuff a) (conns a) (g_tmp_files a) (g_tmp_index a) (files a) (seqno a) t
           (stop a) (wire a).

Definition link_of (a : agent) (fd : Z) : link := default (mk_link mybuff_init mybuff_init) (conns a !! fd).
Definition set_send (a : agent) (fd : Z) (b : mybuff) : agent :=
  set_conns a (<[fd := mk_link b (recv_buff (link_of a fd))]> (conns a)).
Definition set_recv (a : agent) (fd : Z) (b : mybuff) : agent :=
  set_conns a (<[fd := mk_link (send_buff (link_of a fd)) b]> (conns a)).

Definition close_all (f : fs) (l : list Z) : fs := fold_left close l f.

Section Thread.
Context {E : Env} {K : Kernel} {C : MyConfig.Surroundings} {X : Maintain.Around} {Y : Surround}.
Implicit Types a : agent.

Definition sendb a (fd : Z) : mybuff := send_buff (link_of a fd).
Definition recvb a (fd : Z) : mybuff := recv_buff (link_of a fd).
Definition mybuff_setdata_send a (fd : Z) (d : bytes) : agent := set_send a fd (put (sendb a fd) d).

(** A header in the send buffer. *)
Definition put_head a (fd cmd n : Z) : agent :=
  let '(head, sq) := create_poss_head (seqno a) cmd n in
  mybuff_setdata_send (set_server a (server a) sq) fd head.

(** ** Reports *)

(** The line of [get_data_from_task]; the text is cut at the end of
    [buf[1024]] and the copy made of it is not. *)
Definition report (cur : Z) (r : t_pfs_tasklist) : option bytes :=
  let b := base r in
  st ← task_status !! Z.to_nat (status r);
  ov ← over_status !! Z.to_nat (overstatus b);
  let t := filename b ++ 58 :: Ip.ip2str (dstip b) ++ 58 :: u8 (type b) :: 58 :: st ++ 58 :: ov ++ 58 :: dec (b_starttime b) ++
           58 :: dec cur ++ 58 :: dec (fsize b) ++ 58 :: dec (oper_type (sub r)) ++ 58 :: domain ++ [10] in
  if 1024 <? zlen t then None else Some (take (length t) (snprintf 1024 t ++ [0])).

Definition add_report (cur : Z) (b : mybuff) (r : t_pfs_tasklist) : option mybuff :=
  t ← report cur r; Some (put b t).

(** The line is taken and the task goes home; [task.user] is not modelled: the
    scan is that of [TASK_Q_CLEAN], for which it is not looked at. *)
Definition get_data_from_task (cur : Z) : TaskQueue.state * mybuff -> LinkedList.loc -> option (TaskQueue.state * mybuff) :=
  TaskQueue.collect (add_report cur) cur lk_home.

Definition clean_unused_task_mem (cur : Z) (q : TaskQueue.state) (t : LinkedList.loc) : option TaskQueue.state :=
  r ← TaskQueue.tasks q !! t;
  if last r <? 0 then Some q
  else if cur - last r <? 3600 then Some q
  else
    h ← LinkedList.list_del_init (TaskQueue.mem q) t;
    u ← LinkedList.list_del_init (TaskQueue.umem q) t;
    q ← TaskQueue.atomic_add (TaskQueue.with_umem (TaskQueue.with_mem q h) u) TASK_Q_HOME (-1);
    let free h := LinkedList.mk_heap (delete t (LinkedList.nx h)) (delete t (LinkedList.pv h)) in
    Some (TaskQueue.mk_state (free (TaskQueue.mem q)) (free (TaskQueue.umem q)) (delete t (TaskQueue.tasks q))
            (TaskQueue.taskcount q)).

(** The scans visit every task once. *)
Definition enough (q : TaskQueue.state) : nat := length (map_to_list (TaskQueue.tasks q)).

Definition do_scan a (fd outdata : Z) (type : bool) (cur : Z) : option (Z * agent) :=
  let q := Maintain.queue (server a) in
  '(_, (q, b)) ← TaskQueue.scan_with lk (enough q) (get_data_from_task cur) q (databuff a) TASK_Q_CLEAN;
  let '(rc, d) := mybuff_getdata b in
  let '(outdata, a) :=
    if rc =? 0 then
      let a := set_data a q (mybuff_skipdata b (zlen d)) in
      let a := if type then put_head a fd PossMaster.REQ_SUBMIT (zlen d) else a in
      (Z.lor outdata 1, mybuff_setdata_send a fd d)
    else (outdata, set_data a q b) in
  if cur - scan_last a <? 3600 then Some (outdata, a)
  else
    '(_, q) ← TaskQueue.scan_some_status_task lk (enough q) (clean_unused_task_mem cur) q TASK_Q_HOME;
    Some (outdata, set_scanned a q cur).

(** [n] is a [size_t]: after a failed [write] all of the data is skipped. *)
Definition dump_to_file a (fd : Z) (tmpdir : bytes) (cur : Z) : agent :=
  let name := snprintf 256 (tmpdir ++ 47 :: PREFIX ++ take 10 (time_text cur) ++ SUFFIX) in
  match open_create (files a) name with
  | (inr _, f) => set_files a f
  | (inl lfd, f) =>
      let '(rc, d) := mybuff_getdata (sendb a fd) in
      if rc =? 0 then
        let n := k_write lfd d in
        let f := if n <? 0 then f else Fs.append f lfd (take (Z.to_nat n) d) in
        let a := if 0 <? u64 n then set_send a fd (mybuff_skipdata (sendb a fd) (u64 n)) else a in
        set_files a (close f lfd)
      else set_files a (close f lfd)
  end.

(** ** The files that wait to be sent *)

Definition tmp_file a : bytes := fi_file (nth (Z.to_nat (g_tmp_index a)) (default [] (g_tmp_files a)) (mk_fileinfo 0 [])).

(** The size and the contents of an open file. *)
Definition contents_of (f : fs) (lfd : Z) : bytes :=
  match fds f !! lfd with Some (i, _) => default [] (inodes f !! i) | None => [] end.

Definition get_most_old_file a (fd outdata : Z) : Z * agent :=
  match mybuff_getfile (sendb a fd) with
  | Some _ => (FILE_DATA, a)
  | None =>
      if g_tmp_index a <? 0 then (outdata, a)
      else
        match open_read (files a) (tmp_file a) with
        | (inr _, f) => (outdata, set_files a f)
        | (inl lfd, f) =>
            if 0 <? lfd then
              let size := zlen (contents_of f lfd) in
              let a := put_head (set_files a f) fd PossMaster.REQ_SUBMIT size in
              let '(b, cl) := mybuff_setfile (sendb a fd) lfd 0 size in
              (FILE_DATA, set_files (set_send a fd b) (close_all f cl))
            else (outdata, set_files a f)
        end
  end.

Definition rm_last_send_file a : agent :=
  if g_tmp_index a <? 0 then a
  else set_tmp (set_files a (unlink (files a) (tmp_file a))) (g_tmp_files a) (g_tmp_index a - 1).

(** The loop over the directory; at most [MAXTMPFILE] files are taken. *)
Fixpoint tmp_entries (f : fs) (tmpdir : bytes) (room : nat) (l : list bytes) : list fileinfo :=
  match room, l with
  | O, _ | _, [] => []
  | Datatypes.S room', name :: l' =>
      if (at_ name 0 =? 46) || negb (strncmp0 name PREFIX 5) then tmp_entries f tmpdir room l'
      else
        let file := snprintf 256 (tmpdir ++ 47 :: name) in
        if bool_decide (is_Some (paths f !! file))
        then mk_fileinfo (u32 (k_mtime file)) (snprintf 256 file) :: tmp_entries f tmpdir room' l'
        else tmp_entries f tmpdir room l'
  end.

(** When the directory cannot be opened the index stays 0. *)
Definition scantmpdir a (tmpdir : bytes) : option agent :=
  arr ← (match g_tmp_files a with Some l => Some l | None => fresh_files end);
  match k_readdir (paths (files a)) (dirs (files a)) tmpdir with
  | None => Some (set_tmp a (Some arr) 0)
  | Some names =>
      let l := tmp_entries (files a) tmpdir (Z.to_nat MAXTMPFILE) names in
      if bool_decide (l = []) then Some (set_tmp a (Some arr) (-1))
      else Some (set_tmp a (Some (k_qsort l ++ drop (length l) arr)) (zlen l - 1))
  end.

(** ** Sending and receiving *)

(** The two loops of [do_send]; the kernel takes no more than it is given.
    [None] as the first result: go on to the file. *)
Fixpoint send_data (b : mybuff) (d : bytes) (ss : list send_result) : option (option Z * mybuff * bytes * list send_result) :=
  match ss with
  | [] => None
  | s :: ss' =>
      let n := Z.min (s_n s) (zlen d) in
      if 0 <? n then
        Some (if n <? zlen d then Some SOCK_SEND else None, mybuff_skipdata b n, take (Z.to_nat n) d, ss')
      else if s_errno s =? EINTR then send_data b d ss'
      else Some (Some (if s_errno s =? EAGAIN then SOCK_SEND else SOCK_CLOSE), b, [], ss')
  end.

Fixpoint send_file a (fd lfd start len : Z) (ss : list send_result) : option (Z * agent) :=
  match ss with
  | [] => None
  | s :: ss' =>
      let n := Z.min (s_n s) (Z.min len GSIZE) in
      if 0 <? n then
        let d := take (Z.to_nat n) (drop (Z.to_nat start) (contents_of (files a) lfd)) in
        let '(b, cl) := mybuff_skipfile (sendb a fd) n in
        let a := set_wire (set_files (set_send a fd b) (close_all (files a) cl)) (wire a ++ d) in
        Some (if n <? len then (SOCK_SEND_FILE, a) else (SOCK_COMP, rm_last_send_file a))
      else if s_errno s =? EINTR then send_file a fd lfd start len ss'
      else Some (if s_errno s =? EAGAIN then SOCK_SEND_FILE else SOCK_CLOSE, a)
  end.

Definition do_send a (fd : Z) (ss : list send_result) : option (Z * agent) :=
  let '(rc, d) := mybuff_getdata (sendb a fd) in
  '(ret, b, w, ss) ← (if rc =? 0 then send_data (sendb a fd) d ss else Some (None, sendb a fd, [], ss));
  let a := set_wire (set_send a fd b) (wire a ++ w) in
  match ret with
  | Some r => Some (r, a)
  | None =>
      match mybuff_getfile (sendb a fd) with
      | None => Some (SOCK_COMP, a)
      | Some (lfd, start, len) => send_file a fd lfd start len ss
      end
  end.

Fixpoint do_recv (b : mybuff) (rs : list recv_result) : option (Z * mybuff) :=
  match rs with
  | [] => None
  | Got d :: rs' =>
      let b := put b d in
      if zlen d =? 2048 then do_recv b rs' else Some (SOCK_COMP, b)
  | Eof :: _ => Some (SOCK_CLOSE, b)
  | RErrno e :: rs' =>
      if e =? EINTR then do_recv b rs' else Some (if e =? EAGAIN then SOCK_COMP else SOCK_CLOSE, b)
  end.

(** ** Commands *)

(** The surroundings of the commands at another time. *)
Definition at_time (cur : Z) : Maintain.Around :=
  Maintain.mk_around cur Maintain.localtime_r Maintain.mktime Maintain.pfs_start_time Maintain.compiling Maintain.q_lock
    Maintain.task_mem Maintain.errmsg Maintain.self_ip Maintain.DIR1 Maintain.DIR2 Maintain.behind Maintain.pair_mem.

(** [set_from_poss]; the other requests of the master do nothing. *)
Definition set_from_poss a (fd : Z) (h : t_head_info) (d : bytes) (cur : Z) : option (Z * agent) :=
  if cmdid h =? PossMaster.REQ_PFS_CMD then
    '(out, sq, m) ← Maintain.do_request (X := at_time cur) (server a) (seqno a) (i32 (totallen h - HEADSIZE)) (drop 12 d);
    let a := set_server a m sq in
    Some (0, if bool_decide (out = []) then a else mybuff_setdata_send a fd out)
  else Some (0, a).

Definition do_hb a (fd outdata : Z) : Z * agent :=
  let '(head, sq) := create_poss_head (seqno a) PossMaster.REQ_HEARTBEAT 1 in
  (Z.lor outdata 1, mybuff_setdata_send (set_server a (server a) sq) fd (head ++ [self_stat])).

Definition check_req a (fd outdata cur : Z) : option (Z * Z * agent) :=
  let '(rc, d) := mybuff_getdata (recvb a fd) in
  if negb (rc =? 0) then Some (-1, outdata, a)
  else
    let '(ret, h) := parse_msg d (mk_info 0 0 0) in
    if ret =? E_NOT_SUFFIC then Some (-1, outdata, a)
    else if zlen d <? totallen h then Some (-1, outdata, a)
    else if cmdid h =? PossMaster.REQ_STOPPFS then Some (-1, outdata, set_stop a)
    else
      '(ret, a) ← set_from_poss a fd h d cur;
      Some (ret, if outdata <? 1 then 1 else outdata, set_recv a fd (mybuff_skipdata (recvb a fd) (u64 (i32 (totallen h))))).

(** A request takes something off the input, unless the length announced is 0. *)
Fixpoint req_loop (fuel : nat) a (fd outdata cur : Z) : option (Z * agent) :=
  match fuel with
  | O => None
  | Datatypes.S k =>
      '(r, outdata, a) ← check_req a fd outdata cur;
      if r =? -1 then Some (outdata, a) else req_loop k a fd outdata cur
  end.

(** ** The loop of [do_run] *)

Inductive select := SelectErr | SelectTimeout | Ready (w r : bool).

(** The time at the start of a round and after [select], what [select] reports,
    the outcomes of the calls that send and receive. *)
Record turn := mk_turn {
  t_now : Z;
  t_select : select;
  t_time : Z;
  t_sends : list send_result;
  t_recvs : list recv_result
}.

Record loop := mk_loop {
  l_agent : agent;
  outdata : Z;
  last_hb : Z;
  wset : bool        (* the bit of the socket in [wfds] *)
}.

(** The socket is ready; [w] and [r] are the bits of [wfds] and [rfds].  [inr]:
    the connection ends. *)
Definition serve (l : loop) (fd : Z) (w r : bool) (t : turn) : option (loop + agent) :=
  '(ret, a) ← (if w then do_send (l_agent l) fd (t_sends t) else Some (SOCK_COMP, l_agent l));
  if ret =? SOCK_CLOSE then Some (inr a)
  else
    let out := if ret =? SOCK_SEND then 1 else if ret =? SOCK_SEND_FILE then 2 else 0 in
    let go a out := Some (inl (mk_loop a out (last_hb l) w)) in
    if r then
      '(ret, b) ← do_recv (recvb a fd) (t_recvs t);
      let a := set_recv a fd b in
      if ret =? SOCK_CLOSE then Some (inr a)
      else
        '(out, a) ← req_loop (Datatypes.S (length (snd (mybuff_getdata (recvb a fd))))) a fd out (t_time t);
        go a out
    else go a out.

(** One round.  [wfds] is passed to [select] only when there is something to
    send; otherwise it keeps what it had. *)
Definition round (fd heartbeat : Z) (l : loop) (t : turn) : option (loop + agent) :=
  let '(out, a) := get_most_old_file (l_agent l) fd (outdata l) in
  match t_select t with
  | SelectErr => Some (inr a)
  | SelectTimeout =>
      let wset := if negb (out =? 0) then false else wset l in
      if negb (out =? 2) then
        '(out, a) ← do_scan a fd out true (t_time t);
        if heartbeat <? t_now t - last_hb l then
          let '(out, a) := do_hb a fd out in Some (inl (mk_loop a out (t_now t) wset))
        else Some (inl (mk_loop a out (last_hb l) wset))
      else Some (inl (mk_loop a out (last_hb l) wset))
  | Ready w r => serve (mk_loop a 0 (last_hb l) (wset l)) fd (if negb (out =? 0) then w else wset l) r t
  end.

Fixpoint rounds (fd heartbeat : Z) (l : loop) (ts : list turn) : option (loop + agent) :=
  if stop (l_agent l) then Some (inr (l_agent l))
  else
    match ts with
    | [] => Some (inl l)
    | t :: ts' =>
        r ← round fd heartbeat l t;
        match r with inl l => rounds fd heartbeat l ts' | inr a => Some (inr a) end
    end.

Definition reinit a (fd : Z) : agent :=
  let '(sb, c1) := mybuff_reinit init_buff_size junk true (sendb a fd) in
  let '(rb, c2) := mybuff_reinit init_buff_size junk true (recvb a fd) in
  set_files (set_conns a (<[fd := mk_link sb rb]> (conns a))) (close_all (files a) (c1 ++ c2)).

(** Up to the loop; [fd] is what [createsocket] returns. *)
Definition start a (fd cur : Z) : option (Z * (loop + agent)) :=
  '(_, st) ← MyConfig.myconfig_get_intval (Maintain.store (server a)) (str "poss_timesplice") 60;
  '(heartbeat, st) ← MyConfig.myconfig_get_intval st (str "poss_heartbeat") 30;
  dir ← MyConfig.myconfig_get_value st (str "poss_tmpdir");
  let tmpdir := default (str "../path/tmpdir") dir in
  let a := set_server a (Maintain.with_store (server a) st) (seqno a) in
  if (Ip.str2ip possip =? Ip.INADDR_NONE) && negb (bool_decide (is_Some (Ip.get_ip_by_domain gethostbyname possip)))
  then Some (heartbeat, inr a)
  else
    let key := if 0 <=? fd then fd else -1 in
    let a := reinit a key in
    if fd <? 0 then
      '(out, a) ← do_scan a key 0 false cur;
      Some (heartbeat, inr (if negb (out =? 0) then dump_to_file a key tmpdir cur else a))
    else
      a ← scantmpdir (set_wire a []) tmpdir;
      Some (heartbeat, inl (mk_loop a 0 cur wfds0)).

Definition do_run a (fd cur : Z) (ts : list turn) : option (loop + agent) :=
  '(heartbeat, r) ← start a fd cur;
  match r with inl l => rounds fd heartbeat l ts | inr a => Some (inr a) end.

(** ** Buffers *)

Lemma link_set_send a fd b : link_of (set_send a fd b) fd = mk_link b (recvb a fd).
Proof. unfold link_of, set_send. cbn [conns set_conns]. by rewrite lookup_insert_eq. Qed.

Lemma sendb_set a fd b : sendb (set_send a fd b) fd = b.
Proof. unfold sendb. by rewrite link_set_send. Qed.

Lemma recvb_set a fd b : recvb (set_send a fd b) fd = recvb a fd.
Proof. unfold recvb at 1. by rewrite link_set_send. Qed.

(** Where a connection without a file stands: [d] is to be sent, [w] has been. *)
Record standing a (fd : Z) (d w : bytes) : Prop := mk_standing {
  sd_send : wf (sendb a fd) /\ MyBuff.contents (sendb a fd) = d /\ MyBuff.file (sendb a fd) = None;
  sd_recv : wf (recvb a fd) /\ MyBuff.contents (recvb a fd) = [];
  sd_data : wf (databuff a) /\ MyBuff.contents (databuff a) = [];
  sd_stop : stop a = false;
  sd_wire : wire a = w
}.

(** What the sending leaves alone. *)
Definition same_rest a a' : Prop :=
  server a' = server a /\ seqno a' = seqno a /\ files a' = files a /\ scan_last a' = scan_last a /\ databuff a' = databuff a /\
  g_tmp_index a' = g_tmp_index a /\ g_tmp_files a' = g_tmp_files a.

Lemma getdata_of b d : wf b -> MyBuff.contents b = d -> d <> [] -> mybuff_getdata b = (0, d).
Proof. intros Hw <- Hd. rewrite getdata_spec by done. by rewrite decide_False. Qed.

Lemma getdata_nil b : wf b -> MyBuff.contents b = [] -> mybuff_getdata b = (-1, []).
Proof. intros Hw Hd. rewrite getdata_spec by done. by rewrite decide_True. Qed.

Lemma standing_out a fd b d w' d0 w0 :
  standing a fd d0 w0 -> wf b -> MyBuff.contents b = d -> MyBuff.file b = None ->
  standing (set_wire (set_send a fd b) w') fd d w' /\ same_rest a (set_wire (set_send a fd b) w').
Proof.
  intros [(S1 & S2 & S3) S4 S5 S7 S8] Hw Hd Hf. split; [|done]. split; try done.
  - change (sendb (set_wire (set_send a fd b) w') fd) with (sendb (set_send a fd b) fd). by rewrite sendb_set.
  - change (recvb (set_wire (set_send a fd b) w') fd) with (recvb (set_send a fd b) fd). by rewrite recvb_set.
Qed.

(** ** Sending what is in the buffer *)

Definition write_turn (t : turn) (n : Z) : Prop :=
  0 < n /\ t_select t = Ready true false /\ exists e, t_sends t = [mk_sent n e].

Lemma do_send_spec a fd d w n e : standing a fd d w -> 0 < n -> d <> [] ->
  exists ret a', do_send a fd [mk_sent n e] = Some (ret, a') /\
    standing a' fd (drop (Z.to_nat n) d) (w ++ take (Z.to_nat n) d) /\ same_rest a a' /\
    ret = (if n <? zlen d then SOCK_SEND else SOCK_COMP).
Proof.
  intros S Hn Hd. pose proof S as [(S1 & S2 & S3) _ _ _ S8]. unfold do_send. rewrite (getdata_of _ d) by done.
  change (0 =? 0) with true. cbn [send_data s_n].
  destruct (skipdata_spec (sendb a fd) (Z.min n (zlen d)) S1 ltac:(lia)) as (K1 & K2 & K3). rewrite S2 in K2. rewrite S3 in K3.
  assert (Hp : 0 < zlen d) by (destruct d; [done|cbn [length]; lia]).
  rewrite (proj2 (Z.ltb_lt 0 _)) by lia. cbn [mbind option_bind]. rewrite S8.
  destruct (standing_out a fd _ _ (w ++ take (Z.to_nat (Z.min n (zlen d))) d) d w S K1 K2 K3) as [S' R'].
  destruct (n <? zlen d) eqn:En; b2p.
  - rewrite Z.min_l in * by lia. rewrite (proj2 (Z.ltb_lt n (zlen d))) by lia. eexists _, _. split; [done|]. exact (conj S' (conj R' eq_refl)).
  - rewrite Z.min_r in * by lia. rewrite (proj2 (Z.ltb_ge (zlen d) (zlen d))) by lia.
    rewrite (getfile_none (sendb _ fd)) by apply (sd_send _ _ _ _ S'). eexists _, _. split; [done|].
    rewrite (drop_ge d (Z.to_nat n)), (take_ge d (Z.to_nat n)) by lia. rewrite Nat2Z.id, drop_all, firstn_all in S'.
    rewrite Nat2Z.id, firstn_all in R' |- *. exact (conj S' (conj R' eq_refl)).
Qed.

Lemma do_send_nothing a fd w ss : standing a fd [] w ->
  exists a', do_send a fd ss = Some (SOCK_COMP, a') /\ standing a' fd [] w /\ same_rest a a'.
Proof.
  intros S. pose proof S as [(S1 & S2 & S3) _ _ _ S8]. unfold do_send. rewrite getdata_nil by done.
  change (-1 =? 0) with false. cbn [mbind option_bind]. rewrite S8, app_nil_r.
  destruct (standing_out a fd _ _ w [] w S S1 S2 S3) as [S' R'].
  rewrite (getfile_none (sendb _ fd)) by apply (sd_send _ _ _ _ S'). by eexists.
Qed.

Lemma no_old_file a fd d w out : standing a fd d w -> g_tmp_index a < 0 -> get_most_old_file a fd out = (out, a).
Proof.
  intros S Hx. unfold get_most_old_file. rewrite (getfile_none (sendb a fd)) by apply (sd_send _ _ _ _ S).
  by rewrite (proj2 (Z.ltb_lt _ _) Hx).
Qed.

Lemma write_round fd hb l t n d w :
  standing (l_agent l) fd d w -> g_tmp_index (l_agent l) < 0 -> write_turn t n -> (d <> [] -> outdata l <> 0) ->
  exists l', round fd hb l t = Some (inl l') /\ standing (l_agent l') fd (drop (Z.to_nat n) d) (w ++ take (Z.to_nat n) d) /\
    same_rest (l_agent l) (l_agent l') /\ (drop (Z.to_nat n) d <> [] -> outdata l' <> 0) /\ last_hb l' = last_hb l.
Proof.
  intros S Hx (Hn & Hs & e & He) Ho. unfold round. rewrite (no_old_file _ _ _ _ _ S Hx), Hs. unfold serve. cbn [l_agent last_hb].
  destruct (decide (d = [])) as [->|Hd].
  - rewrite drop_nil, take_nil, app_nil_r. destruct (if negb (outdata l =? 0) then true else wset l).
    + destruct (do_send_nothing _ _ _ (t_sends t) S) as (a' & -> & S' & R'). cbn [mbind option_bind]. by eexists.
    + cbn [mbind option_bind]. by eexists.
  - specialize (Ho Hd). rewrite (proj2 (Z.eqb_neq _ _) Ho). cbn [negb]. rewrite He.
    destruct (do_send_spec _ _ _ _ n e S Hn Hd) as (ret & a' & -> & S' & R' & ->). cbn [mbind option_bind].
    destruct (n <? zlen d) eqn:En; b2p.
    + change (SOCK_SEND =? SOCK_CLOSE) with false. cbv iota. by eexists.
    + change (SOCK_COMP =? SOCK_CLOSE) with false. cbv iota. eexists. split; [done|]. split; [done|]. split; [done|].
      rewrite drop_ge by lia. done.
Qed.

Lemma turns_pos ts ns : Forall2 write_turn ts ns -> 0 <= foldr Z.add 0 ns.
Proof. induction 1 as [|t n ts ns [Hn _] _ IH]; cbn [foldr]; lia. Qed.

Lemma flush fd hb ts ns : Forall2 write_turn ts ns -> forall l d w,
  standing (l_agent l) fd d w -> g_tmp_index (l_agent l) < 0 -> (d <> [] -> outdata l <> 0) -> zlen d <= foldr Z.add 0 ns ->
  exists l', rounds fd hb l ts = Some (inl l') /\ standing (l_agent l') fd [] (w ++ d) /\ same_rest (l_agent l) (l_agent l').
Proof.
  induction 1 as [|t n ts ns Ht Hts IH]; intros l d w S Hx Ho Hl; cbn [rounds]; rewrite (sd_stop _ _ _ _ S).
  - destruct d; [|cbn [foldr length] in Hl; lia]. rewrite app_nil_r. by exists l.
  - destruct (write_round fd hb l t n d w S Hx Ht Ho) as (l1 & -> & S1 & R1 & O1 & _). cbn [mbind option_bind].
    destruct (IH l1 _ _ S1) as (l2 & E2 & S2 & R2); [destruct R1 as (_ & _ & _ & _ & _ & -> & _); done|done| |].
    { cbn [foldr] in Hl. rewrite length_drop. destruct Ht as [Hn _]. pose proof (turns_pos ts ns Hts). lia. }
    exists l2. split; [done|]. rewrite <- app_assoc, take_drop in S2. split; [done|].
    destruct R1 as (? & ? & ? & ? & ? & ? & ?), R2 as (? & ? & ? & ? & ? & ? & ?). split_and!; congruence.
Qed.

(** ** Reporting *)

(** The lines of the tasks [l]. *)
Definition lines_of (cur : Z) (T : gmap Z t_pfs_tasklist) (l : list Z) (lns : list bytes) : Prop :=
  Forall2 (fun t ln => exists r, T !! t = Some r /\ report cur r = Some ln) l lns.

Lemma gather_reports cur T l lns : lines_of cur T l lns -> forall b, wf b ->
  exists b', TaskQueue.gather (add_report cur) T b l = Some b' /\ wf b' /\
    MyBuff.contents b' = MyBuff.contents b ++ concat lns /\ MyBuff.file b' = MyBuff.file b.
Proof.
  induction 1 as [|t ln l lns (r & Hr & Hl) _ IH]; intros b Hw; cbn [TaskQueue.gather concat].
  { exists b. by rewrite app_nil_r. }
  assert (Ha : add_report cur b r = Some (put b ln)) by (unfold add_report; by rewrite Hl).
  rewrite Hr. cbn [mbind option_bind]. rewrite Ha. cbn [mbind option_bind].
  destruct (put_spec b ln Hw) as (W1 & C1 & F1). destruct (IH (put b ln) W1) as (b' & -> & W2 & C2 & F2).
  exists b'. split; [done|]. split; [done|]. split; [by rewrite C2, C1, <- app_assoc|congruence].
Qed.

(** Data is added to the send buffer. *)
Lemma standing_put a fd d w x : standing a fd d w -> standing (mybuff_setdata_send a fd x) fd (d ++ x) w.
Proof.
  intros [(S1 & S2 & S3) S4 S5 S7 S8]. destruct (put_spec (sendb a fd) x S1) as (W & W' & W'').
  split; try done; unfold mybuff_setdata_send; [|by rewrite recvb_set]. rewrite sendb_set, W', S2, W''. by split_and!.
Qed.

Lemma standing_server a fd d w m sq : standing a fd d w -> standing (set_server a m sq) fd d w.
Proof. by intros []. Qed.

Lemma standing_data a fd d w q b : standing a fd d w -> wf b -> MyBuff.contents b = [] -> standing (set_data a q b) fd d w.
Proof. by intros [] ? ?. Qed.

(** The header of a submission, if there is one. *)
Definition submit_head (type : bool) (sq n : Z) : bytes := if type then PossMaster.head sq PossMaster.REQ_SUBMIT n else [].
Definition next_seq (sq : Z) : Z := snd (create_poss_head sq 0 0).

Lemma poss_head sq cmd n : create_poss_head sq cmd n = (PossMaster.head sq cmd n, next_seq sq).
Proof. done. Qed.

Section Reporting.
Hypothesis locks : lk = 0 /\ lk_home = 0.
Context (off : Z -> Z).

Definition sent_home (qs : Z -> list Z) : Z -> list Z :=
  <[TASK_Q_HOME := qs TASK_Q_HOME ++ qs TASK_Q_CLEAN]> (<[TASK_Q_CLEAN := []]> qs).

Lemma do_scan_spec a fd d w out type cur qs lns :
  standing a fd d w -> TaskQueue.queues off (Maintain.queue (server a)) qs -> TaskQueue.users_ok (Maintain.queue (server a)) qs ->
  lines_of cur (TaskQueue.tasks (Maintain.queue (server a))) (qs TASK_Q_CLEAN) lns -> concat lns <> [] ->
  cur - scan_last a < 3600 ->
  exists q' a', do_scan a fd out type cur = Some (Z.lor out 1, a') /\
    standing a' fd (d ++ submit_head type (seqno a) (zlen (concat lns)) ++ concat lns) w /\
    server a' = Maintain.with_queue (server a) q' /\
    TaskQueue.queues off q' (sent_home qs) /\ TaskQueue.users_ok q' (sent_home qs) /\
    files a' = files a /\ g_tmp_index a' = g_tmp_index a /\ seqno a' = (if type then next_seq (seqno a) else seqno a).
Proof.
  intros S Q U L Hne Hc. pose proof (sd_data _ _ _ _ S) as [D1 D2]. destruct locks as [L1 L2]. unfold do_scan.
  destruct (gather_reports cur _ _ lns L (databuff a) D1) as (b & G1 & G2 & G3 & _). rewrite D2 in G3. cbn [app] in G3.
  destruct (TaskQueue.collect_queue (add_report cur) cur lk_home ltac:(by left) off (enough (Maintain.queue (server a)))
    (Maintain.queue (server a)) (databuff a) qs TASK_Q_CLEAN 0 b Q U eq_refl ltac:(done) ltac:(by left)) as (q' & E1 & Q' & U' & _).
  { pose proof (TaskQueue.queues_bound off _ qs TASK_Q_CLEAN TASK_Q_HOME Q eq_refl eq_refl ltac:(done)). unfold enough. lia. }
  { exact G1. }
  unfold get_data_from_task. rewrite L1, E1. cbn [mbind option_bind]. rewrite (getdata_of b (concat lns)) by done.
  change (0 =? 0) with true. cbv iota zeta.
  destruct (skipdata_spec b (zlen (concat lns)) G2 ltac:(lia)) as (K1 & K2 & _). rewrite G3, Nat2Z.id, drop_all in K2.
  pose proof (standing_data a fd d w q' _ S K1 K2) as S1. set (a1 := set_data a q' _) in *.
  destruct type.
  - unfold put_head. change (seqno a1) with (seqno a).
    destruct (create_poss_head (seqno a) PossMaster.REQ_SUBMIT (zlen (concat lns))) as [hd sq] eqn:Eh.
    assert (Hhd : hd = PossMaster.head (seqno a) PossMaster.REQ_SUBMIT (zlen (concat lns))) by (unfold PossMaster.head; by rewrite Eh).
    assert (Hsq : sq = next_seq (seqno a)) by (rewrite poss_head in Eh; by injection Eh).
    pose proof (standing_put _ fd _ _ (concat lns) (standing_put _ fd _ _ hd (standing_server a1 fd d w (server a1) sq S1))) as S2.
    rewrite <- app_assoc in S2. subst hd. set (a2 := mybuff_setdata_send _ _ (concat lns)) in *.
    change (scan_last a2) with (scan_last a). rewrite (proj2 (Z.ltb_lt _ _) Hc). exists q', a2.
    split; [done|]. split; [done|]. split; [done|]. split; [done|]. split; [done|]. split; [done|]. split; done.
  - pose proof (standing_put _ fd _ _ (concat lns) S1) as S2. set (a2 := mybuff_setdata_send _ _ (concat lns)) in *.
    change (scan_last a2) with (scan_last a). rewrite (proj2 (Z.ltb_lt _ _) Hc). exists q', a2.
    split; [done|]. split; [done|]. split; [done|]. split; [done|]. split; [done|]. split; [done|]. split; done.
Qed.

Definition idle_turn (hb : Z) (l : loop) (t : turn) : Prop := t_select t = SelectTimeout /\ t_now t - last_hb l <= hb.

Lemma report_round fd hb l t w qs lns :
  let a := l_agent l in
  standing a fd [] w -> g_tmp_index a < 0 -> outdata l <> 2 -> idle_turn hb l t ->
  TaskQueue.queues off (Maintain.queue (server a)) qs -> TaskQueue.users_ok (Maintain.queue (server a)) qs ->
  lines_of (t_time t) (TaskQueue.tasks (Maintain.queue (server a))) (qs TASK_Q_CLEAN) lns -> concat lns <> [] ->
  t_time t - scan_last a < 3600 ->
  exists q' l', round fd hb l t = Some (inl l') /\
    standing (l_agent l') fd (PossMaster.enc (PossMaster.Submit (seqno a) (concat lns))) w /\ outdata l' <> 0 /\
    server (l_agent l') = Maintain.with_queue (server a) q' /\
    TaskQueue.queues off q' (sent_home qs) /\ TaskQueue.users_ok q' (sent_home qs) /\
    files (l_agent l') = files a /\ g_tmp_index (l_agent l') = g_tmp_index a /\ seqno (l_agent l') = next_seq (seqno a).
Proof.
  intros a S Hx Ho [Hs Hh] Q U L Hne Hc. unfold round. rewrite (no_old_file _ _ _ _ _ S Hx), Hs. fold a.
  rewrite (proj2 (Z.eqb_neq _ 2) Ho). cbn [negb].
  destruct (do_scan_spec a fd [] w (outdata l) true (t_time t) qs lns S Q U L Hne Hc)
    as (q' & a' & -> & S' & Hm & Q' & U' & Hf & Hix & Hsq). cbn [mbind option_bind].
  rewrite (proj2 (Z.ltb_ge _ _)) by lia. exists q'. eexists. split; [done|]. cbn [l_agent outdata]. split; [exact S'|].
  split; [|by split_and!]. intros H%Z.lor_eq_0_iff. lia.
Qed.

(** C18: the finished tasks are reported to the master.  When nothing is
    waiting and [select] times out, every task of the queue of finished tasks is
    sent home, in order, with its counters right; however the kernel then takes
    the bytes, and however the network cuts them, the master, running on another
    machine, ends up with the lines of all these tasks, in their order, in the file
    of the agent and with nothing left to read. *)
Theorem reports_reach_master {E2 : Env} {K2 : Kernel} {P : PossMaster.Around} fd hb l t ts ns qs lns mfd tm j ip name h s p :
  let a := l_agent l in
  standing a fd [] [] -> g_tmp_index a < 0 -> outdata l <> 2 -> idle_turn hb l t ->
  TaskQueue.queues off (Maintain.queue (server a)) qs -> TaskQueue.users_ok (Maintain.queue (server a)) qs ->
  lines_of (t_time t) (TaskQueue.tasks (Maintain.queue (server a))) (qs TASK_Q_CLEAN) lns -> concat lns <> [] ->
  t_time t - scan_last a < 3600 -> 0 <= seqno a < 2 ^ 32 -> zlen (concat lns) < 2 ^ 31 ->
  Forall2 write_turn ts ns -> HEADSIZE + zlen (concat lns) <= foldr Z.add 0 ns ->
  (forall lfd d, PossMaster.k_write lfd d = zlen d) -> 0 < PossMaster.poss_interval -> k_open (Kernel := K2) name = None ->
  PossMaster.link (X := P) mfd tm j ip name h [] s p ->
  PossMaster.sock_stat p = PossMaster.CONNECTED -> inq h mfd = [] ->
  exists l' q', rounds fd hb l (t :: ts) = Some (inl l') /\
    server (l_agent l') = Maintain.with_queue (server a) q' /\ TaskQueue.queues off q' (sent_home qs) /\
    MyBuff.contents (sendb (l_agent l') fd) = [] /\
    forall chunks, concat chunks = wire (l_agent l') ->
    exists h', PossMaster.feed (E := E2) (K := K2) (X := P) mfd h chunks = Some h' /\
      default [] (Fs.contents (PossMaster.sys (user h')) name) = concat lns /\ inq h' mfd = [].
Proof.
  intros a S Hx Ho Ht Q U L Hne Hc Hsq Hlen Hts Hsum Hw Hi Hop ML Hst Hq.
  destruct (report_round fd hb l t [] qs lns S Hx Ho Ht Q U L Hne Hc) as (q' & l1 & E1 & S1 & O1 & M1 & Q1 & U1 & F1 & X1 & N1).
  set (m := PossMaster.Submit (seqno a) (concat lns)) in *.
  destruct (flush fd hb ts ns Hts l1 _ _ S1 ltac:(by rewrite X1) ltac:(done)) as (l2 & E2' & S2 & (M2 & _)).
  { unfold m. cbn [PossMaster.enc]. rewrite length_app, PossMaster.length_head. unfold HEADSIZE in Hsum. lia. }
  exists l2, q'. cbn [rounds]. fold a. rewrite (sd_stop _ _ _ _ S), E1. cbn [mbind option_bind]. split; [done|].
  split; [by rewrite M2|]. split; [done|]. split; [apply (sd_send _ _ _ _ S2)|]. intros chunks Hch. rewrite (sd_wire _ _ _ _ S2) in Hch. cbn [app] in Hch.
  destruct (PossMaster.feed_all mfd tm j ip name Hw Hi Hop chunks h [m] s p ML Hst Hq) as (h' & p' & F & L' & Hq').
  { repeat constructor; lia. }
  { unfold PossMaster.stream. cbn [map concat]. by rewrite app_nil_r. }
  exists h'. split; [done|]. split; [|done].
  rewrite (PossMaster.link_contents _ _ _ _ _ _ _ _ _ L'). unfold PossMaster.bodies, m. cbn [map concat PossMaster.body]. by rewrite app_nil_r.
Qed.

End Reporting.

(** ** The files that wait *)

(** [f] holds the file [n] with the contents [c]. *)
Definition holds_file (f : fs) (nc : bytes * bytes) : Prop :=
  exists i, paths f !! fst nc = Some i /\ inodes f !! i = Some (snd nc).

(** The files still to be sent, in the order in which they will be: the array
    is used from its end. *)
Record waiting a (todo : list (bytes * bytes)) : Prop := mk_waiting {
  wt_names : map fi_file (rev (take (length todo) (default [] (g_tmp_files a)))) = map fst todo;
  wt_index : g_tmp_index a = zlen todo - 1;
  wt_files : Forall (holds_file (files a)) todo;
  wt_nodup : NoDup (map fst todo);
  wt_open : Forall (fun nc => k_open (fst nc) = None /\ snd nc <> [] /\ zlen (snd nc) < 2 ^ 31) todo;
  wt_next : 0 < next (files a)
}.

Fixpoint submissions (sq : Z) (todo : list (bytes * bytes)) : list PossMaster.amsg :=
  match todo with
  | [] => []
  | (_, c) :: todo' => PossMaster.Submit sq c :: submissions (next_seq sq) todo'
  end.

(** Nothing is in the buffers, or a file is being sent: [d] is in front of it
    and [r] is what is left of it. *)
Definition at_rest a (fd : Z) (todo : list (bytes * bytes)) (w : bytes) : Prop :=
  standing a fd [] w /\ waiting a todo.

Record sending a (fd : Z) (n : bytes) (todo : list (bytes * bytes)) (d r w : bytes) : Prop := mk_sending {
  sn_buf : wf (sendb a fd) /\ MyBuff.contents (sendb a fd) = d;
  sn_file : exists lfd k c i o, MyBuff.file (sendb a fd) = Some (lfd, k, zlen r) /\ 0 <= k /\ r = drop (Z.to_nat k) c /\
    fds (files a) !! lfd = Some (i, o) /\ inodes (files a) !! i = Some c /\ waiting a ((n, c) :: todo);
  sn_left : r <> [];
  sn_recv : wf (recvb a fd) /\ MyBuff.contents (recvb a fd) = [];
  sn_data : wf (databuff a) /\ MyBuff.contents (databuff a) = [];
  sn_stop : stop a = false;
  sn_wire : wire a = w
}.

Lemma waiting_cons a n c todo : waiting a ((n, c) :: todo) ->
  tmp_file a = n /\ (g_tmp_index a <? 0) = false.
Proof.
  intros [W1 W2 _ _ _ _]. cbn [length] in *. split; [|apply Z.ltb_ge; lia]. unfold tmp_file. rewrite W2.
  set (arr := default [] (g_tmp_files a)) in *. replace (Z.to_nat (Z.of_nat (Datatypes.S (length todo)) - 1)) with (length todo) by lia.
  destruct (lookup_lt_is_Some_2 arr (length todo)) as [x Hx].
  { apply (f_equal length) in W1. rewrite !length_map, length_rev, length_take in W1. cbn [length] in W1. lia. }
  rewrite (take_S_r _ _ x Hx), rev_app_distr in W1. cbn [rev app map] in W1. injection W1 as W1 _.
  rewrite (nth_lookup_Some _ _ _ _ Hx). done.
Qed.

Lemma waiting_done a n c todo : waiting a ((n, c) :: todo) ->
  waiting (rm_last_send_file a) todo.
Proof.
  intros W. destruct (waiting_cons _ _ _ _ W) as [Hn Hi]. unfold rm_last_send_file. rewrite Hi, Hn.
  destruct W as [W1 W2 W3 W4 W5 W6]. cbn [length map fst] in *. apply Forall_cons in W3 as [_ W3], W5 as [_ W5].
  apply NoDup_cons in W4 as [W4 W4']. split; try done; cbn [g_tmp_files g_tmp_index files set_tmp set_files].
  - set (arr := default [] (g_tmp_files a)) in *. destruct (lookup_lt_is_Some_2 arr (length todo)) as [x Hx].
    { apply (f_equal length) in W1. rewrite !length_map, length_rev, length_take in W1. cbn [length] in W1. rewrite length_map in W1. lia. }
    rewrite (take_S_r _ _ x Hx), rev_app_distr in W1. cbn [rev app map] in W1. by injection W1 as _ W1.
  - lia.
  - rewrite Forall_forall in W3 |- *. intros [n' c'] Hin. destruct (W3 _ Hin) as (i & P1 & P2). exists i. split; [|done].
    cbn [paths unlink fst]. rewrite lookup_delete_ne; [done|]. cbn [fst] in *. intros <-. apply W4. by apply (list_elem_of_fmap_2 fst _ (n, c')).
Qed.

(** [waiting] looks at little of the agent. *)
Lemma waiting_ext a a' todo : waiting a todo ->
  g_tmp_files a' = g_tmp_files a -> g_tmp_index a' = g_tmp_index a -> paths (files a') = paths (files a) ->
  inodes (files a') = inodes (files a) -> next (files a) <= next (files a') -> waiting a' todo.
Proof.
  intros [W1 W2 W3 W4 W5 W6] E1 E2 E3 E4 E5. split; rewrite ?E1, ?E2; try done; [|lia].
  eapply Forall_impl; [exact W3|]. intros x (j & P1 & P2). exists j. by rewrite E3, E4.
Qed.

Lemma load_file a fd n c todo w out : at_rest a fd ((n, c) :: todo) w ->
  exists a', get_most_old_file a fd out = (FILE_DATA, a') /\
    sending a' fd n todo (PossMaster.head (seqno a) PossMaster.REQ_SUBMIT (zlen c)) c w /\
    seqno a' = next_seq (seqno a) /\ server a' = server a /\ paths (files a') = paths (files a).
Proof.
  intros [S W]. pose proof S as [(S1 & S2 & S3) S4 S5 S7 S8]. unfold get_most_old_file. rewrite getfile_none by done.
  destruct (waiting_cons _ _ _ _ W) as [Hn Hi]. rewrite Hi, Hn. unfold open_read.
  destruct (Forall_cons_1 _ _ _ (wt_open _ _ W)) as [(Ho & Hc & Hl) _]. cbn [fst snd] in *. rewrite Ho.
  destruct (Forall_cons_1 _ _ _ (wt_files _ _ W)) as [(j & P1 & P2) _]. cbn [fst snd] in *. rewrite P1.
  set (f := mk_fs _ _ _ _ _ _). set (lfd := next (files a)).
  assert (Hfd : fds f !! lfd = Some (j, 0)) by (unfold f; cbn [fds]; by rewrite lookup_insert_eq).
  assert (Hcont : contents_of f lfd = c) by (unfold contents_of; rewrite Hfd; unfold f; cbn [inodes]; by rewrite P2).
  rewrite (proj2 (Z.ltb_lt 0 lfd) (wt_next _ _ W)), Hcont. unfold put_head. change (seqno (set_files a f)) with (seqno a).
  destruct (create_poss_head (seqno a) PossMaster.REQ_SUBMIT (zlen c)) as [hd sq] eqn:Eh.
  assert (Hhd : hd = PossMaster.head (seqno a) PossMaster.REQ_SUBMIT (zlen c)) by (unfold PossMaster.head; by rewrite Eh).
  assert (Hsq : sq = next_seq (seqno a)) by (rewrite poss_head in Eh; by injection Eh).
  set (a0 := set_server (set_files a f) (server (set_files a f)) sq).
  destruct (put_spec (sendb a0 fd) hd S1) as (B1 & B2 & B3). change (sendb a0 fd) with (sendb a fd) in B1, B2, B3.
  unfold mybuff_setdata_send. rewrite sendb_set. change (sendb a0 fd) with (sendb a fd). set (b := put (sendb a fd) hd) in *.
  rewrite S2 in B2. rewrite S3 in B3. cbn [app] in B2.
  assert (Hneg : (0 <=? MyBuff.fd b) = false) by (unfold MyBuff.file in B3; by destruct (0 <=? MyBuff.fd b)).
  unfold mybuff_setfile. rewrite Hneg. cbn [close_all fold_left].
  eexists. split; [reflexivity|]. split; [|by split; [exact Hsq|]]. rewrite <- Hhd. set (b' := mk_buff _ _ _ _ _ _).
  match goal with |- sending ?x _ _ _ _ _ _ => set (a2 := x) end.
  assert (Hb : sendb a2 fd = b') by (unfold a2; exact (sendb_set _ fd b')).
  assert (Hr : recvb a2 fd = recvb a fd) by (unfold a2; etransitivity; [exact (recvb_set _ fd b')|]; exact (recvb_set a0 fd b)).
  split; rewrite ?Hb, ?Hr; try done.
  exists lfd, 0, c, j, 0. split.
  { unfold MyBuff.file, b'. cbn [MyBuff.fd foffset flen]. pose proof (wt_next _ _ W). unfold lfd. rewrite (proj2 (Z.leb_le 0 _)) by lia. done. }
  split; [done|]. split; [done|]. split; [done|]. split; [done|].
  apply (waiting_ext a); try done. unfold a2, f. cbn [files set_files set_send set_conns next]. lia.
Qed.

(** What is left to be sent. *)
Definition progress a a' (fd : Z) (n : bytes) (todo : list (bytes * bytes)) (d r w : bytes) (ret : Z) : Prop :=
  seqno a' = seqno a /\ server a' = server a /\
  ((exists x d' r', x <> [] /\ d ++ r = x ++ d' ++ r' /\ (ret = SOCK_SEND \/ ret = SOCK_SEND_FILE) /\
      sending a' fd n todo d' r' (w ++ x) /\ paths (files a') = paths (files a)) \/
   (ret = SOCK_COMP /\ at_rest a' fd todo (w ++ d ++ r) /\ paths (files a') = delete n (paths (files a)))).

Lemma rm_last_rest a : sendb (rm_last_send_file a) = sendb a /\ recvb (rm_last_send_file a) = recvb a /\
  databuff (rm_last_send_file a) = databuff a /\ stop (rm_last_send_file a) = stop a /\ wire (rm_last_send_file a) = wire a /\
  seqno (rm_last_send_file a) = seqno a /\ server (rm_last_send_file a) = server a.
Proof. unfold rm_last_send_file. by destruct (g_tmp_index a <? 0). Qed.

Lemma send_file_step a fd n todo r w k e ss : sending a fd n todo [] r w -> 0 < k ->
  exists lfd start len ret a', mybuff_getfile (sendb a fd) = Some (lfd, start, len) /\
    send_file a fd lfd start len (mk_sent k e :: ss) = Some (ret, a') /\ progress a a' fd n todo [] r w ret.
Proof.
  intros [(B1 & B2) (lfd & st & c & j & o & Hf & Hst & Hr & Hfd & Hino & W) Hne Hrv Hdb Hsp Hw] Hk.
  unfold MyBuff.file in Hf. destruct (0 <=? MyBuff.fd (sendb a fd)) eqn:Hp; [|done]. injection Hf as F1 F2 F3.
  assert (Hlen : 0 < zlen r) by (destruct r; [done|cbn [length]; lia]).
  assert (Hl0 : (0 <=? lfd) = true) by (by rewrite <- F1).
  exists lfd, st, (zlen r). unfold mybuff_getfile. rewrite Hp, F1, F2, F3, (proj2 (Z.ltb_lt 0 (zlen r)) Hlen). cbn [andb].
  cbn [send_file s_n]. set (m := Z.min k (Z.min (zlen r) GSIZE)). assert (Hm : 0 < m <= zlen r) by (unfold m, GSIZE; lia).
  rewrite (proj2 (Z.ltb_lt 0 m)) by lia. unfold mybuff_skipfile. rewrite Hp, F1, F2, F3.
  assert (Hd : take (Z.to_nat m) (drop (Z.to_nat st) (contents_of (files a) lfd)) = take (Z.to_nat m) r)
    by (unfold contents_of; rewrite Hfd, Hino, Hr; done).
  rewrite Hd, Hw. clear Hd. destruct (m <? zlen r) eqn:Em; b2p.
  - rewrite (proj2 (Z.leb_gt _ _) Em). eexists _, _. split; [done|]. split; [reflexivity|].
    set (b' := mk_buff _ _ _ _ _ _). split; [done|]. split; [done|]. left.
    exists (take (Z.to_nat m) r), [], (drop (Z.to_nat m) r). cbn [app]. rewrite take_drop.
    split; [intros Hx%(f_equal length); rewrite length_take in Hx; cbn [length] in Hx; lia|]. split; [done|]. split; [by right|]. split; [|done].
    match goal with |- sending ?x _ _ _ _ _ _ => set (a2 := x) end.
    assert (Hb : sendb a2 fd = b') by exact (sendb_set _ fd b').
    assert (Hrb : recvb a2 fd = recvb a fd) by exact (recvb_set _ fd b').
    split; rewrite ?Hb, ?Hrb; try done.
    + exists lfd, (st + m), c, j, o. unfold MyBuff.file, b'. cbn [MyBuff.fd foffset flen]. rewrite (proj2 (Z.leb_le 0 lfd)) by lia. split.
      { rewrite length_drop. f_equal. f_equal. lia. }
      split; [lia|]. split; [|split; [done|]; split; [done|]; by apply (waiting_ext a)].
      rewrite Hr, drop_drop. f_equal. lia.
    + intros Hx%(f_equal length). rewrite length_drop in Hx. cbn [length] in Hx. lia.
  - assert (m = zlen r) as -> by lia. rewrite (proj2 (Z.leb_le _ _)) by lia. eexists _, _. split; [done|]. split; [reflexivity|].
    set (b' := mk_buff _ _ _ _ _ _). rewrite Nat2Z.id, firstn_all. cbn [close_all fold_left].
    match goal with |- progress _ (rm_last_send_file ?x) _ _ _ _ _ _ _ => set (a2 := x) end.
    destruct (rm_last_rest a2) as (R1 & R2 & R3 & R4 & R5 & R6 & R7).
    split; [by rewrite R6|]. split; [by rewrite R7|]. right. split; [done|]. cbn [app].
    assert (Hb : sendb a2 fd = b') by exact (sendb_set _ fd b').
    assert (Hrb : recvb a2 fd = recvb a fd) by exact (recvb_set _ fd b').
    assert (W2 : waiting a2 ((n, c) :: todo)) by (by apply (waiting_ext a)).
    split; [split|].
    + split; rewrite ?R1, ?R2, ?R3, ?R4, ?R5, ?Hb, ?Hrb; try done.
    + by apply (waiting_done a2 n c).
    + destruct (waiting_cons _ _ _ _ W2) as [Hn Hi]. unfold rm_last_send_file. by rewrite Hi, Hn.
Qed.

Lemma do_send_file a fd n todo d r w k1 e1 k2 e2 : sending a fd n todo d r w -> 0 < k1 -> 0 < k2 ->
  exists ret a', do_send a fd [mk_sent k1 e1; mk_sent k2 e2] = Some (ret, a') /\ progress a a' fd n todo d r w ret.
Proof.
  intros SN H1 H2. pose proof SN as [(B1 & B2) Hf Hne Hrv Hdb Hsp Hw]. unfold do_send.
  assert (Hmid : forall b x, wf b -> MyBuff.contents b = x -> MyBuff.file b = MyBuff.file (sendb a fd) ->
    forall w', sending (set_wire (set_send a fd b) w') fd n todo x r w').
  { intros b x W1 W2 W3 w'. set (a1 := set_wire _ _).
    assert (Hb : sendb a1 fd = b) by exact (sendb_set a fd b). assert (Hrb : recvb a1 fd = recvb a fd) by exact (recvb_set a fd b).
    split; rewrite ?Hb, ?Hrb; try done. destruct Hf as (lfd & st & c & j & o & Hf & Hst & Hr & Hfd & Hino & Wt).
    exists lfd, st, c, j, o. rewrite W3. split; [done|]. split; [done|]. split; [done|]. split; [done|]. split; [done|].
    by apply (waiting_ext a). }
  destruct (decide (d = [])) as [->|Hd].
  - rewrite getdata_nil by done. change (-1 =? 0) with false. cbn [mbind option_bind]. rewrite Hw, app_nil_r.
    pose proof (Hmid _ _ B1 B2 eq_refl w) as SM. set (a1 := set_wire _ _) in *.
    destruct (send_file_step a1 fd n todo r w k1 e1 [mk_sent k2 e2] SM H1) as (lfd & st & len & ret & a' & -> & E' & P').
    exists ret, a'. by split.
  - rewrite (getdata_of _ d) by done. change (0 =? 0) with true. cbn [send_data s_n].
    assert (Hp : 0 < zlen d) by (destruct d; [done|cbn [length]; lia]). set (m := Z.min k1 (zlen d)).
    assert (Hm : 0 < m <= zlen d) by lia. rewrite (proj2 (Z.ltb_lt 0 m)) by lia. cbn [mbind option_bind]. rewrite Hw.
    destruct (skipdata_spec (sendb a fd) m B1 ltac:(lia)) as (K1 & K2 & K3). rewrite B2 in K2.
    pose proof (Hmid _ _ K1 K2 K3 (w ++ take (Z.to_nat m) d)) as SM. set (a1 := set_wire _ _) in *.
    destruct (m <? zlen d) eqn:Em; b2p.
    + eexists _, _. split; [done|]. split; [done|]. split; [done|]. left.
      exists (take (Z.to_nat m) d), (drop (Z.to_nat m) d), r. rewrite app_assoc, take_drop.
      split; [intros Hx%(f_equal length); rewrite length_take in Hx; cbn [length] in Hx; lia|]. split; [done|]. split; [by left|]. by split.
    + assert (Em' : m = zlen d) by lia. rewrite Em', Nat2Z.id, drop_all, firstn_all in SM.
      destruct (send_file_step a1 fd n todo r (w ++ d) k2 e2 [] SM H2) as (lfd & st & len & ret & a' & -> & E' & P1 & P2 & P').
      exists ret, a'. split; [done|]. split; [done|]. split; [done|].
      destruct P' as [(x & d' & r' & X1 & X2 & X3 & X4 & X5)|(X1 & X2 & X3)]; [left|right].
      * exists (d ++ x), d', r'. cbn [app] in X2. rewrite <- app_assoc, <- X2. split; [by destruct d|]. split; [done|]. split; [done|].
        by rewrite (app_assoc w d x).
      * cbn [app] in X2. rewrite app_assoc. done.
Qed.

(** A round in which the socket can be written to. *)
Definition file_turn (t : turn) : Prop :=
  t_select t = Ready true false /\
  exists k1 e1 k2 e2, 0 < k1 /\ 0 < k2 /\ t_sends t = [mk_sent k1 e1; mk_sent k2 e2].

(** [left] is what is still to be sent; of the files [names] the first ones have
    been removed. *)
Definition phase (fd : Z) (names : list bytes) (l : loop) (left w : bytes) : Prop :=
  let a := l_agent l in
  exists gone cur todo,
    names = gone ++ cur ++ map fst todo /\ Forall (fun n => paths (files a) !! n = None) gone /\
    ((cur = [] /\ at_rest a fd todo w /\ left = PossMaster.stream (submissions (seqno a) todo)) \/
     exists n d r, cur = [n] /\ sending a fd n todo d r w /\ left = d ++ r ++ PossMaster.stream (submissions (seqno a) todo)).

Lemma sending_round fd l a0 n todo d r w t :
  sending a0 fd n todo d r w -> file_turn t ->
  exists l', serve (mk_loop a0 0 (last_hb l) (wset l)) fd true false t = Some (inl l') /\
    exists ret, progress a0 (l_agent l') fd n todo d r w ret.
Proof.
  intros SN (Hs & k1 & e1 & k2 & e2 & H1 & H2 & Ht). unfold serve. cbn [l_agent last_hb]. rewrite Ht.
  destruct (do_send_file a0 fd n todo d r w k1 e1 k2 e2 SN H1 H2) as (ret & a' & -> & P). cbn [mbind option_bind].
  assert (Hr : (ret =? SOCK_CLOSE) = false).
  { destruct P as (_ & _ & [(x & d' & r' & _ & _ & [->| ->] & _)|(-> & _)]); done. }
  rewrite Hr. eexists. split; [done|]. by exists ret.
Qed.

Lemma sending_phase fd names gone n todo a0 l d r w ret :
  names = gone ++ [n] ++ map fst todo -> Forall (fun x => paths (files a0) !! x = None) gone ->
  progress a0 (l_agent l) fd n todo d r w ret ->
  exists left' w', phase fd names l left' w' /\
    w' ++ left' = w ++ d ++ r ++ PossMaster.stream (submissions (seqno a0) todo) /\
    (length left' < length (d ++ r ++ PossMaster.stream (submissions (seqno a0) todo)))%nat \/ d ++ r = [].
Proof.
  intros Hn Hg (Hsq & _ & P). destruct P as [(x & d' & r' & X1 & X2 & X3 & X4 & X5)|(X1 & X2 & X3)].
  - exists (d' ++ r' ++ PossMaster.stream (submissions (seqno a0) todo)), (w ++ x). left. split; [|split].
    + exists gone, [n], todo. split; [done|]. split; [by rewrite X5|]. right. exists n, d', r'. by rewrite Hsq.
    + rewrite (app_assoc d r), X2, <- !app_assoc. done.
    + rewrite (app_assoc d r), X2, !length_app. destruct x; [done|]. cbn [length]. lia.
  - destruct (decide (d ++ r = [])) as [Hd|Hd]; [exists [], []; by right|].
    exists (PossMaster.stream (submissions (seqno a0) todo)), (w ++ d ++ r). left. split; [|split].
    + exists (gone ++ [n]), [], todo. split; [by rewrite <- app_assoc|]. rewrite X3. split.
      { apply Forall_app. split; [|constructor; [apply lookup_delete_eq|constructor]].
        eapply Forall_impl; [exact Hg|]. intros y Hy. cbn beta in *. destruct (decide (n = y)) as [->|]; [apply lookup_delete_eq|by rewrite lookup_delete_ne]. }
      left. by rewrite Hsq.
    + by rewrite <- !app_assoc.
    + rewrite (app_assoc d r), length_app. destruct (d ++ r); [done|]. cbn [length]. lia.
Qed.

Lemma file_round fd hb names l left w t : phase fd names l left w -> file_turn t ->
  exists l' left' w', round fd hb l t = Some (inl l') /\ phase fd names l' left' w' /\ w' ++ left' = w ++ left /\
    (length left' <= length left - 1)%nat /\ server (l_agent l') = server (l_agent l).
Proof.
  intros (gone & cur & todo & Hn & Hg & H) Ht. pose proof Ht as [Hs _]. unfold round.
  assert (Hgo : forall n todo a0 d r, names = gone ++ [n] ++ map fst todo -> Forall (fun x => paths (files a0) !! x = None) gone ->
    sending a0 fd n todo d r w -> server a0 = server (l_agent l) ->
    exists l' left' w', serve (mk_loop a0 0 (last_hb l) (wset l)) fd true false t = Some (inl l') /\ phase fd names l' left' w' /\
      w' ++ left' = w ++ d ++ r ++ PossMaster.stream (submissions (seqno a0) todo) /\
      (length left' < length (d ++ r ++ PossMaster.stream (submissions (seqno a0) todo)))%nat /\ server (l_agent l') = server (l_agent l)).
  { intros n td a0 d r Hn' Hg' SN Hm. destruct (sending_round fd l a0 n td d r w t SN Ht) as (l' & E' & ret & P).
    destruct (sending_phase fd names gone n td a0 l' d r w ret Hn' Hg' P) as (left' & w' & [(P1 & P2 & P3)|Hd]).
    - exists l', left', w'. destruct P as (_ & P & _). split; [done|]. split; [done|]. split; [done|]. split; [done|congruence].
    - exfalso. apply (sn_left _ _ _ _ _ _ _ SN). by apply app_nil in Hd as [_ Hd]. }
  destruct H as [(-> & R & ->)|(n & d & r & -> & SN & ->)].
  - destruct todo as [|[n c] todo].
    + destruct R as [S W]. pose proof (wt_index _ _ W) as Hi. cbn [length] in Hi.
      rewrite (no_old_file _ _ _ _ _ S), Hs by lia. unfold serve. cbn [l_agent last_hb].
      assert (Hid : forall a', standing a' fd [] w -> same_rest (l_agent l) a' ->
        forall out b, exists left' w', phase fd names (mk_loop a' out (last_hb l) b) left' w' /\ w' ++ left' = w ++ [] /\
          (length left' <= length (@nil Z) - 1)%nat).
      { intros a' S' (_ & Q2 & Q3 & _ & _ & Q6 & Qt) out b. exists [], w. split; [|done].
        exists gone, [], []. cbn [l_agent]. rewrite Q3. split; [done|]. split; [done|]. left. split; [done|].
        split; [split; [done|]|done]. apply (waiting_ext (l_agent l)); rewrite ?Q3; done. }
      destruct (if negb (outdata l =? 0) then true else wset l).
      * destruct (do_send_nothing _ _ _ (t_sends t) S) as (a' & Ea & S' & R'). rewrite Ea. cbn [mbind option_bind].
        destruct (Hid a' S' R' 0 true) as (left' & w' & P1 & P2 & P3). eexists _, left', w'. split; [done|]. split; [exact P1|].
        split; [done|]. split; [done|]. by destruct R'.
      * cbn [mbind option_bind]. destruct (Hid (l_agent l) S ltac:(done) 0 false) as (left' & w' & P1 & P2 & P3).
        eexists _, left', w'. split; [done|]. split; [exact P1|]. by split_and!.
    + destruct (load_file (l_agent l) fd n c todo w (outdata l) R) as (a0 & -> & SN & Hsq & Hm & Hp). rewrite Hs.
      change (negb (FILE_DATA =? 0)) with true. cbv iota.
      destruct (Hgo n todo a0 _ _ Hn ltac:(by rewrite Hp) SN Hm) as (l' & left' & w' & E1 & E2 & E3 & E4 & E5).
      exists l', left', w'. rewrite Hsq in E3, E4. unfold PossMaster.stream in *. cbn [submissions map concat PossMaster.enc].
      rewrite <- app_assoc. split; [done|]. split; [done|]. split; [done|]. split; [lia|done].
  - unfold get_most_old_file. pose proof (sn_file _ _ _ _ _ _ _ SN) as (lfd & st & c & j & o & Hf & _).
    assert (Hgf : exists z, mybuff_getfile (sendb (l_agent l) fd) = Some z).
    { unfold MyBuff.file, mybuff_getfile in *. destruct (0 <=? MyBuff.fd (sendb (l_agent l) fd)); [|done]. injection Hf as -> -> ->.
      pose proof (sn_left _ _ _ _ _ _ _ SN). rewrite (proj2 (Z.ltb_lt 0 (zlen r))); [by eexists|]. destruct r; [done|cbn [length]; lia]. }
    destruct Hgf as [z ->]. rewrite Hs. change (negb (FILE_DATA =? 0)) with true. cbv iota.
    destruct (Hgo n todo _ _ _ Hn Hg SN eq_refl) as (l' & left' & w' & E1 & E2 & E3 & E4 & E5).
    exists l', left', w'. split; [done|]. split; [done|]. split; [done|]. split; [lia|done].
Qed.

Lemma phase_stop fd names l left w : phase fd names l left w -> stop (l_agent l) = false.
Proof.
  intros (gone & cur & todo & _ & _ & [(_ & [S _] & _)|(n & d & r & _ & SN & _)]); [apply (sd_stop _ _ _ _ S)|apply (sn_stop _ _ _ _ _ _ _ SN)].
Qed.

Lemma file_rounds fd hb names ts : Forall file_turn ts -> forall l left w,
  phase fd names l left w -> (length left <= length ts)%nat ->
  exists l', rounds fd hb l ts = Some (inl l') /\ phase fd names l' [] (w ++ left) /\ server (l_agent l') = server (l_agent l).
Proof.
  induction 1 as [|t ts Ht _ IH]; intros l left w P Hl; cbn [rounds]; rewrite (phase_stop _ _ _ _ _ P).
  - destruct left; [|cbn [length] in Hl; lia]. rewrite app_nil_r. by exists l.
  - destruct (file_round fd hb names l left w t P Ht) as (l1 & left1 & w1 & -> & P1 & E1 & D1 & M1). cbn [mbind option_bind].
    destruct (IH l1 left1 w1 P1) as (l2 & E2 & P2 & M2).
    { cbn [length] in Hl. lia. }
    exists l2. rewrite <- E1. split; [done|]. split; [done|congruence].
Qed.

(** ** A new connection *)

Record ready a (cfg : list (bytes * bytes)) : Prop := mk_ready {
  rd_cfg : MyConfig.loaded (Maintain.store (server a)) cfg;
  rd_conns : forall fd, wf (sendb a fd) /\ wf (recvb a fd);
  rd_data : wf (databuff a) /\ MyBuff.contents (databuff a) = [];
  rd_stop : stop a = false;
  rd_ip : Ip.str2ip possip <> Ip.INADDR_NONE
}.

Definition tmp_dir (cfg : list (bytes * bytes)) : bytes := default (str "../path/tmpdir") (MyConfig.newest (str "poss_tmpdir") cfg).

Lemma close_all_same l : forall f, paths (close_all f l) = paths f /\ inodes (close_all f l) = inodes f /\
  next (close_all f l) = next f /\ dirs (close_all f l) = dirs f.
Proof. induction l as [|x l IH]; intros f; [done|]. exact (IH (close f x)). Qed.

Lemma reinit_standing a fd : wf (sendb a fd) /\ wf (recvb a fd) -> wf (databuff a) /\ MyBuff.contents (databuff a) = [] -> stop a = false ->
  standing (reinit a fd) fd [] (wire a) /\ server (reinit a fd) = server a /\ seqno (reinit a fd) = seqno a /\
  scan_last (reinit a fd) = scan_last a /\ g_tmp_files (reinit a fd) = g_tmp_files a /\ g_tmp_index (reinit a fd) = g_tmp_index a /\
  exists l, files (reinit a fd) = close_all (files a) l.
Proof.
  intros [W1 W2] D S. unfold reinit.
  pose proof (reinit_spec init_buff_size junk init_pos junk_len (sendb a fd) W1) as (B1 & B2 & B3).
  pose proof (reinit_spec init_buff_size junk init_pos junk_len (recvb a fd) W2) as (R1 & R2 & R3).
  destruct (mybuff_reinit init_buff_size junk true (sendb a fd)) as [sb c1].
  destruct (mybuff_reinit init_buff_size junk true (recvb a fd)) as [rb c2]. cbn [fst] in *.
  split; [|split; [done|]; split; [done|]; split; [done|]; split; [done|]; split; [done|]; by eexists].
  assert (Hl : link_of (set_conns a (<[fd := mk_link sb rb]> (conns a))) fd = mk_link sb rb)
    by (unfold link_of; cbn [conns set_conns]; by rewrite lookup_insert_eq).
  split; try done; unfold sendb, recvb; change (link_of (set_files ?x ?y) fd) with (link_of x fd); by rewrite Hl.
Qed.

Lemma start_spec a cfg fd cur : ready a cfg ->
  exists st hb, MyConfig.loaded st cfg /\
    let key := if 0 <=? fd then fd else -1 in
    let a1 := reinit (set_server a (Maintain.with_store (server a) st) (seqno a)) key in
    start a fd cur =
      (if fd <? 0 then
         '(out, a) ← do_scan a1 key 0 false cur;
         Some (hb, inr (if negb (out =? 0) then dump_to_file a key (tmp_dir cfg) cur else a))
       else
         a ← scantmpdir (set_wire a1 []) (tmp_dir cfg); Some (hb, inl (mk_loop a 0 cur wfds0))) /\
    standing a1 key [] (wire a) /\ server a1 = Maintain.with_store (server a) st /\ seqno a1 = seqno a /\
    scan_last a1 = scan_last a /\ g_tmp_files a1 = g_tmp_files a /\ exists l, files a1 = close_all (files a) l.
Proof.
  intros [L W D S Hip].
  destruct (MyConfig.get_intval_spec _ _ (str "poss_timesplice") 60 L) as (st1 & E1 & L1).
  destruct (MyConfig.get_intval_spec st1 cfg (str "poss_heartbeat") 30 L1) as (st2 & E2 & L2).
  pose proof (MyConfig.l_addrs _ _ L2) as (addrs & H & Hl). pose proof (MyConfig.get_value_spec st2 addrs (str "poss_tmpdir") H) as E3.
  rewrite Hl in E3. exists st2. eexists. split; [done|]. cbv zeta. unfold start. rewrite E1. cbn [mbind option_bind]. rewrite E2.
  cbn [mbind option_bind]. rewrite E3. cbn [mbind option_bind]. rewrite (proj2 (Z.eqb_neq _ _) Hip). cbn [andb].
  set (a0 := set_server a _ _). set (key := if 0 <=? fd then fd else -1).
  destruct (reinit_standing a0 key (W key) D S) as (S1 & M1 & N1 & C1 & T1 & _ & F1). split; [done|]. by split_and!.
Qed.

Lemma next_seq_range sq : 0 <= next_seq sq < 2 ^ 32.
Proof. unfold next_seq. cbn [create_poss_head getseq snd]. unfold u32. apply Z.mod_pos_bound. lia. Qed.

Lemma submissions_ok todo : forall sq, 0 <= sq < 2 ^ 32 ->
  Forall (fun nc => k_open (fst nc) = None /\ snd nc <> [] /\ zlen (snd nc) < 2 ^ 31) todo -> Forall PossMaster.amsg_ok (submissions sq todo).
Proof.
  induction todo as [|[n c] todo IH]; intros sq Hs H; cbn [submissions]; [done|]. apply Forall_cons in H as [(_ & _ & H1) H].
  constructor; [done|]. by apply IH; [apply next_seq_range|].
Qed.

Lemma bodies_submissions todo : forall sq, PossMaster.bodies (submissions sq todo) = concat (map snd todo).
Proof.
  induction todo as [|[n c] todo IH]; intros sq; [done|]. cbn [submissions map concat snd]. rewrite <- (IH (next_seq sq)). done.
Qed.

(** The files of the directory, in the order in which they will be sent. *)
Record backlog a (cfg : list (bytes * bytes)) (todo : list (bytes * bytes)) : Prop := mk_backlog {
  bl_dir : exists names, k_readdir (paths (files a)) (dirs (files a)) (tmp_dir cfg) = Some names /\
    map fi_file (rev (k_qsort (tmp_entries (files a) (tmp_dir cfg) (Z.to_nat MAXTMPFILE) names))) = map fst todo;
  bl_some : todo <> [];
  bl_files : Forall (holds_file (files a)) todo;
  bl_nodup : NoDup (map fst todo);
  bl_open : Forall (fun nc => k_open (fst nc) = None /\ snd nc <> [] /\ zlen (snd nc) < 2 ^ 31) todo;
  bl_next : 0 < next (files a);
  bl_array : is_Some (match g_tmp_files a with Some l => Some l | None => fresh_files end)
}.

Lemma tmp_entries_ext f f' dir l : paths f = paths f' -> forall room, tmp_entries f dir room l = tmp_entries f' dir room l.
Proof.
  intros Hp. induction l as [|x l IH]; intros [|room]; [done..|]. cbn [tmp_entries]. rewrite Hp, !IH. done.
Qed.

Lemma start_backlog a cfg todo fd cur :
  ready a cfg -> backlog a cfg todo -> (forall l, k_qsort l ≡ₚ l) -> 0 <= fd ->
  exists hb l, start a fd cur = Some (hb, inl l) /\
    phase fd (map fst todo) l (PossMaster.stream (submissions (seqno a) todo)) [] /\
    Maintain.queue (server (l_agent l)) = Maintain.queue (server a).
Proof.
  intros R [(names & B1 & B2) B3 B4 B5 B6 B7 [arr B8]] Hq Hfd.
  destruct (start_spec a cfg fd cur R) as (st & hb & _ & E1 & S1 & M1 & N1 & _ & T1 & (cl & F1)).
  rewrite (proj2 (Z.ltb_ge _ _) Hfd) in E1. rewrite (proj2 (Z.leb_le 0 fd) Hfd) in *.
  set (a1 := reinit _ fd) in *. destruct (close_all_same cl (files a)) as (P1 & P2 & P3 & P4). rewrite <- F1 in P1, P2, P3, P4.
  set (es := tmp_entries (files a) (tmp_dir cfg) (Z.to_nat MAXTMPFILE) names) in *.
  assert (Hes : length es = length todo).
  { rewrite <- (Permutation_length (Hq es)). apply (f_equal length) in B2. rewrite !length_map, length_rev in B2. done. }
  assert (E2 : scantmpdir (set_wire a1 []) (tmp_dir cfg) =
               Some (set_tmp (set_wire a1 []) (Some (k_qsort es ++ drop (length es) arr)) (zlen es - 1))).
  { unfold scantmpdir. cbn [g_tmp_files files set_wire]. rewrite T1, B8. cbn [mbind option_bind]. rewrite P1, P4, B1.
    rewrite (tmp_entries_ext (files a1) (files a)) by done. fold es. rewrite bool_decide_false; [done|].
    intros Hx. rewrite Hx in Hes. by destruct todo. }
  rewrite E2 in E1. cbn [mbind option_bind] in E1. exists hb. eexists. split; [exact E1|]. split; [|cbn [l_agent server set_tmp set_wire]; by rewrite M1].
  set (a2 := set_tmp _ _ _). exists [], [], todo. split; [done|]. split; [done|]. left. cbn [l_agent].
  change (seqno a2) with (seqno a1). rewrite N1. split; [done|]. split; [|done]. split.
  - by destruct S1.
  - split; cbn [g_tmp_files g_tmp_index files set_tmp set_wire a2]; try done.
    + etransitivity; [|exact B2]. do 2 f_equal. apply take_app_length'. by rewrite (Permutation_length (Hq es)).
    + rewrite Hes. done.
    + eapply Forall_impl; [exact B4|]. intros x (j & Q1 & Q2). exists j. by rewrite P1, P2.
    + by rewrite P3.
Qed.

Lemma phase_over fd names l w : phase fd names l [] w ->
  wire (l_agent l) = w /\ Forall (fun n => paths (files (l_agent l)) !! n = None) names.
Proof.
  intros (gone & cur & todo & Hn & Hg & [(-> & [S W] & Hl)|(n & d & r & _ & SN & Hl)]).
  - split; [apply (sd_wire _ _ _ _ S)|]. symmetry in Hl. apply PossMaster.stream_nil in Hl.
    destruct todo as [|[n c] todo]; [|done]. cbn [map app] in Hn. rewrite app_nil_r in Hn. by subst.
  - exfalso. symmetry in Hl. apply app_nil in Hl as [_ Hl]. apply app_nil in Hl as [Hl _]. by apply (sn_left _ _ _ _ _ _ _ SN).
Qed.


(** ** Without a connection *)

Definition dump_name (tmpdir : bytes) (cur : Z) : bytes :=
  snprintf 256 (tmpdir ++ 47 :: PREFIX ++ take 10 (time_text cur) ++ SUFFIX).

Lemma dump_spec a fd tmpdir cur d w :
  standing a fd d w -> d <> [] -> zlen d < 2 ^ 63 -> (forall lfd x, k_write lfd x = zlen x) ->
  let name := dump_name tmpdir cur in
  k_open name = None -> parent name ∈ dirs (files a) ->
  (forall i, paths (files a) !! name = Some i -> is_Some (inodes (files a) !! i)) ->
  let a' := dump_to_file a fd tmpdir cur in
  Fs.contents (files a') name = Some (default [] (Fs.contents (files a) name) ++ d) /\
  standing a' fd [] w /\ server a' = server a.
Proof.
  intros S Hd Hlen Hw name Ho Hp Hi a'. pose proof S as [(S1 & S2 & S3) S4 S5 S7 S8].
  unfold a', dump_to_file. fold name. fold (dump_name tmpdir cur). fold name. unfold open_create. rewrite Ho, bool_decide_true by done.
  assert (Hpos : 0 < zlen d) by (destruct d; [done|cbn [length]; lia]).
  assert (Hu : u64 (zlen d) = zlen d) by (unfold u64; apply Z.mod_small; lia).
  destruct (skipdata_spec (sendb a fd) (zlen d) S1 ltac:(lia)) as (K1 & K2 & K3). rewrite S2, Nat2Z.id, drop_all in K2. rewrite S3 in K3.
  assert (Hst : forall f, standing (set_files (set_send a fd (mybuff_skipdata (sendb a fd) (zlen d))) f) fd [] w).
  { intros f. destruct (standing_out a fd _ _ w d w S K1 K2 K3) as [[Q1 Q2 Q3 Q4 Q5] _]. by split. }
  assert (Hgo : forall i f, fds f !! next (files a) = Some (i, 0) -> paths f !! name = Some i ->
    inodes f !! i = Some (default [] (Fs.contents (files a) name)) ->
    let a2 := set_files (set_send a fd (mybuff_skipdata (sendb a fd) (zlen d))) (close (Fs.append f (next (files a)) d) (next (files a))) in
    Fs.contents (files a2) name = Some (default [] (Fs.contents (files a) name) ++ d) /\ standing a2 fd [] w /\ server a2 = server a).
  { intros i f F1 F2 F3. split; [|split; [apply Hst|done]]. unfold Fs.append. rewrite F1. unfold Fs.contents at 1.
    cbn [files set_files paths inodes close]. rewrite F2. cbn [mbind option_bind]. rewrite lookup_insert_eq, F3. done. }
  destruct (paths (files a) !! name) as [i|] eqn:Ep; rewrite (getdata_of _ d) by done; change (0 =? 0) with true; cbv iota zeta;
    rewrite Hw, Hu, (proj2 (Z.ltb_ge (zlen d) 0)), (proj2 (Z.ltb_lt 0 (zlen d)) Hpos) by lia; rewrite Nat2Z.id, firstn_all.
  - destruct (Hi i eq_refl) as [c Hc]. apply (Hgo i); cbn [fds paths inodes]; [by rewrite lookup_insert_eq|done|].
    unfold Fs.contents. rewrite Ep. cbn [mbind option_bind]. by rewrite Hc.
  - apply (Hgo (next (files a))); cbn [fds paths inodes]; [by rewrite lookup_insert_eq..|].
    unfold Fs.contents. rewrite Ep. by rewrite lookup_insert_eq.
Qed.

(** C23: without a connection the reports are kept.  When the master cannot
    be reached, every task of the queue of finished tasks is sent home and its
    line is appended, in order, to the file of the hour in the agent's directory;
    nothing is left in memory. *)
Theorem offline_reports_kept off a cfg fd cur ts qs lns :
  ready a cfg -> fd < 0 -> lk = 0 /\ lk_home = 0 ->
  TaskQueue.queues off (Maintain.queue (server a)) qs -> TaskQueue.users_ok (Maintain.queue (server a)) qs ->
  lines_of cur (TaskQueue.tasks (Maintain.queue (server a))) (qs TASK_Q_CLEAN) lns -> concat lns <> [] ->
  cur - scan_last a < 3600 -> zlen (concat lns) < 2 ^ 63 -> (forall lfd x, k_write lfd x = zlen x) ->
  let name := dump_name (tmp_dir cfg) cur in
  k_open name = None -> parent name ∈ dirs (files a) ->
  (forall i, paths (files a) !! name = Some i -> is_Some (inodes (files a) !! i)) ->
  exists a', do_run a fd cur ts = Some (inr a') /\
    Fs.contents (files a') name = Some (default [] (Fs.contents (files a) name) ++ concat lns) /\
    TaskQueue.queues off (Maintain.queue (server a')) (sent_home qs) /\
    MyBuff.contents (sendb a' (-1)) = [] /\ MyBuff.contents (databuff a') = [].
Proof.
  intros R Hfd Hlk Q U L Hne Hc Hlen Hw name Ho Hp Hi.
  destruct (start_spec a cfg fd cur R) as (st & hb & _ & E1 & S1 & M1 & N1 & C1 & T1 & (cl & F1)).
  rewrite (proj2 (Z.ltb_lt _ _) Hfd) in E1. rewrite (proj2 (Z.leb_gt 0 fd) Hfd) in *. set (a1 := reinit _ (-1)) in *.
  destruct (close_all_same cl (files a)) as (P1 & P2 & _ & P4). rewrite <- F1 in P1, P2, P4.
  destruct (do_scan_spec Hlk off a1 (-1) [] (wire a) 0 false cur qs lns S1) as (q' & a2 & E2 & S2 & M2 & Q2 & U2 & F2 & _);
    rewrite ?M1, ?C1; try done.
  rewrite E2 in E1. cbn [mbind option_bind app submit_head] in *. change (negb (Z.lor 0 1 =? 0)) with true in E1. cbv iota in E1.
  destruct (dump_spec a2 (-1) (tmp_dir cfg) cur (concat lns) (wire a) S2 Hne Hlen Hw Ho) as (D1 & D2 & D3);
    [by rewrite F2, P4|intros i; rewrite F2, P1, P2; apply Hi|].
  eexists. unfold do_run. rewrite E1. cbn [mbind option_bind]. split; [reflexivity|]. split.
  { etransitivity; [exact D1|]. rewrite F2. unfold Fs.contents. by rewrite P1, P2. }
  split; [by rewrite D3, M2|]. split; [apply (sd_send _ _ _ _ D2)|apply (sd_data _ _ _ _ D2)].
Qed.

(** ** Commands *)

Definition read_turn (t : turn) (d : bytes) : Prop := t_select t = Ready false true /\ t_recvs t = [Got d].

Lemma sendb_recv a fd b : sendb (set_recv a fd b) fd = sendb a fd.
Proof. unfold sendb at 1, link_of, set_recv. cbn [conns set_conns]. by rewrite lookup_insert_eq. Qed.

Lemma recvb_recv a fd b : recvb (set_recv a fd b) fd = b.
Proof. unfold recvb, link_of, set_recv. cbn [conns set_conns]. by rewrite lookup_insert_eq. Qed.

(** One command in the receive buffer: its answer goes to the send buffer. *)
Lemma command_handled a fd sq msg out cur o sq' m :
  wf (recvb a fd) -> MyBuff.contents (recvb a fd) = PossMaster.command sq msg ->
  0 <= sq < 2 ^ 32 -> zlen msg < 2 ^ 30 -> out <> [] ->
  Maintain.do_request (X := at_time cur) (server a) (seqno a) (zlen msg) msg = Some (out, sq', m) ->
  exists b, wf b /\ MyBuff.contents b = [] /\
    req_loop (Datatypes.S (length (PossMaster.command sq msg))) a fd o cur =
    Some (if o <? 1 then 1 else o, set_recv (mybuff_setdata_send (set_server a m sq') fd out) fd b).
Proof.
  intros Hw Hc Hsq Hm Ho Hr. unfold PossMaster.command in *. set (d := PossMaster.head _ _ _ ++ msg) in *.
  assert (Hl : zlen d = HEADSIZE + zlen msg) by (unfold d; rewrite length_app, PossMaster.length_head; unfold HEADSIZE; lia).
  assert (Hne : d <> []) by (intros Hx; rewrite Hx in Hl; unfold HEADSIZE in Hl; cbn [length] in Hl; lia).
  assert (Hdrop : drop 12 d = msg) by (unfold d; by rewrite drop_app_length').
  destruct (skipdata_spec (recvb a fd) (zlen d) Hw ltac:(lia)) as (K1 & K2 & _). rewrite Hc, Nat2Z.id, drop_all in K2.
  exists (mybuff_skipdata (recvb a fd) (zlen d)). split; [done|]. split; [done|].
  assert (E1 : check_req a fd o cur = Some (0, if o <? 1 then 1 else o,
    set_recv (mybuff_setdata_send (set_server a m sq') fd out) fd (mybuff_skipdata (recvb a fd) (zlen d)))).
  { unfold check_req. rewrite (getdata_of _ d) by done. change (negb (0 =? 0)) with false. cbv iota.
    unfold d. rewrite PossMaster.parse_head by (done || (unfold PossMaster.REQ_PFS_CMD; lia)). fold d.
    change (0 =? E_NOT_SUFFIC) with false. cbn [totallen cmdid]. rewrite (proj2 (Z.ltb_ge _ _)) by lia.
    change (PossMaster.REQ_PFS_CMD =? PossMaster.REQ_STOPPFS) with false. cbv iota. unfold set_from_poss. cbn [cmdid totallen].
    change (PossMaster.REQ_PFS_CMD =? PossMaster.REQ_PFS_CMD) with true. cbv iota. rewrite Hdrop.
    replace (i32 (HEADSIZE + zlen msg - HEADSIZE)) with (zlen msg) by (rewrite i32_small; unfold HEADSIZE; lia).
    rewrite Hr. cbn [mbind option_bind]. rewrite bool_decide_false by done. cbn [mbind option_bind]. rewrite <- Hl.
    rewrite i32_small by (unfold HEADSIZE in Hl; lia). replace (u64 (zlen d)) with (zlen d) by (unfold u64, HEADSIZE in *; rewrite Z.mod_small; lia).
    unfold mybuff_setdata_send. rewrite recvb_set. done. }
  set (a' := set_recv _ _ _) in *. assert (Hrb : recvb a' fd = mybuff_skipdata (recvb a fd) (zlen d)) by apply recvb_recv.
  assert (E2 : forall k o', (0 < k)%nat -> req_loop k a' fd o' cur = Some (o', a')).
  { intros [|k] o' Hk; [lia|]. cbn [req_loop]. unfold check_req at 1. rewrite Hrb, getdata_nil by done. reflexivity. }
  cbn [req_loop]. rewrite E1. cbn [mbind option_bind]. change (0 =? -1) with false. cbv iota. apply E2.
  unfold HEADSIZE in Hl. lia.
Qed.

Lemma command_while_sending fd hb l t n todo r w sq msg out sq' m :
  let a := l_agent l in
  sending a fd n todo [] r w -> read_turn t (PossMaster.command sq msg) ->
  0 <= sq < 2 ^ 32 -> zlen msg < 2000 -> out <> [] ->
  Maintain.do_request (X := at_time (t_time t)) (server a) (seqno a) (zlen msg) msg = Some (out, sq', m) ->
  exists l', round fd hb l t = Some (inl l') /\ sending (l_agent l') fd n todo out r w /\
    server (l_agent l') = m /\ seqno (l_agent l') = sq' /\ paths (files (l_agent l')) = paths (files a).
Proof.
  intros a SN [Hs Hrc] Hsq Hm Ho Hr. pose proof SN as [(B1 & B2) Hf Hne [V1 V2] Hdb Hsp Hw]. unfold round.
  assert (Hgf : get_most_old_file a fd (outdata l) = (FILE_DATA, a)).
  { unfold get_most_old_file. destruct Hf as (lfd & st & c & j & o & Hf & _). unfold MyBuff.file, mybuff_getfile in *.
    destruct (0 <=? MyBuff.fd (sendb a fd)); [|done]. injection Hf as -> -> ->.
    rewrite (proj2 (Z.ltb_lt 0 (zlen r))); [done|]. destruct r; [done|cbn [length]; lia]. }
  fold a. rewrite Hgf, Hs. unfold serve. cbn [l_agent last_hb]. change (negb (FILE_DATA =? 0)) with true. cbv iota.
  cbn [mbind option_bind]. change (SOCK_COMP =? SOCK_CLOSE) with false. cbv iota. rewrite Hrc. cbn [do_recv].
  set (d := PossMaster.command sq msg) in *.
  assert (Hl : zlen d = 12 + zlen msg) by (unfold d, PossMaster.command; rewrite length_app, PossMaster.length_head; lia).
  rewrite (proj2 (Z.eqb_neq (zlen d) 2048)) by lia. cbn [mbind option_bind]. change (SOCK_COMP =? SOCK_CLOSE) with false. cbv iota.
  destruct (put_spec (recvb a fd) d V1) as (W1 & W2 & _). rewrite V2 in W2. cbn [app] in W2.
  set (a1 := set_recv a fd (put (recvb a fd) d)). assert (Hrb : recvb a1 fd = put (recvb a fd) d) by apply recvb_recv.
  rewrite Hrb, (getdata_of _ d) by (done || (intros Hx; rewrite Hx in Hl; cbn [length] in Hl; lia)). cbn [snd].
  destruct (command_handled a1 fd sq msg out (t_time t) 0 sq' m) as (b & K1 & K2 & E1); try done; [by rewrite Hrb..|lia|].
  fold d in E1. change (if SOCK_COMP =? SOCK_SEND then 1 else if SOCK_COMP =? SOCK_SEND_FILE then 2 else 0) with 0.
  rewrite E1. cbn [mbind option_bind]. eexists. split; [reflexivity|]. cbn [l_agent].
  split; [|done]. set (a2 := set_recv _ _ b).
  assert (Hb : sendb a2 fd = put (sendb a fd) out).
  { unfold a2. rewrite sendb_recv. unfold mybuff_setdata_send. rewrite sendb_set. f_equal. exact (sendb_recv a fd _). }
  assert (Hr2 : recvb a2 fd = b) by apply recvb_recv.
  destruct (put_spec (sendb a fd) out B1) as (O1 & O2 & O3). rewrite B2 in O2. cbn [app] in O2.
  split; rewrite ?Hb, ?Hr2; try done.
  destruct Hf as (lfd & st & c & j & o & Hf & Hst & Hrr & Hfd & Hino & Wt). exists lfd, st, c, j, o. rewrite O3.
  split; [done|]. split; [done|]. split; [done|]. split; [done|]. split; [done|]. by apply (waiting_ext a).
Qed.

(** An answer sent while a file is being sent ends up in the file.  While
    [r] is left of a file of which [part] has been sent, a command arrives that has
    the answer [out]: the answer is sent in the middle of the file, before [r].  The
    master counts bytes, so the file it stores is not the file that was sent: it
    has the answer behind [part], and what is missing at its end is taken for the
    next message. *)
Theorem answer_splits_submission {E2 : Env} {K2 : Kernel} {P : PossMaster.Around}
    fd hb l t ts n todo part r sq0 sq msg out sq' m mfd tm j ip name h s p :
  let a := l_agent l in
  let c := part ++ r in
  sending a fd n todo [] r (PossMaster.head sq0 PossMaster.REQ_SUBMIT (zlen c) ++ part) ->
  read_turn t (PossMaster.command sq msg) -> 0 <= sq < 2 ^ 32 -> zlen msg < 2000 -> out <> [] ->
  Maintain.do_request (X := at_time (t_time t)) (server a) (seqno a) (zlen msg) msg = Some (out, sq', m) ->
  let left := out ++ r ++ PossMaster.stream (submissions sq' todo) in
  Forall file_turn ts -> (length left <= length ts)%nat -> 0 <= sq0 < 2 ^ 32 -> zlen c < 2 ^ 31 ->
  (forall lfd d, PossMaster.k_write lfd d = zlen d) -> 0 < PossMaster.poss_interval -> k_open (Kernel := K2) name = None ->
  PossMaster.link (X := P) mfd tm j ip name h [] s p ->
  PossMaster.sock_stat p = PossMaster.CONNECTED -> inq h mfd = [] ->
  exists l', rounds fd hb l (t :: ts) = Some (inl l') /\
    wire (l_agent l') = PossMaster.head sq0 PossMaster.REQ_SUBMIT (zlen c) ++ part ++ left /\
    forall chunks, concat chunks = take (12 + length c) (wire (l_agent l')) ->
    exists h', PossMaster.feed (E := E2) (K := K2) (X := P) mfd h chunks = Some h' /\
      default [] (Fs.contents (PossMaster.sys (user h')) name) = part ++ take (length r) (out ++ r).
Proof.
  intros a c SN Ht Hsq Hm Ho Hr left Hts Hl Hs0 Hc Hw Hi Hop ML Hst Hin. set (hd := PossMaster.head sq0 _ _) in *.
  destruct (command_while_sending fd hb l t n todo r (hd ++ part) sq msg out sq' m SN Ht Hsq Hm Ho Hr) as (l1 & E1 & SN1 & M1 & N1 & _).
  assert (P1 : phase fd ([] ++ [n] ++ map fst todo) l1 left (hd ++ part)).
  { exists [], [n], todo. split; [done|]. split; [done|]. right. exists n, out, r. by rewrite N1. }
  destruct (file_rounds fd hb _ ts Hts l1 _ _ P1 Hl) as (l2 & E2' & P2 & _). destruct (phase_over _ _ _ _ P2) as [Hwire _].
  rewrite <- app_assoc in Hwire. exists l2. cbn [rounds]. fold a. rewrite (sn_stop _ _ _ _ _ _ _ SN), E1. cbn [mbind option_bind].
  split; [done|]. split; [done|]. intros chunks Hch. set (c' := part ++ take (length r) (out ++ r)).
  assert (Hlen : length c' = length c).
  { unfold c', c. rewrite !length_app, length_take, length_app. lia. }
  assert (Htake : take (12 + length c) (wire (l_agent l2)) = PossMaster.stream [PossMaster.Submit sq0 c']).
  { rewrite Hwire. unfold PossMaster.stream. cbn [map concat PossMaster.enc]. rewrite app_nil_r, Hlen. fold hd.
    rewrite (take_app_add' hd) by exact (PossMaster.length_head sq0 PossMaster.REQ_SUBMIT (zlen c)). f_equal. unfold c', c, left.
    rewrite length_app, take_app_add. f_equal. rewrite app_assoc, take_app_le by (rewrite length_app; lia). done. }
  rewrite Htake in Hch.
  destruct (PossMaster.feed_all mfd tm j ip name Hw Hi Hop chunks h [PossMaster.Submit sq0 c'] s p ML Hst Hin ltac:(constructor; [unfold PossMaster.amsg_ok; lia|constructor]) Hch)
    as (h' & p' & F & L' & _). exists h'. split; [done|].
  rewrite (PossMaster.link_contents _ _ _ _ _ _ _ _ _ L'). unfold PossMaster.bodies. cbn [map concat PossMaster.body]. by rewrite app_nil_r.
Qed.

(** ** An empty file *)

Record flooded a (fd : Z) (name w : bytes) : Prop := mk_flooded {
  fl_send : wf (sendb a fd) /\ MyBuff.contents (sendb a fd) = [] /\ mybuff_getfile (sendb a fd) = None;
  fl_file : 0 <= g_tmp_index a /\ tmp_file a = name /\ holds_file (files a) (name, []) /\ 0 < next (files a);
  fl_stop : stop a = false;
  fl_wire : wire a = w
}.

Fixpoint empties (sq : Z) (n : nat) : list PossMaster.amsg :=
  match n with O => [] | Datatypes.S n' => PossMaster.Submit sq [] :: empties (next_seq sq) n' end.

(** The kernel takes a whole header. *)
Definition whole_turn (t : turn) : Prop := exists n, HEADSIZE <= n /\ write_turn t n.

Lemma flood_round fd hb l t name w :
  let a := l_agent l in
  flooded a fd name w -> k_open name = None -> whole_turn t ->
  exists l', round fd hb l t = Some (inl l') /\ seqno (l_agent l') = next_seq (seqno a) /\
    flooded (l_agent l') fd name (w ++ PossMaster.enc (PossMaster.Submit (seqno a) [])).
Proof.
  intros a [(B1 & B2 & B3) (F1 & F2 & (j & F3 & F4) & F5) Hs Hw] Ho (n & Hn & Hn0 & Ht & e & Hse). cbn [fst snd] in *.
  unfold round. fold a. unfold get_most_old_file. rewrite B3, (proj2 (Z.ltb_ge _ _) F1), F2. unfold open_read. rewrite Ho, F3.
  set (f := mk_fs _ _ _ _ _ _). set (lfd := next (files a)) in *. rewrite (proj2 (Z.ltb_lt 0 lfd) F5).
  assert (Hc : contents_of f lfd = []) by (unfold contents_of, f; cbn [fds inodes]; rewrite lookup_insert_eq, F4; done).
  rewrite Hc. change (zlen []) with 0. unfold put_head. change (seqno (set_files a f)) with (seqno a).
  destruct (create_poss_head (seqno a) PossMaster.REQ_SUBMIT 0) as [hd sq] eqn:Eh.
  assert (Hhd : hd = PossMaster.enc (PossMaster.Submit (seqno a) [])).
  { cbn [PossMaster.enc]. rewrite app_nil_r. unfold PossMaster.head. change (zlen []) with 0. by rewrite Eh. }
  assert (Hsq : sq = next_seq (seqno a)) by (rewrite poss_head in Eh; by injection Eh).
  assert (Hlen : zlen hd = HEADSIZE) by (rewrite Hhd; cbn [PossMaster.enc]; rewrite app_nil_r; done).
  set (a0 := set_server (set_files a f) (server (set_files a f)) sq).
  destruct (put_spec (sendb a fd) hd B1) as (C1 & C2 & _). rewrite B2 in C2. cbn [app] in C2.
  unfold mybuff_setdata_send. rewrite sendb_set. change (sendb a0 fd) with (sendb a fd). set (b := put (sendb a fd) hd) in *.
  unfold mybuff_setfile. set (b1 := mk_buff (data b) (size b) (len b) lfd 0 0). set (cl := if 0 <=? MyBuff.fd b then _ else _).
  cbv iota beta. rewrite Ht. change (negb (FILE_DATA =? 0)) with true. cbv iota. unfold serve. cbn [l_agent last_hb].
  set (a1 := set_files (set_send _ fd b1) (close_all f cl)). assert (Hb1 : sendb a1 fd = b1) by exact (sendb_set _ fd b1).
  unfold do_send. rewrite Hb1, (getdata_of b1 hd) by (done || (intros Hx; rewrite Hx in Hlen; done)). change (0 =? 0) with true. rewrite Hse.
  cbn [send_data s_n]. rewrite Hlen, Z.min_r by lia. change (0 <? HEADSIZE) with true. change (HEADSIZE <? HEADSIZE) with false.
  cbn [mbind option_bind]. rewrite (take_ge hd) by (unfold HEADSIZE in *; lia).
  destruct (skipdata_spec b1 HEADSIZE C1 ltac:(done)) as (K1 & K2 & K3). set (b2 := mybuff_skipdata b1 HEADSIZE) in *.
  assert (K2' : MyBuff.contents b2 = []) by (etransitivity; [exact K2|]; change (MyBuff.contents b1) with (MyBuff.contents b); rewrite C2; apply drop_ge; unfold HEADSIZE in *; lia).
  assert (Hg : mybuff_getfile b2 = None).
  { unfold b2, mybuff_skipdata, mybuff_getfile. destruct (data b1); [destruct (len b1 <=? HEADSIZE)|]; cbn [MyBuff.fd flen b1]; by rewrite andb_false_r. }
  set (a2 := set_wire _ _). assert (Hb2 : sendb a2 fd = b2) by exact (sendb_set _ fd b2). rewrite Hb2, Hg. cbn [mbind option_bind].
  change (SOCK_COMP =? SOCK_CLOSE) with false. cbv iota. eexists. split; [reflexivity|]. cbn [l_agent]. split; [exact Hsq|]. rewrite <- Hhd.
  destruct (close_all_same cl f) as (P1 & P2 & P3 & _). split; [by rewrite Hb2| |done|by rewrite <- Hw].
  change (files a2) with (close_all f cl). unfold holds_file. rewrite P1, P2, P3. split; [done|]. split; [done|]. split; [by exists j|].
  unfold f. cbn [next]. lia.
Qed.

(** An empty file among those that wait floods the master.  The file, left
    behind when a [write] failed after the file had been created, is never done
    with: in every round the agent sends the header of another submission without
    a body, for ever, and the file is never removed; the files behind it in the
    array are not sent. *)
Theorem empty_file_floods fd hb name ts : k_open name = None -> Forall whole_turn ts -> forall l w,
  flooded (l_agent l) fd name w ->
  exists l', rounds fd hb l ts = Some (inl l') /\ flooded (l_agent l') fd name (wire (l_agent l')) /\
    wire (l_agent l') = w ++ PossMaster.stream (empties (seqno (l_agent l)) (length ts)).
Proof.
  intros Ho. induction 1 as [|t ts Ht _ IH]; intros l w F; cbn [rounds length empties]; rewrite (fl_stop _ _ _ _ F).
  { exists l. unfold PossMaster.stream. cbn [map concat]. rewrite app_nil_r, (fl_wire _ _ _ _ F). by split_and!. }
  destruct (flood_round fd hb l t name w F Ho Ht) as (l1 & -> & N1 & F1). cbn [mbind option_bind].
  destruct (IH l1 _ F1) as (l2 & E2 & F2 & W2). exists l2. split; [done|]. split; [done|]. rewrite W2, N1, <- app_assoc. done.
Qed.

End Thread.

(** ** Witnesses *)

Definition demo_name : bytes := str "../path/tmpdir/poss_2014010100.data".
Definition demo_surround : Surround :=
  mk_surround (str "10.0.0.9") (fun _ => None) 3 (str "d1") (fun _ => str "20140101000000")
    (fun _ _ _ => Some [str "."; str "poss_2014010100.data"]) (fun _ => 0) (fun _ d => zlen d) (fun l => l) (Some []) 0 0 false.
#[local] Existing Instances demo_env LocalFile.demo_kernel MyConfig.demo_surroundings Maintain.demo_around demo_surround PossMaster.demo_around.

(** Two tasks, the second of them finished. *)
Definition demo_base : t_task_base := mk_base (str "/video/a.flv") [] [] [] 16777226 1388534000 0 7 48 0 OVER_OK.
Definition demo_q : TaskQueue.state :=
  default (TaskQueue.demo [])
    ('(_, _, q) ← TaskQueue.pfs_get_task (TaskQueue.demo [944; 1888]) TASK_Q_HOME 0 0 None;
     r ← TaskQueue.tasks q !! 1888;
     '(_, q) ← TaskQueue.pfs_set_task (TaskQueue.with_task q 1888 (set_sub (set_base r demo_base) zero_sub)) 1888 TASK_Q_CLEAN 0 0;
     Some q).
Definition demo_qs : Z -> list Z := TaskQueue.drawn TASK_Q_CLEAN 1 (fun s => if s =? TASK_Q_HOME then [1888; 944] else []).

Lemma demo_q_queues : TaskQueue.queues (TaskQueue.bias 2) demo_q demo_qs /\ TaskQueue.users_ok demo_q demo_qs.
Proof.
  destruct (TaskQueue.demo_queues [944; 1888]) as [Q [U V]]; [by repeat constructor|by apply (bool_decide_unpack _)|].
  destruct (TaskQueue.file_task (TaskQueue.bias 2) _ _ TASK_Q_CLEAN demo_base zero_sub 0 None 1888 [944] Q)
    as (st1 & r & st' & E1 & E2 & E3 & Q' & _); [done..|].
  assert (Ed : demo_q = st').
  { unfold demo_q. rewrite E1. cbn [mbind option_bind]. rewrite E2. cbn [mbind option_bind]. by rewrite E3. }
  split; [rewrite Ed; exact Q'|].
  assert (Eu : TaskQueue.umem demo_q = TaskQueue.umem (TaskQueue.demo [944; 1888])) by (vm_compute; reflexivity).
  split; rewrite Eu; [done|]. intros s x Hs Hx. apply (V TASK_Q_HOME); [reflexivity|]. change (rev [944; 1888]) with [1888; 944].
  unfold demo_qs, TaskQueue.drawn in Hx. destruct (decide (s = TASK_Q_CLEAN)) as [->|H1].
  - rewrite fn_lookup_insert in Hx. apply list_elem_of_singleton in Hx as ->. apply list_elem_of_here.
  - rewrite fn_lookup_insert_ne in Hx by (apply not_eq_sym, H1). destruct (decide (s = TASK_Q_HOME)) as [->|H2].
    + rewrite fn_lookup_insert in Hx. apply list_elem_of_singleton in Hx as ->. apply list_elem_of_further, list_elem_of_here.
    + rewrite fn_lookup_insert_ne in Hx by (apply not_eq_sym, H2). rewrite (proj2 (Z.eqb_neq _ _) H2) in Hx. apply not_elem_of_nil in Hx as [].
Qed.

Definition demo_line : bytes := str "/video/a.flv:10.0.0.1:0:TASK_Q_CLEAN:OVER_OK:1388534000:1388534401:7:0:d1" ++ [10].

Lemma demo_lines : lines_of 1388534401 (TaskQueue.tasks demo_q) (demo_qs TASK_Q_CLEAN) [demo_line].
Proof.
  constructor; [|constructor]. exists (default (mk_task zero_base zero_sub 0 0) (TaskQueue.tasks demo_q !! 1888)). split; vm_compute; reflexivity.
Qed.

Definition demo_agent (c : gmap Z link) (tmp : option (list fileinfo)) (i : Z) (f : fs) (w : bytes) : agent :=
  mk_agent (Maintain.mk_server MyConfig.demo_store (Config.reload_config (fun _ d => d)) None demo_q []) mybuff_init c tmp i f 3
    1388534000 false w.
Definition demo_fs (c : bytes) : fs :=
  mk_fs {[ demo_name := 5 ]} {[ 5 := c ]} ∅ {[ str "../path/tmpdir" ]} {[ 11 := (5, 0) ]} 12.
Definition demo_write : turn := mk_turn 1388534402 (Ready true false) 1388534402 [mk_sent 1000 0] [].
Definition demo_write2 : turn := mk_turn 1388534402 (Ready true false) 1388534402 [mk_sent 1000 0; mk_sent 2 0] [].

Definition demo_cfg : list (bytes * bytes) :=
  rev (map (MyConfig.full []) MyConfig.demo_top ++ concat (map MyConfig.sec_pairs MyConfig.demo_secs)).

Lemma demo_agent_ready tmp i f : ready (demo_agent ∅ tmp i f []) demo_cfg.
Proof. split; [exact MyConfig.demo_loaded|by split; apply wf_init|by split; [apply wf_init|]|done|by vm_compute]. Qed.

Lemma reports_reach_master_witness :
  let t := mk_turn 1388534401 SelectTimeout 1388534401 [] [] in
  exists l' h', rounds 4 30 (mk_loop (demo_agent ∅ None (-1) (demo_fs []) []) 0 1388534400 false) [t; demo_write] = Some (inl l') /\
    PossMaster.feed 5 PossMaster.demo_master [wire (l_agent l')] = Some h' /\
    default [] (Fs.contents (PossMaster.sys (user h')) PossMaster.demo_name) = demo_line.
Proof.
  intros t. destruct demo_q_queues as [Q U].
  destruct (reports_reach_master ltac:(done) (TaskQueue.bias 2) 4 30 (mk_loop (demo_agent ∅ None (-1) (demo_fs []) []) 0 1388534400 false) t [demo_write]
    [1000] demo_qs [demo_line] 5 1388534400 7 (str "10.0.0.1") PossMaster.demo_name PossMaster.demo_master [] PossMaster.demo_peer)
    as (l' & q' & E1 & _ & _ & _ & H).
  - split; [split; [apply wf_init|split; reflexivity]|split; [apply wf_init|reflexivity]|split; [apply wf_init|reflexivity]|reflexivity|reflexivity].
  - reflexivity.
  - discriminate.
  - split; [reflexivity|discriminate].
  - exact Q.
  - exact U.
  - exact demo_lines.
  - discriminate.
  - reflexivity.
  - split; [discriminate|reflexivity].
  - vm_compute. reflexivity.
  - constructor; [|constructor]. split; [reflexivity|]. split; [reflexivity|]. by exists 0.
  - vm_compute. discriminate.
  - reflexivity.
  - reflexivity.
  - reflexivity.
  - exact PossMaster.demo_link.
  - reflexivity.
  - reflexivity.
  - destruct (H [wire (l_agent l')]) as (h' & F & G & _); [cbn [concat]; apply app_nil_r|]. exists l', h'. split; [exact E1|].
    split; [exact F|]. etransitivity; [exact G|]. vm_compute. reflexivity.
Defined.

Lemma offline_reports_kept_witness :
  exists a', do_run (demo_agent ∅ None 0 (demo_fs (str "old" ++ [10])) []) (-1) 1388534401 [] = Some (inr a') /\
    Fs.contents (files a') demo_name = Some (str "old" ++ [10] ++ demo_line) /\
    TaskQueue.queues (TaskQueue.bias 2) (Maintain.queue (server a')) (sent_home demo_qs).
Proof.
  destruct demo_q_queues as [Q U].
  destruct (offline_reports_kept (TaskQueue.bias 2) (demo_agent ∅ None 0 (demo_fs (str "old" ++ [10])) []) demo_cfg (-1) 1388534401 [] demo_qs
    [demo_line] (demo_agent_ready _ _ _)) as (a' & E1 & E2 & Q' & _).
  - reflexivity.
  - split; reflexivity.
  - exact Q.
  - exact U.
  - exact demo_lines.
  - discriminate.
  - reflexivity.
  - vm_compute. reflexivity.
  - reflexivity.
  - reflexivity.
  - apply (bool_decide_unpack _). vm_compute. exact I.
  - intros i Hi. vm_compute in Hi. injection Hi as <-. vm_compute. eexists. reflexivity.
  - exists a'. split; [exact E1|]. split; [|exact Q']. etransitivity; [exact E2|]. vm_compute. reflexivity.
Defined.


(** Two of five bytes have been sent when the command comes. *)
Definition demo_half : agent :=
  demo_agent {[ 4 := mk_link (mk_buff None 0 0 11 2 3) mybuff_init ]} (Some [mk_fileinfo 0 demo_name]) 0 (demo_fs (str "abcde"))
    (PossMaster.head 1 PossMaster.REQ_SUBMIT 5 ++ str "ab").
Definition demo_order : bytes := str "pfs_cmd=M_DEL_GROUP".
Definition demo_answer : bytes :=
  fst (create_poss_head 3 Maintain.RSP_PFS_CMD 35) ++ str "pfs_cmd=M_DEL_GROUP:: not implement".

Lemma answer_splits_submission_witness :
  let t := mk_turn 1388534402 (Ready false true) 1388534402 [] [Got (PossMaster.command 9 demo_order)] in
  exists l' h', rounds 4 30 (mk_loop demo_half 2 1388534400 false) (t :: replicate 60 demo_write2) = Some (inl l') /\
    wire (l_agent l') = PossMaster.head 1 PossMaster.REQ_SUBMIT 5 ++ str "ab" ++ demo_answer ++ str "cde" /\
    PossMaster.feed 5 PossMaster.demo_master [take 17 (wire (l_agent l'))] = Some h' /\
    default [] (Fs.contents (PossMaster.sys (user h')) PossMaster.demo_name) = str "ab" ++ take 3 demo_answer.
Proof.
  intros t.
  destruct (answer_splits_submission 4 30 (mk_loop demo_half 2 1388534400 false) t (replicate 60 demo_write2) demo_name [] (str "ab") (str "cde")
    1 9 demo_order demo_answer 4 (server demo_half) 5 1388534400 7 (str "10.0.0.1") PossMaster.demo_name PossMaster.demo_master [] PossMaster.demo_peer)
    as (l' & E1 & E2 & H).
  - split.
    + split; [split; reflexivity|reflexivity].
    + exists 11, 2, (str "abcde"), 5, 0. split; [reflexivity|]. split; [discriminate|]. split; [reflexivity|]. split; [reflexivity|].
      split; [reflexivity|]. split; try reflexivity.
      * constructor; [|constructor]. exists 5. split; vm_compute; reflexivity.
      * apply NoDup_singleton.
      * constructor; [|constructor]. split; [reflexivity|]. split; [discriminate|reflexivity].
    + discriminate.
    + split; [apply wf_init|reflexivity].
    + split; [apply wf_init|reflexivity].
    + reflexivity.
    + reflexivity.
  - split; reflexivity.
  - split; [discriminate|reflexivity].
  - reflexivity.
  - discriminate.
  - vm_compute. reflexivity.
  - apply Forall_replicate. split; [reflexivity|]. exists 1000, 0, 2, 0. split; [reflexivity|]. split; reflexivity.
  - vm_compute. repeat constructor.
  - split; [discriminate|reflexivity].
  - reflexivity.
  - reflexivity.
  - reflexivity.
  - reflexivity.
  - exact PossMaster.demo_link.
  - reflexivity.
  - reflexivity.
  - destruct (H [take 17 (wire (l_agent l'))]) as (h' & F & F'); [cbn [concat]; apply app_nil_r|]. exists l', h'. split; [exact E1|].
    split; [etransitivity; [exact E2|]; vm_compute; reflexivity|]. split; [exact F|exact F'].
Defined.

Lemma empty_file_floods_witness :
  exists l', rounds 4 30 (mk_loop (demo_agent ∅ (Some [mk_fileinfo 0 demo_name]) 0 (demo_fs []) []) 0 0 false) (replicate 50 demo_write) = Some (inl l') /\
    wire (l_agent l') = PossMaster.stream (empties 3 50) /\ tmp_file (l_agent l') = demo_name.
Proof.
  destruct (empty_file_floods 4 30 demo_name (replicate 50 demo_write) (eq_refl : k_open (Kernel := LocalFile.demo_kernel) demo_name = None)) with
    (l := mk_loop (demo_agent ∅ (Some [mk_fileinfo 0 demo_name]) 0 (demo_fs []) []) 0 0 false) (w := @nil Z) as (l' & E1 & F & E2).
  - apply Forall_replicate. exists 1000. split; [discriminate|]. split; [reflexivity|]. split; [reflexivity|]. by exists 0.
  - split; [split; [apply wf_init|split; reflexivity]| |reflexivity|reflexivity].
    split; [discriminate|]. split; [reflexivity|]. split; [|reflexivity]. exists 5. split; vm_compute; reflexivity.
  - exists l'. split; [exact E1|]. split; [exact E2|]. apply (fl_file _ _ _ _ F).
Defined.

End Agent.
