(* ===== verification/Acl.v ===== *)
(** * Access control and URL helpers (lib/acl.c) and the field splitter
      (lib/util_str.c)

    Module [Acl]: splitting and trimming of strings, the wildcard patterns
    ([getmatch], [strmatch]), the check of a path, the decoding of an URL into
    a file name and the check of a referer.  A pointer into a string is the list
    of the bytes from there on, the terminating zero and what lies behind it
    included where the code can get there; reading past the end of the list is
    undefined ([None]).  The theorems compare the pattern matcher with the
    usual meaning of its patterns, and show that the file name made of an URL
    has no [.] or [..] and what [check_path] does not see. *)

From S2P Require Import Prelude.
From S2P Require Import CString.

Module Acl.

(** ** Strings *)

(** The position of the first occurrence of [t] in [s]. *)
Fixpoint strstr (s t : bytes) : option nat :=
  if strncmp0 t s (length t) then Some O
  else match s with [] => None | _ :: s' => S <$> strstr s' t end.

(** The pieces the array points to, once the separators have been overwritten
    with zeros; at most [count]. *)
Fixpoint splitstr (count : nat) (s pstr : bytes) : list bytes :=
  match count with
  | O => []
  | S k =>
      match strstr s pstr with
      | None => [s]
      | Some i => take i s :: splitstr k (drop (i + length pstr) s) pstr
      end
  end.

Fixpoint skip_blanks (s : bytes) : bytes :=
  match s with 32 :: s' => skip_blanks s' | _ => s end.

(** [val > str] keeps the first byte. *)
Fixpoint cut_blanks (n : nat) (s : bytes) : bytes :=
  match n with
  | O => s
  | S k => if at_ s n =? 32 then cut_blanks k (take n s) else s
  end.

Definition strtrim (s : bytes) : bytes := let s := skip_blanks s in cut_blanks (length s - 1) s.

(** The new contents of the destination (which must have room for [src] and the
    zero) and the place where the zero is. *)
Definition strpcpy (dest src : bytes) : option (bytes * nat) :=
  if bool_decide (length src < length dest)%nat then Some (memcpy dest 0 (src ++ [0]), length src) else None.

(** [strtok_r]: the next token and what is left, [None] when there is none. *)
Fixpoint strspn (delim s : bytes) : nat :=
  match s with [] => O | c :: s' => if bool_decide (c ∈ delim) then S (strspn delim s') else O end.
Fixpoint strcspn (delim s : bytes) : nat :=
  match s with [] => O | c :: s' => if bool_decide (c ∈ delim) then O else S (strcspn delim s') end.
Definition strtok_r (delim s : bytes) : option (bytes * bytes) :=
  let s := drop (strspn delim s) s in
  if bool_decide (s = []) then None
  else let n := strcspn delim s in Some (take n s, drop (n + 1) s).

(** The entries of the array that are set, [None] for a null pointer. *)
Fixpoint getval (count : nat) (s pstr : bytes) (end_ : option bytes) : list (option bytes) :=
  match count with
  | O => []
  | S k =>
      match strtok_r pstr s with
      | None => [None]
      | Some (t, s') =>
          let v := strtrim t in
          if bool_decide (end_ = Some v) then [Some v] else Some v :: getval k s' pstr end_
      end
  end.

(** The first entry that begins with [s], from behind [len] bytes; [strncasecmp]
    stops at the end of a short entry, [None] when the entry is shorter. *)
Fixpoint getvalue (val : list bytes) (s : bytes) (len : nat) : option (option bytes) :=
  match val with
  | [] => Some None
  | v :: val' =>
      if strncasecmp0 v s len then if bool_decide (len <= length v)%nat then Some (Some (drop len v)) else None
      else getvalue val' s len
  end.

Definition decodeurlstring : list (bytes * bytes) := [(str "20", str " "); (str "21", str "!")].

(** A percent sign and what follows: the entry that fits replaces it. *)
Fixpoint decode_go (fuel : nat) (s : bytes) : bytes :=
  match fuel with
  | O => s
  | S k =>
      match s with
      | [] => []
      | 37 :: s' =>
          match find_first (fun e => strncmp0 (fst e) s' (length (fst e))) decodeurlstring with
          | Some (x, y) => y ++ decode_go k (drop (length x) s')
          | None => 37 :: decode_go k s'
          end
      | c :: s' => c :: decode_go k s'
      end
  end.

Definition decode_url (url : bytes) : bytes := decode_go (length url) url.

(** [strncmp] over the length of the value, which is the first argument of the
    call and of which [currval] need only be a part; [str + size] is the end of
    the string only when the suffix is found at its beginning.  [mem] is what
    lies behind the zero of [currval]. *)
Definition partnership (currval mem prefix suffix pattern : bytes) : option bool :=
  let size := length currval in
  if bool_decide (prefix = []) || strncmp0 prefix currval size then
    ok ← (if bool_decide (suffix = []) then Some true
          else match strstr currval suffix with
               | None => Some false
               | Some i => b ← (currval ++ 0 :: mem) !! (i + size)%nat; Some (b =? 0)
               end);
    Some (ok && (bool_decide (pattern = []) || bool_decide (is_Some (strstr currval pattern))))
  else Some false.

(** ** Patterns *)

(** The items of a pattern; [next] is the rest of the list. *)
Record matchitem := mk_item { val : bytes; flag : Z }.

Definition piece_items (first : Z) (l : list bytes) : list matchitem :=
  match l with [] => [] | v :: l' => mk_item v first :: map (fun v => mk_item v 2) l' end.

Definition items (s : bytes) : list matchitem :=
  match splitstr 1024 s [42] with
  | [] => []
  | v :: l => piece_items 0 (splitstr 1024 v [63]) ++ concat (map (fun v => piece_items 1 (splitstr 1024 v [63])) l)
  end.

(** [malloc_ok n]: the n-th allocation succeeds; when one fails nothing is
    returned. *)
Definition getmatch (malloc_ok : nat -> bool) (s : bytes) : list matchitem :=
  if forallb malloc_ok (seq 0 (length (items s))) then items s else [].

(** [strncmp(v, m, strlen(v))] on memory. *)
Fixpoint begins (v m : bytes) : option bool :=
  match v, m with
  | [], _ => Some true
  | _, [] => None
  | c :: v', b :: m' => if c =? b then begins v' m' else Some false
  end.

(** The string at a pointer. *)
Definition text (m : bytes) : option bytes := if bool_decide (0 ∈ m) then Some (until0 m) else None.

(** The loop of a star; [Some None]: the string ended and the loop is left. *)
Fixpoint star (next : bytes -> option bool) (v : bytes) (final : bool) (fuel : nat) (m : bytes) : option (option bool) :=
  match fuel with
  | O => None
  | S k =>
      s ← text m;
      if bool_decide (s = []) then Some None
      else
        match strstr s v with
        | None => Some (Some false)
        | Some i =>
            if bool_decide (v = []) && final then Some (Some true)
            else
              match next (drop (i + length v) m) with
              | None => None
              | Some true => Some (Some true)
              | Some false => star next v final k (drop (i + 1) m)
              end
        end
  end.

Fixpoint strmatch (l : list matchitem) (m : bytes) : option bool :=
  match l with
  | [] => b ← m !! O; Some (b =? 0)
  | it :: l' =>
      if flag it =? 0 then
        if bool_decide (val it = [] /\ l' = []) then Some true
        else ok ← begins (val it) m; if (ok : bool) then strmatch l' (drop (length (val it)) m) else Some false
      else if flag it =? 1 then
        r ← star (strmatch l') (val it) (bool_decide (l' = [])) (length m) m;
        match r with Some b => Some b | None => strmatch l' m end
      else if flag it =? 2 then
        let m := drop 1 m in
        ok ← begins (val it) m; if (ok : bool) then strmatch l' (drop (length (val it)) m) else Some false
      else strmatch l' m
  end.

(** [strtrim] takes the blanks at both ends away and nothing else. *)
Lemma cut_blanks_spec s n : forall b, s <> [] -> last s <> Some 32 -> n = (length s + b - 1)%nat -> cut_blanks n (s ++ replicate b 32) = s.
Proof.
  induction n as [|n IH]; intros b Hs Hl Hn; destruct (exists_last Hs) as (s' & c & ->); rewrite last_snoc in Hl; rewrite length_app in Hn; simpl in Hn.
  { assert (b = 0%nat) as -> by lia. apply app_nil_r. }
  cbn [cut_blanks]. destruct b as [|b].
  - cbn [replicate]. rewrite app_nil_r. unfold at_. rewrite app_nth2, (proj2 (Z.eqb_neq _ 32)); [done| |lia].
    replace (S n - length s')%nat with 0%nat by lia. cbn [nth]. congruence.
  - assert (S n = length (s' ++ [c]) + b)%nat as -> by (rewrite length_app; simpl; lia).
    rewrite replicate_S_end, app_assoc. assert (Hl2 : length ((s' ++ [c]) ++ replicate b 32) = (length (s' ++ [c]) + b)%nat) by (by rewrite length_app, length_replicate).
    unfold at_. rewrite app_nth2 by lia. rewrite Hl2, Nat.sub_diag. change (32 =? 32) with true. cbn [nth]. cbv iota.
    rewrite <- Hl2, take_app_length. apply IH; [done|by rewrite last_snoc|rewrite length_app; simpl; lia].
Qed.

Lemma strtrim_spec a s b : s <> [] -> head s <> Some 32 -> last s <> Some 32 -> strtrim (replicate a 32 ++ s ++ replicate b 32) = s.
Proof.
  intros Hs Hh Hl. unfold strtrim. assert (skip_blanks (replicate a 32 ++ s ++ replicate b 32) = s ++ replicate b 32) as ->.
  { induction a as [|a IH]; [|exact IH]. destruct s as [|c s]; [done|]. cbn [replicate app skip_blanks].
    destruct (decide (c = 32)) as [->|Hc]; [done|]. clear -Hc. repeat case_match; try done; congruence. }
  apply cut_blanks_spec; [done..|]. by rewrite length_app, length_replicate.
Qed.

(** ** What a pattern means *)

Inductive Glob : bytes -> bytes -> Prop :=
  | Glob_end : Glob [] []
  | Glob_byte c p s : c <> 42 -> c <> 63 -> Glob p s -> Glob (c :: p) (c :: s)
  | Glob_any c p s : Glob p s -> Glob (63 :: p) (c :: s)
  | Glob_none p s : Glob p s -> Glob (42 :: p) s
  | Glob_more c p s : Glob (42 :: p) s -> Glob (42 :: p) (c :: s).

Create HintDb glob.
#[local] Hint Constructors Glob : glob.

Definition plain (v : bytes) : Prop := 42 ∉ v /\ 63 ∉ v.

Lemma glob_plain v p s : plain v -> (Glob (v ++ p) s <-> (exists t, s = v ++ t /\ Glob p t)).
Proof.
  revert s. induction v as [|c v IH]; intros s [H1 H2]; cbn [app].
  { split; [eauto with glob|]. by intros (t & -> & H). }
  apply not_elem_of_cons in H1 as [C1 H1]. apply not_elem_of_cons in H2 as [C2 H2]. split.
  - intros H. inversion H as [|c' p' s' N1 N2 H'| | |]; subst; try done. apply IH in H' as (t & -> & Ht); [|done]. by exists t.
  - intros (t & -> & Ht). apply Glob_byte; [done..|]. apply IH; [done|]. by exists t.
Qed.

Lemma glob_star p s : Glob (42 :: p) s <-> (exists a b, s = a ++ b /\ Glob p b).
Proof.
  split.
  - remember (42 :: p) as q eqn:E. induction 1; simplify_eq; [by exists [], s|].
    destruct (IHGlob eq_refl) as (a & b & -> & Hb). by exists (c :: a), b.
  - intros (a & b & -> & Hb). induction a as [|c a IH]; cbn [app]; eauto with glob.
Qed.

Lemma glob_nil s : Glob [] s <-> s = [].
Proof. split; [by inversion 1|intros ->; constructor]. Qed.

(** The text of pieces that each follow a byte [c], and of those behind stars. *)
Definition joined (c : Z) (vs : list bytes) : bytes := concat (map (cons c) vs).
Definition starred (vs : list bytes) : bytes := joined 42 vs.

Lemma glob_starred v vs s : plain v ->
  (Glob (starred (v :: vs)) s <-> (exists a b, s = a ++ v ++ b /\ Glob (starred vs) b)).
Proof.
  intros Hv. unfold starred, joined. cbn [map concat app]. rewrite glob_star. split.
  - intros (a & t & -> & Ht). apply (glob_plain v) in Ht as (b & -> & Hb); [|done]. by exists a, b.
  - intros (a & b & -> & Hb). exists a, (v ++ b). split; [done|]. apply glob_plain; [done|]. by exists b.
Qed.

(** ** What the matcher accepts behind the first piece *)

Fixpoint Accepts (vs : list bytes) (s : bytes) : Prop :=
  match vs with
  | [] => s = []
  | v :: vs' => s = [] \/ exists a b, s = a ++ v ++ b /\ (length a < length s)%nat /\ (v = [] /\ vs' = [] \/ Accepts vs' b)
  end.

Lemma accepts_nil vs : Accepts vs [].
Proof. destruct vs; [done|by left]. Qed.

(** The pattern cut before one of its stars: what is left may not end in a star. *)
Definition cut (vs us : list bytes) : Prop := (exists ws, ws <> [] /\ vs = us ++ ws) /\ (us = [] \/ exists us' v, us = us' ++ [v] /\ v <> []).

Lemma starred_longer us s : us <> [] -> Forall plain us -> Glob (starred us) [] -> Glob (starred us) s.
Proof.
  destruct us as [|v us]; [done|]. intros _ [Hv _]%Forall_cons H. apply glob_starred in H as (a & b & E & Hb); [|done].
  symmetry in E. apply app_nil in E as [-> E]. apply app_nil in E as [-> ->].
  apply glob_starred; [done|]. exists s, []. by rewrite app_nil_r.
Qed.

Lemma accepts_spec vs : Forall plain vs -> forall s,
  (Accepts vs s <-> Glob (starred vs) s \/ (exists us, cut vs us /\ Glob (starred us) s)).
Proof.
  induction 1 as [|v vs Hv Hvs IH]; intros s.
  { cbn [Accepts]. change (starred []) with (@nil Z). rewrite glob_nil. split; [by left|].
    intros [?|(us & [(ws & Hw & E) _] & _)]; [done|]. symmetry in E. by apply app_nil in E as [_ ->]. }
  assert (Hgo : forall us, Forall plain us -> (Glob (starred us) s -> s = [] \/ Accepts vs s) -> forall a b, s = a ++ v ++ b ->
      (us <> [] -> Glob (starred us) b) -> Accepts vs b -> (us = [] -> v <> []) -> Accepts (v :: vs) s).
  { intros us Hu Hs a b Es Hg Hb Hn. destruct (decide (s = [])) as [->|Hne]; [by left|]. right.
    destruct (decide (length a < length s)%nat) as [Hl|Hl]; [exists a, b; by eauto|].
    assert (v = [] /\ b = []) as [-> ->].
    { rewrite Es, !length_app in Hl. split; apply nil_length_inv; lia. }
    assert (Hu0 : us <> []) by (intros ->; by apply Hn). exists [], s. split; [done|].
    split; [destruct s; [done|simpl; lia]|]. right. destruct Hs; [|done|done].
    apply starred_longer; [done..|by apply Hg]. }
  split.
  - intros [->|(a & b & -> & Hl & H)]; [right; exists []; split; [|apply Glob_end]|].
    { split; [by exists (v :: vs)|by left]. }
    destruct H as [[-> ->]|H]; [left; apply glob_starred; [done|]; exists (a ++ b), []; split; [by rewrite !app_nil_r|apply Glob_end]|].
    apply IH in H as [H|(us & [(ws & Hw & ->) Hu] & H)]; [left; apply glob_starred; eauto|]. right. exists (v :: us). split.
    + split; [by exists ws|]. right. destruct Hu as [->|(us' & w & -> & Hw')]; [|by exists (v :: us'), w].
      exists [], v. split; [done|]. intros ->. apply glob_nil in H as ->. rewrite !length_app in Hl. simpl in Hl. lia.
    + apply glob_starred; eauto.
  - intros [H|(us & [(ws & Hw & E) Hu] & H)].
    + destruct (decide (v = [] /\ vs = [])) as [[-> ->]|Hd].
      { destruct s as [|c s]; [by left|]. right. exists [], (c :: s). split; [done|]. split; [simpl; lia|by left]. }
      apply glob_starred in H as (a & b & -> & Hb); [|done]. apply (Hgo vs Hvs) with a b; try done.
      * intros Hg. right. apply IH. by left.
      * apply IH. by left.
      * intros -> ->. by apply Hd.
    + destruct us as [|v' us]; [apply glob_nil in H as ->; by left|]. cbn [app] in E. injection E as <- ->.
      apply Forall_app in Hvs as [Hus _]. apply glob_starred in H as (a & b & -> & Hb); [|done].
      assert (Hc : us <> [] -> cut (us ++ ws) us).
      { intros Hn. split; [by exists ws|]. right. destruct Hu as [|(us' & w & E & Hw')]; [done|].
        destruct us' as [|x us']; cbn [app] in E; [by injection E as _ ->|]. injection E as _ ->. by exists us', w. }
      apply (Hgo us Hus) with a b; try done.
      * intros Hg. destruct (decide (us = [])) as [->|Hn]; [left; by apply glob_nil in Hg|]. right. apply IH. right. exists us. auto.
      * destruct (decide (us = [])) as [->|Hn]; [apply glob_nil in Hb as ->; apply accepts_nil|]. apply IH. right. exists us. auto.
      * intros -> ->. destruct Hu as [|(us' & w & E & Hw')]; [done|]. destruct us'; [by injection E as <-|by destruct us'].
Qed.

(** ** The matcher *)

Lemma strstr_Some s : forall t i, strstr s t = Some i ->
  exists b, s = take i s ++ t ++ b /\ length (take i s) = i /\ forall a b', s = a ++ t ++ b' -> (i <= length a)%nat.
Proof.
  induction s as [|c s IH]; intros t i; cbn [strstr]; destruct (strncmp0 t _ (length t)) eqn:E.
  1,3: intros [= <-]; apply strncmp0_prefix in E as [b ->]; exists b; split_and!; [done..|intros; lia].
  - done.
  - destruct (strstr s t) as [j|] eqn:Ej; [|done]. intros [= <-]. destruct (IH t j Ej) as (b & Hs & Hl & Hmin).
    exists b. cbn [take app length]. split; [by f_equal|]. split; [by rewrite Hl|]. intros [|x a] b' Hx; cbn [app length] in *.
    + exfalso. enough (strncmp0 t (c :: s) (length t) = true) by congruence. apply strncmp0_prefix. rewrite Hx. by exists b'.
    + injection Hx as _ Hx. apply Hmin in Hx. lia.
Qed.

Lemma strstr_None s : forall t, strstr s t = None -> forall a b, s <> a ++ t ++ b.
Proof.
  induction s as [|c s IH]; intros t; cbn [strstr]; destruct (strncmp0 t _ (length t)) eqn:E; try done.
  - intros _ a b Hx. symmetry in Hx. apply app_nil in Hx as [-> Hx]. apply app_nil in Hx as [-> ->]. done.
  - destruct (strstr s t) eqn:Ej; [done|]. intros _ [|x a] b Hx; cbn [app] in Hx.
    + enough (strncmp0 t (c :: s) (length t) = true) by congruence. apply strncmp0_prefix. rewrite Hx. by exists b.
    + injection Hx as _ Hx. by eapply IH.
Qed.

Lemma strstr_byte s c : strstr s [c] = strchr s c.
Proof.
  induction s as [|x s IH]; [done|]. cbn [strstr length strncmp0 strchr]. rewrite IH, andb_true_r, (Z.eqb_sym c x). by destruct (x =? c), (strchr s c).
Qed.

Lemma text_spec s m : cstr s -> text (s ++ 0 :: m) = Some s.
Proof. intros H. unfold text. rewrite bool_decide_true by set_solver. by rewrite until0_cstr. Qed.

Lemma begins_spec v : forall s m, cstr v -> begins v (s ++ 0 :: m) = Some (strncmp0 v s (length v)).
Proof.
  induction v as [|c v IH]; intros s m; [done|]. intros [Hc Hv]%Forall_cons. destruct s as [|x s]; cbn [app begins length strncmp0].
  - rewrite (proj2 (Z.eqb_neq c 0)) by lia. done.
  - rewrite IH by done. by destruct (c =? x).
Qed.

Section Star.
Context (vs : list bytes) (next : bytes -> option bool) (m v : bytes) (final : bool).
Hypothesis Hfinal : final = true <-> vs = [].
Hypothesis Hnext : forall s, cstr s -> exists r, next (s ++ 0 :: m) = Some r /\ (r = true <-> Accepts vs s).

(** An occurrence of the piece from which the rest goes on. *)
Definition found (s : bytes) : Prop :=
  exists a b, s = a ++ v ++ b /\ (length a < length s)%nat /\ (v = [] /\ vs = [] \/ Accepts vs b).

Lemma found_drop s i : (forall a b, s = a ++ v ++ b -> (i <= length a)%nat) ->
  (forall b, s = take i s ++ v ++ b -> ~ (v = [] /\ vs = [] \/ Accepts vs b)) -> found s -> found (drop (i + 1) s).
Proof.
  intros Hmin Hi (a & b & Es & Hl & H). pose proof (Hmin a b Es) as Hle. assert (i < length a)%nat.
  { destruct (decide (i = length a)) as [->|]; [|lia]. exfalso. apply (Hi b); [|done]. rewrite Es at 2.
    by rewrite take_app_length. }
  exists (drop (i + 1) a), b. rewrite Es, drop_app_le by lia. split; [done|]. split; [|done].
  rewrite !length_app, !length_drop. rewrite Es, !length_app in Hl. lia.
Qed.

Lemma found_cons s i : found (drop i s) -> found s.
Proof.
  intros (a & b & Es & Hl & H). exists (take i s ++ a), b. rewrite <- (take_drop i s) at 1. rewrite Es, <- app_assoc.
  split; [done|]. split; [|done]. rewrite length_app, length_take. rewrite length_drop in Hl. lia.
Qed.

Lemma star_spec fuel : forall s, cstr s -> (length s < fuel)%nat ->
  exists r, star next v final fuel (s ++ 0 :: m) = Some r /\
    match r with
    | Some b => s <> [] /\ (b = true <-> found s)
    | None => s = [] \/ ~ found s /\ v = []
    end.
Proof.
  induction fuel as [|k IH]; intros s Hs Hf; [lia|]. cbn [star]. rewrite text_spec by done. cbn [mbind option_bind].
  case_bool_decide as Hn; [by exists None; auto|].
  destruct (strstr s v) as [i|] eqn:Ei.
  2: { exists (Some false). split; [done|]. split; [done|]. split; [done|]. intros (a & b & E & _). by destruct (strstr_None s v Ei a b). }
  destruct (strstr_Some s v i Ei) as (b & Es & Hi & Hmin).
  assert (Hlb : length s = (i + (length v + length b))%nat) by (rewrite Es at 1; rewrite !length_app, Hi; lia).
  assert (Hlt : (i < length s)%nat).
  { assert (0 < length s)%nat by (destruct s; [done|simpl; lia]). destruct (decide (v = [])) as [Ev|Nv].
    - pose proof (Hmin [] s) as H0. rewrite Ev in H0. specialize (H0 eq_refl). simpl in H0. lia.
    - assert (0 < length v)%nat by (destruct v; [done|simpl; lia]). lia. }
  destruct (decide (v = [] /\ vs = [])) as [[Ev Evs]|Hd].
  { rewrite (proj2 Hfinal), bool_decide_true by done. exists (Some true). split; [done|]. split; [done|]. split; [|done]. intros _.
    exists (take i s), b. split; [done|]. split; [by rewrite Hi|auto]. }
  assert (bool_decide (v = []) && final = false) as ->.
  { apply not_true_is_false. intros [H1 H2]%andb_true_iff. apply bool_decide_eq_true in H1. apply Hd. split; [done|]. by apply Hfinal. }
  assert (Hb : cstr b) by (unfold cstr in *; rewrite Es, !Forall_app in Hs; apply Hs).
  assert (drop (i + length v) (s ++ 0 :: m) = b ++ 0 :: m) as ->.
  { rewrite drop_app_le by lia. f_equal. rewrite Es at 1. rewrite app_assoc, drop_app_length'; [done|]. by rewrite length_app, Hi. }
  destruct (Hnext b Hb) as (r & -> & Hr). destruct r.
  { exists (Some true). split; [done|]. split; [done|]. split; [|done]. intros _. exists (take i s), b. rewrite Hi. split; [done|]. split; [done|].
    right. by apply Hr. }
  rewrite drop_app_le by lia. destruct (IH (drop (i + 1) s)) as (r & -> & Hd'); [by apply Forall_drop|rewrite length_drop; lia|].
  assert (Hno : ~ Accepts vs b) by (rewrite <- Hr; done).
  assert (Hfd : found s -> found (drop (i + 1) s)).
  { apply found_drop; [done|]. intros b' Eb [?|H]; [done|]. rewrite Es in Eb at 1. apply app_inv_head, app_inv_head in Eb. by subst b'. }
  exists r. split; [done|]. destruct r as [r|].
  { destruct Hd' as [_ Hd']. split; [done|]. rewrite Hd'. split; [apply found_cons|done]. }
  right. destruct Hd' as [He|[Hf' Hv]]; [|auto]. assert (Hfs : ~ found s).
  { intros H%Hfd. rewrite He in H. destruct H as (a & b' & _ & Hl & _). simpl in Hl. lia. }
  split; [done|]. destruct (decide (v = [])) as [|Nv]; [done|]. exfalso. apply Hno.
  assert (length (drop (i + 1) s) = 0)%nat by (by rewrite He). rewrite length_drop in *.
  assert (0 < length v)%nat by (destruct v; [done|simpl; lia]). assert (b = []) as -> by (apply nil_length_inv; lia). apply accepts_nil.
Qed.

End Star.

Lemma strmatch_stars m vs : forall s, cstr s ->
  exists r, strmatch (map (fun v => mk_item v 1) vs) (s ++ 0 :: m) = Some r /\ (r = true <-> Accepts vs s).
Proof.
  induction vs as [|v vs IH]; intros s Hs; cbn [map strmatch].
  { exists (bool_decide (s = [])). split; [|apply bool_decide_eq_true]. destruct s as [|c s]; [done|]. cbn.
    apply Forall_cons in Hs as [Hc _]. by rewrite (proj2 (Z.eqb_neq c 0)) by lia. }
  cbn [flag val]. change (1 =? 0) with false. change (1 =? 1) with true. cbv iota. cbn [Accepts]. fold (found vs v s).
  destruct (star_spec vs (strmatch (map (fun v => mk_item v 1) vs)) m v (bool_decide (map (fun v => mk_item v 1) vs = [])))
    with (fuel := length (s ++ 0 :: m)) (s := s) as (r & -> & Hr); [|done|done|rewrite length_app; simpl; lia|].
  { rewrite bool_decide_eq_true. by destruct vs. }
  cbn [mbind option_bind]. destruct r as [r|].
  - exists r. split; [done|]. destruct Hr as [Hne Hr]. rewrite Hr. split; [by right|]. by intros [?|?].
  - destruct (IH s Hs) as (r & -> & Hr'). exists r. split; [done|]. rewrite Hr'. destruct Hr as [->|[Hn Hv]].
    + split; [by left|]. intros _. apply accepts_nil.
    + split; [|intros [->|H]; [apply accepts_nil|done]]. intros H. destruct s as [|c s]; [by left|]. right. exfalso. apply Hn.
      exists [], (c :: s). rewrite Hv. split; [done|]. split; [simpl; lia|by right].
Qed.

Lemma split_spec n c : forall p, (length (filter (fun x => x = c) p) < n)%nat ->
  exists v vs, splitstr n p [c] = v :: vs /\ p = v ++ joined c vs /\ Forall (fun v => c ∉ v) (v :: vs).
Proof.
  induction n as [|n IH]; intros p Hn; [lia|]. cbn [splitstr]. rewrite strstr_byte. destruct (strchr p c) as [i|] eqn:Ei.
  - apply strchr_Some in Ei as [Hc Hi]. assert (Hp : p = take i p ++ c :: drop (i + 1) p).
    { rewrite Nat.add_1_r. symmetry. by apply take_drop_middle. }
    cbn [length]. destruct (IH (drop (i + 1) p)) as (v & vs & -> & Ep & HF).
    { rewrite Hp, filter_app, length_app, filter_cons_True in Hn by done. simpl in Hn. lia. }
    exists (take i p), (v :: vs). split; [done|]. split; [|by constructor]. rewrite Hp at 1. unfold joined in *. cbn [map concat app]. by rewrite Ep at 1.
  - exists p, []. apply strchr_None in Ei. split; [done|]. split; [by rewrite app_nil_r|by constructor].
Qed.

Lemma joined_app c us ws : joined c (us ++ ws) = joined c us ++ joined c ws.
Proof. unfold joined. by rewrite map_app, concat_app. Qed.

(** A cut of the text is a cut of the list of pieces. *)
Lemma cut_joined c vs : forall v q t, c ∉ v -> Forall (fun v => c ∉ v) vs -> v ++ joined c vs = q ++ c :: t ->
  exists us ws, vs = us ++ ws /\ ws <> [] /\ q = v ++ joined c us.
Proof.
  induction vs as [|w vs IH]; intros v q t Hv HF E.
  { exfalso. unfold joined in E. cbn [map concat] in E. rewrite app_nil_r in E. subst v. apply Hv. set_solver. }
  apply Forall_cons in HF as [Hw HF]. change (joined c (w :: vs)) with (c :: w ++ joined c vs) in E.
  apply app_eq_app in E as (k & [[-> E]|[-> E]]).
  - destruct k as [|x k]; [exists [], (w :: vs); split; [done|]; split; [done|]; by rewrite !app_nil_r|].
    cbn [app] in E. injection E as <- _. set_solver.
  - destruct k as [|x k]; [by exists [], (w :: vs)|]. cbn [app] in E. injection E as <- E.
    destruct (IH w k t Hw HF E) as (us & ws & -> & Hn & ->). by exists (w :: us), ws.
Qed.

Lemma last_starred v us : 42 ∉ v -> Forall (fun v => 42 ∉ v) us ->
  last (v ++ starred us) <> Some 42 <-> us = [] \/ (exists us' w, us = us' ++ [w] /\ w <> []).
Proof.
  intros Hv HF. induction us as [|w us _] using rev_ind.
  { rewrite app_nil_r. split; [by left|]. intros _ H. apply Hv. by apply last_Some_elem_of. }
  apply Forall_app in HF as [_ [Hw _]%Forall_cons]. unfold starred. rewrite joined_app. change (joined 42 [w]) with (42 :: w ++ []). rewrite app_nil_r.
  rewrite app_assoc, last_app_cons. induction w as [|c w _] using rev_ind.
  - split; [done|]. intros [E|(us' & w & E & Hne)]; [by destruct us|]. apply app_inj_tail in E as [_ <-]. done.
  - split; [intros _; right; exists us, (w ++ [c]); split; [done|by destruct w]|]. intros _. rewrite app_comm_cons, last_snoc.
    set_solver.
Qed.

Lemma splitstr_one n s c : c ∉ s -> splitstr (S n) s [c] = [s].
Proof. intros H. cbn [splitstr]. by rewrite strstr_byte, (proj2 (strchr_None s c) H). Qed.

Lemma items_starred p v vs : splitstr 1024 p [42] = v :: vs -> Forall (fun v => 63 ∉ v) (v :: vs) ->
  items p = mk_item v 0 :: map (fun v => mk_item v 1) vs.
Proof.
  intros E HF. assert (H1 : forall w f, 63 ∉ w -> piece_items f (splitstr 1024 w [63]) = [mk_item w f]).
  { intros w f Hw. by rewrite (splitstr_one 1023 w 63 Hw). }
  unfold items. rewrite E. apply Forall_cons in HF as [Hv HF]. rewrite H1 by done. cbn [app]. f_equal. clear E.
  induction HF as [|w ws Hw _ IH]; [done|]. cbn [map concat]. rewrite H1 by done. cbn [app]. by f_equal.
Qed.

(** What the pattern matcher accepts.  For a pattern of bytes and stars (not
    empty, without question marks and with fewer than 1024 stars) [strmatch] ends,
    looks at nothing behind the string, and accepts the strings the pattern means -
    and also those that match only what stands before one of its stars: when the
    string ends at a star the rest of the pattern is not looked at, so that
    [a*b] accepts [a]. *)
Theorem wildcard_accepts mok p s behind :
  p <> [] -> cstr p -> 63 ∉ p -> (length (filter (fun c => c = 42%Z) p) < 1024)%nat -> (forall n, mok n = true) -> cstr s ->
  exists r, strmatch (getmatch mok p) (s ++ 0 :: behind) = Some r /\
    (r = true <-> Glob p s \/ (exists q t, p = q ++ 42 :: t /\ last q <> Some 42 /\ Glob q s)).
Proof.
  intros Hne Hp H63 Hlen Hm Hs. destruct (split_spec 1024 42 p Hlen) as (v & vs & Esp & Ep & [Hv Hvs]%Forall_cons).
  fold (starred vs) in Ep.
  assert (H63' : Forall (fun v => 63 ∉ v) (v :: vs)).
  { clear -H63 Ep. subst p. constructor; [set_solver|]. apply not_elem_of_app in H63 as [_ H]. induction vs as [|w vs IH]; [done|].
    change (starred (w :: vs)) with (42 :: w ++ starred vs) in H. constructor; [set_solver|apply IH; set_solver]. }
  assert (Hpl : Forall plain (v :: vs)).
  { apply Forall_forall. intros w Hw. split; [|by apply (proj1 (Forall_forall _ _) H63')].
    apply elem_of_cons in Hw as [->|Hw]; [done|by apply (proj1 (Forall_forall _ _) Hvs)]. }
  apply Forall_cons in Hpl as [Hpv Hpl].
  assert (getmatch mok p = mk_item v 0 :: map (fun v => mk_item v 1) vs) as ->.
  { unfold getmatch. rewrite (proj2 (forallb_forall _ _)) by (intros; apply Hm). by apply items_starred. }
  cbn [strmatch flag val]. change (0 =? 0) with true. cbv iota. rewrite bool_decide_false.
  2: { intros [-> E]. destruct vs; [|done]. by rewrite Ep in Hne. }
  assert (Hcv : cstr v) by (unfold cstr in *; rewrite Ep, Forall_app in Hp; apply Hp). rewrite begins_spec by done. cbn [mbind option_bind].
  assert (Hq : forall us, Glob (v ++ starred us) s <-> (exists t, s = v ++ t /\ Glob (starred us) t)) by (intros; by apply glob_plain).
  destruct (strncmp0 v s (length v)) eqn:Epre.
  - apply strncmp0_prefix in Epre as [t ->]. rewrite <- app_assoc, drop_app_length.
    destruct (strmatch_stars behind vs t) as (r & -> & Hr); [by apply Forall_app in Hs as [_ ?]|]. exists r. split; [done|].
    rewrite Hr, accepts_spec by done. rewrite Ep, Hq. split.
    + intros [H|(us & [(ws & Hw & ->) Hu] & H)]; [left; by exists t|]. right. destruct ws as [|w ws]; [done|].
      exists (v ++ starred us), (w ++ starred ws). unfold starred. rewrite joined_app, <- app_assoc. split; [done|].
      apply Forall_app in Hvs as [Hvs _]. split; [by apply last_starred|]. apply Hq. by exists t.
    + intros [(t' & E & H)|(q & t' & E & Hl & H)]; [apply app_inv_head in E as <-; by left|]. right.
      destruct (cut_joined 42 vs v q t' Hv Hvs E) as (us & ws & -> & Hw & ->). apply Hq in H as (t2 & E2 & H). apply app_inv_head in E2 as <-.
      exists us. split; [|done]. split; [by exists ws|]. apply Forall_app in Hvs as [Hvs _]. by apply (last_starred v).
  - exists false. split; [done|]. split; [done|]. intros H. exfalso. enough (exists t, s = v ++ t) as [t ->].
    { enough (strncmp0 v (v ++ t) (length v) = true) by congruence. apply strncmp0_prefix. by exists t. }
    destruct H as [H|(q & t' & E & Hl & H)]; [rewrite Ep in H; apply Hq in H as (t & -> & _); by exists t|].
    rewrite Ep in E. destruct (cut_joined 42 vs v q t' Hv Hvs E) as (us & ws & -> & Hw & ->). apply Hq in H as (t & -> & _). by exists t.
Qed.

Lemma wildcard_accepts_witness :
  exists r, strmatch (getmatch (fun _ => true) (str "a*b")) (str "a" ++ 0 :: str "zz") = Some r /\
    (r = true <-> Glob (str "a*b") (str "a") \/ (exists q t, str "a*b" = q ++ 42 :: t /\ last q <> Some 42 /\ Glob q (str "a"))).
Proof.
  apply (wildcard_accepts (fun _ => true) (str "a*b") (str "a") (str "zz")).
  - discriminate.
  - repeat constructor.
  - by apply (bool_decide_unpack _).
  - vm_compute. lia.
  - reflexivity.
  - repeat constructor.
Defined.

End Acl.
