(* ===== verification/UrlPath.v ===== *)
(** * Paths, URLs and referers (lib/acl.c) and the field splitter (lib/util_str.c)

    Module [Url]: [check_path], which is to refuse paths that leave the root,
    [decodeurl], which makes a file name of an URL in a buffer of fixed size, and
    [check_referer].  Module [Fields]: [str_explode].  As in [Acl] a pointer into
    memory is the list of the bytes from there on, and a read or a write outside
    of what is there is undefined ([None]). *)

From S2P Require Import Prelude.
From S2P Require Import CString.
From S2P Require Import Acl.

Module Url.
Import Acl.

(** ** check_path *)

Fixpoint skip_slashes (m : bytes) : bytes :=
  match m with c :: m' => if c =? 47 then skip_slashes m' else m | [] => [] end.

(** [dirs] and [udirs] are 16 bits wide.  Behind the slashes the code reads on
    whatever is there, the terminating zero included. *)
Fixpoint path_loop (fuel : nat) (m : bytes) (dirs udirs : Z) : option bool :=
  match fuel with
  | O => None
  | S k =>
      match m with
      | [] => None
      | c :: m' =>
          if negb (c =? 0) && ((udirs =? 0) || (udirs <? dirs)) then
            if c =? 47 then
              let m := skip_slashes m in
              if (at_ m 0 =? 46) && (at_ m 1 =? 46) && (at_ m 2 =? 47) then path_loop k (drop 3 m) dirs (u16 (udirs + 1))
              else if (at_ m 0 =? 46) && (at_ m 1 =? 47) then path_loop k (drop 2 m) dirs udirs
              else path_loop k (drop 1 m) (u16 (dirs + 1)) udirs
            else path_loop k m' dirs udirs
          else Some (udirs <? dirs)
      end
  end.

Definition check_path (m : bytes) : option bool :=
  c ← m !! O;
  if negb (c =? 47) then Some false else path_loop (length m) m 0 0.

(** ** decodeurl *)

Definition hexval (c : Z) : Z := if isdigit c then c - 48 else Z.lor c 32 - 97 + 10.

(** The next byte of the URL and the rest. *)
Definition next_byte (c : Z) (url : bytes) : Z * bytes :=
  if c =? 37 then
    match url with
    | a :: b :: url' => if isxdigit a && isxdigit b then (Z.shiftl (hexval a) 4 + hexval b, url') else (c, url)
    | _ => (c, url)
    end
  else (c, url).

(** [p[-k]] *)
Definition rd (buf : bytes) (p k : nat) : option Z := if (k <=? p)%nat then buf !! (p - k)%nat else None.

(** [while( *--p != '/')] *)
Fixpoint back (buf : bytes) (p : nat) : option nat :=
  match p with
  | O => None
  | S q => c ← buf !! q; if c =? 47 then Some q else back buf q
  end.

(** Where a slash is put: over the last slash, dot or name. *)
Definition slash (buf : bytes) (p : nat) : option nat :=
  a ← rd buf p 1;
  if a =? 47 then Some (p - 1)%nat
  else if a =? 46 then
    b ← rd buf p 2;
    if b =? 47 then Some (p - 2)%nat
    else if b =? 46 then
      c ← rd buf p 3;
      if c =? 47 then if (p - 3 =? 0)%nat then Some O else back buf (p - 3) else Some p
    else Some p
  else Some p.

Definition store (buf : bytes) (p : nat) (c : Z) : option bytes :=
  if bool_decide (p < length buf)%nat then Some (<[p := u8 c]> buf) else None.

Fixpoint decode_loop (fuel : nat) (url buf : bytes) (p e : nat) : option (bytes * nat) :=
  match fuel with
  | O => None
  | S k =>
      match url with
      | [] => Some (buf, p)
      | c :: url' =>
          if (e <=? p)%nat then Some (buf, p)
          else
            let '(ch, url) := next_byte c url' in
            p ← (if ch =? 47 then slash buf p else Some p);
            buf ← store buf p ch;
            decode_loop k url buf (p + 1) e
      end
  end.

(** The end of [decodeurl] moves the local pointer over a last dot and writes
    nothing; it only reads. *)
Definition last_dots (buf : bytes) (p : nat) : option unit :=
  a ← rd buf p 1;
  if a =? 46 then
    b ← rd buf p 2;
    if b =? 47 then Some tt
    else if b =? 46 then c ← rd buf p 3; Some tt
    else Some tt
  else Some tt.

(** The buffer afterwards; [e] is the end of the buffer. *)
Definition decodeurl (url buf : bytes) (len : nat) : option bytes :=
  buf ← store buf 0 47;
  '(buf, p) ← decode_loop (S (length url)) url buf 1 len;
  _ ← last_dots buf p;
  Some buf.

(** ** check_referer *)

Fixpoint host_of (ref : bytes) : bytes :=
  match ref with
  | [] => []
  | c :: ref' => if (c =? 47) || (c =? 58) then [] else c :: host_of ref'
  end.

(** The places of the dots. *)
Fixpoint dots (i : Z) (h : bytes) : list Z :=
  match h with [] => [] | c :: h' => if c =? 46 then i :: dots (i + 1) h' else dots (i + 1) h' end.

(** [key], copied from place [from] up to place [p]. *)
Definition key (host : bytes) (from p : Z) : bytes :=
  take (Z.to_nat (Z.min (p - from + 1) 127)) (drop (Z.to_nat from) host).

Definition strcasestr (s t : bytes) : option nat := strstr (map tolower s) (map tolower t).

(** The first occurrence is at the beginning of a word. *)
Definition at_word (l k : bytes) : bool :=
  match strcasestr l k with None => false | Some O => true | Some (S i) => at_ l i =? 32 end.

(** [tail n]: what follows the n-th dot from the end. *)
Definition check_host (host l : bytes) : Z :=
  let p := zlen host - 1 in
  let d := dots 0 host in
  if 10 <=? zlen d then -1
  else
    let n := if at_ host (length host - 1) =? 46 then zlen d - 1 else zlen d in
    if n <? 1 then -1
    else
      let dot k := nth (Z.to_nat (n - k)) d 0 in
      let tail k := key host (dot k + 1) p in
      let whole := key host 0 p in
      let suffix_len := p - dot 1 in
      if suffix_len =? 3 then
        if 2 <=? n then
          if at_word l (tail 2) then 0
          else if at_word l (if n =? 2 then whole else tail 3) then 0 else -1
        else if at_word l whole then 0 else -1
      else if suffix_len =? 2 then
        if bool_decide (is_Some (strcasestr l (if n <=? 2 then whole else tail 3))) then 0
        else if 2 <=? n then if at_word l (tail 2) then 0 else -1 else -1
      else -1.

Definition check_referer (referer : option bytes) (l : bytes) (allow_null_referer : bool) : Z :=
  match r ← referer; i ← strchr r 58; Some (drop (i + 1) r) with
  | None => if allow_null_referer then 0 else -1
  | Some ref => check_host (host_of (skip_slashes ref)) l
  end.

(** ** What [check_path] sees *)

Definition comp (c : bytes) : Prop := c <> [] /\ 47 ∉ c /\ 0 ∉ c.
Definition dotdot : bytes := [46; 46].
Definition dot : bytes := [46].
Definition render (cs : list bytes) : bytes := joined 47 cs.

(** The names as the loop counts them: the one behind [.] or [..] is passed over. *)
Fixpoint walk (cs : list bytes) (d u : Z) : bool :=
  match cs with
  | [] => u <? d
  | c :: cs' =>
      if (u =? 0) || (u <? d) then
        match cs' with
        | [] => u <? d + 1
        | _ :: cs2 =>
            if bool_decide (c = dotdot) then walk cs2 d (u + 1)
            else if bool_decide (c = dot) then walk cs2 d u
            else walk cs' (d + 1) u
        end
      else u <? d
  end.

Lemma walk_stopped cs d u : (u =? 0) || (u <? d) = false -> walk cs d u = (u <? d).
Proof. intros H. destruct cs; cbn [walk]; [done|]. by rewrite H. Qed.

Lemma path_stopped k c m d u : (u =? 0) || (u <? d) = false -> path_loop (S k) (c :: m) d u = Some (u <? d).
Proof. intros H. cbn [path_loop]. by rewrite H, andb_false_r. Qed.

Lemma path_chars r : forall k m d u, 47 ∉ r -> 0 ∉ r -> m <> [] -> path_loop (length r + S k) (r ++ m) d u = path_loop (S k) m d u.
Proof.
  induction r as [|c r IH]; intros k m d u H1 H2 Hm; [done|]. apply not_elem_of_cons in H1 as [C1 H1], H2 as [C2 H2].
  destruct ((u =? 0) || (u <? d)) eqn:Hc.
  - rewrite <- (IH k m) by done. cbn [length Nat.add app path_loop].
    by rewrite (proj2 (Z.eqb_neq c 0)), (proj2 (Z.eqb_neq c 47)), Hc by done.
  - destruct m as [|x m]; [done|]. cbn [length Nat.add app]. by rewrite !path_stopped.
Qed.

Lemma path_fuel k : forall k' m d u r, path_loop k m d u = Some r -> (k <= k')%nat -> path_loop k' m d u = Some r.
Proof.
  induction k as [|k IH]; intros [|k'] m d u r H Hk; [done|done|lia|]. cbn [path_loop] in *. destruct m as [|c m]; [done|].
  repeat case_match; try done; by apply IH; [|lia].
Qed.

(** What comes behind the slash of a name. *)
Lemma path_name c x m d u k : comp c -> x = 47 \/ x = 0 -> (u =? 0) || (u <? d) = true ->
  path_loop (S k) (47 :: c ++ x :: m) d u =
  if bool_decide (c = dotdot) && (x =? 47) then path_loop k m d (u16 (u + 1))
  else if bool_decide (c = dot) && (x =? 47) then path_loop k m d u
  else path_loop k (drop 1 c ++ x :: m) (u16 (d + 1)) u.
Proof.
  intros (Hne & H47 & _) Hx Hc. destruct c as [|a c]; [done|]. apply not_elem_of_cons in H47 as [Ha H47].
  cbn [path_loop app]. rewrite Hc. change (negb (47 =? 0) && true) with true. change (47 =? 47) with true. cbv iota.
  assert (skip_slashes (47 :: a :: c ++ x :: m) = a :: c ++ x :: m) as ->.
  { cbn [skip_slashes]. by rewrite (proj2 (Z.eqb_neq a 47)) by done. }
  assert (Hx46 : (x =? 46) = false) by (destruct Hx; by subst). unfold at_, dotdot, dot.
  destruct (Z.eqb_spec a 46) as [->|Na].
  2: { cbn [nth]. rewrite (proj2 (Z.eqb_neq a 46)), !bool_decide_false by (congruence || done). done. }
  destruct c as [|b c]; cbn [app nth drop]; change (46 =? 46) with true; cbn [andb].
  { rewrite Hx46, (bool_decide_false ([46] = [46; 46])), (bool_decide_true ([46] = [46])) by done. by destruct (x =? 47). }
  apply not_elem_of_cons in H47 as [Hb H47]. destruct (Z.eqb_spec b 46) as [->|Nb].
  2: { rewrite (proj2 (Z.eqb_neq b 47)), !bool_decide_false by (congruence || done). done. }
  destruct c as [|b2 c]; cbn [app nth drop]; [by rewrite bool_decide_true|].
  apply not_elem_of_cons in H47 as [Hb2 _]. rewrite (proj2 (Z.eqb_neq b2 47)), !bool_decide_false by done. done.
Qed.

Lemma path_rest r cs d u mem v : 47 ∉ r -> 0 ∉ r ->
  path_loop (S (length (render cs))) (render cs ++ 0 :: mem) d u = Some v ->
  path_loop (S (length (r ++ render cs))) (r ++ render cs ++ 0 :: mem) d u = Some v.
Proof. intros H1 H2 H. rewrite length_app, <- Nat.add_succ_r, path_chars; [done..|]. by destruct (render cs). Qed.

Lemma path_walk n : forall cs d u mem, (length cs <= n)%nat -> Forall comp cs -> 0 <= d -> 0 <= u ->
  d + zlen cs < 65536 -> u + zlen cs < 65536 -> path_loop (S (length (render cs))) (render cs ++ 0 :: mem) d u = Some (walk cs d u).
Proof.
  induction n as [|n IH]; intros cs d u mem Hn HF Hd Hu Bd Bu; (destruct cs as [|c cs]; [done|]); [simpl in Hn; lia|].
  apply Forall_cons in HF as [Hc HF]. change (render (c :: cs)) with (47 :: c ++ render cs). cbn [length] in *.
  destruct ((u =? 0) || (u <? d)) eqn:Hcond; [|rewrite walk_stopped by done; by apply path_stopped].
  rewrite <- app_comm_cons, <- app_assoc.
  assert (H1 : path_loop (S (length (c ++ render cs))) (drop 1 c ++ render cs ++ 0 :: mem) (d + 1) u = Some (walk cs (d + 1) u)).
  { destruct Hc as (_ & H47 & H0). apply (path_fuel (S (length (drop 1 c ++ render cs)))); [|rewrite !length_app, length_drop; lia].
    rewrite <- (take_drop 1 c), not_elem_of_app in H47, H0. apply path_rest; [apply H47|apply H0|].
    apply IH; [lia|done|lia..]. }
  cbn [walk]. rewrite Hcond. destruct cs as [|c2 cs].
  - change (render [] ++ 0 :: mem) with (0 :: mem) in *. rewrite path_name by auto. rewrite !andb_false_r.
    rewrite u16_small by lia. exact H1.
  - cbn [length] in *. apply Forall_cons in HF as [(_ & C1 & C2) HF].
    change (render (c2 :: cs)) with (47 :: c2 ++ render cs) in *. rewrite <- app_comm_cons in H1 |- *.
    rewrite path_name, !andb_true_r, !u16_small by (lia || auto). rewrite <- app_assoc in H1 |- *.
    assert (Hskip : forall u', 0 <= u' <= u + 1 ->
      path_loop (S (length (c ++ 47 :: c2 ++ render cs))) (c2 ++ render cs ++ 0 :: mem) d u' = Some (walk cs d u')).
    { intros u' Hu'. apply (path_fuel (S (length (c2 ++ render cs)))); [|rewrite (length_app c); simpl; lia].
      apply path_rest; [done..|]. apply IH; [lia|done|lia..]. }
    repeat case_bool_decide; [apply Hskip; lia..|exact H1].
Qed.

Lemma check_path_walk cs mem : cs <> [] -> Forall comp cs -> zlen cs < 65536 ->
  check_path (render cs ++ 0 :: mem) = Some (walk cs 0 0).
Proof.
  intros Hne HF Hl. unfold check_path. destruct cs as [|c cs]; [done|]. change (render (c :: cs)) with (47 :: c ++ render cs).
  cbn [app lookup list_lookup mbind option_bind]. change (negb (47 =? 47)) with false. cbv iota.
  change (47 :: (c ++ render cs) ++ 0 :: mem) with (render (c :: cs) ++ 0 :: mem).
  apply (path_fuel (S (length (render (c :: cs))))); [|rewrite length_app; simpl; lia].
  apply (path_walk (length (c :: cs))); [lia|done|lia..].
Qed.

(** How far a name leads down, and that a path never leaves the root on its way. *)
Definition level (c : bytes) : Z := if bool_decide (c = dotdot) then -1 else if bool_decide (c = dot) then 0 else 1.

Fixpoint inside (cs : list bytes) (h : Z) : bool :=
  match cs with [] => true | c :: cs' => (0 <=? h + level c) && inside cs' (h + level c) end.

Definition dots_only (c : bytes) : Prop := c = dotdot \/ c = dot.

(** No two of [.] and [..] follow each other, and [..] is not the last. *)
Fixpoint apart (cs : list bytes) : Prop :=
  match cs with
  | [] => True
  | c :: cs' => match cs' with [] => c <> dotdot | c2 :: _ => ~ (dots_only c /\ dots_only c2) end /\ apart cs'
  end.

Lemma walk_true cs d u : walk cs d u = true -> u = 0 \/ u < d.
Proof.
  intros H. destruct ((u =? 0) || (u <? d)) eqn:E; [apply orb_true_iff in E as [E|E]; [apply Z.eqb_eq in E|apply Z.ltb_lt in E]; auto|].
  rewrite walk_stopped in H by done. apply Z.ltb_lt in H. auto.
Qed.

Lemma level_plain c : ~ dots_only c -> level c = 1.
Proof. unfold dots_only, level. intros H. rewrite !bool_decide_false; tauto. Qed.

Lemma level_name c : level c = -1 /\ c = dotdot \/ level c = 0 /\ c = dot \/ level c = 1 /\ ~ dots_only c.
Proof. unfold level, dots_only. repeat case_bool_decide; tauto. Qed.

Lemma walk_inside n : forall cs d u h, (length cs <= n)%nat -> apart cs -> 0 <= u -> d - u <= h -> 0 <= h ->
  walk cs d u = true -> inside cs h = true.
Proof.
  induction n as [|n IH]; intros cs d u h Hn Ha Hu Hh H0 H; (destruct cs as [|c cs]; [done|]); [simpl in Hn; lia|].
  cbn [length] in Hn. destruct Ha as [Hc Ha]. cbn [inside]. pose proof (walk_true _ _ _ H) as Ht. cbn [walk] in H.
  assert ((u =? 0) || (u <? d) = true) as Hcond by (apply orb_true_iff; rewrite Z.eqb_eq, Z.ltb_lt; done). rewrite Hcond in H.
  destruct cs as [|c2 cs].
  { cbn [inside]. rewrite andb_true_r. apply Z.leb_le. destruct (level_name c) as [[_ ?]|[[-> _]|[-> _]]]; [done|lia..]. }
  destruct Ha as [Hc2 Ha]. cbn [length] in Hn. destruct (level_name c) as [[-> ->]|[[-> ->]|[El Ec]]].
  - rewrite bool_decide_true in H by done. assert (Hp : level c2 = 1) by (apply level_plain; unfold dots_only in *; tauto).
    pose proof (walk_true _ _ _ H). cbn [inside]. rewrite Hp, !(proj2 (Z.leb_le 0 _)) by lia. cbn [andb].
    apply (IH cs d (u + 1)); [lia|done|lia..|done].
  - rewrite bool_decide_false, bool_decide_true in H by done. assert (Hp : level c2 = 1) by (apply level_plain; unfold dots_only in *; tauto).
    cbn [inside]. rewrite Hp, !(proj2 (Z.leb_le 0 _)) by lia. cbn [andb]. apply (IH cs d u); [lia|done|lia..|done].
  - unfold dots_only in Ec. rewrite !bool_decide_false in H by tauto. rewrite El, (proj2 (Z.leb_le 0 _)) by lia. cbn [andb].
    apply (IH (c2 :: cs) (d + 1) u); [simpl; lia|done|lia..|done].
Qed.

Lemma walk_names a cs d u : Forall (fun c => ~ dots_only c) a -> u = 0 \/ u < d -> walk (a ++ cs) d u = walk cs (d + zlen a) u.
Proof.
  intros HF. revert d. induction HF as [|c a Hc HF IH]; intros d Hu; [by rewrite Z.add_0_r|].
  cbn [app walk length]. rewrite Nat2Z.inj_succ, (proj2 (orb_true_iff _ _)) by (rewrite Z.eqb_eq, Z.ltb_lt; done).
  replace (d + Z.succ (zlen a)) with (d + 1 + zlen a) by lia. rewrite <- IH by lia.
  unfold dots_only in Hc. destruct (a ++ cs); [done|]. rewrite !bool_decide_false by tauto. done.
Qed.

Lemma walk_ups j cs d u : cs <> [] -> 0 <= u -> u + Z.of_nat j < d ->
  walk (replicate (2 * j) dotdot ++ cs) d u = walk cs d (u + Z.of_nat j).
Proof.
  intros Hc. revert u. induction j as [|j IH]; intros u Hu Hd; [by rewrite Z.add_0_r|].
  replace (2 * S j)%nat with (S (S (2 * j))) by lia. cbn [replicate app walk].
  rewrite (proj2 (orb_true_iff _ _)) by (rewrite Z.eqb_eq, Z.ltb_lt; lia). rewrite bool_decide_true by done.
  rewrite IH by lia. f_equal. lia.
Qed.

Lemma inside_names a cs h : Forall (fun c => ~ dots_only c) a -> 0 <= h -> inside (a ++ cs) h = inside cs (h + zlen a).
Proof.
  intros HF. revert h. induction HF as [|c a Hc HF IH]; intros h Hh; [by rewrite Z.add_0_r|]. cbn [app inside length].
  rewrite (level_plain c Hc), (proj2 (Z.leb_le _ _)) by lia. cbn [andb]. rewrite IH by lia. f_equal. lia.
Qed.

Lemma inside_ups k cs h : 0 <= h < Z.of_nat k -> inside (replicate k dotdot ++ cs) h = false.
Proof.
  revert h. induction k as [|k IH]; intros h Hh; [lia|]. cbn [replicate app inside]. change (level dotdot) with (-1).
  destruct (Z.leb_spec 0 (h + -1)); [|done]. cbn [andb]. apply IH. lia.
Qed.

(** A path that [check_path] lets pass stays below the root, when no two of
    [.] and [..] follow each other in it and it does not end in [..].  For any
    names between the slashes the check ends and reads nothing behind the path. *)
Theorem check_path_sound cs mem :
  cs <> [] -> Forall comp cs -> zlen cs < 65536 -> apart cs ->
  exists r, check_path (render cs ++ 0 :: mem) = Some r /\ (r = true -> inside cs 0 = true).
Proof.
  intros Hne HF Hl Ha. exists (walk cs 0 0). split; [by apply check_path_walk|].
  apply (walk_inside (length cs)); done.
Qed.

(** [check_path] sees only every second [..] of a row.  A path that goes
    down by more than [j] names and then up by [2 * j] passes, whatever follows;
    when [2 * j] is more than the names before it the path has left the root. *)
Theorem check_path_blind a j b mem :
  Forall (fun c => comp c /\ ~ dots_only c) (a ++ b) -> b <> [] -> (j < length a)%nat ->
  zlen a + 2 * Z.of_nat j + zlen b < 65536 ->
  let cs := a ++ replicate (2 * j) dotdot ++ b in
  check_path (render cs ++ 0 :: mem) = Some true /\ (zlen a < 2 * Z.of_nat j -> inside cs 0 = false).
Proof.
  intros HF Hb Hj Hl cs. apply Forall_app in HF as [Ha Hbs]. assert (Ha' := Ha). apply Forall_and in Ha as [Ca Na], Hbs as [Cb Nb].
  split.
  - rewrite check_path_walk.
    + f_equal. unfold cs. rewrite walk_names, walk_ups by (done || lia). rewrite <- (app_nil_r b), walk_names by (done || lia).
      cbn [walk]. apply Z.ltb_lt. lia.
    + unfold cs. destruct a; [simpl in Hj; lia|done].
    + unfold cs. rewrite !Forall_app. split; [done|]. split; [|done]. apply Forall_replicate. split; [done|]. by split; apply (bool_decide_unpack _).
    + unfold cs. rewrite !length_app, length_replicate. lia.
  - intros H2. unfold cs. rewrite inside_names by (done || lia). apply inside_ups. lia.
Qed.

(** ** The file name made of an URL *)

(** The buffer begins with a slash, which ends every search backwards. *)
Definition rooted (buf : bytes) (p : nat) : Prop := buf !! O = Some 47 /\ (1 <= p <= length buf)%nat.

Lemma rd_in buf p k : (k <= p)%nat -> (1 <= k)%nat -> (p <= length buf)%nat -> exists c, rd buf p k = Some c.
Proof. intros. unfold rd. rewrite (proj2 (Nat.leb_le _ _)) by done. apply lookup_lt_is_Some. lia. Qed.

(** A byte that is not the first slash has a byte before it. *)
Lemma rooted_before buf p k c : rooted buf p -> (1 <= k <= p)%nat -> rd buf p k = Some c -> c <> 47 -> (k < p)%nat.
Proof.
  intros [H0 Hp] Hk H Hc. destruct (decide (k = p)) as [->|]; [|lia]. unfold rd in H.
  rewrite Nat.leb_refl, Nat.sub_diag, H0 in H. congruence.
Qed.

Lemma back_in buf p : buf !! O = Some 47 -> (0 < p <= length buf)%nat -> exists q, back buf p = Some q /\ (q < p)%nat.
Proof.
  intros H0. induction p as [|p IH]; intros Hp; [lia|]. cbn [back]. destruct p as [|p].
  { rewrite H0. exists O. by split; [|lia]. }
  destruct (lookup_lt_is_Some_2 buf (S p)) as [c ->]; [lia|]. cbn [mbind option_bind]. destruct (c =? 47); [exists (S p); by split; [|lia]|].
  destruct IH as (q & -> & Hq); [lia|]. exists q. by split; [|lia].
Qed.

Lemma slash_in buf p : rooted buf p -> exists q, slash buf p = Some q /\ (q <= p)%nat.
Proof.
  intros H. pose proof H as [H0 Hp]. unfold slash. destruct (rd_in buf p 1) as [a Ea]; [lia..|]. rewrite Ea. cbn [mbind option_bind].
  destruct (Z.eqb_spec a 47); [eexists; split; [done|lia]|]. destruct (Z.eqb_spec a 46); [|eexists; split; [done|lia]].
  assert (1 < p)%nat by (apply (rooted_before buf p 1 a); (done || lia)). destruct (rd_in buf p 2) as [b Eb]; [lia..|]. rewrite Eb. cbn [mbind option_bind].
  destruct (Z.eqb_spec b 47); [eexists; split; [done|lia]|]. destruct (Z.eqb_spec b 46); [|eexists; split; [done|lia]].
  assert (2 < p)%nat by (apply (rooted_before buf p 2 b); (done || lia)). destruct (rd_in buf p 3) as [c Ec]; [lia..|].
  rewrite Ec. cbn [mbind option_bind]. destruct (Z.eqb_spec c 47); [|eexists; split; [done|lia]].
  destruct (Nat.eqb_spec (p - 3) 0); [eexists; split; [done|lia]|]. destruct (back_in buf (p - 3)) as (q & -> & Hq); [done|lia|].
  eexists; split; [done|lia].
Qed.

Lemma last_dots_in buf p : rooted buf p -> last_dots buf p = Some tt.
Proof.
  intros H. pose proof H as [H0 Hp]. unfold last_dots. destruct (rd_in buf p 1) as [a Ea]; [lia..|]. rewrite Ea. cbn [mbind option_bind].
  destruct (Z.eqb_spec a 46); [|done]. assert (1 < p)%nat by (apply (rooted_before buf p 1 a); (done || lia)).
  destruct (rd_in buf p 2) as [b Eb]; [lia..|]. rewrite Eb. cbn [mbind option_bind]. destruct (Z.eqb_spec b 47); [done|].
  destruct (Z.eqb_spec b 46); [|done]. assert (2 < p)%nat by (apply (rooted_before buf p 2 b); (done || lia)).
  destruct (rd_in buf p 3) as [c Ec]; [lia..|]. by rewrite Ec.
Qed.

Lemma next_byte_len c url : (length (snd (next_byte c url)) <= length url)%nat.
Proof. unfold next_byte. repeat case_match; simpl; lia. Qed.

Lemma decode_in fuel : forall url buf p e, (length url < fuel)%nat -> rooted buf p -> (p <= e <= length buf)%nat ->
  exists buf' p', decode_loop fuel url buf p e = Some (buf', p') /\ rooted buf' p' /\ length buf' = length buf /\ drop e buf' = drop e buf.
Proof.
  induction fuel as [|k IH]; intros url buf p e Hf Hr He; [lia|]. cbn [decode_loop].
  destruct url as [|c url]; [by exists buf, p|]. destruct (Nat.leb_spec e p); [by exists buf, p|].
  pose proof (next_byte_len c url) as Hn. destruct (next_byte c url) as [ch url']. cbn [snd length] in *.
  assert (exists q, (if ch =? 47 then slash buf p else Some p) = Some q /\ (q <= p)%nat /\ (q = 0%nat -> ch = 47)) as (q & -> & Hq & Hq0).
  { destruct Hr as [H0 Hp]. destruct (Z.eqb_spec ch 47); [|exists p; split; [done|]; split; lia].
    destruct (slash_in buf p) as (q & -> & ?); [done|]. by exists q. }
  cbn [mbind option_bind]. unfold store. rewrite bool_decide_true by lia. cbn [mbind option_bind].
  destruct (IH url' (<[q := u8 ch]> buf) (q + 1)%nat e) as (buf' & p' & -> & R & L & D); [lia| |rewrite length_insert; lia|].
  - destruct Hr as [H0 Hp]. split; [|rewrite length_insert; lia]. destruct q as [|q]; [|by rewrite list_lookup_insert_ne].
    rewrite list_lookup_insert_eq by lia. by rewrite Hq0.
  - exists buf', p'. split; [done|]. split; [done|]. rewrite length_insert in L. split; [done|]. rewrite D. apply drop_insert_lt. lia.
Qed.

(** C35: [decodeurl] keeps to its buffer: for any URL and any buffer of at least
    [len] bytes it ends, reads nothing before the buffer, writes nothing behind
    its first [len] bytes, and the name begins with a slash. *)
Theorem decodeurl_bounds url buf len :
  (1 <= len <= length buf)%nat ->
  exists buf', decodeurl url buf len = Some buf' /\ length buf' = length buf /\ drop len buf' = drop len buf /\ buf' !! O = Some 47.
Proof.
  intros Hl. unfold decodeurl, store. rewrite bool_decide_true by lia. cbn [mbind option_bind].
  destruct (decode_in (S (length url)) url (<[0%nat := u8 47]> buf) 1 len) as (buf' & p & -> & R & L & D); [lia| |rewrite length_insert; lia|].
  { split; [by rewrite list_lookup_insert_eq by lia|rewrite length_insert; lia]. }
  cbn [mbind option_bind]. rewrite last_dots_in by done. exists buf'. rewrite length_insert in L. rewrite drop_insert_lt in D by lia.
  split; [done|]. split; [done|]. split; [done|]. apply R.
Qed.

(** The ways to write a name in an URL: each byte as it is (but for the percent
    sign) or as two hexadecimal digits. *)
Inductive Escaped : bytes -> bytes -> Prop :=
  | Escaped_nil : Escaped [] []
  | Escaped_raw c s u : c <> 37 -> Escaped s u -> Escaped (c :: s) (c :: u)
  | Escaped_hex a b s u : isxdigit a = true -> isxdigit b = true -> Escaped s u ->
      Escaped (Z.shiftl (hexval a) 4 + hexval b :: s) (37 :: a :: b :: u).

Lemma escaped_next c s u : Escaped (c :: s) u ->
  exists d u', u = d :: u' /\ next_byte d u' = (c, snd (next_byte d u')) /\ Escaped s (snd (next_byte d u')).
Proof.
  inversion 1 as [|c' s' u' Hc Hu|a b s' u' Ha Hb Hu]; subst; unfold next_byte.
  - exists c, u'. rewrite (proj2 (Z.eqb_neq c 37)) by done. done.
  - exists 37, (a :: b :: u'). change (37 =? 37) with true. cbv iota. by rewrite Ha, Hb.
Qed.

#[local] Ltac llen := repeat first [rewrite length_app | progress (cbn [length])]; lia.

(** Behind a whole name a slash is put at the end. *)
Lemma slash_keeps us c z : comp c -> ~ dots_only c -> slash (render (us ++ [c]) ++ z) (length (render (us ++ [c]))) = Some (length (render (us ++ [c]))).
Proof.
  intros (Hne & H47 & _) Hd. unfold render. rewrite joined_app. change (joined 47 [c]) with (47 :: c ++ []). rewrite app_nil_r.
  assert (Hrd : forall x y k d, c = x ++ d :: y -> k = length (d :: y) ->
    rd ((joined 47 us ++ 47 :: c) ++ z) (length (joined 47 us ++ 47 :: c)) k = Some d).
  { intros x y k d -> ->. unfold rd. rewrite (proj2 (Nat.leb_le _ _)) by llen.
    rewrite <- !app_assoc. rewrite lookup_app_r by llen.
    rewrite app_comm_cons, <- app_assoc.
    rewrite lookup_app_r by llen.
    replace (_ - _ - _)%nat with 0%nat by llen. done. }
  unfold slash. destruct (exists_last Hne) as (c1 & a & ->). rewrite (Hrd c1 [] 1%nat a) by done. cbn [mbind option_bind].
  rewrite (proj2 (Z.eqb_neq a 47)) by set_solver. destruct (Z.eqb_spec a 46) as [->|]; [|done].
  destruct (decide (c1 = [])) as [->|N1]; [by destruct Hd; right|]. destruct (exists_last N1) as (c2 & a & ->).
  rewrite (Hrd c2 [46] 2%nat a) by (by rewrite <- ?app_assoc). cbn [mbind option_bind].
  rewrite (proj2 (Z.eqb_neq a 47)) by set_solver. destruct (Z.eqb_spec a 46) as [->|]; [|done].
  destruct (decide (c2 = [])) as [->|N2]; [by destruct Hd; left|]. destruct (exists_last N2) as (c3 & a & ->).
  rewrite (Hrd c3 [46; 46] 3%nat a) by (by rewrite <- ?app_assoc). cbn [mbind option_bind].
  by rewrite (proj2 (Z.eqb_neq a 47)) by set_solver.
Qed.

Lemma store_next x c n : 0 <= c < 256 -> store (x ++ replicate (S n) 0) (length x) c = Some ((x ++ [c]) ++ replicate n 0).
Proof.
  intros Hc. unfold store. rewrite bool_decide_true by (rewrite length_app; simpl; lia). f_equal.
  rewrite insert_app_r_alt, Nat.sub_diag by lia. rewrite u8_small by done. by rewrite <- app_assoc.
Qed.

Section Roundtrip.
Context (cs0 : list bytes) (c1 : bytes).
Let cs := cs0 ++ [c1].
Hypothesis Hcs : Forall (fun c => comp c /\ ~ dots_only c) cs0.
Hypothesis Hc1 : comp c1.
Hypothesis Hb : cstr (render cs).

Lemma decode_steps e : (length (render cs) < e)%nat -> forall s x url fuel, x <> [] -> x ++ s = render cs -> Escaped s url -> (length url < fuel)%nat ->
  decode_loop fuel url (x ++ replicate (e - length x) 0) (length x) e =
  Some (render cs ++ replicate (e - length (render cs)) 0, length (render cs)).
Proof.
  intros He. induction s as [|c s IH]; intros x url fuel Hx E U Hf; (destruct fuel as [|k]; [lia|]).
  { rewrite app_nil_r in E. subst x. by inversion U. }
  destruct (escaped_next c s url U) as (d & u' & -> & En & Us). pose proof (next_byte_len d u') as Hn. rewrite En in Hn. cbn [snd length] in *.
  assert (length (x ++ c :: s) = length (render cs)) as Hl by (by rewrite E). rewrite length_app in Hl. simpl in Hl.
  cbn [decode_loop]. rewrite (proj2 (Nat.leb_gt _ _)) by lia. rewrite En.
  assert ((if c =? 47 then slash (x ++ replicate (e - length x) 0) (length x) else Some (length x)) = Some (length x)) as ->.
  { destruct (Z.eqb_spec c 47) as [->|]; [|done]. symmetry in E. unfold render in E. rewrite <- (app_nil_l (joined 47 cs)) in E.
    destruct (cut_joined 47 cs [] x s) as (us & ws & Ecs & Nws & ->); [set_solver| |done|].
    { unfold cs. rewrite Forall_app, Forall_singleton. split; [|apply Hc1]. eapply Forall_impl; [exact Hcs|]. by intros c0 [(_ & ? & _) _]. }
    cbn [app] in *. destruct (decide (us = [])) as [->|Nu]; [done|]. destruct (exists_last Nu) as (us' & c0 & ->).
    destruct (exists_last Nws) as (ws' & c2 & ->). unfold cs in Ecs. rewrite app_assoc in Ecs. apply app_inj_tail in Ecs as [Ecs _].
    rewrite Ecs, !Forall_app, Forall_singleton in Hcs. apply slash_keeps; apply Hcs. }
  cbn [mbind option_bind]. replace (e - length x)%nat with (S (e - length (x ++ [c]))) by (rewrite length_app; simpl; lia).
  rewrite store_next. 2: { unfold cstr in Hb. rewrite <- E, Forall_app, Forall_cons in Hb. lia. }
  cbn [mbind option_bind]. replace (length x + 1)%nat with (length (x ++ [c])) by (rewrite length_app; done).
  apply IH; [by destruct x|by rewrite <- app_assoc|done|lia].
Qed.

End Roundtrip.

(** An URL is decoded to the path it was made of.  A path of names, of which
    all but the last are not [.] or [..], each byte written as it is or as [%] and
    two hexadecimal digits, slashes included, comes out again as the string in a
    cleared buffer that is longer than the path.  This holds for a last [..] too,
    which the code means to take away. *)
Theorem decodeurl_roundtrip cs c url len :
  Forall (fun c => comp c /\ ~ dots_only c) cs -> comp c -> cstr (render (cs ++ [c])) -> Escaped (render (cs ++ [c])) url ->
  (length (render (cs ++ [c])) < len)%nat ->
  exists buf, decodeurl url (replicate len 0) len = Some buf /\ until0 buf = render (cs ++ [c]).
Proof.
  intros HF Hc Hb U Hl. destruct len as [|n]; [lia|]. unfold decodeurl.
  change (store (replicate (S n) 0) 0 47) with (store ([] ++ replicate (S n) 0) (length (@nil Z)) 47).
  rewrite (store_next [] 47 n) by lia. cbn [mbind option_bind app].
  pose proof (decode_steps cs c HF Hc Hb (S n) Hl) as Hsteps. set (r := render (cs ++ [c])) in *.
  assert (exists s, r = 47 :: s) as [s Es] by (unfold r; destruct cs; by eexists). rewrite Es in U.
  destruct (escaped_next _ _ _ U) as (d & u & -> & En & Us). pose proof (next_byte_len d u) as Hn. rewrite En in Hn. cbn [snd length] in Hn.
  assert (length r = S (length s)) as Hlen by (by rewrite Es).
  assert (forall k, decode_loop (S k) (d :: u) (47 :: replicate n 0) 1 (S n) = decode_loop k (snd (next_byte d u)) (47 :: replicate n 0) 1 (S n)) as ->.
  { intros k. cbn [decode_loop]. rewrite (proj2 (Nat.leb_gt (S n) 1)) by lia. rewrite En.
    change (if 47 =? 47 then slash (47 :: replicate n 0) 1 else Some 1%nat) with (Some 0%nat). cbn [mbind option_bind].
    unfold store. rewrite bool_decide_true by (simpl; lia). done. }
  specialize (Hsteps s [47] (snd (next_byte d u)) (S (length u))). cbn [length app Nat.sub] in Hsteps. rewrite Nat.sub_0_r in Hsteps.
  cbn [length]. rewrite Hsteps; [|done|done|done|lia].
  cbn [mbind option_bind]. rewrite last_dots_in. 2: { rewrite Es. split; [done|]. rewrite length_app. simpl. lia. }
  eexists. split; [reflexivity|]. replace (S n - length r)%nat with (S (n - length r)) by lia. cbn [replicate]. by apply until0_cstr.
Qed.

(** What is left of the second name when [..] takes the first away: the rest of
    the first name still stands behind it. *)
Lemma decodeurl_stale :
  until0 (default [] (decodeurl (str "/abc/../x") (replicate 20 0) 20)) = str "/xbc/..".
Proof. reflexivity. Qed.

(** A path that ends in a slash is read past its end, and the answer depends on
    what lies there. *)
Lemma check_path_overrun : check_path (str "/" ++ [0; 0]) = Some true /\ check_path (str "/" ++ 0 :: str "/../" ++ [0]) = Some false.
Proof. split; reflexivity. Qed.

(** ** Referers *)

Lemma dots_spec h : forall i d, d ∈ dots i h -> exists x y, h = x ++ 46 :: y /\ d = i + zlen x.
Proof.
  induction h as [|c h IH]; intros i d H; cbn [dots] in H; [by apply elem_of_nil in H|].
  assert (Hin : d ∈ dots (i + 1) h -> exists x y, c :: h = x ++ 46 :: y /\ d = i + zlen x).
  { intros H'. destruct (IH _ _ H') as (x & y & -> & ->). exists (c :: x), y. split; [done|]. cbn [length]. lia. }
  destruct (Z.eqb_spec c 46) as [->|]; [|auto]. apply elem_of_cons in H as [->|H]; [|auto].
  exists [], h. split; [done|]. cbn [length]. lia.
Qed.

Lemma dots_app x : forall i y, dots i (x ++ y) = dots i x ++ dots (i + zlen x) y.
Proof.
  induction x as [|c x IH]; intros i y; cbn [app dots length]; [by rewrite Z.add_0_r|].
  rewrite IH. replace (i + 1 + zlen x) with (i + Z.of_nat (S (length x))) by lia. by destruct (c =? 46).
Qed.

Lemma dots_none h i : 46 ∉ h -> dots i h = [].
Proof.
  revert i. induction h as [|c h IH]; intros i H; [done|]. apply not_elem_of_cons in H as [Hc H]. cbn [dots].
  rewrite (proj2 (Z.eqb_neq c 46)) by done. by apply IH.
Qed.

Lemma key_tail x y : key (x ++ y) (zlen x) (zlen (x ++ y) - 1) = take 127 y.
Proof.
  unfold key. rewrite Nat2Z.id, drop_app_length, length_app. destruct (decide (length y <= 127)%nat).
  - rewrite !take_ge by lia. done.
  - f_equal. lia.
Qed.

(** The host or one of its endings behind a dot. *)
Definition domain_of (host y : bytes) : Prop := exists x, host = x ++ y /\ (x = [] \/ exists x', x = x' ++ [46]).

Lemma at_word_found l k : at_word l k = true -> is_Some (strcasestr l k).
Proof. unfold at_word. by destruct (strcasestr l k). Qed.

Lemma check_host_listed host l : check_host host l = 0 -> exists y, domain_of host y /\ is_Some (strcasestr l (take 127 y)).
Proof.
  unfold check_host. set (d := dots 0 host). set (n := if at_ host _ =? 46 then _ else _). intros H.
  destruct (10 <=? zlen d); [done|]. destruct (Z.ltb_spec n 1) as [|Hn]; [done|]. cbv zeta in H.
  assert (Hle : n <= zlen d) by (unfold n; destruct (_ =? 46); lia).
  assert (Hw : domain_of host host /\ key host 0 (zlen host - 1) = take 127 host).
  { split; [exists []; auto|]. exact (key_tail [] host). }
  assert (Ht : forall k, 1 <= k <= n -> exists y, domain_of host y /\ key host (nth (Z.to_nat (n - k)) d 0 + 1) (zlen host - 1) = take 127 y).
  { intros k Hk. assert (Hin : nth (Z.to_nat (n - k)) d 0 ∈ d) by (apply list_elem_of_In, nth_In; lia).
    apply dots_spec in Hin as (x & y & E & ->). exists y. split.
    - exists (x ++ [46]). rewrite <- app_assoc. split; [done|]. right. by exists x.
    - replace (0 + zlen x + 1) with (zlen (x ++ [46])) by (rewrite length_app; simpl; lia). rewrite E.
      change (x ++ 46 :: y) with (x ++ [46] ++ y). rewrite app_assoc. apply key_tail. }
  destruct Hw as [Dw Ew]. rewrite Ew in H.
  destruct (_ =? 3) eqn:E3.
  - destruct (Z.leb_spec 2 n) as [H2|H2].
    + destruct (Ht 2) as (y2 & D2 & E2); [lia|]. rewrite E2 in H. destruct (at_word l (take 127 y2)) eqn:A2; [exists y2; split; [done|by apply at_word_found]|].
      destruct (Z.eqb_spec n 2).
      * destruct (at_word l (take 127 host)) eqn:A; [exists host; split; [done|by apply at_word_found]|done].
      * destruct (Ht 3) as (y3 & D3 & E3'); [lia|]. rewrite E3' in H.
        destruct (at_word l (take 127 y3)) eqn:A; [exists y3; split; [done|by apply at_word_found]|done].
    + destruct (at_word l (take 127 host)) eqn:A; [exists host; split; [done|by apply at_word_found]|done].
  - destruct (_ =? 2); [|done]. case_bool_decide as A.
    + destruct (Z.leb_spec n 2); [by exists host|]. destruct (Ht 3) as (y3 & D3 & E3'); [lia|]. rewrite E3' in A. by exists y3.
    + destruct (Z.leb_spec 2 n) as [H2|H2]; [|done]. destruct (Ht 2) as (y2 & D2 & E2); [lia|]. rewrite E2 in H.
      destruct (at_word l (take 127 y2)) eqn:A2; [exists y2; split; [done|by apply at_word_found]|done].
Qed.

(** A referer passes only for a domain of the list: when [check_referer]
    accepts a referer that names a host, the host or one of its endings behind a
    dot (of at most 127 bytes) occurs in the list, in capitals or not. *)
Theorem referer_only_listed r l allow : 58 ∈ r -> check_referer (Some r) l allow = 0 ->
  exists i y, strchr r 58 = Some i /\ domain_of (host_of (skip_slashes (drop (i + 1) r))) y /\ is_Some (strcasestr l (take 127 y)).
Proof.
  intros Hr H. unfold check_referer in H. cbn [mbind option_bind] in H. destruct (strchr r 58) as [i|] eqn:Ei.
  2: { by apply strchr_None in Ei. }
  cbn [mbind option_bind] in H. apply check_host_listed in H as (y & D & F). by exists i, y.
Qed.

Definition label (c : bytes) : Prop := 46 ∉ c /\ 47 ∉ c /\ 58 ∉ c.

Lemma host_of_app h rest : 47 ∉ h -> 58 ∉ h -> match rest with [] => True | c :: _ => c = 47 \/ c = 58 end -> host_of (h ++ rest) = h.
Proof.
  intros H1 H2 Hr. induction h as [|c h IH]; cbn [app host_of].
  { destruct rest as [|c rest]; [done|]. cbn [host_of]. destruct Hr as [-> | ->]; done. }
  apply not_elem_of_cons in H1 as [C1 H1], H2 as [C2 H2].
  rewrite (proj2 (Z.eqb_neq c 47)), (proj2 (Z.eqb_neq c 58)) by done. cbn [orb]. by rewrite IH.
Qed.

Lemma skip_slashes_stop m : (forall m', m <> 47 :: m') -> skip_slashes m = m.
Proof. intros H. destruct m as [|c m]; [done|]. cbn [skip_slashes]. destruct (Z.eqb_spec c 47) as [->|]; [by destruct (H m)|done]. Qed.

Lemma check_host_second pre name t l : label name -> label t -> length t = 3%nat -> zlen (dots 0 pre) < 8 ->
  at_word l (take 127 (name ++ 46 :: t)) = true -> check_host (pre ++ 46 :: name ++ 46 :: t) l = 0.
Proof.
  intros (N1 & _) (T1 & _) Hlt Hd Hw. set (h := pre ++ 46 :: name ++ 46 :: t).
  assert (Eh : zlen h = zlen pre + 1 + zlen name + 4) by (unfold h; repeat (rewrite length_app; cbn [length]); lia).
  assert (Ed : dots 0 h = dots 0 pre ++ [zlen pre; zlen pre + 1 + zlen name]).
  { unfold h. rewrite dots_app. cbn [dots]. change (46 =? 46) with true. cbv iota. rewrite dots_app, (dots_none name) by done. cbn [app dots].
    change (46 =? 46) with true. cbv iota. by rewrite (dots_none t) by done. }
  assert (Hlast : at_ h (length h - 1) =? 46 = false).
  { apply Z.eqb_neq. destruct (lookup_lt_is_Some_2 t 2) as [c Hc]; [lia|].
    assert (Hl : h !! (length h - 1)%nat = Some c).
    { replace (length h - 1)%nat with (length pre + (length (46%Z :: name) + (length [46%Z] + 2)))%nat by (cbn [length]; lia).
      unfold h. change (46 :: name ++ 46 :: t) with ((46 :: name) ++ [46] ++ t). by rewrite !lookup_app_r, !Nat.add_sub' by lia. }
    unfold at_. rewrite (nth_lookup_Some _ _ _ _ Hl). intros ->. apply T1. by apply list_elem_of_lookup_2 in Hc. }
  set (m := zlen (dots 0 pre)) in *. set (d := dots 0 pre ++ _) in Ed.
  assert (Hd2 : nth (Z.to_nat (m + 2 - 2)) d 0 = zlen pre /\ nth (Z.to_nat (m + 2 - 1)) d 0 = zlen pre + 1 + zlen name).
  { unfold d, m. rewrite !app_nth2 by lia.
    replace (_ - _)%nat with 0%nat by lia. replace (_ - _)%nat with 1%nat by lia. done. }
  assert (Hld : zlen d = m + 2) by (unfold d, m; rewrite length_app; simpl; lia).
  unfold check_host. rewrite Ed, Hlast, Hld. destruct Hd2 as [-> ->]. cbv zeta.
  rewrite (proj2 (Z.leb_gt 10 _)), (proj2 (Z.ltb_ge _ 1)) by lia.
  replace (_ =? 3) with true by (symmetry; apply Z.eqb_eq; lia). rewrite (proj2 (Z.leb_le 2 _)) by lia.
  replace (zlen pre + 1) with (zlen (pre ++ [46])) by (rewrite length_app; simpl; lia). unfold h.
  change (pre ++ 46 :: name ++ 46 :: t) with (pre ++ [46] ++ name ++ 46 :: t). rewrite app_assoc, key_tail. by rewrite Hw.
Qed.

(** The hosts of a listed domain pass: a host whose last two names, the last
    of three bytes, are found first at the beginning of a word of the list is
    accepted, whatever stands before them and behind the host. *)
Theorem referer_listed scheme pre name t rest l allow :
  58 ∉ scheme -> 47 ∉ pre -> 58 ∉ pre -> label name -> label t -> length t = 3%nat -> zlen (dots 0 pre) < 8 ->
  match rest with [] => True | c :: _ => c = 47 \/ c = 58 end -> at_word l (take 127 (name ++ 46 :: t)) = true ->
  check_referer (Some (scheme ++ str "://" ++ (pre ++ 46 :: name ++ 46 :: t) ++ rest)) l allow = 0.
Proof.
  intros Hs P1 P2 Hn Ht Hlt Hd Hr Hw. unfold check_referer. cbn [mbind option_bind].
  change (str "://" ++ ?x) with (58 :: 47 :: 47 :: x). rewrite strchr_app_r by done. cbn [mbind option_bind].
  rewrite drop_app_ge, Nat.add_sub' by lia. cbn [drop skip_slashes]. change (47 =? 47) with true. cbv iota.
  destruct Hn as (N1 & N2 & N3), Ht as (T1 & T2 & T3).
  rewrite skip_slashes_stop.
  2: { intros m' E. destruct pre as [|c pre]; cbn [app] in E; [done|]. injection E as -> _. set_solver. }
  rewrite host_of_app; [by apply check_host_second|set_solver..|done].
Qed.

(** An entry is hidden by an earlier one that contains it, and a host written
    with its last dot is refused. *)
Lemma referer_hidden :
  check_referer (Some (str "http://www.so.com/")) (str "so.com soso.com") false = 0 /\
  check_referer (Some (str "http://www.so.com/")) (str "soso.com so.com") false = -1 /\
  check_referer (Some (str "http://www.so.com./")) (str "so.com") false = -1.
Proof. split_and!; reflexivity. Qed.

(** ** Witnesses *)

Lemma demo_comp c : bool_decide (c <> [] /\ 47 ∉ c /\ 0 ∉ c) = true -> comp c.
Proof. apply bool_decide_eq_true. Qed.

Lemma demo_plain c : bool_decide (c <> dotdot /\ c <> dot) = true -> ~ dots_only c.
Proof. rewrite bool_decide_eq_true. unfold dots_only. tauto. Qed.

Lemma check_path_sound_witness :
  exists r, check_path (render [str "a"; str "b"; dotdot; str "c"; str "d"] ++ 0 :: str "junk") = Some r /\
    (r = true -> inside [str "a"; str "b"; dotdot; str "c"; str "d"] 0 = true).
Proof.
  apply (check_path_sound [str "a"; str "b"; dotdot; str "c"; str "d"] (str "junk")).
  - discriminate.
  - repeat (apply Forall_cons; split; [apply demo_comp; reflexivity|]). apply Forall_nil. exact I.
  - reflexivity.
  - cbn [apart]. assert (Hn : forall c, bool_decide (c <> dotdot /\ c <> dot) = true -> ~ dots_only c) by (intros c; apply demo_plain).
    pose proof (Hn (str "a") eq_refl). pose proof (Hn (str "b") eq_refl). pose proof (Hn (str "c") eq_refl). pose proof (Hn (str "d") eq_refl).
    split_and!; try tauto. discriminate.
Defined.

Lemma check_path_blind_witness :
  let cs := [str "a"; str "b"; str "c"] ++ replicate (2 * 2) dotdot ++ [str "x"] in
  check_path (render cs ++ 0 :: []) = Some true /\ (zlen [str "a"; str "b"; str "c"] < 2 * Z.of_nat 2 -> inside cs 0 = false).
Proof.
  apply (check_path_blind [str "a"; str "b"; str "c"] 2 [str "x"] []).
  - repeat (apply Forall_cons; split; [split; [apply demo_comp; reflexivity|apply demo_plain; reflexivity]|]). apply Forall_nil. exact I.
  - discriminate.
  - cbn [length]. lia.
  - reflexivity.
Defined.

Lemma decodeurl_bounds_witness :
  exists buf', decodeurl (str "/a/%2e%2E/../x/") (replicate 20 7) 8 = Some buf' /\ length buf' = length (replicate 20 7) /\
    drop 8 buf' = drop 8 (replicate 20 7) /\ buf' !! O = Some 47.
Proof. apply (decodeurl_bounds (str "/a/%2e%2E/../x/") (replicate 20 7) 8). rewrite length_replicate. lia. Defined.

Lemma demo_escaped : Escaped (str "/a b/..") (str "/a%20b%2F..").
Proof.
  refine (Escaped_raw 47 _ _ _ (Escaped_raw 97 _ _ _ (Escaped_hex 50 48 _ _ eq_refl eq_refl (Escaped_raw 98 _ _ _
    (Escaped_hex 50 70 _ _ eq_refl eq_refl (Escaped_raw 46 _ _ _ (Escaped_raw 46 _ _ _ Escaped_nil))))))); discriminate.
Qed.

Lemma decodeurl_roundtrip_witness :
  exists buf, decodeurl (str "/a%20b%2F..") (replicate 10 0) 10 = Some buf /\ until0 buf = render ([str "a b"] ++ [dotdot]).
Proof.
  apply (decodeurl_roundtrip [str "a b"] dotdot (str "/a%20b%2F..") 10).
  - apply Forall_cons. split; [split; [apply demo_comp; reflexivity|apply demo_plain; reflexivity]|]. apply Forall_nil. exact I.
  - apply demo_comp. reflexivity.
  - by apply (bool_decide_unpack _).
  - exact demo_escaped.
  - apply Nat.ltb_lt. reflexivity.
Defined.

Lemma referer_only_listed_witness :
  exists i y, strchr (str "http://www.qq.com/i.htm") 58 = Some i /\
    domain_of (host_of (skip_slashes (drop (i + 1) (str "http://www.qq.com/i.htm")))) y /\
    is_Some (strcasestr (str "paipai.com QQ.com") (take 127 y)).
Proof. apply (referer_only_listed (str "http://www.qq.com/i.htm") (str "paipai.com QQ.com") false); [|reflexivity]. by apply (bool_decide_unpack _). Defined.

Lemma referer_listed_witness :
  check_referer (Some (str "http" ++ str "://" ++ (str "www" ++ 46 :: str "qq" ++ 46 :: str "com") ++ str "/i.htm")) (str "paipai.com QQ.com") false = 0.
Proof.
  apply (referer_listed (str "http") (str "www") (str "qq") (str "com") (str "/i.htm") (str "paipai.com QQ.com") false).
  - by apply (bool_decide_unpack _).
  - by apply (bool_decide_unpack _).
  - by apply (bool_decide_unpack _).
  - split_and!; by apply (bool_decide_unpack _).
  - split_and!; by apply (bool_decide_unpack _).
  - reflexivity.
  - reflexivity.
  - left. reflexivity.
  - reflexivity.
Defined.

End Url.

(** ** lib/util_str.c *)

Module Fields.

(** [ifs]: the null pointer, a table (its first byte is zero), or a string. *)
Inductive ifs_t := Default | Table (t : Z -> bool) | Chars (s : bytes).

Definition default_ifs (c : Z) : bool := (c =? 9) || (c =? 10) || (c =? 13) || (c =? 32).
Definition build_ifs (s : bytes) (c : Z) : bool := bool_decide (c ∈ s).
Definition table (i : ifs_t) : Z -> bool :=
  match i with Default => default_ifs | Table t => t | Chars s => build_ifs s end.

Fixpoint skip_ifs (t : Z -> bool) (s : bytes) : bytes :=
  match s with c :: s' => if t c then skip_ifs t s' else s | [] => [] end.
Fixpoint field_len (t : Z -> bool) (s : bytes) : nat :=
  match s with c :: s' => if t c then O else S (field_len t s') | [] => O end.

(** [while(ifs[ *line]) line--] from the last byte. *)
Definition cut_ifs (t : Z -> bool) (s : bytes) : bytes := rev (skip_ifs t (rev s)).

(** [i] fields are stored already; the result is the fields from there on. *)
Fixpoint fields (fuel : nat) (t : Z -> bool) (line : bytes) (i n : Z) : list bytes :=
  match fuel with
  | O => []
  | S k =>
      match skip_ifs t line with
      | [] => []
      | c :: line' =>
          if (c =? 34) || (c =? 39) then
            match strchr line' c with
            | None => [line']
            | Some j => take j line' :: (if n <=? i + 1 then [] else fields k t (drop (j + 1) line') (i + 1) n)
            end
          else if n <=? i + 1 then [cut_ifs t (c :: line')]
          else
            let j := field_len t (c :: line') in
            take j (c :: line') :: (if bool_decide (drop j (c :: line') = []) then [] else fields k t (drop (j + 1) (c :: line')) (i + 1) n)
      end
  end.

Definition str_explode (i : ifs_t) (line : bytes) (n : Z) : list bytes := fields (S (length line)) (table i) line 0 n.

(** ** Words *)

(** Words, each with the blanks behind it. *)
Definition text (l : list (bytes * bytes)) : bytes := concat (map (fun x => fst x ++ snd x) l).

Section Words.
Context (t : Z -> bool).

Record word_ok (x : bytes * bytes) : Prop := mk_word_ok {
  w_some : fst x <> [];
  w_bytes : Forall (fun c => t c = false) (fst x);
  w_quote : forall c s, fst x = c :: s -> c <> 34 /\ c <> 39;
  w_blanks : Forall (fun c => t c = true) (snd x) }.

(** Only the last word may have no blank behind it. *)
Fixpoint parted (l : list (bytes * bytes)) : Prop :=
  match l with [] => True | x :: l' => (snd x = [] -> l' = []) /\ parted l' end.

Lemma skip_lead lead s : Forall (fun c => t c = true) lead -> skip_ifs t (lead ++ s) = skip_ifs t s.
Proof. induction 1 as [|c lead Hc _ IH]; [done|]. cbn [app skip_ifs]. by rewrite Hc. Qed.

Lemma skip_word s : (forall c s', s = c :: s' -> t c = false) -> skip_ifs t s = s.
Proof. intros H. destruct s as [|c s]; [done|]. cbn [skip_ifs]. by rewrite (H c s). Qed.

Lemma field_len_app w s : Forall (fun c => t c = false) w -> field_len t (w ++ s) = (length w + field_len t s)%nat.
Proof. induction 1 as [|c w Hc _ IH]; [done|]. cbn [app field_len length Nat.add]. by rewrite Hc, IH. Qed.

Lemma cut_word w b : Forall (fun c => t c = false) w -> Forall (fun c => t c = true) b -> cut_ifs t (w ++ b) = w.
Proof.
  intros Hw Hb. unfold cut_ifs. rewrite rev_app_distr, skip_lead by (by apply Forall_rev).
  rewrite skip_word; [apply rev_involutive|]. intros c s' E. apply Forall_rev in Hw. rewrite E in Hw. by apply Forall_cons in Hw as [].
Qed.

(** Blanks, a word, and what follows. *)
Lemma fields_step k lead x l i n : Forall (fun c => t c = true) lead -> Forall word_ok (x :: l) -> parted (x :: l) -> i + 1 < n ->
  fields (S k) t (lead ++ text (x :: l)) i n =
  fst x :: match l with [] => if bool_decide (snd x = []) then [] else fields k t (drop 1 (snd x)) (i + 1) n
                      | _ => fields k t (drop 1 (snd x) ++ text l) (i + 1) n end.
Proof.
  intros Hl [Hx HF]%Forall_cons [Hp _] Hn. destruct x as [w b]. destruct Hx as [X1 X2 X3 X4]. cbn [fst snd] in *.
  cbn [fields]. rewrite skip_lead by done. change (text ((w, b) :: l)) with ((w ++ b) ++ text l). rewrite <- app_assoc.
  destruct w as [|c w]; [done|]. destruct (X3 c w eq_refl) as [Q1 Q2]. rewrite skip_word.
  2: { intros c' s' E. cbn [app] in E. injection E as <- _. by apply Forall_cons in X2 as []. }
  cbn [app]. rewrite (proj2 (Z.eqb_neq c 34)), (proj2 (Z.eqb_neq c 39)), (proj2 (Z.leb_gt n _)) by done || lia. cbn [orb]. cbv iota zeta.
  change (c :: w ++ b ++ text l) with ((c :: w) ++ b ++ text l). rewrite field_len_app by done.
  assert (field_len t (b ++ text l) = 0%nat) as ->.
  { destruct b as [|z b]; [by rewrite Hp|]. cbn [app field_len]. by apply Forall_cons in X4 as [-> _]. }
  rewrite Nat.add_0_r, take_app_length, drop_app_length, drop_app_ge, Nat.add_sub' by lia. f_equal.
  destruct l as [|y l].
  - rewrite app_nil_r. done.
  - destruct b as [|z b]; [by specialize (Hp eq_refl)|]. done.
Qed.

Lemma fields_blank k lead i n : Forall (fun c => t c = true) lead -> fields k t lead i n = [].
Proof.
  intros H. destruct k as [|k]; [done|]. cbn [fields]. rewrite <- (app_nil_r lead), skip_lead by done. done.
Qed.

Lemma fields_words l : forall k lead i n, Forall (fun c => t c = true) lead -> Forall word_ok l -> parted l -> 0 <= i < n ->
  (length l < k)%nat ->
  fields k t (lead ++ text l) i n =
  if zlen l <=? n - i then map fst l
  else map fst (take (Z.to_nat (n - i - 1)) l) ++ [cut_ifs t (text (drop (Z.to_nat (n - i - 1)) l))].
Proof.
  induction l as [|x l IH]; intros k lead i n Hl HF Hp Hi Hk.
  { rewrite app_nil_r, fields_blank by done. cbn [length]. by rewrite (proj2 (Z.leb_le _ _)) by lia. }
  destruct k as [|k]; [lia|]. cbn [length] in Hk. destruct (Z.le_gt_cases n (i + 1)) as [Hn|Hn].
  - replace (n - i) with 1 by lia. replace (Z.to_nat (1 - 1)) with 0%nat by lia. cbn [take drop map app].
    apply Forall_cons in HF as [Hx HF]. destruct x as [w b], Hx as [X1 X2 X3 X4]. cbn [fst snd] in *.
    assert (fields (S k) t (lead ++ text ((w, b) :: l)) i n = [cut_ifs t (text ((w, b) :: l))]) as ->.
    { cbn [fields]. rewrite skip_lead by done. destruct w as [|c w]; [done|]. destruct (X3 c w eq_refl) as [Q1 Q2].
      change (text ((c :: w, b) :: l)) with (c :: (w ++ b) ++ text l). rewrite skip_word.
      2: { intros c' s' E. injection E as <- _. by apply Forall_cons in X2 as []. }
      by rewrite (proj2 (Z.eqb_neq c 34)), (proj2 (Z.eqb_neq c 39)), (proj2 (Z.leb_le n _)) by done || lia. }
    destruct l as [|y l]; cbn [length].
    + change (text [(w, b)]) with ((w ++ b) ++ []). rewrite app_nil_r, cut_word by done. done.
    + rewrite (proj2 (Z.leb_gt _ 1)) by lia. done.
  - rewrite fields_step by done. apply Forall_cons in HF as [Hx HF]. destruct Hp as [Hp1 Hp].
    assert (Hb : Forall (fun c => t c = true) (drop 1 (snd x))) by (apply Forall_drop, Hx).
    assert (match l with [] => if bool_decide (snd x = []) then [] else fields k t (drop 1 (snd x)) (i + 1) n
                       | _ => fields k t (drop 1 (snd x) ++ text l) (i + 1) n end = fields k t (drop 1 (snd x) ++ text l) (i + 1) n) as ->.
    { destruct l; [|done]. rewrite app_nil_r, fields_blank by done. by case_bool_decide. }
    rewrite (IH k (drop 1 (snd x)) (i + 1) n) by (done || lia). cbn [length].
    replace (Z.of_nat (S (length l)) <=? n - i) with (zlen l <=? n - (i + 1)) by (destruct (Z.leb_spec (zlen l) (n - (i + 1))); symmetry; [apply Z.leb_le|apply Z.leb_gt]; lia).
    replace (Z.to_nat (n - i - 1)) with (S (Z.to_nat (n - (i + 1) - 1))) by lia. destruct (_ <=? _); [done|]. cbn [take drop map app]. by f_equal.
Qed.

End Words.

(** A line is split into its words.  Words without quotes, with blanks before,
    between and behind them, come out as the fields, in order; when there are more
    than [n] the last field is all the rest of the line, without the blanks at its
    end. *)
Theorem explode_words i lead l n :
  Forall (fun c => table i c = true) lead -> Forall (word_ok (table i)) l -> parted l -> 0 < n ->
  str_explode i (lead ++ text l) n =
  if zlen l <=? n then map fst l
  else map fst (take (Z.to_nat (n - 1)) l) ++ [cut_ifs (table i) (text (drop (Z.to_nat (n - 1)) l))].
Proof.
  intros Hl HF Hp Hn. unfold str_explode. rewrite (fields_words (table i) l); [|done|done|done|lia|].
  - by rewrite Z.sub_0_r.
  - rewrite length_app. enough (length l <= length (text l))%nat by lia. clear -HF.
    induction HF as [|[w b] l Hx _ IH]; [done|]. change (text ((w, b) :: l)) with ((w ++ b) ++ text l).
    destruct Hx as [Hw _ _ _]. cbn [fst] in Hw. destruct w as [|c w]; [done|]. rewrite length_app. cbn [app length]. lia.
Qed.

Lemma explode_words_witness : str_explode Default (str " a bc  d e ") 3 = [str "a"; str "bc"; str "d e"].
Proof.
  refine (explode_words Default (str " ") [(str "a", str " "); (str "bc", str "  "); (str "d", str " "); (str "e", str " ")] 3 _ _ _ _).
  - repeat constructor.
  - repeat (apply Forall_cons; split; [constructor; [discriminate|repeat constructor|intros c s [= <- <-]; split; discriminate|repeat constructor]|]).
    apply Forall_nil. exact I.
  - cbn [parted fst snd]. split_and!; try discriminate. exact I.
  - lia.
Defined.

End Fields.
