(* ===== verification/LogFile.v ===== *)
(** * The log files (lib/log.c)

    Module [Log]: the table of logs, the line [LOG] writes, and the thread that
    renames a log that is due and opens a new one.  The files are those of [Fs].
    The time, the time zone and the modification times of files are arguments; the
    text of a message is the text its format gives. *)

From stdpp Require Import sorting.
From S2P Require Import Prelude.
From S2P Require Import CString.
From S2P Require Import Codec.
From S2P Require Import LocalFile.

Module Log.
Import Fs.

Definition LOG_TRACE : Z := 0.
Definition LOG_DEBUG : Z := 1.
Definition LOG_NORMAL : Z := 2.
Definition LOG_ERROR : Z := 3.
Definition LOG_FAULT : Z := 4.
Definition LOG_NONE : Z := 5.

Definition MAX_LOG : Z := 50.
Definition MAX_LOG_LEN : Z := 2048.
Definition DEFAULT_MAX_LOG_NUM : Z := 10.

Definition logcolors : list bytes := [str "36m"; str "35m"; str "32m"; str "31m"; str "41;30m"; str "41;30m"].
Definition logstring : list bytes := [str "TRACE"; str "DEBUG"; str "NORMAL"; str "ERROR"; str "FAULT"; str "NONE"].

Record t_fdinfo := mk_fdinfo { timeout : Z; old_fd : Z; iclose : bool }.

Record logentity := mk_entity {
  fd : Z; loglevel : Z; rotatesize : Z; rotatetime : Z; rotateintval : Z;
  maxlognum : Z; nextlogno : Z; fn : bytes; fdinfo : t_fdinfo }.

(** [entities] are the [curlogid] logs that are registered. *)
Record logs := mk_logs { entities : list logentity; sys : fs }.

Definition set_fd (e : logentity) (d : Z) (i : t_fdinfo) : logentity :=
  mk_entity d (loglevel e) (rotatesize e) (rotatetime e) (rotateintval e) (maxlognum e) (nextlogno e) (fn e) i.
Definition set_time (e : logentity) (t : Z) : logentity :=
  mk_entity (fd e) (loglevel e) (rotatesize e) t (rotateintval e) (maxlognum e) (nextlogno e) (fn e) (fdinfo e).
Definition set_next (e : logentity) (n : Z) : logentity :=
  mk_entity (fd e) (loglevel e) (rotatesize e) (rotatetime e) (rotateintval e) (maxlognum e) n (fn e) (fdinfo e).

Definition getloglevel (s : bytes) : Z :=
  if strcasecmp0 s (str "trace") then LOG_TRACE
  else if strcasecmp0 s (str "debug") then LOG_DEBUG
  else if strcasecmp0 s (str "normal") then LOG_NORMAL
  else if strcasecmp0 s (str "error") then LOG_ERROR
  else if strcasecmp0 s (str "fault") then LOG_FAULT
  else LOG_NONE.

Section Logs.
Context {K : Kernel} (localtime_r : Z -> TimeText.tm) (k_mtime : fs -> bytes -> Z).

(** The descriptor, or -1. *)
Definition openfile (f : fs) (p : bytes) : Z * fs :=
  match open_create f p with (inl d, f) => (d, f) | (inr _, f) => (-1, f) end.

(** The name of a log that was put aside; [tmp] has 128 bytes. *)
Definition log_name (p : bytes) (k : Z) : bytes := p ++ 46 :: dec k.
Definition tmp_name (p : bytes) (k : Z) : option bytes :=
  let t := log_name p k in if zlen t <? 128 then Some t else None.

Definition next_no (e : logentity) : Z :=
  let n := (nextlogno e + 1) mod maxlognum e in if n =? 0 then 1 else n.

Definition shiftfile (e : logentity) (f : fs) : option (Z * logentity * fs) :=
  tmp ← tmp_name (fn e) (nextlogno e);
  let '(_, f) := rename (unlink f tmp) (fn e) tmp in
  let '(d, f) := openfile f (fn e) in
  Some (d, set_next e (next_no e), f).

(** The first number without a file, else that of the oldest. *)
Fixpoint initnext_loop (f : fs) (p : bytes) (n : nat) (i minmtime minno : Z) : option Z :=
  match n with
  | O => Some minno
  | S n' =>
      tmp ← tmp_name p i;
      match paths f !! tmp with
      | None => Some i
      | Some _ =>
          let t := k_mtime f tmp in
          if t <=? minmtime then initnext_loop f p n' (i + 1) t i else initnext_loop f p n' (i + 1) minmtime minno
      end
  end.
Definition initnextlogno (e : logentity) (f : fs) (now : Z) : option Z :=
  initnext_loop f (fn e) (Z.to_nat (maxlognum e - 1)) 1 now 1.

Definition registerlog_internal (l : logs) (e : logentity) (lock : bool) (now : Z) : option (Z * logs) :=
  if negb lock then Some (-1, l)
  else if zlen (entities l) <? MAX_LOG - 1 then
    let '(d, f) := openfile (sys l) (fn e) in
    let max := if maxlognum e <? 2 then DEFAULT_MAX_LOG_NUM else maxlognum e in
    let e := mk_entity d (loglevel e) (rotatesize e) (rotatetime e) (rotateintval e) max (nextlogno e) (fn e) (fdinfo e) in
    n ← initnextlogno e f now;
    let e := set_time (set_next e n) (if 0 <? rotateintval e then u32 (now + rotateintval e) else 0) in
    if 0 <=? d then Some (d, mk_logs (entities l ++ [e]) f) else Some (-1, mk_logs (entities l) f)
  else Some (-1, l).

(** The number of the log; the file name has 256 bytes. *)
Definition registerlog (l : logs) (filename : bytes) (level size intval num : Z) (lock : bool) (now : Z) : option (Z * logs) :=
  if 256 <=? zlen filename then None
  else
    '(r, l) ← registerlog_internal l (mk_entity 0 level (i32 (Z.shiftl size 20)) 0 intval num 0 filename (mk_fdinfo 0 0 false)) lock now;
    Some (if r <? 0 then r else zlen (entities l) - 1, l).

Definition logclose (l : logs) (i : Z) : option logs :=
  e ← entities l !! Z.to_nat i; if 0 <=? i then Some (mk_logs (entities l) (close (sys l) (fd e))) else None.

(** ** LOG *)

Definition prefix (level now : Z) : option bytes :=
  color ← logcolors !! Z.to_nat level;
  slog ← logstring !! Z.to_nat level;
  let t := localtime_r now in
  Some (27 :: 91 :: color ++ 27 :: str "[1m[" ++ slog ++ str "]:[" ++
        dec0 4 (TimeText.tm_year t + 1900) ++ 45 :: dec0 2 (TimeText.tm_mon t + 1) ++ 45 :: dec0 2 (TimeText.tm_mday t) ++ 32 ::
        dec0 2 (TimeText.tm_hour t) ++ 58 :: dec0 2 (TimeText.tm_min t) ++ 58 :: dec0 2 (TimeText.tm_sec t) ++ [93]).

(** The text is cut to the buffer, less two bytes; then the five bytes that
    reset the colour are put behind it, which is outside of the buffer when the
    text is long; they are not written to the file. *)
Definition LOG (l : logs) (i level : Z) (msg : bytes) (now : Z) : option logs :=
  if i <? 0 then None
  else
    e ← entities l !! Z.to_nat i;
    if level <? loglevel e then Some l
    else
      p ← prefix level now;
      let stored := Z.min (zlen msg) (MAX_LOG_LEN - 2 - zlen p) in
      if MAX_LOG_LEN <? zlen p + stored + 5 then None
      else Some (mk_logs (entities l) (append (sys l) (fd e) (p ++ msg))).

(** ** The maintenance thread *)

Definition delay_close (e : logentity) (f : fs) (d now : Z) : logentity * fs :=
  let f := if iclose (fdinfo e) then close f (old_fd (fdinfo e)) else f in
  (set_fd e (fd e) (mk_fdinfo (now + 5) d true), f).

Definition file_size (f : fs) (d : Z) : option Z := '(i, _) ← fds f !! d; c ← inodes f !! i; Some (zlen c).

(** One log in [scanlogs]. *)
Definition scan_one (now : Z) (e : logentity) (f : fs) : option (logentity * fs) :=
  '(shift, nfd, e, f) ← (if (0 <? rotatetime e) && (rotatetime e <? u32 now) then
      '(d, e, f) ← shiftfile e f;
      if 0 <=? d then Some (true, d, set_time e (u32 (now + rotateintval e)), f) else Some (false, d, e, f)
    else Some (false, -1, e, f));
  '(shift, nfd, e, f) ← (if negb shift && (0 <? rotatesize e) && match file_size f (fd e) with Some n => rotatesize e <? n | None => false end then
      '(d, e, f) ← shiftfile e f;
      Some (0 <=? d, d, e, f)
    else Some (shift, nfd, e, f));
  if (shift : bool) then
    let ofd := fd e in
    let '(e, f) := delay_close (set_fd e nfd (fdinfo e)) f ofd now in Some (e, f)
  else Some (e, f).

Fixpoint scan_list (now : Z) (l : list logentity) (f : fs) : option (list logentity * fs) :=
  match l with
  | [] => Some ([], f)
  | e :: l' => '(e, f) ← scan_one now e f; '(l', f) ← scan_list now l' f; Some (e :: l', f)
  end.
Definition scanlogs (now : Z) (l : logs) : option logs := '(es, f) ← scan_list now (entities l) (sys l); Some (mk_logs es f).

Definition close_one (cur : Z) (e : logentity) (f : fs) : logentity * fs :=
  let i := fdinfo e in
  if iclose i && (timeout i <=? cur) then (set_fd e (fd e) (mk_fdinfo (timeout i) (old_fd i) false), close f (old_fd i)) else (e, f).

Fixpoint close_list (cur : Z) (l : list logentity) (f : fs) : list logentity * fs :=
  match l with
  | [] => ([], f)
  | e :: l' => let '(e, f) := close_one cur e f in let '(l', f) := close_list cur l' f in (e :: l', f)
  end.

(** One round of [maintain_log]. *)
Definition maintain_round (cur : Z) (l : logs) : option logs :=
  let '(es, f) := close_list cur (entities l) (sys l) in scanlogs cur (mk_logs es f).

(** ** Rotation *)

(** The lines of a log that are written until it is due: level, text and time. *)
Definition entry : Type := Z * bytes * Z.
Fixpoint log_all (l : logs) (es : list entry) : option logs :=
  match es with [] => Some l | (lv, msg, t) :: es' => l ← LOG l 0 lv msg t; log_all l es' end.
Fixpoint run (l : logs) (rs : list (list entry * Z)) : option logs :=
  match rs with [] => Some l | (es, now) :: rs' => l ← log_all l es; l ← maintain_round now l; run l rs' end.

Definition line_of (lv : Z) (msg : bytes) (t : Z) : bytes := default [] (prefix lv t) ++ msg.
Definition text_of (level : Z) (es : list entry) : bytes :=
  concat (map (fun x : entry => let '(lv, msg, t) := x in if lv <? level then [] else line_of lv msg t) es).

(** A text that fits into the buffer. *)
Definition fits (x : entry) : Prop :=
  let '(lv, msg, t) := x in 0 <= lv <= 5 /\ zlen (line_of lv msg t) <= MAX_LOG_LEN - 5.

Lemma tmp_name_num p k : zlen p < 117 -> 0 <= k < 10 ^ 9 -> tmp_name p k = Some (log_name p k).
Proof.
  intros Hp Hk. unfold tmp_name. rewrite (proj2 (Z.ltb_lt _ _)); [done|]. unfold log_name. rewrite length_app. cbn [length].
  rewrite dec_nonneg by lia. pose proof (length_udec k 9) as Hl. enough (length (udec k) <= 10)%nat by lia. apply Hl. lia.
Qed.

Context (name : bytes) (level max intval first : Z).
Hypothesis Hmax : 2 <= max < 10 ^ 9.
Hypothesis Hfirst : 1 <= first < max.
Hypothesis Hint : 0 < intval.
Hypothesis Hname : zlen name < 117.
Hypothesis Hopen : k_open name = None.
Hypothesis Hrename : forall p q, k_rename p q = true.

(** The number of the m-th file put aside. *)
Definition number (m : nat) : Z := (first - 1 + Z.of_nat m) mod (max - 1) + 1.
Definition aside (m : nat) : bytes := log_name name (number m).

(** Every log is due when the thread looks at it. *)
Fixpoint due (t : Z) (rs : list (list entry * Z)) : Prop :=
  match rs with [] => True | (_, now) :: rs' => 0 < t < now /\ now + intval < 2 ^ 32 /\ due (now + intval) rs' end.

Record standing (e : logentity) (f : fs) (c : bytes) (gens : list bytes) : Prop := mk_standing {
  st_fn : fn e = name;
  st_level : loglevel e = level;
  st_max : maxlognum e = max;
  st_intval : rotateintval e = intval;
  st_next : nextlogno e = number (length gens);
  st_file : exists i, opened f (fd e) i c /\ paths f !! name = Some i /\ i < next f /\
              (forall p, p <> name -> paths f !! p <> Some i);
  st_fds : 0 <= fd e < next f /\ (iclose (fdinfo e) = true -> old_fd (fdinfo e) < next f /\ old_fd (fdinfo e) <> fd e);
  st_fresh : forall p j, paths f !! p = Some j -> j < next f;
  st_dir : parent name ∈ dirs f;
  st_gens : forall j g, gens !! j = Some g -> Z.of_nat (length gens) - Z.of_nat j < max -> contents f (aside j) = Some g }.

Lemma number_range m : 1 <= number m < max.
Proof. unfold number. zdm. Qed.

Lemma number_next m : (let n := (number m + 1) mod max in if n =? 0 then 1 else n) = number (S m).
Proof.
  cbv zeta. pose proof (number_range m). unfold number in *. rewrite Nat2Z.inj_succ.
  set (x := first - 1 + Z.of_nat m) in *. replace (first - 1 + Z.succ (Z.of_nat m)) with (x + 1) by lia.
  assert (Hx : x mod (max - 1) + 1 + 1 <= max) by lia.
  destruct (Z.eq_dec (x mod (max - 1) + 1 + 1) max) as [E|N].
  - rewrite E, Z_mod_same_full. change (0 =? 0) with true. cbv iota. rewrite <- Z.add_mod_idemp_l by lia.
    replace (x mod (max - 1) + 1) with (max - 1) by lia. rewrite Z_mod_same_full. done.
  - rewrite Z.mod_small by zdm. rewrite (proj2 (Z.eqb_neq _ _)) by lia. rewrite <- (Z.add_mod_idemp_l x) by lia.
    rewrite (Z.mod_small (x mod (max - 1) + 1)) by zdm. done.
Qed.

Lemma dec_inj a b : 0 <= a -> 0 <= b -> dec a = dec b -> a = b.
Proof. intros Ha Hb. rewrite !dec_nonneg by done. by apply udec_inj. Qed.

Lemma log_name_inj a b : 0 <= a -> 0 <= b -> log_name name a = log_name name b -> a = b.
Proof. unfold log_name. intros Ha Hb E. apply app_inv_head in E. injection E as E. by apply dec_inj. Qed.

Lemma aside_name m : aside m <> name.
Proof. unfold aside, log_name. intros E. apply (f_equal length) in E. rewrite length_app in E. simpl in E. lia. Qed.

(** Less than [max] generations apart the numbers are different. *)
Lemma aside_ne j m : (j < m)%nat -> Z.of_nat m - Z.of_nat j < max - 1 -> aside j <> aside m.
Proof.
  intros Hj Hm E. pose proof (number_range j). pose proof (number_range m). apply log_name_inj in E; [|lia..]. unfold number in E.
  assert (E' : (first - 1 + Z.of_nat j) mod (max - 1) = (first - 1 + Z.of_nat m) mod (max - 1)) by lia.
  assert ((Z.of_nat m - Z.of_nat j) mod (max - 1) = 0).
  { replace (Z.of_nat m - Z.of_nat j) with ((first - 1 + Z.of_nat m) - (first - 1 + Z.of_nat j)) by lia.
    rewrite Zminus_mod, E', Z.sub_diag. apply Z.mod_0_l. lia. }
  rewrite Z.mod_small in H1 by lia. lia.
Qed.

(** Appending to the log changes no other file. *)
Lemma standing_append e f c gens d : standing e f c gens -> standing e (append f (fd e) d) (c ++ d) gens.
Proof.
  intros [S1 S2 S3 S4 S5 (i & So & Sp & Si & Sn) S7 S8 S9 S10]. destruct (append_frame f (fd e) d) as (P & Di & Nx).
  split; rewrite ?P, ?Di, ?Nx; try done.
  - exists i. rewrite ?P, ?Nx. split; [by apply opened_append|done].
  - intros j g Hg Hj. specialize (S10 j g Hg Hj). unfold contents in *. rewrite P. destruct (paths f !! aside j) as [k|] eqn:Ek; [|done].
    assert (k <> i) as Hk by (intros ->; by apply (Sn (aside j)); [apply aside_name|]).
    cbn [mbind option_bind] in *. unfold append. destruct So as [[o Ho] Hi]. rewrite Ho. cbn [inodes]. by rewrite lookup_insert_ne.
Qed.

Lemma log_all_spec es : forall e f c gens, standing e f c gens -> Forall fits es ->
  exists f', log_all (mk_logs [e] f) es = Some (mk_logs [e] f') /\ standing e f' (c ++ text_of level es) gens.
Proof.
  induction es as [|[[lv msg] t] es IH]; intros e f c gens S HF; cbn [log_all].
  { exists f. split; [done|]. unfold text_of. cbn [map concat]. by rewrite app_nil_r. }
  apply Forall_cons in HF as [[Hlv Hfit] HF]. unfold LOG. change (0 <? 0) with false. cbv iota. cbn [entities sys].
  change ([e] !! Z.to_nat 0) with (Some e). cbn [mbind option_bind]. rewrite (st_level _ _ _ _ S). assert (Hp : exists p, prefix lv t = Some p).
  { unfold prefix. destruct (lookup_lt_is_Some_2 logcolors (Z.to_nat lv)) as [x ->]; [simpl; lia|].
    destruct (lookup_lt_is_Some_2 logstring (Z.to_nat lv)) as [y ->]; [simpl; lia|]. by eexists. }
  destruct Hp as [p Hp]. unfold line_of in Hfit. rewrite Hp in Hfit. cbn [from_option id] in Hfit. rewrite length_app in Hfit. unfold MAX_LOG_LEN in *.
  destruct (lv <? level) eqn:El.
  - destruct (IH e f c gens S HF) as (f' & E & S'). exists f'. split; [exact E|]. unfold text_of in *. cbn [map concat]. rewrite El. done.
  - rewrite Hp. cbn [mbind option_bind]. rewrite (proj2 (Z.ltb_ge _ _)) by lia.
    destruct (IH e _ _ gens (standing_append _ _ _ _ (p ++ msg) S) HF) as (f' & E & S'). exists f'. split; [exact E|].
    unfold text_of in *. cbn [map concat]. rewrite El. unfold line_of at 1. rewrite Hp. cbn [from_option id]. by rewrite app_assoc.
Qed.

Lemma standing_close e f c gens d : standing e f c gens -> d <> fd e -> standing e (close f d) c gens.
Proof.
  intros [S1 S2 S3 S4 S5 (i & [[o So] Hi] & Sp & Si & Sn) S7 S8 S9 S10] Hd. split; try done.
  exists i. split; [split; [exists o; simpl; by rewrite lookup_delete_ne|done]|]. done.
Qed.

(** The number of the file that is opened last is not used before. *)
Lemma shift_spec e f c gens : standing e f c gens ->
  exists f', shiftfile e f = Some (next f, set_next e (number (S (length gens))), f') /\
    forall i, (iclose i = true -> old_fd i < next f) -> standing (set_fd (set_next e (number (S (length gens)))) (next f) i) f' [] (gens ++ [c]).
Proof.
  intros St. pose proof St as [S1 S2 S3 S4 S5 (i & [[o So] Hi] & Sp & Si & Sn) S7 S8 S9 S10].
  unfold shiftfile. rewrite S1, S5, tmp_name_num by (try done; pose proof (number_range (length gens)); lia). fold (aside (length gens)). cbn [mbind option_bind]. set (m := length gens) in *.
  assert (next_no e = number (S m)) as -> by (unfold next_no; rewrite S3, S5; apply number_next).
  unfold rename, unlink. cbn [paths]. rewrite lookup_delete_ne by apply aside_name. rewrite Sp, Hrename.
  unfold openfile, open_create. cbn [paths dirs next inodes times fds]. rewrite Hopen, bool_decide_true by done.
  rewrite lookup_insert_ne, lookup_delete_eq by apply aside_name. eexists. split; [reflexivity|].
  intros fi Hfi. pose proof (aside_name m) as Hm. split; cbn [fn loglevel maxlognum rotateintval nextlogno set_next set_fd fd fdinfo paths inodes next dirs fds]; try done.
  - by rewrite length_app, Nat.add_1_r.
  - exists (next f). split; [split; [exists 0|]; cbn; by rewrite lookup_insert_eq|]. split; [by rewrite lookup_insert_eq|]. split; [lia|].
    intros p Hp. rewrite lookup_insert_ne by done. destruct (decide (p = aside m)) as [->|Hpm].
    + rewrite lookup_insert_eq. intros [= E]. lia.
    + rewrite lookup_insert_ne, lookup_delete_ne, lookup_delete_ne by done. intros E. apply S8 in E. lia.
  - split; [lia|]. intros H%Hfi. lia.
  - intros p j. destruct (decide (p = name)) as [->|Hp]; [rewrite lookup_insert_eq; intros [= <-]; lia|rewrite lookup_insert_ne by done].
    destruct (decide (p = aside m)) as [->|Hpm]; [rewrite lookup_insert_eq; intros [= <-]; lia|].
    rewrite lookup_insert_ne, lookup_delete_ne, lookup_delete_ne by done. intros E. apply S8 in E. lia.
  - intros j g Hg Hj. rewrite length_app in Hj. cbn [length] in Hj. unfold contents. cbn [paths inodes].
    rewrite lookup_insert_ne by (intros E; symmetry in E; by apply (aside_name j)).
    apply lookup_app_Some in Hg as [Hg|[Hle Hg]].
    + assert (Hjm : (j < m)%nat) by (by apply lookup_lt_Some in Hg). pose proof (aside_ne j m Hjm ltac:(lia)) as Hne.
      rewrite lookup_insert_ne by congruence. rewrite lookup_delete_ne by (intros E; symmetry in E; by apply (aside_name j)).
      rewrite lookup_delete_ne by congruence. specialize (S10 j g Hg ltac:(lia)). unfold contents in S10.
      destruct (paths f !! aside j) as [k|] eqn:Ek; [|done]. cbn [mbind option_bind] in *. rewrite lookup_insert_ne; [done|].
      intros E. apply S8 in Ek. lia.
    + fold m in Hle, Hg. assert (j = m) as -> by (apply lookup_lt_Some in Hg; simpl in Hg; lia). rewrite Nat.sub_diag in Hg. injection Hg as <-.
      rewrite lookup_insert_eq. cbn [mbind option_bind]. rewrite lookup_insert_ne by lia. done.
Qed.

Lemma standing_info e f c gens d i t : standing e f c gens -> d = fd e -> (iclose i = true -> old_fd i < next f /\ old_fd i <> d) ->
  standing (set_fd e d i) f c gens /\ standing (set_time e t) f c gens.
Proof. intros [S1 S2 S3 S4 S5 S6 [S7 S7'] S8 S9 S10] -> Hi. by split; split. Qed.

(** A log that is due: its file is put aside, an empty one takes its name. *)
Lemma scan_due e f c gens now : standing e f c gens -> 0 < rotatetime e < now -> now + intval < 2 ^ 32 ->
  exists e' f', scan_one now e f = Some (e', f') /\ standing e' f' [] (gens ++ [c]) /\ rotatetime e' = now + intval.
Proof.
  intros St Ht Hn. pose proof (st_fds _ _ _ _ St) as [Hf Hc]. unfold scan_one.
  rewrite (proj2 (Z.ltb_lt 0 _)), u32_small, (proj2 (Z.ltb_lt _ now)) by lia. cbn [andb].
  destruct (shift_spec e f c gens St) as (f' & -> & S'). cbn [mbind option_bind]. rewrite (proj2 (Z.leb_le _ _)) by lia.
  cbn [negb andb mbind option_bind set_time set_next set_fd fd fdinfo rotateintval delay_close]. rewrite (st_intval _ _ _ _ St), u32_small by lia.
  specialize (S' (mk_fdinfo (now + 5) (fd e) true) ltac:(simpl; lia)).
  do 2 eexists. split; [reflexivity|]. split; [|done]. destruct (iclose (fdinfo e)) eqn:Ei.
  - apply (proj2 (standing_info _ _ _ _ (next f) (mk_fdinfo 0 0 false) (now + intval) (standing_close _ _ _ _ (old_fd (fdinfo e)) S' ltac:(simpl; lia)) eq_refl ltac:(done))).
  - apply (proj2 (standing_info _ _ _ _ (next f) (mk_fdinfo 0 0 false) (now + intval) S' eq_refl ltac:(done))).
Qed.

Lemma maintain_spec e f c gens now : standing e f c gens -> 0 < rotatetime e < now -> now + intval < 2 ^ 32 ->
  exists e' f', maintain_round now (mk_logs [e] f) = Some (mk_logs [e'] f') /\ standing e' f' [] (gens ++ [c]) /\ rotatetime e' = now + intval.
Proof.
  intros St Ht Hn. unfold maintain_round, scanlogs. cbn [entities sys close_list].
  assert (exists e1 f1, close_one now e f = (e1, f1) /\ standing e1 f1 c gens /\ rotatetime e1 = rotatetime e) as (e1 & f1 & -> & S1 & Ht1).
  { unfold close_one. destruct (iclose (fdinfo e) && (timeout (fdinfo e) <=? now)) eqn:Ec; [|by exists e, f]. apply andb_true_iff in Ec as [Ei _].
    pose proof (st_fds _ _ _ _ St) as [_ Hc]. do 2 eexists. split; [reflexivity|]. split; [|done].
    by apply (standing_info _ _ _ _ (fd e) _ 0 (standing_close _ _ _ _ (old_fd (fdinfo e)) St ltac:(by apply Hc))). }
  destruct (scan_due e1 f1 c gens now S1 ltac:(lia) Hn) as (e2 & f2 & E2 & S2 & Ht2). exists e2, f2.
  cbn [entities sys scan_list]. rewrite E2. done.
Qed.

(** What the log held at the end of every round. *)
Definition generations (c : bytes) (rs : list (list entry * Z)) : list bytes :=
  match rs with [] => [] | (es, _) :: rs' => (c ++ text_of level es) :: map (fun r => text_of level (fst r)) rs' end.

Lemma run_spec rs : forall e f c gens, standing e f c gens -> Forall (fun r => Forall fits (fst r)) rs -> due (rotatetime e) rs ->
  exists e' f', run (mk_logs [e] f) rs = Some (mk_logs [e'] f') /\
    standing e' f' (match rs with [] => c | _ => [] end) (gens ++ generations c rs).
Proof.
  induction rs as [|[es now] rs IH]; intros e f c gens St HF Hd.
  { exists e, f. cbn [run generations]. by rewrite app_nil_r. }
  apply Forall_cons in HF as [HF HFs]. destruct Hd as (Ht & Hn & Hd). cbn [run].
  destruct (log_all_spec es e f c gens St HF) as (f1 & -> & S1). cbn [mbind option_bind].
  destruct (maintain_spec e f1 _ gens now S1 Ht Hn) as (e2 & f2 & -> & S2 & Ht2). cbn [mbind option_bind].
  rewrite <- Ht2 in Hd. destruct (IH e2 f2 [] _ S2 HFs Hd) as (e3 & f3 & E & S3). exists e3, f3. split; [exact E|].
  cbn [generations]. rewrite <- app_assoc in S3. cbn [app] in S3.
  replace (generations [] rs) with (map (fun r => text_of level (fst r)) rs) in S3 by (by destruct rs as [|[]]). by destruct rs.
Qed.

End Logs.

Section Registered.
Context {K : Kernel} (localtime_r : Z -> TimeText.tm) (k_mtime : fs -> bytes -> Z).

Lemma initnext_range f p hi n : zlen p < 117 -> hi < 10 ^ 9 -> forall i tm no, 1 <= i -> i + Z.of_nat n <= hi -> 1 <= no < hi ->
  exists r, initnext_loop k_mtime f p n i tm no = Some r /\ 1 <= r < hi.
Proof.
  intros Hp Hhi. induction n as [|n IH]; intros i tm no Hi Hn Hno; cbn [initnext_loop]; [by exists no|].
  rewrite tmp_name_num by lia. cbn [mbind option_bind].
  destruct (paths f !! _); [|exists i; split; [done|lia]]. case_match; apply IH; lia.
Qed.

(** Files have inodes, and no other path has the inode of [name]. *)
Definition linked (f : fs) (name : bytes) : Prop :=
  forall p j, paths f !! p = Some j -> j < next f /\ is_Some (inodes f !! j) /\ (p <> name -> paths f !! name <> Some j).

Lemma openfile_spec f name : k_open name = None -> parent name ∈ dirs f -> linked f name ->
  exists f1 i, openfile f name = (next f, f1) /\ opened f1 (next f) i (default [] (contents f name)) /\ paths f1 !! name = Some i /\
    next f1 = next f + 1 /\ dirs f1 = dirs f /\ i < next f1 /\
    forall p j, paths f1 !! p = Some j -> j < next f1 /\ (p <> name -> j <> i).
Proof.
  intros Ho Hd Hl. unfold openfile, open_create. rewrite Ho, bool_decide_true by done. unfold contents.
  destruct (paths f !! name) as [i|] eqn:Ei.
  - destruct (Hl _ _ Ei) as (Hi & [c Hc] & _). do 2 eexists. split; [reflexivity|]. split; [split; [exists 0; cbn; by rewrite lookup_insert_eq|cbn; by rewrite Hc]|].
    split; [exact Ei|]. cbn. split; [done|]. split; [done|]. split; [lia|]. intros p j Hp. destruct (Hl p j Hp) as (Hj & _ & Hne). split; [lia|].
    intros Hpn ->. by apply Hne.
  - do 2 eexists. split; [reflexivity|]. split; [split; [exists 0|]; cbn; by rewrite lookup_insert_eq|]. split; [cbn; by rewrite lookup_insert_eq|].
    cbn. split; [done|]. split; [done|]. split; [lia|]. intros p j. destruct (decide (p = name)) as [->|Hp].
    + rewrite lookup_insert_eq. intros [= <-]. split; [lia|done].
    + rewrite lookup_insert_ne by done. intros Hj. destruct (Hl p j Hj) as (Hlt & _). lia.
Qed.

(** A log that is registered: its file is opened, what it held stays. *)
Lemma registered f name level size intval max now : 2 <= max < 10 ^ 9 -> 0 < intval -> 0 < now -> now + intval < 2 ^ 32 ->
  zlen name < 117 -> k_open name = None -> parent name ∈ dirs f -> 0 <= next f -> linked f name ->
  exists num e f', 1 <= num < max /\
    registerlog k_mtime (mk_logs [] f) name level size intval max true now = Some (0, mk_logs [e] f') /\
    standing name level max intval num e f' (default [] (contents f name)) [] /\ rotatetime e = now + intval.
Proof.
  intros Hmax Hi Hnow Hn Hname Hopen Hdir Hnext Hl. unfold registerlog. rewrite (proj2 (Z.leb_gt _ _)) by lia.
  unfold registerlog_internal. cbn [negb entities sys length fn maxlognum rotateintval].
  change (Z.of_nat 0 <? MAX_LOG - 1) with true. cbv iota.
  destruct (openfile_spec f name Hopen Hdir Hl) as (f1 & i & -> & So & Sp & Nx & Di & Hli & Hf1).
  rewrite (proj2 (Z.ltb_ge max 2)) by lia. unfold initnextlogno. cbn [fn maxlognum].
  destruct (initnext_range f1 name max (Z.to_nat (max - 1)) Hname ltac:(lia) 1 now 1 ltac:(lia) ltac:(lia) ltac:(lia)) as (num & -> & Hnum).
  cbn [mbind option_bind]. rewrite (proj2 (Z.ltb_lt 0 intval)), u32_small by lia. rewrite (proj2 (Z.leb_le 0 (next f))) by lia.
  cbn [mbind option_bind entities length app]. rewrite (proj2 (Z.ltb_ge (next f) 0)) by lia.
  exists num. do 2 eexists. split; [done|]. split; [reflexivity|]. split; [|done].
  split; cbn [fn loglevel maxlognum rotateintval nextlogno set_next set_time fd fdinfo length]; try done.
  - unfold number. rewrite Z.add_0_r, Z.mod_small by lia. lia.
  - exists i. split; [done|]. split; [done|]. split; [lia|]. intros p Hp Ep. by destruct (Hf1 p i Ep) as [_ []].
  - split; [lia|done].
  - intros p j Hp. apply (Hf1 p j Hp).
  - by rewrite Di.
Qed.

(** C29: rotation keeps the newest.  A log is registered and written to, and every
    time its thread looks it is due.  Then after any number of rounds the file
    of the log is empty, and what the log held at the end of each of the last
    [maxlognum - 1] rounds is in a file of its own, all of it and in the order in
    which it was written; older rounds were unlinked.  What the file held before
    the log was registered is the beginning of the first round. *)
Theorem rotation_keeps_newest f name level size intval max now rs :
  2 <= max < 10 ^ 9 -> 0 < intval -> 0 < now -> now + intval < 2 ^ 32 -> zlen name < 117 ->
  k_open name = None -> (forall p q, k_rename p q = true) -> parent name ∈ dirs f -> 0 <= next f -> linked f name ->
  Forall (fun r => Forall (fits localtime_r) (fst r)) rs -> due intval (now + intval) rs ->
  exists first l l', 1 <= first < max /\
    registerlog k_mtime (mk_logs [] f) name level size intval max true now = Some (0, l) /\
    run localtime_r l rs = Some l' /\
    let gens := generations localtime_r level (default [] (contents f name)) rs in
    (rs <> [] -> contents (sys l') name = Some []) /\
    forall j g, gens !! j = Some g -> Z.of_nat (length gens) - Z.of_nat j < max ->
      contents (sys l') (log_name name ((first - 1 + Z.of_nat j) mod (max - 1) + 1)) = Some g.
Proof.
  intros Hmax Hi Hnow Hn Hname Hopen Hren Hdir Hnext Hl HF Hd.
  destruct (registered f name level size intval max now) as (num & e & f' & Hnum & E & St & Ht); [done..|].
  rewrite <- Ht in Hd. destruct (run_spec localtime_r k_mtime name level max intval num Hmax Hi Hname Hopen Hren rs e f' _ [] St HF Hd) as (e2 & f2 & E2 & S2).
  exists num, (mk_logs [e] f'), (mk_logs [e2] f2). split; [done|]. split; [done|]. split; [done|]. cbn [app] in S2. split.
  - intros Hrs. destruct (st_file _ _ _ _ _ _ _ _ _ S2) as (i & [_ So] & Sp & _). unfold contents. cbn [sys]. rewrite Sp. cbn. rewrite So. by destruct rs.
  - intros j g Hg Hj. apply (st_gens _ _ _ _ _ _ _ _ _ S2 j g Hg Hj).
Qed.

End Registered.

(** ** Witnesses *)

#[local] Existing Instance LocalFile.demo_kernel.

Definition demo_tm (t : Z) : TimeText.tm := TimeText.mk_tm (t mod 60) 4 3 1 0 114.
Definition demo_logs : fs := LocalFile.demo_fs (str "/data/app.log") (str "old").
Definition demo_rounds : list (list entry * Z) :=
  [([(2, str "one", 1000); (1, str "not logged", 1001); (3, str "two", 1002)], 5000); ([(2, str "three", 5100)], 9000); ([], 13000)].

Lemma demo_log_linked : linked demo_logs (str "/data/app.log").
Proof.
  intros p j Hp. cbn [paths demo_logs LocalFile.demo_fs] in Hp. apply lookup_singleton_Some in Hp as [<- <-]. split; [done|]. split; [|done]. by eexists.
Qed.

(** Two files are kept: the third round takes the name of the first. *)
Lemma rotation_keeps_newest_witness :
  exists first l l', 1 <= first < 3 /\
    registerlog (fun _ _ => 0) (mk_logs [] demo_logs) (str "/data/app.log") 2 1 60 3 true 900 = Some (0, l) /\
    run demo_tm l demo_rounds = Some l' /\
    let gens := generations demo_tm 2 (default [] (contents demo_logs (str "/data/app.log"))) demo_rounds in
    (demo_rounds <> [] -> contents (sys l') (str "/data/app.log") = Some []) /\
    forall j g, gens !! j = Some g -> Z.of_nat (length gens) - Z.of_nat j < 3 ->
      contents (sys l') (log_name (str "/data/app.log") ((first - 1 + Z.of_nat j) mod (3 - 1) + 1)) = Some g.
Proof.
  apply (rotation_keeps_newest demo_tm (fun _ _ => 0) demo_logs (str "/data/app.log") 2 1 60 3 900 demo_rounds);
    [done|reflexivity|reflexivity|reflexivity|reflexivity|reflexivity|done| |done|exact demo_log_linked| |].
  - apply (bool_decide_unpack _). vm_compute. exact I.
  - repeat constructor; vm_compute; congruence.
  - repeat split; reflexivity.
Defined.

Example demo_rotated :
  ('(_, l) ← registerlog (fun _ _ => 0) (mk_logs [] demo_logs) (str "/data/app.log") 2 1 60 3 true 900;
   l ← run demo_tm l demo_rounds;
   Some (map (contents (sys l)) [str "/data/app.log"; str "/data/app.log.1"; str "/data/app.log.2"])) =
  Some [Some []; Some []; Some (line_of demo_tm 2 (str "three") 5100)].
Proof. vm_compute. reflexivity. Qed.

(** *** Long texts *)

(** A text that fills the buffer: the reset of the colour is put behind it. *)
Lemma long_text_overflows {K : Kernel} localtime_r e f lv msg t p :
  loglevel e <= lv -> prefix localtime_r lv t = Some p -> MAX_LOG_LEN - 5 < zlen p + zlen msg -> zlen p <= 2000 ->
  LOG localtime_r (mk_logs [e] f) 0 lv msg t = None.
Proof.
  intros Hl Hp Hm Hz. unfold LOG. change (0 <? 0) with false. cbv iota. cbn [entities]. change ([e] !! Z.to_nat 0) with (Some e).
  cbn [mbind option_bind]. rewrite (proj2 (Z.ltb_ge _ _)) by lia. rewrite Hp. cbn [mbind option_bind]. unfold MAX_LOG_LEN in *.
  by rewrite (proj2 (Z.ltb_lt _ _)) by lia.
Qed.

End Log.
