(* ===== verification/Process.v ===== *)
(** * The process: threads, watchdog, signals

    Module [Thread]: the table of threads (network/thread.c).  Module [Watchdog]:
    the counters the threads advance and the check that kills a process with a
    thread that does not (network/watchdog.c).  Module [Daemon]: the signal
    handlers, the watchdog process' wait for the worker and the restart
    (network/daemon.c, network/watchdog.c), the title of the process.  What the kernel
    does - the threads' identifiers, the results of pthread_create and wait, the
    moments at which a thread runs - is an argument. *)

From S2P Require Import Prelude.
From S2P Require Import CString.

Module Watchdog.

Record threadstat := mk_stat { tid : Z; tickcnt : Z; badcnt : Z }.
Definition zero_stat : threadstat := mk_stat 0 0 0.

(** The shared page; slots that nobody wrote are zero. *)
Record threadmap := mk_map { mthreads : Z; nthreads : Z; threadlist : gmap Z threadstat }.

Definition slot (m : threadmap) (i : Z) : threadstat := default zero_stat (threadlist m !! i).
Definition set_slot (m : threadmap) (i : Z) (s : threadstat) : threadmap :=
  mk_map (mthreads m) (nthreads m) (<[i := s]> (threadlist m)).

(** 16 kB, less the two numbers in front. *)
Definition init_threadmap : threadmap := mk_map ((16384 - 8) / 12) 0 ∅.
Definition deadlock_count (timeout : Z) : Z := if timeout <? 10 then 10 else timeout.

Definition get_threadstat (m : threadmap) (id ktid : Z) : option Z * threadmap :=
  if mthreads m <=? id then (None, m)
  else
    let m := if nthreads m <=? id then mk_map (mthreads m) (id + 1) (threadlist m) else m in
    (Some id, set_slot m id (mk_stat ktid 1 0)).

(** [atomic_inc], [n] times. *)
Definition advance (n : Z) (s : threadstat) : threadstat := mk_stat (tid s) (i32 (tickcnt s + n)) (badcnt s).
Definition thread_reached (m : threadmap) (ts : option Z) : threadmap :=
  match ts with Some i => set_slot m i (advance 1 (slot m i)) | None => m end.

(** One slot: the counter is read, and what was read is taken off again; [during]
    are the steps the thread makes between.  The kills. *)
Definition check_slot (D during : Z) (s : threadstat) : threadstat * list Z :=
  if tid s =? 0 then (s, [])
  else
    let cnt := tickcnt s in
    let left := i32 (i32 (cnt + during) - cnt) in
    if negb (cnt =? 0) then (mk_stat (tid s) left 0, [])
    else if D <=? badcnt s then (mk_stat (tid s) left (i32 (badcnt s + 1)), [tid s; tid s])
    else (mk_stat (tid s) left (i32 (badcnt s + 1)), []).

Fixpoint check_from (D : Z) (during : Z -> Z) (n : nat) (i : Z) (m : threadmap) : threadmap * list Z :=
  match n with
  | O => (m, [])
  | S n' =>
      let '(s, k) := check_slot D (during i) (slot m i) in
      let '(m, k') := check_from D during n' (i + 1) (set_slot m i s) in
      (m, k ++ k')
  end.

Definition check_threadmap (D : Z) (during : Z -> Z) (m : threadmap) : threadmap * list Z :=
  check_from D during (Z.to_nat (nthreads m)) 0 m.

(** The threads between two alarms. *)
Definition work (before : Z -> Z) (m : threadmap) : threadmap :=
  mk_map (mthreads m) (nthreads m) (map_imap (fun i s => Some (if tid s =? 0 then s else advance (before i) s)) (threadlist m)).

(** [handler10sec], alarm after alarm: the steps of the threads before and during
    each check. *)
Fixpoint watch (D : Z) (l : list ((Z -> Z) * (Z -> Z))) (m : threadmap) : threadmap * list Z :=
  match l with
  | [] => (m, [])
  | (b, d) :: l' =>
      let '(m, k) := check_threadmap D d (work b m) in
      let '(m, k') := watch D l' m in
      (m, k ++ k')
  end.

(** ** One thread *)

(** What a check finds in the counter of thread [i]. *)
Fixpoint counts (i t : Z) (l : list ((Z -> Z) * (Z -> Z))) : list Z :=
  match l with [] => [] | (b, d) :: l' => t + b i :: counts i (d i) l' end.

Definition counted (i t : Z) (l : list ((Z -> Z) * (Z -> Z))) : Prop :=
  0 <= t /\ Forall (fun x => 0 <= x.1 i /\ 0 <= x.2 i < 2 ^ 31) l /\ Forall (fun c => c < 2 ^ 31) (counts i t l).

(** The checks of one slot alone. *)
Fixpoint watch_slot (D : Z) (s : threadstat) (i : Z) (l : list ((Z -> Z) * (Z -> Z))) : list Z :=
  match l with
  | [] => []
  | (b, d) :: l' => let '(s, k) := check_slot D (d i) (advance (b i) s) in k ++ watch_slot D s i l'
  end.

(** [n] checks in a row found nothing, [z] of them before the list. *)
Definition silent (n z : nat) (cs : list Z) : Prop :=
  (exists b, (z < n)%nat /\ cs = replicate (n - z) 0 ++ b) \/ exists a b, cs = a ++ replicate n 0 ++ b.

Lemma silent_tick n z c cs : (z < n)%nat -> c <> 0 -> silent n z (c :: cs) <-> silent n 0 cs.
Proof.
  intros Hz Hc. unfold silent. rewrite Nat.sub_0_r. split.
  - intros [(b & _ & E)|(a & b & E)].
    + destruct (n - z)%nat eqn:En; [lia|]. cbn [replicate app] in E. congruence.
    + right. destruct a as [|x a]; cbn [app] in E; [destruct n; [lia|]; cbn [replicate app] in E; congruence|].
      injection E as _ ->. by exists a, b.
  - intros [(b & _ & ->)|(a & b & ->)]; right; [by exists [c], b|by exists (c :: a), b].
Qed.

Lemma silent_idle n z cs : (S z < n)%nat -> silent n z (0 :: cs) <-> silent n (S z) cs.
Proof.
  intros Hz. unfold silent. replace (n - z)%nat with (S (n - S z)) by lia. cbn [replicate app]. split.
  - intros [(b & _ & E)|(a & b & E)].
    + injection E as ->. left. exists b. by split.
    + destruct a as [|x a]; cbn [app] in E; [|injection E as _ ->; right; by exists a, b].
      left. replace n with (S ((n - S z) + z))%nat in E by lia. cbn [replicate app] in E. injection E as ->.
      exists (replicate z 0 ++ b). split; [done|]. by rewrite replicate_add, <- app_assoc.
  - intros [(b & _ & ->)|(a & b & ->)]; [left; exists b; split; [lia|done]|right; by exists (0 :: a), b].
Qed.

Section Checks.
Context (D : nat).
Hypothesis HD : Z.of_nat D < 2 ^ 31 - 1.

Lemma i32_left t b d : 0 <= t -> 0 <= b -> 0 <= d < 2 ^ 31 -> t + b < 2 ^ 31 ->
  i32 (t + b) = t + b /\ i32 (i32 (t + b + d) - (t + b)) = d.
Proof. intros. unfold i32. split; zdm. Qed.

Lemma watch_slot_silent i l : forall s z, tid s <> 0 -> badcnt s = Z.of_nat z -> (z <= D)%nat -> counted i (tickcnt s) l ->
  watch_slot (Z.of_nat D) s i l <> [] <-> silent (S D) z (counts i (tickcnt s) l).
Proof.
  induction l as [|[b d] l IH]; intros s z Ht Hb Hz (Hc & Hl & Hs); cbn [watch_slot counts].
  { split; [done|]. intros [(b & Hn & E)|(a & b & E)].
    - destruct (S D - z)%nat eqn:En; [lia|done].
    - by destruct a. }
  cbn [counts] in Hs. apply Forall_cons in Hl as [[Hb0 [Hd0 Hd1]] Hl], Hs as [Hs0 Hs]. cbn [fst snd] in *.
  destruct (i32_left (tickcnt s) (b i) (d i)) as [E1 E2]; [lia..|].
  unfold check_slot, advance. cbn [tid tickcnt badcnt]. rewrite (proj2 (Z.eqb_neq _ _) Ht), E1, E2, Hb.
  destruct (Z.eqb_spec (tickcnt s + b i) 0) as [E0|N0]; cbn [negb].
  - rewrite E0. destruct (Z.leb_spec (Z.of_nat D) (Z.of_nat z)) as [Hk|Hk].
    + split; [intros _|done]. left. exists (counts i (d i) l). split; [lia|]. by replace (S D - z)%nat with 1%nat by lia.
    + rewrite i32_small by lia. cbn [app]. rewrite silent_idle by lia. apply (IH (mk_stat (tid s) (d i) (Z.of_nat z + 1)) (S z)); try done.
      * cbn [badcnt]. lia.
      * lia.
  - cbn [app]. rewrite silent_tick by (done || lia). apply (IH (mk_stat (tid s) (d i) 0) 0%nat); try done. lia.
Qed.

End Checks.

(** ** All threads *)

Lemma check_slot_tid D d s : tid (fst (check_slot D d s)) = tid s.
Proof. unfold check_slot. by repeat case_match. Qed.

Lemma slot_set m i j s : slot (set_slot m i s) j = if decide (i = j) then s else slot m j.
Proof.
  unfold slot, set_slot. cbn [threadlist]. destruct (decide (i = j)) as [->|H]; [by rewrite lookup_insert_eq|by rewrite lookup_insert_ne].
Qed.

Lemma check_from_spec D d n : forall i m, let '(m', k) := check_from D d n i m in
  nthreads m' = nthreads m /\
  (forall j, slot m' j = if decide (i <= j < i + Z.of_nat n) then fst (check_slot D (d j) (slot m j)) else slot m j) /\
  (forall p, p ∈ k <-> exists j, i <= j < i + Z.of_nat n /\ p ∈ snd (check_slot D (d j) (slot m j))).
Proof.
  induction n as [|n IH]; intros i m; cbn [check_from].
  { split; [done|]. split; [intros j; by rewrite decide_False by lia|]. intros p. rewrite elem_of_nil. split; [done|]. intros (j & Hj & _). lia. }
  destruct (check_slot D (d i) (slot m i)) as [s k] eqn:E. specialize (IH (i + 1) (set_slot m i s)).
  destruct (check_from D d n (i + 1) (set_slot m i s)) as [m' k']. destruct IH as (H1 & H2 & H3). split; [done|]. split.
  - intros j. rewrite H2, slot_set. destruct (decide (i = j)) as [<-|Hij].
    + rewrite decide_False, decide_True by lia. by rewrite E.
    + destruct (decide (i + 1 <= j < i + 1 + Z.of_nat n)); [by rewrite decide_True by lia|by rewrite decide_False by lia].
  - intros p. rewrite elem_of_app, H3. split.
    + intros [Hp|(j & Hj & Hp)].
      * exists i. split; [lia|]. by rewrite E.
      * exists j. split; [lia|]. rewrite slot_set in Hp. by rewrite decide_False in Hp by lia.
    + intros (j & Hj & Hp). destruct (decide (i = j)) as [<-|Hij]; [left; by rewrite E in Hp|].
      right. exists j. split; [lia|]. rewrite slot_set. by rewrite decide_False.
Qed.

Lemma slot_work b m i : slot (work b m) i = if tid (slot m i) =? 0 then slot m i else advance (b i) (slot m i).
Proof.
  unfold slot, work. cbn [threadlist]. rewrite map_lookup_imap. destruct (threadlist m !! i) as [s|]; [|done].
  cbn [mbind option_bind default]. done.
Qed.

Lemma watch_slot_zero D i l : forall s, tid s = 0 -> watch_slot D s i l = [].
Proof.
  induction l as [|[b d] l IH]; intros s H; [done|]. cbn [watch_slot]. unfold check_slot, advance. cbn [tid]. rewrite H.
  change (0 =? 0) with true. cbv iota. cbn [app]. by apply IH.
Qed.

Lemma watch_slot_tid D i l : forall s p, p ∈ watch_slot D s i l -> p = tid s.
Proof.
  induction l as [|[b d] l IH]; intros s p; cbn [watch_slot]; [by intros ?%elem_of_nil|].
  pose proof (check_slot_tid D (d i) (advance (b i) s)) as Ht. destruct (check_slot D (d i) (advance (b i) s)) as [s' k] eqn:E.
  cbn [fst tid advance] in Ht. rewrite elem_of_app. intros [Hp|Hp]; [|apply IH in Hp; congruence].
  unfold check_slot in E. repeat case_match; simplify_eq; cbn [tid advance] in *; set_solver.
Qed.

(** What the watchdog kills is what it kills looking at each slot alone. *)
Lemma watch_slots D l : forall m p,
  p ∈ snd (watch D l m) <-> exists i, 0 <= i < nthreads m /\ p ∈ watch_slot D (slot m i) i l.
Proof.
  induction l as [|[b d] l IH]; intros m p; cbn [watch].
  { cbn [snd watch_slot]. split; [by intros ?%elem_of_nil|]. intros (i & _ & Hp). by apply elem_of_nil in Hp. }
  unfold check_threadmap. pose proof (check_from_spec D d (Z.to_nat (nthreads (work b m))) 0 (work b m)) as H.
  destruct (check_from D d _ 0 (work b m)) as [m' k]. destruct H as (H1 & H2 & H3). specialize (IH m' p).
  destruct (watch D l m') as [m2 k2]. cbn [snd] in *. rewrite elem_of_app, H3, IH, H1. change (nthreads (work b m)) with (nthreads m).
  assert (Hs : forall i, 0 <= i < nthreads m -> slot m' i = fst (check_slot D (d i) (slot (work b m) i))).
  { intros i Hi. rewrite H2. change (nthreads (work b m)) with (nthreads m). by rewrite decide_True by lia. }
  assert (Hone : forall i, 0 <= i < nthreads m -> watch_slot D (slot m i) i ((b, d) :: l) =
      snd (check_slot D (d i) (slot (work b m) i)) ++ watch_slot D (slot m' i) i l).
  { intros i Hi. rewrite (Hs i Hi), slot_work. destruct (Z.eqb_spec (tid (slot m i)) 0) as [E|N].
    - rewrite watch_slot_zero by done. unfold check_slot. rewrite E. change (0 =? 0) with true. cbv iota. cbn [fst snd app]. by rewrite watch_slot_zero.
    - cbn [watch_slot]. by destruct (check_slot D (d i) (advance (b i) (slot m i))). }
  split.
  - intros [(i & Hi & Hp)|(i & Hi & Hp)]; exists i; (split; [lia|]); rewrite Hone by lia; rewrite elem_of_app; [by left|by right].
  - intros (i & Hi & Hp). rewrite Hone, elem_of_app in Hp by done. destruct Hp as [Hp|Hp]; [left|right]; exists i; (split; [lia|done]).
Qed.



End Watchdog.

(** ** network/thread.c *)

Module Thread.

Definition THREAD_UNUSED : Z := 0.
Definition THREAD_STANDBY : Z := 2.
Definition THREAD_STARTING : Z := 3.
Definition THREAD_RUNNING : Z := 4.
Definition THREAD_STOPPING : Z := 5.
Definition THREAD_EXITED : Z := 6.

Definition ENOMEM : Z := 12.

(** [entry] is the function, [arg] the address of its argument. *)
Record thread := mk_thread {
  name : bytes; entry : Z; arg : Z; tid : Z; pid : Z; id : Z; state : Z; rv : Z }.

(** Slots from [curid] on are not read. *)
Record pool := mk_pool { curid : Z; maxid : Z; threadlist : gmap Z thread }.

Definition set_state (t : thread) (s : Z) : thread := mk_thread (name t) (entry t) (arg t) (tid t) (pid t) (id t) s (rv t).
Definition with_list (p : pool) (l : gmap Z thread) : pool := mk_pool (curid p) (maxid p) l.
Definition update (p : pool) (i : Z) (f : thread -> thread) : pool := with_list p (alter f i (threadlist p)).

(** [ktid] is the main thread's own number. *)
Definition init_thread (alloc : bool) (ktid : Z) : Z * pool :=
  if alloc then (0, mk_pool 1 16 {[ 0 := mk_thread (str "main") 0 0 0 ktid 0 THREAD_RUNNING 0 ]})
  else (- ENOMEM, mk_pool 0 16 ∅).

Definition register_thread (p : pool) (nm : bytes) (e a : Z) (alloc : bool) : Z * pool :=
  if maxid p <=? curid p then (-1, p)
  else if negb alloc then (- ENOMEM, p)
  else (0, mk_pool (curid p + 1) (maxid p)
             (<[curid p := mk_thread (take 15 nm) e a 0 0 (curid p) THREAD_STOPPING (-1)]> (threadlist p))).

(** [thread_entry]: what the thread writes when it begins and when it ends. *)
Definition enter (ktid : Z) (t : thread) : thread := mk_thread (name t) (entry t) (arg t) (tid t) ktid (id t) THREAD_RUNNING (rv t).
Definition leave (r : Z) (t : thread) : thread := mk_thread (name t) (entry t) (arg t) (tid t) (pid t) (id t) THREAD_EXITED r.

(** [create i]: the handle, or [None] when pthread_create fails and the process
    ends. *)
Definition start_thread_posix (create : Z -> option Z) (p : pool) (i : Z) : option pool :=
  h ← create i;
  Some (update p i (fun t => mk_thread (name t) (entry t) (arg t) h (pid t) (id t) (state t) (rv t))).

Fixpoint start_from (create : Z -> option Z) (n : nat) (i : Z) (p : pool) : option pool :=
  match n with
  | O => Some p
  | S n' => p ← start_thread_posix create (update p i (fun t => set_state t THREAD_STARTING)) i; start_from create n' (i + 1) p
  end.
Definition start_threads (create : Z -> option Z) (p : pool) : option pool :=
  start_from create (Z.to_nat (curid p - 1)) 1 p.

Definition state_at (p : pool) (i : Z) : Z := match threadlist p !! i with Some t => state t | None => THREAD_UNUSED end.

(** The threads that get the signal. *)
Fixpoint kill_from (n : nat) (i : Z) (p : pool) : list Z :=
  match n with
  | O => []
  | S n' => (if state_at p i =? THREAD_RUNNING then [i] else []) ++ kill_from n' (i + 1) p
  end.

(** The join lets the thread run to its end; [rvs] is what the threads return. *)
Fixpoint join_from (rvs : Z -> Z) (n : nat) (i : Z) (p : pool) : pool :=
  match n with
  | O => p
  | S n' =>
      let p := if state_at p i =? THREAD_RUNNING then update p i (fun t => set_state t THREAD_STOPPING) else p in
      let p := if negb (state_at p i =? THREAD_UNUSED) && negb (state_at p i =? THREAD_STANDBY) then update p i (leave (rvs i)) else p in
      join_from rvs n' (i + 1) (update p i (fun t => set_state t THREAD_UNUSED))
  end.

Definition stop_threads (rvs : Z -> Z) (p : pool) : list Z * pool :=
  let n := Z.to_nat (curid p - 1) in
  let q := join_from rvs n 1 p in
  (kill_from n 1 p, mk_pool 1 (maxid q) (threadlist q)).

(** [mythreadid] is the caller's number. *)
Definition get_my_thread (p : pool) (mythreadid : Z) : option thread := threadlist p !! mythreadid.

End Thread.

(** ** network/daemon.c and the watchdog's wait *)

Module Daemon.

Record flags := mk_flags { stop : bool; restart : bool }.
Definition init_flags : flags := mk_flags false true.

Inductive signal := SIGTERM | SIGHUP | SIGOTHER.
Definition sigterm_handler (f : flags) : flags := mk_flags true false.
Definition sighup_handler (f : flags) : flags := mk_flags true true.
(** [resolved]: the path of the program and its arguments could be kept, else
    the handler of SIGHUP is that of SIGTERM. *)
Definition deliver (resolved : bool) (s : signal) (f : flags) : flags :=
  match s with
  | SIGTERM => sigterm_handler f
  | SIGHUP => if resolved then sighup_handler f else sigterm_handler f
  | SIGOTHER => f
  end.

(** How the worker ends, and what a wait returns. *)
Inductive status := Exited (code : Z) | Signaled (sig : Z).
Inductive waited := Reaped (pid : Z) (st : status) | Nochild | Interrupted.

(** After the loop: [status] is that of the last child reaped, 0 at first. *)
Definition after_wait (st : status) (f : flags) : flags :=
  match st with Exited _ => mk_flags (stop f) false | Signaled _ => f end.

(** The loop of [start_watchdog]: before each return of wait a signal may have
    come in.  The flags at the end, and the number of SIGTERMs sent to the worker. *)
Fixpoint wait_loop (resolved : bool) (pid : Z) (ws : list (option signal * waited)) (last : status) (f : flags) : option (flags * nat) :=
  match ws with
  | [] => None
  | (s, w) :: ws' =>
      let f := match s with Some s => deliver resolved s f | None => f end in
      let go '(f', n) := (f', if stop f then S n else n) in
      match w with
      | Reaped q st => if q =? pid then Some (after_wait st f, O) else go <$> wait_loop resolved pid ws' st f
      | Nochild => Some (after_wait last f, O)
      | Interrupted => go <$> wait_loop resolved pid ws' last f
      end
  end.

(** [daemon_stop]: whether the program is executed again. *)
Definition daemon_stop (resolved : bool) (f : flags) : bool := restart f && resolved.

(** The worker: [main] returns [restart] to the system. *)
Definition worker_exit (f : flags) : status := Exited (if restart f then 1 else 0).

(** Asking the server to start again stops it.  After SIGHUP, to the worker,
    to the watchdog or to both, the worker leaves its loops and exits; an exit of
    the worker clears the watchdog's flag, whatever the exit code and whatever
    signals came in before, and the program is not executed again.  Only a worker
    that was killed by a signal is. *)
Theorem hangup_not_restarted resolved pid ws w f' n :
  wait_loop resolved pid (ws ++ [(w, Reaped pid (worker_exit (sighup_handler init_flags)))]) (Exited 0) init_flags = Some (f', n) ->
  Forall (fun x => match snd x with Reaped q st => q <> pid | Nochild => False | Interrupted => True end) ws ->
  daemon_stop resolved f' = false.
Proof.
  generalize (Exited 0), init_flags at 2. intros st0 f. revert st0 f f' n. induction ws as [|[s x] ws IH]; intros st0 f f' n; cbn [app wait_loop].
  - rewrite Z.eqb_refl. unfold worker_exit. intros [= <- <-] _. done.
  - intros H [Hx HF]%Forall_cons. cbn [snd] in Hx. destruct x as [q st| |]; [|done|].
    + rewrite (proj2 (Z.eqb_neq _ _) Hx) in H. apply fmap_Some in H as ([f1 n1] & H1 & E). injection E as -> _. by eapply IH.
    + apply fmap_Some in H as ([f1 n1] & H1 & E). injection E as -> _. by eapply IH.
Qed.

Lemma hangup_not_restarted_witness :
  wait_loop true 7 ([(Some SIGHUP, Interrupted); (None, Reaped 9 (Signaled 11))] ++ [(None, Reaped 7 (worker_exit (sighup_handler init_flags)))])
    (Exited 0) init_flags = Some (mk_flags true false, 2%nat) /\
  daemon_stop true (mk_flags true false) = false.
Proof.
  split; [reflexivity|].
  apply (hangup_not_restarted true 7 [(Some SIGHUP, Interrupted); (None, Reaped 9 (Signaled 11))] None (mk_flags true false) 2); [reflexivity|].
  repeat constructor; done.
Defined.

(** A worker killed by a signal is executed again, when no SIGTERM came. *)
Lemma crash_restarted pid ws w sig f n :
  wait_loop true pid (ws ++ [(w, Reaped pid (Signaled sig))]) (Exited 0) init_flags = Some (f, n) ->
  Forall (fun x => (forall q st, snd x = Reaped q st -> q <> pid) /\ snd x <> Nochild /\ fst x <> Some SIGTERM) ws -> w <> Some SIGTERM ->
  daemon_stop true f = true.
Proof.
  assert (Hgen : forall st0 f0, restart f0 = true -> wait_loop true pid (ws ++ [(w, Reaped pid (Signaled sig))]) st0 f0 = Some (f, n) ->
    Forall (fun x => (forall q st, snd x = Reaped q st -> q <> pid) /\ snd x <> Nochild /\ fst x <> Some SIGTERM) ws -> w <> Some SIGTERM ->
    daemon_stop true f = true); [|by apply Hgen].
  revert f n. induction ws as [|[s x] ws IH]; intros f n st0 f0 Hr; cbn [app wait_loop].
  - rewrite Z.eqb_refl. intros [= <- _] _ Hw. unfold daemon_stop. rewrite andb_true_r. destruct w as [[| |]|]; done.
  - intros H [(Hx & Hn & Hs) HF]%Forall_cons Hw. cbn [fst snd] in *. set (f1 := match s with Some s => _ | None => _ end) in H.
    assert (restart f1 = true) as Hr1 by (unfold f1; destruct s as [[| |]|]; done).
    destruct x as [q st| |]; [|done|].
    + rewrite (proj2 (Z.eqb_neq _ _) (Hx q st eq_refl)) in H. apply fmap_Some in H as ([f2 n2] & H1 & E). injection E as -> _. by eapply IH.
    + apply fmap_Some in H as ([f2 n2] & H1 & E). injection E as -> _. by eapply IH.
Qed.

(** ** The title of the process *)

(** The area of the arguments, the environment (addresses and lengths of its
    strings), and where it began (0 once it has been moved). *)
Record area := mk_area { arg_start : Z; arg_end : Z; env_start : Z; environ : list (Z * Z); shown : bytes }.

(** The environment strings that follow each other from [e] on. *)
Fixpoint env_run (e : Z) (l : list (Z * Z)) : Z :=
  match l with [] => e | (a, n) :: l' => if e =? a then env_run (a + n + 1) l' else e end.

Fixpoint cut_space (s : bytes) : bytes :=
  match s with [] => [] | c :: s' => if c =? 0 then s else if c =? 32 then 0 :: s' else c :: cut_space s' end.

Definition daemon_set_title (a : area) (title : bytes) : area :=
  let tlen := zlen title + 1 in
  let '(e, es) := if (arg_end a - arg_start a <? tlen) && (env_start a =? arg_end a) then (env_run (env_start a) (environ a), 0)
                  else (arg_end a, env_start a) in
  let i := e - arg_start a in
  let s := if tlen <=? i then title ++ 0 :: replicate (Z.to_nat (i - tlen)) 0 else take (Z.to_nat (i - 1)) title ++ [0] in
  mk_area (arg_start a) e es (environ a) (if negb (es =? 0) then cut_space s else s).

Lemma env_run_grows l : forall e, Forall (fun x => 0 <= x.2) l -> e <= env_run e l.
Proof.
  induction l as [|[a n] l IH]; intros e H; cbn [env_run]; [lia|]. apply Forall_cons in H as [H1 H]. cbn [snd] in H1.
  destruct (Z.eqb_spec e a) as [->|]; [|lia]. specialize (IH (a + n + 1) H). lia.
Qed.

Lemma length_cut_space s : length (cut_space s) = length s.
Proof. induction s as [|c s IH]; [done|]. cbn [cut_space]. destruct (c =? 0), (c =? 32); cbn [length]; by rewrite ?IH. Qed.

Lemma cut_space_text t r : cstr t -> until0 (cut_space (t ++ 0 :: r)) = until0 (match strchr t 32 with Some i => take i t | None => t end ++ [0]).
Proof.
  induction 1 as [|c t Hc Ht IH]; [done|]. cbn [app cut_space strchr]. rewrite (proj2 (Z.eqb_neq c 0)) by lia.
  destruct (Z.eqb_spec c 32) as [->|]; [done|]. cbn [until0]. rewrite (proj2 (Z.eqb_neq c 0)) by lia. rewrite IH.
  destruct (strchr t 32); cbn [fmap option_fmap option_map take app until0]; by rewrite (proj2 (Z.eqb_neq c 0)) by lia.
Qed.

(** The title is written into the area and fills it exactly; what is shown is
    the title, cut to the room there is, and up to its first space when the
    environment was not moved away. *)
Lemma title_shown a title :
  arg_start a < arg_end a -> cstr title -> Forall (fun x => 0 <= x.2) (environ a) ->
  let b := daemon_set_title a title in
  zlen (shown b) = arg_end b - arg_start b /\ arg_end a <= arg_end b /\
  let t := take (Z.to_nat (arg_end b - arg_start b - 1)) title in
  until0 (shown b) = if env_start b =? 0 then t else match strchr t 32 with Some i => take i t | None => t end.
Proof.
  intros Ha Hc He. unfold daemon_set_title. set (mv := _ && _).
  set (e := if mv then env_run (env_start a) (environ a) else arg_end a). set (es := if mv then 0 else env_start a).
  assert ((if mv then (env_run (env_start a) (environ a), 0) else (arg_end a, env_start a)) = (e, es)) as -> by (unfold e, es; by destruct mv).
  assert (Hle : arg_end a <= e).
  { unfold e, mv. destruct (_ && _) eqn:E; [|lia]. apply andb_true_iff in E as [_ E%Z.eqb_eq]. rewrite <- E. by apply env_run_grows. }
  cbn [shown arg_start arg_end env_start]. set (i := e - arg_start a). set (s := if _ <=? i then _ else _).
  set (t := take (Z.to_nat (i - 1)) title).
  assert (exists r, s = t ++ 0 :: r /\ zlen s = i) as (r & Es & Hl).
  { unfold s, t. destruct (Z.leb_spec (zlen title + 1) i).
    - eexists. rewrite take_ge by lia. split; [reflexivity|]. rewrite length_app. cbn [length]. rewrite length_replicate. lia.
    - exists []. split; [done|]. rewrite length_app, length_take. cbn [length]. lia. }
  assert (Ht : cstr t) by (by apply Forall_take).
  split; [destruct (negb (es =? 0)); [rewrite length_cut_space|]; done|]. split; [done|].
  fold t. rewrite Es. destruct (es =? 0); cbn [negb]; [by apply until0_cstr|]. rewrite cut_space_text by done.
  apply until0_cstr. destruct (strchr t 32); [by apply Forall_take|done].
Qed.

End Daemon.
