(* ===== verification/Startup.v ===== *)
(** * Start-up (network/main.c, network/pfs_init.c)

    Module [Main]: what a server does before its threads run: the settings it
    reads, the directories it makes, the tables it fills, the threads it
    registers for its role, and the logs its services open (the beginnings of the
    svc_init functions).  The configuration store is that of [MyConfig], the file
    system that of [Fs], the logs those of [Log]; the tables are filled by the
    operations of [Domain], [Disk], [FileFilter] and [Timer].  The interfaces of
    the machine, the line of the password file, the name service and the outcome
    of allocations are fields of [Boot]. *)

From S2P Require Import Prelude.
From S2P Require Import CString.
From S2P Require Import Codec.
From S2P Require Import Timer.
From S2P Require Import Domain.
From S2P Require Import MyConfig.
From S2P Require Import Storage.
From S2P Require Import Records.
From S2P Require Import LocalFile.
From S2P Require Import EventLoop.
From S2P Require Import NameServer.
From S2P Require Import Maintain.
From S2P Require Import LogFile.
From S2P Require Import Process.

Module Main.
Import Fs.

Definition path_dirs : list bytes := [str "indir"; str "outdir"; str "workdir"; str "bkdir"; str "tmpdir"].
Definition iprole : list bytes := [str "unkown"; str "storage"; str "nameserver"; str "poss_master"; str "self_ip"].

(** The settings only read at start; the others are in [Config]. *)
Record globals := mk_globals {
  sig_port : Z; data_port : Z; up_port : Z; cktimeout : Z; lock_timeout : Z;
  init_buff_size : Z; retry : Z; dir_uid : Z; dir_gid : Z; datadir : bytes;
  DIR1 : Z; DIR2 : Z; mindiskfree : Z; gpath : bytes; sync_stime : bytes; sync_etime : bytes }.
Definition zero_globals : globals := mk_globals 0 0 0 0 0 0 0 0 0 [] 0 0 0 [] [] [].

Record t_thread_arg := mk_arg { flag : Z; aname : bytes; port : Z; maxevent : Z; threadcount : Z }.

(** What the server holds when its threads start. *)
Record server := mk_server {
  conf : MyConfig.state;
  lgs : Log.logs;                     (* with the file system *)
  thr : Thread.pool;
  args : gmap Z t_thread_arg;         (* the arguments of threads, by address *)
  net : Domain.state;
  nameservers : list (bytes * Z);
  poss : bytes * Z;                   (* possip, possport *)
  glob : globals;
  cfg : Config.t_g_config;
  filter : option (bool * list FileFilter.t_pfs_filter);
  diskt : Disk.disks;
  timers : Timer.state;
  self : Z * Z * Domain.t_pfs_domain  (* self_role, self_ip, self_domain *) }.

Definition with_conf (s : server) (x : MyConfig.state) : server :=
  mk_server x (lgs s) (thr s) (args s) (net s) (nameservers s) (poss s) (glob s) (cfg s) (filter s) (diskt s) (timers s) (self s).
Definition with_lgs (s : server) (x : Log.logs) : server :=
  mk_server (conf s) x (thr s) (args s) (net s) (nameservers s) (poss s) (glob s) (cfg s) (filter s) (diskt s) (timers s) (self s).
Definition with_sys (s : server) (f : fs) : server := with_lgs s (Log.mk_logs (Log.entities (lgs s)) f).
Definition with_thr (s : server) (x : Thread.pool) (a : gmap Z t_thread_arg) : server :=
  mk_server (conf s) (lgs s) x a (net s) (nameservers s) (poss s) (glob s) (cfg s) (filter s) (diskt s) (timers s) (self s).
Definition with_net (s : server) (x : Domain.state) : server :=
  mk_server (conf s) (lgs s) (thr s) (args s) x (nameservers s) (poss s) (glob s) (cfg s) (filter s) (diskt s) (timers s) (self s).
Definition with_ns (s : server) (x : list (bytes * Z)) : server :=
  mk_server (conf s) (lgs s) (thr s) (args s) (net s) x (poss s) (glob s) (cfg s) (filter s) (diskt s) (timers s) (self s).
Definition with_poss (s : server) (x : bytes * Z) : server :=
  mk_server (conf s) (lgs s) (thr s) (args s) (net s) (nameservers s) x (glob s) (cfg s) (filter s) (diskt s) (timers s) (self s).
Definition with_glob (s : server) (x : globals) (c : Config.t_g_config) : server :=
  mk_server (conf s) (lgs s) (thr s) (args s) (net s) (nameservers s) (poss s) x c (filter s) (diskt s) (timers s) (self s).
Definition with_filter (s : server) (x : bool * list FileFilter.t_pfs_filter) : server :=
  mk_server (conf s) (lgs s) (thr s) (args s) (net s) (nameservers s) (poss s) (glob s) (cfg s) (Some x) (diskt s) (timers s) (self s).
Definition with_disks (s : server) (x : Disk.disks) : server :=
  mk_server (conf s) (lgs s) (thr s) (args s) (net s) (nameservers s) (poss s) (glob s) (cfg s) (filter s) x (timers s) (self s).
Definition with_timers (s : server) (x : Timer.state) : server :=
  mk_server (conf s) (lgs s) (thr s) (args s) (net s) (nameservers s) (poss s) (glob s) (cfg s) (filter s) (diskt s) x (self s).
Definition with_self (s : server) (x : Z * Z * Domain.t_pfs_domain) : server :=
  mk_server (conf s) (lgs s) (thr s) (args s) (net s) (nameservers s) (poss s) (glob s) (cfg s) (filter s) (diskt s) (timers s) x.
Definition sys (s : server) : fs := Log.sys (lgs s).

Class Boot := mk_boot {
  k_now : Z;
  k_logs_lock : bool;
  k_mtime : fs -> bytes -> Z;
  k_ifaces : option (list (bytes * Z));          (* no socket; else names and addresses *)
  k_nobody : option bytes;                       (* the line of the command, no pipe *)
  k_resolve : bytes -> option (list bytes);
  k_lines : bytes -> option (list bytes);        (* the lines of a file *)
  k_lock : bool;
  k_alloc : Z -> bool;                           (* for the tables of [Domain] *)
  k_thread : bool;                               (* for the threads *)
  k_nodes : option (list Z);                     (* the block of timers *)
  k_node : option Z;                             (* for one more timer *)
  k_codes : Z * Z * Z * Z;                       (* start_watchdog, init_log, init_fdinfo, init_task_info *)
  k_create : Z -> option Z;                      (* pthread_create *)
  k_tid : Z;
  k_probe : Z -> Z -> Z * bool;
  k_stat : nat -> option (Z * Z);
  k_coin : nat -> bool
}.

Section Boot.
Context {B : Boot} {K : Kernel} {C : MyConfig.Surroundings}.

(** ** Settings *)

Definition getint (s : server) (k : string) (d : Z) : option (Z * server) :=
  '(v, c) ← MyConfig.myconfig_get_intval (conf s) (str k) d; Some (v, with_conf s c).
Definition getval (s : server) (k : bytes) : option (option bytes) := MyConfig.myconfig_get_value (conf s) k.

(** The loop over the values of a key; a chain of the store is not longer than
    the number of its entries. *)
Fixpoint multi_from (fuel : nat) (s : server) (k : bytes) (i : Z) : option (list bytes) :=
  match fuel with
  | O => Some []
  | S fuel' =>
      v ← MyConfig.myconfig_get_multivalue (conf s) k i;
      match v with
      | None => Some []
      | Some v => l ← multi_from fuel' s k (i + 1); Some (v :: l)
      end
  end.
Definition multi (s : server) (k : bytes) : option (list bytes) := multi_from (size (MyConfig.entries (conf s))) s k 0.

(** A log with the settings of the service [which]: the number of the log. *)
Definition open_log (which : bytes) (dflt suffix : bytes) (s : server) : option (Z * server) :=
  let key x := str "log_" ++ which ++ str x in
  nm ← getval s (key "_logname"); lv ← getval s (key "_loglevel");
  let level := match lv with Some l => Log.getloglevel l | None => Log.LOG_NORMAL end in
  '(size, c) ← MyConfig.myconfig_get_intval (conf s) (key "_logsize") 100;
  '(intval, c) ← MyConfig.myconfig_get_intval c (key "_logtime") 3600;
  '(num, c) ← MyConfig.myconfig_get_intval c (key "_lognum") 10;
  let s := with_conf s c in
  '(r, l) ← Log.registerlog k_mtime (lgs s) (default dflt nm ++ suffix) level size intval num k_logs_lock k_now;
  Some (r, with_lgs s l).

(** [init_glog]. *)
Definition init_glog (s : server) : option (Z * server) := open_log (str "main") (str "./main_log.log") [] s.

(** ** init_global *)

Fixpoint make_dirs (f : fs) (v : bytes) (l : list bytes) : Z * fs :=
  match l with
  | [] => (0, f)
  | d :: l' =>
      let path := snprintf 256 (v ++ 47 :: d) in
      if access f path then make_dirs f v l'
      else let '(ok, f) := mkdir f path in if ok : bool then make_dirs f v l' else (-1, f)
  end.

(** When it fails the process ends; what it has stored by then is not kept. *)
Definition init_global (s : server) : option (Z * server) :=
  '(sp, s) ← getint s "sig_port" 39090;
  '(dp, s) ← getint s "data_port" 49090;
  '(up, s) ← getint s "up_port" 59090;
  '(ck, s) ← getint s "cktimeout" 5;
  '(lt, s) ← getint s "lock_timeout" 10;
  '(bs, s) ← getint s "socket_buff" 65536;
  '(rt, s) ← getint s "pfs_retry" 0;
  match k_nobody with
  | None => Some (-1, s)
  | Some line =>
      let buf := take 31 line in
      match strchr buf 32 with
      | None => Some (-1, s)
      | Some i =>
          dd ← getval s (str "pfs_datadir");
          match dd with
          | None => Some (-1, s)
          | Some dd =>
              '(d1, s) ← getint s "dir_dir1" 100;
              '(d2, s) ← getint s "dir_dir2" 100;
              '(vals, c) ← Maintain.read_settings (conf s) Maintain.settings;
              let s := with_conf s c in
              md ← getval s (str "disk_minfree");
              v ← getval s (str "pfs_path");
              let v := default (str "/home/pfs/path") v in
              let '(r, f) := make_dirs (sys s) v path_dirs in
              let s := with_sys s f in
              if r <? 0 then Some (-1, s)
              else
                st ← getval s (str "pfs_sync_starttime");
                et ← getval s (str "pfs_sync_endtime");
                let g := mk_globals (u16 sp) (u16 dp) (u16 up) (u16 ck) (u16 lt) (if bs <? 20480 then 20480 else bs)
                           (u8 (rt + 1)) (u16 (atoi buf)) (u16 (atoi (drop (S i) buf))) (snprintf 256 dd) d1 d2
                           (Config.mindiskfree md) (snprintf 256 v)
                           (snprintf 12 (default (str "01:00:00") st)) (snprintf 12 (default (str "09:00:00") et)) in
                let d := net s in
                let d := Domain.mk_state (Domain.domains d) [] (Domain.grouplist d) ∅ (Domain.localip d) (Domain.next d) in
                Some (0, with_net (with_glob s g (Config.reload_config (Maintain.setting vals))) d)
          end
      end
  end.

(** ** pfs_init *)

(** Interfaces whose names begin with lo are passed over; the table has 64
    entries and begins again when it is full. *)
Fixpoint local_ips (l : list (bytes * Z)) (index : nat) (tab : list Z) : list Z :=
  match l with
  | [] => tab
  | (nm, ip) :: l' =>
      if bool_decide (take 2 nm = str "lo") then local_ips l' index tab
      else local_ips l' (S index) (<[Nat.modulo index 64 := ip]> tab)
  end.
Definition init_local_ip (s : server) : option (Z * server) :=
  let d := net s in
  let put t := with_net s (Domain.mk_state (Domain.domains d) (Domain.alldomain d) [] (Domain.allip d) t (Domain.next d)) in
  let zero := replicate 64 0 in
  match k_ifaces with
  | None => Some (-1, put zero)
  | Some l => Some (0, put (local_ips l 0 zero))
  end.

Definition init_nameserver (s : server) : option (Z * server) :=
  vals ← multi s (str "iplist_nameserver");
  '(r, ns, d) ← Domain.init_nameserver k_alloc k_resolve (net s) vals;
  Some (r, with_ns (with_net s d) ns).

Definition init_poss (s : server) : option (Z * server) :=
  ip ← getval s (str "poss_server_ip");
  match ip with
  | None => Some (-1, s)
  | Some _ =>
      '(p, s) ← getint s "poss_server_port" 49090;
      let '(r, possip, d) := Domain.init_poss k_alloc k_resolve (net s) ip in
      Some (r, with_poss (with_net s d) (possip, u16 p))
  end.

Definition init_storage (s : server) : option (Z * server) :=
  names ← multi s (str "group_name");
  let key n := snprintf 256 (str "iplist_" ++ n) in
  _ ← mapM (fun n => getval s (key (snprintf 128 n))) names;
  let file n := v ← default None (getval s (key n)); Some (k_lines v) in
  '(r, d) ← Domain.init_storage k_alloc k_lock (net s) file names;
  Some (r, with_net s d).

Definition init_file_filter (s : server) : option (Z * server) :=
  '(dis, s) ← getint s "file_disable_filter" 1;
  vals ← multi s (str "file_allow_suffix");
  Some (0, with_filter s (FileFilter.init_file_filter dis vals)).

(** The five calls joined by [||]. *)
Fixpoint any_of (l : list (server -> option (Z * server))) (s : server) : option (Z * server) :=
  match l with
  | [] => Some (0, s)
  | f :: l' => '(r, s) ← f s; if negb (r =? 0) then Some (1, s) else any_of l' s
  end.
Definition pfs_init (s : server) : option (Z * server) :=
  any_of [init_local_ip; init_nameserver; init_poss; init_storage; init_file_filter] s.

(** ** The services: svc_init

    The log of the service; then its lists, which are empty.  The lists of the
    other services are empty in the states their own modules begin with. *)
Definition refused (r : Z) : Z := if r <? 0 then -1 else 0.
Definition svc_init_up (s : server) : option (Z * server) :=
  '(r, s) ← open_log (str "up") (str "../log/up_log.log") [] s; Some (refused r, s).
Definition svc_init_data (s : server) : option (Z * server) :=
  '(r, s) ← open_log (str "data") (str "./data_log.log") [] s; Some (refused r, s).
(** The agent's own log. *)
Definition agent_log_init (s : server) : option (Z * server) :=
  '(r, s) ← open_log (str "agent") (str "./agent_log.log") [] s; Some (refused r, s).
(** The storage service has a second log, and starts its second thread;
    [rc] is what pthread_create returns. *)
Definition svc_init_storage (rc : Z) (s : server) : option (Z * server) :=
  '(r, s) ← open_log (str "sig") (str "./sig_log.log") [] s;
  if r <? 0 then Some (-1, s)
  else
    '(r, s) ← open_log (str "sig") (str "./sig_log.log") (str ".err") s;
    if r <? 0 then Some (-1, s)
    else '(_, s) ← getint s "self_stat" 0; Some (if negb (rc =? 0) then -1 else 0, s).

(** The name server reads its three files. *)
Definition ON_LINE : Z := 3.
Definition read_with {A} (s : server) (k : string) (read : NameServer.ns -> option (list bytes) -> A) (u : NameServer.ns) (none : A) : option A :=
  v ← getval s (str k); Some match v with Some name => read u (k_lines name) | None => none end.
Definition svc_init_name {P : NameServer.Settings} (mem : bool) (u : NameServer.ns) (s : server) : option (Z * NameServer.ns * server) :=
  '(r, s) ← open_log (str "sig") (str "./sig_log.log") [] s;
  if r <? 0 then Some (-1, u, s)
  else
    let u := NameServer.with_selects (NameServer.with_changes (NameServer.with_conns u (NameServer.peers u) [] ∅) ∅) ∅ in
    '(r, u) ← read_with s "domain_change_file" (NameServer.do_init_name_change mem) u (0, u);
    if negb (r =? 0) then Some (-1, u, s)
    else
      '(r, u) ← read_with s "storage_select_file" (NameServer.do_init_storage_select mem) u (0, u);
      if negb (r =? 0) then Some (-1, u, s)
      else
        let u := NameServer.with_proxies u (replicate 16 (0, [])) in
        x ← read_with s "proxy_file" NameServer.do_init_proxy u (Some (0, u));
        '(r, u) ← x;
        if negb (r =? 0) then Some (-1, u, s)
        else
          let u := NameServer.update_sort_policy u k_now in
          Some (0, NameServer.mk_ns (NameServer.dst u) (NameServer.peers u) (NameServer.active u) (NameServer.online u) (NameServer.best u)
                     (NameServer.changes u) (NameServer.selects u) (NameServer.proxies u) (NameServer.last u) ON_LINE (NameServer.stop u), s).

(** ** The set-up of a network thread

    What the loader and the calls of the kernel return: the library, the result
    of its svc_init if it has one, whether it has svc_recv and svc_send, the
    listening socket, the epoll set, the two blocks of memory. *)
Record thread_calls := mk_calls {
  c_library : bool; c_init : option Z; c_recv : bool; c_send : bool;
  c_listen : Z; c_epoll : Z; c_events : bool; c_iobuf : bool }.

Definition sub_init_signalling (c : thread_calls) : Z :=
  if negb (c_library c) then -1
  else if match c_init c with Some r => r <? 0 | None => false end then -1
  else if c_recv c && c_send c then 0 else -1.

(** [pfs_signalling_thread] up to its loop: -1 when it sets [stop] and ends, else
    the listening socket, 0 without a port. *)
Definition signalling_setup (c : thread_calls) (a : t_thread_arg) : Z :=
  if negb (sub_init_signalling c =? 0) then -1
  else if (0 <? port a) && (c_listen c <? 0) then -1
  else if c_epoll c <? 0 then -1
  else if negb (c_events c) then -1
  else if negb (c_iobuf c) then -1
  else if 0 <? port a then c_listen c else 0.

(** ** Storage directories *)

Definition CB_MAXFREE : Z := 2.
Definition CB_SYNC_FD : Z := 3.

(** The loop over the directories; a failure is passed over in a test server. *)
Fixpoint make_storage (test : Z) (f : fs) (datadir : bytes) (l : list (Z * Z)) : option (Z * fs) :=
  match l with
  | [] => Some (0, f)
  | (d1, d2) :: l' =>
      let outdir := Disk.outdir_of datadir d1 d2 in
      if 256 <=? zlen outdir then None
      else
        let '(r, f) := LocalFile.createdir f outdir in
        if negb (r =? 0) && (test =? 0) then Some (-1, f) else make_storage test f datadir l'
  end.

Definition add_timer (s : server) (cb : Z) : Z * server :=
  let '(r, t) := Timer.add_to_delay_task (timers s) (Timer.mk_timer cb [] 0 600 1) k_node k_now in (r, with_timers s t).

Definition init_storage_dir (s : server) : option (Z * server) :=
  let g := glob s in
  let dirs := Disk.all_dirs (DIR1 g) (DIR2 g) in
  '(r, f) ← make_storage (Config.pfs_test (cfg s)) (sys s) (datadir g) dirs;
  let zero := Disk.mk_disks (replicate 32 Disk.empty_disk) (Disk.max_disk (diskt s)) 0 in
  let s := with_disks (with_sys s f) zero in
  if r <? 0 then Some (-1, s)
  else
    let '(r, ds) := Disk.refresh_disk_info (DIR1 g) (DIR2 g) (datadir g) k_probe zero in
    if negb (r =? 0) then Some (-1, with_disks s ds)
    else
      let '(role, ip, d) := self s in
      let '(ds, d) := Disk.refresh_maxfreedisk k_stat (Config.pfs_test (cfg s)) k_coin ds d in
      let '(r, s) := add_timer (with_self (with_disks s ds) (role, ip, d)) CB_MAXFREE in
      Some (if negb (r =? 0) then -1 else 0, s).

(** [init_pfs_time_stamp] (network/pfs_time_stamp.c). *)
Definition init_pfs_time_stamp (s : server) : option (Z * server) :=
  v ← getval s (str "pfs_path");
  let tmpfile := snprintf 256 (default (str "../data") v ++ str "/pfs_time_stamp") in
  Some match open_create (sys s) tmpfile with
       | (inr _, f) => (-1, with_sys s f)
       | (inl fd, f) =>
           let f := match fds f !! fd with
                    | Some (i, _) => mk_fs (paths f) (<[i := TimeStamp.init_pfs_time_stamp (DIR1 (glob s)) (DIR2 (glob s)) (default [] (inodes f !! i))]> (inodes f))
                                       (times f) (dirs f) (fds f) (next f)
                    | None => f
                    end in
           (0, snd (add_timer (with_sys s f) CB_SYNC_FD))
       end.

(** ** Threads *)

(** The functions threads run. *)
Definition SIGNALLING_THREAD : Z := 1.
Definition AGENT_THREAD : Z := 2.

(** [arg] is at the address [a], in the frame of [main]. *)
Definition init_pfs_thread (a : Z) (arg : t_thread_arg) (s : server) : Z * server :=
  let '(r, p) := Thread.register_thread (thr s) (aname arg) SIGNALLING_THREAD a k_thread in
  (if r <? 0 then r else 0, with_thr s p (<[a := arg]> (args s))).
Definition init_pfs_agent (s : server) : Z * server :=
  let '(r, p) := Thread.register_thread (thr s) (str "pfs_agent") AGENT_THREAD 0 k_thread in
  (if r <? 0 then r else 0, with_thr s p (args s)).

(** The two threads of a storage server's data. *)
Definition data_threads (s : server) : option (Z * server) :=
  '(m, s) ← getint s "pfs_data_maxevent" 4096;
  let '(r, s) := init_pfs_thread 2 (mk_arg 1 (str "./pfs_data.so") (data_port (glob s)) m 1) s in
  if negb (r =? 0) then Some (-1, s)
  else
    '(m, s) ← getint s "pfs_data_maxevent" 4096;
    let '(r, s) := init_pfs_thread 3 (mk_arg 1 (str "./pfs_up.so") (up_port (glob s)) m 1) s in
    Some (if negb (r =? 0) then -1 else 0, s).

(** [main], from [init_pfs_agent] until the threads are started. *)
Definition begin_role (role : Z) (s : server) : option (Z * server) :=
  let '(r, s) := if role =? Domain.ROLE_POSS_MASTER then (0, s) else init_pfs_agent s in
  if r <? 0 then Some (-1, s)
  else
    srole ← iprole !! Z.to_nat role;
    '(m, s) ← getint s "pfs_sig_maxevent" 4096;
    let '(r, s) := init_pfs_thread 1 (mk_arg 0 (snprintf 255 (str "./pfs_" ++ srole ++ str "_sig.so")) (sig_port (glob s)) m 1) s in
    if negb (r =? 0) then Some (-1, s)
    else if negb (role =? Domain.ROLE_STORAGE) then Some (0, s)
    else
      '(r, s) ← init_storage_dir s;
      if r <? 0 then Some (-1, s)
      else
        '(r, s) ← data_threads s;
        if r <? 0 then Some (-1, s) else init_pfs_time_stamp s.

(** ** main *)

Definition code (r : Z) (s : server) : option (Z * server) := Some (r, s).
Definition delay_task_init (s : server) : option (Z * server) :=
  let '(r, t) := Timer.delay_task_init k_nodes in Some (r, with_timers s t).
Definition init_thread (s : server) : option (Z * server) :=
  let '(r, p) := Thread.init_thread k_thread k_tid in Some (r, with_thr s p (args s)).

(** The macro [ICALL], call after call. *)
Fixpoint icalls (l : list (server -> option (Z * server))) (s : server) : option (Z * server) :=
  match l with
  | [] => Some (0, s)
  | f :: l' => '(r, s) ← f s; if r <? 0 then Some (r, s) else icalls l' s
  end.
Definition icall_list : list (server -> option (Z * server)) :=
  let '(w, l, f, t) := k_codes in
  [code w; code l; init_glog; code f; delay_task_init; init_thread; init_global; pfs_init; code t].

Definition get_self_role (s : server) : option (Z * server) :=
  let '(role, ip, d) := Domain.get_self_role_ip_domain (net s) in
  d ← match d with Some a => Domain.domains (net s) !! a | None => Some (snd (self s)) end;
  Some (role, with_self s (role, default 0 ip, d)).

(** [main] until the threads run: -1, or the role. *)
Definition start (argv : list bytes) (s : server) : option (Z * server) :=
  '(r, c) ← MyConfig.myconfig_init (conf s) argv;
  let s := with_conf s c in
  if r <? 0 then Some (-1, s)
  else
    '(r, s) ← icalls icall_list s;
    if r <? 0 then Some (-1, s)
    else
      '(role, s) ← get_self_role s;
      if (role <=? Domain.ROLE_UNKOWN) || (Domain.SELF_IP <=? role) then Some (-1, s)
      else
        '(r, s) ← begin_role role s;
        if r <? 0 then Some (-1, s)
        else match Thread.start_threads k_create (thr s) with
             | Some p => Some (role, with_thr s p (args s))
             | None => Some (-1, s)
             end.

(** ** The directories of a storage server *)

Lemma parent_app pre c : 0 < zlen pre -> parent (pre ++ [c]) = if c =? 47 then pre else parent pre.
Proof.
  intros Hp. unfold parent. destruct (Z.eqb_spec c 47) as [->|Hc].
  - rewrite (strrchr_app_r pre [] 47) by apply not_elem_of_nil. destruct (length pre) as [|n] eqn:El; [simpl in Hp; lia|].
    by rewrite <- El, take_app_length.
  - destruct (strrchr pre 47) as [j|] eqn:Ej.
    + apply strrchr_Some in Ej as [Ej Hj]. pose proof (lookup_lt_Some _ _ _ Ej) as Hlt.
      assert (strrchr (pre ++ [c]) 47 = Some j) as ->.
      { apply strrchr_Some. split; [by rewrite lookup_app_l|]. rewrite drop_app_le by lia.
        intros [?|Hin]%elem_of_app; [done|]. apply list_elem_of_singleton in Hin. congruence. }
      destruct j; [done|]. by rewrite take_app_le by lia.
    + assert (strrchr (pre ++ [c]) 47 = None) as ->; [|done].
      apply strrchr_None in Ej. apply strrchr_None. intros [?|Hin]%elem_of_app; [done|]. apply list_elem_of_singleton in Hin. congruence.
Qed.

(** Making what is missing of a path: [grown] says that directories were added
    and nothing else was changed. *)
Definition grown (f f' : fs) : Prop :=
  dirs f ⊆ dirs f' /\ paths f' = paths f /\ inodes f' = inodes f /\ fds f' = fds f /\ next f' = next f.

#[local] Instance grown_pre : PreOrder grown.
Proof. split; [by intros f|]. intros f1 f2 f3 (A1 & B1 & C1 & D1 & E1) (A2 & B2 & C2 & D2 & E2). split_and!; [set_solver|congruence..]. Qed.

Hypothesis k_mkdir_ok : forall p, k_mkdir p = true.

Lemma createdir_made rest : forall f pre, 0 < zlen pre -> parent pre ∈ dirs f ->
  (forall p, p `prefix_of` pre ++ rest -> paths f !! p = None) ->
  exists f', LocalFile.createdir_loop f pre rest = (0, f') /\ grown f f' /\
    (forall q, rest <> [] -> pre ++ rest = q ++ [47] -> q ∈ dirs f').
Proof.
  induction rest as [|c rest IH]; intros f pre Hpre Hpar Hp; cbn [LocalFile.createdir_loop]; [by exists f|].
  assert (Hrest : forall f1, grown f f1 -> (c = 47 -> pre ∈ dirs f1) -> exists f', LocalFile.createdir_loop f1 (pre ++ [c]) rest = (0, f') /\ grown f f' /\
    (forall q, c :: rest <> [] -> pre ++ c :: rest = q ++ [47] -> q ∈ dirs f')).
  { intros f1 G Hd. pose proof G as (Gd & Gp & _). destruct (IH f1 (pre ++ [c])) as (f' & E & G' & Hq).
    - rewrite length_app. simpl. lia.
    - rewrite parent_app by done. destruct (Z.eqb_spec c 47); [by apply Hd|by apply Gd].
    - intros p Hpp. rewrite Gp. apply Hp. by rewrite <- app_assoc in Hpp.
    - exists f'. split; [done|]. split; [by etransitivity|]. intros q _ Eq. destruct rest as [|c' rest].
      + apply app_inj_tail in Eq as [-> ->]. destruct G' as (Gd' & _). by apply Gd', Hd.
      + apply Hq; [done|]. by rewrite <- app_assoc. }
  destruct (Z.eqb_spec c 47) as [->|Hc]; [|apply Hrest; [reflexivity|done]].
  unfold access. rewrite (Hp pre) by (by apply prefix_app_r). rewrite (bool_decide_false (is_Some None)) by (by intros [? ?]). rewrite orb_false_r.
  destruct (bool_decide (pre ∈ dirs f)) eqn:Ed; [apply bool_decide_eq_true in Ed; by apply Hrest|].
  unfold mkdir. rewrite k_mkdir_ok, bool_decide_true by done. unfold access. rewrite Ed, (Hp pre) by (by apply prefix_app_r).
  rewrite (bool_decide_false (is_Some None)) by (by intros [? ?]). cbn [negb andb orb].
  apply Hrest; [split_and!; [cbn; set_solver|done..]|intros _; cbn; set_solver].
Qed.

(** The name of a directory of the store. *)
Definition dir_of (datadir : bytes) (d1 d2 : Z) : bytes := datadir ++ str "/" ++ dec d1 ++ str "/" ++ dec d2.

Lemma outdir_dir datadir d1 d2 : Disk.outdir_of datadir d1 d2 = dir_of datadir d1 d2 ++ [47].
Proof. unfold Disk.outdir_of, dir_of. by rewrite <- !app_assoc. Qed.

Lemma length_outdir datadir d1 d2 : 0 <= d1 <= Disk.TOTALDIRS -> 0 <= d2 <= Disk.TOTALDIRS -> zlen datadir < 240 -> zlen (Disk.outdir_of datadir d1 d2) < 256.
Proof.
  unfold Disk.TOTALDIRS. intros H1 H2 Hd. unfold Disk.outdir_of. rewrite !length_app, !dec_nonneg by lia. cbn [length str].
  pose proof (length_udec d1 4) as L1. pose proof (length_udec d2 4) as L2. change (length (str "/")) with 1%nat. lia.
Qed.

Lemma make_storage_spec test c d dirs0 : zlen (c :: d) < 240 -> c = 47 ->
  (forall d1 d2, (d1, d2) ∈ dirs0 -> 0 <= d1 <= Disk.TOTALDIRS /\ 0 <= d2 <= Disk.TOTALDIRS) ->
  forall f, [47] ∈ dirs f ->
  (forall d1 d2 p, (d1, d2) ∈ dirs0 -> p `prefix_of` Disk.outdir_of (c :: d) d1 d2 -> paths f !! p = None) ->
  exists f', make_storage test f (c :: d) dirs0 = Some (0, f') /\ grown f f' /\
    forall d1 d2, (d1, d2) ∈ dirs0 -> dir_of (c :: d) d1 d2 ∈ dirs f'.
Proof.
  intros Hl -> Hr. induction dirs0 as [|[d1 d2] l IH]; intros f Hroot Hp; cbn [make_storage].
  { exists f. split; [done|]. split; [reflexivity|]. by intros ? ? ?%not_elem_of_nil. }
  assert (Hin : (d1, d2) ∈ (d1, d2) :: l) by set_solver.
  destruct (Hr _ _ Hin) as [R1 R2]. rewrite (proj2 (Z.leb_gt _ _)) by (by apply length_outdir).
  unfold LocalFile.createdir. set (rest := d ++ str "/" ++ dec d1 ++ str "/" ++ dec d2 ++ str "/").
  change (Disk.outdir_of (47 :: d) d1 d2) with (47 :: rest).
  destruct (createdir_made rest f [47]) as (f1 & -> & G & Hq); [done|exact Hroot|by intros p Hpp; apply (Hp d1 d2 p)|].
  rewrite Z.eqb_refl. cbn [negb andb]. destruct IH with (f := f1) as (f' & E & G' & Hd).
  - intros a b Hab. apply Hr. set_solver.
  - destruct G as (Gd & _). by apply Gd.
  - intros a b p Hab Hpp. destruct G as (_ & -> & _). apply (Hp a b); [set_solver|done].
  - exists f'. split; [done|]. split; [by etransitivity|]. intros a b [[= -> ->]|Hab]%elem_of_cons; [|by apply Hd].
    destruct G' as (Gd' & _). apply Gd', Hq; [by destruct d|]. change ([47] ++ rest) with (Disk.outdir_of (47 :: d) d1 d2). apply outdir_dir.
Qed.

(** What a storage server finds when it starts: an absolute data directory with
    nothing but directories in the way, file systems that answer, a place for the
    file of time stamps. *)
Record storage_ready (s : server) (l : list (bytes * bytes)) : Prop := mk_ready {
  r_dirs : 0 < DIR1 (glob s) /\ 0 < DIR2 (glob s) <= DIR1 (glob s) /\ DIR1 (glob s) * DIR2 (glob s) <= Disk.TOTALDIRS;
  r_data : exists d, datadir (glob s) = 47 :: d;
  r_len : zlen (datadir (glob s)) < 240;
  r_root : [47] ∈ dirs (sys s);
  r_free : forall d1 d2 p, (d1, d2) ∈ Disk.all_dirs (DIR1 (glob s)) (DIR2 (glob s)) ->
             p `prefix_of` Disk.outdir_of (datadir (glob s)) d1 d2 -> paths (sys s) !! p = None;
  r_disk : Disk.max_disk (diskt s) = None;
  r_probe : exists ids, zlen ids <= Domain.MAXDISKS /\
              (forall d1 d2, 0 <= d1 < DIR1 (glob s) -> 0 <= d2 < DIR2 (glob s) -> fst (k_probe d1 d2) ∈ ids) /\
              exists d1 d2, 0 <= d1 < DIR1 (glob s) /\ 0 <= d2 < DIR2 (glob s) /\ snd (k_probe d1 d2) = false;
  r_stamp : let name := snprintf 256 (default (str "../data") (MyConfig.newest (str "pfs_path") l) ++ str "/pfs_time_stamp") in
              k_open name = None /\ parent name ∈ dirs (sys s);
  r_node : exists n, k_node = Some n
}.

(** The parts of the server that a step leaves as they were. *)
Definition same_start (s s' : server) : Prop :=
  thr s' = thr s /\ args s' = args s /\ glob s' = glob s /\ cfg s' = cfg s /\ conf s' = conf s.

Lemma add_timer_ok s cb n : k_node = Some n -> exists t, add_timer s cb = (0, with_timers s t).
Proof. intros Hn. unfold add_timer, Timer.add_to_delay_task. rewrite Hn. destruct (Timer.delay_home (timers s)); by eexists. Qed.

Lemma init_storage_dir_spec s l : storage_ready s l ->
  exists s', init_storage_dir s = Some (0, s') /\ same_start s s' /\ grown (sys s) (sys s') /\
    (exists i, Disk.max_disk (diskt s') = Some i) /\
    forall d1 d2, 0 <= d1 < DIR1 (glob s) -> 0 <= d2 < DIR2 (glob s) -> dir_of (datadir (glob s)) d1 d2 ∈ dirs (sys s').
Proof.
  intros [(D1 & D2 & D3) (d & Ed) Hl Hroot Hfree Hdisk (ids & I1 & I2 & I3) _ (n & Hn)]. unfold init_storage_dir.
  destruct (make_storage_spec (Config.pfs_test (cfg s)) 47 d (Disk.all_dirs (DIR1 (glob s)) (DIR2 (glob s)))) with (f := sys s) as (f & E & G & Hd).
  { by rewrite <- Ed. } { done. }
  { intros a b [Ha Hb]%Disk.elem_all_dirs. cbn in *. nia. } { done. } { by rewrite <- Ed. }
  rewrite Ed, E. cbn [mbind option_bind]. rewrite Hdisk.
  destruct (Disk.disk_table_complete (DIR1 (glob s)) (DIR2 (glob s)) (47 :: d) k_probe ids) as (ds & used & i & -> & _); [done..|].
  change (0 <? 0) with false. cbv iota. cbn [self with_disks with_sys with_lgs cfg]. change (negb (0 =? 0)) with false. cbv iota.
  destruct (self s) as [[role ip] dom].
  destruct (Disk.refresh_maxfreedisk k_stat (Config.pfs_test (cfg s)) k_coin ds dom) as [ds1 dom1] eqn:Em.
  match goal with |- context [add_timer ?x _] => destruct (add_timer_ok x CB_MAXFREE n Hn) as (tm & ->) end. eexists. split; [reflexivity|]. split; [done|]. split; [done|].
  split; [|intros a b Ha Hb; by apply Hd, Disk.elem_all_dirs].
  unfold Disk.refresh_maxfreedisk in Em. destruct (Disk.maxfree_loop _ _ _ _ _ _ _ _) as [[a b] j]. injection Em as <- _. by exists j.
Qed.

(** C27: a storage server makes the directories of its store.  When the data
    directory is absolute, no file is in the way and the kernel lets it make
    directories, then after [init_storage_dir] every directory of the store
    exists - the one an upload's temporary file is opened in, which
    [open_tmp_localfile_4_write] itself does not make -, a current disk has been
    chosen, and no file has been touched. *)
Theorem storage_dirs_made s l : storage_ready s l ->
  exists s', init_storage_dir s = Some (0, s') /\
    (forall d1 d2, 0 <= d1 < DIR1 (glob s) -> 0 <= d2 < DIR2 (glob s) -> dir_of (datadir (glob s)) d1 d2 ∈ dirs (sys s')) /\
    dirs (sys s) ⊆ dirs (sys s') /\ paths (sys s') = paths (sys s) /\ inodes (sys s') = inodes (sys s) /\
    exists i, Disk.max_disk (diskt s') = Some i.
Proof.
  intros Hr. destruct (init_storage_dir_spec s l Hr) as (s' & E & _ & (G1 & G2 & G3 & _) & Hi & Hd). by exists s'.
Qed.

(** ** The threads of the roles *)

Lemma getint_spec s l k d : MyConfig.loaded (conf s) l ->
  exists c, getint s k d = Some (Maintain.number l k d, with_conf s c) /\ MyConfig.loaded c l.
Proof.
  intros HL. destruct (MyConfig.get_intval_spec (conf s) l (str k) d HL) as (c & E & L). exists c. unfold getint. by rewrite E.
Qed.

Lemma getval_spec s l k : MyConfig.loaded (conf s) l -> getval s k = Some (MyConfig.newest k l).
Proof. intros [(addrs & H & <-) _ _]. unfold getval. by apply MyConfig.get_value_spec. Qed.

(** Name, function and argument of a thread. *)
Definition thread_at (s : server) (i : Z) : option (bytes * Z * option t_thread_arg) :=
  t ← Thread.threadlist (thr s) !! i; Some (Thread.name t, Thread.entry t, args s !! Thread.arg t).

(** The threads a role runs: the agent, the signalling service, the two data
    services. *)
Definition threads_of (role : Z) (g : globals) (l : list (bytes * bytes)) : list (bytes * Z * option t_thread_arg) :=
  let svc fl so port ev := (take 15 so, SIGNALLING_THREAD, Some (mk_arg fl so port ev 1)) in
  let sig := Maintain.number l "pfs_sig_maxevent" 4096 in let data := Maintain.number l "pfs_data_maxevent" 4096 in
  if role =? Domain.ROLE_POSS_MASTER then [svc 0 (str "./pfs_poss_master_sig.so") (sig_port g) sig]
  else
    (str "pfs_agent", AGENT_THREAD, None) ::
    if role =? Domain.ROLE_NAMESERVER then [svc 0 (str "./pfs_nameserver_sig.so") (sig_port g) sig]
    else [svc 0 (str "./pfs_storage_sig.so") (sig_port g) sig; svc 1 (str "./pfs_data.so") (data_port g) data; svc 1 (str "./pfs_up.so") (up_port g) data].

(** A pool with the threads registered so far behind the main thread. *)
Definition pooled (s : server) (ts : list (bytes * Z * option t_thread_arg)) : Prop :=
  Thread.curid (thr s) = 1 + zlen ts /\ Thread.maxid (thr s) = 16 /\
  forall i, 0 <= i < zlen ts -> thread_at s (1 + i) = ts !! Z.to_nat i.

(** The addresses of arguments from [a] on are not in use; 0 never is. *)
Definition free_args (s : server) (a : Z) : Prop := forall b, b <= 0 \/ a <= b -> args s !! b = None.
(** No thread has one of those addresses. *)
Definition bound_args (s : server) (a : Z) : Prop := forall i t, Thread.threadlist (thr s) !! i = Some t -> Thread.arg t < a.

Record preparing (s : server) (ts : list (bytes * Z * option t_thread_arg)) (a : Z) : Prop := mk_preparing {
  p_pool : pooled s ts; p_free : free_args s a; p_bound : bound_args s a; p_small : zlen ts < 15; p_pos : 0 < a }.

Lemma ready_same s s' l : storage_ready s l -> glob s' = glob s -> sys s' = sys s -> diskt s' = diskt s -> storage_ready s' l.
Proof. intros [R1 R2 R3 R4 R5 R6 R7 R8 R9] Eg Ef Ed. split; rewrite ?Eg, ?Ef, ?Ed; done. Qed.

Hypothesis k_thread_ok : k_thread = true.

(** With an argument, which is at [a], or without. *)
Lemma register_spec s ts a nm e al : preparing s ts a ->
  let x := match al with Some _ => a | None => 0 end in let a' := match al with Some _ => a + 1 | None => a end in
  exists p, Thread.register_thread (thr s) nm e x k_thread = (0, p) /\
    let s' := with_thr s p (match al with Some v => <[a := v]> (args s) | None => args s end) in
    pooled s' (ts ++ [(take 15 nm, e, al)]) /\ free_args s' a' /\ bound_args s' a'.
Proof.
  intros [(P1 & P2 & P3) Pf Pb Ps Pp] x a'. unfold Thread.register_thread. rewrite k_thread_ok, (proj2 (Z.leb_gt _ _)) by lia.
  eexists. split; [reflexivity|]. cbv zeta. rewrite P1. split; [split_and!|split].
  - cbn. rewrite length_app. cbn [length]. lia.
  - done.
  - intros i Hi. rewrite length_app in Hi. cbn [length] in Hi. unfold thread_at. cbn [thr with_thr Thread.threadlist args].
    destruct (decide (i = zlen ts)) as [->|Hne].
    + rewrite lookup_insert_eq, lookup_app_r, Nat2Z.id, Nat.sub_diag by lia. cbn. do 2 f_equal.
      unfold x. destruct al; [by rewrite lookup_insert_eq|apply Pf; by left].
    + rewrite lookup_insert_ne, lookup_app_l by lia. rewrite <- P3 by lia. unfold thread_at.
      destruct (Thread.threadlist (thr s) !! (1 + i)) as [t|] eqn:Et; [|done]. cbn. do 2 f_equal.
      destruct al; [|done]. rewrite lookup_insert_ne; [done|]. apply Pb in Et. lia.
  - intros b Hb. cbn. unfold a' in Hb. destruct al; [rewrite lookup_insert_ne by lia|]; apply Pf; lia.
  - intros i t. cbn. destruct (decide (i = 1 + zlen ts)) as [->|Hne].
    + rewrite lookup_insert_eq. intros [= <-]. cbn. unfold x, a'. destruct al; lia.
    + rewrite lookup_insert_ne by done. intros Hi%Pb. unfold a'. destruct al; lia.
Qed.

Lemma preparing_same s s' ts a : preparing s ts a -> thr s' = thr s -> args s' = args s -> preparing s' ts a.
Proof.
  intros [(P1 & P2 & P3) Pf Pb Ps Pp] Et Ea. split; [|unfold free_args; by rewrite Ea|unfold bound_args; by rewrite Et|done|done].
  split_and!; [by rewrite Et|by rewrite Et|]. intros i Hi. unfold thread_at. rewrite Et, Ea. by apply P3.
Qed.

(** A service's thread is registered, at the next address. *)
Lemma init_thread_spec s ts a v : preparing s ts a -> zlen ts < 14 ->
  exists p, init_pfs_thread a v s = (0, with_thr s p (<[a := v]> (args s))) /\
    preparing (with_thr s p (<[a := v]> (args s))) (ts ++ [(take 15 (aname v), SIGNALLING_THREAD, Some v)]) (a + 1).
Proof.
  intros P Hl. destruct (register_spec s ts a (aname v) SIGNALLING_THREAD (Some v) P) as (p & E & Q1 & Q2 & Q3).
  exists p. unfold init_pfs_thread. rewrite E. split; [done|].
  split; [done..| |]; [rewrite length_app; simpl; lia|]. pose proof (p_pos _ _ _ P). lia.
Qed.

Lemma init_agent_spec s ts a : preparing s ts a -> zlen ts < 14 ->
  exists p, init_pfs_agent s = (0, with_thr s p (args s)) /\
    preparing (with_thr s p (args s)) (ts ++ [(str "pfs_agent", AGENT_THREAD, None)]) a.
Proof.
  intros P Hl. destruct (register_spec s ts a (str "pfs_agent") AGENT_THREAD None P) as (p & E & Q1 & Q2 & Q3).
  exists p. unfold init_pfs_agent. rewrite E. split; [done|]. pose proof (p_pos _ _ _ P).
  split; [done..| |done]. rewrite length_app; simpl; lia.
Qed.

Lemma time_stamp_spec s l : MyConfig.loaded (conf s) l -> (exists n, k_node = Some n) ->
  (let name := snprintf 256 (default (str "../data") (MyConfig.newest (str "pfs_path") l) ++ str "/pfs_time_stamp") in
   k_open name = None /\ parent name ∈ dirs (sys s)) ->
  exists s', init_pfs_time_stamp s = Some (0, s') /\ thr s' = thr s /\ args s' = args s.
Proof.
  intros HL (n & Hn) [Ho Hd]. unfold init_pfs_time_stamp. rewrite (getval_spec s l) by done. cbn [mbind option_bind].
  set (name := snprintf 256 _) in *. unfold open_create. rewrite Ho, bool_decide_true by done.
  destruct (paths (sys s) !! name); match goal with |- context [add_timer ?x _] => destruct (add_timer_ok x CB_SYNC_FD n Hn) as (tm & ->) end;
    by eexists.
Qed.

Lemma data_threads_spec s l ts : MyConfig.loaded (conf s) l -> preparing s ts 2 -> zlen ts < 12 ->
  exists s', data_threads s = Some (0, s') /\ MyConfig.loaded (conf s') l /\ glob s' = glob s /\ sys s' = sys s /\
    preparing s' (ts ++ [(take 15 (str "./pfs_data.so"), SIGNALLING_THREAD, Some (mk_arg 1 (str "./pfs_data.so") (data_port (glob s)) (Maintain.number l "pfs_data_maxevent" 4096) 1));
                         (take 15 (str "./pfs_up.so"), SIGNALLING_THREAD, Some (mk_arg 1 (str "./pfs_up.so") (up_port (glob s)) (Maintain.number l "pfs_data_maxevent" 4096) 1))]) 4.
Proof.
  intros HL P Hl. unfold data_threads. destruct (getint_spec s l "pfs_data_maxevent" 4096 HL) as (c & -> & Lc). cbn [mbind option_bind].
  assert (P1 : preparing (with_conf s c) ts 2) by (by apply (preparing_same s)).
  match goal with |- context [init_pfs_thread 2 ?v _] => destruct (init_thread_spec _ ts 2 v P1) as (p & -> & P2); [lia|] end.
  change (negb (0 =? 0)) with false. cbv iota.
  match goal with |- context [getint ?x _ _] => destruct (getint_spec x l "pfs_data_maxevent" 4096 Lc) as (c2 & -> & Lc2); set (s2 := x) in * end. cbn [mbind option_bind].
  assert (P3 : preparing (with_conf s2 c2) _ 3) by (by apply (preparing_same s2); [exact P2|..]).
  match goal with |- context [init_pfs_thread 3 ?v _] => destruct (init_thread_spec _ _ 3 v P3) as (p2 & -> & P4); [rewrite length_app; simpl; lia|] end.
  rewrite <- app_assoc in P4. eexists. split; [reflexivity|]. split; [done|]. split; [done|]. split; [done|]. exact P4.
Qed.

Lemma first_threads s : thr s = snd (Thread.init_thread true k_tid) -> args s = ∅ -> preparing s [] 1.
Proof.
  intros Et Ea. split; [split_and!|..]; [by rewrite Et|by rewrite Et|intros i Hi; simpl in Hi; lia|..]; [| |done|lia].
  - intros b _. by rewrite Ea, lookup_empty.
  - intros i t. rewrite Et. cbn. intros [_ <-]%lookup_singleton_Some. done.
Qed.

Lemma begin_role_spec role s l : MyConfig.loaded (conf s) l -> preparing s [] 1 -> 1 <= role <= 3 -> (role = Domain.ROLE_STORAGE -> storage_ready s l) ->
  exists s', begin_role role s = Some (0, s') /\ pooled s' (threads_of role (glob s) l).
Proof.
  intros HL P Hr Hst. unfold begin_role.
  assert (exists s1 ts, (if role =? Domain.ROLE_POSS_MASTER then (0, s) else init_pfs_agent s) = (0, s1) /\ preparing s1 ts 1 /\
    ts = (if role =? Domain.ROLE_POSS_MASTER then [] else [(str "pfs_agent", AGENT_THREAD, None)]) /\
    conf s1 = conf s /\ glob s1 = glob s /\ sys s1 = sys s /\ diskt s1 = diskt s) as (s1 & ts & -> & P1 & Ets & E1 & E2 & E3 & E4).
  { destruct (role =? Domain.ROLE_POSS_MASTER); [by exists s, []|]. destruct (init_agent_spec s [] 1 P) as (p & -> & P1); [done|]. by do 2 eexists. }
  change (0 <? 0) with false. cbv iota. rewrite <- E1 in HL.
  assert (Hl : zlen ts < 2) by (subst ts; by destruct (role =? _)).
  assert (exists nm, iprole !! Z.to_nat role = Some nm /\ zlen nm < 200) as (nm & Enm & Hnm).
  { assert (role = 1 \/ role = 2 \/ role = 3) as [->|[->| ->]] by lia; (eexists; split; [reflexivity|done]). }
  rewrite Enm. cbn [mbind option_bind]. destruct (getint_spec s1 l "pfs_sig_maxevent" 4096 HL) as (c & -> & Lc). cbn [mbind option_bind].
  assert (P2 : preparing (with_conf s1 c) ts 1) by (by apply (preparing_same s1)).
  match goal with |- context [init_pfs_thread 1 ?v _] => destruct (init_thread_spec _ ts 1 v P2) as (p & -> & P3); [lia|] end.
  change (negb (0 =? 0)) with false. cbv iota. cbn [glob with_conf] in *. rewrite E2 in *.
  match goal with |- context [Some (0, ?x)] => set (s2 := x) in * end. destruct (Z.eqb_spec role Domain.ROLE_STORAGE) as [->|Hns]; cbn [negb].
  - cbn in Enm. injection Enm as <-. assert (R2 : storage_ready s2 l) by (by apply (ready_same s); [apply Hst|..]).
    destruct (init_storage_dir_spec s2 l R2) as (s3 & -> & (St & Sa & Sg & _ & Sc) & (Gd & _) & _). cbn [mbind option_bind]. change (0 <? 0) with false. cbv iota.
    assert (L3 : MyConfig.loaded (conf s3) l) by (by rewrite Sc). assert (P4 : preparing s3 _ 2) by (apply (preparing_same s2); [exact P3|done..]).
    destruct (data_threads_spec s3 l _ L3 P4) as (s4 & -> & L4 & Eg & Es & P5); [rewrite length_app; simpl; lia|].
    cbn [mbind option_bind]. change (0 <? 0) with false. cbv iota.
    destruct (time_stamp_spec s4 l L4) as (s5 & -> & Et & Ea); [by destruct R2| |].
    { destruct R2 as [_ _ _ _ _ _ _ [Ho Hp] _]. cbv zeta. rewrite Es. split; [exact Ho|by apply Gd]. }
    exists s5. split; [done|]. apply (preparing_same s4 s5) in P5; [|done..]. destruct P5 as [P5 _ _ _ _].
    rewrite Sg in P5. change (glob s2) with (glob s1) in P5. rewrite E2 in P5. subst ts. exact P5.
  - exists s2. split; [done|]. assert (role = 2 \/ role = 3) as [->| ->] by (unfold Domain.ROLE_STORAGE in Hns; lia);
      cbn in Enm; injection Enm as <-; subst ts; destruct P3 as [P3 _ _ _ _]; exact P3.
Qed.

Lemma start_from_spec n : forall i p, (forall j, is_Some (k_create j)) ->
  exists q, Thread.start_from k_create n i p = Some q /\
    (forall j, j < i \/ i + Z.of_nat n <= j -> Thread.threadlist q !! j = Thread.threadlist p !! j) /\
    (forall j t, i <= j < i + Z.of_nat n -> Thread.threadlist p !! j = Some t ->
       exists h, k_create j = Some h /\ Thread.threadlist q !! j =
         Some (Thread.mk_thread (Thread.name t) (Thread.entry t) (Thread.arg t) h (Thread.pid t) (Thread.id t) Thread.THREAD_STARTING (Thread.rv t))).
Proof.
  induction n as [|n IH]; intros i p Hc; cbn [Thread.start_from]; [exists p; split; [done|]; split; [done|intros; lia]|].
  unfold Thread.start_thread_posix. destruct (Hc i) as [h Eh]. rewrite Eh. cbn [mbind option_bind].
  match goal with |- context [Thread.start_from k_create n (i + 1) ?x] => set (p1 := x) end.
  destruct (IH (i + 1) p1 Hc) as (q & -> & Q1 & Q2). exists q. split; [done|].
  assert (Hne : forall j, j <> i -> Thread.threadlist p1 !! j = Thread.threadlist p !! j) by (intros j Hj; cbn; by rewrite !lookup_alter_ne).
  split.
  - intros j Hj. rewrite Q1 by lia. apply Hne. lia.
  - intros j t Hj Ht. destruct (decide (j = i)) as [->|Hji].
    + exists h. split; [done|]. rewrite Q1 by lia. cbn. by rewrite !lookup_alter_eq, Ht.
    + apply Q2; [lia|]. by rewrite Hne.
Qed.


(** ** Initialisation that fails *)

Lemma multi_spec s l k : MyConfig.loaded (conf s) l -> multi s k = Some (MyConfig.values k l).
Proof.
  intros [(addrs & H & <-) _ _]. unfold multi. set (vs := MyConfig.values k (MyConfig.log (MyConfig.entries (conf s)) addrs)).
  assert (Hl : (length vs <= size (MyConfig.entries (conf s)))%nat).
  { transitivity (length addrs).
    - unfold vs, MyConfig.values, MyConfig.log. rewrite length_rev, length_fmap. etransitivity; [apply length_filter|].
      clear. induction addrs as [|a l' IH]; [done|]. cbn. destruct (MyConfig.pair_at _ a); cbn; lia.
    - rewrite <- size_dom, <- (size_list_to_set (C := gset Z)) by apply (MyConfig.h_nodup _ _ H). apply subseteq_size.
      intros a Ha. apply elem_of_list_to_set in Ha. apply elem_of_dom. by apply (MyConfig.h_dom _ _ H). }
  assert (Hgen : forall fuel i, 0 <= i -> multi_from fuel s k i = Some (take fuel (drop (Z.to_nat i) vs))).
  { induction fuel as [|fuel IH]; intros i Hi; cbn [multi_from]; [done|].
    rewrite (MyConfig.get_multivalue_spec _ addrs) by done. fold vs. cbn [mbind option_bind].
    destruct (vs !! Z.to_nat i) as [v|] eqn:Ev.
    - rewrite IH by lia. cbn [mbind option_bind]. rewrite (drop_S _ _ _ Ev). replace (Z.to_nat (i + 1)) with (S (Z.to_nat i)) by lia. done.
    - apply lookup_ge_None in Ev. by rewrite drop_ge by done. }
  rewrite Hgen by done. change (Z.to_nat 0) with O. by rewrite drop_0, take_ge by lia.
Qed.

(** The name servers of the configuration enter the address table; groups and
    domains are not touched. *)
Lemma init_ns_spec vals : (forall a, k_alloc a = true) -> forall d i ns, 0 <= i -> i + zlen vals <= Domain.MAX_NAMESERVER ->
  exists ns' d', Domain.init_ns_loop k_alloc k_resolve d i ns vals = Some (0, ns', d') /\
    Domain.alldomain d' = Domain.alldomain d /\ Domain.grouplist d' = Domain.grouplist d /\ Domain.domains d' = Domain.domains d.
Proof.
  intros Ha. induction vals as [|v vals IH]; intros d i ns Hi Hl; cbn [Domain.init_ns_loop]; [by exists ns, d|].
  cbn [length] in Hl. rewrite (proj2 (Z.leb_gt _ _)) by lia. destruct (Ip.get_uint32_ip k_resolve v) as [u sx].
  unfold Domain.add_ip_2_pfs, Domain.malloc. rewrite Ha. change (negb (0 =? 0)) with false. cbv iota.
  match goal with |- context [Domain.init_ns_loop _ _ ?x _ ?y _] => destruct (IH x (i + 1) y) as (ns' & d' & E & A1 & A2 & A3); [lia..|] end.
  exists ns', d'. split; [exact E|]. split_and!; [by rewrite A1|by rewrite A2|by rewrite A3].
Qed.

(** C37: a failure of [pfs_init] goes unnoticed.  It returns 0 or 1 and is tested
    for values below 0.  So without poss_server_ip in the configuration the
    groups and the file filter are never read, the calls after it go on all the
    same, and a name server starts all its threads without a single domain to
    recommend. *)
Theorem init_failure_unnoticed s l ifs :
  MyConfig.loaded (conf s) l -> MyConfig.newest (str "poss_server_ip") l = None -> k_ifaces = Some ifs -> (forall a, k_alloc a = true) ->
  zlen (MyConfig.values (str "iplist_nameserver") l) <= Domain.MAX_NAMESERVER -> Domain.alldomain (net s) = [] ->
  thr s = snd (Thread.init_thread true k_tid) -> args s = ∅ ->
  exists s', pfs_init s = Some (1, s') /\ (forall rest, icalls (pfs_init :: rest) s = icalls rest s') /\
    Domain.grouplist (net s') = [] /\ Domain.alldomain (net s') = [] /\ filter s' = filter s /\
    exists s'', begin_role Domain.ROLE_NAMESERVER s' = Some (0, s'') /\ pooled s'' (threads_of Domain.ROLE_NAMESERVER (glob s) l).
Proof.
  intros HL Hp Hif Ha Hv Hd Ht Har.
  assert (exists s', pfs_init s = Some (1, s') /\ Domain.grouplist (net s') = [] /\ Domain.alldomain (net s') = [] /\ filter s' = filter s /\
    conf s' = conf s /\ thr s' = thr s /\ args s' = args s /\ glob s' = glob s) as (s' & E & G1 & G2 & G3 & G4 & G5 & G6 & G7).
  { unfold pfs_init. cbn [any_of]. unfold init_local_ip. rewrite Hif. cbn [mbind option_bind]. change (negb (0 =? 0)) with false. cbv iota.
    match goal with |- context [init_nameserver ?x] => set (s1 := x) end. unfold init_nameserver.
    rewrite (multi_spec s1 l) by done. cbn [mbind option_bind]. unfold Domain.init_nameserver.
    destruct (init_ns_spec (MyConfig.values (str "iplist_nameserver") l) Ha (net s1) 0 []) as (ns & d & -> & A1 & A2 & A3); [done|lia|].
    cbn [mbind option_bind]. change (negb (0 =? 0)) with false. cbv iota.
    match goal with |- context [init_poss ?x] => set (s2 := x) end. unfold init_poss.
    rewrite (getval_spec s2 l) by done. cbn [mbind option_bind]. rewrite Hp. cbn [mbind option_bind].
    change (negb (-1 =? 0)) with true. cbv iota. exists s2. split; [done|]. split; [exact A2|]. split; [cbn; rewrite A1; exact Hd|]. done. }
  exists s'. split; [done|]. split; [intros rest; cbn [icalls]; by rewrite E|]. split; [done|]. split; [done|]. split; [done|].
  rewrite <- G7. apply begin_role_spec; [by rewrite G4| |done|done].
  apply first_threads; [by rewrite G5|by rewrite G6].
Qed.

End Boot.

(** ** Witnesses *)

#[local] Existing Instances LocalFile.demo_kernel MyConfig.demo_surroundings.

Definition demo_boot : Boot :=
  mk_boot 1000 true (fun _ _ => 0) (Some [(str "lo", 16777343); (str "eth0", 33663168)]) (Some (str "65534 65534")) (fun _ => None)
    (fun _ => None) true (fun _ => true) true (Some [100; 200; 300]) (Some 400) (0, 0, 0, 0) (fun i => Some (7000 + i)) 42
    (fun d1 d2 => (if d1 =? 0 then 11 else 22, false)) (fun _ => Some (1000, 4096)) (fun _ => false).
#[local] Existing Instance demo_boot.

Definition demo_globals : globals := mk_globals 39090 49090 59090 5 10 65536 1 65534 65534 (str "/data") 2 2 0 (str "/pfs") [] [].

(** A server whose configuration is loaded and whose thread table is new. *)
Definition demo_server : server :=
  mk_server MyConfig.demo_store (Log.mk_logs [] (mk_fs ∅ ∅ ∅ {[ str "/"; str "../data" ]} ∅ 10))
    (snd (Thread.init_thread true 42)) ∅ Domain.demo_state [] ([], 0) demo_globals (Config.reload_config (fun _ d => d)) None
    (Disk.mk_disks (replicate 32 Disk.empty_disk) None 0) (Timer.mk_state [] []) (0, 0, Domain.new_domain []).

Definition demo_conf : list (bytes * bytes) :=
  rev (map (MyConfig.full []) MyConfig.demo_top ++ concat (map MyConfig.sec_pairs MyConfig.demo_secs)).

Lemma demo_mkdir p : k_mkdir p = true.
Proof. done. Qed.

Lemma demo_start_ready : storage_ready demo_server demo_conf.
Proof.
  apply mk_ready.
  - done.
  - by exists (str "data").
  - done.
  - apply (bool_decide_unpack _). vm_compute. exact I.
  - done.
  - done.
  - exists [11; 22]. split; [done|]. split; [|by exists 0, 0].
    intros d1 d2 _ _. cbn. destruct (d1 =? 0); set_solver.
  - split; [done|]. apply (bool_decide_unpack _). vm_compute. exact I.
  - by exists 400.
Qed.

Lemma storage_dirs_made_witness :
  exists s', init_storage_dir demo_server = Some (0, s') /\
    (forall d1 d2, 0 <= d1 < 2 -> 0 <= d2 < 2 -> dir_of (str "/data") d1 d2 ∈ dirs (sys s')) /\
    dirs (sys demo_server) ⊆ dirs (sys s') /\ paths (sys s') = paths (sys demo_server) /\ inodes (sys s') = inodes (sys demo_server) /\
    exists i, Disk.max_disk (diskt s') = Some i.
Proof. apply (storage_dirs_made demo_mkdir demo_server demo_conf demo_start_ready). Defined.


Lemma init_failure_unnoticed_witness :
  exists s', pfs_init demo_server = Some (1, s') /\ (forall rest, icalls (pfs_init :: rest) demo_server = icalls rest s') /\
    Domain.grouplist (net s') = [] /\ Domain.alldomain (net s') = [] /\ filter s' = None /\
    exists s'', begin_role Domain.ROLE_NAMESERVER s' = Some (0, s'') /\ pooled s'' (threads_of Domain.ROLE_NAMESERVER demo_globals demo_conf).
Proof.
  eapply (init_failure_unnoticed demo_mkdir (eq_refl : k_thread (Boot := demo_boot) = true) demo_server demo_conf _ MyConfig.demo_loaded);
    [vm_compute; reflexivity|reflexivity|reflexivity|vm_compute; discriminate|reflexivity|reflexivity|reflexivity].
Defined.

End Main.
