(* ===== verification/PhpClient.v ===== *)
(** * The PHP extension (php_client/pfs_client.c)

    The four functions a PHP program calls, over the client library ([Client]).
    What zend_parse_parameters gives is an argument, [None] when it fails; what a
    function returns is the array it fills, with the keys in the order in which
    they are added.  [None]: a table is read outside of its bounds, or the script
    of [Client] is used up. *)

From S2P Require Import Prelude.
From S2P Require Import CString.
From S2P Require Import Codec.
From S2P Require Import MyBuff.
From S2P Require Import LocalFile.
From S2P Require Import EventLoop.
From S2P Require Import Client.

Module Php.
Import Client MyBuff Conn Loop Fs.

Definition ADD_DOMAIN_BNAME : Z := 3.
Definition ADD_PATH_BY_BNAME : Z := 2.
Definition ADD_QUERY_DIR : Z := 5.
Definition ADD_SET_DOMAIN : Z := 1.
Definition DEFAULT_UP_PORT : Z := 49711.

(** [pfserrmsg] of lib/pfs_api.c. *)
Definition pfserrmsg : list bytes :=
  [str "OK"; []; []; str "PFS_CON_NAMESERVER"; str "PFS_CON_STORAGE"; str "PFS_LOCAL_FILE"; str "PFS_SERVER_ERR";
   str "PFS_ERR_TYPE"; str "PFS_ERR_INFO_UNCOM"; str "PFS_REALPATH"; str "PFS_STORAGE_FILE"].
Definition errmsgs : list bytes :=
  [str "OK"; str "zend_parse_parameters ERR"; str "domain err:unknown host"; str "flag range err"].

Inductive value := Long (n : Z) | Text (s : bytes).
Definition array : Type := list (bytes * value).

(** The two entries of an error found before the call. *)
Definition refusal (code : nat) : array :=
  [(str "retcode", Long (Z.of_nat code)); (str "retmsg", Text (default [] (errmsgs !! code)))].

Section Functions.
Context {E : Env} {K : Kernel} (gethostbyname : bytes -> option (list bytes)).

(** The host and the port behind the colon. *)
Definition get_ip_port (s : bytes) : option (bytes * Z) :=
  let '(host, port) := match strchr s 58 with Some i => (take i s, atoi (drop (S i) s)) | None => (s, DEFAULT_UP_PORT) end in
  let '(u, d) := Ip.get_uint32_ip gethostbyname host in
  if u =? Ip.INADDR_NONE then None else Some (default [] d, port).

Definition zero_api (ty : Z) : t_api_info := mk_api [] [] [] [] ty 0 0.

(** The names of the answer, with the key under which the remote name goes. *)
Definition success (key : string) (ret : Z) (a : t_api_info) : array :=
  [(str "retcode", Long ret); (str "domain", Text (group a)); (str key, Text (remotefile a))].

(** What [pfs_add_file] and [pfs_modify_file] say of a failure: the text of the
    code only when the table has one. *)
Definition failure (ret : Z) (a : t_api_info) : array :=
  [(str "retcode", Long ret); (str "errmsg", Text (errmsg a))] ++
  if (0 <=? ret) && (ret <=? PFS_STORAGE_FILE) then [(str "retmsg", Text (default [] (pfserrmsg !! Z.to_nat ret)))] else [].

Context (t : thread) (f : fs) (sc : script).

Definition pfs_remove_file (para : option (bytes * bytes * bytes)) : option (array * option call) :=
  match para with
  | None => Some (refusal 1, None)
  | Some (server, grp, file) =>
      match get_ip_port server with
      | None => Some (refusal 2, None)
      | Some (ip, port) =>
          let api := mk_api [] [] (snprintf 256 file) (snprintf 128 grp) TASK_DELFILE 0 0 in
          '(ret, c) ← operate_pfs ip port api t f sc;
          if ret <? 0 then None
          else m ← pfserrmsg !! Z.to_nat ret; Some ([(str "retcode", Long ret); (str "retmsg", Text m)], Some c)
      end
  end.

Definition add_types (flag : Z) : Z * Z :=
  if flag =? ADD_PATH_BY_BNAME then (ADD_PATH_BY_BNAME, 0)
  else if flag =? ADD_SET_DOMAIN then (0, ADD_SET_DOMAIN)
  else if flag =? ADD_DOMAIN_BNAME then (ADD_PATH_BY_BNAME, ADD_SET_DOMAIN)
  else (0, 0).

Definition pfs_add_file (para : option (bytes * bytes * bytes * Z)) : option (array * option call) :=
  match para with
  | None => Some (refusal 1, None)
  | Some (server, grp, file, flag) =>
      match get_ip_port server with
      | None => Some (refusal 2, None)
      | Some (ip, port) =>
          let '(at', nt) := add_types flag in
          let api := mk_api [] (snprintf 256 file) [] (snprintf 128 grp) TASK_ADDFILE at' nt in
          '(ret, c) ← operate_pfs ip port api t f sc;
          Some (if ret =? PFS_OK then success "remotefile" ret (Client.api c) else failure ret (Client.api c), Some c)
      end
  end.

Definition pfs_query_other (para : option (bytes * bytes * Z)) : option (array * option call) :=
  match para with
  | None => Some (refusal 1, None)
  | Some (server, grp, flag) =>
      match get_ip_port server with
      | None => Some (refusal 2, None)
      | Some (ip, port) =>
          if flag <? ADD_QUERY_DIR then Some (refusal 3, None)
          else
            let api := mk_api [] [] (str "blank") (snprintf 128 grp) TASK_DELFILE (u8 flag) 0 in
            '(ret, c) ← operate_pfs ip port api t f sc;
            Some (if ret =? PFS_OK then success "remotedir" ret (Client.api c)
                  else [(str "retcode", Long ret); (str "errmsg", Text (errmsg (Client.api c)))], Some c)
      end
  end.

Definition pfs_modify_file (para : option (bytes * bytes * bytes * bytes)) : option (array * option call) :=
  match para with
  | None => Some (refusal 1, None)
  | Some (server, grp, file, rfile) =>
      match get_ip_port server with
      | None => Some (refusal 2, None)
      | Some (ip, port) =>
          let api := mk_api [] (snprintf 256 file) (snprintf 256 rfile) (snprintf 128 grp) TASK_MODYFILE 0 0 in
          '(ret, c) ← operate_pfs ip port api t f sc;
          Some (if ret =? PFS_OK then success "remotefile" ret (Client.api c) else failure ret (Client.api c), Some c)
      end
  end.

End Functions.

(** ** A name server that does not answer *)

Section Timeout.
Context {E : Env} {K : Kernel} (gethostbyname : bytes -> option (list bytes)).

Lemma asks (a : t_api_info) (t : thread) f fd rest ip port :
  ns_cache_flag t = false -> 0 < fd -> ((a_type a = TASK_DELFILE \/ a_type a = TASK_MODYFILE) /\ remotefile a <> [] /\ group a <> []) ->
  exists c, operate_pfs ip port a t f (mk_script [fd] (SelectTimeout :: rest) [] [] 0) = Some (SOCK_SELECT_TO, c) /\
    errmsg (Client.api c) = str "time out 0!" /\ dials c = [(ip, port)].
Proof.
  intros Hc Hfd (Ht & Hr & Hg). unfold operate_pfs.
  assert ((TASK_MODYFILE <? a_type a) || (a_type a <? TASK_ADDFILE) = false /\ (a_type a =? TASK_ADDFILE) = false) as [-> ->]
    by (destruct Ht as [-> | ->]; done).
  assert ((zlen (remotefile a) =? 0) || (zlen (group a) =? 0) = false) as ->.
  { apply orb_false_iff. split; apply Z.eqb_neq; intros H0; [apply Hr|apply Hg]; apply length_zero_iff_nil; lia. }
  unfold upload_file_inter, first_socket. cbn [th new_call set_th set_stat ns_cache_flag]. rewrite Hc. cbn [andb mbind option_bind].
  change (-1 <? 0) with true. cbv iota. cbn [createsocket io new_call set_th connects mbind option_bind].
  rewrite (proj2 (Z.ltb_ge fd 0)) by lia. unfold create_req_msg. cbn [sendb recvb set_sock new_call set_th th set_stat client_stat].
  destruct (mybuff_reinit init_buff_size junk true MyBuff.mybuff_init) as [sb cl1].
  change (GET_STORAGE =? GET_STORAGE) with true. cbv iota. change (negb (0 =? 0)) with false. cbv iota. cbn [io turns select_loop].
  unfold up_err. change (negb (SOCK_SELECT_TO =? SOCK_DATA_OVER)) with true. cbv iota. eexists. split; [reflexivity|]. done.
Qed.

(** A name server that does not answer within five seconds makes the PHP
    program crash in [pfs_remove_file]: the code of the library, 0x60, is the index
    of a text in a table of eleven.  [pfs_modify_file], called with the same server,
    looks at the range first and returns the code and the message. *)
Theorem php_timeout_crashes t f fd rest server grp file local ip port :
  get_ip_port gethostbyname server = Some (ip, port) -> ns_cache_flag t = false -> 0 < fd -> file <> [] -> grp <> [] ->
  let sc := mk_script [fd] (SelectTimeout :: rest) [] [] 0 in
  pfs_remove_file gethostbyname t f sc (Some (server, grp, file)) = None /\
  exists c, pfs_modify_file gethostbyname t f sc (Some (server, grp, local, file)) =
    Some ([(str "retcode", Long SOCK_SELECT_TO); (str "errmsg", Text (str "time out 0!"))], Some c) /\ dials c = [(ip, port)].
Proof.
  intros Hip Hc Hfd Hfile Hgrp sc. assert (forall n s, s <> [] -> snprintf (S (S n)) s <> []) as Hs by (by intros n [|x s]).
  subst sc. unfold pfs_remove_file, pfs_modify_file. rewrite Hip. cbv beta iota zeta. split.
  - destruct (asks (mk_api [] [] (snprintf 256 file) (snprintf 128 grp) TASK_DELFILE 0 0) t f fd rest ip port Hc Hfd) as (c & -> & _ & _); [|done].
    split; [by left|]. split; by apply Hs.
  - destruct (asks (mk_api [] (snprintf 256 local) (snprintf 256 file) (snprintf 128 grp) TASK_MODYFILE 0 0) t f fd rest ip port Hc Hfd) as (c & -> & Hm & Hd).
    + split; [by right|]. split; by apply Hs.
    + exists c. split; [|done]. cbn [mbind option_bind]. change (SOCK_SELECT_TO =? PFS_OK) with false. cbv iota. unfold failure. by rewrite Hm.
Qed.

End Timeout.

#[local] Existing Instances demo_env LocalFile.demo_kernel.

Lemma php_timeout_crashes_witness :
  let sc := mk_script [7] [SelectTimeout] [] [] 0 in
  pfs_remove_file (fun _ => None) demo_thread demo_local sc (Some (str "10.0.0.1:90", str "img", str "/1/2/a.jpg")) = None /\
  exists c, pfs_modify_file (fun _ => None) demo_thread demo_local sc (Some (str "10.0.0.1:90", str "img", str "a.jpg", str "/1/2/a.jpg")) =
    Some ([(str "retcode", Long SOCK_SELECT_TO); (str "errmsg", Text (str "time out 0!"))], Some c) /\ dials c = [(str "10.0.0.1", 90)].
Proof.
  apply (php_timeout_crashes (fun _ => None) demo_thread demo_local 7 [] (str "10.0.0.1:90") (str "img") (str "/1/2/a.jpg") (str "a.jpg") (str "10.0.0.1") 90);
    [vm_compute; reflexivity|reflexivity|reflexivity|discriminate|discriminate].
Defined.

End Php.
