(* ===== verification/ImgTool.v ===== *)
(** * The picture uploader (api/imgtool.c) and its hash table (api/hasht.c)

    imgtool counts how often the pictures of an access log were asked for, sorts
    them by that number, and adds the ones of a range to the store.  Module
    [HashT] is the table: the first quarter of an array are the heads of the
    chains, the rest is handed out in order.  The theorem shows that it counts
    the hits exactly.  Module [ImgTool] is the reading of the web server's
    configuration, of the log, and the uploads over [Client]. *)

From S2P Require Import Prelude.
From S2P Require Import CString.
From S2P Require Import Codec.
From S2P Require Import LocalFile.
From S2P Require Import EventLoop.
From S2P Require Import Client.
From S2P Require Import Acl.

Module HashT.

(** ** Data *)

Record t_hasht_val := mk_val { count : Z; idx : Z; file : bytes }.
Record t_hasht_data := mk_data { v : t_hasht_val; used : Z; next : Z }.
Definition zero_data : t_hasht_data := mk_data (mk_val 0 0 []) 0 0.

(** [t_hasht_shmhead] and the array behind it. *)
Record hasht := mk_hasht { datasize : Z; hashsize : Z; usedsize : Z; base : list t_hasht_data }.

Definition r5hash (p : bytes) : Z := Misc.r5hash p.

(** ** Operations

    [None] is undefined: no table, a remainder by zero, an index outside of the
    array, or a chain that does not end. *)

(** It returns 0 also when there is no memory, and leaves no table. *)
Definition init_hasht_hash (alloc : bool) (size : Z) : option hasht :=
  if alloc then
    let hs := u32 (size / 4) in
    Some (mk_hasht (u32 (size - hs)) hs 0 (replicate (Z.to_nat size) zero_data))
  else None.

Definition bucket (h : hasht) (text : bytes) : option nat :=
  if hashsize h =? 0 then None else Some (Z.to_nat (r5hash text mod hashsize h)).

Fixpoint find_loop (fuel : nat) (a : list t_hasht_data) (text : bytes) (i : nat) : option (option nat) :=
  match fuel with
  | O => None
  | S fuel' =>
      d ← a !! i;
      if streq text (file (v d)) then Some (Some i)
      else if next d =? 0 then Some None
      else find_loop fuel' a text (Z.to_nat (next d))
  end.

(** 0 and the index of the entry, or [None] for -1. *)
Definition find_hasht_node (h : hasht) (text : bytes) : option (option nat) :=
  i ← bucket h text; find_loop (S (length (base h))) (base h) text i.

(** The walk to the end of the chain, or to an entry that is not used. *)
Fixpoint add_loop (fuel : nat) (a : list t_hasht_data) (i : nat) : option (nat * bool) :=
  match fuel with
  | O => None
  | S fuel' =>
      d ← a !! i;
      if next d =? 0 then Some (i, false)
      else if used d =? 0 then Some (i, true)
      else add_loop fuel' a (Z.to_nat (next d))
  end.

Definition set_base (h : hasht) (a : list t_hasht_data) : hasht := mk_hasht (datasize h) (hashsize h) (usedsize h) a.

(** The end of [add_hasht_node]: the value is stored at [n]. *)
Definition put (a : list t_hasht_data) (n : nat) (x : t_hasht_val) : option (list t_hasht_data) :=
  d ← a !! n; Some (<[n := mk_data x 1 (next d)]> a).

Definition add_hasht_node (h : hasht) (text : bytes) (x : t_hasht_val) : option (Z * hasht) :=
  i ← bucket h text;
  d ← base h !! i;
  if used d =? 0 then a ← put (base h) i x; Some (0, set_base h a)
  else
    '(j, free) ← add_loop (S (length (base h))) (base h) i;
    if free : bool then a ← put (base h) j x; Some (0, set_base h a)
    else if datasize h <=? usedsize h then Some (-1, h)
    else
      let n := u32 (hashsize h + usedsize h) in
      dj ← base h !! j;
      a ← put (<[j := mk_data (v dj) (used dj) n]> (base h)) (Z.to_nat (hashsize h + usedsize h)) x;
      Some (0, mk_hasht (datasize h) (hashsize h) (u32 (usedsize h + 1)) a).

(** [sortdata] sorts [hashsize + usedsize + 1] entries: one more than there are
    when the table is full.  The order qsort leaves is its own: [sorthit] is not
    a comparison, it has no value below 0. *)
Definition sorthit (a b : t_hasht_data) : Z := Z.b2z (count (v a) <? count (v b)).
Definition sortdata (qsort : (t_hasht_data -> t_hasht_data -> Z) -> list t_hasht_data -> list t_hasht_data) (h : hasht) : option hasht :=
  let n := Z.to_nat (u32 (hashsize h + usedsize h + 1)) in
  if (length (base h) <? n)%nat then None
  else Some (set_base h (qsort sorthit (take n (base h)) ++ drop n (base h))).

(** What do_loop_dir does with a picture of the log: it is entered, or counted.
    [v.file] has 128 bytes. *)
Definition hit (h : hasht) (n : Z) (f : bytes) : option (Z * hasht) :=
  r ← find_hasht_node h f;
  match r with
  | None => add_hasht_node h f (mk_val 1 n (snprintf 128 f))
  | Some i =>
      d ← base h !! i;
      Some (0, set_base h (<[i := mk_data (mk_val (i32 (count (v d) + 1)) (idx (v d)) (file (v d))) (used d) (next d)]> (base h)))
  end.

(** The hits in order, until one does not fit. *)
Fixpoint hits (h : hasht) (l : list (Z * bytes)) : option (Z * hasht) :=
  match l with
  | [] => Some (0, h)
  | (n, f) :: l' => '(r, h) ← hit h n f; if r =? 0 then hits h l' else Some (r, h)
  end.

(** ** The chains *)

(** The search from entry [i] ends at [r]. *)
Inductive finds (a : list t_hasht_data) (t : bytes) : nat -> option nat -> Prop :=
| finds_here i d : a !! i = Some d -> t = file (v d) -> finds a t i (Some i)
| finds_end i d : a !! i = Some d -> t <> file (v d) -> next d = 0 -> finds a t i None
| finds_next i d r : a !! i = Some d -> t <> file (v d) -> next d <> 0 -> finds a t (Z.to_nat (next d)) r -> finds a t i r.

(** The chain of entry [i] ends at [j], and all its entries are used. *)
Inductive ends (a : list t_hasht_data) : nat -> nat -> Prop :=
| ends_here i d : a !! i = Some d -> used d <> 0 -> next d = 0 -> ends a i i
| ends_next i d j : a !! i = Some d -> used d <> 0 -> next d <> 0 -> ends a (Z.to_nat (next d)) j -> ends a i j.

(** Chains lead forward, into the entries handed out; what is not used is zero. *)
Record wf (h : hasht) : Prop := mk_wf {
  wf_size : 0 < hashsize h /\ 0 <= usedsize h <= datasize h /\ Z.of_nat (length (base h)) = hashsize h + datasize h /\
    hashsize h + datasize h < 2 ^ 32;
  wf_next : forall i d, base h !! i = Some d -> next d = 0 \/ Z.of_nat i < next d /\ hashsize h <= next d < hashsize h + usedsize h;
  wf_unused : forall i d, base h !! i = Some d -> used d = 0 -> d = zero_data;
  wf_used : forall i d, base h !! i = Some d -> hashsize h <= Z.of_nat i < hashsize h + usedsize h -> used d <> 0;
  wf_free : forall i d, base h !! i = Some d -> hashsize h + usedsize h <= Z.of_nat i -> d = zero_data
}.

(** What the table says of a text: its entry, if it has one. *)
Definition entry (h : hasht) (text : bytes) : option (option t_hasht_val) :=
  r ← find_hasht_node h text;
  match r with None => Some None | Some i => d ← base h !! i; Some (Some (v d)) end.

(** What it is meant to say after some hits: how many of them were for the
    text, and the number of the first. *)
Definition tally (l : list (Z * bytes)) (text : bytes) : option t_hasht_val :=
  match List.filter (fun x => streq text (snd x)) l with
  | [] => None
  | x :: l' => Some (mk_val (1 + zlen l') (fst x) text)
  end.

(** ** Lemmas *)

Definition links (a : list t_hasht_data) : Prop :=
  forall i d, a !! i = Some d -> next d = 0 \/ Z.of_nat i < next d < Z.of_nat (length a).

Lemma wf_links h : wf h -> links (base h).
Proof. intros W i d Hi. destruct (wf_size h W) as (? & ? & ? & ?). destruct (wf_next h W i d Hi); [by left|right; lia]. Qed.

Lemma finds_total a t : links a -> forall n i, (length a - i <= n)%nat -> (i < length a)%nat -> exists r, finds a t i r.
Proof.
  intros HL n. induction n as [|n IH]; intros i Hn Hi; [lia|].
  destruct (lookup_lt_is_Some_2 a i Hi) as [d Hd]. destruct (decide (t = file (v d))) as [E|E]; [by exists (Some i); eapply finds_here|].
  destruct (HL i d Hd) as [Hz|Hlt]; [by exists None; eapply finds_end|].
  destruct (IH (Z.to_nat (next d))) as [r Hr]; [lia..|]. exists r. eapply finds_next; eauto; lia.
Qed.

Lemma finds_loop a t i r : links a -> finds a t i r -> forall f, (length a - i < f)%nat -> find_loop f a t i = Some r.
Proof.
  intros HL H. induction H as [i d Hd E|i d Hd E Hz|i d r Hd E Hz H IH]; intros [|f] Hf; [lia| |lia| |lia|]; cbn [find_loop]; rewrite Hd; cbn [mbind option_bind];
    unfold streq.
  - by rewrite bool_decide_true.
  - by rewrite bool_decide_false, Hz.
  - rewrite bool_decide_false, (proj2 (Z.eqb_neq _ _) Hz) by done. destruct (HL i d Hd); [done|]. apply IH. lia.
Qed.

Lemma ends_loop a i j : links a -> ends a i j -> forall f, (length a - i < f)%nat -> add_loop f a i = Some (j, false).
Proof.
  intros HL H. induction H as [i d Hd Hu Hz|i d j Hd Hu Hz H IH]; intros [|f] Hf; [lia| |lia|]; cbn [add_loop]; rewrite Hd; cbn [mbind option_bind].
  - by rewrite Hz.
  - rewrite (proj2 (Z.eqb_neq _ _) Hz), (proj2 (Z.eqb_neq _ _) Hu) by done. destruct (HL i d Hd); [done|]. apply IH. lia.
Qed.

Lemma finds_file a t i j : finds a t i (Some j) -> exists d, a !! j = Some d /\ file (v d) = t.
Proof. intros H. remember (Some j) as r eqn:E. induction H; simplify_eq; eauto. Qed.

(** From a used entry the chain ends; every entry it leads to is used. *)
Lemma ends_total h : wf h -> forall n i d, (length (base h) - i <= n)%nat -> base h !! i = Some d -> used d <> 0 -> exists j, ends (base h) i j.
Proof.
  intros W n. induction n as [|n IH]; intros i d Hn Hd Hu; pose proof (lookup_lt_Some _ _ _ Hd); [lia|].
  destruct (wf_size h W) as (H0 & Hus & Hlen & _). destruct (wf_next h W i d Hd) as [Hz|[Hlt Hr]]; [by exists i; eapply ends_here|].
  destruct (lookup_lt_is_Some_2 (base h) (Z.to_nat (next d))) as [d' Hd']; [lia|].
  destruct (IH (Z.to_nat (next d)) d') as [j Hj]; [lia|done|eapply (wf_used h W); eauto; lia|]. exists j. eapply ends_next; eauto; lia.
Qed.

Lemma ends_last a i j : ends a i j -> exists d, a !! j = Some d /\ used d <> 0 /\ next d = 0.
Proof. induction 1; eauto. Qed.

(** The three ways an array changes: a free head is taken, an entry is chained
    behind the last one, a value is counted up. *)
Lemma finds_head a i x t k r : a !! i = Some zero_data -> t <> [] -> t <> file x -> finds a t k r ->
  finds (<[i := mk_data x 1 0]> a) t k r.
Proof.
  intros Hi Hn Hx H. pose proof (lookup_lt_Some _ _ _ Hi).
  induction H as [k d Hd E|k d Hd E Hz|k d r Hd E Hz H' IH]; destruct (decide (k = i)) as [->|Hk]; simplify_eq.
  - eapply finds_here; [by rewrite list_lookup_insert_ne|done].
  - eapply finds_end; [by rewrite list_lookup_insert_eq|done..].
  - eapply finds_end; [by rewrite list_lookup_insert_ne|done..].
  - eapply finds_next; [by rewrite list_lookup_insert_ne|done..].
Qed.

Section Chained.
Context (a : list t_hasht_data) (j : nat) (n : Z) (dj : t_hasht_data) (x : t_hasht_val).
Hypotheses (Hn : a !! Z.to_nat n = Some zero_data) (Hj : a !! j = Some dj) (Hjz : next dj = 0) (Hu : used dj <> 0) (Hn0 : n <> 0).
Definition chained : list t_hasht_data := <[Z.to_nat n := mk_data x 1 0]> (<[j := mk_data (v dj) (used dj) n]> a).

Lemma chained_last : chained !! Z.to_nat n = Some (mk_data x 1 0).
Proof. apply list_lookup_insert_eq. rewrite length_insert. by eapply lookup_lt_Some. Qed.
Lemma chained_j : chained !! j = Some (mk_data (v dj) (used dj) n).
Proof using All.
  unfold chained. destruct (decide (Z.to_nat n = j)) as [E|E]; [rewrite E, Hj in Hn; simplify_eq|].
  rewrite list_lookup_insert_ne by done. apply list_lookup_insert_eq. by eapply lookup_lt_Some.
Qed.
Lemma chained_ne k : k <> j -> k <> Z.to_nat n -> chained !! k = a !! k.
Proof. intros. unfold chained. by rewrite !list_lookup_insert_ne by done. Qed.

Lemma finds_chained t k r : t <> [] -> t <> file x -> finds a t k r -> finds chained t k r.
Proof using All.
  intros Ht Hx H. assert (finds chained t (Z.to_nat n) None) as Hlast by (eapply finds_end; [apply chained_last|done..]).
  induction H as [k d Hd E|k d Hd E Hz|k d r Hd E Hz H' IH]; (destruct (decide (k = Z.to_nat n)) as [->|Hk]; [simplify_eq; done|]);
    destruct (decide (k = j)) as [->|Hkj]; simplify_eq.
  - eapply finds_here; [apply chained_j|done].
  - eapply finds_here; [by rewrite chained_ne|done].
  - eapply finds_next; [apply chained_j|done..].
  - eapply finds_end; [by rewrite chained_ne|done..].
  - eapply finds_next; [by rewrite chained_ne|done..].
Qed.

Lemma finds_new k : ends a k j -> finds a (file x) k None -> finds chained (file x) k (Some (Z.to_nat n)).
Proof using All.
  assert (finds chained (file x) (Z.to_nat n) (Some (Z.to_nat n))) as Hlast by (eapply finds_here; [apply chained_last|done]).
  pose proof chained_j as Hcj. intros H. remember j as j' eqn:Ej. induction H as [k d Hd Hdu Hz|k d j' Hd Hdu Hz H' IH]; intros HF; [subst k|subst j'].
  - inversion HF as [|k d' Hd' E Hz'|k d' r Hd' E Hz' H']; subst; [|congruence]. assert (d' = dj) as -> by congruence.
    eapply finds_next; [exact Hcj|done..].
  - assert (k <> j) by congruence. assert (k <> Z.to_nat n) by (intros ->; rewrite Hn in Hd; by simplify_eq).
    inversion HF as [|k' d' Hd' E Hz'|k' d' r Hd' E Hz' HF']; subst; [congruence|]. assert (d' = d) as -> by congruence.
    eapply finds_next; [by rewrite chained_ne|done..|]. by apply IH.
Qed.
End Chained.

Lemma finds_counted a i d y t k r : a !! i = Some d -> file y = file (v d) -> finds a t k r -> finds (<[i := mk_data y (used d) (next d)]> a) t k r.
Proof.
  intros Hi Hy H. pose proof (lookup_lt_Some _ _ _ Hi). pose proof (list_lookup_insert_eq a i (mk_data y (used d) (next d)) ltac:(done)) as Hnew.
  induction H as [k d' Hd E|k d' Hd E Hz|k d' r Hd E Hz H' IH]; destruct (decide (k = i)) as [->|Hk]; simplify_eq.
  - eapply finds_here; [done|]. simpl. congruence.
  - eapply finds_here; [by rewrite list_lookup_insert_ne|done].
  - eapply finds_end; [done|simpl; congruence|done].
  - eapply finds_end; [by rewrite list_lookup_insert_ne|done..].
  - eapply finds_next; [done|simpl; congruence|done..].
  - eapply finds_next; [by rewrite list_lookup_insert_ne|done..].
Qed.

(** *** The invariant and the entries *)

Lemma bucket_head h t : wf h -> exists b, bucket h t = Some b /\ (b < length (base h))%nat /\ Z.of_nat b < hashsize h.
Proof.
  intros W. destruct (wf_size h W) as (? & ? & ? & ?). unfold bucket. rewrite (proj2 (Z.eqb_neq _ _)) by lia. eexists. split; [done|].
  pose proof (Z.mod_pos_bound (r5hash t) (hashsize h)). lia.
Qed.

Lemma entry_finds h t b r : wf h -> bucket h t = Some b -> (b < length (base h))%nat -> finds (base h) t b r ->
  find_hasht_node h t = Some r /\ entry h t = Some (r ≫= fun i => v <$> base h !! i).
Proof.
  intros W Hb Hl HF. unfold entry, find_hasht_node. rewrite Hb. cbn [mbind option_bind].
  rewrite (finds_loop _ _ _ _ (wf_links h W) HF) by lia. split; [done|]. destruct r as [i|]; [|done].
  cbn [mbind option_bind]. by destruct (finds_file _ _ _ _ HF) as (d & -> & _).
Qed.

Lemma init_wf size : 4 <= size < 2 ^ 32 -> exists h, init_hasht_hash true size = Some h /\ wf h /\
  usedsize h = 0 /\ datasize h = size - size / 4 /\ forall t, t <> [] -> entry h t = Some None.
Proof.
  intros Hs. unfold init_hasht_hash. eexists. split; [done|].
  assert (0 < size / 4 /\ 0 <= size - size / 4 /\ size / 4 < 2 ^ 32) as (H1 & H2 & H3) by (zdm; lia).
  unfold u32. rewrite !Z.mod_small by (rewrite ?Z.mod_small by lia; lia).
  assert (wf (mk_hasht (size - size / 4) (size / 4) 0 (replicate (Z.to_nat size) zero_data))) as W.
  { split; cbn [hashsize datasize usedsize base].
    - rewrite length_replicate. lia.
    - intros i d [-> _]%lookup_replicate. by left.
    - by intros i d [-> _]%lookup_replicate.
    - intros i d _ ?. lia.
    - by intros i d [-> _]%lookup_replicate. }
  split; [done|]. split; [done|]. split; [done|]. intros t Ht. destruct (bucket_head _ t W) as (b & Hb & Hl & _).
  apply (entry_finds _ t b None W Hb Hl). cbn [base] in *. rewrite length_replicate in Hl.
  eapply finds_end; [by apply lookup_replicate_2|done..].
Qed.

(** *** One hit *)

Lemma wf_head h i x : wf h -> base h !! i = Some zero_data -> Z.of_nat i < hashsize h ->
  wf (set_base h (<[i := mk_data x 1 0]> (base h))).
Proof.
  intros W Hi Hh. destruct (wf_size h W) as (? & ? & ? & ?).
  split; cbn [set_base hashsize usedsize datasize base]; [rewrite length_insert; lia|..];
    (intros k d [(<- & <- & _)|(Hk & Hd)]%list_lookup_insert_Some;
      [try (by left); try (by intros [=]); intros; lia|]); [by apply (wf_next h W)|by apply (wf_unused h W k)|by apply (wf_used h W)|by apply (wf_free h W)].
Qed.

Lemma wf_chained h j dj x : wf h -> base h !! j = Some dj -> used dj <> 0 -> next dj = 0 -> usedsize h < datasize h ->
  let n := hashsize h + usedsize h in Z.of_nat j < n /\
  wf (mk_hasht (datasize h) (hashsize h) (usedsize h + 1) (chained (base h) j n dj x)).
Proof.
  intros W Hj Hu Hz Hlt n. destruct (wf_size h W) as (H0 & H1 & H2 & H3).
  assert (Z.of_nat j < n) as Hjn.
  { destruct (Z.lt_ge_cases (Z.of_nat j) n); [done|]. rewrite (wf_free h W j dj) in Hu by done. by destruct Hu. }
  split; [done|]. subst n. split; cbn [hashsize usedsize datasize base]; unfold chained; [rewrite !length_insert; lia|..];
    (intros k d [(<- & <- & _)|(Hk & [(<- & <- & _)|(Hk' & Hd)]%list_lookup_insert_Some)]%list_lookup_insert_Some; cbn [next used]).
  - by left.
  - right. lia.
  - destruct (wf_next h W k d Hd) as [|]; [by left|right; lia].
  - by intros [=].
  - intros ?. by destruct Hu.
  - by apply (wf_unused h W k).
  - done.
  - done.
  - intros. apply (wf_used h W k d Hd). lia.
  - intros. lia.
  - intros. lia.
  - intros. apply (wf_free h W k d Hd). lia.
Qed.

Lemma wf_counted h i d y : wf h -> base h !! i = Some d -> used d <> 0 ->
  wf (set_base h (<[i := mk_data y (used d) (next d)]> (base h))).
Proof.
  intros W Hi Hu. destruct (wf_size h W) as (? & ? & ? & ?).
  split; cbn [set_base hashsize usedsize datasize base]; [rewrite length_insert; lia|..];
    (intros k d' [(<- & <- & _)|(Hk & Hd)]%list_lookup_insert_Some; cbn [next used]).
  - by apply (wf_next h W).
  - by apply (wf_next h W).
  - done.
  - by apply (wf_unused h W k).
  - done.
  - by apply (wf_used h W).
  - intros Hf. rewrite (wf_free h W i d Hi Hf) in Hu. by destruct Hu.
  - by apply (wf_free h W).
Qed.

(** A change of the array that keeps the chains and the entries of the other texts. *)
Lemma entry_kept h h' t : wf h -> wf h' -> hashsize h' = hashsize h -> length (base h') = length (base h) ->
  (forall k r, finds (base h) t k r -> finds (base h') t k r) ->
  (forall i d, base h !! i = Some d -> file (v d) = t -> v <$> base h' !! i = Some (v d)) -> entry h' t = entry h t.
Proof.
  intros W W' Hh Hl HF Hv. destruct (bucket_head h t W) as (b & Hb & Hbl & _).
  destruct (finds_total (base h) t (wf_links h W) _ b (le_n _) Hbl) as [r Hr].
  assert (bucket h' t = Some b) as Hb' by (unfold bucket in *; by rewrite Hh).
  rewrite (proj2 (entry_finds h t b r W Hb Hbl Hr)), (proj2 (entry_finds h' t b r W' Hb' ltac:(lia) (HF b r Hr))).
  destruct r as [i|]; [|done]. destruct (finds_file _ _ _ _ Hr) as (d & Hd & Hf). cbn [mbind option_bind]. by rewrite (Hv i d Hd Hf), Hd.
Qed.

Definition counted (e : option t_hasht_val) (n : Z) (f : bytes) : t_hasht_val :=
  match e with None => mk_val 1 n f | Some y => mk_val (i32 (count y + 1)) (idx y) (file y) end.

(** What a hit does, seen through [entry]. *)
Definition hit_effect (h h' : hasht) (n : Z) (f : bytes) : Prop :=
  wf h' /\ datasize h' = datasize h /\ usedsize h' <= usedsize h + 1 /\
  (forall e, entry h f = Some e -> entry h' f = Some (Some (counted e n f))) /\
  forall t, t <> [] -> t <> f -> entry h' t = entry h t.

Lemma hit_counts h n f b i : wf h -> f <> [] -> bucket h f = Some b -> (b < length (base h))%nat -> finds (base h) f b (Some i) ->
  exists h', hit h n f = Some (0, h') /\ hit_effect h h' n f.
Proof.
  intros W Hne Hb Hbl HF. destruct (entry_finds h f b _ W Hb Hbl HF) as [Hfind He]. destruct (finds_file _ _ _ _ HF) as (d & Hd & Hf).
  assert (used d <> 0) as Hu by (intros Hu; rewrite (wf_unused h W i d Hd Hu) in Hf; by destruct Hne).
  pose proof (lookup_lt_Some _ _ _ Hd) as Hi. unfold hit. rewrite Hfind. cbn [mbind option_bind]. rewrite Hd. cbn [mbind option_bind].
  eexists. split; [done|]. set (y := mk_val _ _ _). pose proof (wf_counted h i d y W Hd Hu) as W'.
  split; [done|]. split; [done|]. split; [simpl; lia|]. split.
  - rewrite He. cbn [mbind option_bind]. rewrite Hd. intros e [= <-].
    rewrite (proj2 (entry_finds _ f b (Some i) W' Hb ltac:(cbn [set_base base]; by rewrite length_insert) (finds_counted _ i d y _ _ _ Hd eq_refl HF))).
    cbn [mbind option_bind set_base base]. by rewrite list_lookup_insert_eq.
  - intros t Ht Hne'. apply entry_kept; [done|done|done|by cbn [set_base base]; rewrite length_insert|by intros k r; apply finds_counted|].
    intros k d' Hd' Hf'. cbn [set_base base]. rewrite list_lookup_insert_ne by (intros ->; congruence). by rewrite Hd'.
Qed.

Lemma hit_enters h n f b : wf h -> f <> [] -> zlen f <= 127 -> usedsize h < datasize h ->
  bucket h f = Some b -> (b < length (base h))%nat -> Z.of_nat b < hashsize h -> finds (base h) f b None ->
  exists h', hit h n f = Some (0, h') /\ hit_effect h h' n f.
Proof.
  intros W Hne Hlen Hroom Hb Hbl Hbh HF. destruct (entry_finds h f b _ W Hb Hbl HF) as [Hfind He].
  destruct (wf_size h W) as (H0 & H1 & H2 & H3). unfold hit. rewrite Hfind. cbn [mbind option_bind].
  unfold add_hasht_node. rewrite Hb. cbn [mbind option_bind]. destruct (lookup_lt_is_Some_2 _ _ Hbl) as [d Hd]. rewrite Hd. cbn [mbind option_bind].
  assert (snprintf 128 f = f) as -> by (apply take_ge; lia). set (x := mk_val 1 n f). destruct (used d =? 0) eqn:Hu; b2p.
  - assert (d = zero_data) as -> by exact (wf_unused h W b d Hd Hu). unfold put. rewrite Hd. cbn [mbind option_bind next zero_data].
    eexists. split; [done|]. pose proof (wf_head h b x W Hd Hbh) as W'. split; [done|]. split; [done|]. split; [simpl; lia|]. split.
    + rewrite He. intros e [= <-].
      rewrite (proj2 (entry_finds _ f b (Some b) W' Hb ltac:(cbn [set_base base]; by rewrite length_insert)
        ltac:(eapply finds_here; [by apply list_lookup_insert_eq|done]))).
      cbn [mbind option_bind set_base base]. by rewrite list_lookup_insert_eq.
    + intros t Ht Hne'. apply entry_kept; [done|done|done|by cbn [set_base base]; rewrite length_insert|intros k r; by apply finds_head|].
      intros k d' Hd' Hf'. cbn [set_base base]. rewrite list_lookup_insert_ne by (intros ->; rewrite Hd in Hd'; simplify_eq; by destruct Ht). by rewrite Hd'.
  - destruct (ends_total h W _ b d (le_n _) Hd Hu) as [j Hends].
    rewrite (ends_loop _ _ _ (wf_links h W) Hends) by lia. cbn [mbind option_bind]. destruct (ends_last _ _ _ Hends) as (dj & Hj & Hju & Hjz).
    rewrite (proj2 (Z.leb_gt _ _)) by lia. rewrite Hj. cbn [mbind option_bind].
    destruct (wf_chained h j dj x W Hj Hju Hjz Hroom) as [Hjn W'].
    destruct (lookup_lt_is_Some_2 (base h) (Z.to_nat (hashsize h + usedsize h))) as [z Hz]; [lia|].
    assert (z = zero_data) as -> by (apply (wf_free h W _ _ Hz); lia).
    unfold put. rewrite list_lookup_insert_ne, Hz by lia. cbn [mbind option_bind next zero_data].
    unfold u32. rewrite !Z.mod_small by lia. fold (chained (base h) j (hashsize h + usedsize h) dj x).
    eexists. split; [done|]. assert (hashsize h + usedsize h <> 0) as Hn0 by lia.
    assert (length (chained (base h) j (hashsize h + usedsize h) dj x) = length (base h)) as Hlc by (unfold chained; by rewrite !length_insert).
    split; [done|]. split; [done|]. split; [simpl; lia|]. split.
    + rewrite He. intros e [= <-].
      rewrite (proj2 (entry_finds _ f b (Some _) W' Hb ltac:(cbn [base]; lia) (finds_new _ j _ dj x Hz Hj Hjz Hju Hn0 b Hends HF))).
      cbn [mbind option_bind base]. by rewrite (chained_last _ j _ dj x Hz).
    + intros t Ht Hne'. apply entry_kept; [done|done|done|done|intros k r; by apply finds_chained|].
      intros k d' Hd' Hf'. cbn [base]. destruct (decide (k = j)) as [->|Hk].
      * rewrite (chained_j _ j _ dj x Hz Hj Hjz Hju Hn0). by simplify_eq.
      * rewrite chained_ne; [by rewrite Hd'|done|]. intros ->. rewrite Hz in Hd'. by simplify_eq.
Qed.

Lemma hit_ok h n f : wf h -> f <> [] -> zlen f <= 127 -> usedsize h < datasize h -> exists h', hit h n f = Some (0, h') /\ hit_effect h h' n f.
Proof.
  intros W Hne Hlen Hroom. destruct (bucket_head h f W) as (b & Hb & Hbl & Hbh).
  destruct (finds_total (base h) f (wf_links h W) _ b (le_n _) Hbl) as [[i|] Hr]; [by eapply hit_counts|by eapply hit_enters].
Qed.

Lemma tally_same pre n f : zlen pre < 2 ^ 31 - 1 -> tally (pre ++ [(n, f)]) f = Some (counted (tally pre f) n f).
Proof.
  intros Hl. unfold tally. rewrite List.filter_app. cbn [List.filter snd]. unfold streq at 2. rewrite bool_decide_true by done.
  pose proof (List.filter_length_le (fun x : Z * bytes => streq f (snd x)) pre) as Hfl.
  destruct (List.filter _ pre) as [|y ys]; [done|]. cbn [app counted count idx file]. cbn [length] in Hfl. do 2 f_equal.
  unfold i32. rewrite length_app. cbn [length]. rewrite Z.mod_small by lia. lia.
Qed.

Lemma tally_other pre n f t : t <> f -> tally (pre ++ [(n, f)]) t = tally pre t.
Proof.
  intros Hne. unfold tally. rewrite List.filter_app. cbn [List.filter snd]. unfold streq at 2. rewrite bool_decide_false by done. by rewrite app_nil_r.
Qed.

Lemma hits_from l : forall h pre, wf h -> Forall (fun x => snd x <> [] /\ zlen (snd x) <= 127) l ->
  usedsize h + zlen l <= datasize h -> zlen pre + zlen l < 2 ^ 31 ->
  (forall t, t <> [] -> entry h t = Some (tally pre t)) ->
  exists h', hits h l = Some (0, h') /\ forall t, t <> [] -> entry h' t = Some (tally (pre ++ l) t).
Proof.
  induction l as [|[n f] l IH]; intros h pre W Hall Hroom Hlen He; [exists h; by rewrite app_nil_r|].
  apply Forall_cons in Hall as [[Hf Hl] Hall]. cbn [snd length] in *.
  destruct (hit_ok h n f W Hf Hl ltac:(lia)) as (h1 & Hhit & W1 & Hd & Hu & Hsame & Hother).
  destruct (IH h1 (pre ++ [(n, f)])) as (h' & Hh' & He'); [done|done|lia|rewrite length_app; cbn [length]; lia| |].
  { intros t Ht. destruct (decide (t = f)) as [->|Hne].
    - rewrite tally_same by lia. by apply Hsame, He.
    - rewrite tally_other, Hother by done. by apply He. }
  exists h'. cbn [hits]. rewrite Hhit. cbn [mbind option_bind]. split; [done|]. intros t Ht. by rewrite He', <- app_assoc.
Qed.

(** The table counts the hits.  Whatever the pictures and their order, after
    the hits on a fresh table of [size] entries - as many hits as there are
    entries behind the heads at most, with names of 1 to 127 bytes - every one has
    been counted: the entry of a name holds the number of its hits and the number
    of the first one's directory, and a name without a hit has no entry; whatever
    the collisions of the names. *)
Theorem hits_counted size l : 4 <= size < 2 ^ 32 -> zlen l <= size - size / 4 -> zlen l < 2 ^ 31 ->
  Forall (fun x => snd x <> [] /\ zlen (snd x) <= 127) l ->
  exists h h', init_hasht_hash true size = Some h /\ hits h l = Some (0, h') /\
    forall t, t <> [] -> entry h' t = Some (tally l t).
Proof.
  intros Hs Hl Hl31 Hall. destruct (init_wf size Hs) as (h & Hi & W & Hu & Hd & He).
  destruct (hits_from l h [] W Hall) as (h' & Hh & He'); [rewrite Hu, Hd; lia|cbn [length]; lia|exact He|]. by exists h, h'.
Qed.

Definition demo_hits : list (Z * bytes) := [(7, str "/1/a.jpg"); (7, str "/1/b.jpg"); (8, str "/1/a.jpg"); (9, str "/c.jpg")].

Lemma hits_counted_witness : exists h h', init_hasht_hash true 8 = Some h /\ hits h demo_hits = Some (0, h') /\
  forall t, t <> [] -> entry h' t = Some (tally demo_hits t).
Proof.
  apply (hits_counted 8 demo_hits); [lia|vm_compute; discriminate|vm_compute; reflexivity|].
  repeat constructor; try discriminate; vm_compute; discriminate.
Defined.

End HashT.

Module ImgTool.
Import HashT Client Acl Conn Loop Fs.

Definition ADD_SET_DOMAIN : Z := 1.

Fixpoint ltrim (s : bytes) : bytes :=
  match s with c :: t => if c =? 32 then ltrim t else s | [] => [] end.

(** ** The directories of the web servers

    [rootdir] has 1024 entries of 256 bytes.  A line "server_name pN" is followed
    by a line with "root DIR;".  [None]: [s] is NULL, or the index negative. *)
Definition set_root (n : Z) (s : option bytes) (rd : list bytes) : option (list bytes) :=
  match s with
  | None => None
  | Some s =>
      let r := drop 5 s in
      let r := match strchr r 59 with Some k => take k r | None => r end in
      if Z.rem n 1024 <? 0 then None else Some (<[Z.to_nat (Z.rem n 1024) := snprintf 256 r]> rd)
  end.

(** The two loops over the lines [fgets] gives: [m] is [None] in the outer one,
    else the number and the pointer [s], which at first points into the buffer
    that has been cleared. *)
Fixpoint conf_loop (m : option (Z * option bytes)) (ls : list bytes) (rd : list bytes) : option (list bytes) :=
  match ls with
  | [] => match m with None => Some rd | Some (n, s) => set_root n s rd end
  | b :: ls' =>
      let d := ltrim b in
      if at_ d 0 =? 35 then conf_loop m ls' rd
      else match m with
           | None =>
               match strstr d (str "server_name p") with
               | None => conf_loop None ls' rd
               | Some i => conf_loop (Some (atoi (drop (i + 13) d), Some [])) ls' rd
               end
           | Some (n, _) =>
               match strstr d (str "root ") with
               | None => conf_loop (Some (n, None)) ls' rd
               | Some j => rd ← set_root n (Some (drop j d)) rd; conf_loop None ls' rd
               end
           end
  end.

Definition init_rootdir (conf : option (list bytes)) : option (Z * list bytes) :=
  match conf with
  | None => Some (-1, replicate 1024 [])
  | Some ls => rd ← conf_loop None ls (replicate 1024 []); Some (0, rd)
  end.

(** ** A line of the log

    "pN http/path.jpg?..." or "img.pN ...".  [buf] is the array of 256 bytes with
    the line in it; the result is the picture, if the line has one, and the array
    as the next line finds it: cleared, but for a name that does not end in .jpg.
    [None]: the path would begin behind the array. *)
Definition fgets (line buf : bytes) : bytes := line ++ 0 :: drop (S (length line)) buf.
Definition clear : bytes := replicate 256 0.

Definition hit_line (buf : bytes) : option (option (Z * bytes) * bytes) :=
  match strchr (until0 buf) 32 with
  | None => Some (None, clear)
  | Some i =>
      let buf := <[i := 0]> buf in
      let p := until0 buf in
      let n := if at_ p 0 =? 112 then atoi (drop 1 p) else if strncmp0 p (str "img.p") 5 then atoi (drop 5 p) else 0 in
      if n =? 0 then Some (None, clear)
      else if (length buf <=? i + 5)%nat then None
      else match strchr (until0 (drop (i + 5) buf)) 63 with
           | None => Some (None, clear)
           | Some q =>
               let buf := <[(i + 5 + q)%nat := 0]> buf in
               if negb (streq (until0 (drop (i + 5 + q - 4) buf)) (str ".jpg")) then Some (None, buf)
               else Some (Some (n, take q (drop (i + 5) buf)), clear)
           end
  end.

(** The loop over the log; it ends with the first picture that does not fit. *)
Fixpoint log_loop (h : hasht) (buf : bytes) (ls : list bytes) : option hasht :=
  match ls with
  | [] => Some h
  | line :: ls' =>
      '(r, buf) ← hit_line (fgets line buf);
      match r with
      | None => log_loop h buf ls'
      | Some (n, f) => '(ret, h) ← hit h n f; if ret =? 0 then log_loop h clear ls' else Some h
      end
  end.

(** ** The uploads *)

Section Uploads.
Context {E : Env} {K : Kernel} (qsort : (t_hasht_data -> t_hasht_data -> Z) -> list t_hasht_data -> list t_hasht_data).

(** The file to read, the name server, the group. *)
Record t_arg_upload := mk_arg { infile : option (list bytes); ip : bytes; port : Z; group : bytes }.

(** [report]: the lines written to [fpout]; [api] is used for every call again,
    with what the last one left in it. *)
Record run := mk_run { r_api : t_api_info; r_th : thread; r_fs : fs; report : list bytes; total : Z }.

Definition do_upload (u : t_arg_upload) (st : run) (sc : script) : option run :=
  '(ret, c) ← operate_pfs (ip u) (port u) (r_api st) (r_th st) (r_fs st) sc;
  let a := Client.api c in
  Some (mk_run a (th c) (local c)
    (report st ++ if ret =? PFS_OK then [] else [str "ERR:" ++ localfile a ++ 58 :: dec ret ++ 58 :: errmsg a ++ [10]]) (total st)).

(** [k] rounds of the loop over the table.  An entry that is not used is looked
    at again in every round that is left. *)
Fixpoint upload_loop (u : t_arg_upload) (rd : list bytes) (k : nat) (a : list t_hasht_data) (st : run) (scs : list script) : option run :=
  match k with
  | O => Some st
  | S k' =>
      match a with
      | [] => None
      | d :: a' =>
          if used d =? 0 then upload_loop u rd k' a st scs
          else
            let i := Z.rem (idx (v d)) 1024 in
            if i <? 0 then None
            else
              root ← rd !! Z.to_nat i;
              match scs with
              | [] => None
              | sc :: scs' =>
                  let x := r_api st in
                  let x := mk_api (errmsg x) (snprintf 256 (root ++ file (v d))) (remotefile x) (Client.group x) (a_type x) (addtype x) (nametype x) in
                  st ← do_upload u (mk_run x (r_th st) (r_fs st) (report st) (total st)) sc;
                  upload_loop u rd k' a' (mk_run (r_api st) (r_th st) (r_fs st) (report st) (i32 (total st + 1))) scs'
              end
      end
  end.

Definition do_loop_dir (u : t_arg_upload) (rd : list bytes) (h : hasht) (t : thread) (f : fs) (scs : list script) : option run :=
  let x := mk_api [] [] [] (snprintf 128 (group u)) TASK_ADDFILE ADD_PATH_BY_UPLOAD ADD_SET_DOMAIN in
  let st := mk_run x t f [] 0 in
  match infile u with
  | None => Some st
  | Some ls =>
      h ← log_loop h clear ls;
      h ← sortdata qsort h;
      let max := i32 (hashsize h + usedsize h + 1 - 60416) in
      upload_loop u rd (Z.to_nat (max - 60416)) (base h) st scs
  end.

(** [upload_thread] and the rest of main: the report ends with the times and the
    number of uploads. *)
Definition upload_thread (u : t_arg_upload) (rd : list bytes) (h : hasht) (t : thread) (f : fs) (scs : list script) (sttime etime : Z) : option run :=
  st ← do_loop_dir u rd h (init_ns_cache t) f scs;
  Some (mk_run (r_api st) (r_th st) (r_fs st)
    (report st ++ [str "S:" ++ dec sttime ++ str "  E:" ++ dec etime ++ str "  span:" ++ dec (etime - sttime) ++ str " count:" ++ dec (total st) ++ [10]])
    (total st)).

(** The arguments behind the name of the program: name server, port, log, output,
    group; [conf] is nginx.conf, [out] tells whether the output can be opened. *)
Definition main (args : list bytes) (conf log : option (list bytes)) (alloc out : bool) (t : thread) (f : fs) (scs : list script) (sttime etime : Z)
  : option (Z * option run) :=
  '(r, rd) ← init_rootdir conf;
  if negb (r =? 0) then Some (-1, None)
  else match args with
       | [nameip; nameport; _; _; grp] =>
           if out then
             h ← init_hasht_hash alloc 8000000;
             st ← upload_thread (mk_arg log nameip (atoi nameport) (snprintf 128 grp)) rd h t f scs sttime etime;
             Some (0, Some st)
           else Some (-1, None)
       | _ => Some (-1, None)
       end.

End Uploads.

(** ** Properties *)

(** Examples of lines: a picture; a name of another kind, whose rest the next line
    finds; and a line the test for .jpg takes for a picture without a name. *)
Lemma demo_log_lines :
  hit_line (fgets (str "p12 http/1/2/a.jpg?x=1") clear) = Some (Some (12, str "/1/2/a.jpg"), clear) /\
  fst <$> hit_line (fgets (str "img.p3 http/1/2/a.gif?x=1") clear) = Some None /\
  hit_line (fgets (str "p1 .jpg?x") clear) = Some (Some (1, []), clear).
Proof. vm_compute. auto. Qed.

(** The line of a hit: the directory's number behind p or img.p, four bytes
    ("http"), the name, and the question mark. *)
Record log_item := mk_item { img : bool; number : Z; proto : bytes; name : bytes; query : bytes }.
Definition dir (x : log_item) : bytes := (if img x then str "img.p" else str "p") ++ udec (number x).
Definition log_line (x : log_item) : bytes := dir x ++ 32 :: proto x ++ name x ++ 63 :: query x.
Definition item_ok (x : log_item) : Prop :=
  0 < number x < 2 ^ 31 /\ cstr (proto x) /\ length (proto x) = 4%nat /\ cstr (name x) /\ 63 ∉ name x /\ str ".jpg" `suffix_of` name x /\
  cstr (query x) /\ (length (log_line x) < 256)%nat.

Lemma insert_mid {A} (l r : list A) x y : <[length l := x]> (l ++ y :: r) = l ++ x :: r.
Proof. by rewrite insert_app_r_alt, Nat.sub_diag by done. Qed.

Lemma udec_text n : cstr (udec n) /\ 32 ∉ udec n.
Proof.
  pose proof (udec_digits n) as H. split.
  - eapply Forall_impl; [exact H|]. unfold is_dec_digit. cbv beta. lia.
  - intros Hin. rewrite Forall_forall in H. specialize (H _ Hin). unfold is_dec_digit in H. lia.
Qed.

Lemma dir_text x : cstr (dir x) /\ 32 ∉ dir x.
Proof.
  destruct (udec_text (number x)) as [H1 H2]. unfold dir. split.
  - apply Forall_app. split; [|done]. destruct (img x); repeat constructor.
  - rewrite not_elem_of_app. split; [|done]. destruct (img x); apply (bool_decide_unpack _); vm_compute; exact I.
Qed.

Lemma dir_number x : 0 < number x < 2 ^ 31 ->
  (if at_ (dir x) 0 =? 112 then atoi (drop 1 (dir x)) else if strncmp0 (dir x) (str "img.p") 5 then atoi (drop 5 (dir x)) else 0) = number x.
Proof.
  intros Hn. assert (atoi (udec (number x)) = number x) as Ha.
  { rewrite <- (app_nil_r (udec _)). apply atoi_udec; [lia|]. by intros c u [=]. }
  unfold dir. revert Ha. generalize (udec (number x)). intros u Ha. destruct (img x), u; exact Ha.
Qed.

Lemma hit_line_ok x : item_ok x -> hit_line (fgets (log_line x) clear) = Some (Some (number x, name x), clear).
Proof.
  intros (Hn & Hp & Hpl & Hf & Hq & [f0 Hsuf] & Hqc & Hlen). destruct (dir_text x) as [Hd Hd32]. unfold fgets. set (R := drop _ clear).
  assert (log_line x ++ 0 :: R = dir x ++ 32 :: proto x ++ name x ++ 63 :: query x ++ 0 :: R) as Hbuf
    by (unfold log_line; rewrite <- !app_assoc; simpl; by rewrite <- !app_assoc).
  unfold hit_line. rewrite until0_cstr.
  2: { unfold log_line, cstr in *. rewrite !Forall_app, !Forall_cons, !Forall_app, !Forall_cons. repeat split; done || lia. }
  unfold log_line at 1. rewrite strchr_app_r by done. rewrite Hbuf, insert_mid, until0_cstr by done. cbv zeta.
  rewrite dir_number by done. rewrite (proj2 (Z.eqb_neq _ _)) by lia.
  rewrite (proj2 (Nat.leb_gt _ _)) by (rewrite length_app; cbn [length]; rewrite !length_app; cbn [length]; lia).
  set (D := dir x ++ 0 :: proto x). assert (length D = length (dir x) + 5)%nat as HD by (unfold D; rewrite length_app; cbn [length]; lia).
  assert (dir x ++ 0 :: proto x ++ name x ++ 63 :: query x ++ 0 :: R = D ++ name x ++ 63 :: query x ++ 0 :: R) as ->
    by (unfold D; by rewrite <- app_assoc).
  rewrite <- HD, drop_app_length. assert (forall t, name x ++ 63 :: query x ++ t = (name x ++ 63 :: query x) ++ t) as Hassoc by (intros; by rewrite <- app_assoc).
  rewrite Hassoc, until0_cstr, strchr_app_r by (done || (unfold cstr in *; rewrite Forall_app, Forall_cons; repeat split; done || lia)).
  rewrite <- Hassoc, <- length_app, app_assoc, insert_mid, length_app.
  replace (length D + length (name x) - 4)%nat with (length (D ++ f0)) by (rewrite Hsuf, !length_app; cbn; lia).
  rewrite <- app_assoc. rewrite Hsuf at 1. rewrite <- app_assoc, (app_assoc D), drop_app_length, until0_cstr by repeat constructor.
  rewrite streq_refl. cbn [negb]. by rewrite drop_app_length, take_app_length.
Qed.

(** C39: from the log to the counts.  A log whose lines name a directory, a picture
    and a query ends with every picture counted: the table has for its name the
    number of its lines, and the directory of the first one, when no more lines
    are read than the table has entries behind its heads. *)
Theorem log_counted size l : 4 <= size < 2 ^ 32 -> zlen l <= size - size / 4 -> zlen l < 2 ^ 31 ->
  Forall item_ok l -> Forall (fun x => zlen (name x) <= 127) l ->
  exists h h', init_hasht_hash true size = Some h /\ log_loop h clear (map log_line l) = Some h' /\
    forall t, t <> [] -> entry h' t = Some (tally (map (fun x => (number x, name x)) l) t).
Proof.
  intros Hs Hl Hl31 Hok Hnames. destruct (init_wf size Hs) as (h & Hi & W & Hu & Hd & He).
  destruct (hits_from (map (fun x => (number x, name x)) l) h [] W) as (h' & Hh & He').
  - rewrite Forall_map. cbn [snd]. rewrite Forall_forall in *. intros x Hx. split; [|by apply Hnames].
    destruct (Hok x Hx) as (_ & _ & _ & _ & _ & [f0 ->] & _). by destruct f0.
  - rewrite length_map, Hu, Hd. lia.
  - cbn [length]. rewrite length_map. lia.
  - exact He.
  - exists h, h'. split; [done|]. split; [|exact He']. clear -Hh Hok. revert h Hh. induction Hok as [|x l Hx Hok IH]; intros h Hh.
    + by injection Hh as ->.
    + cbn [map log_loop hits] in *. rewrite (hit_line_ok x Hx). cbn [mbind option_bind].
      destruct (hit h (number x) (name x)) as [[r h1]|]; [|done]. cbn [mbind option_bind] in *. destruct (r =? 0) eqn:Hr; [by apply IH|].
      by simplify_eq.
Qed.

Definition demo_log : list log_item :=
  [mk_item false 12 (str "http") (str "/1/2/a.jpg") (str "x=1"); mk_item true 3 (str "http") (str "/b.jpg") []; mk_item false 12 (str "http") (str "/1/2/a.jpg") []].

Lemma log_counted_witness : exists h h', init_hasht_hash true 8 = Some h /\ log_loop h clear (map log_line demo_log) = Some h' /\
  forall t, t <> [] -> entry h' t = Some (tally (map (fun x => (number x, name x)) demo_log) t).
Proof.
  apply (log_counted 8 demo_log); [lia|vm_compute; discriminate|vm_compute; reflexivity| |repeat constructor; vm_compute; discriminate].
  assert (forall x, 0 < number x < 2 ^ 31 -> forallb (fun c => (0 <? c) && (c <? 256)) (proto x ++ name x ++ query x) = true ->
    length (proto x) = 4%nat -> bool_decide (63 ∉ name x) = true -> bool_decide (str ".jpg" `suffix_of` name x) = true -> (length (log_line x) < 256)%nat ->
    item_ok x) as H.
  { intros x Hn Hc Hp Hq Hs Hl. assert (cstr (proto x ++ name x ++ query x)) as Hcs.
    { apply Forall_forall. intros c Hin%list_elem_of_In. rewrite forallb_forall in Hc. specialize (Hc c Hin). cbv beta in Hc. b2p. lia. }
    apply Forall_app in Hcs as [? [? ?]%Forall_app]. apply bool_decide_eq_true in Hq, Hs. by repeat (split; [done|]). }
  repeat constructor; (apply H; [split; reflexivity|reflexivity|reflexivity|vm_compute; reflexivity|vm_compute; reflexivity|vm_compute; lia]).
Defined.

End ImgTool.
